(* ===== verification/_CoqProject ===== *)
-Q . S2P
Prelude.v
JsMap.v
Async.v
Ownership.v
CoalitionDomain.v
Money.v
Records.v
Store.v
Spaces.v
Drives.v
JoinRequirements.v
Relay.v
Slug.v
Network.v
Spec.v
SpecInv.v
Refine.v
RefineNetwork.v
RefinePayees.v
Safety.v
Succession.v
Views.v
Handlers.v
BillingRows.v
Ledger.v
Projects.v
Tips.v
Contributions.v
Billing.v
Growth.v
Webhook.v
MoneyApi.v
MoneySample.v
MoneyFrames.v
Receipts.v
BillingSafety.v
LedgerInv.v
LedgerSafety.v
Checkout.v
KeyTransparency.v
Text.v
SecretBox.v
Outreach.v
Attribution.v
Connections.v
Replies.v
CrossPost.v
Inbound.v
OutreachApi.v
OutreachRuntime.v
OutreachSample.v
OutreachMoves.v
ReplyInv.v
ReplySafety.v
CustodySafety.v
OnceSafety.v
CrosspostSafety.v
AttributionSafety.v
Quorum.v
QuorumField.v
QuorumSharing.v
KeyTransparencyProofs.v
DeadMan.v
DeadManProofs.v
Sessions.v
SessionsProofs.v
SessionsSafety.v
Bytes.v
Crypto.v
DeadDrop.v
Identity.v
Envelope.v
SealingProofs.v
ReleaseFormat.v
KeyProofs.v
ReleaseRuntime.v
ReleaseSafety.v
DeadDropSafety.v
Coliseum.v
ColiseumSafety.v
