(* ===== verification/Prelude.v ===== *)
(** * Blackout, verified

    A model, and its theorems, of the core of the Blackout monorepo: the coalitions
    network, through which people found coalitions, join and lead them, run
    campaigns, give money, boost, relay each other's posts and change founder; the
    money behind them: tips, drives, funded projects, aid pools, subscriptions,
    rewards, and the webhooks of the marketplace that settle them; the cross-posting
    of campaigns to other platforms and the replies read back from them; and the
    guarantees its safety features rest on: the sharing of dead-drop keys among
    a quorum, the key-transparency log, the dead-man switches and the session
    tokens; sealed releases and dead drops; and the matches of the Coliseum.  The TypeScript sources are under [src/packages]; [core/src] holds pure
    rules, [blackout-protocol/src] what clients and server share, and [api/src] the
    services and their in-memory store.

    ** How the program works, and what models it

    A Node process holds every table in memory ([api/src/db/store.ts]).  A handler
    runs without interruption up to an [await]; while it waits, other handlers run
    against the same tables.  Rows are plain objects that handlers spread, change
    and save ([db.upsertX({...row, field})]), so a row saved after an [await] may be
    stale.  Work that may fail without failing the request is launched with [void].

    - [Prelude] (this file): results, truthiness, sums and counts, stable sorting,
      JavaScript numbers, list lemmas.
    - [JsMap]: an insertion-ordered [Map], tables of rows keyed by one of their
      fields, [upsert] with its [createdAt]/[updatedAt] stamps, and tables whose rows
      have a history.  The type class [Keyed]/[Stamped]/[TableLaws] is what each record
      type promises.
    - [Async]: handlers as functions from the store to an [outcome] (finished,
      waiting on a request, or having launched a task), the event loop [sys_step],
      and the rely-guarantee reading of handlers: [keeps I G] says every
      uninterrupted segment keeps [I] and moves along [G], provided the others do;
      [reachable_guarantee] composes handlers into the system.
    - [CoalitionDomain]: [core/src/coalition/coalitionNetwork.ts] (enumerations and
      guards, roles and permissions, requirements, quorum, campaign transitions,
      boost meter, impact totals, platform policies).
    - [Money]: [core/src/marketplace/fees.ts] and the payee split of
      [coalitionNetwork.ts].
    - [Records]: the rows ([db/types.ts]) and the domain events.
    - [Store]: the tables, the methods of [InMemoryDb] the services use, the
      deployment's settings ([Env]), the requests answered from outside ([req]),
      ids and user identity ([services/userIdentity.ts], [isPubliclyListed]).
    - [Spaces]: [services/coalitionSpaces.ts], the mirror in a Matrix Space.
    - [Drives]: [services/coalitionDrives.ts], [coalitionFbmBridge.ts],
      [coalitionReputation.ts]: contributions, listings, notifications.
    - [JoinRequirements]: [core/src/reputation], [core/src/governance],
      [services/reputationStore.ts], [coalitionTierGate.ts],
      [coalitionJoinRequirements.ts].
    - [Relay]: [core/src/feed/relayChain.ts], the relay table and
      [services/relayStore.ts].
    - [Slug]: slugs, the slug search, share links.
    - [Network]: every operation of [services/coalitionNetworkStore.ts] and
      [coalitionConnectionCustody.ts].  [with_coalition], [unless_stopped],
      [with_permission] and [with_campaign] are the early returns its operations
      share; names are the source's, but [listCoalitions] and [memberCount] are
      [listCoalitionSummaries] and [coalitionMemberCount].

    ** Specification and refinement

    - [Spec]: what the tables may look like ([inv]) and how they may move: [astep],
      one rule per kind of change with the conditions that allow it (who may take
      the founder's role, when a campaign may go live, what a contribution adds).
    - [SpecInv]: the rules keep the invariant.
    - [Refine], [RefineNetwork], [RefinePayees]: each handler keeps [inv] and moves
      only by [astep] in every segment, whatever happened while it waited.
    - [Safety]: [api] lists the calls a client can make, [reachable] and [leads_to]
      the stores the event loop can produce from the empty one under any
      interleaving and any answers from outside.  The refinement theorem, and what
      follows in every reachable store: one founder, balanced ledgers, campaign
      histories, boost quotas, whole payee shares, fair petitions.  A sample run of
      ten calls provides the witnesses.
    - [Succession]: a step that makes a founder is a hand-over by the founder of that
      moment or the second that completes a petition's quorum, by the caller named.
    - [Views]: what outsiders read.
    - [Handlers]: what each handler answers and writes when it runs alone, under an
      arbitrary [oracle] for the outside; refusals write nothing.  Its last part: reachable
      runs whose outcome the comments rule out.

    ** The money services

    They share one process with the coalitions: [world] holds the coalition store
    ([w_db]) beside the money tables, and a coalition handler runs in it through
    [network].  Money moves at the marketplace only: a route writes a pending row and
    opens a checkout, and a webhook that names the row captures or refunds it later.

    - [BillingRows], [Ledger]: the rows, [world], its requests ([wreq]) and settings
      ([MoneyEnv]), and the methods of [InMemoryDb] on tips, pools, projects,
      receipts, entitlements and licence keys.
    - [Projects]: [core/src/coalition/projects.ts],
      [services/coalitionProjectSupport.ts], [coalitionNotifications.ts] and the
      project routes of [routes/coalition.ts].
    - [Tips]: [services/tips.ts], [gifts.ts], [aidPools.ts], [routes/tips.ts].
    - [Contributions]: [startContribution] of [services/coalitionDrives.ts] and the
      two routes by which a drive or a project is paid.
    - [Billing]: [services/creatorSubscriptions.ts], [communityBoosts.ts],
      [subscriptions.ts] ([canopySubscription] is its [getSubscription]), and
      POST /subscribe of [routes/creatorSubs.ts].
    - [Growth]: [services/growth.ts]; a class's method carries its noun, as
      [createReferral] for [ReferralService.create].
    - [Webhook]: [services/marketplaceWebhook.ts], [marketplaceEntitlements.ts],
      [fbmAclSync/webhookTrigger.ts] and the dispatcher of
      [fbmMatrixBridge/index.ts].
    - [MoneyApi]: [w_api], every call a client or the marketplace can make, and
      [w_reachable] and [w_leads_to], the worlds the event loop produces.  The class
      [Writers] says which few operations an invariant has to look at;
      [w_leads_to_keeps] gives the rest.
    - [MoneyFrames]: what each half of the services leaves alone.
    - [LedgerInv], [LedgerSafety]: the life of a tip, and that campaigns and projects
      show at every moment exactly what their captured tips brought in.
    - [Receipts]: a processed event stays processed; delivering it again does
      nothing; a delivery answered as handled is marked.
    - [BillingSafety]: the history of subscriptions and pledges.
    - [Checkout]: [startContribution] branch by branch, and the view of an aid pool.
    - [MoneySample]: a sample deployment and run, for the witnesses.

    ** Outside Blackout

    [outreach] holds the coalition store ([o_db]) beside the tables of platform
    connections, opt-ins, posts, replies, engagement and attribution; a coalition
    handler runs in it through [inside].  The platforms are requests ([oreq]) with
    arbitrary answers.

    - [Text], [SecretBox]: the string methods used, and [services/secretBox.ts], the
      sealed envelope of a platform credential.
    - [Outreach], [Attribution], [Connections], [Replies]: the rows and their methods;
      [services/coalitionAttribution.ts]; connections, members' links, opt-ins and
      guardrails, then moderation, of [services/coalitionSync.ts];
      [services/coalitionExternalRetention.ts].
    - [CrossPost], [Inbound]: [services/coalitionPlatformAdapters.ts],
      [crosspostCampaign] and [services/coalitionAutoCrosspost.ts];
      [services/coalitionInboundSync.ts]; with the bodies of the two timers, whose
      overlap flags are [o_announcing] and [o_reading].
    - [OutreachApi]: [o_api], every call, timer and purge; [o_reachable], [o_leads_to].
    - [OutreachMoves], [ReplyInv], [Ownership]: how handlers move the state; what the
      table of replies looks like at every moment; the event loop seen from a handler
      that holds a flag.
    - [ReplySafety]: a stranger's reply is shown only by a moderator's decision or an
      open policy, a rejection is final and a purged rejection is not read back.
    - [CustodySafety]: a credential is stored as an envelope and in no other form, which
      opens where it was stored for and nowhere once its platform was disconnected.
    - [OnceSafety]: a milestone is announced at most once on a platform.
    - [CrosspostSafety]: what a cross-post has checked, and what it leaves.
    - [AttributionSafety]: a visit counts once, in the counters its link names.
    - [OutreachRuntime], [OutreachSample]: a runtime that satisfies the laws assumed
      of Node, and a sample run, for the witnesses.

    ** The safety features

    Each stands alone: its state is the part of the store it owns, its operations
    run without an [await], and a history of calls is a list of actions.

    - [Quorum], [QuorumField], [QuorumSharing]
      ([blackout-protocol/src/deaddrop/crypto/quorum.ts]): Shamir's scheme over
      GF(256).  The tables multiply as polynomials modulo 0x11b do; the bytes are a
      field ([QuorumField], on MathComp); any [threshold] shares give the secret
      back and any fewer are consistent with every secret.  Throws are values of
      [returned]; the random bytes are a function of the byte's index.
    - [KeyTransparency], [KeyTransparencyProofs] ([services/keyTransparency.ts],
      [routes/keyTransparency.ts]): the append-only Merkle log.  Proofs the log
      gives verify; a proof that verifies shows the entry is in the log or exhibits
      a collision of the hash; where the verifier stops and where it does not.
      Hash and base64url are the operations of the class [NodeBuffers].
    - [DeadMan], [DeadManProofs] ([services/deadmanScheduler.ts],
      [deadmanSweepScheduler.ts], [modules/deadman.ts]): a payload is never released
      before its owner was silent for the interval and the grace, it is released
      once they were, and an outage of the sweep gives 72 hours of grace.
    - [Sessions], [SessionsProofs], [SessionsSafety] ([services/refreshToken.ts],
      [services/auth.ts], [middleware/auth.ts], [routes/auth.ts]): refresh-token
      families, reuse detection, cutoffs of access tokens, bounded sessions, and what the
      deletion of an account ([services/accountLifecycle.ts]) takes of them.
      Randomness, hash, MAC and encodings are the class [SessionRuntime].

    ** Sealed releases and dead drops

    What [blackout-protocol/src] does on a client: messages sealed to keys, so that a
    server only stores them.  A computation of type [C A] runs against the random
    generator alone: from the number of draws made to the new number and a result or
    an error.  [may m a] says some run returns [a], [yields m a] that every run does; a
    theorem that something opens is a [yields].  The platform's cryptography is the class
    [WebCrypto] with the laws [WebCryptoLaws] the code relies on (AES-GCM is exact,
    X25519 commutes, an own Ed25519 signature verifies, HKDF has a longest output),
    the ML-KEM provider a [KemProvider] with [MlKem768]; [CurveLaws] says how standard curves
    write keys and signatures, which sealing again takes; values off the wire are of type [js].

    - [Bytes]: [deaddrop/crypto/encoding.ts], [release/bytes.ts]: base64 and its
      canonical decoder, hex, length prefixes, labels, with their round trips.
    - [Crypto]: [js] values, the errors thrown, [C], the classes, and
      [deaddrop/crypto/random.ts], [hkdf.ts], [keys.ts].
    - [DeadDrop], [SealingProofs], [DeadDropSafety]: padding, [hybridSeal.ts],
      [sealedBox.ts], [clue.ts], the dead-drop envelope and decoys: drops open,
      show a size class only, and decoys exist for one size.
    - [Identity]: [release/identity.ts], [safetyCode.ts], [comparison.ts] and
      [keySet.ts]: identities and their verification, safety codes, when a comparison
      counts, making and checking a key set.
    - [Envelope]: [release/envelope.ts]: what is accepted off the wire, the signed
      bytes, building, opening and sealing again.
    - [ReleaseFormat]: the format has one reading; the parsers accept exactly the
      objects that write a well-formed value.
    - [KeyProofs]: what a check says of an identity; a key set made here is [genuine]
      and passes its check.
    - [ReleaseSafety]: a release opens for all it names, also sealed again; what opens
      is what the owner's device wrote, unless a signature was forged or SHA-256 collided;
      every reader of a header reads one text.
    - [ReleaseRuntime]: concrete functions with all these laws, and a release from alice
      to bob and carol, for the witnesses.

    ** The Coliseum's matches

    Nothing in them awaits, so a request is a function of the clock and of their tables,
    the record [arena]; an operation of type [A X] answers or throws, and what it wrote
    before throwing stays.  [arena_serve] is every request that may change a table,
    [arena_past] the moments a later one can come from, under a clock that does not go back.

    - [Coliseum]: [core/src/coliseum] ([match.ts], [crucible.ts], [brief.ts],
      [challengeLink.ts], [containment.ts], the exchange of [shout.ts]),
      [services/coliseumMatchStore.ts], [graduateToMatch] of
      [coliseumShoutStore.ts], [recordReputationEvent], and the guards of the match routes.
      A function is named after its own in the source; a route after its path
      ([post_verdict] for POST /matches/:id/verdict).
    - [ColiseumSafety]: the invariant and the triple [wp] (no throw, the invariant kept,
      nothing on record lost).  In every history a match only moves on; rounds are numbered,
      on their author's side and in time; a brief is the count of the ballots on file; awards are
      deserved and made once; a match whose time is over can always be closed; the count is a
      plurality, question by question.  Its last examples show what the code lets happen.

    ** Choices

    - Cents, counts, timestamps (milliseconds) and days are unbounded integers: the
      JavaScript numbers involved are integers below 2^53.  Where the source accepts
      any number and tests it ([Number.isInteger], [Math.floor]) the input is a
      [jsnum] (a rational, or a non-finite number); the division in the boost meter,
      in [projectProgress] and in the percentage of a pool is exact where the source
      rounds to binary64, and so is the product in [periodEnd].
    - A date kept as text is its instant, or the text a provider sent ([stamp]);
      where the source compares the texts of two dates that a provider's numbers
      reach, the order is the one of the texts ([text_after]).
    - A webhook request is a [delivery]: what the signature check and the parsers
      read in it.  Payloads kept for the audit, the feature keys of an entitlement
      and free-form metadata are left out, but for a tip's, which is text.
    - Strings are ASCII; [toLowerCase] and the slug pattern act on ASCII letters.
    - Ids are [prefix ++ draw n], the [n]-th [rand()_stamp()] of the process;
      [DrawLaws] says they do not repeat and hold no colon ([sample_laws] shows a
      deployment where it holds).
    - An outside service is a request whose answer is arbitrary; the sending of a
      Matrix or HTTP call, retries and time-outs are on the other side of it.
    - Loops over lists are structural.  Three loops carry fuel: the slug search (one
      turn more than there are coalitions, which [uniqueSlug_spec] proves enough),
      and the two relay walks (the source's own limit of 64 hops).  In
      [KeyTransparency] the recursions on leaves carry their number; the verifier
      carries fuel and [verifyInclusion_ends] says how much is enough, and when none
      is.
    - The deny rows of logouts come from tokens the server signed ([honest]): the
      theorems on access tokens assume that nobody forges the MAC.
    - [Date.parse], [localeCompare], [toLocaleString], AES-GCM, HMAC, the codings of
      [Buffer] and [JSON.parse] are operations of the classes [OutreachEnv],
      [SecretRuntime] and [AttributionRuntime]; what a theorem needs of them is a
      hypothesis, which the sample runtime satisfies.  A code unit is a byte; 133
      stands for the ellipsis.
    - [Quorum] and its two files load MathComp or the Standard Library only; every
      other file is on stdpp.
    - A [Uint8Array] is a list of [byte]; a [CryptoKey] is the bytes it holds; clearing
      a buffer after use changes no result and is left out.
    - [awaits] inside a handler end in a [Yield] request, so another handler can
      always run there.

    ** Not modelled

    Persistence, HTTP routes and their validation (but for the routes named above),
    signed tree heads (Ed25519), password hashing and login, WebAuthn, timers,
    the clients of the marketplace and of the bridge's rooms, surges and momentum of
    projects, the visit the money services report ([RecordAttributedAction], a request
    there), the status codes the routes over platforms answer with, relay subjects
    stored by other modules (a parameter of [resolveSubject]), the recovery file of a
    key set and the storage of releases and dead drops on the server, the Coliseum's topics,
    arguments and live sessions and the heat of its shouts, and every other subsystem of the repository. *)

From stdpp Require Export base tactics list strings gmap sorting pretty.
From Stdlib Require Export ZArith Lia QArith Qround Ascii.

(** ** Notation scope and proof automation *)

Declare Scope blackout_scope.
Delimit Scope blackout_scope with bk.
#[global] Close Scope Q_scope.
#[global] Open Scope blackout_scope.

Create HintDb blackout.

(** ** Results: the [{ ok: true; value } | { ok: false; error }] unions *)

Inductive res (E A : Type) : Type :=
  | Err (e : E)
  | Ok (a : A).
Arguments Err {E A} e.
Arguments Ok {E A} a.

Definition is_ok {E A} (r : res E A) : bool :=
  match r with Ok _ => true | Err _ => false end.

Definition res_bind {E A B} (r : res E A) (f : A -> res E B) : res E B :=
  match r with Ok a => f a | Err e => Err e end.

(** ** JavaScript truthiness on optional strings

    [if (x)] on a [string | undefined] takes the branch only when the value is
    present and non-empty. *)

Definition truthy (o : option string) : option string :=
  match o with
  | Some s => if decide (s = "") then None else Some s
  | None => None
  end.

(** [if (filter.f && row.f !== filter.f) return false], the clause every
    [list*] method of the store repeats. *)
Definition clause (f : option string) (x : string) : bool :=
  match truthy f with Some s => bool_decide (x = s) | None => true end.

(** ** Sums over lists *)

Definition sum_by {A} (f : A -> Z) (l : list A) : Z :=
  foldr (fun a n => f a + n)%Z 0%Z l.

Definition count_by {A} (p : A -> bool) (l : list A) : Z :=
  sum_by (fun a => if p a then 1 else 0)%Z l.

(** ** [Array.prototype.sort]: a stable sort by a "not after" test

    [le x y] is [cmp(x, y) <= 0]. *)

Fixpoint sort_insert {A} (le : A -> A -> bool) (x : A) (l : list A) : list A :=
  match l with
  | [] => [x]
  | y :: ys => if le x y then x :: y :: ys else y :: sort_insert le x ys
  end.

Definition js_sort {A} (le : A -> A -> bool) (l : list A) : list A :=
  foldr (sort_insert le) [] l.

(** ** JavaScript numbers

    A double is a finite rational or one of the three non-finite values. *)

Inductive jsnum : Type :=
  | JFin (q : Q)
  | JInf (positive : bool)
  | JNaN.

Definition jint (z : Z) : jsnum := JFin (inject_Z z).

Definition is_finite (x : jsnum) : bool :=
  match x with JFin _ => true | _ => false end.

Definition js_floor (q : Q) : Z := Qfloor q.

(** [Number.isInteger], with the integer it is. *)
Definition as_integer (x : jsnum) : option Z :=
  match x with
  | JFin q => if Qeq_bool q (inject_Z (Qfloor q)) then Some (Qfloor q) else None
  | _ => None
  end.

(** ** Tactics *)

(** Split every [match]/[if] scrutinee in sight. *)
Ltac split_match :=
  match goal with
  | |- context [match ?x with _ => _ end] => destruct x eqn:?
  end.

Ltac split_match_in H :=
  match type of H with
  | context [match ?x with _ => _ end] => destruct x eqn:?
  end.

Lemma truthy_some o x : truthy o = Some x -> o = Some x.
Proof. unfold truthy. destruct o as [y|]; [|done]. destruct (decide (y = "")); [done|congruence]. Qed.

(** ** Lemmas on sums and counts *)

Section sums.
Context {A : Type}.
Implicit Types (f : A -> Z) (p : A -> bool) (l : list A).

Lemma sum_by_app f l1 l2 : sum_by f (l1 ++ l2) = (sum_by f l1 + sum_by f l2)%Z.
Proof. induction l1; simpl; [done|]. fold (sum_by f). unfold sum_by in *; simpl; lia. Qed.

Lemma sum_by_cons f a l : sum_by f (a :: l) = (f a + sum_by f l)%Z.
Proof. done. Qed.

Lemma sum_by_ext f g l : (forall a, In a l -> f a = g a) -> sum_by f l = sum_by g l.
Proof.
  induction l as [|a l IH]; intros H; [done|].
  rewrite !sum_by_cons, IH; [|intros; apply H; by right].
  rewrite (H a); [done|by left].
Qed.

Lemma sum_by_nonneg f l : (forall a, In a l -> 0 <= f a)%Z -> (0 <= sum_by f l)%Z.
Proof.
  induction l as [|a l IH]; intros H; [done|].
  rewrite sum_by_cons. specialize (H a (or_introl eq_refl)) as Ha.
  enough (0 <= sum_by f l)%Z by lia. apply IH. intros; apply H; by right.
Qed.

Lemma sum_by_perm f l1 l2 : Permutation l1 l2 -> sum_by f l1 = sum_by f l2.
Proof. induction 1; rewrite ?sum_by_cons in *; lia. Qed.

Lemma sum_by_add f g l :
  sum_by (fun a => f a + g a)%Z l = (sum_by f l + sum_by g l)%Z.
Proof. induction l; rewrite ?sum_by_cons; [done|]. lia. Qed.

Lemma sum_by_scale k f l : sum_by (fun a => k * f a)%Z l = (k * sum_by f l)%Z.
Proof. induction l; rewrite ?sum_by_cons; unfold sum_by in *; simpl; lia. Qed.

Lemma sum_by_le f g l :
  (forall a, In a l -> f a <= g a)%Z -> (sum_by f l <= sum_by g l)%Z.
Proof.
  induction l as [|a l IH]; intros H; [done|].
  rewrite !sum_by_cons. pose proof (H a (or_introl eq_refl)).
  enough (sum_by f l <= sum_by g l)%Z by lia. apply IH. intros; apply H; by right.
Qed.

Lemma sum_by_filter f p l :
  sum_by f (List.filter p l) = sum_by (fun a => if p a then f a else 0)%Z l.
Proof.
  induction l as [|a l IH]; [done|]. simpl. destruct (p a); rewrite ?sum_by_cons, IH; [done|lia].
Qed.

Lemma count_by_nonneg p l : (0 <= count_by p l)%Z.
Proof. apply sum_by_nonneg. intros a _. destruct (p a); lia. Qed.

Lemma count_by_filter p l : count_by p l = Z.of_nat (length (List.filter p l)).
Proof.
  induction l as [|a l IH]; [done|]. unfold count_by in *. rewrite sum_by_cons, IH.
  simpl. destruct (p a); simpl; lia.
Qed.

Lemma count_by_length_le p l : (count_by p l <= Z.of_nat (length l))%Z.
Proof.
  induction l as [|a l IH]; [done|]. unfold count_by in *.
  rewrite sum_by_cons. simpl. destruct (p a); lia.
Qed.

Lemma count_by_zero p l : count_by p l = 0%Z <-> (forall a, In a l -> p a = false).
Proof.
  induction l as [|a l IH]; [done|]. unfold count_by in *. rewrite sum_by_cons.
  pose proof (count_by_nonneg p l) as Hn. unfold count_by in Hn. split.
  - intros H b [->|Hb]; [destruct (p b); [lia|done]|].
    apply IH; [destruct (p a); lia|done].
  - intros H. rewrite (H a) by (by left). rewrite (proj2 IH); [lia|].
    intros b Hb. apply H. by right.
Qed.

Lemma count_by_pos p l a : In a l -> p a = true -> (1 <= count_by p l)%Z.
Proof.
  intros Hin Hp. pose proof (count_by_nonneg p l).
  enough (count_by p l <> 0%Z) by lia. rewrite count_by_zero. naive_solver congruence.
Qed.

Lemma count_by_pos_inv p l : (1 <= count_by p l)%Z -> exists a, In a l /\ p a = true.
Proof.
  induction l as [|a l IH]; [unfold count_by; simpl; lia|].
  unfold count_by in *. rewrite sum_by_cons. destruct (p a) eqn:E.
  - intros _. exists a. split; [by left|done].
  - intros H. destruct IH as (b & ? & ?); [lia|]. exists b. split; [by right|done].
Qed.
End sums.

Lemma count_by_map {A B} (f : A -> B) p l :
  count_by p (map f l) = count_by (fun a => p (f a)) l.
Proof.
  induction l as [|a l IH]; [done|]. unfold count_by in *. cbn [map].
  by rewrite !sum_by_cons, IH.
Qed.

Lemma sum_by_map {A B} (f : A -> B) g l : sum_by g (map f l) = sum_by (fun a => g (f a)) l.
Proof. induction l as [|a l IH]; [done|]. cbn [map]. by rewrite !sum_by_cons, IH. Qed.

Lemma NoDup_map_unique {A B} (f : A -> B) l x y :
  NoDup (map f l) -> In x l -> In y l -> f x = f y -> x = y.
Proof.
  induction l as [|a l IH]; [done|]. cbn [map]. intros [Hn Hnd]%NoDup_cons [->|Hx] [->|Hy] E;
    [done| | |by apply IH]; destruct Hn; apply list_elem_of_In, in_map_iff; eauto.
Qed.

(** A condition that holds at most once singles out one element. *)
Lemma count_by_unique {A} (p : A -> bool) l x y :
  (count_by p l <= 1)%Z -> In x l -> In y l -> p x = true -> p y = true -> x = y.
Proof.
  rewrite count_by_filter. intros Hl Hx Hy Px Py.
  assert (Hx' : In x (List.filter p l)) by (by apply filter_In).
  assert (Hy' : In y (List.filter p l)) by (by apply filter_In).
  destruct (List.filter p l) as [|z [|w l']]; [done| |simpl in Hl; lia].
  destruct Hx' as [<-|[]], Hy' as [<-|[]]. done.
Qed.

Lemma filter_perm {A} (p : A -> bool) l l' :
  Permutation l l' -> Permutation (List.filter p l) (List.filter p l').
Proof.
  induction 1 as [|x l l' _ IH|x y l|l l' l'' _ IH1 _ IH2]; simpl; [done| | |by etrans].
  - destruct (p x); [by constructor|done].
  - destruct (p x), (p y); try done. apply Permutation_swap.
Qed.

Lemma filter_none {A} (p : A -> bool) l : existsb p l = false -> List.filter p l = [].
Proof. induction l as [|a l IH]; simpl; [done|]. destruct (p a); simpl; [done|auto]. Qed.

Lemma filter_filter {A} (p q : A -> bool) l :
  List.filter p (List.filter q l) = List.filter (fun a => q a && p a) l.
Proof.
  induction l as [|a l IH]; simpl; [done|]. destruct (q a); simpl; [|done].
  destruct (p a); by rewrite IH.
Qed.

Lemma filter_true {A} (p : A -> bool) l : forallb p l = true -> List.filter p l = l.
Proof.
  induction l as [|a l IH]; simpl; [done|]. destruct (p a); simpl; [|done].
  intros. by rewrite IH.
Qed.

Lemma NoDup_map_filter {A B} (f : A -> B) p l : NoDup (map f l) -> NoDup (map f (List.filter p l)).
Proof.
  induction l as [|a l IH]; [done|]. cbn [map List.filter]. intros [Hn Hnd]%NoDup_cons.
  destruct (p a); [|by apply IH]. cbn [map]. apply NoDup_cons. split; [|by apply IH].
  rewrite list_elem_of_In in *. intros (x & E & Hx)%in_map_iff. apply filter_In in Hx as [Hx _].
  apply Hn, in_map_iff. eauto.
Qed.

(** If [h] of one image determines the other, distinctness passes on. *)
Lemma NoDup_map_via {A B C} (f : A -> B) (g : A -> C) (h : B -> C) l :
  (forall a, In a l -> g a = h (f a)) -> NoDup (map g l) -> NoDup (map f l).
Proof.
  induction l as [|a l IH]; intros Hgh; [constructor|]. cbn [map]. intros [Hn Hnd]%NoDup_cons.
  apply NoDup_cons. split; [|apply IH; [intros; apply Hgh; by right|done]].
  intros Hin. apply list_elem_of_In, in_map_iff in Hin as (x & E & Hx).
  apply Hn, list_elem_of_In, in_map_iff. exists x. split; [|done]. rewrite !Hgh by (simpl; auto). by rewrite E.
Qed.

Lemma NoDup_map_fst {A B C} (f : A -> B) (g : A -> C) l :
  NoDup (map f l) -> NoDup (map (fun a => (f a, g a)) l).
Proof.
  intros Hnd. eapply (NoDup_map_via (fun a => (f a, g a)) f fst); [done|exact Hnd].
Qed.

(** The number of distinct elements grows by one exactly for a new one. *)
Lemma remove_dups_snoc `{EqDecision A} (l : list A) x :
  length (remove_dups (l ++ [x])) =
  if bool_decide (x ∈ l) then length (remove_dups l) else S (length (remove_dups l)).
Proof.
  case_bool_decide as Hx.
  - apply Permutation_length, NoDup_Permutation; try apply NoDup_remove_dups.
    intros y. rewrite !elem_of_remove_dups, elem_of_app, list_elem_of_singleton. naive_solver.
  - change (S (length (remove_dups l))) with (length (x :: remove_dups l)).
    apply Permutation_length, NoDup_Permutation; [apply NoDup_remove_dups| |].
    + apply NoDup_cons. split; [by rewrite elem_of_remove_dups|apply NoDup_remove_dups].
    + intros y. rewrite elem_of_cons, !elem_of_remove_dups, elem_of_app, list_elem_of_singleton.
      naive_solver.
Qed.

(** ** Lemmas on the sort *)

Section sorting.
Context {A : Type} (le : A -> A -> bool).

Lemma sort_insert_perm x l : Permutation (sort_insert le x l) (x :: l).
Proof.
  induction l as [|y l IH]; simpl; [done|]. destruct (le x y); [done|].
  rewrite IH. apply Permutation_swap.
Qed.

Lemma js_sort_perm l : Permutation (js_sort le l) l.
Proof. induction l as [|x l IH]; simpl; [done|]. by rewrite sort_insert_perm, IH. Qed.

Lemma js_sort_in x l : In x (js_sort le l) <-> In x l.
Proof.
  split; apply Permutation_in; [|symmetry]; apply js_sort_perm.
Qed.

Lemma js_sort_length l : length (js_sort le l) = length l.
Proof. apply Permutation_length, js_sort_perm. Qed.

Context (le_total : forall x y, le x y = true \/ le y x = true).
Context (le_trans : forall x y z, le x y = true -> le y z = true -> le x z = true).

Lemma sort_insert_sorted x l :
  StronglySorted (fun a b => le a b = true) l ->
  StronglySorted (fun a b => le a b = true) (sort_insert le x l).
Proof.
  induction 1 as [|y l Hs IH Hall]; simpl; [repeat constructor|].
  destruct (le x y) eqn:E.
  - constructor; [by constructor|]. constructor; [done|].
    eapply Forall_impl; [exact Hall|]. simpl. eauto.
  - constructor; [done|]. rewrite sort_insert_perm. constructor; [|done].
    destruct (le_total x y); congruence.
Qed.

Lemma js_sort_sorted l : StronglySorted (fun a b => le a b = true) (js_sort le l).
Proof. induction l; simpl; [constructor|]. by apply sort_insert_sorted. Qed.
End sorting.

#[export] Hint Resolve js_sort_perm sum_by_perm count_by_nonneg : blackout.

#[global] Arguments sum_by : simpl never.
#[global] Arguments count_by : simpl never.
#[global] Arguments jint : simpl never.
#[global] Arguments as_integer : simpl never.
