(* ===== verification/JsMap.v ===== *)
(** * JavaScript [Map]s and the store's tables

    A [Map<string, V>] keeps its entries in insertion order; [set] on a present
    key replaces the value in place.  Every table of [db/store.ts] is such a map
    whose key is computed from the row ([Keyed]), written through an upsert that
    keeps [createdAt] and refreshes [updatedAt] ([Stamped]). *)

From S2P Require Import Prelude.

(** ** The map *)

Definition jsmap (V : Type) : Type := list (string * V).

Section ops.
Context {V : Type}.
Implicit Types (m : list (string * V)) (k : string) (v : V).

Fixpoint get k m : option V :=
  match m with
  | [] => None
  | (k', v) :: m => if decide (k = k') then Some v else get k m
  end.

Fixpoint set k v m : list (string * V) :=
  match m with
  | [] => [(k, v)]
  | (k', v') :: m => if decide (k = k') then (k', v) :: m else (k', v') :: set k v m
  end.

Definition values m : list V := map snd m.

Definition keys m : list string := map fst m.
End ops.

(** ** Tables: the row determines its key and carries its timestamps *)

Class Keyed (V : Type) : Type := keyof : V -> string.

Class Stamped (V : Type) : Type := {
  created_at : V -> Z;
  stamp : Z -> Z -> V -> V;
}.

(** What an upsert relies on: restamping a row leaves its key alone. *)
Class TableLaws (V : Type) `{Keyed V, Stamped V} : Prop := {
  keyof_stamp c u (v : V) : keyof (stamp c u v) = keyof v;
}.

(** [{ ...input, createdAt: existing?.createdAt ?? now, updatedAt: now }] *)
Definition stamped_row `{Keyed V, Stamped V} (now : Z) (t : jsmap V) (v : V) : V :=
  stamp (match get (keyof v) t with Some e => created_at e | None => now end) now v.

Definition upsert `{Keyed V, Stamped V} (now : Z) (v : V) (t : jsmap V) : jsmap V :=
  set (keyof v) (stamped_row now t v) t.

(** Well-formed tables: distinct keys, each row filed under its own key. *)
Definition keyed `{Keyed V} (t : jsmap V) : Prop :=
  List.NoDup (keys t) /\ Forall (fun kv => fst kv = keyof (snd kv)) t.

(** The finite map a table denotes. *)
Definition to_gmap {V} (m : jsmap V) : gmap string V := list_to_map m.

(** ** Lemmas on the map *)

Section lemmas.
Context {V : Type}.
Implicit Types (m : jsmap V) (k : string) (v : V).

Lemma get_set_eq k v m : get k (set k v m) = Some v.
Proof.
  induction m as [|[k' v'] m IH]; simpl; [by rewrite decide_True|].
  destruct (decide (k = k')) as [->|]; simpl; [by rewrite decide_True|].
  by rewrite decide_False.
Qed.

Lemma get_set_ne k k' v m : k <> k' -> get k' (set k v m) = get k' m.
Proof.
  intros Hne. induction m as [|[j w] m IH]; simpl; [by rewrite decide_False|].
  destruct (decide (k = j)) as [->|]; simpl; [by rewrite !decide_False by done|].
  destruct (decide (k' = j)); done.
Qed.

Lemma get_set k k' v m :
  get k' (set k v m) = if decide (k = k') then Some v else get k' m.
Proof.
  destruct (decide (k = k')) as [->|]; [apply get_set_eq|by apply get_set_ne].
Qed.

Lemma get_to_gmap k m : to_gmap m !! k = get k m.
Proof.
  unfold to_gmap. induction m as [|[k' v] m IH]; simpl; [done|].
  rewrite lookup_insert. destruct (decide (k' = k)), (decide (k = k')); congruence.
Qed.

Lemma get_in k v m : get k m = Some v -> In (k, v) m.
Proof.
  induction m as [|[k' v'] m IH]; simpl; [done|].
  destruct (decide (k = k')) as [->|]; [intros [= ->]; by left|auto].
Qed.

Lemma get_in_values k v m : get k m = Some v -> In v (values m).
Proof. intros H%get_in. apply in_map_iff. by exists (k, v). Qed.

Lemma in_get k v m : List.NoDup (keys m) -> In (k, v) m -> get k m = Some v.
Proof.
  induction m as [|[k' v'] m IH]; simpl; [done|]. intros Hnd [[= -> ->]|Hin].
  - by rewrite decide_True.
  - inversion Hnd as [|? ? Hni Hnd']; subst. rewrite decide_False; [auto|].
    intros ->. apply Hni, in_map_iff. by exists (k', v).
Qed.

Lemma get_None_keys k m : get k m = None <-> ~ In k (keys m).
Proof.
  induction m as [|[k' v'] m IH]; simpl; [naive_solver|].
  destruct (decide (k = k')) as [->|]; naive_solver.
Qed.

Lemma keys_set k v m :
  keys (set k v m) = match get k m with Some _ => keys m | None => keys m ++ [k] end.
Proof.
  induction m as [|[k' v'] m IH]; simpl; [done|].
  destruct (decide (k = k')) as [->|]; simpl; [done|]. rewrite IH.
  by destruct (get k m).
Qed.

Lemma NoDup_keys_set k v m : List.NoDup (keys m) -> List.NoDup (keys (set k v m)).
Proof.
  intros Hnd. rewrite keys_set. destruct (get k m) eqn:E; [done|].
  apply get_None_keys in E. apply NoDup_ListNoDup, NoDup_app. split_and!.
  - by apply NoDup_ListNoDup.
  - intros x Hx Hk. apply list_elem_of_singleton in Hk as ->.
    apply E. by apply list_elem_of_In.
  - apply NoDup_singleton.
Qed.

Lemma set_set k v w m : set k v (set k w m) = set k v m.
Proof.
  induction m as [|[k' v'] m IH]; simpl; [by rewrite decide_True|].
  destruct (decide (k = k')) as [->|]; simpl; [by rewrite decide_True|].
  rewrite decide_False by done. by rewrite IH.
Qed.

(** Where a [set] puts the row: in place of the old one, or at the end. *)
Lemma values_set_new k v m : get k m = None -> values (set k v m) = values m ++ [v].
Proof.
  induction m as [|[k' v'] m IH]; simpl; [done|].
  destruct (decide (k = k')); simpl; [done|]. intros H. by rewrite IH.
Qed.

Lemma values_set_old k v o m :
  get k m = Some o ->
  exists l1 l2, values m = l1 ++ o :: l2 /\ values (set k v m) = l1 ++ v :: l2.
Proof.
  induction m as [|[k' v'] m IH]; simpl; [done|].
  destruct (decide (k = k')) as [->|]; simpl.
  - intros [= ->]. by exists [], (values m).
  - intros H. destruct (IH H) as (l1 & l2 & E1 & E2).
    exists (v' :: l1), l2. by rewrite E1, E2.
Qed.

(** A sum over the table after a write, in terms of the sum before it. *)
Lemma sum_by_set (f : V -> Z) k v m :
  sum_by f (values (set k v m)) =
  (sum_by f (values m) - (match get k m with Some o => f o | None => 0 end) + f v)%Z.
Proof.
  destruct (get k m) as [o|] eqn:E.
  - destruct (values_set_old k v o m E) as (l1 & l2 & -> & ->).
    rewrite !sum_by_app, !sum_by_cons. lia.
  - rewrite values_set_new by done. rewrite sum_by_app, sum_by_cons.
    change (sum_by f []) with 0%Z. lia.
Qed.

Lemma count_by_set (p : V -> bool) k v m :
  count_by p (values (set k v m)) =
  (count_by p (values m)
   - (match get k m with Some o => if p o then 1 else 0 | None => 0 end)
   + (if p v then 1 else 0))%Z.
Proof. unfold count_by. rewrite sum_by_set. done. Qed.

Lemma in_values_set k v m x :
  In x (values (set k v m)) -> x = v \/ In x (values m).
Proof.
  destruct (get k m) as [o|] eqn:E.
  - destruct (values_set_old k v o m E) as (l1 & l2 & -> & ->).
    rewrite !in_app_iff. simpl. naive_solver.
  - rewrite values_set_new, in_app_iff by done. simpl. naive_solver.
Qed.
End lemmas.

(** ** Lemmas on tables *)

Section tables.
Context {V : Type} `{TableLaws V}.
Implicit Types (t : jsmap V) (v : V).

Lemma keyed_nil : keyed (V := V) [].
Proof. split; constructor. Qed.

Lemma keyed_in t v : keyed t -> In v (values t) -> get (keyof v) t = Some v.
Proof.
  intros [Hnd Hall] Hin. apply in_map_iff in Hin as ([k v'] & Hv & Hin). simpl in Hv; subst v'.
  pose proof (proj1 (List.Forall_forall _ _) Hall _ Hin) as Hk. simpl in Hk. subst k.
  by apply in_get.
Qed.

Lemma keyed_get t k v : keyed t -> get k t = Some v -> k = keyof v.
Proof.
  intros [_ Hall] Hg%get_in. by apply (proj1 (List.Forall_forall _ _) Hall) in Hg.
Qed.

Lemma keyed_set t v : keyed t -> keyed (set (keyof v) v t).
Proof.
  intros [Hnd Hall]. split; [by apply NoDup_keys_set|].
  clear Hnd. induction t as [|[k' v'] t IH]; simpl; [by repeat constructor|].
  inversion Hall as [|? ? Hk Ht]; subst. simpl in Hk.
  destruct (decide (keyof v = k')); constructor; simpl; auto.
Qed.

Lemma keyof_stamped_row now t v : keyof (stamped_row now t v) = keyof v.
Proof. apply keyof_stamp. Qed.

Lemma keyed_upsert now t v : keyed t -> keyed (upsert now v t).
Proof.
  intros Hk. unfold upsert. rewrite <-(keyof_stamped_row now t v) at 1.
  by apply keyed_set.
Qed.

Lemma get_upsert now t v k :
  get k (upsert now v t) =
  if decide (keyof v = k) then Some (stamped_row now t v) else get k t.
Proof. apply get_set. Qed.

Lemma get_upsert_eq now t v : get (keyof v) (upsert now v t) = Some (stamped_row now t v).
Proof. apply get_set_eq. Qed.

Lemma get_upsert_ne now t v k : keyof v <> k -> get k (upsert now v t) = get k t.
Proof. apply get_set_ne. Qed.

Lemma in_upsert now t v x :
  keyed t -> In x (values (upsert now v t)) ->
  x = stamped_row now t v \/ (In x (values t) /\ keyof x <> keyof v).
Proof.
  intros Hk Hx. pose proof (keyed_in _ _ (keyed_upsert now t v Hk) Hx) as Hg.
  rewrite get_upsert in Hg. destruct (decide (keyof v = keyof x)) as [E|Hne].
  - left. congruence.
  - right. split; [by eapply get_in_values|by apply not_eq_sym].
Qed.

Lemma in_upsert_self now t v : In (stamped_row now t v) (values (upsert now v t)).
Proof. eapply get_in_values, get_upsert_eq. Qed.

Lemma in_upsert_other now t v x :
  keyed t -> In x (values t) -> keyof x <> keyof v -> In x (values (upsert now v t)).
Proof.
  intros Hk Hx Hne. eapply get_in_values. rewrite get_upsert_ne by (by apply not_eq_sym).
  by apply keyed_in.
Qed.

Lemma count_by_upsert (p : V -> bool) now t v :
  count_by p (values (upsert now v t)) =
  (count_by p (values t)
   - (match get (keyof v) t with Some o => if p o then 1 else 0 | None => 0 end)
   + (if p (stamped_row now t v) then 1 else 0))%Z.
Proof. apply count_by_set. Qed.

(** Keys are only ever added. *)
Lemma get_upsert_some now t v k x :
  get k t = Some x -> exists y, get k (upsert now v t) = Some y.
Proof. intros Hg. rewrite get_upsert. destruct (decide _); eauto. Qed.

(** Two rows of a well-formed table with one key are one row. *)
Lemma keyed_unique t v w :
  keyed t -> In v (values t) -> In w (values t) -> keyof v = keyof w -> v = w.
Proof.
  intros Hk Hv Hw E. pose proof (keyed_in t v Hk Hv). pose proof (keyed_in t w Hk Hw).
  rewrite E in *. congruence.
Qed.

(** The table refines the finite map it denotes. *)
Lemma to_gmap_set k v t : to_gmap (set k v t) = <[k := v]> (to_gmap t).
Proof.
  apply map_eq. intros j. rewrite get_to_gmap, get_set, lookup_insert, get_to_gmap.
  done.
Qed.
End tables.

#[export] Hint Resolve keyed_nil keyed_upsert keyed_set NoDup_keys_set : blackout.

(** ** Tables whose rows have a history

    A table keyed by generated ids, whose rows satisfy [wf] and only change along
    [later]: what writing back a changed row, or adding one under a fresh id, keeps. *)


(** The rows of a well-formed table carry its keys. *)
Lemma keyed_keys {V : Type} `{Keyed V} (t : jsmap V) : keyed t -> map keyof (values t) = keys t.
Proof.
  intros [_ Hall]. unfold values, keys. rewrite List.map_map. induction Hall as [|kv t Hk _ IH]; [done|].
  simpl. by rewrite IH, Hk.
Qed.

Lemma keyed_values_NoDup {V : Type} `{Keyed V} (t : jsmap V) : keyed t -> List.NoDup (map keyof (values t)).
Proof. intros Hk. rewrite keyed_keys by done. apply Hk. Qed.

Section rows.
Context {V : Type} `{Keyed V} (mint : nat -> string).
Context (mint_inj : forall n m, mint n = mint m -> n = m).
Context (wf : V -> Prop) (later : V -> V -> Prop) `{!PreOrder later}.

Definition table_ok (n : nat) (t : jsmap V) : Prop :=
  keyed t /\ forall k v, get k t = Some v -> wf v /\ exists m, m < n /\ k = mint m.

(** Rows never disappear, and each moves on from what it was. *)
Definition table_later (t t' : jsmap V) : Prop :=
  forall k v, get k t = Some v -> exists v', get k t' = Some v' /\ later v v'.

#[export] Instance table_later_preorder : PreOrder table_later.
Proof.
  split.
  - intros t k v Hg. exists v. split; [done|reflexivity].
  - intros a b c H1 H2 k v Hg. destruct (H1 k v Hg) as (v1 & Hg1 & L1).
    destruct (H2 k v1 Hg1) as (v2 & Hg2 & L2). exists v2. split; [done|by etransitivity].
Qed.

Lemma table_ok_nil n : table_ok n [].
Proof. split; [apply keyed_nil|done]. Qed.

Lemma table_ok_later n m t : n <= m -> table_ok n t -> table_ok m t.
Proof.
  intros Hle [Hk Ht]. split; [done|]. intros k v Hg. destruct (Ht k v Hg) as (Hw & i & Hi & ->).
  split; [done|]. exists i. split; [lia|done].
Qed.

Lemma table_put n t k v v' :
  table_ok n t -> get k t = Some v -> keyof v' = k -> later v v' -> wf v' ->
  table_ok n (set k v' t) /\ table_later t (set k v' t).
Proof.
  intros [Hk Ht] Hg <- Hl Hw. split; [split|].
  - by apply keyed_set.
  - intros j x. rewrite get_set. destruct (decide _) as [<-|]; [|apply Ht].
    intros [= <-]. split; [done|]. apply (Ht _ v Hg).
  - intros j x Hj. rewrite get_set. destruct (decide _) as [<-|].
    + exists v'. split; [done|]. congruence.
    + exists x. split; [done|reflexivity].
Qed.

Lemma table_fresh n t : table_ok n t -> get (mint n) t = None.
Proof.
  intros [_ Ht]. destruct (get (mint n) t) as [v|] eqn:Eg; [|done].
  destruct (Ht _ v Eg) as (_ & m & Hm & E). apply mint_inj in E. lia.
Qed.

(** A row added under an id drawn since. *)
Lemma table_insert n m n' t v :
  table_ok n t -> n <= m < n' -> keyof v = mint m -> wf v ->
  get (mint m) t = None /\ table_ok n' (set (mint m) v t) /\ table_later t (set (mint m) v t).
Proof.
  intros Hok Hm Ek Hw. assert (Hf : get (mint m) t = None).
  { apply (table_ok_later n m) in Hok; [|lia]. by apply table_fresh. }
  destruct Hok as [Hk Ht]. split; [exact Hf|]. split; [split|].
  - rewrite <-Ek. by apply keyed_set.
  - intros j x. rewrite get_set. destruct (decide _) as [<-|].
    + intros [= <-]. split; [done|]. by exists m; split; [lia|].
    + intros Hg. destruct (Ht j x Hg) as (? & i & ? & ->). split; [done|]. by exists i; split; [lia|].
  - intros j x Hj. rewrite get_set. destruct (decide _) as [<-|]; [congruence|].
    exists x. split; [done|reflexivity].
Qed.

Lemma table_add n t v :
  table_ok n t -> keyof v = mint n -> wf v ->
  table_ok (S n) (set (mint n) v t) /\ table_later t (set (mint n) v t).
Proof. intros Hok Ek Hw. apply (table_insert n n (S n) t v); [done|lia|done..]. Qed.

End rows.
