(* ===== verification/Async.v ===== *)
(** * Asynchronous handlers and their interleavings

    A Node handler runs without interruption up to an [await]; while it is
    suspended other handlers run against the same store.  A handler is a
    function from the store to an [outcome]: finished, suspended on a request
    with the continuation that will resume it, or having launched a
    fire-and-forget task ([void f(x)]) before going on.

    [sys_step] is the event loop: a new handler starts, or a suspended one
    resumes with any response.  [guarantees I G] is the rely-guarantee reading of
    one handler: if every other handler keeps the invariant [I] and moves the store
    along [G] while this one is suspended, then so does every uninterrupted segment
    of this one.  [reachable_guarantee] closes the circle: when all handlers do,
    every interleaving does. *)

From S2P Require Import Prelude.

Section async.
Context {S : Type} {E : Set -> Type}.

Inductive outcome (A : Type) : Type :=
  | Done (s : S) (a : A)
  | Wait (s : S) (X : Set) (e : E X) (k : X -> S -> outcome A)
  | Spawn (s : S) (X : Set) (e : E X) (k : X -> S -> outcome unit) (o : outcome A).

Definition M (A : Type) : Type := S -> outcome A.
End async.

Arguments outcome S E A : clear implicits.
Arguments M S E A : clear implicits.
Arguments Done {S E A} s a.
Arguments Wait {S E A} s {X} e k.
Arguments Spawn {S E A} s {X} e k o.

Section monad.
Context {S : Type} {E : Set -> Type}.

Definition mret {A} (a : A) : M S E A := fun s => Done s a.

Fixpoint obind {A B} (o : outcome S E A) (f : A -> M S E B) : outcome S E B :=
  match o with
  | Done s a => f a s
  | Wait s e k => Wait s e (fun x s' => obind (k x s') f)
  | Spawn s e k o => Spawn s e k (obind o f)
  end.

Definition mbind {A B} (m : M S E A) (f : A -> M S E B) : M S E B :=
  fun s => obind (m s) f.

(** Reading and writing the store never yields. *)
Definition gets {A} (f : S -> A) : M S E A := fun s => Done s (f s).
Definition modify (f : S -> S) : M S E unit := fun s => Done (f s) tt.
Definition update {A} (f : S -> S * A) : M S E A := fun s => Done (fst (f s)) (snd (f s)).

Lemma mbind_gets {A B} (f : S -> A) (k : A -> M S E B) s : mbind (gets f) k s = k (f s) s.
Proof. done. Qed.
Lemma mbind_update {A B} (f : S -> S * A) (k : A -> M S E B) s : mbind (update f) k s = k (f s).2 (f s).1.
Proof. done. Qed.
Lemma mbind_modify {B} (f : S -> S) (k : unit -> M S E B) s : mbind (modify f) k s = k tt (f s).
Proof. done. Qed.
Lemma mbind_mret {A B} (a : A) (k : A -> M S E B) s : mbind (mret a) k s = k a s.
Proof. done. Qed.

(** [await] on a request answered from outside. *)
Definition request {X : Set} (e : E X) : M S E X :=
  fun s => Wait s e (fun x s' => Done s' x).

(** [void t()]: [t] runs to its first suspension, then the caller goes on. *)
Fixpoint detach {A} (o : outcome S E A) : outcome S E unit :=
  match o with
  | Done s _ => Done s tt
  | Wait s e k => Spawn s e (fun x s' => obind (k x s') (fun _ => mret tt)) (Done s tt)
  | Spawn s e k o => Spawn s e k (detach o)
  end.

Definition spawn {A} (t : M S E A) : M S E unit := fun s => detach (t s).
End monad.

Declare Scope async_scope.
Delimit Scope async_scope with async.
#[global] Open Scope async_scope.

Notation "'let!' x := m 'in' k" := (mbind m (fun x => k))
  (at level 10, x pattern, m at level 100, k at level 200) : async_scope.
Notation "m ;;; k" := (mbind m (fun _ => k))
  (at level 199, right associativity) : async_scope.
(** [if (!r.ok) return r;] followed by the use of [r.value]. *)
Notation "'let?' x := r 'in' k" :=
  (match r with Err e => mret (Err e) | Ok x => k end)
  (at level 10, x name, r at level 100, k at level 200) : async_scope.

(** ** The event loop *)

Section system.
Context {S : Type} {E : Set -> Type}.

(** A suspended task: what it waits for and how it goes on. *)
Record task : Type := Task {
  task_X : Set;
  task_req : E task_X;
  task_k : task_X -> S -> outcome S E unit;
}.

Record sys : Type := Sys { store : S; pool : list task }.

(** The store an uninterrupted run leaves, and the tasks it leaves waiting. *)
Fixpoint settle {A} (o : outcome S E A) : S * list task :=
  match o with
  | Done s _ => (s, [])
  | Wait s e k => (s, [Task _ e (fun x s' => obind (k x s') (fun _ => mret tt))])
  | Spawn s e k o => let '(s', ts) := settle o in (s', Task _ e k :: ts)
  end.

(** [api] is the set of handlers clients can call; [drift] is what the
    environment may do to the store between segments. *)
Inductive sys_step (api : M S E unit -> Prop) (drift : S -> S -> Prop) : sys -> sys -> Prop :=
  | step_call h s ts s' ts' :
      api h ->
      settle (h s) = (s', ts') ->
      sys_step api drift (Sys s ts) (Sys s' (ts ++ ts'))
  | step_resume s ts1 t ts2 (x : task_X t) s' ts' :
      settle (task_k t x s) = (s', ts') ->
      sys_step api drift (Sys s (ts1 ++ t :: ts2)) (Sys s' (ts1 ++ ts2 ++ ts'))
  | step_drift s s' ts :
      drift s s' -> sys_step api drift (Sys s ts) (Sys s' ts).

(** Running one handler alone: every request answered at once by [oracle]. *)
Fixpoint run_alone {A} (oracle : forall X : Set, E X -> X) (o : outcome S E A) : S * A :=
  match o with
  | Done s a => (s, a)
  | Wait s e k => run_alone oracle (k (oracle _ e) s)
  | Spawn s e k o => run_alone oracle o
  end.

(** ** Guarantees *)

Section guarantees.
Context (I : S -> Prop) (G : S -> S -> Prop).

Fixpoint guarantees {A} (s0 : S) (Q : A -> S -> Prop) (o : outcome S E A) : Prop :=
  match o with
  | Done s a => I s /\ G s0 s /\ Q a s
  | Wait s e k => I s /\ G s0 s /\ forall x s', I s' -> G s s' -> guarantees s' Q (k x s')
  | Spawn s e k o =>
      I s /\ G s0 s /\
      (forall x s', I s' -> G s s' -> guarantees s' (fun _ _ => True) (k x s')) /\
      guarantees s Q o
  end.

(** A handler keeps [I] and moves along [G] in every segment. *)
Definition keeps {A} (m : M S E A) : Prop :=
  forall s, I s -> guarantees s (fun _ _ => True) (m s).
End guarantees.
End system.

Arguments task S E : clear implicits.
Arguments sys S E : clear implicits.

Section guarantee_lemmas.
Context {S : Type} {E : Set -> Type} (I : S -> Prop) (G : S -> S -> Prop) `{!PreOrder G}.

#[local] Lemma G_trans s1 s2 s3 : G s1 s2 -> G s2 s3 -> G s1 s3.
Proof. apply PreOrder_Transitive. Qed.

Lemma guarantees_weaken {A} (o : outcome S E A) s0 (Q Q' : A -> S -> Prop) :
  (forall a s, I s -> Q a s -> Q' a s) -> guarantees I G s0 Q o -> guarantees I G s0 Q' o.
Proof.
  revert s0 Q Q'. induction o as [A s a|A s X e k IH|A s X e k IHk o IH];
    intros s0 Q Q' HQ; simpl.
  - naive_solver.
  - intros (HI & HG & Hk). split_and!; [done..|]. intros x s' HI' HG'. eapply IH; eauto.
  - intros (HI & HG & Hk & Ho). split_and!; [done..|]. eapply IH; eauto.
Qed.

(** What has been done so far can be settled before going on. *)
Lemma guarantees_trans {A} (o : outcome S E A) s0 s1 (Q : A -> S -> Prop) :
  G s0 s1 -> guarantees I G s1 Q o -> guarantees I G s0 Q o.
Proof.
  intros HG. destruct o; simpl; intuition (eauto using G_trans).
Qed.

(** Sequencing: the continuation starts where the first part finished. *)
Lemma guarantees_bind {A B} (o : outcome S E A) (f : A -> M S E B) s0 Q Q' :
  guarantees I G s0 Q o ->
  (forall a s, I s -> G s0 s -> Q a s -> guarantees I G s Q' (f a s)) ->
  guarantees I G s0 Q' (obind o f).
Proof.
  revert s0 Q. induction o as [A s a|A s X e k IH|A s X e k IHk o IH];
    intros s0 Q; simpl.
  - intros (HI & HG & HQ) Hf. eapply guarantees_trans; eauto.
  - intros (HI & HG & Hk) Hf. split_and!; [done..|]. intros x s' HI' HG'.
    eapply IH; [by apply Hk|]. intros a s2 ? ? ?. apply Hf; eauto using G_trans.
  - intros (HI & HG & Hk & Ho) Hf. split_and!; [done..|]. eapply IH; [done|].
    intros a s2 ? ? ?. apply Hf; eauto using G_trans.
Qed.

(** A run ends where its moves lead. *)
Lemma guarantees_reached {A} (o : outcome S E A) r s0 (Q : A -> S -> Prop) :
  G r s0 -> guarantees I G s0 Q o -> guarantees I G s0 (fun a s => Q a s /\ G r s) o.
Proof.
  revert r s0 Q. induction o as [A s a|A s X e k IH|A s X e k IHk o IH]; intros r s0 Q Hr; simpl.
  - intros (HI & HG & HQ). split_and!; [done..|by eapply G_trans].
  - intros (HI & HG & Hk). split_and!; [done..|]. intros x s' HI' HG'. apply IH; [|by apply Hk].
    eauto using G_trans.
  - intros (HI & HG & Hk & Ho). split_and!; [done..|]. apply IH; [|done]. eauto using G_trans.
Qed.

(** Forgetting the result of a task keeps its guarantee. *)
Lemma guarantees_drop {A} (o : outcome S E A) s0 Q :
  guarantees I G s0 Q o ->
  guarantees I G s0 (fun _ _ => True) (obind o (fun _ => mret tt)).
Proof. intros H. eapply guarantees_bind; [exact H|]. by simpl. Qed.

Lemma guarantees_detach {A} (o : outcome S E A) s0 Q :
  guarantees I G s0 Q o -> guarantees I G s0 (fun _ _ => True) (detach o).
Proof.
  revert s0 Q. induction o as [A s a|A s X e k IH|A s X e k IHk o IH]; intros s0 Q; simpl.
  - naive_solver.
  - intros (HI & HG & Hk). split_and!; [done..| |done|done|done].
    intros x s' HI' HG'. eapply guarantees_drop, Hk; done.
  - intros (HI & HG & Hk & Ho). split_and!; [done..|]. eapply IH; eauto.
Qed.

Lemma keeps_ret {A} (a : A) : keeps I G (mret (E := E) a).
Proof. intros s HI. by split_and!. Qed.

Lemma keeps_gets {A} (f : S -> A) : keeps I G (gets (E := E) f).
Proof. intros s HI. by split_and!. Qed.

Lemma keeps_modify (f : S -> S) :
  (forall s, I s -> I (f s) /\ G s (f s)) -> keeps I G (modify (E := E) f).
Proof. intros H s HI. destruct (H s HI). by split_and!. Qed.

Lemma keeps_update {A} (f : S -> S * A) :
  (forall s, I s -> I (fst (f s)) /\ G s (fst (f s))) -> keeps I G (update (E := E) f).
Proof. intros H s HI. destruct (H s HI). by split_and!. Qed.

Lemma keeps_request {X : Set} (e : E X) : keeps I G (request (S := S) e).
Proof. intros s HI. split_and!; [done..|]. intros x s' HI' HG. by split_and!. Qed.

Lemma keeps_spawn {A} (t : M S E A) : keeps I G t -> keeps I G (spawn t).
Proof. intros H s HI. eapply guarantees_detach, H, HI. Qed.

Lemma keeps_bind {A B} (m : M S E A) (f : A -> M S E B) :
  keeps I G m -> (forall a, keeps I G (f a)) -> keeps I G (mbind m f).
Proof.
  intros Hm Hf s HI. eapply guarantees_bind; [by apply Hm|]. intros a s' HI' _ _. by apply Hf.
Qed.

(** A call to a handler proved elsewhere, in the middle of a segment. *)
Lemma guarantees_call {A B} (m : M S E A) (f : A -> M S E B) s0 s Q :
  keeps I G m -> I s -> G s0 s ->
  (forall a s', I s' -> G s s' -> guarantees I G s' Q (f a s')) ->
  guarantees I G s0 Q (mbind m f s).
Proof.
  intros Hm HI HG Hf. eapply guarantees_trans; [exact HG|].
  eapply guarantees_bind; [by apply Hm|]. intros a s' ? ? _. by apply Hf.
Qed.

(** ** From handlers to the whole system *)

Definition task_keeps (s : S) (t : task S E) : Prop :=
  forall x s', I s' -> G s s' -> guarantees I G s' (fun _ _ => True) (task_k t x s').

Lemma task_keeps_later s s' t : G s s' -> task_keeps s t -> task_keeps s' t.
Proof. intros HG Ht x s'' HI HG'. apply Ht; [done|by transitivity s']. Qed.

Lemma settle_guarantee {A} (o : outcome S E A) s0 Q s' ts :
  guarantees I G s0 Q o -> settle o = (s', ts) ->
  I s' /\ G s0 s' /\ Forall (task_keeps s') ts.
Proof.
  revert s0 Q s' ts. induction o as [A s a|A s X e k IH|A s X e k IHk o IH];
    intros s0 Q s' ts; simpl.
  - intros (HI & HG & _) [= <- <-]. by split_and!.
  - intros (HI & HG & Hk) [= <- <-]. split_and!; [done..|]. constructor; [|constructor].
    intros x s'' HI'' HG''. eapply guarantees_drop, Hk; done.
  - intros (HI & HG & Hk & Ho). destruct (settle o) as [s1 ts1] eqn:Es. intros [= <- <-].
    destruct (IH _ _ _ _ Ho eq_refl) as (HI1 & HG1 & Hts).
    split_and!; [done|by transitivity s|]. constructor; [|done].
    eapply task_keeps_later; [exact HG1|]. exact Hk.
Qed.

Context (api : M S E unit -> Prop) (drift : S -> S -> Prop).
Context (Hapi : forall h, api h -> keeps I G h).
Context (Hdrift : forall s s', I s -> drift s s' -> I s' /\ G s s').

Definition sys_ok (c : sys S E) : Prop := I (store c) /\ Forall (task_keeps (store c)) (pool c).

(** Every step of the event loop keeps [I], moves the store along [G] and leaves
    only tasks that will. *)
Lemma sys_step_guarantee c c' :
  sys_step api drift c c' -> sys_ok c -> sys_ok c' /\ G (store c) (store c').
Proof.
  unfold sys_ok. intros Hs [HI Hp].
  assert (Hlater : forall s s' ts, G s s' -> Forall (task_keeps s) ts -> Forall (task_keeps s') ts).
  { intros s s' ts HG Hf. eapply Forall_impl; [exact Hf|]. intros t. by apply task_keeps_later. }
  destruct Hs as [h s ts s' ts' Hh Hset|s ts1 t ts2 x s' ts' Hset|s s' ts Hd]; simpl in *.
  - destruct (settle_guarantee _ _ _ _ _ (Hapi h Hh s HI) Hset) as (HI' & HG & Hts).
    rewrite Forall_app. eauto.
  - apply Forall_app in Hp as [Hp1 Hp2]. inversion Hp2 as [|? ? Ht Hp3]; subst.
    destruct (settle_guarantee _ _ _ _ _ (Ht x s HI (PreOrder_Reflexive s)) Hset) as (HI' & HG & Hts).
    rewrite !Forall_app. split_and!; eauto.
  - destruct (Hdrift _ _ HI Hd). eauto.
Qed.

Theorem reachable_guarantee c c' :
  rtc (sys_step api drift) c c' -> sys_ok c -> sys_ok c' /\ G (store c) (store c').
Proof.
  induction 1 as [c|c1 c2 c3 Hs _ IH]; intros Hok; [by split|].
  destruct (sys_step_guarantee _ _ Hs Hok) as [Hok2 HG].
  destruct (IH Hok2) as [Hok3 HG']. split; [done|by transitivity (store c2)].
Qed.
End guarantee_lemmas.

(** ** One handler alone *)

Section alone.
Context {S : Type} {E : Set -> Type} (oracle : forall X : Set, E X -> X).

Lemma run_alone_bind {A B} (o : outcome S E A) (f : A -> M S E B) :
  run_alone oracle (obind o f) =
  run_alone oracle (f (snd (run_alone oracle o)) (fst (run_alone oracle o))).
Proof. induction o; simpl; auto. Qed.

(** What a handler guarantees of every segment it guarantees of the whole run. *)
Lemma run_alone_guarantee (I : S -> Prop) (G : S -> S -> Prop) `{!PreOrder G} {A}
    (o : outcome S E A) s0 Q :
  guarantees I G s0 Q o ->
  let r := run_alone oracle o in I (fst r) /\ G s0 (fst r) /\ Q (snd r) (fst r).
Proof.
  revert s0 Q. induction o as [A s a|A s X e k IH|A s X e k IHk o IH]; intros s0 Q; simpl; [done| |].
  - intros (HI & HG & Hk). destruct (IH (oracle X e) s s Q) as (? & ? & ?); [by apply Hk|].
    split_and!; [done|by transitivity s|done].
  - intros (HI & HG & _ & Ho). destruct (IH s Q Ho) as (? & ? & ?).
    split_and!; [done|by transitivity s|done].
Qed.

(** A handler that only reads and awaits leaves the store as it was. *)
Lemma run_alone_silent {A} (m : M S E A) s :
  keeps (fun _ => True) eq m -> fst (run_alone oracle (m s)) = s.
Proof.
  intros Hm. by destruct (run_alone_guarantee (fun _ => True) eq (m s) s _ (Hm s I)) as (_ & <- & _).
Qed.

(** A silent handler in front only computes a value. *)
Lemma run_alone_past {A B} (m : M S E A) (f : A -> M S E B) s :
  keeps (fun _ => True) eq m ->
  run_alone oracle (mbind m f s) = run_alone oracle (f (snd (run_alone oracle (m s))) s).
Proof. intros Hm. unfold mbind. rewrite run_alone_bind. by rewrite run_alone_silent. Qed.

Lemma run_alone_bind_m {A B} (m : M S E A) (f : A -> M S E B) s :
  run_alone oracle (mbind m f s) =
  run_alone oracle (f (snd (run_alone oracle (m s))) (fst (run_alone oracle (m s)))).
Proof. apply run_alone_bind. Qed.
End alone.

(** ** Runs that answer every request at once *)

Section drain.
Context {S : Type} {E : Set -> Type} (oracle : forall X : Set, E X -> X).

(** Resume the oldest waiting task, up to [n] times. *)
Fixpoint drain (n : nat) (c : sys S E) : sys S E :=
  match n, pool c with
  | Datatypes.S n, t :: ts =>
      let '(s', ts') := settle (task_k t (oracle _ (task_req t)) (store c)) in drain n (Sys s' (ts ++ ts'))
  | _, _ => c
  end.

(** Call a handler, then let everything that waits run. *)
Definition serve (n : nat) (c : sys S E) (h : M S E unit) : sys S E :=
  let '(s', ts) := settle (h (store c)) in drain n (Sys s' (pool c ++ ts)).

Lemma drain_run api drift n c : rtc (sys_step api drift) c (drain n c).
Proof.
  revert c. induction n as [|n IH]; intros [s ts]; [done|]. simpl. destruct ts as [|t ts]; [done|].
  destruct (settle (task_k t (oracle (task_X t) (task_req t)) s)) as [s' ts'] eqn:Es.
  eapply rtc_l; [|apply IH]. by apply (step_resume api drift s [] t ts (oracle _ (task_req t)) s' ts').
Qed.

Lemma serve_run (api : M S E unit -> Prop) drift n c hs :
  Forall api hs -> rtc (sys_step api drift) c (fold_left (serve n) hs c).
Proof.
  intros Hf. revert c. induction Hf as [|h hs Hh _ IH]; intros [s ts]; simpl; [done|].
  etransitivity; [|apply IH]. unfold serve. simpl. destruct (settle (h s)) as [s' ts'] eqn:Es.
  eapply rtc_l; [by eapply step_call|]. apply drain_run.
Qed.
End drain.

(** ** Handlers of a part of the state *)

(** A handler of a component works on the component's part of a larger state, and
    its requests are requests of the whole. *)
Section zoom.
Context {S T : Type} {E F : Set -> Type}.
Context (part : T -> S) (put : S -> T -> T) (ask : forall X : Set, E X -> F X).

Fixpoint ozoom {A : Type} (t : T) (o : outcome S E A) : outcome T F A :=
  match o with
  | Done s a => Done (put s t) a
  | @Wait _ _ _ s X e k => Wait (put s t) (ask X e) (fun x t' => ozoom t' (k x (part t')))
  | @Spawn _ _ _ s X e k o =>
      Spawn (put s t) (ask X e) (fun x t' => ozoom t' (k x (part t'))) (ozoom t o)
  end.

Definition zoom {A : Type} (m : M S E A) : M T F A := fun t => ozoom t (m (part t)).

Context (part_put : forall s t, part (put s t) = s).
Context (put_put : forall s s' t, put s' (put s t) = put s' t).

Lemma ozoom_base {A : Type} (o : outcome S E A) s t : ozoom (put s t) o = ozoom t o.
Proof.
  induction o as [A s' a|A s' X e k _|A s' X e k _ o IH]; simpl; rewrite put_put; [done..|].
  by rewrite IH.
Qed.

(** What a handler guarantees of its part it guarantees of the whole, when the
    whole may rely on and guarantees as much of the part. *)
Context (I : S -> Prop) (G : S -> S -> Prop) (J : T -> Prop) (H : T -> T -> Prop).
Context (J_part : forall t, J t -> I (part t)).
Context (H_part : forall t t', H t t' -> G (part t) (part t')).
Context (J_put : forall t s, J t -> I s -> G (part t) s -> J (put s t) /\ H t (put s t)).

Lemma ozoom_guarantees {A : Type} (o : outcome S E A) t (Q : A -> S -> Prop) (Q' : A -> T -> Prop) :
  J t -> (forall a t', J t' -> Q a (part t') -> Q' a t') ->
  guarantees I G (part t) Q o -> guarantees J H t Q' (ozoom t o).
Proof.
  revert t Q Q'. induction o as [A s a|A s X e k IH|A s X e k IHk o IH]; intros t Q Q' Ht HQ; simpl.
  - intros (HI & HG & Ha). destruct (J_put t s Ht HI HG) as [HJ HH].
    split_and!; [done..|]. apply HQ; [done|by rewrite part_put].
  - intros (HI & HG & Hk). destruct (J_put t s Ht HI HG) as [HJ HH]. split_and!; [done..|].
    intros x t' HJ' HH'. apply (IH x (part t') t' Q); [done|done|].
    apply Hk; [by apply J_part|]. apply H_part in HH'. by rewrite part_put in HH'.
  - intros (HI & HG & Hk & Ho). destruct (J_put t s Ht HI HG) as [HJ HH]. split_and!; [done..| |].
    + intros x t' HJ' HH'. apply (IHk x (part t') t' (fun _ _ => True)); [done..|].
      apply Hk; [by apply J_part|]. apply H_part in HH'. by rewrite part_put in HH'.
    + rewrite <-(ozoom_base o s). apply (IH (put s t) Q); [done|done|]. by rewrite part_put.
Qed.

Lemma zoom_keeps {A} (m : M S E A) : keeps I G m -> keeps J H (zoom m).
Proof.
  intros Hm t Ht. by apply (ozoom_guarantees _ _ (fun _ _ => True)), Hm, J_part.
Qed.
End zoom.

(** ** Segments that leave something alone *)

(** What holds where the current segment first stops ([Q]), and how the store moves
    from there and in the segments resumed later ([P]). *)
Fixpoint segments {S : Type} {E : Set -> Type} {A : Type} (P : S -> S -> Prop) (Q : S -> Prop)
    (o : outcome S E A) : Prop :=
  match o with
  | Done s _ => Q s
  | Wait s e k => Q s /\ forall x s', segments P (P s') (k x s')
  | Spawn s e k o => Q s /\ (forall x s', segments P (P s') (k x s')) /\ segments P (P s) o
  end.

(** Each segment of the handler moves the store along [P]. *)
Definition moves {S : Type} {E : Set -> Type} {A : Type} (P : S -> S -> Prop) (m : M S E A) : Prop :=
  forall s, segments P (P s) (m s).

Section segments.
Context {S : Type} {E : Set -> Type} (P : S -> S -> Prop) `{!PreOrder P}.

Lemma segments_weaken {A : Type} (o : outcome S E A) (Q Q' : S -> Prop) :
  (forall s, Q s -> Q' s) -> segments P Q o -> segments P Q' o.
Proof.
  revert Q Q'. induction o as [A s a|A s X e k IH|A s X e k IHk o IH]; intros Q Q' HQ; simpl.
  - apply HQ.
  - intros [H1 H2]. split; auto.
  - intros (H1 & H2 & H3). split_and!; auto.
Qed.

Lemma segments_bind {A B : Type} (o : outcome S E A) (f : A -> M S E B) (Q : S -> Prop) :
  (forall s s', Q s -> P s s' -> Q s') -> segments P Q o -> (forall a, moves P (f a)) ->
  segments P Q (obind o f).
Proof.
  intros HQ Ho Hf. revert Q HQ Ho. induction o as [A s a|A s X e k IH|A s X e k IHk o IH]; intros Q HQ; simpl.
  - intros Hs. eapply segments_weaken; [|apply Hf]. eauto.
  - intros [H1 H2]. split; [done|]. intros x s'. apply IH; [done| |done]. intros s1 s2. by etransitivity.
  - intros (H1 & H2 & H3). split_and!; [done|done|]. apply IH; [done| |done]. intros s1 s2. by etransitivity.
Qed.

Lemma segments_detach {A : Type} (o : outcome S E A) (Q : S -> Prop) :
  segments P Q o -> segments P Q (detach o).
Proof.
  revert Q. induction o as [A s a|A s X e k IH|A s X e k IHk o IH]; intros Q; simpl.
  - done.
  - intros [H1 H2]. split_and!; [done| |done]. intros x s'. apply segments_bind; [|done|intros ? s1; simpl; reflexivity].
    intros s1 s2. by etransitivity.
  - intros (H1 & H2 & H3). split_and!; eauto.
Qed.

Lemma moves_ret {A} (a : A) : moves P (mret (E := E) a).
Proof. intros s. simpl. reflexivity. Qed.

Lemma moves_gets {A} (f : S -> A) : moves P (gets (E := E) f).
Proof. intros s. simpl. reflexivity. Qed.

Lemma moves_modify (f : S -> S) : (forall s, P s (f s)) -> moves P (modify (E := E) f).
Proof. intros H s. apply H. Qed.

Lemma moves_update {A} (f : S -> S * A) : (forall s, P s (fst (f s))) -> moves P (update (E := E) f).
Proof. intros H s. apply H. Qed.

Lemma moves_request {X : Set} (e : E X) : moves P (request (S := S) e).
Proof. intros s. simpl. split; [reflexivity|]. intros x s'. reflexivity. Qed.

Lemma moves_spawn {A} (t : M S E A) : moves P t -> moves P (spawn t).
Proof. intros H s. apply segments_detach, H. Qed.

Lemma moves_bind {A B} (m : M S E A) (f : A -> M S E B) :
  moves P m -> (forall a, moves P (f a)) -> moves P (mbind m f).
Proof.
  intros Hm Hf s. apply segments_bind; [|apply Hm|exact Hf]. intros s1 s2. by etransitivity.
Qed.
End segments.

Lemma moves_from {S : Type} {E : Set -> Type} {A : Type} (P : S -> S -> Prop) (m : M S E A) s (Q : S -> Prop) :
  moves P m -> (forall s', P s s' -> Q s') -> segments P Q (m s).
Proof. intros Hm HQ. eapply segments_weaken; [exact HQ|apply Hm]. Qed.

Lemma moves_weaken {S : Type} {E : Set -> Type} {A : Type} (P P' : S -> S -> Prop) (m : M S E A) :
  (forall s s', P s s' -> P' s s') -> moves P m -> moves P' m.
Proof.
  intros HP Hm s. specialize (Hm s). revert Hm. generalize (m s) as o. intros o.
  assert (Hgo : forall (Q Q' : S -> Prop), (forall s, Q s -> Q' s) -> segments P Q o -> segments P' Q' o);
    [|apply Hgo; auto].
  clear m. induction o as [A s1 a|A s1 X e k IH|A s1 X e k IHk o IH]; intros Q Q' HQ; simpl.
  - apply HQ.
  - intros [H1 H2]. split; [auto|]. intros x s'. eapply IH; [|apply H2]. auto.
  - intros (H1 & H2 & H3). split_and!; [auto| |eapply IH; [|exact H3]; auto].
    intros x s'. eapply IHk; [|apply H2]. auto.
Qed.

(** A handler of a part, when the segments of the part do more than its guarantee
    says: [tb] is the whole with the store the handler works on left out, [t0] where
    the segment began. *)
Section zoom_segments.
Context {S T : Type} {E F : Set -> Type}.
Context (part : T -> S) (put : S -> T -> T) (ask : forall X : Set, E X -> F X).
Context (I : S -> Prop) (G P : S -> S -> Prop) (J : T -> Prop) (H : T -> T -> Prop).
Context `{!PreOrder G}.
Context (J_part : forall t, J t -> I (part t)).
Context (H_part : forall t t', H t t' -> G (part t) (part t')).
Context (part_put : forall s t, part (put s t) = s).
Context (put_put : forall s s' t, put s' (put s t) = put s' t).
Context (J_put : forall t s, J t -> I s -> G (part t) s -> P (part t) s -> J (put s t) /\ H t (put s t)).

Lemma ozoom_segments {A : Type} (o : outcome S E A) s0 t0 tb (Q : S -> Prop) :
  (forall s, I s -> G s0 s -> Q s -> J (put s tb) /\ H t0 (put s tb)) ->
  guarantees I G s0 (fun _ _ => True) o -> segments P Q o ->
  guarantees J H t0 (fun _ _ => True) (ozoom part put ask tb o).
Proof.
  revert s0 t0 tb Q. induction o as [A s a|A s X e k IH|A s X e k IHk o IH]; intros s0 t0 tb Q HJ; simpl.
  - intros (HI & HG & _) HQ. destruct (HJ s) as [? ?]; [done..|]. by split_and!.
  - intros (HI & HG & Hk) [HQ Hseg]. destruct (HJ s HI HG HQ) as [H1 H2]. split_and!; [done..|].
    intros x t' Ht' HH. apply (IH x (part t') (part t') t' t' (P (part t'))).
    + intros s1 ? ? ?. by apply J_put.
    + apply Hk; [by apply J_part|]. apply H_part in HH. by rewrite part_put in HH.
    + apply Hseg.
  - intros (HI & HG & Hk & Ho) (HQ & Hseg & Hso). destruct (HJ s HI HG HQ) as [H1 H2]. split_and!; [done..| |].
    + intros x t' Ht' HH. apply (IHk x (part t') (part t') t' t' (P (part t'))).
      * intros s1 ? ? ?. by apply J_put.
      * apply Hk; [by apply J_part|]. apply H_part in HH. by rewrite part_put in HH.
      * apply Hseg.
    + rewrite <-(ozoom_base part put ask put_put o s).
      apply (IH s (put s tb) (put s tb) (P s)); [|done|done].
      intros s1 HI1 HG1 HQ1.
      pose proof (J_put (put s tb) s1 H1 HI1) as Hp. rewrite part_put in Hp. by apply Hp.
Qed.

Lemma zoom_moves_keeps {A : Type} (m : M S E A) :
  keeps I G m -> moves P m -> keeps J H (zoom part put ask m).
Proof.
  intros Hk Hm t Ht. unfold zoom. apply (ozoom_segments _ (part t) t t (P (part t))).
  - intros s ? ? ?. by apply J_put.
  - by apply Hk, J_part.
  - apply Hm.
Qed.
End zoom_segments.

Lemma keeps_anyhow {S : Type} {E : Set -> Type} {A : Type} (m : M S E A) :
  keeps (fun _ => True) (fun _ _ => True) m.
Proof.
  intros s _. generalize (m s) as o. intros o. clear m. generalize s at 1 as s0. clear s.
  induction o as [A s a|A s X e k IH|A s X e k IHk o IH]; intros s0; simpl; split_and!; auto.
Qed.

(** A handler of a part of which the whole only needs to know how its segments move. *)
Lemma zoom_moving {S T : Type} {E F : Set -> Type} (part : T -> S) (put : S -> T -> T)
    (ask : forall X : Set, E X -> F X) (P : S -> S -> Prop) (J : T -> Prop) (H : T -> T -> Prop)
    {A : Type} (m : M S E A) :
  (forall s t, part (put s t) = s) -> (forall s s' t, put s' (put s t) = put s' t) ->
  (forall t s, J t -> P (part t) s -> J (put s t) /\ H t (put s t)) ->
  moves P m -> keeps J H (zoom part put ask m).
Proof.
  intros Hpart Hpp Hput Hm.
  apply (zoom_moves_keeps part put ask (fun _ => True) (fun _ _ => True) P J H); auto using keeps_anyhow.
Qed.

(** A handler of a part that leaves the part alone. *)
Lemma zoom_silent {S T : Type} {E F : Set -> Type} (part : T -> S) (put : S -> T -> T)
    (ask : forall X : Set, E X -> F X) (J : T -> Prop) (H : T -> T -> Prop) `{!Reflexive H} {A : Type}
    (m : M S E A) :
  (forall t, put (part t) t = t) -> moves eq m -> keeps J H (zoom part put ask m).
Proof.
  intros Hpp Hm t Ht. unfold zoom. specialize (Hm (part t)). revert Hm.
  generalize (m (part t)) as o. intros o. clear m. revert t Ht.
  induction o as [A s a|A s X e k IH|A s X e k IHk o IH]; intros t Ht; simpl.
  - intros <-. rewrite Hpp. by split_and!.
  - intros [<- Hseg]. rewrite Hpp. split_and!; [done..|]. intros x t' Ht' _. apply IH; [done|apply Hseg].
  - intros (<- & Hseg & Ho). rewrite Hpp. split_and!; [done..| |by apply IH].
    intros x t' Ht' _. apply IHk; [done|apply Hseg].
Qed.

(** A handler that keeps two invariants keeps both. *)
Lemma keeps_both {S : Type} {E : Set -> Type} (I I' : S -> Prop) (G G' : S -> S -> Prop) {A} (m : M S E A) :
  keeps I G m -> keeps I' G' m -> keeps (fun s => I s /\ I' s) (fun s s' => G s s' /\ G' s s') m.
Proof.
  intros Hm Hm' s [Hs Hs']. specialize (Hm s Hs). specialize (Hm' s Hs'). revert Hm Hm'.
  enough (Hb : forall B (o : outcome S E B) s0, guarantees I G s0 (fun _ _ => True) o ->
    guarantees I' G' s0 (fun _ _ => True) o ->
    guarantees (fun s => I s /\ I' s) (fun s s' => G s s' /\ G' s s') s0 (fun _ _ => True) o) by apply Hb.
  intros B o. induction o as [B s1 a|B s1 X e k IH|B s1 X e k IHk o IH]; intros s0; simpl.
  - intuition.
  - intros (? & ? & Hk) (? & ? & Hk'). split_and!; [done..|]. intros x s' [] []. apply IH; auto.
  - intros (? & ? & Hk & Ho) (? & ? & Hk' & Ho'). split_and!; [done..| |by apply IH].
    intros x s' [] []. apply IHk; auto.
Qed.

(** No constraint on the moves. *)
Definition anyhow {S : Type} (_ _ : S) : Prop := True.

#[export] Instance anyhow_preorder {S} : PreOrder (@anyhow S).
Proof. by split. Qed.

#[export] Hint Resolve keeps_ret keeps_gets keeps_request keeps_spawn : blackout.

(** The same for [moves]; the writes are left to the caller. *)
Ltac moves_step :=
  match goal with
  | |- moves _ (mret _) => refine (moves_ret _ _)
  | |- moves _ (gets _) => refine (moves_gets _ _)
  | |- moves _ (request _) => refine (moves_request _ _)
  | |- moves _ (spawn _) => refine (moves_spawn _ _ _)
  | |- moves _ (mbind _ _) => refine (moves_bind _ _ _ _ _); [|intros ?]
  | |- moves _ (match ?x with _ => _ end) => destruct x eqn:?
  end.

(** Walk through a handler that only reads, awaits and branches. *)
Ltac keeps_step :=
  match goal with
  | |- keeps _ _ (mret _) => refine (keeps_ret _ _ _)
  | |- keeps _ _ (gets _) => refine (keeps_gets _ _ _)
  | |- keeps _ _ (request _) => refine (keeps_request _ _ _)
  | |- keeps _ _ (mbind _ _) => refine (keeps_bind _ _ _ _ _ _); [|intros ?]
  | |- keeps _ _ (match ?x with _ => _ end) => destruct x eqn:?
  end.
