(* ===== verification/Ownership.v ===== *)
(** * Steps of the event loop, without a rely

    When every segment of every handler moves the store along a preorder [P], so does
    every run ([run_moves_along]); [stays I G] makes such a [P] out of an invariant and
    a guarantee.  The second part is for the handlers behind a [running] flag: [owned]
    says what the one task holding the flag does while all others leave its part of
    the store alone, and [owned_run] that at most one such task exists. *)

From S2P Require Import Prelude Async.

Section along.
Context {S : Type} {E : Set -> Type} (P : S -> S -> Prop).

Definition task_moves (t : task S E) : Prop := forall x s, segments P (P s) (task_k t x s).

Lemma settle_moves `{!PreOrder P} {A : Type} (o : outcome S E A) (Q : S -> Prop) s ts :
  segments P Q o -> settle o = (s, ts) ->
  (exists s0, Q s0 /\ P s0 s) /\ Forall task_moves ts.
Proof.
  revert Q s ts. induction o as [A s1 a|A s1 X e k IH|A s1 X e k IHk o IH]; intros Q s ts; simpl.
  - intros HQ [= <- <-]. split; [by exists s1|constructor].
  - intros [HQ Hk] [= <- <-]. split; [by exists s1|]. constructor; [|constructor].
    intros x s'. simpl. apply segments_bind; [apply _| |apply Hk|].
    + intros a b ? ?. by etransitivity.
    + intros a. by apply moves_ret.
  - intros (HQ & Hk & Ho). destruct (settle o) as [s2 ts2] eqn:Es. intros [= <- <-].
    destruct (IH (P s1) s2 ts2 Ho eq_refl) as [(s0 & H1 & H2) Hts]. split.
    + exists s1. split; [done|]. by transitivity s0.
    + constructor; [exact Hk|done].
Qed.

Context (api : M S E unit -> Prop) (drift : S -> S -> Prop).

(** A step is the call of an exceptional handler, or a move along [P]. *)
Lemma step_moves_along `{!PreOrder P} (odd : M S E unit -> Prop) c c' :
  (forall h, api h -> odd h \/ moves P h) -> (forall s s', drift s s' -> P s s') ->
  sys_step api drift c c' -> Forall task_moves (pool c) ->
  (exists h ts, api h /\ odd h /\ settle (h (store c)) = (store c', ts) /\ pool c' = pool c ++ ts) \/
  (P (store c) (store c') /\ Forall task_moves (pool c')).
Proof.
  intros Hapi Hd Hs Hp. destruct Hs as [h s ts s' ts' Hh Hset|s ts1 t ts2 x s' ts' Hset|s s' ts Hdr]; simpl in *.
  - destruct (Hapi h Hh) as [Ho|Hm]; [left; by exists h, ts'|right].
    destruct (settle_moves (h s) (P s) s' ts' (Hm s) Hset) as [(s0 & H1 & H2) Hts].
    split; [by transitivity s0|]. by rewrite Forall_app.
  - right. apply Forall_app in Hp as [Hp1 Hp2]. inversion Hp2 as [|? ? Ht Hp3]; subst.
    destruct (settle_moves _ (P s) s' ts' (Ht x s) Hset) as [(s0 & H1 & H2) Hts].
    split; [by transitivity s0|]. by rewrite !Forall_app.
  - right. auto.
Qed.

(** Whatever a call does at first, what it leaves suspended moves along [P]. *)
Lemma run_tasks_move `{!PreOrder P} c c' :
  (forall h s, api h -> segments P (fun _ => True) (h s)) ->
  rtc (sys_step api drift) c c' -> Forall task_moves (pool c) -> Forall task_moves (pool c').
Proof.
  intros Hapi. induction 1 as [c|c1 c2 c3 Hs _ IH]; [done|]. intros Hp. apply IH. clear IH.
  destruct Hs as [h s ts s' ts' Hh Hset|s ts1 t ts2 x s' ts' Hset|s s' ts Hdr]; simpl in *; [| |done].
  - destruct (settle_moves (h s) _ s' ts' (Hapi h s Hh) Hset) as [_ Hts]. by rewrite Forall_app.
  - apply Forall_app in Hp as [Hp1 Hp2]. inversion Hp2 as [|? ? Ht Hp3]; subst.
    destruct (settle_moves _ (P s) s' ts' (Ht x s) Hset) as [_ Hts]. by rewrite !Forall_app.
Qed.

Lemma run_moves_along `{!PreOrder P} c c' :
  (forall h, api h -> moves P h) -> (forall s s', drift s s' -> P s s') ->
  rtc (sys_step api drift) c c' -> Forall task_moves (pool c) ->
  P (store c) (store c') /\ Forall task_moves (pool c').
Proof.
  intros Hapi Hd. induction 1 as [c|c1 c2 c3 Hs _ IH]; intros Hp; [by split|].
  destruct (step_moves_along (fun _ => False) c1 c2) as [(h & ts & _ & [] & _)|[HP Hp2]]; [by auto..|].
  destruct (IH Hp2) as [HP' Hp3]. split; [by transitivity (store c2)|done].
Qed.
End along.

(** An invariant and a guarantee as one preorder. *)
Definition stays {S : Type} (I : S -> Prop) (G : S -> S -> Prop) (s s' : S) : Prop := I s -> I s' /\ G s s'.

#[export] Instance stays_preorder {S : Type} (I : S -> Prop) (G : S -> S -> Prop) `{!PreOrder G} :
  PreOrder (stays I G).
Proof.
  split; [by intros s Hs|]. intros a b c Hab Hbc Ha. destruct (Hab Ha) as [Hb G1].
  destruct (Hbc Hb) as [Hc G2]. split; [done|by etransitivity].
Qed.

(** Handlers of a part of the state. *)
Section zoom_moves.
Context {S T : Type} {E F : Set -> Type}.
Context (part : T -> S) (put : S -> T -> T) (ask : forall X : Set, E X -> F X).
Context (P' : S -> S -> Prop) (P : T -> T -> Prop).
Context (part_put : forall s t, part (put s t) = s).
Context (put_put : forall s s' t, put s' (put s t) = put s' t).
Context (lift : forall t s, P' (part t) s -> P t (put s t)).

Lemma ozoom_moves {A : Type} (o : outcome S E A) tb (Q : S -> Prop) (Q' : T -> Prop) :
  (forall s, Q s -> Q' (put s tb)) -> segments P' Q o -> segments P Q' (ozoom part put ask tb o).
Proof.
  revert tb Q Q'. induction o as [A s a|A s X e k IH|A s X e k IHk o IH]; intros tb Q Q' HQ; simpl.
  - apply HQ.
  - intros [Hs Hk]. split; [auto|]. intros x t'. eapply IH; [|apply Hk]. intros s'. apply lift.
  - intros (Hs & Hk & Ho). split_and!; [auto| |].
    + intros x t'. eapply IHk; [|apply Hk]. intros s'. apply lift.
    + eapply IH; [|exact Ho]. intros s2 Hs2.
      pose proof (lift (put s tb) s2) as Hl. rewrite part_put, put_put in Hl. by apply Hl.
Qed.

Lemma zoom_moves {A : Type} (m : M S E A) : moves P' m -> moves P (zoom part put ask m).
Proof. intros Hm t. eapply ozoom_moves; [|apply Hm]. intros s. apply lift. Qed.
End zoom_moves.

(** ** One task holds a flag *)

(** Two places in one list. *)
Lemma app_middle {A : Type} (a1 b1 : list A) x y a2 b2 :
  a1 ++ x :: a2 = b1 ++ y :: b2 ->
  (a1 = b1 /\ x = y /\ a2 = b2) \/
  (exists w, b1 = a1 ++ x :: w /\ a2 = w ++ y :: b2) \/
  (exists w, a1 = b1 ++ y :: w /\ b2 = w ++ x :: a2).
Proof.
  revert b1. induction a1 as [|z a1 IH]; intros [|u b1]; simpl; intros [= E1 E2].
  - by left.
  - right; left. subst. by exists b1.
  - right; right. subst. by exists a1.
  - subst. destruct (IH b1 E2) as [(-> & -> & ->)|[(w & -> & ->)|(w & -> & ->)]]; [by left|right; left|right; right];
      by exists w.
Qed.

Section owner.
Context {S : Type} {E : Set -> Type}.
(** [flag] is raised while a task owns its part of the store; [quiet] is what everyone
    else does meanwhile; [I] what holds of that part whenever the store can be seen. *)
Context (flag : S -> bool) (quiet : S -> S -> Prop) (I : S -> Prop) `{!PreOrder quiet}.
Context (quiet_flag : forall s s', quiet s s' -> flag s' = flag s).
Context (quiet_I : forall s s', quiet s s' -> I s -> I s').

(** What the owner does: it keeps [I] and the flag up at every wait, and lowers the
    flag when it ends. *)
Fixpoint owned {A : Type} (o : outcome S E A) : Prop :=
  match o with
  | Done s _ => I s /\ flag s = false
  | Wait s e k => I s /\ flag s = true /\ forall x s', quiet s s' -> owned (k x s')
  | Spawn _ _ _ _ => False
  end.

(** The same with the flag still up at the end, and [Q] of the result. *)
Fixpoint holding {A : Type} (Q : A -> S -> Prop) (o : outcome S E A) : Prop :=
  match o with
  | Done s a => I s /\ flag s = true /\ Q a s
  | Wait s e k => I s /\ flag s = true /\ forall x s', quiet s s' -> holding Q (k x s')
  | Spawn _ _ _ _ => False
  end.

Lemma holding_bind {A B : Type} (o : outcome S E A) (f : A -> M S E B) Q Q' :
  holding Q o -> (forall a s, I s -> flag s = true -> Q a s -> holding Q' (f a s)) -> holding Q' (obind o f).
Proof.
  intros Ho Hf. induction o as [A s a|A s X e k IH|A s X e k IHk o IH]; simpl in *; [|naive_solver|done].
  destruct Ho as (? & ? & ?). by apply Hf.
Qed.

Lemma owned_bind {A B : Type} (o : outcome S E A) (f : A -> M S E B) Q :
  holding Q o -> (forall a s, I s -> flag s = true -> Q a s -> owned (f a s)) -> owned (obind o f).
Proof.
  intros Ho Hf. induction o as [A s a|A s X e k IH|A s X e k IHk o IH]; simpl in *; [|naive_solver|done].
  destruct Ho as (? & ? & ?). by apply Hf.
Qed.

Lemma owned_drop {A : Type} (o : outcome S E A) : owned o -> owned (obind o (fun _ => mret tt)).
Proof. induction o as [A s a|A s X e k IH|A s X e k IHk o IH]; simpl; naive_solver. Qed.

(** A loop that keeps the flag and [I]. *)
Definition holds {A : Type} (m : M S E A) : Prop :=
  forall s, I s -> flag s = true -> holding (fun _ _ => True) (m s).

Lemma holds_bind {A B : Type} (m : M S E A) (f : A -> M S E B) :
  holds m -> (forall a, holds (f a)) -> holds (mbind m f).
Proof. intros Hm Hf s Hs Hfl. eapply holding_bind; [by apply Hm|]. intros a s' ? ? _. by apply Hf. Qed.
Lemma holds_ret {A : Type} (a : A) : holds (mret a).
Proof. intros s ? ?. by split_and!. Qed.
Lemma holds_gets {A : Type} (f : S -> A) : holds (gets f).
Proof. intros s ? ?. by split_and!. Qed.
Lemma holds_request {X : Set} (e : E X) : holds (request e).
Proof.
  intros s Hs Hf. split_and!; [done..|]. intros x s' Hq. split_and!; [by eapply quiet_I| |done].
  by rewrite (quiet_flag _ _ Hq).
Qed.
Lemma holds_update {A : Type} (f : S -> S * A) :
  (forall s, I s -> I (fst (f s)) /\ flag (fst (f s)) = flag s) -> holds (update f).
Proof. intros Hf s Hs Hfl. destruct (Hf s Hs) as [? E1]. split_and!; [done|congruence|done]. Qed.
Lemma holds_modify (f : S -> S) : (forall s, I s -> I (f s) /\ flag (f s) = flag s) -> holds (modify f).
Proof. intros Hf s Hs Hfl. destruct (Hf s Hs) as [? E1]. split_and!; [done|congruence|done]. Qed.

(** The pool: no owner and the flag down, or one owner and the flag up. *)
Definition the_owner (s : S) (t : task S E) : Prop := forall x s', quiet s s' -> owned (task_k t x s').

Definition owner_ok (c : sys S E) : Prop :=
  I (store c) /\
  ((flag (store c) = false /\ Forall (task_moves quiet) (pool c)) \/
   (flag (store c) = true /\ exists ts1 t ts2, pool c = ts1 ++ t :: ts2 /\
      the_owner (store c) t /\ Forall (task_moves quiet) ts1 /\ Forall (task_moves quiet) ts2)).

(** What a handler that may take the flag does: it leaves it alone, or takes it for one task. *)
Definition takes (h : M S E unit) : Prop :=
  forall s, (flag s = true -> h s = Done s tt) /\
            (flag s = false -> I s -> exists s' X (e : E X) k,
               h s = Spawn s' e k (Done s' tt) /\ I s' /\ flag s' = true /\
               forall x s'', quiet s' s'' -> owned (k x s'')).

Lemma spawn_owned (t : M S E unit) s :
  owned (t s) -> (forall s' a, t s <> Done s' a) ->
  exists s' X (e : E X) k, spawn t s = Spawn s' e k (Done s' tt) /\ I s' /\ flag s' = true /\
    forall x s'', quiet s' s'' -> owned (k x s'').
Proof.
  unfold spawn. destruct (t s) as [s1 a|s1 X e k|s1 X e k o]; simpl; [by intros _ Hn; destruct (Hn s1 a)| |done].
  intros (HI & Hf & Hk) _. exists s1, X, e. eexists. split_and!; [done..|]. intros x s'' Hq. by apply owned_drop, Hk.
Qed.

Lemma owner_moves c s' (pool' : list (task S E)) :
  owner_ok c -> quiet (store c) s' ->
  (Forall (task_moves quiet) (pool c) -> Forall (task_moves quiet) pool') ->
  (forall ts1 t ts2, pool c = ts1 ++ t :: ts2 -> Forall (task_moves quiet) ts1 ->
     Forall (task_moves quiet) ts2 -> exists u1 u2, pool' = u1 ++ t :: u2 /\
       Forall (task_moves quiet) u1 /\ Forall (task_moves quiet) u2) ->
  owner_ok (Sys s' pool').
Proof.
  intros [HI Hp] Hq Hno Hyes. split; [by eapply quiet_I|]. simpl. rewrite (quiet_flag _ _ Hq).
  destruct Hp as [[Hf Hp]|(Hf & ts1 & t & ts2 & E1 & Ht & H1 & H2)]; [left|right]; (split; [done|]).
  - auto.
  - destruct (Hyes ts1 t ts2 E1 H1 H2) as (u1 & u2 & -> & ? & ?). exists u1, t, u2. split_and!; [done| |done..].
    intros x s'' Hq'. apply Ht. by transitivity s'.
Qed.

Context (api : M S E unit -> Prop) (drift : S -> S -> Prop).
Context (Hapi : forall h, api h -> takes h \/ moves quiet h).
Context (Hdrift : forall s s', drift s s' -> quiet s s').

Lemma settle_owned {A : Type} (o : outcome S E A) s ts :
  owned o -> settle o = (s, ts) ->
  I s /\ ((flag s = false /\ ts = []) \/ (flag s = true /\ exists t, ts = [t] /\ the_owner s t)).
Proof.
  destruct o as [s1 a|s1 X e k|s1 X e k o]; simpl; [| |done].
  - intros [? ?] [= <- <-]. split; [done|]. by left.
  - intros (? & ? & Hk) [= <- <-]. split; [done|]. right. split; [done|]. eexists. split; [done|].
    intros x s' Hq. apply owned_drop, Hk, Hq.
Qed.

(** [settle] of a task already drops its result. *)
Lemma owner_step c c' : sys_step api drift c c' -> owner_ok c -> owner_ok c'.
Proof.
  intros Hs Hok. destruct Hs as [h s ts s' ts' Hh Hset|s ts1 t ts2 x s' ts' Hset|s s' ts Hd].
  - destruct (Hapi h Hh) as [Ht|Hm].
    + destruct (Ht s) as [Hup Hdown]. destruct Hok as [HI [[Hf Hp]|(Hf & Hp)]]; simpl in *.
      * destruct (Hdown Hf HI) as (s1 & X & e & k & E1 & HI1 & Hf1 & Hk). rewrite E1 in Hset. simpl in Hset.
        injection Hset as <- <-. split; [done|]. right. split; [done|].
        exists ts, (Task X e k), []. split_and!; [done|exact Hk|done|constructor].
      * rewrite (Hup Hf) in Hset. simpl in Hset. injection Hset as <- <-. split; [done|]. right.
        rewrite app_nil_r. by split.
    + destruct (settle_moves quiet (h s) (quiet s) s' ts' (Hm s) Hset) as [(s0 & H1 & H2) Hts].
      eapply (owner_moves (Sys s ts)); [done|by transitivity s0| |].
      * intros Hp. by rewrite Forall_app.
      * simpl. intros u1 u u2 -> ? ?. exists u1, (u2 ++ ts'). rewrite <-app_assoc. split_and!; [done..|]. by rewrite Forall_app.
  - (* a task resumes: the owner, or another *)
    assert (Hother : task_moves quiet t -> (exists w1 w w2, ts1 ++ ts2 = w1 ++ w :: w2 /\ the_owner s w /\
        Forall (task_moves quiet) w1 /\ Forall (task_moves quiet) w2 /\ flag s = true) \/
        (flag s = false /\ Forall (task_moves quiet) (ts1 ++ ts2)) -> I s -> owner_ok (Sys s' (ts1 ++ ts2 ++ ts'))).
    { intros Ht Hp HI. destruct (settle_moves quiet _ (quiet s) s' ts' (Ht x s) Hset) as [(s0 & H1 & H2) Hts].
      eapply (owner_moves (Sys s (ts1 ++ ts2))).
      - split; [done|]. simpl. destruct Hp as [(w1 & w & w2 & E1 & Ho & ? & ? & Hf)|[Hf Hp]]; [right|by left].
        split; [done|]. by exists w1, w, w2.
      - by transitivity s0.
      - simpl. intros Hp'. rewrite app_assoc, Forall_app. by split.
      - simpl. intros u1 u u2 E1 ? ?. exists u1, (u2 ++ ts').
        rewrite (app_assoc ts1), E1, <-app_assoc. split_and!; [done..|]. by rewrite Forall_app. }
    destruct Hok as [HI [[Hf Hp]|(Hf & v1 & v & v2 & E1 & Ho & Hv1 & Hv2)]]; simpl in *.
    + apply Forall_app in Hp as [Hp1 Hp2]. inversion Hp2; subst. apply Hother; [done| |done].
      right. by rewrite Forall_app.
    + destruct (app_middle ts1 v1 t v ts2 v2 E1) as [(<- & <- & <-)|[(w & -> & ->)|(w & -> & ->)]].
      * destruct (settle_owned _ _ _ (Ho x s ltac:(reflexivity)) Hset) as [HI' [[Hf' ->]|(Hf' & u & -> & Hu)]].
        -- split; [done|]. left. split; [done|]. simpl. rewrite app_nil_r, Forall_app. by split.
        -- split; [done|]. right. split; [done|]. exists (ts1 ++ ts2), u, []. simpl.
           rewrite app_assoc, Forall_app. by split_and!.
      * (* the task is before the owner *)
        apply Forall_app in Hv1 as [Hw1 Hw2]. inversion Hw2; subst. apply Hother; [done| |done].
        left. exists (ts1 ++ w), v, v2. rewrite <-app_assoc, Forall_app. by split_and!.
      * apply Forall_app in Hv2 as [Hw1 Hw2]. inversion Hw2; subst. apply Hother; [done| |done].
        left. exists v1, v, (w ++ ts2). rewrite <-app_assoc, Forall_app. by split_and!.
  - eapply (owner_moves (Sys s ts)); [done|by apply Hdrift|done|].
    simpl. intros u1 u u2 -> ? ?. by exists u1, u2.
Qed.

Theorem owned_run c c' : rtc (sys_step api drift) c c' -> owner_ok c -> owner_ok c'.
Proof. induction 1 as [|c1 c2 c3 Hs _ IH]; [done|]. intros Hok. eapply IH, owner_step; [exact Hs|done]. Qed.
End owner.
