(* ===== verification/CoalitionDomain.v ===== *)
(** * The coalition domain: [packages/core/src/coalition/coalitionNetwork.ts]

    The closed vocabularies (roles, permissions, tiers, statuses), the
    permission matrix, join requirements, the campaign graph, succession quorum,
    the boost meter and the impact summary. *)

From Stdlib Require Import Lqa.
From S2P Require Import Prelude.

(** ** String enumerations

    Each [const XS = [...] as const] with its [isX(value: unknown)] guard: the
    value must be a string and one of the listed ones. *)

(** A value of type [unknown]. *)
Inductive unknown : Type :=
  | UString (s : string)
  | UNumber (n : jsnum)
  | UBool (b : bool)
  | UNull
  | UUndefined
  | UObject.

Class Enum (T : Type) : Type := {
  members : list T;
  name : T -> string;
}.

Class EnumLaws (T : Type) `{Enum T} : Prop := {
  members_all (t : T) : In t members;
  name_inj (t u : T) : name t = name u -> t = u;
}.

(** [typeof value === 'string' && XS.includes(value)] *)
Definition is_member (T : Type) `{Enum T} (v : unknown) : bool :=
  match v with
  | UString s => existsb (String.eqb s) (map name (members (T := T)))
  | _ => false
  end.

Inductive CoalitionJoinMode := join_open | join_approval.
Inductive CoalitionRole := founder | steward | griot | member.
Inductive CoalitionTierGate := tier_seedling | tier_sprout | tier_root | tier_canopy | tier_ancestor.
Inductive CoalitionPermission :=
  | coalition_succeed | coalition_edit | coalition_archive
  | members_approve | members_role | members_remove | members_invite
  | campaigns_launch | campaigns_approve | campaigns_promote
  | connections_manage | externals_moderate.
Inductive CoalitionJoinRequestStatus := req_pending | req_invited | req_approved | req_declined | req_withdrawn.
Inductive CoalitionPlatform := plat_x | plat_bluesky | plat_discord | plat_instagram | plat_tiktok | plat_mastodon.
Inductive ConnectionAuthMode := auth_personal | auth_shared.
Inductive CoalitionSuccessionStatus := suc_open | suc_approved | suc_declined | suc_withdrawn.
Inductive CampaignType := type_drive | type_project | type_boost | type_mutual_aid | type_goods_drive.
Inductive CampaignStatus := st_draft | st_pending_approval | st_active | st_completed | st_cancelled.
Inductive ExternalReplyPolicy := reply_moderated | reply_open | reply_off.

#[global] Instance join_mode_eq : EqDecision CoalitionJoinMode.
Proof. solve_decision. Defined.
#[global] Instance role_eq : EqDecision CoalitionRole.
Proof. solve_decision. Defined.
#[global] Instance tier_eq : EqDecision CoalitionTierGate.
Proof. solve_decision. Defined.
#[global] Instance permission_eq : EqDecision CoalitionPermission.
Proof. solve_decision. Defined.
#[global] Instance request_status_eq : EqDecision CoalitionJoinRequestStatus.
Proof. solve_decision. Defined.
#[global] Instance platform_eq : EqDecision CoalitionPlatform.
Proof. solve_decision. Defined.
#[global] Instance auth_mode_eq : EqDecision ConnectionAuthMode.
Proof. solve_decision. Defined.
#[global] Instance succession_status_eq : EqDecision CoalitionSuccessionStatus.
Proof. solve_decision. Defined.
#[global] Instance campaign_type_eq : EqDecision CampaignType.
Proof. solve_decision. Defined.
#[global] Instance campaign_status_eq : EqDecision CampaignStatus.
Proof. solve_decision. Defined.
#[global] Instance reply_policy_eq : EqDecision ExternalReplyPolicy.
Proof. solve_decision. Defined.

#[export] Instance COALITION_JOIN_MODES : Enum CoalitionJoinMode := {|
  members := [join_open; join_approval];
  name m := match m with join_open => "open" | join_approval => "approval" end |}.

#[export] Instance COALITION_ROLES : Enum CoalitionRole := {|
  members := [founder; steward; griot; member];
  name r := match r with
            | founder => "founder" | steward => "steward" | griot => "griot" | member => "member"
            end |}.

#[export] Instance COALITION_TIER_GATES : Enum CoalitionTierGate := {|
  members := [tier_seedling; tier_sprout; tier_root; tier_canopy; tier_ancestor];
  name t := match t with
            | tier_seedling => "seedling" | tier_sprout => "sprout" | tier_root => "root"
            | tier_canopy => "canopy" | tier_ancestor => "ancestor"
            end |}.

#[export] Instance COALITION_PERMISSIONS : Enum CoalitionPermission := {|
  members := [coalition_succeed; coalition_edit; coalition_archive; members_approve;
              members_role; members_remove; members_invite; campaigns_launch;
              campaigns_approve; campaigns_promote; connections_manage; externals_moderate];
  name p := match p with
            | coalition_succeed => "coalition.succeed"
            | coalition_edit => "coalition.edit"
            | coalition_archive => "coalition.archive"
            | members_approve => "members.approve"
            | members_role => "members.role"
            | members_remove => "members.remove"
            | members_invite => "members.invite"
            | campaigns_launch => "campaigns.launch"
            | campaigns_approve => "campaigns.approve"
            | campaigns_promote => "campaigns.promote"
            | connections_manage => "connections.manage"
            | externals_moderate => "externals.moderate"
            end |}.

#[export] Instance COALITION_JOIN_REQUEST_STATUSES : Enum CoalitionJoinRequestStatus := {|
  members := [req_pending; req_invited; req_approved; req_declined; req_withdrawn];
  name s := match s with
            | req_pending => "pending" | req_invited => "invited" | req_approved => "approved"
            | req_declined => "declined" | req_withdrawn => "withdrawn"
            end |}.

#[export] Instance COALITION_PLATFORMS : Enum CoalitionPlatform := {|
  members := [plat_x; plat_bluesky; plat_discord; plat_instagram; plat_tiktok; plat_mastodon];
  name p := match p with
            | plat_x => "x" | plat_bluesky => "bluesky" | plat_discord => "discord"
            | plat_instagram => "instagram" | plat_tiktok => "tiktok" | plat_mastodon => "mastodon"
            end |}.

#[export] Instance CONNECTION_AUTH_MODES : Enum ConnectionAuthMode := {|
  members := [auth_personal; auth_shared];
  name m := match m with auth_personal => "personal" | auth_shared => "shared" end |}.

#[export] Instance COALITION_SUCCESSION_STATUSES : Enum CoalitionSuccessionStatus := {|
  members := [suc_open; suc_approved; suc_declined; suc_withdrawn];
  name s := match s with
            | suc_open => "open" | suc_approved => "approved"
            | suc_declined => "declined" | suc_withdrawn => "withdrawn"
            end |}.

#[export] Instance CAMPAIGN_TYPES : Enum CampaignType := {|
  members := [type_drive; type_project; type_boost; type_mutual_aid; type_goods_drive];
  name t := match t with
            | type_drive => "drive" | type_project => "project" | type_boost => "boost"
            | type_mutual_aid => "mutual_aid" | type_goods_drive => "goods_drive"
            end |}.

#[export] Instance CAMPAIGN_STATUSES : Enum CampaignStatus := {|
  members := [st_draft; st_pending_approval; st_active; st_completed; st_cancelled];
  name s := match s with
            | st_draft => "draft" | st_pending_approval => "pending_approval" | st_active => "active"
            | st_completed => "completed" | st_cancelled => "cancelled"
            end |}.

#[export] Instance EXTERNAL_REPLY_POLICIES : Enum ExternalReplyPolicy := {|
  members := [reply_moderated; reply_open; reply_off];
  name p := match p with reply_moderated => "moderated" | reply_open => "open" | reply_off => "off" end |}.

Definition isCoalitionRole : unknown -> bool := is_member CoalitionRole.
Definition isCoalitionJoinMode : unknown -> bool := is_member CoalitionJoinMode.
Definition isCoalitionTierGate : unknown -> bool := is_member CoalitionTierGate.
Definition isCoalitionJoinRequestStatus : unknown -> bool := is_member CoalitionJoinRequestStatus.
Definition isCoalitionPlatform : unknown -> bool := is_member CoalitionPlatform.
Definition isConnectionAuthMode : unknown -> bool := is_member ConnectionAuthMode.
Definition isCampaignType : unknown -> bool := is_member CampaignType.
Definition isCampaignStatus : unknown -> bool := is_member CampaignStatus.
Definition isExternalReplyPolicy : unknown -> bool := is_member ExternalReplyPolicy.

(** ** Roles and permissions *)

Definition COALITION_ROLE_POWER_LEVELS (r : CoalitionRole) : Z :=
  match r with founder => 100 | steward => 50 | griot => 25 | member => 0 end.

Definition STEWARD_PERMISSIONS : list CoalitionPermission :=
  [coalition_succeed; coalition_edit; members_approve; members_role; members_remove;
   members_invite; campaigns_launch; campaigns_approve; campaigns_promote;
   connections_manage; externals_moderate].

Definition COALITION_ROLE_PERMISSIONS (r : CoalitionRole) : list CoalitionPermission :=
  match r with
  | founder => members
  | steward => STEWARD_PERMISSIONS
  | griot => [campaigns_promote; members_invite]
  | member => []
  end.

Definition coalitionRoleCan (r : CoalitionRole) (p : CoalitionPermission) : bool :=
  bool_decide (p ∈ COALITION_ROLE_PERMISSIONS r).

Definition assignableRolesFor (actorRole : CoalitionRole) : list CoalitionRole :=
  match actorRole with
  | founder => [steward; griot; member]
  | steward => [griot; member]
  | _ => []
  end.

(** [COALITION_TIER_GATES.indexOf(t)] *)
Definition tier_index (t : CoalitionTierGate) : Z :=
  match t with tier_seedling => 0 | tier_sprout => 1 | tier_root => 2 | tier_canopy => 3 | tier_ancestor => 4 end.

Definition tierSatisfies (t : CoalitionTierGate) (gate : option CoalitionTierGate) : bool :=
  match gate with
  | None => true
  | Some g => bool_decide (tier_index g <= tier_index t)%Z
  end.

(** ** Join requirements *)

(** A requirement set as a founder submits it: the numbers are unchecked. *)
Record JoinRequirementsInput := {
  in_minAccountAgeDays : option jsnum;
  in_requireVerifiedEmail : option bool;
  in_minReputationScore : option jsnum;
  in_minCoalitionContributions : option jsnum;
}.

Record CoalitionJoinRequirements := {
  minAccountAgeDays : option Z;
  requireVerifiedEmail : bool;
  minReputationScore : option Z;
  minCoalitionContributions : option Z;
}.

Inductive CoalitionJoinRequirementKey :=
  | key_account_age | key_verified_email | key_reputation | key_contributions | key_tier.

Record CoalitionJoinRequirementCheck := {
  chk_key : CoalitionJoinRequirementKey;
  chk_met : bool;
  chk_unverified : bool;
  chk_required : string;
  chk_actual : option string;
}.

Definition unmetRequirements (checks : list CoalitionJoinRequirementCheck) :
    list CoalitionJoinRequirementCheck :=
  List.filter (fun c => negb (chk_met c)) checks.

(** The local [whole]: a finite number, floored, in [1..max]. *)
Definition whole (value : option jsnum) (max : Z) : option Z :=
  match value with
  | Some (JFin q) =>
      let n := js_floor q in
      if bool_decide (0 < n /\ n <= max)%Z then Some n else None
  | _ => None
  end.

Definition normalizeJoinRequirements (input : option JoinRequirementsInput) :
    option CoalitionJoinRequirements :=
  match input with
  | None => None
  | Some i =>
      let out := {|
        minAccountAgeDays := whole (in_minAccountAgeDays i) 3650;
        minReputationScore := whole (in_minReputationScore i) 1000000;
        minCoalitionContributions := whole (in_minCoalitionContributions i) 10000;
        requireVerifiedEmail := bool_decide (in_requireVerifiedEmail i = Some true);
      |} in
      match minAccountAgeDays out, minReputationScore out, minCoalitionContributions out,
            requireVerifiedEmail out with
      | None, None, None, false => None
      | _, _, _, _ => Some out
      end
  end.

(** Reading a stored requirement set back as founder input. *)
Definition as_input (r : CoalitionJoinRequirements) : JoinRequirementsInput := {|
  in_minAccountAgeDays := jint <$> minAccountAgeDays r;
  in_requireVerifiedEmail := if requireVerifiedEmail r then Some true else None;
  in_minReputationScore := jint <$> minReputationScore r;
  in_minCoalitionContributions := jint <$> minCoalitionContributions r;
|}.

(** ** Succession *)

Definition successionQuorum (eligibleStewards : Z) : Z :=
  Z.max 1 ((eligibleStewards + 1) / 2).

Definition successionQuorumMet (secondedBy : list string) (eligibleStewards : Z) : bool :=
  bool_decide (successionQuorum eligibleStewards <= Z.of_nat (length secondedBy))%Z.

(** ** The campaign graph *)

Definition CAMPAIGN_TRANSITIONS (s : CampaignStatus) : list CampaignStatus :=
  match s with
  | st_draft => [st_pending_approval; st_active; st_cancelled]
  | st_pending_approval => [st_active; st_draft; st_cancelled]
  | st_active => [st_completed; st_cancelled]
  | st_completed => []
  | st_cancelled => []
  end.

Definition canTransitionCampaign (from to : CampaignStatus) : bool :=
  bool_decide (to ∈ CAMPAIGN_TRANSITIONS from).

(** ** Boosts *)

Definition DEFAULT_COALITION_BOOST_DAILY_ALLOWANCE : Z := 3.

Definition boostAllowanceRemaining (boostsToday allowance : Z) : Z :=
  Z.max 0 (allowance - boostsToday).

(** An instant is a number of milliseconds since the epoch; [utcDayOf] keeps the
    date half of its ISO form, that is, the number of whole days. *)
Definition DAY_MS : Z := 86400000.
Definition utcDayOf (now : Z) : Z := now / DAY_MS.

Record BoostMeter := {
  meter_total : Z;
  meter_members : Z;
  last24h : Z;
  prev24h : Z;
  surgeFactor : Q;
  visibilityMultiplier : Q;
}.

(** [Number(q.toFixed(3))]: the nearest thousandth, ties up. *)
Definition to_fixed3 (q : Q) : Q := Qfloor (q * 1000 + (1 # 2)) # 1000.

Definition Qmax (a b : Q) : Q := if Qle_bool a b then b else a.
Definition Qmin (a b : Q) : Q := if Qle_bool a b then a else b.

(** A boost as the meter reads it: who and on which day. *)
Definition computeBoostMeter (boosts : list (string * Z)) (now : Z) : BoostMeter :=
  let today := utcDayOf now in
  let yesterday := utcDayOf (today * DAY_MS - DAY_MS) in
  let l := count_by (fun b => bool_decide (snd b = today)) boosts in
  let p := count_by (fun b => bool_decide (snd b = yesterday)) boosts in
  let n := Z.of_nat (length boosts) in
  let surge := Qmax 0 (Qmin 1 (inject_Z (l + 1) / inject_Z (l + p + 2)))%Q in
  let acceleration := (Qmax 0 (surge - (1 # 2)) * 2)%Q in
  let reach := Qmin (1 # 5) (inject_Z n / 50)%Q in
  {| meter_total := n;
     meter_members := Z.of_nat (length (remove_dups (map fst boosts)));
     last24h := l;
     prev24h := p;
     surgeFactor := surge;
     visibilityMultiplier := to_fixed3 (1 + (2 # 5) * acceleration + reach)%Q |}.

(** ** Impact *)

Record CoalitionImpactStats := {
  fundsRaisedCents : Z;
  drivesCompleted : Z;
  activeCampaigns : Z;
  memberCount : Z;
}.

(** The loop's running totals; a campaign is read as (type, status, raisedCents). *)
Definition impact_step (s : CoalitionImpactStats)
    (c : CampaignType * CampaignStatus * Z) : CoalitionImpactStats :=
  let '(ty, st, raised) := c in
  {| fundsRaisedCents := fundsRaisedCents s + raised;
     activeCampaigns := activeCampaigns s + (if decide (st = st_active) then 1 else 0);
     drivesCompleted := drivesCompleted s +
       (if bool_decide (st = st_completed) && bool_decide (0 < raised)%Z
           && (bool_decide (ty = type_drive) || bool_decide (ty = type_goods_drive))
        then 1 else 0);
     memberCount := memberCount s |}.

Definition summarizeCoalitionImpact (campaigns : list (CampaignType * CampaignStatus * Z))
    (members : Z) : CoalitionImpactStats :=
  fold_left impact_step campaigns
    {| fundsRaisedCents := 0; drivesCompleted := 0; activeCampaigns := 0;
       memberCount := members |}.

Definition countActiveCoalitionMembers (actives : list bool) : Z :=
  fold_left (fun n (a : bool) => n + (if a then 1 else 0))%Z actives 0%Z.

(** [ROLE_RANK] of [services/coalitionNetworkStore.ts]. *)
Definition ROLE_RANK (r : CoalitionRole) : Z :=
  match r with founder => 3 | steward => 2 | griot => 1 | member => 0 end.

(** ** Platforms: what is built, and what the terms permit *)

Record PlatformCapability := {
  apiPost : bool;
  adapter : bool;
  inbound : bool;
  cap_label : string;
  authModes : list ConnectionAuthMode;
}.

Definition COALITION_PLATFORM_CAPABILITIES (p : CoalitionPlatform) : PlatformCapability :=
  match p with
  | plat_x => {| apiPost := true; adapter := false; inbound := true; cap_label := "X";
                 authModes := [auth_shared; auth_personal] |}
  | plat_bluesky => {| apiPost := true; adapter := true; inbound := true;
                       cap_label := "Bluesky"; authModes := [auth_shared; auth_personal] |}
  | plat_discord => {| apiPost := true; adapter := true; inbound := true;
                       cap_label := "Discord"; authModes := [auth_shared] |}
  | plat_mastodon => {| apiPost := true; adapter := true; inbound := true;
                        cap_label := "Mastodon"; authModes := [auth_shared; auth_personal] |}
  | plat_instagram => {| apiPost := false; adapter := false; inbound := false;
                         cap_label := "Instagram"; authModes := [auth_shared; auth_personal] |}
  | plat_tiktok => {| apiPost := false; adapter := false; inbound := false;
                      cap_label := "TikTok"; authModes := [auth_shared; auth_personal] |}
  end.

Definition platformAllowsAuthMode (p : CoalitionPlatform) (m : ConnectionAuthMode) : bool :=
  bool_decide (m ∈ authModes (COALITION_PLATFORM_CAPABILITIES p)).

Inductive PlatformAutomationBasis :=
  | incoming_webhook | app_password | application_token | developer_agreement | basis_none.

Inductive AccessTier := tier_free | tier_paid | tier_application.

Record AgreementAcceptance := { acc_role : string; acc_on : string; acc_reference : string }.
Record PlatformRateLimit := { rl_posts : Z; rl_perSeconds : Z }.

Record CoalitionPlatformPolicy := {
  terms_name : string;
  terms_url : option string;
  automationBasis : PlatformAutomationBasis;
  accessTier : AccessTier;
  agreementRequired : bool;
  agreementAccepted : option AgreementAcceptance;
  rateLimit : option PlatformRateLimit;
}.

Definition COALITION_PLATFORM_POLICY (p : CoalitionPlatform) : CoalitionPlatformPolicy :=
  match p with
  | plat_x => {|
      terms_name := "X Developer Agreement and Policy";
      terms_url := Some "https://developer.x.com/en/developer-terms/agreement-and-policy";
      automationBasis := developer_agreement; accessTier := tier_paid;
      agreementRequired := true; agreementAccepted := None; rateLimit := None |}
  | plat_bluesky => {|
      terms_name := "Bluesky Social Terms of Service";
      terms_url := Some "https://bsky.social/about/support/tos";
      automationBasis := app_password; accessTier := tier_free;
      agreementRequired := false; agreementAccepted := None;
      rateLimit := Some {| rl_posts := 30; rl_perSeconds := 300 |} |}
  | plat_discord => {|
      terms_name := "Discord Developer Terms of Service";
      terms_url := Some "https://discord.com/developers/docs/policies-and-agreements/developer-terms-of-service";
      automationBasis := incoming_webhook; accessTier := tier_free;
      agreementRequired := false; agreementAccepted := None; rateLimit := None |}
  | plat_mastodon => {|
      terms_name := "The instance's own terms of service";
      terms_url := None;
      automationBasis := application_token; accessTier := tier_free;
      agreementRequired := false; agreementAccepted := None;
      rateLimit := Some {| rl_posts := 300; rl_perSeconds := 300 |} |}
  | plat_instagram => {|
      terms_name := "Instagram Terms of Use";
      terms_url := Some "https://help.instagram.com/581066165581870";
      automationBasis := basis_none; accessTier := tier_application;
      agreementRequired := false; agreementAccepted := None; rateLimit := None |}
  | plat_tiktok => {|
      terms_name := "TikTok Terms of Service";
      terms_url := Some "https://www.tiktok.com/legal/page/row/terms-of-service/en";
      automationBasis := basis_none; accessTier := tier_application;
      agreementRequired := false; agreementAccepted := None; rateLimit := None |}
  end.

Inductive PlatformAutomationBlocker := share_link_only | no_adapter | agreement_unsigned.

(** The three [push]es, in order. *)
Definition blockers_of (c : PlatformCapability) (p : CoalitionPlatformPolicy) :
    list PlatformAutomationBlocker :=
  (if negb (apiPost c) then [share_link_only] else []) ++
  (if apiPost c && negb (adapter c) then [no_adapter] else []) ++
  (if agreementRequired p && match agreementAccepted p with None => true | _ => false end
   then [agreement_unsigned] else []).

Definition platformAutomationBlockers (p : CoalitionPlatform) : list PlatformAutomationBlocker :=
  blockers_of (COALITION_PLATFORM_CAPABILITIES p) (COALITION_PLATFORM_POLICY p).

Definition platformCanAutomate (p : CoalitionPlatform) : bool :=
  bool_decide (length (platformAutomationBlockers p) = 0).

(** ** Theorems *)

Ltac enum_laws :=
  constructor; [intros []; simpl; tauto | intros [] []; simpl; (done || discriminate)].

#[export] Instance join_mode_laws : EnumLaws CoalitionJoinMode. Proof. enum_laws. Qed.
#[export] Instance role_laws : EnumLaws CoalitionRole. Proof. enum_laws. Qed.
#[export] Instance tier_laws : EnumLaws CoalitionTierGate. Proof. enum_laws. Qed.
#[export] Instance permission_laws : EnumLaws CoalitionPermission. Proof. enum_laws. Qed.
#[export] Instance request_status_laws : EnumLaws CoalitionJoinRequestStatus.
Proof. enum_laws. Qed.
#[export] Instance platform_laws : EnumLaws CoalitionPlatform. Proof. enum_laws. Qed.
#[export] Instance auth_mode_laws : EnumLaws ConnectionAuthMode. Proof. enum_laws. Qed.
#[export] Instance succession_laws : EnumLaws CoalitionSuccessionStatus.
Proof. enum_laws. Qed.
#[export] Instance campaign_type_laws : EnumLaws CampaignType. Proof. enum_laws. Qed.
#[export] Instance campaign_status_laws : EnumLaws CampaignStatus. Proof. enum_laws. Qed.
#[export] Instance reply_policy_laws : EnumLaws ExternalReplyPolicy. Proof. enum_laws. Qed.

(** A guard accepts exactly the spellings of its enumeration, each of which
    names one value. *)
Lemma is_member_iff `{EnumLaws T} v :
  is_member T v = true <-> exists t : T, v = UString (name t).
Proof.
  split.
  - destruct v as [s| | | | |]; simpl; try done. rewrite existsb_exists.
    intros (n & Hin & ->%String.eqb_eq). apply in_map_iff in Hin as (t & <- & _). by exists t.
  - intros [t ->]. simpl. apply existsb_exists. exists (name t).
    split; [apply in_map, members_all|apply String.eqb_refl].
Qed.

(** [isCoalitionRole], [isCampaignStatus] and the other [isX(value: unknown)]
    guards accept a value exactly when it is a string spelling one member of the
    enumeration, and that member is unique. *)
Lemma enum_guards_exact v :
  (isCoalitionRole v = true <-> exists! r : CoalitionRole, v = UString (name r)) /\
  (isCoalitionJoinMode v = true <-> exists! m : CoalitionJoinMode, v = UString (name m)) /\
  (isCoalitionTierGate v = true <-> exists! t : CoalitionTierGate, v = UString (name t)) /\
  (isCoalitionPlatform v = true <-> exists! p : CoalitionPlatform, v = UString (name p)) /\
  (isCampaignStatus v = true <-> exists! s : CampaignStatus, v = UString (name s)).
Proof.
  unfold isCoalitionRole, isCoalitionJoinMode, isCoalitionTierGate, isCoalitionPlatform,
    isCampaignStatus. rewrite !is_member_iff.
  assert (Hu : forall (T : Type) (HE : Enum T) (HL : EnumLaws T),
    (exists t : T, v = UString (name t)) <-> (exists! t : T, v = UString (name t))).
  { intros T HE HL. split; [|intros (t & Ht & _); by exists t].
    intros [t Ht]. exists t. split; [done|]. intros u Hu. apply name_inj. congruence. }
  exact (conj (Hu _ _ _) (conj (Hu _ _ _) (conj (Hu _ _ _) (conj (Hu _ _ _) (Hu _ _ _))))).
Qed.

Lemma can_iff r p : coalitionRoleCan r p = true <-> p ∈ COALITION_ROLE_PERMISSIONS r.
Proof. apply bool_decide_eq_true. Qed.

(** The permission matrix is monotone in rank (a higher role can do
    everything a lower one can), the founder can do everything, archiving is the
    founder's alone, and the roles an actor may hand out rank strictly below the
    actor's own, so the founder role is never assignable. *)
Theorem role_matrix_monotone :
  (forall r r' p, (ROLE_RANK r <= ROLE_RANK r')%Z ->
     coalitionRoleCan r p = true -> coalitionRoleCan r' p = true) /\
  (forall p, coalitionRoleCan founder p = true) /\
  (forall r, coalitionRoleCan r coalition_archive = true -> r = founder) /\
  (forall actor r, r ∈ assignableRolesFor actor ->
     (ROLE_RANK r < ROLE_RANK actor)%Z /\ r <> founder /\
     coalitionRoleCan actor members_role = true).
Proof.
  split_and!.
  - intros [] [] [] Hr; simpl in Hr; try lia; vm_compute; done.
  - intros []; vm_compute; done.
  - intros []; vm_compute; done.
  - intros [] []; simpl; rewrite ?elem_of_cons, ?elem_of_nil; intros H;
      repeat destruct H as [H|H]; try done; split_and!; (lia || done || by vm_compute).
Qed.

Lemma whole_spec v max n :
  whole v max = Some n -> (0 < n <= max)%Z /\ whole (Some (jint n)) max = Some n.
Proof.
  unfold whole. destruct v as [[q| |]|]; try done. unfold jint, js_floor.
  destruct (bool_decide _) eqn:E; [|done]. intros [= <-].
  apply bool_decide_eq_true in E. rewrite Qfloor_Z. split; [done|].
  by rewrite bool_decide_eq_true_2.
Qed.

Lemma whole_idem v max : whole (jint <$> whole v max) max = whole v max.
Proof.
  destruct (whole v max) as [n|] eqn:E; [|done]. simpl. by apply whole_spec in E as [_ ?].
Qed.

(** Normalising founder input yields only thresholds inside their
    documented ranges, never an empty requirement set, and normalising the stored
    form again changes nothing. *)
Theorem normalizeJoinRequirements_sound i r :
  normalizeJoinRequirements i = Some r ->
  (forall n, minAccountAgeDays r = Some n -> (0 < n <= 3650)%Z) /\
  (forall n, minReputationScore r = Some n -> (0 < n <= 1000000)%Z) /\
  (forall n, minCoalitionContributions r = Some n -> (0 < n <= 10000)%Z) /\
  (requireVerifiedEmail r = true \/ minAccountAgeDays r <> None \/
   minReputationScore r <> None \/ minCoalitionContributions r <> None) /\
  normalizeJoinRequirements (Some (as_input r)) = Some r.
Proof.
  destruct i as [i|]; [|done]. simpl. intros H.
  assert (Hr : r = {|
     minAccountAgeDays := whole (in_minAccountAgeDays i) 3650;
     minReputationScore := whole (in_minReputationScore i) 1000000;
     minCoalitionContributions := whole (in_minCoalitionContributions i) 10000;
     requireVerifiedEmail := bool_decide (in_requireVerifiedEmail i = Some true) |}).
  { repeat case_match; simplify_eq; done. }
  split_and!.
  - intros n Hn. rewrite Hr in Hn. by apply whole_spec in Hn as [? _].
  - intros n Hn. rewrite Hr in Hn. by apply whole_spec in Hn as [? _].
  - intros n Hn. rewrite Hr in Hn. by apply whole_spec in Hn as [? _].
  - rewrite Hr. simpl. repeat case_match; naive_solver.
  - rewrite Hr in H |- *. simpl in *. rewrite !whole_idem.
    destruct (bool_decide (in_requireVerifiedEmail i = Some true)); exact H.
Qed.

Lemma normalizeJoinRequirements_sound_witness :
  let i := {| in_minAccountAgeDays := Some (JFin (61 # 2)); in_requireVerifiedEmail := Some false;
              in_minReputationScore := Some JNaN; in_minCoalitionContributions := Some (jint 20000) |} in
  let r := {| minAccountAgeDays := Some 30%Z; requireVerifiedEmail := false;
              minReputationScore := None; minCoalitionContributions := None |} in
  normalizeJoinRequirements (Some i) = Some r /\
  normalizeJoinRequirements (Some (as_input r)) = Some r.
Proof.
  intros i r. assert (H : normalizeJoinRequirements (Some i) = Some r) by reflexivity.
  split; [exact H|]. exact (proj2 (proj2 (proj2 (proj2 (normalizeJoinRequirements_sound _ _ H))))).
Defined.

(** The quorum is the least positive number of seconds that is at
    least half of the eligible stewards. *)
Theorem successionQuorum_least n q :
  (0 <= n)%Z ->
  (successionQuorum n <= q <-> 1 <= q /\ n <= 2 * q)%Z.
Proof. unfold successionQuorum. intros Hn. Z.div_mod_to_equations. lia. Qed.

Lemma successionQuorum_least_witness :
  (0 <= 5)%Z /\ (successionQuorum 5 <= 3 <-> 1 <= 3 /\ 5 <= 2 * 3)%Z.
Proof. split; [lia|]. apply (successionQuorum_least 5 3). lia. Defined.

(** The quorum is not a majority: whenever the number of eligible
    stewards is even and positive, exactly half of them meet it. *)
Theorem successionQuorum_half_suffices k backers :
  (1 <= k)%Z -> Z.of_nat (length backers) = k ->
  successionQuorumMet backers (2 * k) = true.
Proof.
  intros Hk Hl. unfold successionQuorumMet. apply bool_decide_eq_true.
  apply successionQuorum_least; lia.
Qed.

Lemma successionQuorum_half_suffices_witness :
  (1 <= 2)%Z /\ successionQuorumMet ["ada"; "bea"] (2 * 2) = true.
Proof. split; [lia|]. apply (successionQuorum_half_suffices 2); [lia|reflexivity]. Defined.

(** ** The campaign life cycle *)

(** One permitted move of [CAMPAIGN_TRANSITIONS]. *)
Definition campaign_move (s t : CampaignStatus) : Prop := canTransitionCampaign s t = true.

(** Launched: active or past it. *)
Definition launched (s : CampaignStatus) : Prop := s = st_active \/ s = st_completed.

Definition closed (s : CampaignStatus) : Prop := s = st_completed \/ s = st_cancelled.

Lemma campaign_move_iff s t : campaign_move s t <-> t ∈ CAMPAIGN_TRANSITIONS s.
Proof. apply bool_decide_eq_true. Qed.

Lemma closed_final s t : closed s -> rtc campaign_move s t -> t = s.
Proof.
  intros Hs. inversion 1 as [|? u ? Hm]; subst; [done|].
  destruct Hs as [-> | ->]; destruct u; done.
Qed.

(** Along any sequence of permitted transitions a closed campaign
    never moves again, a launched one never returns to draft or approval, every
    status reached is left only by a permitted move, and from every status a
    closed one can be reached (no campaign is trapped). *)
Theorem campaign_lifecycle s t :
  rtc campaign_move s t ->
  (closed s -> t = s) /\
  (launched s -> t <> st_draft /\ t <> st_pending_approval) /\
  (exists u, rtc campaign_move t u /\ closed u).
Proof.
  intros Hst. split_and!.
  - intros Hs. by eapply closed_final.
  - induction Hst as [s|s u t Hsu Hut IH]; [intros [-> | ->]; done|].
    intros Hs. destruct Hs as [-> | ->]; [|destruct u; done].
    destruct u; try done; [apply IH; by right|].
    apply closed_final in Hut; [by subst|by right].
  - exists (match t with st_completed => st_completed | _ => st_cancelled end).
    split; [|destruct t; first [by left | by right]].
    destruct t; try reflexivity; apply rtc_once; reflexivity.
Qed.

Lemma campaign_lifecycle_witness :
  rtc campaign_move st_pending_approval st_completed /\
  (exists u, rtc campaign_move st_completed u /\ closed u).
Proof.
  assert (H : rtc campaign_move st_pending_approval st_completed).
  { eapply rtc_l; [|apply rtc_once]; [instantiate (1 := st_active)|]; reflexivity. }
  split; [exact H|]. exact (proj2 (proj2 (campaign_lifecycle _ _ H))).
Defined.

(** ** The boost meter *)

Lemma Qmax_spec a b : (a <= Qmax a b)%Q /\ (b <= Qmax a b)%Q /\ (Qmax a b = a \/ Qmax a b = b).
Proof.
  unfold Qmax. destruct (Qle_bool a b) eqn:E.
  - apply Qle_bool_iff in E. split_and!; [done|apply Qle_refl|by right].
  - split_and!; [apply Qle_refl| |by left]. apply Qlt_le_weak, Qnot_le_lt.
    intros H%Qle_bool_iff. congruence.
Qed.

Lemma Qmin_spec a b : (Qmin a b <= a)%Q /\ (Qmin a b <= b)%Q /\ (Qmin a b = a \/ Qmin a b = b).
Proof.
  unfold Qmin. destruct (Qle_bool a b) eqn:E.
  - apply Qle_bool_iff in E. split_and!; [apply Qle_refl|done|by left].
  - split_and!; [|apply Qle_refl|by right]. apply Qlt_le_weak, Qnot_le_lt.
    intros H%Qle_bool_iff. congruence.
Qed.

Lemma Qfloor_between q lo hi :
  (inject_Z lo <= q)%Q -> (q < inject_Z hi + 1)%Q -> (lo <= Qfloor q <= hi)%Z.
Proof.
  intros Hlo Hhi. split.
  - rewrite <-(Qfloor_Z lo). by apply Qfloor_resp_le.
  - pose proof (Qfloor_le q) as Hf. assert (inject_Z (Qfloor q) < inject_Z (hi + 1))%Q as H.
    { rewrite inject_Z_plus. eapply Qle_lt_trans; [exact Hf|exact Hhi]. }
    rewrite <-Zlt_Qlt in H. lia.
Qed.

Lemma to_fixed3_between q : (1 <= q)%Q -> (q <= 8 # 5)%Q ->
  (1 <= to_fixed3 q)%Q /\ (to_fixed3 q <= 8 # 5)%Q.
Proof.
  intros H1 H2. unfold to_fixed3.
  assert (1000 <= Qfloor (q * 1000 + (1 # 2)) <= 1600)%Z as Hf.
  { apply Qfloor_between; [change (inject_Z 1000) with (1000 # 1)%Q|
      change (inject_Z 1600) with (1600 # 1)%Q]; lra. }
  revert Hf. generalize (Qfloor (q * 1000 + (1 # 2))). intros f Hf. split; unfold Qle; simpl; lia.
Qed.

(** The boost meter's surge factor lies in [0, 1] and its visibility
    multiplier in [1, 1.6]; a campaign nobody boosted sits at exactly 1, so
    boosting can never rank a campaign below one that was never boosted. *)
Theorem computeBoostMeter_bounds boosts now :
  let m := computeBoostMeter boosts now in
  (0 <= surgeFactor m)%Q /\ (surgeFactor m <= 1)%Q /\
  (1 <= visibilityMultiplier m)%Q /\ (visibilityMultiplier m <= 8 # 5)%Q /\
  (visibilityMultiplier (computeBoostMeter [] now) == 1)%Q /\
  (last24h m + prev24h m <= meter_total m)%Z.
Proof.
  set (m := computeBoostMeter boosts now). unfold m, computeBoostMeter. simpl.
  set (l := count_by _ boosts). set (p := count_by _ boosts).
  set (r := (inject_Z (l + 1) / inject_Z (l + p + 2))%Q).
  destruct (Qmin_spec 1 r) as (Hm1 & _ & _). set (mr := Qmin 1 r) in *.
  destruct (Qmax_spec 0 mr) as (Hx0 & _ & Hx).
  assert (Hs1 : (Qmax 0 mr <= 1)%Q) by (destruct Hx as [-> | ->]; [lra|done]).
  set (s := Qmax 0 mr) in *.
  destruct (Qmax_spec 0 (s - (1 # 2))) as (Ha0 & _ & Ha).
  assert (Ha1 : (Qmax 0 (s - (1 # 2)) <= 1 # 2)%Q) by (destruct Ha as [-> | ->]; lra).
  set (a := Qmax 0 (s - (1 # 2))) in *.
  set (n := inject_Z (Z.of_nat (length boosts))).
  assert (Hn : (0 <= n / 50)%Q).
  { apply Qle_shift_div_l; [done|]. unfold n.
    change (0 * 50)%Q with (inject_Z 0). rewrite <-Zle_Qle. lia. }
  destruct (Qmin_spec (1 # 5) (n / 50)) as (Hr1 & _ & Hr).
  assert (Hr0 : (0 <= Qmin (1 # 5) (n / 50))%Q) by (destruct Hr as [-> | ->]; [lra|done]).
  set (re := Qmin (1 # 5) (n / 50)) in *.
  destruct (to_fixed3_between (1 + (2 # 5) * (a * 2) + re)) as [Hv1 Hv2]; [lra..|].
  split_and!; try done.
  unfold l, p, n. rewrite !count_by_filter. clear.
  set (t := utcDayOf now). assert (Hy : utcDayOf (t * DAY_MS - DAY_MS) = (t - 1)%Z).
  { unfold utcDayOf, DAY_MS. Z.div_mod_to_equations. lia. }
  rewrite Hy. induction boosts as [|b bs IH]; simpl; [lia|].
  repeat case_bool_decide; simpl; lia.
Qed.

(** ** Impact totals *)

(** The impact loop computes the declarative totals: money raised
    over all campaigns, the number of active ones, and the completed drives that
    raised something. *)
Theorem summarizeCoalitionImpact_totals campaigns n :
  summarizeCoalitionImpact campaigns n = {|
    fundsRaisedCents := sum_by (fun c => snd c) campaigns;
    activeCampaigns := count_by (fun c => bool_decide (snd (fst c) = st_active)) campaigns;
    drivesCompleted := count_by (fun c =>
      bool_decide (snd (fst c) = st_completed) && bool_decide (0 < snd c)%Z &&
      (bool_decide (fst (fst c) = type_drive) || bool_decide (fst (fst c) = type_goods_drive)))
      campaigns;
    memberCount := n |}.
Proof.
  unfold summarizeCoalitionImpact.
  assert (H : forall s, fold_left impact_step campaigns s = {|
    fundsRaisedCents := fundsRaisedCents s + sum_by (fun c => snd c) campaigns;
    activeCampaigns := activeCampaigns s +
      count_by (fun c => bool_decide (snd (fst c) = st_active)) campaigns;
    drivesCompleted := drivesCompleted s + count_by (fun c =>
      bool_decide (snd (fst c) = st_completed) && bool_decide (0 < snd c)%Z &&
      (bool_decide (fst (fst c) = type_drive) || bool_decide (fst (fst c) = type_goods_drive)))
      campaigns;
    memberCount := memberCount s |}%Z).
  { induction campaigns as [|[[ty st] raised] cs IH]; intros s; simpl.
    - destruct s; unfold count_by, sum_by; simpl. f_equal; lia.
    - rewrite IH. unfold count_by, impact_step. rewrite !sum_by_cons. simpl.
      f_equal; repeat case_match; try case_bool_decide; try lia; congruence. }
  rewrite H. simpl. done.
Qed.

(** Of the six platforms exactly Bluesky, Discord and Mastodon are
    automatable; no platform without programmatic posting, without an adapter, or
    with an unaccepted required agreement ever is; and a personal credential is
    refused for Discord only. *)
Theorem platform_automation p m :
  (platformCanAutomate p = true <-> p ∈ [plat_bluesky; plat_discord; plat_mastodon]) /\
  (platformCanAutomate p = true ->
     apiPost (COALITION_PLATFORM_CAPABILITIES p) = true /\
     adapter (COALITION_PLATFORM_CAPABILITIES p) = true /\
     (agreementRequired (COALITION_PLATFORM_POLICY p) = true ->
      agreementAccepted (COALITION_PLATFORM_POLICY p) <> None)) /\
  (platformAllowsAuthMode p m = false <-> p = plat_discord /\ m = auth_personal).
Proof.
  split; [|split].
  - rewrite <-(bool_decide_eq_true (p ∈ _)). by destruct p; vm_compute.
  - destruct p; vm_compute; naive_solver.
  - destruct p, m; vm_compute; naive_solver.
Qed.
