(* ===== verification/Money.v ===== *)
(** * Money: commissions and payee splits

    [packages/core/src/marketplace/fees.ts], and [campaignPayeeSharesAreValid] and
    [allocatePayeeCents] of [packages/core/src/coalition/coalitionNetwork.ts].
    Amounts are whole cents; JavaScript computes the products below exactly as
    long as they stay under 2^53, which is where the model applies. *)

From S2P Require Import Prelude.

(** ** Provider fees *)

Inductive MarketplaceProviderId :=
  | freeblackmarket | blamazon | mayhem_marketplaze | antin_amazon.

Inductive PayoutCadence := weekly | monthly.

Record MarketplaceProviderFeeSchedule := {
  fee_providerId : MarketplaceProviderId;
  feeBps : Z;
  processingHandledByProvider : bool;
  payoutCadence : PayoutCadence;
  displayFeePercent : Z;
}.

Definition marketplaceProviderFees (p : MarketplaceProviderId) : MarketplaceProviderFeeSchedule :=
  match p with
  | freeblackmarket => {|
      fee_providerId := freeblackmarket; feeBps := 300;
      processingHandledByProvider := true; payoutCadence := weekly; displayFeePercent := 3 |}
  | blamazon => {|
      fee_providerId := blamazon; feeBps := 1500;
      processingHandledByProvider := true; payoutCadence := weekly; displayFeePercent := 15 |}
  | mayhem_marketplaze => {|
      fee_providerId := mayhem_marketplaze; feeBps := 1200;
      processingHandledByProvider := true; payoutCadence := weekly; displayFeePercent := 12 |}
  | antin_amazon => {|
      fee_providerId := antin_amazon; feeBps := 2000;
      processingHandledByProvider := true; payoutCadence := monthly; displayFeePercent := 20 |}
  end.

(** [isValidFeeBps], returning the integer the number is. *)
Definition valid_fee (bps : jsnum) : option Z :=
  match as_integer bps with
  | Some n => if bool_decide (0 <= n /\ n <= 10000)%Z then Some n else None
  | None => None
  end.

Definition isValidFeeBps (bps : jsnum) : bool :=
  match valid_fee bps with Some _ => true | None => false end.

Definition resolveListingFeeBps (p : MarketplaceProviderId) (feeBpsOverride : option jsnum)
    (overrideAllowed : bool) : Z :=
  let base := feeBps (marketplaceProviderFees p) in
  match (if overrideAllowed then feeBpsOverride else None) with
  | Some bps => match valid_fee bps with Some n => n | None => base end
  | None => base
  end.

Inductive RangeError := gross_not_non_negative_integer | override_out_of_range.

Record PlatformCommissionSplit := {
  grossCents : Z;
  feeCents : Z;
  netCents : Z;
  split_feeBps : Z;
  split_providerId : MarketplaceProviderId;
}.

(** [Math.round(n / 10_000)]: ties go up. *)
Definition round_bps (n : Z) : Z := (2 * n + 10000) / 20000.

(** Throws become the left side. *)
Definition computePlatformCommission (gross : jsnum) (p : MarketplaceProviderId)
    (feeBpsOverride : option jsnum) : res RangeError PlatformCommissionSplit :=
  match as_integer gross with
  | None => Err gross_not_non_negative_integer
  | Some g =>
      if bool_decide (g < 0)%Z then Err gross_not_non_negative_integer
      else match feeBpsOverride with
           | Some o =>
               match valid_fee o with
               | None => Err override_out_of_range
               | Some bps =>
                   let fee := round_bps (g * bps) in
                   Ok {| grossCents := g; feeCents := fee; netCents := g - fee;
                         split_feeBps := bps; split_providerId := p |}
               end
           | None =>
               let bps := feeBps (marketplaceProviderFees p) in
               let fee := round_bps (g * bps) in
               Ok {| grossCents := g; feeCents := fee; netCents := g - fee;
                     split_feeBps := bps; split_providerId := p |}
           end
  end.

(** ** Payee shares *)

Definition CAMPAIGN_PAYEE_BPS_DENOMINATOR : Z := 10000.

(** The running sum over the active shares, or [None] at the first one that is
    not a non-negative integer. *)
Fixpoint share_total (shares : list jsnum) : option Z :=
  match shares with
  | [] => Some 0%Z
  | s :: rest =>
      match as_integer s, share_total rest with
      | Some n, Some t => if bool_decide (0 <= n)%Z then Some (n + t)%Z else None
      | _, _ => None
      end
  end.

(** A payee as the check reads it: share and active flag. *)
Definition campaignPayeeSharesAreValid (payees : list (jsnum * bool)) : bool :=
  let act := List.filter (fun p => snd p) payees in
  match act with
  | [] => false
  | _ => bool_decide (share_total (map fst act) = Some CAMPAIGN_PAYEE_BPS_DENOMINATOR)
  end.

Record payee_share := { ps_userId : string; ps_shareBps : Z; ps_active : bool }.

(** One object of the [exact] array.  [order] holds references to the same
    objects, so the increments of the loop are seen through [exact]. *)
Record share_entry := { se_userId : string; se_floor : Z; se_remainder : Z }.

Definition bump (e : share_entry) : share_entry :=
  {| se_userId := se_userId e; se_floor := se_floor e + 1; se_remainder := se_remainder e |}.

Definition exact_shares (net : Z) (act : list payee_share) : list share_entry :=
  map (fun p => {| se_userId := ps_userId p;
                   se_floor := (net * ps_shareBps p) / CAMPAIGN_PAYEE_BPS_DENOMINATOR;
                   se_remainder := (net * ps_shareBps p) mod CAMPAIGN_PAYEE_BPS_DENOMINATOR |}) act.

Definition remainder_at (heap : list share_entry) (i : nat) : Z :=
  match heap !! i with Some e => se_remainder e | None => 0%Z end.

(** [[...exact].sort((a, b) => b.remainder - a.remainder)], as references. *)
Definition by_remainder (heap : list share_entry) : list nat :=
  js_sort (fun i j => bool_decide (remainder_at heap j <= remainder_at heap i)%Z)
    (seq 0 (length heap)).

(** The loop over [order]. *)
Fixpoint hand_out (order : list nat) (left : Z) (heap : list share_entry) : list share_entry :=
  match order with
  | [] => heap
  | i :: rest =>
      if bool_decide (left <= 0)%Z then heap
      else hand_out rest (left - 1) (alter bump i heap)
  end.

Definition allocatePayeeCents (net : Z) (payees : list payee_share) : list (string * Z) :=
  let act := List.filter ps_active payees in
  if bool_decide (length act = 0 \/ (net <= 0)%Z) then []
  else
    let exact := exact_shares net act in
    let left := (net - sum_by se_floor exact)%Z in
    map (fun e => (se_userId e, se_floor e)) (hand_out (by_remainder exact) left exact).

(** ** Theorems: commissions *)

Lemma as_integer_jint z : as_integer (jint z) = Some z.
Proof. unfold as_integer, jint. rewrite Qfloor_Z. by rewrite Qeq_bool_refl. Qed.

Lemma valid_fee_range b n : valid_fee b = Some n -> (0 <= n <= 10000)%Z.
Proof. unfold valid_fee. destruct (as_integer b); [|done]. case_bool_decide; naive_solver. Qed.

Lemma round_bps_bounds g bps :
  (0 <= g)%Z -> (0 <= bps <= 10000)%Z -> (0 <= round_bps (g * bps) <= g)%Z.
Proof.
  intros Hg Hb. unfold round_bps. assert (0 <= g * bps <= g * 10000)%Z by nia.
  Z.div_mod_to_equations. lia.
Qed.

Lemma round_bps_half n : (-10000 <= 20000 * round_bps n - 2 * n <= 10000)%Z.
Proof. unfold round_bps. Z.div_mod_to_equations. lia. Qed.

Lemma provider_fee_range p : (0 <= feeBps (marketplaceProviderFees p) <= 10000)%Z.
Proof. destruct p; simpl; lia. Qed.

Lemma computePlatformCommission_override g p o bps :
  valid_fee o = Some bps -> (0 <= g)%Z ->
  forall gross, as_integer gross = Some g ->
  computePlatformCommission gross p (Some o) =
  Ok {| grossCents := g; feeCents := round_bps (g * bps); netCents := g - round_bps (g * bps);
        split_feeBps := bps; split_providerId := p |}.
Proof.
  intros Hv Hg gross E. unfold computePlatformCommission. rewrite E, Hv, bool_decide_eq_false_2 by lia. done.
Qed.

Lemma computePlatformCommission_refused gross p o :
  (forall g, as_integer gross = Some g -> (g < 0)%Z) ->
  computePlatformCommission gross p o = Err gross_not_non_negative_integer.
Proof.
  intros H. unfold computePlatformCommission. destruct (as_integer gross) as [g|]; [|done].
  by rewrite bool_decide_eq_true_2 by auto.
Qed.

(** Every split is the rate applied to a gross amount in whole cents. *)
Lemma commission_split gross p o s :
  computePlatformCommission gross p o = Ok s ->
  as_integer gross = Some (grossCents s) /\ (0 <= grossCents s)%Z /\ (0 <= split_feeBps s <= 10000)%Z /\
  feeCents s = round_bps (grossCents s * split_feeBps s) /\ netCents s = (grossCents s - feeCents s)%Z /\
  split_feeBps s = match o with Some b => match valid_fee b with Some n => n | None => 0%Z end
                              | None => feeBps (marketplaceProviderFees p) end.
Proof.
  unfold computePlatformCommission. destruct (as_integer gross) as [g|] eqn:Eg; [|done].
  case_bool_decide as Hg; [done|]. destruct o as [o|].
  - destruct (valid_fee o) as [bps|] eqn:Ev; [|done]. intros [= <-]. pose proof (valid_fee_range _ _ Ev).
    split_and!; simpl; try done; lia.
  - intros [= <-]. pose proof (provider_fee_range p). split_and!; simpl; try done; lia.
Qed.

(** What the rounding leaves: fee and net are both between zero and the gross. *)
Lemma commission_bounds gross p o s :
  computePlatformCommission gross p o = Ok s -> (0 <= feeCents s <= grossCents s)%Z /\ (0 <= netCents s <= grossCents s)%Z.
Proof.
  intros (_ & Hg & Hb & Ef & En & _)%commission_split.
  pose proof (round_bps_bounds (grossCents s) (split_feeBps s) Hg Hb). lia.
Qed.

(** A commission split loses and invents nothing: fee and net add up
    to the gross, both are between zero and the gross, and the fee is the exact
    rate rounded to the nearest cent. *)
Theorem computePlatformCommission_conserves gross p o s :
  computePlatformCommission gross p o = Ok s ->
  as_integer gross = Some (grossCents s) /\
  (feeCents s + netCents s = grossCents s)%Z /\
  (0 <= feeCents s <= grossCents s)%Z /\ (0 <= netCents s)%Z /\
  (-10000 <= 20000 * feeCents s - 2 * (grossCents s * split_feeBps s) <= 10000)%Z.
Proof.
  intros E. pose proof (commission_bounds _ _ _ _ E) as Hb. apply commission_split in E as (Eg & Hg & Hr & Ef & En & _).
  pose proof (round_bps_half (grossCents s * split_feeBps s)). split_and!; try done; lia.
Qed.

Lemma computePlatformCommission_conserves_witness :
  exists s, computePlatformCommission (jint 1050) freeblackmarket None = Ok s /\
            (feeCents s + netCents s = grossCents s)%Z /\ feeCents s = 32%Z.
Proof.
  eexists. split; [reflexivity|]. split; [|reflexivity].
  exact (proj1 (proj2 (computePlatformCommission_conserves (jint 1050) freeblackmarket None _ eq_refl))).
Defined.

(** ** Theorems: the payee split *)

Lemma hand_out_length order left heap : length (hand_out order left heap) = length heap.
Proof.
  revert left heap. induction order as [|i rest IH]; intros left heap; simpl; [done|].
  case_bool_decide; [done|]. by rewrite IH, length_alter.
Qed.

Lemma hand_out_lookup order left heap j :
  List.NoDup order ->
  hand_out order left heap !! j =
  (if bool_decide (j ∈ take (Z.to_nat left) order) then bump <$> heap !! j else heap !! j).
Proof.
  revert left heap. induction order as [|i rest IH]; intros left heap Hnd; simpl.
  { by rewrite take_nil. }
  inversion Hnd as [|? ? Hni Hnd']; subst. case_bool_decide as Hl.
  { replace (Z.to_nat left) with 0 by lia. done. }
  rewrite IH by done.
  replace (Z.to_nat left) with (S (Z.to_nat (left - 1))) by lia. simpl.
  destruct (decide (i = j)) as [->|Hne].
  - rewrite list_lookup_alter_eq. rewrite (bool_decide_eq_true_2 (j ∈ j :: _)) by (by left).
    rewrite bool_decide_eq_false_2; [done|].
    intros (n & Hn & _)%elem_of_take. apply Hni, list_elem_of_In. by eapply list_elem_of_lookup_2.
  - rewrite list_lookup_alter_ne by done.
    destruct (bool_decide (j ∈ take (Z.to_nat (left - 1)) rest)) eqn:E.
    + apply bool_decide_eq_true in E. rewrite bool_decide_eq_true_2; [done|by right].
    + apply bool_decide_eq_false in E. rewrite bool_decide_eq_false_2; [done|].
      intros [->|?]%elem_of_cons; done.
Qed.

Lemma sum_by_alter_bump i heap :
  i < length heap -> sum_by se_floor (alter bump i heap) = (sum_by se_floor heap + 1)%Z.
Proof.
  revert i. induction heap as [|e heap IH]; intros i Hi; simpl in *; [lia|].
  destruct i as [|i].
  - change (alter bump 0 (e :: heap)) with (bump e :: heap). rewrite !sum_by_cons. simpl. lia.
  - change (alter bump (S i) (e :: heap)) with (e :: alter bump i heap).
    rewrite !sum_by_cons, IH by lia. lia.
Qed.

Lemma hand_out_sum order left heap :
  Forall (fun i => i < length heap) order ->
  sum_by se_floor (hand_out order left heap) =
  (sum_by se_floor heap + Z.min (Z.max 0 left) (Z.of_nat (length order)))%Z.
Proof.
  revert left heap. induction order as [|i rest IH]; intros left heap Hall; simpl; [lia|].
  inversion Hall as [|? ? Hi Hr]; subst. case_bool_decide; [lia|].
  rewrite IH by (by rewrite length_alter). rewrite sum_by_alter_bump by done. lia.
Qed.

Section order.
Context (heap : list share_entry).
Let n := length heap.

Lemma by_remainder_perm : Permutation (by_remainder heap) (seq 0 n).
Proof. apply js_sort_perm. Qed.

Lemma by_remainder_NoDup : List.NoDup (by_remainder heap).
Proof.
  eapply Permutation_NoDup; [symmetry; apply by_remainder_perm|apply seq_NoDup].
Qed.

Lemma by_remainder_range : Forall (fun i => i < n) (by_remainder heap).
Proof. rewrite by_remainder_perm. apply Forall_seq. lia. Qed.

Lemma by_remainder_sorted :
  StronglySorted (fun i j => remainder_at heap j <= remainder_at heap i)%Z (by_remainder heap).
Proof.
  assert (H : StronglySorted (fun i j =>
    bool_decide (remainder_at heap j <= remainder_at heap i)%Z = true) (by_remainder heap)).
  { apply js_sort_sorted.
    - intros i j. rewrite !bool_decide_eq_true. lia.
    - intros i j k. rewrite !bool_decide_eq_true. lia. }
  induction H as [|i l _ IH Hall]; constructor; [done|].
  eapply Forall_impl; [exact Hall|]. intros j. apply bool_decide_eq_true.
Qed.

Lemma sum_remainders :
  sum_by se_remainder heap = sum_by (remainder_at heap) (by_remainder heap).
Proof.
  rewrite (sum_by_perm _ _ _ by_remainder_perm). unfold n.
  assert (H : forall h pre, sum_by se_remainder h =
    sum_by (remainder_at (pre ++ h)) (seq (length pre) (length h))).
  { clear. induction h as [|e h IH]; intros pre; simpl; [done|].
    rewrite !sum_by_cons. f_equal.
    - unfold remainder_at. rewrite lookup_app_r by lia. by rewrite Nat.sub_diag.
    - rewrite (IH (pre ++ [e])), length_app, <-app_assoc. simpl. do 2 f_equal. lia. }
  apply (H heap []).
Qed.
End order.

Lemma sorted_lookup {A} (R : A -> A -> Prop) l i j a b :
  StronglySorted R l -> l !! i = Some a -> l !! j = Some b -> i < j -> R a b.
Proof.
  revert i j. induction l as [|c l IH]; intros i j Hs Hi Hj Hlt; [done|].
  apply StronglySorted_inv in Hs as [Hs Hall]. destruct j as [|j]; [lia|].
  destruct i as [|i]; simpl in *; simplify_eq.
  - by eapply Forall_lookup_1.
  - eapply IH; eauto with lia.
Qed.

Section split.
Context (net : Z) (act : list payee_share).
Context (Hnet : (0 < net)%Z).
Context (Hshares : Forall (fun p => 0 <= ps_shareBps p)%Z act).
Context (Htotal : sum_by ps_shareBps act = CAMPAIGN_PAYEE_BPS_DENOMINATOR).

Let heap := exact_shares net act.
Let left := (net - sum_by se_floor heap)%Z.
Let order := by_remainder heap.

Lemma exact_lookup j p :
  act !! j = Some p ->
  heap !! j = Some {| se_userId := ps_userId p;
                      se_floor := (net * ps_shareBps p) / CAMPAIGN_PAYEE_BPS_DENOMINATOR;
                      se_remainder := (net * ps_shareBps p) mod CAMPAIGN_PAYEE_BPS_DENOMINATOR |}.
Proof. intros Hj. unfold heap, exact_shares. by rewrite list_lookup_fmap, Hj. Qed.

Lemma exact_remainder_range e : In e heap -> (0 <= se_remainder e < 10000)%Z.
Proof.
  intros Hin. apply in_map_iff in Hin as (p & <- & _). simpl.
  unfold CAMPAIGN_PAYEE_BPS_DENOMINATOR. apply Z.mod_pos_bound. lia.
Qed.

Lemma remainder_at_range i : (0 <= remainder_at heap i < 10000)%Z.
Proof.
  unfold remainder_at. destruct (heap !! i) as [e|] eqn:E; [|lia].
  apply exact_remainder_range, list_elem_of_In. by eapply list_elem_of_lookup_2.
Qed.

(** The leftover cents are exactly the sum of the remainders. *)
Lemma left_remainders : (10000 * left = sum_by se_remainder heap)%Z.
Proof.
  assert (H : forall l, (10000 * sum_by se_floor (exact_shares net l)
      + sum_by se_remainder (exact_shares net l) = net * sum_by ps_shareBps l)%Z).
  { induction l as [|p l IH]; [unfold sum_by; simpl; lia|].
    unfold exact_shares in *. simpl. rewrite !sum_by_cons. simpl. unfold CAMPAIGN_PAYEE_BPS_DENOMINATOR in *.
    pose proof (Z.div_mod (net * ps_shareBps p) 10000). lia. }
  specialize (H act). rewrite Htotal in H. unfold left, heap.
  unfold CAMPAIGN_PAYEE_BPS_DENOMINATOR in H. lia.
Qed.

Lemma sum_remainder_bound l :
  (sum_by (remainder_at heap) l <= 9999 * Z.of_nat (length l))%Z.
Proof.
  induction l as [|i l IH]; [unfold sum_by; simpl; lia|]. rewrite sum_by_cons. simpl.
  pose proof (remainder_at_range i). lia.
Qed.

Lemma left_range : (0 <= left <= Z.of_nat (length order))%Z.
Proof.
  pose proof left_remainders as H. rewrite sum_remainders in H. fold order in H.
  pose proof (sum_remainder_bound order).
  assert (0 <= sum_by (remainder_at heap) order)%Z.
  { apply sum_by_nonneg. intros i _. apply remainder_at_range. }
  lia.
Qed.

(** Only shares that were rounded down receive a leftover cent. *)
Lemma handed_positive j : j ∈ take (Z.to_nat left) order -> (0 < remainder_at heap j)%Z.
Proof.
  intros (i & Hi & Hlt)%elem_of_take. pose proof (remainder_at_range j) as Hj.
  destruct (decide (remainder_at heap j = 0%Z)) as [H0|]; [|lia]. exfalso.
  pose proof (take_drop_middle order i j Hi) as Hsplit.
  pose proof left_remainders as HL. rewrite sum_remainders in HL. fold order in HL.
  rewrite <-Hsplit, sum_by_app, sum_by_cons, H0 in HL.
  pose proof (sum_remainder_bound (take i order)) as Hb. rewrite length_take in Hb.
  assert (sum_by (remainder_at heap) (drop (S i) order) <= 0)%Z as Hd.
  { transitivity (sum_by (fun _ : nat => 0%Z) (drop (S i) order)).
    - apply sum_by_le. intros k (m & Hm)%list_elem_of_In%list_elem_of_lookup.
      rewrite lookup_drop in Hm.
      pose proof (sorted_lookup _ _ _ _ _ _ (by_remainder_sorted heap) Hi Hm ltac:(lia)).
      simpl in *. lia.
    - generalize (drop (S i) order).
      induction l; [unfold sum_by; simpl; lia|]. rewrite sum_by_cons. lia. }
  apply lookup_lt_Some in Hi. lia.
Qed.

Lemma split_lookup j p :
  act !! j = Some p ->
  exists a,
    map (fun e => (se_userId e, se_floor e)) (hand_out order left heap) !! j
      = Some (ps_userId p, a) /\
    a = ((net * ps_shareBps p) / 10000
         + (if bool_decide (j ∈ take (Z.to_nat left) order) then 1 else 0))%Z.
Proof.
  intros Hj. rewrite list_lookup_fmap. rewrite hand_out_lookup by apply by_remainder_NoDup.
  rewrite (exact_lookup _ _ Hj). unfold CAMPAIGN_PAYEE_BPS_DENOMINATOR.
  case_bool_decide; simpl; eexists; split; try done. lia.
Qed.

(** Each part is within a cent of the exact share. *)
Lemma split_close j p a :
  act !! j = Some p ->
  a = ((net * ps_shareBps p) / 10000
       + (if bool_decide (j ∈ take (Z.to_nat left) order) then 1 else 0))%Z ->
  (0 <= a)%Z /\ (Z.abs (10000 * a - net * ps_shareBps p) < 10000)%Z.
Proof.
  intros Ej ->. pose proof (proj1 (Forall_lookup _ _) Hshares _ _ Ej) as Hp. simpl in Hp.
  assert (0 <= net * ps_shareBps p)%Z by nia. case_bool_decide as Hin.
  - apply handed_positive in Hin. unfold remainder_at in Hin.
    rewrite (exact_lookup _ _ Ej) in Hin. simpl in Hin.
    unfold CAMPAIGN_PAYEE_BPS_DENOMINATOR in Hin. Z.div_mod_to_equations. lia.
  - Z.div_mod_to_equations. lia.
Qed.

(** Spare cents go to the larger remainders first. *)
Lemma split_fair i j p q :
  act !! i = Some p -> act !! j = Some q ->
  ((net * ps_shareBps p) mod 10000 < (net * ps_shareBps q) mod 10000)%Z ->
  i ∈ take (Z.to_nat left) order -> j ∈ take (Z.to_nat left) order.
Proof.
  intros Ei Ej Hr (n & Hn & Hlt)%elem_of_take.
  assert (Hjr : j ∈ order).
  { unfold order. rewrite by_remainder_perm. apply elem_of_seq. apply lookup_lt_Some in Ej.
    unfold heap, exact_shares. rewrite length_map. lia. }
  apply list_elem_of_lookup in Hjr as [m Hm]. apply elem_of_take. exists m. split; [done|].
  destruct (decide (m < n)) as [|Hmn]; [lia|]. exfalso.
  destruct (decide (m = n)) as [->|]; [rewrite Hn in Hm; simplify_eq; lia|].
  pose proof (sorted_lookup _ _ _ _ _ _ (by_remainder_sorted heap) Hn Hm ltac:(lia)) as Hle.
  simpl in Hle. unfold remainder_at in Hle.
  rewrite (exact_lookup _ _ Ei), (exact_lookup _ _ Ej) in Hle. simpl in Hle.
  unfold CAMPAIGN_PAYEE_BPS_DENOMINATOR in Hle. lia.
Qed.

Lemma split_sum :
  sum_by snd (map (fun e => (se_userId e, se_floor e)) (hand_out order left heap)) = net.
Proof.
  assert (Hm : forall l, sum_by snd (map (fun e => (se_userId e, se_floor e)) l)
                         = sum_by se_floor l).
  { induction l; [done|]. simpl. rewrite !sum_by_cons. simpl. lia. }
  rewrite Hm, hand_out_sum by apply by_remainder_range.
  pose proof left_range. unfold left in *. lia.
Qed.
End split.

Lemma share_total_spec zs t :
  share_total (map jint zs) = Some t ->
  Forall (fun z => 0 <= z)%Z zs /\ sum_by (fun z => z) zs = t.
Proof.
  revert t. induction zs as [|z zs IH]; intros t; simpl; [by intros [= <-]|].
  rewrite as_integer_jint. destruct (share_total (map jint zs)) as [t'|] eqn:E; [|done].
  case_bool_decide; [|done]. intros [= <-]. destruct (IH t' eq_refl) as [Hall <-].
  split; [by constructor|done].
Qed.

(** The check on whole-number shares, as the split reads the rows. *)
Definition shares_valid (payees : list payee_share) : bool :=
  campaignPayeeSharesAreValid (map (fun p => (jint (ps_shareBps p), ps_active p)) payees).

Lemma shares_valid_spec payees :
  shares_valid payees = true ->
  let act := List.filter ps_active payees in
  act <> [] /\ Forall (fun p => 0 <= ps_shareBps p)%Z act /\
  sum_by ps_shareBps act = CAMPAIGN_PAYEE_BPS_DENOMINATOR.
Proof.
  unfold shares_valid, campaignPayeeSharesAreValid.
  assert (Hf : forall l, List.filter (fun p : jsnum * bool => snd p)
      (map (fun p => (jint (ps_shareBps p), ps_active p)) l)
    = map (fun p => (jint (ps_shareBps p), ps_active p)) (List.filter ps_active l)).
  { induction l as [|p l IH]; simpl; [done|]. destruct (ps_active p) eqn:E; simpl; rewrite IH; [|done].
    by rewrite E. }
  rewrite Hf. set (act := List.filter ps_active payees).
  assert (Hm : map fst (map (fun p => (jint (ps_shareBps p), ps_active p)) act)
               = map jint (map ps_shareBps act)) by (by rewrite !map_map).
  intros H. assert (Hne : act <> []) by (intros ->; done). split; [done|].
  assert (Ht : share_total (map jint (map ps_shareBps act)) = Some CAMPAIGN_PAYEE_BPS_DENOMINATOR).
  { rewrite <-Hm. destruct (map (fun p => _) act); [done|]. by apply bool_decide_eq_true in H. }
  apply share_total_spec in Ht as [H1 H2]. split; [by rewrite Forall_map in H1|].
  rewrite <-H2. clear. induction act as [|p l IH]; [done|].
  simpl. rewrite !sum_by_cons. lia.
Qed.

(** On shares that total the whole, the split is the floors plus handed-out cents. *)
Lemma allocatePayeeCents_eq net payees :
  (0 < net)%Z -> List.filter ps_active payees <> [] ->
  let act := List.filter ps_active payees in
  allocatePayeeCents net payees = map (fun e => (se_userId e, se_floor e))
    (hand_out (by_remainder (exact_shares net act))
       (net - sum_by se_floor (exact_shares net act)) (exact_shares net act)).
Proof.
  intros Hnet Hne act. unfold allocatePayeeCents. fold act. rewrite bool_decide_eq_false_2; [done|].
  intros [E|E]; [|lia]. unfold act in E. by destruct (List.filter ps_active payees).
Qed.

(** Whole, non-negative shares divide an amount without loss. *)
Lemma allocatePayeeCents_sum net payees :
  (0 < net)%Z -> let act := List.filter ps_active payees in
  act <> [] -> Forall (fun p => 0 <= ps_shareBps p)%Z act ->
  sum_by ps_shareBps act = CAMPAIGN_PAYEE_BPS_DENOMINATOR ->
  sum_by snd (allocatePayeeCents net payees) = net.
Proof.
  intros Hnet act Hne Hpos Htot. rewrite (allocatePayeeCents_eq net payees Hnet Hne).
  by apply split_sum.
Qed.

(** Dividing a contribution across valid shares loses nothing and
    invents nothing: one part per active payee, in order, the parts sum to the
    contribution, each is within one cent of the payee's exact share, and a spare
    cent never goes to a smaller remainder while a larger one goes without. *)
Theorem allocatePayeeCents_exact net payees :
  (0 < net)%Z -> shares_valid payees = true ->
  let act := List.filter ps_active payees in
  let parts := allocatePayeeCents net payees in
  map fst parts = map ps_userId act /\
  sum_by snd parts = net /\
  (forall j p, act !! j = Some p ->
     exists a, parts !! j = Some (ps_userId p, a) /\ (0 <= a)%Z /\
       (Z.abs (10000 * a - net * ps_shareBps p) < 10000)%Z) /\
  (forall i j p q a b, act !! i = Some p -> act !! j = Some q ->
     parts !! i = Some (ps_userId p, a) -> parts !! j = Some (ps_userId q, b) ->
     ((net * ps_shareBps p) mod 10000 < (net * ps_shareBps q) mod 10000)%Z ->
     ((net * ps_shareBps p) / 10000 < a -> (net * ps_shareBps q) / 10000 < b)%Z).
Proof.
  intros Hnet Hv act. destruct (shares_valid_spec _ Hv) as (Hne & Hpos & Htot).
  fold act in Hne, Hpos, Htot. intros parts.
  assert (Hparts : parts = map (fun e => (se_userId e, se_floor e))
     (hand_out (by_remainder (exact_shares net act))
        (net - sum_by se_floor (exact_shares net act)) (exact_shares net act))).
  { by apply allocatePayeeCents_eq. }
  assert (Hlook := split_lookup net act). rewrite <-Hparts in Hlook.
  split_and!.
  - apply list_eq. intros j. rewrite !list_lookup_fmap.
    destruct (act !! j) as [p|] eqn:Ej.
    + destruct (Hlook _ _ Ej) as (a & -> & _). done.
    + apply lookup_ge_None in Ej. rewrite (lookup_ge_None_2 parts); [done|].
      rewrite Hparts, length_map, hand_out_length. unfold exact_shares. by rewrite length_map.
  - by apply allocatePayeeCents_sum.
  - intros j p Ej. destruct (Hlook _ _ Ej) as (a & Ha & Hv'). exists a. split; [done|].
    by eapply split_close.
  - intros i j p q a b Ei Ej Ha Hb Hr Hgt.
    destruct (Hlook _ _ Ei) as (a' & Ha' & Hva). destruct (Hlook _ _ Ej) as (b' & Hb' & Hvb).
    rewrite Ha' in Ha. rewrite Hb' in Hb. injection Ha as <-. injection Hb as <-.
    set (t := take _ _) in Hva, Hvb. destruct (decide (i ∈ t)) as [Hi|Hi].
    + rewrite (bool_decide_eq_true_2 (j ∈ t)) in Hvb; [lia|].
      exact (split_fair net act i j p q Ei Ej Hr Hi).
    + rewrite (bool_decide_eq_false_2 _ Hi) in Hva. lia.
Qed.

Lemma allocatePayeeCents_exact_witness :
  let payees := [ {| ps_userId := "ada"; ps_shareBps := 3333; ps_active := true |};
                  {| ps_userId := "bea"; ps_shareBps := 500; ps_active := false |};
                  {| ps_userId := "cyd"; ps_shareBps := 3333; ps_active := true |};
                  {| ps_userId := "dot"; ps_shareBps := 3334; ps_active := true |} ] in
  shares_valid payees = true /\
  allocatePayeeCents 100 payees = [("ada", 33%Z); ("cyd", 33%Z); ("dot", 34%Z)] /\
  sum_by snd (allocatePayeeCents 100 payees) = 100%Z.
Proof.
  intros payees. split; [reflexivity|]. split; [reflexivity|].
  refine (proj1 (proj2 (allocatePayeeCents_exact 100 payees _ _))); [lia|reflexivity].
Defined.
