(* ===== verification/Records.v ===== *)
(** * Rows of the coalition tables

    The interfaces of [packages/core/src/coalition/coalitionNetwork.ts] as
    [packages/api/src/db/types.ts] extends them (with [createdAt] and [updatedAt]),
    the other rows the coalition services read, and the domain events they emit.

    An optional field is an [option]; an instant (the ISO string of [new
    Date().toISOString()]) is its millisecond count, so the ISO order is the order
    of [Z]; the UTC day of a boost is its day number. *)

From S2P Require Import Prelude JsMap CoalitionDomain.


(** [`${a}::${b}`], the composite key of the join tables. *)
Definition pair_key (a b : string) : string := a +:+ "::" +:+ b.

(** ** Coalition rows *)

Record CoalitionRecord := mk_co {
  co_id : string;
  co_slug : string;
  co_name : string;
  co_mission : string;
  co_bannerUrl : option string;
  co_joinMode : CoalitionJoinMode;
  co_minTierToJoin : option CoalitionTierGate;
  co_joinRequirements : option CoalitionJoinRequirements;
  co_externalReplyPolicy : option ExternalReplyPolicy;
  co_spaceRoomId : option string;
  co_createdBy : string;
  co_archivedAt : option Z;
  co_takenDownAt : option Z;
  co_takenDownBy : option string;
  co_takedownReason : option string;
  co_reinstatedAt : option Z;
  co_createdAt : Z;
  co_updatedAt : Z;
}.

Record CoalitionMembershipRecord := mk_mb {
  mb_id : string;
  mb_coalitionId : string;
  mb_userId : string;
  mb_role : CoalitionRole;
  mb_active : bool;
  mb_createdAt : Z;
  mb_updatedAt : Z;
}.

Record CoalitionJoinRequestRecord := mk_jr {
  jr_id : string;
  jr_coalitionId : string;
  jr_userId : string;
  jr_message : option string;
  jr_status : CoalitionJoinRequestStatus;
  jr_invitedBy : option string;
  jr_reviewedBy : option string;
  jr_reviewedAt : option Z;
  jr_createdAt : Z;
  jr_updatedAt : Z;
}.

Record CoalitionMemberConnectionRecord := mk_mc {
  mc_id : string;
  mc_coalitionId : string;
  mc_userId : string;
  mc_platform : CoalitionPlatform;
  mc_credentialRef : option string;
  mc_displayHandle : option string;
  mc_revokedAt : option Z;
  mc_createdAt : Z;
  mc_updatedAt : Z;
}.

Record CoalitionCampaignRecord := mk_cp {
  cp_id : string;
  cp_coalitionId : string;
  cp_type : CampaignType;
  cp_title : string;
  cp_description : string;
  cp_goalCents : option Z;
  cp_goalUnits : option Z;
  cp_raisedCents : Z;
  cp_contributorCount : Z;
  cp_status : CampaignStatus;
  cp_requiresStewardApproval : bool;
  cp_createdBy : option string;
  cp_approvedBy : option string;
  cp_startsAt : option string;
  cp_endsAt : option string;
  cp_completedAt : option Z;
  cp_projectId : option string;
  cp_bountyId : option string;
  cp_aidPostId : option string;
  cp_beneficiaryUserId : option string;
  cp_fbmListingId : option string;
  cp_fbmOrderCycleId : option string;
  cp_createdAt : Z;
  cp_updatedAt : Z;
}.

Record CoalitionBoostRecord := mk_bo {
  bo_id : string;
  bo_campaignId : string;
  bo_coalitionId : string;
  bo_userId : string;
  bo_day : Z;
  bo_createdAt : Z;
  bo_updatedAt : Z;
}.

Record CoalitionCampaignContributionRecord := mk_ct {
  ct_id : string;
  ct_campaignId : string;
  ct_coalitionId : string;
  ct_supporterUserId : string;
  ct_tipId : string;
  ct_amountCents : Z;
  ct_currency : string;
  ct_createdAt : Z;
  ct_updatedAt : Z;
}.

Record CoalitionCampaignPayeeRecord := mk_py {
  py_id : string;
  py_campaignId : string;
  py_coalitionId : string;
  py_userId : string;
  py_shareBps : Z;
  py_role : string;
  py_active : bool;
  py_createdAt : Z;
  py_updatedAt : Z;
}.

Record CoalitionSuccessionPetitionRecord := mk_pe {
  pe_id : string;
  pe_coalitionId : string;
  pe_candidateUserId : string;
  pe_openedBy : string;
  pe_reason : string;
  pe_secondedBy : list string;
  pe_status : CoalitionSuccessionStatus;
  pe_resolvedBy : option string;
  pe_resolvedAt : option Z;
  pe_createdAt : Z;
  pe_updatedAt : Z;
}.

(** ** Rows of other modules *)

(** The fields of a user account that the coalition services read. *)
Record UserRecord := mk_us {
  us_id : string;
  us_username : string;
  us_createdAt : Z;
  us_emailVerifiedAt : option Z;
}.

Record MemberProfileRecord := mk_mp {
  mp_userId : string;
  mp_hideFromPublicRosters : option bool;
}.

Inductive ReputationEventType :=
  | vote_cast | argument_endorsed | proposal_passed | dispute_won | vendor_transaction
  | match_won | match_drawn | round_won | steelman_passed | credibility_strike.

Record ReputationEventRecord := mk_rp {
  rp_userId : string;
  rp_type : ReputationEventType;
  rp_subject : option string;
  rp_points : option Z;
}.

(** The fields of an aid post that raising it reads. *)
Record CoalitionAidPostRecord := mk_ap {
  ap_id : string;
  ap_customerId : string;
  ap_title : string;
  ap_description : string;
}.

Inductive BountyStatus := b_open | b_claimed | b_in_review | b_completed | b_closed.

#[export] Instance bounty_status_eq : EqDecision BountyStatus.
Proof. solve_decision. Defined.

Record BountyRecord := mk_bt {
  bt_id : string;
  bt_category : string;
  bt_title : string;
  bt_description : string;
  bt_creatorId : string;
  bt_rewardType : string;
  bt_rewardSummary : string;
  bt_rewardAmountCents : option Z;
  bt_requirements : list string;
  bt_deliverables : list string;
  bt_status : BountyStatus;
  bt_coalitionId : option string;
  bt_claimedBy : option string;
  bt_createdAt : Z;
  bt_updatedAt : Z;
}.

Inductive RelaySubjectSource :=
  | coalition_feed | coalition_campaign | coliseum_topic | wall_post | status_source
  | stream_source | community_asset | marketplace_source.

#[export] Instance relay_source_eq : EqDecision RelaySubjectSource.
Proof. solve_decision. Defined.

Record RelayEdgeRecord := mk_re {
  re_id : string;
  re_relayerUserId : string;
  re_subjectSource : RelaySubjectSource;
  re_subjectId : string;
  re_parentRelayId : option string;
  re_rootRelayId : string;
  re_chainDepth : Z;
  re_originAuthorId : option string;
  re_note : option string;
  re_active : bool;
  re_createdAt : Z;
  re_updatedAt : Z;
}.

(** ** Domain events: the [type] and payload of each [emitDomainEvent] *)

Inductive JoinVia := via_open | via_approved | via_invited.
Inductive LeftVia := left_left | left_removed (by_ : string).

Inductive DomainEvent :=
  | ev_created (coalitionId createdBy : string) (mode : CoalitionJoinMode)
  | ev_taken_down (coalitionId by_ reason : string)
  | ev_reinstated (coalitionId by_ : string)
  | ev_archived (coalitionId : string)
  | ev_member_joined (coalitionId userId : string) (r : CoalitionRole) (via : JoinVia)
  | ev_join_requested (coalitionId userId : string) (unmet : list CoalitionJoinRequirementKey)
  | ev_join_reviewed (coalitionId userId : string) (approve : bool) (reviewedBy : string)
  | ev_member_invited (coalitionId userId invitedBy : string)
  | ev_member_left (coalitionId userId : string) (via : LeftVia)
  | ev_role_changed (coalitionId userId : string) (r : CoalitionRole) (by_ : string)
  | ev_founder_transferred (coalitionId : string) (from : option string) (to : string)
  | ev_campaign_created (coalitionId campaignId : string) (ty : CampaignType)
      (st : CampaignStatus) (bountyId : option string)
  | ev_campaign_status (coalitionId campaignId : string) (st : CampaignStatus) (by_ : string)
  | ev_campaign_boosted (coalitionId campaignId userId : string) (total : Z)
  | ev_aid_raised (coalitionId campaignId aidPostId by_ : string)
  | ev_succession_opened (coalitionId petitionId candidate : string)
  | ev_succession_approved (coalitionId petitionId candidate : string) (seconds : Z)
  | ev_payees_set (coalitionId campaignId : string) (payees : Z) (by_ : string)
  | ev_contribution_recorded (coalitionId campaignId supporterUserId tipId : string)
      (amountCents raisedCents : Z) (beneficiaryUserId : option string)
      (allocation : list (string * Z))
  | ev_goal_reached (coalitionId campaignId : string) (goalCents raisedCents : Z).

(** ** Keys and timestamps *)

#[export] Instance co_keyed : Keyed CoalitionRecord := fun r => co_id r.
#[export] Instance co_stamped : Stamped CoalitionRecord := {|
  created_at := co_createdAt;
  stamp c u r := mk_co (co_id r) (co_slug r) (co_name r) (co_mission r) (co_bannerUrl r) (co_joinMode r) (co_minTierToJoin r) (co_joinRequirements r) (co_externalReplyPolicy r) (co_spaceRoomId r) (co_createdBy r) (co_archivedAt r) (co_takenDownAt r) (co_takenDownBy r) (co_takedownReason r) (co_reinstatedAt r) c u |}.
#[export] Instance co_laws : TableLaws CoalitionRecord. Proof. done. Qed.

#[export] Instance mb_keyed : Keyed CoalitionMembershipRecord := fun r => pair_key (mb_coalitionId r) (mb_userId r).
#[export] Instance mb_stamped : Stamped CoalitionMembershipRecord := {|
  created_at := mb_createdAt;
  stamp c u r := mk_mb (mb_id r) (mb_coalitionId r) (mb_userId r) (mb_role r) (mb_active r) c u |}.
#[export] Instance mb_laws : TableLaws CoalitionMembershipRecord. Proof. done. Qed.

#[export] Instance jr_keyed : Keyed CoalitionJoinRequestRecord := fun r => pair_key (jr_coalitionId r) (jr_userId r).
#[export] Instance jr_stamped : Stamped CoalitionJoinRequestRecord := {|
  created_at := jr_createdAt;
  stamp c u r := mk_jr (jr_id r) (jr_coalitionId r) (jr_userId r) (jr_message r) (jr_status r) (jr_invitedBy r) (jr_reviewedBy r) (jr_reviewedAt r) c u |}.
#[export] Instance jr_laws : TableLaws CoalitionJoinRequestRecord. Proof. done. Qed.

#[export] Instance mc_keyed : Keyed CoalitionMemberConnectionRecord := fun r => pair_key (pair_key (mc_coalitionId r) (mc_userId r)) (name (mc_platform r)).
#[export] Instance mc_stamped : Stamped CoalitionMemberConnectionRecord := {|
  created_at := mc_createdAt;
  stamp c u r := mk_mc (mc_id r) (mc_coalitionId r) (mc_userId r) (mc_platform r) (mc_credentialRef r) (mc_displayHandle r) (mc_revokedAt r) c u |}.
#[export] Instance mc_laws : TableLaws CoalitionMemberConnectionRecord. Proof. done. Qed.

#[export] Instance cp_keyed : Keyed CoalitionCampaignRecord := fun r => cp_id r.
#[export] Instance cp_stamped : Stamped CoalitionCampaignRecord := {|
  created_at := cp_createdAt;
  stamp c u r := mk_cp (cp_id r) (cp_coalitionId r) (cp_type r) (cp_title r) (cp_description r) (cp_goalCents r) (cp_goalUnits r) (cp_raisedCents r) (cp_contributorCount r) (cp_status r) (cp_requiresStewardApproval r) (cp_createdBy r) (cp_approvedBy r) (cp_startsAt r) (cp_endsAt r) (cp_completedAt r) (cp_projectId r) (cp_bountyId r) (cp_aidPostId r) (cp_beneficiaryUserId r) (cp_fbmListingId r) (cp_fbmOrderCycleId r) c u |}.
#[export] Instance cp_laws : TableLaws CoalitionCampaignRecord. Proof. done. Qed.

#[export] Instance bo_keyed : Keyed CoalitionBoostRecord := fun r => pair_key (pair_key (bo_campaignId r) (bo_userId r)) (pretty (bo_day r)).
#[export] Instance bo_stamped : Stamped CoalitionBoostRecord := {|
  created_at := bo_createdAt;
  stamp c u r := mk_bo (bo_id r) (bo_campaignId r) (bo_coalitionId r) (bo_userId r) (bo_day r) c u |}.
#[export] Instance bo_laws : TableLaws CoalitionBoostRecord. Proof. done. Qed.

#[export] Instance ct_keyed : Keyed CoalitionCampaignContributionRecord := fun r => ct_id r.
#[export] Instance ct_stamped : Stamped CoalitionCampaignContributionRecord := {|
  created_at := ct_createdAt;
  stamp c u r := mk_ct (ct_id r) (ct_campaignId r) (ct_coalitionId r) (ct_supporterUserId r) (ct_tipId r) (ct_amountCents r) (ct_currency r) c u |}.
#[export] Instance ct_laws : TableLaws CoalitionCampaignContributionRecord. Proof. done. Qed.

#[export] Instance py_keyed : Keyed CoalitionCampaignPayeeRecord := fun r => pair_key (py_campaignId r) (py_userId r).
#[export] Instance py_stamped : Stamped CoalitionCampaignPayeeRecord := {|
  created_at := py_createdAt;
  stamp c u r := mk_py (py_id r) (py_campaignId r) (py_coalitionId r) (py_userId r) (py_shareBps r) (py_role r) (py_active r) c u |}.
#[export] Instance py_laws : TableLaws CoalitionCampaignPayeeRecord. Proof. done. Qed.

#[export] Instance pe_keyed : Keyed CoalitionSuccessionPetitionRecord := fun r => pe_id r.
#[export] Instance pe_stamped : Stamped CoalitionSuccessionPetitionRecord := {|
  created_at := pe_createdAt;
  stamp c u r := mk_pe (pe_id r) (pe_coalitionId r) (pe_candidateUserId r) (pe_openedBy r) (pe_reason r) (pe_secondedBy r) (pe_status r) (pe_resolvedBy r) (pe_resolvedAt r) c u |}.
#[export] Instance pe_laws : TableLaws CoalitionSuccessionPetitionRecord. Proof. done. Qed.

(** ** Record updates: [{ ...row, field: v }] *)

Definition with_co_slug (v : string) (r : CoalitionRecord) : CoalitionRecord :=
  mk_co (co_id r) v (co_name r) (co_mission r) (co_bannerUrl r) (co_joinMode r)
    (co_minTierToJoin r) (co_joinRequirements r) (co_externalReplyPolicy r) (co_spaceRoomId r)
    (co_createdBy r) (co_archivedAt r) (co_takenDownAt r) (co_takenDownBy r) (co_takedownReason
    r) (co_reinstatedAt r) (co_createdAt r) (co_updatedAt r).
Definition with_co_name (v : string) (r : CoalitionRecord) : CoalitionRecord :=
  mk_co (co_id r) (co_slug r) v (co_mission r) (co_bannerUrl r) (co_joinMode r)
    (co_minTierToJoin r) (co_joinRequirements r) (co_externalReplyPolicy r) (co_spaceRoomId r)
    (co_createdBy r) (co_archivedAt r) (co_takenDownAt r) (co_takenDownBy r) (co_takedownReason
    r) (co_reinstatedAt r) (co_createdAt r) (co_updatedAt r).
Definition with_co_mission (v : string) (r : CoalitionRecord) : CoalitionRecord :=
  mk_co (co_id r) (co_slug r) (co_name r) v (co_bannerUrl r) (co_joinMode r) (co_minTierToJoin
    r) (co_joinRequirements r) (co_externalReplyPolicy r) (co_spaceRoomId r) (co_createdBy r)
    (co_archivedAt r) (co_takenDownAt r) (co_takenDownBy r) (co_takedownReason r)
    (co_reinstatedAt r) (co_createdAt r) (co_updatedAt r).
Definition with_co_bannerUrl (v : option string) (r : CoalitionRecord) : CoalitionRecord :=
  mk_co (co_id r) (co_slug r) (co_name r) (co_mission r) v (co_joinMode r) (co_minTierToJoin r)
    (co_joinRequirements r) (co_externalReplyPolicy r) (co_spaceRoomId r) (co_createdBy r)
    (co_archivedAt r) (co_takenDownAt r) (co_takenDownBy r) (co_takedownReason r)
    (co_reinstatedAt r) (co_createdAt r) (co_updatedAt r).
Definition with_co_joinMode (v : CoalitionJoinMode) (r : CoalitionRecord) : CoalitionRecord :=
  mk_co (co_id r) (co_slug r) (co_name r) (co_mission r) (co_bannerUrl r) v (co_minTierToJoin r)
    (co_joinRequirements r) (co_externalReplyPolicy r) (co_spaceRoomId r) (co_createdBy r)
    (co_archivedAt r) (co_takenDownAt r) (co_takenDownBy r) (co_takedownReason r)
    (co_reinstatedAt r) (co_createdAt r) (co_updatedAt r).
Definition with_co_minTierToJoin (v : option CoalitionTierGate) (r : CoalitionRecord) :
    CoalitionRecord :=
  mk_co (co_id r) (co_slug r) (co_name r) (co_mission r) (co_bannerUrl r) (co_joinMode r) v
    (co_joinRequirements r) (co_externalReplyPolicy r) (co_spaceRoomId r) (co_createdBy r)
    (co_archivedAt r) (co_takenDownAt r) (co_takenDownBy r) (co_takedownReason r)
    (co_reinstatedAt r) (co_createdAt r) (co_updatedAt r).
Definition with_co_joinRequirements (v : option CoalitionJoinRequirements) (r : CoalitionRecord)
    : CoalitionRecord :=
  mk_co (co_id r) (co_slug r) (co_name r) (co_mission r) (co_bannerUrl r) (co_joinMode r)
    (co_minTierToJoin r) v (co_externalReplyPolicy r) (co_spaceRoomId r) (co_createdBy r)
    (co_archivedAt r) (co_takenDownAt r) (co_takenDownBy r) (co_takedownReason r)
    (co_reinstatedAt r) (co_createdAt r) (co_updatedAt r).
Definition with_co_externalReplyPolicy (v : option ExternalReplyPolicy) (r : CoalitionRecord) :
    CoalitionRecord :=
  mk_co (co_id r) (co_slug r) (co_name r) (co_mission r) (co_bannerUrl r) (co_joinMode r)
    (co_minTierToJoin r) (co_joinRequirements r) v (co_spaceRoomId r) (co_createdBy r)
    (co_archivedAt r) (co_takenDownAt r) (co_takenDownBy r) (co_takedownReason r)
    (co_reinstatedAt r) (co_createdAt r) (co_updatedAt r).
Definition with_co_spaceRoomId (v : option string) (r : CoalitionRecord) : CoalitionRecord :=
  mk_co (co_id r) (co_slug r) (co_name r) (co_mission r) (co_bannerUrl r) (co_joinMode r)
    (co_minTierToJoin r) (co_joinRequirements r) (co_externalReplyPolicy r) v (co_createdBy r)
    (co_archivedAt r) (co_takenDownAt r) (co_takenDownBy r) (co_takedownReason r)
    (co_reinstatedAt r) (co_createdAt r) (co_updatedAt r).
Definition with_co_archivedAt (v : option Z) (r : CoalitionRecord) : CoalitionRecord :=
  mk_co (co_id r) (co_slug r) (co_name r) (co_mission r) (co_bannerUrl r) (co_joinMode r)
    (co_minTierToJoin r) (co_joinRequirements r) (co_externalReplyPolicy r) (co_spaceRoomId r)
    (co_createdBy r) v (co_takenDownAt r) (co_takenDownBy r) (co_takedownReason r)
    (co_reinstatedAt r) (co_createdAt r) (co_updatedAt r).
Definition with_co_takenDownAt (v : option Z) (r : CoalitionRecord) : CoalitionRecord :=
  mk_co (co_id r) (co_slug r) (co_name r) (co_mission r) (co_bannerUrl r) (co_joinMode r)
    (co_minTierToJoin r) (co_joinRequirements r) (co_externalReplyPolicy r) (co_spaceRoomId r)
    (co_createdBy r) (co_archivedAt r) v (co_takenDownBy r) (co_takedownReason r)
    (co_reinstatedAt r) (co_createdAt r) (co_updatedAt r).
Definition with_co_takenDownBy (v : option string) (r : CoalitionRecord) : CoalitionRecord :=
  mk_co (co_id r) (co_slug r) (co_name r) (co_mission r) (co_bannerUrl r) (co_joinMode r)
    (co_minTierToJoin r) (co_joinRequirements r) (co_externalReplyPolicy r) (co_spaceRoomId r)
    (co_createdBy r) (co_archivedAt r) (co_takenDownAt r) v (co_takedownReason r)
    (co_reinstatedAt r) (co_createdAt r) (co_updatedAt r).
Definition with_co_takedownReason (v : option string) (r : CoalitionRecord) : CoalitionRecord
    :=
  mk_co (co_id r) (co_slug r) (co_name r) (co_mission r) (co_bannerUrl r) (co_joinMode r)
    (co_minTierToJoin r) (co_joinRequirements r) (co_externalReplyPolicy r) (co_spaceRoomId r)
    (co_createdBy r) (co_archivedAt r) (co_takenDownAt r) (co_takenDownBy r) v (co_reinstatedAt
    r) (co_createdAt r) (co_updatedAt r).
Definition with_co_reinstatedAt (v : option Z) (r : CoalitionRecord) : CoalitionRecord :=
  mk_co (co_id r) (co_slug r) (co_name r) (co_mission r) (co_bannerUrl r) (co_joinMode r)
    (co_minTierToJoin r) (co_joinRequirements r) (co_externalReplyPolicy r) (co_spaceRoomId r)
    (co_createdBy r) (co_archivedAt r) (co_takenDownAt r) (co_takenDownBy r) (co_takedownReason
    r) v (co_createdAt r) (co_updatedAt r).
Definition with_mb_role (v : CoalitionRole) (r : CoalitionMembershipRecord) :
    CoalitionMembershipRecord :=
  mk_mb (mb_id r) (mb_coalitionId r) (mb_userId r) v (mb_active r) (mb_createdAt r)
    (mb_updatedAt r).
Definition with_mb_active (v : bool) (r : CoalitionMembershipRecord) : CoalitionMembershipRecord
    :=
  mk_mb (mb_id r) (mb_coalitionId r) (mb_userId r) (mb_role r) v (mb_createdAt r) (mb_updatedAt
    r).
Definition with_jr_status (v : CoalitionJoinRequestStatus) (r : CoalitionJoinRequestRecord) :
    CoalitionJoinRequestRecord :=
  mk_jr (jr_id r) (jr_coalitionId r) (jr_userId r) (jr_message r) v (jr_invitedBy r)
    (jr_reviewedBy r) (jr_reviewedAt r) (jr_createdAt r) (jr_updatedAt r).
Definition with_jr_reviewedBy (v : option string) (r : CoalitionJoinRequestRecord) :
    CoalitionJoinRequestRecord :=
  mk_jr (jr_id r) (jr_coalitionId r) (jr_userId r) (jr_message r) (jr_status r) (jr_invitedBy r)
    v (jr_reviewedAt r) (jr_createdAt r) (jr_updatedAt r).
Definition with_jr_reviewedAt (v : option Z) (r : CoalitionJoinRequestRecord) :
    CoalitionJoinRequestRecord :=
  mk_jr (jr_id r) (jr_coalitionId r) (jr_userId r) (jr_message r) (jr_status r) (jr_invitedBy r)
    (jr_reviewedBy r) v (jr_createdAt r) (jr_updatedAt r).
Definition with_mc_credentialRef (v : option string) (r : CoalitionMemberConnectionRecord) :
    CoalitionMemberConnectionRecord :=
  mk_mc (mc_id r) (mc_coalitionId r) (mc_userId r) (mc_platform r) v (mc_displayHandle r)
    (mc_revokedAt r) (mc_createdAt r) (mc_updatedAt r).
Definition with_mc_revokedAt (v : option Z) (r : CoalitionMemberConnectionRecord) :
    CoalitionMemberConnectionRecord :=
  mk_mc (mc_id r) (mc_coalitionId r) (mc_userId r) (mc_platform r) (mc_credentialRef r)
    (mc_displayHandle r) v (mc_createdAt r) (mc_updatedAt r).
Definition with_cp_raisedCents (v : Z) (r : CoalitionCampaignRecord) : CoalitionCampaignRecord
    :=
  mk_cp (cp_id r) (cp_coalitionId r) (cp_type r) (cp_title r) (cp_description r) (cp_goalCents
    r) (cp_goalUnits r) v (cp_contributorCount r) (cp_status r) (cp_requiresStewardApproval r)
    (cp_createdBy r) (cp_approvedBy r) (cp_startsAt r) (cp_endsAt r) (cp_completedAt r)
    (cp_projectId r) (cp_bountyId r) (cp_aidPostId r) (cp_beneficiaryUserId r) (cp_fbmListingId
    r) (cp_fbmOrderCycleId r) (cp_createdAt r) (cp_updatedAt r).
Definition with_cp_contributorCount (v : Z) (r : CoalitionCampaignRecord) :
    CoalitionCampaignRecord :=
  mk_cp (cp_id r) (cp_coalitionId r) (cp_type r) (cp_title r) (cp_description r) (cp_goalCents
    r) (cp_goalUnits r) (cp_raisedCents r) v (cp_status r) (cp_requiresStewardApproval r)
    (cp_createdBy r) (cp_approvedBy r) (cp_startsAt r) (cp_endsAt r) (cp_completedAt r)
    (cp_projectId r) (cp_bountyId r) (cp_aidPostId r) (cp_beneficiaryUserId r) (cp_fbmListingId
    r) (cp_fbmOrderCycleId r) (cp_createdAt r) (cp_updatedAt r).
Definition with_cp_status (v : CampaignStatus) (r : CoalitionCampaignRecord) :
    CoalitionCampaignRecord :=
  mk_cp (cp_id r) (cp_coalitionId r) (cp_type r) (cp_title r) (cp_description r) (cp_goalCents
    r) (cp_goalUnits r) (cp_raisedCents r) (cp_contributorCount r) v (cp_requiresStewardApproval
    r) (cp_createdBy r) (cp_approvedBy r) (cp_startsAt r) (cp_endsAt r) (cp_completedAt r)
    (cp_projectId r) (cp_bountyId r) (cp_aidPostId r) (cp_beneficiaryUserId r) (cp_fbmListingId
    r) (cp_fbmOrderCycleId r) (cp_createdAt r) (cp_updatedAt r).
Definition with_cp_createdBy (v : option string) (r : CoalitionCampaignRecord) :
    CoalitionCampaignRecord :=
  mk_cp (cp_id r) (cp_coalitionId r) (cp_type r) (cp_title r) (cp_description r) (cp_goalCents
    r) (cp_goalUnits r) (cp_raisedCents r) (cp_contributorCount r) (cp_status r)
    (cp_requiresStewardApproval r) v (cp_approvedBy r) (cp_startsAt r) (cp_endsAt r)
    (cp_completedAt r) (cp_projectId r) (cp_bountyId r) (cp_aidPostId r) (cp_beneficiaryUserId
    r) (cp_fbmListingId r) (cp_fbmOrderCycleId r) (cp_createdAt r) (cp_updatedAt r).
Definition with_cp_approvedBy (v : option string) (r : CoalitionCampaignRecord) :
    CoalitionCampaignRecord :=
  mk_cp (cp_id r) (cp_coalitionId r) (cp_type r) (cp_title r) (cp_description r) (cp_goalCents
    r) (cp_goalUnits r) (cp_raisedCents r) (cp_contributorCount r) (cp_status r)
    (cp_requiresStewardApproval r) (cp_createdBy r) v (cp_startsAt r) (cp_endsAt r)
    (cp_completedAt r) (cp_projectId r) (cp_bountyId r) (cp_aidPostId r) (cp_beneficiaryUserId
    r) (cp_fbmListingId r) (cp_fbmOrderCycleId r) (cp_createdAt r) (cp_updatedAt r).
Definition with_cp_completedAt (v : option Z) (r : CoalitionCampaignRecord) :
    CoalitionCampaignRecord :=
  mk_cp (cp_id r) (cp_coalitionId r) (cp_type r) (cp_title r) (cp_description r) (cp_goalCents
    r) (cp_goalUnits r) (cp_raisedCents r) (cp_contributorCount r) (cp_status r)
    (cp_requiresStewardApproval r) (cp_createdBy r) (cp_approvedBy r) (cp_startsAt r) (cp_endsAt
    r) v (cp_projectId r) (cp_bountyId r) (cp_aidPostId r) (cp_beneficiaryUserId r)
    (cp_fbmListingId r) (cp_fbmOrderCycleId r) (cp_createdAt r) (cp_updatedAt r).
Definition with_cp_bountyId (v : option string) (r : CoalitionCampaignRecord) :
    CoalitionCampaignRecord :=
  mk_cp (cp_id r) (cp_coalitionId r) (cp_type r) (cp_title r) (cp_description r) (cp_goalCents
    r) (cp_goalUnits r) (cp_raisedCents r) (cp_contributorCount r) (cp_status r)
    (cp_requiresStewardApproval r) (cp_createdBy r) (cp_approvedBy r) (cp_startsAt r) (cp_endsAt
    r) (cp_completedAt r) (cp_projectId r) v (cp_aidPostId r) (cp_beneficiaryUserId r)
    (cp_fbmListingId r) (cp_fbmOrderCycleId r) (cp_createdAt r) (cp_updatedAt r).
Definition with_cp_beneficiaryUserId (v : option string) (r : CoalitionCampaignRecord) :
    CoalitionCampaignRecord :=
  mk_cp (cp_id r) (cp_coalitionId r) (cp_type r) (cp_title r) (cp_description r) (cp_goalCents
    r) (cp_goalUnits r) (cp_raisedCents r) (cp_contributorCount r) (cp_status r)
    (cp_requiresStewardApproval r) (cp_createdBy r) (cp_approvedBy r) (cp_startsAt r) (cp_endsAt
    r) (cp_completedAt r) (cp_projectId r) (cp_bountyId r) (cp_aidPostId r) v (cp_fbmListingId
    r) (cp_fbmOrderCycleId r) (cp_createdAt r) (cp_updatedAt r).
Definition with_cp_fbmListingId (v : option string) (r : CoalitionCampaignRecord) :
    CoalitionCampaignRecord :=
  mk_cp (cp_id r) (cp_coalitionId r) (cp_type r) (cp_title r) (cp_description r) (cp_goalCents
    r) (cp_goalUnits r) (cp_raisedCents r) (cp_contributorCount r) (cp_status r)
    (cp_requiresStewardApproval r) (cp_createdBy r) (cp_approvedBy r) (cp_startsAt r) (cp_endsAt
    r) (cp_completedAt r) (cp_projectId r) (cp_bountyId r) (cp_aidPostId r)
    (cp_beneficiaryUserId r) v (cp_fbmOrderCycleId r) (cp_createdAt r) (cp_updatedAt r).
Definition with_cp_fbmOrderCycleId (v : option string) (r : CoalitionCampaignRecord) :
    CoalitionCampaignRecord :=
  mk_cp (cp_id r) (cp_coalitionId r) (cp_type r) (cp_title r) (cp_description r) (cp_goalCents
    r) (cp_goalUnits r) (cp_raisedCents r) (cp_contributorCount r) (cp_status r)
    (cp_requiresStewardApproval r) (cp_createdBy r) (cp_approvedBy r) (cp_startsAt r) (cp_endsAt
    r) (cp_completedAt r) (cp_projectId r) (cp_bountyId r) (cp_aidPostId r)
    (cp_beneficiaryUserId r) (cp_fbmListingId r) v (cp_createdAt r) (cp_updatedAt r).
Definition with_py_active (v : bool) (r : CoalitionCampaignPayeeRecord) :
    CoalitionCampaignPayeeRecord :=
  mk_py (py_id r) (py_campaignId r) (py_coalitionId r) (py_userId r) (py_shareBps r) (py_role r)
    v (py_createdAt r) (py_updatedAt r).
Definition with_pe_secondedBy (v : list string) (r : CoalitionSuccessionPetitionRecord) :
    CoalitionSuccessionPetitionRecord :=
  mk_pe (pe_id r) (pe_coalitionId r) (pe_candidateUserId r) (pe_openedBy r) (pe_reason r) v
    (pe_status r) (pe_resolvedBy r) (pe_resolvedAt r) (pe_createdAt r) (pe_updatedAt r).
Definition with_pe_status (v : CoalitionSuccessionStatus) (r :
    CoalitionSuccessionPetitionRecord) : CoalitionSuccessionPetitionRecord :=
  mk_pe (pe_id r) (pe_coalitionId r) (pe_candidateUserId r) (pe_openedBy r) (pe_reason r)
    (pe_secondedBy r) v (pe_resolvedBy r) (pe_resolvedAt r) (pe_createdAt r) (pe_updatedAt r).
Definition with_pe_resolvedBy (v : option string) (r : CoalitionSuccessionPetitionRecord) :
    CoalitionSuccessionPetitionRecord :=
  mk_pe (pe_id r) (pe_coalitionId r) (pe_candidateUserId r) (pe_openedBy r) (pe_reason r)
    (pe_secondedBy r) (pe_status r) v (pe_resolvedAt r) (pe_createdAt r) (pe_updatedAt r).
Definition with_pe_resolvedAt (v : option Z) (r : CoalitionSuccessionPetitionRecord) :
    CoalitionSuccessionPetitionRecord :=
  mk_pe (pe_id r) (pe_coalitionId r) (pe_candidateUserId r) (pe_openedBy r) (pe_reason r)
    (pe_secondedBy r) (pe_status r) (pe_resolvedBy r) v (pe_createdAt r) (pe_updatedAt r).
