(* ===== verification/Store.v ===== *)
(** * The store

    [InMemoryDb] of [packages/api/src/db/store.ts]: the tables the coalition
    services use, the methods that read and write them, the deployment's settings
    ([Env]), the requests handlers await ([req]) and user identities
    ([services/userIdentity.ts]). *)

From S2P Require Import Prelude JsMap Async CoalitionDomain Records.

(** ** The deployment *)

(** [draw n] is the [n]-th [`${rand()}_${stamp()}`] the process produces.  The
    other fields are environment variables and configured clients. *)
Class Env : Type := {
  draw : nat -> string;
  (** the [n]-th [randomUUID()] *)
  uuid : nat -> string;
  MATRIX_HOMESERVER_DOMAIN : option string;
  (** [Number.parseInt(process.env.COALITION_BOOST_DAILY_ALLOWANCE, 10)], [None] for [NaN] *)
  COALITION_BOOST_DAILY_ALLOWANCE : option Z;
  fbmIntegrationTarget_set : bool;
  entitlements_client : bool;
  provider_enabled : bool;
  provider_creates_listings : bool;
  provider_publishes_listings : bool;
  provider_archives_listings : bool;
  provider_quotes_fees : bool;
}.

(** What the id generator is relied on for: no repeats, and only characters of
    base-36 text and the underscore. *)
Class DrawLaws `{Env} : Prop := {
  draw_inj n m : draw n = draw m -> n = m;
  uuid_inj n m : uuid n = uuid m -> n = m;
  draw_no_colon n c : c ∈ String.list_ascii_of_string (draw n) -> c <> ":"%char;
}.

(** ** Requests answered from outside the process *)

Record PowerLevels : Set := {
  pl_users : list (string * Z);
  pl_events_default : option Z;
  pl_invite : option Z;
  pl_rest : string;
}.

(** A Matrix client result: [ok], and whichever of the other fields are present. *)
Record mx_result : Set := {
  mx_ok : bool;
  mx_status : option Z;
  mx_reason : option string;
  mx_detail : option string;
  mx_roomId : option string;
  mx_content : option PowerLevels;
}.

Inductive provider_result : Set :=
  | provider_ok (listingId : string)
  | provider_threw (status : option Z).

Inductive req : Set -> Type :=
  | Yield : req unit
  | CreateRoom (rname topic : string) (founderMxid : option string)
      (coalitionId slug mode : string) : req mx_result
  | InviteToRoom (room mxid reason : string) : req mx_result
  | AdminJoinUserToRoom (room mxid : string) : req mx_result
  | KickFromRoom (room mxid reason : string) : req mx_result
  | GetPowerLevels (room : string) : req mx_result
  | SendPowerLevels (room : string) (content : PowerLevels) : req mx_result
  | SendJoinRules (room rule : string) : req mx_result
  | SendMarker (room coalitionId slug mode : string) : req mx_result
  | GetEconomicStanding (mxid : string) : req (option unknown)
  | CreateCreatorListing (seller title description campaignId coalitionId : string) :
      req provider_result
  | PublishCreatorListing (listingId seller : string) : req provider_result
  | ArchiveCreatorListing (listingId seller : string) : req provider_result
  | GetListingFeeBps (listingId : string) : req (option jsnum)
  | FbmPutStatus (coalitionId status : string) : req (option unit)
  | FbmPutMilestones (coalitionId : string) (drivesCompleted contributingMembers raisedCents : Z) :
      req (option unit)
  | FbmOpenWindow (coalitionId campaignId title : string) (opensAt : string + Z)
      (closesAt dispatchAt : string) : req (option string)
  | FbmReputation (userId : string) (mxid : option string)
      (eventType referenceId coalitionId : string) : req (option unit).

(** ** The tables *)

Record db := mk_db {
  clock : Z;
  rng : nat;
  users : jsmap UserRecord;
  memberProfiles : jsmap MemberProfileRecord;
  reputationEvents : list ReputationEventRecord;
  aidPosts : jsmap CoalitionAidPostRecord;
  coalitions : jsmap CoalitionRecord;
  memberships : jsmap CoalitionMembershipRecord;
  joinRequests : jsmap CoalitionJoinRequestRecord;
  memberConnections : jsmap CoalitionMemberConnectionRecord;
  campaigns : jsmap CoalitionCampaignRecord;
  boosts : jsmap CoalitionBoostRecord;
  contributions : jsmap CoalitionCampaignContributionRecord;
  payees : jsmap CoalitionCampaignPayeeRecord;
  petitions : jsmap CoalitionSuccessionPetitionRecord;
  bounties : jsmap BountyRecord;
  relayEdges : jsmap RelayEdgeRecord;
  events : list DomainEvent;
}.

Definition set_clock (v : Z) (d : db) : db :=
  mk_db v (rng d) (users d) (memberProfiles d) (reputationEvents d) (aidPosts d) (coalitions d) (memberships d) (joinRequests d) (memberConnections d) (campaigns d) (boosts d) (contributions d) (payees d) (petitions d) (bounties d) (relayEdges d) (events d).
Definition set_rng (v : nat) (d : db) : db :=
  mk_db (clock d) v (users d) (memberProfiles d) (reputationEvents d) (aidPosts d) (coalitions d) (memberships d) (joinRequests d) (memberConnections d) (campaigns d) (boosts d) (contributions d) (payees d) (petitions d) (bounties d) (relayEdges d) (events d).
Definition set_users (v : jsmap UserRecord) (d : db) : db :=
  mk_db (clock d) (rng d) v (memberProfiles d) (reputationEvents d) (aidPosts d) (coalitions d) (memberships d) (joinRequests d) (memberConnections d) (campaigns d) (boosts d) (contributions d) (payees d) (petitions d) (bounties d) (relayEdges d) (events d).
Definition set_memberProfiles (v : jsmap MemberProfileRecord) (d : db) : db :=
  mk_db (clock d) (rng d) (users d) v (reputationEvents d) (aidPosts d) (coalitions d) (memberships d) (joinRequests d) (memberConnections d) (campaigns d) (boosts d) (contributions d) (payees d) (petitions d) (bounties d) (relayEdges d) (events d).
Definition set_reputationEvents (v : list ReputationEventRecord) (d : db) : db :=
  mk_db (clock d) (rng d) (users d) (memberProfiles d) v (aidPosts d) (coalitions d) (memberships d) (joinRequests d) (memberConnections d) (campaigns d) (boosts d) (contributions d) (payees d) (petitions d) (bounties d) (relayEdges d) (events d).
Definition set_aidPosts (v : jsmap CoalitionAidPostRecord) (d : db) : db :=
  mk_db (clock d) (rng d) (users d) (memberProfiles d) (reputationEvents d) v (coalitions d) (memberships d) (joinRequests d) (memberConnections d) (campaigns d) (boosts d) (contributions d) (payees d) (petitions d) (bounties d) (relayEdges d) (events d).
Definition set_coalitions (v : jsmap CoalitionRecord) (d : db) : db :=
  mk_db (clock d) (rng d) (users d) (memberProfiles d) (reputationEvents d) (aidPosts d) v (memberships d) (joinRequests d) (memberConnections d) (campaigns d) (boosts d) (contributions d) (payees d) (petitions d) (bounties d) (relayEdges d) (events d).
Definition set_memberships (v : jsmap CoalitionMembershipRecord) (d : db) : db :=
  mk_db (clock d) (rng d) (users d) (memberProfiles d) (reputationEvents d) (aidPosts d) (coalitions d) v (joinRequests d) (memberConnections d) (campaigns d) (boosts d) (contributions d) (payees d) (petitions d) (bounties d) (relayEdges d) (events d).
Definition set_joinRequests (v : jsmap CoalitionJoinRequestRecord) (d : db) : db :=
  mk_db (clock d) (rng d) (users d) (memberProfiles d) (reputationEvents d) (aidPosts d) (coalitions d) (memberships d) v (memberConnections d) (campaigns d) (boosts d) (contributions d) (payees d) (petitions d) (bounties d) (relayEdges d) (events d).
Definition set_memberConnections (v : jsmap CoalitionMemberConnectionRecord) (d : db) : db :=
  mk_db (clock d) (rng d) (users d) (memberProfiles d) (reputationEvents d) (aidPosts d) (coalitions d) (memberships d) (joinRequests d) v (campaigns d) (boosts d) (contributions d) (payees d) (petitions d) (bounties d) (relayEdges d) (events d).
Definition set_campaigns (v : jsmap CoalitionCampaignRecord) (d : db) : db :=
  mk_db (clock d) (rng d) (users d) (memberProfiles d) (reputationEvents d) (aidPosts d) (coalitions d) (memberships d) (joinRequests d) (memberConnections d) v (boosts d) (contributions d) (payees d) (petitions d) (bounties d) (relayEdges d) (events d).
Definition set_boosts (v : jsmap CoalitionBoostRecord) (d : db) : db :=
  mk_db (clock d) (rng d) (users d) (memberProfiles d) (reputationEvents d) (aidPosts d) (coalitions d) (memberships d) (joinRequests d) (memberConnections d) (campaigns d) v (contributions d) (payees d) (petitions d) (bounties d) (relayEdges d) (events d).
Definition set_contributions (v : jsmap CoalitionCampaignContributionRecord) (d : db) : db :=
  mk_db (clock d) (rng d) (users d) (memberProfiles d) (reputationEvents d) (aidPosts d) (coalitions d) (memberships d) (joinRequests d) (memberConnections d) (campaigns d) (boosts d) v (payees d) (petitions d) (bounties d) (relayEdges d) (events d).
Definition set_payees (v : jsmap CoalitionCampaignPayeeRecord) (d : db) : db :=
  mk_db (clock d) (rng d) (users d) (memberProfiles d) (reputationEvents d) (aidPosts d) (coalitions d) (memberships d) (joinRequests d) (memberConnections d) (campaigns d) (boosts d) (contributions d) v (petitions d) (bounties d) (relayEdges d) (events d).
Definition set_petitions (v : jsmap CoalitionSuccessionPetitionRecord) (d : db) : db :=
  mk_db (clock d) (rng d) (users d) (memberProfiles d) (reputationEvents d) (aidPosts d) (coalitions d) (memberships d) (joinRequests d) (memberConnections d) (campaigns d) (boosts d) (contributions d) (payees d) v (bounties d) (relayEdges d) (events d).
Definition set_bounties (v : jsmap BountyRecord) (d : db) : db :=
  mk_db (clock d) (rng d) (users d) (memberProfiles d) (reputationEvents d) (aidPosts d) (coalitions d) (memberships d) (joinRequests d) (memberConnections d) (campaigns d) (boosts d) (contributions d) (payees d) (petitions d) v (relayEdges d) (events d).
Definition set_relayEdges (v : jsmap RelayEdgeRecord) (d : db) : db :=
  mk_db (clock d) (rng d) (users d) (memberProfiles d) (reputationEvents d) (aidPosts d) (coalitions d) (memberships d) (joinRequests d) (memberConnections d) (campaigns d) (boosts d) (contributions d) (payees d) (petitions d) (bounties d) v (events d).
Definition set_events (v : list DomainEvent) (d : db) : db :=
  mk_db (clock d) (rng d) (users d) (memberProfiles d) (reputationEvents d) (aidPosts d) (coalitions d) (memberships d) (joinRequests d) (memberConnections d) (campaigns d) (boosts d) (contributions d) (payees d) (petitions d) (bounties d) (relayEdges d) v.

(** A row type stored in one of the tables above, written by the common upsert. *)
Class Table (V : Type) `{Keyed V, Stamped V} : Type := {
  tbl : db -> jsmap V;
  set_tbl : jsmap V -> db -> db;
}.

#[export] Instance table_coalitions : Table CoalitionRecord := {| tbl := coalitions; set_tbl := set_coalitions |}.
#[export] Instance table_memberships : Table CoalitionMembershipRecord := {| tbl := memberships; set_tbl := set_memberships |}.
#[export] Instance table_joinRequests : Table CoalitionJoinRequestRecord := {| tbl := joinRequests; set_tbl := set_joinRequests |}.
#[export] Instance table_memberConnections : Table CoalitionMemberConnectionRecord := {| tbl := memberConnections; set_tbl := set_memberConnections |}.
#[export] Instance table_campaigns : Table CoalitionCampaignRecord := {| tbl := campaigns; set_tbl := set_campaigns |}.
#[export] Instance table_boosts : Table CoalitionBoostRecord := {| tbl := boosts; set_tbl := set_boosts |}.
#[export] Instance table_contributions : Table CoalitionCampaignContributionRecord := {| tbl := contributions; set_tbl := set_contributions |}.
#[export] Instance table_payees : Table CoalitionCampaignPayeeRecord := {| tbl := payees; set_tbl := set_payees |}.
#[export] Instance table_petitions : Table CoalitionSuccessionPetitionRecord := {| tbl := petitions; set_tbl := set_petitions |}.

(** The body every [upsertX] of the store shares; [nowIso()] reads the clock. *)
Definition db_upsert `{Table V} (v : V) (d : db) : db * V :=
  let r := stamped_row (clock d) (tbl d) v in
  (set_tbl (upsert (clock d) v (tbl d)) d, r).

(** ** Methods of [InMemoryDb] *)

Definition listCoalitions (d : db) : list CoalitionRecord := values (coalitions d).
Definition db_getCoalition (id : string) (d : db) : option CoalitionRecord :=
  get id (coalitions d).
Definition getCoalitionBySlug (slug : string) (d : db) : option CoalitionRecord :=
  List.find (fun r => bool_decide (co_slug r = slug)) (values (coalitions d)).
Definition upsertCoalition (r : CoalitionRecord) (d : db) : db * CoalitionRecord :=
  db_upsert r d.

Definition listCoalitionMemberships (coalitionId userId : option string) (d : db) :
    list CoalitionMembershipRecord :=
  List.filter (fun r => clause coalitionId (mb_coalitionId r) && clause userId (mb_userId r))
    (values (memberships d)).
Definition getCoalitionMembership (coalitionId userId : string) (d : db) :
    option CoalitionMembershipRecord :=
  get (pair_key coalitionId userId) (memberships d).
Definition upsertCoalitionMembership (r : CoalitionMembershipRecord) (d : db) :
    db * CoalitionMembershipRecord := db_upsert r d.

Definition listCoalitionJoinRequests (coalitionId userId : option string)
    (status : option CoalitionJoinRequestStatus) (d : db) : list CoalitionJoinRequestRecord :=
  List.filter (fun r => clause coalitionId (jr_coalitionId r) && clause userId (jr_userId r)
      && match status with Some s => bool_decide (jr_status r = s) | None => true end)
    (values (joinRequests d)).
Definition getCoalitionJoinRequest (coalitionId userId : string) (d : db) :
    option CoalitionJoinRequestRecord :=
  get (pair_key coalitionId userId) (joinRequests d).
Definition upsertCoalitionJoinRequest (r : CoalitionJoinRequestRecord) (d : db) :
    db * CoalitionJoinRequestRecord := db_upsert r d.

Definition listCoalitionMemberConnections (coalitionId userId : option string) (d : db) :
    list CoalitionMemberConnectionRecord :=
  List.filter (fun r => clause coalitionId (mc_coalitionId r) && clause userId (mc_userId r))
    (values (memberConnections d)).
Definition upsertCoalitionMemberConnection (r : CoalitionMemberConnectionRecord) (d : db) :
    db * CoalitionMemberConnectionRecord := db_upsert r d.

Definition listCoalitionCampaigns (coalitionId : option string)
    (status : option CampaignStatus) (type : option CampaignType) (d : db) :
    list CoalitionCampaignRecord :=
  List.filter (fun r => clause coalitionId (cp_coalitionId r)
      && match status with Some s => bool_decide (cp_status r = s) | None => true end
      && match type with Some t => bool_decide (cp_type r = t) | None => true end)
    (values (campaigns d)).
Definition getCoalitionCampaign (id : string) (d : db) : option CoalitionCampaignRecord :=
  get id (campaigns d).
Definition upsertCoalitionCampaign (r : CoalitionCampaignRecord) (d : db) :
    db * CoalitionCampaignRecord := db_upsert r d.

Definition listCoalitionSuccessionPetitions (coalitionId : option string)
    (status : option CoalitionSuccessionStatus) (d : db) :
    list CoalitionSuccessionPetitionRecord :=
  List.filter (fun r => clause coalitionId (pe_coalitionId r)
      && match status with Some s => bool_decide (pe_status r = s) | None => true end)
    (values (petitions d)).
Definition getOpenCoalitionSuccessionPetition (coalitionId : string) (d : db) :
    option CoalitionSuccessionPetitionRecord :=
  List.find (fun r => bool_decide (pe_coalitionId r = coalitionId)
      && bool_decide (pe_status r = suc_open)) (values (petitions d)).
Definition upsertCoalitionSuccessionPetition (r : CoalitionSuccessionPetitionRecord) (d : db) :
    db * CoalitionSuccessionPetitionRecord := db_upsert r d.

Definition listCoalitionCampaignPayees (campaignId coalitionId userId : option string) (d : db) :
    list CoalitionCampaignPayeeRecord :=
  List.filter (fun r => clause campaignId (py_campaignId r)
      && clause coalitionId (py_coalitionId r) && clause userId (py_userId r))
    (values (payees d)).
Definition upsertCoalitionCampaignPayee (r : CoalitionCampaignPayeeRecord) (d : db) :
    db * CoalitionCampaignPayeeRecord := db_upsert r d.

Definition listCoalitionCampaignContributions
    (campaignId coalitionId supporterUserId : option string) (d : db) :
    list CoalitionCampaignContributionRecord :=
  List.filter (fun r => clause campaignId (ct_campaignId r)
      && clause coalitionId (ct_coalitionId r) && clause supporterUserId (ct_supporterUserId r))
    (values (contributions d)).
Definition findCoalitionCampaignContributionByTip (tipId : string) (d : db) :
    option CoalitionCampaignContributionRecord :=
  List.find (fun r => bool_decide (ct_tipId r = tipId)) (values (contributions d)).
Definition upsertCoalitionCampaignContribution (r : CoalitionCampaignContributionRecord)
    (d : db) : db * CoalitionCampaignContributionRecord := db_upsert r d.

Definition listCoalitionBoosts (campaignId coalitionId userId : option string)
    (day : option Z) (d : db) : list CoalitionBoostRecord :=
  List.filter (fun r => clause campaignId (bo_campaignId r)
      && clause coalitionId (bo_coalitionId r) && clause userId (bo_userId r)
      && match day with Some n => bool_decide (bo_day r = n) | None => true end)
    (values (boosts d)).
Definition upsertCoalitionBoost (r : CoalitionBoostRecord) (d : db) :
    db * CoalitionBoostRecord := db_upsert r d.

Definition listCoalitionAidPosts (d : db) : list CoalitionAidPostRecord := values (aidPosts d).

Definition getUserById (id : string) (d : db) : option UserRecord := get id (users d).

(** [toLowerCase] on code units below 256. *)
Definition lower_char (c : ascii) : ascii :=
  let n := nat_of_ascii c in
  if bool_decide ((65 <= n /\ n <= 90) \/ (192 <= n /\ n <= 222 /\ n <> 215))
  then ascii_of_nat (n + 32) else c.
Definition toLowerCase (s : string) : string :=
  String.string_of_list_ascii (map lower_char (String.list_ascii_of_string s)).

Definition findUserByUsername (username : string) (d : db) : option UserRecord :=
  List.find (fun u => bool_decide (toLowerCase (us_username u) = toLowerCase username))
    (values (users d)).

Definition getMemberProfile (userId : string) (d : db) : option MemberProfileRecord :=
  get userId (memberProfiles d).

Definition listReputationEventsForUser (userId : string) (d : db) : list ReputationEventRecord :=
  List.filter (fun e => bool_decide (rp_userId e = userId)) (reputationEvents d).

(** [createBounty]: the fields of the input, opened now. *)
Definition createBounty (id category title description creatorId rewardType rewardSummary : string)
    (rewardAmountCents : option Z) (requirements deliverables : option (list string))
    (coalitionId : option string) (d : db) : db * BountyRecord :=
  let r := mk_bt id category title description creatorId rewardType rewardSummary
    rewardAmountCents (default [] requirements) (default [] deliverables) b_open coalitionId
    None (clock d) (clock d) in
  (set_bounties (set id r (bounties d)) d, r).

(** [emitDomainEvent]: the event is appended to the process's log. *)
Definition emit (e : DomainEvent) (d : db) : db := set_events (events d ++ [e]) d.

(** ** Identities: [services/userIdentity.ts] *)

Section identity.
Context `{Env}.

(** [.replace(/^@+/, '')] *)
Fixpoint drop_ats (s : string) : string :=
  match s with
  | String c s' => if decide (c = "@"%char) then drop_ats s' else s
  | EmptyString => s
  end.

Definition homeserverDomain : string :=
  drop_ats (default "blackout.local" MATRIX_HOMESERVER_DOMAIN).

Definition is_space (c : ascii) : bool :=
  let n := nat_of_ascii c in
  bool_decide ((9 <= n /\ n <= 13) \/ n = 32 \/ n = 160).

(** Split at the first colon. *)
Fixpoint cut_colon (s : string) : option (string * string) :=
  match s with
  | EmptyString => None
  | String c s' =>
      if decide (c = ":"%char) then Some ("", s')
      else match cut_colon s' with
           | Some (a, b) => Some (String c a, b)
           | None => None
           end
  end.

Definition non_space (s : string) : bool :=
  bool_decide (s <> "") && forallb (fun c => negb (is_space c)) (String.list_ascii_of_string s).

(** [/^@([^:\s]+):(\S+)$/] *)
Definition parseMatrixId (value : string) : option (string * string) :=
  match value with
  | String c rest =>
      if decide (c = "@"%char) then
        match cut_colon rest with
        | Some (l, srv) => if non_space l && non_space srv then Some (l, srv) else None
        | None => None
        end
      else None
  | EmptyString => None
  end.

Definition matrixLocalpart (value : string) : option string :=
  match parseMatrixId value with
  | Some (l, srv) => if decide (srv = homeserverDomain) then Some l else None
  | None => None
  end.

Definition resolveBlackoutUserId (id : string) (d : db) : option string :=
  match getUserById id d with
  | Some _ => Some id
  | None =>
      match truthy (matrixLocalpart id) with
      | Some l => us_id <$> findUserByUsername l d
      | None => None
      end
  end.

Definition matrixUserIdFor (blackoutUserId : string) (d : db) : option string :=
  match getUserById blackoutUserId d with
  | Some u => Some ("@" +:+ us_username u +:+ ":" +:+ homeserverDomain)
  | None => None
  end.

(** [isPubliclyListed] of [services/profileStore.ts]. *)
Definition isPubliclyListed (blackoutUserId : string) (d : db) : bool :=
  let profile :=
    match (match matrixUserIdFor blackoutUserId d with
           | Some mxid => getMemberProfile mxid d
           | None => None
           end) with
    | Some p => Some p
    | None => getMemberProfile blackoutUserId d
    end in
  negb (bool_decide (match profile with Some p => mp_hideFromPublicRosters p | None => None end
                     = Some true)).
End identity.

(** ** The handler monad over this store *)

Abbreviation H A := (M db req A).

Section prims.
Context `{Env}.

Definition fresh (prefix : string) : H string :=
  update (fun d => (set_rng (S (rng d)) d, prefix +:+ draw (rng d))).

Definition randomUUID : H string :=
  update (fun d => (set_rng (S (rng d)) d, uuid (rng d))).

Definition newCoalitionId : H string := fresh "coa_".
Definition newCoalitionMembershipId : H string := fresh "coam_".
Definition newJoinRequestId : H string := fresh "coaj_".
Definition newCampaignId : H string := fresh "camp_".
Definition newPayeeId : H string := fresh "cpay_".
Definition newBoostId : H string := fresh "boost_".
Definition newPetitionId : H string := fresh "csuc_".
Definition newContributionId : H string := fresh "coac_".
Definition newBountyId : H string := fresh "bounty_".

Definition NOW : H Z := gets clock.
Definition emitDomainEvent (e : DomainEvent) : H unit := modify (emit e).

(** [await f()]: when [f] settles, the caller resumes in a later microtask. *)
Definition await {A} (m : H A) : H A :=
  let! a := m in let! _ := request Yield in mret a.
End prims.

(** ** Running a handler without interruption *)

(** The store after a handler that never awaits. *)
Definition exec {A} (m : H A) (d : db) : db := fst (settle (m d)).

(** The empty store. *)
Definition empty_db : db := mk_db 0 0 [] [] [] [] [] [] [] [] [] [] [] [] [] [] [] [].

(** A deployment with every optional service off, whose ids count up in unary. *)
Definition unary (n : nat) : string := String.string_of_list_ascii (repeat "a"%char n).

Definition sample_env : Env := {|
  draw := unary;
  uuid := unary;
  MATRIX_HOMESERVER_DOMAIN := None;
  COALITION_BOOST_DAILY_ALLOWANCE := None;
  fbmIntegrationTarget_set := false;
  entitlements_client := false;
  provider_enabled := false;
  provider_creates_listings := false;
  provider_publishes_listings := false;
  provider_archives_listings := false;
  provider_quotes_fees := false;
|}.

Lemma unary_inj n m : unary n = unary m -> n = m.
Proof.
  intros E. apply (f_equal String.list_ascii_of_string) in E. unfold unary in E.
  rewrite !String.list_ascii_of_string_of_list_ascii in E.
  by apply (f_equal length) in E; rewrite !repeat_length in E.
Qed.

Lemma sample_laws : @DrawLaws sample_env.
Proof.
  split; [exact unary_inj|exact unary_inj|]. intros n c Hc. simpl in Hc. unfold unary in Hc.
  rewrite String.list_ascii_of_string_of_list_ascii in Hc.
  apply list_elem_of_In, repeat_spec in Hc. by subst.
Qed.
