(* ===== verification/Spaces.v ===== *)
(** * The Matrix Space mirror: [packages/api/src/services/coalitionSpaces.ts]

    Every mutation of a coalition asks its Matrix Space to follow.  These tasks
    talk to the homeserver and never write the store. *)

From S2P Require Import Prelude JsMap Async CoalitionDomain Records Store.

Record SpaceOutcome := {
  so_ok : bool;
  so_detail : option string;
  so_roomId : option string;
}.

Definition outcome_ok (room : string) : SpaceOutcome :=
  {| so_ok := true; so_detail := None; so_roomId := Some room |}.
Definition outcome_fail (room detail : string) : SpaceOutcome :=
  {| so_ok := false; so_detail := Some detail; so_roomId := Some room |}.
Definition outcome_skip (detail : string) : SpaceOutcome :=
  {| so_ok := false; so_detail := Some detail; so_roomId := None |}.

Definition detailOf (r : mx_result) : string :=
  match mx_reason r, mx_detail r, mx_status r with
  | Some s, _, _ => s
  | None, Some s, _ => s
  | None, None, Some n => "http_" +:+ pretty n
  | None, None, None => "unknown"
  end.

Definition joinRuleFor (_ : CoalitionJoinMode) : string := "invite".

(** [!current.ok && current.status !== 404] *)
Definition unreadable (r : mx_result) : bool :=
  negb (mx_ok r) && negb (bool_decide (mx_status r = Some 404%Z)).

(** [current.ok && current.content ? current.content : {}] *)
Definition content_of (r : mx_result) : PowerLevels :=
  match mx_ok r, mx_content r with
  | true, Some c => c
  | _, _ => {| pl_users := []; pl_events_default := None; pl_invite := None; pl_rest := "" |}
  end.

Section spaces.
Context `{Env}.

Definition closeCoalitionSpace (coalition : CoalitionRecord) : H SpaceOutcome :=
  match truthy (co_spaceRoomId coalition) with
  | None => mret {| so_ok := true; so_detail := None; so_roomId := None |}
  | Some room =>
      let! sealed := request (SendJoinRules room "invite") in
      let! current := request (GetPowerLevels room) in
      if unreadable current then mret (outcome_fail room "power_levels_unreadable")
      else
        let content := content_of current in
        let! written := request (SendPowerLevels room
          {| pl_users := pl_users content; pl_events_default := Some 100%Z;
             pl_invite := Some 100%Z; pl_rest := pl_rest content |}) in
        mret (if mx_ok written && mx_ok sealed then outcome_ok room
              else outcome_fail room (detailOf (if mx_ok written then sealed else written)))
  end.

Definition inviteOrJoin (room mxid reason : string) : H SpaceOutcome :=
  let! invited := request (InviteToRoom room mxid reason) in
  if mx_ok invited then mret (outcome_ok room)
  else
    let! joined := request (AdminJoinUserToRoom room mxid) in
    mret (if mx_ok joined then outcome_ok room else outcome_fail room (detailOf joined)).

Definition applyPowerLevel (room mxid : string) (level : Z) : H SpaceOutcome :=
  let! current := request (GetPowerLevels room) in
  if unreadable current then mret (outcome_fail room "power_levels_unreadable")
  else
    let content := content_of current in
    if bool_decide (get mxid (pl_users content) = Some level) then mret (outcome_ok room)
    else
      let! written := request (SendPowerLevels room
        {| pl_users := set mxid level (pl_users content);
           pl_events_default := pl_events_default content;
           pl_invite := pl_invite content; pl_rest := pl_rest content |}) in
      mret (if mx_ok written then outcome_ok room else outcome_fail room (detailOf written)).

Definition provisionCoalitionSpace (coalition : CoalitionRecord) : H SpaceOutcome :=
  let! founderMxid := gets (matrixUserIdFor (co_createdBy coalition)) in
  let! created := request (CreateRoom (co_name coalition) (co_mission coalition) founderMxid
    (co_id coalition) (co_slug coalition) (name (co_joinMode coalition))) in
  match mx_ok created, truthy (mx_roomId created) with
  | true, Some room =>
      match founderMxid with
      | Some mxid =>
          let! _ := await (inviteOrJoin room mxid ("Founded " +:+ co_name coalition)) in
          mret (outcome_ok room)
      | None => mret (outcome_ok room)
      end
  | _, _ => mret (outcome_skip (detailOf created))
  end.

(** The three guards the member-level tasks share. *)
Definition with_space {A} (coalition : CoalitionRecord) (userId : string)
    (skip : SpaceOutcome -> A) (k : string -> string -> H A) : H A :=
  match truthy (co_spaceRoomId coalition) with
  | None => mret (skip (outcome_skip "no_space"))
  | Some room =>
      let! mxid := gets (matrixUserIdFor userId) in
      match mxid with
      | None => mret (skip (outcome_skip "unresolved_user"))
      | Some mxid => k room mxid
      end
  end.

Definition syncCoalitionMemberToSpace (coalition : CoalitionRecord) (userId : string)
    (role : CoalitionRole) : H SpaceOutcome :=
  with_space coalition userId (fun o => o) (fun room mxid =>
    let! admitted := await (inviteOrJoin room mxid ("Joined " +:+ co_name coalition)) in
    if negb (so_ok admitted) then mret admitted
    else applyPowerLevel room mxid (COALITION_ROLE_POWER_LEVELS role)).

Definition syncCoalitionRoleToSpace (coalition : CoalitionRecord) (userId : string)
    (role : CoalitionRole) : H SpaceOutcome :=
  with_space coalition userId (fun o => o) (fun room mxid =>
    applyPowerLevel room mxid (COALITION_ROLE_POWER_LEVELS role)).

Definition removeCoalitionMemberFromSpace (coalition : CoalitionRecord) (userId reason : string) :
    H SpaceOutcome :=
  with_space coalition userId (fun o => o) (fun room mxid =>
    let! _ := await (applyPowerLevel room mxid (COALITION_ROLE_POWER_LEVELS member)) in
    let! kicked := request (KickFromRoom room mxid reason) in
    mret (if mx_ok kicked then outcome_ok room else outcome_fail room (detailOf kicked))).

Definition syncCoalitionSpaceSettings (coalition : CoalitionRecord) : H SpaceOutcome :=
  match truthy (co_spaceRoomId coalition) with
  | None => mret (outcome_skip "no_space")
  | Some room =>
      let! rule := request (SendJoinRules room (joinRuleFor (co_joinMode coalition))) in
      let! stamped := request (SendMarker room (co_id coalition) (co_slug coalition)
        (name (co_joinMode coalition))) in
      mret (if mx_ok rule && mx_ok stamped then outcome_ok room
            else outcome_fail room (detailOf (if mx_ok rule then stamped else rule)))
  end.
End spaces.

(** ** The mirror never writes the store *)

Section silent.
Context `{Env} (I : db -> Prop) (G : db -> db -> Prop) `{!PreOrder G}.

Ltac silent := repeat keeps_step; try done.

Lemma keeps_await {A} (m : H A) : keeps I G m -> keeps I G (await m).
Proof.
  intros Hm. unfold await. by repeat keeps_step.
Qed.

Lemma inviteOrJoin_silent room mxid reason : keeps I G (inviteOrJoin room mxid reason).
Proof. unfold inviteOrJoin. silent. Qed.

Lemma applyPowerLevel_silent room mxid l : keeps I G (applyPowerLevel room mxid l).
Proof. unfold applyPowerLevel. silent. Qed.

Lemma closeCoalitionSpace_silent c : keeps I G (closeCoalitionSpace c).
Proof. unfold closeCoalitionSpace. silent. Qed.

Lemma provisionCoalitionSpace_silent c : keeps I G (provisionCoalitionSpace c).
Proof. unfold provisionCoalitionSpace. silent. apply keeps_await, inviteOrJoin_silent. Qed.

Lemma syncCoalitionMemberToSpace_silent c u r : keeps I G (syncCoalitionMemberToSpace c u r).
Proof.
  unfold syncCoalitionMemberToSpace, with_space. silent.
  - apply keeps_await, inviteOrJoin_silent.
  - apply applyPowerLevel_silent.
Qed.

Lemma syncCoalitionRoleToSpace_silent c u r : keeps I G (syncCoalitionRoleToSpace c u r).
Proof. unfold syncCoalitionRoleToSpace, with_space. silent. apply applyPowerLevel_silent. Qed.

Lemma removeCoalitionMemberFromSpace_silent c u r :
  keeps I G (removeCoalitionMemberFromSpace c u r).
Proof.
  unfold removeCoalitionMemberFromSpace, with_space. silent.
  apply keeps_await, applyPowerLevel_silent.
Qed.

Lemma syncCoalitionSpaceSettings_silent c : keeps I G (syncCoalitionSpaceSettings c).
Proof. unfold syncCoalitionSpaceSettings. silent. Qed.
End silent.

#[export] Hint Resolve keeps_await inviteOrJoin_silent applyPowerLevel_silent
  closeCoalitionSpace_silent provisionCoalitionSpace_silent syncCoalitionMemberToSpace_silent
  syncCoalitionRoleToSpace_silent removeCoalitionMemberFromSpace_silent
  syncCoalitionSpaceSettings_silent : blackout.
