(* ===== verification/Drives.v ===== *)
(** * Drives: contributions, listings and the FBM bridge

    [packages/api/src/services/coalitionDrives.ts],
    [coalitionFbmBridge.ts] and [coalitionReputation.ts]: how a captured
    contribution is recorded, how a drive's listing is created and withdrawn, and
    the notifications sent to the marketplace. *)

From S2P Require Import Prelude JsMap Async CoalitionDomain Money Records Store.

(** ** Commission *)

Definition COALITION_COMMISSION_BPS : Z := 300.
Definition DEFAULT_PROVIDER : MarketplaceProviderId := freeblackmarket.

(** Throws when the provider's rate exceeds the ceiling. *)
Definition assertFlatCommission (p : MarketplaceProviderId) : res unit unit :=
  if bool_decide (feeBps (marketplaceProviderFees p) <= COALITION_COMMISSION_BPS)%Z
  then Ok tt else Err tt.

Definition commissionWithinCeiling (bps : jsnum) : option Z :=
  match as_integer bps with
  | Some n => if bool_decide (0 <= n /\ n <= COALITION_COMMISSION_BPS)%Z then Some n else None
  | None => None
  end.

Inductive CoalitionReputationEvent :=
  | drive_completed | drive_contributed | mutual_aid_fulfilled | project_delivered
  | quest_completed.

Definition reputation_event_name (e : CoalitionReputationEvent) : string :=
  match e with
  | drive_completed => "drive_completed"
  | drive_contributed => "drive_contributed"
  | mutual_aid_fulfilled => "mutual_aid_fulfilled"
  | project_delivered => "project_delivered"
  | quest_completed => "quest_completed"
  end.

Section drives.
Context `{Env}.

Definition quoteCommissionBps (listingId : option string) : H (option Z) :=
  match truthy listingId with
  | None => mret (Some COALITION_COMMISSION_BPS)
  | Some l =>
      if negb (provider_enabled && provider_quotes_fees)
      then mret (Some COALITION_COMMISSION_BPS)
      else
        let! quoted := request (GetListingFeeBps l) in
        mret (match quoted with
              | None => Some COALITION_COMMISSION_BPS
              | Some q => commissionWithinCeiling q
              end)
  end.

(** The left side stands for the thrown error. *)
Definition previewContribution (gross : jsnum) (listingId : option string) :
    H (res unit PlatformCommissionSplit) :=
  match assertFlatCommission DEFAULT_PROVIDER with
  | Err e => mret (Err e)
  | Ok _ =>
      let! quoted := await (quoteCommissionBps listingId) in
      let bps := default COALITION_COMMISSION_BPS quoted in
      mret (match computePlatformCommission gross DEFAULT_PROVIDER (Some (jint bps)) with
            | Ok s => Ok s
            | Err _ => Err tt
            end)
  end.

(** ** [coalitionReputation.ts] and [coalitionFbmBridge.ts] *)

Definition awardCoalitionKarma (e : CoalitionReputationEvent)
    (blackoutUserId coalitionId referenceId : string) : H unit :=
  if negb fbmIntegrationTarget_set then mret tt
  else
    let! mxid := gets (matrixUserIdFor blackoutUserId) in
    let! _ := request (FbmReputation blackoutUserId mxid (reputation_event_name e)
      referenceId coalitionId) in
    mret tt.

Record CoalitionMilestones := {
  ms_drivesCompleted : Z;
  ms_contributingMembers : Z;
  ms_raisedCents : Z;
}.

Definition distinct (l : list string) : Z := Z.of_nat (length (remove_dups l)).

Definition computeCoalitionMilestones (coalitionId : string) (d : db) : CoalitionMilestones :=
  let completed := List.filter (fun r => bool_decide (cp_status r = st_completed)
      && (bool_decide (cp_type r = type_drive) || bool_decide (cp_type r = type_goods_drive)))
    (listCoalitionCampaigns (Some coalitionId) None None d) in
  let ids := map cp_id completed in
  let cs := List.filter (fun r => bool_decide (ct_campaignId r ∈ ids))
    (listCoalitionCampaignContributions None (Some coalitionId) None d) in
  {| ms_drivesCompleted := distinct (map ct_campaignId cs);
     ms_contributingMembers := distinct (map ct_supporterUserId cs);
     ms_raisedCents := sum_by ct_amountCents cs |}.

Definition pushCoalitionMilestones (coalitionId : string) : H unit :=
  if negb fbmIntegrationTarget_set then mret tt
  else
    let! t := gets (computeCoalitionMilestones coalitionId) in
    let! _ := request (FbmPutMilestones coalitionId (ms_drivesCompleted t)
      (ms_contributingMembers t) (ms_raisedCents t)) in
    mret tt.

Definition pushCoalitionStatus (coalitionId status : string) : H unit :=
  if negb fbmIntegrationTarget_set then mret tt
  else let! _ := request (FbmPutStatus coalitionId status) in mret tt.

Definition openSharedOrderWindow (campaign : CoalitionCampaignRecord)
    (opensAt : string + Z) (closesAt dispatchAt : string) : H (option string) :=
  if negb fbmIntegrationTarget_set then mret None
  else
    let! body := request (FbmOpenWindow (cp_coalitionId campaign) (cp_id campaign)
      (cp_title campaign) opensAt closesAt dispatchAt) in
    match truthy body with
    | None => mret None
    | Some orderCycleId =>
        let! current := gets (getCoalitionCampaign (cp_id campaign)) in
        match current with
        | Some c =>
            if bool_decide (cp_fbmOrderCycleId c = Some orderCycleId)
            then mret (Some orderCycleId)
            else
              let! _ := update (upsertCoalitionCampaign
                (with_cp_fbmOrderCycleId (Some orderCycleId) c)) in
              mret (Some orderCycleId)
        | None => mret (Some orderCycleId)
        end
    end.

Definition openWindowForGoodsDrive (campaign : CoalitionCampaignRecord) : H (option string) :=
  match cp_type campaign, truthy (cp_endsAt campaign) with
  | type_goods_drive, Some ends =>
      let! now := NOW in
      openSharedOrderWindow campaign
        (match cp_startsAt campaign with Some s => inl s | None => inr now end) ends ends
  | _, _ => mret None
  end.

(** ** Listings *)

Definition driveBeneficiary (campaign : CoalitionCampaignRecord) : option string :=
  if decide (cp_type campaign = type_mutual_aid) then cp_beneficiaryUserId campaign
  else match cp_beneficiaryUserId campaign with
       | Some b => Some b
       | None => cp_createdBy campaign
       end.

Definition ensureDriveListing (campaign : CoalitionCampaignRecord) : H unit :=
  if bool_decide (truthy (cp_fbmListingId campaign) <> None) then mret tt
  else if negb (bool_decide (cp_status campaign = st_active)) then mret tt
  else if negb (bool_decide (cp_type campaign = type_drive)
                || bool_decide (cp_type campaign = type_mutual_aid)) then mret tt
  else match truthy (driveBeneficiary campaign) with
  | None => mret tt
  | Some beneficiary =>
      let! user := gets (getUserById beneficiary) in
      match user with
      | None => mret tt
      | Some _ =>
          if negb (provider_enabled && provider_creates_listings && provider_publishes_listings)
          then mret tt
          else
            let! created := request (CreateCreatorListing beneficiary (cp_title campaign)
              (match truthy (Some (cp_description campaign)) with
               | Some s => s | None => cp_title campaign end)
              (cp_id campaign) (cp_coalitionId campaign)) in
            match created with
            | provider_threw _ => mret tt
            | provider_ok listing =>
                let! published := request (PublishCreatorListing listing beneficiary) in
                match published with
                | provider_threw _ => mret tt
                | provider_ok _ =>
                    let! current := gets (getCoalitionCampaign (cp_id campaign)) in
                    match current with
                    | None => mret tt
                    | Some c =>
                        if negb (bool_decide (cp_status c = st_active))
                           || bool_decide (truthy (cp_fbmListingId c) <> None)
                        then mret tt
                        else
                          let! _ := update (upsertCoalitionCampaign
                            (with_cp_fbmListingId (Some listing) c)) in
                          mret tt
                    end
                end
            end
      end
  end.

Definition archiveDriveListing (campaign : CoalitionCampaignRecord) : H unit :=
  match truthy (cp_fbmListingId campaign) with
  | None => mret tt
  | Some listingId =>
      let! _ :=
        (match truthy (driveBeneficiary campaign) with
         | Some beneficiary =>
             if provider_enabled && provider_archives_listings
             then let! _ := request (ArchiveCreatorListing listingId beneficiary) in mret tt
             else mret tt
         | None => mret tt
         end) in
      let! current := gets (getCoalitionCampaign (cp_id campaign)) in
      match current with
      | Some c =>
          if bool_decide (cp_fbmListingId c = Some listingId)
          then
            let! _ := update (upsertCoalitionCampaign (with_cp_fbmListingId None c)) in
            mret tt
          else mret tt
      | None => mret tt
      end
  end.

(** ** Contributions *)

Definition campaignHasCapturedContributions (campaignId : string)
    (excludeUserId : option string) (d : db) : bool :=
  existsb (fun r => negb (bool_decide (Some (ct_supporterUserId r) = excludeUserId)))
    (listCoalitionCampaignContributions (Some campaignId) None None d).

Record RecordContributionInput := {
  rc_campaignId : string;
  rc_supporterUserId : string;
  rc_tipId : string;
  rc_amountCents : Z;
  rc_currency : string;
}.

Definition payee_share_of (r : CoalitionCampaignPayeeRecord) : payee_share :=
  {| ps_userId := py_userId r; ps_shareBps := py_shareBps r; ps_active := py_active r |}.

Definition recordContribution (input : RecordContributionInput) :
    H (option (CoalitionCampaignRecord * CoalitionCampaignContributionRecord)) :=
  let! found := gets (getCoalitionCampaign (rc_campaignId input)) in
  match found with
  | None => mret None
  | Some campaign =>
      let! existing := gets (findCoalitionCampaignContributionByTip (rc_tipId input)) in
      match existing with
      | Some e => mret (Some (campaign, e))
      | None =>
          let! id := newContributionId in
          let! contribution := update (upsertCoalitionCampaignContribution
            (mk_ct id (cp_id campaign) (cp_coalitionId campaign) (rc_supporterUserId input)
               (rc_tipId input) (rc_amountCents input) (rc_currency input) 0 0)) in
          let! rows := gets (listCoalitionCampaignContributions (Some (cp_id campaign)) None None) in
          let priorSupporters := map ct_supporterUserId
            (List.filter (fun r => negb (bool_decide (ct_id r = ct_id contribution))) rows) in
          let! updated := update (upsertCoalitionCampaign
            (with_cp_contributorCount
               (if bool_decide (rc_supporterUserId input ∈ priorSupporters)
                then cp_contributorCount campaign else cp_contributorCount campaign + 1)%Z
               (with_cp_raisedCents (cp_raisedCents campaign + rc_amountCents input)%Z
                  campaign))) in
          let! _ := spawn (awardCoalitionKarma drive_contributed (rc_supporterUserId input)
            (cp_coalitionId campaign) (rc_tipId input)) in
          let! payees := gets (fun d => List.filter py_active
            (listCoalitionCampaignPayees (Some (cp_id campaign)) None None d)) in
          let allocation := allocatePayeeCents (rc_amountCents input)
            (map payee_share_of payees) in
          let! _ := emitDomainEvent (ev_contribution_recorded (cp_coalitionId campaign)
            (cp_id campaign) (rc_supporterUserId input) (rc_tipId input)
            (rc_amountCents input) (cp_raisedCents updated)
            (match cp_beneficiaryUserId campaign with
             | Some b => Some b | None => cp_createdBy campaign end) allocation) in
          let! _ :=
            (match cp_goalCents updated with
             | Some goal =>
                 if bool_decide (goal <> 0%Z) && bool_decide (goal <= cp_raisedCents updated)%Z
                    && bool_decide (cp_raisedCents campaign < goal)%Z
                 then emitDomainEvent (ev_goal_reached (cp_coalitionId campaign)
                        (cp_id campaign) goal (cp_raisedCents updated))
                 else mret tt
             | None => mret tt
             end) in
          mret (Some (updated, contribution))
      end
  end.

Definition listContributions (campaignId : string) (d : db) :
    list (string * Z * string * Z) :=
  map (fun r => (ct_supporterUserId r, ct_amountCents r, ct_currency r, ct_createdAt r))
    (js_sort (fun a b => bool_decide (ct_createdAt b <= ct_createdAt a)%Z)
       (listCoalitionCampaignContributions (Some campaignId) None None d)).
End drives.

(** ** The commission a contributor is shown *)

Section commission.
Context `{Env}.

Lemma ceiling_range q n :
  commissionWithinCeiling q = Some n -> (0 <= n <= COALITION_COMMISSION_BPS)%Z.
Proof.
  unfold commissionWithinCeiling. destruct (as_integer q); [|done].
  case_bool_decide; naive_solver.
Qed.

(** Whatever the storefront answers, the rate is at most the ceiling. *)
Lemma quote_range listing d (oracle : forall X : Set, req X -> X) :
  let r := run_alone oracle (quoteCommissionBps listing d) in
  fst r = d /\ (0 <= default COALITION_COMMISSION_BPS (snd r) <= COALITION_COMMISSION_BPS)%Z.
Proof.
  unfold quoteCommissionBps. destruct (truthy listing) as [l|]; [|done].
  destruct (negb _); [done|]. cbn. destruct (oracle _ (GetListingFeeBps l)) as [q|]; [|done].
  split; [done|]. destruct (commissionWithinCeiling q) as [n|] eqn:E; [|done].
  by apply ceiling_range in E.
Qed.

(** The split a contributor is shown never takes more than the flat
    three percent, whatever rate the storefront quotes for the listing: fee and net
    add up to the amount, and only an amount that is not a whole number of cents,
    or is negative, is refused. *)
Theorem previewContribution_ceiling gross listing d (oracle : forall X : Set, req X -> X) :
  let r := run_alone oracle (previewContribution gross listing d) in
  fst r = d /\
  match snd r with
  | Ok s =>
      as_integer gross = Some (grossCents s) /\ (0 <= grossCents s)%Z /\
      (feeCents s + netCents s = grossCents s)%Z /\
      (0 <= feeCents s)%Z /\ (100 * feeCents s <= 3 * grossCents s + 50)%Z
  | Err _ => forall g, as_integer gross = Some g -> (g < 0)%Z
  end.
Proof.
  unfold previewContribution, await.
  change (assertFlatCommission DEFAULT_PROVIDER) with (@Ok unit unit tt). cbv iota beta zeta.
  rewrite !run_alone_bind_m. cbn [run_alone request mbind obind mret fst snd].
  destruct (quote_range listing d oracle) as [E Hq]. rewrite E. cbn [fst snd].
  set (bps := default _ _) in *. split; [done|].
  destruct (as_integer gross) as [g|] eqn:Eg; [destruct (decide (0 <= g)%Z) as [Hg|Hg]|].
  - assert (Hv : valid_fee (jint bps) = Some bps).
    { unfold valid_fee. rewrite as_integer_jint, bool_decide_eq_true_2; [done|].
      unfold COALITION_COMMISSION_BPS in Hq. lia. }
    rewrite (computePlatformCommission_override g _ _ _ Hv Hg gross Eg). cbn [feeCents netCents grossCents].
    pose proof (round_bps_half (g * bps)) as Hr. pose proof (round_bps_bounds g bps Hg) as Hb.
    unfold COALITION_COMMISSION_BPS in Hq. split_and!; [done|done|lia|lia|nia].
  - rewrite computePlatformCommission_refused by (intros ? E'; rewrite Eg in E'; injection E' as <-; lia).
    cbn [snd run_alone mret]. intros ? [= <-]. lia.
  - by rewrite computePlatformCommission_refused by (intros ? E'; by rewrite Eg in E').
Qed.
End commission.
