(* ===== verification/JoinRequirements.v ===== *)
(** * Join requirements and standing

    [packages/api/src/services/coalitionJoinRequirements.ts] and
    [coalitionTierGate.ts]: what a coalition asks of a newcomer and how each check
    is decided; and the reputation arithmetic they read
    ([packages/core/src/reputation/index.ts], [tierFromScore] of
    [core/src/governance/index.ts], [getUserReputation] of
    [services/reputationStore.ts]). *)

From S2P Require Import Prelude JsMap Async CoalitionDomain Records Store.

(** ** Reputation *)

Inductive ReputationTier := rep_member | rep_vendor | rep_coordinator | rep_arbiter.

Definition REPUTATION_THRESHOLDS (t : ReputationTier) : Z :=
  match t with
  | rep_member => 0 | rep_vendor => 100 | rep_coordinator => 500 | rep_arbiter => 1000
  end.

Definition tierFromScore (score : Z) : ReputationTier :=
  if bool_decide (REPUTATION_THRESHOLDS rep_arbiter <= score)%Z then rep_arbiter
  else if bool_decide (REPUTATION_THRESHOLDS rep_coordinator <= score)%Z then rep_coordinator
  else if bool_decide (REPUTATION_THRESHOLDS rep_vendor <= score)%Z then rep_vendor
  else rep_member.

Definition REPUTATION_EVENT_POINTS (t : ReputationEventType) : Z :=
  match t with
  | vote_cast => 1 | argument_endorsed => 2 | proposal_passed => 10 | dispute_won => 7
  | vendor_transaction => 5 | match_won => 12 | match_drawn => 4 | round_won => 2
  | steelman_passed => 3 | credibility_strike => -5
  end.

Definition pointsForReputationEvent (t : ReputationEventType) : Z := REPUTATION_EVENT_POINTS t.

Record ReputationStanding := { rs_score : Z; rs_tier : ReputationTier }.

Record ReputationProfile := {
  overall : ReputationStanding;
  bySubject : jsmap ReputationStanding;
}.

Record ArenaRecord := {
  matchesWon : Z;
  matchesDrawn : Z;
  roundsWon : Z;
  steelmansPassed : Z;
  credibilityStrikes : Z;
}.

(** The body of the loop of [tallyArenaRecord]. *)
Definition arena_step (r : ArenaRecord) (t : ReputationEventType) : ArenaRecord :=
  let '(Build_ArenaRecord w d n s c) := r in
  match t with
  | match_won => Build_ArenaRecord (w + 1) d n s c
  | match_drawn => Build_ArenaRecord w (d + 1) n s c
  | round_won => Build_ArenaRecord w d (n + 1) s c
  | steelman_passed => Build_ArenaRecord w d n (s + 1) c
  | credibility_strike => Build_ArenaRecord w d n s (c + 1)
  | _ => r
  end%Z.

Definition tallyArenaRecord (types : list ReputationEventType) : ArenaRecord :=
  fold_left arena_step types (Build_ArenaRecord 0 0 0 0 0).

(** [event.points ?? pointsForReputationEvent(event.type)] *)
Definition event_points (e : ReputationEventRecord) : Z :=
  match rp_points e with Some p => p | None => pointsForReputationEvent (rp_type e) end.

(** The body of the loop of [aggregateReputation]: the overall score and the
    [Map] of scores per subject. *)
Definition aggregate_step (acc : Z * jsmap Z) (e : ReputationEventRecord) : Z * jsmap Z :=
  let '(total, subjects) := acc in
  let points := event_points e in
  ((total + points)%Z,
   match truthy (rp_subject e) with
   | Some s => set s (default 0 (get s subjects) + points)%Z subjects
   | None => subjects
   end).

Definition standing (score : Z) : ReputationStanding :=
  {| rs_score := score; rs_tier := tierFromScore score |}.

Definition aggregateReputation (events : list ReputationEventRecord) : ReputationProfile :=
  let '(total, subjects) := fold_left aggregate_step events (0%Z, []) in
  {| overall := standing total;
     bySubject := map (fun '(s, n) => (s, standing n)) subjects |}.

Definition getUserReputation (userId : string) (d : db) : ReputationProfile :=
  aggregateReputation (listReputationEventsForUser userId d).

Definition getUserArenaRecord (userId : string) (d : db) : ArenaRecord :=
  tallyArenaRecord (map rp_type (listReputationEventsForUser userId d)).

(** ** The tier gate: [coalitionTierGate.ts] *)

Inductive TierUnknownReason := unconfigured | no_identity | lookup_failed.

Inductive TierResolution :=
  | tier_known (t : CoalitionTierGate)
  | tier_unknown (r : TierUnknownReason).

(** [isCoalitionTierGate(tier) ? tier : ...], as the tier it names. *)
Definition tier_named (s : string) : option CoalitionTierGate :=
  List.find (fun t => String.eqb s (name t)) members.

(** [None] is a client that threw; [Some raw] carries [standing.coalitionKarmaTier]. *)
Definition tier_of_standing (r : option unknown) : TierResolution :=
  match r with
  | None => tier_unknown lookup_failed
  | Some (UString raw) =>
      match tier_named (toLowerCase raw) with
      | Some t => tier_known t
      | None => tier_unknown lookup_failed
      end
  | Some _ => tier_unknown lookup_failed
  end.

Section requirements.
Context `{Env}.

Definition defaultResolver (userId : string) : H TierResolution :=
  if negb entitlements_client then mret (tier_unknown unconfigured)
  else
    let! mxid := gets (matrixUserIdFor userId) in
    match mxid with
    | None => mret (tier_unknown no_identity)
    | Some mxid =>
        let! standing := request (GetEconomicStanding mxid) in
        mret (tier_of_standing standing)
    end.

Definition resolveMemberTier (userId : string) : H TierResolution := defaultResolver userId.

(** ** The checks: [coalitionJoinRequirements.ts] *)

Definition daysSince (iso : option Z) (now : Z) : option Z :=
  match iso with
  | None => None
  | Some t => Some (Z.max 0 ((now - t) / DAY_MS))
  end.

Definition coalitionContributionCount (userId : string) (d : db) : Z :=
  Z.of_nat (length (listCoalitionCampaignContributions None None (Some userId) d)).

Record JoinRequirementEvaluation := {
  ev_checks : list CoalitionJoinRequirementCheck;
  ev_unmet : list CoalitionJoinRequirementCheck;
  ev_clear : bool;
}.

(** [`${n} unit${n === 1 ? '' : 's'}`] *)
Definition plural (n : Z) (unit : string) (rest : string) : string :=
  pretty n +:+ " " +:+ unit +:+ (if bool_decide (n = 1%Z) then "" else "s") +:+ rest.

(** [if (requirements?.f !== undefined) checks.push(...)] *)
Definition when {A} (o : option A) (f : A -> CoalitionJoinRequirementCheck) :
    list CoalitionJoinRequirementCheck :=
  match o with Some a => [f a] | None => [] end.

(** The four checks decided from the store, in the order they are pushed. *)
Definition local_checks (coalition : CoalitionRecord) (userId : string) (now : Z) (d : db) :
    list CoalitionJoinRequirementCheck :=
  match co_joinRequirements coalition with
  | None => []
  | Some requirements =>
      when (minAccountAgeDays requirements) (fun required =>
        let age := daysSince (us_createdAt <$> getUserById userId d) now in
        {| chk_key := key_account_age;
           chk_met := match age with Some a => bool_decide (required <= a)%Z | None => false end;
           chk_unverified := false;
           chk_required := plural required "day" " old";
           chk_actual := (fun a => plural a "day" "") <$> age |}) ++
      (if requireVerifiedEmail requirements then
         [{| chk_key := key_verified_email;
             chk_met := match getUserById userId d with
                        | Some u => bool_decide (us_emailVerifiedAt u <> None)
                        | None => false
                        end;
             chk_unverified := false;
             chk_required := "a verified email address";
             chk_actual := None |}]
       else []) ++
      when (minReputationScore requirements) (fun required =>
        let score := rs_score (overall (getUserReputation userId d)) in
        {| chk_key := key_reputation;
           chk_met := bool_decide (required <= score)%Z;
           chk_unverified := false;
           chk_required := pretty required +:+ " reputation";
           chk_actual := Some (pretty score) |}) ++
      when (minCoalitionContributions requirements) (fun required =>
        let count := coalitionContributionCount userId d in
        {| chk_key := key_contributions;
           chk_met := bool_decide (required <= count)%Z;
           chk_unverified := false;
           chk_required := plural required "past contribution" "";
           chk_actual := Some (pretty count) |})
  end.

Definition tier_check (gate : CoalitionTierGate) (resolution : TierResolution) :
    CoalitionJoinRequirementCheck :=
  match resolution with
  | tier_known tier =>
      {| chk_key := key_tier;
         chk_met := tierSatisfies tier (Some gate);
         chk_unverified := false;
         chk_required := name gate +:+ " tier or above";
         chk_actual := Some (name tier) |}
  | tier_unknown _ =>
      {| chk_key := key_tier;
         chk_met := false;
         chk_unverified := true;
         chk_required := name gate +:+ " tier or above";
         chk_actual := None |}
  end.

Definition evaluation_of (checks : list CoalitionJoinRequirementCheck) :
    JoinRequirementEvaluation :=
  let unmet := List.filter (fun c => negb (chk_met c)) checks in
  {| ev_checks := checks; ev_unmet := unmet; ev_clear := bool_decide (length unmet = 0) |}.

Definition evaluateJoinRequirements (coalition : CoalitionRecord) (userId : string) (now : Z) :
    H JoinRequirementEvaluation :=
  let! checks := gets (local_checks coalition userId now) in
  match co_minTierToJoin coalition with
  | None => mret (evaluation_of checks)
  | Some gate =>
      let! resolution := await (resolveMemberTier userId) in
      mret (evaluation_of (checks ++ [tier_check gate resolution]))
  end.

(** [parts.join(', ')] *)
Definition join_comma (parts : list string) : string := String.concat ", " parts.

Definition describeUnmet (unmet : list CoalitionJoinRequirementCheck) : option string :=
  if bool_decide (length unmet = 0) then None
  else if forallb chk_unverified unmet then
    Some "A steward will review your request — we could not check your standing automatically."
  else
    let parts := map (fun c =>
        match truthy (chk_actual c) with
        | Some a => chk_required c +:+ " (you have " +:+ a +:+ ")"
        | None => chk_required c
        end) (List.filter (fun c => negb (chk_unverified c)) unmet) in
    Some ("This coalition asks for " +:+ join_comma parts +:+
          ". A steward will review your request.").
End requirements.

(** ** Theorems *)

Lemma tierFromScore_spec score t :
  (REPUTATION_THRESHOLDS t <= score)%Z ->
  (REPUTATION_THRESHOLDS t <= REPUTATION_THRESHOLDS (tierFromScore score))%Z.
Proof.
  unfold tierFromScore. destruct t; simpl; repeat case_bool_decide; simpl; lia.
Qed.

Lemma arena_fold types r :
  let r' := fold_left arena_step types r in
  (matchesWon r' = matchesWon r + count_by (fun t => match t with match_won => true | _ => false end) types /\
   matchesDrawn r' = matchesDrawn r + count_by (fun t => match t with match_drawn => true | _ => false end) types /\
   roundsWon r' = roundsWon r + count_by (fun t => match t with round_won => true | _ => false end) types /\
   steelmansPassed r' = steelmansPassed r + count_by (fun t => match t with steelman_passed => true | _ => false end) types /\
   credibilityStrikes r' = credibilityStrikes r + count_by (fun t => match t with credibility_strike => true | _ => false end) types)%Z.
Proof.
  revert r. induction types as [|t types IH]; intros r; simpl.
  - unfold count_by; simpl. change (sum_by _ []) with 0%Z. lia.
  - destruct (IH (arena_step r t)) as (E1 & E2 & E3 & E4 & E5). simpl in *.
    rewrite E1, E2, E3, E4, E5. unfold count_by. rewrite !sum_by_cons.
    destruct r, t; simpl; lia.
Qed.

(** The events that count towards a subject. *)
Definition on_subject (s : string) (e : ReputationEventRecord) : bool :=
  bool_decide (truthy (rp_subject e) = Some s).

Lemma aggregate_fold events acc :
  fst (fold_left aggregate_step events acc) = (fst acc + sum_by event_points events)%Z /\
  forall s, get s (snd (fold_left aggregate_step events acc)) =
    if existsb (on_subject s) events
    then Some (default 0 (get s (snd acc))
               + sum_by event_points (List.filter (on_subject s) events))%Z
    else get s (snd acc).
Proof.
  revert acc. induction events as [|e events IH]; intros acc; simpl.
  - change (sum_by event_points []) with 0%Z. split; [lia|done].
  - destruct (IH (aggregate_step acc e)) as [IH1 IH2]. destruct acc as [n m]. simpl in *.
    split; [rewrite IH1, sum_by_cons; lia|].
    intros s. rewrite IH2. clear IH1 IH2 IH.
    destruct (on_subject s e) eqn:Eo; unfold on_subject in Eo; case_bool_decide as Es; try done.
    + rewrite Es. simpl. rewrite get_set_eq, sum_by_cons.
      destruct (existsb (on_subject s) events) eqn:Ex; simpl; f_equal; [lia|].
      rewrite filter_none by done. change (sum_by event_points []) with 0%Z. lia.
    + simpl. destruct (truthy (rp_subject e)) as [s'|]; [|done].
      by rewrite get_set_ne by congruence.
Qed.

Lemma get_map {A B} (f : A -> B) k (m : jsmap A) :
  get k (map (fun '(s, n) => (s, f n)) m) = f <$> get k m.
Proof. induction m as [|[k' v] m IH]; simpl; [done|]. by destruct (decide (k = k')). Qed.

(** A user's reputation is the sum of the points of their events
    (an explicit award, else the event type's), each subject's score is the sum
    over the events on that subject and a subject with no event is absent; every
    tier is the highest one whose threshold the score reaches; and the arena
    record counts the events of each kind. *)
Theorem reputation_totals userId d :
  let events := listReputationEventsForUser userId d in
  let p := getUserReputation userId d in
  rs_score (overall p) = sum_by event_points events /\
  (forall s, rs_score <$> get s (bySubject p) =
     if existsb (on_subject s) events
     then Some (sum_by event_points (List.filter (on_subject s) events)) else None) /\
  (forall st t, st = overall p \/ (exists s, get s (bySubject p) = Some st) ->
     (REPUTATION_THRESHOLDS t <= rs_score st)%Z ->
     (REPUTATION_THRESHOLDS t <= REPUTATION_THRESHOLDS (rs_tier st))%Z) /\
  matchesWon (getUserArenaRecord userId d) =
    count_by (fun e => match rp_type e with match_won => true | _ => false end) events /\
  credibilityStrikes (getUserArenaRecord userId d) =
    count_by (fun e => match rp_type e with credibility_strike => true | _ => false end) events.
Proof.
  intros events p. subst p. unfold getUserReputation, aggregateReputation. fold events.
  destruct (aggregate_fold events (0%Z, [])) as [E1 E2]. simpl in E1, E2.
  destruct (fold_left aggregate_step events (0%Z, [])) as [total subjects]. simpl in *. subst total.
  pose proof (arena_fold (map rp_type events) (Build_ArenaRecord 0 0 0 0 0)) as (A1 & _ & _ & _ & A5).
  simpl in A1, A5. unfold getUserArenaRecord, tallyArenaRecord. fold events. rewrite A1, A5.
  split_and!; [done| | |by rewrite count_by_map|by rewrite count_by_map].
  - intros s. rewrite get_map, E2. by destruct (existsb (on_subject s) events).
  - intros st t [->|[s Hs]]; [apply tierFromScore_spec|].
    rewrite get_map in Hs. destruct (get s subjects); [|done]. simplify_eq/=.
    apply tierFromScore_spec.
Qed.

(** What a coalition asks, as a condition on the newcomer. *)
Definition meets_local (coalition : CoalitionRecord) (userId : string) (now : Z) (d : db) : Prop :=
  forall r, co_joinRequirements coalition = Some r ->
    (forall n, minAccountAgeDays r = Some n ->
       exists u, getUserById userId d = Some u /\
         (n <= Z.max 0 ((now - us_createdAt u) / DAY_MS))%Z) /\
    (requireVerifiedEmail r = true ->
       exists u, getUserById userId d = Some u /\ us_emailVerifiedAt u <> None) /\
    (forall n, minReputationScore r = Some n ->
       (n <= sum_by event_points (listReputationEventsForUser userId d))%Z) /\
    (forall n, minCoalitionContributions r = Some n ->
       (n <= count_by (fun c => clause (Some userId) (ct_supporterUserId c))
               (values (contributions d)))%Z).

(** The tier gate is passed only by a tier the entitlements service named. *)
Definition meets_tier (coalition : CoalitionRecord) (res : TierResolution) : Prop :=
  forall gate, co_minTierToJoin coalition = Some gate ->
    exists t, res = tier_known t /\ (tier_index gate <= tier_index t)%Z.

Lemma clear_iff checks :
  ev_clear (evaluation_of checks) = true <-> forallb chk_met checks = true.
Proof.
  unfold evaluation_of. simpl. rewrite bool_decide_eq_true.
  induction checks as [|c checks IH]; simpl; [done|].
  destruct (chk_met c); simpl; [exact IH|]. split; [lia|done].
Qed.

Lemma tierSatisfies_iff t gate :
  tierSatisfies t (Some gate) = true <-> (tier_index gate <= tier_index t)%Z.
Proof. unfold tierSatisfies. rewrite bool_decide_eq_true. lia. Qed.

Lemma overall_score userId d :
  rs_score (overall (getUserReputation userId d)) =
  sum_by event_points (listReputationEventsForUser userId d).
Proof.
  unfold getUserReputation, aggregateReputation.
  destruct (aggregate_fold (listReputationEventsForUser userId d) (0%Z, [])) as [E _].
  simpl in E. destruct (fold_left _ _ _). simpl in *. lia.
Qed.

Section evaluation.
Context `{Env}.

Lemma local_checks_iff coalition userId now d :
  forallb chk_met (local_checks coalition userId now d) = true <->
  meets_local coalition userId now d.
Proof.
  unfold local_checks, meets_local.
  destruct (co_joinRequirements coalition) as [r|]; [|split; [intros _ ? ?; done|done]].
  rewrite !forallb_app, !andb_true_iff. unfold when.
  rewrite overall_score. unfold coalitionContributionCount, listCoalitionCampaignContributions.
  rewrite <-count_by_filter. simpl.
  split.
  - intros (H1 & H2 & H3 & H4) r' [= <-]. split_and!.
    + intros n En. rewrite En in H1. simpl in H1. destruct (getUserById userId d) as [u|]; [|done].
      simpl in H1. rewrite andb_true_r, bool_decide_eq_true in H1. eauto.
    + intros Er. rewrite Er in H2. simpl in H2. destruct (getUserById userId d) as [u|]; [|done].
      rewrite andb_true_r, bool_decide_eq_true in H2. eauto.
    + intros n En. rewrite En in H3. simpl in H3.
      by rewrite andb_true_r, bool_decide_eq_true in H3.
    + intros n En. rewrite En in H4. simpl in H4.
      by rewrite andb_true_r, bool_decide_eq_true in H4.
  - intros Hm. destruct (Hm r eq_refl) as (H1 & H2 & H3 & H4). split_and!.
    + destruct (minAccountAgeDays r) as [n|]; [|done]. destruct (H1 n eq_refl) as (u & -> & Hn).
      simpl. by rewrite andb_true_r, bool_decide_eq_true.
    + destruct (requireVerifiedEmail r); [|done]. destruct (H2 eq_refl) as (u & -> & Hn).
      simpl. by rewrite andb_true_r, bool_decide_eq_true.
    + destruct (minReputationScore r) as [n|]; [|done]. simpl.
      rewrite andb_true_r, bool_decide_eq_true. auto.
    + destruct (minCoalitionContributions r) as [n|]; [|done]. simpl.
      rewrite andb_true_r, bool_decide_eq_true. auto.
Qed.

Lemma tier_check_iff gate res :
  chk_met (tier_check gate res) = true <->
  exists t, res = tier_known t /\ (tier_index gate <= tier_index t)%Z.
Proof.
  destruct res as [t|]; [|simpl; naive_solver].
  change (chk_met _) with (tierSatisfies t (Some gate)). rewrite tierSatisfies_iff. naive_solver.
Qed.

(** Which resolution the entitlements service's answer leads to. *)
Definition resolution_from (answer : string -> option unknown) (userId : string) (d : db) :
    TierResolution :=
  if negb entitlements_client then tier_unknown unconfigured
  else match matrixUserIdFor userId d with
       | None => tier_unknown no_identity
       | Some mxid => tier_of_standing (answer mxid)
       end.

Lemma evaluateJoinRequirements_run coalition userId now d (oracle : forall X : Set, req X -> X) :
  run_alone oracle (evaluateJoinRequirements coalition userId now d) =
  (d, evaluation_of (local_checks coalition userId now d ++
        match co_minTierToJoin coalition with
        | Some gate => [tier_check gate
            (resolution_from (fun mxid => oracle _ (GetEconomicStanding mxid)) userId d)]
        | None => []
        end)).
Proof.
  unfold evaluateJoinRequirements, await, resolveMemberTier, defaultResolver, resolution_from, mbind.
  simpl. destruct (co_minTierToJoin coalition) as [gate|]; simpl; [|by rewrite app_nil_r].
  destruct (negb entitlements_client); [done|]. simpl.
  by destruct (matrixUserIdFor userId d).
Qed.

Lemma evaluation_clear coalition userId now d (oracle : forall X : Set, req X -> X) :
  let res := resolution_from (fun mxid => oracle _ (GetEconomicStanding mxid)) userId d in
  ev_clear (snd (run_alone oracle (evaluateJoinRequirements coalition userId now d))) = true <->
  meets_local coalition userId now d /\ meets_tier coalition res.
Proof.
  cbv zeta. rewrite evaluateJoinRequirements_run. cbn [snd].
  rewrite clear_iff, forallb_app, andb_true_iff, local_checks_iff. unfold meets_tier.
  destruct (co_minTierToJoin coalition) as [gate|]; [|naive_solver].
  cbn [forallb]. rewrite andb_true_r, tier_check_iff. naive_solver.
Qed.

Lemma clear_unmet coalition userId now d (oracle : forall X : Set, req X -> X) :
  let ev := snd (run_alone oracle (evaluateJoinRequirements coalition userId now d)) in
  ev_clear ev = true <-> ev_unmet ev = [].
Proof.
  cbv zeta. rewrite evaluateJoinRequirements_run. unfold evaluation_of. cbn [snd ev_clear ev_unmet].
  rewrite bool_decide_eq_true. by rewrite length_zero_iff_nil.
Qed.

(** An evaluation reads the store and asks for the tier; it writes nothing. *)
Lemma evaluateJoinRequirements_silent (I : db -> Prop) (G : db -> db -> Prop) `{!PreOrder G} c u now :
  keeps I G (evaluateJoinRequirements c u now).
Proof.
  unfold evaluateJoinRequirements, await, resolveMemberTier, defaultResolver.
  repeat keeps_step.
Qed.

(** The evaluation of a newcomer is clear exactly when every
    requirement the coalition sets holds (account age in whole days, a verified
    email, the reputation sum, the number of past contributions) and, if there is a
    tier gate, the entitlements service named a tier at or above it: an
    unconfigured service, an account with no Matrix identity, a failed lookup or
    an unrecognised tier never clears the gate.  The unmet checks are reported in
    order, and none means there is nothing to describe. *)
Theorem evaluateJoinRequirements_exact coalition userId now d
    (oracle : forall X : Set, req X -> X) :
  let r := run_alone oracle (evaluateJoinRequirements coalition userId now d) in
  let res := resolution_from (fun mxid => oracle _ (GetEconomicStanding mxid)) userId d in
  fst r = d /\
  (ev_clear (snd r) = true <-> meets_local coalition userId now d /\ meets_tier coalition res) /\
  ev_unmet (snd r) = unmetRequirements (ev_checks (snd r)) /\
  (ev_clear (snd r) = true <-> describeUnmet (ev_unmet (snd r)) = None).
Proof.
  cbv zeta. split_and!; [|apply evaluation_clear| |]; rewrite evaluateJoinRequirements_run; try done.
  unfold evaluation_of, describeUnmet. cbn [snd ev_clear ev_unmet].
  case_bool_decide; [done|]. by destruct (forallb _ _).
Qed.
End evaluation.
