(* ===== verification/Relay.v ===== *)
(** * Relay chains

    [packages/core/src/feed/relayChain.ts] (the path walk, the depth limit, the
    downstream search), the relay table of [packages/api/src/db/store.ts] and
    [packages/api/src/services/relayStore.ts].  A boost of a coalition campaign
    relays it. *)

From S2P Require Import Prelude JsMap Async CoalitionDomain Records Store.

(** ** [relayChain.ts] *)

Definition MAX_RELAY_CHAIN_DEPTH : nat := 64.

Record RelayHop := {
  hop_relayId : string;
  hop_userId : string;
  hop_note : option string;
  hop_active : bool;
  hop_at : Z;
}.

Record RelayPath := {
  path_hops : list RelayHop;
  path_originAuthorId : option string;
  path_length : Z;
}.

Definition hop_of (e : RelayEdgeRecord) : RelayHop :=
  {| hop_relayId := re_id e; hop_userId := re_relayerUserId e; hop_note := re_note e;
     hop_active := re_active e; hop_at := re_createdAt e |}.

(** The [while] loop, from [current], with [room] hops left before the limit. *)
Fixpoint walk (room : nat) (current : option RelayEdgeRecord) (seen : list string)
    (edgesById : jsmap RelayEdgeRecord) : list RelayHop :=
  match room, current with
  | S room, Some e =>
      if decide (re_id e ∈ seen) then []
      else hop_of e ::
        match re_parentRelayId e with
        | None => []
        | Some p => walk room (get p edgesById) (re_id e :: seen) edgesById
        end
  | _, _ => []
  end.

Definition buildRelayPath (edge : RelayEdgeRecord) (edgesById : jsmap RelayEdgeRecord) : RelayPath :=
  let hops := walk MAX_RELAY_CHAIN_DEPTH (Some edge) [] edgesById in
  {| path_hops := hops; path_originAuthorId := re_originAuthorId edge;
     path_length := Z.of_nat (length hops) |}.

Definition nextChainDepth (parent : option RelayEdgeRecord) : Z * bool :=
  let depth := match parent with None => 0%Z | Some p => (re_chainDepth p + 1)%Z end in
  (depth, bool_decide (depth < Z.of_nat MAX_RELAY_CHAIN_DEPTH)%Z).

(** [childrenByParent.get(parentId) ?? []] *)
Definition children_of (edges : list RelayEdgeRecord) (parentId : string) : list RelayEdgeRecord :=
  List.filter (fun e => bool_decide (re_parentRelayId e = Some parentId)) edges.

(** The innermost loop: [(seen, out, next)] after the children of one parent. *)
Fixpoint visit (cs : list RelayEdgeRecord)
    (acc : list string * list RelayEdgeRecord * list string) :
    list string * list RelayEdgeRecord * list string :=
  match cs with
  | [] => acc
  | c :: cs =>
      let '(seen, out, next) := acc in
      visit cs (if decide (re_id c ∈ seen) then acc
                else (re_id c :: seen, out ++ [c], next ++ [re_id c]))
  end.

Definition visit_level (edges : list RelayEdgeRecord) (frontier : list string)
    (acc : list string * list RelayEdgeRecord * list string) :
    list string * list RelayEdgeRecord * list string :=
  fold_left (fun acc parentId => visit (children_of edges parentId) acc) frontier acc.

Fixpoint search (levels : nat) (edges : list RelayEdgeRecord) (frontier : list string)
    (seen : list string) (out : list RelayEdgeRecord) : list RelayEdgeRecord :=
  match levels, frontier with
  | S levels, _ :: _ =>
      let '(seen', out', next) := visit_level edges frontier (seen, out, []) in
      search levels edges next seen' out'
  | _, _ => out
  end.

Definition collectDownstreamRelays (rootEdgeIds : list string) (edges : list RelayEdgeRecord) :
    list RelayEdgeRecord :=
  search MAX_RELAY_CHAIN_DEPTH edges rootEdgeIds rootEdgeIds [].

(** ** The relay table *)

Definition relay_source_name (s : RelaySubjectSource) : string :=
  match s with
  | coalition_feed => "coalition_feed" | coalition_campaign => "coalition_campaign"
  | coliseum_topic => "coliseum_topic" | wall_post => "wall_post" | status_source => "status"
  | stream_source => "stream" | community_asset => "community_asset"
  | marketplace_source => "marketplace"
  end.

Definition relayKey (relayerUserId : string) (s : RelaySubjectSource) (subjectId : string) : string :=
  pair_key (pair_key relayerUserId (relay_source_name s)) subjectId.

#[export] Instance re_keyed : Keyed RelayEdgeRecord :=
  fun e => relayKey (re_relayerUserId e) (re_subjectSource e) (re_subjectId e).

Definition or_else {A} (a b : option A) : option A :=
  match a with Some x => Some x | None => b end.

(** A present edge keeps its id, root and depth; its parent only when it has one. *)
Definition merged_edge (existing : option RelayEdgeRecord) (now : Z) (input : RelayEdgeRecord) :
    RelayEdgeRecord :=
  match existing with
  | Some e =>
      mk_re (re_id e) (re_relayerUserId input) (re_subjectSource input) (re_subjectId input)
        (or_else (re_parentRelayId e) (re_parentRelayId input)) (re_rootRelayId e)
        (re_chainDepth e) (re_originAuthorId input) (re_note input) (re_active input)
        (re_createdAt e) now
  | None =>
      mk_re (re_id input) (re_relayerUserId input) (re_subjectSource input) (re_subjectId input)
        (re_parentRelayId input) (re_rootRelayId input) (re_chainDepth input)
        (re_originAuthorId input) (re_note input) (re_active input) now now
  end.

Definition upsertRelayEdge (input : RelayEdgeRecord) (d : db) : db * RelayEdgeRecord :=
  let key := keyof input in
  let record := merged_edge (get key (relayEdges d)) (clock d) input in
  (set_relayEdges (set key record (relayEdges d)) d, record).

Definition getRelayEdge (id : string) (d : db) : option RelayEdgeRecord :=
  List.find (fun e => bool_decide (re_id e = id)) (values (relayEdges d)).

Definition findRelayEdge (relayerUserId : string) (s : RelaySubjectSource) (subjectId : string)
    (d : db) : option RelayEdgeRecord :=
  get (relayKey relayerUserId s subjectId) (relayEdges d).

Definition listRelayEdgesByRelayers (relayerUserIds : list string) (d : db) : list RelayEdgeRecord :=
  js_sort (fun a b => bool_decide (re_createdAt b <= re_createdAt a)%Z)
    (List.filter (fun e => re_active e && bool_decide (re_relayerUserId e ∈ relayerUserIds))
       (values (relayEdges d))).

Definition listRelayEdgesForSubject (s : RelaySubjectSource) (subjectId : string) (d : db) :
    list RelayEdgeRecord :=
  js_sort (fun a b => bool_decide (re_createdAt a <= re_createdAt b)%Z)
    (List.filter (fun e => bool_decide (re_subjectSource e = s)
        && bool_decide (re_subjectId e = subjectId))
       (values (relayEdges d))).

(** ** [relayStore.ts] *)

Inductive RelayFailure :=
  | unknown_subject | unknown_parent | parent_subject_mismatch | chain_too_deep
  | not_owner | relay_not_found.

Definition RelayResult (A : Type) : Type := res RelayFailure A.

Record RelaySubjectCard := {
  card_source : RelaySubjectSource;
  card_id : string;
  card_title : string;
  card_body : option string;
  card_authorId : option string;
  card_createdAt : option Z;
  card_mediaUrl : option string;
  card_tags : list string;
}.

Record RelayInput := {
  rl_relayerUserId : string;
  rl_subjectSource : RelaySubjectSource;
  rl_subjectId : string;
  rl_viaRelayId : option string;
  rl_note : option string;
}.

(** [String.prototype.trim] *)
Fixpoint trim_start (s : string) : string :=
  match s with
  | String c s' => if is_space c then trim_start s' else s
  | EmptyString => s
  end.

Definition rev_string (s : string) : string :=
  String.string_of_list_ascii (rev (String.list_ascii_of_string s)).

Definition js_trim (s : string) : string := rev_string (trim_start (rev_string (trim_start s))).

(** [input.note?.trim() ? input.note.trim().slice(0, 280) : null] *)
Definition trimmed_note (note : option string) : option string :=
  match truthy (js_trim <$> note) with
  | Some n => Some (String.substring 0 280 n)
  | None => None
  end.

Section relays.
Context `{Env}.

(** The lookups of the seven subjects that live in tables of other modules. *)
Context (other_subject : RelaySubjectSource -> string -> db -> option RelaySubjectCard).

Definition campaign_subject (subjectId : string) (d : db) : option RelaySubjectCard :=
  match getCoalitionCampaign subjectId d with
  | None => None
  | Some campaign =>
      if negb (bool_decide (cp_status campaign = st_active))
         && negb (bool_decide (cp_status campaign = st_completed)) then None
      else match db_getCoalition (cp_coalitionId campaign) d with
      | None => None
      | Some coalition =>
          match co_archivedAt coalition with
          | Some _ => None
          | None => Some
              {| card_source := coalition_campaign;
                 card_id := cp_id campaign;
                 card_title := cp_title campaign;
                 card_body := Some (cp_description campaign);
                 card_authorId := match cp_createdBy campaign with
                                  | Some u => if isPubliclyListed u d then Some u else None
                                  | None => None
                                  end;
                 card_createdAt := Some (cp_createdAt campaign);
                 card_mediaUrl := None;
                 card_tags := [name (cp_type campaign)] |}
          end
      end
  end.

Definition resolveSubject (source : RelaySubjectSource) (subjectId : string) (d : db) :
    option RelaySubjectCard :=
  match source with
  | coalition_campaign => campaign_subject subjectId d
  | _ => other_subject source subjectId d
  end.

Definition relaySubject (input : RelayInput) : H (RelayResult RelayEdgeRecord) :=
  let! subject := gets (resolveSubject (rl_subjectSource input) (rl_subjectId input)) in
  match subject with
  | None => mret (Err unknown_subject)
  | Some subject =>
      let! parent :=
        (match truthy (rl_viaRelayId input) with
         | None => mret (Ok None)
         | Some via =>
             let! found := gets (getRelayEdge via) in
             match found with
             | None => mret (Err unknown_parent)
             | Some p =>
                 if negb (bool_decide (re_subjectSource p = rl_subjectSource input))
                    || negb (bool_decide (re_subjectId p = rl_subjectId input))
                 then mret (Err parent_subject_mismatch)
                 else mret (Ok (Some p))
             end
         end) in
      let? parent := parent in
      let '(depth, withinLimit) := nextChainDepth parent in
      if negb withinLimit then mret (Err chain_too_deep)
      else
        let! id := randomUUID in
        let! record := update (upsertRelayEdge
          (mk_re id (rl_relayerUserId input) (rl_subjectSource input) (rl_subjectId input)
             (re_id <$> parent)
             (match parent with Some p => re_rootRelayId p | None => id end)
             depth (card_authorId subject) (trimmed_note (rl_note input)) true 0 0)) in
        mret (Ok record)
  end.

Definition with_re_active (v : bool) (r : RelayEdgeRecord) : RelayEdgeRecord :=
  mk_re (re_id r) (re_relayerUserId r) (re_subjectSource r) (re_subjectId r)
    (re_parentRelayId r) (re_rootRelayId r) (re_chainDepth r) (re_originAuthorId r)
    (re_note r) v (re_createdAt r) (re_updatedAt r).

(** The body [withdrawRelay] and [reinstateRelay] share. *)
Definition set_relay_active (v : bool) (relayId userId : string) : H (RelayResult RelayEdgeRecord) :=
  let! existing := gets (getRelayEdge relayId) in
  match existing with
  | None => mret (Err relay_not_found)
  | Some e =>
      if negb (bool_decide (re_relayerUserId e = userId)) then mret (Err not_owner)
      else
        let! record := update (upsertRelayEdge (with_re_active v e)) in
        mret (Ok record)
  end.

Definition withdrawRelay (relayId userId : string) : H (RelayResult RelayEdgeRecord) :=
  set_relay_active false relayId userId.
Definition reinstateRelay (relayId userId : string) : H (RelayResult RelayEdgeRecord) :=
  set_relay_active true relayId userId.
End relays.

(** ** The visible path *)

(** The edges a walk visits, nearest first. *)
Fixpoint walked (room : nat) (current : option RelayEdgeRecord) (seen : list string)
    (edgesById : jsmap RelayEdgeRecord) : list RelayEdgeRecord :=
  match room, current with
  | S room, Some e =>
      if decide (re_id e ∈ seen) then []
      else e ::
        match re_parentRelayId e with
        | None => []
        | Some p => walked room (get p edgesById) (re_id e :: seen) edgesById
        end
  | _, _ => []
  end.

Lemma walk_walked room cur seen m : walk room cur seen m = map hop_of (walked room cur seen m).
Proof.
  revert cur seen. induction room as [|room IH]; intros [e|] seen; simpl; try done.
  destruct (decide (re_id e ∈ seen)); simpl; [done|]. f_equal.
  destruct (re_parentRelayId e); [apply IH|done].
Qed.

(** Each edge of the list is the parent of the one before it. *)
Inductive chain (m : jsmap RelayEdgeRecord) : list RelayEdgeRecord -> Prop :=
  | chain_nil : chain m []
  | chain_one e : chain m [e]
  | chain_cons e p e' es :
      re_parentRelayId e = Some p -> get p m = Some e' ->
      chain m (e' :: es) -> chain m (e :: e' :: es).

(** Why a walk may stop after [e], having visited [ids]. *)
Definition stops (m : jsmap RelayEdgeRecord) (ids : list string) (e : RelayEdgeRecord) : Prop :=
  match re_parentRelayId e with
  | None => True
  | Some p => match get p m with None => True | Some e' => re_id e' ∈ ids end
  end.

(** What a walk from [e] yields when it has room for [room] hops and must avoid [seen]. *)
Definition good_walk (m : jsmap RelayEdgeRecord) (room : nat) (seen : list string)
    (e : RelayEdgeRecord) (es : list RelayEdgeRecord) : Prop :=
  hd_error es = Some e /\ chain m es /\ length es <= room /\
  NoDup (map re_id es) /\ (forall x, x ∈ es -> re_id x ∉ seen) /\
  (length es = room \/ exists l, last es = Some l /\ stops m (map re_id es ++ seen) l).

Lemma good_walk_one m room seen e :
  re_id e ∉ seen -> room = 0 \/ stops m (re_id e :: seen) e -> good_walk m (S room) seen e [e].
Proof.
  intros Hn Hs. split_and!; [done|apply chain_one|simpl; lia|apply NoDup_singleton| |].
  - intros x ->%list_elem_of_singleton. done.
  - destruct Hs as [->|Hs]; [by left|right]. by exists e.
Qed.

Lemma good_walk_cons m room seen e p e' es :
  re_id e ∉ seen -> re_parentRelayId e = Some p -> get p m = Some e' ->
  good_walk m room (re_id e :: seen) e' es -> good_walk m (S room) seen e (e :: es).
Proof.
  intros Hn Ep Eg (Hh & Hc & Hl & Hnd & Hd & He).
  destruct es as [|e0 es]; [done|]. simpl in Hh. injection Hh as ->.
  split_and!; [done|by eapply chain_cons|simpl in *; lia| | |].
  - apply NoDup_cons. split; [|done]. intros Hin.
    apply list_elem_of_In, (in_map_iff re_id (e' :: es)) in Hin as (x & Ex & Hx).
    apply list_elem_of_In, Hd in Hx. apply Hx. rewrite Ex. by left.
  - intros x [->|Hx]%elem_of_cons; [done|]. apply Hd in Hx. intros Hin. apply Hx. by right.
  - destruct He as [He|(l & Hlast & Hst)]; [left; simpl in *; lia|right].
    exists l. split; [by rewrite last_cons_cons|].
    unfold stops in *. destruct (re_parentRelayId l) as [q|]; [|done].
    destruct (get q m); [|done]. apply elem_of_app in Hst. apply elem_of_app.
    destruct Hst as [Hst|[->|Hst]%elem_of_cons]; [left; by right|left; by left|by right].
Qed.

Lemma walked_cons room e seen m :
  re_id e ∉ seen ->
  walked (S room) (Some e) seen m =
  e :: match re_parentRelayId e with
       | None => []
       | Some p => walked room (get p m) (re_id e :: seen) m
       end.
Proof. intros. simpl. by rewrite decide_False. Qed.

Lemma walked_good room e seen m :
  re_id e ∉ seen -> good_walk m (S room) seen e (walked (S room) (Some e) seen m).
Proof.
  revert e seen. induction room as [|room IH]; intros e seen Hn; rewrite walked_cons by done.
  - destruct (re_parentRelayId e); apply good_walk_one; auto.
  - destruct (re_parentRelayId e) as [p|] eqn:Ep.
    2: { apply good_walk_one; [done|]. right. unfold stops. by rewrite Ep. }
    destruct (get p m) as [e'|] eqn:Eg.
    2: { apply good_walk_one; [done|]. right. unfold stops. by rewrite Ep, Eg. }
    destruct (decide (re_id e' ∈ re_id e :: seen)) as [Hs|Hs].
    + simpl. rewrite decide_True by done.
      apply good_walk_one; [done|]. right. unfold stops. by rewrite Ep, Eg.
    + eapply good_walk_cons; eauto.
Qed.

(** The path shown for a relay starts at the relay itself, goes
    from each hop to the edge its parent id names, never shows a relay twice, has
    at most 64 hops, and ends only at an origin relay, at a parent that no longer
    exists, before a relay already shown, or at the limit. *)
Theorem buildRelayPath_walk edge edgesById :
  exists es,
    path_hops (buildRelayPath edge edgesById) = map hop_of es /\
    path_length (buildRelayPath edge edgesById) = Z.of_nat (length es) /\
    hd_error es = Some edge /\ chain edgesById es /\
    NoDup (map re_id es) /\ length es <= MAX_RELAY_CHAIN_DEPTH /\
    (length es = MAX_RELAY_CHAIN_DEPTH \/
     exists l, last es = Some l /\ stops edgesById (map re_id es) l).
Proof.
  exists (walked MAX_RELAY_CHAIN_DEPTH (Some edge) [] edgesById).
  unfold buildRelayPath. cbn [path_hops path_length]. rewrite walk_walked, length_map.
  destruct (walked_good (pred MAX_RELAY_CHAIN_DEPTH) edge [] edgesById)
    as (? & ? & ? & ? & _ & He); [apply not_elem_of_nil|].
  rewrite app_nil_r in He. by split_and!.
Qed.

(** Depths that count the hops to the origin, as [relaySubject] assigns them to new edges. *)
Definition depths_consistent (edgesById : jsmap RelayEdgeRecord) (e : RelayEdgeRecord) : Prop :=
  match re_parentRelayId e with
  | None => re_chainDepth e = 0%Z
  | Some p => exists e', get p edgesById = Some e' /\ re_chainDepth e = (re_chainDepth e' + 1)%Z
                      /\ (0 <= re_chainDepth e')%Z
  end.

Lemma walked_full m n room e seen :
  (forall k x, get k m = Some x -> depths_consistent m x) ->
  (forall x y, (exists k, get k m = Some x) -> (exists k, get k m = Some y) ->
     re_id x = re_id y -> x = y) ->
  (exists k, get k m = Some e) ->
  (forall x, (exists k, get k m = Some x) -> re_id x ∈ seen -> (re_chainDepth e < re_chainDepth x)%Z) ->
  re_chainDepth e = Z.of_nat n -> n < room ->
  let es := walked room (Some e) seen m in
  length es = S n /\ exists o, last es = Some o /\ re_parentRelayId o = None.
Proof.
  intros Hm Hid. revert e seen n. induction room as [|room IH]; intros e seen n He Hseen Hd Hlt;
    [lia|]. cbv zeta.
  rewrite walked_cons by (intros Hin; apply (Hseen _ He) in Hin; lia).
  destruct He as [k Hk]. pose proof (Hm _ _ Hk) as Hc. unfold depths_consistent in Hc.
  destruct (re_parentRelayId e) as [p|] eqn:Ep.
  - destruct Hc as (e' & Eg & Hde & Hpos). rewrite Eg. destruct n as [|n]; [lia|].
    destruct (IH e' (re_id e :: seen) n) as (Hl & o & Ho & Hop); [eauto| |lia|lia|].
    + intros x Hx [Ex|Hin]%elem_of_cons.
      * rewrite (Hid x e) by eauto. lia.
      * pose proof (Hseen _ Hx Hin). lia.
    + split; [simpl; lia|]. exists o. split; [|done].
      destruct (walked room (Some e') (re_id e :: seen) m) eqn:Ew; [done|].
      by rewrite last_cons_cons.
  - split; [simpl; lia|]. by exists e.
Qed.

(** When the stored depths count the hops to the origin and lie
    below the limit, the path is complete: it has one hop more than the relay's
    depth and its last hop is an origin relay. *)
Theorem buildRelayPath_complete edge edgesById :
  (forall k x, get k edgesById = Some x -> re_id x = k) ->
  (forall k x, get k edgesById = Some x -> depths_consistent edgesById x) ->
  get (re_id edge) edgesById = Some edge ->
  (0 <= re_chainDepth edge < Z.of_nat MAX_RELAY_CHAIN_DEPTH)%Z ->
  path_length (buildRelayPath edge edgesById) = (re_chainDepth edge + 1)%Z /\
  exists es o, path_hops (buildRelayPath edge edgesById) = map hop_of es /\
    last es = Some o /\ re_parentRelayId o = None.
Proof.
  intros Hk Hc Hg Hd.
  destruct (walked_full edgesById (Z.to_nat (re_chainDepth edge)) MAX_RELAY_CHAIN_DEPTH edge [])
    as (Hl & o & Ho & Hop); [done| |eauto| |lia|lia|].
  - intros x y [kx Hx] [ky Hy] E. rewrite (Hk _ _ Hx), (Hk _ _ Hy) in E. congruence.
  - intros x _ []%not_elem_of_nil.
  - unfold buildRelayPath. cbn [path_hops path_length]. rewrite walk_walked, length_map, Hl.
    split; [lia|]. eauto.
Qed.

(** A three-hop chain. *)
Definition sample_edge (id : string) (parent : option string) (depth : Z) : RelayEdgeRecord :=
  mk_re id ("user_" +:+ id) coalition_campaign "camp_1" parent "a" depth None None true 0 0.
Definition sample_chain : jsmap RelayEdgeRecord :=
  [("a", sample_edge "a" None 0); ("b", sample_edge "b" (Some "a") 1);
   ("c", sample_edge "c" (Some "b") 2)]%Z.

Lemma buildRelayPath_complete_witness :
  path_length (buildRelayPath (sample_edge "c" (Some "b") 2) sample_chain) = 3%Z /\
  exists es o, path_hops (buildRelayPath (sample_edge "c" (Some "b") 2) sample_chain) = map hop_of es /\
    last es = Some o /\ re_parentRelayId o = None.
Proof.
  apply (buildRelayPath_complete (sample_edge "c" (Some "b") 2) sample_chain).
  - intros k x Hg%get_in. simpl in Hg. naive_solver.
  - intros k x Hg%get_in. simpl in Hg. unfold depths_consistent.
    destruct Hg as [[= <- <-]|[[= <- <-]|[[= <- <-]|[]]]]; simpl; [done| |];
      eexists; (split; [reflexivity|split; [reflexivity|simpl; lia]]).
  - reflexivity.
  - split; [discriminate|reflexivity].
Defined.

(** ** The downstream search *)

(** [downstream edges roots n e]: a chain of [n] parent links leads from [e] to a root. *)
Inductive downstream (edges : list RelayEdgeRecord) (roots : list string) :
    nat -> RelayEdgeRecord -> Prop :=
  | downstream_one e p :
      p ∈ roots -> e ∈ edges -> re_parentRelayId e = Some p -> downstream edges roots 1 e
  | downstream_next n e e' :
      downstream edges roots n e -> e' ∈ edges -> re_parentRelayId e' = Some (re_id e) ->
      downstream edges roots (S n) e'.

Lemma children_of_iff edges p e :
  e ∈ children_of edges p <-> e ∈ edges /\ re_parentRelayId e = Some p.
Proof.
  unfold children_of. rewrite !list_elem_of_In, filter_In, bool_decide_eq_true. done.
Qed.

Definition ids (es : list RelayEdgeRecord) : list string := map re_id es.

Lemma ids_iff es i : i ∈ ids es <-> exists e, e ∈ es /\ re_id e = i.
Proof. unfold ids. rewrite list_elem_of_In, in_map_iff. setoid_rewrite list_elem_of_In. naive_solver. Qed.

(** What a loop over [cs] adds: exactly the unseen children, each once. *)
Record grown (cs : list RelayEdgeRecord) (a b : list string * list RelayEdgeRecord * list string) :
    Prop := {
  grown_seen i : i ∈ b.1.1 <-> i ∈ a.1.1 \/ i ∈ ids cs;
  grown_out e : e ∈ b.1.2 -> e ∈ a.1.2 \/ (e ∈ cs /\ re_id e ∉ a.1.1);
  grown_out_old e : e ∈ a.1.2 -> e ∈ b.1.2;
  grown_new i : i ∈ ids cs -> i ∉ a.1.1 -> i ∈ ids b.1.2 /\ i ∈ b.2;
  grown_next i : i ∈ b.2 -> i ∈ a.2 \/ (i ∈ ids cs /\ i ∉ a.1.1);
  grown_next_old i : i ∈ a.2 -> i ∈ b.2;
  grown_nodup : NoDup (ids a.1.2) -> (forall i, i ∈ ids a.1.2 -> i ∈ a.1.1) ->
    NoDup (ids b.1.2) /\ (forall i, i ∈ ids b.1.2 -> i ∈ b.1.1);
}.

Lemma grown_refl a : grown [] a a.
Proof. by split; unfold ids; simpl; set_solver. Qed.

Lemma grown_app cs1 cs2 a b c : grown cs1 a b -> grown cs2 b c -> grown (cs1 ++ cs2) a c.
Proof.
  intros [A1 A2 A3 A4 A5 A6 A7] [B1 B2 B3 B4 B5 B6 B7].
  assert (Hids : forall i, i ∈ ids (cs1 ++ cs2) <-> i ∈ ids cs1 \/ i ∈ ids cs2).
  { intros i. unfold ids. rewrite map_app. apply elem_of_app. }
  split.
  - intros i. rewrite B1, A1, Hids. tauto.
  - intros e He. rewrite elem_of_app. apply B2 in He as [He|[He Hn]]; [apply A2 in He; tauto|].
    right. split; [by right|]. intros Hi. apply Hn, A1. by left.
  - auto.
  - intros i Hi Hn. rewrite Hids in Hi. destruct (decide (i ∈ b.1.1)) as [Hb|Hb].
    + apply A1 in Hb as [Hb|Hb]; [done|]. destruct (A4 i Hb Hn) as [(e & He & <-)%ids_iff H2].
      split; [apply ids_iff; eauto|auto].
    + apply B4; [|done]. destruct Hi as [Hi|Hi]; [|done]. destruct Hb. apply A1. by right.
  - intros i Hi. rewrite Hids. apply B5 in Hi as [Hi|[Hi Hn]]; [apply A5 in Hi; tauto|].
    right. split; [by right|]. intros Ha. apply Hn, A1. by left.
  - auto.
  - intros Hnd Hsub. destruct (A7 Hnd Hsub) as [Hnd' Hsub']. by apply B7.
Qed.

Lemma grown_one c a :
  grown [c] a (if decide (re_id c ∈ a.1.1) then a
               else (re_id c :: a.1.1, a.1.2 ++ [c], a.2 ++ [re_id c])).
Proof.
  destruct a as [[seen out] next]. simpl.
  assert (Hc : forall i, i ∈ ids [c] <-> i = re_id c)
    by (intros i; unfold ids; simpl; by rewrite list_elem_of_singleton).
  destruct (decide (re_id c ∈ seen)) as [Hin|Hn].
  - split; simpl; try tauto; intros i; rewrite ?Hc; try naive_solver.
  - assert (Ha : forall i, i ∈ ids (out ++ [c]) <-> i ∈ ids out \/ i = re_id c).
    { intros i. unfold ids. rewrite map_app. simpl. by rewrite elem_of_app, list_elem_of_singleton. }
    split; simpl; try (intros i; rewrite ?Hc, ?elem_of_cons, ?elem_of_app, ?Ha, ?list_elem_of_singleton;
      naive_solver).
    intros Hnd Hsub. split.
    + unfold ids. rewrite map_app. apply NoDup_app. split_and!; [done| |apply NoDup_singleton].
      intros i Hi ->%list_elem_of_singleton. auto.
    + intros i. rewrite Ha, elem_of_cons. naive_solver.
Qed.

Lemma visit_grown cs a : grown cs a (visit cs a).
Proof.
  revert a. induction cs as [|c cs IH]; intros a; simpl; [apply grown_refl|].
  pose proof (grown_one c a) as H1. destruct a as [[seen out] next]. simpl in *.
  apply (grown_app [c] cs _ _ _ H1 (IH _)).
Qed.

Definition children (edges : list RelayEdgeRecord) (frontier : list string) : list RelayEdgeRecord :=
  flat_map (children_of edges) frontier.

Lemma visit_level_grown edges frontier a :
  grown (children edges frontier) a (visit_level edges frontier a).
Proof.
  unfold visit_level, children. revert a. induction frontier as [|p f IH]; intros a; simpl.
  - apply grown_refl.
  - eapply grown_app; [apply visit_grown|apply IH].
Qed.

Lemma children_iff edges f e :
  e ∈ children edges f <-> e ∈ edges /\ exists p, p ∈ f /\ re_parentRelayId e = Some p.
Proof.
  unfold children. rewrite list_elem_of_In, in_flat_map. setoid_rewrite <-list_elem_of_In.
  setoid_rewrite children_of_iff. naive_solver.
Qed.

(** After [k] levels everything within [k] links of a root has been seen, and
    nothing else has. *)
Record searched (edges : list RelayEdgeRecord) (roots : list string) (k : nat)
    (frontier seen : list string) (out : list RelayEdgeRecord) : Prop := {
  searched_seen i : i ∈ seen <-> i ∈ roots \/ i ∈ ids out;
  searched_expanded e p :
    e ∈ edges -> re_parentRelayId e = Some p -> p ∈ seen -> p ∉ frontier -> re_id e ∈ seen;
  searched_within n e : n <= k -> downstream edges roots n e -> re_id e ∈ seen;
  searched_out e : e ∈ out ->
    e ∈ edges /\ (re_id e ∉ roots) /\ exists n, n <= k /\ downstream edges roots n e;
  searched_frontier i : i ∈ frontier ->
    i ∈ seen /\ (i ∈ roots \/ exists n e, n <= k /\ downstream edges roots n e /\ re_id e = i);
  searched_nodup : NoDup (ids out);
}.

Lemma searched_start edges roots : searched edges roots 0 roots roots [].
Proof.
  split.
  - intros i. split; [by left|]. intros [Hi|Hi]; [done|]. by apply not_elem_of_nil in Hi.
  - done.
  - intros n e Hn Hd. destruct Hd; lia.
  - intros e He. by apply not_elem_of_nil in He.
  - auto.
  - constructor.
Qed.

Lemma searched_level edges roots k frontier seen out :
  searched edges roots k frontier seen out ->
  let '(seen', out', next) := visit_level edges frontier (seen, out, []) in
  searched edges roots (S k) next seen' out'.
Proof.
  intros [S1 S2 S3 S4 S5 S6].
  destruct (visit_level edges frontier (seen, out, [])) as [[seen' out'] next] eqn:Ev.
  pose proof (visit_level_grown edges frontier (seen, out, [])) as G. rewrite Ev in G.
  destruct G as [G1 G2 G3 G4 G5 G6 G7]. simpl in *.
  assert (Hfront : forall e p, e ∈ edges -> re_parentRelayId e = Some p -> p ∈ frontier ->
            exists n, n <= S k /\ downstream edges roots n e).
  { intros e p He Hp Hf. destruct (S5 p Hf) as [_ [Hr|(n & x & Hn & Hx & <-)]].
    - exists 1. split; [lia|]. by eapply downstream_one.
    - exists (S n). split; [lia|]. by eapply downstream_next. }
  assert (Hchild : forall e p, e ∈ edges -> re_parentRelayId e = Some p -> p ∈ seen -> re_id e ∈ seen').
  { intros e p He Hp Hs. apply G1. destruct (decide (p ∈ frontier)) as [Hf|Hf]; [right|left; eauto].
    apply ids_iff. exists e. split; [|done]. apply children_iff. eauto. }
  destruct (G7 S6) as [Hnd Hsub]; [intros i Hi; apply S1; auto|].
  split; [| | | | |done].
  - intros i. split.
    + intros [Hi|Hi]%G1; [apply S1 in Hi as [Hi|Hi]; [by left|right]|].
      * apply ids_iff in Hi as (e & He & <-). apply ids_iff. eauto.
      * destruct (decide (i ∈ seen)) as [Hs|Hs]; [|right; by apply G4].
        apply S1 in Hs as [Hs|(e & He & <-)%ids_iff]; [by left|right]. apply ids_iff. eauto.
    + intros [Hi|Hi]; [apply G1; left; apply S1; by left|by apply Hsub].
  - intros e p He Hp [Hs|Hs]%G1 Hn; [eauto|].
    destruct (decide (p ∈ seen)) as [Hs'|Hs']; [eauto|]. by destruct (G4 p Hs Hs') as [_ ?].
  - intros n e Hn Hd. destruct (decide (n <= k)); [apply G1; left; eauto|].
    destruct Hd as [e p Hp He Hpe|n e e' Hd He Hpe].
    + eapply Hchild; eauto. apply S1. by left.
    + eapply Hchild; eauto. apply S3 with n; [lia|done].
  - intros e [He|[He Hn]]%G2.
    + destruct (S4 e He) as (? & ? & n & ? & ?). split_and!; try done. exists n. split; [lia|done].
    + apply children_iff in He as (He & p & Hf & Hp). split_and!; [done| |eauto].
      intros Hr. apply Hn, S1. by left.
  - intros i [Hi|[Hi Hn]]%G5; [by apply not_elem_of_nil in Hi|]. split; [apply G1; by right|right].
    apply ids_iff in Hi as (e & He & <-). apply children_iff in He as (He & p & Hf & Hp).
    destruct (Hfront e p He Hp Hf) as (n & ? & ?). eauto.
Qed.

Lemma search_spec levels edges roots k frontier seen out :
  searched edges roots k frontier seen out ->
  let r := search levels edges frontier seen out in
  NoDup (ids r) /\
  (forall e, e ∈ r -> e ∈ edges /\ (re_id e ∉ roots) /\
     exists n, n <= k + levels /\ downstream edges roots n e) /\
  (forall n e, n <= k + levels -> downstream edges roots n e -> re_id e ∈ roots \/ re_id e ∈ ids r).
Proof.
  revert k frontier seen out. induction levels as [|levels IH]; intros k frontier seen out HS;
    cbv zeta.
  - destruct HS as [S1 S2 S3 S4 S5 S6]. simpl. rewrite Nat.add_0_r. split_and!; [done|done|].
    intros n e Hn Hd. apply S1. eauto.
  - destruct frontier as [|p f].
    + destruct HS as [S1 S2 S3 S4 S5 S6]. simpl. split_and!; [done| |].
      * intros e He. destruct (S4 e He) as (? & ? & n & ? & ?). split_and!; try done.
        exists n. split; [lia|done].
      * intros n e _ Hd. apply S1. induction Hd as [e p Hp He Hpe|n e e' Hd IHd He Hpe].
        -- eapply S2; [done|done| |apply not_elem_of_nil]. apply S1. by left.
        -- eapply S2; [done|done|done|apply not_elem_of_nil].
    + apply searched_level in HS. cbn [search].
      destruct (visit_level edges (p :: f) (seen, out, [])) as [[seen' out'] next].
      replace (k + S levels) with (S k + levels) by lia. by apply IH.
Qed.

(** Among edges with distinct ids, the downstream search returns
    each edge exactly once that is not itself a root and from which at most 64
    parent links lead to a root; nothing else is returned. *)
Theorem collectDownstreamRelays_exact roots edges :
  NoDup (map re_id edges) ->
  NoDup (collectDownstreamRelays roots edges) /\
  forall e, e ∈ collectDownstreamRelays roots edges <->
    e ∈ edges /\ (re_id e ∉ roots) /\
    exists n, n <= MAX_RELAY_CHAIN_DEPTH /\ downstream edges roots n e.
Proof.
  intros Hnd. unfold collectDownstreamRelays.
  destruct (search_spec MAX_RELAY_CHAIN_DEPTH edges roots 0 roots roots [] (searched_start edges roots))
    as (Hr & Hs & Hc). rewrite Nat.add_0_l in Hs, Hc. split.
  - unfold ids in Hr. by apply NoDup_fmap_1 in Hr.
  - intros e. split; [apply Hs|]. intros (He & Hn & n & Hle & Hd).
    destruct (Hc n e Hle Hd) as [?|(e' & He' & Eid)%ids_iff]; [done|].
    destruct (Hs e' He') as (Hin & _). replace e with e'; [done|].
    apply (NoDup_map_unique re_id edges); by rewrite <-?list_elem_of_In.
Qed.

Lemma collectDownstreamRelays_exact_witness :
  let edges := values sample_chain in
  NoDup (collectDownstreamRelays ["a"] edges) /\
  forall e, e ∈ collectDownstreamRelays ["a"] edges <->
    e ∈ edges /\ (re_id e ∉ ["a"]) /\
    exists n, n <= MAX_RELAY_CHAIN_DEPTH /\ downstream edges ["a"] n e.
Proof.
  apply (collectDownstreamRelays_exact ["a"] (values sample_chain)).
  apply (bool_decide_unpack _). reflexivity.
Defined.

(** ** The relay table over time *)

Record relay_inv `{Env} (d : db) : Prop := {
  ri_keyed : keyed (relayEdges d);
  ri_ids e : In e (values (relayEdges d)) -> exists n, n < rng d /\ re_id e = uuid n;
  ri_unique : NoDup (map re_id (values (relayEdges d)));
  ri_depth e : In e (values (relayEdges d)) ->
    (0 <= re_chainDepth e < Z.of_nat MAX_RELAY_CHAIN_DEPTH)%Z;
  ri_parent e p : In e (values (relayEdges d)) -> re_parentRelayId e = Some p ->
    exists e', In e' (values (relayEdges d)) /\ re_id e' = p;
}.

Section table.
Context `{Env} `{!DrawLaws}.
Context (other_subject : RelaySubjectSource -> string -> db -> option RelaySubjectCard).

Lemma merged_keyof ex now input :
  keyof (merged_edge ex now input) = keyof input.
Proof. by destruct ex. Qed.

(** Writing an edge: ids stay, or a fresh one is added at the end. *)
Lemma upsert_relay_ids d input :
  let d' := (upsertRelayEdge input d).1 in
  map re_id (values (relayEdges d')) =
  match get (keyof input) (relayEdges d) with
  | Some _ => map re_id (values (relayEdges d))
  | None => map re_id (values (relayEdges d)) ++ [re_id input]
  end.
Proof.
  cbv zeta. unfold upsertRelayEdge. cbn [fst relayEdges set_relayEdges].
  destruct (get (keyof input) (relayEdges d)) as [e|] eqn:Eg.
  - destruct (values_set_old (keyof input) (merged_edge (Some e) (clock d) input) e _ Eg)
      as (l1 & l2 & -> & ->). by rewrite !map_app.
  - rewrite values_set_new by done. by rewrite map_app.
Qed.

Lemma upsert_relay_inv d input :
  relay_inv d ->
  (get (keyof input) (relayEdges d) = None ->
     (exists n, n < rng d /\ re_id input = uuid n) /\
     ~ In (re_id input) (map re_id (values (relayEdges d)))) ->
  (0 <= re_chainDepth input < Z.of_nat MAX_RELAY_CHAIN_DEPTH)%Z ->
  (forall p, re_parentRelayId input = Some p -> In p (map re_id (values (relayEdges d)))) ->
  relay_inv (upsertRelayEdge input d).1.
Proof.
  intros [K I U D P] Hnew Hdepth Hpar.
  pose proof (upsert_relay_ids d input) as Hids. cbv zeta in Hids.
  assert (Hin : forall x, In x (values (relayEdges (upsertRelayEdge input d).1)) ->
            x = merged_edge (get (keyof input) (relayEdges d)) (clock d) input \/
            In x (values (relayEdges d))) by (intros x; apply in_values_set).
  assert (Hsub : forall p, In p (map re_id (values (relayEdges d))) ->
            exists e', In e' (values (relayEdges (upsertRelayEdge input d).1)) /\ re_id e' = p).
  { intros p Hp.
    assert (Hp' : In p (map re_id (values (relayEdges (upsertRelayEdge input d).1)))).
    { rewrite Hids. destruct (get _ _); [done|]. apply in_app_iff. by left. }
    apply in_map_iff in Hp' as (x & ? & ?). eauto. }
  split; [| |rewrite Hids| |].
  - unfold upsertRelayEdge. cbn [fst relayEdges set_relayEdges].
    rewrite <-(merged_keyof (get (keyof input) (relayEdges d)) (clock d) input) at 1.
    by apply keyed_set.
  - intros e [->|He]%Hin; [|by apply I].
    destruct (get (keyof input) (relayEdges d)) as [e0|] eqn:Eg; [|by apply Hnew].
    simpl. eapply I, get_in_values, Eg.
  - destruct (get (keyof input) (relayEdges d)) eqn:Eg; [done|]. destruct (Hnew eq_refl) as [_ Hn].
    apply NoDup_app. split_and!; [done| |apply NoDup_singleton].
    intros x Hx ->%list_elem_of_singleton. by apply Hn, list_elem_of_In.
  - intros e [->|He]%Hin; [|by apply D].
    destruct (get (keyof input) (relayEdges d)) as [e0|] eqn:Eg; [|done].
    simpl. eapply D, get_in_values, Eg.
  - intros e p [->|He]%Hin Ep; apply Hsub; [|apply in_map_iff; destruct (P e p He Ep) as (x & ? & ?); eauto].
    destruct (get (keyof input) (relayEdges d)) as [e0|] eqn:Eg; [|by apply Hpar].
    simpl in Ep. destruct (re_parentRelayId e0) as [q|] eqn:Eq; simpl in Ep; [|by apply Hpar].
    injection Ep as ->. destruct (P e0 p) as (x & ? & ?); [by eapply get_in_values|done|].
    apply in_map_iff. eauto.
Qed.

Lemma getRelayEdge_in id d e : getRelayEdge id d = Some e -> In e (values (relayEdges d)) /\ re_id e = id.
Proof. intros [? E]%find_some. by apply bool_decide_eq_true in E. Qed.

Lemma relay_inv_draw d : relay_inv d -> relay_inv (set_rng (S (rng d)) d).
Proof.
  intros [K I U D P]. split; try done. intros e He. destruct (I e He) as (n & ? & ?). exists n.
  simpl. split; [lia|done].
Qed.

(** The write at the end of [relaySubject]: a drawn id, the parent's depth plus one. *)
Lemma relay_write_inv d s i u parent author note :
  relay_inv d ->
  (forall p, parent = Some p -> In p (values (relayEdges d))) ->
  snd (nextChainDepth parent) = true ->
  let id := uuid (rng d) in
  relay_inv (upsertRelayEdge (mk_re id u s i (re_id <$> parent)
    (match parent with Some p => re_rootRelayId p | None => id end)
    (fst (nextChainDepth parent)) author note true 0 0) (set_rng (S (rng d)) d)).1.
Proof.
  intros Hinv Hp Hlim id. apply upsert_relay_inv; [by apply relay_inv_draw| | |].
  - intros _. split; [exists (rng d); split; [simpl; lia|done]|].
    intros (e & Eid & He)%in_map_iff. destruct (ri_ids d Hinv e He) as (n & Hn & En).
    simpl in Eid. rewrite En in Eid. apply uuid_inj in Eid. lia.
  - simpl in *. apply bool_decide_eq_true in Hlim. split; [|done].
    destruct parent as [p|]; [|lia]. pose proof (ri_depth d Hinv p (Hp p eq_refl)). lia.
  - intros q. simpl. destruct parent as [p|]; simpl; [|done]. intros [= <-].
    apply in_map_iff. eauto.
Qed.
End table.

Section operations.
Context `{Env} `{!DrawLaws}.
Context (other_subject : RelaySubjectSource -> string -> db -> option RelaySubjectCard).

(** Every relay operation, on every branch, keeps the relay table
    well formed: one edge per relayer and subject, unique ids, every depth within
    [0..63] and every parent id naming an edge that exists. *)
Theorem relay_table_invariant input relayId userId :
  keeps relay_inv anyhow (relaySubject other_subject input) /\
  keeps relay_inv anyhow (withdrawRelay relayId userId) /\
  keeps relay_inv anyhow (reinstateRelay relayId userId).
Proof.
  assert (Hset : forall v, keeps relay_inv anyhow (set_relay_active v relayId userId)).
  { intros v d Hinv. unfold set_relay_active, mbind. simpl.
    destruct (getRelayEdge relayId d) as [e|] eqn:Eg; [|by split_and!]. apply getRelayEdge_in in Eg as [Hin _].
    destruct (negb _); [by split_and!|]. simpl. split_and!; [|done..]. pose proof Hinv as [K I U D P].
    apply (upsert_relay_inv d (with_re_active v e)); [done| |exact (D e Hin)|].
    - change (keyof (with_re_active v e)) with (keyof e). rewrite (keyed_in _ _ K Hin). discriminate.
    - intros p Ep. destruct (P e p Hin Ep) as (x & ? & ?). apply in_map_iff. eauto. }
  split_and!; [|apply Hset|apply Hset].
  intros d Hinv. unfold relaySubject, mbind. simpl.
  destruct (resolveSubject _ _ _ d) as [card|]; [|by split_and!].
  destruct (truthy (rl_viaRelayId input)) as [via|]; simpl.
  - destruct (getRelayEdge via d) as [p|] eqn:Eg; simpl; [|by split_and!].
    destruct (_ || _); simpl; [by split_and!|].
    case_bool_decide as Hb; simpl; [|by split_and!].
    split_and!; [|done..]. apply getRelayEdge_in in Eg as [Hin _].
    apply (relay_write_inv d _ _ _ (Some p)); [done|by intros ? [= <-]|].
    simpl. by rewrite bool_decide_eq_true.
  - split_and!; [|done..]. by apply (relay_write_inv d _ _ _ None).
Qed.
End operations.

Lemma relay_table_invariant_witness :
  let ops := @relaySubject sample_env (fun s i _ => Some (Build_RelaySubjectCard s i "t" None None None None []))
               (Build_RelayInput "alice" wall_post "post" None None) in
  keeps (@relay_inv sample_env) anyhow ops /\
  keeps (@relay_inv sample_env) anyhow (withdrawRelay "" "alice") /\
  keeps (@relay_inv sample_env) anyhow (reinstateRelay "" "alice").
Proof.
  apply (@relay_table_invariant sample_env sample_laws).
Defined.

(** ** A relay can be re-parented under its own descendant *)

Section reparent.
#[local] Existing Instance sample_env.

(** Any wall post can be relayed. *)
Definition any_post (s : RelaySubjectSource) (i : string) (_ : db) : option RelaySubjectCard :=
  Some (Build_RelaySubjectCard s i "a post" None None None None []).

Definition relay_via (user : string) (via : option string) (d : db) : db :=
  exec (relaySubject any_post (Build_RelayInput user wall_post "post" via None)) d.

(** Alice relays a post; Bob relays it through her; Alice relays it again, through Bob. *)
Definition reparented : db :=
  relay_via "alice" (Some (unary 2))
    (relay_via "bob" (Some (unary 1)) (relay_via "alice" None (set_rng 1 empty_db))).

(** Re-relaying does not keep the chain the edge was minted with when
    that edge was an origin: a null parent is replaced, so three calls leave two
    edges that are each other's parent, Alice's still claiming depth 0, and the
    visible path of neither reaches an origin. *)
Theorem relay_cycle :
  let alice := findRelayEdge "alice" wall_post "post" reparented in
  let bob := findRelayEdge "bob" wall_post "post" reparented in
  (re_id <$> alice) = Some (unary 1) /\ (re_id <$> bob) = Some (unary 2) /\
  (re_parentRelayId <$> alice) = Some (Some (unary 2)) /\
  (re_parentRelayId <$> bob) = Some (Some (unary 1)) /\
  (re_chainDepth <$> alice) = Some 0%Z /\ (re_chainDepth <$> bob) = Some 1%Z.
Proof. vm_compute. done. Qed.
End reparent.
