(* ===== verification/Slug.v ===== *)
(** * Slugs and share links

    [slugifyCoalitionName], [isInstanceHost] and [buildShareHref] of
    [packages/core/src/coalition/coalitionNetwork.ts], and the search for a free
    slug, [uniqueSlug] of [packages/api/src/services/coalitionNetworkStore.ts].
    Strings are lists of code units below 256. *)

From S2P Require Import Prelude JsMap CoalitionDomain Records Store.

Abbreviation chars := String.list_ascii_of_string.
Abbreviation of_chars := String.string_of_list_ascii.

(** ** [slugifyCoalitionName] *)

Definition in_range (lo hi : nat) (c : ascii) : bool :=
  Nat.leb lo (nat_of_ascii c) && Nat.leb (nat_of_ascii c) hi.

Definition is_lower_alnum (c : ascii) : bool := in_range 97 122 c || in_range 48 57 c.

(** [.replace(/[^a-z0-9]+/g, '-')]; [run] says the previous character was replaced. *)
Fixpoint dash_runs (run : bool) (l : list ascii) : list ascii :=
  match l with
  | [] => []
  | c :: l =>
      if is_lower_alnum c then c :: dash_runs false l
      else if run then dash_runs true l else "-"%char :: dash_runs true l
  end.

(** [.replace(/^-+|-+$/g, '')] *)
Fixpoint drop_dashes (l : list ascii) : list ascii :=
  match l with
  | c :: l' => if Ascii.eqb c "-"%char then drop_dashes l' else l
  | [] => []
  end.
Definition strip_dashes (l : list ascii) : list ascii := rev (drop_dashes (rev (drop_dashes l))).

Definition slug_base (nm : string) : list ascii :=
  strip_dashes (dash_runs false (chars (toLowerCase nm))).

Definition slugifyCoalitionName (nm : string) : string :=
  let base := slug_base nm in
  if bool_decide (0 < length base) then of_chars (firstn 48 base) else "coalition".

(** ** [uniqueSlug] *)

(** The [for (;;)] loop, at most [fuel] turns of it. *)
Fixpoint slug_loop (fuel : nat) (base slug : string) (suffix : Z) (exceptId : option string)
    (d : db) : option string :=
  match fuel with
  | 0 => None
  | S fuel =>
      match getCoalitionBySlug slug d with
      | None => Some slug
      | Some taken =>
          if bool_decide (Some (co_id taken) = exceptId) then Some slug
          else slug_loop fuel base (base +:+ "-" +:+ pretty suffix) (suffix + 1) exceptId d
      end
  end.

Definition uniqueSlug (nm : string) (exceptId : option string) (d : db) : string :=
  let base := slugifyCoalitionName nm in
  default base (slug_loop (S (length (coalitions d))) base base 2 exceptId d).

(** ** Share links *)

Inductive CoalitionShareTarget :=
  | share_copy | share_x | share_bluesky | share_mastodon | share_threads | share_facebook
  | share_reddit | share_linkedin | share_telegram | share_whatsapp | share_email | share_sms
  | share_instagram | share_tiktok | share_discord.

Inductive ShareKind := kind_intent | kind_copy.

Definition share_kind (t : CoalitionShareTarget) : ShareKind :=
  match t with
  | share_copy | share_instagram | share_tiktok | share_discord => kind_copy
  | _ => kind_intent
  end.

Definition is_alnum (c : ascii) : bool := is_lower_alnum c || in_range 65 90 c.

Fixpoint split_dots (l : list ascii) : list (list ascii) :=
  match l with
  | [] => [[]]
  | c :: l =>
      if Ascii.eqb c "."%char then [] :: split_dots l
      else match split_dots l with
           | w :: ws => (c :: w) :: ws
           | [] => [[c]]
           end
  end.

(** [[a-z0-9]([a-z0-9-]*[a-z0-9])?], case-insensitively. *)
Definition host_label (w : list ascii) : bool :=
  match w with
  | [] => false
  | c :: _ => is_alnum c && match last w with Some e => is_alnum e | None => false end
              && forallb (fun x => is_alnum x || Ascii.eqb x "-"%char) w
  end.

Definition isInstanceHost (value : string) : bool :=
  bool_decide (length (chars value) <= 253)
  && bool_decide (2 <= length (split_dots (chars value)))
  && forallb host_label (split_dots (chars value)).

(** [encodeURIComponent]: [A-Za-z0-9-_.!~*'()] stand for themselves. *)
Definition uri_unreserved (c : ascii) : bool :=
  is_alnum c || existsb (Ascii.eqb c) (chars "-_.!~*'()").

Definition hex_digit (n : nat) : ascii :=
  ascii_of_nat (if Nat.ltb n 10 then 48 + n else 55 + n).
Definition percent (n : nat) : list ascii :=
  ["%"%char; hex_digit (n / 16); hex_digit (n mod 16)].

(** The UTF-8 bytes of a code unit.  The one character the sources write that lies
    above the range, the ellipsis U+2026 of [clip], is kept as code unit 133. *)
Definition utf8 (c : ascii) : list nat :=
  let n := nat_of_ascii c in
  if Nat.ltb n 128 then [n]
  else if Nat.eqb n 133 then [226; 128; 166]
  else [192 + n / 64; 128 + n mod 64].

(** A code unit as the escapes of its UTF-8 bytes. *)
Definition escape (c : ascii) : list ascii :=
  if uri_unreserved c then [c] else flat_map percent (utf8 c).

Definition encodeURIComponent (s : string) : string := of_chars (flat_map escape (chars s)).

Record ShareComposition := { sh_text : string; sh_url : string; sh_title : string }.

Definition buildShareHref (target : CoalitionShareTarget) (post : ShareComposition)
    (instanceHost : option string) : option string :=
  match share_kind target with
  | kind_copy => None
  | kind_intent =>
      let text := encodeURIComponent (sh_text post) in
      let url := encodeURIComponent (sh_url post) in
      let title := encodeURIComponent (sh_title post) in
      match target with
      | share_x => Some ("https://x.com/intent/post?text=" +:+ text)
      | share_bluesky => Some ("https://bsky.app/intent/compose?text=" +:+ text)
      | share_mastodon =>
          match truthy instanceHost with
          | Some host => if isInstanceHost host
                         then Some ("https://" +:+ host +:+ "/share?text=" +:+ text) else None
          | None => None
          end
      | share_threads => Some ("https://www.threads.net/intent/post?text=" +:+ text)
      | share_facebook => Some ("https://www.facebook.com/sharer/sharer.php?u=" +:+ url)
      | share_reddit =>
          Some ("https://www.reddit.com/submit?url=" +:+ url +:+ "&title=" +:+ title)
      | share_linkedin => Some ("https://www.linkedin.com/sharing/share-offsite/?url=" +:+ url)
      | share_telegram => Some ("https://t.me/share/url?url=" +:+ url +:+ "&text=" +:+ title)
      | share_whatsapp => Some ("https://wa.me/?text=" +:+ text)
      | share_email => Some ("mailto:?subject=" +:+ title +:+ "&body=" +:+ text)
      | share_sms => Some ("sms:?&body=" +:+ text)
      | _ => None
      end
  end.

(** ** Lemmas on strings *)

Lemma of_chars_app l1 l2 : of_chars (l1 ++ l2) = of_chars l1 +:+ of_chars l2.
Proof. induction l1 as [|c l1 IH]; simpl; [done|]. by rewrite IH. Qed.

Lemma chars_app s1 s2 : chars (s1 +:+ s2) = chars s1 ++ chars s2.
Proof. induction s1 as [|c s1 IH]; simpl; [done|]. by rewrite IH. Qed.

Lemma chars_of_chars l : chars (of_chars l) = l.
Proof. apply String.list_ascii_of_string_of_list_ascii. Qed.

Lemma of_chars_chars s : of_chars (chars s) = s.
Proof. apply String.string_of_list_ascii_of_string. Qed.

Lemma app_string_assoc (a b c : string) : (a +:+ b) +:+ c = a +:+ (b +:+ c).
Proof.
  induction a as [|x a IH]; [done|].
  change (String x ((a +:+ b) +:+ c) = String x (a +:+ (b +:+ c))). by rewrite IH.
Qed.

Lemma app_string_nil (a : string) : a +:+ "" = a.
Proof. induction a as [|x a IH]; [done|]. change (String x (a +:+ "") = String x a). by rewrite IH. Qed.

Lemma app_string_inv (a b c : string) : a +:+ b = a +:+ c -> b = c.
Proof.
  induction a as [|x a IH]; [done|]. change (String x (a +:+ b) = String x (a +:+ c) -> b = c).
  intros [= E]. auto.
Qed.

(** ** Slugs *)

Definition slug_char (c : ascii) : bool := is_lower_alnum c || Ascii.eqb c "-"%char.

Lemma dash_runs_chars run l : forallb slug_char (dash_runs run l) = true.
Proof.
  revert run. induction l as [|c l IH]; intros run; simpl; [done|].
  destruct (is_lower_alnum c) eqn:E; simpl; [|destruct run; simpl; apply IH].
  unfold slug_char at 1. by rewrite E, IH.
Qed.

Lemma drop_dashes_suffix l : exists p, l = p ++ drop_dashes l.
Proof.
  induction l as [|c l [p IH]]; simpl; [by exists []|].
  destruct (Ascii.eqb c "-"%char); [|by exists []]. exists (c :: p). simpl. by rewrite <-IH.
Qed.

Lemma drop_dashes_head l c l' : drop_dashes l = c :: l' -> c <> "-"%char.
Proof.
  induction l as [|x l IH]; simpl; [done|]. destruct (Ascii.eqb x "-"%char) eqn:E; [done|].
  intros [= -> ->]. by apply Ascii.eqb_neq.
Qed.

Lemma strip_dashes_middle l : exists p q, l = p ++ strip_dashes l ++ q.
Proof.
  unfold strip_dashes. destruct (drop_dashes_suffix l) as [p Hp].
  destruct (drop_dashes_suffix (rev (drop_dashes l))) as [q Hq].
  exists p, (rev q). rewrite Hp at 1. f_equal.
  apply (f_equal (@rev _)) in Hq. rewrite rev_involutive, rev_app_distr in Hq. done.
Qed.

Lemma strip_dashes_head l c l' : strip_dashes l = c :: l' -> c <> "-"%char.
Proof.
  unfold strip_dashes. intros E.
  destruct (drop_dashes_suffix (rev (drop_dashes l))) as [q Hq].
  apply (f_equal (@rev _)) in Hq. rewrite rev_involutive, rev_app_distr, E in Hq.
  simpl in Hq. by eapply drop_dashes_head.
Qed.

Lemma strip_dashes_chars l : forallb slug_char l = true -> forallb slug_char (strip_dashes l) = true.
Proof.
  destruct (strip_dashes_middle l) as (p & q & E). rewrite E at 1.
  rewrite !forallb_app, !andb_true_iff. tauto.
Qed.

Lemma forallb_firstn {A} (p : A -> bool) n l : forallb p l = true -> forallb p (firstn n l) = true.
Proof.
  rewrite <-(firstn_skipn n l) at 1. rewrite forallb_app, andb_true_iff. tauto.
Qed.

Lemma slugify_chars nm : forallb slug_char (chars (slugifyCoalitionName nm)) = true.
Proof.
  unfold slugifyCoalitionName. case_bool_decide; [|done].
  rewrite chars_of_chars. apply forallb_firstn, strip_dashes_chars, dash_runs_chars.
Qed.

(** A slug derived from any name is non-empty, has at most 48
    characters, all of them lower-case letters, digits and dashes, and does not
    start with a dash. *)
Theorem slugifyCoalitionName_safe nm :
  let s := chars (slugifyCoalitionName nm) in
  (1 <= length s <= 48) /\ forallb slug_char s = true /\ hd_error s <> Some "-"%char.
Proof.
  unfold slugifyCoalitionName. case_bool_decide as Hl; [|vm_compute; split_and!; [lia|lia|done|done]].
  rewrite chars_of_chars. unfold slug_base in *. split_and!.
  - rewrite length_firstn. lia.
  - rewrite length_firstn. lia.
  - apply forallb_firstn, strip_dashes_chars, dash_runs_chars.
  - destruct (strip_dashes _) as [|c l'] eqn:Es; [simpl in Hl; lia|]. cbn [firstn hd_error].
    intros [= ->]. by apply strip_dashes_head in Es.
Qed.

(** The slugs the loop tries. *)
Definition candidate (base : string) (n : nat) : string :=
  match n with 0 => base | S n => base +:+ "-" +:+ pretty (Z.of_nat n + 2)%Z end.

Lemma candidate_inj base n m : candidate base n = candidate base m -> n = m.
Proof.
  assert (Hne : forall k, base <> base +:+ "-" +:+ pretty (Z.of_nat k + 2)%Z).
  { intros k E. apply (f_equal chars) in E. rewrite !chars_app in E.
    apply (f_equal length) in E. rewrite !length_app in E. cbn [length chars] in E. lia. }
  destruct n as [|n], m as [|m]; cbn [candidate]; intros E; [done| | |].
  - by apply Hne in E.
  - symmetry in E. by apply Hne in E.
  - apply app_string_inv, app_string_inv in E.
    apply (inj pretty) in E. lia.
Qed.

Lemma getCoalitionBySlug_spec s d c :
  getCoalitionBySlug s d = Some c -> In c (listCoalitions d) /\ co_slug c = s.
Proof. intros [Hin E]%find_some. by apply bool_decide_eq_true in E. Qed.

(** The loop returns the first free candidate; it can only go past taken ones. *)
Lemma slug_loop_spec fuel base exc d n :
  match slug_loop fuel base (candidate base n) (Z.of_nat n + 2) exc d with
  | Some s => (exists k, s = candidate base k) /\
              (getCoalitionBySlug s d = None \/
               exists c, getCoalitionBySlug s d = Some c /\ Some (co_id c) = exc)
  | None => forall k, k < fuel -> exists c, In c (listCoalitions d) /\ co_slug c = candidate base (n + k)
  end.
Proof.
  revert n. induction fuel as [|fuel IH]; intros n; cbn [slug_loop]; [lia|].
  destruct (getCoalitionBySlug (candidate base n) d) as [t|] eqn:Eg;
    [|split; [by exists n|by left]].
  case_bool_decide as Ht; [split; [by exists n|right; by exists t]|].
  replace (base +:+ "-" +:+ pretty (Z.of_nat n + 2)%Z) with (candidate base (S n)) by reflexivity.
  replace (Z.of_nat n + 2 + 1)%Z with (Z.of_nat (S n) + 2)%Z by lia.
  specialize (IH (S n)). revert IH. destruct (slug_loop _ _ _ _ _ _); intros IH; [exact IH|].
  intros [|k] Hk.
  - rewrite Nat.add_0_r. apply getCoalitionBySlug_spec in Eg. eauto.
  - replace (n + S k) with (S n + k) by lia. apply IH. lia.
Qed.

Lemma slug_loop_returns base exc d :
  slug_loop (S (length (coalitions d))) base base 2 exc d <> None.
Proof.
  pose proof (slug_loop_spec (S (length (coalitions d))) base exc d 0) as Hs.
  change (candidate base 0) with base in Hs. change (Z.of_nat 0 + 2)%Z with 2%Z in Hs.
  destruct (slug_loop _ _ _ _ _ _); [done|]. intros _.
  set (N := S (length (coalitions d))) in *.
  assert (Hsub : forall x, In x (map (candidate base) (seq 0 N)) -> In x (map co_slug (listCoalitions d))).
  { intros x (k & <- & Hk)%in_map_iff. apply in_seq in Hk.
    destruct (Hs k) as (c & Hc & Ec); [lia|]. simpl in Ec. rewrite <-Ec. by apply in_map. }
  assert (Hnd : List.NoDup (map (candidate base) (seq 0 N))).
  { assert (Inj (=) (=) (candidate base)) by (intros ? ?; apply candidate_inj).
    apply NoDup_ListNoDup, (NoDup_fmap_2 (candidate base)), NoDup_seq. }
  apply (NoDup_incl_length Hnd) in Hsub. rewrite !length_map, length_seq in Hsub.
  unfold listCoalitions, values in Hsub. rewrite length_map in Hsub. lia.
Qed.

(** The search reads only the coalition table. *)
Lemma slug_loop_table fuel base slug n exc d d' :
  coalitions d = coalitions d' -> slug_loop fuel base slug n exc d = slug_loop fuel base slug n exc d'.
Proof.
  intros E. revert slug n. induction fuel as [|fuel IH]; intros slug n; [done|]. cbn [slug_loop].
  unfold getCoalitionBySlug, listCoalitions. rewrite E. destruct (List.find _ _); [|done].
  case_bool_decide; [done|apply IH].
Qed.

Lemma uniqueSlug_table nm exc d d' :
  coalitions d = coalitions d' -> uniqueSlug nm exc d = uniqueSlug nm exc d'.
Proof. intros E. unfold uniqueSlug. by rewrite (slug_loop_table _ _ _ _ _ d d' E), E. Qed.

(** A slug the loop tries is no coalition id. *)
Lemma candidate_no_id base k x :
  forallb slug_char (chars base) = true -> candidate base k <> "coa_" +:+ x.
Proof.
  intros Hb E. apply (f_equal chars) in E. rewrite (chars_app "coa_" x) in E.
  assert (Hc : exists r, chars (candidate base k) = chars base ++ r /\
                         (r = [] \/ exists r', r = "-"%char :: r')).
  { destruct k as [|k]; cbn [candidate]; [exists []; split; [by rewrite app_nil_r|by left]|].
    rewrite chars_app. eexists. split; [done|]. right. rewrite chars_app. by eexists. }
  destruct Hc as (r & Er & Hr). rewrite Er in E. clear Er.
  assert (Hr' : forall c l, r = c :: l -> c = "-"%char).
  { intros c l ->. destruct Hr as [|[r' [= -> _]]]; done. }
  change (chars "coa_") with ["c"; "o"; "a"; "_"]%char in E. cbn [app] in E.
  destruct (chars base) as [|c1 [|c2 [|c3 [|c4 l]]]]; cbn [app] in E.
  - by apply Hr' in E.
  - injection E as _ E. by apply Hr' in E.
  - injection E as _ _ E. by apply Hr' in E.
  - injection E as _ _ _ E. by apply Hr' in E.
  - injection E as -> -> -> -> _. by vm_compute in Hb.
Qed.

(** What a new name's slug is: a candidate, taken by nobody else. *)
Lemma uniqueSlug_spec nm exceptId d :
  slug_loop (S (length (coalitions d))) (slugifyCoalitionName nm) (slugifyCoalitionName nm) 2
    exceptId d = Some (uniqueSlug nm exceptId d) /\
  (exists k, uniqueSlug nm exceptId d = candidate (slugifyCoalitionName nm) k) /\
  (getCoalitionBySlug (uniqueSlug nm exceptId d) d = None \/
   exists c, getCoalitionBySlug (uniqueSlug nm exceptId d) d = Some c /\
             Some (co_id c) = exceptId).
Proof.
  unfold uniqueSlug. cbv zeta. set (base := slugifyCoalitionName nm).
  pose proof (slug_loop_returns base exceptId d) as Hr.
  pose proof (slug_loop_spec (S (length (coalitions d))) base exceptId d 0) as Hs.
  change (candidate base 0) with base in Hs. change (Z.of_nat 0 + 2)%Z with 2%Z in Hs.
  destruct (slug_loop _ _ _ _ _ _) as [s|]; [|done]. simpl. split; [done|apply Hs].
Qed.

(** The unbounded search for a slug always ends, after at most
    one turn more than there are coalitions, and the slug it returns belongs to
    no coalition, or first of all to the coalition being renamed. *)
Theorem uniqueSlug_free nm exceptId d :
  slug_loop (S (length (coalitions d))) (slugifyCoalitionName nm) (slugifyCoalitionName nm) 2
    exceptId d = Some (uniqueSlug nm exceptId d) /\
  (getCoalitionBySlug (uniqueSlug nm exceptId d) d = None \/
   exists c, getCoalitionBySlug (uniqueSlug nm exceptId d) d = Some c /\
             Some (co_id c) = exceptId).
Proof. destruct (uniqueSlug_spec nm exceptId d) as (? & _ & ?). done. Qed.

(** ** Share links *)

Lemma encodeURIComponent_app a b :
  encodeURIComponent (a +:+ b) = encodeURIComponent a +:+ encodeURIComponent b.
Proof. unfold encodeURIComponent. by rewrite chars_app, flat_map_app, of_chars_app. Qed.

Lemma escape_safe c : forallb (fun x => uri_unreserved x || Ascii.eqb x "%"%char) (escape c) = true.
Proof. destruct c as [[] [] [] [] [] [] [] []]; vm_compute; done. Qed.

Lemma encode_safe s :
  forallb (fun x => uri_unreserved x || Ascii.eqb x "%"%char) (chars (encodeURIComponent s)) = true.
Proof.
  unfold encodeURIComponent. rewrite chars_of_chars.
  induction (chars s) as [|c l IH]; simpl; [done|]. by rewrite forallb_app, escape_safe.
Qed.

(** Whatever target is chosen, a share link carries the campaign
    URL, percent-encoded, when the post's text ends with it; what is substituted
    contains only unreserved characters and escapes, so no field can add a
    parameter of its own; and a Mastodon link exists only for a well-formed host. *)
Theorem buildShareHref_carries_url target pre url title host href :
  buildShareHref target {| sh_text := pre +:+ url; sh_url := url; sh_title := title |} host
    = Some href ->
  (exists a b, href = a +:+ encodeURIComponent url +:+ b) /\
  forallb (fun x => uri_unreserved x || Ascii.eqb x "%"%char) (chars (encodeURIComponent url)) = true /\
  (target = share_mastodon -> exists h, host = Some h /\ isInstanceHost h = true).
Proof.
  intros E. split_and!; [|apply encode_safe|].
  - assert (Htext : forall a, exists b c, a +:+ encodeURIComponent (pre +:+ url) =
              b +:+ encodeURIComponent url +:+ c).
    { intros a. exists (a +:+ encodeURIComponent pre), "".
      by rewrite encodeURIComponent_app, app_string_assoc, app_string_nil. }
    assert (Hurl : forall a, exists b c, a +:+ encodeURIComponent url =
              b +:+ encodeURIComponent url +:+ c).
    { intros a. exists a, "". by rewrite app_string_nil. }
    unfold buildShareHref in E.
    destruct target; cbn -[String.app encodeURIComponent] in E; simplify_eq; eauto.
    + destruct (truthy host); [|done]. destruct (isInstanceHost s); [|done].
      injection E as <-. rewrite <-!app_string_assoc. apply Htext.
    + rewrite <-!app_string_assoc. apply Htext.
  - intros ->. cbn -[String.app encodeURIComponent] in E. destruct host as [h|]; [|done].
    simpl in E. destruct (decide (h = "")); [done|]. destruct (isInstanceHost h) eqn:Eh; [|done].
    eauto.
Qed.

Lemma buildShareHref_carries_url_witness :
  let url := "https://blackout.example/c/1" in
  (exists a b, "https://fosstodon.org/share?text=" +:+ encodeURIComponent ("Help: " +:+ url)
               = a +:+ encodeURIComponent url +:+ b) /\
  forallb (fun x => uri_unreserved x || Ascii.eqb x "%"%char) (chars (encodeURIComponent url)) = true /\
  (share_mastodon = share_mastodon -> exists h, Some "fosstodon.org" = Some h /\ isInstanceHost h = true).
Proof.
  apply (buildShareHref_carries_url share_mastodon "Help: " "https://blackout.example/c/1" "Help"
    (Some "fosstodon.org")). vm_compute. reflexivity.
Defined.
