(* ===== verification/Network.v ===== *)
(** * The coalitions service

    Every operation of [packages/api/src/services/coalitionNetworkStore.ts], with
    [revokeMemberLinks] of [coalitionConnectionCustody.ts]: who may do what, and
    what each operation writes.  The order of reads, writes, awaits, launched
    tasks and emitted events is the source's. *)

From S2P Require Import Prelude JsMap Async CoalitionDomain Money Records Store.
From S2P Require Import Spaces Drives JoinRequirements Relay Slug.

Inductive CoalitionError :=
  | not_found
  | archived
  | forbidden (permission : option CoalitionPermission)
  | not_member
  | already_member
  | approval_required (request : CoalitionJoinRequestRecord)
  | payees_invalid (reason : string)
  | taken_down
  | petition_open
  | petition_not_found
  | quorum_not_met (needed have_ : Z)
  | invalid_role
  | last_founder
  | invalid_transition (from to : CampaignStatus)
  | campaign_inactive
  | boost_allowance_exhausted (allowance : Z)
  | already_boosted.

Definition CoalitionResult (A : Type) : Type := res CoalitionError A.

Definition fail {A} (e : CoalitionError) : H (CoalitionResult A) := mret (Err e).
Definition succeed {A} (a : A) : H (CoalitionResult A) := mret (Ok a).

(** [for (const x of xs) await f(x)] *)
Fixpoint for_each {A} (f : A -> H unit) (l : list A) : H unit :=
  match l with
  | [] => mret tt
  | a :: l => f a ;;; for_each f l
  end.

(** [xs.map(f)] for an [f] that writes the store. *)
Fixpoint map_each {A B} (f : A -> H B) (l : list A) : H (list B) :=
  match l with
  | [] => mret []
  | a :: l => let! b := f a in let! bs := map_each f l in mret (b :: bs)
  end.

(** [if (c) void task()] *)
Definition spawn_if {A} (c : bool) (t : H A) : H unit := if c then spawn t else mret tt.

Section lookups.
Context `{Env}.

(** ** Lookups *)

Definition boostDailyAllowance : Z :=
  match COALITION_BOOST_DAILY_ALLOWANCE with
  | Some raw => if bool_decide (0 < raw)%Z then raw else DEFAULT_COALITION_BOOST_DAILY_ALLOWANCE
  | None => DEFAULT_COALITION_BOOST_DAILY_ALLOWANCE
  end.

Definition getCoalition (idOrSlug : string) (d : db) : option CoalitionRecord :=
  match db_getCoalition idOrSlug d with
  | Some c => Some c
  | None => getCoalitionBySlug idOrSlug d
  end.

Definition activeMembership (coalitionId userId : string) (d : db) :
    option CoalitionMembershipRecord :=
  match getCoalitionMembership coalitionId userId d with
  | Some m => if mb_active m then Some m else None
  | None => None
  end.

Definition activeMembers (coalitionId : string) (d : db) : list CoalitionMembershipRecord :=
  List.filter mb_active (listCoalitionMemberships (Some coalitionId) None d).

Definition coalitionMemberCount (coalitionId : string) (d : db) : Z :=
  countActiveCoalitionMembers (map mb_active (listCoalitionMemberships (Some coalitionId) None d)).

Definition coalitionRolePermissions (role : CoalitionRole) : list CoalitionPermission :=
  List.filter (coalitionRoleCan role)
    [coalition_edit; coalition_archive; members_approve; members_role; members_remove;
     members_invite; campaigns_launch; campaigns_approve; campaigns_promote;
     connections_manage; externals_moderate].

Definition permissionsFor (coalitionId userId : string) (d : db) : list CoalitionPermission :=
  match activeMembership coalitionId userId d with
  | None => []
  | Some m => coalitionRolePermissions (mb_role m)
  end.

Definition requirePermission (coalition : CoalitionRecord) (userId : string)
    (permission : CoalitionPermission) (d : db) : CoalitionResult CoalitionMembershipRecord :=
  match activeMembership (co_id coalition) userId d with
  | None => Err not_member
  | Some m =>
      if negb (coalitionRoleCan (mb_role m) permission) then Err (forbidden (Some permission))
      else Ok m
  end.

Definition isStopped (coalition : CoalitionRecord) : bool :=
  bool_decide (co_archivedAt coalition <> None) || bool_decide (co_takenDownAt coalition <> None).

Definition stoppedError (coalition : CoalitionRecord) : CoalitionError :=
  if bool_decide (co_takenDownAt coalition <> None) then taken_down else archived.

(** [const coalition = getCoalition(idOrSlug); if (!coalition) return fail(not_found)] *)
Definition with_coalition {A} (idOrSlug : string) (k : CoalitionRecord -> H (CoalitionResult A)) :
    H (CoalitionResult A) :=
  let! found := gets (getCoalition idOrSlug) in
  match found with
  | None => fail not_found
  | Some coalition => k coalition
  end.

(** [if (isStopped(coalition)) return fail(stoppedError(coalition))] *)
Definition unless_stopped {A} (coalition : CoalitionRecord) (k : H (CoalitionResult A)) :
    H (CoalitionResult A) :=
  if isStopped coalition then fail (stoppedError coalition) else k.

(** [const gate = requirePermission(...); if (!gate.ok) return gate] *)
Definition with_permission {A} (coalition : CoalitionRecord) (actorId : string)
    (permission : CoalitionPermission) (k : CoalitionMembershipRecord -> H (CoalitionResult A)) :
    H (CoalitionResult A) :=
  let! gate := gets (requirePermission coalition actorId permission) in
  let? m := gate in k m.

(** [const campaign = db.getCoalitionCampaign(id); if (!campaign || campaign.coalitionId
    !== coalition.id) return fail(not_found)] *)
Definition with_campaign {A} (coalition : CoalitionRecord) (campaignId : string)
    (k : CoalitionCampaignRecord -> H (CoalitionResult A)) : H (CoalitionResult A) :=
  let! found := gets (getCoalitionCampaign campaignId) in
  match found with
  | None => fail not_found
  | Some campaign =>
      if negb (bool_decide (cp_coalitionId campaign = co_id coalition)) then fail not_found
      else k campaign
  end.

(** ** Views *)

Record CoalitionSummary := {
  sum_coalition : CoalitionRecord;
  sum_memberCount : Z;
  sum_activeCampaigns : Z;
  sum_viewerRole : option CoalitionRole;
}.

Definition activeCampaignCount (coalitionId : string) (d : db) : Z :=
  Z.of_nat (length (listCoalitionCampaigns (Some coalitionId) (Some st_active) None d)).

(** [viewerId ? activeMembership(coalition.id, viewerId) : undefined] *)
Definition viewer_membership (coalitionId : string) (viewerId : option string) (d : db) :
    option CoalitionMembershipRecord :=
  match truthy viewerId with
  | Some v => activeMembership coalitionId v d
  | None => None
  end.

Definition summarize (coalition : CoalitionRecord) (viewerId : option string) (d : db) :
    CoalitionSummary :=
  {| sum_coalition := coalition;
     sum_memberCount := coalitionMemberCount (co_id coalition) d;
     sum_activeCampaigns := activeCampaignCount (co_id coalition) d;
     sum_viewerRole := mb_role <$> viewer_membership (co_id coalition) viewerId d |}.

(** [hay.includes(needle)] *)
Definition includes (hay needle : string) : bool :=
  bool_decide (String.index 0 needle hay <> None).

Record CoalitionFilter := {
  flt_memberId : option string;
  flt_q : option string;
  flt_includeArchived : bool;
}.

Definition listCoalitionSummaries (filter : CoalitionFilter) (viewerId : option string) (d : db) :
    list CoalitionSummary :=
  let rows := listCoalitions d in
  let rows := if negb (flt_includeArchived filter)
              then List.filter (fun r => bool_decide (co_archivedAt r = None)) rows else rows in
  let by_member :=
    match truthy (flt_memberId filter) with
    | None => Some rows
    | Some m =>
        if negb (bool_decide (Some m = viewerId)) && negb (isPubliclyListed m d) then None
        else
          let ids := map mb_coalitionId
            (List.filter mb_active (listCoalitionMemberships None (Some m) d)) in
          Some (List.filter (fun r => bool_decide (co_id r ∈ ids)) rows)
    end in
  match by_member with
  | None => []
  | Some rows =>
      let rows :=
        match truthy (flt_q filter) with
        | None => rows
        | Some q =>
            let needle := toLowerCase q in
            List.filter (fun r => includes (toLowerCase (co_name r)) needle
              || includes (toLowerCase (co_mission r)) needle || includes (co_slug r) needle) rows
        end in
      map (fun r => summarize r viewerId d)
        (js_sort (fun a b => bool_decide (co_createdAt b <= co_createdAt a)%Z) rows)
  end.

Definition listUserCoalitions (userId : string) (viewerId : option string) (d : db) :
    list (CoalitionSummary * CoalitionRole) :=
  if negb (bool_decide (viewerId = Some userId)) && negb (isPubliclyListed userId d) then []
  else
    flat_map (fun m =>
      match db_getCoalition (mb_coalitionId m) d with
      | Some c => if isStopped c then [] else [(summarize c None d, mb_role m)]
      | None => []
      end)
      (List.filter mb_active (listCoalitionMemberships None (Some userId) d)).

Definition redactCampaignIdentities (campaign : CoalitionCampaignRecord) : CoalitionCampaignRecord :=
  with_cp_createdBy None (with_cp_approvedBy None (with_cp_beneficiaryUserId None campaign)).

(** [status === 'active' || status === 'completed'] *)
Definition publicStatus (s : CampaignStatus) : bool :=
  bool_decide (s = st_active) || bool_decide (s = st_completed).

Definition visibleCampaigns (coalitionId : string) (viewerIsMember : bool) (d : db) :
    list CoalitionCampaignRecord :=
  let rows := listCoalitionCampaigns (Some coalitionId) None None d in
  let visible := if viewerIsMember then rows
                 else map redactCampaignIdentities
                        (List.filter (fun r => publicStatus (cp_status r)) rows) in
  js_sort (fun a b => bool_decide (cp_createdAt b <= cp_createdAt a)%Z) visible.

Record CoalitionMemberView := { mv_userId : string; mv_role : CoalitionRole; mv_joinedAt : Z }.

Record CoalitionView := {
  view_summary : CoalitionSummary;
  view_members : list CoalitionMemberView;
  view_hiddenMemberCount : Z;
  view_campaigns : list CoalitionCampaignRecord;
  view_stats : CoalitionImpactStats;
  view_membership : option CoalitionMembershipRecord;
  view_request : option CoalitionJoinRequestRecord;
  view_permissions : list CoalitionPermission;
}.

(** [ROLE_RANK[b.role] - ROLE_RANK[a.role] || a.createdAt.localeCompare(b.createdAt)] *)
Definition roster_order (a b : CoalitionMembershipRecord) : bool :=
  if bool_decide (ROLE_RANK (mb_role b) = ROLE_RANK (mb_role a))
  then bool_decide (mb_createdAt a <= mb_createdAt b)%Z
  else bool_decide (ROLE_RANK (mb_role b) <= ROLE_RANK (mb_role a))%Z.

Definition getCoalitionView (idOrSlug : string) (viewerId : option string) (d : db) :
    CoalitionResult CoalitionView :=
  match getCoalition idOrSlug d with
  | None => Err not_found
  | Some coalition =>
      let membership := viewer_membership (co_id coalition) viewerId d in
      let request := match truthy viewerId with
                     | Some v => getCoalitionJoinRequest (co_id coalition) v d
                     | None => None
                     end in
      let allMembers := map (fun m =>
          {| mv_userId := mb_userId m; mv_role := mb_role m; mv_joinedAt := mb_createdAt m |})
        (js_sort roster_order (activeMembers (co_id coalition) d)) in
      let viewerIsMember := bool_decide (membership <> None) in
      let members := if viewerIsMember then allMembers
                     else List.filter (fun m => isPubliclyListed (mv_userId m) d) allMembers in
      let allCampaigns := listCoalitionCampaigns (Some (co_id coalition)) None None d in
      Ok {| view_summary := summarize coalition viewerId d;
            view_members := members;
            view_hiddenMemberCount := Z.of_nat (length allMembers) - Z.of_nat (length members);
            view_campaigns := visibleCampaigns (co_id coalition) viewerIsMember d;
            view_stats := summarizeCoalitionImpact
              (map (fun c => (cp_type c, cp_status c, cp_raisedCents c)) allCampaigns)
              (Z.of_nat (length allMembers));
            view_membership := membership;
            view_request := match request with
                            | Some r => if bool_decide (jr_status r = req_pending)
                                           || bool_decide (jr_status r = req_invited)
                                        then Some r else None
                            | None => None
                            end;
            view_permissions := match truthy viewerId with
                                | Some v => permissionsFor (co_id coalition) v d
                                | None => []
                                end |}
  end.
End lookups.

Section lifecycle.
Context `{Env}.

(** ** Coalition lifecycle *)

Record CreateCoalitionInput := {
  cc_name : string;
  cc_mission : string;
  cc_bannerUrl : option string;
  cc_joinMode : CoalitionJoinMode;
  cc_minTierToJoin : option CoalitionTierGate;
  cc_joinRequirements : option JoinRequirementsInput;
  cc_createdBy : string;
}.

Definition createCoalition (input : CreateCoalitionInput) :
    H (CoalitionRecord * CoalitionMembershipRecord * (bool * option string)) :=
  let! id := newCoalitionId in
  let! slug := gets (uniqueSlug (cc_name input) None) in
  let! coalition := update (upsertCoalition
    (mk_co id slug (cc_name input) (cc_mission input) (truthy (cc_bannerUrl input))
       (cc_joinMode input) (cc_minTierToJoin input)
       (normalizeJoinRequirements (cc_joinRequirements input))
       None None (cc_createdBy input) None None None None None 0 0)) in
  let! mid := newCoalitionMembershipId in
  let! membership := update (upsertCoalitionMembership
    (mk_mb mid id (cc_createdBy input) founder true 0 0)) in
  let! space := await (provisionCoalitionSpace coalition) in
  let! coalition :=
    (match so_ok space, truthy (so_roomId space) with
     | true, Some room => update (upsertCoalition (with_co_spaceRoomId (Some room) coalition))
     | _, _ => mret coalition
     end) in
  let! _ := emitDomainEvent (ev_created id (cc_createdBy input) (cc_joinMode input)) in
  mret (coalition, membership, (so_ok space, truthy (so_detail space))).

(** [undefined] is [None]; [null] is [Some None]. *)
Record UpdateCoalitionInput := {
  up_name : option string;
  up_mission : option string;
  up_bannerUrl : option (option string);
  up_joinMode : option CoalitionJoinMode;
  up_minTierToJoin : option (option CoalitionTierGate);
  up_joinRequirements : option (option JoinRequirementsInput);
  up_externalReplyPolicy : option (option ExternalReplyPolicy);
}.

(** [if (patch.f !== undefined) next = ...] *)
Definition patch {A B} (o : option A) (f : A -> B -> B) (b : B) : B :=
  match o with Some a => f a b | None => b end.

(** The edited row, before it is saved. *)
Definition patched (p : UpdateCoalitionInput) (coalition : CoalitionRecord) (d : db) :
    CoalitionRecord :=
  patch (up_joinRequirements p) (fun v => with_co_joinRequirements (normalizeJoinRequirements v))
  (patch (up_externalReplyPolicy p) with_co_externalReplyPolicy
  (patch (up_minTierToJoin p) with_co_minTierToJoin
  (patch (up_joinMode p) with_co_joinMode
  (patch (up_bannerUrl p) with_co_bannerUrl
  (patch (up_mission p) with_co_mission
  (patch (up_name p) (fun n r =>
     with_co_slug (uniqueSlug n (Some (co_id coalition)) d) (with_co_name n r)) coalition)))))).

Definition updateCoalition (idOrSlug actorId : string) (p : UpdateCoalitionInput) :
    H (CoalitionResult CoalitionRecord) :=
  with_coalition idOrSlug (fun coalition =>
  unless_stopped coalition (
  with_permission coalition actorId coalition_edit (fun _ =>
  let! next := gets (patched p coalition) in
  let! saved := update (upsertCoalition next) in
  let! _ :=
    (if bool_decide (truthy (co_spaceRoomId saved) <> None)
        && (bool_decide (up_joinMode p <> None) || bool_decide (up_name p <> None))
     then let! _ := await (syncCoalitionSpaceSettings saved) in mret tt
     else mret tt) in
  succeed saved))).

Definition withdrawCoalitionListings (coalitionId : string) : H unit :=
  let! rows := gets (listCoalitionCampaigns (Some coalitionId) None None) in
  for_each (fun campaign =>
    match truthy (cp_fbmListingId campaign) with
    | Some _ => await (archiveDriveListing campaign)
    | None => mret tt
    end) rows.

Definition takeDownCoalition (idOrSlug adminUserId reason : string) :
    H (CoalitionResult CoalitionRecord) :=
  with_coalition idOrSlug (fun coalition =>
  if bool_decide (co_takenDownAt coalition <> None) then succeed coalition
  else
    let! now := NOW in
    let! saved := update (upsertCoalition
      (with_co_reinstatedAt None (with_co_takedownReason (Some reason)
         (with_co_takenDownBy (Some adminUserId) (with_co_takenDownAt (Some now) coalition))))) in
    let! _ := await (closeCoalitionSpace saved) in
    spawn (pushCoalitionStatus (co_id saved) "taken_down") ;;;
    spawn (withdrawCoalitionListings (co_id saved)) ;;;
    emitDomainEvent (ev_taken_down (co_id coalition) adminUserId reason) ;;;
    succeed saved).

Definition reinstateCoalition (idOrSlug adminUserId : string) :
    H (CoalitionResult CoalitionRecord) :=
  with_coalition idOrSlug (fun coalition =>
  if negb (bool_decide (co_takenDownAt coalition <> None)) then succeed coalition
  else
    let! now := NOW in
    let! saved := update (upsertCoalition
      (with_co_reinstatedAt (Some now) (with_co_takedownReason None
         (with_co_takenDownAt None coalition)))) in
    spawn (pushCoalitionStatus (co_id saved) "active") ;;;
    emitDomainEvent (ev_reinstated (co_id coalition) adminUserId) ;;;
    succeed saved).

Definition archiveCoalition (idOrSlug actorId : string) : H (CoalitionResult CoalitionRecord) :=
  with_coalition idOrSlug (fun coalition =>
  with_permission coalition actorId coalition_archive (fun _ =>
  if isStopped coalition then succeed coalition
  else
    let! now := NOW in
    let! saved := update (upsertCoalition (with_co_archivedAt (Some now) coalition)) in
    spawn (withdrawCoalitionListings (co_id saved)) ;;;
    emitDomainEvent (ev_archived (co_id coalition)) ;;;
    succeed saved)).

(** ** Membership *)

(** [existing?.id ?? new()] *)
Definition id_or {A} (existing : option A) (id : A -> string) (new : H string) : H string :=
  match existing with Some e => mret (id e) | None => new end.

Definition admitMember (coalition : CoalitionRecord) (userId : string) (role : CoalitionRole)
    (via : JoinVia) : H CoalitionMembershipRecord :=
  let! existing := gets (getCoalitionMembership (co_id coalition) userId) in
  let! id := id_or existing mb_id newCoalitionMembershipId in
  let! membership := update (upsertCoalitionMembership
    (mk_mb id (co_id coalition) userId
       (match existing with
        | Some e => if mb_active e then mb_role e else role
        | None => role
        end) true 0 0)) in
  let! _ := await (syncCoalitionMemberToSpace coalition userId (mb_role membership)) in
  emitDomainEvent (ev_member_joined (co_id coalition) userId (mb_role membership) via) ;;;
  mret membership.

Inductive JoinOutcome :=
  | joined (m : CoalitionMembershipRecord)
  | not_joined (r : CoalitionJoinRequestRecord) (unmet : list CoalitionJoinRequirementCheck)
      (reason : option string).

Definition requestJoin (idOrSlug userId : string) (message : option string) :
    H (CoalitionResult JoinOutcome) :=
  with_coalition idOrSlug (fun coalition =>
  unless_stopped coalition (
  let! current := gets (activeMembership (co_id coalition) userId) in
  if bool_decide (current <> None) then fail already_member
  else
    let! existing := gets (getCoalitionJoinRequest (co_id coalition) userId) in
    match (match existing with
           | Some e => if bool_decide (jr_status e = req_invited) then Some e else None
           | None => None
           end) with
    | Some invited =>
        let! now := NOW in
        let! _ := update (upsertCoalitionJoinRequest
          (with_jr_reviewedAt (Some now) (with_jr_reviewedBy
             (match jr_invitedBy invited with Some i => Some i | None => jr_reviewedBy invited end)
             (with_jr_status req_approved invited)))) in
        let! membership := await (admitMember coalition userId member via_invited) in
        succeed (joined membership)
    | None =>
        let! now := NOW in
        let! evaluation := await (evaluateJoinRequirements coalition userId now) in
        if bool_decide (co_joinMode coalition = join_open) && ev_clear evaluation then
          let! membership := await (admitMember coalition userId member via_open) in
          succeed (joined membership)
        else
          let! id := id_or existing jr_id newJoinRequestId in
          let! request := update (upsertCoalitionJoinRequest
            (mk_jr id (co_id coalition) userId (truthy message) req_pending None None None 0 0)) in
          emitDomainEvent (ev_join_requested (co_id coalition) userId
            (map chk_key (ev_unmet evaluation))) ;;;
          succeed (not_joined request (ev_unmet evaluation) (describeUnmet (ev_unmet evaluation)))
    end)).

Definition listJoinRequests (idOrSlug actorId : string) :
    H (CoalitionResult (list CoalitionJoinRequestRecord)) :=
  with_coalition idOrSlug (fun coalition =>
  with_permission coalition actorId members_approve (fun _ =>
  let! rows := gets (listCoalitionJoinRequests (Some (co_id coalition)) None (Some req_pending)) in
  succeed (js_sort (fun a b => bool_decide (jr_createdAt a <= jr_createdAt b)%Z) rows))).

Definition reviewJoinRequest (idOrSlug actorId userId : string) (approve : bool) :
    H (CoalitionResult (CoalitionJoinRequestRecord * option CoalitionMembershipRecord)) :=
  with_coalition idOrSlug (fun coalition =>
  unless_stopped coalition (
  with_permission coalition actorId members_approve (fun _ =>
  let! found := gets (getCoalitionJoinRequest (co_id coalition) userId) in
  match found with
  | None => fail not_found
  | Some request =>
      if negb (bool_decide (jr_status request = req_pending)) then fail not_found
      else
        let! now := NOW in
        let! reviewed := update (upsertCoalitionJoinRequest
          (with_jr_reviewedAt (Some now) (with_jr_reviewedBy (Some actorId)
             (with_jr_status (if approve then req_approved else req_declined) request)))) in
        emitDomainEvent (ev_join_reviewed (co_id coalition) userId approve actorId) ;;;
        (if negb approve then succeed (reviewed, None)
         else
           let! membership := await (admitMember coalition userId member via_approved) in
           succeed (reviewed, Some membership))
  end))).

Definition withdrawJoinRequest (idOrSlug userId : string) :
    H (CoalitionResult CoalitionJoinRequestRecord) :=
  with_coalition idOrSlug (fun coalition =>
  let! found := gets (getCoalitionJoinRequest (co_id coalition) userId) in
  match found with
  | None => fail not_found
  | Some request =>
      if negb (bool_decide (jr_status request = req_pending))
         && negb (bool_decide (jr_status request = req_invited)) then fail not_found
      else
        let! saved := update (upsertCoalitionJoinRequest (with_jr_status req_withdrawn request)) in
        succeed saved
  end).

Definition inviteMember (idOrSlug actorId userId : string) :
    H (CoalitionResult CoalitionJoinRequestRecord) :=
  with_coalition idOrSlug (fun coalition =>
  unless_stopped coalition (
  with_permission coalition actorId members_invite (fun _ =>
  let! current := gets (activeMembership (co_id coalition) userId) in
  if bool_decide (current <> None) then fail already_member
  else
    let! existing := gets (getCoalitionJoinRequest (co_id coalition) userId) in
    let! id := id_or existing jr_id newJoinRequestId in
    let! request := update (upsertCoalitionJoinRequest
      (mk_jr id (co_id coalition) userId None req_invited (Some actorId) None None 0 0)) in
    emitDomainEvent (ev_member_invited (co_id coalition) userId actorId) ;;;
    succeed request))).

Definition listInvitesFor (userId : string) (d : db) :
    list (CoalitionJoinRequestRecord * CoalitionRecord) :=
  flat_map (fun r =>
    match db_getCoalition (jr_coalitionId r) d with
    | Some c => if isStopped c then [] else [(r, c)]
    | None => []
    end) (listCoalitionJoinRequests None (Some userId) (Some req_invited) d).

Definition revokeMemberLinks (coalitionId : string) (platform : option CoalitionPlatform)
    (userId : option string) (now : Z) : H Z :=
  let! listed := gets (listCoalitionMemberConnections (Some coalitionId) userId) in
  let rows := List.filter (fun r => bool_decide (mc_revokedAt r = None)
    && match platform with Some p => bool_decide (mc_platform r = p) | None => true end) listed in
  for_each (fun row =>
    let! _ := update (upsertCoalitionMemberConnection
      (with_mc_revokedAt (Some now) (with_mc_credentialRef None row))) in
    mret tt) rows ;;;
  mret (Z.of_nat (length rows)).

Definition leaveCoalition (idOrSlug userId : string) :
    H (CoalitionResult CoalitionMembershipRecord) :=
  with_coalition idOrSlug (fun coalition =>
  let! found := gets (activeMembership (co_id coalition) userId) in
  match found with
  | None => fail not_member
  | Some membership =>
      if bool_decide (mb_role membership = founder) then fail last_founder
      else
        let! saved := update (upsertCoalitionMembership (with_mb_active false membership)) in
        let! _ := await (removeCoalitionMemberFromSpace coalition userId
          ("Left " +:+ co_name coalition)) in
        let! now := NOW in
        let! _ := revokeMemberLinks (co_id coalition) None (Some userId) now in
        emitDomainEvent (ev_member_left (co_id coalition) userId left_left) ;;;
        succeed saved
  end).

Definition removeMember (idOrSlug actorId userId : string) :
    H (CoalitionResult CoalitionMembershipRecord) :=
  with_coalition idOrSlug (fun coalition =>
  with_permission coalition actorId members_remove (fun actor =>
  if bool_decide (actorId = userId) then fail (forbidden (Some members_remove))
  else
    let! found := gets (activeMembership (co_id coalition) userId) in
    match found with
    | None => fail not_member
    | Some target =>
        if bool_decide (ROLE_RANK (mb_role actor) <= ROLE_RANK (mb_role target))%Z
        then fail (forbidden (Some members_remove))
        else
          let! saved := update (upsertCoalitionMembership (with_mb_active false target)) in
          let! _ := await (removeCoalitionMemberFromSpace coalition userId
            ("Removed from " +:+ co_name coalition)) in
          let! now := NOW in
          let! _ := revokeMemberLinks (co_id coalition) None (Some userId) now in
          emitDomainEvent (ev_member_left (co_id coalition) userId (left_removed actorId)) ;;;
          succeed saved
    end)).

Definition setMemberRole (idOrSlug actorId userId : string) (role : CoalitionRole) :
    H (CoalitionResult CoalitionMembershipRecord) :=
  with_coalition idOrSlug (fun coalition =>
  with_permission coalition actorId members_role (fun actor =>
  let! found := gets (activeMembership (co_id coalition) userId) in
  match found with
  | None => fail not_member
  | Some target =>
      if bool_decide (mb_role target = founder) then fail invalid_role
      else if negb (bool_decide (role ∈ assignableRolesFor (mb_role actor))) then fail invalid_role
      else if bool_decide (ROLE_RANK (mb_role actor) <= ROLE_RANK (mb_role target))%Z
              && negb (bool_decide (mb_role actor = founder))
      then fail (forbidden (Some members_role))
      else
        let! saved := update (upsertCoalitionMembership (with_mb_role role target)) in
        let! _ := await (syncCoalitionRoleToSpace coalition userId role) in
        emitDomainEvent (ev_role_changed (co_id coalition) userId role actorId) ;;;
        succeed saved
  end)).

Definition transferFounderUnchecked (coalition : CoalitionRecord) (userId : string) :
    H (CoalitionResult (CoalitionMembershipRecord * CoalitionMembershipRecord)) :=
  let! found := gets (activeMembership (co_id coalition) userId) in
  match found with
  | None => fail not_member
  | Some target =>
      let! outgoing := gets (fun d => List.find (fun m => bool_decide (mb_role m = founder))
                                        (activeMembers (co_id coalition) d)) in
      let! newFounder := update (upsertCoalitionMembership (with_mb_role founder target)) in
      let! previous :=
        (match outgoing with
         | Some o => update (upsertCoalitionMembership (with_mb_role steward o))
         | None => mret newFounder
         end) in
      let! _ := await (syncCoalitionRoleToSpace coalition userId founder) in
      let! _ :=
        (match outgoing with
         | Some o => let! _ := await (syncCoalitionRoleToSpace coalition (mb_userId o) steward) in
                     mret tt
         | None => mret tt
         end) in
      emitDomainEvent (ev_founder_transferred (co_id coalition) (mb_userId <$> outgoing) userId) ;;;
      succeed (newFounder, previous)
  end.

Definition transferFounder (idOrSlug actorId userId : string) :
    H (CoalitionResult (CoalitionMembershipRecord * CoalitionMembershipRecord)) :=
  with_coalition idOrSlug (fun coalition =>
  let! actor := gets (activeMembership (co_id coalition) actorId) in
  match actor with
  | None => fail not_member
  | Some actor =>
      if negb (bool_decide (mb_role actor = founder)) then fail (forbidden (Some coalition_archive))
      else
        let! target := gets (activeMembership (co_id coalition) userId) in
        match target with
        | None => fail not_member
        | Some target =>
            if bool_decide (mb_userId target = actorId) then fail not_member
            else transferFounderUnchecked coalition userId
        end
  end).
End lifecycle.

Section campaigns.
Context `{Env}.

(** ** Campaigns *)

Record CampaignBounty := {
  cb_rewardType : string;
  cb_rewardSummary : string;
  cb_rewardAmountCents : option Z;
  cb_requirements : option (list string);
  cb_deliverables : option (list string);
}.

Record CreateCampaignInput := {
  ci_type : CampaignType;
  ci_title : string;
  ci_description : string;
  ci_goalCents : option Z;
  ci_goalUnits : option Z;
  ci_startsAt : option string;
  ci_endsAt : option string;
  ci_requiresStewardApproval : option bool;
  ci_projectId : option string;
  ci_bountyId : option string;
  ci_aidPostId : option string;
  ci_fbmListingId : option string;
  ci_fbmOrderCycleId : option string;
  ci_bounty : option CampaignBounty;
}.

Definition createCampaign (idOrSlug actorId : string) (input : CreateCampaignInput) :
    H (CoalitionResult CoalitionCampaignRecord) :=
  with_coalition idOrSlug (fun coalition =>
  unless_stopped coalition (
  let! found := gets (activeMembership (co_id coalition) actorId) in
  match found with
  | None => fail not_member
  | Some membership =>
      let canLaunch := coalitionRoleCan (mb_role membership) campaigns_launch in
      let requiresStewardApproval :=
        if canLaunch then bool_decide (ci_requiresStewardApproval input = Some true) else true in
      let status := if requiresStewardApproval then st_pending_approval else st_active in
      let! id := newCampaignId in
      let! campaign := update (upsertCoalitionCampaign
        (mk_cp id (co_id coalition) (ci_type input) (ci_title input) (ci_description input)
           (ci_goalCents input) (ci_goalUnits input) 0 0 status requiresStewardApproval
           (Some actorId) (if bool_decide (status = st_active) then Some actorId else None)
           (truthy (ci_startsAt input)) (truthy (ci_endsAt input)) None
           (truthy (ci_projectId input)) (truthy (ci_bountyId input))
           (truthy (ci_aidPostId input)) None (truthy (ci_fbmListingId input))
           (truthy (ci_fbmOrderCycleId input)) 0 0)) in
      let! withBounty :=
        (match ci_bounty input with
         | Some b =>
             if bool_decide (ci_type input = type_project) || bool_decide (ci_type input = type_drive)
             then
               let! bid := newBountyId in
               let! bounty := update (createBounty bid "coalition" (ci_title input)
                 (ci_description input) actorId (cb_rewardType b) (cb_rewardSummary b)
                 (cb_rewardAmountCents b) (cb_requirements b) (cb_deliverables b)
                 (Some (co_id coalition))) in
               update (upsertCoalitionCampaign (with_cp_bountyId (Some (bt_id bounty)) campaign))
             else mret campaign
         | None => mret campaign
         end) in
      emitDomainEvent (ev_campaign_created (co_id coalition) (cp_id campaign) (cp_type campaign)
        status (cp_bountyId withBounty)) ;;;
      (if bool_decide (status = st_active) then
         spawn (openWindowForGoodsDrive withBounty) ;;; spawn (ensureDriveListing withBounty)
       else mret tt) ;;;
      succeed withBounty
  end)).

Definition getCampaign (idOrSlug campaignId : string) (viewerId : option string) :
    H (CoalitionResult CoalitionCampaignRecord) :=
  with_coalition idOrSlug (fun coalition =>
  with_campaign coalition campaignId (fun campaign =>
  let! viewer := gets (viewer_membership (co_id coalition) viewerId) in
  if bool_decide (viewer = None) && negb (publicStatus (cp_status campaign)) then fail not_found
  else succeed campaign)).

Definition approveCampaign (idOrSlug actorId campaignId : string) :
    H (CoalitionResult CoalitionCampaignRecord) :=
  with_coalition idOrSlug (fun coalition =>
  with_permission coalition actorId campaigns_approve (fun _ =>
  with_campaign coalition campaignId (fun campaign =>
  if negb (canTransitionCampaign (cp_status campaign) st_active)
  then fail (invalid_transition (cp_status campaign) st_active)
  else
    let! saved := update (upsertCoalitionCampaign
      (with_cp_approvedBy (Some actorId) (with_cp_status st_active campaign))) in
    spawn (openWindowForGoodsDrive saved) ;;;
    spawn (ensureDriveListing saved) ;;;
    emitDomainEvent (ev_campaign_status (co_id coalition) campaignId st_active actorId) ;;;
    succeed saved))).

Definition completionEventFor (t : CampaignType) : option CoalitionReputationEvent :=
  match t with
  | type_drive | type_goods_drive => Some drive_completed
  | type_project => Some project_delivered
  | type_mutual_aid => Some mutual_aid_fulfilled
  | type_boost => None
  end.

(** [{ ...campaign, status: to, approvedBy?, completedAt? }] *)
Definition moved (to : CampaignStatus) (actorId : string) (now : Z)
    (campaign : CoalitionCampaignRecord) : CoalitionCampaignRecord :=
  let c := with_cp_status to campaign in
  let c := if bool_decide (to = st_active) then with_cp_approvedBy (Some actorId) c else c in
  if bool_decide (to = st_completed) then with_cp_completedAt (Some now) c else c.

Definition transitionCampaign (idOrSlug actorId campaignId : string) (to : CampaignStatus) :
    H (CoalitionResult CoalitionCampaignRecord) :=
  with_coalition idOrSlug (fun coalition =>
  let! found := gets (activeMembership (co_id coalition) actorId) in
  match found with
  | None => fail not_member
  | Some membership =>
      with_campaign coalition campaignId (fun campaign =>
      let isSteward := coalitionRoleCan (mb_role membership) campaigns_approve in
      if bool_decide (to = st_active) && negb isSteward
      then fail (forbidden (Some campaigns_approve))
      else if negb (bool_decide (cp_createdBy campaign = Some actorId)) && negb isSteward
      then fail (forbidden (Some campaigns_launch))
      else if negb (canTransitionCampaign (cp_status campaign) to)
      then fail (invalid_transition (cp_status campaign) to)
      else
        let! now := NOW in
        let! saved := update (upsertCoalitionCampaign (moved to actorId now campaign)) in
        emitDomainEvent (ev_campaign_status (co_id coalition) campaignId to actorId) ;;;
        spawn_if (bool_decide (to = st_active) && bool_decide (cp_type saved = type_goods_drive))
          (openWindowForGoodsDrive saved) ;;;
        spawn_if (bool_decide (to = st_active)) (ensureDriveListing saved) ;;;
        spawn_if (bool_decide (to = st_completed) || bool_decide (to = st_cancelled))
          (archiveDriveListing saved) ;;;
        (if bool_decide (to = st_completed) then
           let! captured := gets (campaignHasCapturedContributions (cp_id campaign)
             (cp_createdBy campaign)) in
           (match completionEventFor (cp_type campaign) with
            | Some eventType =>
                spawn_if captured (awardCoalitionKarma eventType
                  (default "" (cp_createdBy campaign)) (co_id coalition) (cp_id campaign))
            | None => mret tt
            end) ;;;
           spawn (pushCoalitionMilestones (co_id coalition))
         else mret tt) ;;;
        succeed saved)
  end).

(** ** Boosts *)

Definition campaignBoostMeter (campaignId : string) (now : Z) (d : db) : BoostMeter :=
  computeBoostMeter (map (fun b => (bo_userId b, bo_day b))
    (listCoalitionBoosts (Some campaignId) None None None d)) now.

Definition boostCampaign (idOrSlug actorId campaignId : string) (now : Z) :
    H (CoalitionResult (BoostMeter * Z)) :=
  with_coalition idOrSlug (fun coalition =>
  unless_stopped coalition (
  with_campaign coalition campaignId (fun campaign =>
  if negb (bool_decide (cp_status campaign = st_active)) then fail campaign_inactive
  else
    let day := utcDayOf now in
    let allowance := boostDailyAllowance in
    let! spent := gets (listCoalitionBoosts None None (Some actorId) (Some day)) in
    let spentToday := Z.of_nat (length spent) in
    let! mine := gets (listCoalitionBoosts (Some campaignId) None (Some actorId) (Some day)) in
    if bool_decide (0 < length mine) then fail already_boosted
    else if bool_decide (boostAllowanceRemaining spentToday allowance <= 0)%Z
    then fail (boost_allowance_exhausted allowance)
    else
      let! id := newBoostId in
      let! _ := update (upsertCoalitionBoost
        (mk_bo id campaignId (co_id coalition) actorId day 0 0)) in
      let! _ := relaySubject (fun _ _ _ => None)
        {| rl_relayerUserId := actorId; rl_subjectSource := coalition_campaign;
           rl_subjectId := campaignId; rl_viaRelayId := None; rl_note := None |} in
      let! meter := gets (campaignBoostMeter campaignId now) in
      emitDomainEvent (ev_campaign_boosted (co_id coalition) campaignId actorId
        (meter_total meter)) ;;;
      succeed (meter, boostAllowanceRemaining (spentToday + 1) allowance)))).

(** ** Mutual aid *)

Definition raiseAidPost (idOrSlug actorId aidPostId : string) :
    H (CoalitionResult CoalitionCampaignRecord) :=
  with_coalition idOrSlug (fun coalition =>
  unless_stopped coalition (
  let! found := gets (activeMembership (co_id coalition) actorId) in
  if bool_decide (found = None) then fail not_member
  else
    let! post := gets (fun d => List.find (fun r => bool_decide (ap_id r = aidPostId))
                                  (listCoalitionAidPosts d)) in
    match post with
    | None => fail not_found
    | Some post =>
        let! beneficiary := gets (resolveBlackoutUserId (ap_customerId post)) in
        let! existing := gets (fun d =>
          List.find (fun r => bool_decide (cp_aidPostId r = Some aidPostId))
            (listCoalitionCampaigns (Some (co_id coalition)) None (Some type_mutual_aid) d)) in
        match existing with
        | Some e => succeed e
        | None =>
            let! id := newCampaignId in
            let! campaign := update (upsertCoalitionCampaign
              (mk_cp id (co_id coalition) type_mutual_aid (ap_title post) (ap_description post)
                 None None 0 0 st_active false (Some actorId) (Some actorId) None None None None
                 None (Some aidPostId) (truthy beneficiary) None None 0 0)) in
            emitDomainEvent (ev_aid_raised (co_id coalition) (cp_id campaign) aidPostId actorId) ;;;
            succeed campaign
        end
    end)).

Record AmplifiedAidView := {
  aa_campaign : CoalitionCampaignRecord;
  aa_aidPostId : string;
  aa_boost : BoostMeter;
}.

(** Highest multiplier first, then the day's boosts, then the newest. *)
Definition amplified_order (a b : AmplifiedAidView) : bool :=
  if Qeq_bool (visibilityMultiplier (aa_boost b)) (visibilityMultiplier (aa_boost a)) then
    if bool_decide (last24h (aa_boost b) = last24h (aa_boost a))
    then bool_decide (cp_createdAt (aa_campaign b) <= cp_createdAt (aa_campaign a))%Z
    else bool_decide (last24h (aa_boost b) <= last24h (aa_boost a))%Z
  else Qle_bool (visibilityMultiplier (aa_boost b)) (visibilityMultiplier (aa_boost a)).

Definition listAmplifiedAid (idOrSlug : string) (now : Z) :
    H (CoalitionResult (list AmplifiedAidView)) :=
  with_coalition idOrSlug (fun coalition =>
  let! rows := gets (fun d =>
    flat_map (fun c =>
      match cp_status c, truthy (cp_aidPostId c) with
      | st_active, Some a =>
          [{| aa_campaign := c; aa_aidPostId := a; aa_boost := campaignBoostMeter (cp_id c) now d |}]
      | _, _ => []
      end) (listCoalitionCampaigns (Some (co_id coalition)) None (Some type_mutual_aid) d)) in
  succeed (js_sort amplified_order rows)).

(** ** Succession *)

Definition eligibleSeconders (coalitionId candidateUserId : string) (d : db) : list string :=
  map mb_userId (List.filter (fun m => bool_decide (mb_role m = steward)
      && negb (bool_decide (mb_userId m = candidateUserId))) (activeMembers coalitionId d)).

Definition openSuccessionPetition (idOrSlug actorId reason : string) :
    H (CoalitionResult CoalitionSuccessionPetitionRecord) :=
  with_coalition idOrSlug (fun coalition =>
  unless_stopped coalition (
  with_permission coalition actorId coalition_succeed (fun _ =>
  let! current := gets (getOpenCoalitionSuccessionPetition (co_id coalition)) in
  if bool_decide (current <> None) then fail petition_open
  else
    let! id := newPetitionId in
    let! petition := update (upsertCoalitionSuccessionPetition
      (mk_pe id (co_id coalition) actorId actorId reason [] suc_open None None 0 0)) in
    emitDomainEvent (ev_succession_opened (co_id coalition) (pe_id petition) actorId) ;;;
    succeed petition))).

Definition secondSuccessionPetition (idOrSlug actorId : string) :
    H (CoalitionResult CoalitionSuccessionPetitionRecord) :=
  with_coalition idOrSlug (fun coalition =>
  unless_stopped coalition (
  with_permission coalition actorId coalition_succeed (fun _ =>
  let! found := gets (getOpenCoalitionSuccessionPetition (co_id coalition)) in
  match found with
  | None => fail petition_not_found
  | Some petition =>
      if bool_decide (pe_candidateUserId petition = actorId)
      then fail (forbidden (Some coalition_succeed))
      else
        let secondedBy := if bool_decide (actorId ∈ pe_secondedBy petition)
                          then pe_secondedBy petition else pe_secondedBy petition ++ [actorId] in
        let! eligible := gets (fun d => Z.of_nat (length
          (eligibleSeconders (co_id coalition) (pe_candidateUserId petition) d))) in
        if negb (successionQuorumMet secondedBy eligible) then
          let! saved := update (upsertCoalitionSuccessionPetition
            (with_pe_secondedBy secondedBy petition)) in
          succeed saved
        else
          let! transferred := await (transferFounderUnchecked coalition
            (pe_candidateUserId petition)) in
          let? _ := transferred in
          let! now := NOW in
          let! saved := update (upsertCoalitionSuccessionPetition
            (with_pe_resolvedAt (Some now) (with_pe_resolvedBy (Some actorId)
               (with_pe_status suc_approved (with_pe_secondedBy secondedBy petition))))) in
          emitDomainEvent (ev_succession_approved (co_id coalition) (pe_id saved)
            (pe_candidateUserId petition) (Z.of_nat (length secondedBy))) ;;;
          succeed saved
  end))).

Definition withdrawSuccessionPetition (idOrSlug actorId : string) :
    H (CoalitionResult CoalitionSuccessionPetitionRecord) :=
  with_coalition idOrSlug (fun coalition =>
  let! found := gets (getOpenCoalitionSuccessionPetition (co_id coalition)) in
  match found with
  | None => fail petition_not_found
  | Some petition =>
      if negb (bool_decide (pe_candidateUserId petition = actorId))
      then fail (forbidden (Some coalition_succeed))
      else
        let! now := NOW in
        let! saved := update (upsertCoalitionSuccessionPetition
          (with_pe_resolvedAt (Some now) (with_pe_resolvedBy (Some actorId)
             (with_pe_status suc_withdrawn petition)))) in
        succeed saved
  end).

Definition getSuccessionPetition (idOrSlug : string) :
    H (CoalitionResult (option CoalitionSuccessionPetitionRecord * Z)) :=
  with_coalition idOrSlug (fun coalition =>
  let! petition := gets (getOpenCoalitionSuccessionPetition (co_id coalition)) in
  let! eligible := gets (eligibleSeconders (co_id coalition)
    (match petition with Some p => pe_candidateUserId p | None => "" end)) in
  succeed (petition, successionQuorum (Z.of_nat (length eligible)))).

(** ** Payees *)

Record PayeeInput := { pi_userId : string; pi_shareBps : jsnum; pi_role : string }.

(** The loop over [payees]: the entries resolved so far, or the first failure. *)
Fixpoint resolve_payees (coalition : CoalitionRecord) (campaign : CoalitionCampaignRecord)
    (resolved todo : list PayeeInput) (d : db) : CoalitionResult (list PayeeInput) :=
  match todo with
  | [] => Ok resolved
  | entry :: todo =>
      match truthy (resolveBlackoutUserId (pi_userId entry) d) with
      | None => Err (payees_invalid "unknown_user")
      | Some userId =>
          if bool_decide (activeMembership (co_id coalition) userId d = None)
             && negb (bool_decide (cp_beneficiaryUserId campaign = Some userId))
          then Err (payees_invalid "not_a_member")
          else if bool_decide (userId ∈ map pi_userId resolved)
          then Err (payees_invalid "duplicate")
          else resolve_payees coalition campaign
            (resolved ++ [{| pi_userId := userId; pi_shareBps := pi_shareBps entry;
                             pi_role := pi_role entry |}]) todo d
      end
  end.

Definition setCampaignPayees (idOrSlug actorId campaignId : string) (payees : list PayeeInput) :
    H (CoalitionResult (list CoalitionCampaignPayeeRecord)) :=
  with_coalition idOrSlug (fun coalition =>
  unless_stopped coalition (
  with_permission coalition actorId campaigns_launch (fun _ =>
  with_campaign coalition campaignId (fun campaign =>
  let! result := gets (resolve_payees coalition campaign [] payees) in
  let? resolved := result in
  if negb (campaignPayeeSharesAreValid (map (fun r => (pi_shareBps r, true)) resolved))
  then fail (payees_invalid "shares_must_total_100")
  else
    let named := map pi_userId resolved in
    let! rows := gets (listCoalitionCampaignPayees (Some (cp_id campaign)) None None) in
    for_each (fun existing =>
      if negb (bool_decide (py_userId existing ∈ named)) && py_active existing
      then let! _ := update (upsertCoalitionCampaignPayee (with_py_active false existing)) in mret tt
      else mret tt) rows ;;;
    let! saved := map_each (fun entry =>
      let! id := newPayeeId in
      update (upsertCoalitionCampaignPayee
        (mk_py id (cp_id campaign) (co_id coalition) (pi_userId entry)
           (default 0%Z (as_integer (pi_shareBps entry))) (pi_role entry) true 0 0))) resolved in
    emitDomainEvent (ev_payees_set (co_id coalition) (cp_id campaign)
      (Z.of_nat (length saved)) actorId) ;;;
    succeed saved)))).

Definition listCampaignPayees (campaignId : string) (d : db) : list CoalitionCampaignPayeeRecord :=
  List.filter py_active (listCoalitionCampaignPayees (Some campaignId) None None d).
End campaigns.
