(* ===== verification/Spec.v ===== *)
(** * The abstract behaviour of the coalitions network

    What the store may look like ([inv]) and how it may move ([astep]): one rule per
    kind of change, each with the conditions under which the service is allowed to
    make it.  [astep_inv] shows that the rules keep the invariant, so a handler
    that only makes such moves does too, in any interleaving. *)

From S2P Require Import Prelude JsMap Async CoalitionDomain Money Records Store.
From S2P Require Import Drives Relay Slug Network.

(** ** Keys *)

Definition colon_free (s : string) : Prop := forall c, c ∈ chars s -> c <> ":"%char.

Section spec.
Context `{Env}.

(** [id] came from the first [n] draws. *)
Definition drawn (prefix : string) (n : nat) (id : string) : Prop :=
  exists k, k < n /\ id = prefix +:+ draw k.

(** ** What the tables look like *)

Definition exists_in {V} (k : string) (t : jsmap V) : Prop := exists v, get k t = Some v.

Definition ok_coalitions (n : nat) (co : jsmap CoalitionRecord) : Prop :=
  keyed co /\ forall c, In c (values co) -> drawn "coa_" n (co_id c).

(** An active founder of coalition [c]. *)
Definition founds (c : string) (m : CoalitionMembershipRecord) : bool :=
  bool_decide (mb_coalitionId m = c) && mb_active m && bool_decide (mb_role m = founder).

Definition ok_memberships (co : jsmap CoalitionRecord) (mb : jsmap CoalitionMembershipRecord) : Prop :=
  keyed mb /\
  (forall m, In m (values mb) -> exists_in (mb_coalitionId m) co) /\
  (forall c, count_by (founds c) (values mb) <= 1)%Z.

Definition ok_requests (co : jsmap CoalitionRecord) (jr : jsmap CoalitionJoinRequestRecord) : Prop :=
  keyed jr /\ forall r, In r (values jr) -> exists_in (jr_coalitionId r) co.

(** The contributions to a campaign. *)
Definition given_to (c : string) (ct : jsmap CoalitionCampaignContributionRecord) :
    list CoalitionCampaignContributionRecord :=
  List.filter (fun t => bool_decide (ct_campaignId t = c)) (values ct).

(** A campaign's counters tell what the contribution rows say. *)
Definition balanced (ct : jsmap CoalitionCampaignContributionRecord)
    (c : CoalitionCampaignRecord) : Prop :=
  cp_raisedCents c = sum_by ct_amountCents (given_to (cp_id c) ct) /\
  cp_contributorCount c = distinct (map ct_supporterUserId (given_to (cp_id c) ct)).

Definition ok_campaigns (n : nat) (co : jsmap CoalitionRecord)
    (cp : jsmap CoalitionCampaignRecord) (ct : jsmap CoalitionCampaignContributionRecord) : Prop :=
  keyed cp /\ keyed ct /\
  (forall c, In c (values cp) -> drawn "camp_" n (cp_id c) /\ exists_in (cp_coalitionId c) co) /\
  (forall t, In t (values ct) -> drawn "coac_" n (ct_id t) /\
     exists c, get (ct_campaignId t) cp = Some c /\ ct_coalitionId t = cp_coalitionId c) /\
  List.NoDup (map ct_tipId (values ct)) /\
  (forall c, In c (values cp) -> balanced ct c).

Definition spent_on (u : string) (day : Z) (b : CoalitionBoostRecord) : bool :=
  bool_decide (bo_userId b = u) && bool_decide (bo_day b = day).

Definition boosts_once (c u : string) (day : Z) (b : CoalitionBoostRecord) : bool :=
  bool_decide (bo_campaignId b = c) && spent_on u day b.

Definition ok_boosts (bo : jsmap CoalitionBoostRecord) : Prop :=
  keyed bo /\
  (forall u day, count_by (spent_on u day) (values bo) <= boostDailyAllowance)%Z /\
  (forall c u day, count_by (boosts_once c u day) (values bo) <= 1)%Z.

(** The payees of a campaign that money currently goes to. *)
Definition paid (c : string) (py : jsmap CoalitionCampaignPayeeRecord) :
    list CoalitionCampaignPayeeRecord :=
  List.filter (fun r => bool_decide (py_campaignId r = c) && py_active r) (values py).

Definition shares_whole (rows : list CoalitionCampaignPayeeRecord) : Prop :=
  rows = [] \/
  (sum_by py_shareBps rows = CAMPAIGN_PAYEE_BPS_DENOMINATOR /\
   forall r, In r rows -> (0 <= py_shareBps r)%Z).

Definition ok_payees (cp : jsmap CoalitionCampaignRecord)
    (py : jsmap CoalitionCampaignPayeeRecord) : Prop :=
  keyed py /\ (forall r, In r (values py) -> exists_in (py_campaignId r) cp) /\
  (forall c, shares_whole (paid c py)).

Definition open_for (c : string) (p : CoalitionSuccessionPetitionRecord) : bool :=
  bool_decide (pe_coalitionId p = c) && bool_decide (pe_status p = suc_open).

Definition fair_backing (p : CoalitionSuccessionPetitionRecord) : Prop :=
  NoDup (pe_secondedBy p) /\ pe_candidateUserId p ∉ pe_secondedBy p.

Definition ok_petitions (n : nat) (co : jsmap CoalitionRecord)
    (pe : jsmap CoalitionSuccessionPetitionRecord) : Prop :=
  keyed pe /\
  (forall p, In p (values pe) -> drawn "csuc_" n (pe_id p) /\ exists_in (pe_coalitionId p) co) /\
  (forall c, count_by (open_for c) (values pe) <= 1)%Z /\
  (forall p, In p (values pe) -> fair_backing p).

Record inv (d : db) : Prop := {
  inv_coalitions : ok_coalitions (rng d) (coalitions d);
  inv_memberships : ok_memberships (coalitions d) (memberships d);
  inv_requests : ok_requests (coalitions d) (joinRequests d);
  inv_links : keyed (memberConnections d);
  inv_campaigns : ok_campaigns (rng d) (coalitions d) (campaigns d) (contributions d);
  inv_boosts : ok_boosts (boosts d);
  inv_payees : ok_payees (campaigns d) (payees d);
  inv_petitions : ok_petitions (rng d) (coalitions d) (petitions d);
  inv_relays : relay_inv d;
}.

(** ** How the store may move *)

Inductive co_step (d : db) : jsmap CoalitionRecord -> Prop :=
  | co_new c :
      drawn "coa_" (rng d) (co_id c) -> get (co_id c) (coalitions d) = None ->
      co_step d (upsert (clock d) c (coalitions d))
  | co_edit c old :
      get (co_id c) (coalitions d) = Some old -> co_createdBy c = co_createdBy old ->
      co_step d (upsert (clock d) c (coalitions d)).

(** The seconders of a petition once [actor] has seconded it. *)
Definition seconders_with (actor : string) (p : CoalitionSuccessionPetitionRecord) : list string :=
  if bool_decide (actor ∈ pe_secondedBy p) then pe_secondedBy p else pe_secondedBy p ++ [actor].

(** How [actor] may pass the founder role to [u]: it is theirs to hand over, or they
    complete the backing of an open petition of [u]. *)
Inductive may_succeed (d : db) (actor c u : string) : Prop :=
  | by_founder a :
      activeMembership c actor d = Some a -> mb_role a = founder -> actor <> u ->
      may_succeed d actor c u
  | by_petition p a :
      In p (values (petitions d)) -> open_for c p = true -> pe_candidateUserId p = u -> actor <> u ->
      activeMembership c actor d = Some a -> coalitionRoleCan (mb_role a) coalition_succeed = true ->
      NoDup (seconders_with actor p) -> u ∉ seconders_with actor p ->
      successionQuorumMet (seconders_with actor p) (Z.of_nat (length (eligibleSeconders c u d))) = true ->
      may_succeed d actor c u.

Inductive mb_step (d : db) : jsmap CoalitionMembershipRecord -> Prop :=
  | mb_found c u id co :
      get c (coalitions d) = Some co -> co_createdBy co = u ->
      (forall m, In m (values (memberships d)) -> mb_coalitionId m <> c) ->
      mb_step d (upsert (clock d) (mk_mb id c u founder true 0 0) (memberships d))
  | mb_join c u id role :
      exists_in c (coalitions d) ->
      role = match activeMembership c u d with Some e => mb_role e | None => member end ->
      mb_step d (upsert (clock d) (mk_mb id c u role true 0 0) (memberships d))
  | mb_leave m :
      activeMembership (mb_coalitionId m) (mb_userId m) d = Some m -> mb_role m <> founder ->
      mb_step d (upsert (clock d) (with_mb_active false m) (memberships d))
  | mb_assign m a r :
      activeMembership (mb_coalitionId m) (mb_userId m) d = Some m -> mb_role m <> founder ->
      activeMembership (mb_coalitionId m) (mb_userId a) d = Some a ->
      coalitionRoleCan (mb_role a) members_role = true ->
      r ∈ assignableRolesFor (mb_role a) ->
      (ROLE_RANK (mb_role m) < ROLE_RANK (mb_role a))%Z \/ mb_role a = founder ->
      mb_step d (upsert (clock d) (with_mb_role r m) (memberships d))
  | mb_succeed actor c u target out :
      exists_in c (coalitions d) ->
      activeMembership c u d = Some target ->
      out = List.find (fun m => bool_decide (mb_role m = founder)) (activeMembers c d) ->
      may_succeed d actor c u ->
      mb_step d (let t := upsert (clock d) (with_mb_role founder target) (memberships d) in
                 match out with
                 | Some o => upsert (clock d) (with_mb_role steward o) t
                 | None => t
                 end).

(** The fields of a campaign that no edit of it touches. *)
Definition same_ledger (a b : CoalitionCampaignRecord) : Prop :=
  cp_coalitionId a = cp_coalitionId b /\ cp_type a = cp_type b /\
  cp_createdBy a = cp_createdBy b /\
  cp_raisedCents a = cp_raisedCents b /\ cp_contributorCount a = cp_contributorCount b.

Inductive cp_step (d : db) : jsmap CoalitionCampaignRecord -> Prop :=
  | cp_new c u m :
      drawn "camp_" (rng d) (cp_id c) -> get (cp_id c) (campaigns d) = None ->
      exists_in (cp_coalitionId c) (coalitions d) ->
      cp_raisedCents c = 0%Z -> cp_contributorCount c = 0%Z ->
      cp_createdBy c = Some u -> activeMembership (cp_coalitionId c) u d = Some m ->
      cp_status c = st_pending_approval \/
        (cp_status c = st_active /\
         (coalitionRoleCan (mb_role m) campaigns_launch = true \/ cp_type c = type_mutual_aid)) ->
      cp_step d (upsert (clock d) c (campaigns d))
  | cp_move c old u m :
      get (cp_id c) (campaigns d) = Some old -> same_ledger c old ->
      canTransitionCampaign (cp_status old) (cp_status c) = true ->
      activeMembership (cp_coalitionId c) u d = Some m ->
      (cp_status c = st_active -> coalitionRoleCan (mb_role m) campaigns_approve = true) ->
      cp_createdBy old = Some u \/ coalitionRoleCan (mb_role m) campaigns_approve = true ->
      cp_step d (upsert (clock d) c (campaigns d))
  | cp_decorate c old :
      get (cp_id c) (campaigns d) = Some old -> same_ledger c old ->
      cp_status c = cp_status old ->
      cp_step d (upsert (clock d) c (campaigns d)).

(** A captured contribution: a row for the tip and the campaign's counters. *)
Inductive ct_step (d : db) : jsmap CoalitionCampaignContributionRecord ->
    jsmap CoalitionCampaignRecord -> Prop :=
  | ct_record t c c' :
      drawn "coac_" (rng d) (ct_id t) -> get (ct_id t) (contributions d) = None ->
      get (ct_campaignId t) (campaigns d) = Some c -> ct_coalitionId t = cp_coalitionId c ->
      ~ In (ct_tipId t) (map ct_tipId (values (contributions d))) ->
      cp_id c' = cp_id c -> cp_coalitionId c' = cp_coalitionId c ->
      cp_type c' = cp_type c -> cp_createdBy c' = cp_createdBy c ->
      cp_status c' = cp_status c ->
      cp_raisedCents c' = (cp_raisedCents c + ct_amountCents t)%Z ->
      cp_contributorCount c' =
        (if bool_decide (ct_supporterUserId t ∈
              map ct_supporterUserId (given_to (cp_id c) (contributions d)))
         then cp_contributorCount c else cp_contributorCount c + 1)%Z ->
      ct_step d (upsert (clock d) t (contributions d)) (upsert (clock d) c' (campaigns d)).

Inductive bo_step (d : db) : jsmap CoalitionBoostRecord -> Prop :=
  | bo_boost b c :
      get (bo_campaignId b) (campaigns d) = Some c -> cp_status c = st_active ->
      cp_coalitionId c = bo_coalitionId b ->
      (count_by (spent_on (bo_userId b) (bo_day b)) (values (boosts d)) < boostDailyAllowance)%Z ->
      count_by (boosts_once (bo_campaignId b) (bo_userId b) (bo_day b)) (values (boosts d)) = 0%Z ->
      bo_step d (upsert (clock d) b (boosts d)).

(** Setting a campaign's payees: the other campaigns keep theirs, and this one's
    shares total the whole, among members and the beneficiary. *)
Inductive py_step (d : db) : jsmap CoalitionCampaignPayeeRecord -> Prop :=
  | py_set c t :
      get (cp_id c) (campaigns d) = Some c ->
      keyed t ->
      (forall x, x <> cp_id c -> paid x t = paid x (payees d)) ->
      (forall r, In r (values t) ->
         py_campaignId r = cp_id c \/ In r (values (payees d))) ->
      paid (cp_id c) t <> [] -> shares_whole (paid (cp_id c) t) ->
      (forall r, In r (paid (cp_id c) t) ->
         activeMembership (cp_coalitionId c) (py_userId r) d <> None \/
         cp_beneficiaryUserId c = Some (py_userId r)) ->
      py_step d t.

Inductive pe_step (d : db) : jsmap CoalitionSuccessionPetitionRecord -> Prop :=
  | pe_opened p m :
      drawn "csuc_" (rng d) (pe_id p) -> get (pe_id p) (petitions d) = None ->
      exists_in (pe_coalitionId p) (coalitions d) ->
      count_by (open_for (pe_coalitionId p)) (values (petitions d)) = 0%Z ->
      activeMembership (pe_coalitionId p) (pe_candidateUserId p) d = Some m ->
      coalitionRoleCan (mb_role m) coalition_succeed = true ->
      pe_secondedBy p = [] ->
      pe_step d (upsert (clock d) p (petitions d))
  | pe_seconded p a m :
      get (pe_id p) (petitions d) = Some p -> pe_status p = suc_open ->
      activeMembership (pe_coalitionId p) a d = Some m ->
      coalitionRoleCan (mb_role m) coalition_succeed = true -> a <> pe_candidateUserId p ->
      pe_step d (upsert (clock d) (with_pe_secondedBy
        (if bool_decide (a ∈ pe_secondedBy p) then pe_secondedBy p
         else pe_secondedBy p ++ [a]) p) (petitions d))
  | pe_closed p old :
      get (pe_id p) (petitions d) = Some old -> pe_coalitionId p = pe_coalitionId old ->
      pe_candidateUserId p = pe_candidateUserId old ->
      pe_status p <> suc_open -> fair_backing p ->
      pe_step d (upsert (clock d) p (petitions d)).

(** The tables of the coalition services. *)
Definition same_tables (d d' : db) : Prop :=
  coalitions d' = coalitions d /\ memberships d' = memberships d /\
  joinRequests d' = joinRequests d /\ memberConnections d' = memberConnections d /\
  campaigns d' = campaigns d /\ contributions d' = contributions d /\
  boosts d' = boosts d /\ payees d' = payees d /\ petitions d' = petitions d /\
  relayEdges d' = relayEdges d.

Inductive astep (d : db) : db -> Prop :=
  | a_env d' : same_tables d d' -> rng d <= rng d' -> astep d d'
  | a_co t : co_step d t -> astep d (set_coalitions t d)
  | a_mb t : mb_step d t -> astep d (set_memberships t d)
  | a_jr r : exists_in (jr_coalitionId r) (coalitions d) ->
      astep d (set_joinRequests (upsert (clock d) r (joinRequests d)) d)
  | a_mc r old : get (keyof r) (memberConnections d) = Some old ->
      mc_credentialRef r = None -> mc_revokedAt r <> None ->
      astep d (set_memberConnections (upsert (clock d) r (memberConnections d)) d)
  | a_cp t : cp_step d t -> astep d (set_campaigns t d)
  | a_ct t u : ct_step d t u -> astep d (set_campaigns u (set_contributions t d))
  | a_bo t : bo_step d t -> astep d (set_boosts t d)
  | a_py t : py_step d t -> astep d (set_payees t d)
  | a_pe t : pe_step d t -> astep d (set_petitions t d)
  | a_re e :
      (get (keyof e) (relayEdges d) = None ->
         (exists n, n < rng d /\ re_id e = uuid n) /\
         ~ In (re_id e) (map re_id (values (relayEdges d)))) ->
      (0 <= re_chainDepth e < Z.of_nat MAX_RELAY_CHAIN_DEPTH)%Z ->
      (forall p, re_parentRelayId e = Some p -> In p (map re_id (values (relayEdges d)))) ->
      astep d (upsertRelayEdge e d).1.
End spec.
