(* ===== verification/SpecInv.v ===== *)
(** * The rules keep the invariant

    Each rule of [astep] preserves each part of [inv]; nothing a rule does not
    mention changes. *)

From S2P Require Import Prelude JsMap Async CoalitionDomain Money Records Store.
From S2P Require Import Drives Relay Slug Network Spec.

(** ** Keys and ids *)

Lemma pair_key_inj a b a' b' :
  colon_free a -> colon_free a' -> pair_key a b = pair_key a' b' -> a = a' /\ b = b'.
Proof.
  unfold pair_key, colon_free. intros Ha Ha' E. apply (f_equal chars) in E.
  rewrite !chars_app in E.
  assert (Hgo : forall l l' r r',
    (forall c, c ∈ l -> c <> ":"%char) -> (forall c, c ∈ l' -> c <> ":"%char) ->
    l ++ chars "::" ++ r = l' ++ chars "::" ++ r' -> l = l' /\ r = r').
  { induction l as [|c l IH]; intros [|c' l'] r r' Hl Hl' El; simpl in El.
    - by injection El.
    - injection El as <- _. exfalso. by apply (Hl' ":"%char); [left|].
    - injection El as -> _. exfalso. by apply (Hl ":"%char); [left|].
    - injection El as -> El. destruct (IH l' r r') as [-> ->]; [| |done|done].
      + intros x Hx. apply Hl. by right.
      + intros x Hx. apply Hl'. by right. }
  destruct (Hgo _ _ _ _ Ha Ha' E) as [E1 E2].
  split; [by rewrite <-(of_chars_chars a), <-(of_chars_chars a'), E1|].
  by rewrite <-(of_chars_chars b), <-(of_chars_chars b'), E2.
Qed.

Section ids.
Context `{Env} `{!DrawLaws}.

Lemma drawn_later p n m id : n <= m -> drawn p n id -> drawn p m id.
Proof. intros Hle (k & Hk & ->). exists k. split; [lia|done]. Qed.

Lemma drawn_colon_free p n id : colon_free p -> drawn p n id -> colon_free id.
Proof.
  intros Hp (k & _ & ->) c Hc. rewrite chars_app in Hc. apply elem_of_app in Hc as [Hc|Hc].
  - by apply Hp.
  - by eapply draw_no_colon.
Qed.

Lemma coa_colon_free : colon_free "coa_".
Proof. intros c Hc. set_solver. Qed.
Lemma camp_colon_free : colon_free "camp_".
Proof. intros c Hc. set_solver. Qed.

(** The next draw names no existing row. *)
Lemma fresh_not_drawn p n : ~ drawn p n (p +:+ draw n).
Proof. intros (k & Hk & E). apply app_string_inv, draw_inj in E. lia. Qed.

Lemma drawn_next p n : drawn p (S n) (p +:+ draw n).
Proof. exists n. split; [lia|done]. Qed.

Lemma drawn_nonempty p n id : p <> "" -> drawn p n id -> id <> "".
Proof. intros Hp (k & _ & ->). by destruct p. Qed.

Lemma fresh_get {V} `{Keyed V} p n (t : jsmap V) :
  keyed t -> (forall v, In v (values t) -> drawn p n (keyof v)) -> get (p +:+ draw n) t = None.
Proof.
  intros Hk Hd. destruct (get (p +:+ draw n) t) as [v|] eqn:E; [|done].
  pose proof (keyed_get t _ _ Hk E) as Ek. apply get_in_values, Hd in E.
  rewrite <-Ek in E. by apply fresh_not_drawn in E.
Qed.
End ids.

Lemma clause_nonempty c x : c <> "" -> clause (Some c) x = bool_decide (x = c).
Proof. intros Hc. unfold clause, truthy. by rewrite decide_False. Qed.

Lemma exists_in_upsert `{Keyed V, Stamped V} now (v : V) t k :
  exists_in k t -> exists_in k (upsert now v t).
Proof. intros [x Hx]. unfold exists_in, upsert. rewrite get_set. destruct (decide _); eauto. Qed.

(** ** Coalitions and memberships *)

Section preservation.
Context `{Env} `{!DrawLaws}.

Lemma stamped_co_id now t (c : CoalitionRecord) : co_id (stamped_row now t c) = co_id c.
Proof. done. Qed.

Lemma ok_coalitions_step d t :
  ok_coalitions (rng d) (coalitions d) -> co_step d t -> ok_coalitions (rng d) t.
Proof.
  intros [Hk Hd] Hs.
  assert (exists c, t = upsert (clock d) c (coalitions d) /\ drawn "coa_" (rng d) (co_id c))
    as (c & -> & Hc).
  { destruct Hs as [c Hdr _|c old Hg _]; [by eauto|]. exists c. split; [done|].
    rewrite (keyed_get _ _ _ Hk Hg : co_id c = co_id old). eapply Hd, get_in_values, Hg. }
  split; [by apply keyed_upsert|]. intros x [->|[Hx _]]%in_upsert; auto.
Qed.

Lemma co_step_grows d t k : co_step d t -> exists_in k (coalitions d) -> exists_in k t.
Proof. intros Hs Hk. destruct Hs; by apply exists_in_upsert. Qed.

Lemma coalition_colon_free d c :
  ok_coalitions (rng d) (coalitions d) -> exists_in c (coalitions d) -> colon_free c.
Proof.
  intros [Hk Hd] [x Hx]. eapply drawn_colon_free; [apply coa_colon_free|].
  rewrite (keyed_get _ _ _ Hk Hx). eapply (Hd x), get_in_values, Hx.
Qed.

Lemma coalition_nonempty d c :
  ok_coalitions (rng d) (coalitions d) -> exists_in c (coalitions d) -> c <> "".
Proof.
  intros [Hk Hd] [x Hx]. eapply (drawn_nonempty "coa_"); [done|].
  rewrite (keyed_get _ _ _ Hk Hx). eapply (Hd x), get_in_values, Hx.
Qed.

(** The membership looked up is the one asked for. *)
Lemma getCoalitionMembership_spec d c u m :
  ok_coalitions (rng d) (coalitions d) -> ok_memberships (coalitions d) (memberships d) ->
  exists_in c (coalitions d) -> getCoalitionMembership c u d = Some m ->
  In m (values (memberships d)) /\ mb_coalitionId m = c /\ mb_userId m = u.
Proof.
  intros Hco (Hk & Href & _) Hc Hg. unfold getCoalitionMembership in Hg.
  pose proof (get_in_values _ _ _ Hg) as Hin. pose proof (keyed_get _ _ _ Hk Hg) as Ek.
  apply pair_key_inj in Ek as [-> ->]; [done| |].
  - by eapply coalition_colon_free.
  - eapply coalition_colon_free; [done|]. by apply Href.
Qed.

Lemma activeMembership_get c u d m :
  activeMembership c u d = Some m -> getCoalitionMembership c u d = Some m /\ mb_active m = true.
Proof.
  unfold activeMembership. destruct (getCoalitionMembership c u d) as [x|]; [|done].
  destruct (mb_active x) eqn:E; [|done]. intros [= ->]. done.
Qed.

Lemma activeMembership_spec d c u m :
  inv d -> exists_in c (coalitions d) -> activeMembership c u d = Some m ->
  In m (values (memberships d)) /\ mb_coalitionId m = c /\ mb_userId m = u /\ mb_active m = true.
Proof.
  intros [Hco Hmb _ _ _ _ _ _ _] Hc [Hg Ha]%activeMembership_get.
  destruct (getCoalitionMembership_spec d c u m Hco Hmb Hc Hg) as (? & ? & ?). done.
Qed.

Lemma activeMembers_in d c m :
  c <> "" ->
  In m (activeMembers c d) <->
  In m (values (memberships d)) /\ mb_coalitionId m = c /\ mb_active m = true.
Proof.
  intros Hc. unfold activeMembers, listCoalitionMemberships. rewrite !filter_In.
  rewrite clause_nonempty by done. simpl. rewrite andb_true_r, bool_decide_eq_true. tauto.
Qed.

Lemma founds_iff c m :
  founds c m = true <-> mb_coalitionId m = c /\ mb_active m = true /\ mb_role m = founder.
Proof. unfold founds. rewrite !andb_true_iff, !bool_decide_eq_true. tauto. Qed.

(** A write that makes no one a founder cannot raise the number of founders. *)
Lemma founds_upsert_le now t (m : CoalitionMembershipRecord) c :
  founds c m = false ->
  (count_by (founds c) (values (upsert now m t)) <= count_by (founds c) (values t))%Z.
Proof.
  intros Hf. rewrite count_by_upsert.
  change (founds c (stamped_row now t m)) with (founds c m). rewrite Hf.
  destruct (get _ t) as [o|]; [destruct (founds c o)|]; lia.
Qed.

Lemma mb_step_refs d t m :
  inv d -> mb_step d t -> In m (values t) -> exists_in (mb_coalitionId m) (coalitions d).
Proof.
  intros Hinv Hs Hm. pose proof (inv_memberships d Hinv) as (Hk & Href & _).
  assert (Hup : forall x y tt, keyed tt ->
    exists_in (mb_coalitionId x) (coalitions d) ->
    (forall z, In z (values tt) -> exists_in (mb_coalitionId z) (coalitions d)) ->
    In y (values (upsert (clock d) x tt)) -> exists_in (mb_coalitionId y) (coalitions d)).
  { intros x y tt Hkt Hx Htt [->|[Hy _]]%in_upsert; auto. }
  destruct Hs as [c u id co Hg _ _|c u id r Hc _|x Ha _|x a r Ha _ _ _ _ _|actor c u x out Hc Ha -> _].
  - eapply Hup; [| | |exact Hm]; [done|by exists co|done].
  - eapply Hup; [| | |exact Hm]; [done|done|done].
  - eapply Hup; [| | |exact Hm]; [done| |done].
    apply activeMembership_get in Ha as [Hg%get_in_values _]. by apply Href in Hg.
  - eapply Hup; [| | |exact Hm]; [done| |done].
    apply activeMembership_get in Ha as [Hg%get_in_values _]. by apply Href in Hg.
  - apply activeMembership_get in Ha as [Hg%get_in_values _]. apply Href in Hg.
    destruct (List.find _ (activeMembers c d)) as [o|] eqn:Ef.
    + apply find_some in Ef as [Hin _]. unfold activeMembers, listCoalitionMemberships in Hin.
      apply filter_In in Hin as [[Hin _]%filter_In _].
      eapply Hup; [| | |exact Hm]; [by apply keyed_upsert|by apply (Href o)|].
      intros z Hz. exact (Hup (with_mb_role founder x) _ _ Hk Hg Href Hz).
    + exact (Hup (with_mb_role founder x) _ _ Hk Hg Href Hm).
Qed.

Lemma mb_step_keyed d t : inv d -> mb_step d t -> keyed t.
Proof.
  intros Hinv Hs. pose proof (inv_memberships d Hinv) as (Hk & _).
  destruct Hs as [| | | |actor c u x out]; try by apply keyed_upsert.
  destruct out; by repeat apply keyed_upsert.
Qed.

(** Handing the founder role over leaves at most one founder. *)
Lemma founders_succeed d c u target c' :
  inv d -> exists_in c (coalitions d) -> activeMembership c u d = Some target ->
  let t := upsert (clock d) (with_mb_role founder target) (memberships d) in
  let t' := match List.find (fun m => bool_decide (mb_role m = founder)) (activeMembers c d) with
            | Some o => upsert (clock d) (with_mb_role steward o) t
            | None => t
            end in
  (count_by (founds c') (values t') <= 1)%Z.
Proof.
  intros Hinv Hc Ha. cbv zeta. pose proof (inv_memberships d Hinv) as (Hk & Href & Hone).
  destruct (activeMembership_spec d c u target Hinv Hc Ha) as (Hin & Ec & Eu & Hact).
  pose proof (coalition_nonempty d c (inv_coalitions d Hinv) Hc) as Hne.
  set (t := upsert (clock d) (with_mb_role founder target) (memberships d)).
  assert (Ht : count_by (founds c') (values t) =
    (count_by (founds c') (values (memberships d)) - (if founds c' target then 1 else 0)
     + (if bool_decide (c = c') then 1 else 0))%Z).
  { unfold t. rewrite count_by_upsert. change (keyof (with_mb_role founder target)) with (keyof target).
    rewrite (keyed_in _ _ Hk Hin). do 2 f_equal.
    change (founds c' (stamped_row _ _ (with_mb_role founder target)))
      with (bool_decide (mb_coalitionId target = c') && mb_active target && true).
    rewrite Ec, Hact. by destruct (bool_decide (c = c')). }
  destruct (List.find _ (activeMembers c d)) as [o|] eqn:Ef.
  - apply find_some in Ef as [Ho Er]. apply activeMembers_in in Ho as (Hino & Eo & Hao); [|done].
    apply bool_decide_eq_true in Er.
    assert (Hfo : founds c o = true) by (by apply founds_iff).
    rewrite count_by_upsert.
    change (founds c' (stamped_row (clock d) t (with_mb_role steward o)))
      with (bool_decide (mb_coalitionId o = c') && mb_active o && false).
    rewrite andb_false_r. change (keyof (with_mb_role steward o)) with (keyof o).
    pose proof (Hone c') as Hc'. unfold t at 2. rewrite get_upsert.
    change (keyof (with_mb_role founder target)) with (keyof target).
    destruct (decide (keyof target = keyof o)) as [Eko|Hko].
    + rewrite (keyed_unique _ target o Hk Hin Hino Eko) in *.
      change (founds c' (stamped_row _ _ (with_mb_role founder o)))
        with (bool_decide (mb_coalitionId o = c') && mb_active o && true).
      rewrite Eo, Hao, !andb_true_r. rewrite Ht.
      destruct (founds c' o); case_bool_decide; lia.
    + rewrite (keyed_in _ _ Hk Hino), Ht. case_bool_decide as Ecc.
      * subst c'. rewrite Hfo. destruct (founds c target); lia.
      * destruct (founds c' target), (founds c' o); lia.
  - rewrite Ht. case_bool_decide as Ecc; [|destruct (founds c' target); pose proof (Hone c'); lia].
    subst c'. assert (count_by (founds c) (values (memberships d)) = 0%Z) as ->; [|destruct (founds c target); lia].
    apply count_by_zero. intros m Hm. destruct (founds c m) eqn:Em; [|done].
    apply founds_iff in Em as (E1 & E2 & E3).
    pose proof (find_none _ _ Ef m) as Hn. rewrite activeMembers_in in Hn by done.
    specialize (Hn (conj Hm (conj E1 E2))). by rewrite bool_decide_eq_false in Hn.
Qed.

Lemma ok_memberships_step d t :
  inv d -> mb_step d t -> ok_memberships (coalitions d) t.
Proof.
  intros Hinv Hs. split_and!; [by eapply mb_step_keyed|intros m; by eapply mb_step_refs|].
  pose proof (inv_memberships d Hinv) as (Hk & Href & Hone). intros c'. pose proof (Hone c') as Hc'.
  destruct Hs as [c u id co Hg Eu Hnone|c u id r Hc ->|x Ha Hnf|x a r Ha Hnf Haa Hcan Hr _|actor c u x out Hc Ha -> _].
  - rewrite count_by_upsert. destruct (decide (c = c')) as [->|Hne].
    + assert (count_by (founds c') (values (memberships d)) = 0%Z) as ->.
      { apply count_by_zero. intros m Hm. destruct (founds c' m) eqn:Em; [|done].
        apply founds_iff in Em as [E _]. by apply Hnone in Hm. }
      destruct (get _ (memberships d)) as [o|]; [destruct (founds c' o)|]; destruct (founds c' _); lia.
    + change (founds c' (stamped_row _ _ _)) with (bool_decide (c = c') && true && true).
      rewrite bool_decide_eq_false_2 by done.
      destruct (get _ (memberships d)) as [o|]; [destruct (founds c' o)|]; simpl; lia.
  - rewrite count_by_upsert.
    change (get (keyof (mk_mb id c u _ true 0 0)) (memberships d)) with (getCoalitionMembership c u d).
    destruct (activeMembership c u d) as [e|] eqn:Ea.
    + destruct (activeMembership_spec d c u e Hinv Hc Ea) as (_ & E1 & _ & E2).
      apply activeMembership_get in Ea as [-> _].
      change (founds c' (stamped_row _ _ _))
        with (bool_decide (c = c') && true && bool_decide (mb_role e = founder)).
      unfold founds at 2. rewrite E1, E2. destruct (_ && _); lia.
    + change (founds c' (stamped_row _ _ _))
        with (bool_decide (c = c') && true && bool_decide (member = founder)).
      rewrite (bool_decide_eq_false_2 (member = founder)), andb_false_r by done.
      destruct (getCoalitionMembership c u d) as [o|]; [destruct (founds c' o)|]; lia.
  - etrans; [apply founds_upsert_le|done]. unfold founds. simpl. by rewrite andb_false_r.
  - etrans; [apply founds_upsert_le|done]. unfold founds. simpl.
    rewrite (bool_decide_eq_false_2 (r = founder)), andb_false_r; [done|]. intros ->.
    destruct (mb_role a); simpl in Hr; set_solver.
  - by apply founders_succeed with u.
Qed.

(** ** Campaigns and contributions *)

Lemma distinct_snoc l x :
  distinct (l ++ [x]) = if bool_decide (x ∈ l) then distinct l else (distinct l + 1)%Z.
Proof. unfold distinct. rewrite remove_dups_snoc. case_bool_decide; lia. Qed.

(** Writing a campaign row that leaves the ledger fields alone. *)
Lemma ok_campaigns_edit d c old :
  inv d -> get (cp_id c) (campaigns d) = Some old -> same_ledger c old ->
  ok_campaigns (rng d) (coalitions d) (upsert (clock d) c (campaigns d)) (contributions d).
Proof.
  intros Hinv Hg (E1 & E2 & E3 & E4 & E5).
  pose proof (inv_campaigns d Hinv) as (Hk & Hkt & Hcp & Hct & Htip & Hbal).
  pose proof (keyed_get _ _ _ Hk Hg : cp_id c = cp_id old) as Eid.
  pose proof (get_in_values _ _ _ Hg) as Hold.
  split_and!; [by apply keyed_upsert|done| | |done|].
  - intros x [->|[Hx _]]%in_upsert; [|by apply Hcp|done].
    change (drawn "camp_" (rng d) (cp_id c) /\ exists_in (cp_coalitionId c) (coalitions d)).
    rewrite Eid, E1. by apply Hcp.
  - intros t Ht. destruct (Hct t Ht) as (Hd & x & Hx & Ex). split; [done|]. rewrite get_upsert.
    destruct (decide (keyof c = ct_campaignId t)) as [Ek|]; [|by eauto].
    eexists. split; [done|]. change (ct_coalitionId t = cp_coalitionId c).
    change (cp_id c = ct_campaignId t) in Ek. rewrite Ek in Hg. congruence.
  - intros x [->|[Hx _]]%in_upsert; [|by apply Hbal|done].
    destruct (Hbal old Hold) as [B1 B2]. split.
    + change (cp_raisedCents c = sum_by ct_amountCents (given_to (cp_id c) (contributions d))). congruence.
    + change (cp_contributorCount c = distinct (map ct_supporterUserId (given_to (cp_id c) (contributions d)))).
      congruence.
Qed.

Lemma given_to_none d id :
  inv d -> get id (campaigns d) = None -> given_to id (contributions d) = [].
Proof.
  intros Hinv Hg. pose proof (inv_campaigns d Hinv) as (_ & _ & _ & Hct & _ & _).
  apply filter_none. apply not_true_is_false. rewrite existsb_exists. intros (t & Ht & E).
  apply bool_decide_eq_true in E as <-. destruct (Hct t Ht) as (_ & x & Hx & _). congruence.
Qed.

Lemma ok_campaigns_step d t :
  inv d -> cp_step d t -> ok_campaigns (rng d) (coalitions d) t (contributions d).
Proof.
  intros Hinv Hs.
  destruct Hs as [c u m Hdr Hg Hc Hr0 Hn0 _ _ _|c old u m Hg Hl _ _ _ _|c old Hg Hl _];
    [|by eapply ok_campaigns_edit..].
  pose proof (inv_campaigns d Hinv) as (Hk & Hkt & Hcp & Hct & Htip & Hbal).
  split_and!; [by apply keyed_upsert|done| | |done|].
  - intros x [->|[Hx _]]%in_upsert; [done|by apply Hcp|done].
  - intros x Hx. destruct (Hct x Hx) as (Hd & y & Hy & Ey). split; [done|]. exists y.
    rewrite get_upsert_ne; [done|]. intros Ek. change (cp_id c = ct_campaignId x) in Ek. congruence.
  - intros x [->|[Hx _]]%in_upsert; [|by apply Hbal|done]. split.
    + change (cp_raisedCents c = sum_by ct_amountCents (given_to (cp_id c) (contributions d))).
      by rewrite given_to_none.
    + change (cp_contributorCount c = distinct (map ct_supporterUserId (given_to (cp_id c) (contributions d)))).
      by rewrite given_to_none.
Qed.

Lemma given_to_new d t c :
  get (ct_id t) (contributions d) = None ->
  given_to c (upsert (clock d) t (contributions d)) =
  given_to c (contributions d) ++
  (if bool_decide (ct_campaignId t = c) then [stamped_row (clock d) (contributions d) t] else []).
Proof.
  intros Hg. unfold given_to, upsert. rewrite values_set_new by done. rewrite List.filter_app. simpl.
  change (ct_campaignId (stamped_row (clock d) (contributions d) t)) with (ct_campaignId t).
  by destruct (bool_decide (ct_campaignId t = c)).
Qed.

Lemma ok_contribution_step d t u :
  inv d -> ct_step d t u -> ok_campaigns (rng d) (coalitions d) u t.
Proof.
  intros Hinv Hs. destruct Hs as [t c c' Hdr Hg Hc Eco Htip' Eid Eco' _ _ _ Er Ec].
  pose proof (inv_campaigns d Hinv) as (Hk & Hkt & Hcp & Hct & Htip & Hbal).
  pose proof (get_in_values _ _ _ Hc) as Hin. pose proof (keyed_get _ _ _ Hk Hc) as Ek.
  change (ct_campaignId t = cp_id c) in Ek.
  split_and!; [by apply keyed_upsert|by apply keyed_upsert| | | |].
  - intros x [->|[Hx _]]%in_upsert; [|by apply Hcp|done].
    change (drawn "camp_" (rng d) (cp_id c') /\ exists_in (cp_coalitionId c') (coalitions d)).
    rewrite Eid, Eco'. by apply Hcp.
  - assert (Hlook : forall k x, get k (campaigns d) = Some x ->
      exists y, get k (upsert (clock d) c' (campaigns d)) = Some y /\ cp_coalitionId x = cp_coalitionId y).
    { intros k x Hx. rewrite get_upsert. destruct (decide (keyof c' = k)) as [E|]; [|by eauto].
      eexists. split; [done|]. change (cp_coalitionId x = cp_coalitionId c').
      change (cp_id c' = k) in E. rewrite Eid, <-Ek in E. congruence. }
    intros x [->|[Hx _]]%in_upsert; [| |done].
    + split; [done|]. destruct (Hlook _ _ Hc) as (y & ? & ?). exists y. split; [done|].
      change (ct_coalitionId t = cp_coalitionId y). congruence.
    + destruct (Hct x Hx) as (? & y & Hy & ?). split; [done|].
      destruct (Hlook _ _ Hy) as (z & ? & ?). exists z. split; [done|congruence].
  - unfold upsert. rewrite values_set_new, map_app by done. simpl.
    apply NoDup_ListNoDup, NoDup_app. split_and!; [by apply NoDup_ListNoDup| |apply NoDup_singleton].
    intros x Hx Hx2%list_elem_of_singleton. apply Htip'. rewrite list_elem_of_In in Hx. by subst x.
  - intros x Hx. apply in_upsert in Hx as [->|[Hx Hne]]; [| |done].
    + destruct (Hbal c Hin) as [B1 B2]. split.
      * change (cp_raisedCents c' = sum_by ct_amountCents (given_to (cp_id c') (upsert (clock d) t (contributions d)))).
        rewrite given_to_new, bool_decide_eq_true_2, sum_by_app, sum_by_cons by congruence.
        change (sum_by _ []) with 0%Z. rewrite Er, B1, Eid.
        change (ct_amountCents (stamped_row _ _ t)) with (ct_amountCents t). lia.
      * change (cp_contributorCount c' = distinct (map ct_supporterUserId
          (given_to (cp_id c') (upsert (clock d) t (contributions d))))).
        rewrite given_to_new, bool_decide_eq_true_2, map_app by congruence. simpl.
        change (ct_supporterUserId (stamped_row _ _ t)) with (ct_supporterUserId t).
        rewrite distinct_snoc, Ec, B2, Eid. by case_bool_decide.
    + assert (Hx' : balanced (contributions d) x) by (by apply Hbal).
      unfold balanced in *. rewrite given_to_new, bool_decide_eq_false_2, app_nil_r; [done| |done].
      intros E. apply Hne. change (cp_id x = cp_id c'). congruence.
Qed.

Lemma campaigns_grow d t k : cp_step d t -> exists_in k (campaigns d) -> exists_in k t.
Proof. intros Hs Hk. destruct Hs; by apply exists_in_upsert. Qed.

(** ** Boosts *)

Lemma ok_boosts_step d t : ok_boosts (boosts d) -> bo_step d t -> ok_boosts t.
Proof.
  intros (Hk & Hday & Honce) Hs. destruct Hs as [b c _ _ _ Hlt Hz].
  split_and!; [by apply keyed_upsert| |].
  - intros u day. rewrite count_by_upsert. pose proof (Hday u day).
    change (spent_on u day (stamped_row (clock d) (boosts d) b)) with (spent_on u day b).
    destruct (spent_on u day b) eqn:E.
    + unfold spent_on in E. rewrite andb_true_iff, !bool_decide_eq_true in E. destruct E as [<- <-].
      destruct (get _ (boosts d)) as [o|]; [destruct (spent_on _ _ o)|]; lia.
    + destruct (get _ (boosts d)) as [o|]; [destruct (spent_on _ _ o)|]; lia.
  - intros c0 u day. rewrite count_by_upsert. pose proof (Honce c0 u day).
    change (boosts_once c0 u day (stamped_row (clock d) (boosts d) b)) with (boosts_once c0 u day b).
    destruct (boosts_once c0 u day b) eqn:E.
    + unfold boosts_once, spent_on in E. rewrite !andb_true_iff, !bool_decide_eq_true in E.
      destruct E as (<- & <- & <-).
      destruct (get _ (boosts d)) as [o|]; [destruct (boosts_once _ _ _ o)|]; lia.
    + destruct (get _ (boosts d)) as [o|]; [destruct (boosts_once _ _ _ o)|]; lia.
Qed.

(** ** Payees and petitions *)

Lemma ok_payees_step d t :
  ok_payees (campaigns d) (payees d) -> py_step d t -> ok_payees (campaigns d) t.
Proof.
  intros (Hk & Href & Hw) Hs. destruct Hs as [c t Hc Hkt Hoth Hin Hne Hsh _].
  split_and!; [done| |].
  - intros r Hr. destruct (Hin r Hr) as [->|Hr']; [by exists c|by apply Href].
  - intros x. destruct (decide (x = cp_id c)) as [->|Hx]; [done|]. by rewrite Hoth.
Qed.

Lemma ok_petitions_step d t :
  inv d -> pe_step d t -> ok_petitions (rng d) (coalitions d) t.
Proof.
  intros Hinv Hs. pose proof (inv_petitions d Hinv) as (Hk & Hd & Hone & Hf).
  assert (Hup : forall p,
    drawn "csuc_" (rng d) (pe_id p) -> exists_in (pe_coalitionId p) (coalitions d) -> fair_backing p ->
    (forall c, count_by (open_for c) (values (upsert (clock d) p (petitions d))) <= 1)%Z ->
    ok_petitions (rng d) (coalitions d) (upsert (clock d) p (petitions d))).
  { intros p Hp1 Hp2 Hp3 Hp4. split_and!; [by apply keyed_upsert| |done|];
      intros x [->|[Hx _]]%in_upsert; auto. }
  destruct Hs as [p m Hdr Hg Hc Hz _ _ Hsec|p a m Hg Ho _ _ Hne|p old Hg Ec _ Hno Hfair].
  - apply Hup; [done|done| |].
    + split; rewrite Hsec; [constructor|apply not_elem_of_nil].
    + intros c. rewrite count_by_upsert. change (get (keyof p) (petitions d)) with (get (pe_id p) (petitions d)).
      rewrite Hg. change (open_for c (stamped_row _ _ p)) with (open_for c p).
      pose proof (Hone c). destruct (open_for c p) eqn:E; [|lia].
      unfold open_for in E. rewrite andb_true_iff, !bool_decide_eq_true in E. destruct E as [<- _]. lia.
  - pose proof (get_in_values _ _ _ Hg) as Hin. destruct (Hd p Hin) as [? ?].
    destruct (Hf p Hin) as [Hnd Hni]. apply Hup; [done|done| |].
    + split; cbn [pe_secondedBy with_pe_secondedBy pe_candidateUserId]; case_bool_decide as Ha; try done.
      * apply NoDup_app. split_and!; [done| |apply NoDup_singleton].
        intros x Hx ->%list_elem_of_singleton. done.
      * rewrite elem_of_app, list_elem_of_singleton. intros [?|?]; [done|congruence].
    + intros c. rewrite count_by_upsert.
      match goal with |- context [get (keyof ?q) _] => change (keyof q) with (pe_id p) end.
      rewrite Hg. match goal with |- context [open_for c (stamped_row _ _ ?q)] =>
        change (open_for c (stamped_row (clock d) (petitions d) q)) with (open_for c p) end.
      pose proof (Hone c). destruct (open_for c p); lia.
  - pose proof (get_in_values _ _ _ Hg) as Hin. destruct (Hd old Hin) as [? ?].
    pose proof (keyed_get _ _ _ Hk Hg : pe_id p = pe_id old) as Eid.
    apply Hup; [by rewrite Eid|by rewrite Ec|done|].
    intros c. rewrite count_by_upsert. change (open_for c (stamped_row _ _ p)) with (open_for c p).
    unfold open_for at 3. rewrite (bool_decide_eq_false_2 (pe_status p = suc_open)), andb_false_r by done.
    pose proof (Hone c). destruct (get _ (petitions d)) as [o|]; [destruct (open_for c o)|]; lia.
Qed.

(** ** Every rule keeps the invariant *)

Lemma ok_memberships_grow co co' mb :
  (forall k, exists_in k co -> exists_in k co') -> ok_memberships co mb -> ok_memberships co' mb.
Proof. intros Hg (? & ? & ?). split_and!; auto. Qed.

Lemma ok_requests_grow co co' jr :
  (forall k, exists_in k co -> exists_in k co') -> ok_requests co jr -> ok_requests co' jr.
Proof. intros Hg (? & ?). split; auto. Qed.

Lemma ok_campaigns_grow n n' co co' cp ct :
  n <= n' -> (forall k, exists_in k co -> exists_in k co') ->
  ok_campaigns n co cp ct -> ok_campaigns n' co' cp ct.
Proof.
  intros Hn Hg (? & ? & Hcp & Hct & ? & ?). split_and!; try done.
  - intros c Hc. destruct (Hcp c Hc). split; [by eapply drawn_later|auto].
  - intros t Ht. destruct (Hct t Ht). split; [by eapply drawn_later|done].
Qed.

Lemma ok_petitions_grow n n' co co' pe :
  n <= n' -> (forall k, exists_in k co -> exists_in k co') ->
  ok_petitions n co pe -> ok_petitions n' co' pe.
Proof.
  intros Hn Hg (? & Hp & ? & ?). split_and!; try done.
  intros p Hpe. destruct (Hp p Hpe). split; [by eapply drawn_later|auto].
Qed.

Lemma ok_payees_grow cp cp' py :
  (forall k, exists_in k cp -> exists_in k cp') -> ok_payees cp py -> ok_payees cp' py.
Proof. intros Hg (? & ? & ?). split_and!; auto. Qed.

Lemma relay_inv_same d d' :
  relayEdges d' = relayEdges d -> rng d <= rng d' -> relay_inv d -> relay_inv d'.
Proof.
  intros E Hn [K I U D P]. split; rewrite E; try done.
  intros e He. destruct (I e He) as (n & ? & ?). exists n. split; [lia|done].
Qed.

Lemma inv_env d d' : same_tables d d' -> rng d <= rng d' -> inv d -> inv d'.
Proof.
  intros (E1 & E2 & E3 & E4 & E5 & E6 & E7 & E8 & E9 & E10) Hn [I1 I2 I3 I4 I5 I6 I7 I8 I9].
  split; rewrite ?E1, ?E2, ?E3, ?E4, ?E5, ?E6, ?E7, ?E8, ?E9; try done.
  - destruct I1 as [? Hd]. split; [done|]. intros c Hc. by eapply drawn_later, Hd.
  - by eapply ok_campaigns_grow.
  - by eapply ok_petitions_grow.
  - by apply (relay_inv_same d).
Qed.

Theorem astep_inv d d' : inv d -> astep d d' -> inv d'.
Proof.
  intros Hinv Hs. destruct Hs as [d' Hsame Hn|t Ht|t Ht|r Hr|r old Hg _ _|t Ht|t u Ht|t Ht|t Ht|t Ht|e He1 He2 He3].
  - by eapply inv_env.
  - pose proof (fun k => co_step_grows d t k Ht) as Hgrow. destruct Hinv. split; simpl; try done.
    + by apply ok_coalitions_step.
    + by eapply ok_memberships_grow.
    + by eapply ok_requests_grow.
    + by eapply ok_campaigns_grow.
    + by eapply ok_petitions_grow.
    + by apply (relay_inv_same d).
  - pose proof (ok_memberships_step d t Hinv Ht). destruct Hinv. split; simpl; try done.
    by apply (relay_inv_same d).
  - assert (ok_requests (coalitions d) (upsert (clock d) r (joinRequests d))).
    { destruct (inv_requests d Hinv) as [Hk Href]. split; [by apply keyed_upsert|].
      intros x [->|[Hx _]]%in_upsert; auto. }
    destruct Hinv. split; simpl; try done. by apply (relay_inv_same d).
  - destruct Hinv. split; simpl; try done; [by apply keyed_upsert|by apply (relay_inv_same d)].
  - pose proof (ok_campaigns_step d t Hinv Ht). pose proof (fun k => campaigns_grow d t k Ht).
    destruct Hinv. split; simpl; try done; [by eapply ok_payees_grow|by apply (relay_inv_same d)].
  - pose proof (ok_contribution_step d t u Hinv Ht).
    assert (Hgrow : forall k, exists_in k (campaigns d) -> exists_in k u)
      by (intros k Hk; destruct Ht; by apply exists_in_upsert).
    destruct Hinv. split; simpl; try done; [by eapply ok_payees_grow|by apply (relay_inv_same d)].
  - pose proof (ok_boosts_step d t (inv_boosts d Hinv) Ht). destruct Hinv. split; simpl; try done.
    by apply (relay_inv_same d).
  - pose proof (ok_payees_step d t (inv_payees d Hinv) Ht). destruct Hinv. split; simpl; try done.
    by apply (relay_inv_same d).
  - pose proof (ok_petitions_step d t Hinv Ht). destruct Hinv. split; simpl; try done.
    by apply (relay_inv_same d).
  - pose proof (upsert_relay_inv d e (inv_relays d Hinv) He1 He2 He3). by destruct Hinv; split.
Qed.

Lemma asteps_inv d d' : inv d -> rtc astep d d' -> inv d'.
Proof. intros Hi Hs. induction Hs; [done|]. eauto using astep_inv. Qed.
End preservation.

Lemma inv_empty `{Env} : inv empty_db.
Proof.
  assert (Hz : forall V (p : V -> bool), count_by p (values []) = 0%Z) by done.
  split; simpl; try apply keyed_nil.
  - split; [apply keyed_nil|done].
  - split_and!; [apply keyed_nil|done|]. intros c. by rewrite Hz.
  - split; [apply keyed_nil|done].
  - split_and!; try apply keyed_nil; try done.
  - split_and!; [apply keyed_nil| |]; intros; rewrite Hz; [|lia].
    unfold boostDailyAllowance, DEFAULT_COALITION_BOOST_DAILY_ALLOWANCE.
    destruct COALITION_BOOST_DAILY_ALLOWANCE; [case_bool_decide|]; lia.
  - split_and!; [apply keyed_nil|done|]. intros c. by left.
  - split_and!; [apply keyed_nil|done| |done]. intros c. by rewrite Hz.
  - split; simpl; [apply keyed_nil|done|constructor|done|done].
Qed.
