(* ===== verification/Refine.v ===== *)
(** * The service implements the abstract behaviour

    Every handler, in each of its uninterrupted segments and whatever the other
    handlers did while it was suspended, only makes moves of [astep]. *)

From S2P Require Import Prelude JsMap Async CoalitionDomain Money Records Store.
From S2P Require Import Spaces Drives JoinRequirements Relay Slug Network Spec SpecInv.

(** [ok m]: the handler [m] keeps the invariant and moves along the rules, in
    every segment. *)
Abbreviation G := (rtc astep).
Abbreviation safe s o := (guarantees inv (rtc astep) s (fun _ _ => True) o).
Abbreviation ok m := (keeps (E := req) inv (rtc astep) m).

Section steps.
Context `{Env} `{!DrawLaws}.

(** ** Stepping through a handler *)

Lemma g_ret {A} (a : A) s : inv s -> safe s (mret (E := req) a s).
Proof. intros. by split_and!. Qed.

Lemma g_gets {A B} (f : db -> A) (k : A -> H B) s :
  safe s (k (f s) s) -> safe s (mbind (gets f) k s).
Proof. done. Qed.

Lemma g_step {A} s s1 (o : outcome db req A) : astep s s1 -> safe s1 o -> safe s o.
Proof. intros Hs. apply (guarantees_trans inv G). by apply rtc_once. Qed.

Lemma g_update {A B} (f : db -> db * A) (k : A -> H B) s :
  inv s -> astep s (f s).1 -> (inv (f s).1 -> safe (f s).1 (k (f s).2 (f s).1)) ->
  safe s (mbind (update f) k s).
Proof. intros Hi Hs Hk. eapply g_step; [exact Hs|]. apply Hk. by eapply astep_inv. Qed.

Lemma g_call {A B} (m : H A) (k : A -> H B) s :
  ok m -> inv s -> (forall a s', inv s' -> G s s' -> safe s' (k a s')) -> safe s (mbind m k s).
Proof. intros Hm Hi Hk. by eapply (guarantees_call inv G). Qed.

Lemma ok_emit e : ok (emitDomainEvent e).
Proof.
  apply keeps_modify. intros s Hi.
  assert (Hs : astep s (emit e s)) by (by apply a_env).
  split; [by eapply astep_inv|by apply rtc_once].
Qed.

Lemma draw_step d : astep d (set_rng (S (rng d)) d).
Proof. apply a_env; [done|simpl; lia]. Qed.

Lemma bind_gets_eq {A B} (f : db -> A) (k : A -> H B) s : mbind (gets f) k s = k (f s) s.
Proof. done. Qed.

Lemma bind_update_eq {A B} (f : db -> db * A) (k : A -> H B) s :
  mbind (update f) k s = k (f s).2 (f s).1.
Proof. done. Qed.

(** Drawing an id: the counter moves and the id is the one it pointed to. *)
Lemma g_fresh {B} p (k : string -> H B) s :
  inv s ->
  (inv (set_rng (S (rng s)) s) ->
   safe (set_rng (S (rng s)) s) (k (p +:+ draw (rng s)) (set_rng (S (rng s)) s))) ->
  safe s (mbind (fresh p) k s).
Proof.
  intros Hi Hk. eapply g_step; [apply draw_step|]. apply Hk. eapply astep_inv; [done|apply draw_step].
Qed.

Lemma ok_fresh p : ok (fresh p).
Proof.
  apply keeps_update. intros s Hi. simpl.
  split; [eapply astep_inv; [done|]|apply rtc_once]; apply draw_step.
Qed.

Lemma ok_id_or {A} (e : option A) id p : ok (id_or e id (fresh p)).
Proof. destruct e; [apply (keeps_ret inv G)|apply ok_fresh]. Qed.

Lemma g_id_or {A B} (e : option A) id p (k : string -> H B) s :
  inv s ->
  (forall i s', inv s' -> same_tables s s' -> safe s' (k i s')) ->
  safe s (mbind (id_or e id (fresh p)) k s).
Proof.
  intros Hi Hk. destruct e as [a|]; [by apply Hk|]. apply g_fresh; [done|]. intros. by apply Hk.
Qed.

(** ** What stays *)

Lemma co_persist d d' k o :
  G d d' -> get k (coalitions d) = Some o ->
  exists o', get k (coalitions d') = Some o' /\ co_createdBy o' = co_createdBy o.
Proof.
  intros HG. revert o. induction HG as [d|d1 d2 d3 Hs _ IH]; intros o Hg; [by eauto|].
  assert (exists o', get k (coalitions d2) = Some o' /\ co_createdBy o' = co_createdBy o)
    as (o' & Hg' & E).
  { destruct Hs as [d' (E1 & _)|t Ht| | | | | | | | |]; simpl; try by eauto.
    - rewrite E1. by eauto.
    - destruct Ht as [c _ Hn|c old Ho Ec]; rewrite get_upsert; change (keyof c) with (co_id c);
        (destruct (decide (co_id c = k)) as [Ek|]; [|by eauto]); subst k.
      + congruence.
      + eexists. split; [done|]. change (co_createdBy c = co_createdBy o). congruence. }
  destruct (IH _ Hg') as (o'' & ? & ?). exists o''. split; [done|congruence].
Qed.

Lemma exists_persist d d' k :
  G d d' -> exists_in k (coalitions d) -> exists_in k (coalitions d').
Proof. intros HG [o Ho]. destruct (co_persist _ _ _ _ HG Ho) as (o' & ? & _). by exists o'. Qed.

Lemma pe_persist d d' k p :
  inv d -> G d d' -> get k (petitions d) = Some p ->
  exists p', get k (petitions d') = Some p' /\ pe_coalitionId p' = pe_coalitionId p /\
             pe_candidateUserId p' = pe_candidateUserId p.
Proof.
  intros Hi HG. revert p. induction HG as [d|d1 d2 d3 Hs _ IH]; intros p Hg; [by eauto|].
  assert (exists p', get k (petitions d2) = Some p' /\ pe_coalitionId p' = pe_coalitionId p /\
             pe_candidateUserId p' = pe_candidateUserId p) as (p' & Hg' & E1 & E2).
  { destruct Hs as [d' (_ & _ & _ & _ & _ & _ & _ & _ & E1 & _)| | | | | | | | |t Ht|];
      simpl; try by eauto.
    - rewrite E1. by eauto.
    - destruct Ht as [q m _ Hn _ _ _ _ _|q a m Hq _ _ _ _|q old Ho Ec Eu _ _]; rewrite get_upsert;
        (destruct (decide (_ = k)) as [Ek|]; [|by eauto]); subst k;
        (eexists; split; [done|]).
      + change (get (keyof q) (petitions d1)) with (get (pe_id q) (petitions d1)) in Hg. congruence.
      + match goal with |- pe_coalitionId (stamped_row _ _ ?r) = _ /\ _ =>
          change (pe_coalitionId q = pe_coalitionId p /\ pe_candidateUserId q = pe_candidateUserId p);
          change (keyof r) with (pe_id q) in Hg end.
        by replace p with q by congruence.
      + change (pe_coalitionId q = pe_coalitionId p /\ pe_candidateUserId q = pe_candidateUserId p).
        change (keyof q) with (pe_id q) in Hg. split; congruence. }
  destruct (IH (astep_inv _ _ Hi Hs) _ Hg') as (p'' & ? & ? & ?). exists p''. split_and!; congruence.
Qed.

(** A campaign is never forgotten, moves only forward and keeps its identity. *)
Lemma campaign_persist d d' k c :
  inv d -> G d d' -> get k (campaigns d) = Some c ->
  exists c', get k (campaigns d') = Some c' /\ cp_coalitionId c' = cp_coalitionId c /\
    cp_type c' = cp_type c /\ cp_createdBy c' = cp_createdBy c /\
    rtc campaign_move (cp_status c) (cp_status c').
Proof.
  intros Hi HG. revert c. induction HG as [d|d1 d2 d3 Hs _ IH]; intros c Hg.
  { exists c. by split_and!. }
  assert (exists c', get k (campaigns d2) = Some c' /\ cp_coalitionId c' = cp_coalitionId c /\
    cp_type c' = cp_type c /\ cp_createdBy c' = cp_createdBy c /\
    rtc campaign_move (cp_status c) (cp_status c')) as (c' & Hg' & E1 & E2 & E3 & E4).
  { destruct Hs as [d' (_ & _ & _ & _ & E & _)| | | | |t Ht|t u Ht| | | |];
      try (exists c; by split_and!).
    - rewrite E. exists c. by split_and!.
    - simpl. destruct Ht as [x u m _ Hn _ _ _ _ _ _|x old u m Ho Hl Hc _ _ _|x old Ho Hl Hc]; rewrite get_upsert;
        (destruct (decide (keyof x = k)) as [Ek|]; [|exists c; by split_and!]); subst k;
        change (keyof x) with (cp_id x) in Hg; [congruence| |];
        (assert (old = c) as -> by congruence); destruct Hl as (L1 & L2 & L3 & _);
        (eexists; split; [done|]); split_and!; try done.
      + apply rtc_once. exact Hc.
      + change (rtc campaign_move (cp_status c) (cp_status x)). by rewrite Hc.
    - simpl. destruct Ht as [t x x' _ _ Hx _ _ Eid L1 L2 L3 L4 _ _]. rewrite get_upsert.
      destruct (decide (keyof x' = k)) as [Ek|]; [|exists c; by split_and!].
      pose proof (keyed_get _ _ _ (proj1 (inv_campaigns d1 Hi)) Hx) as Ex.
      change (cp_id x' = k) in Ek. change (ct_campaignId t = cp_id x) in Ex.
      assert (x = c) as -> by congruence. eexists. split; [done|]. split_and!; try done.
      change (rtc campaign_move (cp_status c) (cp_status x')). by rewrite L4. }
  destruct (IH (astep_inv _ _ Hi Hs) _ Hg') as (c'' & ? & ? & ? & ? & ?).
  exists c''. split_and!; try congruence. by etrans.
Qed.

(** ** What lookups return *)

Lemma getCoalition_row k d c : inv d -> getCoalition k d = Some c -> get (co_id c) (coalitions d) = Some c.
Proof.
  intros Hi Hg. apply (keyed_in _ c (proj1 (inv_coalitions d Hi))).
  unfold getCoalition, db_getCoalition in Hg. destruct (get k (coalitions d)) as [x|] eqn:E.
  - injection Hg as ->. by eapply get_in_values.
  - apply getCoalitionBySlug_spec in Hg as [Hg _]. exact Hg.
Qed.

Lemma requirePermission_spec c u p d m :
  requirePermission c u p d = Ok m ->
  activeMembership (co_id c) u d = Some m /\ coalitionRoleCan (mb_role m) p = true.
Proof.
  unfold requirePermission. destruct (activeMembership (co_id c) u d) as [x|]; [|done].
  destruct (coalitionRoleCan (mb_role x) p) eqn:E; [|done]. by intros [= ->].
Qed.

Lemma getCampaign_row k d c :
  inv d -> getCoalitionCampaign k d = Some c -> get (cp_id c) (campaigns d) = Some c /\ k = cp_id c.
Proof.
  intros Hi Hg. pose proof (inv_campaigns d Hi) as (Hk & _).
  split; [apply (keyed_in _ c Hk); by eapply get_in_values|]. exact (keyed_get _ _ _ Hk Hg).
Qed.

(** The guards, as rules for stepping. *)
Lemma g_with_coalition {A} k (f : CoalitionRecord -> H (CoalitionResult A)) s :
  inv s ->
  (forall c, get (co_id c) (coalitions s) = Some c -> safe s (f c s)) ->
  safe s (with_coalition k f s).
Proof.
  intros Hi Hf. unfold with_coalition. apply g_gets.
  destruct (getCoalition k s) as [c|] eqn:E; [|by apply g_ret].
  by eapply Hf, getCoalition_row.
Qed.

Lemma g_unless_stopped {A} c (m : H (CoalitionResult A)) s :
  inv s -> (isStopped c = false -> safe s (m s)) -> safe s (unless_stopped c m s).
Proof. intros Hi Hm. unfold unless_stopped. destruct (isStopped c); [by apply g_ret|auto]. Qed.

Lemma g_with_permission {A} c u p (f : CoalitionMembershipRecord -> H (CoalitionResult A)) s :
  inv s ->
  (forall m, activeMembership (co_id c) u s = Some m -> coalitionRoleCan (mb_role m) p = true ->
     safe s (f m s)) ->
  safe s (with_permission c u p f s).
Proof.
  intros Hi Hf. unfold with_permission. apply g_gets.
  destruct (requirePermission c u p s) as [e|m] eqn:E; [by apply g_ret|].
  apply requirePermission_spec in E as [? ?]. by apply Hf.
Qed.

Lemma g_with_campaign {A} c k (f : CoalitionCampaignRecord -> H (CoalitionResult A)) s :
  inv s ->
  (forall p, get (cp_id p) (campaigns s) = Some p -> k = cp_id p -> cp_coalitionId p = co_id c ->
     safe s (f p s)) ->
  safe s (with_campaign c k f s).
Proof.
  intros Hi Hf. unfold with_campaign. apply g_gets.
  destruct (getCoalitionCampaign k s) as [p|] eqn:E; [|by apply g_ret].
  case_bool_decide as Ec; cbn [negb]; [|by apply g_ret].
  apply getCampaign_row in E as [? ?]; [|done]. by apply Hf.
Qed.

(** ** The drive tasks *)

Lemma decorate_step d c c' :
  get (cp_id c) (campaigns d) = Some c -> cp_id c' = cp_id c -> same_ledger c' c ->
  cp_status c' = cp_status c -> astep d (upsertCoalitionCampaign c' d).1.
Proof. intros Hg Eid Hl Est. apply a_cp. eapply cp_decorate; rewrite ?Eid; eauto. Qed.

Lemma same_ledger_refl_ c : same_ledger c c.
Proof. by split_and!. Qed.

Lemma ok_awardCoalitionKarma e u c r : ok (awardCoalitionKarma e u c r).
Proof. unfold awardCoalitionKarma. repeat keeps_step. Qed.

Lemma ok_pushCoalitionMilestones c : ok (pushCoalitionMilestones c).
Proof. unfold pushCoalitionMilestones. repeat keeps_step. Qed.

Lemma ok_pushCoalitionStatus c st : ok (pushCoalitionStatus c st).
Proof. unfold pushCoalitionStatus. repeat keeps_step. Qed.

(** Writing back the current row of a campaign with another field changed. *)
Lemma ok_decorate {A} k (test : CoalitionCampaignRecord -> bool)
    (f : CoalitionCampaignRecord -> CoalitionCampaignRecord) (r : A) :
  (forall c, cp_id (f c) = cp_id c /\ same_ledger (f c) c /\ cp_status (f c) = cp_status c) ->
  ok (let! current := gets (getCoalitionCampaign k) in
      match current with
      | Some c => if test c then mret r
                  else let! _ := update (upsertCoalitionCampaign (f c)) in mret r
      | None => mret r
      end).
Proof.
  intros Hf s Hi. apply g_gets. destruct (getCoalitionCampaign k s) as [c|] eqn:E; [|by apply g_ret].
  destruct (test c); [by apply g_ret|]. destruct (Hf c) as (E1 & E2 & E3).
  apply getCampaign_row in E as [Hg _]; [|done].
  apply g_update; [done|by eapply decorate_step|]. intros. by apply g_ret.
Qed.

Lemma ok_decorate_if {A} k (test : CoalitionCampaignRecord -> bool)
    (f : CoalitionCampaignRecord -> CoalitionCampaignRecord) (r : A) :
  (forall c, cp_id (f c) = cp_id c /\ same_ledger (f c) c /\ cp_status (f c) = cp_status c) ->
  ok (let! current := gets (getCoalitionCampaign k) in
      match current with
      | Some c => if test c then (let! _ := update (upsertCoalitionCampaign (f c)) in mret r)
                  else mret r
      | None => mret r
      end).
Proof.
  intros Hf s Hi. pose proof (ok_decorate k (fun c => negb (test c)) f r Hf s Hi) as Hd.
  revert Hd. unfold mbind. simpl. destruct (getCoalitionCampaign k s) as [c|]; [|done].
  by destruct (test c).
Qed.

Ltac drive_step :=
  match goal with
  | |- keeps _ _ (mbind (gets (getCoalitionCampaign _)) _) =>
      first [refine (ok_decorate _ _ _ _ _)|refine (ok_decorate_if _ _ _ _ _)]; by intros
  | |- keeps _ _ NOW => refine (keeps_gets _ _ _)
  | _ => keeps_step
  end.

Lemma ok_openSharedOrderWindow c o cl dp : ok (openSharedOrderWindow c o cl dp).
Proof. unfold openSharedOrderWindow. repeat drive_step. Qed.

Lemma ok_openWindowForGoodsDrive c : ok (openWindowForGoodsDrive c).
Proof.
  unfold openWindowForGoodsDrive. destruct (cp_type c), (truthy (cp_endsAt c)); repeat drive_step.
  apply ok_openSharedOrderWindow.
Qed.

Lemma ok_ensureDriveListing c : ok (ensureDriveListing c).
Proof. unfold ensureDriveListing. repeat drive_step. Qed.

Lemma ok_archiveDriveListing c : ok (archiveDriveListing c).
Proof. unfold archiveDriveListing. repeat drive_step. Qed.

Lemma ok_for_each {A} (f : A -> H unit) l : (forall a, ok (f a)) -> ok (for_each f l).
Proof. intros Hf. induction l as [|a l IH]; simpl; repeat keeps_step; auto. Qed.

Lemma ok_withdrawCoalitionListings c : ok (withdrawCoalitionListings c).
Proof.
  unfold withdrawCoalitionListings. keeps_step; [keeps_step|]. apply ok_for_each. intros p.
  keeps_step; [|keeps_step]. apply (keeps_await inv G), ok_archiveDriveListing.
Qed.

(** ** Contributions *)

Lemma find_none_in {A} (f : A -> bool) l x : List.find f l = None -> In x l -> f x = false.
Proof. intros Hf. exact (find_none f l Hf x). Qed.

Lemma given_to_list d c :
  c <> "" -> listCoalitionCampaignContributions (Some c) None None d = given_to c (contributions d).
Proof.
  intros Hc. unfold listCoalitionCampaignContributions, given_to. apply filter_ext. intros t.
  rewrite clause_nonempty by done. simpl. by rewrite !andb_true_r.
Qed.

Lemma campaign_nonempty d c : inv d -> exists_in c (campaigns d) -> c <> "".
Proof.
  intros Hi [x Hx]. pose proof (inv_campaigns d Hi) as (Hk & _ & Hcp & _).
  rewrite (keyed_get _ _ _ Hk Hx : c = cp_id x). eapply (drawn_nonempty "camp_"); [done|].
  eapply Hcp, get_in_values, Hx.
Qed.

(** Recording a contribution is one move: the row and both counters. *)
Lemma contribution_step d c t c' :
  inv d -> get (cp_id c) (campaigns d) = Some c ->
  drawn "coac_" (rng d) (ct_id t) -> get (ct_id t) (contributions d) = None ->
  ct_campaignId t = cp_id c -> ct_coalitionId t = cp_coalitionId c ->
  findCoalitionCampaignContributionByTip (ct_tipId t) d = None ->
  let d1 := (upsertCoalitionCampaignContribution t d).1 in
  let prior := map ct_supporterUserId
    (List.filter (fun r => negb (bool_decide (ct_id r = ct_id t)))
       (listCoalitionCampaignContributions (Some (cp_id c)) None None d1)) in
  c' = with_cp_contributorCount
         (if bool_decide (ct_supporterUserId t ∈ prior)
          then cp_contributorCount c else cp_contributorCount c + 1)%Z
         (with_cp_raisedCents (cp_raisedCents c + ct_amountCents t)%Z c) ->
  astep d (upsertCoalitionCampaign c' d1).1.
Proof.
  intros Hi Hg Hdr Hn Ec Eco Htip d1 prior ->.
  assert (Hne : cp_id c <> "") by (eapply campaign_nonempty; [done|by exists c]).
  assert (Hprior : prior = map ct_supporterUserId (given_to (cp_id c) (contributions d))).
  { unfold prior. rewrite given_to_list by done. subst d1. simpl.
    rewrite given_to_new, bool_decide_eq_true_2, List.filter_app by done. simpl.
    rewrite bool_decide_eq_true_2 by done. simpl. rewrite app_nil_r. f_equal.
    apply filter_true, forallb_forall. intros x [Hx _]%filter_In.
    rewrite negb_true_iff, bool_decide_eq_false. intros E.
    pose proof (keyed_in _ x (proj1 (proj2 (inv_campaigns d Hi))) Hx) as Hgx.
    change (keyof x) with (ct_id x) in Hgx. congruence. }
  match goal with |- astep d (upsertCoalitionCampaign ?C _).1 =>
    apply (a_ct d (upsert (clock d) t (contributions d)) (upsert (clock d) C (campaigns d))) end.
  apply ct_record with c; try done.
  - by rewrite Ec.
  - intros (x & Ex & Hx)%in_map_iff. apply (find_none_in _ _ x) in Htip; [|done].
    by rewrite bool_decide_eq_false in Htip.
  - rewrite Hprior. done.
Qed.

Lemma ok_recordContribution input : ok (recordContribution input).
Proof.
  intros s Hi. unfold recordContribution. apply g_gets.
  destruct (getCoalitionCampaign (rc_campaignId input) s) as [c|] eqn:Ec; [|by apply g_ret].
  apply getCampaign_row in Ec as [Hg _]; [|done]. apply g_gets.
  destruct (findCoalitionCampaignContributionByTip (rc_tipId input) s) as [e|] eqn:Et; [by apply g_ret|].
  apply g_fresh; [done|]. intros Hi1. set (s1 := set_rng (S (rng s)) s) in *.
  set (t := mk_ct ("coac_" +:+ draw (rng s)) (cp_id c) (cp_coalitionId c)
    (rc_supporterUserId input) (rc_tipId input) (rc_amountCents input) (rc_currency input) 0 0).
  assert (Hn : get (ct_id t) (contributions s) = None).
  { apply fresh_get; [apply (inv_campaigns s Hi)|]. intros v Hv.
    by apply (proj1 (proj2 (proj2 (proj2 (inv_campaigns s Hi)))) v) in Hv as [? _]. }
  eapply g_step.
  { eapply (contribution_step s1 c t); try done. apply drawn_next. }
  assert (Hi2 := astep_inv _ _ Hi1 (contribution_step s1 c t _ Hi1 Hg
    (drawn_next "coac_" (rng s)) Hn eq_refl eq_refl Et eq_refl)).
  rewrite bind_update_eq. cbv beta. rewrite bind_gets_eq. cbv beta.
  rewrite bind_update_eq. cbv beta.
  apply g_call; [apply (keeps_spawn inv G), ok_awardCoalitionKarma|exact Hi2|].
  intros _ s3 Hi3 _. apply g_gets. apply g_call; [apply ok_emit|done|]. intros _ s4 Hi4 _.
  apply g_call; [|done|intros _ s5 Hi5 _; by apply g_ret].
  repeat keeps_step. apply ok_emit.
Qed.
End steps.
