(* ===== verification/RefineNetwork.v ===== *)
(** * The service implements the abstract behaviour: the handlers

    One lemma per operation of [coalitionNetworkStore.ts]. *)

From S2P Require Import Prelude JsMap Async CoalitionDomain Money Records Store.
From S2P Require Import Spaces Drives JoinRequirements Relay Slug Network Spec SpecInv Refine.

Section handlers.
Context `{Env} `{!DrawLaws}.

(** A task of the Space mirror, awaited. *)
Ltac await_silent :=
  apply g_call; [apply (keeps_await inv G); auto with blackout typeclass_instances|done|].

Lemma co_edit_step d c old :
  get (co_id c) (coalitions d) = Some old -> co_createdBy c = co_createdBy old ->
  astep d (upsertCoalition c d).1.
Proof. intros. by eapply a_co, co_edit. Qed.

Lemma upsertCoalition_get c d :
  get (co_id c) (coalitions (upsertCoalition c d).1) = Some (upsertCoalition c d).2.
Proof. exact (get_upsert_eq (clock d) (coalitions d) c). Qed.

(** ** Lifecycle *)

Lemma ok_createCoalition input : ok (createCoalition input).
Proof.
  intros s Hi. unfold createCoalition. apply g_fresh; [done|]. intros Hi1. apply g_gets.
  set (s1 := set_rng (S (rng s)) s) in *. set (id := "coa_" +:+ draw (rng s)).
  assert (Hn : get id (coalitions s) = None).
  { apply fresh_get; apply (inv_coalitions s Hi). }
  apply g_update; [done|by apply a_co, co_new; [apply drawn_next|]|]. intros Hi2.
  apply g_fresh; [done|]. intros Hi3.
  match goal with |- guarantees _ _ (set_rng _ ?x) _ _ => set (s2 := x) in * end.
  assert (Hg : exists co, get id (coalitions s2) = Some co /\ co_createdBy co = cc_createdBy input).
  { eexists. split; [exact (upsertCoalition_get _ s1)|done]. }
  destruct Hg as (co & Hg & Eco).
  apply g_update; [done| |].
  { apply a_mb, mb_found with co; [exact Hg|exact Eco|]. intros m Hm E.
    destruct (proj1 (proj2 (inv_memberships s Hi)) m Hm) as [x Hx]. rewrite E in Hx.
    fold id in Hx. congruence. }
  intros Hi4.
  match goal with |- guarantees _ _ ?x _ _ => set (s4 := x) in * end.
  match goal with |- context [provisionCoalitionSpace ?x] => set (row := x) in * end.
  assert (Hg4 : get id (coalitions s4) = Some co) by exact Hg.
  await_silent. intros space s5 Hi5 HG.
  destruct (co_persist _ _ _ _ HG Hg4) as (co' & Hg5 & Eco').
  assert (Hend : forall c, ok (let! _ := emitDomainEvent (ev_created id (cc_createdBy input) (cc_joinMode input)) in
    mret (c : CoalitionRecord, (upsertCoalitionMembership
      (mk_mb ("coam_" +:+ draw (rng s2)) id (cc_createdBy input) founder true 0 0)
      (set_rng (S (rng s2)) s2)).2, (so_ok space, truthy (so_detail space))))).
  { intros c. repeat keeps_step. apply ok_emit. }
  destruct (so_ok space); [|by apply Hend].
  destruct (truthy (so_roomId space)) as [room|]; [|by apply Hend].
  apply g_update; [done| |intros; by apply Hend].
  apply (co_edit_step _ _ co'); [exact Hg5|]. change (cc_createdBy input = co_createdBy co'). congruence.
Qed.

Lemma patched_keeps p c d : co_id (patched p c d) = co_id c /\ co_createdBy (patched p c d) = co_createdBy c.
Proof.
  unfold patched. destruct p as [n m b j t r e]; cbn -[uniqueSlug normalizeJoinRequirements].
  by destruct r, e, t, j, b, m, n.
Qed.

Lemma ok_updateCoalition k a p : ok (updateCoalition k a p).
Proof.
  intros s Hi. apply g_with_coalition; [done|]. intros c Hc. apply g_unless_stopped; [done|]. intros _.
  apply g_with_permission; [done|]. intros _ _ _. apply g_gets.
  destruct (patched_keeps p c s) as [E1 E2].
  apply g_update; [done|by eapply co_edit_step; rewrite ?E1|]. intros Hi1.
  apply g_call; [|done|intros; by apply g_ret].
  repeat keeps_step. apply (keeps_await inv G). auto with blackout typeclass_instances.
Qed.

Lemma ok_takeDownCoalition k a r : ok (takeDownCoalition k a r).
Proof.
  intros s Hi. apply g_with_coalition; [done|]. intros c Hc. case_bool_decide; [by apply g_ret|].
  apply g_gets. apply g_update; [done|by eapply co_edit_step|]. intros Hi1.
  await_silent. intros _ s2 Hi2 _.
  apply g_call; [apply (keeps_spawn inv G), ok_pushCoalitionStatus|done|]. intros _ s3 Hi3 _.
  apply g_call; [apply (keeps_spawn inv G), ok_withdrawCoalitionListings|done|]. intros _ s4 Hi4 _.
  apply g_call; [apply ok_emit|done|]. intros _ s5 Hi5 _. by apply g_ret.
Qed.

Lemma ok_reinstateCoalition k a : ok (reinstateCoalition k a).
Proof.
  intros s Hi. apply g_with_coalition; [done|]. intros c Hc. destruct (negb _); [by apply g_ret|].
  apply g_gets. apply g_update; [done|by eapply co_edit_step|]. intros Hi1.
  apply g_call; [apply (keeps_spawn inv G), ok_pushCoalitionStatus|done|]. intros _ s3 Hi3 _.
  apply g_call; [apply ok_emit|done|]. intros _ s5 Hi5 _. by apply g_ret.
Qed.

Lemma ok_archiveCoalition k a : ok (archiveCoalition k a).
Proof.
  intros s Hi. apply g_with_coalition; [done|]. intros c Hc.
  apply g_with_permission; [done|]. intros _ _ _. destruct (isStopped c); [by apply g_ret|].
  apply g_gets. apply g_update; [done|by eapply co_edit_step|]. intros Hi1.
  apply g_call; [apply (keeps_spawn inv G), ok_withdrawCoalitionListings|done|]. intros _ s4 Hi4 _.
  apply g_call; [apply ok_emit|done|]. intros _ s5 Hi5 _. by apply g_ret.
Qed.

(** ** Membership *)

Lemma activeMembership_same c u d d' : same_tables d d' -> activeMembership c u d' = activeMembership c u d.
Proof. intros (_ & E & _). unfold activeMembership, getCoalitionMembership. by rewrite E. Qed.

(** Admitting into a coalition that exists. *)
Lemma safe_admit {B} c u via (k : CoalitionMembershipRecord -> H B) s :
  inv s -> exists_in (co_id c) (coalitions s) -> (forall a, ok (k a)) ->
  safe s (mbind (await (admitMember c u member via)) k s).
Proof.
  intros Hi Hc Hk.
  assert (Hadm : safe s (admitMember c u member via s)).
  { unfold admitMember. apply g_gets. apply g_id_or; [done|]. intros id s1 Hi1 Hs1.
    apply g_update; [done| |].
    - apply a_mb, mb_join.
      + destruct Hs1 as (E & _). by rewrite E.
      + rewrite (activeMembership_same _ _ _ _ Hs1). unfold activeMembership.
        destruct (getCoalitionMembership (co_id c) u s) as [e|]; [by destruct (mb_active e)|done].
    - intros Hi2. await_silent. intros _ s3 Hi3 _. apply g_call; [apply ok_emit|done|].
      intros _ s4 Hi4 _. by apply g_ret. }
  unfold await. eapply (guarantees_bind inv G _ _ _ (fun _ _ => True)).
  - eapply (guarantees_bind inv G _ _ _ (fun _ _ => True)); [exact Hadm|]. intros a s1 Hi1 _ _.
    apply g_call; [apply (keeps_request inv G)|done|]. intros _ s2 Hi2 _. by apply g_ret.
  - intros a s1 Hi1 _ _. by apply Hk.
Qed.

Lemma jr_step d r : exists_in (jr_coalitionId r) (coalitions d) -> astep d (upsertCoalitionJoinRequest r d).1.
Proof. apply a_jr. Qed.

(** A stored request belongs to a coalition that exists. *)
Lemma request_coalition d c u r :
  inv d -> getCoalitionJoinRequest c u d = Some r -> exists_in (jr_coalitionId r) (coalitions d).
Proof. intros Hi Hg. eapply (proj2 (inv_requests d Hi)), get_in_values, Hg. Qed.

Lemma ok_succeed {A} (a : A) : ok (succeed a).
Proof. apply (keeps_ret inv G). Qed.

Lemma ok_requestJoin k u m : ok (requestJoin k u m).
Proof.
  intros s Hi. apply g_with_coalition; [done|]. intros c Hc. apply g_unless_stopped; [done|]. intros _.
  apply g_gets. case_bool_decide; [by apply g_ret|]. apply g_gets.
  assert (Hex : exists_in (co_id c) (coalitions s)) by (by exists c).
  destruct (match getCoalitionJoinRequest (co_id c) u s with
            | Some e => if bool_decide (jr_status e = req_invited) then Some e else None
            | None => None end) as [e|] eqn:Ee.
  - assert (Hr : getCoalitionJoinRequest (co_id c) u s = Some e).
    { destruct (getCoalitionJoinRequest (co_id c) u s) as [x|]; [|done]. by case_bool_decide; simplify_eq. }
    apply g_gets.
    apply g_update; [done| |].
    + apply jr_step. exact (request_coalition s (co_id c) u e Hi Hr).
    + intros Hi1. apply safe_admit; [done|exact Hex|]. intros a. apply ok_succeed.
  - apply g_gets. apply g_call.
    { apply (keeps_await inv G), evaluateJoinRequirements_silent, _. }
    { done. }
    intros ev s1 Hi1 HG1. pose proof (exists_persist _ _ _ HG1 Hex) as Hex1.
    destruct (_ && _).
    + apply safe_admit; [done|done|]. intros a. apply ok_succeed.
    + apply g_id_or; [done|]. intros i s2 Hi2 (E2 & _).
      apply g_update; [done|apply jr_step; by rewrite E2|]. intros Hi3.
      apply g_call; [apply ok_emit|done|]. intros _ s4 Hi4 _. by apply g_ret.
Qed.

Lemma ok_listJoinRequests k a : ok (listJoinRequests k a).
Proof.
  intros s Hi. apply g_with_coalition; [done|]. intros c Hc.
  apply g_with_permission; [done|]. intros _ _ _. apply g_gets. by apply g_ret.
Qed.

Lemma ok_reviewJoinRequest k a u b : ok (reviewJoinRequest k a u b).
Proof.
  intros s Hi. apply g_with_coalition; [done|]. intros c Hc. apply g_unless_stopped; [done|]. intros _.
  apply g_with_permission; [done|]. intros _ _ _. apply g_gets.
  destruct (getCoalitionJoinRequest (co_id c) u s) as [r|] eqn:Er; [|by apply g_ret].
  destruct (negb _); [by apply g_ret|]. apply g_gets.
  apply g_update; [done|apply jr_step; exact (request_coalition s (co_id c) u r Hi Er)|]. intros Hi1.
  assert (Hex : exists_in (co_id c) (coalitions s)) by (by exists c).
  match goal with |- guarantees _ _ ?x _ _ => set (s1 := x) in * end.
  apply g_call; [apply ok_emit|done|]. intros _ s2 Hi2 HG2.
  destruct (negb b); [by apply g_ret|].
  apply safe_admit; [done|by eapply exists_persist|]. intros m. apply ok_succeed.
Qed.

Lemma ok_withdrawJoinRequest k u : ok (withdrawJoinRequest k u).
Proof.
  intros s Hi. apply g_with_coalition; [done|]. intros c Hc. apply g_gets.
  destruct (getCoalitionJoinRequest (co_id c) u s) as [r|] eqn:Er; [|by apply g_ret].
  destruct (_ && _); [by apply g_ret|].
  apply g_update; [done|apply jr_step; exact (request_coalition s (co_id c) u r Hi Er)|].
  intros. by apply g_ret.
Qed.

Lemma ok_inviteMember k a u : ok (inviteMember k a u).
Proof.
  intros s Hi. apply g_with_coalition; [done|]. intros c Hc. apply g_unless_stopped; [done|]. intros _.
  apply g_with_permission; [done|]. intros _ _ _. apply g_gets. case_bool_decide; [by apply g_ret|].
  apply g_gets. apply g_id_or; [done|]. intros i s1 Hi1 (E1 & _).
  apply g_update; [done|apply jr_step; rewrite E1; by exists c|]. intros Hi2.
  apply g_call; [apply ok_emit|done|]. intros _ s4 Hi4 _. by apply g_ret.
Qed.

(** Revoking links only touches rows that are there. *)
Lemma ok_revokeMemberLinks c p u now : ok (revokeMemberLinks c p u now).
Proof.
  intros s Hi. unfold revokeMemberLinks. apply g_gets.
  set (rows := List.filter _ _).
  assert (Hrows : forall r, In r rows -> exists o, get (keyof r) (memberConnections s) = Some o).
  { intros r [Hr _]%filter_In. unfold listCoalitionMemberConnections in Hr.
    apply filter_In in Hr as [Hr _]. eexists. by apply (keyed_in _ _ (inv_links s Hi)). }
  apply (guarantees_bind inv G _ _ _ (fun _ _ => True)); [|intros _ s1 Hi1 _ _; by apply g_ret].
  clearbody rows. revert s Hi Hrows. induction rows as [|r rows IH]; intros s Hi Hrows; [by apply g_ret|].
  cbn [for_each]. destruct (Hrows r (or_introl eq_refl)) as [o Ho].
  eapply (guarantees_bind inv G _ _ _ (fun _ s' => forall r', In r' rows ->
    exists o, get (keyof r') (memberConnections s') = Some o)).
  - assert (Hst : astep s (upsertCoalitionMemberConnection
      (with_mc_revokedAt (Some now) (with_mc_credentialRef None r)) s).1) by (by apply (a_mc s _ o)).
    split_and!; [by eapply astep_inv|by apply rtc_once|].
    + intros r' Hr'. destruct (Hrows r' (or_intror Hr')) as [o' Ho'].
      destruct (get_upsert_some (clock s) (memberConnections s)
        (with_mc_revokedAt (Some now) (with_mc_credentialRef None r)) _ _ Ho') as [y Hy]. by exists y.
  - intros _ s1 Hi1 _ Hr1. by apply IH.
Qed.

Lemma ok_leaveCoalition k u : ok (leaveCoalition k u).
Proof.
  intros s Hi. apply g_with_coalition; [done|]. intros c Hc. apply g_gets.
  destruct (activeMembership (co_id c) u s) as [m|] eqn:Em; [|by apply g_ret].
  case_bool_decide; [by apply g_ret|].
  destruct (activeMembership_spec s (co_id c) u m Hi) as (_ & E1 & E2 & _); [by exists c|done|].
  apply g_update; [done|apply a_mb, mb_leave; [by rewrite E1, E2|done]|]. intros Hi1.
  await_silent. intros _ s2 Hi2 _. apply g_gets.
  apply g_call; [apply ok_revokeMemberLinks|done|]. intros _ s3 Hi3 _.
  apply g_call; [apply ok_emit|done|]. intros _ s4 Hi4 _. by apply g_ret.
Qed.

Lemma ok_removeMember k a u : ok (removeMember k a u).
Proof.
  intros s Hi. apply g_with_coalition; [done|]. intros c Hc.
  apply g_with_permission; [done|]. intros am Ham _. case_bool_decide; [by apply g_ret|].
  apply g_gets. destruct (activeMembership (co_id c) u s) as [m|] eqn:Em; [|by apply g_ret].
  case_bool_decide as Hrank; [by apply g_ret|].
  destruct (activeMembership_spec s (co_id c) u m Hi) as (_ & E1 & E2 & _); [by exists c|done|].
  apply g_update; [done|apply a_mb, mb_leave; [by rewrite E1, E2|]|].
  { intros E. rewrite E in Hrank. destruct (mb_role am); simpl in Hrank; lia. }
  intros Hi1. await_silent. intros _ s2 Hi2 _. apply g_gets.
  apply g_call; [apply ok_revokeMemberLinks|done|]. intros _ s3 Hi3 _.
  apply g_call; [apply ok_emit|done|]. intros _ s4 Hi4 _. by apply g_ret.
Qed.

Lemma ok_setMemberRole k a u r : ok (setMemberRole k a u r).
Proof.
  intros s Hi. apply g_with_coalition; [done|]. intros c Hc.
  apply g_with_permission; [done|]. intros am Ham Hcan. apply g_gets.
  destruct (activeMembership (co_id c) u s) as [m|] eqn:Em; [|by apply g_ret].
  case_bool_decide as Hnf; [by apply g_ret|].
  case_bool_decide as Hr; cbn [negb]; [|by apply g_ret].
  destruct (_ && _) eqn:Erank; [by apply g_ret|].
  destruct (activeMembership_spec s (co_id c) u m Hi) as (_ & E1 & E2 & _); [by exists c|done|].
  destruct (activeMembership_spec s (co_id c) a am Hi) as (_ & E3 & E4 & _); [by exists c|done|].
  apply g_update; [done|apply a_mb, (mb_assign s m am); try done; [by rewrite E1, E2|by rewrite E1, E4|]|].
  { rewrite andb_false_iff, negb_false_iff, bool_decide_eq_true, bool_decide_eq_false in Erank.
    destruct Erank as [Erank|Erank]; [left; lia|by right]. }
  intros Hi1. await_silent. intros _ s2 Hi2 _.
  apply g_call; [apply ok_emit|done|]. intros _ s4 Hi4 _. by apply g_ret.
Qed.

(** The hand-over itself, for a reason that holds when it is made. *)
Lemma safe_transfer a c u s :
  inv s -> exists_in (co_id c) (coalitions s) -> may_succeed s a (co_id c) u ->
  safe s (transferFounderUnchecked c u s).
Proof.
  intros Hi Hc Hwhy. unfold transferFounderUnchecked. apply g_gets.
  destruct (activeMembership (co_id c) u s) as [t|] eqn:Et; [|by apply g_ret]. apply g_gets.
  assert (Hend : forall o f p, ok (let! _ := await (syncCoalitionRoleToSpace c u founder) in
      let! _ := (match o with
                 | Some o => let! _ := await (syncCoalitionRoleToSpace c (mb_userId o) steward) in mret tt
                 | None => mret tt end) in
      emitDomainEvent (ev_founder_transferred (co_id c) (mb_userId <$> o) u) ;;;
      succeed (f : CoalitionMembershipRecord, p : CoalitionMembershipRecord))).
  { intros o f p. repeat keeps_step; try apply (keeps_await inv G); try apply ok_emit;
      try apply ok_succeed; auto with blackout typeclass_instances. }
  destruct (List.find _ (activeMembers (co_id c) s)) as [o|] eqn:Eo.
  - assert (Hst : astep s (upsertCoalitionMembership (with_mb_role steward o)
        (upsertCoalitionMembership (with_mb_role founder t) s).1).1).
    { eapply (a_mb s), (mb_succeed s a (co_id c) u t (Some o)); eauto. }
    rewrite bind_update_eq. cbv beta. rewrite bind_update_eq. cbv beta.
    eapply g_step; [exact Hst|]. refine (Hend (Some o) _ _ _ _). by eapply astep_inv.
  - assert (Hst : astep s (upsertCoalitionMembership (with_mb_role founder t) s).1).
    { eapply (a_mb s), (mb_succeed s a (co_id c) u t None); eauto. }
    rewrite bind_update_eq. cbv beta.
    eapply g_step; [exact Hst|]. refine (Hend None _ _ _ _). by eapply astep_inv.
Qed.

Lemma ok_transferFounder k a u : ok (transferFounder k a u).
Proof.
  intros s Hi. apply g_with_coalition; [done|]. intros c Hc. apply g_gets.
  destruct (activeMembership (co_id c) a s) as [am|] eqn:Ea; [|by apply g_ret].
  case_bool_decide as Hf; cbn [negb]; [|by apply g_ret]. apply g_gets.
  destruct (activeMembership (co_id c) u s) as [t|] eqn:Et; [|by apply g_ret].
  case_bool_decide as Hne; [by apply g_ret|].
  assert (Hex : exists_in (co_id c) (coalitions s)) by (by exists c).
  destruct (activeMembership_spec s (co_id c) u t Hi Hex Et) as (_ & _ & E2 & _).
  apply (safe_transfer a); [done|done|]. apply (by_founder s a (co_id c) u am); [done|done|congruence].
Qed.

(** ** Campaigns *)

Lemma campaign_fresh s : inv s -> get ("camp_" +:+ draw (rng s)) (campaigns s) = None.
Proof.
  intros Hi. pose proof (inv_campaigns s Hi) as (Hk & _ & Hcp & _).
  apply fresh_get; [done|]. intros v Hv. by apply Hcp in Hv as [? _].
Qed.

Lemma bounty_step id a b c u f g h i j k d : astep d (createBounty id a b c u f g h i j k d).1.
Proof. by apply a_env. Qed.

Lemma ok_launch_tasks c (b : bool) :
  ok (if b then spawn (openWindowForGoodsDrive c) ;;; spawn (ensureDriveListing c) else mret tt).
Proof.
  destruct b; repeat keeps_step; apply (keeps_spawn inv G);
    [apply ok_openWindowForGoodsDrive|apply ok_ensureDriveListing].
Qed.

Lemma ok_createCampaign k a i : ok (createCampaign k a i).
Proof.
  intros s Hi. apply g_with_coalition; [done|]. intros c Hc. apply g_unless_stopped; [done|]. intros _.
  apply g_gets. destruct (activeMembership (co_id c) a s) as [m|] eqn:Em; [|by apply g_ret].
  cbv zeta. apply g_fresh; [done|]. intros Hi1.
  set (s1 := set_rng (S (rng s)) s) in *.
  set (appr := if coalitionRoleCan (mb_role m) campaigns_launch
               then bool_decide (ci_requiresStewardApproval i = Some true) else true).
  set (st := if appr then st_pending_approval else st_active).
  match goal with |- context [upsertCoalitionCampaign ?r] => set (row := r) end.
  apply g_update; [done| |].
  { apply a_cp, (cp_new s1 row a m); try done; [apply drawn_next|exact (campaign_fresh s Hi)|by exists c|].
    unfold row, st, appr. cbn [cp_status cp_type].
    destruct (coalitionRoleCan (mb_role m) campaigns_launch); [|by left].
    case_bool_decide; [by left|right; auto]. }
  intros Hi2. match goal with |- guarantees _ _ ?x _ _ => set (s2 := x) in * end.
  set (saved := (upsertCoalitionCampaign row s1).2).
  assert (Hrow : get (cp_id saved) (campaigns s2) = Some saved).
  { exact (get_upsert_eq (clock s1) (campaigns s1) row). }
  assert (Hend : forall w, ok (
      emitDomainEvent (ev_campaign_created (co_id c) (cp_id saved) (cp_type saved) st (cp_bountyId w)) ;;;
      (if bool_decide (st = st_active) then
         spawn (openWindowForGoodsDrive w) ;;; spawn (ensureDriveListing w) else mret tt) ;;;
      succeed w)).
  { intros w. keeps_step; [apply ok_emit|]. keeps_step; [apply ok_launch_tasks|apply ok_succeed]. }
  destruct (ci_bounty i) as [b|]; [|by apply Hend].
  destruct (_ || _); [|by apply Hend].
  eapply (guarantees_bind inv G _ _ _ (fun _ _ => True)); [|intros w s5 Hi5 _ _; by apply Hend].
  apply g_fresh; [done|]. intros Hi3. apply g_update; [done|apply bounty_step|]. intros Hi4.
  match goal with |- safe ?x _ => set (s4 := x) in * end.
  assert (Hst : astep s4 (upsertCoalitionCampaign (with_cp_bountyId (Some ("bounty_" +:+ draw (rng s2))) saved) s4).1).
  { by apply (decorate_step s4 saved). }
  split_and!; [by eapply astep_inv|by apply rtc_once|done].
Qed.

Lemma ok_getCampaign k c v : ok (getCampaign k c v).
Proof.
  intros s Hi. apply g_with_coalition; [done|]. intros co Hc. apply g_with_campaign; [done|].
  intros p _ _ _. apply g_gets. destruct (_ && _); by apply g_ret.
Qed.

Lemma ok_approveCampaign k a c : ok (approveCampaign k a c).
Proof.
  intros s Hi. apply g_with_coalition; [done|]. intros co Hc.
  apply g_with_permission; [done|]. intros m Hm Hcan. apply g_with_campaign; [done|].
  intros p Hp -> Ep. destruct (canTransitionCampaign (cp_status p) st_active) eqn:Et; cbn [negb];
    [|by apply g_ret].
  apply g_update; [done| |].
  { apply a_cp, (cp_move s _ p a m); try done; [|by right]. cbn. by rewrite Ep. }
  intros Hi1.
  apply g_call; [apply (keeps_spawn inv G), ok_openWindowForGoodsDrive|done|]. intros _ s2 Hi2 _.
  apply g_call; [apply (keeps_spawn inv G), ok_ensureDriveListing|done|]. intros _ s3 Hi3 _.
  apply g_call; [apply ok_emit|done|]. intros _ s4 Hi4 _. by apply g_ret.
Qed.

Lemma moved_keeps to a now c :
  cp_id (moved to a now c) = cp_id c /\ same_ledger (moved to a now c) c /\
  cp_status (moved to a now c) = to.
Proof. by destruct to. Qed.

Lemma ok_spawn_if {A} b (t : H A) : ok t -> ok (spawn_if b t).
Proof. intros Ht. destruct b; [by apply (keeps_spawn inv G)|apply (keeps_ret inv G)]. Qed.

Lemma ok_transitionCampaign k a c to : ok (transitionCampaign k a c to).
Proof.
  intros s Hi. apply g_with_coalition; [done|]. intros co Hc. apply g_gets.
  destruct (activeMembership (co_id co) a s) as [m|] eqn:Em; [|by apply g_ret].
  apply g_with_campaign; [done|]. intros p Hp -> Ep. cbv zeta.
  destruct (bool_decide (to = st_active) && _) eqn:E1; [by apply g_ret|].
  destruct (negb (bool_decide (cp_createdBy p = Some a)) && _) eqn:E2; [by apply g_ret|].
  destruct (canTransitionCampaign (cp_status p) to) eqn:Et; cbn [negb]; [|by apply g_ret].
  apply g_gets. destruct (moved_keeps to a (clock s) p) as (M1 & M2 & M3).
  apply g_update; [done| |].
  { apply a_cp, (cp_move s _ p a m); rewrite ?M1, ?M3; try done.
    - by rewrite (proj1 M2), Ep.
    - intros ->. by destruct (coalitionRoleCan (mb_role m) campaigns_approve).
    - destruct (coalitionRoleCan (mb_role m) campaigns_approve); [by right|left].
      case_bool_decide; done. }
  intros Hi1. match goal with |- safe ?x (?f ?x) => enough (ok f) as Hf by exact (Hf x Hi1) end.
  repeat keeps_step; try apply ok_emit; try apply ok_succeed; try apply ok_spawn_if;
    try apply (keeps_spawn inv G); try apply ok_openWindowForGoodsDrive;
    try apply ok_ensureDriveListing; try apply ok_archiveDriveListing;
    try apply ok_awardCoalitionKarma; try apply ok_pushCoalitionMilestones.
Qed.

(** ** Boosts and relays *)

Lemma relay_step s s1 i u parent author note src :
  inv s -> s1 = set_rng (S (rng s)) s ->
  (forall p, parent = Some p -> In p (values (relayEdges s))) ->
  snd (nextChainDepth parent) = true ->
  let id := uuid (rng s) in
  astep s1 (upsertRelayEdge (mk_re id u src i (re_id <$> parent)
    (match parent with Some p => re_rootRelayId p | None => id end)
    (fst (nextChainDepth parent)) author note true 0 0) s1).1.
Proof.
  intros Hi -> Hp Hlim id. pose proof (inv_relays s Hi) as Hr. apply a_re.
  - intros _. split; [exists (rng s); split; [simpl; lia|done]|].
    intros (e & Eid & He)%in_map_iff. destruct (ri_ids s Hr e He) as (n & Hn & En).
    simpl in Eid. rewrite En in Eid. apply uuid_inj in Eid. lia.
  - simpl in *. apply bool_decide_eq_true in Hlim. split; [|done].
    destruct parent as [p|]; [|lia]. pose proof (ri_depth s Hr p (Hp p eq_refl)). lia.
  - intros q. simpl. destruct parent as [p|]; simpl; [|done]. intros [= <-].
    apply in_map_iff. eauto.
Qed.

Lemma ok_relaySubject other i : ok (relaySubject other i).
Proof.
  intros s Hi. unfold relaySubject. apply g_gets.
  destruct (resolveSubject other _ _ s) as [card|]; [|by apply g_ret].
  assert (Hwrite : forall parent, (forall p, parent = Some p -> In p (values (relayEdges s))) ->
    safe s ((let '(depth, withinLimit) := nextChainDepth parent in
      if negb withinLimit then mret (Err chain_too_deep)
      else
        let! id := randomUUID in
        let! record := update (upsertRelayEdge
          (mk_re id (rl_relayerUserId i) (rl_subjectSource i) (rl_subjectId i) (re_id <$> parent)
             (match parent with Some p => re_rootRelayId p | None => id end)
             depth (card_authorId card) (trimmed_note (rl_note i)) true 0 0)) in
        mret (Ok record)) s)).
  { intros parent Hp. destruct (nextChainDepth parent) as [depth lim] eqn:En.
    destruct lim; cbn [negb]; [|by apply g_ret].
    eapply g_step; [apply draw_step|]. unfold randomUUID. rewrite bind_update_eq. cbv beta.
    apply g_update; [eapply astep_inv; [exact Hi|apply draw_step]| |intros; by apply g_ret].
    pose proof (relay_step s _ (rl_subjectId i) (rl_relayerUserId i) parent (card_authorId card)
      (trimmed_note (rl_note i)) (rl_subjectSource i) Hi eq_refl Hp) as Hs.
    rewrite En in Hs. by apply Hs. }
  destruct (truthy (rl_viaRelayId i)) as [via|]; [|by refine (Hwrite None _)].
  unfold mbind at 1 2. cbn [obind gets].
  destruct (getRelayEdge via s) as [p|] eqn:Ep; [|by apply g_ret].
  destruct (_ || _); [by apply g_ret|].
  refine (Hwrite (Some p) _). intros ? [= <-]. by apply getRelayEdge_in in Ep as [? _].
Qed.

Lemma ok_set_relay_active v r u : ok (set_relay_active v r u).
Proof.
  intros s Hi. unfold set_relay_active. apply g_gets.
  destruct (getRelayEdge r s) as [e|] eqn:Ee; [|by apply g_ret].
  apply getRelayEdge_in in Ee as [Hin _]. destruct (negb _); [by apply g_ret|].
  pose proof (inv_relays s Hi) as [K I U D P].
  apply g_update; [done| |intros; by apply g_ret]. apply a_re.
  - change (keyof (with_re_active v e)) with (keyof e). rewrite (keyed_in _ _ K Hin). discriminate.
  - exact (D e Hin).
  - intros p Ep. destruct (P e p Hin Ep) as (x & ? & ?). apply in_map_iff. eauto.
Qed.

Lemma count_by_le {A} (p q : A -> bool) l :
  (forall a, p a = true -> q a = true) -> (count_by p l <= count_by q l)%Z.
Proof.
  intros Hpq. apply sum_by_le. intros a _. specialize (Hpq a). destruct (p a), (q a); naive_solver lia.
Qed.

Lemma clause_refl f x : f = Some x -> clause f x = true.
Proof.
  intros ->. unfold clause, truthy. destruct (decide (x = "")); [done|]. by apply bool_decide_eq_true.
Qed.

(** The listings the handler counts bound the boosts the rules count. *)
Lemma spent_le u day d :
  (count_by (spent_on u day) (values (boosts d)) <=
   Z.of_nat (length (listCoalitionBoosts None None (Some u) (Some day) d)))%Z.
Proof.
  unfold listCoalitionBoosts. rewrite <-count_by_filter. apply count_by_le. intros b.
  unfold spent_on. rewrite !andb_true_iff, !bool_decide_eq_true. intros [-> ->].
  split_and!; try done. by apply clause_refl.
Qed.

Lemma boosted_le c u day d :
  (count_by (boosts_once c u day) (values (boosts d)) <=
   Z.of_nat (length (listCoalitionBoosts (Some c) None (Some u) (Some day) d)))%Z.
Proof.
  unfold listCoalitionBoosts. rewrite <-count_by_filter. apply count_by_le. intros b.
  unfold boosts_once, spent_on. rewrite !andb_true_iff, !bool_decide_eq_true. intros (-> & -> & ->).
  split_and!; try done; by apply clause_refl.
Qed.

Lemma ok_boostCampaign k a c now : ok (boostCampaign k a c now).
Proof.
  intros s Hi. apply g_with_coalition; [done|]. intros co Hc. apply g_unless_stopped; [done|]. intros _.
  apply g_with_campaign; [done|]. intros p Hp -> Ep.
  case_bool_decide as Hact; cbn [negb]; [|by apply g_ret]. cbv zeta. apply g_gets. apply g_gets.
  case_bool_decide as Hmine; [by apply g_ret|]. case_bool_decide as Hleft; [by apply g_ret|].
  apply g_fresh; [done|]. intros Hi1.
  apply g_update; [done| |].
  { apply a_bo, bo_boost with p; [exact Hp|exact Hact|exact Ep| |].
    - cbn [bo_userId bo_day]. unfold boostAllowanceRemaining in Hleft.
      pose proof (spent_le a (utcDayOf now) s). simpl in *. lia.
    - cbn [bo_userId bo_day bo_campaignId]. pose proof (boosted_le (cp_id p) a (utcDayOf now) s).
      pose proof (count_by_nonneg (boosts_once (cp_id p) a (utcDayOf now)) (values (boosts s))).
      simpl in *. lia. }
  intros Hi2. apply g_call; [apply ok_relaySubject|done|]. intros _ s3 Hi3 _. apply g_gets.
  apply g_call; [apply ok_emit|done|]. intros _ s4 Hi4 _. by apply g_ret.
Qed.

Lemma ok_raiseAidPost k a i : ok (raiseAidPost k a i).
Proof.
  intros s Hi. apply g_with_coalition; [done|]. intros c Hc. apply g_unless_stopped; [done|]. intros _.
  apply g_gets. destruct (activeMembership (co_id c) a s) as [m|] eqn:Em;
    (case_bool_decide; [by apply g_ret|]); [|done].
  apply g_gets. destruct (List.find _ _) as [post|]; [|by apply g_ret]. apply g_gets. apply g_gets.
  destruct (List.find _ _) as [e|]; [by apply g_ret|].
  apply g_fresh; [done|]. intros Hi1.
  apply g_update; [done| |].
  { apply a_cp. match goal with |- cp_step ?d (upsert _ ?r _) => apply (cp_new d r a m) end; try done.
    - apply drawn_next.
    - exact (campaign_fresh s Hi).
    - by exists c.
    - right. split; [done|by right]. }
  intros Hi2. apply g_call; [apply ok_emit|done|]. intros _ s4 Hi4 _. by apply g_ret.
Qed.

Lemma ok_listAmplifiedAid k now : ok (listAmplifiedAid k now).
Proof.
  intros s Hi. apply g_with_coalition; [done|]. intros c _. apply g_gets. by apply g_ret.
Qed.

(** ** Succession *)

Lemma openPetition_row c d p :
  inv d -> getOpenCoalitionSuccessionPetition c d = Some p ->
  In p (values (petitions d)) /\ get (pe_id p) (petitions d) = Some p /\ open_for c p = true.
Proof.
  intros Hi [Hin Ho]%find_some. split_and!; [done| |done].
  exact (keyed_in _ _ (proj1 (inv_petitions d Hi)) Hin).
Qed.

Lemma ok_openSuccessionPetition k a r : ok (openSuccessionPetition k a r).
Proof.
  intros s Hi. apply g_with_coalition; [done|]. intros c Hc. apply g_unless_stopped; [done|]. intros _.
  apply g_with_permission; [done|]. intros m Hm Hcan. apply g_gets.
  destruct (getOpenCoalitionSuccessionPetition (co_id c) s) as [x|] eqn:Eo;
    (case_bool_decide; [by apply g_ret|]); [done|].
  apply g_fresh; [done|]. intros Hi1.
  pose proof (inv_petitions s Hi) as (Hk & Hd & _ & _).
  apply g_update; [done| |].
  { apply a_pe. match goal with |- pe_step ?d (upsert _ ?r _) => apply (pe_opened d r m) end; try done.
    - apply drawn_next.
    - cbn [pe_id]. apply (fresh_get "csuc_" (rng s) (petitions s)); [done|]. intros v Hv. by apply Hd in Hv as [? _].
    - by exists c.
    - apply count_by_zero. intros p Hp. exact (find_none_in _ _ p Eo Hp). }
  intros Hi2. apply g_call; [apply ok_emit|done|]. intros _ s4 Hi4 _. by apply g_ret.
Qed.

Lemma pe_close_step d p old :
  get (pe_id p) (petitions d) = Some old -> pe_coalitionId p = pe_coalitionId old ->
  pe_candidateUserId p = pe_candidateUserId old -> pe_status p <> suc_open -> fair_backing p ->
  astep d (upsertCoalitionSuccessionPetition p d).1.
Proof. intros. by eapply a_pe, pe_closed. Qed.

(** Adding a second keeps the backing fair. *)
Lemma fair_add p a :
  fair_backing p -> a <> pe_candidateUserId p ->
  let l := if bool_decide (a ∈ pe_secondedBy p) then pe_secondedBy p else pe_secondedBy p ++ [a] in
  NoDup l /\ (pe_candidateUserId p ∉ l) /\ forall b, b ∈ l -> b ∈ pe_secondedBy p \/ b = a.
Proof.
  intros [Hnd Hni] Hne. case_bool_decide as Ha; [by split_and!; auto|].
  split_and!.
  - apply NoDup_app. split_and!; [done| |apply NoDup_singleton].
    intros x Hx ->%list_elem_of_singleton. done.
  - rewrite elem_of_app, list_elem_of_singleton. intros [?|?]; [done|congruence].
  - intros b. rewrite elem_of_app, list_elem_of_singleton. tauto.
Qed.

Lemma ok_secondSuccessionPetition k a : ok (secondSuccessionPetition k a).
Proof.
  intros s Hi. apply g_with_coalition; [done|]. intros c Hc. apply g_unless_stopped; [done|]. intros _.
  apply g_with_permission; [done|]. intros m Hm Hcan. apply g_gets.
  destruct (getOpenCoalitionSuccessionPetition (co_id c) s) as [p|] eqn:Eo; [|by apply g_ret].
  apply openPetition_row in Eo as (Hin & Hg & Hopen); [|done].
  pose proof Hopen as Hopen'. unfold open_for in Hopen'.
  rewrite andb_true_iff, !bool_decide_eq_true in Hopen'. destruct Hopen' as [Epc Eps].
  case_bool_decide as Hne; [by apply g_ret|]. cbv zeta. apply g_gets.
  pose proof (fair_add p a (proj2 (proj2 (proj2 (inv_petitions s Hi))) p Hin)) as Hfair.
  fold (seconders_with a p) in Hfair |- *. cbv zeta in Hfair. set (l := seconders_with a p) in *.
  destruct Hfair as (F1 & F2 & F3); [congruence|].
  destruct (successionQuorumMet l _) eqn:Eq; cbn [negb].
  - eapply (guarantees_bind inv G _ _ _ (fun _ _ => True)).
    + unfold await. eapply (guarantees_bind inv G _ _ _ (fun _ _ => True)).
      * apply (safe_transfer a); [done|by exists c|].
        by apply (by_petition s a (co_id c) _ p m).
      * intros r s1 Hi1 _ _. apply g_call; [apply (keeps_request inv G)|done|].
        intros _ s2 Hi2 _. by apply g_ret.
    + intros r s1 Hi1 HG _. destruct r as [e|r]; [by apply g_ret|]. apply g_gets.
      destruct (pe_persist _ _ _ _ Hi HG Hg) as (old & Hold & Ec & Eu).
      apply g_update; [done| |].
      { by apply (pe_close_step s1 _ old). }
      intros Hi2. apply g_call; [apply ok_emit|done|]. intros _ s4 Hi4 _. by apply g_ret.
  - apply g_update; [done| |intros; by apply g_ret].
    apply a_pe, (pe_seconded s p a m); try done; first [by rewrite Epc|congruence].
Qed.

Lemma ok_withdrawSuccessionPetition k a : ok (withdrawSuccessionPetition k a).
Proof.
  intros s Hi. apply g_with_coalition; [done|]. intros c Hc. apply g_gets.
  destruct (getOpenCoalitionSuccessionPetition (co_id c) s) as [p|] eqn:Eo; [|by apply g_ret].
  apply openPetition_row in Eo as (Hin & Hg & Hopen); [|done].
  destruct (negb _); [by apply g_ret|]. apply g_gets.
  apply g_update; [done| |intros; by apply g_ret].
  apply (pe_close_step s _ p); try done. exact (proj2 (proj2 (proj2 (inv_petitions s Hi))) p Hin).
Qed.

Lemma ok_getSuccessionPetition k : ok (getSuccessionPetition k).
Proof.
  intros s Hi. apply g_with_coalition; [done|]. intros c Hc. apply g_gets. apply g_gets. by apply g_ret.
Qed.
End handlers.
