(* ===== verification/RefinePayees.v ===== *)
(** * The service implements the abstract behaviour: setting payees

    [setCampaignPayees] deactivates the payees no longer named and writes a row
    for each named one; the whole is one move: the campaign's active shares total
    one hundred percent when it ends, and no other campaign's payees change. *)

From S2P Require Import Prelude JsMap Async CoalitionDomain Money Records Store.
From S2P Require Import Drives Relay Slug Network Spec SpecInv Refine.

(** ** The two loops as functions of the table *)

Definition drop_unnamed (now : Z) (named : list string) (rows : list CoalitionCampaignPayeeRecord)
    (t : jsmap CoalitionCampaignPayeeRecord) : jsmap CoalitionCampaignPayeeRecord :=
  fold_left (fun t r => if negb (bool_decide (py_userId r ∈ named)) && py_active r
                        then upsert now (with_py_active false r) t else t) rows t.

Section payees.
Context `{Env} `{!DrawLaws}.

Definition payee_row (n : nat) (cid coid : string) (e : PayeeInput) : CoalitionCampaignPayeeRecord :=
  mk_py ("cpay_" +:+ draw n) cid coid (pi_userId e) (default 0%Z (as_integer (pi_shareBps e)))
    (pi_role e) true 0 0.

Fixpoint put_named (now : Z) (n : nat) (cid coid : string) (es : list PayeeInput)
    (t : jsmap CoalitionCampaignPayeeRecord) : jsmap CoalitionCampaignPayeeRecord :=
  match es with
  | [] => t
  | e :: es => put_named now (S n) cid coid es (upsert now (payee_row n cid coid e) t)
  end.

Lemma drop_loop named rows s :
  for_each (fun existing =>
      if negb (bool_decide (py_userId existing ∈ named)) && py_active existing
      then let! _ := update (upsertCoalitionCampaignPayee (with_py_active false existing)) in mret tt
      else mret tt) rows s =
  Done (set_payees (drop_unnamed (clock s) named rows (payees s)) s) tt.
Proof.
  revert s. induction rows as [|r rows IH]; intros s; [by destruct s|]. cbn [for_each drop_unnamed fold_left].
  unfold mbind at 1. destruct (_ && _); cbn [mret obind]; [|apply IH].
  unfold mbind. cbn [obind update mret]. rewrite IH. by destruct s.
Qed.

Lemma put_loop cid coid es s :
  exists saved, length saved = length es /\
  map_each (fun entry =>
      let! id := newPayeeId in
      update (upsertCoalitionCampaignPayee
        (mk_py id cid coid (pi_userId entry)
           (default 0%Z (as_integer (pi_shareBps entry))) (pi_role entry) true 0 0))) es s =
  Done (set_rng (rng s + length es) (set_payees (put_named (clock s) (rng s) cid coid es (payees s)) s)) saved.
Proof.
  revert s. induction es as [|e es IH]; intros s.
  - exists []. split; [done|]. cbn [map_each put_named]. unfold mret.
    replace (rng s + length (@nil PayeeInput)) with (rng s) by (simpl; lia). by destruct s.
  - set (u := upsertCoalitionCampaignPayee (payee_row (rng s) cid coid e) (set_rng (S (rng s)) s)).
    destruct (IH u.1) as (saved & Hl & E). exists (u.2 :: saved). split; [simpl; by rewrite Hl|].
    match type of E with map_each ?f _ _ = _ => transitivity
      (obind (map_each f es u.1) (fun bs => mret (u.2 :: bs))); [reflexivity|] end.
    rewrite E. cbn [obind mret length put_named].
    replace (rng s + S (length es)) with (rng u.1 + length es) by (simpl; lia). reflexivity.
Qed.

(** ** What one write leaves alone *)

Lemma paid_upsert_other now v t x :
  py_campaignId v <> x ->
  (forall o, get (keyof v) t = Some o -> py_campaignId o <> x) ->
  paid x (upsert now v t) = paid x t.
Proof.
  intros Hv Ho. unfold paid, upsert. set (f := fun r => _).
  assert (Hnew : f (stamped_row now t v) = false).
  { unfold f. change (py_campaignId (stamped_row now t v)) with (py_campaignId v).
    by rewrite bool_decide_eq_false_2. }
  destruct (get (keyof v) t) as [o|] eqn:Eg.
  - destruct (values_set_old (keyof v) (stamped_row now t v) o t Eg) as (l1 & l2 & -> & ->).
    assert (Hold : f o = false) by (unfold f; by rewrite bool_decide_eq_false_2 by auto).
    rewrite !List.filter_app. cbn [List.filter]. by rewrite Hnew, Hold.
  - rewrite values_set_new by done. rewrite List.filter_app. cbn [List.filter].
    by rewrite Hnew, app_nil_r.
Qed.

Context (cid : string).

(** Rows of campaign [cid] are filed under keys of [cid], and only they are. *)
Definition separated (t : jsmap CoalitionCampaignPayeeRecord) : Prop :=
  keyed t /\ forall r u, In r (values t) -> keyof r = pair_key cid u ->
    py_campaignId r = cid /\ py_userId r = u.

Lemma separated_upsert now v t :
  colon_free cid -> separated t -> py_campaignId v = cid -> separated (upsert now v t).
Proof.
  intros Hcf [Hk Hs] Ev. split; [by apply keyed_upsert|].
  intros r u [->|[Hr _]]%in_upsert Er; [|by apply Hs|done]. split; [done|].
  change (pair_key (py_campaignId v) (py_userId v) = pair_key cid u) in Er. rewrite Ev in Er.
  by apply pair_key_inj in Er as [_ ?].
Qed.

Lemma paid_upsert_same now v t x :
  separated t -> py_campaignId v = cid -> x <> cid -> paid x (upsert now v t) = paid x t.
Proof.
  intros [Hk Hs] Ev Hx. apply paid_upsert_other; [congruence|]. intros o Ho.
  pose proof (keyed_get _ _ _ Hk Ho) as Ek.
  destruct (Hs o (py_userId v)) as [-> _]; [by eapply get_in_values| |congruence].
  rewrite <-Ek. change (pair_key (py_campaignId v) (py_userId v) = pair_key cid (py_userId v)).
  by rewrite Ev.
Qed.

(** ** After both loops *)

(** [t'] differs from [t] only in rows of campaign [cid]. *)
Definition within (t t' : jsmap CoalitionCampaignPayeeRecord) : Prop :=
  separated t' /\ (forall x, x <> cid -> paid x t' = paid x t) /\
  (forall r, In r (values t') -> py_campaignId r = cid \/ In r (values t)).

Lemma within_refl t : separated t -> within t t.
Proof. intros Hs. split_and!; auto. Qed.

Lemma within_upsert now v t t' :
  colon_free cid -> within t t' -> py_campaignId v = cid -> within t (upsert now v t').
Proof.
  intros Hcf (Hs & Hp & Hi) Ev. split_and!.
  - by apply separated_upsert.
  - intros x Hx. rewrite paid_upsert_same by done. auto.
  - intros r [->|[Hr _]]%in_upsert; [by left|by apply Hi|apply Hs].
Qed.

Lemma drop_within now named rows t t' :
  colon_free cid -> (forall r, In r rows -> py_campaignId r = cid) -> within t t' ->
  within t (drop_unnamed now named rows t').
Proof.
  intros Hcf. revert t'. induction rows as [|r rows IH]; intros t' Hr Hw; [done|].
  cbn [drop_unnamed fold_left]. apply IH; [intros; apply Hr; by right|].
  destruct (_ && _); [|done]. apply within_upsert; [done|done|]. apply (Hr r). by left.
Qed.

Lemma put_within now n coid es t t' :
  colon_free cid -> within t t' -> within t (put_named now n cid coid es t').
Proof.
  intros Hcf. revert n t'. induction es as [|e es IH]; intros n t' Hw; [done|].
  cbn [put_named]. apply IH. by apply within_upsert.
Qed.

(** After the first loop only named users are still paid. *)
Lemma drop_paid now named rows t :
  separated t -> colon_free cid ->
  (forall r, In r rows -> py_campaignId r = cid) ->
  (forall r, In r (paid cid t) -> py_userId r ∈ named \/ In r rows) ->
  NoDup (map keyof rows) -> (forall r, In r rows -> In r (values t)) ->
  forall r, In r (paid cid (drop_unnamed now named rows t)) -> py_userId r ∈ named.
Proof.
  intros Hs Hcf. revert t Hs. induction rows as [|r0 rows IH]; intros t Hs Hc Hp Hnd Hin r Hr.
  - destruct (Hp r Hr) as [?|[]]. done.
  - cbn [drop_unnamed fold_left] in Hr. cbn [map] in Hnd. apply NoDup_cons in Hnd as [Hn0 Hnd].
    assert (Hkey : forall x, In x rows -> keyof x <> keyof r0).
    { intros x Hx E. apply Hn0. rewrite <-E. apply list_elem_of_In. by apply in_map. }
    destruct (negb (bool_decide (py_userId r0 ∈ named)) && py_active r0) eqn:Ec.
    + eapply (IH (upsert now (with_py_active false r0) t)); [| | | | |exact Hr].
      * apply separated_upsert; [done|done|]. apply (Hc r0). by left.
      * intros x Hx. apply Hc. by right.
      * intros x [Hx Ex]%filter_In. apply in_upsert in Hx as [->|[Hx Hne]]; [| |apply Hs].
        -- simpl in Ex. by rewrite andb_false_r in Ex.
        -- destruct (Hp x) as [?|[->|?]]; [by apply filter_In|by left|done|by right].
      * done.
      * intros x Hx. apply in_upsert_other; [apply Hs|apply Hin; by right|]. by apply Hkey.
    + eapply (IH t); [done| | |done| |exact Hr].
      * intros x Hx. apply Hc. by right.
      * intros x Hx. destruct (Hp x Hx) as [?|[->|?]]; [by left| |by right]. left.
        apply filter_In in Hx as [_ Hx]. apply andb_true_iff in Hx as [_ Hact].
        rewrite Hact, andb_true_r, negb_false_iff, bool_decide_eq_true in Ec. done.
      * intros x Hx. apply Hin. by right.
Qed.

(** The second loop: where each key ends up. *)
Lemma put_get now n coid es t k :
  colon_free cid -> NoDup (map pi_userId es) ->
  (forall e, In e es -> k = pair_key cid (pi_userId e) ->
     exists r, get k (put_named now n cid coid es t) = Some r /\ py_active r = true /\
       py_campaignId r = cid /\ py_userId r = pi_userId e /\
       py_shareBps r = default 0%Z (as_integer (pi_shareBps e))) /\
  ((forall e, In e es -> k <> pair_key cid (pi_userId e)) ->
     get k (put_named now n cid coid es t) = get k t).
Proof.
  intros Hcf. revert n t. induction es as [|e0 es IH]; intros n t Hnd; [by split|].
  cbn [map] in Hnd. apply NoDup_cons in Hnd as [Hn0 Hnd].
  destruct (IH (S n) (upsert now (payee_row n cid coid e0) t) Hnd) as [IH1 IH2]. split.
  - intros e [->|He] Ek; [|by apply IH1]. cbn [put_named]. rewrite IH2.
    + subst k. change (pair_key cid (pi_userId e)) with (keyof (payee_row n cid coid e)).
      rewrite get_upsert_eq. by eexists.
    + intros e' He' E. apply Hn0. rewrite Ek in E. apply pair_key_inj in E as [_ ->]; [|done..].
      apply list_elem_of_In. by apply in_map.
  - intros Hk. cbn [put_named]. rewrite IH2 by (intros; apply Hk; by right).
    apply get_upsert_ne. intros E. by apply (Hk e0); [left|].
Qed.
End payees.

(** ** The handler *)

Section handler.
Context `{Env} `{!DrawLaws}.

Lemma share_total_sum l t :
  share_total l = Some t ->
  t = sum_by (fun x => default 0%Z (as_integer x)) l /\
  forall x, In x l -> (0 <= default 0 (as_integer x))%Z.
Proof.
  revert t. induction l as [|x l IH]; intros t; simpl; [by intros [= <-]|].
  destruct (as_integer x) as [n|] eqn:Ex; [|done]. destruct (share_total l) as [t'|]; [|done].
  case_bool_decide as Hn; [|done]. intros [= <-]. destruct (IH t' eq_refl) as [-> Hl].
  rewrite sum_by_cons, Ex. split; [done|]. intros y [<-|Hy]; [by rewrite Ex|by apply Hl].
Qed.

Definition entry_share (e : PayeeInput) : Z := default 0%Z (as_integer (pi_shareBps e)).

Lemma valid_entries es :
  campaignPayeeSharesAreValid (map (fun r => (pi_shareBps r, true)) es) = true ->
  es <> [] /\ sum_by entry_share es = CAMPAIGN_PAYEE_BPS_DENOMINATOR /\
  forall e, In e es -> (0 <= entry_share e)%Z.
Proof.
  unfold campaignPayeeSharesAreValid. rewrite filter_true by (apply forallb_forall; intros ? (? & <- & _)%in_map_iff; done).
  destruct es as [|e0 es]; [done|]. set (l := e0 :: es).
  assert (Hl : map fst (map (fun r => (pi_shareBps r, true)) l) = map pi_shareBps l)
    by (rewrite map_map; done).
  change (match map (fun r => (pi_shareBps r, true)) l with
          | [] => false
          | _ :: _ => bool_decide (share_total (map fst (map (fun r => (pi_shareBps r, true)) l)) = Some CAMPAIGN_PAYEE_BPS_DENOMINATOR)
          end) with (bool_decide (share_total (map fst (map (fun r => (pi_shareBps r, true)) l)) = Some CAMPAIGN_PAYEE_BPS_DENOMINATOR)).
  rewrite Hl, bool_decide_eq_true. intros [E Hpos]%share_total_sum. split_and!; [done| |].
  - rewrite E. unfold entry_share. clear. induction l as [|x l IH]; [done|]. cbn [map].
    by rewrite !sum_by_cons, IH.
  - intros e He. apply Hpos. by apply in_map.
Qed.

(** The entries that pass: distinct users, each a member or the beneficiary. *)
Lemma resolve_payees_spec co cp acc todo d es :
  resolve_payees co cp acc todo d = Ok es ->
  let good u := activeMembership (co_id co) u d <> None \/ cp_beneficiaryUserId cp = Some u in
  NoDup (map pi_userId acc) -> (forall e, In e acc -> good (pi_userId e)) ->
  NoDup (map pi_userId es) /\ (forall e, In e es -> good (pi_userId e)).
Proof.
  intros Hr good. revert acc Hr. induction todo as [|e todo IH]; intros acc; cbn [resolve_payees].
  - by intros [= ->].
  - destruct (truthy _) as [u|]; [|done]. destruct (_ && _) eqn:Eg; [done|].
    destruct (bool_decide (u ∈ _)) eqn:Hd; [done|]. rewrite bool_decide_eq_false in Hd.
    intros Hr Hnd Hgood. eapply IH; [exact Hr| |].
    + rewrite map_app. apply NoDup_app. split_and!; [done| |apply NoDup_singleton].
      intros x Hx ->%list_elem_of_singleton. done.
    + intros x [Hx|[<-|[]]]%in_app_iff; [by apply Hgood|]. unfold good. cbn [pi_userId].
      rewrite andb_false_iff, negb_false_iff, bool_decide_eq_false, bool_decide_eq_true in Eg. tauto.
Qed.

(** They are the entries given, each under the account it names. *)
Lemma resolve_payees_order co cp acc todo d es :
  resolve_payees co cp acc todo d = Ok es ->
  map pi_shareBps es = map pi_shareBps acc ++ map pi_shareBps todo /\
  map (fun e => Some (pi_userId e)) es =
  map (fun e => Some (pi_userId e)) acc ++ map (fun e => resolveBlackoutUserId (pi_userId e) d) todo.
Proof.
  revert acc. induction todo as [|e todo IH]; intros acc; cbn [resolve_payees].
  - intros [= ->]. by rewrite !app_nil_r.
  - destruct (truthy _) as [u|] eqn:Eu; [|done]. destruct (_ && _); [done|].
    destruct (bool_decide (u ∈ _)); [done|]. intros [-> ->]%IH.
    assert (E : resolveBlackoutUserId (pi_userId e) d = Some u).
    { revert Eu. unfold truthy. destruct (resolveBlackoutUserId _ d) as [x|]; [|done].
      destruct (decide _); [done|]. by intros [= ->]. }
    rewrite !map_app, <-!app_assoc. cbn [map pi_shareBps pi_userId app]. by rewrite E.
Qed.

(** The payees of one campaign after a write of [es], seen as users and shares. *)
Lemma paid_after c t t' es now n coid :
  within c t t' -> colon_free c -> NoDup (map pi_userId es) ->
  (forall r, In r (paid c t') -> py_userId r ∈ map pi_userId es) ->
  let t'' := put_named now n c coid es t' in
  Permutation (map (fun r => (py_userId r, py_shareBps r)) (paid c t''))
              (map (fun e => (pi_userId e, entry_share e)) es).
Proof.
  intros Hw Hcf Hnd Hnamed t''.
  assert (Hw' : within c t t'') by (by apply put_within).
  destruct Hw' as ([Hk'' Hs''] & _ & _). destruct Hw as ([Hk' Hs'] & _ & _).
  assert (Hrow : forall r, In r (paid c t'') -> exists e, In e es /\
            (py_userId r, py_shareBps r) = (pi_userId e, entry_share e)).
  { intros r [Hr Ec]%filter_In. rewrite andb_true_iff, bool_decide_eq_true in Ec. destruct Ec as [Ec Ea].
    pose proof (keyed_in _ _ Hk'' Hr) as Hg.
    destruct (put_get c now n coid es t' (keyof r) Hcf Hnd) as [P1 P2].
    destruct (decide (py_userId r ∈ map pi_userId es)) as [Hu|Hu].
    - apply list_elem_of_In, in_map_iff in Hu as (e & Eu & He).
      destruct (P1 e He) as (r' & Hg' & _ & _ & Eu' & Es').
      { change (pair_key (py_campaignId r) (py_userId r) = pair_key c (pi_userId e)). by rewrite Ec, Eu. }
      fold t'' in Hg'. assert (r' = r) as -> by congruence. exists e. split; [done|].
      unfold entry_share. by rewrite Eu, Es'.
    - exfalso. apply Hu, Hnamed. apply filter_In.
      rewrite Ea, andb_true_r, bool_decide_eq_true. split; [|done].
      eapply (get_in_values (keyof r)). fold t'' in P2. rewrite <-P2; [done|].
      intros e He E. apply Hu. change (pair_key (py_campaignId r) (py_userId r) = pair_key c (pi_userId e)) in E.
      rewrite Ec in E. apply pair_key_inj in E as [_ ->]; [|done..]. apply list_elem_of_In. by apply in_map. }
  assert (Hndr : NoDup (map py_userId (paid c t''))).
  { assert (Hkn : NoDup (map keyof (paid c t''))).
    { apply NoDup_map_filter. destruct Hk'' as [Hn Hf]. unfold values. rewrite map_map.
      rewrite <-(map_ext_in fst); [by apply NoDup_ListNoDup|].
      intros kv Hkv. by apply (proj1 (List.Forall_forall _ _) Hf). }
    apply NoDup_map_via with (g := keyof) (h := pair_key c); [|done].
    intros r [_ Ec]%filter_In. rewrite andb_true_iff, bool_decide_eq_true in Ec. destruct Ec as [<- _]. done. }
  apply NoDup_Permutation.
  - apply (NoDup_map_fst (fun r : CoalitionCampaignPayeeRecord => py_userId r)); done.
  - by apply (NoDup_map_fst pi_userId).
  - intros [u sh]. rewrite !list_elem_of_In, !in_map_iff. split.
    + intros (r & <- & Hr). destruct (Hrow r Hr) as (e & He & Ee). eauto.
    + intros (e & <- & He).
      destruct (proj1 (put_get c now n coid es t' _ Hcf Hnd) e He eq_refl) as (r & Hg & Ha & Ec & Eu & Es).
      exists r. split; [unfold entry_share; by rewrite Eu, Es|]. apply filter_In.
      split; [by eapply get_in_values|]. by rewrite Ha, Ec, bool_decide_eq_true_2.
Qed.

Lemma campaign_colon_free d c : inv d -> exists_in c (campaigns d) -> colon_free c.
Proof.
  intros Hi [x Hx]. pose proof (inv_campaigns d Hi) as (Hk & _ & Hcp & _).
  rewrite (keyed_get _ _ _ Hk Hx : c = cp_id x). eapply drawn_colon_free; [apply camp_colon_free|].
  eapply Hcp, get_in_values, Hx.
Qed.

Lemma payees_separated d c : inv d -> exists_in c (campaigns d) -> separated c (payees d).
Proof.
  intros Hi Hc. destruct (inv_payees d Hi) as (Hk & Href & _). split; [done|]. intros r u Hr E.
  apply pair_key_inj in E; [done|by eapply campaign_colon_free, Href|by eapply campaign_colon_free].
Qed.

Lemma payee_rows d c :
  c <> "" ->
  listCoalitionCampaignPayees (Some c) None None d =
  List.filter (fun r => bool_decide (py_campaignId r = c)) (values (payees d)).
Proof.
  intros Hc. unfold listCoalitionCampaignPayees. apply filter_ext. intros r.
  rewrite clause_nonempty by done. simpl. by rewrite !andb_true_r.
Qed.

(** The two loops, over the campaign [p] of [c]. *)
Definition payees_set (c : CoalitionRecord) (p : CoalitionCampaignRecord) (es : list PayeeInput) (s : db) :
    jsmap CoalitionCampaignPayeeRecord :=
  put_named (clock s) (rng s) (cp_id p) (co_id c) es
    (drop_unnamed (clock s) (map pi_userId es)
       (listCoalitionCampaignPayees (Some (cp_id p)) None None s) (payees s)).

(** What they leave: the campaign pays exactly the entries, the others as before. *)
Lemma payees_result s c p es :
  inv s -> get (cp_id p) (campaigns s) = Some p -> NoDup (map pi_userId es) ->
  let t := payees_set c p es s in
  within (cp_id p) (payees s) t /\
  Permutation (map (fun r => (py_userId r, py_shareBps r)) (paid (cp_id p) t))
              (map (fun e => (pi_userId e, entry_share e)) es).
Proof.
  intros Hi Hp Hnd t. set (rows := listCoalitionCampaignPayees (Some (cp_id p)) None None s).
  assert (Hex : exists_in (cp_id p) (campaigns s)) by (by exists p).
  pose proof (campaign_colon_free s _ Hi Hex) as Hcf. pose proof (payees_separated s _ Hi Hex) as Hsep.
  assert (Hrows : rows = List.filter (fun r => bool_decide (py_campaignId r = cp_id p)) (values (payees s)))
    by (apply payee_rows; by eapply campaign_nonempty).
  assert (Hrc : forall r, In r rows -> In r (values (payees s)) /\ py_campaignId r = cp_id p).
  { intros r Hr. rewrite Hrows in Hr. apply filter_In in Hr as [? E]. by apply bool_decide_eq_true in E. }
  set (t1 := drop_unnamed (clock s) (map pi_userId es) rows (payees s)).
  assert (Hw1 : within (cp_id p) (payees s) t1).
  { apply drop_within; [done| |by apply within_refl]. intros r Hr. by apply Hrc. }
  assert (Hnamed : forall r, In r (paid (cp_id p) t1) -> py_userId r ∈ map pi_userId es).
  { apply drop_paid; [done|done|intros r Hr; by apply Hrc| | |intros r Hr; by apply Hrc].
    - intros r [Hr E]%filter_In. right. rewrite Hrows. apply filter_In.
      rewrite andb_true_iff in E. by destruct E.
    - rewrite Hrows. apply NoDup_map_filter. destruct Hsep as [[Hn Hf] _]. unfold values. rewrite map_map.
      rewrite <-(map_ext_in fst); [by apply NoDup_ListNoDup|].
      intros kv Hkv. by apply (proj1 (List.Forall_forall _ _) Hf). }
  assert (Hw : within (cp_id p) (payees s) t) by (by apply put_within).
  split; [done|].
  exact (paid_after (cp_id p) (payees s) t1 es (clock s) (rng s) (co_id c) Hw1 Hcf Hnd Hnamed).
Qed.

(** Both loops together are one move. *)
Lemma payees_step s c p es :
  inv s -> get (cp_id p) (campaigns s) = Some p -> cp_coalitionId p = co_id c ->
  NoDup (map pi_userId es) ->
  (forall e, In e es -> activeMembership (co_id c) (pi_userId e) s <> None \/
     cp_beneficiaryUserId p = Some (pi_userId e)) ->
  campaignPayeeSharesAreValid (map (fun r => (pi_shareBps r, true)) es) = true ->
  astep s (set_payees (payees_set c p es s) s).
Proof.
  intros Hi Hp Ep Hnd Hgood Hv. destruct (payees_result s c p es Hi Hp Hnd) as [Hw Hperm].
  cbv zeta in *. set (t := payees_set c p es s) in *.
  destruct (valid_entries es Hv) as (Hne & Hsum & Hpos).
  destruct Hw as ([Hk _] & Hother & Hin).
  apply a_py, py_set with p; try done.
  - intros E. rewrite E in Hperm. by apply Permutation_nil, map_eq_nil in Hperm.
  - right. split.
    + rewrite <-Hsum. transitivity (sum_by snd (map (fun r => (py_userId r, py_shareBps r)) (paid (cp_id p) t))).
      { by rewrite sum_by_map. }
      rewrite (sum_by_perm _ _ _ Hperm). by rewrite sum_by_map.
    + intros r Hr. apply (in_map (fun r => (py_userId r, py_shareBps r))) in Hr.
      apply (Permutation_in _ Hperm), in_map_iff in Hr as (e & [= _ <-] & He). by apply Hpos.
  - intros r Hr. apply (in_map (fun r => (py_userId r, py_shareBps r))) in Hr.
    apply (Permutation_in _ Hperm), in_map_iff in Hr as (e & [= <- _] & He). rewrite Ep. by apply Hgood.
Qed.

Lemma ok_setCampaignPayees k a c ps : ok (setCampaignPayees k a c ps).
Proof.
  intros s Hi. apply g_with_coalition; [done|]. intros co Hc. apply g_unless_stopped; [done|]. intros _.
  apply g_with_permission; [done|]. intros m Hm Hcan. apply g_with_campaign; [done|]. intros p Hp -> Ep.
  apply g_gets. destruct (resolve_payees co p [] ps s) as [e|es] eqn:Er; [by apply g_ret|].
  destruct (campaignPayeeSharesAreValid _) eqn:Ev; cbn [negb]; [|by apply g_ret]. cbv zeta. apply g_gets.
  apply resolve_payees_spec in Er as [Hnd Hgood]; [|constructor|done].
  pose proof (payees_step s co p es Hi Hp Ep Hnd Hgood Ev) as Hst. unfold payees_set in Hst.
  unfold mbind at 1. rewrite drop_loop. cbn [obind].
  set (s1 := set_payees (drop_unnamed _ _ _ _) s) in *.
  unfold mbind at 1. destruct (put_loop (cp_id p) (co_id co) es s1) as (saved & _ & ->). cbn [obind].
  eapply g_step; [exact Hst|]. eapply g_step; [by apply (a_env _ (set_rng (rng s + length es) (set_payees
     (put_named (clock s) (rng s) (cp_id p) (co_id co) es
        (drop_unnamed (clock s) (map pi_userId es)
           (listCoalitionCampaignPayees (Some (cp_id p)) None None s) (payees s))) s))); [|simpl; lia]|].
  apply g_call; [apply ok_emit| |intros _ s4 Hi4 _; by apply g_ret].
  eapply astep_inv; [eapply astep_inv; [exact Hi|exact Hst]|]. by apply a_env; [|simpl; lia].
Qed.
End handler.
