(* ===== verification/Safety.v ===== *)
(** * What holds in every run of the service

    [api] is everything a client can ask for; [reachable] are the stores the event
    loop can produce from the empty one, under any interleaving of any number of
    handlers, with any answers from outside and any changes other modules make to
    their own tables in between. *)

From S2P Require Import Prelude JsMap Async CoalitionDomain Money Records Store.
From S2P Require Import Drives JoinRequirements Relay Slug Network Spec SpecInv Refine RefineNetwork RefinePayees.

Definition call {A} (m : H A) : H unit := let! _ := m in mret tt.

Section runs.
Context `{Env}.

Inductive api : H unit -> Prop :=
  | api_createCoalition i : api (call (createCoalition i))
  | api_updateCoalition k a p : api (call (updateCoalition k a p))
  | api_takeDownCoalition k a r : api (call (takeDownCoalition k a r))
  | api_reinstateCoalition k a : api (call (reinstateCoalition k a))
  | api_archiveCoalition k a : api (call (archiveCoalition k a))
  | api_requestJoin k u m : api (call (requestJoin k u m))
  | api_listJoinRequests k a : api (call (listJoinRequests k a))
  | api_reviewJoinRequest k a u b : api (call (reviewJoinRequest k a u b))
  | api_withdrawJoinRequest k u : api (call (withdrawJoinRequest k u))
  | api_inviteMember k a u : api (call (inviteMember k a u))
  | api_leaveCoalition k u : api (call (leaveCoalition k u))
  | api_removeMember k a u : api (call (removeMember k a u))
  | api_setMemberRole k a u r : api (call (setMemberRole k a u r))
  | api_transferFounder k a u : api (call (transferFounder k a u))
  | api_createCampaign k a i : api (call (createCampaign k a i))
  | api_getCampaign k c v : api (call (getCampaign k c v))
  | api_approveCampaign k a c : api (call (approveCampaign k a c))
  | api_transitionCampaign k a c t : api (call (transitionCampaign k a c t))
  | api_boostCampaign k a c now : api (call (boostCampaign k a c now))
  | api_raiseAidPost k a i : api (call (raiseAidPost k a i))
  | api_listAmplifiedAid k now : api (call (listAmplifiedAid k now))
  | api_openSuccessionPetition k a r : api (call (openSuccessionPetition k a r))
  | api_secondSuccessionPetition k a : api (call (secondSuccessionPetition k a))
  | api_withdrawSuccessionPetition k a : api (call (withdrawSuccessionPetition k a))
  | api_getSuccessionPetition k : api (call (getSuccessionPetition k))
  | api_setCampaignPayees k a c ps : api (call (setCampaignPayees k a c ps))
  | api_recordContribution i : api (call (recordContribution i))
  | api_relaySubject o i : api (call (relaySubject o i))
  | api_withdrawRelay r u : api (call (withdrawRelay r u))
  | api_reinstateRelay r u : api (call (reinstateRelay r u)).

(** What the rest of the process may do between segments: move the clock, draw
    ids, change the tables of other modules. *)
Definition outside (d d' : db) : Prop := same_tables d d' /\ rng d <= rng d'.

Definition reachable (d : db) : Prop :=
  exists ts, rtc (sys_step api outside) (Sys empty_db []) (Sys d ts).

(** A later store of a run that goes on. *)
Definition leads_to (d d' : db) : Prop :=
  exists ts ts', rtc (sys_step api outside) (Sys empty_db []) (Sys d ts) /\
                 rtc (sys_step api outside) (Sys d ts) (Sys d' ts').

Context `{!DrawLaws}.

Lemma ok_call {A} (m : H A) : ok m -> ok (call m).
Proof. intros Hm. unfold call. by repeat keeps_step. Qed.

Lemma ok_api h : api h -> ok h.
Proof.
  destruct 1; apply ok_call; first
    [ apply ok_createCoalition | apply ok_updateCoalition | apply ok_takeDownCoalition
    | apply ok_reinstateCoalition | apply ok_archiveCoalition | apply ok_requestJoin
    | apply ok_listJoinRequests | apply ok_reviewJoinRequest | apply ok_withdrawJoinRequest
    | apply ok_inviteMember | apply ok_leaveCoalition | apply ok_removeMember
    | apply ok_setMemberRole | apply ok_transferFounder | apply ok_createCampaign
    | apply ok_getCampaign | apply ok_approveCampaign | apply ok_transitionCampaign
    | apply ok_boostCampaign | apply ok_raiseAidPost | apply ok_listAmplifiedAid
    | apply ok_openSuccessionPetition | apply ok_secondSuccessionPetition
    | apply ok_withdrawSuccessionPetition | apply ok_getSuccessionPetition
    | apply ok_setCampaignPayees | apply ok_recordContribution | apply ok_relaySubject
    | apply ok_set_relay_active ].
Qed.

Lemma outside_step d d' : inv d -> outside d d' -> inv d' /\ rtc astep d d'.
Proof.
  intros Hi [Hs Hn]. assert (Ha : astep d d') by (by apply a_env).
  split; [by eapply astep_inv|by apply rtc_once].
Qed.

Lemma run_moves c c' :
  rtc (sys_step api outside) c c' -> sys_ok inv (rtc astep) c ->
  sys_ok inv (rtc astep) c' /\ rtc astep (store c) (store c').
Proof. apply (reachable_guarantee inv (rtc astep)); [apply ok_api|apply outside_step]. Qed.

Lemma start_ok : sys_ok (E := req) inv (rtc astep) (Sys empty_db []).
Proof. split; [apply inv_empty|constructor]. Qed.

Lemma reachable_inv d : reachable d -> inv d.
Proof. intros [ts Hr]. by destruct (run_moves _ _ Hr start_ok) as [[Hi _] _]. Qed.

Lemma leads_to_moves d d' : leads_to d d' -> inv d /\ rtc astep d d'.
Proof.
  intros (ts & ts' & Hr1 & Hr2). destruct (run_moves _ _ Hr1 start_ok) as [Hok _].
  destruct (run_moves _ _ Hr2 Hok) as [_ HG]. split; [apply Hok|exact HG].
Qed.
End runs.

(** ** The founder over time *)

Definition isFounder `{Env} (c u : string) (d : db) : bool :=
  match activeMembership c u d with
  | Some m => bool_decide (mb_role m = founder)
  | None => false
  end.

(** ** A sample run *)

Section sample.
#[local] Existing Instance sample_env.
#[local] Existing Instance sample_laws.

(** One call, run to its first suspension; its tasks stay suspended. *)
Definition calls (hs : list (H unit)) (d : db) : db :=
  fold_left (fun d h => fst (settle (h d))) hs d.

Definition new_coalition (u nm : string) : CreateCoalitionInput :=
  Build_CreateCoalitionInput nm "to help" None join_open None None u.

Definition new_campaign (t : CampaignType) : CreateCampaignInput :=
  Build_CreateCampaignInput t "Winter coats" "for everyone" (Some 50000%Z) None None None None None
    None None None None None.

Definition coa : string := "coa_".
Definition camp : string := "camp_aaaa".

(** Ada founds a coalition and invites Bea, who joins; Ada launches a drive and makes
    Bea a steward; its shares are set; Dot gives, Cyd boosts; Bea petitions for the
    lead. *)
Definition sample_first : list (H unit) :=
  [ call (createCoalition (new_coalition "ada" "Coats & Co"));
    call (inviteMember coa "ada" "bea");
    call (requestJoin coa "bea" None);
    call (createCampaign coa "ada" (new_campaign type_drive));
    call (setMemberRole coa "ada" "bea" steward);
    call (setCampaignPayees coa "ada" camp
      [ Build_PayeeInput "ada" (jint 2500) "lead"; Build_PayeeInput "bea" (jint 7500) "sewing" ]);
    call (recordContribution (Build_RecordContributionInput camp "dot" "tip1" 1000 "usd"));
    call (boostCampaign coa "cyd" camp 86400000) ].

Definition sample_last : list (H unit) :=
  [ call (openSuccessionPetition coa "bea" "Ada is away") ].

Definition users_of (l : list string) : jsmap UserRecord := map (fun u => (u, mk_us u u 0 None)) l.

Definition sample_start : db :=
  mk_db 1000 0 (users_of ["ada"; "bea"; "cyd"; "dot"]) [] [] [] [] [] [] [] [] [] [] [] [] [] [] [].

(** The store before and after the last call. *)
Definition sample_before : db := calls sample_first sample_start.
Definition sample_db : db := calls sample_last sample_before.

Lemma sample_start_run : rtc (sys_step api outside) (Sys empty_db []) (Sys sample_start []).
Proof. apply rtc_once, step_drift. split; [by split_and!|simpl; lia]. Qed.

Lemma calls_run hs d ts :
  Forall api hs -> exists ts', rtc (sys_step api outside) (Sys d ts) (Sys (calls hs d) ts').
Proof.
  intros Hf. revert d ts. induction Hf as [|h hs Hh _ IH]; intros d ts; [by exists ts|].
  destruct (settle (h d)) as [d' ts1] eqn:E.
  destruct (IH d' (ts ++ ts1)) as [ts' Hr]. exists ts'. eapply rtc_l; [by eapply step_call|].
  cbn [calls fold_left]. by rewrite E.
Qed.

Lemma sample_first_api : Forall api sample_first.
Proof. repeat constructor. Qed.

Lemma sample_last_api : Forall api sample_last.
Proof. repeat constructor. Qed.

Lemma sample_leads : leads_to sample_before sample_db.
Proof.
  destruct (calls_run sample_first sample_start [] sample_first_api) as [ts1 H1].
  destruct (calls_run sample_last sample_before ts1 sample_last_api) as [ts2 H2].
  exists ts1, ts2. split; [exact (transitivity sample_start_run H1)|exact H2].
Qed.

(** Ada then hands the coalition over. *)
Definition sample_handover : list (H unit) := [ call (transferFounder coa "ada" "bea") ].
Definition sample_later : db := calls sample_handover sample_db.

Lemma sample_handover_api : Forall api sample_handover.
Proof. repeat constructor. Qed.

Lemma sample_leads_on : leads_to sample_db sample_later.
Proof.
  destruct sample_leads as (ts & ts' & H1 & H2).
  destruct (calls_run sample_handover sample_db ts' sample_handover_api) as [ts3 H3].
  exists ts', ts3. split; [exact (transitivity H1 H2)|exact H3].
Qed.

Lemma sample_reachable : reachable sample_db.
Proof.
  destruct sample_leads as (ts & ts' & H1 & H2). exists ts'.
  exact (transitivity H1 H2).
Qed.
End sample.

(** ** Theorems *)

Section theorems.
Context `{Env} `{!DrawLaws}.

(** C1 (refinement): whatever handlers run, however their segments interleave and
    whatever the outside answers, the store only moves by the abstract rules and
    satisfies the invariant at every point where another handler can run. *)
Theorem network_refinement d d' :
  leads_to d d' -> inv d /\ rtc astep d d' /\ inv d'.
Proof.
  intros Hl. destruct (leads_to_moves _ _ Hl) as [Hi HG]. split_and!; [done|done|].
  by eapply asteps_inv.
Qed.

(** C36 (invariant): at every moment a coalition has at most one active founder. *)
Theorem one_founder d c :
  reachable d -> In c (values (coalitions d)) ->
  length (List.filter (fun m => bool_decide (mb_role m = founder)) (activeMembers (co_id c) d)) <= 1.
Proof.
  intros Hi%reachable_inv Hc. pose proof (inv_coalitions d Hi) as Hco.
  assert (Hne : co_id c <> "").
  { eapply coalition_nonempty; [exact Hco|]. exists c. by apply (keyed_in _ c (proj1 Hco)). }
  pose proof (proj2 (proj2 (inv_memberships d Hi)) (co_id c)) as Hone.
  rewrite count_by_filter in Hone.
  assert (E : List.filter (fun m => bool_decide (mb_role m = founder)) (activeMembers (co_id c) d) =
              List.filter (founds (co_id c)) (values (memberships d))).
  { unfold activeMembers, listCoalitionMemberships. rewrite !filter_filter. apply filter_ext.
    intros m. rewrite clause_nonempty by done. unfold founds. simpl.
    destruct (bool_decide (mb_coalitionId m = co_id c)), (mb_active m); done. }
  rewrite E. lia.
Qed.

(** C8 (invariant): a campaign's public counters always agree with its rows:
    [raisedCents] is the sum of its recorded contributions, [contributorCount] the
    number of distinct supporters, and no tip is ever counted twice. *)
Theorem contribution_ledger d c :
  reachable d -> In c (values (campaigns d)) ->
  let given := listCoalitionCampaignContributions (Some (cp_id c)) None None d in
  cp_raisedCents c = sum_by ct_amountCents given /\
  cp_contributorCount c = distinct (map ct_supporterUserId given) /\
  List.NoDup (map ct_tipId (values (contributions d))).
Proof.
  intros Hi%reachable_inv Hc. pose proof (inv_campaigns d Hi) as (Hk & _ & _ & _ & Htip & Hbal).
  assert (Hne : cp_id c <> "").
  { eapply campaign_nonempty; [exact Hi|]. exists c. exact (keyed_in _ c Hk Hc). }
  cbv zeta. rewrite given_to_list by done. destruct (Hbal c Hc). done.
Qed.

(** Over any run a campaign keeps its coalition, its type and its
    creator, its status only moves along the published transitions, and once it is
    completed or cancelled it stays so. *)
Theorem campaign_history d d' id c :
  leads_to d d' -> getCoalitionCampaign id d = Some c ->
  exists c', getCoalitionCampaign id d' = Some c' /\
    cp_coalitionId c' = cp_coalitionId c /\ cp_type c' = cp_type c /\
    cp_createdBy c' = cp_createdBy c /\
    rtc campaign_move (cp_status c) (cp_status c') /\
    (closed (cp_status c) -> cp_status c' = cp_status c).
Proof.
  intros [Hi HG]%leads_to_moves Hg.
  destruct (campaign_persist d d' id c Hi HG Hg) as (c' & Hg' & E1 & E2 & E3 & Hm).
  exists c'. split_and!; try done. intros Hc. by apply closed_final.
Qed.

(** C38 (bounds): nobody ever spends more than the daily allowance of boosts, and
    nobody boosts one campaign twice on one day. *)
Theorem boost_quotas d u day c :
  reachable d -> u <> "" -> c <> "" ->
  (Z.of_nat (length (listCoalitionBoosts None None (Some u) (Some day) d)) <= boostDailyAllowance)%Z /\
  length (listCoalitionBoosts (Some c) None (Some u) (Some day) d) <= 1.
Proof.
  intros Hi%reachable_inv Hu Hc. destruct (inv_boosts d Hi) as (_ & Hday & Honce).
  pose proof (Hday u day) as H1'. pose proof (Honce c u day) as H2'.
  rewrite count_by_filter in H1', H2'.
  assert (E1 : listCoalitionBoosts None None (Some u) (Some day) d =
               List.filter (spent_on u day) (values (boosts d))).
  { apply filter_ext. intros b. by rewrite !clause_nonempty. }
  assert (E2 : listCoalitionBoosts (Some c) None (Some u) (Some day) d =
               List.filter (boosts_once c u day) (values (boosts d))).
  { apply filter_ext. intros b. rewrite !clause_nonempty by done.
    unfold boosts_once, spent_on. simpl. by rewrite andb_true_r, andb_assoc. }
  rewrite E1, E2. split; [done|lia].
Qed.

(** The payees of a campaign are none, or their shares make the
    whole and a contribution divides among them to the cent. *)
Theorem payees_divide d c net :
  reachable d -> In c (values (campaigns d)) -> (0 < net)%Z ->
  let ps := listCampaignPayees (cp_id c) d in
  ps <> [] ->
  sum_by py_shareBps ps = CAMPAIGN_PAYEE_BPS_DENOMINATOR /\
  sum_by snd (allocatePayeeCents net (map payee_share_of ps)) = net.
Proof.
  intros Hi%reachable_inv Hc Hnet ps. pose proof (inv_campaigns d Hi) as (Hk & _).
  assert (Hne : cp_id c <> "").
  { eapply campaign_nonempty; [exact Hi|]. exists c. exact (keyed_in _ c Hk Hc). }
  assert (E : ps = paid (cp_id c) (payees d)).
  { unfold ps, listCampaignPayees. rewrite payee_rows, filter_filter by done. done. }
  rewrite E. clear E ps. intros Hps. destruct (inv_payees d Hi) as (_ & _ & Hw).
  destruct (Hw (cp_id c)) as [|[Hsum Hpos]]; [done|]. split; [done|].
  set (ps := paid _ _) in *.
  assert (Hf : List.filter ps_active (map payee_share_of ps) = map payee_share_of ps).
  { apply filter_true, forallb_forall. intros x (r & <- & Hr)%in_map_iff. unfold ps, paid in Hr.
    apply filter_In in Hr as [_ Hr]. apply andb_true_iff in Hr as [_ Hr]. exact Hr. }
  apply allocatePayeeCents_sum; rewrite ?Hf; [done|by destruct ps| |by rewrite sum_by_map].
  rewrite Forall_map. by apply Forall_forall; intros r Hr; apply Hpos, list_elem_of_In.
Qed.

(** A coalition has at most one open petition, whose candidate never
    seconds it and whose seconders are counted once. *)
Theorem petitions_fair d c p :
  reachable d ->
  length (List.filter (open_for c) (values (petitions d))) <= 1 /\
  (In p (values (petitions d)) -> NoDup (pe_secondedBy p) /\ pe_candidateUserId p ∉ pe_secondedBy p).
Proof.
  intros Hi%reachable_inv. destruct (inv_petitions d Hi) as (_ & _ & Hone & Hfair).
  pose proof (Hone c) as Hc. rewrite count_by_filter in Hc. split; [lia|apply Hfair].
Qed.

End theorems.

(** ** Witnesses, on the sample run *)

Section witnesses.
#[local] Existing Instance sample_env.
#[local] Existing Instance sample_laws.

Definition sample_coalition : CoalitionRecord :=
  Eval vm_compute in
    match values (coalitions sample_db) with
    | c :: _ => c
    | [] => mk_co "" "" "" "" None join_open None None None None "" None None None None None 0 0
    end.

Definition sample_campaign : CoalitionCampaignRecord :=
  Eval vm_compute in
    match values (campaigns sample_db) with
    | c :: _ => c
    | [] => mk_cp "" "" type_drive "" "" None None 0 0 st_active false None None None None None
              None None None None None None 0 0
    end.

Definition sample_petition : CoalitionSuccessionPetitionRecord :=
  Eval vm_compute in
    match values (petitions sample_db) with
    | p :: _ => p
    | [] => mk_pe "" "" "" "" "" [] suc_open None None 0 0
    end.

Lemma network_refinement_witness :
  leads_to sample_before sample_db /\
  length (values (petitions sample_before)) = 0 /\ length (values (petitions sample_db)) = 1 /\
  inv sample_before /\ rtc astep sample_before sample_db /\ inv sample_db.
Proof.
  split; [exact sample_leads|]. do 2 (split; [vm_compute; reflexivity|]).
  apply network_refinement. exact sample_leads.
Defined.

Lemma one_founder_witness :
  co_name sample_coalition = "Coats & Co" /\
  length (activeMembers (co_id sample_coalition) sample_db) = 2 /\
  length (List.filter (fun m => bool_decide (mb_role m = founder))
            (activeMembers (co_id sample_coalition) sample_db)) <= 1.
Proof.
  do 2 (split; [vm_compute; reflexivity|]).
  apply one_founder; [exact sample_reachable|vm_compute; left; reflexivity].
Defined.

Lemma contribution_ledger_witness :
  cp_raisedCents sample_campaign = 1000%Z /\
  let given := listCoalitionCampaignContributions (Some (cp_id sample_campaign)) None None sample_db in
  cp_raisedCents sample_campaign = sum_by ct_amountCents given /\
  cp_contributorCount sample_campaign = distinct (map ct_supporterUserId given) /\
  List.NoDup (map ct_tipId (values (contributions sample_db))).
Proof.
  split; [vm_compute; reflexivity|].
  apply contribution_ledger; [exact sample_reachable|vm_compute; left; reflexivity].
Defined.

Lemma campaign_history_witness :
  exists c', getCoalitionCampaign camp sample_db = Some c' /\
    cp_coalitionId c' = cp_coalitionId sample_campaign /\
    cp_type c' = cp_type sample_campaign /\
    cp_createdBy c' = cp_createdBy sample_campaign /\
    rtc campaign_move (cp_status sample_campaign) (cp_status c') /\
    (closed (cp_status sample_campaign) -> cp_status c' = cp_status sample_campaign).
Proof.
  apply (campaign_history sample_before sample_db); [exact sample_leads|vm_compute; reflexivity].
Defined.

Lemma boost_quotas_witness :
  length (listCoalitionBoosts (Some camp) None (Some "cyd") (Some 1%Z) sample_db) = 1 /\
  (Z.of_nat (length (listCoalitionBoosts None None (Some "cyd") (Some 1%Z) sample_db))
     <= boostDailyAllowance)%Z /\
  length (listCoalitionBoosts (Some camp) None (Some "cyd") (Some 1%Z) sample_db) <= 1.
Proof.
  split; [vm_compute; reflexivity|].
  apply boost_quotas; [exact sample_reachable|discriminate|discriminate].
Defined.

Lemma payees_divide_witness :
  allocatePayeeCents 1001 (map payee_share_of (listCampaignPayees (cp_id sample_campaign) sample_db))
    = [("ada", 250%Z); ("bea", 751%Z)] /\
  sum_by py_shareBps (listCampaignPayees (cp_id sample_campaign) sample_db)
    = CAMPAIGN_PAYEE_BPS_DENOMINATOR /\
  sum_by snd (allocatePayeeCents 1001
    (map payee_share_of (listCampaignPayees (cp_id sample_campaign) sample_db))) = 1001%Z.
Proof.
  split; [vm_compute; reflexivity|].
  apply payees_divide; [exact sample_reachable|vm_compute; left; reflexivity|lia|].
  vm_compute. discriminate.
Defined.

Lemma petitions_fair_witness :
  pe_candidateUserId sample_petition = "bea" /\
  length (List.filter (open_for coa) (values (petitions sample_db))) <= 1 /\
  (In sample_petition (values (petitions sample_db)) ->
   NoDup (pe_secondedBy sample_petition) /\
   pe_candidateUserId sample_petition ∉ pe_secondedBy sample_petition).
Proof.
  split; [vm_compute; reflexivity|]. apply petitions_fair. exact sample_reachable.
Defined.
End witnesses.
