(* ===== verification/Succession.v ===== *)
(** * How the founder role passes

    Which call made a founder of somebody: every segment of every coalition handler but
    three leaves the founders as they are ([same_founders]), and the first segment of
    those three is computed. *)

From S2P Require Import Prelude JsMap Async Ownership CoalitionDomain Money Records Store Spaces Drives.
From S2P Require Import JoinRequirements Relay Slug Network Spec SpecInv Refine RefineNetwork Safety.

(** A row that makes its member the founder. *)
Definition leading (r : CoalitionMembershipRecord) : Prop := mb_active r = true /\ mb_role r = founder.

(** [why] says which keys of the memberships may have become leading. *)
Definition only_new_founders (why : string -> Prop) (d d' : db) : Prop :=
  forall k r', get k (memberships d') = Some r' -> leading r' ->
    (exists r, get k (memberships d) = Some r /\ leading r) \/ why k.
Definition same_founders : db -> db -> Prop := only_new_founders (fun _ => False).

#[export] Instance same_founders_preorder : PreOrder same_founders.
Proof.
  split; [intros d k r Hg Hr; left; by exists r|]. intros a b c Hab Hbc k r Hg Hr.
  destruct (Hbc k r Hg Hr) as [(r' & Hg' & Hr')|[]]. by apply (Hab k r').
Qed.

Lemma only_new_later why d d1 d2 : only_new_founders why d d1 -> same_founders d1 d2 -> only_new_founders why d d2.
Proof. intros H1 H2 k r Hg Hr. destruct (H2 k r Hg Hr) as [(r' & Hg' & Hr')|[]]. by apply (H1 k r'). Qed.

(** Saving a row lets at most that row lead. *)
Lemma row_saved d r : only_new_founders (fun k => k = keyof r /\ leading r) d (fst (upsertCoalitionMembership r d)).
Proof.
  intros k r' Hg Hr. simpl in Hg. rewrite get_upsert in Hg. destruct (decide _) as [<-|]; [|left; by exists r'].
  injection Hg as <-. right. split; [done|]. unfold stamped_row in Hr. by destruct (get _ _).
Qed.

Lemma row_not_leading d r : ~ leading r -> same_founders d (fst (upsertCoalitionMembership r d)).
Proof. intros Hn k r' Hg Hr. destruct (row_saved d r k r' Hg Hr) as [?|[_ ?]]; [by left|done]. Qed.

Lemma same_rows d d' : memberships d' = memberships d -> same_founders d d'.
Proof. intros E k r' Hg Hr. left. exists r'. by rewrite <-E. Qed.

Section walk.
Context `{Env}.

Lemma moves_for_each {A} (P : db -> db -> Prop) `{!PreOrder P} (f : A -> H unit) l :
  (forall a, moves P (f a)) -> moves P (for_each f l).
Proof. intros Hf. induction l as [|a l IH]; simpl; repeat moves_step; auto. Qed.

Lemma moves_map_each {A B} (P : db -> db -> Prop) `{!PreOrder P} (f : A -> H B) l :
  (forall a, moves P (f a)) -> moves P (map_each f l).
Proof. intros Hf. induction l as [|a l IH]; simpl; repeat moves_step; auto. Qed.

End walk.

Lemma assigned_not_leading m r a : r ∈ assignableRolesFor a -> ~ leading (with_mb_role r m).
Proof. intros Hr [_ E]. simpl in E. subst r. destruct a; simpl in Hr; set_solver. Qed.

(** Walk through a handler, unfolding what it calls; a membership it saves must not lead. *)
Ltac f_step :=
  match goal with
  | |- moves _ (update (upsertCoalitionMembership _)) =>
      refine (moves_update _ _ _); intros ?; apply row_not_leading;
      first [ by intros [E _] | eapply assigned_not_leading; eassumption ]
  | |- moves _ (update _) => refine (moves_update _ _ _); intros ?; apply same_rows; reflexivity
  | |- moves _ (modify _) => refine (moves_modify _ _ _); intros ?; apply same_rows; reflexivity
  | |- moves _ (for_each _ _) => apply moves_for_each; [apply _|]; intros ?
  | |- moves _ (map_each _ _) => apply moves_map_each; [apply _|]; intros ?
  | E : negb (bool_decide (_ ∈ _)) = false |- _ => apply negb_false_iff, bool_decide_eq_true in E
  | _ => moves_step
  | |- moves _ (?f) => let h := head f in progress unfold h
  end
with head t := match t with ?f _ => head f | _ => t end.
Ltac founders_walk := intros; repeat f_step.

(** Who joins does not lead, unless they did. *)
Lemma admit_founders `{Env} c u via : moves same_founders (admitMember c u member via).
Proof.
  intros s. unfold admitMember. rewrite mbind_gets.
  assert (Hrest : forall id d, memberships d = memberships s ->
    segments same_founders (same_founders s)
      ((let! membership := update (upsertCoalitionMembership
          (mk_mb id (co_id c) u (match getCoalitionMembership (co_id c) u s with
             | Some e => if mb_active e then mb_role e else member | None => member end) true 0 0)) in
        let! _ := await (syncCoalitionMemberToSpace c u (mb_role membership)) in
        emitDomainEvent (ev_member_joined (co_id c) u (mb_role membership) via) ;;;
        mret membership) d)).
  { intros id d E. rewrite mbind_update. cbv beta.
    match goal with |- segments _ _ (?m ?d) => apply (moves_from same_founders m d) end; [founders_walk|].
    intros d2 H2. eapply only_new_later; [|exact H2]. clear d2 H2.
    intros k r' Hg Hr. destruct (row_saved d _ k r' Hg Hr) as [(r & Hg' & Hr')|[-> [_ El]]]; [left; exists r; by rewrite <-E|].
    left. simpl in El. unfold getCoalitionMembership in El. destruct (get _ (memberships s)) as [e|] eqn:Ee; [|done].
    destruct (mb_active e) eqn:Ea; [|done]. by exists e. }
  unfold id_or. destruct (getCoalitionMembership (co_id c) u s) as [e|]; [rewrite mbind_mret|unfold newCoalitionMembershipId, fresh; rewrite mbind_update];
    by apply Hrest.
Qed.
Section runs.
Context `{Env}.

Definition may_found (h : H unit) : Prop :=
  (exists i, h = call (createCoalition i)) \/ (exists k a u, h = call (transferFounder k a u)) \/
  exists k a, h = call (secondSuccessionPetition k a).

Lemma api_founders h : api h -> may_found h \/ moves same_founders h.
Proof.
  destruct 1; lazymatch goal with
  | |- context [call (createCoalition ?i)] => left; left; by exists i
  | |- context [call (transferFounder ?k ?a ?u)] => left; right; left; by exists k, a, u
  | |- context [call (secondSuccessionPetition ?k ?a)] => left; right; right; by exists k, a
  | _ => right; intros; repeat first [apply admit_founders | f_step]
  end.
Qed.

(** *** The first segments of the three *)

Lemma call_opening {A : Type} (m : H A) why s :
  segments same_founders (only_new_founders why s) (m s) -> segments same_founders (only_new_founders why s) (call m s).
Proof.
  intros Hm. unfold call. apply segments_bind; [apply _| |done|intros a; apply (moves_ret same_founders)].
  intros d d'. apply only_new_later.
Qed.

Lemma nobody_new why s : only_new_founders why s s.
Proof. intros k r Hg Hr. left. by exists r. Qed.

(** The rest of a handler, once it has saved its rows. *)
Lemma then_moves {A : Type} (m : H A) why s d :
  only_new_founders why s d -> moves same_founders m -> segments same_founders (only_new_founders why s) (m d).
Proof. intros Hd Hm. apply (moves_from same_founders m d); [done|]. intros d'. by apply only_new_later. Qed.

Lemma unchecked_opening c u s :
  segments same_founders (only_new_founders (fun k => exists t, activeMembership (co_id c) u s = Some t /\ k = keyof t) s)
    (transferFounderUnchecked c u s).
Proof.
  unfold transferFounderUnchecked. rewrite mbind_gets. destruct (activeMembership (co_id c) u s) as [t|]; [|apply nobody_new].
  rewrite mbind_gets, mbind_update. cbv beta.
  assert (H1 : only_new_founders (fun k => exists t', Some t = Some t' /\ k = keyof t') s
                 (fst (upsertCoalitionMembership (with_mb_role founder t) s))).
  { intros k r Hg Hr. destruct (row_saved s _ k r Hg Hr) as [?|[-> _]]; [by left|right]. by exists t. }
  destruct (List.find _ _) as [o|]; [rewrite mbind_update|rewrite mbind_mret]; cbv beta;
    match goal with |- segments _ _ (?m ?d) => apply (then_moves m _ s d) end; try founders_walk; [|exact H1].
  eapply only_new_later; [exact H1|]. apply row_not_leading. by intros [_ E].
Qed.

Lemma transfer_opening k a u s :
  segments same_founders
    (only_new_founders (fun key => exists co m t, getCoalition k s = Some co /\ activeMembership (co_id co) a s = Some m /\
       mb_role m = founder /\ activeMembership (co_id co) u s = Some t /\ mb_userId t <> a /\ key = keyof t) s)
    (transferFounder k a u s).
Proof.
  unfold transferFounder, with_coalition. rewrite mbind_gets. destruct (getCoalition k s) as [co|] eqn:Ec; [|apply nobody_new].
  rewrite mbind_gets. destruct (activeMembership (co_id co) a s) as [m|] eqn:Em; [|apply nobody_new].
  case_bool_decide as Er; cbn [negb]; [|apply nobody_new].
  rewrite mbind_gets. destruct (activeMembership (co_id co) u s) as [t|] eqn:Et; [|apply nobody_new].
  case_bool_decide as Hne; [apply nobody_new|].
  eapply segments_weaken; [|apply unchecked_opening]. intros d Hd key r Hg Hr.
  destruct (Hd key r Hg Hr) as [?|(t' & Et' & ->)]; [by left|right]. exists co, m, t. split_and!; congruence.
Qed.

Lemma second_opening k a s :
  segments same_founders
    (only_new_founders (fun key => exists co m p t, getCoalition k s = Some co /\ activeMembership (co_id co) a s = Some m /\
       coalitionRoleCan (mb_role m) coalition_succeed = true /\ getOpenCoalitionSuccessionPetition (co_id co) s = Some p /\
       pe_candidateUserId p <> a /\
       successionQuorumMet (seconders_with a p) (Z.of_nat (length (eligibleSeconders (co_id co) (pe_candidateUserId p) s))) = true /\
       activeMembership (co_id co) (pe_candidateUserId p) s = Some t /\ key = keyof t) s)
    (secondSuccessionPetition k a s).
Proof.
  unfold secondSuccessionPetition, with_coalition, unless_stopped, with_permission. rewrite mbind_gets.
  destruct (getCoalition k s) as [co|] eqn:Ec; [|apply nobody_new]. destruct (isStopped co); [apply nobody_new|].
  rewrite mbind_gets. destruct (requirePermission co a coalition_succeed s) as [e|m] eqn:Em; [apply nobody_new|].
  apply requirePermission_spec in Em as [Em Hcan]. rewrite mbind_gets.
  destruct (getOpenCoalitionSuccessionPetition (co_id co) s) as [p|] eqn:Ep; [|apply nobody_new].
  case_bool_decide as Hne; [apply nobody_new|]. cbv zeta. rewrite mbind_gets. fold (seconders_with a p).
  destruct (successionQuorumMet _ _) eqn:Eq; cbn [negb].
  - apply segments_bind; [apply _|intros d d'; apply only_new_later| |intros; founders_walk].
    unfold await. apply segments_bind; [apply _|intros d d'; apply only_new_later| |intros; founders_walk].
    eapply segments_weaken; [|apply unchecked_opening]. intros d Hd key r Hg Hr.
    destruct (Hd key r Hg Hr) as [?|(t & Et & ->)]; [by left|right]. by exists co, m, p, t.
  - match goal with |- segments _ _ (?m ?d) => apply (then_moves m _ s d) end; [apply nobody_new|founders_walk].
Qed.

Lemma create_opening i s :
  segments same_founders (only_new_founders (fun key => key = pair_key ("coa_" +:+ draw (rng s)) (cc_createdBy i)) s)
    (createCoalition i s).
Proof.
  unfold createCoalition, newCoalitionId, newCoalitionMembershipId, fresh. rewrite mbind_update, mbind_gets, mbind_update, mbind_update, mbind_update. cbv beta.
  match goal with |- segments _ _ (?m ?d) => apply (then_moves m _ s d) end; [|founders_walk].
  intros k r Hg Hr. destruct (row_saved _ _ k r Hg Hr) as [(r' & Hg' & Hr')|[-> _]]; [left; exists r'|right]; done.
Qed.

Lemma later_segments h s : api h -> segments same_founders (fun _ => True) (h s).
Proof.
  intros [[(i & ->)|[(k & a & u & ->)|(k & a & ->)]]|Hm]%api_founders; [..|by apply (moves_from same_founders h s)].
  all: eapply segments_weaken; [|apply call_opening;
    first [apply create_opening|apply transfer_opening|apply second_opening]]; done.
Qed.

(** What an odd call settles in. *)
Lemma settled_founders (h : H unit) why s s' ts :
  segments same_founders (only_new_founders why s) (h s) -> settle (h s) = (s', ts) -> only_new_founders why s s'.
Proof. intros Hh Hs. destruct (settle_moves same_founders _ _ _ _ Hh Hs) as [(s0 & Ha & Hb) _]. by eapply only_new_later. Qed.

Lemma isFounder_leading c u d :
  isFounder c u d = true <-> exists r, get (pair_key c u) (memberships d) = Some r /\ leading r.
Proof.
  unfold isFounder, activeMembership, getCoalitionMembership. split.
  - destruct (get _ _) as [r|]; [|done]. destruct (mb_active r) eqn:E; [|done]. intros Hf%bool_decide_eq_true. by exists r.
  - intros (r & -> & -> & Hf). by apply bool_decide_eq_true.
Qed.

Context `{!DrawLaws}.

(** A step that makes a founder. *)
Lemma founding_step c c' k u :
  rtc (sys_step api outside) (Sys empty_db []) c -> sys_step api outside c c' ->
  isFounder k u (store c) = false -> isFounder k u (store c') = true ->
  exists (h : H unit) ts, may_found h /\ settle (h (store c)) = (store c', ts) /\
    forall why, segments same_founders (only_new_founders why (store c)) (h (store c)) -> why (pair_key k u).
Proof.
  intros Hr Hs Hno (r & Hg & Hl)%isFounder_leading.
  assert (Hold : ~ exists r, get (pair_key k u) (memberships (store c)) = Some r /\ leading r).
  { intros Hf. apply isFounder_leading in Hf. congruence. }
  assert (Hd : forall d d', outside d d' -> same_founders d d') by (intros d d' [(_ & E & _) _]; by apply same_rows).
  assert (Hp : Forall (task_moves same_founders) (pool c)).
  { eapply (run_tasks_move same_founders api outside); [intros h s; apply later_segments|exact Hr|constructor]. }
  destruct (step_moves_along same_founders api outside may_found c c' api_founders Hd Hs Hp)
    as [(h & ts & _ & Ho & Hset & _)|[Hm _]].
  - exists h, ts. split_and!; [done|done|]. intros why Hw.
    by destruct (settled_founders _ _ _ _ _ Hw Hset _ _ Hg Hl).
  - by destruct (Hm _ _ Hg Hl) as [?|[]].
Qed.

End runs.

(** ** Ada hands the coalition over *)

Section witnesses.
#[local] Existing Instance sample_env.
#[local] Existing Instance sample_laws.

Lemma handed_over : sample_later = fst (settle (call (transferFounder coa "ada" "bea") sample_db)).
Proof. reflexivity. Qed.

End witnesses.
