(* ===== verification/Views.v ===== *)
(** * What outsiders get to see

    The read side of the service: the coalition page, the campaign list and the two
    ways to list a member's coalitions. *)

From S2P Require Import Prelude JsMap Async CoalitionDomain Money Records Store.
From S2P Require Import Drives JoinRequirements Relay Slug Network Spec SpecInv Refine Safety.

(** A row names nobody. *)
Definition anonymous (c : CoalitionCampaignRecord) : Prop :=
  cp_createdBy c = None /\ cp_approvedBy c = None /\ cp_beneficiaryUserId c = None.

Lemma publicStatus_iff s : publicStatus s = true <-> s = st_active \/ s = st_completed.
Proof. unfold publicStatus. rewrite orb_true_iff, !bool_decide_eq_true. done. Qed.

Section views.
Context `{Env} `{!DrawLaws}.

Lemma visible_outside c d x :
  In x (visibleCampaigns c false d) <->
  exists y, In y (listCoalitionCampaigns (Some c) None None d) /\
    publicStatus (cp_status y) = true /\ x = redactCampaignIdentities y.
Proof.
  unfold visibleCampaigns. rewrite js_sort_in, in_map_iff.
  split; [intros (y & <- & [Hy Hp]%filter_In)|intros (y & Hy & Hp & ->)]; [by exists y|].
  exists y. by rewrite filter_In.
Qed.

Lemma count_hidden {A} (p : A -> bool) (l : list A) :
  (Z.of_nat (length l) - Z.of_nat (length (List.filter p l)) = count_by (fun a => negb (p a)) l)%Z.
Proof.
  rewrite count_by_filter. induction l as [|a l IH]; [done|]. simpl. destruct (p a); simpl; lia.
Qed.

(** The page of a coalition, as someone outside it reads it: every
    campaign shown is active or completed and names no member, and every such
    campaign is shown; every member shown agreed to be listed, in the roster's
    order, the others only counted; and the reader has no permission there. *)
Theorem getCoalitionView_privacy k viewer d c v :
  getCoalition k d = Some c -> viewer_membership (co_id c) viewer d = None ->
  getCoalitionView k viewer d = Ok v ->
  (forall x, In x (view_campaigns v) -> (cp_status x = st_active \/ cp_status x = st_completed) /\ anonymous x) /\
  (forall y, In y (listCoalitionCampaigns (Some (co_id c)) None None d) ->
     publicStatus (cp_status y) = true -> In (redactCampaignIdentities y) (view_campaigns v)) /\
  Permutation (map mv_userId (view_members v))
    (List.filter (fun u => isPubliclyListed u d) (map mb_userId (activeMembers (co_id c) d))) /\
  view_hiddenMemberCount v =
    count_by (fun m => negb (isPubliclyListed (mb_userId m) d)) (activeMembers (co_id c) d) /\
  view_membership v = None /\ view_permissions v = [].
Proof.
  intros Hc Hout. unfold getCoalitionView. rewrite Hc, Hout.
  rewrite bool_decide_eq_false_2 by (by intros []). intros [= <-]. simpl. split_and!.
  - intros x (y & _ & Hp & ->)%visible_outside. split; [by apply publicStatus_iff|done].
  - intros y Hy Hp. apply visible_outside. by exists y.
  - set (row := fun m => {| mv_userId := mb_userId m; mv_role := mb_role m; mv_joinedAt := mb_createdAt m |}).
    assert (E : forall l, map mv_userId (List.filter (fun m => isPubliclyListed (mv_userId m) d) (map row l)) =
                List.filter (fun u => isPubliclyListed u d) (map mb_userId l)).
    { induction l as [|m l IH]; [done|]. simpl. destruct (isPubliclyListed (mb_userId m) d); simpl; congruence. }
    rewrite E. apply filter_perm, Permutation_map, js_sort_perm.
  - rewrite count_hidden, count_by_map, !count_by_filter. simpl.
    by rewrite (Permutation_length (filter_perm _ _ _ (js_sort_perm _ _))).
  - done.
  - unfold permissionsFor. unfold viewer_membership in Hout.
    destruct (truthy viewer) as [u|]; [|done]. by rewrite Hout.
Qed.

(** The coalitions [u] belongs to, in the coalition table. *)
Definition belongs (u : string) (d : db) (c : CoalitionRecord) : Prop :=
  exists m, In m (values (memberships d)) /\ mb_userId m = u /\ mb_active m = true /\
    mb_coalitionId m = co_id c.

Lemma memberships_of u d m :
  u <> "" ->
  In m (List.filter mb_active (listCoalitionMemberships None (Some u) d)) <->
  In m (values (memberships d)) /\ mb_userId m = u /\ mb_active m = true.
Proof.
  intros Hu. unfold listCoalitionMemberships. rewrite !filter_In, clause_nonempty by done. simpl.
  rewrite bool_decide_eq_true. tauto.
Qed.

Lemma listed_by_profile u viewer d c :
  inv d -> u <> "" -> (viewer = Some u \/ isPubliclyListed u d = true) ->
  In c (map (fun p => sum_coalition (fst p)) (listUserCoalitions u viewer d)) <->
  In c (values (coalitions d)) /\ belongs u d c /\ isStopped c = false.
Proof.
  intros Hi Hu Hok. unfold listUserCoalitions.
  assert (E : negb (bool_decide (viewer = Some u)) && negb (isPubliclyListed u d) = false).
  { destruct Hok as [->| ->]; [by rewrite bool_decide_eq_true_2|by rewrite andb_false_r]. }
  rewrite E, in_map_iff. destruct (inv_coalitions d Hi) as [Hk _]. split.
  - intros ([sm r] & <- & (m & Hm & Hp)%in_flat_map). apply memberships_of in Hm as (Hin & Eu & Ea); [|done].
    destruct (db_getCoalition _ d) as [co|] eqn:Eg; [|done].
    destruct (isStopped co) eqn:Es; [done|]. destruct Hp as [[= <- <-]|[]]. simpl.
    pose proof (keyed_get _ _ _ Hk Eg) as Ek. split_and!; [by eapply get_in_values| |done].
    by exists m.
  - intros (Hc & (m & Hin & Eu & Ea & Ec) & Es). exists (summarize c None d, mb_role m).
    split; [done|]. apply in_flat_map. exists m. split; [by apply memberships_of|].
    unfold db_getCoalition. rewrite Ec. change (co_id c) with (keyof c). rewrite (keyed_in _ _ Hk Hc), Es. by left.
Qed.

Lemma listed_by_search u viewer d c :
  u <> "" -> (viewer = Some u \/ isPubliclyListed u d = true) ->
  In c (map sum_coalition (listCoalitionSummaries (Build_CoalitionFilter (Some u) None false) viewer d)) <->
  In c (values (coalitions d)) /\ belongs u d c /\ co_archivedAt c = None.
Proof.
  intros Hu Hok. unfold listCoalitionSummaries. simpl. unfold truthy. rewrite decide_False by done.
  assert (E : negb (bool_decide (Some u = viewer)) && negb (isPubliclyListed u d) = false).
  { destruct Hok as [->| ->]; [by rewrite bool_decide_eq_true_2|by rewrite andb_false_r]. }
  rewrite E, map_map. simpl. rewrite map_id, js_sort_in, !filter_In, !bool_decide_eq_true.
  assert (Hb : belongs u d c <-> co_id c ∈ map mb_coalitionId
                 (List.filter mb_active (listCoalitionMemberships None (Some u) d))).
  { rewrite list_elem_of_In, in_map_iff. unfold belongs. setoid_rewrite memberships_of; [|done].
    split; intros (m & Hm); exists m; tauto. }
  rewrite <-Hb. unfold listCoalitions. tauto.
Qed.

(** A member's coalitions cannot be learned against their will: for
    someone who opted out of public listing, both ways of asking answer any other
    reader with nothing.  For everyone else both list exactly the coalitions the
    member belongs to that are not archived, except that the profile also leaves
    out those taken down. *)
Theorem member_coalitions_doors d u viewer q old :
  reachable d -> u <> "" ->
  (isPubliclyListed u d = false -> viewer <> Some u ->
     listUserCoalitions u viewer d = [] /\
     listCoalitionSummaries (Build_CoalitionFilter (Some u) q old) viewer d = []) /\
  (viewer = Some u \/ isPubliclyListed u d = true -> forall c,
     (In c (map (fun p => sum_coalition (fst p)) (listUserCoalitions u viewer d)) <->
      In c (map sum_coalition
        (listCoalitionSummaries (Build_CoalitionFilter (Some u) None false) viewer d)) /\
      co_takenDownAt c = None) /\
     (In c (map sum_coalition
        (listCoalitionSummaries (Build_CoalitionFilter (Some u) None false) viewer d)) <->
      In c (values (coalitions d)) /\ belongs u d c /\ co_archivedAt c = None)).
Proof.
  intros Hi%reachable_inv Hu. split.
  - intros Hp Hv. unfold listUserCoalitions, listCoalitionSummaries, truthy. simpl.
    rewrite decide_False, Hp, (bool_decide_eq_false_2 (viewer = Some u)) by done. simpl.
    split; [done|]. rewrite (bool_decide_eq_false_2 (Some u = viewer)); [done|congruence].
  - intros Hok c. rewrite listed_by_profile, listed_by_search by done. split; [|done].
    unfold isStopped. rewrite orb_false_iff, !bool_decide_eq_false. split.
    + intros (? & ? & E1%dec_stable & E2%dec_stable). done.
    + intros ((? & ? & ->) & ->). split_and!; try done; intros E; by apply E.
Qed.
End views.

Section witnesses.
#[local] Existing Instance sample_env.
#[local] Existing Instance sample_laws.

Lemma profiles_outside t d : outside d (set_memberProfiles t d).
Proof. split; [by split_and!|done]. Qed.

(** The sample run, after Bea opts out of public listing. *)
Definition shy_db : db := set_memberProfiles [("bea", mk_mp "bea" (Some true))] sample_db.

Lemma shy_reachable : reachable shy_db.
Proof.
  destruct sample_reachable as [ts Hr]. exists ts. eapply rtc_r; [exact Hr|].
  apply step_drift, profiles_outside.
Qed.

Lemma getCoalitionView_privacy_witness :
  exists v, getCoalitionView coa (Some "cyd") shy_db = Ok v /\
    map mv_userId (view_members v) = ["ada"] /\ view_hiddenMemberCount v = 1%Z /\
    length (view_campaigns v) = 1 /\
    (forall x, In x (view_campaigns v) ->
       (cp_status x = st_active \/ cp_status x = st_completed) /\ anonymous x) /\
    view_permissions v = [].
Proof.
  eexists. split; [vm_compute; reflexivity|]. do 3 (split; [vm_compute; reflexivity|]).
  edestruct (getCoalitionView_privacy coa (Some "cyd") shy_db sample_coalition) as (Hc & _ & _ & _ & _ & Hp);
    [vm_compute; reflexivity|vm_compute; reflexivity|vm_compute; reflexivity|].
  split; [exact Hc|exact Hp].
Defined.

Lemma member_coalitions_doors_witness :
  listUserCoalitions "ada" (Some "cyd") shy_db <> [] /\
  listUserCoalitions "bea" (Some "cyd") shy_db = [] /\
  listCoalitionSummaries (Build_CoalitionFilter (Some "bea") None false) (Some "cyd") shy_db = [].
Proof.
  split; [vm_compute; discriminate|].
  refine (proj1 (member_coalitions_doors shy_db "bea" (Some "cyd") None false shy_reachable _) _ _);
    [discriminate|vm_compute; reflexivity|discriminate].
Defined.
End witnesses.
