(* ===== verification/Handlers.v ===== *)
(** * What each handler does when nothing else runs

    The refinement says what a handler may do to the store while others run; here a
    handler runs alone, every request answered by an arbitrary [oracle], and its
    answer and its effect are computed. *)

From S2P Require Import Prelude JsMap Async CoalitionDomain Money Records Store Spaces Drives.
From S2P Require Import JoinRequirements Relay Slug Network Spec SpecInv Refine RefineNetwork.
From S2P Require Import RefinePayees Safety.

(** The outside, answering every request. *)
Abbreviation Oracle := (forall X : Set, req X -> X).

(** ** Coalitions that have stopped *)

(** Nothing is read from outside, nothing written, nothing announced. *)
Definition refuses `{Env} {A} (m : H (CoalitionResult A)) (d : db) (e : CoalitionError) : Prop :=
  m d = Done d (Err e).

Section stopped.
Context `{Env}.

Lemma refuses_stopped {A} k d c (f : CoalitionRecord -> H (CoalitionResult A)) :
  getCoalition k d = Some c -> isStopped c = true ->
  refuses (with_coalition k (fun c => unless_stopped c (f c))) d (stoppedError c).
Proof.
  intros Hg Hs. unfold refuses, with_coalition. rewrite bind_gets_eq, Hg.
  unfold unless_stopped. by rewrite Hs.
Qed.

(** An archived or taken-down coalition takes no new members, edits,
    invitations, campaigns, boosts, aid posts, petitions or payees: whoever asks,
    the answer is the same error at once and nothing is touched. *)
Theorem stopped_refuses k d c :
  getCoalition k d = Some c -> isStopped c = true ->
  let no {A} (m : H (CoalitionResult A)) := refuses m d (stoppedError c) in
  (forall a p, no (updateCoalition k a p)) /\
  (forall u m, no (requestJoin k u m)) /\
  (forall a u b, no (reviewJoinRequest k a u b)) /\
  (forall a u, no (inviteMember k a u)) /\
  (forall a i, no (createCampaign k a i)) /\
  (forall a x now, no (boostCampaign k a x now)) /\
  (forall a x, no (raiseAidPost k a x)) /\
  (forall a r, no (openSuccessionPetition k a r)) /\
  (forall a, no (secondSuccessionPetition k a)) /\
  (forall a x ps, no (setCampaignPayees k a x ps)) /\
  (stoppedError c = taken_down <-> co_takenDownAt c <> None).
Proof.
  intros Hg Hs. cbv zeta. repeat (split; [intros; by apply refuses_stopped|]).
  unfold stoppedError. by case_bool_decide.
Qed.
End stopped.

(** Go past an awaited call that writes nothing. *)
Ltac past := rewrite run_alone_past
  by (apply (keeps_await _ eq); auto with blackout typeclass_instances).

(** ** Joining *)

Section joining.
Context `{Env} `{!DrawLaws} (oracle : Oracle).

Lemma bind_fresh_eq {B} p (k : string -> H B) s :
  mbind (fresh p) k s = k (p +:+ draw (rng s)) (set_rng (S (rng s)) s).
Proof. done. Qed.

Lemma run_await {A B} (m : H A) (k : A -> H B) s :
  run_alone oracle (mbind (await m) k s) =
  run_alone oracle (k (snd (run_alone oracle (m s))) (fst (run_alone oracle (m s)))).
Proof. rewrite run_alone_bind_m. unfold await. by rewrite !run_alone_bind_m. Qed.

(** The row an admission writes: a returning member keeps the row's id and starts
    again as a plain member. *)
Lemma run_admit c u role via s :
  activeMembership (co_id c) u s = None ->
  let r := run_alone oracle (admitMember c u role via s) in
  exists id, let row := mk_mb id (co_id c) u role true 0 0 in
    memberships (fst r) = upsert (clock s) row (memberships s) /\
    snd r = stamped_row (clock s) (memberships s) row /\
    coalitions (fst r) = coalitions s /\ joinRequests (fst r) = joinRequests s.
Proof.
  unfold activeMembership. intros Hno. cbv zeta. unfold admitMember. rewrite bind_gets_eq.
  assert (Hrole : (match getCoalitionMembership (co_id c) u s with
                   | Some e => if mb_active e then mb_role e else role
                   | None => role end) = role).
  { destruct (getCoalitionMembership (co_id c) u s) as [e|]; [|done]. by destruct (mb_active e). }
  rewrite Hrole. clear Hrole.
  destruct (getCoalitionMembership (co_id c) u s) as [e|]; cbn [id_or].
  - exists (mb_id e). change (mbind (mret (mb_id e)) ?k s) with (k (mb_id e) s).
    cbv beta. rewrite bind_update_eq. cbv beta.
    past. by split_and!.
  - exists ("coam_" +:+ draw (rng s)). unfold newCoalitionMembershipId. rewrite bind_fresh_eq. cbv beta.
    rewrite bind_update_eq. cbv beta.
    past. by split_and!.
Qed.

Lemma admit_outcome c u via s m :
  exists_in (co_id c) (coalitions s) -> activeMembership (co_id c) u s = None ->
  let r := run_alone oracle (admitMember c u member via s) in
  snd r = m -> activeMembership (co_id c) u (fst r) = Some m /\ mb_role m = member.
Proof.
  intros Hc Hno. destruct (run_admit c u member via s Hno) as (id & Em & E & _). cbv zeta in *.
  rewrite E. intros <-.
  split; [|done]. unfold activeMembership, getCoalitionMembership. rewrite Em.
  set (row := mk_mb id (co_id c) u member true 0 0).
  change (pair_key (co_id c) u) with (keyof row). by rewrite get_upsert_eq.
Qed.

(** Close the goal about an admission just run. *)
Ltac admitted :=
  match goal with
  | Hc : exists_in (co_id ?c) _, Hno : activeMembership (co_id ?c) ?u _ = None
    |- context [run_alone ?o (admitMember ?c ?u member ?v ?s)] =>
      exact (admit_outcome c u v s _ Hc Hno eq_refl)
  end.

(** Asking to join admits at once only someone who was invited, or
    anyone who clears every requirement of an open coalition, and always as a plain
    member; otherwise a pending request is left, with what is unmet; a stopped
    coalition and a current member are refused with nothing written. *)
Theorem requestJoin_gate k u msg d c :
  inv d -> getCoalition k d = Some c ->
  let r := run_alone oracle (requestJoin k u msg d) in
  let res := resolution_from (fun mxid => oracle _ (GetEconomicStanding mxid)) u d in
  let invited := exists i, getCoalitionJoinRequest (co_id c) u d = Some i /\ jr_status i = req_invited in
  let welcome := co_joinMode c = join_open /\ meets_local c u (clock d) d /\ meets_tier c res in
  match snd r with
  | Err e => fst r = d /\
      (if isStopped c then e = stoppedError c
       else e = already_member /\ activeMembership (co_id c) u d <> None)
  | Ok (joined m) =>
      isStopped c = false /\ activeMembership (co_id c) u d = None /\ (invited \/ welcome) /\
      activeMembership (co_id c) u (fst r) = Some m /\ mb_role m = member
  | Ok (not_joined q unmet _) =>
      isStopped c = false /\ activeMembership (co_id c) u d = None /\ ~ invited /\ ~ welcome /\
      getCoalitionJoinRequest (co_id c) u (fst r) = Some q /\ jr_status q = req_pending /\
      memberships (fst r) = memberships d /\
      (unmet = [] <-> meets_local c u (clock d) d /\ meets_tier c res)
  end.
Proof.
  intros Hi Hg. cbv zeta. unfold requestJoin, with_coalition. rewrite bind_gets_eq, Hg.
  assert (Hc : exists_in (co_id c) (coalitions d)) by (exists c; by eapply getCoalition_row).
  unfold unless_stopped. destruct (isStopped c) eqn:Es; [done|].
  rewrite bind_gets_eq. case_bool_decide as Hm; [by split_and!|].
  assert (Hno : activeMembership (co_id c) u d = None) by (destruct (activeMembership _ _ _); [by exfalso|done]).
  rewrite bind_gets_eq.
  set (invited := match getCoalitionJoinRequest (co_id c) u d with
                  | Some e => if bool_decide (jr_status e = req_invited) then Some e else None
                  | None => None end).
  assert (Hinv : match invited with
    | Some e => getCoalitionJoinRequest (co_id c) u d = Some e /\ jr_status e = req_invited
    | None => ~ exists i, getCoalitionJoinRequest (co_id c) u d = Some i /\ jr_status i = req_invited
    end).
  { unfold invited. destruct (getCoalitionJoinRequest _ _ d) as [e|]; [|by intros (? & ? & _)].
    case_bool_decide; [done|]. intros (? & [= <-] & ?). done. }
  change (match getCoalitionJoinRequest (co_id c) u d with
          | Some e => if bool_decide (jr_status e = req_invited) then Some e else None
          | None => None end) with invited.
  destruct invited as [e|]; unfold NOW; rewrite bind_gets_eq.
  - rewrite bind_update_eq, run_await. cbn [succeed mret run_alone fst snd].
    split; [done|]. split; [done|]. split; [left; by exists e|]. admitted.
  - pose proof (evaluation_clear c u (clock d) d oracle) as Hev.
    pose proof (clear_unmet c u (clock d) d oracle) as Hun. cbv zeta in Hev, Hun.
    rewrite run_await, (run_alone_silent oracle (evaluateJoinRequirements _ _ _))
      by apply (evaluateJoinRequirements_silent _ eq).
    set (ev := snd (run_alone oracle (evaluateJoinRequirements c u (clock d) d))) in *.
    destruct (bool_decide (co_joinMode c = join_open) && ev_clear ev) eqn:Eclear.
    + rewrite andb_true_iff, bool_decide_eq_true in Eclear. destruct Eclear as [Eo Ec].
      rewrite run_await. cbn [succeed mret run_alone fst snd].
      split; [done|]. split; [done|]. split; [right; tauto|]. admitted.
    + assert (Hw : ~ (co_joinMode c = join_open /\ meets_local c u (clock d) d /\ meets_tier c
        (resolution_from (fun mxid => oracle _ (GetEconomicStanding mxid)) u d))).
      { rewrite andb_false_iff, bool_decide_eq_false in Eclear.
        intros [Eo Hm']. apply Hev in Hm'. destruct Eclear; congruence. }
      destruct (getCoalitionJoinRequest (co_id c) u d) as [e|];
        repeat (split; [first [done|exact (get_upsert_eq (clock d) (joinRequests d)
          (mk_jr _ (co_id c) u (truthy msg) req_pending None None None 0 0))]|]); by rewrite <-Hun.
Qed.
End joining.

(** ** Contributions *)

Section contributions.
Context `{Env} `{!DrawLaws} (oracle : Oracle).

Lemma bind_emit_eq {B} e (k : unit -> H B) s : mbind (emitDomainEvent e) k s = k tt (emit e s).
Proof. done. Qed.

Lemma awardCoalitionKarma_silent e u c r : keeps (fun _ => True) eq (awardCoalitionKarma e u c r).
Proof. unfold awardCoalitionKarma. repeat keeps_step. Qed.

(** What a contribution leaves in the two tables. *)
Lemma run_record i d c :
  inv d -> getCoalitionCampaign (rc_campaignId i) d = Some c ->
  findCoalitionCampaignContributionByTip (rc_tipId i) d = None ->
  let r := run_alone oracle (recordContribution i d) in
  exists id n c' t,
    get id (contributions d) = None /\
    snd r = Some (c', t) /\ ct_tipId t = rc_tipId i /\ ct_amountCents t = rc_amountCents i /\
    contributions (fst r) = set id t (contributions d) /\
    campaigns (fst r) = set (cp_id c) c' (campaigns d) /\
    cp_raisedCents c' = (cp_raisedCents c + rc_amountCents i)%Z /\
    cp_contributorCount c' = (cp_contributorCount c + n)%Z /\ (0 <= n <= 1)%Z.
Proof.
  intros Hi Hg Ht. cbv zeta. unfold recordContribution. rewrite bind_gets_eq, Hg, bind_gets_eq, Ht.
  unfold newContributionId. rewrite bind_fresh_eq, bind_update_eq, bind_gets_eq, bind_update_eq. cbv beta zeta.
  rewrite run_alone_past by (apply (keeps_spawn _ eq), awardCoalitionKarma_silent).
  rewrite bind_gets_eq, bind_emit_eq.
  set (t := mk_ct _ _ _ _ _ _ _ _ _).
  assert (Hn : get (ct_id t) (contributions d) = None).
  { apply fresh_get; [apply (inv_campaigns d Hi)|]. intros v Hv.
    by apply (proj1 (proj2 (proj2 (proj2 (inv_campaigns d Hi)))) v) in Hv as [? _]. }
  match goal with |- context [if bool_decide (?u ∈ ?l) then cp_contributorCount c else _] =>
    set (prior := bool_decide (u ∈ l)) end.
  exists (ct_id t), (if prior then 0 else 1)%Z.
  match goal with |- context [match cp_goalCents ?x with _ => _ end] =>
    exists x; destruct (cp_goalCents x) as [goal|] end;
    [destruct (_ && _)|]; (eexists; do 6 (split; [first [exact Hn|reflexivity]|]);
      do 2 (split; [destruct prior; cbn; lia|]); by destruct prior).
Qed.

Lemma find_app_new {A} (f : A -> bool) l x :
  List.find f l = None -> f x = true -> List.find f (l ++ [x]) = Some x.
Proof.
  intros Hl Hx. induction l as [|y l IH]; simpl in *; [by rewrite Hx|].
  destruct (f y); [done|auto].
Qed.

(** A captured tip counts once: the first record of it adds exactly
    its amount to the campaign and at most one supporter; any later record of the
    same tip, for whatever campaign, amount or supporter, ends at once having written,
    sent and announced nothing. *)
Theorem recordContribution_once i d c :
  inv d -> getCoalitionCampaign (rc_campaignId i) d = Some c ->
  findCoalitionCampaignContributionByTip (rc_tipId i) d = None ->
  let r := run_alone oracle (recordContribution i d) in
  exists c' t,
    snd r = Some (c', t) /\
    getCoalitionCampaign (rc_campaignId i) (fst r) = Some c' /\
    cp_raisedCents c' = (cp_raisedCents c + rc_amountCents i)%Z /\
    (cp_contributorCount c <= cp_contributorCount c' <= cp_contributorCount c + 1)%Z /\
    findCoalitionCampaignContributionByTip (rc_tipId i) (fst r) = Some t /\
    forall j, rc_tipId j = rc_tipId i ->
      exists x, recordContribution j (fst r) = Done (fst r) x.
Proof.
  intros Hi Hg Ht r.
  destruct (run_record i d c Hi Hg Ht) as (id & n & c' & t & Hn & Er & Et & _ & Ect & Ecp & E1 & E2 & Hn').
  fold r in Er, Ect, Ecp.
  assert (Hfind : findCoalitionCampaignContributionByTip (rc_tipId i) (fst r) = Some t).
  { unfold findCoalitionCampaignContributionByTip. rewrite Ect, values_set_new by done.
    apply find_app_new; [exact Ht|]. by apply bool_decide_eq_true. }
  exists c', t. split_and!; [done| |done|lia|lia|done|].
  - unfold getCoalitionCampaign. rewrite Ecp. apply getCampaign_row in Hg as [_ ->]; [|done].
    apply get_set_eq.
  - intros j Ej. unfold recordContribution. rewrite bind_gets_eq.
    destruct (getCoalitionCampaign (rc_campaignId j) (fst r)) as [x|]; [|by eexists].
    rewrite bind_gets_eq, Ej, Hfind. by eexists.
Qed.
End contributions.

(** ** Founding *)

Section founding.
Context `{Env} `{!DrawLaws} (oracle : Oracle).

(** What founding leaves in the two tables. *)
Lemma run_create i d :
  inv d ->
  let r := run_alone oracle (createCoalition i d) in
  let c := fst (fst (snd r)) in
  exists mid,
    co_id c = "coa_" +:+ draw (rng d) /\ co_slug c = uniqueSlug (cc_name i) None d /\
    co_name c = cc_name i /\ co_mission c = cc_mission i /\ co_joinMode c = cc_joinMode i /\
    co_minTierToJoin c = cc_minTierToJoin i /\
    co_joinRequirements c = normalizeJoinRequirements (cc_joinRequirements i) /\
    co_createdBy c = cc_createdBy i /\ isStopped c = false /\
    coalitions (fst r) = set (co_id c) c (coalitions d) /\
    memberships (fst r) =
      upsert (clock d) (mk_mb mid (co_id c) (cc_createdBy i) founder true 0 0) (memberships d).
Proof.
  intros Hi. cbv zeta. unfold createCoalition, newCoalitionId, newCoalitionMembershipId.
  rewrite bind_fresh_eq, bind_gets_eq, bind_update_eq. cbv beta.
  rewrite bind_fresh_eq, bind_update_eq. cbv beta.
  past. set (space := snd (run_alone oracle (await _ _))).
  exists ("coam_" +:+ draw (S (rng d))).
  destruct (so_ok space); [destruct (truthy (so_roomId space)) as [room|]|];
    repeat (split; [first [exact eq_refl|by apply (uniqueSlug_table _ _ _ d)]|]); try exact eq_refl.
  split; [|exact eq_refl]. exact (set_set _ _ _ _).
Qed.

Lemma coalition_id_shape d k c :
  inv d -> get k (coalitions d) = Some c -> exists x, k = "coa_" +:+ x.
Proof.
  intros Hi Hg. destruct (inv_coalitions d Hi) as [Hk Hd].
  pose proof (keyed_get _ _ _ Hk Hg) as Ek. change (k = co_id c) in Ek.
  apply get_in_values, Hd in Hg as (n & _ & E). exists (draw n). congruence.
Qed.

(** Founding a coalition makes one that was not there, with the name,
    mission and conditions asked for, found again under its id and under its slug,
    led by its creator, and touches no other coalition; its slug is not in use. *)
Theorem createCoalition_founds i d :
  inv d ->
  let r := run_alone oracle (createCoalition i d) in
  let c := fst (fst (snd r)) in
  db_getCoalition (co_id c) d = None /\ getCoalitionBySlug (co_slug c) d = None /\
  getCoalition (co_id c) (fst r) = Some c /\ getCoalition (co_slug c) (fst r) = Some c /\
  co_name c = cc_name i /\ co_mission c = cc_mission i /\ co_joinMode c = cc_joinMode i /\
  co_minTierToJoin c = cc_minTierToJoin i /\
  co_joinRequirements c = normalizeJoinRequirements (cc_joinRequirements i) /\ isStopped c = false /\
  isFounder (co_id c) (cc_createdBy i) (fst r) = true /\
  (forall k, k <> co_id c -> db_getCoalition k (fst r) = db_getCoalition k d).
Proof.
  intros Hi. cbv zeta.
  destruct (run_create i d Hi) as (mid & Eid & Eslug & E1 & E2 & E3 & E4 & E5 & _ & E7 & Eco & Emb).
  cbv zeta in *. set (r := run_alone oracle (createCoalition i d)) in *.
  set (c := fst (fst (snd r))) in *.
  assert (Hfresh : get (co_id c) (coalitions d) = None).
  { rewrite Eid. apply fresh_get; apply (inv_coalitions d Hi). }
  destruct (uniqueSlug_spec (cc_name i) None d) as (_ & (n & En) & Hfree). rewrite <-Eslug in En, Hfree.
  assert (Hfree' : getCoalitionBySlug (co_slug c) d = None) by (by destruct Hfree as [|(? & _ & ?)]).
  assert (Hnew : db_getCoalition (co_slug c) (fst r) = None).
  { unfold db_getCoalition. rewrite Eco. destruct (get (co_slug c) _) as [x|] eqn:Ex; [exfalso|done].
    rewrite get_set in Ex. assert (exists y, co_slug c = "coa_" +:+ y) as [y Ey].
    { destruct (decide (co_id c = co_slug c)) as [<-|]; [by eexists|by eapply coalition_id_shape]. }
    rewrite En in Ey. by apply candidate_no_id in Ey; [|apply slugify_chars]. }
  split; [done|]. split; [done|]. split.
  { unfold getCoalition, db_getCoalition. by rewrite Eco, get_set_eq. }
  split.
  { unfold getCoalition. rewrite Hnew. unfold getCoalitionBySlug, listCoalitions.
    rewrite Eco, values_set_new by done. apply find_app_new; [exact Hfree'|]. by apply bool_decide_eq_true. }
  do 6 (split; [done|]). split.
  - unfold isFounder, activeMembership, getCoalitionMembership. rewrite Emb.
    set (row := mk_mb mid (co_id c) (cc_createdBy i) founder true 0 0).
    change (pair_key (co_id c) (cc_createdBy i)) with (keyof row). by rewrite get_upsert_eq.
  - intros k Hk. unfold db_getCoalition. rewrite Eco. by apply get_set_ne, not_eq_sym.
Qed.
End founding.

(** ** Leaving *)

Section leaving.
Context `{Env} `{!DrawLaws} (oracle : Oracle).

Definition revoked (now : Z) (r : CoalitionMemberConnectionRecord) : CoalitionMemberConnectionRecord :=
  with_mc_revokedAt (Some now) (with_mc_credentialRef None r).

Definition revoke_all (clk now : Z) (rows : list CoalitionMemberConnectionRecord)
    (t : jsmap CoalitionMemberConnectionRecord) : jsmap CoalitionMemberConnectionRecord :=
  fold_left (fun t r => upsert clk (revoked now r) t) rows t.

Lemma revoke_loop now rows s :
  for_each (fun row =>
    let! _ := update (upsertCoalitionMemberConnection
      (with_mc_revokedAt (Some now) (with_mc_credentialRef None row))) in
    mret tt) rows s =
  Done (set_memberConnections (revoke_all (clock s) now rows (memberConnections s)) s) tt.
Proof.
  revert s. induction rows as [|r rows IH]; intros s; [by destruct s|].
  cbn [for_each revoke_all fold_left]. unfold mbind. cbn [obind update mret]. rewrite IH. by destruct s.
Qed.

(** A row after the loop was revoked by it, or is one it did not concern. *)
Lemma revoke_all_rows clk now rows t v :
  keyed t -> In v (values (revoke_all clk now rows t)) ->
  (exists r, In r rows /\ mc_revokedAt v = Some now /\ mc_credentialRef v = None) \/
  (In v (values t) /\ forall r, In r rows -> keyof v <> keyof r).
Proof.
  revert t. induction rows as [|r rows IH]; intros t Hk Hv; [by right|].
  cbn [revoke_all fold_left] in Hv. apply IH in Hv as [(x & Hx & E)|[Hv Hno]].
  - left. exists x. split; [by right|done].
  - apply in_upsert in Hv as [->|[Hv Hne]]; [| |done].
    + left. exists r. split; [by left|done].
    + right. split; [done|]. intros x [<-|Hx]; [exact Hne|by apply Hno].
  - by apply keyed_upsert.
Qed.

Lemma revoke_all_keeps clk now rows t v :
  keyed t -> In v (values t) -> (forall r, In r rows -> keyof v <> keyof r) ->
  In v (values (revoke_all clk now rows t)).
Proof.
  revert t. induction rows as [|r rows IH]; intros t Hk Hv Hno; [done|].
  cbn [revoke_all fold_left]. apply IH; [by apply keyed_upsert| |intros x Hx; apply Hno; by right].
  apply in_upsert_other; [done|done|]. apply (Hno r). by left.
Qed.

(** [u] is out of coalition [c] and nothing of theirs there still works; nobody
    else's membership or link is touched. *)
Definition departed (c u : string) (d d' : db) : Prop :=
  activeMembership c u d' = None /\
  (forall u', u' <> u -> activeMembership c u' d' = activeMembership c u' d) /\
  (forall l, In l (listCoalitionMemberConnections (Some c) (Some u) d') ->
     mc_revokedAt l <> None /\ (mc_credentialRef l = None \/ In l (values (memberConnections d)))) /\
  (forall l, In l (values (memberConnections d)) -> mc_userId l <> u ->
     In l (values (memberConnections d'))).

(** The store both departures end in. *)
Definition left_db (c u : string) (m : CoalitionMembershipRecord) (d : db) : db :=
  let d1 := set_memberships (upsert (clock d) (with_mb_active false m) (memberships d)) d in
  set_memberConnections (revoke_all (clock d) (clock d)
    (List.filter (fun r => bool_decide (mc_revokedAt r = None) && true)
       (listCoalitionMemberConnections (Some c) (Some u) d)) (memberConnections d)) d1.

Lemma left_departed c u m d d' :
  inv d -> exists_in c (coalitions d) -> u <> "" -> activeMembership c u d = Some m ->
  memberships d' = memberships (left_db c u m d) ->
  memberConnections d' = memberConnections (left_db c u m d) -> departed c u d d'.
Proof.
  intros Hi Hc Hu Hm Emb Emc. pose proof (inv_links d Hi) as Hk.
  assert (Hcne : c <> "") by (eapply coalition_nonempty; [apply Hi|done]).
  destruct (activeMembership_spec d c u m Hi Hc Hm) as (Hin & E1 & E2 & E3).
  assert (Hlink : forall x l, In l (listCoalitionMemberConnections (Some c) (Some u) x) <->
    In l (values (memberConnections x)) /\ mc_coalitionId l = c /\ mc_userId l = u).
  { intros x l. unfold listCoalitionMemberConnections.
    by rewrite filter_In, !clause_nonempty, andb_true_iff, !bool_decide_eq_true. }
  split_and!.
  - unfold activeMembership, getCoalitionMembership. rewrite Emb. simpl. rewrite get_upsert.
    change (keyof (with_mb_active false m)) with (pair_key (mb_coalitionId m) (mb_userId m)).
    by rewrite E1, E2, decide_True.
  - intros u' Hu'. unfold activeMembership, getCoalitionMembership. rewrite Emb. simpl.
    rewrite get_upsert_ne; [done|]. change (pair_key (mb_coalitionId m) (mb_userId m) <> pair_key c u').
    rewrite E1, E2. intros E. apply pair_key_inj in E as [_ E]; [congruence| |];
      (eapply coalition_colon_free; [apply Hi|done]).
  - intros l [Hl [El1 El2]]%Hlink. rewrite Emc in Hl. simpl in Hl.
    apply revoke_all_rows in Hl as [(r & _ & -> & ->)|[Hl Hno]]; [by split; [|left]| |done].
    split; [|by right]. intros Hr. apply (Hno l); [|done]. apply filter_In.
    split; [by apply Hlink|]. by rewrite bool_decide_eq_true_2.
  - intros l Hl Hne. rewrite Emc. simpl. apply revoke_all_keeps; [done|done|].
    intros r [Hr _]%filter_In E. apply Hlink in Hr as (Hr & _ & Er).
    rewrite (keyed_unique _ l r Hk Hl Hr E) in Hne. done.
Qed.

Lemma revokeMemberLinks_eq c u now s :
  exists n, revokeMemberLinks c None (Some u) now s =
  Done (set_memberConnections (revoke_all (clock s) now
    (List.filter (fun r => bool_decide (mc_revokedAt r = None) && true)
       (listCoalitionMemberConnections (Some c) (Some u) s)) (memberConnections s)) s) n.
Proof.
  eexists. unfold revokeMemberLinks. rewrite bind_gets_eq. cbv zeta. unfold mbind at 1.
  rewrite revoke_loop. done.
Qed.

(** What follows the write in both departures. *)
Lemma run_links {A} c u ev (a : A) s :
  let r := run_alone oracle (mbind (revokeMemberLinks c None (Some u) (clock s))
             (fun _ => emitDomainEvent ev ;;; mret a) s) in
  snd r = a /\ memberships (fst r) = memberships s /\
  memberConnections (fst r) = revoke_all (clock s) (clock s)
    (List.filter (fun r => bool_decide (mc_revokedAt r = None) && true)
       (listCoalitionMemberConnections (Some c) (Some u) s)) (memberConnections s).
Proof.
  cbv zeta. destruct (revokeMemberLinks_eq c u (clock s) s) as [n E].
  rewrite run_alone_bind_m, E. by split_and!.
Qed.

Ltac after_links E1 E2 E3 :=
  unfold succeed;
  match goal with
  | |- context [run_alone oracle (mbind (revokeMemberLinks ?c None (Some ?u) _)
                  (fun _ => emitDomainEvent ?ev ;;; mret ?a) ?s)] =>
      pose proof (run_links c u ev a s) as E3
  end; cbv zeta in E3; unfold CoalitionResult in *; destruct E3 as (E1 & E2 & E3); rewrite E1.

(** Whoever leaves or is removed is out at once: they are no longer an
    active member, no platform link they made there keeps a credential it had or
    stays unrevoked, and nobody else is affected.  A founder cannot leave; a member
    is removed only by someone holding the permission and strictly above them; a
    refusal writes nothing. *)
Theorem departure_revokes k u d c :
  inv d -> getCoalition k d = Some c -> u <> "" ->
  (let r := run_alone oracle (leaveCoalition k u d) in
   match snd r with
   | Ok _ => departed (co_id c) u d (fst r)
   | Err e => fst r = d /\
       match activeMembership (co_id c) u d with
       | None => e = not_member
       | Some m => e = last_founder /\ mb_role m = founder
       end
   end) /\
  (forall a, let r := run_alone oracle (removeMember k a u d) in
   match snd r with
   | Ok _ => departed (co_id c) u d (fst r) /\ a <> u /\
       exists am m, activeMembership (co_id c) a d = Some am /\
         activeMembership (co_id c) u d = Some m /\
         coalitionRoleCan (mb_role am) members_remove = true /\
         (ROLE_RANK (mb_role m) < ROLE_RANK (mb_role am))%Z
   | Err _ => fst r = d
   end).
Proof.
  intros Hi Hg Hu. assert (Hc : exists_in (co_id c) (coalitions d)) by (exists c; by eapply getCoalition_row).
  split; [|intros a]; cbv zeta.
  - unfold leaveCoalition, with_coalition. rewrite bind_gets_eq, Hg, bind_gets_eq.
    destruct (activeMembership (co_id c) u d) as [m|] eqn:Em; [|done].
    case_bool_decide as Hf; [done|]. rewrite bind_update_eq. past.
    unfold NOW. rewrite bind_gets_eq.
    after_links E1 E2 E3.
    by eapply left_departed.
  - unfold removeMember, with_coalition, with_permission. rewrite bind_gets_eq, Hg, bind_gets_eq.
    destruct (requirePermission _ _ _ _) as [e|am] eqn:Ep; [done|].
    apply requirePermission_spec in Ep as [Ha Hcan]. case_bool_decide as Hau; [done|].
    rewrite bind_gets_eq. destruct (activeMembership (co_id c) u d) as [m|] eqn:Em; [|done].
    case_bool_decide as Hrank; [done|]. rewrite bind_update_eq. past.
    unfold NOW. rewrite bind_gets_eq.
    after_links E1 E2 E3.
    split; [by eapply left_departed|]. split; [done|]. exists am, m. split_and!; [done..|lia].
Qed.
End leaving.

(** ** Succession *)

Section succession.
Context `{Env} `{!DrawLaws} (oracle : Oracle).

Lemma isFounder_iff d c u :
  inv d -> exists_in c (coalitions d) ->
  isFounder c u d = true ->
  exists m, In m (values (memberships d)) /\ founds c m = true /\ mb_userId m = u.
Proof.
  intros Hi Hc. unfold isFounder. destruct (activeMembership c u d) as [m|] eqn:Em; [|done].
  intros Er%bool_decide_eq_true. destruct (activeMembership_spec d c u m Hi Hc Em) as (Hin & E1 & E2 & E3).
  exists m. split_and!; [done| |done]. by apply founds_iff.
Qed.

Lemma founder_unique d c u u' :
  inv d -> exists_in c (coalitions d) ->
  isFounder c u d = true -> isFounder c u' d = true -> u = u'.
Proof.
  intros Hi Hc (m & Hm & Fm & <-)%isFounder_iff (m' & Hm' & Fm' & <-)%isFounder_iff; try done.
  f_equal. eapply count_by_unique; [apply (inv_memberships d Hi)|done..].
Qed.

(** The hand-over, run alone. *)
Lemma run_transfer c u s t :
  activeMembership (co_id c) u s = Some t ->
  let r := run_alone oracle (transferFounderUnchecked c u s) in
  let t1 := upsert (clock s) (with_mb_role founder t) (memberships s) in
  memberships (fst r) =
    (match List.find (fun m => bool_decide (mb_role m = founder)) (activeMembers (co_id c) s) with
     | Some o => upsert (clock s) (with_mb_role steward o) t1
     | None => t1
     end) /\
  petitions (fst r) = petitions s /\ clock (fst r) = clock s /\ coalitions (fst r) = coalitions s /\
  exists x, snd r = Ok x.
Proof.
  intros Ht. cbv zeta. unfold transferFounderUnchecked. rewrite bind_gets_eq, Ht, bind_gets_eq, bind_update_eq.
  destruct (List.find _ _) as [o|].
  - rewrite bind_update_eq. past.
    rewrite run_alone_past by (apply (keeps_bind _ eq);
      [apply (keeps_await _ eq); auto with blackout typeclass_instances|intros _; apply (keeps_ret _ eq)]).
    rewrite bind_emit_eq. split_and!; try done. by eexists.
  - change (mbind (mret ?x) ?k ?s) with (k x s). cbv beta. past.
    change (mbind (mret ?x) ?k ?s) with (k x s). cbv beta. rewrite bind_emit_eq.
    split_and!; try done. by eexists.
Qed.

Lemma transfer_founder c u d d' t :
  inv d -> exists_in (co_id c) (coalitions d) ->
  activeMembership (co_id c) u d = Some t -> mb_role t <> founder ->
  let t1 := upsert (clock d) (with_mb_role founder t) (memberships d) in
  memberships d' =
    (match List.find (fun m => bool_decide (mb_role m = founder)) (activeMembers (co_id c) d) with
     | Some o => upsert (clock d) (with_mb_role steward o) t1
     | None => t1
     end) ->
  isFounder (co_id c) u d' = true /\
  (forall v m, isFounder (co_id c) v d = true -> activeMembership (co_id c) v d = Some m ->
     exists m', activeMembership (co_id c) v d' = Some m' /\ mb_role m' = steward).
Proof.
  intros Hi Hc Ht Hr t1 E. pose proof (inv_memberships d Hi) as (Hk & _ & Hone).
  destruct (activeMembership_spec d _ u t Hi Hc Ht) as (Hin & E1 & E2 & E3).
  assert (Hkey : forall m, mb_coalitionId m = co_id c ->
                 pair_key (co_id c) (mb_userId m) = keyof m) by (intros m <-; done).
  assert (Hkt : keyof t = pair_key (co_id c) u) by (by rewrite <-E2, Hkey).
  assert (Hcne : co_id c <> "") by (eapply coalition_nonempty; [apply Hi|done]).
  assert (Hself : forall o, In o (values (memberships d)) -> mb_role o = founder -> keyof o <> keyof t).
  { intros o Ho Eo Ek. apply Hr. by rewrite <-(keyed_unique _ o t Hk Ho Hin Ek). }
  destruct (List.find _ _) as [o|] eqn:Ef.
  - apply find_some in Ef as [Ho Eo%bool_decide_eq_true].
    apply activeMembers_in in Ho as (Hino & Eco & Hao); [|done]. split.
    + unfold isFounder, activeMembership, getCoalitionMembership. rewrite E.
      rewrite get_upsert_ne by (change (keyof o <> pair_key (co_id c) u); rewrite <-Hkt; by apply Hself).
      rewrite <-Hkt. unfold t1. change (keyof t) with (keyof (with_mb_role founder t)).
      rewrite get_upsert_eq. change (mb_active (stamped_row _ _ (with_mb_role founder t))) with (mb_active t).
      by rewrite E3.
    + intros v m Hv Hm. apply isFounder_iff in Hv as (x & Hx & Fx & <-); [|done..].
      assert (x = o) as ->.
      { eapply count_by_unique; [apply (Hone (co_id c))|done..|]. by apply founds_iff. }
      unfold activeMembership, getCoalitionMembership. rewrite E, (Hkey o Eco).
      change (keyof o) with (keyof (with_mb_role steward o)). rewrite get_upsert_eq.
      change (mb_active (stamped_row _ _ (with_mb_role steward o))) with (mb_active o). rewrite Hao.
      by eexists.
  - split.
    + unfold isFounder, activeMembership, getCoalitionMembership. rewrite E, <-Hkt.
      unfold t1. change (keyof t) with (keyof (with_mb_role founder t)).
      rewrite get_upsert_eq. change (mb_active (stamped_row _ _ (with_mb_role founder t))) with (mb_active t).
      by rewrite E3.
    + intros v m Hv _. apply isFounder_iff in Hv as (x & Hx & (F1 & F2 & F3)%founds_iff & _); [|done..].
      pose proof (find_none _ _ Ef x) as Hn. rewrite activeMembers_in in Hn by done.
      specialize (Hn (conj Hx (conj F1 F2))). by rewrite bool_decide_eq_false in Hn.
Qed.

(** When a second brings an open petition to its quorum and its
    candidate is still a member who does not lead, the candidate becomes the founder
    and nobody else is, the founder before them stays as a steward, and the petition
    is recorded as approved by the one who brought it there. *)
Theorem succession_completes k a d c p t :
  inv d -> getCoalition k d = Some c -> isStopped c = false ->
  is_ok (requirePermission c a coalition_succeed d) = true ->
  getOpenCoalitionSuccessionPetition (co_id c) d = Some p ->
  let u := pe_candidateUserId p in
  u <> a -> activeMembership (co_id c) u d = Some t -> mb_role t <> founder ->
  let backers := if bool_decide (a ∈ pe_secondedBy p) then pe_secondedBy p else pe_secondedBy p ++ [a] in
  successionQuorumMet backers (Z.of_nat (length (eligibleSeconders (co_id c) u d))) = true ->
  let r := run_alone oracle (secondSuccessionPetition k a d) in
  (exists p', snd r = Ok p' /\ get (pe_id p) (petitions (fst r)) = Some p' /\
     pe_status p' = suc_approved /\ pe_resolvedBy p' = Some a /\ pe_secondedBy p' = backers) /\
  (forall v, isFounder (co_id c) v (fst r) = true <-> v = u) /\
  (forall v m, isFounder (co_id c) v d = true -> activeMembership (co_id c) v d = Some m ->
     exists m', activeMembership (co_id c) v (fst r) = Some m' /\ mb_role m' = steward).
Proof.
  intros Hi Hg Hs Hp Hop u Hne Ht Hr backers Hq r.
  assert (Hc : exists_in (co_id c) (coalitions d)) by (exists c; by eapply getCoalition_row).
  assert (Hinv : inv (fst r) /\ G d (fst r)).
  { destruct (run_alone_guarantee oracle inv G (secondSuccessionPetition k a d) d _
      (ok_secondSuccessionPetition k a d Hi)) as (? & ? & _). done. }
  assert (Hrun : memberships (fst r) = memberships (fst (run_alone oracle (transferFounderUnchecked c u d))) /\
    exists p', snd r = Ok p' /\ get (pe_id p) (petitions (fst r)) = Some p' /\
     pe_status p' = suc_approved /\ pe_resolvedBy p' = Some a /\ pe_secondedBy p' = backers).
  { destruct (run_transfer c u d t Ht) as (_ & _ & _ & _ & [x Ex]). cbv zeta in Ex.
    unfold r, secondSuccessionPetition, with_coalition, unless_stopped, with_permission.
    rewrite bind_gets_eq, Hg, Hs, bind_gets_eq.
    destruct (requirePermission c a coalition_succeed d) as [e|am]; [done|].
    rewrite bind_gets_eq, Hop, (bool_decide_eq_false_2 _ Hne). cbv zeta.
    rewrite bind_gets_eq. fold u backers. rewrite Hq. cbn [negb]. rewrite run_await, Ex.
    split; [done|]. eexists. split; [done|]. split; [|done].
    exact (get_upsert_eq _ _ (with_pe_resolvedAt _ (with_pe_resolvedBy _ (with_pe_status _ (with_pe_secondedBy _ p))))). }
  destruct Hrun as [Emb Hpet]. split; [done|].
  destruct (run_transfer c u d t Ht) as (Et & _). cbv zeta in Et. rewrite Et in Emb.
  destruct (transfer_founder c u d (fst r) t Hi Hc Ht Hr Emb) as [Hf Hold].
  split; [|exact Hold]. intros v. split; [|by intros ->]. intros Hv.
  eapply founder_unique; [apply Hinv| |done|done]. eapply exists_persist; [apply Hinv|done].
Qed.
End succession.

(** ** Payees *)

Section payees.
Context `{Env} `{!DrawLaws} (oracle : Oracle).

Lemma listCampaignPayees_paid c d : c <> "" -> listCampaignPayees c d = paid c (payees d).
Proof. intros Hc. unfold listCampaignPayees. by rewrite payee_rows, filter_filter by done. Qed.

(** Setting a campaign's payees, when it succeeds, makes exactly the
    people named its active payees, each once, each a member or the beneficiary,
    with the shares given, which total the whole; the payees of other campaigns
    stay; and a refusal, for whatever reason, writes nothing. *)
Theorem setCampaignPayees_exact k a x ps d c :
  inv d -> getCoalition k d = Some c ->
  let r := run_alone oracle (setCampaignPayees k a x ps d) in
  match snd r with
  | Err _ => fst r = d
  | Ok _ =>
      exists p es,
        getCoalitionCampaign x d = Some p /\ cp_coalitionId p = co_id c /\ isStopped c = false /\
        is_ok (requirePermission c a campaigns_launch d) = true /\
        map (fun e => Some (pi_userId e)) es = map (fun e => resolveBlackoutUserId (pi_userId e) d) ps /\
        map pi_shareBps es = map pi_shareBps ps /\
        NoDup (map pi_userId es) /\
        (forall e, In e es -> activeMembership (co_id c) (pi_userId e) d <> None \/
           cp_beneficiaryUserId p = Some (pi_userId e)) /\
        sum_by entry_share es = CAMPAIGN_PAYEE_BPS_DENOMINATOR /\
        Permutation (map (fun r => (py_userId r, py_shareBps r)) (listCampaignPayees x (fst r)))
                    (map (fun e => (pi_userId e, entry_share e)) es) /\
        forall y, y <> "" -> y <> x -> listCampaignPayees y (fst r) = listCampaignPayees y d
  end.
Proof.
  intros Hi Hg. cbv zeta. unfold setCampaignPayees, with_coalition, with_permission, with_campaign.
  rewrite bind_gets_eq, Hg. unfold unless_stopped. destruct (isStopped c); [done|].
  rewrite bind_gets_eq. destruct (requirePermission c a _ d) as [e|am] eqn:Ep; [done|].
  rewrite bind_gets_eq. destruct (getCoalitionCampaign x d) as [p|] eqn:Ex; [|done].
  case_bool_decide as Eco; cbn [negb]; [|done].
  rewrite bind_gets_eq. destruct (resolve_payees c p [] ps d) as [e|es] eqn:Er; [done|].
  destruct (campaignPayeeSharesAreValid _) eqn:Ev; cbn [negb]; [|done]. cbv zeta.
  rewrite bind_gets_eq.
  match goal with |- context [run_alone oracle ?o] =>
    assert (Eo : exists s' saved, o = Done s' (Ok saved) /\ payees s' = payees_set c p es d) end.
  { unfold mbind at 1. rewrite drop_loop. cbn [obind]. set (d1 := set_payees (drop_unnamed _ _ _ _) d).
    unfold mbind at 1. destruct (put_loop (cp_id p) (co_id c) es d1) as (saved & _ & ->).
    by do 2 eexists. }
  destruct Eo as (s' & saved & -> & Epay). cbn [run_alone fst snd].
  destruct (resolve_payees_order _ _ _ _ _ _ Er) as [O1 O2].
  apply resolve_payees_spec in Er as [Hnd Hgood]; [|constructor|done].
  destruct (valid_entries es Ev) as (_ & Hsum & _).
  pose proof Ex as [Hp ->]%getCampaign_row; [|done].
  destruct (payees_result d c p es Hi Hp Hnd) as [(_ & Hother & _) Hperm].
  assert (Hne : cp_id p <> "") by (eapply campaign_nonempty; [done|by exists p]).
  exists p, es. do 9 (split; [done|]). split.
  - by rewrite listCampaignPayees_paid, Epay.
  - intros y Hy Hyx. rewrite !listCampaignPayees_paid, Epay by done. by apply Hother.
Qed.
End payees.

(** ** Witnesses, on the sample run *)

Section witnesses.
#[local] Existing Instance sample_env.
#[local] Existing Instance sample_laws.

(** Every outside service fails. *)
Definition offline : Oracle := fun X e =>
  match e in req X return X with
  | Yield => tt
  | CreateRoom _ _ _ _ _ _ | InviteToRoom _ _ _ | AdminJoinUserToRoom _ _ | KickFromRoom _ _ _
  | GetPowerLevels _ | SendPowerLevels _ _ | SendJoinRules _ _ | SendMarker _ _ _ _ =>
      {| mx_ok := false; mx_status := None; mx_reason := None; mx_detail := None;
         mx_roomId := None; mx_content := None |}
  | GetEconomicStanding _ => None
  | CreateCreatorListing _ _ _ _ _ | PublishCreatorListing _ _ | ArchiveCreatorListing _ _ =>
      provider_threw None
  | GetListingFeeBps _ => None
  | FbmPutStatus _ _ | FbmPutMilestones _ _ _ _ | FbmReputation _ _ _ _ _ => None
  | FbmOpenWindow _ _ _ _ _ _ => None
  end.

Lemma sample_inv : inv sample_db.
Proof. exact (reachable_inv sample_db sample_reachable). Qed.

Lemma sample_found : getCoalition coa sample_db = Some sample_coalition.
Proof. vm_compute. reflexivity. Qed.

Definition stopped_db : db := calls [ call (takeDownCoalition coa "root" "spam") ] sample_db.
Definition stopped_coalition : CoalitionRecord :=
  Eval vm_compute in match getCoalition coa stopped_db with Some c => c | None => sample_coalition end.

Lemma stopped_refuses_witness :
  co_takenDownBy stopped_coalition = Some "root" /\
  refuses (requestJoin coa "cyd" None) stopped_db (stoppedError stopped_coalition) /\
  stoppedError stopped_coalition = taken_down.
Proof.
  split; [reflexivity|].
  refine ((fun Hall => conj (proj1 (proj2 Hall) "cyd" None) eq_refl)
            (stopped_refuses coa stopped_db stopped_coalition _ _)); vm_compute; reflexivity.
Defined.

Lemma requestJoin_gate_witness :
  let r := run_alone offline (requestJoin coa "cyd" None sample_db) in
  match snd r with
  | Ok (joined m) => activeMembership coa "cyd" (fst r) = Some m /\ mb_role m = member
  | _ => False
  end.
Proof.
  pose proof (requestJoin_gate offline coa "cyd" None sample_db sample_coalition sample_inv sample_found) as Ht.
  cbv zeta in *. revert Ht.
  destruct (snd (run_alone offline (requestJoin coa "cyd" None sample_db))) as [e|[m|q unmet why]] eqn:E;
    [vm_compute in E; discriminate| |vm_compute in E; discriminate].
  intros (_ & _ & _ & Ht & Hm). split; [exact Ht|exact Hm].
Defined.

Definition sample_tip : RecordContributionInput := Build_RecordContributionInput camp "eve" "tip2" 500 "usd".

Lemma recordContribution_once_witness :
  let r := run_alone offline (recordContribution sample_tip sample_db) in
  exists c' t,
    snd r = Some (c', t) /\
    getCoalitionCampaign camp (fst r) = Some c' /\
    cp_raisedCents c' = (cp_raisedCents sample_campaign + 500)%Z /\
    (cp_contributorCount sample_campaign <= cp_contributorCount c' <= cp_contributorCount sample_campaign + 1)%Z /\
    findCoalitionCampaignContributionByTip "tip2" (fst r) = Some t /\
    forall j, rc_tipId j = "tip2" -> exists x, recordContribution j (fst r) = Done (fst r) x.
Proof.
  refine (recordContribution_once offline sample_tip sample_db sample_campaign sample_inv _ _);
    vm_compute; reflexivity.
Defined.

Lemma createCoalition_founds_witness :
  let r := run_alone offline (createCoalition (new_coalition "dot" "Coats & Co") sample_db) in
  let c := fst (fst (snd r)) in
  co_slug c = "coats-co-2" /\
  getCoalition (co_slug c) (fst r) = Some c /\ isFounder (co_id c) "dot" (fst r) = true.
Proof.
  pose proof (createCoalition_founds offline (new_coalition "dot" "Coats & Co") sample_db sample_inv) as Ht.
  cbv zeta in *. split; [vm_compute; reflexivity|].
  destruct Ht as (_ & _ & _ & Hs & _ & _ & _ & _ & _ & _ & Hf & _). split; [exact Hs|exact Hf].
Defined.

Lemma departure_revokes_witness :
  let r := run_alone offline (leaveCoalition coa "bea" sample_db) in
  is_ok (snd r) = true /\ departed coa "bea" sample_db (fst r).
Proof.
  cbv zeta.
  pose proof (proj1 (departure_revokes offline coa "bea" sample_db sample_coalition
    sample_inv sample_found ltac:(discriminate))) as Ht.
  cbv zeta in Ht. revert Ht.
  destruct (snd (run_alone offline (leaveCoalition coa "bea" sample_db))) as [e|m] eqn:E;
    [vm_compute in E; discriminate|]. intros Ht. split; [reflexivity|exact Ht].
Defined.

(** Discharge the next hypothesis of [Ht] by evaluation. *)
Ltac evaluated Ht :=
  match type of Ht with ?P -> _ =>
    assert (Hp : P); [vm_compute; first [reflexivity|discriminate]|]; specialize (Ht Hp); clear Hp
  end.

(** Bea's petition, with a second steward to back it. *)
Definition backed_db : db :=
  calls [ call (inviteMember coa "ada" "cyd"); call (requestJoin coa "cyd" None);
          call (setMemberRole coa "ada" "cyd" steward) ] sample_db.

Lemma backed_inv : inv backed_db.
Proof.
  destruct sample_reachable as [ts Hr].
  destruct (calls_run [ call (inviteMember coa "ada" "cyd"); call (requestJoin coa "cyd" None);
          call (setMemberRole coa "ada" "cyd" steward) ] sample_db ts) as [ts' Hr']; [repeat constructor|].
  apply reachable_inv. exists ts'. exact (transitivity Hr Hr').
Qed.

Definition bea_membership : CoalitionMembershipRecord :=
  Eval vm_compute in match activeMembership coa "bea" backed_db with
                     | Some m => m | None => mk_mb "" "" "" member true 0 0 end.

Lemma succession_completes_witness :
  let r := run_alone offline (secondSuccessionPetition coa "cyd" backed_db) in
  pe_candidateUserId sample_petition = "bea" /\
  forall v, isFounder (co_id sample_coalition) v (fst r) = true <-> v = pe_candidateUserId sample_petition.
Proof.
  split; [reflexivity|].
  pose proof (succession_completes offline coa "cyd" backed_db sample_coalition
    sample_petition bea_membership backed_inv) as Ht. cbv zeta in *.
  do 8 evaluated Ht.
  exact (proj1 (proj2 Ht)).
Defined.

Lemma setCampaignPayees_exact_witness :
  let ps := [Build_PayeeInput "bea" (jint 10000) "all of it"] in
  let r := run_alone offline (setCampaignPayees coa "ada" camp ps sample_db) in
  is_ok (snd r) = true /\
  exists p es,
    getCoalitionCampaign camp sample_db = Some p /\
    map (fun e => Some (pi_userId e)) es = [Some "bea"] /\
    Permutation (map (fun r => (py_userId r, py_shareBps r)) (listCampaignPayees camp (fst r)))
                (map (fun e => (pi_userId e, entry_share e)) es).
Proof.
  cbv zeta.
  pose proof (setCampaignPayees_exact offline coa "ada" camp [Build_PayeeInput "bea" (jint 10000) "all of it"]
    sample_db sample_coalition sample_inv sample_found) as Ht.
  cbv zeta in Ht.
  match type of Ht with match ?x with _ => _ end =>
    assert (E : is_ok x = true) by (vm_compute; reflexivity); revert Ht E; generalize x end.
  intros [e|m] Ht E; [discriminate E|]. split; [exact E|]. revert Ht.
  intros (p & es & Hp & _ & _ & _ & Hes & _ & _ & _ & _ & Hperm & _).
  exists p, es. split; [exact Hp|]. split; [|exact Hperm]. rewrite Hes. vm_compute. reflexivity.
Defined.
End witnesses.

(** ** Runs that go wrong

    Runs of the modelled service, each reached by client calls alone, in which the
    outcome is not what the comments in the source promise. *)


Section runs.
#[local] Existing Instance sample_env.
#[local] Existing Instance sample_laws.

Lemma calls_lead hs hs' d :
  Forall api hs -> Forall api hs' -> reachable d -> leads_to (calls hs d) (calls hs' (calls hs d)).
Proof.
  intros Hs Hs' [ts Hr]. destruct (calls_run hs d ts Hs) as [ts1 H1].
  destruct (calls_run hs' (calls hs d) ts1 Hs') as [ts2 H2].
  exists ts1, ts2. split; [exact (transitivity Hr H1)|exact H2].
Qed.

(** Call [h], then the others, then let [h] go on from where it waited. *)
Definition paused (h : H unit) (hs : list (H unit)) (d : db) : db := calls hs (settle (h d)).1.

Definition resumed (h : H unit) (hs : list (H unit)) (d : db) : db :=
  match settle (h d) with
  | (d1, t :: _) => (settle (task_k t (offline _ (task_req t)) (calls hs d1))).1
  | (d1, []) => calls hs d1
  end.

Lemma calls_run_pool hs d ts :
  Forall api hs ->
  exists ts', rtc (sys_step api outside) (Sys d ts) (Sys (calls hs d) (ts ++ ts')).
Proof.
  intros Hf. revert d ts. induction Hf as [|h hs Hh _ IH]; intros d ts.
  { exists []. by rewrite app_nil_r. }
  destruct (settle (h d)) as [d' ts1] eqn:E. destruct (IH d' (ts ++ ts1)) as [ts' Hr].
  exists (ts1 ++ ts'). rewrite app_assoc. eapply rtc_l; [by eapply step_call|].
  cbn [calls fold_left]. by rewrite E.
Qed.

Lemma resumed_lead h hs d :
  api h -> Forall api hs -> reachable d -> leads_to (paused h hs d) (resumed h hs d).
Proof.
  intros Hh Hs [ts Hr]. unfold paused, resumed. destruct (settle (h d)) as [d1 tks] eqn:E.
  assert (H1 : sys_step api outside (Sys d ts) (Sys d1 (ts ++ tks))) by (by eapply step_call).
  destruct (calls_run_pool hs d1 (ts ++ tks) Hs) as [ts' H2]. cbn [fst].
  destruct tks as [|t tks].
  - eexists _, _. split; [|apply rtc_refl]. exact (transitivity Hr (rtc_l _ _ _ _ H1 H2)).
  - destruct (settle (task_k t (offline _ (task_req t)) (calls hs d1))) as [d2 ts2] eqn:E2.
    eexists _, _. split; [exact (transitivity Hr (rtc_l _ _ _ _ H1 H2))|].
    apply rtc_once. rewrite <-app_assoc. cbn [app]. by eapply step_resume.
Qed.

(** *** A petition for someone who already leads *)

(** Ada hands the lead to Bea, whose petition is still open, and then seconds it. *)
Definition leaderless_db : db := calls [ call (secondSuccessionPetition coa "ada") ] sample_later.

(** A coalition can lose its founder: when the candidate of an open
    petition has meanwhile been handed the lead, the petition's success writes the
    candidate's own row twice, last as a steward, and nobody leads. *)
Theorem founder_lost :
  leads_to sample_later leaderless_db /\
  isFounder coa "bea" sample_later = true /\
  map (fun m => (mb_userId m, mb_role m)) (activeMembers coa leaderless_db) =
    [("ada", steward); ("bea", steward)] /\
  forall u, isFounder coa u leaderless_db = false.
Proof.
  assert (Hl : leads_to sample_later leaderless_db).
  { unfold leaderless_db, sample_later.
    apply calls_lead; [apply sample_handover_api|repeat constructor|apply sample_reachable]. }
  split; [exact Hl|]. do 2 (split; [vm_compute; reflexivity|]).
  apply leads_to_moves in Hl as [Hi HG]. pose proof (asteps_inv _ _ Hi HG) as Hi'.
  assert (Hnone : List.filter (founds coa) (values (memberships leaderless_db)) = [])
    by (vm_compute; reflexivity).
  assert (Hc : exists_in coa (coalitions leaderless_db)).
  { exists sample_coalition. vm_compute. reflexivity. }
  intros u. destruct (isFounder coa u leaderless_db) eqn:E; [exfalso|done].
  apply isFounder_iff in E as (m & Hm & Fm & _); [|exact Hi'|exact Hc].
  assert (Hin : In m (List.filter (founds coa) (values (memberships leaderless_db)))) 
    by exact (proj2 (filter_In _ _ _) (conj Hm Fm)).
  rewrite Hnone in Hin. destruct Hin.
Qed.

(** *** After a takedown *)

Definition takedown : H unit := call (takeDownCoalition coa "root" "spam").

Definition small_campaign : CreateCampaignInput :=
  Build_CreateCampaignInput type_drive "Boots" "for everyone" None None None None (Some true) None
    None None None None None.

Definition before_launch : db :=
  calls [ call (createCampaign coa "bea" small_campaign); takedown ] sample_db.

Definition boots : string :=
  Eval vm_compute in
    match rev (values (campaigns before_launch)) with c :: _ => cp_id c | [] => "" end.

Definition after_launch : db := calls [ call (approveCampaign coa "ada" boots) ] before_launch.

Definition before_join : db := paused (call (requestJoin coa "cyd" None)) [ takedown ] sample_db.
Definition after_join : db := resumed (call (requestJoin coa "cyd" None)) [ takedown ] sample_db.

Definition taken_down_in (d : db) : Prop :=
  exists c, getCoalition coa d = Some c /\ co_takenDownAt c <> None.

(** A takedown does not stop everything: a steward can still launch a
    waiting campaign of a coalition that has been taken down, and a request to join
    that was being evaluated when it was taken down still admits the newcomer. *)
Theorem takedown_gaps :
  (leads_to before_launch after_launch /\ taken_down_in before_launch /\ taken_down_in after_launch /\
   (cp_status <$> getCoalitionCampaign boots before_launch) = Some st_pending_approval /\
   (cp_status <$> getCoalitionCampaign boots after_launch) = Some st_active) /\
  (leads_to before_join after_join /\ taken_down_in before_join /\ taken_down_in after_join /\
   activeMembership coa "cyd" before_join = None /\
   (mb_role <$> activeMembership coa "cyd" after_join) = Some member).
Proof.
  assert (Hd : forall d, (match getCoalition coa d with Some c => co_takenDownAt c | None => None end) <> None ->
    taken_down_in d).
  { intros d. unfold taken_down_in. destruct (getCoalition coa d) as [c|]; [by exists c|done]. }
  split; (split; [|split; [|split; [|split; vm_compute; reflexivity]]]);
    try (apply Hd; vm_compute; discriminate).
  - unfold after_launch, before_launch. apply calls_lead; [repeat constructor..|apply sample_reachable].
  - unfold before_join, after_join. apply resumed_lead; [constructor|repeat constructor|apply sample_reachable].
Qed.
End runs.
