(* ===== verification/BillingRows.v ===== *)
(** * The rows of subscriptions and of the growth programme

    [db/types.ts]: creator subscriptions and their tiers, community boost pledges,
    canopy subscriptions, their audit trail and their gifts; referrals, ambassadors,
    quests and their completions, migration credits and bounty rewards.  A record's free-form metadata and the
    detail of an audit entry are left out; the two customer ids a canopy
    subscription derives from its user are left out as well. *)

From S2P Require Import Prelude JsMap Async CoalitionDomain Money Records Store.

(** An instant kept as text: [nowIso()], or the string a provider sent. *)
Inductive stamp : Set := at_ms (ms : Z) | as_sent (text : string).

#[export] Instance stamp_eq : EqDecision stamp.
Proof. solve_decision. Defined.

(** ** Subscriptions *)

Inductive CreatorSubscriptionTierStatus : Set := tier_draft | tier_active | tier_archived.
Inductive CreatorSubscriptionStatus : Set :=
  | sub_pending | sub_active | sub_canceled | sub_refunded | sub_expired.

#[export] Instance CreatorSubscriptionStatus_eq : EqDecision CreatorSubscriptionStatus.
Proof. solve_decision. Defined.

(** [CommunityBoostPledgeStatus] has the same five values. *)
Definition CommunityBoostPledgeStatus : Set := CreatorSubscriptionStatus.

Inductive CanopySubscriptionStatus : Set := trialing | canopy_active | past_due | canopy_canceled.
Inductive CanopyBillingInterval : Set := every_month | every_year.
Inductive CanopySubscriptionTier : Set := free | sprout | canopy_pro.

#[export] Instance CanopySubscriptionTier_eq : EqDecision CanopySubscriptionTier.
Proof. solve_decision. Defined.
#[export] Instance CanopySubscriptionStatus_eq : EqDecision CanopySubscriptionStatus.
Proof. solve_decision. Defined.

Inductive SubscriptionGiftStatus : Set := gift_pending | gift_claimed | gift_forwarded | gift_expired.

#[export] Instance SubscriptionGiftStatus_eq : EqDecision SubscriptionGiftStatus.
Proof. solve_decision. Defined.

Record CreatorSubscriptionTierRecord : Type := mk_tr {
  tr_id : string;
  tr_creatorUserId : string;
  tr_name : string;
  tr_description : option string;
  tr_priceCents : Z;
  tr_currency : string;
  tr_providerId : MarketplaceProviderId;
  tr_fbmListingId : option string;
  tr_status : CreatorSubscriptionTierStatus;
  tr_createdAt : Z;
  tr_updatedAt : Z;
}.

Record CreatorSubscriptionRecord : Type := mk_cs {
  cs_id : string;
  cs_subscriberUserId : string;
  cs_creatorUserId : string;
  cs_tierId : string;
  cs_providerId : MarketplaceProviderId;
  cs_fbmSubscriptionId : option string;
  cs_status : CreatorSubscriptionStatus;
  cs_startedAt : option stamp;
  cs_currentPeriodEndsAt : option Z;
  cs_canceledAt : option Z;
  cs_createdAt : Z;
  cs_updatedAt : Z;
}.

Record CommunityBoostPledgeRecord : Type := mk_bp {
  bp_id : string;
  bp_communityId : string;
  bp_pledgerUserId : string;
  bp_monthlyCents : Z;
  bp_feeCents : Z;
  bp_netCents : Z;
  bp_currency : string;
  bp_providerId : MarketplaceProviderId;
  bp_fbmSubscriptionId : option string;
  bp_status : CommunityBoostPledgeStatus;
  bp_startedAt : option stamp;
  bp_currentPeriodEndsAt : option Z;
  bp_canceledAt : option Z;
  bp_createdAt : Z;
  bp_updatedAt : Z;
}.

Record CanopySubscriptionRecord : Type := mk_ca {
  ca_userId : string;
  ca_planCode : string;
  ca_tier : CanopySubscriptionTier;
  ca_interval : CanopyBillingInterval;
  ca_status : CanopySubscriptionStatus;
  ca_trialEndsAt : option Z;
  ca_currentPeriodEndsAt : option Z;
  ca_gracePeriodEndsAt : option Z;
  ca_canceledAt : option stamp;
  ca_comped : bool;
  ca_updatedAt : stamp;
}.

Record SubscriptionAuditEventRecord : Type := mk_au {
  au_id : string;
  au_userId : string;
  au_type : string;
  au_actor : string;
  au_occurredAt : Z;
}.

Record SubscriptionGiftRecord : Type := mk_gf {
  gf_id : string;
  gf_donorUserId : string;
  gf_donorPlanCode : string;
  gf_donorTier : CanopySubscriptionTier;
  gf_status : SubscriptionGiftStatus;
  gf_claimedByUserId : option string;
  gf_claimedAt : option Z;
  gf_forwardedToGiftId : option string;
  gf_expiresAt : Z;
  gf_createdAt : Z;
  gf_updatedAt : Z;
  gf_rootGiftId : string;
  gf_chainDepth : Z;
}.

(** ** The growth programme *)

Inductive ReferralSourceKind : Set :=
  | invite_link | by_ambassador | migration_campaign | creator_invite | by_coalition.
Inductive ReferralStatus : Set := ref_pending | ref_attributed | ref_settled | ref_voided.
Inductive AmbassadorTier : Set := seedling | sapling | canopy_tier | elder.
Inductive AmbassadorStatus : Set := amb_pending | amb_active | amb_paused | amb_archived.
Inductive QuestSourceKind : Set := by_system | by_canopy | by_creator.
Inductive QuestRewardKind : Set := reward_tip | reward_fbm_credit.
Inductive MigrationCreditSourceKind : Set :=
  | discord_migration | twitch_migration | from_creator_invite | from_campaign.
Inductive BountyRewardStatus : Set := rew_earned | rew_settled | rew_voided.
Definition BountyRewardType : Set := string.

#[export] Instance QuestSourceKind_eq : EqDecision QuestSourceKind.
Proof. solve_decision. Defined.
#[export] Instance MigrationCreditSourceKind_eq : EqDecision MigrationCreditSourceKind.
Proof. solve_decision. Defined.
#[export] Instance ReferralStatus_eq : EqDecision ReferralStatus.
Proof. solve_decision. Defined.
#[export] Instance BountyRewardStatus_eq : EqDecision BountyRewardStatus.
Proof. solve_decision. Defined.

Record ReferralRecord : Type := mk_rf {
  rf_id : string;
  rf_referrerUserId : string;
  rf_refereeUserId : string;
  rf_sourceKind : ReferralSourceKind;
  rf_sourceRef : option string;
  rf_status : ReferralStatus;
  rf_rewardTipId : option string;
  rf_rewardCents : option Z;
  rf_attributedAt : Z;
  rf_settledAt : option stamp;
  rf_createdAt : Z;
  rf_updatedAt : Z;
}.

Record AmbassadorRecord : Type := mk_am {
  am_id : string;
  am_userId : string;
  am_tier : AmbassadorTier;
  am_commissionBps : Z;
  am_quotaCanopiesActive : Z;
  am_status : AmbassadorStatus;
  am_startedAt : Z;
  am_lastReviewedAt : Z;
  am_createdAt : Z;
  am_updatedAt : Z;
}.

Record QuestDefinitionRecord : Type := mk_qd {
  qd_id : string;
  qd_sourceKind : QuestSourceKind;
  qd_sourceRef : option string;
  qd_title : string;
  qd_description : string;
  qd_rewardKind : QuestRewardKind;
  qd_rewardCents : Z;
  qd_startsAt : option stamp;
  qd_endsAt : option stamp;
  qd_createdAt : Z;
  qd_updatedAt : Z;
}.

Record QuestCompletionRecord : Type := mk_qc {
  qc_id : string;
  qc_questId : string;
  qc_userId : string;
  qc_rewardTipId : option string;
  qc_completedAt : Z;
}.

Record MigrationCreditRecord : Type := mk_cr {
  cr_id : string;
  cr_userId : string;
  cr_fbmCreditId : option string;
  cr_sourceKind : MigrationCreditSourceKind;
  cr_sourceHandle : option string;
  cr_valueCents : Z;
  cr_currency : string;
  cr_grantedAt : Z;
  cr_redeemedAt : option Z;
  cr_createdAt : Z;
  cr_updatedAt : Z;
}.

Record BountyRewardRecord : Type := mk_br {
  br_id : string;
  br_bountyId : string;
  br_beneficiaryId : string;
  br_posterId : string;
  br_rewardType : BountyRewardType;
  br_rewardSummary : string;
  br_rewardCents : option Z;
  br_status : BountyRewardStatus;
  br_earnedAt : Z;
  br_settledAt : option stamp;
  br_settledRef : option string;
}.

(** ** The tables *)

Record billing : Type := mk_billing {
  bl_tiers : jsmap CreatorSubscriptionTierRecord;
  bl_subs : jsmap CreatorSubscriptionRecord;
  bl_pledges : jsmap CommunityBoostPledgeRecord;
  bl_canopy : jsmap CanopySubscriptionRecord;
  bl_processed : jsmap Z;
  bl_audit : jsmap SubscriptionAuditEventRecord;
  bl_gifts : jsmap SubscriptionGiftRecord;
}.

Definition set_bl_tiers (v : jsmap CreatorSubscriptionTierRecord) (b : billing) : billing := mk_billing v (bl_subs b) (bl_pledges b) (bl_canopy b) (bl_processed b) (bl_audit b) (bl_gifts b).
Definition set_bl_subs (v : jsmap CreatorSubscriptionRecord) (b : billing) : billing := mk_billing (bl_tiers b) v (bl_pledges b) (bl_canopy b) (bl_processed b) (bl_audit b) (bl_gifts b).
Definition set_bl_pledges (v : jsmap CommunityBoostPledgeRecord) (b : billing) : billing := mk_billing (bl_tiers b) (bl_subs b) v (bl_canopy b) (bl_processed b) (bl_audit b) (bl_gifts b).
Definition set_bl_canopy (v : jsmap CanopySubscriptionRecord) (b : billing) : billing := mk_billing (bl_tiers b) (bl_subs b) (bl_pledges b) v (bl_processed b) (bl_audit b) (bl_gifts b).
Definition set_bl_processed (v : jsmap Z) (b : billing) : billing := mk_billing (bl_tiers b) (bl_subs b) (bl_pledges b) (bl_canopy b) v (bl_audit b) (bl_gifts b).
Definition set_bl_audit (v : jsmap SubscriptionAuditEventRecord) (b : billing) : billing := mk_billing (bl_tiers b) (bl_subs b) (bl_pledges b) (bl_canopy b) (bl_processed b) v (bl_gifts b).
Definition set_bl_gifts (v : jsmap SubscriptionGiftRecord) (b : billing) : billing := mk_billing (bl_tiers b) (bl_subs b) (bl_pledges b) (bl_canopy b) (bl_processed b) (bl_audit b) v.

Record growth : Type := mk_growth {
  gr_referrals : jsmap ReferralRecord;
  gr_ambassadors : jsmap AmbassadorRecord;
  gr_quests : jsmap QuestDefinitionRecord;
  gr_completions : jsmap QuestCompletionRecord;
  gr_credits : jsmap MigrationCreditRecord;
  gr_rewards : jsmap BountyRewardRecord;
}.

Definition set_gr_referrals (v : jsmap ReferralRecord) (b : growth) : growth := mk_growth v (gr_ambassadors b) (gr_quests b) (gr_completions b) (gr_credits b) (gr_rewards b).
Definition set_gr_ambassadors (v : jsmap AmbassadorRecord) (b : growth) : growth := mk_growth (gr_referrals b) v (gr_quests b) (gr_completions b) (gr_credits b) (gr_rewards b).
Definition set_gr_quests (v : jsmap QuestDefinitionRecord) (b : growth) : growth := mk_growth (gr_referrals b) (gr_ambassadors b) v (gr_completions b) (gr_credits b) (gr_rewards b).
Definition set_gr_completions (v : jsmap QuestCompletionRecord) (b : growth) : growth := mk_growth (gr_referrals b) (gr_ambassadors b) (gr_quests b) v (gr_credits b) (gr_rewards b).
Definition set_gr_credits (v : jsmap MigrationCreditRecord) (b : growth) : growth := mk_growth (gr_referrals b) (gr_ambassadors b) (gr_quests b) (gr_completions b) v (gr_rewards b).
Definition set_gr_rewards (v : jsmap BountyRewardRecord) (b : growth) : growth := mk_growth (gr_referrals b) (gr_ambassadors b) (gr_quests b) (gr_completions b) (gr_credits b) v.

(** ** The spreads [{ ...record, field }] of the services *)

Definition with_tr_status (v : CreatorSubscriptionTierStatus) (r : CreatorSubscriptionTierRecord) : CreatorSubscriptionTierRecord :=
  mk_tr (tr_id r) (tr_creatorUserId r) (tr_name r) (tr_description r) (tr_priceCents r) (tr_currency r) (tr_providerId r) (tr_fbmListingId r) v (tr_createdAt r) (tr_updatedAt r).
Definition with_tr_updatedAt (v : Z) (r : CreatorSubscriptionTierRecord) : CreatorSubscriptionTierRecord :=
  mk_tr (tr_id r) (tr_creatorUserId r) (tr_name r) (tr_description r) (tr_priceCents r) (tr_currency r) (tr_providerId r) (tr_fbmListingId r) (tr_status r) (tr_createdAt r) v.
Definition with_cs_fbmSubscriptionId (v : option string) (r : CreatorSubscriptionRecord) : CreatorSubscriptionRecord :=
  mk_cs (cs_id r) (cs_subscriberUserId r) (cs_creatorUserId r) (cs_tierId r) (cs_providerId r) v (cs_status r) (cs_startedAt r) (cs_currentPeriodEndsAt r) (cs_canceledAt r) (cs_createdAt r) (cs_updatedAt r).
Definition with_cs_status (v : CreatorSubscriptionStatus) (r : CreatorSubscriptionRecord) : CreatorSubscriptionRecord :=
  mk_cs (cs_id r) (cs_subscriberUserId r) (cs_creatorUserId r) (cs_tierId r) (cs_providerId r) (cs_fbmSubscriptionId r) v (cs_startedAt r) (cs_currentPeriodEndsAt r) (cs_canceledAt r) (cs_createdAt r) (cs_updatedAt r).
Definition with_cs_startedAt (v : option stamp) (r : CreatorSubscriptionRecord) : CreatorSubscriptionRecord :=
  mk_cs (cs_id r) (cs_subscriberUserId r) (cs_creatorUserId r) (cs_tierId r) (cs_providerId r) (cs_fbmSubscriptionId r) (cs_status r) v (cs_currentPeriodEndsAt r) (cs_canceledAt r) (cs_createdAt r) (cs_updatedAt r).
Definition with_cs_currentPeriodEndsAt (v : option Z) (r : CreatorSubscriptionRecord) : CreatorSubscriptionRecord :=
  mk_cs (cs_id r) (cs_subscriberUserId r) (cs_creatorUserId r) (cs_tierId r) (cs_providerId r) (cs_fbmSubscriptionId r) (cs_status r) (cs_startedAt r) v (cs_canceledAt r) (cs_createdAt r) (cs_updatedAt r).
Definition with_cs_canceledAt (v : option Z) (r : CreatorSubscriptionRecord) : CreatorSubscriptionRecord :=
  mk_cs (cs_id r) (cs_subscriberUserId r) (cs_creatorUserId r) (cs_tierId r) (cs_providerId r) (cs_fbmSubscriptionId r) (cs_status r) (cs_startedAt r) (cs_currentPeriodEndsAt r) v (cs_createdAt r) (cs_updatedAt r).
Definition with_cs_updatedAt (v : Z) (r : CreatorSubscriptionRecord) : CreatorSubscriptionRecord :=
  mk_cs (cs_id r) (cs_subscriberUserId r) (cs_creatorUserId r) (cs_tierId r) (cs_providerId r) (cs_fbmSubscriptionId r) (cs_status r) (cs_startedAt r) (cs_currentPeriodEndsAt r) (cs_canceledAt r) (cs_createdAt r) v.
Definition with_bp_fbmSubscriptionId (v : option string) (r : CommunityBoostPledgeRecord) : CommunityBoostPledgeRecord :=
  mk_bp (bp_id r) (bp_communityId r) (bp_pledgerUserId r) (bp_monthlyCents r) (bp_feeCents r) (bp_netCents r) (bp_currency r) (bp_providerId r) v (bp_status r) (bp_startedAt r) (bp_currentPeriodEndsAt r) (bp_canceledAt r) (bp_createdAt r) (bp_updatedAt r).
Definition with_bp_status (v : CommunityBoostPledgeStatus) (r : CommunityBoostPledgeRecord) : CommunityBoostPledgeRecord :=
  mk_bp (bp_id r) (bp_communityId r) (bp_pledgerUserId r) (bp_monthlyCents r) (bp_feeCents r) (bp_netCents r) (bp_currency r) (bp_providerId r) (bp_fbmSubscriptionId r) v (bp_startedAt r) (bp_currentPeriodEndsAt r) (bp_canceledAt r) (bp_createdAt r) (bp_updatedAt r).
Definition with_bp_startedAt (v : option stamp) (r : CommunityBoostPledgeRecord) : CommunityBoostPledgeRecord :=
  mk_bp (bp_id r) (bp_communityId r) (bp_pledgerUserId r) (bp_monthlyCents r) (bp_feeCents r) (bp_netCents r) (bp_currency r) (bp_providerId r) (bp_fbmSubscriptionId r) (bp_status r) v (bp_currentPeriodEndsAt r) (bp_canceledAt r) (bp_createdAt r) (bp_updatedAt r).
Definition with_bp_currentPeriodEndsAt (v : option Z) (r : CommunityBoostPledgeRecord) : CommunityBoostPledgeRecord :=
  mk_bp (bp_id r) (bp_communityId r) (bp_pledgerUserId r) (bp_monthlyCents r) (bp_feeCents r) (bp_netCents r) (bp_currency r) (bp_providerId r) (bp_fbmSubscriptionId r) (bp_status r) (bp_startedAt r) v (bp_canceledAt r) (bp_createdAt r) (bp_updatedAt r).
Definition with_bp_canceledAt (v : option Z) (r : CommunityBoostPledgeRecord) : CommunityBoostPledgeRecord :=
  mk_bp (bp_id r) (bp_communityId r) (bp_pledgerUserId r) (bp_monthlyCents r) (bp_feeCents r) (bp_netCents r) (bp_currency r) (bp_providerId r) (bp_fbmSubscriptionId r) (bp_status r) (bp_startedAt r) (bp_currentPeriodEndsAt r) v (bp_createdAt r) (bp_updatedAt r).
Definition with_bp_updatedAt (v : Z) (r : CommunityBoostPledgeRecord) : CommunityBoostPledgeRecord :=
  mk_bp (bp_id r) (bp_communityId r) (bp_pledgerUserId r) (bp_monthlyCents r) (bp_feeCents r) (bp_netCents r) (bp_currency r) (bp_providerId r) (bp_fbmSubscriptionId r) (bp_status r) (bp_startedAt r) (bp_currentPeriodEndsAt r) (bp_canceledAt r) (bp_createdAt r) v.
Definition with_ca_planCode (v : string) (r : CanopySubscriptionRecord) : CanopySubscriptionRecord :=
  mk_ca (ca_userId r) v (ca_tier r) (ca_interval r) (ca_status r) (ca_trialEndsAt r) (ca_currentPeriodEndsAt r) (ca_gracePeriodEndsAt r) (ca_canceledAt r) (ca_comped r) (ca_updatedAt r).
Definition with_ca_tier (v : CanopySubscriptionTier) (r : CanopySubscriptionRecord) : CanopySubscriptionRecord :=
  mk_ca (ca_userId r) (ca_planCode r) v (ca_interval r) (ca_status r) (ca_trialEndsAt r) (ca_currentPeriodEndsAt r) (ca_gracePeriodEndsAt r) (ca_canceledAt r) (ca_comped r) (ca_updatedAt r).
Definition with_ca_interval (v : CanopyBillingInterval) (r : CanopySubscriptionRecord) : CanopySubscriptionRecord :=
  mk_ca (ca_userId r) (ca_planCode r) (ca_tier r) v (ca_status r) (ca_trialEndsAt r) (ca_currentPeriodEndsAt r) (ca_gracePeriodEndsAt r) (ca_canceledAt r) (ca_comped r) (ca_updatedAt r).
Definition with_ca_status (v : CanopySubscriptionStatus) (r : CanopySubscriptionRecord) : CanopySubscriptionRecord :=
  mk_ca (ca_userId r) (ca_planCode r) (ca_tier r) (ca_interval r) v (ca_trialEndsAt r) (ca_currentPeriodEndsAt r) (ca_gracePeriodEndsAt r) (ca_canceledAt r) (ca_comped r) (ca_updatedAt r).
Definition with_ca_trialEndsAt (v : option Z) (r : CanopySubscriptionRecord) : CanopySubscriptionRecord :=
  mk_ca (ca_userId r) (ca_planCode r) (ca_tier r) (ca_interval r) (ca_status r) v (ca_currentPeriodEndsAt r) (ca_gracePeriodEndsAt r) (ca_canceledAt r) (ca_comped r) (ca_updatedAt r).
Definition with_ca_currentPeriodEndsAt (v : option Z) (r : CanopySubscriptionRecord) : CanopySubscriptionRecord :=
  mk_ca (ca_userId r) (ca_planCode r) (ca_tier r) (ca_interval r) (ca_status r) (ca_trialEndsAt r) v (ca_gracePeriodEndsAt r) (ca_canceledAt r) (ca_comped r) (ca_updatedAt r).
Definition with_ca_gracePeriodEndsAt (v : option Z) (r : CanopySubscriptionRecord) : CanopySubscriptionRecord :=
  mk_ca (ca_userId r) (ca_planCode r) (ca_tier r) (ca_interval r) (ca_status r) (ca_trialEndsAt r) (ca_currentPeriodEndsAt r) v (ca_canceledAt r) (ca_comped r) (ca_updatedAt r).
Definition with_ca_canceledAt (v : option stamp) (r : CanopySubscriptionRecord) : CanopySubscriptionRecord :=
  mk_ca (ca_userId r) (ca_planCode r) (ca_tier r) (ca_interval r) (ca_status r) (ca_trialEndsAt r) (ca_currentPeriodEndsAt r) (ca_gracePeriodEndsAt r) v (ca_comped r) (ca_updatedAt r).
Definition with_ca_comped (v : bool) (r : CanopySubscriptionRecord) : CanopySubscriptionRecord :=
  mk_ca (ca_userId r) (ca_planCode r) (ca_tier r) (ca_interval r) (ca_status r) (ca_trialEndsAt r) (ca_currentPeriodEndsAt r) (ca_gracePeriodEndsAt r) (ca_canceledAt r) v (ca_updatedAt r).
Definition with_ca_updatedAt (v : stamp) (r : CanopySubscriptionRecord) : CanopySubscriptionRecord :=
  mk_ca (ca_userId r) (ca_planCode r) (ca_tier r) (ca_interval r) (ca_status r) (ca_trialEndsAt r) (ca_currentPeriodEndsAt r) (ca_gracePeriodEndsAt r) (ca_canceledAt r) (ca_comped r) v.
Definition with_gf_status (v : SubscriptionGiftStatus) (r : SubscriptionGiftRecord) : SubscriptionGiftRecord :=
  mk_gf (gf_id r) (gf_donorUserId r) (gf_donorPlanCode r) (gf_donorTier r) v (gf_claimedByUserId r) (gf_claimedAt r) (gf_forwardedToGiftId r) (gf_expiresAt r) (gf_createdAt r) (gf_updatedAt r) (gf_rootGiftId r) (gf_chainDepth r).
Definition with_gf_claimedByUserId (v : option string) (r : SubscriptionGiftRecord) : SubscriptionGiftRecord :=
  mk_gf (gf_id r) (gf_donorUserId r) (gf_donorPlanCode r) (gf_donorTier r) (gf_status r) v (gf_claimedAt r) (gf_forwardedToGiftId r) (gf_expiresAt r) (gf_createdAt r) (gf_updatedAt r) (gf_rootGiftId r) (gf_chainDepth r).
Definition with_gf_claimedAt (v : option Z) (r : SubscriptionGiftRecord) : SubscriptionGiftRecord :=
  mk_gf (gf_id r) (gf_donorUserId r) (gf_donorPlanCode r) (gf_donorTier r) (gf_status r) (gf_claimedByUserId r) v (gf_forwardedToGiftId r) (gf_expiresAt r) (gf_createdAt r) (gf_updatedAt r) (gf_rootGiftId r) (gf_chainDepth r).
Definition with_gf_forwardedToGiftId (v : option string) (r : SubscriptionGiftRecord) : SubscriptionGiftRecord :=
  mk_gf (gf_id r) (gf_donorUserId r) (gf_donorPlanCode r) (gf_donorTier r) (gf_status r) (gf_claimedByUserId r) (gf_claimedAt r) v (gf_expiresAt r) (gf_createdAt r) (gf_updatedAt r) (gf_rootGiftId r) (gf_chainDepth r).
Definition with_gf_updatedAt (v : Z) (r : SubscriptionGiftRecord) : SubscriptionGiftRecord :=
  mk_gf (gf_id r) (gf_donorUserId r) (gf_donorPlanCode r) (gf_donorTier r) (gf_status r) (gf_claimedByUserId r) (gf_claimedAt r) (gf_forwardedToGiftId r) (gf_expiresAt r) (gf_createdAt r) v (gf_rootGiftId r) (gf_chainDepth r).
Definition with_rf_status (v : ReferralStatus) (r : ReferralRecord) : ReferralRecord :=
  mk_rf (rf_id r) (rf_referrerUserId r) (rf_refereeUserId r) (rf_sourceKind r) (rf_sourceRef r) v (rf_rewardTipId r) (rf_rewardCents r) (rf_attributedAt r) (rf_settledAt r) (rf_createdAt r) (rf_updatedAt r).
Definition with_rf_rewardTipId (v : option string) (r : ReferralRecord) : ReferralRecord :=
  mk_rf (rf_id r) (rf_referrerUserId r) (rf_refereeUserId r) (rf_sourceKind r) (rf_sourceRef r) (rf_status r) v (rf_rewardCents r) (rf_attributedAt r) (rf_settledAt r) (rf_createdAt r) (rf_updatedAt r).
Definition with_rf_rewardCents (v : option Z) (r : ReferralRecord) : ReferralRecord :=
  mk_rf (rf_id r) (rf_referrerUserId r) (rf_refereeUserId r) (rf_sourceKind r) (rf_sourceRef r) (rf_status r) (rf_rewardTipId r) v (rf_attributedAt r) (rf_settledAt r) (rf_createdAt r) (rf_updatedAt r).
Definition with_rf_settledAt (v : option stamp) (r : ReferralRecord) : ReferralRecord :=
  mk_rf (rf_id r) (rf_referrerUserId r) (rf_refereeUserId r) (rf_sourceKind r) (rf_sourceRef r) (rf_status r) (rf_rewardTipId r) (rf_rewardCents r) (rf_attributedAt r) v (rf_createdAt r) (rf_updatedAt r).
Definition with_rf_updatedAt (v : Z) (r : ReferralRecord) : ReferralRecord :=
  mk_rf (rf_id r) (rf_referrerUserId r) (rf_refereeUserId r) (rf_sourceKind r) (rf_sourceRef r) (rf_status r) (rf_rewardTipId r) (rf_rewardCents r) (rf_attributedAt r) (rf_settledAt r) (rf_createdAt r) v.
Definition with_am_tier (v : AmbassadorTier) (r : AmbassadorRecord) : AmbassadorRecord :=
  mk_am (am_id r) (am_userId r) v (am_commissionBps r) (am_quotaCanopiesActive r) (am_status r) (am_startedAt r) (am_lastReviewedAt r) (am_createdAt r) (am_updatedAt r).
Definition with_am_commissionBps (v : Z) (r : AmbassadorRecord) : AmbassadorRecord :=
  mk_am (am_id r) (am_userId r) (am_tier r) v (am_quotaCanopiesActive r) (am_status r) (am_startedAt r) (am_lastReviewedAt r) (am_createdAt r) (am_updatedAt r).
Definition with_am_lastReviewedAt (v : Z) (r : AmbassadorRecord) : AmbassadorRecord :=
  mk_am (am_id r) (am_userId r) (am_tier r) (am_commissionBps r) (am_quotaCanopiesActive r) (am_status r) (am_startedAt r) v (am_createdAt r) (am_updatedAt r).
Definition with_am_updatedAt (v : Z) (r : AmbassadorRecord) : AmbassadorRecord :=
  mk_am (am_id r) (am_userId r) (am_tier r) (am_commissionBps r) (am_quotaCanopiesActive r) (am_status r) (am_startedAt r) (am_lastReviewedAt r) (am_createdAt r) v.
Definition with_qd_endsAt (v : option stamp) (r : QuestDefinitionRecord) : QuestDefinitionRecord :=
  mk_qd (qd_id r) (qd_sourceKind r) (qd_sourceRef r) (qd_title r) (qd_description r) (qd_rewardKind r) (qd_rewardCents r) (qd_startsAt r) v (qd_createdAt r) (qd_updatedAt r).
Definition with_qd_updatedAt (v : Z) (r : QuestDefinitionRecord) : QuestDefinitionRecord :=
  mk_qd (qd_id r) (qd_sourceKind r) (qd_sourceRef r) (qd_title r) (qd_description r) (qd_rewardKind r) (qd_rewardCents r) (qd_startsAt r) (qd_endsAt r) (qd_createdAt r) v.
Definition with_qc_rewardTipId (v : option string) (r : QuestCompletionRecord) : QuestCompletionRecord :=
  mk_qc (qc_id r) (qc_questId r) (qc_userId r) v (qc_completedAt r).
Definition with_cr_redeemedAt (v : option Z) (r : MigrationCreditRecord) : MigrationCreditRecord :=
  mk_cr (cr_id r) (cr_userId r) (cr_fbmCreditId r) (cr_sourceKind r) (cr_sourceHandle r) (cr_valueCents r) (cr_currency r) (cr_grantedAt r) v (cr_createdAt r) (cr_updatedAt r).
Definition with_cr_updatedAt (v : Z) (r : MigrationCreditRecord) : MigrationCreditRecord :=
  mk_cr (cr_id r) (cr_userId r) (cr_fbmCreditId r) (cr_sourceKind r) (cr_sourceHandle r) (cr_valueCents r) (cr_currency r) (cr_grantedAt r) (cr_redeemedAt r) (cr_createdAt r) v.
Definition with_br_status (v : BountyRewardStatus) (r : BountyRewardRecord) : BountyRewardRecord :=
  mk_br (br_id r) (br_bountyId r) (br_beneficiaryId r) (br_posterId r) (br_rewardType r) (br_rewardSummary r) (br_rewardCents r) v (br_earnedAt r) (br_settledAt r) (br_settledRef r).
Definition with_br_settledAt (v : option stamp) (r : BountyRewardRecord) : BountyRewardRecord :=
  mk_br (br_id r) (br_bountyId r) (br_beneficiaryId r) (br_posterId r) (br_rewardType r) (br_rewardSummary r) (br_rewardCents r) (br_status r) (br_earnedAt r) v (br_settledRef r).
Definition with_br_settledRef (v : option string) (r : BountyRewardRecord) : BountyRewardRecord :=
  mk_br (br_id r) (br_bountyId r) (br_beneficiaryId r) (br_posterId r) (br_rewardType r) (br_rewardSummary r) (br_rewardCents r) (br_status r) (br_earnedAt r) (br_settledAt r) v.
