(* ===== verification/Ledger.v ===== *)
(** * The money tables

    The rows behind tips, aid pools, funded projects and marketplace webhooks
    ([db/types.ts]), the part of the process that holds them together with the
    coalition tables ([world]), and the methods of [InMemoryDb] that read and write
    them.  Metadata is carried as key and value strings; the payload a webhook row
    keeps for the audit, and the metadata of an entitlement, are left out. *)

From S2P Require Import Prelude JsMap Async CoalitionDomain Money Records Store BillingRows.

#[export] Instance MarketplaceProviderId_eq : EqDecision MarketplaceProviderId.
Proof. solve_decision. Defined.

(** ** Rows *)

Inductive TipContextKind : Set :=
  | ck_profile | ck_stream | ck_post | ck_channel_message | ck_aid_pool
  | ck_referral_bonus | ck_ambassador_commission | ck_quest_reward | ck_bounty_reward
  | ck_coalition_project | ck_coalition_drive.

#[export] Instance TipContextKind_eq : EqDecision TipContextKind.
Proof. solve_decision. Defined.

Inductive TipStatus : Set := tip_pending | tip_captured | tip_refunded | tip_failed.

#[export] Instance TipStatus_eq : EqDecision TipStatus.
Proof. solve_decision. Defined.

Record TipRecord : Type := mk_tip {
  tp_id : string;
  tp_senderUserId : string;
  tp_recipientUserId : string;
  tp_contextKind : TipContextKind;
  tp_contextRef : option string;
  tp_grossCents : Z;
  tp_feeCents : Z;
  tp_netCents : Z;
  tp_feeBps : Z;
  tp_currency : string;
  tp_providerId : MarketplaceProviderId;
  tp_fbmOrderId : option string;
  tp_status : TipStatus;
  tp_note : option string;
  tp_giftSku : option string;
  tp_createdAt : Z;
  tp_capturedAt : option Z;
  tp_refundedAt : option Z;
  tp_metadata : list (string * string);
}.

Inductive AidPoolStatus : Set := pool_open | pool_fulfilled | pool_closed.

#[export] Instance AidPoolStatus_eq : EqDecision AidPoolStatus.
Proof. solve_decision. Defined.

Record AidPoolRecord : Type := mk_pool {
  po_id : string;
  po_organizerUserId : string;
  po_title : string;
  po_description : option string;
  po_goalCents : Z;
  po_currency : string;
  po_status : AidPoolStatus;
  po_createdAt : Z;
  po_fulfilledAt : option Z;
  po_closedAt : option Z;
}.

Inductive ProjectStatus : Set := proposed | project_active | paused | complete.

Record ProjectMilestone : Type := mk_milestone {
  ms_id : string;
  ms_label : string;
  ms_thresholdCents : Z;
  ms_reachedAt : option Z;
}.

Inductive CoalitionPlace : Type :=
  | PinPlace (latitude longitude : jsnum) (label : option string)
  | AreaPlace (latitude longitude : jsnum) (label : option string) (radiusMeters : jsnum).

Record CoalitionProjectRecord : Type := mk_project {
  pj_id : string;
  pj_canopyId : string;
  pj_title : string;
  pj_category : string;
  pj_description : option string;
  pj_status : ProjectStatus;
  pj_leadId : string;
  pj_proposalEventId : option string;
  pj_fundingGoalCents : option Z;
  pj_raisedCents : Z;
  pj_currency : option string;
  pj_supporterCount : Z;
  pj_useOfFunds : option string;
  pj_deadlineAt : option string;
  pj_milestones : list ProjectMilestone;
  pj_place : option CoalitionPlace;
  pj_createdAt : Z;
  pj_updatedAt : Z;
}.

Record CoalitionProjectSupportRecord : Type := mk_support {
  su_id : string;
  su_projectId : string;
  su_supporterUserId : string;
  su_tipId : string;
  su_amountCents : Z;
  su_currency : option string;
  su_createdAt : Z;
}.

(** Notifications of kind [milestone]. *)
Record CoalitionNotificationRecord : Type := mk_note {
  cn_id : string;
  cn_recipientUserId : string;
  cn_projectId : option string;
  cn_milestoneId : option string;
  cn_title : string;
  cn_body : option string;
  cn_readAt : option Z;
  cn_createdAt : Z;
}.

(** The feed item a milestone publishes, but for its ranking scores. *)
Record MilestoneFeedItem : Type := mk_feed {
  fi_id : string;
  fi_title : string;
  fi_body : string;
  fi_canopyId : string;
  fi_authorId : string;
  fi_projectId : string;
  fi_milestoneId : string;
  fi_createdAt : Z;
}.

Record MarketplaceWebhookAuditRecord : Type := mk_audit {
  wa_id : string;
  wa_providerId : MarketplaceProviderId;
  wa_eventId : string;
  wa_receivedAt : Z;
  wa_processedAt : option Z;
  wa_signatureOk : bool;
}.

Inductive EntitlementKind : Set :=
  | emoji_pack | asset_bundle | software_license | plugin_flag | subscription_tier
  | post_unlock | event_ticket | role_grant | channel_access | profile_cosmetic
  | sound_pack | community_template | stream_asset | vault_item | privacy_tool.

#[export] Instance EntitlementKind_eq : EqDecision EntitlementKind.
Proof. solve_decision. Defined.

Inductive EntitlementStatus : Set :=
  | ent_granted | ent_pending | ent_refunded | ent_chargebacked | ent_revoked | ent_expired.

Record MarketplaceEntitlementRecord : Type := mk_ent {
  en_id : string;
  en_userId : string;
  en_providerId : MarketplaceProviderId;
  en_providerListingId : string;
  en_sku : option string;
  en_kind : EntitlementKind;
  en_status : EntitlementStatus;
  en_grantedAt : string;
  en_expiresAt : option string;
  en_sourceEventId : string;
  en_createdAt : Z;
  en_updatedAt : Z;
}.

Record MarketplaceLicenseKeyRecord : Type := mk_license {
  lk_entitlementId : string;
  lk_licenseKey : string;
  lk_activationsUsed : Z;
  lk_activationsMax : jsnum;
  lk_createdAt : Z;
}.

(** The domain events of the money services. *)
Inductive MoneyEvent : Type :=
  | ev_tip_captured (tip : TipRecord)
  | ev_tip_refunded (tipId recipientUserId : string) (grossCents netCents : Z)
  | ev_support_recorded (projectId supporterUserId tipId : string) (amountCents raisedCents supporterCount : Z)
  | ev_milestone_reached (projectId milestoneId label : string) (thresholdCents raisedCents : Z)
  | ev_pool_fulfilled (poolId organizerUserId : string) (goalCents : Z)
  | ev_pool_closed (poolId organizerUserId : string).

(** ** The process *)

Record world : Type := mk_world {
  w_db : db;
  w_tips : jsmap TipRecord;
  w_pools : jsmap AidPoolRecord;
  w_projects : jsmap CoalitionProjectRecord;
  w_supports : jsmap CoalitionProjectSupportRecord;
  w_notes : jsmap CoalitionNotificationRecord;
  w_feed : jsmap MilestoneFeedItem;
  w_audit : jsmap MarketplaceWebhookAuditRecord;
  w_entitlements : jsmap MarketplaceEntitlementRecord;
  w_licenses : jsmap MarketplaceLicenseKeyRecord;
  w_billing : billing;
  w_growth : growth;
  w_events : list MoneyEvent;
}.

Definition set_w_db (v : db) (w : world) : world :=
  mk_world v (w_tips w) (w_pools w) (w_projects w) (w_supports w) (w_notes w) (w_feed w) (w_audit w) (w_entitlements w) (w_licenses w) (w_billing w) (w_growth w) (w_events w).
Definition set_w_tips (v : jsmap TipRecord) (w : world) : world :=
  mk_world (w_db w) v (w_pools w) (w_projects w) (w_supports w) (w_notes w) (w_feed w) (w_audit w) (w_entitlements w) (w_licenses w) (w_billing w) (w_growth w) (w_events w).
Definition set_w_pools (v : jsmap AidPoolRecord) (w : world) : world :=
  mk_world (w_db w) (w_tips w) v (w_projects w) (w_supports w) (w_notes w) (w_feed w) (w_audit w) (w_entitlements w) (w_licenses w) (w_billing w) (w_growth w) (w_events w).
Definition set_w_projects (v : jsmap CoalitionProjectRecord) (w : world) : world :=
  mk_world (w_db w) (w_tips w) (w_pools w) v (w_supports w) (w_notes w) (w_feed w) (w_audit w) (w_entitlements w) (w_licenses w) (w_billing w) (w_growth w) (w_events w).
Definition set_w_supports (v : jsmap CoalitionProjectSupportRecord) (w : world) : world :=
  mk_world (w_db w) (w_tips w) (w_pools w) (w_projects w) v (w_notes w) (w_feed w) (w_audit w) (w_entitlements w) (w_licenses w) (w_billing w) (w_growth w) (w_events w).
Definition set_w_notes (v : jsmap CoalitionNotificationRecord) (w : world) : world :=
  mk_world (w_db w) (w_tips w) (w_pools w) (w_projects w) (w_supports w) v (w_feed w) (w_audit w) (w_entitlements w) (w_licenses w) (w_billing w) (w_growth w) (w_events w).
Definition set_w_feed (v : jsmap MilestoneFeedItem) (w : world) : world :=
  mk_world (w_db w) (w_tips w) (w_pools w) (w_projects w) (w_supports w) (w_notes w) v (w_audit w) (w_entitlements w) (w_licenses w) (w_billing w) (w_growth w) (w_events w).
Definition set_w_audit (v : jsmap MarketplaceWebhookAuditRecord) (w : world) : world :=
  mk_world (w_db w) (w_tips w) (w_pools w) (w_projects w) (w_supports w) (w_notes w) (w_feed w) v (w_entitlements w) (w_licenses w) (w_billing w) (w_growth w) (w_events w).
Definition set_w_entitlements (v : jsmap MarketplaceEntitlementRecord) (w : world) : world :=
  mk_world (w_db w) (w_tips w) (w_pools w) (w_projects w) (w_supports w) (w_notes w) (w_feed w) (w_audit w) v (w_licenses w) (w_billing w) (w_growth w) (w_events w).
Definition set_w_licenses (v : jsmap MarketplaceLicenseKeyRecord) (w : world) : world :=
  mk_world (w_db w) (w_tips w) (w_pools w) (w_projects w) (w_supports w) (w_notes w) (w_feed w) (w_audit w) (w_entitlements w) v (w_billing w) (w_growth w) (w_events w).
Definition set_w_billing (v : billing) (w : world) : world :=
  mk_world (w_db w) (w_tips w) (w_pools w) (w_projects w) (w_supports w) (w_notes w) (w_feed w) (w_audit w) (w_entitlements w) (w_licenses w) v (w_growth w) (w_events w).
Definition set_w_growth (v : growth) (w : world) : world :=
  mk_world (w_db w) (w_tips w) (w_pools w) (w_projects w) (w_supports w) (w_notes w) (w_feed w) (w_audit w) (w_entitlements w) (w_licenses w) (w_billing w) v (w_events w).
Definition set_w_events (v : list MoneyEvent) (w : world) : world :=
  mk_world (w_db w) (w_tips w) (w_pools w) (w_projects w) (w_supports w) (w_notes w) (w_feed w) (w_audit w) (w_entitlements w) (w_licenses w) (w_billing w) (w_growth w) v.

(** The spreads [{ ...record, field }] of the services. *)
Definition with_tp_grossCents (v : Z) (r : TipRecord) : TipRecord :=
  mk_tip (tp_id r) (tp_senderUserId r) (tp_recipientUserId r) (tp_contextKind r) (tp_contextRef r) v (tp_feeCents r) (tp_netCents r) (tp_feeBps r) (tp_currency r) (tp_providerId r) (tp_fbmOrderId r) (tp_status r) (tp_note r) (tp_giftSku r) (tp_createdAt r) (tp_capturedAt r) (tp_refundedAt r) (tp_metadata r).
Definition with_tp_feeCents (v : Z) (r : TipRecord) : TipRecord :=
  mk_tip (tp_id r) (tp_senderUserId r) (tp_recipientUserId r) (tp_contextKind r) (tp_contextRef r) (tp_grossCents r) v (tp_netCents r) (tp_feeBps r) (tp_currency r) (tp_providerId r) (tp_fbmOrderId r) (tp_status r) (tp_note r) (tp_giftSku r) (tp_createdAt r) (tp_capturedAt r) (tp_refundedAt r) (tp_metadata r).
Definition with_tp_netCents (v : Z) (r : TipRecord) : TipRecord :=
  mk_tip (tp_id r) (tp_senderUserId r) (tp_recipientUserId r) (tp_contextKind r) (tp_contextRef r) (tp_grossCents r) (tp_feeCents r) v (tp_feeBps r) (tp_currency r) (tp_providerId r) (tp_fbmOrderId r) (tp_status r) (tp_note r) (tp_giftSku r) (tp_createdAt r) (tp_capturedAt r) (tp_refundedAt r) (tp_metadata r).
Definition with_tp_fbmOrderId (v : option string) (r : TipRecord) : TipRecord :=
  mk_tip (tp_id r) (tp_senderUserId r) (tp_recipientUserId r) (tp_contextKind r) (tp_contextRef r) (tp_grossCents r) (tp_feeCents r) (tp_netCents r) (tp_feeBps r) (tp_currency r) (tp_providerId r) v (tp_status r) (tp_note r) (tp_giftSku r) (tp_createdAt r) (tp_capturedAt r) (tp_refundedAt r) (tp_metadata r).
Definition with_tp_status (v : TipStatus) (r : TipRecord) : TipRecord :=
  mk_tip (tp_id r) (tp_senderUserId r) (tp_recipientUserId r) (tp_contextKind r) (tp_contextRef r) (tp_grossCents r) (tp_feeCents r) (tp_netCents r) (tp_feeBps r) (tp_currency r) (tp_providerId r) (tp_fbmOrderId r) v (tp_note r) (tp_giftSku r) (tp_createdAt r) (tp_capturedAt r) (tp_refundedAt r) (tp_metadata r).
Definition with_tp_capturedAt (v : option Z) (r : TipRecord) : TipRecord :=
  mk_tip (tp_id r) (tp_senderUserId r) (tp_recipientUserId r) (tp_contextKind r) (tp_contextRef r) (tp_grossCents r) (tp_feeCents r) (tp_netCents r) (tp_feeBps r) (tp_currency r) (tp_providerId r) (tp_fbmOrderId r) (tp_status r) (tp_note r) (tp_giftSku r) (tp_createdAt r) v (tp_refundedAt r) (tp_metadata r).
Definition with_tp_refundedAt (v : option Z) (r : TipRecord) : TipRecord :=
  mk_tip (tp_id r) (tp_senderUserId r) (tp_recipientUserId r) (tp_contextKind r) (tp_contextRef r) (tp_grossCents r) (tp_feeCents r) (tp_netCents r) (tp_feeBps r) (tp_currency r) (tp_providerId r) (tp_fbmOrderId r) (tp_status r) (tp_note r) (tp_giftSku r) (tp_createdAt r) (tp_capturedAt r) v (tp_metadata r).
Definition with_po_status (v : AidPoolStatus) (r : AidPoolRecord) : AidPoolRecord :=
  mk_pool (po_id r) (po_organizerUserId r) (po_title r) (po_description r) (po_goalCents r) (po_currency r) v (po_createdAt r) (po_fulfilledAt r) (po_closedAt r).
Definition with_po_fulfilledAt (v : option Z) (r : AidPoolRecord) : AidPoolRecord :=
  mk_pool (po_id r) (po_organizerUserId r) (po_title r) (po_description r) (po_goalCents r) (po_currency r) (po_status r) (po_createdAt r) v (po_closedAt r).
Definition with_po_closedAt (v : option Z) (r : AidPoolRecord) : AidPoolRecord :=
  mk_pool (po_id r) (po_organizerUserId r) (po_title r) (po_description r) (po_goalCents r) (po_currency r) (po_status r) (po_createdAt r) (po_fulfilledAt r) v.
Definition with_pj_title (v : string) (r : CoalitionProjectRecord) : CoalitionProjectRecord :=
  mk_project (pj_id r) (pj_canopyId r) v (pj_category r) (pj_description r) (pj_status r) (pj_leadId r) (pj_proposalEventId r) (pj_fundingGoalCents r) (pj_raisedCents r) (pj_currency r) (pj_supporterCount r) (pj_useOfFunds r) (pj_deadlineAt r) (pj_milestones r) (pj_place r) (pj_createdAt r) (pj_updatedAt r).
Definition with_pj_category (v : string) (r : CoalitionProjectRecord) : CoalitionProjectRecord :=
  mk_project (pj_id r) (pj_canopyId r) (pj_title r) v (pj_description r) (pj_status r) (pj_leadId r) (pj_proposalEventId r) (pj_fundingGoalCents r) (pj_raisedCents r) (pj_currency r) (pj_supporterCount r) (pj_useOfFunds r) (pj_deadlineAt r) (pj_milestones r) (pj_place r) (pj_createdAt r) (pj_updatedAt r).
Definition with_pj_description (v : option string) (r : CoalitionProjectRecord) : CoalitionProjectRecord :=
  mk_project (pj_id r) (pj_canopyId r) (pj_title r) (pj_category r) v (pj_status r) (pj_leadId r) (pj_proposalEventId r) (pj_fundingGoalCents r) (pj_raisedCents r) (pj_currency r) (pj_supporterCount r) (pj_useOfFunds r) (pj_deadlineAt r) (pj_milestones r) (pj_place r) (pj_createdAt r) (pj_updatedAt r).
Definition with_pj_status (v : ProjectStatus) (r : CoalitionProjectRecord) : CoalitionProjectRecord :=
  mk_project (pj_id r) (pj_canopyId r) (pj_title r) (pj_category r) (pj_description r) v (pj_leadId r) (pj_proposalEventId r) (pj_fundingGoalCents r) (pj_raisedCents r) (pj_currency r) (pj_supporterCount r) (pj_useOfFunds r) (pj_deadlineAt r) (pj_milestones r) (pj_place r) (pj_createdAt r) (pj_updatedAt r).
Definition with_pj_fundingGoalCents (v : option Z) (r : CoalitionProjectRecord) : CoalitionProjectRecord :=
  mk_project (pj_id r) (pj_canopyId r) (pj_title r) (pj_category r) (pj_description r) (pj_status r) (pj_leadId r) (pj_proposalEventId r) v (pj_raisedCents r) (pj_currency r) (pj_supporterCount r) (pj_useOfFunds r) (pj_deadlineAt r) (pj_milestones r) (pj_place r) (pj_createdAt r) (pj_updatedAt r).
Definition with_pj_raisedCents (v : Z) (r : CoalitionProjectRecord) : CoalitionProjectRecord :=
  mk_project (pj_id r) (pj_canopyId r) (pj_title r) (pj_category r) (pj_description r) (pj_status r) (pj_leadId r) (pj_proposalEventId r) (pj_fundingGoalCents r) v (pj_currency r) (pj_supporterCount r) (pj_useOfFunds r) (pj_deadlineAt r) (pj_milestones r) (pj_place r) (pj_createdAt r) (pj_updatedAt r).
Definition with_pj_currency (v : option string) (r : CoalitionProjectRecord) : CoalitionProjectRecord :=
  mk_project (pj_id r) (pj_canopyId r) (pj_title r) (pj_category r) (pj_description r) (pj_status r) (pj_leadId r) (pj_proposalEventId r) (pj_fundingGoalCents r) (pj_raisedCents r) v (pj_supporterCount r) (pj_useOfFunds r) (pj_deadlineAt r) (pj_milestones r) (pj_place r) (pj_createdAt r) (pj_updatedAt r).
Definition with_pj_supporterCount (v : Z) (r : CoalitionProjectRecord) : CoalitionProjectRecord :=
  mk_project (pj_id r) (pj_canopyId r) (pj_title r) (pj_category r) (pj_description r) (pj_status r) (pj_leadId r) (pj_proposalEventId r) (pj_fundingGoalCents r) (pj_raisedCents r) (pj_currency r) v (pj_useOfFunds r) (pj_deadlineAt r) (pj_milestones r) (pj_place r) (pj_createdAt r) (pj_updatedAt r).
Definition with_pj_useOfFunds (v : option string) (r : CoalitionProjectRecord) : CoalitionProjectRecord :=
  mk_project (pj_id r) (pj_canopyId r) (pj_title r) (pj_category r) (pj_description r) (pj_status r) (pj_leadId r) (pj_proposalEventId r) (pj_fundingGoalCents r) (pj_raisedCents r) (pj_currency r) (pj_supporterCount r) v (pj_deadlineAt r) (pj_milestones r) (pj_place r) (pj_createdAt r) (pj_updatedAt r).
Definition with_pj_deadlineAt (v : option string) (r : CoalitionProjectRecord) : CoalitionProjectRecord :=
  mk_project (pj_id r) (pj_canopyId r) (pj_title r) (pj_category r) (pj_description r) (pj_status r) (pj_leadId r) (pj_proposalEventId r) (pj_fundingGoalCents r) (pj_raisedCents r) (pj_currency r) (pj_supporterCount r) (pj_useOfFunds r) v (pj_milestones r) (pj_place r) (pj_createdAt r) (pj_updatedAt r).
Definition with_pj_milestones (v : list ProjectMilestone) (r : CoalitionProjectRecord) : CoalitionProjectRecord :=
  mk_project (pj_id r) (pj_canopyId r) (pj_title r) (pj_category r) (pj_description r) (pj_status r) (pj_leadId r) (pj_proposalEventId r) (pj_fundingGoalCents r) (pj_raisedCents r) (pj_currency r) (pj_supporterCount r) (pj_useOfFunds r) (pj_deadlineAt r) v (pj_place r) (pj_createdAt r) (pj_updatedAt r).
Definition with_pj_place (v : option CoalitionPlace) (r : CoalitionProjectRecord) : CoalitionProjectRecord :=
  mk_project (pj_id r) (pj_canopyId r) (pj_title r) (pj_category r) (pj_description r) (pj_status r) (pj_leadId r) (pj_proposalEventId r) (pj_fundingGoalCents r) (pj_raisedCents r) (pj_currency r) (pj_supporterCount r) (pj_useOfFunds r) (pj_deadlineAt r) (pj_milestones r) v (pj_createdAt r) (pj_updatedAt r).
Definition with_pj_updatedAt (v : Z) (r : CoalitionProjectRecord) : CoalitionProjectRecord :=
  mk_project (pj_id r) (pj_canopyId r) (pj_title r) (pj_category r) (pj_description r) (pj_status r) (pj_leadId r) (pj_proposalEventId r) (pj_fundingGoalCents r) (pj_raisedCents r) (pj_currency r) (pj_supporterCount r) (pj_useOfFunds r) (pj_deadlineAt r) (pj_milestones r) (pj_place r) (pj_createdAt r) v.
Definition with_wa_processedAt (v : option Z) (r : MarketplaceWebhookAuditRecord) : MarketplaceWebhookAuditRecord :=
  mk_audit (wa_id r) (wa_providerId r) (wa_eventId r) (wa_receivedAt r) v (wa_signatureOk r).
Definition with_en_status (v : EntitlementStatus) (r : MarketplaceEntitlementRecord) : MarketplaceEntitlementRecord :=
  mk_ent (en_id r) (en_userId r) (en_providerId r) (en_providerListingId r) (en_sku r) (en_kind r) v (en_grantedAt r) (en_expiresAt r) (en_sourceEventId r) (en_createdAt r) (en_updatedAt r).
Definition with_en_updatedAt (v : Z) (r : MarketplaceEntitlementRecord) : MarketplaceEntitlementRecord :=
  mk_ent (en_id r) (en_userId r) (en_providerId r) (en_providerListingId r) (en_sku r) (en_kind r) (en_status r) (en_grantedAt r) (en_expiresAt r) (en_sourceEventId r) (en_createdAt r) v.

(** ** Requests and configuration *)

Inductive wreq : Set -> Type :=
  | Net (X : Set) (r : req X) : wreq X
  (** [provider.createCheckoutSession]: redirect URL and session id; [None] when it throws *)
  | CreateCheckoutSession (userId listingId : string) (amountCents : option Z)
      (idempotencyKey : string) (returnUrl : option string) (embed : bool)
      (embedOrigin : option string) (metadata : list (string * string)) :
      wreq (option (string * string))
  (** [provider.createCreatorListing] for a subscription tier: the listing, and
      whether it is archived *)
  | CreateTierListing (sellerUserId title description : string) (priceCents : Z)
      (currency : string) : wreq (option (option string * bool))
  (** whether the published listing came back archived *)
  | PublishTierListing (listingId : option string) (sellerUserId : string) : wreq (option bool)
  (** the fan-out to the recipient's outbound webhooks *)
  | OutboundTipCreated (blackoutUserId tipId : string) (grossCents netCents : Z) : wreq unit
  | SendMatrixMessage (roomId text : string) : wreq unit
  (** [recordAttributedAction], which counts on tables of its own *)
  | RecordAttributedAction (ref : option string) (conversion : string) : wreq unit
  (** what a webhook sets off in other modules *)
  | SyncMxidAcls (mxid : string) : wreq unit
  | RouteBridgeEvent (eventId : string) : wreq unit
  | FlushRuntimeStoreWrites : wreq unit
  | MaybeDeliverDigitalDeadDrop (eventId : string) (entitlementId : option string) : wreq unit.

(** What the money services read of their environment, and [Date.parse]. *)
Class MoneyEnv : Type := {
  Date_parse : string -> option Z;
  provider_embeds : bool;
  growthAttributionWebhooksEnabled : bool;
  fbmListingIdForPlan : string -> option string;
  aclSyncEnabled : bool;
  bridgeEnabled : bool;
  aidMirrorEnabled : bool;
  (** the text of a license key, sixteen random bytes in four groups *)
  license_text : nat -> string;
}.

Abbreviation W A := (M world wreq A).

(** A coalition handler, run against the coalition tables. *)
Definition network {A : Type} (m : H A) : W A := zoom w_db set_w_db Net m.

(** [await f()] *)
Definition wait {A : Type} (m : W A) : W A :=
  let! a := m in let! _ := request (Net _ Yield) in mret a.

Definition emit_money (e : MoneyEvent) (w : world) : world := set_w_events (w_events w ++ [e]) w.

(** ** Methods of [InMemoryDb] *)

Definition insertTip (r : TipRecord) (w : world) : world * TipRecord :=
  (set_w_tips (set (tp_id r) r (w_tips w)) w, r).
Definition updateTip (r : TipRecord) (w : world) : world * TipRecord :=
  (set_w_tips (set (tp_id r) r (w_tips w)) w, r).
Definition db_getTip (id : string) (w : world) : option TipRecord := get id (w_tips w).
Definition findTipByOrderId (p : MarketplaceProviderId) (fbmOrderId : string) (w : world) : option TipRecord :=
  List.find (fun r => bool_decide (tp_providerId r = p) && bool_decide (tp_fbmOrderId r = Some fbmOrderId))
    (values (w_tips w)).
(** [[...].reverse().filter(...).sort((a, b) => b.createdAt.localeCompare(a.createdAt)).slice(0, limit)] *)
Definition newest_first (p : TipRecord -> bool) (limit : nat) (w : world) : list TipRecord :=
  firstn limit (js_sort (fun a b => bool_decide (tp_createdAt b <= tp_createdAt a)%Z)
    (List.filter p (rev (values (w_tips w))))).
Definition listTipsByRecipient (u : string) (limit : nat) (w : world) : list TipRecord :=
  newest_first (fun r => bool_decide (tp_recipientUserId r = u)) limit w.
Definition listTipsBySender (u : string) (limit : nat) (w : world) : list TipRecord :=
  newest_first (fun r => bool_decide (tp_senderUserId r = u)) limit w.

Definition insertAidPool (r : AidPoolRecord) (w : world) : world :=
  set_w_pools (set (po_id r) r (w_pools w)) w.
Definition updateAidPool (r : AidPoolRecord) (w : world) : world :=
  set_w_pools (set (po_id r) r (w_pools w)) w.
Definition db_getAidPool (id : string) (w : world) : option AidPoolRecord := get id (w_pools w).
Definition db_listAidPools (w : world) : list AidPoolRecord :=
  js_sort (fun a b => bool_decide (po_createdAt b <= po_createdAt a)%Z) (values (w_pools w)).
Definition db_listAidPoolsByOrganizer (u : string) (w : world) : list AidPoolRecord :=
  js_sort (fun a b => bool_decide (po_createdAt b <= po_createdAt a)%Z)
    (List.filter (fun r => bool_decide (po_organizerUserId r = u)) (values (w_pools w))).

Definition createCoalitionProject (r : CoalitionProjectRecord) (w : world) : world * CoalitionProjectRecord :=
  let now := clock (w_db w) in
  let record := mk_project (pj_id r) (pj_canopyId r) (pj_title r) (pj_category r) (pj_description r) proposed
    (pj_leadId r) (pj_proposalEventId r) (pj_fundingGoalCents r) (pj_raisedCents r) (pj_currency r)
    (pj_supporterCount r) (pj_useOfFunds r) (pj_deadlineAt r) (pj_milestones r) (pj_place r) now now in
  (set_w_projects (set (pj_id record) record (w_projects w)) w, record).
Definition getCoalitionProject (id : string) (w : world) : option CoalitionProjectRecord := get id (w_projects w).

(** The body of the three updates: the row, patched. *)
Definition patch_project (id : string) (f : CoalitionProjectRecord -> CoalitionProjectRecord) (w : world) :
    world * option CoalitionProjectRecord :=
  match get id (w_projects w) with
  | None => (w, None)
  | Some existing =>
      let record := with_pj_updatedAt (clock (w_db w)) (f existing) in
      (set_w_projects (set id record (w_projects w)) w, Some record)
  end.
Definition updateCoalitionProjectStatus (id : string) (status : ProjectStatus) :
    world -> world * option CoalitionProjectRecord := patch_project id (with_pj_status status).
Definition applyCoalitionProjectSupport (id : string) (amountCents : Z) (milestones : list ProjectMilestone) :
    world -> world * option CoalitionProjectRecord :=
  patch_project id (fun r =>
    with_pj_milestones milestones (with_pj_supporterCount (pj_supporterCount r + 1)%Z
      (with_pj_raisedCents (pj_raisedCents r + amountCents)%Z r))).

(** The comparator [a.createdAt < b.createdAt ? 1 : -1] puts the later of two equal
    rows first: a stable sort of the reversed list. *)
Definition listCoalitionProjectSupports (projectId : option string) (since : option Z) (w : world) :
    list CoalitionProjectSupportRecord :=
  js_sort (fun a b => bool_decide (su_createdAt b <= su_createdAt a)%Z)
    (rev (List.filter (fun s => match since with Some t => bool_decide (t <= su_createdAt s)%Z | None => true end)
       (List.filter (fun s => clause projectId (su_projectId s)) (values (w_supports w))))).
Definition getCoalitionProjectSupportByTip (tipId : string) (w : world) : option CoalitionProjectSupportRecord :=
  List.find (fun s => bool_decide (su_tipId s = tipId)) (values (w_supports w)).
Definition addCoalitionProjectSupport (r : CoalitionProjectSupportRecord) (w : world) :
    world * CoalitionProjectSupportRecord :=
  let record := mk_support (su_id r) (su_projectId r) (su_supporterUserId r) (su_tipId r) (su_amountCents r)
    (su_currency r) (clock (w_db w)) in
  (set_w_supports (set (su_id record) record (w_supports w)) w, record).
Definition addCoalitionNotification (r : CoalitionNotificationRecord) (w : world) : world :=
  set_w_notes (set (cn_id r) (mk_note (cn_id r) (cn_recipientUserId r) (cn_projectId r) (cn_milestoneId r)
    (cn_title r) (cn_body r) (cn_readAt r) (clock (w_db w))) (w_notes w)) w.
Definition upsertCoalitionFeedItem (r : MilestoneFeedItem) (w : world) : world :=
  set_w_feed (set (fi_id r) r (w_feed w)) w.

(** [`${providerId}:${eventId}`] *)
Definition provider_name (p : MarketplaceProviderId) : string :=
  match p with
  | freeblackmarket => "freeblackmarket" | blamazon => "blamazon"
  | mayhem_marketplaze => "mayhem_marketplaze" | antin_amazon => "antin_amazon"
  end.
Definition webhookKey (p : MarketplaceProviderId) (eventId : string) : string :=
  provider_name p +:+ ":" +:+ eventId.
Definition recordMarketplaceWebhook (r : MarketplaceWebhookAuditRecord) (w : world) : world :=
  set_w_audit (set (webhookKey (wa_providerId r) (wa_eventId r)) r (w_audit w)) w.
Definition getMarketplaceWebhook (p : MarketplaceProviderId) (eventId : string) (w : world) :
    option MarketplaceWebhookAuditRecord := get (webhookKey p eventId) (w_audit w).
Definition markMarketplaceWebhookProcessed (p : MarketplaceProviderId) (eventId : string) (w : world) : world :=
  match getMarketplaceWebhook p eventId w with
  | None => w
  | Some existing =>
      set_w_audit (set (webhookKey p eventId) (with_wa_processedAt (Some (clock (w_db w))) existing) (w_audit w)) w
  end.

Definition upsertMarketplaceEntitlement (r : MarketplaceEntitlementRecord) (w : world) : world :=
  set_w_entitlements (set (en_id r) r (w_entitlements w)) w.
Definition findMarketplaceEntitlement (userId : string) (p : MarketplaceProviderId) (listing : string)
    (sku : option string) (w : world) : option MarketplaceEntitlementRecord :=
  List.find (fun r => bool_decide (en_userId r = userId) && bool_decide (en_providerId r = p)
      && bool_decide (en_providerListingId r = listing)
      && match sku with None => true | Some _ => bool_decide (en_sku r = sku) end)
    (values (w_entitlements w)).
Definition upsertMarketplaceLicenseKey (r : MarketplaceLicenseKeyRecord) (w : world) : world :=
  set_w_licenses (set (lk_entitlementId r) r (w_licenses w)) w.
Definition getMarketplaceLicenseKey (entitlementId : string) (w : world) : option MarketplaceLicenseKeyRecord :=
  get entitlementId (w_licenses w).
