(* ===== verification/Projects.v ===== *)
(** * Funded projects

    [core/src/coalition/projects.ts] and [services/coalitionProjectSupport.ts]: the
    milestones of a project, the ledger of its support, the notice its contributors
    get when it reaches a milestone ([services/coalitionNotifications.ts]), and the
    routes that create, change and support a project ([routes/coalition.ts]).  The
    momentum scores of the read side are left out. *)

From S2P Require Import Prelude JsMap Async CoalitionDomain Money Records Store BillingRows Ledger.
Open Scope Z_scope.

(** ** core/src/coalition/projects.ts *)

Definition PROJECT_STATUSES : list ProjectStatus := [proposed; project_active; paused; complete].

Definition project_status_name (st : ProjectStatus) : string :=
  match st with
  | proposed => "proposed" | project_active => "active" | paused => "paused" | complete => "complete"
  end.

Definition isProjectStatus (value : string) : bool :=
  bool_decide (value ∈ map project_status_name PROJECT_STATUSES).

(** The funding progress, an exact fraction where the source divides doubles. *)
Definition clamp01 (q : Q) : Q :=
  if Qle_bool q 0 then 0%Q else if Qle_bool q 1 then q else 1%Q.
Definition projectProgress (fundingGoalCents : option Z) (raisedCents : Z) : Q :=
  let goal := default 0 fundingGoalCents in
  if goal <=? 0 then 0%Q else clamp01 (raisedCents # Z.to_pos goal).

Definition unreached (m : ProjectMilestone) : bool := bool_decide (ms_reachedAt m = None).

Definition nextMilestone (milestones : list ProjectMilestone) : option ProjectMilestone :=
  head (js_sort (fun a b => bool_decide (ms_thresholdCents a <= ms_thresholdCents b))
    (List.filter unreached milestones)).

Definition crosses (raisedCents : Z) (m : ProjectMilestone) : bool :=
  unreached m && (ms_thresholdCents m <=? raisedCents).
Definition stamped (now : Z) (m : ProjectMilestone) : ProjectMilestone :=
  mk_milestone (ms_id m) (ms_label m) (ms_thresholdCents m) (Some now).

(** The new list, and the milestones just reached. *)
Definition evaluateMilestones (milestones : list ProjectMilestone) (raisedCents now : Z) :
    list ProjectMilestone * list ProjectMilestone :=
  (map (fun m => if crosses raisedCents m then stamped now m else m) milestones,
   map (stamped now) (List.filter (crosses raisedCents) milestones)).

(** ** services/coalitionNotifications.ts *)

Definition DAY_MS : Z := 24 * 60 * 60 * 1000.

Record ContributorNotification : Type := {
  nt_title : string;
  nt_body : option string;
  nt_milestoneId : option string;
}.

Section projects.
Context `{Env}.

(** [`${prefix}_${rand()}`] *)
Definition fresh_id (prefix : string) : W string := network (fresh prefix).

(** [for (const x of xs) f(x)] *)
Fixpoint each {A : Type} (f : A -> W unit) (l : list A) : W unit :=
  match l with
  | [] => mret tt
  | a :: l => f a ;;; each f l
  end.

Definition starts_with_bang (s : string) : bool :=
  match s with String c _ => Ascii.eqb c "!"%char | "" => false end.

Definition announceToCoalitionRoom (projectId : string) (n : ContributorNotification) : W unit :=
  let! project := gets (getCoalitionProject projectId) in
  match project with
  | Some p =>
      if starts_with_bang (pj_canopyId p) then
        spawn (request (SendMatrixMessage (pj_canopyId p)
          (match truthy (nt_body n) with
           | Some b => nt_title n +:+ " - " +:+ b
           | None => nt_title n
           end)))
      else mret tt
  | None => mret tt
  end.

(** The distinct supporters of the last thirty days, in the order of the list. *)
Definition recent_supporters (projectId : string) (nowMs : Z) (w : world) : list string :=
  fold_left (fun seen u => if bool_decide (u ∈ seen) then seen else seen ++ [u])
    (map su_supporterUserId
       (listCoalitionProjectSupports (Some projectId) (Some (nowMs - 30 * DAY_MS)) w)) [].

Definition notifyProjectContributors (projectId : string) (n : ContributorNotification) : W Z :=
  let! nowMs := gets (fun w => clock (w_db w)) in
  let! recipients := gets (recent_supporters projectId nowMs) in
  let! _ := each (fun recipientUserId =>
    let! id := fresh_id "cnot_" in
    modify (addCoalitionNotification
      (mk_note id recipientUserId (Some projectId) (nt_milestoneId n) (nt_title n) (nt_body n) None 0))) recipients in
  let! _ := announceToCoalitionRoom projectId n in
  mret (Z.of_nat (length recipients)).

(** ** services/coalitionProjectSupport.ts *)

Record RecordProjectSupportInput : Type := {
  rp_projectId : string;
  rp_supporterUserId : string;
  rp_tipId : string;
  rp_amountCents : Z;
  rp_currency : option string;
}.

Record RecordProjectSupportResult : Type := {
  rr_project : CoalitionProjectRecord;
  rr_support : CoalitionProjectSupportRecord;
  rr_reachedMilestones : list ProjectMilestone;
  rr_deduped : bool;
}.

Definition milestone_title (p : CoalitionProjectRecord) (m : ProjectMilestone) : string :=
  pj_title p +:+ " hit a milestone: " +:+ ms_label m.
Definition milestone_body (m : ProjectMilestone) : string :=
  "The community has raised enough to reach '" +:+ ms_label m +:+ "'.".

(** What one milestone sets off: the event, the notices, the feed item. *)
Definition broadcast_milestone (p : CoalitionProjectRecord) (m : ProjectMilestone) : W unit :=
  let! _ := modify (emit_money
    (ev_milestone_reached (pj_id p) (ms_id m) (ms_label m) (ms_thresholdCents m) (pj_raisedCents p))) in
  let! _ := notifyProjectContributors (pj_id p)
    {| nt_title := milestone_title p m; nt_body := Some (milestone_body m); nt_milestoneId := Some (ms_id m) |} in
  let! id := fresh_id "feed_" in
  let! now := gets (fun w => clock (w_db w)) in
  modify (upsertCoalitionFeedItem
    (mk_feed id (milestone_title p m) (milestone_body m) (pj_canopyId p) (pj_leadId p) (pj_id p) (ms_id m) now)).

Definition recordProjectSupport (input : RecordProjectSupportInput) : W (option RecordProjectSupportResult) :=
  let! existingSupport := gets (getCoalitionProjectSupportByTip (rp_tipId input)) in
  match existingSupport with
  | Some support =>
      let! project := gets (getCoalitionProject (su_projectId support)) in
      mret (match project with
            | None => None
            | Some project => Some {| rr_project := project; rr_support := support;
                                      rr_reachedMilestones := []; rr_deduped := true |}
            end)
  | None =>
      let! found := gets (getCoalitionProject (rp_projectId input)) in
      match found with
      | None => mret None
      | Some project =>
          let! id := fresh_id "psup_" in
          let! support := update (addCoalitionProjectSupport
            (mk_support id (rp_projectId input) (rp_supporterUserId input) (rp_tipId input)
               (rp_amountCents input) (rp_currency input) 0)) in
          let! now := gets (fun w => clock (w_db w)) in
          let '(milestones, reached) :=
            evaluateMilestones (pj_milestones project) (pj_raisedCents project + rp_amountCents input) now in
          let! updated := update (applyCoalitionProjectSupport (rp_projectId input) (rp_amountCents input) milestones) in
          let finalProject := default project updated in
          let! _ := modify (emit_money (ev_support_recorded (pj_id finalProject) (rp_supporterUserId input)
            (rp_tipId input) (rp_amountCents input) (pj_raisedCents finalProject) (pj_supporterCount finalProject))) in
          let! _ := each (broadcast_milestone finalProject) reached in
          mret (Some {| rr_project := finalProject; rr_support := support;
                        rr_reachedMilestones := reached; rr_deduped := false |})
      end
  end.

Definition listProjectSupporters (projectId : string) (limit : nat) (w : world) :
    list (string * Z * option string * Z) :=
  map (fun s => (su_supporterUserId s, su_amountCents s, su_currency s, su_createdAt s))
    (firstn limit (listCoalitionProjectSupports (Some projectId) None w)).

(** ** routes/coalition.ts *)

(** A milestone of a request: its id is optional, and it carries no [reachedAt]. *)
Record MilestoneInput : Type := { mi_id : option string; mi_label : string; mi_thresholdCents : Z }.

Fixpoint withMilestoneIds (l : list MilestoneInput) : W (list ProjectMilestone) :=
  match l with
  | [] => mret []
  | m :: l =>
      let! id := (match mi_id m with Some id => mret id | None => fresh_id "ms_" end) in
      let! rest := withMilestoneIds l in
      mret (mk_milestone id (mi_label m) (mi_thresholdCents m) None :: rest)
  end.

Record CreateProjectInput : Type := {
  cpi_canopyId : string;
  cpi_title : string;
  cpi_category : string;
  cpi_description : option string;
  cpi_proposalEventId : option string;
  cpi_fundingGoalCents : option Z;
  cpi_currency : option string;
  cpi_useOfFunds : option string;
  cpi_deadlineAt : option string;
  cpi_milestones : option (list MilestoneInput);
  cpi_place : option CoalitionPlace;
}.

(** POST /projects, once the body is validated. *)
Definition post_projects (user : string) (i : CreateProjectInput) : W CoalitionProjectRecord :=
  let! id := fresh_id "proj_" in
  let! milestones := withMilestoneIds (default [] (cpi_milestones i)) in
  update (createCoalitionProject
    (mk_project id (cpi_canopyId i) (cpi_title i) (cpi_category i) (cpi_description i) proposed user
       (cpi_proposalEventId i) (cpi_fundingGoalCents i) 0 (cpi_currency i) 0 (cpi_useOfFunds i)
       (cpi_deadlineAt i) milestones (cpi_place i) 0 0)).

(** The keys present in a PATCH body. *)
Record ProjectPatch : Type := {
  pp_status : option ProjectStatus;
  pp_title : option string;
  pp_description : option string;
  pp_category : option string;
  pp_fundingGoalCents : option Z;
  pp_currency : option string;
  pp_useOfFunds : option string;
  pp_deadlineAt : option string;
  pp_milestones : option (list MilestoneInput);
  pp_place : option (option CoalitionPlace);
}.

Definition on_some {A} (o : option A) (f : A -> CoalitionProjectRecord -> CoalitionProjectRecord)
    (r : CoalitionProjectRecord) : CoalitionProjectRecord :=
  match o with Some a => f a r | None => r end.

(** [{ ...existing, ...patch }] *)
Definition patched_project (p : ProjectPatch) (milestones : option (list ProjectMilestone))
    (r : CoalitionProjectRecord) : CoalitionProjectRecord :=
  on_some (pp_place p) with_pj_place
    (on_some milestones with_pj_milestones
      (on_some (pp_deadlineAt p) (fun v => with_pj_deadlineAt (Some v))
        (on_some (pp_useOfFunds p) (fun v => with_pj_useOfFunds (Some v))
          (on_some (pp_currency p) (fun v => with_pj_currency (Some v))
            (on_some (pp_fundingGoalCents p) (fun v => with_pj_fundingGoalCents (Some v))
              (on_some (pp_category p) with_pj_category
                (on_some (pp_description p) (fun v => with_pj_description (Some v))
                  (on_some (pp_title p) with_pj_title r)))))))).

Definition patch_is_empty (p : ProjectPatch) : bool :=
  match p with
  | Build_ProjectPatch _ None None None None None None None None None => true
  | _ => false
  end.

Inductive project_response : Type :=
  | pr_ok (project : CoalitionProjectRecord)
  | pr_not_found
  | pr_forbidden.

(** PATCH /projects/:id *)
Definition patch_projects (user id : string) (p : ProjectPatch) : W project_response :=
  let! found := gets (getCoalitionProject id) in
  match found with
  | None => mret pr_not_found
  | Some existing =>
      if negb (bool_decide (pj_leadId existing = user)) then mret pr_forbidden
      else
        let! milestones := (match pp_milestones p with
                            | Some l => let! ms := withMilestoneIds l in mret (Some ms)
                            | None => mret None
                            end) in
        let! project :=
          (if patch_is_empty p then mret existing
           else let! u := update (patch_project (pj_id existing) (patched_project p milestones)) in
                mret (default existing u)) in
        let! project :=
          (match pp_status p with
           | Some status =>
               let! u := update (updateCoalitionProjectStatus (pj_id existing) status) in
               mret (default project u)
           | None => mret project
           end) in
        mret (pr_ok project)
  end.
End projects.
