(* ===== verification/Tips.v ===== *)
(** * Tips, gifts and aid pools

    [services/tips.ts], [services/gifts.ts] and [services/aidPools.ts], with the
    restrictions their routes ([routes/tips.ts], [gifts.ts], [aidPools.ts]) put on
    the input.  A view ([TipView]) has the fields of its row.  An operation that
    throws answers [Err]; counters and log lines are left out. *)

From S2P Require Import Prelude JsMap Async CoalitionDomain Money Records Store Drives Relay.
From S2P Require Import BillingRows Ledger Projects.
Open Scope Z_scope.

(** ** services/tips.ts *)

Definition MIN_TIP_CENTS : Z := 100.
Definition MAX_TIP_CENTS : Z := 1000000.
Definition MAX_NOTE_LEN : nat := 280.

Inductive TipValidationError : Set :=
  | self_tip_forbidden | recipient_unknown | amount_below_floor | amount_above_ceiling
  | invalid_currency | note_too_long | duplicate_order.

#[export] Instance TipValidationError_eq : EqDecision TipValidationError.
Proof. solve_decision. Defined.

(** What [createTip] throws: its own error, or the [RangeError] of the commission. *)
Definition TipThrow : Set := TipValidationError + RangeError.

Record CreateTipInput : Type := {
  ti_senderUserId : string;
  ti_recipientUserId : string;
  ti_contextKind : TipContextKind;
  ti_contextRef : option string;
  ti_grossCents : jsnum;
  ti_currency : string;
  ti_note : option string;
  ti_giftSku : option string;
  ti_providerId : option MarketplaceProviderId;
  ti_feeBpsOverride : option jsnum;
  ti_fbmOrderId : option string;
  ti_metadata : list (string * string);
}.

Definition upper_char (c : ascii) : ascii :=
  let n := nat_of_ascii c in
  if bool_decide (97 <= n /\ n <= 122)%nat then ascii_of_nat (n - 32) else c.
Definition toUpperCase (s : string) : string :=
  String.string_of_list_ascii (map upper_char (String.list_ascii_of_string s)).

Definition is_upper (c : ascii) : bool :=
  bool_decide (65 <= nat_of_ascii c /\ nat_of_ascii c <= 90)%nat.

(** [/^[A-Z]{3,8}$/] *)
Definition currency_code (s : string) : bool :=
  bool_decide (3 <= String.length s /\ String.length s <= 8)%nat
  && forallb is_upper (String.list_ascii_of_string s).

(** [raw.trim().toUpperCase()], when it is a code. *)
Definition read_currency (raw : string) : option string :=
  let c := toUpperCase (js_trim raw) in if currency_code c then Some c else None.

(** [x && x.length > n] *)
Definition longer_than (n : nat) (o : option string) : bool :=
  match truthy o with Some s => bool_decide (n < String.length s)%nat | None => false end.

Section tips.
Context `{Env}.

Definition draw_uuid (w : world) : world * string :=
  (set_w_db (set_rng (S (rng (w_db w))) (w_db w)) w, uuid (rng (w_db w))).

Definition w_now (w : world) : Z := clock (w_db w).

(** The checks of [createTip], in their order: the settled split and currency. *)
Definition tip_checks (i : CreateTipInput) (w : world) : res TipThrow (PlatformCommissionSplit * string) :=
  if bool_decide (ti_senderUserId i = ti_recipientUserId i) then Err (inl self_tip_forbidden)
  else if bool_decide (getUserById (ti_recipientUserId i) (w_db w) = None) then Err (inl recipient_unknown)
  else match as_integer (ti_grossCents i) with
  | None => Err (inl amount_below_floor)
  | Some gross =>
      if bool_decide (gross < MIN_TIP_CENTS) then Err (inl amount_below_floor)
      else if bool_decide (MAX_TIP_CENTS < gross) then Err (inl amount_above_ceiling)
      else match read_currency (ti_currency i) with
      | None => Err (inl invalid_currency)
      | Some currency =>
          if longer_than MAX_NOTE_LEN (ti_note i) then Err (inl note_too_long)
          else
            let providerId := default DEFAULT_PROVIDER (ti_providerId i) in
            match computePlatformCommission (ti_grossCents i) providerId (ti_feeBpsOverride i) with
            | Err e => Err (inr e)
            | Ok split =>
                match truthy (ti_fbmOrderId i) with
                | Some o =>
                    match findTipByOrderId providerId o w with
                    | Some _ => Err (inl duplicate_order)
                    | None => Ok (split, currency)
                    end
                | None => Ok (split, currency)
                end
            end
      end
  end.

Definition createTip (i : CreateTipInput) (w : world) : world * res TipThrow TipRecord :=
  match tip_checks i w with
  | Err e => (w, Err e)
  | Ok (split, currency) =>
      let (w, id) := draw_uuid w in
      let record := mk_tip id (ti_senderUserId i) (ti_recipientUserId i) (ti_contextKind i)
        (ti_contextRef i) (grossCents split) (feeCents split) (netCents split) (split_feeBps split)
        currency (default DEFAULT_PROVIDER (ti_providerId i)) (ti_fbmOrderId i) tip_pending
        (ti_note i) (ti_giftSku i) (w_now w) None None (ti_metadata i) in
      let (w, _) := insertTip record w in
      (w, Ok record)
  end.

Record CaptureDetail : Type := {
  cd_fbmOrderId : option string;
  (** [null] and [undefined] are [None] *)
  cd_chargedCents : option jsnum;
}.

(** The amount charged, when it is a usable number. *)
Definition usable_charge (d : CaptureDetail) : option Z :=
  match cd_chargedCents d with
  | Some c => match as_integer c with
              | Some z => if bool_decide (0 <= z) then Some z else None
              | None => None
              end
  | None => None
  end.

(** The split settled again, when the charge is not the amount asked for. *)
Definition resettle (d : CaptureDetail) (t : TipRecord) : res RangeError (option PlatformCommissionSplit) :=
  match usable_charge d with
  | Some charged =>
      if bool_decide (charged = tp_grossCents t) then Ok None
      else match computePlatformCommission (jint charged) (tp_providerId t) (Some (jint (tp_feeBps t))) with
           | Ok s => Ok (Some s)
           | Err e => Err e
           end
  | None => Ok None
  end.

Definition settled_with (s : option PlatformCommissionSplit) (t : TipRecord) : TipRecord :=
  match s with
  | Some s => with_tp_netCents (netCents s) (with_tp_feeCents (feeCents s) (with_tp_grossCents (grossCents s) t))
  | None => t
  end.

Definition or_else {A} (o p : option A) : option A := match o with Some a => Some a | None => p end.

Definition captured_row (now : Z) (d : CaptureDetail) (s : option PlatformCommissionSplit) (t : TipRecord) : TipRecord :=
  with_tp_fbmOrderId (or_else (cd_fbmOrderId d) (tp_fbmOrderId t))
    (with_tp_capturedAt (Some now) (with_tp_status tip_captured (settled_with s t))).

Definition tip_contribution (t : TipRecord) (campaignId : string) : RecordContributionInput := {|
  rc_campaignId := campaignId; rc_supporterUserId := tp_senderUserId t; rc_tipId := tp_id t;
  rc_amountCents := tp_netCents t; rc_currency := tp_currency t |}.
Definition tip_support (t : TipRecord) (projectId : string) : RecordProjectSupportInput := {|
  rp_projectId := projectId; rp_supporterUserId := tp_senderUserId t; rp_tipId := tp_id t;
  rp_amountCents := tp_netCents t; rp_currency := Some (tp_currency t) |}.

(** Where a captured tip is counted. *)
Definition credit_tip (t : TipRecord) : W unit :=
  match tp_contextKind t, truthy (tp_contextRef t) with
  | ck_coalition_drive, Some ref => let! _ := network (recordContribution (tip_contribution t ref)) in mret tt
  | ck_coalition_project, Some ref => let! _ := recordProjectSupport (tip_support t ref) in mret tt
  | _, _ => mret tt
  end.

Definition captureTip (tipId : string) (d : CaptureDetail) : W (res RangeError (option TipRecord)) :=
  let! found := gets (db_getTip tipId) in
  match found with
  | None => mret (Ok None)
  | Some existing =>
      match tp_status existing with
      | tip_captured | tip_refunded | tip_failed => mret (Ok (Some existing))
      | tip_pending =>
          match resettle d existing with
          | Err e => mret (Err e)
          | Ok settled =>
              let! now := gets w_now in
              let updated := captured_row now d settled existing in
              let! _ := update (updateTip updated) in
              let! _ := modify (emit_money (ev_tip_captured updated)) in
              let! _ := credit_tip updated in
              let! _ := spawn (request (OutboundTipCreated (tp_recipientUserId updated) (tp_id updated)
                          (tp_grossCents updated) (tp_netCents updated))) in
              mret (Ok (Some updated))
          end
      end
  end.

Definition refundTip (tipId : string) (w : world) : world * option TipRecord :=
  match db_getTip tipId w with
  | None => (w, None)
  | Some existing =>
      match tp_status existing with
      | tip_refunded => (w, Some existing)
      | _ =>
          let updated := with_tp_refundedAt (Some (w_now w)) (with_tp_status tip_refunded existing) in
          let (w, _) := updateTip updated w in
          (emit_money (ev_tip_refunded (tp_id updated) (tp_recipientUserId updated) (tp_grossCents updated)
             (tp_netCents updated)) w, Some updated)
      end
  end.

Definition listTipsReceivedBy (userId : string) (limit : option nat) (w : world) : list TipRecord :=
  listTipsByRecipient userId (default 100%nat limit) w.
Definition listTipsSentBy (userId : string) (limit : option nat) (w : world) : list TipRecord :=
  listTipsBySender userId (default 100%nat limit) w.
Definition getTip (tipId : string) (w : world) : option TipRecord := db_getTip tipId w.

(** ** routes/tips.ts *)

(** The contexts a client may name. *)
Definition client_context (k : TipContextKind) : bool :=
  match k with
  | ck_profile | ck_stream | ck_post | ck_channel_message | ck_aid_pool => true
  | _ => false
  end.

(** A validated body of POST /tips. *)
Record post_tip_body : Type := {
  pt_recipientUserId : string;
  pt_contextKind : TipContextKind;
  pt_contextRef : option string;
  pt_grossCents : Z;
  pt_currency : string;
  pt_note : option string;
}.

Definition post_tip_valid (b : post_tip_body) : bool :=
  bool_decide (pt_recipientUserId b <> "") && client_context (pt_contextKind b)
  && match pt_contextRef b with
     | Some r => bool_decide (1 <= String.length r /\ String.length r <= 512)%nat | None => true end
  && bool_decide (MIN_TIP_CENTS <= pt_grossCents b /\ pt_grossCents b <= MAX_TIP_CENTS)
  && bool_decide (3 <= String.length (pt_currency b) /\ String.length (pt_currency b) <= 8)%nat
  && match pt_note b with Some n => bool_decide (String.length n <= MAX_NOTE_LEN)%nat | None => true end.

(** [None]: the body was refused. *)
Definition post_tip (user : string) (b : post_tip_body) (w : world) : world * option (res TipThrow TipRecord) :=
  if post_tip_valid b then
    let (w, r) := createTip {|
      ti_senderUserId := user; ti_recipientUserId := pt_recipientUserId b; ti_contextKind := pt_contextKind b;
      ti_contextRef := pt_contextRef b; ti_grossCents := jint (pt_grossCents b); ti_currency := pt_currency b;
      ti_note := pt_note b; ti_giftSku := None; ti_providerId := None; ti_feeBpsOverride := None;
      ti_fbmOrderId := None; ti_metadata := [] |} w in
    (w, Some r)
  else (w, None).

(** GET /tips/:id: only the two parties see a tip. *)
Definition get_tip_route (user tipId : string) (w : world) : option TipRecord :=
  match getTip tipId w with
  | Some t => if negb (bool_decide (tp_senderUserId t = user)) && negb (bool_decide (tp_recipientUserId t = user))
              then None else Some t
  | None => None
  end.

(** ** core/src/monetization/gifts.ts and services/gifts.ts *)

Record GiftDefinition : Type := { gd_sku : string; gd_label : string; gd_priceCents : Z; gd_currency : string }.

Definition GIFT_CATALOG : list GiftDefinition := [
  {| gd_sku := "spark"; gd_label := "Spark"; gd_priceCents := 100; gd_currency := "USD" |};
  {| gd_sku := "flame"; gd_label := "Flame"; gd_priceCents := 250; gd_currency := "USD" |};
  {| gd_sku := "rocket"; gd_label := "Rocket"; gd_priceCents := 500; gd_currency := "USD" |};
  {| gd_sku := "crown"; gd_label := "Crown"; gd_priceCents := 1000; gd_currency := "USD" |};
  {| gd_sku := "diamond"; gd_label := "Diamond"; gd_priceCents := 2500; gd_currency := "USD" |};
  {| gd_sku := "galaxy"; gd_label := "Galaxy"; gd_priceCents := 5000; gd_currency := "USD" |} ].

Definition findGift (sku : string) : option GiftDefinition :=
  List.find (fun g => bool_decide (gd_sku g = sku)) GIFT_CATALOG.

Inductive GiftThrow : Set :=
  | unknown_sku | self_gift_forbidden | invalid_context | gift_tip_threw (e : TipThrow).

Record SendGiftInput : Type := {
  sg_senderUserId : string;
  sg_recipientUserId : string;
  sg_sku : string;
  sg_contextKind : TipContextKind;
  sg_contextRef : option string;
  sg_note : option string;
}.

Definition sendGift (i : SendGiftInput) (w : world) : world * res GiftThrow (TipRecord * GiftDefinition) :=
  match findGift (sg_sku i) with
  | None => (w, Err unknown_sku)
  | Some gift =>
      if bool_decide (sg_contextKind i = ck_aid_pool) then (w, Err invalid_context)
      else
        let (w, r) := createTip {|
          ti_senderUserId := sg_senderUserId i; ti_recipientUserId := sg_recipientUserId i;
          ti_contextKind := sg_contextKind i; ti_contextRef := sg_contextRef i;
          ti_grossCents := jint (gd_priceCents gift); ti_currency := gd_currency gift; ti_note := sg_note i;
          ti_giftSku := Some (gd_sku gift); ti_providerId := None; ti_feeBpsOverride := None;
          ti_fbmOrderId := None; ti_metadata := [] |} w in
        (w, match r with
            | Ok tip => Ok (tip, gift)
            | Err (inl self_tip_forbidden) => Err self_gift_forbidden
            | Err e => Err (gift_tip_threw e)
            end)
  end.

(** ** services/aidPools.ts *)

Definition MIN_GOAL_CENTS : Z := 100.
Definition MAX_GOAL_CENTS : Z := 100000000.
Definition MAX_TITLE_LEN : nat := 255.
Definition MAX_DESCRIPTION_LEN : nat := 4000.

Inductive AidPoolError : Set :=
  | organizer_unknown | goal_out_of_range | pool_invalid_currency | title_required
  | pool_not_found | pool_is_closed | pool_forbidden | tip_failed (e : TipValidationError)
  | pool_tip_range (e : RangeError).

(** The tips [aggregate] counts. *)
Definition counts_for (poolId currency : string) (t : TipRecord) : bool :=
  bool_decide (tp_contextKind t = ck_aid_pool) && bool_decide (tp_contextRef t = Some poolId)
  && bool_decide (tp_status t = tip_captured) && bool_decide (tp_currency t = currency).

Record aid_total : Type := {
  ag_raised : Z;
  ag_fee : Z;
  ag_net : Z;
  ag_count : Z;
  ag_uniqueSenders : Z;
}.

Definition aggregate (poolId currency : string) (w : world) : aid_total :=
  let counted := List.filter (counts_for poolId currency) (values (w_tips w)) in
  {| ag_raised := sum_by tp_grossCents counted;
     ag_fee := sum_by tp_feeCents counted;
     ag_net := sum_by tp_netCents counted;
     ag_count := Z.of_nat (length counted);
     ag_uniqueSenders := distinct (map tp_senderUserId counted) |}.

(** [Math.min(100, Math.round((raised / goal) * 100))]; the quotient is exact here
    where the source rounds it to a double. *)
Definition pool_percent (raised goal : Z) : Z :=
  if goal <=? 0 then 100 else Z.min 100 ((200 * raised + goal) / (2 * goal)).

Record AidPoolView : Type := {
  pv_record : AidPoolRecord;
  pv_total : aid_total;
  pv_percent : Z;
}.

Definition pool_toView (r : AidPoolRecord) (w : world) : AidPoolView :=
  let agg := aggregate (po_id r) (po_currency r) w in
  {| pv_record := r; pv_total := agg; pv_percent := pool_percent (ag_raised agg) (po_goalCents r) |}.

Record CreateAidPoolInput : Type := {
  ai_organizerUserId : string;
  ai_title : string;
  ai_description : option string;
  ai_goalCents : jsnum;
  ai_currency : string;
}.

Definition pool_checks (i : CreateAidPoolInput) (w : world) : res AidPoolError (Z * string) :=
  if bool_decide (getUserById (ai_organizerUserId i) (w_db w) = None) then Err organizer_unknown
  else if bool_decide (js_trim (ai_title i) = "") || bool_decide (MAX_TITLE_LEN < String.length (ai_title i))%nat
  then Err title_required
  else match as_integer (ai_goalCents i) with
  | None => Err goal_out_of_range
  | Some goal =>
      if bool_decide (goal < MIN_GOAL_CENTS) || bool_decide (MAX_GOAL_CENTS < goal) then Err goal_out_of_range
      else match read_currency (ai_currency i) with
      | None => Err pool_invalid_currency
      | Some currency =>
          if longer_than MAX_DESCRIPTION_LEN (ai_description i) then Err title_required
          else Ok (goal, currency)
      end
  end.

Definition createAidPool (i : CreateAidPoolInput) (w : world) : world * res AidPoolError AidPoolView :=
  match pool_checks i w with
  | Err e => (w, Err e)
  | Ok (goal, currency) =>
      let (w, id) := draw_uuid w in
      let record := mk_pool id (ai_organizerUserId i) (js_trim (ai_title i)) (ai_description i) goal currency
        pool_open (w_now w) None None in
      let w := insertAidPool record w in
      (w, Ok (pool_toView record w))
  end.

Record ContributeToAidPoolInput : Type := {
  ca_poolId : string;
  ca_contributorUserId : string;
  ca_amountCents : jsnum;
  ca_note : option string;
}.

Definition contributeToAidPool (i : ContributeToAidPoolInput) (w : world) :
    world * res AidPoolError (TipRecord * AidPoolView) :=
  match db_getAidPool (ca_poolId i) w with
  | None => (w, Err pool_not_found)
  | Some record =>
      match po_status record with
      | pool_closed => (w, Err pool_is_closed)
      | _ =>
          let (w, r) := createTip {|
            ti_senderUserId := ca_contributorUserId i; ti_recipientUserId := po_organizerUserId record;
            ti_contextKind := ck_aid_pool; ti_contextRef := Some (po_id record);
            ti_grossCents := ca_amountCents i; ti_currency := po_currency record; ti_note := ca_note i;
            ti_giftSku := None; ti_providerId := None; ti_feeBpsOverride := None;
            ti_fbmOrderId := None; ti_metadata := [] |} w in
          (w, match r with
              | Ok tip => Ok (tip, pool_toView record w)
              | Err (inl e) => Err (tip_failed e)
              | Err (inr e) => Err (pool_tip_range e)
              end)
      end
  end.

Definition fulfillAidPool (poolId actorUserId : string) (w : world) :
    world * res AidPoolError (option AidPoolView) :=
  match db_getAidPool poolId w with
  | None => (w, Ok None)
  | Some record =>
      if negb (bool_decide (po_organizerUserId record = actorUserId)) then (w, Err pool_forbidden)
      else match po_status record with
      | pool_fulfilled | pool_closed => (w, Ok (Some (pool_toView record w)))
      | pool_open =>
          let updated := with_po_fulfilledAt (Some (w_now w)) (with_po_status pool_fulfilled record) in
          let w := emit_money (ev_pool_fulfilled (po_id updated) (po_organizerUserId updated) (po_goalCents updated))
                     (updateAidPool updated w) in
          (w, Ok (Some (pool_toView updated w)))
      end
  end.

Definition closeAidPool (poolId actorUserId : string) (w : world) :
    world * res AidPoolError (option AidPoolView) :=
  match db_getAidPool poolId w with
  | None => (w, Ok None)
  | Some record =>
      if negb (bool_decide (po_organizerUserId record = actorUserId)) then (w, Err pool_forbidden)
      else match po_status record with
      | pool_closed => (w, Ok (Some (pool_toView record w)))
      | _ =>
          let updated := with_po_closedAt (Some (w_now w)) (with_po_status pool_closed record) in
          let w := emit_money (ev_pool_closed (po_id updated) (po_organizerUserId updated)) (updateAidPool updated w) in
          (w, Ok (Some (pool_toView updated w)))
      end
  end.

Definition getAidPool (poolId : string) (w : world) : option AidPoolView :=
  (fun r => pool_toView r w) <$> db_getAidPool poolId w.
Definition listAidPools (w : world) : list AidPoolView :=
  map (fun r => pool_toView r w) (db_listAidPools w).
Definition listAidPoolsByOrganizer (organizerUserId : string) (w : world) : list AidPoolView :=
  map (fun r => pool_toView r w) (db_listAidPoolsByOrganizer organizerUserId w).
End tips.
