(* ===== verification/Contributions.v ===== *)
(** * Contributions to a drive and support of a project

    [startContribution] of [services/coalitionDrives.ts], the route that calls it
    ([routes/coalitions.ts]) and POST /projects/:id/support of
    [routes/coalition.ts]: the pending tip each of them writes, and the checkout at
    the marketplace. *)

From S2P Require Import Prelude JsMap Async CoalitionDomain Money Records Store Drives Relay Network.
From S2P Require Import BillingRows Ledger Projects Tips.
Open Scope Z_scope.

Inductive checkout_error : Set :=
  | provider_unavailable | no_listing | commission_above_ceiling | no_beneficiary | checkout_unavailable.

Inductive contribution_throw : Set :=
  | commission_threw
  | tip_threw (e : TipThrow).

Record StartContributionInput : Type := {
  sc_campaign : CoalitionCampaignRecord;
  sc_supporterUserId : string;
  sc_beneficiaryUserId : option string;
  sc_grossCents : jsnum;
  sc_currency : option string;
  sc_note : option string;
  sc_returnUrl : option string;
  sc_embedOrigin : option string;
  sc_embed : bool;
}.

Record StartContributionResult : Type := {
  sr_tip : option TipRecord;
  sr_split : PlatformCommissionSplit;
  (** redirect URL and session id *)
  sr_session : option (string * string);
  sr_embed : bool;
  sr_checkoutError : option checkout_error;
}.

Section contributions.
Context `{Env} `{MoneyEnv}.

(** A refusal: nothing was written, and the split is the one a contributor is shown. *)
Definition contribution_unavailable (reason : checkout_error) (gross : jsnum) (listingId : option string) :
    W (res contribution_throw StartContributionResult) :=
  let! split := network (await (previewContribution gross listingId)) in
  mret (match split with
        | Err _ => Err commission_threw
        | Ok s => Ok {| sr_tip := None; sr_split := s; sr_session := None; sr_embed := false;
                        sr_checkoutError := Some reason |}
        end).

Definition beneficiary_of (i : StartContributionInput) : option string :=
  or_else (sc_beneficiaryUserId i) (or_else (cp_beneficiaryUserId (sc_campaign i)) (cp_createdBy (sc_campaign i))).

(** Nobody to pay: an aid campaign that names no beneficiary, or an unknown user. *)
Definition payable (i : StartContributionInput) (w : world) : option string :=
  let unpayableAid := bool_decide (cp_type (sc_campaign i) = type_mutual_aid)
    && bool_decide (truthy (cp_beneficiaryUserId (sc_campaign i)) = None) in
  match beneficiary_of i with
  | Some b => if unpayableAid || bool_decide (getUserById b (w_db w) = None) then None else Some b
  | None => None
  end.

Definition drive_tip (i : StartContributionInput) (beneficiary : string) (bps : Z) : CreateTipInput := {|
  ti_senderUserId := sc_supporterUserId i; ti_recipientUserId := beneficiary;
  ti_contextKind := ck_coalition_drive; ti_contextRef := Some (cp_id (sc_campaign i));
  ti_grossCents := sc_grossCents i; ti_currency := default "USD" (sc_currency i); ti_note := sc_note i;
  ti_giftSku := None; ti_providerId := None; ti_feeBpsOverride := Some (jint bps); ti_fbmOrderId := None;
  ti_metadata := [("coalitionId", cp_coalitionId (sc_campaign i)); ("campaignId", cp_id (sc_campaign i));
                  ("campaignType", name (cp_type (sc_campaign i)))] |}.

Definition tip_split (t : TipRecord) (bps : Z) : PlatformCommissionSplit := {|
  grossCents := tp_grossCents t; feeCents := tp_feeCents t; netCents := tp_netCents t;
  split_feeBps := bps; split_providerId := DEFAULT_PROVIDER |}.

(** [embed && origin?.startsWith('https://') ? origin : undefined] *)
Definition embed_origin (embed : bool) (origin : option string) : option string :=
  match origin with
  | Some o => if embed && String.prefix "https://" o then Some o else None
  | None => None
  end.

(** The checkout for a tip just written. *)
Definition open_checkout (i : StartContributionInput) (listingId : string) (tip : TipRecord) (bps : Z) :
    W StartContributionResult :=
  let embed := sc_embed i && provider_embeds in
  let! session := request (CreateCheckoutSession (sc_supporterUserId i) listingId (Some (tp_grossCents tip))
    ("coalition-drive:" +:+ tp_id tip) (sc_returnUrl i) embed (embed_origin embed (sc_embedOrigin i))
    [("tipId", tp_id tip); ("campaignId", cp_id (sc_campaign i))]) in
  mret (match session with
        | Some s => {| sr_tip := Some tip; sr_split := tip_split tip bps; sr_session := Some s;
                       sr_embed := embed; sr_checkoutError := None |}
        | None => {| sr_tip := Some tip; sr_split := tip_split tip bps; sr_session := None;
                     sr_embed := false; sr_checkoutError := Some checkout_unavailable |}
        end).

Definition startContribution (i : StartContributionInput) : W (res contribution_throw StartContributionResult) :=
  match assertFlatCommission DEFAULT_PROVIDER with
  | Err _ => mret (Err commission_threw)
  | Ok _ =>
      match truthy (cp_fbmListingId (sc_campaign i)) with
      | None => contribution_unavailable no_listing (sc_grossCents i) (cp_fbmListingId (sc_campaign i))
      | Some listingId =>
          if negb provider_enabled
          then contribution_unavailable provider_unavailable (sc_grossCents i) (cp_fbmListingId (sc_campaign i))
          else
            let! quoted := network (await (quoteCommissionBps (cp_fbmListingId (sc_campaign i)))) in
            match quoted with
            | None => contribution_unavailable commission_above_ceiling (sc_grossCents i) None
            | Some bps =>
                let! payee := gets (payable i) in
                match payee with
                | None => contribution_unavailable no_beneficiary (sc_grossCents i) (cp_fbmListingId (sc_campaign i))
                | Some beneficiary =>
                    let! tip := update (createTip (drive_tip i beneficiary bps)) in
                    match tip with
                    | Err e => mret (Err (tip_threw e))
                    | Ok tip =>
                        let! r := open_checkout i listingId tip bps in
                        mret (Ok r)
                    end
                end
            end
      end
  end.

(** ** POST /coalitions/:id/campaigns/:campaignId/contribute *)

Record contribute_body : Type := {
  cb_amountCents : Z;
  cb_currency : option string;
  cb_note : option string;
  cb_returnUrl : option string;
  cb_embed : option bool;
  cb_ref : option string;
}.

Definition contribute_valid (b : contribute_body) : bool :=
  bool_decide (100 <= cb_amountCents b /\ cb_amountCents b <= 10000000)
  && match cb_currency b with
     | Some c => bool_decide (3 <= String.length c /\ String.length c <= 8)%nat | None => true end
  && match cb_note b with Some n => bool_decide (String.length n <= 280)%nat | None => true end
  && match cb_ref b with Some r => bool_decide (String.length r <= 512)%nat | None => true end.

Inductive contribute_response : Type :=
  | cr_invalid
  | cr_coalition_error (e : CoalitionError)
  | cr_campaign_inactive
  | cr_unavailable (reason : option checkout_error) (split : PlatformCommissionSplit)
  | cr_started (r : StartContributionResult)
  | cr_failed (e : contribution_throw).

Definition post_contribute (user idOrSlug campaignId : string) (origin : option string) (b : contribute_body) :
    W contribute_response :=
  if negb (contribute_valid b) then mret cr_invalid
  else
    let! campaign := network (getCampaign idOrSlug campaignId (Some user)) in
    match campaign with
    | Err e => mret (cr_coalition_error e)
    | Ok campaign =>
        if negb (bool_decide (cp_status campaign = st_active)) then mret cr_campaign_inactive
        else
          let! result := wait (startContribution {|
            sc_campaign := campaign; sc_supporterUserId := user;
            sc_beneficiaryUserId := truthy (cp_beneficiaryUserId campaign);
            sc_grossCents := jint (cb_amountCents b); sc_currency := truthy (cb_currency b);
            sc_note := truthy (cb_note b); sc_returnUrl := truthy (cb_returnUrl b);
            sc_embedOrigin := truthy origin;
            sc_embed := default false (cb_embed b) |}) in
          match result with
          | Err e => mret (cr_failed e)
          | Ok r =>
              match sr_tip r with
              | None => mret (cr_unavailable (sr_checkoutError r) (sr_split r))
              | Some _ =>
                  let! _ := spawn (request (RecordAttributedAction (cb_ref b) "contribution")) in
                  mret (cr_started r)
              end
          end
    end.

(** ** POST /projects/:id/support *)

Record support_body : Type := { sb_grossCents : Z; sb_currency : string; sb_note : option string }.

Definition support_valid (b : support_body) : bool :=
  bool_decide (MIN_TIP_CENTS <= sb_grossCents b /\ sb_grossCents b <= MAX_TIP_CENTS)
  && bool_decide (3 <= String.length (sb_currency b) /\ String.length (sb_currency b) <= 8)%nat
  && match sb_note b with Some n => bool_decide (String.length n <= MAX_NOTE_LEN)%nat | None => true end.

Inductive support_response : Type :=
  | sup_invalid | sup_not_found | sup_refused (e : TipThrow) | sup_created (tip : TipRecord).

Definition post_project_support (user projectId : string) (b : support_body) (w : world) : world * support_response :=
  if negb (support_valid b) then (w, sup_invalid)
  else match getCoalitionProject projectId w with
  | None => (w, sup_not_found)
  | Some project =>
      let (w, r) := createTip {|
        ti_senderUserId := user; ti_recipientUserId := pj_leadId project; ti_contextKind := ck_coalition_project;
        ti_contextRef := Some (pj_id project); ti_grossCents := jint (sb_grossCents b);
        ti_currency := sb_currency b; ti_note := sb_note b; ti_giftSku := None; ti_providerId := None;
        ti_feeBpsOverride := None; ti_fbmOrderId := None; ti_metadata := [] |} w in
      (w, match r with Ok tip => sup_created tip | Err e => sup_refused e end)
  end.
End contributions.
