(* ===== verification/Billing.v ===== *)
(** * Subscriptions and pledges

    [services/creatorSubscriptions.ts], [services/communityBoosts.ts] and
    [services/subscriptions.ts], with the subscribe route of [routes/creatorSubs.ts].
    An operation that throws answers [Err]; counters and log lines are left out, and
    so are the domain events of these services, which nothing reads. *)

From S2P Require Import Prelude JsMap Async CoalitionDomain Money Records Store Drives Relay.
From S2P Require Import BillingRows Ledger Projects Tips.
Open Scope Z_scope.

Definition on_billing (f : billing -> billing) (w : world) : world := set_w_billing (f (w_billing w)) w.

(** ** The tables ([db/store.ts]) *)

Definition insertCreatorSubscriptionTier (r : CreatorSubscriptionTierRecord) : world -> world :=
  on_billing (fun b => set_bl_tiers (set (tr_id r) r (bl_tiers b)) b).
Definition updateCreatorSubscriptionTier (r : CreatorSubscriptionTierRecord) : world -> world :=
  on_billing (fun b => set_bl_tiers (set (tr_id r) r (bl_tiers b)) b).
Definition getCreatorSubscriptionTier (id : string) (w : world) : option CreatorSubscriptionTierRecord :=
  get id (bl_tiers (w_billing w)).
Definition listCreatorSubscriptionTiersForCreator (u : string) (w : world) : list CreatorSubscriptionTierRecord :=
  js_sort (fun a b => tr_priceCents a <=? tr_priceCents b)
    (List.filter (fun r => bool_decide (tr_creatorUserId r = u)) (values (bl_tiers (w_billing w)))).

Definition insertCreatorSubscription (r : CreatorSubscriptionRecord) : world -> world :=
  on_billing (fun b => set_bl_subs (set (cs_id r) r (bl_subs b)) b).
Definition updateCreatorSubscription (r : CreatorSubscriptionRecord) : world -> world :=
  on_billing (fun b => set_bl_subs (set (cs_id r) r (bl_subs b)) b).
Definition getCreatorSubscription (id : string) (w : world) : option CreatorSubscriptionRecord :=
  get id (bl_subs (w_billing w)).
Definition findActiveCreatorSubscription (subscriber creator : string) (w : world) :
    option CreatorSubscriptionRecord :=
  List.find (fun r => bool_decide (cs_subscriberUserId r = subscriber)
    && bool_decide (cs_creatorUserId r = creator) && bool_decide (cs_status r = sub_active))
    (values (bl_subs (w_billing w))).
Definition listCreatorSubscriptionsForSubscriber (u : string) (w : world) : list CreatorSubscriptionRecord :=
  js_sort (fun a b => cs_createdAt b <=? cs_createdAt a)
    (List.filter (fun r => bool_decide (cs_subscriberUserId r = u)) (values (bl_subs (w_billing w)))).
Definition listCreatorSubscriptionsForCreator (u : string) (w : world) : list CreatorSubscriptionRecord :=
  js_sort (fun a b => cs_createdAt b <=? cs_createdAt a)
    (List.filter (fun r => bool_decide (cs_creatorUserId r = u)) (values (bl_subs (w_billing w)))).

Definition insertCommunityBoostPledge (r : CommunityBoostPledgeRecord) : world -> world :=
  on_billing (fun b => set_bl_pledges (set (bp_id r) r (bl_pledges b)) b).
Definition updateCommunityBoostPledge (r : CommunityBoostPledgeRecord) : world -> world :=
  on_billing (fun b => set_bl_pledges (set (bp_id r) r (bl_pledges b)) b).
Definition getCommunityBoostPledge (id : string) (w : world) : option CommunityBoostPledgeRecord :=
  get id (bl_pledges (w_billing w)).
Definition findActiveBoostPledgeForUser (communityId pledger : string) (w : world) :
    option CommunityBoostPledgeRecord :=
  List.find (fun r => bool_decide (bp_communityId r = communityId)
    && bool_decide (bp_pledgerUserId r = pledger) && bool_decide (bp_status r = sub_active))
    (values (bl_pledges (w_billing w))).
Definition listBoostPledgesForCommunity (communityId : string) (w : world) : list CommunityBoostPledgeRecord :=
  js_sort (fun a b => bp_createdAt b <=? bp_createdAt a)
    (List.filter (fun r => bool_decide (bp_communityId r = communityId)) (values (bl_pledges (w_billing w)))).
Definition listBoostPledgesByUser (u : string) (w : world) : list CommunityBoostPledgeRecord :=
  js_sort (fun a b => bp_createdAt b <=? bp_createdAt a)
    (List.filter (fun r => bool_decide (bp_pledgerUserId r = u)) (values (bl_pledges (w_billing w)))).

Definition getCanopySubscription (u : string) (w : world) : option CanopySubscriptionRecord :=
  get u (bl_canopy (w_billing w)).
Definition upsertCanopySubscription (r : CanopySubscriptionRecord) : world -> world :=
  on_billing (fun b => set_bl_canopy (set (ca_userId r) r (bl_canopy b)) b).
Definition addSubscriptionAuditEvent (r : SubscriptionAuditEventRecord) : world -> world :=
  on_billing (fun b => set_bl_audit (set (au_id r) r (bl_audit b)) b).
Definition listSubscriptionAuditEventsByUser (u : string) (w : world) : list SubscriptionAuditEventRecord :=
  List.filter (fun r => bool_decide (au_userId r = u)) (values (bl_audit (w_billing w))).
Definition hasProcessedBillingWebhookEvent (eventId : string) (w : world) : bool :=
  bool_decide (get eventId (bl_processed (w_billing w)) <> None).
Definition markBillingWebhookEventProcessed (eventId : string) (w : world) : world :=
  match get eventId (bl_processed (w_billing w)) with
  | Some _ => w
  | None => on_billing (fun b => set_bl_processed (set eventId (clock (w_db w)) (bl_processed b)) b) w
  end.
Definition getSubscriptionGift (id : string) (w : world) : option SubscriptionGiftRecord :=
  get id (bl_gifts (w_billing w)).
Definition listSubscriptionGifts (w : world) : list SubscriptionGiftRecord := values (bl_gifts (w_billing w)).
Definition upsertSubscriptionGift (r : SubscriptionGiftRecord) : world -> world :=
  on_billing (fun b => set_bl_gifts (set (gf_id r) r (bl_gifts b)) b).

(** ** Periods *)

Definition MIN_TIER_PRICE_CENTS : Z := 199.
Definition MAX_TIER_PRICE_CENTS : Z := 100000.
Definition DEFAULT_PERIOD_DAYS : jsnum := jint 30.
Definition LAPSE_GRACE_DAYS : Z := 3.

(** The latest instant a [Date] can hold. *)
Definition MAX_DATE : Z := 8640000000000000.

(** The instant [q] milliseconds from the epoch, cut to a whole millisecond. *)
Definition time_clip (q : Q) : option Z :=
  let ms := if Qle_bool 0 q then Qfloor q else Qceiling q in
  if bool_decide (Z.abs ms <= MAX_DATE) then Some ms else None.

(** *** Dates as text

    [toISOString] writes a year of four digits from the year 0 to the year 9999, and a
    sign and six digits outside. *)

Definition YEAR_0 : Z := -62167219200000.
Definition YEAR_10000 : Z := 253402300800000.
Definition plain_year (ms : Z) : bool := (YEAR_0 <=? ms) && (ms <? YEAR_10000).

(** The year of an instant, in the calendar of [Date]. *)
Definition year_of (ms : Z) : Z :=
  let z := ms / DAY_MS + 719468 in
  let era := z / 146097 in
  let doe := z - era * 146097 in
  let yoe := (doe - doe / 1460 + doe / 36524 - doe / 146096) / 365 in
  let doy := doe - (365 * yoe + yoe / 4 - yoe / 100) in
  yoe + era * 400 + (if 306 <=? doy then 1 else 0).

(** How the first character sorts: ["+"], then ["-"], then a digit. *)
Definition text_class (ms : Z) : Z :=
  if YEAR_10000 <=? ms then 0 else if ms <? YEAR_0 then 1 else 2.

(** [new Date(a).toISOString() > new Date(b).toISOString()] *)
Definition text_after (a b : Z) : bool :=
  if text_class a =? text_class b then
    if (text_class a =? 1) && negb (year_of a =? year_of b) then year_of a <? year_of b else b <? a
  else text_class b <? text_class a.

Section billing.
Context `{Env} `{MoneyEnv}.

(** [new Date(s).getTime()] *)
Definition date_of (s : stamp) : option Z :=
  match s with at_ms z => Some z | as_sent t => Date_parse t end.

(** [periodEnd]; [None] is the [RangeError] of an invalid date. *)
Definition periodEnd (from : stamp) (days : jsnum) : option Z :=
  match date_of from, days with
  | Some ms, JFin q => time_clip (inject_Z ms + q * inject_Z DAY_MS)%Q
  | _, _ => None
  end.

(** ** services/creatorSubscriptions.ts *)

Inductive CreatorSubscriptionError : Set :=
  | self_subscribe_forbidden | creator_unknown | tier_not_found | tier_is_archived
  | tier_price_out_of_range | tier_invalid_currency | tier_name_required | already_active.

Definition lapseIfExpired (r : CreatorSubscriptionRecord) (w : world) : world * CreatorSubscriptionRecord :=
  match cs_status r, cs_currentPeriodEndsAt r with
  | sub_active, Some ends =>
      if bool_decide (w_now w < ends + LAPSE_GRACE_DAYS * DAY_MS) then (w, r)
      else
        let updated := with_cs_updatedAt (w_now w) (with_cs_status sub_expired r) in
        (updateCreatorSubscription updated w, updated)
  | _, _ => (w, r)
  end.

Record TierView : Type := { tv_record : CreatorSubscriptionTierRecord; tv_feeCents : Z; tv_netCents : Z }.

Definition toTierView (r : CreatorSubscriptionTierRecord) : res RangeError TierView :=
  match computePlatformCommission (jint (tr_priceCents r)) (tr_providerId r) None with
  | Err e => Err e
  | Ok s => Ok {| tv_record := r; tv_feeCents := feeCents s; tv_netCents := netCents s |}
  end.

Record CreateTierInput : Type := {
  ct_in_creatorUserId : string;
  ct_in_name : string;
  ct_in_description : option string;
  ct_in_priceCents : jsnum;
  ct_in_currency : string;
}.

Definition tier_checks (i : CreateTierInput) (w : world) : res CreatorSubscriptionError (Z * string) :=
  if bool_decide (js_trim (ct_in_name i) = "") then Err tier_name_required
  else match as_integer (ct_in_priceCents i) with
  | None => Err tier_price_out_of_range
  | Some price =>
      if bool_decide (price < MIN_TIER_PRICE_CENTS) || bool_decide (MAX_TIER_PRICE_CENTS < price)
      then Err tier_price_out_of_range
      else match read_currency (ct_in_currency i) with
      | None => Err tier_invalid_currency
      | Some currency =>
          if bool_decide (getUserById (ct_in_creatorUserId i) (w_db w) = None) then Err creator_unknown
          else Ok (price, currency)
      end
  end.

(** The listing at the marketplace: its id once created, and the tier's status. *)
Definition list_tier (i : CreateTierInput) (price : Z) (currency : string) :
    W (option string * CreatorSubscriptionTierStatus) :=
  if negb (provider_enabled && provider_creates_listings) then mret (None, tier_draft)
  else
    let! created := request (CreateTierListing (ct_in_creatorUserId i) (ct_in_name i)
      (default (ct_in_name i) (ct_in_description i)) price currency) in
    match created with
    | None => mret (None, tier_draft)
    | Some (listing, archived) =>
        let! published :=
          (if provider_publishes_listings then request (PublishTierListing listing (ct_in_creatorUserId i))
           else mret (Some archived)) in
        mret (listing, match published with
                            | None => tier_draft
                            | Some true => tier_archived
                            | Some false => tier_active
                            end)
    end.


Definition createTier (i : CreateTierInput) :
    W (res (CreatorSubscriptionError + RangeError) TierView) :=
  let! checked := gets (tier_checks i) in
  match checked with
  | Err e => mret (Err (inl e))
  | Ok (price, currency) =>
      let! tierId := update draw_uuid in
      let! ts := gets w_now in
      let! listed := list_tier i price currency in
      let record := mk_tr tierId (ct_in_creatorUserId i) (js_trim (ct_in_name i)) (ct_in_description i) price
        currency DEFAULT_PROVIDER (fst listed) (snd listed) ts ts in
      let! _ := modify (insertCreatorSubscriptionTier record) in
      mret (match toTierView record with Ok v => Ok v | Err e => Err (inr e) end)
  end.

Definition archiveTier (tierId creatorUserId : string) (w : world) : world * option (res RangeError TierView) :=
  match getCreatorSubscriptionTier tierId w with
  | None => (w, None)
  | Some existing =>
      if negb (bool_decide (tr_creatorUserId existing = creatorUserId)) then (w, None)
      else match tr_status existing with
      | tier_archived => (w, Some (toTierView existing))
      | _ =>
          let updated := with_tr_updatedAt (w_now w) (with_tr_status tier_archived existing) in
          (updateCreatorSubscriptionTier updated w, Some (toTierView updated))
      end
  end.

Definition startSubscription (subscriberUserId tierId : string) (w : world) :
    world * res CreatorSubscriptionError CreatorSubscriptionRecord :=
  match getCreatorSubscriptionTier tierId w with
  | None => (w, Err tier_not_found)
  | Some tier =>
      match tr_status tier with
      | tier_archived => (w, Err tier_is_archived)
      | _ =>
          if bool_decide (tr_creatorUserId tier = subscriberUserId) then (w, Err self_subscribe_forbidden)
          else
            let '(w, still_active) :=
              match findActiveCreatorSubscription subscriberUserId (tr_creatorUserId tier) w with
              | Some prior => let (w, r) := lapseIfExpired prior w in (w, bool_decide (cs_status r = sub_active))
              | None => (w, false)
              end in
            if still_active then (w, Err already_active)
            else
              let ts := w_now w in
              let (w, id) := draw_uuid w in
              let record := mk_cs id subscriberUserId (tr_creatorUserId tier) (tr_id tier) (tr_providerId tier)
                None sub_pending None None None ts ts in
              (insertCreatorSubscription record w, Ok record)
      end
  end.

Record PeriodDetail : Type := {
  pd_fbmSubscriptionId : option string;
  pd_periodDays : option jsnum;
  pd_effectiveAt : option stamp;
}.

(** [existing && existing > end ? existing : end] *)
(** The later of two ends by the text of their dates, as [>] on strings has it. *)
Definition later_end (existing : option Z) (newPeriodEnd : Z) : Z :=
  match existing with
  | Some e => if text_after e newPeriodEnd then e else newPeriodEnd
  | None => newPeriodEnd
  end.

(** [Err] is the [RangeError] of [periodEnd]. *)
Definition captureSubscription (subscriptionId : string) (d : PeriodDetail) (w : world) :
    world * res unit (option CreatorSubscriptionRecord) :=
  match getCreatorSubscription subscriptionId w with
  | None => (w, Ok None)
  | Some existing =>
      match cs_status existing with
      | sub_refunded => (w, Ok (Some existing))
      | _ =>
          let effectiveAt := default (at_ms (w_now w)) (pd_effectiveAt d) in
          match periodEnd effectiveAt (default DEFAULT_PERIOD_DAYS (pd_periodDays d)) with
          | None => (w, Err tt)
          | Some newPeriodEnd =>
              let updated :=
                with_cs_updatedAt (w_now w)
                  (with_cs_canceledAt None
                    (with_cs_fbmSubscriptionId (or_else (pd_fbmSubscriptionId d) (cs_fbmSubscriptionId existing))
                      (with_cs_currentPeriodEndsAt (Some (later_end (cs_currentPeriodEndsAt existing) newPeriodEnd))
                        (with_cs_startedAt (or_else (cs_startedAt existing) (Some effectiveAt))
                          (with_cs_status sub_active existing))))) in
              (updateCreatorSubscription updated w, Ok (Some updated))
          end
      end
  end.

Definition cancelSubscription (subscriptionId actorUserId : string) (w : world) :
    world * option CreatorSubscriptionRecord :=
  match getCreatorSubscription subscriptionId w with
  | None => (w, None)
  | Some existing =>
      if negb (bool_decide (cs_subscriberUserId existing = actorUserId)) then (w, None)
      else match cs_status existing with
      | sub_canceled | sub_refunded | sub_expired => (w, Some existing)
      | _ =>
          let updated := with_cs_updatedAt (w_now w)
            (with_cs_canceledAt (Some (w_now w)) (with_cs_status sub_canceled existing)) in
          (updateCreatorSubscription updated w, Some updated)
      end
  end.

Definition refundSubscription (subscriptionId : string) (w : world) : world * option CreatorSubscriptionRecord :=
  match getCreatorSubscription subscriptionId w with
  | None => (w, None)
  | Some existing =>
      match cs_status existing with
      | sub_refunded => (w, Some existing)
      | _ =>
          let updated := with_cs_updatedAt (w_now w)
            (with_cs_canceledAt (or_else (cs_canceledAt existing) (Some (w_now w)))
              (with_cs_status sub_refunded existing)) in
          (updateCreatorSubscription updated w, Some updated)
      end
  end.

Definition hasActiveCreatorSubscription (subscriber creator : string) (nowMillis : Z) (w : world) : world * bool :=
  match findActiveCreatorSubscription subscriber creator w with
  | None => (w, false)
  | Some found =>
      let (w, sub) := lapseIfExpired found w in
      (w, match cs_status sub, cs_currentPeriodEndsAt sub with
          | sub_active, Some ends => nowMillis <? ends
          | _, _ => false
          end)
  end.

(** [rows.map((r) => toSubscriptionView(lapseIfExpired(r)))] *)
Fixpoint lapse_all (rows : list CreatorSubscriptionRecord) (w : world) : world * list CreatorSubscriptionRecord :=
  match rows with
  | [] => (w, [])
  | r :: rows =>
      let (w, r) := lapseIfExpired r w in
      let (w, rows) := lapse_all rows w in
      (w, r :: rows)
  end.

Definition listSubscriptionsForSubscriber (u : string) (w : world) : world * list CreatorSubscriptionRecord :=
  lapse_all (listCreatorSubscriptionsForSubscriber u w) w.
Definition listSubscribersForCreator (u : string) (w : world) : world * list CreatorSubscriptionRecord :=
  lapse_all (listCreatorSubscriptionsForCreator u w) w.
Definition getSubscription (subscriptionId : string) (w : world) : world * option CreatorSubscriptionRecord :=
  match getCreatorSubscription subscriptionId w with
  | None => (w, None)
  | Some r => let (w, r) := lapseIfExpired r w in (w, Some r)
  end.

(** POST /subscribe ([routes/creatorSubs.ts]): a pending row, then its checkout. *)
Definition post_subscribe (user tierId : string) (returnUrl origin : option string) (embed : bool) :
    W (res CreatorSubscriptionError (CreatorSubscriptionRecord * option (string * string) * bool)) :=
  let! started := update (startSubscription user tierId) in
  match started with
  | Err e => mret (Err e)
  | Ok subscription =>
      let! tier := gets (getCreatorSubscriptionTier tierId) in
      match (match tier with Some t => truthy (tr_fbmListingId t) | None => None end) with
      | None => mret (Ok (subscription, None, false))
      | Some listing =>
          if negb provider_enabled then mret (Ok (subscription, None, false))
          else
            let embedActive := embed && provider_embeds in
            let! session := request (CreateCheckoutSession user listing None ("creator-sub:" +:+ cs_id subscription)
              returnUrl embedActive
              (match origin with
               | Some o => if embedActive && String.prefix "https://" o then Some o else None
               | None => None
               end) [("creatorSubscriptionId", cs_id subscription)]) in
            mret (Ok (subscription, session, match session with Some _ => embedActive | None => false end))
      end
  end.

(** ** services/communityBoosts.ts *)

Definition MIN_PLEDGE_CENTS : Z := 199.
Definition MAX_PLEDGE_CENTS : Z := 100000.
Definition BOOST_LEVEL_THRESHOLDS : list Z := [2; 7; 14].

Inductive CommunityBoostError : Set :=
  | amount_out_of_range | pledge_invalid_currency | pledger_unknown | already_pledged
  | pledge_forbidden | pledge_threw (e : RangeError).

Definition levelFor (activeCount : Z) : Z :=
  Z.of_nat (length (List.filter (fun t => t <=? activeCount) BOOST_LEVEL_THRESHOLDS)).

(** The next threshold and how many pledges it is away. *)
Definition nextThreshold (activeCount : Z) : option (Z * Z) :=
  (fun t => (t, t - activeCount)) <$> List.find (fun t => activeCount <? t) BOOST_LEVEL_THRESHOLDS.

Record CommunityBoostState : Type := {
  bs_activePledgeCount : Z;
  bs_boostLevel : Z;
  bs_nextThreshold : option (Z * Z);
  bs_monthlyGrossCents : Z;
  bs_monthlyNetCents : Z;
}.

Definition running (nowMillis : Z) (p : CommunityBoostPledgeRecord) : bool :=
  match bp_status p, bp_currentPeriodEndsAt p with
  | sub_active, Some ends => nowMillis <? ends
  | _, _ => false
  end.

Definition getCommunityBoostState (communityId : string) (nowMillis : Z) (w : world) : CommunityBoostState :=
  let pledges := List.filter (running nowMillis) (listBoostPledgesForCommunity communityId w) in
  let count := Z.of_nat (length pledges) in
  {| bs_activePledgeCount := count; bs_boostLevel := levelFor count; bs_nextThreshold := nextThreshold count;
     bs_monthlyGrossCents := sum_by bp_monthlyCents pledges;
     bs_monthlyNetCents := sum_by bp_netCents pledges |}.

Record PledgeBoostInput : Type := {
  pb_communityId : string;
  pb_pledgerUserId : string;
  pb_monthlyCents : jsnum;
  pb_currency : string;
  pb_providerId : option MarketplaceProviderId;
}.

Definition pledge_checks (i : PledgeBoostInput) (w : world) :
    res CommunityBoostError (PlatformCommissionSplit * string) :=
  match as_integer (pb_monthlyCents i) with
  | None => Err amount_out_of_range
  | Some cents =>
      if bool_decide (cents < MIN_PLEDGE_CENTS) || bool_decide (MAX_PLEDGE_CENTS < cents)
      then Err amount_out_of_range
      else match read_currency (pb_currency i) with
      | None => Err pledge_invalid_currency
      | Some currency =>
          if bool_decide (getUserById (pb_pledgerUserId i) (w_db w) = None) then Err pledger_unknown
          else if bool_decide (findActiveBoostPledgeForUser (pb_communityId i) (pb_pledgerUserId i) w <> None)
          then Err already_pledged
          else match computePlatformCommission (pb_monthlyCents i) (default DEFAULT_PROVIDER (pb_providerId i)) None with
          | Err e => Err (pledge_threw e)
          | Ok split => Ok (split, currency)
          end
      end
  end.

Definition pledgeBoost (i : PledgeBoostInput) (w : world) :
    world * res CommunityBoostError CommunityBoostPledgeRecord :=
  match pledge_checks i w with
  | Err e => (w, Err e)
  | Ok (split, currency) =>
      let ts := w_now w in
      let (w, id) := draw_uuid w in
      let record := mk_bp id (pb_communityId i) (pb_pledgerUserId i) (grossCents split) (feeCents split)
        (netCents split) currency (default DEFAULT_PROVIDER (pb_providerId i)) None sub_pending None None None ts ts in
      (insertCommunityBoostPledge record w, Ok record)
  end.

Definition captureBoostPledge (pledgeId : string) (d : PeriodDetail) (w : world) :
    world * res unit (option CommunityBoostPledgeRecord) :=
  match getCommunityBoostPledge pledgeId w with
  | None => (w, Ok None)
  | Some existing =>
      match bp_status existing with
      | sub_refunded | sub_expired => (w, Ok (Some existing))
      | _ =>
          let effectiveAt := default (at_ms (w_now w)) (pd_effectiveAt d) in
          match periodEnd effectiveAt (default DEFAULT_PERIOD_DAYS (pd_periodDays d)) with
          | None => (w, Err tt)
          | Some newPeriodEnd =>
              let updated :=
                with_bp_updatedAt (w_now w)
                  (with_bp_canceledAt None
                    (with_bp_fbmSubscriptionId (or_else (pd_fbmSubscriptionId d) (bp_fbmSubscriptionId existing))
                      (with_bp_currentPeriodEndsAt (Some (later_end (bp_currentPeriodEndsAt existing) newPeriodEnd))
                        (with_bp_startedAt (or_else (bp_startedAt existing) (Some effectiveAt))
                          (with_bp_status sub_active existing))))) in
              (updateCommunityBoostPledge updated w, Ok (Some updated))
          end
      end
  end.

Definition cancelBoostPledge (pledgeId actorUserId : string) (w : world) :
    world * res CommunityBoostError (option CommunityBoostPledgeRecord) :=
  match getCommunityBoostPledge pledgeId w with
  | None => (w, Ok None)
  | Some existing =>
      if negb (bool_decide (bp_pledgerUserId existing = actorUserId)) then (w, Err pledge_forbidden)
      else match bp_status existing with
      | sub_canceled | sub_refunded | sub_expired => (w, Ok (Some existing))
      | _ =>
          let updated := with_bp_updatedAt (w_now w)
            (with_bp_canceledAt (Some (w_now w)) (with_bp_status sub_canceled existing)) in
          (updateCommunityBoostPledge updated w, Ok (Some updated))
      end
  end.

Definition refundBoostPledge (pledgeId : string) (w : world) : world * option CommunityBoostPledgeRecord :=
  match getCommunityBoostPledge pledgeId w with
  | None => (w, None)
  | Some existing =>
      match bp_status existing with
      | sub_refunded => (w, Some existing)
      | _ =>
          let updated := with_bp_updatedAt (w_now w)
            (with_bp_canceledAt (or_else (bp_canceledAt existing) (Some (w_now w)))
              (with_bp_status sub_refunded existing)) in
          (updateCommunityBoostPledge updated w, Some updated)
      end
  end.

(** ** services/subscriptions.ts *)

Record canopy_product : Type := {
  cpd_planCode : string;
  cpd_tier : CanopySubscriptionTier;
  cpd_interval : CanopyBillingInterval;
  cpd_trialDays : Z;
  cpd_graceDays : Z;
}.

Definition CANOPY_PRODUCTS : list canopy_product := [
  Build_canopy_product "canopy_sprout_monthly" sprout every_month 14 7;
  Build_canopy_product "canopy_sprout_annual" sprout every_year 14 10;
  Build_canopy_product "canopy_pro_monthly" canopy_pro every_month 14 7;
  Build_canopy_product "canopy_pro_annual" canopy_pro every_year 30 10 ].

Definition productsByPlan (planCode : string) : option canopy_product :=
  List.find (fun p => bool_decide (cpd_planCode p = planCode)) CANOPY_PRODUCTS.

Definition DEFAULT_GIFT_EXPIRY_DAYS : Z := 30.

Definition daysFromNow (days : Z) (w : world) : Z := w_now w + days * DAY_MS.

Definition addAudit (userId type actor : string) (w : world) : world :=
  let (w, id) := draw_uuid w in
  addSubscriptionAuditEvent (mk_au id userId type actor (w_now w)) w.

Definition entitlementActiveFor (r : CanopySubscriptionRecord) (w : world) : bool :=
  match ca_status r with
  | canopy_active | trialing => true
  | past_due => match ca_gracePeriodEndsAt r with Some g => w_now w <? g | None => false end
  | canopy_canceled => false
  end.

(** The row of somebody who never subscribed. *)
Definition free_row (userId : string) (now : Z) : CanopySubscriptionRecord :=
  mk_ca userId "free" free every_month canopy_canceled None None None (Some (at_ms now)) false (at_ms now).

(** [getSubscription] of this module: the row, and whether it entitles. *)
Definition canopySubscription (userId : string) (w : world) : CanopySubscriptionRecord * bool :=
  match getCanopySubscription userId w with
  | Some existing => (existing, entitlementActiveFor existing w)
  | None => (free_row userId (w_now w), false)
  end.

Definition hasPremiumCanopyEntitlement (userId : string) (w : world) : bool := snd (canopySubscription userId w).

Inductive EntitlementTier : Set := et_free | et_pro | et_enterprise.
Definition entitlementTierForUser (userId : string) (w : world) : EntitlementTier :=
  match ca_tier (fst (canopySubscription userId w)) with
  | canopy_pro => et_enterprise | sprout => et_pro | free => et_free
  end.

Definition ensureUserRecord (userId : string) (w : world) : world * CanopySubscriptionRecord :=
  match getCanopySubscription userId w with
  | Some existing => (w, existing)
  | None => let seed := free_row userId (w_now w) in (upsertCanopySubscription seed w, seed)
  end.

Inductive billing_event_type : Set :=
  | invoice_paid | invoice_payment_failed | subscription_renewed | subscription_canceled
  | charge_refunded | charge_dispute_created.

Definition billing_event_name (t : billing_event_type) : string :=
  match t with
  | invoice_paid => "invoice.paid" | invoice_payment_failed => "invoice.payment_failed"
  | subscription_renewed => "subscription.renewed" | subscription_canceled => "subscription.canceled"
  | charge_refunded => "charge.refunded" | charge_dispute_created => "charge.dispute.created"
  end.

Record SubscriptionWebhookEvent : Type := {
  we_eventId : string;
  we_type : billing_event_type;
  we_userId : string;
  we_planCode : option string;
  we_occurredAt : option string;
}.

Definition month_or_year (i : option CanopyBillingInterval) (w : world) : Z :=
  match i with Some every_year => daysFromNow 365 w | _ => daysFromNow 31 w end.

(** The row after the event, before it is stored. *)
Definition next_canopy (e : SubscriptionWebhookEvent) (current : CanopySubscriptionRecord) (w : world) :
    CanopySubscriptionRecord :=
  let occurredAt := match we_occurredAt e with Some s => as_sent s | None => at_ms (w_now w) end in
  with_ca_updatedAt occurredAt
    (match we_type e with
     | invoice_paid =>
         let product := match truthy (we_planCode e) with Some p => productsByPlan p | None => None end in
         with_ca_canceledAt None (with_ca_gracePeriodEndsAt None
           (with_ca_currentPeriodEndsAt (Some (month_or_year (cpd_interval <$> product) w))
             (with_ca_trialEndsAt None
               (with_ca_interval (default (ca_interval current) (cpd_interval <$> product))
                 (with_ca_tier (default (ca_tier current) (cpd_tier <$> product))
                   (with_ca_planCode (default (ca_planCode current) (cpd_planCode <$> product))
                     (with_ca_status canopy_active current)))))))
     | invoice_payment_failed =>
         with_ca_gracePeriodEndsAt
           (Some (daysFromNow (default 7 (cpd_graceDays <$> productsByPlan (ca_planCode current))) w))
           (with_ca_status past_due current)
     | subscription_renewed =>
         with_ca_currentPeriodEndsAt (Some (month_or_year (Some (ca_interval current)) w))
           (with_ca_gracePeriodEndsAt None (with_ca_status canopy_active current))
     | subscription_canceled =>
         with_ca_gracePeriodEndsAt None (with_ca_canceledAt (Some occurredAt)
           (with_ca_status canopy_canceled current))
     | charge_refunded | charge_dispute_created =>
         with_ca_gracePeriodEndsAt None (with_ca_comped false (with_ca_canceledAt (Some occurredAt)
           (with_ca_status canopy_canceled current)))
     end).

(** Whether the event was applied, and the status after it. *)
Definition applySubscriptionWebhookEvent (e : SubscriptionWebhookEvent) (w : world) :
    world * (bool * CanopySubscriptionStatus) :=
  if hasProcessedBillingWebhookEvent (we_eventId e) w
  then (w, (false, ca_status (fst (canopySubscription (we_userId e) w))))
  else
    let (w, current) := ensureUserRecord (we_userId e) w in
    let next := next_canopy e current w in
    let w := upsertCanopySubscription next w in
    let w := markBillingWebhookEventProcessed (we_eventId e) w in
    let w := addAudit (we_userId e) ("webhook." +:+ billing_event_name (we_type e)) "webhook" w in
    (w, (true, ca_status next)).

Definition applyManualComp (userId actor : string) (w : world) : world * CanopySubscriptionRecord :=
  let (w, existing) := ensureUserRecord userId w in
  let updated :=
    with_ca_updatedAt (at_ms (w_now w)) (with_ca_currentPeriodEndsAt (Some (daysFromNow 31 w))
      (with_ca_canceledAt None (with_ca_gracePeriodEndsAt None (with_ca_comped true
        (with_ca_status canopy_active
          (with_ca_tier (if bool_decide (ca_tier existing = free) then sprout else ca_tier existing)
            (with_ca_planCode (if bool_decide (ca_planCode existing = "free") then "canopy_sprout_monthly"
                               else ca_planCode existing) existing))))))) in
  let w := upsertCanopySubscription updated w in
  (addAudit userId "admin.manual_comp" actor w, updated).

Definition syncRefund (userId actor : string) (w : world) : world * CanopySubscriptionRecord :=
  let (w, existing) := ensureUserRecord userId w in
  let updated :=
    with_ca_updatedAt (at_ms (w_now w)) (with_ca_gracePeriodEndsAt None
      (with_ca_canceledAt (Some (at_ms (w_now w))) (with_ca_comped false
        (with_ca_status canopy_canceled existing)))) in
  let w := upsertCanopySubscription updated w in
  (addAudit userId "admin.refund_sync" actor w, updated).

Definition getSubscriptionAuditTimeline (userId : string) (w : world) : list SubscriptionAuditEventRecord :=
  js_sort (fun a b => au_occurredAt a <=? au_occurredAt b) (listSubscriptionAuditEventsByUser userId w).

(** *** Gifts passed forward *)

Inductive gift_error : Set :=
  | no_active_subscription | free_tier_cannot_donate | gift_not_found | gift_unavailable
  | gift_is_expired | cannot_claim_own_gift | cannot_forward_own_gift.

Definition expired_gift (w : world) (g : SubscriptionGiftRecord) : SubscriptionGiftRecord :=
  with_gf_updatedAt (w_now w) (with_gf_status gift_expired g).

Definition stale (w : world) (g : SubscriptionGiftRecord) : bool :=
  bool_decide (gf_status g = gift_pending) && (gf_expiresAt g <=? w_now w).

Definition expireStaleGifts (w : world) : world :=
  fold_left (fun w g => if stale w g then upsertSubscriptionGift (expired_gift w g) w else w)
    (listSubscriptionGifts w) w.

Definition donateForward (userId actor : string) (expiresInDays : option Z) (w : world) :
    world * res gift_error SubscriptionGiftRecord :=
  let (sub, entitled) := canopySubscription userId w in
  if negb entitled then (w, Err no_active_subscription)
  else if bool_decide (ca_tier sub = free) then (w, Err free_tier_cannot_donate)
  else
    let (w, raw) := draw_uuid w in
    let id := "gift_" +:+ raw in
    let gift := mk_gf id userId (ca_planCode sub) (ca_tier sub) gift_pending None None None
      (daysFromNow (default DEFAULT_GIFT_EXPIRY_DAYS expiresInDays) w) (w_now w) (w_now w) id 0 in
    let w := upsertSubscriptionGift gift w in
    (addAudit userId "gift.donated" actor w, Ok gift).

Definition listAvailableGifts (limit : option nat) (w : world) : world * list SubscriptionGiftRecord :=
  let w := expireStaleGifts w in
  (w, firstn (default 50%nat limit) (js_sort (fun a b => gf_createdAt a <=? gf_createdAt b)
        (List.filter (fun g => bool_decide (gf_status g = gift_pending)) (listSubscriptionGifts w)))).

(** The checks [claimGift] and [forwardGift] share; an expired gift is marked. *)
Definition open_gift (giftId : string) (w : world) : world * res gift_error SubscriptionGiftRecord :=
  match getSubscriptionGift giftId w with
  | None => (w, Err gift_not_found)
  | Some gift =>
      if negb (bool_decide (gf_status gift = gift_pending)) then (w, Err gift_unavailable)
      else if gf_expiresAt gift <=? w_now w
      then (upsertSubscriptionGift (expired_gift w gift) w, Err gift_is_expired)
      else (w, Ok gift)
  end.

Definition claimGift (giftId userId actor : string) (w : world) :
    world * res gift_error (SubscriptionGiftRecord * CanopySubscriptionRecord) :=
  let (w, r) := open_gift giftId w in
  match r with
  | Err e => (w, Err e)
  | Ok gift =>
      if bool_decide (gf_donorUserId gift = userId) then (w, Err cannot_claim_own_gift)
      else
        let updated := with_gf_updatedAt (w_now w) (with_gf_claimedAt (Some (w_now w))
          (with_gf_claimedByUserId (Some userId) (with_gf_status gift_claimed gift))) in
        let w := upsertSubscriptionGift updated w in
        let (w, subscription) := applyManualComp userId actor w in
        (addAudit userId "gift.claimed" actor w, Ok (updated, subscription))
  end.

Definition forwardGift (giftId recipientUserId actor : string) (expiresInDays : option Z) (w : world) :
    world * res gift_error (SubscriptionGiftRecord * SubscriptionGiftRecord) :=
  let (w, r) := open_gift giftId w in
  match r with
  | Err e => (w, Err e)
  | Ok gift =>
      if bool_decide (gf_donorUserId gift = recipientUserId) then (w, Err cannot_forward_own_gift)
      else
        let (w, raw) := draw_uuid w in
        let nextId := "gift_" +:+ raw in
        let next := mk_gf nextId recipientUserId (gf_donorPlanCode gift) (gf_donorTier gift) gift_pending None None
          None (daysFromNow (default DEFAULT_GIFT_EXPIRY_DAYS expiresInDays) w) (w_now w) (w_now w)
          (gf_rootGiftId gift) (gf_chainDepth gift + 1) in
        let w := upsertSubscriptionGift next w in
        let previous := with_gf_updatedAt (w_now w) (with_gf_forwardedToGiftId (Some nextId)
          (with_gf_claimedAt (Some (w_now w)) (with_gf_claimedByUserId (Some recipientUserId)
            (with_gf_status gift_forwarded gift)))) in
        let w := upsertSubscriptionGift previous w in
        (addAudit recipientUserId "gift.forwarded" actor w, Ok (previous, next))
  end.

Definition getMyGifts (userId : string) (w : world) :
    world * (list SubscriptionGiftRecord * list SubscriptionGiftRecord) :=
  let w := expireStaleGifts w in
  let newest := js_sort (fun a b => gf_createdAt b <=? gf_createdAt a) in
  (w, (newest (List.filter (fun g => bool_decide (gf_donorUserId g = userId)) (listSubscriptionGifts w)),
       newest (List.filter (fun g => bool_decide (gf_claimedByUserId g = Some userId)) (listSubscriptionGifts w)))).

Definition tier_name (t : CanopySubscriptionTier) : string :=
  match t with free => "free" | sprout => "sprout" | canopy_pro => "canopy_pro" end.
Definition interval_name (i : CanopyBillingInterval) : string :=
  match i with every_month => "monthly" | every_year => "annual" end.

(** [createCheckoutSession] for a canopy plan; [today] is the UTC day of the key. *)
Definition createCheckoutSession (userId planCode : string) (successUrl embedOrigin : option string) (embed : bool)
    (today : string) : W (res string (string * string * bool)) :=
  match productsByPlan planCode with
  | None => mret (Err "unknown_plan")
  | Some product =>
      match fbmListingIdForPlan (cpd_planCode product) with
      | None => mret (Err "billing_unavailable")
      | Some listing =>
          if negb provider_enabled then mret (Err "billing_unavailable")
          else
            let wants := embed && provider_embeds in
            let! session := request (CreateCheckoutSession userId listing None
              ("canopy:" +:+ userId +:+ ":" +:+ cpd_planCode product +:+ ":" +:+ today)
              successUrl wants (if wants then embedOrigin else None)
              [("canopyPlanCode", cpd_planCode product); ("canopyTier", tier_name (cpd_tier product));
               ("canopyInterval", interval_name (cpd_interval product))]) in
            match session with
            | None => mret (Err "provider")
            | Some s =>
                let! _ := modify (addAudit userId "checkout.session_created" "system") in
                mret (Ok (fst s, snd s, wants))
            end
      end
  end.
End billing.
