(* ===== verification/Growth.v ===== *)
(** * The growth programme

    [services/growth.ts]: referrals, ambassadors, quests, migration credits and
    bounty rewards.  A throw is [Err] with its code. *)

From S2P Require Import Prelude JsMap Async CoalitionDomain Money Records Store Drives Relay.
From S2P Require Import BillingRows Ledger Projects Tips.
Open Scope Z_scope.

Definition on_growth (f : growth -> growth) (w : world) : world := set_w_growth (f (w_growth w)) w.

(** ** The tables ([db/store.ts]) *)

Definition insertReferral (r : ReferralRecord) : world -> world :=
  on_growth (fun g => set_gr_referrals (set (rf_id r) r (gr_referrals g)) g).
Definition updateReferral (r : ReferralRecord) : world -> world :=
  on_growth (fun g => set_gr_referrals (set (rf_id r) r (gr_referrals g)) g).
Definition getReferral (id : string) (w : world) : option ReferralRecord := get id (gr_referrals (w_growth w)).
Definition findReferralByReferee (u : string) (w : world) : option ReferralRecord :=
  List.find (fun r => bool_decide (rf_refereeUserId r = u)) (values (gr_referrals (w_growth w))).
Definition listReferralsByReferrer (u : string) (w : world) : list ReferralRecord :=
  List.filter (fun r => bool_decide (rf_referrerUserId r = u)) (values (gr_referrals (w_growth w))).

Definition insertAmbassador (r : AmbassadorRecord) : world -> world :=
  on_growth (fun g => set_gr_ambassadors (set (am_id r) r (gr_ambassadors g)) g).
Definition updateAmbassador (r : AmbassadorRecord) : world -> world :=
  on_growth (fun g => set_gr_ambassadors (set (am_id r) r (gr_ambassadors g)) g).
Definition getAmbassador (id : string) (w : world) : option AmbassadorRecord := get id (gr_ambassadors (w_growth w)).
Definition findAmbassadorByUser (u : string) (w : world) : option AmbassadorRecord :=
  List.find (fun r => bool_decide (am_userId r = u)) (values (gr_ambassadors (w_growth w))).

Definition insertQuest (r : QuestDefinitionRecord) : world -> world :=
  on_growth (fun g => set_gr_quests (set (qd_id r) r (gr_quests g)) g).
Definition updateQuest (r : QuestDefinitionRecord) : world -> world :=
  on_growth (fun g => set_gr_quests (set (qd_id r) r (gr_quests g)) g).
Definition getQuest (id : string) (w : world) : option QuestDefinitionRecord := get id (gr_quests (w_growth w)).
Definition listQuests (w : world) : list QuestDefinitionRecord := values (gr_quests (w_growth w)).
Definition insertQuestCompletion (r : QuestCompletionRecord) : world -> world :=
  on_growth (fun g => set_gr_completions (set (qc_id r) r (gr_completions g)) g).
Definition updateQuestCompletion (r : QuestCompletionRecord) : world -> world :=
  on_growth (fun g => set_gr_completions (set (qc_id r) r (gr_completions g)) g).
Definition getQuestCompletion (questId userId : string) (w : world) : option QuestCompletionRecord :=
  List.find (fun r => bool_decide (qc_questId r = questId) && bool_decide (qc_userId r = userId))
    (values (gr_completions (w_growth w))).
Definition getQuestCompletionById (id : string) (w : world) : option QuestCompletionRecord :=
  get id (gr_completions (w_growth w)).
Definition listQuestCompletionsByUser (u : string) (w : world) : list QuestCompletionRecord :=
  List.filter (fun r => bool_decide (qc_userId r = u)) (values (gr_completions (w_growth w))).
Definition listQuestCompletionsByQuest (q : string) (w : world) : list QuestCompletionRecord :=
  List.filter (fun r => bool_decide (qc_questId r = q)) (values (gr_completions (w_growth w))).

Definition insertMigrationCredit (r : MigrationCreditRecord) : world -> world :=
  on_growth (fun g => set_gr_credits (set (cr_id r) r (gr_credits g)) g).
Definition updateMigrationCredit (r : MigrationCreditRecord) : world -> world :=
  on_growth (fun g => set_gr_credits (set (cr_id r) r (gr_credits g)) g).
Definition getMigrationCredit (id : string) (w : world) : option MigrationCreditRecord :=
  get id (gr_credits (w_growth w)).
Definition findMigrationCredit (u : string) (k : MigrationCreditSourceKind) (handle : option string) (w : world) :
    option MigrationCreditRecord :=
  List.find (fun r => bool_decide (cr_userId r = u) && bool_decide (cr_sourceKind r = k)
    && bool_decide (cr_sourceHandle r = handle)) (values (gr_credits (w_growth w))).
Definition listMigrationCreditsByUser (u : string) (w : world) : list MigrationCreditRecord :=
  List.filter (fun r => bool_decide (cr_userId r = u)) (values (gr_credits (w_growth w))).

Definition insertBountyReward (r : BountyRewardRecord) : world -> world :=
  on_growth (fun g => set_gr_rewards (set (br_id r) r (gr_rewards g)) g).
Definition updateBountyReward (r : BountyRewardRecord) : world -> world :=
  on_growth (fun g => set_gr_rewards (set (br_id r) r (gr_rewards g)) g).
Definition getBountyRewardByBounty (bountyId : string) (w : world) : option BountyRewardRecord :=
  List.find (fun r => bool_decide (br_bountyId r = bountyId)) (values (gr_rewards (w_growth w))).
Definition listBountyRewardsByBeneficiary (u : string) (w : world) : list BountyRewardRecord :=
  js_sort (fun a b => br_earnedAt b <=? br_earnedAt a)
    (List.filter (fun r => bool_decide (br_beneficiaryId r = u)) (values (gr_rewards (w_growth w)))).

(** ** services/growth.ts *)

Inductive GrowthError : Set :=
  | invalid_referral | self_referral | invalid_user | invalid_quest | invalid_reward
  | quest_not_found | invalid_value | credit_not_found.

Section growth.
Context `{Env} `{MoneyEnv}.

(** [randomId(prefix)] *)
Definition draw_id (prefix : string) (w : world) : world * string :=
  (set_w_db (set_rng (S (rng (w_db w))) (w_db w)) w, prefix +:+ draw (rng (w_db w))).

(** *** Referrals *)

Definition createReferral (referrer referee : string) (kind : option ReferralSourceKind) (ref : option string)
    (w : world) : world * res GrowthError ReferralRecord :=
  if bool_decide (referrer = "") || bool_decide (referee = "") then (w, Err invalid_referral)
  else if bool_decide (referrer = referee) then (w, Err self_referral)
  else match findReferralByReferee referee w with
  | Some existing => (w, Ok existing)
  | None =>
      let ts := w_now w in
      let (w, id) := draw_id "ref_" w in
      let record := mk_rf id referrer referee (default invite_link kind) ref ref_pending None None ts None ts ts in
      (insertReferral record w, Ok record)
  end.

(** [referralService.markSettled] *)
Definition markSettled (referralId rewardTipId : string) (rewardCents : option Z) (settledAt : option stamp)
    (w : world) : world * option ReferralRecord :=
  match getReferral referralId w with
  | None => (w, None)
  | Some record =>
      match rf_status record with
      | ref_settled => (w, Some record)
      | _ =>
          let ts := w_now w in
          let updated := with_rf_updatedAt ts (with_rf_settledAt (Some (default (at_ms ts) settledAt))
            (with_rf_rewardCents (or_else rewardCents (rf_rewardCents record))
              (with_rf_rewardTipId (Some rewardTipId) (with_rf_status ref_settled record)))) in
          (updateReferral updated w, Some updated)
      end
  end.

(** *** Ambassadors *)

Definition DEFAULT_TIER_COMMISSION_BPS (t : AmbassadorTier) : Z :=
  match t with seedling => 100 | sapling => 200 | canopy_tier => 300 | elder => 500 end.

Definition applyAmbassador (userId : string) (tier : option AmbassadorTier) (w : world) :
    world * res GrowthError AmbassadorRecord :=
  if bool_decide (userId = "") then (w, Err invalid_user)
  else match findAmbassadorByUser userId w with
  | Some existing => (w, Ok existing)
  | None =>
      let tier := default seedling tier in
      let ts := w_now w in
      let (w, id) := draw_id "amb_" w in
      let record := mk_am id userId tier (DEFAULT_TIER_COMMISSION_BPS tier) 0 amb_pending ts ts ts ts in
      (insertAmbassador record w, Ok record)
  end.

Definition promoteAmbassador (userId : string) (tier : AmbassadorTier) (w : world) : world * option AmbassadorRecord :=
  match findAmbassadorByUser userId w with
  | None => (w, None)
  | Some record =>
      let ts := w_now w in
      let updated := with_am_updatedAt ts (with_am_lastReviewedAt ts
        (with_am_commissionBps (DEFAULT_TIER_COMMISSION_BPS tier) (with_am_tier tier record))) in
      (updateAmbassador updated w, Some updated)
  end.

(** *** Quests *)

Record CreateQuestInput : Type := {
  cq_sourceKind : QuestSourceKind;
  cq_sourceRef : option string;
  cq_title : string;
  cq_description : string;
  cq_rewardKind : QuestRewardKind;
  cq_rewardCents : jsnum;
  cq_startsAt : option string;
  cq_endsAt : option string;
}.

(** [Number.isFinite(x) && x >= 0], and [Math.floor(x)]. *)
Definition whole_cents (x : jsnum) : option Z :=
  match x with
  | JFin q => if Qle_bool 0 q then Some (js_floor q) else None
  | _ => None
  end.

Definition createQuest (i : CreateQuestInput) (w : world) : world * res GrowthError QuestDefinitionRecord :=
  if bool_decide (cq_title i = "") || bool_decide (cq_description i = "") then (w, Err invalid_quest)
  else match whole_cents (cq_rewardCents i) with
  | None => (w, Err invalid_reward)
  | Some cents =>
      let ts := w_now w in
      let (w, id) := draw_id "qst_" w in
      let record := mk_qd id (cq_sourceKind i) (cq_sourceRef i) (cq_title i) (cq_description i) (cq_rewardKind i)
        cents (as_sent <$> cq_startsAt i) (as_sent <$> cq_endsAt i) ts ts in
      (insertQuest record w, Ok record)
  end.

Definition stamp_time (s : stamp) : option Z :=
  match s with at_ms z => Some z | as_sent t => Date_parse t end.

(** [x && Date.parse(x) <= t]; comparisons with [NaN] are false. *)
Definition over_by (s : option stamp) (t : Z) : bool :=
  match s with
  | Some (as_sent "") | None => false
  | Some s => match stamp_time s with Some e => e <=? t | None => false end
  end.
Definition starts_after (s : option stamp) (t : Z) : bool :=
  match s with
  | Some (as_sent "") | None => false
  | Some s => match stamp_time s with Some e => t <? e | None => false end
  end.

Definition endQuest (questId : string) (w : world) : world * res GrowthError QuestDefinitionRecord :=
  match getQuest questId w with
  | None => (w, Err quest_not_found)
  | Some quest =>
      let ts := w_now w in
      if over_by (qd_endsAt quest) ts then (w, Ok quest)
      else
        let updated := with_qd_updatedAt ts (with_qd_endsAt (Some (at_ms ts)) quest) in
        (updateQuest updated w, Ok updated)
  end.

Definition list_quests (kind : option QuestSourceKind) (activeAt : option Z) (w : world) :
    list QuestDefinitionRecord :=
  List.filter (fun q =>
    match kind with Some k => bool_decide (qd_sourceKind q = k) | None => true end
    && match activeAt with
       | Some t => negb (starts_after (qd_startsAt q) t) && negb (over_by (qd_endsAt q) t)
       | None => true
       end) (listQuests w).

Definition completionCount (questId : string) (w : world) : Z :=
  Z.of_nat (length (listQuestCompletionsByQuest questId w)).

Definition completeQuest (questId userId : string) (w : world) : world * res GrowthError QuestCompletionRecord :=
  match getQuest questId w with
  | None => (w, Err quest_not_found)
  | Some _ =>
      match getQuestCompletion questId userId w with
      | Some existing => (w, Ok existing)
      | None =>
          let (w, id) := draw_id "cmp_" w in
          let record := mk_qc id questId userId None (w_now w) in
          (insertQuestCompletion record w, Ok record)
      end
  end.

Definition markCompletionSettled (completionId rewardTipId : string) (w : world) :
    world * option QuestCompletionRecord :=
  match getQuestCompletionById completionId w with
  | None => (w, None)
  | Some record =>
      match truthy (qc_rewardTipId record) with
      | Some _ => (w, Some record)
      | None =>
          let updated := with_qc_rewardTipId (Some rewardTipId) record in
          (updateQuestCompletion updated w, Some updated)
      end
  end.

(** *** Migration credits *)

Record IssueMigrationCreditInput : Type := {
  im_userId : string;
  im_sourceKind : MigrationCreditSourceKind;
  im_sourceHandle : option string;
  im_valueCents : jsnum;
  im_currency : option string;
}.

Definition issueCredit (i : IssueMigrationCreditInput) (w : world) : world * res GrowthError MigrationCreditRecord :=
  if bool_decide (im_userId i = "") then (w, Err invalid_user)
  else match whole_cents (im_valueCents i) with
  | None => (w, Err invalid_value)
  | Some cents =>
      let handle := truthy (js_trim <$> im_sourceHandle i) in
      match findMigrationCredit (im_userId i) (im_sourceKind i) handle w with
      | Some existing => (w, Ok existing)
      | None =>
          let ts := w_now w in
          let (w, id) := draw_id "mig_" w in
          let record := mk_cr id (im_userId i) None (im_sourceKind i) handle cents
            (toUpperCase (default "USD" (im_currency i))) ts None ts ts in
          (insertMigrationCredit record w, Ok record)
      end
  end.

Definition redeemCredit (id userId : string) (w : world) : world * res GrowthError MigrationCreditRecord :=
  match getMigrationCredit id w with
  | None => (w, Err credit_not_found)
  | Some record =>
      if negb (bool_decide (cr_userId record = userId)) then (w, Err credit_not_found)
      else match cr_redeemedAt record with
      | Some _ => (w, Ok record)
      | None =>
          let ts := w_now w in
          let updated := with_cr_updatedAt ts (with_cr_redeemedAt (Some ts) record) in
          (updateMigrationCredit updated w, Ok updated)
      end
  end.

(** *** Bounty rewards *)

Definition recordBountyReward (bountyId beneficiaryId posterId : string) (rewardType : BountyRewardType)
    (rewardSummary : string) (rewardCents : option Z) (w : world) : world * BountyRewardRecord :=
  match getBountyRewardByBounty bountyId w with
  | Some existing => (w, existing)
  | None =>
      let (w, id) := draw_id "brw_" w in
      let record := mk_br id bountyId beneficiaryId posterId rewardType rewardSummary rewardCents rew_earned
        (w_now w) None None in
      (insertBountyReward record w, record)
  end.

(** Rewards, cents earned, cents settled. *)
Definition summaryForBeneficiary (userId : string) (w : world) : Z * Z * Z :=
  let counted := List.filter (fun r => negb (bool_decide (br_status r = rew_voided)))
    (listBountyRewardsByBeneficiary userId w) in
  let cents r := default 0 (br_rewardCents r) in
  (Z.of_nat (length counted), sum_by cents counted,
   sum_by cents (List.filter (fun r => bool_decide (br_status r = rew_settled)) counted)).

Definition settleBounty (bountyId ref : string) (settledAt : option stamp) (w : world) :
    world * option BountyRewardRecord :=
  match getBountyRewardByBounty bountyId w with
  | None => (w, None)
  | Some record =>
      match br_status record with
      | rew_settled => (w, Some record)
      | _ =>
          let updated := with_br_settledAt (Some (default (at_ms (w_now w)) settledAt))
            (with_br_settledRef (Some ref) (with_br_status rew_settled record)) in
          (updateBountyReward updated w, Some updated)
      end
  end.
End growth.
