(* ===== verification/Webhook.v ===== *)
(** * Marketplace webhooks

    [services/marketplaceWebhook.ts], [services/marketplaceEntitlements.ts],
    [services/fbmAclSync/webhookTrigger.ts] and [dispatchFbmMatrixEvent] of
    [services/fbmMatrixBridge/index.ts].  A delivery is what the signature check and
    the parsers make of a request; what the bridge does with an event in its rooms is
    a request.  Counters, log lines and the echo of the event are left out. *)

From S2P Require Import Prelude JsMap Async CoalitionDomain Money Records Store Drives Relay.
From S2P Require Import BillingRows Ledger Projects Tips Billing Growth.
Open Scope Z_scope.

(** ** Events ([core/src/marketplace/provider.ts]) *)

Inductive LifecycleEventType : Set :=
  | purchase_succeeded | purchase_failed | purchase_refunded | purchase_chargebacked
  | creator_payout_completed | listing_signed_bundle_published | creator_account_suspended
  | referral_attributed | ambassador_commission_paid | quest_reward_settled | bounty_reward_settled.

#[export] Instance LifecycleEventType_eq : EqDecision LifecycleEventType.
Proof. solve_decision. Defined.

Inductive metavalue : Type := mv_string (s : string) | mv_number (n : jsnum) | mv_other.

Record NormalizedLifecycleEvent : Type := {
  le_providerId : MarketplaceProviderId;
  le_eventId : string;
  le_type : LifecycleEventType;
  le_userId : string;
  le_providerListingId : string;
  le_sku : option string;
  le_kind : EntitlementKind;
  le_occurredAt : string;
  le_amountCents : option Z;
  le_metadata : jsmap metavalue;
}.

(** [typeof meta[k] === 'string' ? meta[k] : null] *)
Definition meta_string (k : string) (e : NormalizedLifecycleEvent) : option string :=
  match get k (le_metadata e) with Some (mv_string s) => Some s | _ => None end.
Definition meta_number (k : string) (e : NormalizedLifecycleEvent) : option jsnum :=
  match get k (le_metadata e) with Some (mv_number n) => Some n | _ => None end.

Definition GROWTH_ATTRIBUTION_EVENT_TYPES : list LifecycleEventType :=
  [referral_attributed; ambassador_commission_paid; quest_reward_settled; bounty_reward_settled].
Definition CREATOR_EVENT_TYPES : list LifecycleEventType :=
  [creator_payout_completed; listing_signed_bundle_published; creator_account_suspended].

Definition SYSTEM_SENDER_USER_ID : string := "system:freeblackmarket".

(** ** services/marketplaceEntitlements.ts *)

Section webhook.
Context `{Env} `{MoneyEnv}.

Definition hasProcessedWebhookEvent (p : MarketplaceProviderId) (eventId : string) (w : world) : bool :=
  match getMarketplaceWebhook p eventId w with
  | Some a => bool_decide (wa_processedAt a <> None)
  | None => false
  end.

Definition recordWebhookReceipt (p : MarketplaceProviderId) (eventId : string) (signatureOk : bool) (w : world) :
    world :=
  match getMarketplaceWebhook p eventId w with
  | Some _ => w
  | None =>
      let (w, id) := draw_uuid w in
      recordMarketplaceWebhook (mk_audit id p eventId (w_now w) None signatureOk) w
  end.

Definition markWebhookProcessed (p : MarketplaceProviderId) (eventId : string) (w : world) : world :=
  markMarketplaceWebhookProcessed p eventId w.

Record ApplyEventResult : Type := {
  ar_entitlement : option MarketplaceEntitlementRecord;
  ar_licenseKey : option MarketplaceLicenseKeyRecord;
  ar_alreadyProcessed : bool;
}.

Definition nothing_applied (already : bool) : ApplyEventResult :=
  {| ar_entitlement := None; ar_licenseKey := None; ar_alreadyProcessed := already |}.

Definition generateLicenseKey (w : world) : world * string :=
  (set_w_db (set_rng (S (rng (w_db w))) (w_db w)) w, license_text (rng (w_db w))).

Definition event_entitlement (e : NormalizedLifecycleEvent) : world -> option MarketplaceEntitlementRecord :=
  findMarketplaceEntitlement (le_userId e) (le_providerId e) (le_providerListingId e) (le_sku e).

Definition refunded_status (t : LifecycleEventType) (current : EntitlementStatus) : EntitlementStatus :=
  match t with
  | purchase_refunded => ent_refunded
  | purchase_chargebacked => ent_chargebacked
  | purchase_failed => ent_revoked
  | _ => current
  end.

Definition grantEntitlement (e : NormalizedLifecycleEvent) (w : world) : world * ApplyEventResult :=
  let (w, id) := draw_uuid w in
  let timestamp := w_now w in
  let record := mk_ent id (le_userId e) (le_providerId e) (le_providerListingId e) (le_sku e) (le_kind e)
    ent_granted (le_occurredAt e) None (le_eventId e) timestamp timestamp in
  let w := upsertMarketplaceEntitlement record w in
  let (w, licenseKey) :=
    (if bool_decide (le_kind e = software_license) then
       let (w, key) := generateLicenseKey w in
       let license := mk_license id key 0 (default (jint 3) (meta_number "activationsMax" e)) timestamp in
       (upsertMarketplaceLicenseKey license w, Some license)
     else (w, None)) in
  (markWebhookProcessed (le_providerId e) (le_eventId e) w,
   {| ar_entitlement := Some record; ar_licenseKey := licenseKey; ar_alreadyProcessed := false |}).

Definition applyLifecycleEvent (e : NormalizedLifecycleEvent) (w : world) : world * ApplyEventResult :=
  if hasProcessedWebhookEvent (le_providerId e) (le_eventId e) w then
    let existing := event_entitlement e w in
    (w, {| ar_entitlement := existing;
           ar_licenseKey := match existing with Some x => getMarketplaceLicenseKey (en_id x) w | None => None end;
           ar_alreadyProcessed := true |})
  else if bool_decide (le_type e = purchase_succeeded) then grantEntitlement e w
  else match event_entitlement e w with
  | None => (markWebhookProcessed (le_providerId e) (le_eventId e) w, nothing_applied false)
  | Some existing =>
      let updated := with_en_updatedAt (w_now w)
        (with_en_status (refunded_status (le_type e) (en_status existing)) existing) in
      let w := upsertMarketplaceEntitlement updated w in
      let w := markWebhookProcessed (le_providerId e) (le_eventId e) w in
      (w, {| ar_entitlement := Some updated; ar_licenseKey := getMarketplaceLicenseKey (en_id updated) w;
             ar_alreadyProcessed := false |})
  end.

(** ** services/marketplaceWebhook.ts *)

Record WebhookDispatchResult : Type := {
  wr_ok : bool;
  wr_status : Z;
  wr_reason : option string;
  wr_applied : option ApplyEventResult;
}.

Definition acked (a : ApplyEventResult) : WebhookDispatchResult :=
  {| wr_ok := true; wr_status := 200; wr_reason := None; wr_applied := Some a |}.

(** What escapes the dispatcher: an amount the commission refuses, or a date. *)
Inductive webhook_throw : Set := capture_range (e : RangeError) | period_range.

Definition is_refund (t : LifecycleEventType) : bool :=
  bool_decide (t = purchase_refunded) || bool_decide (t = purchase_chargebacked).

(** The money of a tip moved, or moved back. *)
Definition dispatch_tip (e : NormalizedLifecycleEvent) (tipId : string) :
    W (res webhook_throw WebhookDispatchResult) :=
  let! moved :=
    (if bool_decide (le_type e = purchase_succeeded) then
       let! r := captureTip tipId {| cd_fbmOrderId := meta_string "fbmOrderId" e;
                                     cd_chargedCents := jint <$> le_amountCents e |} in
       mret (match r with Err x => Err (capture_range x) | Ok _ => Ok tt end)
     else if is_refund (le_type e) then
       let! _ := update (refundTip tipId) in mret (Ok tt)
     else mret (Ok tt)) in
  match moved with
  | Err x => mret (Err x)
  | Ok _ =>
      let! _ := modify (markWebhookProcessed (le_providerId e) (le_eventId e)) in
      mret (Ok (acked (nothing_applied false)))
  end.

Definition period_detail (e : NormalizedLifecycleEvent) : PeriodDetail := {|
  pd_fbmSubscriptionId := meta_string "fbmSubscriptionId" e;
  pd_periodDays := meta_number "periodDays" e;
  pd_effectiveAt := Some (as_sent (le_occurredAt e)) |}.

(** A creator subscription; the event goes on to the entitlement path. *)
Definition dispatch_creator_sub (e : NormalizedLifecycleEvent) (subscriptionId : string) :
    W (res webhook_throw unit) :=
  if bool_decide (le_type e = purchase_succeeded) then
    let! r := update (captureSubscription subscriptionId (period_detail e)) in
    mret (match r with Err _ => Err period_range | Ok _ => Ok tt end)
  else if is_refund (le_type e) then
    let! _ := update (refundSubscription subscriptionId) in mret (Ok tt)
  else mret (Ok tt).

Definition dispatch_canopy (e : NormalizedLifecycleEvent) (planCode : string) : W WebhookDispatchResult :=
  let! _ :=
    (if bool_decide (le_type e = purchase_succeeded) then
       let! _ := update (applySubscriptionWebhookEvent {|
         we_eventId := le_eventId e; we_type := invoice_paid; we_userId := le_userId e;
         we_planCode := Some planCode; we_occurredAt := Some (le_occurredAt e) |}) in mret tt
     else if is_refund (le_type e) then
       let! _ := update (applySubscriptionWebhookEvent {|
         we_eventId := le_eventId e; we_type := charge_refunded; we_userId := le_userId e;
         we_planCode := None; we_occurredAt := Some (le_occurredAt e) |}) in mret tt
     else mret tt) in
  let! _ := modify (markWebhookProcessed (le_providerId e) (le_eventId e)) in
  mret (acked (nothing_applied false)).

Definition dispatch_boost (e : NormalizedLifecycleEvent) (pledgeId : string) :
    W (res webhook_throw WebhookDispatchResult) :=
  let! moved :=
    (if bool_decide (le_type e = purchase_succeeded) then
       let! r := update (captureBoostPledge pledgeId (period_detail e)) in
       mret (match r with Err _ => Err period_range | Ok _ => Ok tt end)
     else if is_refund (le_type e) then
       let! _ := update (refundBoostPledge pledgeId) in mret (Ok tt)
     else mret (Ok tt)) in
  match moved with
  | Err x => mret (Err x)
  | Ok _ =>
      let! _ := modify (markWebhookProcessed (le_providerId e) (le_eventId e)) in
      mret (Ok (acked (nothing_applied false)))
  end.

(** [Ok None]: not a monetization event, or one the entitlement path also handles. *)
Definition dispatchMonetizationEvent (e : NormalizedLifecycleEvent) :
    W (res webhook_throw (option WebhookDispatchResult)) :=
  match truthy (meta_string "tipId" e) with
  | Some tipId => let! r := dispatch_tip e tipId in
                  mret (match r with Err x => Err x | Ok r => Ok (Some r) end)
  | None =>
      let! sub :=
        (match truthy (meta_string "creatorSubscriptionId" e) with
         | Some s => dispatch_creator_sub e s
         | None => mret (Ok tt)
         end) in
      match sub with
      | Err x => mret (Err x)
      | Ok _ =>
          match truthy (meta_string "canopyPlanCode" e), truthy (Some (le_userId e)) with
          | Some plan, Some _ => let! r := dispatch_canopy e plan in mret (Ok (Some r))
          | _, _ =>
              match truthy (meta_string "boostPledgeId" e) with
              | Some pledge => let! r := dispatch_boost e pledge in
                               mret (match r with Err x => Err x | Ok r => Ok (Some r) end)
              | None => mret (Ok None)
              end
          end
      end
  end.

(** *** Growth attribution *)

Definition system_tip (recipient : string) (kind : TipContextKind) (ref : option string) (gross : jsnum)
    (currency : string) (order : option string) (metadata : list (string * string)) (note : string) :
    CreateTipInput := {|
  ti_senderUserId := SYSTEM_SENDER_USER_ID; ti_recipientUserId := recipient; ti_contextKind := kind;
  ti_contextRef := ref; ti_grossCents := gross; ti_currency := currency; ti_note := Some note; ti_giftSku := None;
  ti_providerId := None; ti_feeBpsOverride := None; ti_fbmOrderId := order; ti_metadata := metadata |}.

(** The id and net of the tip, or [None] when it was refused. *)
Definition safeCreateAndCaptureSystemTip (i : CreateTipInput) : W (option (string * Z)) :=
  let! made := update (createTip i) in
  match made with
  | Err _ => mret None
  | Ok tip =>
      let! captured := captureTip (tp_id tip) {| cd_fbmOrderId := ti_fbmOrderId i; cd_chargedCents := None |} in
      mret (match captured with
            | Err _ => None
            | Ok (Some c) => Some (tp_id tip, tp_netCents c)
            | Ok None => Some (tp_id tip, tp_netCents tip)
            end)
  end.

(** [finalizeGrowthAttribution] and [ackUnresolvable] *)
Definition settle_attribution (e : NormalizedLifecycleEvent) : W WebhookDispatchResult :=
  let! _ := modify (markWebhookProcessed (le_providerId e) (le_eventId e)) in
  mret (acked (nothing_applied false)).

Definition num_truthy (x : jsnum) : option jsnum :=
  match x with
  | JNaN => None
  | JFin q => if Qeq_bool q 0 then None else Some x
  | JInf _ => Some x
  end.

Definition growth_gross (e : NormalizedLifecycleEvent) : jsnum := default (jint 0) (meta_number "grossCents" e).
Definition growth_currency (e : NormalizedLifecycleEvent) : string := default "USD" (meta_string "currency" e).

Definition attribute_referral (e : NormalizedLifecycleEvent) : W WebhookDispatchResult :=
  match truthy (meta_string "referralId" e) with
  | None => settle_attribution e
  | Some referralId =>
      let! referral := gets (getReferral referralId) in
      match referral with
      | None => settle_attribution e
      | Some referral =>
          let! tip := safeCreateAndCaptureSystemTip (system_tip (rf_referrerUserId referral) ck_referral_bonus
            (Some referralId) (growth_gross e) (growth_currency e) (meta_string "fbmOrderId" e)
            [("referralId", referralId); ("refereeUserId", rf_refereeUserId referral)] "Referral reward") in
          let! _ :=
            (match tip with
             | Some (id, net) =>
                 let! _ := update (markSettled referralId id (Some net) (Some (as_sent (le_occurredAt e)))) in mret tt
             | None => mret tt
             end) in
          settle_attribution e
      end
  end.

Definition ambassador_tier_name (t : AmbassadorTier) : string :=
  match t with seedling => "seedling" | sapling => "sapling" | canopy_tier => "canopy" | elder => "elder" end.

Definition attribute_ambassador (e : NormalizedLifecycleEvent) : W WebhookDispatchResult :=
  match truthy (meta_string "ambassadorId" e) with
  | None => settle_attribution e
  | Some ambassadorId =>
      let! ambassador := gets (getAmbassador ambassadorId) in
      match ambassador with
      | None => settle_attribution e
      | Some ambassador =>
          let! _ := safeCreateAndCaptureSystemTip (system_tip (am_userId ambassador) ck_ambassador_commission
            (Some (default ambassadorId (meta_string "periodKey" e))) (growth_gross e) (growth_currency e)
            (meta_string "fbmOrderId" e)
            (("ambassadorId", ambassadorId)
             :: match meta_string "periodKey" e with Some k => [("periodKey", k)] | None => [] end
             ++ [("tier", ambassador_tier_name (am_tier ambassador))]) "Ambassador commission") in
          settle_attribution e
      end
  end.

Definition attribute_quest (e : NormalizedLifecycleEvent) : W WebhookDispatchResult :=
  match truthy (meta_string "questCompletionId" e) with
  | None => settle_attribution e
  | Some completionId =>
      let! completions := gets (listQuestCompletionsByUser (le_userId e)) in
      match List.find (fun c => bool_decide (qc_id c = completionId)) completions with
      | None => settle_attribution e
      | Some completion =>
          let questId := default (qc_questId completion) (meta_string "questId" e) in
          let! tip := safeCreateAndCaptureSystemTip (system_tip (qc_userId completion) ck_quest_reward
            (Some questId) (growth_gross e) (growth_currency e) (meta_string "fbmOrderId" e)
            [("questCompletionId", completionId); ("questId", questId)] "Quest reward") in
          let! _ :=
            (match tip with
             | Some (id, _) => let! _ := update (markCompletionSettled completionId id) in mret tt
             | None => mret tt
             end) in
          settle_attribution e
      end
  end.

Definition attribute_bounty (e : NormalizedLifecycleEvent) : W WebhookDispatchResult :=
  match truthy (meta_string "bountyId" e) with
  | None => settle_attribution e
  | Some bountyId =>
      let! reward := gets (getBountyRewardByBounty bountyId) in
      match reward with
      | None => settle_attribution e
      | Some reward =>
          let gross := match num_truthy (growth_gross e) with
                       | Some g => g | None => jint (default 0 (br_rewardCents reward)) end in
          let! tip := safeCreateAndCaptureSystemTip (system_tip (br_beneficiaryId reward) ck_bounty_reward
            (Some bountyId) gross (growth_currency e) (meta_string "fbmOrderId" e)
            [("bountyId", bountyId); ("posterId", br_posterId reward); ("rewardType", br_rewardType reward)]
            "Bounty reward") in
          let! _ :=
            (match tip with
             | Some (id, _) =>
                 let! _ := update (settleBounty bountyId id (Some (as_sent (le_occurredAt e)))) in mret tt
             | None => mret tt
             end) in
          settle_attribution e
      end
  end.

Definition dispatchGrowthAttributionEvent (p : MarketplaceProviderId) (e : NormalizedLifecycleEvent) :
    W WebhookDispatchResult :=
  let! already := gets (hasProcessedWebhookEvent p (le_eventId e)) in
  if already then mret (acked (nothing_applied true))
  else if negb growthAttributionWebhooksEnabled then settle_attribution e
  else match le_type e with
  | referral_attributed => attribute_referral e
  | ambassador_commission_paid => attribute_ambassador e
  | quest_reward_settled => attribute_quest e
  | bounty_reward_settled => attribute_bounty e
  | _ => settle_attribution e
  end.

(** *** The dispatcher *)

(** [provider.verifyWebhook] and what the parsers read in the payload. *)
Record delivery : Type := {
  dl_verified : bool;
  (** the id of the unsigned header *)
  dl_headerId : option string;
  dl_reason : option string;
  (** [payloadEventId]: a non-empty [eventId] *)
  dl_bodyId : option string;
  (** an [entitlements.changed] payload: its id and Matrix user *)
  dl_acl : option (string * string);
  (** [parseFbmMatrixEvent]: its id, and whether it is an aid request *)
  dl_bridge : option (string * bool);
  dl_event : option NormalizedLifecycleEvent;
}.

(** [services/fbmAclSync/webhookTrigger.ts] *)
Definition tryHandleEntitlementsChanged (p : MarketplaceProviderId) (acl : option (string * string)) :
    W (option WebhookDispatchResult) :=
  match acl with
  | None => mret None
  | Some (eventId, mxid) =>
      let! already := gets (hasProcessedWebhookEvent p eventId) in
      if already then mret (Some (acked (nothing_applied true)))
      else
        let! _ := modify (recordWebhookReceipt p eventId true) in
        let! _ := (if aclSyncEnabled then spawn (request (SyncMxidAcls mxid)) else mret tt) in
        let! _ := modify (markWebhookProcessed p eventId) in
        mret (Some (acked (nothing_applied false)))
  end.

(** [services/fbmMatrixBridge/index.ts] *)
Definition dispatchFbmMatrixEvent (p : MarketplaceProviderId) (eventId : string) (aid : bool) :
    W WebhookDispatchResult :=
  let! already := gets (hasProcessedWebhookEvent p eventId) in
  if already then mret (acked (nothing_applied true))
  else if negb (if aid then aidMirrorEnabled else bridgeEnabled) then
    let! _ := modify (markWebhookProcessed p eventId) in
    mret (acked (nothing_applied false))
  else
    let! _ := request (RouteBridgeEvent eventId) in
    let! _ := modify (markWebhookProcessed p eventId) in
    mret (acked (nothing_applied false)).

(** The first of the two ids that was processed before. *)
Definition replayed_id (p : MarketplaceProviderId) (d : delivery) (w : world) : option string :=
  truthy (List.find (fun id => hasProcessedWebhookEvent p id w)
    (match dl_bodyId d with Some b => [b] | None => [] end
     ++ match dl_headerId d with Some h => [h] | None => [] end)).

Definition replay_answer (d : delivery) (w : world) : world * WebhookDispatchResult :=
  let (w, applied) :=
    match dl_event d with
    | Some e =>
        let (w, a) := applyLifecycleEvent e w in
        (w, {| ar_entitlement := ar_entitlement a; ar_licenseKey := ar_licenseKey a; ar_alreadyProcessed := true |})
    | None => (w, nothing_applied true)
    end in
  (w, {| wr_ok := true; wr_status := 200; wr_reason := Some "already-processed"; wr_applied := Some applied |}).

(** A lifecycle event that was not seen before. *)
Definition dispatch_lifecycle (p : MarketplaceProviderId) (e : NormalizedLifecycleEvent) :
    W (res webhook_throw WebhookDispatchResult) :=
  let! _ := modify (recordWebhookReceipt p (le_eventId e) true) in
  if bool_decide (le_type e ∈ GROWTH_ATTRIBUTION_EVENT_TYPES) then
    let! r := dispatchGrowthAttributionEvent p e in mret (Ok r)
  else
    let! monetization := dispatchMonetizationEvent e in
    match monetization with
    | Err x => mret (Err x)
    | Ok (Some r) => mret (Ok r)
    | Ok None =>
        if bool_decide (le_type e ∈ CREATOR_EVENT_TYPES) then
          let! already := gets (hasProcessedWebhookEvent p (le_eventId e)) in
          let! _ := (if already then mret tt else modify (markWebhookProcessed p (le_eventId e))) in
          mret (Ok (acked (nothing_applied already)))
        else
          let! applied := update (applyLifecycleEvent e) in
          let! _ := request FlushRuntimeStoreWrites in
          let! _ := spawn (request (MaybeDeliverDigitalDeadDrop (le_eventId e) (en_id <$> ar_entitlement applied))) in
          mret (Ok (acked applied))
    end.

Definition refused (status : Z) (reason : string) : WebhookDispatchResult :=
  {| wr_ok := false; wr_status := status; wr_reason := Some reason; wr_applied := None |}.

Definition dispatchMarketplaceWebhook (p : MarketplaceProviderId) (d : delivery) :
    W (res webhook_throw WebhookDispatchResult) :=
  if negb (dl_verified d) then
    let! _ := (match truthy (dl_headerId d) with
               | Some id => modify (recordWebhookReceipt p id false)
               | None => mret tt
               end) in
    mret (Ok (refused 401 (default "verification-failed" (dl_reason d))))
  else
    let! replayed := gets (replayed_id p d) in
    match replayed with
    | Some _ => let! r := update (replay_answer d) in mret (Ok r)
    | None =>
        let! acl := tryHandleEntitlementsChanged p (dl_acl d) in
        match acl with
        | Some r => mret (Ok r)
        | None =>
            match dl_bridge d with
            | Some (eventId, aid) =>
                let! _ := modify (recordWebhookReceipt p eventId true) in
                let! r := dispatchFbmMatrixEvent p eventId aid in
                mret (Ok r)
            | None =>
                match dl_event d with
                | None => mret (Ok (refused 400 "invalid-event-payload"))
                | Some e => dispatch_lifecycle p e
                end
            end
        end
    end.
End webhook.
