(* ===== verification/MoneyApi.v ===== *)
(** * What a client can ask of the money services

    [w_api]: the routes over tips, gifts, pools, projects, contributions,
    subscriptions, pledges, gifts of subscriptions, the growth programme, the
    webhooks, and the coalition handlers beside them.  The section shows once what
    every invariant of this part needs: it is enough to look at the few operations
    that write to its tables. *)

From S2P Require Import Prelude JsMap Async CoalitionDomain Money Records Store Drives JoinRequirements Relay Slug.
From S2P Require Import Network Spec SpecInv Safety BillingRows Ledger Projects Tips Contributions Billing Growth.
From S2P Require Import Webhook.
Open Scope Z_scope.

(** A handler for its effect, and a synchronous operation as a handler. *)
Definition w_call {A} (m : W A) : W unit := let! _ := m in mret tt.
Definition act {A} (f : world -> world * A) : W unit := w_call (update f).

Section api.
Context `{Env} `{MoneyEnv}.

(** [recordContribution] has one caller, the capture of a tip. *)
Definition beside_money (h : H unit) : Prop := api h /\ forall i, h <> call (recordContribution i).

Inductive w_api : W unit -> Prop :=
  | w_network h : beside_money h -> w_api (network h)
  (** tips, gifts and pools *)
  | w_post_tip u b : w_api (act (post_tip u b))
  | w_sendGift i : client_context (sg_contextKind i) = true -> w_api (act (sendGift i))
  | w_captureTip t o : w_api (w_call (captureTip t (Build_CaptureDetail o None)))
  | w_refundTip t : w_api (act (refundTip t))
  | w_createAidPool i : w_api (act (createAidPool i))
  | w_contributeToAidPool i : w_api (act (contributeToAidPool i))
  | w_fulfillAidPool p u : w_api (act (fulfillAidPool p u))
  | w_closeAidPool p u : w_api (act (closeAidPool p u))
  (** projects and drives *)
  | w_post_projects u i : w_api (w_call (post_projects u i))
  | w_patch_projects u p b : w_api (w_call (patch_projects u p b))
  | w_post_project_support u p b : w_api (act (post_project_support u p b))
  | w_post_contribute u k c o b : w_api (w_call (post_contribute u k c o b))
  (** creator subscriptions *)
  | w_createTier i : w_api (w_call (createTier i))
  | w_archiveTier t u : w_api (act (archiveTier t u))
  | w_post_subscribe u t r o e : w_api (w_call (post_subscribe u t r o e))
  | w_captureSubscription s d : w_api (act (captureSubscription s d))
  | w_cancelSubscription s u : w_api (act (cancelSubscription s u))
  | w_refundSubscription s : w_api (act (refundSubscription s))
  | w_listSubscriptionsForSubscriber u : w_api (act (listSubscriptionsForSubscriber u))
  | w_listSubscribersForCreator u : w_api (act (listSubscribersForCreator u))
  | w_getSubscription s : w_api (act (getSubscription s))
  | w_hasActiveCreatorSubscription u c n : w_api (act (hasActiveCreatorSubscription u c n))
  (** pledges *)
  | w_pledgeBoost i : w_api (act (pledgeBoost i))
  | w_captureBoostPledge p d : w_api (act (captureBoostPledge p d))
  | w_cancelBoostPledge p u : w_api (act (cancelBoostPledge p u))
  | w_refundBoostPledge p : w_api (act (refundBoostPledge p))
  (** canopy subscriptions *)
  | w_applySubscriptionWebhookEvent e : w_api (act (applySubscriptionWebhookEvent e))
  | w_applyManualComp u a : w_api (act (applyManualComp u a))
  | w_syncRefund u a : w_api (act (syncRefund u a))
  | w_donateForward u a n : w_api (act (donateForward u a n))
  | w_listAvailableGifts n : w_api (act (listAvailableGifts n))
  | w_claimGift g u a : w_api (act (claimGift g u a))
  | w_forwardGift g u a n : w_api (act (forwardGift g u a n))
  | w_getMyGifts u : w_api (act (getMyGifts u))
  | w_createCheckoutSession u p s o e t : w_api (w_call (createCheckoutSession u p s o e t))
  (** the growth programme *)
  | w_createReferral a b k r : w_api (act (createReferral a b k r))
  | w_applyAmbassador u t : w_api (act (applyAmbassador u t))
  | w_promoteAmbassador u t : w_api (act (promoteAmbassador u t))
  | w_createQuest i : w_api (act (createQuest i))
  | w_endQuest q : w_api (act (endQuest q))
  | w_completeQuest q u : w_api (act (completeQuest q u))
  | w_issueCredit i : w_api (act (issueCredit i))
  | w_redeemCredit c u : w_api (act (redeemCredit c u))
  | w_recordBountyReward b u p t s c : w_api (act (recordBountyReward b u p t s c))
  (** webhooks *)
  | w_dispatchMarketplaceWebhook p d : w_api (w_call (dispatchMarketplaceWebhook p d)).

(** What the rest of the process may do in between. *)
Definition w_outside (w w' : world) : Prop :=
  outside (w_db w) (w_db w') /\ w_tips w' = w_tips w /\ w_pools w' = w_pools w /\
  w_projects w' = w_projects w /\ w_supports w' = w_supports w /\ w_audit w' = w_audit w /\
  w_entitlements w' = w_entitlements w /\ w_licenses w' = w_licenses w /\
  w_billing w' = w_billing w /\ w_growth w' = w_growth w.

Definition empty_billing : billing := mk_billing [] [] [] [] [] [] [].
Definition empty_growth : growth := mk_growth [] [] [] [] [] [].
Definition empty_world : world :=
  mk_world empty_db [] [] [] [] [] [] [] [] [] empty_billing empty_growth [].

Definition w_reachable (w : world) : Prop :=
  exists ts, rtc (sys_step w_api w_outside) (Sys empty_world []) (Sys w ts).
Definition w_leads_to (w w' : world) : Prop :=
  exists ts ts', rtc (sys_step w_api w_outside) (Sys empty_world []) (Sys w ts) /\
                 rtc (sys_step w_api w_outside) (Sys w ts) (Sys w' ts').

Lemma leads_reachable w w' : w_leads_to w w' -> w_reachable w'.
Proof. intros (ts & ts' & G1 & G2). exists ts'. by etransitivity. Qed.
End api.

(** ** Operations that leave the ledgers alone *)

(** The tables the invariants of this part are about. *)
Definition calm (w w' : world) : Prop :=
  same_tables (w_db w) (w_db w') /\ (rng (w_db w) <= rng (w_db w'))%nat /\
  w_tips w' = w_tips w /\ w_projects w' = w_projects w /\ w_supports w' = w_supports w /\
  w_audit w' = w_audit w /\ bl_subs (w_billing w') = bl_subs (w_billing w) /\
  bl_pledges (w_billing w') = bl_pledges (w_billing w).

#[export] Instance calm_preorder : PreOrder calm.
Proof.
  split; [by intros w; unfold calm, same_tables; split_and!|].
  unfold calm, same_tables. intros a b c (S1 & R1 & ?) (S2 & R2 & ?).
  split_and!; try lia; destruct_and?; congruence.
Qed.

Lemma w_outside_calm `{Env} w w' : w_outside w w' -> calm w w'.
Proof. intros ([? ?] & ? & ? & ? & ? & ? & ? & ? & E & ?). unfold calm. rewrite E. by split_and!. Qed.

Lemma calm_step w n : calm w (set_w_db (set_rng (S n) (w_db w)) w) <-> (rng (w_db w) <= S n)%nat.
Proof. unfold calm. split; [intros (_ & ? & _); done|]. intros. by split_and!. Qed.

(** Unfold an operation down to its writes and take every branch. *)
#[export] Hint Unfold draw_uuid draw_id addAudit on_billing on_growth insertTip updateTip
  insertAidPool updateAidPool insertCreatorSubscriptionTier updateCreatorSubscriptionTier
  insertCreatorSubscription updateCreatorSubscription insertCommunityBoostPledge
  updateCommunityBoostPledge upsertCanopySubscription addSubscriptionAuditEvent
  markBillingWebhookEventProcessed upsertSubscriptionGift insertReferral updateReferral
  insertAmbassador updateAmbassador insertQuest updateQuest insertQuestCompletion
  updateQuestCompletion insertMigrationCredit updateMigrationCredit insertBountyReward
  updateBountyReward upsertMarketplaceEntitlement upsertMarketplaceLicenseKey emit_money
  ensureUserRecord open_gift : money.

Ltac branch :=
  match goal with
  | |- context [match ?x with _ => _ end] =>
      lazymatch x with context [match _ with _ => _ end] => fail | _ => destruct x end
  end.
Ltac calm_done := unfold calm, same_tables; simpl; split_and!; first [reflexivity | lia].
Tactic Notation "calm_op" reference(f) := intros ?w; unfold f; autounfold with money; simpl; repeat (branch; simpl); calm_done.

Section frames.
Context `{Env} `{MoneyEnv}.

Definition calmly {A} (f : world -> world * A) : Prop := forall w, calm w (fst (f w)).

Lemma calm_createAidPool i : calmly (createAidPool i). Proof. calm_op createAidPool. Qed.
Lemma calm_fulfillAidPool p u : calmly (fulfillAidPool p u). Proof. calm_op fulfillAidPool. Qed.
Lemma calm_closeAidPool p u : calmly (closeAidPool p u). Proof. calm_op closeAidPool. Qed.
Lemma calm_archiveTier t u : calmly (archiveTier t u). Proof. calm_op archiveTier. Qed.
Lemma calm_applySubscriptionWebhookEvent e : calmly (applySubscriptionWebhookEvent e).
Proof. calm_op applySubscriptionWebhookEvent. Qed.
Lemma calm_applyManualComp u a : calmly (applyManualComp u a). Proof. calm_op applyManualComp. Qed.
Lemma calm_syncRefund u a : calmly (syncRefund u a). Proof. calm_op syncRefund. Qed.
Lemma calm_donateForward u a n : calmly (donateForward u a n). Proof. calm_op donateForward. Qed.
Lemma calm_claimGift g u a : calmly (claimGift g u a).
Proof. intros w. unfold claimGift, applyManualComp. autounfold with money. simpl. repeat (branch; simpl); calm_done. Qed.
Lemma calm_forwardGift g u a n : calmly (forwardGift g u a n). Proof. calm_op forwardGift. Qed.
Lemma calm_createReferral a b k r : calmly (createReferral a b k r). Proof. calm_op createReferral. Qed.
Lemma calm_applyAmbassador u t : calmly (applyAmbassador u t). Proof. calm_op applyAmbassador. Qed.
Lemma calm_promoteAmbassador u t : calmly (promoteAmbassador u t). Proof. calm_op promoteAmbassador. Qed.
Lemma calm_createQuest i : calmly (createQuest i). Proof. calm_op createQuest. Qed.
Lemma calm_endQuest q : calmly (endQuest q). Proof. calm_op endQuest. Qed.
Lemma calm_completeQuest q u : calmly (completeQuest q u). Proof. calm_op completeQuest. Qed.
Lemma calm_issueCredit i : calmly (issueCredit i). Proof. calm_op issueCredit. Qed.
Lemma calm_redeemCredit c u : calmly (redeemCredit c u). Proof. calm_op redeemCredit. Qed.
Lemma calm_recordBountyReward b u p t s c : calmly (recordBountyReward b u p t s c).
Proof. calm_op recordBountyReward. Qed.
Lemma calm_markSettled r t c a : calmly (markSettled r t c a). Proof. calm_op markSettled. Qed.
Lemma calm_markCompletionSettled c t : calmly (markCompletionSettled c t). Proof. calm_op markCompletionSettled. Qed.
Lemma calm_settleBounty b r a : calmly (settleBounty b r a). Proof. calm_op settleBounty. Qed.

Lemma calm_expireStaleGifts w : calm w (expireStaleGifts w).
Proof.
  unfold expireStaleGifts. generalize (listSubscriptionGifts w) as l. intros l. revert w.
  induction l as [|g l IH]; intros w; [reflexivity|]. simpl. etransitivity; [|apply IH].
  branch; [|reflexivity]. autounfold with money. calm_done.
Qed.

Lemma calm_listAvailableGifts n : calmly (listAvailableGifts n).
Proof. intros w. apply calm_expireStaleGifts. Qed.
Lemma calm_getMyGifts u : calmly (getMyGifts u).
Proof. intros w. apply calm_expireStaleGifts. Qed.
End frames.

(** ** From the writers to the whole surface *)

(** A tip no ledger but the pools' looks at. *)
Definition plain_tip (i : CreateTipInput) : Prop :=
  ti_contextKind i <> ck_coalition_drive /\ ti_contextKind i <> ck_coalition_project.

Definition stable {A} (J : world -> Prop) (H : world -> world -> Prop) (f : world -> world * A) : Prop :=
  forall w, J w -> J (fst (f w)) /\ H w (fst (f w)).

(** What an invariant has to be checked against: the operations that write to the
    tables [calm] names. *)
Class Writers `{Env} `{MoneyEnv} (J : world -> Prop) (H : world -> world -> Prop) : Prop := {
  wr_order :: PreOrder H;
  wr_calm w w' : J w -> calm w w' -> J w' /\ H w w';
  wr_network h : beside_money h -> keeps J H (network h);
  wr_createTip i : plain_tip i -> stable J H (createTip i);
  wr_project_support u p b : stable J H (post_project_support u p b);
  wr_contribute u k c o b : keeps J H (post_contribute u k c o b);
  wr_captureTip t d : keeps J H (captureTip t d);
  wr_refundTip t : stable J H (refundTip t);
  wr_post_projects u i : keeps J H (post_projects u i);
  wr_patch_projects u p b : keeps J H (patch_projects u p b);
  wr_receipt p e s : stable J H (fun w => (recordWebhookReceipt p e s w, tt));
  wr_mark p e : stable J H (fun w => (markWebhookProcessed p e w, tt));
  wr_startSubscription u t : stable J H (startSubscription u t);
  wr_captureSubscription s d : stable J H (captureSubscription s d);
  wr_cancelSubscription s u : stable J H (cancelSubscription s u);
  wr_refundSubscription s : stable J H (refundSubscription s);
  wr_listForSubscriber u : stable J H (listSubscriptionsForSubscriber u);
  wr_listForCreator u : stable J H (listSubscribersForCreator u);
  wr_getSubscription s : stable J H (getSubscription s);
  wr_hasActive u c n : stable J H (hasActiveCreatorSubscription u c n);
  wr_pledgeBoost i : stable J H (pledgeBoost i);
  wr_captureBoostPledge p d : stable J H (captureBoostPledge p d);
  wr_cancelBoostPledge p u : stable J H (cancelBoostPledge p u);
  wr_refundBoostPledge p : stable J H (refundBoostPledge p);
}.

Section lifts.
Context `{Env} `{MoneyEnv} (J : world -> Prop) (G : world -> world -> Prop) `{!Writers J G}.

Lemma stable_calm {A} (f : world -> world * A) : calmly f -> stable J G f.
Proof. intros Hf w Hw. by apply wr_calm. Qed.

Lemma stable_after {A B} (f : world -> world * A) (g : world -> world * B) (h : world -> world * B) :
  stable J G f -> stable J G g -> (forall w, fst (h w) = fst (g (fst (f w)))) -> stable J G h.
Proof.
  intros Hf Hg Hh w Hw. rewrite Hh. destruct (Hf w Hw) as [J1 G1]. destruct (Hg _ J1) as [J2 G2].
  split; [done|by etransitivity].
Qed.

Lemma stable_fst {A B} (f : world -> world * A) (g : world -> world * B) :
  stable J G f -> (forall w, fst (g w) = fst (f w)) -> stable J G g.
Proof. intros Hf Hg w Hw. rewrite Hg. by apply Hf. Qed.

Lemma keeps_sync {A} (f : world -> world * A) : stable J G f -> keeps J G (update (E := wreq) f).
Proof. intros Hf. apply keeps_update. exact Hf. Qed.

Lemma keeps_sync_mod (f : world -> world) : stable J G (fun w => (f w, tt)) -> keeps J G (modify (E := wreq) f).
Proof. intros Hf. apply keeps_modify. exact Hf. Qed.

Lemma keeps_act {A} (f : world -> world * A) : stable J G f -> keeps J G (act f).
Proof. intros Hf. apply keeps_bind; [apply _|by apply keeps_sync|]. intros a. apply keeps_ret. apply _. Qed.

Lemma keeps_w_call {A} (m : W A) : keeps J G m -> keeps J G (w_call m).
Proof. intros Hm. apply keeps_bind; [apply _|done|]. intros a. apply keeps_ret. apply _. Qed.


(** A calm change, then a mark. *)
Lemma calm_then_mark w w1 p id :
  J w -> calm w w1 -> J (markWebhookProcessed p id w1) /\ G w (markWebhookProcessed p id w1).
Proof.
  intros Hw Hc. destruct (wr_calm w w1 Hw Hc) as [J1 G1]. destruct (wr_mark p id w1 J1) as [J2 G2].
  split; [exact J2|by etransitivity].
Qed.

Lemma stable_applyLifecycleEvent e : stable J G (applyLifecycleEvent e).
Proof.
  intros w Hw. unfold applyLifecycleEvent, grantEntitlement, generateLicenseKey. autounfold with money.
  repeat (branch; simpl); first [split; [done|reflexivity] | apply calm_then_mark; [done|calm_done]].
Qed.

Lemma stable_replay_answer d : stable J G (replay_answer d).
Proof.
  unfold replay_answer. destruct (dl_event d) as [e|]; [|intros w Hw; split; [done|reflexivity]].
  eapply (stable_fst (applyLifecycleEvent e)); [apply stable_applyLifecycleEvent|].
  intros w. by destruct (applyLifecycleEvent e w).
Qed.

End lifts.

(** Walk through a handler of the money services. *)
Ltac w_step :=
  match goal with
  | |- keeps _ _ (update _) => refine (keeps_sync _ _ _ _)
  | |- keeps _ _ (modify _) => refine (keeps_sync_mod _ _ _ _)
  | |- keeps _ _ (spawn _) => refine (keeps_spawn _ _ _ _)
  | |- keeps _ _ (captureTip _ _) => apply wr_captureTip
  | |- stable _ _ (fun w => (markWebhookProcessed _ _ w, _)) => apply wr_mark
  | |- stable _ _ (fun w => (recordWebhookReceipt _ _ _ w, _)) => apply wr_receipt
  | |- stable _ _ (refundTip _) => apply wr_refundTip
  | |- stable _ _ (captureSubscription _ _) => apply wr_captureSubscription
  | |- stable _ _ (refundSubscription _) => apply wr_refundSubscription
  | |- stable _ _ (captureBoostPledge _ _) => apply wr_captureBoostPledge
  | |- stable _ _ (refundBoostPledge _) => apply wr_refundBoostPledge
  | |- stable _ _ (replay_answer _) => refine (stable_replay_answer _ _ _)
  | |- stable _ _ (applyLifecycleEvent _) => refine (stable_applyLifecycleEvent _ _ _)
  | |- stable _ _ (applySubscriptionWebhookEvent _) => refine (stable_calm _ _ _ _); apply calm_applySubscriptionWebhookEvent
  | |- stable _ _ (markSettled _ _ _ _) => refine (stable_calm _ _ _ _); apply calm_markSettled
  | |- stable _ _ (markCompletionSettled _ _) => refine (stable_calm _ _ _ _); apply calm_markCompletionSettled
  | |- stable _ _ (settleBounty _ _ _) => refine (stable_calm _ _ _ _); apply calm_settleBounty
  | |- PreOrder _ => apply _
  | _ => keeps_step
  end.

Section surface.
Context `{Env} `{MoneyEnv} (J : world -> Prop) (G : world -> world -> Prop) `{!Writers J G}.

Lemma keeps_system_tip i : plain_tip i -> keeps J G (safeCreateAndCaptureSystemTip i).
Proof.
  intros Hi. unfold safeCreateAndCaptureSystemTip. apply keeps_bind; [apply _| |intros ?; repeat w_step].
  by apply keeps_sync, wr_createTip.
Qed.

End surface.

Ltac g_step :=
  match goal with
  | |- keeps _ _ (safeCreateAndCaptureSystemTip _) => refine (keeps_system_tip _ _ _ _); by split
  | |- keeps _ _ (settle_attribution _) => unfold settle_attribution
  | _ => w_step
  end.

Section dispatch.
Context `{Env} `{MoneyEnv} (J : world -> Prop) (G : world -> world -> Prop) `{!Writers J G}.

Lemma keeps_growth p e : keeps J G (dispatchGrowthAttributionEvent p e).
Proof.
  unfold dispatchGrowthAttributionEvent, attribute_referral, attribute_ambassador, attribute_quest,
    attribute_bounty. repeat g_step.
Qed.

Lemma keeps_monetization e : keeps J G (dispatchMonetizationEvent e).
Proof.
  unfold dispatchMonetizationEvent, dispatch_tip, dispatch_creator_sub, dispatch_canopy, dispatch_boost.
  repeat w_step.
Qed.

Lemma keeps_dispatch p d : keeps J G (dispatchMarketplaceWebhook p d).
Proof.
  unfold dispatchMarketplaceWebhook, dispatch_lifecycle, tryHandleEntitlementsChanged, dispatchFbmMatrixEvent.
  repeat first [apply keeps_growth | apply keeps_monetization | w_step].
Qed.

Lemma client_plain i : client_context (ti_contextKind i) = true -> plain_tip i.
Proof. unfold plain_tip. by destruct (ti_contextKind i). Qed.

Lemma stable_post_tip u b : stable J G (post_tip u b).
Proof.
  intros w Hw. unfold post_tip. destruct (post_tip_valid b) eqn:Ev; [|split; [done|reflexivity]].
  match goal with |- context [createTip ?i w] => assert (Hi : plain_tip i) end.
  { apply client_plain. simpl. unfold post_tip_valid in Ev. by destruct (client_context (pt_contextKind b)),
      (bool_decide (pt_recipientUserId b <> "")). }
  pose proof (wr_createTip _ Hi w Hw) as Hs. by destruct (createTip _ w).
Qed.

Lemma stable_sendGift i : client_context (sg_contextKind i) = true -> stable J G (sendGift i).
Proof.
  intros Hc w Hw. unfold sendGift. destruct (findGift (sg_sku i)) as [g|]; [|split; [done|reflexivity]].
  branch; [split; [done|reflexivity]|].
  match goal with |- context [createTip ?i w] => assert (Hi : plain_tip i) by by apply client_plain end.
  pose proof (wr_createTip _ Hi w Hw) as Hs. by destruct (createTip _ w).
Qed.

Lemma stable_contributeToAidPool i : stable J G (contributeToAidPool i).
Proof.
  intros w Hw. unfold contributeToAidPool. destruct (db_getAidPool (ca_poolId i) w) as [r|]; [|split; [done|reflexivity]].
  match goal with |- context [createTip ?i w] => assert (Hi : plain_tip i) by by split end.
  pose proof (wr_createTip _ Hi w Hw) as Hs.
  destruct (po_status r); try (split; [done|reflexivity]); by destruct (createTip _ w).
Qed.

Lemma keeps_createTier i : keeps J G (createTier i).
Proof.
  unfold createTier, list_tier. repeat w_step; apply (stable_calm J G); intros w; unfold draw_uuid;
    autounfold with money; calm_done.
Qed.

Lemma keeps_post_subscribe u t r o e : keeps J G (post_subscribe u t r o e).
Proof. unfold post_subscribe. repeat w_step. apply wr_startSubscription. Qed.

Lemma keeps_createCheckoutSession u p s o e t : keeps J G (createCheckoutSession u p s o e t).
Proof.
  unfold createCheckoutSession. repeat w_step. apply (stable_calm J G). intros w. autounfold with money. calm_done.
Qed.

(** Every route keeps what the writers keep. *)
Theorem surface_keeps h : w_api h -> keeps J G h.
Proof.
  destruct 1; try (apply (keeps_w_call J G)); try (apply (keeps_act J G)).
  all: try (apply (stable_calm J G); first
    [ apply calm_createAidPool | apply calm_fulfillAidPool | apply calm_closeAidPool | apply calm_archiveTier
    | apply calm_applySubscriptionWebhookEvent | apply calm_applyManualComp | apply calm_syncRefund
    | apply calm_donateForward | apply calm_listAvailableGifts | apply calm_claimGift | apply calm_forwardGift
    | apply calm_getMyGifts | apply calm_createReferral | apply calm_applyAmbassador
    | apply calm_promoteAmbassador | apply calm_createQuest | apply calm_endQuest | apply calm_completeQuest
    | apply calm_issueCredit | apply calm_redeemCredit | apply calm_recordBountyReward ]).
  all: try (first
    [ by apply wr_network | apply wr_captureTip | apply wr_refundTip | apply wr_post_projects
    | apply wr_patch_projects | apply wr_project_support | apply wr_contribute | apply wr_captureSubscription
    | apply wr_cancelSubscription | apply wr_refundSubscription | apply wr_listForSubscriber
    | apply wr_listForCreator | apply wr_getSubscription | apply wr_hasActive | apply wr_pledgeBoost
    | apply wr_captureBoostPledge | apply wr_cancelBoostPledge | apply wr_refundBoostPledge
    | apply keeps_dispatch | apply stable_post_tip | by apply stable_sendGift
    | apply stable_contributeToAidPool | apply keeps_createTier | apply keeps_post_subscribe
    | apply keeps_createCheckoutSession ]).
Qed.

(** And so does every run. *)
Lemma run_keeps c c' :
  rtc (sys_step w_api w_outside) c c' -> sys_ok J G c -> sys_ok J G c' /\ G (store c) (store c').
Proof.
  apply (reachable_guarantee J G); [exact surface_keeps|].
  intros w w' Hw Ho. by apply wr_calm, w_outside_calm.
Qed.

Lemma w_reachable_keeps w : J empty_world -> w_reachable w -> J w.
Proof.
  intros He [ts Hr]. assert (Hok : sys_ok (E := wreq) J G (Sys empty_world [])) by (split; [done|constructor]).
  by destruct (run_keeps _ _ Hr Hok) as [[Hw _] _].
Qed.

Lemma w_leads_to_keeps w w' : J empty_world -> w_leads_to w w' -> J w /\ J w' /\ G w w'.
Proof.
  intros He (ts & ts' & Hr & Hr').
  assert (Hok : sys_ok (E := wreq) J G (Sys empty_world [])) by (split; [done|constructor]).
  destruct (run_keeps _ _ Hr Hok) as [Hok1 _]. destruct (run_keeps _ _ Hr' Hok1) as [Hok2 HG].
  split_and!; [apply Hok1|apply Hok2|exact HG].
Qed.
End dispatch.
