(* ===== verification/MoneySample.v ===== *)
(** * A sample run of the money services

    A deployment whose marketplace answers, and a run in which a drive, a project, a
    pool and a creator are paid.  The theorems about runs are tried on its worlds. *)

From S2P Require Import Prelude JsMap Async CoalitionDomain Money Records Store Drives JoinRequirements Relay Slug.
From S2P Require Import Network Spec SpecInv Safety BillingRows Ledger Projects Tips Contributions Billing Growth.
From S2P Require Import Webhook MoneyApi.
Open Scope Z_scope.

Definition market_env : Env := {|
  draw := unary;
  uuid := unary;
  MATRIX_HOMESERVER_DOMAIN := None;
  COALITION_BOOST_DAILY_ALLOWANCE := None;
  fbmIntegrationTarget_set := false;
  entitlements_client := false;
  provider_enabled := true;
  provider_creates_listings := true;
  provider_publishes_listings := true;
  provider_archives_listings := true;
  provider_quotes_fees := true;
|}.

Lemma market_laws : @DrawLaws market_env.
Proof. destruct sample_laws as [Hd Hu Hc]. by constructor. Qed.

Definition market_money : MoneyEnv := {|
  Date_parse := fun _ => Some 1000;
  provider_embeds := false;
  growthAttributionWebhooksEnabled := true;
  fbmListingIdForPlan := fun _ => Some "plan-listing";
  aclSyncEnabled := false;
  bridgeEnabled := true;
  aidMirrorEnabled := false;
  license_text := unary;
|}.

(** The marketplace lists, quotes two percent and opens checkouts; the rest is down. *)
Definition market_req (X : Set) (e : req X) : X :=
  match e in req X return X with
  | Yield => tt
  | CreateRoom _ _ _ _ _ _ | InviteToRoom _ _ _ | AdminJoinUserToRoom _ _ | KickFromRoom _ _ _
  | GetPowerLevels _ | SendPowerLevels _ _ | SendJoinRules _ _ | SendMarker _ _ _ _ =>
      {| mx_ok := false; mx_status := None; mx_reason := None; mx_detail := None;
         mx_roomId := None; mx_content := None |}
  | GetEconomicStanding _ => None
  | CreateCreatorListing _ _ _ _ _ | PublishCreatorListing _ _ | ArchiveCreatorListing _ _ =>
      provider_ok "drive-listing"
  | GetListingFeeBps _ => Some (jint 200)
  | FbmPutStatus _ _ | FbmPutMilestones _ _ _ _ | FbmReputation _ _ _ _ _ => None
  | FbmOpenWindow _ _ _ _ _ _ => None
  end.

Definition market (X : Set) (e : wreq X) : X :=
  match e in wreq X return X with
  | Net X r => market_req X r
  | CreateCheckoutSession _ _ _ _ _ _ _ _ => Some ("https://market/pay", "session")
  | CreateTierListing _ _ _ _ _ => Some (Some "tier-listing", false)
  | PublishTierListing _ _ => Some false
  | OutboundTipCreated _ _ _ _ | SendMatrixMessage _ _ | RecordAttributedAction _ _ | SyncMxidAcls _
  | RouteBridgeEvent _ | FlushRuntimeStoreWrites | MaybeDeliverDigitalDeadDrop _ _ => tt
  end.

Section sample.
#[local] Existing Instance market_env.
#[local] Existing Instance market_laws.
#[local] Existing Instance market_money.

Definition market_start : world :=
  set_w_db (mk_db 1000 0 (users_of ["ada"; "bea"; "cyd"; "dot"]) [] [] [] [] [] [] [] [] [] [] [] [] [] [] [])
    empty_world.

Definition after_run (hs : list (W unit)) (c : sys world wreq) : sys world wreq := fold_left (serve market 40) hs c.

Lemma market_start_run : rtc (sys_step w_api w_outside) (Sys empty_world []) (Sys market_start []).
Proof. apply rtc_once, step_drift. by repeat (split; [first [by split_and! | simpl; lia]|]). Qed.

Lemma after_run_steps hs c : Forall w_api hs -> rtc (sys_step w_api w_outside) c (after_run hs c).
Proof. apply serve_run. Qed.

Lemma runs_lead hs hs' :
  Forall w_api hs -> Forall w_api hs' ->
  let c := after_run hs (Sys market_start []) in
  w_leads_to (store c) (store (after_run hs' c)).
Proof.
  intros Hs Hs' c. exists (pool c), (pool (after_run hs' c)).
  assert (E : forall x : sys world wreq, Sys (store x) (pool x) = x) by by intros [].
  rewrite !E. split; [|by apply after_run_steps].
  etransitivity; [apply market_start_run|by apply after_run_steps].
Qed.
(** *** The run *)

Definition on_network {A} (m : H A) : W unit := network (call m).

Definition order (amountCents : Z) : contribute_body := Build_contribute_body amountCents None None None None None.
Definition paid_event (id key ref : string) (t : LifecycleEventType) : NormalizedLifecycleEvent := {|
  le_providerId := freeblackmarket; le_eventId := id; le_type := t; le_userId := "dot";
  le_providerListingId := "listing"; le_sku := None; le_kind := plugin_flag; le_occurredAt := "";
  le_amountCents := None; le_metadata := [(key, mv_string ref)] |}.
Definition delivered (e : NormalizedLifecycleEvent) : delivery := {|
  dl_verified := true; dl_headerId := None; dl_reason := None; dl_bodyId := Some (le_eventId e); dl_acl := None;
  dl_bridge := None; dl_event := Some e |}.
Definition webhook (e : NormalizedLifecycleEvent) : W unit :=
  w_call (dispatchMarketplaceWebhook freeblackmarket (delivered e)).

(** Ada launches a drive and Dot contributes; Bea proposes a well, and Dot supports
    it; Dot subscribes to Bea and pays into Cyd's pool. *)
Definition market_orders : list (W unit) :=
  [ on_network (createCoalition (new_coalition "ada" "Coats & Co"));
    on_network (createCampaign "coa_" "ada" (new_campaign type_drive));
    w_call (post_contribute "dot" "coa_" "camp_aa" None (order 5000));
    w_call (post_projects "bea" (Build_CreateProjectInput "!room" "Well" "water" None None (Some 100000) None None
      None (Some [Build_MilestoneInput None "half" 4000]) None));
    w_call (createTier (Build_CreateTierInput "bea" "Friend" None (jint 500) "usd"));
    act (post_project_support "dot" "proj_aaaa" (Build_support_body 4500 "USD" None));
    w_call (post_subscribe "dot" "aaaaaa" None None false);
    act (createAidPool (Build_CreateAidPoolInput "cyd" "Rent" None (jint 20000) "USD"));
    act (contributeToAidPool (Build_ContributeToAidPoolInput "aaaaaaaaa" "dot" (jint 1500) None)) ].

(** The marketplace reports the payments. *)
Definition market_payments : list (W unit) :=
  [ webhook (paid_event "ev1" "tipId" "aaa" purchase_succeeded);
    webhook (paid_event "ev2" "tipId" "aaaaaaa" purchase_succeeded);
    webhook (paid_event "ev3" "creatorSubscriptionId" "aaaaaaaa" purchase_succeeded) ].

Definition market_ordered : sys world wreq := after_run market_orders (Sys market_start []).
Definition market_paid : sys world wreq := after_run market_payments market_ordered.

(** A handler that writes where nothing has been launched is not [recordContribution]. *)
Lemma on_network_api {A} (m : H A) d :
  api (call m) -> campaigns d = [] -> exec (call m) d <> d -> w_api (on_network m).
Proof.
  intros Ha Hc Hd. apply w_network. split; [done|]. intros i E. apply Hd. rewrite E.
  unfold exec, call, recordContribution, getCoalitionCampaign, mbind, gets. simpl. by rewrite Hc.
Qed.

Definition founded_db : db := exec (call (createCoalition (new_coalition "ada" "Coats & Co"))) (w_db market_start).

Lemma market_orders_api : Forall w_api market_orders.
Proof.
  repeat (apply List.Forall_cons); try apply List.Forall_nil; try (by constructor).
  - apply (on_network_api _ (w_db market_start)); [constructor|reflexivity..|].
    intros E. apply (f_equal coalitions) in E. vm_compute in E. discriminate E.
  - apply (on_network_api _ founded_db); [constructor|vm_compute; reflexivity..|].
    intros E. apply (f_equal campaigns) in E. vm_compute in E. discriminate E.
Qed.

Lemma market_payments_api : Forall w_api market_payments.
Proof. repeat constructor. Qed.

(** From the payments on. *)
Lemma market_paid_leads hs : Forall w_api hs -> w_leads_to (store market_paid) (store (after_run hs market_paid)).
Proof.
  intros Hs. assert (E : market_paid = after_run (market_orders ++ market_payments) (Sys market_start [])).
  { unfold market_paid, market_ordered, after_run. by rewrite fold_left_app. }
  rewrite E. apply runs_lead; [|exact Hs]. apply Forall_app. split; [apply market_orders_api|apply market_payments_api].
Qed.

Lemma market_ordered_leads hs :
  Forall w_api hs -> w_leads_to (store market_ordered) (store (after_run hs market_ordered)).
Proof. intros Hs. apply runs_lead; [apply market_orders_api|exact Hs]. Qed.
End sample.
