(* ===== verification/MoneyFrames.v ===== *)
(** * What coalition handlers do not touch

    No segment of a coalition handler but [recordContribution] writes to the
    contributions, none ever gives ids back, and the reads the checkout makes write
    nothing at all. *)

From S2P Require Import Prelude Async CoalitionDomain Money Records Store Spaces Drives.
From S2P Require Import JoinRequirements Relay Slug Network Spec SpecInv Safety Succession JsMap BillingRows.
From S2P Require Import Ledger Projects Tips Contributions Billing Growth Webhook MoneyApi.

(** The ids drawn stay drawn. *)
Definition rises (d d' : db) : Prop := (rng d <= rng d')%nat.
Definition same_given (d d' : db) : Prop := contributions d' = contributions d /\ (rng d <= rng d')%nat.

#[export] Instance rises_preorder : PreOrder rises.
Proof. split; [by intros d; unfold rises|]. unfold rises. intros a b c ? ?. lia. Qed.
#[export] Instance same_given_preorder : PreOrder same_given.
Proof. split; [done|]. intros a b c [E1 ?] [E2 ?]. split; [congruence|lia]. Qed.

(** Walk through a handler, unfolding what it calls; every write must leave the
    contributions alone. *)
Ltac q_step :=
  match goal with
  | |- moves _ (update _) => refine (moves_update _ _ _); intros ?; split; [reflexivity|simpl; lia]
  | |- moves _ (modify _) => refine (moves_modify _ _ _); intros ?; split; [reflexivity|simpl; lia]
  | |- moves _ (for_each _ _) => apply moves_for_each; [apply _|]; intros ?
  | |- moves _ (map_each _ _) => apply moves_map_each; [apply _|]; intros ?
  | _ => moves_step
  | |- moves _ (?f) => let h := head f in progress unfold h
  end
with head t := match t with ?f _ => head f | _ => t end.
Ltac quiet := intros; repeat q_step.

Section reads.
Context `{Env}.

Lemma api_given h : api h -> (exists i, h = call (recordContribution i)) \/ moves same_given h.
Proof.
  destruct 1; lazymatch goal with
  | |- context [call (recordContribution ?i)] => left; by exists i
  | _ => right; quiet
  end.
Qed.

Ltac r_step :=
  match goal with
  | |- moves _ (update _) => refine (moves_update _ _ _); intros ?; unfold rises; simpl; lia
  | |- moves _ (modify _) => refine (moves_modify _ _ _); intros ?; unfold rises; simpl; lia
  | _ => moves_step
  | |- moves _ (?f) => let h := callee f in progress unfold h
  end
with callee t := match t with ?f _ => callee f | _ => t end.

Lemma recordContribution_rises i : moves rises (recordContribution i).
Proof. repeat r_step. Qed.

(** Reads *)

Lemma quoteCommissionBps_reads l : moves eq (quoteCommissionBps l).
Proof. unfold quoteCommissionBps. repeat moves_step. Qed.
Lemma previewContribution_reads g l : moves eq (previewContribution g l).
Proof. unfold previewContribution, await. repeat first [apply quoteCommissionBps_reads | moves_step]. Qed.
Lemma getCampaign_reads k c v : moves eq (getCampaign k c v).
Proof. unfold getCampaign, with_coalition, with_campaign, fail, succeed. repeat moves_step. Qed.
Lemma await_reads {A} (m : H A) : moves eq m -> moves eq (await m).
Proof. intros Hm. unfold await. repeat first [exact Hm | moves_step]. Qed.
End reads.

(** ** Two halves of the money services

    The operations that write tips, projects and contributions leave subscriptions and
    receipts alone, and the other way round: what an invariant over one half has to
    know about the other. *)

Open Scope Z_scope.

(** ** The tip side leaves receipts and subscriptions alone *)

Definition apart (w w' : world) : Prop :=
  (rng (w_db w) <= rng (w_db w'))%nat /\ w_audit w' = w_audit w /\ bl_subs (w_billing w') = bl_subs (w_billing w) /\
  bl_pledges (w_billing w') = bl_pledges (w_billing w).

Ltac apart_done := unfold apart; simpl; split_and!; first [reflexivity | lia].
Tactic Notation "apart_op" reference(f) := intros ?w; unfold f; autounfold with money; simpl; repeat (branch; simpl); apart_done.

Section apart.
Context `{Env} `{MoneyEnv} (J : world -> Prop) (G : world -> world -> Prop) `{!PreOrder G}.
Context (Hap : forall w w', J w -> apart w w' -> J w' /\ G w w').

Lemma apart_stable {A} (f : world -> world * A) : (forall w, apart w (fst (f w))) -> stable J G f.
Proof. intros Hf w Hw. by apply Hap. Qed.

Lemma apart_createTip i w : apart w (fst (createTip i w)).
Proof. revert w. apart_op createTip. Qed.

Lemma apart_post_project_support u p b w : apart w (fst (post_project_support u p b w)).
Proof.
  unfold post_project_support. branch; [apart_done|]. branch; [|apart_done].
  match goal with |- context [createTip ?i w] => pose proof (apart_createTip i w); by destruct (createTip i w) end.
Qed.

Lemma apart_refundTip t w : apart w (fst (refundTip t w)).
Proof. revert w. apart_op refundTip. Qed.

Lemma apart_network {A} (m : H A) : moves rises m -> keeps J G (network m).
Proof.
  apply zoom_moving; [done|done|]. intros w d Hw Hr. apply Hap; [done|]. unfold rises in Hr. apart_done.
Qed.

Lemma apart_reads {A} (m : H A) : moves eq m -> keeps J G (network m).
Proof. intros Hm. apply zoom_silent; [apply _|by intros []|done]. Qed.

Lemma rises_fresh p : moves rises (fresh p).
Proof. apply moves_update. intros d. unfold rises. simpl. lia. Qed.

Lemma keeps_each {A} (f : A -> W unit) l : (forall a, keeps J G (f a)) -> keeps J G (each f l).
Proof. intros Hf. induction l as [|a l IH]; simpl; repeat keeps_step; auto. Qed.

Ltac apart_step :=
  match goal with
  | |- keeps _ _ (network (recordContribution _)) => apply apart_network, recordContribution_rises
  | |- keeps _ _ (network (getCampaign _ _ _)) => apply apart_reads, getCampaign_reads
  | |- keeps _ _ (network (await _)) =>
      apply apart_reads, await_reads; first [apply quoteCommissionBps_reads | apply previewContribution_reads]
  | |- keeps _ _ (fresh_id _) => apply apart_network, rises_fresh
  | |- keeps _ _ (update (createTip _)) => apply keeps_update; apply apart_stable; intros ?; apply apart_createTip
  | |- keeps _ _ (update _) => apply keeps_update; intros ? ?; apply Hap; [assumption|]
  | |- keeps _ _ (modify _) => apply keeps_modify; intros ? ?; apply Hap; [assumption|]
  | |- keeps _ _ (spawn _) => refine (keeps_spawn _ _ _ _)
  | |- keeps _ _ (each _ _) => apply keeps_each; intros ?
  | |- keeps _ _ (wait _) => unfold wait
  | |- apart _ _ => apart_done
  | |- PreOrder _ => assumption
  | _ => keeps_step
  end.

Lemma apart_recordProjectSupport i : keeps J G (recordProjectSupport i).
Proof.
  unfold recordProjectSupport, broadcast_milestone, notifyProjectContributors, announceToCoalitionRoom.
  repeat apart_step. unfold applyCoalitionProjectSupport, patch_project. branch; apart_done.
Qed.

Lemma apart_captureTip t d : keeps J G (captureTip t d).
Proof. unfold captureTip, credit_tip. repeat first [apply apart_recordProjectSupport | apart_step]. Qed.

Lemma apart_milestones l : keeps J G (withMilestoneIds l).
Proof. induction l as [|m l IH]; simpl; repeat apart_step; auto. Qed.

Lemma apart_post_projects u i : keeps J G (post_projects u i).
Proof. unfold post_projects. repeat first [apply apart_milestones | apart_step]. Qed.

Lemma apart_patch_projects u p b : keeps J G (patch_projects u p b).
Proof.
  unfold patch_projects. repeat first [apply apart_milestones | apart_step];
    unfold updateCoalitionProjectStatus, patch_project; branch; apart_done.
Qed.

Lemma apart_post_contribute u k c o b : keeps J G (post_contribute u k c o b).
Proof. unfold post_contribute, startContribution, contribution_unavailable, open_checkout. repeat apart_step. Qed.
End apart.

(** ** Subscriptions and receipts leave the ledgers alone *)

Definition ledger_apart (w w' : world) : Prop :=
  same_tables (w_db w) (w_db w') /\ (rng (w_db w) <= rng (w_db w'))%nat /\
  w_tips w' = w_tips w /\ w_projects w' = w_projects w /\ w_supports w' = w_supports w.

(** Only subscriptions and pledges change. *)
Definition subs_only (w w' : world) : Prop := ledger_apart w w' /\ w_audit w' = w_audit w.
(** Only receipts change. *)
Definition audit_only (w w' : world) : Prop :=
  ledger_apart w w' /\ bl_subs (w_billing w') = bl_subs (w_billing w) /\
  bl_pledges (w_billing w') = bl_pledges (w_billing w).

Lemma calm_ledger_apart w w' : calm w w' -> ledger_apart w w'.
Proof. intros (? & ? & ? & ? & ? & _). by split_and!. Qed.

#[export] Instance ledger_apart_preorder : PreOrder ledger_apart.
Proof.
  split; [by intros w; unfold ledger_apart, same_tables; split_and!|].
  unfold ledger_apart, same_tables. intros a b c (S1 & R1 & ?) (S2 & R2 & ?).
  split_and!; try lia; destruct_and?; congruence.
Qed.

#[export] Instance subs_only_preorder : PreOrder subs_only.
Proof.
  split; [by intros w; split; [reflexivity|]|].
  intros a b c [H1 E1] [H2 E2]. split; [by etransitivity|congruence].
Qed.

Ltac frame_done := unfold subs_only, audit_only, ledger_apart, same_tables; simpl; split_and!; first [reflexivity | lia].
Tactic Notation "frame_op" reference(f) := intros ?w; unfold f; autounfold with money; simpl; repeat (branch; simpl); frame_done.

Section books.
Context `{Env} `{MoneyEnv}.

Lemma subs_lapse r w : subs_only w (fst (lapseIfExpired r w)).
Proof. revert w. frame_op lapseIfExpired. Qed.

Lemma subs_lapse_all rows w : subs_only w (fst (lapse_all rows w)).
Proof.
  revert w. induction rows as [|r rows IH]; intros w; simpl; [reflexivity|].
  pose proof (subs_lapse r w) as Hl. destruct (lapseIfExpired r w) as [w1 r1]. specialize (IH w1).
  destruct (lapse_all rows w1) as [w2 rs]. by etransitivity.
Qed.

Lemma subs_startSubscription u t w : subs_only w (fst (startSubscription u t w)).
Proof.
  unfold startSubscription, lapseIfExpired. autounfold with money. simpl. repeat (branch; simpl); frame_done.
Qed.

Lemma subs_captureSubscription s d w : subs_only w (fst (captureSubscription s d w)).
Proof. revert w. frame_op captureSubscription. Qed.
Lemma subs_cancelSubscription s u w : subs_only w (fst (cancelSubscription s u w)).
Proof. revert w. frame_op cancelSubscription. Qed.
Lemma subs_refundSubscription s w : subs_only w (fst (refundSubscription s w)).
Proof. revert w. frame_op refundSubscription. Qed.
Lemma subs_getSubscription s w : subs_only w (fst (getSubscription s w)).
Proof.
  unfold getSubscription. branch; [|reflexivity].
  match goal with |- context [lapseIfExpired ?r w] => pose proof (subs_lapse r w); by destruct (lapseIfExpired r w) end.
Qed.
Lemma subs_hasActive u c n w : subs_only w (fst (hasActiveCreatorSubscription u c n w)).
Proof.
  unfold hasActiveCreatorSubscription. branch; [|reflexivity].
  match goal with |- context [lapseIfExpired ?r w] => pose proof (subs_lapse r w); by destruct (lapseIfExpired r w) end.
Qed.
Lemma subs_pledgeBoost i w : subs_only w (fst (pledgeBoost i w)).
Proof. revert w. frame_op pledgeBoost. Qed.
Lemma subs_captureBoostPledge p d w : subs_only w (fst (captureBoostPledge p d w)).
Proof. revert w. frame_op captureBoostPledge. Qed.
Lemma subs_cancelBoostPledge p u w : subs_only w (fst (cancelBoostPledge p u w)).
Proof. revert w. frame_op cancelBoostPledge. Qed.
Lemma subs_refundBoostPledge p w : subs_only w (fst (refundBoostPledge p w)).
Proof. revert w. frame_op refundBoostPledge. Qed.

Lemma audit_receipt p e s w : audit_only w (recordWebhookReceipt p e s w).
Proof. unfold recordWebhookReceipt. autounfold with money. repeat (branch; simpl); frame_done. Qed.
Lemma audit_mark p e w : audit_only w (markWebhookProcessed p e w).
Proof. unfold markWebhookProcessed, markMarketplaceWebhookProcessed. repeat (branch; simpl); frame_done. Qed.
End books.

(** The two halves of [Writers] an invariant of the other half inherits. *)
Ltac sub_side :=
  first [ apply subs_lapse_all | apply subs_startSubscription | apply subs_captureSubscription
        | apply subs_cancelSubscription | apply subs_refundSubscription | apply subs_getSubscription
        | apply subs_hasActive | apply subs_pledgeBoost | apply subs_captureBoostPledge
        | apply subs_cancelBoostPledge | apply subs_refundBoostPledge ].
Lemma beside_money_rises `{Env} h : beside_money h -> moves rises h.
Proof.
  intros [Ha Hn]. destruct (api_given h Ha) as [[i ->]|Hm]; [by destruct (Hn i)|].
  eapply moves_weaken; [|exact Hm]. by intros d d' [_ ?].
Qed.

Ltac tip_side J G Hap :=
  intros;
  first [ apply (apart_network J G Hap), beside_money_rises; done | by apply (apart_post_contribute J G)
        | by apply (apart_captureTip J G) | by apply (apart_post_projects J G)
        | by apply (apart_patch_projects J G)
        | apply (apart_stable J G Hap); intros;
          first [apply apart_createTip | apply apart_post_project_support | apply apart_refundTip] ].
