(* ===== verification/Receipts.v ===== *)
(** * Webhooks are applied once

    An event once processed stays processed, in every run, so delivering it again is
    answered and does nothing more; and a delivery that is answered as handled has
    been marked. *)

From S2P Require Import Prelude JsMap Async CoalitionDomain Money Records Store Drives JoinRequirements Relay Slug.
From S2P Require Import Network Spec SpecInv Safety BillingRows Ledger Projects Tips Contributions Billing Growth.
From S2P Require Import Webhook MoneyApi MoneyFrames MoneySample.
Open Scope Z_scope.

(** ** Receipts *)

Section receipts.
Context `{Env} `{MoneyEnv}.

(** Receipts are never lost, and what was processed stays so. *)
Definition receipts_later (w w' : world) : Prop :=
  forall p id a, getMarketplaceWebhook p id w = Some a ->
    exists a', getMarketplaceWebhook p id w' = Some a' /\ (wa_processedAt a <> None -> wa_processedAt a' <> None).

#[export] Instance receipts_later_preorder : PreOrder receipts_later.
Proof.
  split; [intros w p id a Ha; by exists a|]. intros a b c L1 L2 p id x Hx.
  destruct (L1 p id x Hx) as (y & Hy & ?). destruct (L2 p id y Hy) as (z & Hz & ?). exists z. split; auto.
Qed.

Lemma receipts_processed w w' p id :
  receipts_later w w' -> hasProcessedWebhookEvent p id w = true -> hasProcessedWebhookEvent p id w' = true.
Proof.
  intros L. unfold hasProcessedWebhookEvent. destruct (getMarketplaceWebhook p id w) as [a|] eqn:Ea; [|done].
  destruct (L p id a Ea) as (a' & -> & Hp). rewrite !bool_decide_eq_true. exact Hp.
Qed.

Lemma same_audit_receipts w w' : w_audit w' = w_audit w -> receipts_later w w'.
Proof. intros E p id a. unfold getMarketplaceWebhook. rewrite E. intros Ha. by exists a. Qed.

Lemma receipts_put w k a (w' : world) :
  (forall o, get k (w_audit w) = Some o -> wa_processedAt o <> None -> wa_processedAt a <> None) ->
  w_audit w' = set k a (w_audit w) -> receipts_later w w'.
Proof.
  intros Ho E q id x Hx. unfold getMarketplaceWebhook in *. rewrite E, get_set.
  destruct (decide _) as [Ek|]; [|by exists x]. exists a. split; [done|]. apply Ho. by rewrite Ek.
Qed.

Lemma receipts_receipt p e s w : receipts_later w (recordWebhookReceipt p e s w).
Proof.
  unfold recordWebhookReceipt. destruct (getMarketplaceWebhook p e w) eqn:Eg; [reflexivity|].
  eapply receipts_put; [|reflexivity]. unfold getMarketplaceWebhook in Eg. simpl. congruence.
Qed.

Lemma receipts_mark p e w : receipts_later w (markWebhookProcessed p e w).
Proof.
  unfold markWebhookProcessed, markMarketplaceWebhookProcessed.
  destruct (getMarketplaceWebhook p e w) eqn:Eg; [|reflexivity].
  by eapply receipts_put; [|reflexivity].
Qed.

Definition anything (_ : world) : Prop := True.

#[export] Instance receipts_writers : Writers anything receipts_later.
Proof.
  assert (Hap : forall w w', anything w -> apart w w' -> anything w' /\ receipts_later w w').
  { intros w w' _ (_ & E & _). split; [done|by apply same_audit_receipts]. }
  assert (Hso : forall A (f : world -> world * A), (forall w, subs_only w (fst (f w))) ->
    stable anything receipts_later f).
  { intros A f Hf w _. split; [done|]. by apply same_audit_receipts, Hf. }
  split.
  1: apply _.
  1: { intros w w' _ (_ & _ & _ & _ & _ & E & _). split; [done|by apply same_audit_receipts]. }
  1-8: tip_side anything receipts_later Hap.
  1: { intros p e s w _. split; [done|apply receipts_receipt]. }
  1: { intros p e w _. split; [done|apply receipts_mark]. }
  all: intros; apply Hso; intros; sub_side.
Qed.

(** *** A delivery that was handled is marked *)

Definition received (p : MarketplaceProviderId) (id : string) (w : world) : Prop :=
  getMarketplaceWebhook p id w <> None.

Lemma received_later p id w w' : receipts_later w w' -> received p id w -> received p id w'.
Proof.
  unfold received. intros L. destruct (getMarketplaceWebhook p id w) as [a|] eqn:Ea; [|done].
  intros _. by destruct (L p id a Ea) as (a' & -> & _).
Qed.

Lemma receipt_received p id b w : received p id (recordWebhookReceipt p id b w).
Proof.
  unfold received, recordWebhookReceipt. destruct (getMarketplaceWebhook p id w) eqn:E; [by rewrite E|].
  unfold getMarketplaceWebhook. simpl. by rewrite get_set_eq.
Qed.

Lemma mark_processed p id w : received p id w -> hasProcessedWebhookEvent p id (markWebhookProcessed p id w) = true.
Proof.
  unfold received, markWebhookProcessed, markMarketplaceWebhookProcessed, hasProcessedWebhookEvent.
  destruct (getMarketplaceWebhook p id w) as [a|] eqn:E; [|done]. intros _.
  unfold getMarketplaceWebhook. simpl. by rewrite get_set_eq.
Qed.

(** From a store with the receipt, [m] answers [good] only once the event is marked. *)
Definition marks {A} (p : MarketplaceProviderId) (id : string) (good : A -> Prop) (m : W A) : Prop :=
  forall w, received p id w ->
    guarantees anything receipts_later w
      (fun a w' => good a -> hasProcessedWebhookEvent p id w' = true) (m w).

Context (p : MarketplaceProviderId) (id : string).

Lemma marks_bind {A B} (good : B -> Prop) (m : W A) (f : A -> W B) :
  keeps anything receipts_later m -> (forall a, marks p id good (f a)) -> marks p id good (mbind m f).
Proof.
  intros Hm Hf w Hw. eapply guarantees_bind; [apply _|by apply Hm|].
  intros a w' _ L _. apply Hf. by eapply received_later.
Qed.

(** The first part may have marked it already. *)
Lemma marks_then {A B} (good : A -> Prop) (good' : B -> Prop) (m : W A) (f : A -> W B) :
  marks p id good m -> (forall a, keeps anything receipts_later (f a)) ->
  (forall a, good a \/ marks p id good' (f a)) -> marks p id good' (mbind m f).
Proof.
  intros Hm Hk Hf w Hw. eapply guarantees_bind; [apply _| |].
  - pose proof (Hm w Hw) as Hg. exact Hg.
  - intros a w' _ L HQ. destruct (Hf a) as [Ha|Ha]; [|apply Ha; by eapply received_later].
    pose proof (guarantees_reached anything receipts_later _ w' w' _ (reflexivity w') (Hk a w' I)) as Hk'.
    eapply guarantees_weaken; [|exact Hk']. intros b w2 _ [_ L2] _. eapply receipts_processed; [exact L2|by apply HQ].
Qed.

Definition handled {X} (r : res X WebhookDispatchResult) : Prop :=
  match r with Ok a => wr_ok a = true | Err _ => False end.

Lemma marks_mark {A} (good : A -> Prop) (a : A) :
  marks p id good (let! _ := modify (markWebhookProcessed p id) in mret a).
Proof.
  intros w Hw. simpl. split_and!; [done|apply receipts_mark|]. intros _. by apply mark_processed.
Qed.

Lemma marks_ret {A} (good : A -> Prop) (a : A) : ~ good a -> marks p id good (mret a).
Proof. intros Hn w Hw. simpl. by split_and!. Qed.
End receipts.

(** ** What a delivery leaves behind *)

Section deliveries.
Context `{Env} `{MoneyEnv} (p : MarketplaceProviderId) (id : string).

(** [w] keeps the receipts; the tactics of the surface show it of any part. *)
Ltac receipts_keep :=
  repeat first
    [ apply (keeps_system_tip anything receipts_later); by split
    | apply (keeps_growth anything receipts_later) | apply (keeps_monetization anything receipts_later)
    | progress unfold dispatch_creator_sub, tryHandleEntitlementsChanged
    | g_step ].

Ltac marks_step :=
  match goal with
  | |- marks _ _ _ (mbind (modify (markWebhookProcessed _ _)) (fun _ => mret _)) => apply marks_mark
  | |- marks _ _ _ (mbind _ _) => apply marks_bind; [solve [receipts_keep]|intros ?]
  | |- marks _ _ _ (mret _) => apply marks_ret; solve [simpl; tauto]
  | |- marks _ _ _ (match ?x with _ => _ end) => destruct x eqn:?
  end.

Definition answered (r : WebhookDispatchResult) : Prop := wr_ok r = true.

Section event.
Context (e : NormalizedLifecycleEvent) (Hp : le_providerId e = p) (He : le_eventId e = id).

Lemma settle_marks : marks p id answered (settle_attribution e).
Proof. unfold settle_attribution. rewrite Hp, He. apply marks_mark. Qed.

Lemma seen_marks {A} (good : A -> Prop) (m n : W A) :
  marks p id good n -> (forall w, hasProcessedWebhookEvent p id w = true ->
    guarantees anything receipts_later w (fun a w' => good a -> hasProcessedWebhookEvent p id w' = true) (m w)) ->
  marks p id good (let! already := gets (hasProcessedWebhookEvent p id) in if already then m else n).
Proof.
  intros Hn Hm w Hw. unfold mbind, gets. simpl.
  destruct (hasProcessedWebhookEvent p id w) eqn:E; [by apply Hm|by apply Hn].
Qed.

Lemma seen_ret {A} (good : A -> Prop) (a : A) w :
  hasProcessedWebhookEvent p id w = true ->
  guarantees anything receipts_later w (fun a w' => good a -> hasProcessedWebhookEvent p id w' = true)
    (mret (E := wreq) a w).
Proof. intros E. simpl. by split_and!. Qed.

Lemma growth_marks : marks p id answered (dispatchGrowthAttributionEvent p e).
Proof.
  unfold dispatchGrowthAttributionEvent. rewrite He. apply seen_marks; [|intros w; apply seen_ret].
  unfold attribute_referral, attribute_ambassador, attribute_quest, attribute_bounty.
  repeat first [apply settle_marks | marks_step].
Qed.

(** The monetization paths that answer. *)
Definition money_answer (r : res webhook_throw (option WebhookDispatchResult)) : Prop :=
  match r with Ok (Some a) => wr_ok a = true | _ => False end.

Lemma marks_map {A B} (good : A -> Prop) (good' : B -> Prop) (m : W A) (f : A -> B) :
  marks p id good m -> (forall a, good' (f a) -> good a) -> marks p id good' (let! a := m in mret (f a)).
Proof.
  intros Hm Hf w Hw. eapply guarantees_bind; [apply _|by apply Hm|].
  intros a w' _ _ HQ. simpl. split_and!; [done|reflexivity|]. intros Hg. by apply HQ, Hf.
Qed.

Lemma tip_marks t : marks p id handled (dispatch_tip e t).
Proof. unfold dispatch_tip. rewrite Hp, He. repeat marks_step. Qed.
Lemma canopy_marks c : marks p id answered (dispatch_canopy e c).
Proof. unfold dispatch_canopy. rewrite Hp, He. repeat marks_step. Qed.
Lemma boost_marks b : marks p id handled (dispatch_boost e b).
Proof. unfold dispatch_boost. rewrite Hp, He. repeat marks_step. Qed.

Lemma monetization_marks : marks p id money_answer (dispatchMonetizationEvent e).
Proof.
  unfold dispatchMonetizationEvent.
  repeat match goal with
  | |- marks _ _ _ (mbind (dispatch_tip _ _) _) => eapply marks_map; [apply tip_marks|by intros []]
  | |- marks _ _ _ (mbind (dispatch_boost _ _) _) => eapply marks_map; [apply boost_marks|by intros []]
  | |- marks _ _ _ (mbind (dispatch_canopy _ _) _) => eapply marks_map; [apply canopy_marks|done]
  | _ => marks_step
  end.
Qed.

#[local] Arguments hasProcessedWebhookEvent : simpl never.
#[local] Arguments markWebhookProcessed : simpl never.

Lemma applied_marked w :
  received p id w -> hasProcessedWebhookEvent p id (fst (applyLifecycleEvent e w)) = true.
Proof.
  intros Hw. unfold applyLifecycleEvent, grantEntitlement, generateLicenseKey. rewrite Hp, He.
  destruct (hasProcessedWebhookEvent p id w) eqn:E; [exact E|].
  autounfold with money. repeat (branch; simpl); (refine (mark_processed p id _ _); exact Hw).
Qed.

Lemma applied_marks : marks p id (fun _ => True) (update (applyLifecycleEvent e)).
Proof.
  intros w Hw. simpl. split_and!; [done|by apply (stable_applyLifecycleEvent anything receipts_later)|].
  intros _. by apply applied_marked.
Qed.

Lemma creator_marks {A} (good : A -> Prop) (f : bool -> A) :
  marks p id good
    (let! already := gets (hasProcessedWebhookEvent p id) in
     let! _ := (if already then mret tt else modify (markWebhookProcessed p id)) in mret (f already)).
Proof.
  intros w Hw. unfold mbind, gets. simpl. destruct (hasProcessedWebhookEvent p id w) eqn:E; simpl.
  - by split_and!.
  - split_and!; [done|apply receipts_mark|]. intros _. by apply mark_processed.
Qed.

(** From any store: the receipt comes first. *)
Lemma receipt_first {A} (good : A -> Prop) (ok : bool) (m : W A) w :
  marks p id good m ->
  guarantees anything receipts_later w (fun a w' => good a -> hasProcessedWebhookEvent p id w' = true)
    ((let! _ := modify (recordWebhookReceipt p id ok) in m) w).
Proof.
  intros Hm. unfold mbind, modify. simpl. eapply guarantees_trans; [apply _|apply receipts_receipt|].
  apply Hm, receipt_received.
Qed.

Lemma lifecycle_marks w :
  guarantees anything receipts_later w (fun r w' => handled r -> hasProcessedWebhookEvent p id w' = true)
    (dispatch_lifecycle p e w).
Proof.
  unfold dispatch_lifecycle. rewrite He. apply receipt_first. destruct (bool_decide (le_type e ∈ _)).
  { eapply marks_map; [apply growth_marks|done]. }
  eapply marks_then; [apply monetization_marks| |].
  - intros r. repeat w_step.
  - intros [x|[r|]]; [right; apply marks_ret; intros []| |].
    + destruct (wr_ok r) eqn:Er; [by left|right]. apply marks_ret. simpl. congruence.
    + right. destruct (bool_decide (le_type e ∈ CREATOR_EVENT_TYPES)).
      * apply (creator_marks handled (fun already => Ok (acked (nothing_applied already)))).
      * eapply marks_then; [apply applied_marks|intros a; repeat w_step|by left].
Qed.
End event.

(** Every id the delivery carries, in its header and in what the parsers read, is
    [id]; the event is the provider's. *)
Definition delivers (d : delivery) : Prop :=
  (forall i, dl_headerId d = Some i -> i = id) /\ (forall i, dl_bodyId d = Some i -> i = id) /\
  (forall i u, dl_acl d = Some (i, u) -> i = id) /\ (forall i a, dl_bridge d = Some (i, a) -> i = id) /\
  (forall e, dl_event d = Some e -> le_providerId e = p /\ le_eventId e = id).

Lemma replayed_seen d w i : delivers d -> replayed_id p d w = Some i -> hasProcessedWebhookEvent p id w = true.
Proof.
  intros (Hh & Hb & _). unfold replayed_id.
  destruct (List.find _ _) as [j|] eqn:Ef; [|done]. intros _. apply List.find_some in Ef as [Hin Hj].
  assert (j = id) as <-; [|done]. destruct (dl_bodyId d), (dl_headerId d); simpl in Hin; naive_solver.
Qed.

Lemma bridge_marks aid : marks p id answered (dispatchFbmMatrixEvent p id aid).
Proof.
  unfold dispatchFbmMatrixEvent. apply seen_marks; [|intros w; apply seen_ret]. repeat marks_step.
Qed.

Lemma acl_marks u w :
  guarantees anything receipts_later w
    (fun a w' => (exists r, a = Some r) /\ hasProcessedWebhookEvent p id w' = true)
    (tryHandleEntitlementsChanged p (Some (id, u)) w).
Proof.
  unfold tryHandleEntitlementsChanged, mbind at 1, gets. simpl.
  destruct (hasProcessedWebhookEvent p id w) eqn:E; [by simpl; split_and!; eauto|].
  pose proof (receipts_receipt p id true w) as Hr.
  pose proof (receipts_mark p id (recordWebhookReceipt p id true w)) as Hm.
  pose proof (mark_processed p id _ (receipt_received p id true w)) as Hp.
  destruct aclSyncEnabled; simpl; split_and!; try done; try (by etransitivity); try (by eexists).
Qed.

Lemma dispatch_marks d w :
  delivers d ->
  guarantees anything receipts_later w (fun r w' => handled r -> hasProcessedWebhookEvent p id w' = true)
    (dispatchMarketplaceWebhook p d w).
Proof.
  intros Hd. unfold dispatchMarketplaceWebhook. destruct (dl_verified d); simpl.
  2: { destruct (truthy (dl_headerId d)); simpl; split_and!; try done; apply receipts_receipt. }
  unfold mbind at 1, gets. simpl. destruct (replayed_id p d w) as [i|] eqn:Er.
  { simpl. pose proof (stable_replay_answer anything receipts_later d w I) as [_ Hr].
    split_and!; [done|exact Hr|]. intros _. eapply receipts_processed; [exact Hr|by eapply replayed_seen]. }
  destruct Hd as (_ & _ & Ha & Hb & He). destruct (dl_acl d) as [[i u]|].
  { rewrite (Ha i u eq_refl). eapply guarantees_bind; [apply _|apply acl_marks|].
    intros a w' _ _ [[r ->] Hp]. simpl. by split_and!. }
  unfold mbind at 1. simpl. destruct (dl_bridge d) as [[i a]|].
  { rewrite (Hb i a eq_refl). apply receipt_first. eapply marks_map; [apply bridge_marks|done]. }
  destruct (dl_event d) as [e|]; [|by simpl; split_and!]. destruct (He e eq_refl) as [Ep Ee].
  by apply lifecycle_marks.
Qed.
End deliveries.

(** ** Theorems *)

Section theorems.
Context `{Env} `{MoneyEnv}.

(** C10 (safety): once an event has been processed, at whatever later point of the run
    the marketplace delivers it again, it is answered at once as already processed
    and nothing is written: no tip is captured twice, no period extended twice. *)
Theorem webhook_replay w w' p id d :
  w_leads_to w w' -> hasProcessedWebhookEvent p id w = true ->
  id <> "" -> dl_verified d = true -> dl_bodyId d = Some id -> delivers p id d ->
  exists r, dispatchMarketplaceWebhook p d w' = Done w' (Ok r) /\ wr_ok r = true /\ wr_status r = 200 /\
    (ar_alreadyProcessed <$> wr_applied r) = Some true.
Proof.
  intros Hl Hw Hid Hv Hb (_ & _ & _ & _ & He).
  destruct (w_leads_to_keeps anything receipts_later w w' I Hl) as (_ & _ & HG).
  pose proof (receipts_processed _ _ _ _ HG Hw) as Hw'. clear HG Hl Hw.
  assert (Hr : replayed_id p d w' = Some id).
  { unfold replayed_id. rewrite Hb. simpl. rewrite Hw'. unfold truthy. by destruct id. }
  unfold dispatchMarketplaceWebhook. rewrite Hv. unfold mbind, gets, update. simpl. rewrite Hr. simpl.
  unfold replay_answer. destruct (dl_event d) as [e|]; [|by eexists].
  destruct (He e eq_refl) as [Ep Ee]. unfold applyLifecycleEvent. rewrite Ep, Ee, Hw'. by eexists.
Qed.

(** C33 (liveness): a verified delivery that is answered as handled has been marked
    as processed by then, whatever ran while it waited; so the marketplace's next
    delivery of it is a replay. *)
Theorem webhook_marked p id d w :
  delivers p id d ->
  guarantees anything receipts_later w (fun r w' => handled r -> hasProcessedWebhookEvent p id w' = true)
    (dispatchMarketplaceWebhook p d w) /\
  forall oracle, let '(w', r) := run_alone oracle (dispatchMarketplaceWebhook p d w) in
    handled r -> hasProcessedWebhookEvent p id w' = true.
Proof.
  intros Hd. pose proof (dispatch_marks p id d w Hd) as Hg. split; [exact Hg|]. intros oracle.
  destruct (run_alone_guarantee oracle anything receipts_later _ _ _ Hg) as (_ & _ & HQ).
  by destruct (run_alone oracle (dispatchMarketplaceWebhook p d w)).
Qed.
End theorems.

(** ** Witnesses, on the sample run *)

Section witnesses.
#[local] Existing Instance market_env.
#[local] Existing Instance market_laws.
#[local] Existing Instance market_money.

Definition first_payment : NormalizedLifecycleEvent := paid_event "ev1" "tipId" "aaa" purchase_succeeded.

Lemma first_payment_delivers : delivers freeblackmarket "ev1" (delivered first_payment).
Proof. by split_and!; try (intros ? [= <-]). Qed.

Definition market_later : list (W unit) :=
  [ act (refundTip "aaa"); webhook (paid_event "ev4" "creatorSubscriptionId" "aaaaaaaa" purchase_refunded) ].

Lemma market_later_api : Forall w_api market_later.
Proof. repeat constructor. Qed.

Lemma webhook_replay_witness :
  exists r, dispatchMarketplaceWebhook freeblackmarket (delivered first_payment)
      (store (after_run market_later market_paid)) = Done (store (after_run market_later market_paid)) (Ok r) /\
    wr_ok r = true /\ wr_status r = 200 /\ (ar_alreadyProcessed <$> wr_applied r) = Some true.
Proof.
  apply (webhook_replay (store market_paid) _ freeblackmarket "ev1").
  - apply market_paid_leads, market_later_api.
  - vm_compute. reflexivity.
  - discriminate.
  - reflexivity.
  - reflexivity.
  - apply first_payment_delivers.
Defined.

Lemma webhook_marked_witness :
  let '(w', r) := run_alone market (dispatchMarketplaceWebhook freeblackmarket (delivered first_payment)
    (store market_ordered)) in
  handled r /\ hasProcessedWebhookEvent freeblackmarket "ev1" w' = true.
Proof.
  destruct (webhook_marked freeblackmarket "ev1" (delivered first_payment) (store market_ordered)
    first_payment_delivers) as [_ Hr]. specialize (Hr market).
  assert (Hh : handled (snd (run_alone market (dispatchMarketplaceWebhook freeblackmarket (delivered first_payment)
    (store market_ordered))))) by (vm_compute; reflexivity).
  destruct (run_alone market _) as [w' r]. split; [exact Hh|exact (Hr Hh)].
Defined.
End witnesses.
