(* ===== verification/BillingSafety.v ===== *)
(** * Subscriptions and pledges over time

    Over every run a refunded subscription or pledge stays refunded, none comes back
    to pending, and a period never gets shorter. *)

From S2P Require Import Prelude JsMap Async CoalitionDomain Money Records Store Drives JoinRequirements Relay Slug.
From S2P Require Import Network Spec SpecInv Safety BillingRows Ledger Projects Tips Contributions Billing Growth.
From S2P Require Import Webhook MoneyApi MoneyFrames MoneySample.
Open Scope Z_scope.

(** ** Subscriptions and pledges over time *)

#[export] Instance sub_keyed : Keyed CreatorSubscriptionRecord := cs_id.
#[export] Instance pledge_keyed : Keyed CommunityBoostPledgeRecord := bp_id.

(** Nothing leaves [refunded], and nothing comes back to [pending]. *)
Definition status_later (a b : CreatorSubscriptionStatus) : Prop :=
  a = b \/ (a <> sub_refunded /\ b <> sub_pending).

(** An end stays, and one with a year of four digits is only moved to a later one. *)
Definition end_later (a b : option Z) : Prop :=
  forall x, a = Some x ->
  exists y, b = Some y /\ (plain_year x = true -> plain_year y = true /\ x <= y).
Definition kept_once {A} (a b : option A) : Prop := a <> None -> b = a.

#[export] Instance status_later_preorder : PreOrder status_later.
Proof.
  split; [by left|]. intros a b c [->|[H1 H2]] [->|[H3 H4]]; [by left|by right|by right|by right].
Qed.
#[export] Instance end_later_preorder : PreOrder end_later.
Proof.
  split; [intros a x Ex; exists x; split; [done|split; [done|lia]]|].
  intros a b c H1 H2 x Ex. destruct (H1 x Ex) as (y & Ey & Hxy). destruct (H2 y Ey) as (z & Ez & Hyz).
  exists z. split; [done|]. intros Hx. destruct (Hxy Hx) as [Hy ?]. destruct (Hyz Hy). split; [done|lia].
Qed.
#[export] Instance kept_once_preorder {A} : PreOrder (@kept_once A).
Proof. split; [done|]. unfold kept_once. intros a b c H1 H2 Ha. rewrite H2; rewrite (H1 Ha); done. Qed.

Definition sub_later (a b : CreatorSubscriptionRecord) : Prop :=
  (cs_id b = cs_id a /\ cs_subscriberUserId b = cs_subscriberUserId a /\
   cs_creatorUserId b = cs_creatorUserId a /\ cs_tierId b = cs_tierId a) /\
  status_later (cs_status a) (cs_status b) /\ kept_once (cs_startedAt a) (cs_startedAt b) /\
  end_later (cs_currentPeriodEndsAt a) (cs_currentPeriodEndsAt b).
Definition pledge_later (a b : CommunityBoostPledgeRecord) : Prop :=
  (bp_id b = bp_id a /\ bp_pledgerUserId b = bp_pledgerUserId a /\ bp_communityId b = bp_communityId a /\
   bp_monthlyCents b = bp_monthlyCents a /\ bp_netCents b = bp_netCents a) /\
  status_later (bp_status a) (bp_status b) /\ kept_once (bp_startedAt a) (bp_startedAt b) /\
  end_later (bp_currentPeriodEndsAt a) (bp_currentPeriodEndsAt b).

#[export] Instance sub_later_preorder : PreOrder sub_later.
Proof.
  split; [intros a; unfold sub_later; split_and!; reflexivity|].
  intros a b c (? & S1 & K1 & E1) (? & S2 & K2 & E2). unfold sub_later.
  split_and!; try (destruct_and?; congruence); by etransitivity.
Qed.
#[export] Instance pledge_later_preorder : PreOrder pledge_later.
Proof.
  split; [intros a; unfold pledge_later; split_and!; reflexivity|].
  intros a b c (? & S1 & K1 & E1) (? & S2 & K2 & E2). unfold pledge_later.
  split_and!; try (destruct_and?; congruence); by etransitivity.
Qed.

(** What the fields of a row say about its status. *)
Definition period_wf (st : CreatorSubscriptionStatus) (started : option stamp) (ends canceled : option Z) : Prop :=
  match st with
  | sub_pending => started = None /\ ends = None /\ canceled = None
  | sub_active | sub_expired => started <> None /\ ends <> None /\ canceled = None
  | sub_canceled | sub_refunded => canceled <> None
  end.
Definition sub_wf (r : CreatorSubscriptionRecord) : Prop :=
  period_wf (cs_status r) (cs_startedAt r) (cs_currentPeriodEndsAt r) (cs_canceledAt r).
Definition pledge_wf (r : CommunityBoostPledgeRecord) : Prop :=
  period_wf (bp_status r) (bp_startedAt r) (bp_currentPeriodEndsAt r) (bp_canceledAt r) /\
  0 <= bp_netCents r <= bp_monthlyCents r.

Section subscriptions.
Context `{Env} `{MoneyEnv} `{!DrawLaws}.

Definition subs_inv (w : world) : Prop :=
  table_ok uuid sub_wf (rng (w_db w)) (bl_subs (w_billing w)) /\
  table_ok uuid pledge_wf (rng (w_db w)) (bl_pledges (w_billing w)).
Definition subs_move (w w' : world) : Prop :=
  table_later sub_later (bl_subs (w_billing w)) (bl_subs (w_billing w')) /\
  table_later pledge_later (bl_pledges (w_billing w)) (bl_pledges (w_billing w')).

#[export] Instance subs_move_preorder : PreOrder subs_move.
Proof. split; [by intros w; split; reflexivity|]. intros a b c [] []. split; by etransitivity. Qed.

Lemma subs_frame w w' :
  subs_inv w -> (rng (w_db w) <= rng (w_db w'))%nat -> bl_subs (w_billing w') = bl_subs (w_billing w) ->
  bl_pledges (w_billing w') = bl_pledges (w_billing w) -> subs_inv w' /\ subs_move w w'.
Proof.
  intros [H1' H2'] Hr E1 E2. unfold subs_inv, subs_move. rewrite E1, E2.
  split; split; eauto using table_ok_later; reflexivity.
Qed.

Lemma subs_put w r r' :
  subs_inv w -> getCreatorSubscription (cs_id r) w = Some r -> sub_later r r' -> sub_wf r' ->
  subs_inv (updateCreatorSubscription r' w) /\ subs_move w (updateCreatorSubscription r' w).
Proof.
  intros [Hs Hp] Hg Hl Hw. pose proof Hl as ((Ei & _) & _).
  unfold subs_inv, subs_move, updateCreatorSubscription, on_billing. simpl. rewrite Ei.
  destruct (table_put uuid sub_wf sub_later _ _ (cs_id r) r r' Hs Hg Ei Hl Hw) as [? ?].
  split; split; done || reflexivity.
Qed.

Lemma pledge_put w r r' :
  subs_inv w -> getCommunityBoostPledge (bp_id r) w = Some r -> pledge_later r r' -> pledge_wf r' ->
  subs_inv (updateCommunityBoostPledge r' w) /\ subs_move w (updateCommunityBoostPledge r' w).
Proof.
  intros [Hs Hp] Hg Hl Hw. pose proof Hl as ((Ei & _) & _).
  unfold subs_inv, subs_move, updateCommunityBoostPledge, on_billing. simpl. rewrite Ei.
  destruct (table_put uuid pledge_wf pledge_later _ _ (bp_id r) r r' Hp Hg Ei Hl Hw) as [? ?].
  split; split; done || reflexivity.
Qed.

(** A row found by its id is well formed, and filed under it. *)
Lemma sub_row w id r :
  subs_inv w -> getCreatorSubscription id w = Some r ->
  id = cs_id r /\ sub_wf r /\ getCreatorSubscription (cs_id r) w = Some r.
Proof.
  intros [[Hk Ht] _] Hg. pose proof (keyed_get _ _ _ Hk Hg) as E. change (keyof r) with (cs_id r) in E. subst id.
  split_and!; [done|by apply (Ht _ _ Hg)|done].
Qed.
Lemma pledge_row w id r :
  subs_inv w -> getCommunityBoostPledge id w = Some r ->
  id = bp_id r /\ pledge_wf r /\ getCommunityBoostPledge (bp_id r) w = Some r.
Proof.
  intros [_ [Hk Ht]] Hg. pose proof (keyed_get _ _ _ Hk Hg) as E. change (keyof r) with (bp_id r) in E. subst id.
  split_and!; [done|by apply (Ht _ _ Hg)|done].
Qed.
Lemma sub_in w r :
  subs_inv w -> In r (values (bl_subs (w_billing w))) -> getCreatorSubscription (cs_id r) w = Some r /\ sub_wf r.
Proof.
  intros Hi Hin. pose proof (keyed_in _ _ (proj1 (proj1 Hi)) Hin) as Hg. split; [exact Hg|].
  by destruct (sub_row w _ r Hi Hg) as (_ & ? & _).
Qed.

(** The calendar at its edges: the years 0, -1, 9999, 10000, and a leap day. *)
Example year_of_edges :
  map year_of [YEAR_0; YEAR_0 - 1; YEAR_10000 - 1; YEAR_10000; 951782400000; 946684799999; 0]
  = [0; -1; 9999; 10000; 2000; 1999; 1970].
Proof. reflexivity. Qed.
Lemma text_before x n : plain_year x = true -> text_after x n = false -> plain_year n = true /\ x <= n.
Proof.
  unfold plain_year, text_after, text_class. intros Hx Ht.
  repeat match goal with
  | H : context [?a <=? ?b] |- _ => destruct (Z.leb_spec a b); simpl in *
  | H : context [?a <? ?b] |- _ => destruct (Z.ltb_spec a b); simpl in *
  | |- context [?a <=? ?b] => destruct (Z.leb_spec a b); simpl in *
  | |- context [?a <? ?b] => destruct (Z.ltb_spec a b); simpl in *
  end; try discriminate; split; done || lia.
Qed.
Lemma later_end_ge e n : end_later e (Some (later_end e n)).
Proof.
  intros x ->. eexists. split; [done|]. intros Hx. unfold later_end.
  destruct (text_after x n) eqn:E; [split; [done|lia]|by apply text_before].
Qed.
Lemma or_else_kept {A} (a b : option A) : kept_once a (or_else a b).
Proof. destruct a; [done|by intros []]. Qed.

(** *** Each operation *)

Lemma lapse_moves w r :
  subs_inv w -> getCreatorSubscription (cs_id r) w = Some r ->
  subs_inv (fst (lapseIfExpired r w)) /\ subs_move w (fst (lapseIfExpired r w)).
Proof.
  intros Hi Hg. unfold lapseIfExpired. destruct (sub_row w _ r Hi Hg) as (_ & Hw & _).
  destruct (cs_status r) eqn:Es; try (split; [done|reflexivity]).
  destruct (cs_currentPeriodEndsAt r) as [ends|] eqn:Ee; [|split; [done|reflexivity]].
  case_bool_decide; [split; [done|reflexivity]|]. simpl.
  apply (subs_put w r); [done|done| |].
  - unfold sub_later. simpl. rewrite Es. split_and!; try done; try reflexivity. right. split; discriminate.
  - unfold sub_wf, period_wf in *. simpl. by rewrite Es in Hw.
Qed.

Lemma lapse_all_moves rows w :
  subs_inv w -> (forall r, In r rows -> getCreatorSubscription (cs_id r) w = Some r) ->
  List.NoDup (map cs_id rows) ->
  subs_inv (fst (lapse_all rows w)) /\ subs_move w (fst (lapse_all rows w)).
Proof.
  revert w. induction rows as [|r rows IH]; intros w Hi Hg Hnd; simpl; [split; [done|reflexivity]|].
  inversion Hnd as [|? ? Hni Hnd']; subst.
  destruct (lapse_moves w r Hi (Hg r (or_introl eq_refl))) as [Hi1 Hm1].
  assert (Hg1 : forall x, In x rows -> getCreatorSubscription (cs_id x) (fst (lapseIfExpired r w)) = Some x).
  { intros x Hx. specialize (Hg x (or_intror Hx)). unfold lapseIfExpired.
    assert (Hne : cs_id r <> cs_id x) by (intros E; apply Hni; rewrite E; by apply in_map).
    destruct (cs_status r); try exact Hg. destruct (cs_currentPeriodEndsAt r); [|exact Hg].
    case_bool_decide; [exact Hg|]. unfold getCreatorSubscription in *. simpl. by rewrite get_set_ne. }
  destruct (lapseIfExpired r w) as [w1 r1]. destruct (IH w1 Hi1 Hg1 Hnd') as [Hi2 Hm2].
  destruct (lapse_all rows w1) as [w2 rs]. split; [done|by etransitivity].
Qed.

(** The rows a listing shows are rows of the table, each once. *)
Lemma listed_rows w (le : CreatorSubscriptionRecord -> CreatorSubscriptionRecord -> bool) p :
  subs_inv w ->
  let rows := js_sort le (List.filter p (values (bl_subs (w_billing w)))) in
  (forall r, In r rows -> getCreatorSubscription (cs_id r) w = Some r) /\ List.NoDup (map cs_id rows).
Proof.
  intros Hi rows. assert (Hp : Permutation rows (List.filter p (values (bl_subs (w_billing w))))) by apply js_sort_perm.
  split.
  - intros r Hr. apply (Permutation_in _ Hp) in Hr. apply filter_In in Hr as [Hr _]. by destruct (sub_in w r Hi Hr).
  - apply (Permutation_NoDup (Permutation_map cs_id (Permutation_sym Hp))).
    apply NoDup_ListNoDup, NoDup_map_filter, NoDup_ListNoDup.
    apply (keyed_values_NoDup (bl_subs (w_billing w))), Hi.
Qed.

#[local] Lemma still w : subs_inv w -> subs_inv w /\ subs_move w w.
Proof. intros Hi. split; [done|reflexivity]. Qed.

(** A row added under a fresh id. *)
Lemma sub_add w r :
  subs_inv w -> cs_id r = uuid (rng (w_db w)) -> sub_wf r ->
  let w' := insertCreatorSubscription r (fst (draw_uuid w)) in subs_inv w' /\ subs_move w w'.
Proof.
  intros [Hs Hp] Ei Hw. unfold subs_inv, subs_move, insertCreatorSubscription, on_billing. simpl. rewrite Ei.
  destruct (table_add uuid uuid_inj sub_wf sub_later _ _ r Hs Ei Hw) as [? ?].
  split; split; try done. eapply table_ok_later; [|exact Hp]. lia.
Qed.
Lemma pledge_add w r :
  subs_inv w -> bp_id r = uuid (rng (w_db w)) -> pledge_wf r ->
  let w' := insertCommunityBoostPledge r (fst (draw_uuid w)) in subs_inv w' /\ subs_move w w'.
Proof.
  intros [Hs Hp] Ei Hw. unfold subs_inv, subs_move, insertCommunityBoostPledge, on_billing. simpl. rewrite Ei.
  destruct (table_add uuid uuid_inj pledge_wf pledge_later _ _ r Hp Ei Hw) as [? ?].
  split; split; try done. eapply table_ok_later; [|exact Hs]. lia.
Qed.

Lemma startSubscription_moves u t : stable subs_inv subs_move (startSubscription u t).
Proof.
  intros w Hi. unfold startSubscription. destruct (getCreatorSubscriptionTier t w) as [tier|]; [|by apply still].
  assert (Hgo : forall w1, subs_inv w1 -> subs_move w w1 -> let '(w2, id) := draw_uuid w1 in
    let r := mk_cs id u (tr_creatorUserId tier) (tr_id tier) (tr_providerId tier) None sub_pending None None None
      (w_now w1) (w_now w1) in
    subs_inv (insertCreatorSubscription r w2) /\ subs_move w (insertCreatorSubscription r w2)).
  { intros w1 Hi1 Hm1. simpl.
    destruct (sub_add w1 (mk_cs (uuid (rng (w_db w1))) u (tr_creatorUserId tier) (tr_id tier) (tr_providerId tier)
      None sub_pending None None None (w_now w1) (w_now w1)) Hi1 eq_refl) as [H1' H2']; [done|].
    split; [exact H1'|]. etransitivity; [exact Hm1|exact H2']. }
  destruct (tr_status tier); try (by apply still).
  all: destruct (bool_decide (tr_creatorUserId tier = u)); [by apply still|].
  all: destruct (findActiveCreatorSubscription u (tr_creatorUserId tier) w) as [prior|] eqn:Ef;
    [|apply (Hgo w); [done|reflexivity]].
  all: assert (Hg : getCreatorSubscription (cs_id prior) w = Some prior);
    [apply sub_in; [done|]; by eapply List.find_some|].
  all: destruct (lapse_moves w prior Hi Hg) as [Hi1 Hm1]; destruct (lapseIfExpired prior w) as [w1 r1]; simpl in *.
  all: case_bool_decide; [done|by apply (Hgo w1)].
Qed.

Lemma captureSubscription_moves s d : stable subs_inv subs_move (captureSubscription s d).
Proof.
  intros w Hi. unfold captureSubscription. destruct (getCreatorSubscription s w) as [r|] eqn:Eg; [|by apply still].
  destruct (sub_row w s r Hi Eg) as (-> & Hw & Hg).
  destruct (cs_status r) eqn:Es; try (by apply still).
  all: destruct (periodEnd _ _) as [e|]; [|by apply still].
  all: apply (subs_put w r); [done|done| |unfold sub_wf, period_wf; simpl; by destruct (cs_startedAt r)].
  all: unfold sub_later; simpl; rewrite Es; split_and!;
    first [apply or_else_kept | apply later_end_ge | reflexivity | right; split; discriminate].
Qed.

Ltac plain_put r Es := apply (subs_put _ r);
  [done|done
  |unfold sub_later; simpl; rewrite Es; split_and!; try done; try reflexivity; right; split; discriminate
  |unfold sub_wf, period_wf; simpl; try done].

Lemma cancelSubscription_moves s u : stable subs_inv subs_move (cancelSubscription s u).
Proof.
  intros w Hi. unfold cancelSubscription. destruct (getCreatorSubscription s w) as [r|] eqn:Eg; [|by apply still].
  destruct (sub_row w s r Hi Eg) as (-> & Hw & Hg). destruct (negb _); [by apply still|].
  destruct (cs_status r) eqn:Es; try (by apply still); plain_put r Es.
Qed.

Lemma refundSubscription_moves s : stable subs_inv subs_move (refundSubscription s).
Proof.
  intros w Hi. unfold refundSubscription. destruct (getCreatorSubscription s w) as [r|] eqn:Eg; [|by apply still].
  destruct (sub_row w s r Hi Eg) as (-> & Hw & Hg).
  destruct (cs_status r) eqn:Es; try (by apply still); plain_put r Es; by destruct (cs_canceledAt r).
Qed.

Lemma getSubscription_moves s : stable subs_inv subs_move (getSubscription s).
Proof.
  intros w Hi. unfold getSubscription. destruct (getCreatorSubscription s w) as [r|] eqn:Eg; [|by apply still].
  destruct (sub_row w s r Hi Eg) as (-> & _ & Hg). pose proof (lapse_moves w r Hi Hg) as Hl.
  by destruct (lapseIfExpired r w).
Qed.

Lemma hasActive_moves u c n : stable subs_inv subs_move (hasActiveCreatorSubscription u c n).
Proof.
  intros w Hi. unfold hasActiveCreatorSubscription.
  destruct (findActiveCreatorSubscription u c w) as [r|] eqn:Ef; [|by apply still].
  assert (Hg : getCreatorSubscription (cs_id r) w = Some r) by (apply sub_in; [done|]; by eapply List.find_some).
  pose proof (lapse_moves w r Hi Hg) as Hl. by destruct (lapseIfExpired r w).
Qed.

Lemma listing_moves (le : CreatorSubscriptionRecord -> CreatorSubscriptionRecord -> bool) p :
  stable subs_inv subs_move (fun w => lapse_all (js_sort le (List.filter p (values (bl_subs (w_billing w))))) w).
Proof. intros w Hi. destruct (listed_rows w le p Hi). by apply lapse_all_moves. Qed.

Lemma pledgeBoost_moves i : stable subs_inv subs_move (pledgeBoost i).
Proof.
  intros w Hi. unfold pledgeBoost. destruct (pledge_checks i w) as [e|[split currency]] eqn:Ec; [by apply still|].
  simpl. match goal with |- context [insertCommunityBoostPledge ?r _] => apply (pledge_add w r); try done end.
  split; [done|]. simpl. unfold pledge_checks in Ec.
  destruct (as_integer (pb_monthlyCents i)); [|done]. destruct (bool_decide _ || _); [done|].
  destruct (read_currency (pb_currency i)); [|done]. case_bool_decide; [done|]. case_bool_decide; [done|].
  destruct (computePlatformCommission _ _ _) as [|sp] eqn:Es; [done|]. injection Ec as <- _.
  by apply commission_bounds in Es as [_ ?].
Qed.

Lemma captureBoostPledge_moves p d : stable subs_inv subs_move (captureBoostPledge p d).
Proof.
  intros w Hi. unfold captureBoostPledge. destruct (getCommunityBoostPledge p w) as [r|] eqn:Eg; [|by apply still].
  destruct (pledge_row w p r Hi Eg) as (-> & [Hw Hn] & Hg).
  destruct (bp_status r) eqn:Es; try (by apply still).
  all: destruct (periodEnd _ _) as [e|]; [|by apply still].
  all: apply (pledge_put w r); [done|done| |split; [unfold period_wf; simpl; by destruct (bp_startedAt r)|exact Hn]].
  all: unfold pledge_later; simpl; rewrite Es; split_and!;
    first [apply or_else_kept | apply later_end_ge | reflexivity | right; split; discriminate].
Qed.

Ltac plain_pledge r Es Hn := apply (pledge_put _ r);
  [done|done
  |unfold pledge_later; simpl; rewrite Es; split_and!; try done; try reflexivity; right; split; discriminate
  |split; [unfold period_wf; simpl; try done|exact Hn]].

Lemma cancelBoostPledge_moves p u : stable subs_inv subs_move (cancelBoostPledge p u).
Proof.
  intros w Hi. unfold cancelBoostPledge. destruct (getCommunityBoostPledge p w) as [r|] eqn:Eg; [|by apply still].
  destruct (pledge_row w p r Hi Eg) as (-> & [Hw Hn] & Hg). destruct (negb _); [by apply still|].
  destruct (bp_status r) eqn:Es; try (by apply still); plain_pledge r Es Hn.
Qed.

Lemma refundBoostPledge_moves p : stable subs_inv subs_move (refundBoostPledge p).
Proof.
  intros w Hi. unfold refundBoostPledge. destruct (getCommunityBoostPledge p w) as [r|] eqn:Eg; [|by apply still].
  destruct (pledge_row w p r Hi Eg) as (-> & [Hw Hn] & Hg).
  destruct (bp_status r) eqn:Es; try (by apply still); plain_pledge r Es Hn; by destruct (bp_canceledAt r).
Qed.

#[export] Instance subs_writers : Writers subs_inv subs_move.
Proof.
  assert (Hap : forall w w', subs_inv w -> apart w w' -> subs_inv w' /\ subs_move w w').
  { intros w w' Hi (? & _ & ? & ?). by apply subs_frame. }
  assert (Hao : forall (f : world -> world), (forall w, audit_only w (f w)) -> stable subs_inv subs_move (fun w => (f w, tt))).
  { intros f Hf w Hi. destruct (Hf w) as ((_ & ? & _) & ? & ?). by apply subs_frame. }
  split.
  1: apply _.
  1: { intros w w' Hi (_ & ? & _ & _ & _ & _ & ? & ?). by apply subs_frame. }
  1-8: tip_side subs_inv subs_move Hap.
  - intros. apply Hao. intros. apply audit_receipt.
  - intros. apply Hao. intros. apply audit_mark.
  - apply startSubscription_moves.
  - apply captureSubscription_moves.
  - apply cancelSubscription_moves.
  - apply refundSubscription_moves.
  - intros u. apply listing_moves.
  - intros u. apply listing_moves.
  - apply getSubscription_moves.
  - apply hasActive_moves.
  - apply pledgeBoost_moves.
  - apply captureBoostPledge_moves.
  - apply cancelBoostPledge_moves.
  - apply refundBoostPledge_moves.
Qed.
End subscriptions.

(** ** Theorems *)

Section theorems.
Context `{Env} `{MoneyEnv} `{!DrawLaws}.

Lemma subs_inv_empty : subs_inv empty_world.
Proof. split; apply table_ok_nil. Qed.

(** C37 (safety): over any run a creator subscription, and a boost pledge, stays
    between the same parties; a refunded one stays refunded, none comes back to
    pending, its start is never rewritten and the end of its paid period, a date with
    a year of four digits, never moves back, whatever order the marketplace's reports,
    cancellations and expiries come in; and the dates it shows always fit its
    status. *)
Theorem subscription_history w w' :
  w_leads_to w w' ->
  (forall id s, getCreatorSubscription id w = Some s ->
    exists s', getCreatorSubscription id w' = Some s' /\ sub_later s s' /\ sub_wf s') /\
  (forall id p, getCommunityBoostPledge id w = Some p ->
    exists p', getCommunityBoostPledge id w' = Some p' /\ pledge_later p p' /\ pledge_wf p').
Proof.
  intros Hl. destruct (w_leads_to_keeps subs_inv subs_move w w' subs_inv_empty Hl) as (_ & Hi & [Hs Hp]).
  split; intros id x Hg.
  - destruct (Hs id x Hg) as (s' & Hg' & L). exists s'. destruct (sub_row w' id s' Hi Hg') as (_ & ? & _). done.
  - destruct (Hp id x Hg) as (p' & Hg' & L). exists p'. destruct (pledge_row w' id p' Hi Hg') as (_ & ? & _). done.
Qed.

(** [sub_later] and [sub_wf] say of a refunded subscription what a reader expects. *)
Lemma refunded_for_good s s' :
  sub_later s s' -> cs_status s = sub_refunded -> cs_status s' = sub_refunded.
Proof. intros (_ & [E|[E _]] & _) Hs; congruence. Qed.
End theorems.

(** ** Witness, on the sample run *)

Section witness.
#[local] Existing Instance market_env.
#[local] Existing Instance market_laws.
#[local] Existing Instance market_money.

(** The payment, its refund, and a late report of a second payment. *)
Definition market_refund : list (W unit) :=
  [ webhook (paid_event "ev4" "creatorSubscriptionId" "aaaaaaaa" purchase_refunded);
    webhook (paid_event "ev5" "creatorSubscriptionId" "aaaaaaaa" purchase_succeeded) ].

Lemma market_refund_api : Forall w_api market_refund.
Proof. repeat constructor. Qed.

Definition paid_subscription : option CreatorSubscriptionRecord :=
  getCreatorSubscription "aaaaaaaa" (store market_paid).
Definition refunded_subscription : option CreatorSubscriptionRecord :=
  getCreatorSubscription "aaaaaaaa" (store (after_run market_refund market_paid)).

Lemma subscription_history_witness :
  cs_status <$> paid_subscription = Some sub_active /\ cs_status <$> refunded_subscription = Some sub_refunded /\
  exists s s', paid_subscription = Some s /\ refunded_subscription = Some s' /\ sub_later s s' /\ sub_wf s'.
Proof.
  split; [vm_compute; reflexivity|]. split; [vm_compute; reflexivity|].
  destruct (subscription_history (store market_paid) (store (after_run market_refund market_paid))
    (market_paid_leads _ market_refund_api)) as [Hs _].
  unfold paid_subscription, refunded_subscription.
  destruct (getCreatorSubscription "aaaaaaaa" (store market_paid)) as [s|] eqn:Es;
    [|vm_compute in Es; discriminate Es].
  destruct (Hs "aaaaaaaa" s Es) as (s' & Es' & Hl). exists s, s'. split_and!; [done|exact Es'|apply Hl|apply Hl].
Defined.
End witness.
