(* ===== verification/LedgerInv.v ===== *)
(** * The ledgers of tips, drives and projects

    [ledger_inv]: a tip's amounts and dates fit its status, every contribution and
    every support stands for one captured tip, and what a campaign or a project has
    raised is what its captured tips brought in.  [ledger_move]: how the three tables
    may move.  The lemmas are the few ways an operation changes them. *)

From S2P Require Import Prelude JsMap Async CoalitionDomain Money Records Store Drives JoinRequirements Relay Slug.
From S2P Require Import Network Spec SpecInv Refine Safety BillingRows Ledger Projects Tips Contributions.
From S2P Require Import Billing Growth Webhook MoneyApi MoneyFrames.
Open Scope Z_scope.

#[export] Instance tip_keyed : Keyed TipRecord := tp_id.
#[export] Instance project_keyed : Keyed CoalitionProjectRecord := pj_id.
#[export] Instance support_keyed : Keyed CoalitionProjectSupportRecord := su_id.

(** ** Tips *)

Definition tip_dates (t : TipRecord) : Prop :=
  match tp_status t with
  | tip_pending => tp_capturedAt t = None /\ tp_refundedAt t = None
  | tip_captured => tp_capturedAt t <> None /\ tp_refundedAt t = None
  | tip_refunded => tp_refundedAt t <> None
  | Ledger.tip_failed => False
  end.

(** The fee is the tip's rate of the gross to the nearest cent, and the rest is net;
    a drive pays the ceiling at most. *)
Definition tip_amounts (t : TipRecord) : Prop :=
  0 <= tp_grossCents t /\ 0 <= tp_feeBps t <= 10000 /\
  tp_feeCents t = round_bps (tp_grossCents t * tp_feeBps t) /\
  tp_netCents t = tp_grossCents t - tp_feeCents t /\
  (tp_contextKind t = ck_coalition_drive -> tp_feeBps t <= COALITION_COMMISSION_BPS).

Definition tip_wf (t : TipRecord) : Prop := tip_dates t /\ tip_amounts t.

Definition captured (t : TipRecord) : Prop := tp_capturedAt t <> None.

(** The parties, the purpose and the rate of a tip never change; once captured its
    amounts do not either; once refunded nothing does. *)
Definition tip_later (a b : TipRecord) : Prop :=
  (tp_id b = tp_id a /\ tp_senderUserId b = tp_senderUserId a /\ tp_recipientUserId b = tp_recipientUserId a /\
   tp_contextKind b = tp_contextKind a /\ tp_contextRef b = tp_contextRef a /\ tp_currency b = tp_currency a /\
   tp_feeBps b = tp_feeBps a) /\
  match tp_status a with
  | tip_pending => True
  | tip_captured =>
      tp_grossCents b = tp_grossCents a /\ tp_netCents b = tp_netCents a /\ tp_capturedAt b = tp_capturedAt a /\
      (tp_status b = tip_captured \/ tp_status b = tip_refunded)
  | tip_refunded | Ledger.tip_failed => b = a
  end.

#[export] Instance tip_later_preorder : PreOrder tip_later.
Proof.
  split.
  - intros a. unfold tip_later. split; [by split_and!|]. destruct (tp_status a) eqn:E; auto.
  - intros a b c [I1 S1] [I2 S2]. unfold tip_later. split; [naive_solver congruence|].
    destruct (tp_status a) eqn:Ea; try done.
    + destruct S1 as (? & ? & ? & [Eb|Eb]); rewrite Eb in S2.
      * destruct S2 as (? & ? & ? & ?). split_and!; try congruence; done.
      * subst c. split_and!; try done. by right.
    + subst b. by rewrite Ea in S2.
    + subst b. by rewrite Ea in S2.
Qed.

(** What a captured tip brings in to the campaign or project [ref]. *)
Definition credited (k : TipContextKind) (ref : string) (t : TipRecord) : bool :=
  bool_decide (tp_contextKind t = k) && bool_decide (tp_contextRef t = Some ref)
  && bool_decide (tp_capturedAt t <> None).
Definition credit (k : TipContextKind) (ref : string) (t : TipRecord) : Z :=
  if credited k ref t then tp_netCents t else 0.

Lemma credit_pending k ref t : tp_capturedAt t = None -> credit k ref t = 0.
Proof.
  intros E. unfold credit, credited. rewrite (bool_decide_eq_false_2 (tp_capturedAt t <> None)) by tauto.
  by rewrite andb_false_r.
Qed.

Lemma credit_captured k ref ref' t :
  tp_contextKind t = k -> tp_contextRef t = Some ref' -> captured t ->
  credit k ref t = if bool_decide (ref' = ref) then tp_netCents t else 0.
Proof.
  intros Ek Er Hc. unfold credit, credited. rewrite (bool_decide_eq_true_2 _ Ek), (bool_decide_eq_true_2 _ Hc), Er.
  rewrite andb_true_r. simpl. by rewrite (bool_decide_ext _ (ref' = ref)) by (split; congruence).
Qed.

Lemma credit_elsewhere k ref t : tp_contextKind t <> k -> credit k ref t = 0.
Proof. intros Hk. unfold credit, credited. by rewrite bool_decide_eq_false_2. Qed.

(** ** Projects *)

Definition project_later (a b : CoalitionProjectRecord) : Prop :=
  (pj_id b = pj_id a /\ pj_canopyId b = pj_canopyId a /\ pj_leadId b = pj_leadId a) /\
  pj_raisedCents a <= pj_raisedCents b /\ pj_supporterCount a <= pj_supporterCount b.

#[export] Instance project_later_preorder : PreOrder project_later.
Proof.
  split; [intros a; unfold project_later; split_and!; done|].
  intros a b c (I1 & ? & ?) (I2 & ? & ?). unfold project_later. split; [naive_solver congruence|]. lia.
Qed.

Definition given (k : string) (c : CoalitionCampaignContributionRecord) : Z :=
  if bool_decide (ct_campaignId c = k) then ct_amountCents c else 0.
Definition supported (k : string) (s : CoalitionProjectSupportRecord) : Z :=
  if bool_decide (su_projectId s = k) then su_amountCents s else 0.
Definition supports_of (k : string) (s : CoalitionProjectSupportRecord) : bool := bool_decide (su_projectId s = k).

(** ** The invariant *)

Section ledger.
Context `{Env} `{MoneyEnv} `{!DrawLaws}.

Definition project_id (n : nat) : string := "proj_" +:+ draw n.
Definition support_id (n : nat) : string := "psup_" +:+ draw n.

Lemma project_id_inj n m : project_id n = project_id m -> n = m.
Proof. intros E. by apply app_string_inv, draw_inj in E. Qed.
Lemma support_id_inj n m : support_id n = support_id m -> n = m.
Proof. intros E. by apply app_string_inv, draw_inj in E. Qed.

(** What a tip is for exists. *)
Definition tip_target (w : world) (t : TipRecord) : Prop :=
  match tp_contextKind t with
  | ck_coalition_drive => exists c, tp_contextRef t = Some c /\ exists_in c (campaigns (w_db w))
  | ck_coalition_project => exists p, tp_contextRef t = Some p /\ exists_in p (w_projects w)
  | _ => True
  end.

Definition metered (w : world) (k : string) (p : CoalitionProjectRecord) : Prop :=
  pj_raisedCents p = sum_by (supported k) (values (w_supports w)) /\
  pj_supporterCount p = count_by (supports_of k) (values (w_supports w)) /\
  pj_raisedCents p = sum_by (credit ck_coalition_project k) (values (w_tips w)).

Record ledger_inv (w : world) : Prop := {
  li_db : inv (w_db w);
  li_tips : table_ok uuid tip_wf (rng (w_db w)) (w_tips w);
  li_targets : forall k t, get k (w_tips w) = Some t -> tip_target w t;
  li_given : forall c, In c (values (contributions (w_db w))) ->
    exists t, get (ct_tipId c) (w_tips w) = Some t /\ captured t;
  li_campaigns : forall k,
    sum_by (given k) (values (contributions (w_db w))) = sum_by (credit ck_coalition_drive k) (values (w_tips w));
  li_projects : table_ok project_id (fun _ => True) (rng (w_db w)) (w_projects w);
  li_supports : table_ok support_id (fun _ => True) (rng (w_db w)) (w_supports w);
  li_supported : forall s, In s (values (w_supports w)) ->
    exists_in (su_projectId s) (w_projects w) /\
    exists t, get (su_tipId s) (w_tips w) = Some t /\ captured t;
  li_meters : forall k p, get k (w_projects w) = Some p -> metered w k p;
}.

Definition ledger_move (w w' : world) : Prop :=
  rtc astep (w_db w) (w_db w') /\ table_later tip_later (w_tips w) (w_tips w') /\
  table_later project_later (w_projects w) (w_projects w').

#[export] Instance ledger_move_preorder : PreOrder ledger_move.
Proof.
  split; [intros w; unfold ledger_move; split_and!; reflexivity|].
  intros a b c (? & ? & ?) (? & ? & ?). unfold ledger_move. split_and!; by etransitivity.
Qed.

Lemma ledger_inv_empty : ledger_inv empty_world.
Proof.
  split; try (by apply table_ok_nil); try done. apply inv_empty.
Qed.

(** *** The coalition tables move under the ledgers *)

Lemma campaign_exists d d' k : inv d -> rtc astep d d' -> exists_in k (campaigns d) -> exists_in k (campaigns d').
Proof. intros Hi HG [c Hc]. destruct (campaign_persist d d' k c Hi HG Hc) as (c' & ? & _). by exists c'. Qed.

Lemma target_persists w w' t :
  inv (w_db w) -> rtc astep (w_db w) (w_db w') ->
  (forall k, exists_in k (w_projects w) -> exists_in k (w_projects w')) -> tip_target w t -> tip_target w' t.
Proof.
  intros Hi HG Hp. unfold tip_target. destruct (tp_contextKind t); try done.
  - intros (p & ? & ?). eauto.
  - intros (c & ? & ?). exists c. eauto using campaign_exists.
Qed.

Lemma ledger_db w w' :
  ledger_inv w -> inv (w_db w') -> rtc astep (w_db w) (w_db w') -> same_given (w_db w) (w_db w') ->
  w_tips w' = w_tips w -> w_projects w' = w_projects w -> w_supports w' = w_supports w ->
  ledger_inv w' /\ ledger_move w w'.
Proof.
  intros [Hi Ht Htg Hg Hc Hp Hs Hsu Hm] Hi' HG [Ec Hr] Et Ep Es. split.
  2: { unfold ledger_move. rewrite Et, Ep. split_and!; [done|reflexivity..]. }
  assert (Hle : (rng (w_db w) <= rng (w_db w'))%nat) by exact Hr.
  split; unfold metered; rewrite ?Et, ?Ec, ?Ep, ?Es; try done; try (by eapply table_ok_later).
  intros k t Hk. eapply target_persists; [exact Hi|exact HG|by rewrite Ep|by eapply Htg].
Qed.

Lemma ledger_apart_keeps w w' : ledger_inv w -> ledger_apart w w' -> ledger_inv w' /\ ledger_move w w'.
Proof.
  intros Hw (Hs & Hr & Et & Ep & Es).
  destruct (outside_step (w_db w) (w_db w') (li_db w Hw) (conj Hs Hr)) as [Hi HG].
  apply ledger_db; try done. split; [apply Hs|exact Hr].
Qed.
(** *** Tips *)

Lemma tip_row w id t : ledger_inv w -> db_getTip id w = Some t -> id = tp_id t /\ tip_wf t /\ tip_target w t.
Proof.
  intros Hw Hg. split_and!.
  - by apply (keyed_get _ _ _ (proj1 (li_tips w Hw)) Hg).
  - by apply (proj2 (li_tips w Hw) id t Hg).
  - by eapply li_targets.
Qed.

(** Rewriting a tip leaves the sums alone if it leaves the tip's credit alone. *)
Lemma credits_put w t t' k ref :
  get (tp_id t) (w_tips w) = Some t -> credit k ref t' = credit k ref t ->
  sum_by (credit k ref) (values (set (tp_id t) t' (w_tips w))) = sum_by (credit k ref) (values (w_tips w)).
Proof. intros Hg E. rewrite sum_by_set, Hg, E. lia. Qed.

(** Captured tips stay so. *)
Lemma captured_put w t t' id :
  (captured t -> captured t') -> get (tp_id t) (w_tips w) = Some t ->
  (exists x, get id (w_tips w) = Some x /\ captured x) ->
  exists x, get id (set (tp_id t) t' (w_tips w)) = Some x /\ captured x.
Proof.
  intros Hc Hg (x & Hx & Hcx). rewrite get_set. destruct (decide _) as [<-|]; [|by exists x].
  exists t'. split; [done|]. apply Hc. congruence.
Qed.

Lemma target_later w t t' : tip_later t t' -> tip_target w t -> tip_target w t'.
Proof. intros [(_ & _ & _ & Ek & Er & _) _]. unfold tip_target. by rewrite Ek, Er. Qed.

Lemma tip_put w t t' :
  ledger_inv w -> db_getTip (tp_id t) w = Some t -> tip_later t t' -> tip_wf t' ->
  (captured t -> captured t') ->
  (forall ref, credit ck_coalition_drive ref t' = credit ck_coalition_drive ref t) ->
  (forall ref, credit ck_coalition_project ref t' = credit ck_coalition_project ref t) ->
  let w' := fst (updateTip t' w) in ledger_inv w' /\ ledger_move w w'.
Proof.
  intros [Hi Ht Htg Hg Hc Hp Hs Hsu Hm] Hget Hl Hwf Hcap Ed Epr. pose proof Hl as [(Eid & _) _].
  destruct (table_put uuid tip_wf tip_later _ _ (tp_id t) t t' Ht Hget Eid Hl Hwf) as [Ht' Hl'].
  simpl. rewrite Eid. split; [split|]; simpl; try done.
  - intros k x. rewrite get_set. destruct (decide _) as [<-|]; [|by apply Htg].
    intros [= <-]. eapply (target_later w); [exact Hl|by eapply Htg].
  - intros c Hin. apply captured_put; [done|exact Hget|by apply Hg].
  - intros k. rewrite (credits_put w t t' _ k Hget (Ed k)). apply Hc.
  - intros s Hin. destruct (Hsu s Hin) as [? ?]. split; [done|]. by apply captured_put.
  - intros k q Hq. unfold metered. simpl. rewrite (credits_put w t t' _ k Hget (Epr k)). by apply Hm.
Qed.

(** A new tip is pending, under a fresh id. *)
Lemma tip_add w t :
  ledger_inv w -> tp_id t = uuid (rng (w_db w)) -> tip_wf t -> tp_status t = tip_pending -> tip_target w t ->
  let w' := fst (insertTip t (fst (draw_uuid w))) in ledger_inv w' /\ ledger_move w w'.
Proof.
  intros Hw Eid Hwf Est Htgt w'.
  assert (Hn : tp_capturedAt t = None) by (destruct Hwf as [Hd _]; unfold tip_dates in Hd; rewrite Est in Hd; apply Hd).
  pose proof (table_add uuid uuid_inj tip_wf tip_later _ _ t (li_tips w Hw) Eid Hwf) as [Ht' Hl'].
  pose proof (table_fresh uuid uuid_inj tip_wf _ _ (li_tips w Hw)) as Hf.
  destruct (ledger_apart_keeps w (fst (draw_uuid w)) Hw) as [[Hi Ht Htg Hg Hc Hp Hs Hsu Hm] [HG _]];
    [frame_done|]. simpl in *.
  assert (Hcap : forall id, (exists x, get id (w_tips w) = Some x /\ captured x) ->
    exists x, get id (set (uuid (rng (w_db w))) t (w_tips w)) = Some x /\ captured x).
  { intros id (x & Hx & Hcx). exists x. rewrite get_set_ne by congruence. done. }
  assert (Hsum : forall k ref, sum_by (credit k ref) (values (set (uuid (rng (w_db w))) t (w_tips w))) =
    sum_by (credit k ref) (values (w_tips w))).
  { intros k ref. rewrite sum_by_set, Hf, credit_pending by done. lia. }
  unfold w'. simpl. rewrite Eid. split; [split|]; simpl; try done.
  - intros k x. rewrite get_set. destruct (decide _) as [<-|]; [|by apply Htg]. by intros [= <-].
  - intros c Hin. by apply Hcap, Hg.
  - intros k. rewrite Hsum. apply Hc.
  - intros s Hin. destruct (Hsu s Hin) as [? ?]. split; [done|]. by apply Hcap.
  - intros k q Hq. unfold metered. simpl. rewrite Hsum. by apply Hm.
Qed.
(** *** A capture counts the tip once *)

Section capture.
Context (w : world) (t u : TipRecord) (k : string).
Context (Hw : ledger_inv w) (Hget : db_getTip (tp_id t) w = Some t) (Hl : tip_later t u) (Hwf : tip_wf u).
Context (Hnot : tp_capturedAt t = None) (Hcap : captured u) (Href : tp_contextRef u = Some k).

(** The tips once [u] is written. *)
#[local] Abbreviation tips' := (set (tp_id t) u (w_tips w)).

Lemma capture_kept id :
  (exists x, get id (w_tips w) = Some x /\ captured x) -> exists x, get id tips' = Some x /\ captured x.
Proof. by apply captured_put. Qed.

Lemma capture_self : exists x, get (tp_id u) tips' = Some x /\ captured x.
Proof. destruct Hl as [(E & _) _]. rewrite E. exists u. by rewrite get_set_eq. Qed.

Lemma capture_sum kind ref :
  sum_by (credit kind ref) (values tips') = sum_by (credit kind ref) (values (w_tips w)) + credit kind ref u.
Proof. unfold db_getTip in Hget. rewrite sum_by_set, Hget, (credit_pending _ _ t) by done. lia. Qed.

Lemma capture_table :
  table_ok uuid tip_wf (rng (w_db w)) tips' /\ table_later tip_later (w_tips w) tips'.
Proof. apply (table_put uuid tip_wf tip_later _ _ _ t u (li_tips w Hw) Hget); [apply Hl|exact Hl|exact Hwf]. Qed.

(** A pending tip has been counted nowhere. *)
Lemma uncounted_given c : In c (values (contributions (w_db w))) -> ct_tipId c <> tp_id u.
Proof.
  intros Hc E. destruct (li_given w Hw c Hc) as (x & Hx & Hcx). destruct Hl as [(Ei & _) _]. unfold db_getTip in Hget.
  apply Hcx. congruence.
Qed.
Lemma uncounted_supported s : In s (values (w_supports w)) -> su_tipId s <> tp_id u.
Proof.
  intros Hs E. destruct (li_supported w Hw s Hs) as (_ & x & Hx & Hcx). destruct Hl as [(Ei & _) _].
  unfold db_getTip in Hget. apply Hcx. congruence.
Qed.

(** The tip of a drive becomes a contribution. *)
Lemma capture_drive w' c now :
  tp_contextKind u = ck_coalition_drive ->
  w_tips w' = tips' -> w_projects w' = w_projects w -> w_supports w' = w_supports w ->
  inv (w_db w') -> rtc astep (w_db w) (w_db w') -> (rng (w_db w) <= rng (w_db w'))%nat ->
  get (ct_id c) (contributions (w_db w)) = None ->
  contributions (w_db w') = upsert now c (contributions (w_db w)) ->
  ct_tipId c = tp_id u -> ct_campaignId c = k -> ct_amountCents c = tp_netCents u ->
  ledger_inv w' /\ ledger_move w w'.
Proof.
  intros Ek Et Ep Es Hi' HG Hr Hn Ec Etip Ecamp Eamt. destruct capture_table as [Ht' Hl'].
  pose proof Hw as [Hi Ht Htg Hg Hc Hp Hs Hsu Hm].
  assert (Hv : values (contributions (w_db w')) =
    values (contributions (w_db w)) ++ [stamped_row now (contributions (w_db w)) c])
    by (rewrite Ec; by apply values_set_new).
  assert (Htgt : forall x, tip_target w x -> tip_target w' x).
  { intros x. apply target_persists; [exact Hi|exact HG|]. by rewrite Ep. }
  split; [split|]; rewrite ?Et, ?Ep, ?Es; try (by eapply table_ok_later); try done.
  - intros j x. rewrite get_set. destruct (decide _) as [<-|]; [|by intros ?; apply Htgt; eapply Htg].
    intros [= <-]. eapply Htgt, target_later; [exact Hl|]. by eapply Htg.
  - intros x. rewrite Hv, in_app_iff. intros [Hx|[<-|[]]]; [by apply capture_kept, Hg|].
    change (ct_tipId (stamped_row now (contributions (w_db w)) c)) with (ct_tipId c). rewrite Etip. apply capture_self.
  - intros j. rewrite Hv, sum_by_app, capture_sum, Hc, (credit_captured _ _ k u Ek Href Hcap). rewrite sum_by_cons.
    change (given j (stamped_row now (contributions (w_db w)) c)) with (given j c). unfold given at 1.
    rewrite Ecamp, Eamt. change (sum_by (given j) []) with 0. lia.
  - intros x Hx. destruct (Hsu x Hx) as [? ?]. split; [done|]. by apply capture_kept.
  - intros j q Hq. unfold metered. rewrite Et, Es, capture_sum, credit_elsewhere by (rewrite Ek; discriminate).
    rewrite Z.add_0_r. by apply Hm.
  - unfold ledger_move. rewrite Et, Ep. split_and!; [exact HG|exact Hl'|reflexivity].
Qed.

(** The tip of a project becomes a support. *)
Lemma capture_project w' p p' s :
  tp_contextKind u = ck_coalition_project -> get k (w_projects w) = Some p ->
  w_tips w' = tips' -> w_projects w' = set k p' (w_projects w) -> w_supports w' = set (su_id s) s (w_supports w) ->
  same_tables (w_db w) (w_db w') -> rng (w_db w') = S (rng (w_db w)) ->
  pj_id p' = pj_id p /\ pj_canopyId p' = pj_canopyId p /\ pj_leadId p' = pj_leadId p ->
  pj_raisedCents p' = pj_raisedCents p + tp_netCents u -> pj_supporterCount p' = pj_supporterCount p + 1 ->
  su_id s = support_id (rng (w_db w)) -> su_projectId s = k -> su_tipId s = tp_id u ->
  su_amountCents s = tp_netCents u -> ledger_inv w' /\ ledger_move w w'.
Proof.
  intros Ek Hq Et Ep Es Hsame Hr Eid Er Ecount Eis Esp Est Eamt. destruct capture_table as [Ht' Hl'].
  pose proof Hw as [Hi Ht Htg Hg Hc Hp Hs Hsu Hm].
  assert (Hle : (rng (w_db w) <= rng (w_db w'))%nat) by lia.
  destruct (outside_step (w_db w) (w_db w') Hi (conj Hsame Hle)) as [Hi' HG].
  assert (Ect : contributions (w_db w') = contributions (w_db w)) by apply Hsame.
  assert (Hkey : k = pj_id p) by apply (keyed_get _ _ _ (proj1 Hp) Hq).
  assert (Hnet : 0 <= tp_netCents u).
  { destruct Hwf as [_ (G1 & G2 & G3 & G4 & _)]. pose proof (round_bps_bounds _ _ G1 G2). lia. }
  destruct (table_put project_id (fun _ => True) project_later _ _ k p p' Hp Hq) as [Hp' Hlp];
    [rewrite Hkey; apply Eid|unfold project_later; split; [done|lia]|done|].
  destruct (table_insert support_id support_id_inj (fun _ => True) (fun _ _ => True) (rng (w_db w)) (rng (w_db w))
    (rng (w_db w')) _ s Hs) as (Hns & Hs' & _); [lia|exact Eis|done|].
  assert (Hvs : values (w_supports w') = values (w_supports w) ++ [s])
    by (rewrite Es, Eis; by apply values_set_new).
  assert (Hex : forall j, exists_in j (w_projects w) -> exists_in j (w_projects w')).
  { intros j [x Hx]. rewrite Ep. unfold exists_in. rewrite get_set. destruct (decide _); eauto. }
  assert (Htgt : forall x, tip_target w x -> tip_target w' x) by (intros x; by apply target_persists).
  split; [split|]; rewrite ?Et, ?Ect; try (by eapply table_ok_later); try done.
  - intros j x. rewrite get_set. destruct (decide _) as [<-|]; [|by intros ?; apply Htgt; eapply Htg].
    intros [= <-]. eapply Htgt, target_later; [exact Hl|]. by eapply Htg.
  - intros x Hx. by apply capture_kept, Hg.
  - intros j. rewrite capture_sum, credit_elsewhere by (rewrite Ek; discriminate). rewrite Z.add_0_r. apply Hc.
  - rewrite Ep. by eapply table_ok_later.
  - rewrite Es, Eis. exact Hs'.
  - intros x. rewrite Hvs, in_app_iff. intros [Hx|[<-|[]]].
    + destruct (Hsu x Hx) as [? ?]. split; [by apply Hex|by apply capture_kept].
    + split; [apply Hex; rewrite Esp; by exists p|]. rewrite Est. apply capture_self.
  - intros j q. rewrite Ep, get_set. unfold metered. rewrite Et, Hvs, capture_sum, sum_by_app.
    unfold count_by. rewrite sum_by_app, !sum_by_cons. change (sum_by _ []) with 0.
    rewrite (credit_captured _ _ k u Ek Href Hcap). unfold supported at 2, supports_of at 2. rewrite Esp, Eamt.
    destruct (decide (k = j)) as [<-|Hne].
    + intros [= <-]. rewrite (bool_decide_eq_true_2 (k = k)) by done.
      destruct (Hm k p Hq) as (M1 & M2 & M3). unfold count_by in M2. split_and!; lia.
    + intros Hq'. rewrite (bool_decide_eq_false_2 (k = j)) by done.
      destruct (Hm j q Hq') as (M1 & M2 & M3). unfold count_by in M2. split_and!; lia.
  - unfold ledger_move. rewrite Et, Ep. done.
Qed.
End capture.
(** *** Projects *)

(** Nothing was ever raised for a project that does not exist. *)
Lemma unknown_project w k :
  ledger_inv w -> get k (w_projects w) = None ->
  sum_by (supported k) (values (w_supports w)) = 0 /\ count_by (supports_of k) (values (w_supports w)) = 0 /\
  sum_by (credit ck_coalition_project k) (values (w_tips w)) = 0.
Proof.
  intros Hw Hn.
  assert (Hs : forall s, In s (values (w_supports w)) -> bool_decide (su_projectId s = k) = false).
  { intros s Hs. apply bool_decide_eq_false. intros <-. destruct (li_supported w Hw s Hs) as [[p Hp] _]. congruence. }
  assert (Hzero : forall A (f : A -> Z) l, (forall a, In a l -> f a = 0) -> sum_by f l = 0).
  { intros A f l Hf. rewrite (sum_by_ext f (fun _ => 0 * 0) l) by (intros; by rewrite Hf). rewrite sum_by_scale. lia. }
  split_and!.
  - apply Hzero. intros s Hin. unfold supported. by rewrite Hs.
  - apply count_by_zero. exact Hs.
  - apply Hzero. intros t Hin. unfold credit. destruct (credited _ _ _) eqn:Ec; [exfalso|done].
    unfold credited in Ec. rewrite !andb_true_iff, !bool_decide_eq_true in Ec. destruct Ec as [[Ek Er] _].
    pose proof (li_targets w Hw _ _ (keyed_in _ _ (proj1 (li_tips w Hw)) Hin)) as Ht. unfold tip_target in Ht.
    rewrite Ek in Ht. destruct Ht as (p & Ep & x & Hx). congruence.
Qed.

Lemma project_add w m n p :
  ledger_inv w -> (rng (w_db w) <= m < n)%nat -> pj_id p = project_id m -> pj_raisedCents p = 0 ->
  pj_supporterCount p = 0 ->
  let w' := set_w_projects (set (pj_id p) p (w_projects w)) (set_w_db (set_rng n (w_db w)) w) in
  ledger_inv w' /\ ledger_move w w'.
Proof.
  intros Hw Hm Eid Er Ec w'. pose proof Hw as [_ _ Htg _ _ Hp _ Hsu Hme].
  destruct (table_insert project_id project_id_inj (fun _ => True) project_later _ _ n _ p Hp Hm Eid I)
    as (Hn & Hp' & Hl).
  destruct (ledger_apart_keeps w (set_w_db (set_rng n (w_db w)) w) Hw) as [Hw1 [HG _]];
    [unfold ledger_apart, same_tables; simpl; split_and!; first [reflexivity|lia]|].
  destruct (unknown_project w (project_id m) Hw Hn) as (Z1 & Z2 & Z3).
  unfold w'. rewrite Eid. destruct Hw1 as [Hi Ht Htg1 Hg Hc _ Hs _ _]. split; [split|]; simpl; try done.
  - intros k t Hk. pose proof (Htg k t Hk) as Htk. unfold tip_target in *. destruct (tp_contextKind t); try done.
    destruct Htk as (q & Eq & x & Hx). exists q. split; [done|]. unfold exists_in. simpl. rewrite get_set.
    destruct (decide _); eauto.
  - intros s Hin. destruct (Hsu s Hin) as [[x Hx] ?]. split; [|done]. unfold exists_in. rewrite get_set.
    destruct (decide _); eauto.
  - intros k q. rewrite get_set. destruct (decide _) as [<-|]; [|by intros Hq; apply (Hme k q)].
    intros [= <-]. unfold metered. simpl. by rewrite Z1, Z2, Z3, Er, Ec.
Qed.

(** A change of a project's text, status or milestones. *)
Lemma project_put w k p p' :
  ledger_inv w -> get k (w_projects w) = Some p ->
  pj_id p' = pj_id p /\ pj_canopyId p' = pj_canopyId p /\ pj_leadId p' = pj_leadId p ->
  pj_raisedCents p' = pj_raisedCents p -> pj_supporterCount p' = pj_supporterCount p ->
  let w' := set_w_projects (set k p' (w_projects w)) w in ledger_inv w' /\ ledger_move w w'.
Proof.
  intros [Hi Ht Htg Hg Hc Hp Hs Hsu Hm] Hq Eid Er Ec. simpl.
  assert (Hkey : k = pj_id p) by apply (keyed_get _ _ _ (proj1 Hp) Hq).
  destruct (table_put project_id (fun _ => True) project_later _ _ k p p' Hp Hq) as [Hp' Hl];
    [rewrite Hkey; apply Eid|unfold project_later; split; [done|lia]|done|].
  assert (Hex : forall j, exists_in j (w_projects w) -> exists_in j (set k p' (w_projects w))).
  { intros j [x Hx]. unfold exists_in. rewrite get_set. destruct (decide _); eauto. }
  split; [split|]; simpl; try done.
  - intros j t Hj. specialize (Htg j t Hj). unfold tip_target in *. destruct (tp_contextKind t); try done.
    destruct Htg as (q & ? & ?). eauto.
  - intros s Hin. destruct (Hsu s Hin) as [? ?]. auto.
  - intros j q. rewrite get_set. destruct (decide _) as [<-|]; [|by intros Hj; apply (Hm j q)].
    intros [= <-]. destruct (Hm k p Hq) as (M1 & M2 & M3). unfold metered. simpl. rewrite Er, Ec. done.
Qed.
End ledger.
