(* ===== verification/LedgerSafety.v ===== *)
(** * The ledgers agree in every run

    Every operation of the money services keeps [ledger_inv] and moves along
    [ledger_move]; so campaigns and projects show exactly what their captured tips
    brought in, at every moment of every run. *)

From S2P Require Import Prelude JsMap Async CoalitionDomain Money Records Store Drives JoinRequirements Relay Slug.
From S2P Require Import Network Spec SpecInv Refine Safety BillingRows Ledger Projects Tips Contributions.
From S2P Require Import Billing Growth Webhook MoneyApi MoneySample MoneyFrames LedgerInv.
Open Scope Z_scope.

(** A written contribution, where the first stop of [recordContribution] finds it. *)
Section recorded.
Context `{Env}.

Lemma recordContribution_segments i d c :
  getCoalitionCampaign (rc_campaignId i) d = Some c ->
  findCoalitionCampaignContributionByTip (rc_tipId i) d = None ->
  let row := mk_ct ("coac_" +:+ draw (rng d)) (cp_id c) (cp_coalitionId c) (rc_supporterUserId i) (rc_tipId i)
    (rc_amountCents i) (rc_currency i) 0 0 in
  segments same_given (fun s => contributions s = upsert (clock d) row (contributions d) /\ (rng d <= rng s)%nat)
    (recordContribution i d).
Proof.
  intros Hc Hn row. unfold recordContribution. rewrite bind_gets_eq. cbv beta. rewrite Hc.
  rewrite bind_gets_eq. cbv beta. rewrite Hn. unfold newContributionId, fresh. rewrite bind_update_eq. cbv beta.
  rewrite bind_update_eq. cbv beta. rewrite bind_gets_eq. cbv beta. rewrite bind_update_eq. cbv beta.
  match goal with |- segments _ _ (?m ?s) => apply (moves_from same_given m s) end.
  2: { intros s' [E Hr]. split; [rewrite E; reflexivity|]. simpl in Hr. lia. }
  quiet.
Qed.
End recorded.

Section captures.
Context `{Env} `{MoneyEnv} `{!DrawLaws}.

Abbreviation kept w o := (guarantees ledger_inv ledger_move w (fun _ _ => True) o).
Abbreviation book m := (keeps ledger_inv ledger_move m).

(** The coalition handlers beside [recordContribution] leave the contributions alone. *)
Lemma ledger_put w d :
  ledger_inv w -> inv d -> rtc astep (w_db w) d -> same_given (w_db w) d ->
  ledger_inv (set_w_db d w) /\ ledger_move w (set_w_db d w).
Proof. intros Hw Hi HG Hs. by apply ledger_db. Qed.

Lemma book_network {A} (m : H A) : ok m -> moves same_given m -> book (network m).
Proof.
  intros Hk Hm. unfold network. apply (zoom_moves_keeps w_db set_w_db Net inv (rtc astep) same_given).
  - apply li_db.
  - by intros w w' [? _].
  - done.
  - done.
  - apply ledger_put.
  - exact Hk.
  - exact Hm.
Qed.

Lemma book_calm {A} (f : world -> world * A) :
  (forall w, ledger_apart w (fst (f w))) -> book (update (E := wreq) f).
Proof. intros Hf. apply keeps_update. intros w Hw. by apply ledger_apart_keeps. Qed.

Lemma book_write (f : world -> world) : (forall w, ledger_apart w (f w)) -> book (modify (E := wreq) f).
Proof. intros Hf. apply keeps_modify. intros w Hw. by apply ledger_apart_keeps. Qed.

(** A drawn id. *)
Lemma fresh_id_eq p w :
  fresh_id p w = Done (set_w_db (set_rng (S (rng (w_db w))) (w_db w)) w) (p +:+ draw (rng (w_db w))).
Proof. done. Qed.

Lemma mbind_fresh_id {B} p (k : string -> W B) w :
  mbind (fresh_id p) k w =
  k (p +:+ draw (rng (w_db w))) (set_w_db (set_rng (S (rng (w_db w))) (w_db w)) w).
Proof. done. Qed.

Lemma book_fresh p : book (fresh_id p).
Proof.
  intros w Hw. rewrite fresh_id_eq. simpl.
  destruct (ledger_apart_keeps w (set_w_db (set_rng (S (rng (w_db w))) (w_db w)) w) Hw) as [? ?]; [frame_done|].
  by split_and!.
Qed.

Ltac book_step :=
  match goal with
  | |- keeps _ _ (fresh_id _) => apply book_fresh
  | |- keeps _ _ (modify _) => apply book_write; intros ?; frame_done
  | |- keeps _ _ (spawn _) => refine (keeps_spawn _ _ _ _)
  | |- keeps _ _ (each _ _) => apply keeps_each; [apply _|]; intros ?
  | |- PreOrder _ => apply _
  | _ => keeps_step
  end.

Lemma book_broadcast p m : book (broadcast_milestone p m).
Proof.
  unfold broadcast_milestone, notifyProjectContributors, announceToCoalitionRoom. repeat book_step.
Qed.

Section pending.
Context (w : world) (t u : TipRecord) (w2 : world).
Context (Hw : ledger_inv w) (Hget : db_getTip (tp_id t) w = Some t) (Hl : tip_later t u) (Hwf : tip_wf u).
Context (Hnot : tp_capturedAt t = None) (Hcap : captured u) (Htgt : tip_target w u).
Context (E2 : w_db w2 = w_db w /\ w_tips w2 = set (tp_id t) u (w_tips w) /\ w_projects w2 = w_projects w /\
  w_supports w2 = w_supports w).

(** The coalition handler writes the row in the segment that captured the tip. *)
Lemma kept_drive ref :
  tp_contextKind u = ck_coalition_drive -> tp_contextRef u = Some ref -> exists_in ref (campaigns (w_db w)) ->
  kept w (network (recordContribution (tip_contribution u ref)) w2).
Proof.
  intros Ek Er [c Hc]. destruct E2 as (Ed & Et & Ep & Es). pose proof (li_db w Hw) as Hi.
  assert (Hn : findCoalitionCampaignContributionByTip (tp_id u) (w_db w) = None).
  { unfold findCoalitionCampaignContributionByTip. destruct (List.find _ _) as [x|] eqn:Ef; [exfalso|done].
    apply List.find_some in Ef as [Hx Ex]. apply bool_decide_eq_true in Ex.
    by apply (uncounted_given w t u Hw Hget Hl Hnot x). }
  destruct (getCampaign_row ref (w_db w) c Hi Hc) as [Hrow Eid].
  pose proof (recordContribution_segments (tip_contribution u ref) (w_db w) c Hc Hn) as Hseg.
  pose proof (ok_recordContribution (tip_contribution u ref) (w_db w) Hi) as Hok.
  unfold network, zoom. rewrite Ed.
  refine (ozoom_segments w_db set_w_db Net inv (rtc astep) same_given ledger_inv ledger_move _ _ _ _ _
    _ (w_db w) w w2 _ _ Hok Hseg).
  - apply li_db.
  - by intros ? ? [? _].
  - done.
  - done.
  - apply ledger_put.
  - intros s Hs HG [Ec Hr].
    match type of Ec with _ = upsert ?now ?row _ =>
      apply (capture_drive w t u ref Hw Hget Hl Hwf Hnot Hcap Er (set_w_db s w2) row now) end;
      simpl; try done.
    apply fresh_get; [apply (inv_campaigns _ Hi)|]. intros v Hv.
    by destruct (proj1 (proj2 (proj2 (proj2 (inv_campaigns _ Hi)))) v Hv).
Qed.

(** The tip of a project is a support before anything else of it is. *)
Lemma kept_project ref :
  tp_contextKind u = ck_coalition_project -> tp_contextRef u = Some ref -> exists_in ref (w_projects w) ->
  kept w (recordProjectSupport (tip_support u ref) w2).
Proof.
  intros Ek Er [p Hp]. destruct E2 as (Ed & Et & Ep & Es).
  assert (Hn : getCoalitionProjectSupportByTip (tp_id u) w2 = None).
  { unfold getCoalitionProjectSupportByTip. rewrite Es. destruct (List.find _ _) as [x|] eqn:Ef; [exfalso|done].
    apply List.find_some in Ef as [Hx Ex]. apply bool_decide_eq_true in Ex.
    by apply (uncounted_supported w t u Hw Hget Hl Hnot x). }
  assert (Hp2 : getCoalitionProject ref w2 = Some p) by (unfold getCoalitionProject; by rewrite Ep).
  unfold recordProjectSupport, tip_support.
  cbn [rp_projectId rp_supporterUserId rp_tipId rp_amountCents rp_currency].
  rewrite mbind_gets. cbv beta. rewrite Hn, mbind_gets. cbv beta. rewrite Hp2.
  rewrite mbind_fresh_id. cbv beta. rewrite mbind_update, mbind_gets. cbv beta.
  destruct (evaluateMilestones _ _ _) as [milestones reached]. rewrite mbind_update. cbv beta.
  rewrite mbind_modify. match goal with |- kept _ (mbind (each ?f ?l) ?k ?w3) => set (w4 := w3) end.
  assert (H4 : ledger_inv w4 /\ ledger_move w w4).
  { unfold w4. clear w4. unfold applyCoalitionProjectSupport, patch_project. simpl. rewrite Ep, Hp. simpl.
    match goal with |- context [set_w_projects (set ref ?q _)] => set (p' := q) end.
    match goal with |- context [set_w_supports (set _ ?r _)] => set (row := r) end.
    apply (capture_project w t u ref Hw Hget Hl Hwf Hnot Hcap Er _ p p' row); simpl; rewrite ?Ed, ?Et, ?Ep, ?Es;
      done. }
  eapply guarantees_trans; [apply _|apply H4|]. eapply guarantees_bind; [apply _|apply keeps_each; [apply _| |apply H4]|].
  - intros m. apply book_broadcast.
  - intros ? w5 Hw5 _ _. by simpl.
Qed.

(** Whatever the tip was for. *)
Lemma kept_credit : 
  (tp_contextKind u <> ck_coalition_drive -> tp_contextKind u <> ck_coalition_project ->
   ledger_inv w2 /\ ledger_move w w2) ->
  kept w (credit_tip u w2).
Proof.
  intros Hother. unfold credit_tip. pose proof Htgt as Ht. unfold tip_target in Ht.
  assert (Hplain : tp_contextKind u <> ck_coalition_drive -> tp_contextKind u <> ck_coalition_project ->
    kept w (mret (E := wreq) tt w2)).
  { intros Hd Hp. destruct (Hother Hd Hp) as [? ?]. by split_and!. }
  destruct (tp_contextKind u) eqn:Ek; try (by apply Hplain).
  - destruct Ht as (p & Er & Hp). rewrite Er.
    assert (Hne : truthy (Some p) = Some p).
    { destruct Hp as [q Hq]. destruct (proj2 (li_projects w Hw) p q Hq) as (_ & n & _ & ->).
      unfold truthy. by rewrite decide_False. }
    rewrite Hne. eapply guarantees_bind; [apply _|by apply kept_project|]. intros ? ? ? _ _. by split_and!.
  - destruct Ht as (c & Er & Hc). rewrite Er.
    assert (Hne : truthy (Some c) = Some c).
    { unfold truthy. rewrite decide_False; [done|]. eapply campaign_nonempty; [apply Hw|exact Hc]. }
    rewrite Hne. eapply guarantees_bind; [apply _|by apply kept_drive|]. intros ? ? ? _ _. by split_and!.
Qed.
End pending.
(** *** Each operation on tips *)

Lemma valid_fee_jint n : 0 <= n <= 10000 -> valid_fee (jint n) = Some n.
Proof. intros Hn. unfold valid_fee. by rewrite as_integer_jint, bool_decide_eq_true_2. Qed.

Lemma captured_row_ok now d s t :
  tip_wf t -> tp_status t = tip_pending -> resettle d t = Ok s ->
  let u := captured_row now d s t in tip_later t u /\ tip_wf u /\ captured u.
Proof.
  intros [Hd Ha] Est Hs u.
  assert (Hrest : tip_later t u /\ tip_dates u /\ captured u).
  { unfold tip_dates in Hd. rewrite Est in Hd. unfold u, captured_row, settled_with, tip_later, tip_dates, captured.
    rewrite Est. destruct Hd as [_ Hr], s; simpl; repeat split; done. }
  destruct Hrest as (Hl & Hd' & Hc). split_and!; [exact Hl| |exact Hc]. split; [exact Hd'|].
  unfold u, captured_row, settled_with. destruct s as [s|]; [|exact Ha].
  unfold resettle in Hs. destruct (usable_charge d); [|done]. case_bool_decide; [done|].
  destruct (computePlatformCommission _ _ _) as [|sp] eqn:Es; [done|]. injection Hs as <-.
  destruct Ha as (_ & Hb & _ & _ & Hcap). apply commission_split in Es as (_ & Hg & _ & Ef & En & Eb).
  rewrite (valid_fee_jint _ Hb) in Eb. unfold tip_amounts. simpl. rewrite Eb in Ef. split_and!; try done; lia.
Qed.

Lemma book_captureTip id d : book (captureTip id d).
Proof.
  intros w Hw. unfold captureTip. rewrite mbind_gets. cbv beta.
  destruct (db_getTip id w) as [t|] eqn:Eg; [|by split_and!].
  destruct (tip_row w id t Hw Eg) as (-> & Hwf & Htgt).
  destruct (tp_status t) eqn:Est; try (by split_and!).
  destruct (resettle d t) as [e|s] eqn:Es; [by split_and!|].
  rewrite mbind_gets, mbind_update, mbind_modify.
  destruct (captured_row_ok (w_now w) d s t Hwf Est Es) as (Hl & Hwf' & Hc).
  set (u := captured_row (w_now w) d s t) in *. pose proof Hl as [(Eid & _) _].
  assert (Hn : tp_capturedAt t = None) by (destruct Hwf as [Hd _]; unfold tip_dates in Hd; rewrite Est in Hd; apply Hd).
  match goal with |- kept _ (mbind _ _ ?w3) => set (w2 := w3) end.
  assert (E2 : w_db w2 = w_db w /\ w_tips w2 = set (tp_id t) u (w_tips w) /\ w_projects w2 = w_projects w /\
    w_supports w2 = w_supports w) by (unfold w2; split_and!; try reflexivity; cbn [w_tips fst updateTip emit_money set_w_events set_w_tips]; by rewrite Eid).
  eapply guarantees_bind; [apply _| |].
  - apply (kept_credit w t u w2); try done; [by eapply target_later|].
    intros Hd Hp. destruct (tip_put w t u Hw Eg Hl Hwf') as [H1' G1]; [done| | |].
    + intros ref. rewrite (credit_elsewhere _ _ u Hd). by rewrite credit_pending.
    + intros ref. rewrite (credit_elsewhere _ _ u Hp). by rewrite credit_pending.
    + destruct (ledger_apart_keeps _ w2 H1') as [H2' G2]; [unfold w2; frame_done|]. split; [done|by etransitivity].
  - intros ? w3 Hw3 _ _. assert (Hk : forall A (a : A), book (let! _ := spawn (request (OutboundTipCreated
        (tp_recipientUserId u) (tp_id u) (tp_grossCents u) (tp_netCents u))) in mret a))
      by (intros; repeat book_step). by apply Hk.
Qed.

Lemma refundTip_moves id : stable ledger_inv ledger_move (refundTip id).
Proof.
  intros w Hw. unfold refundTip. destruct (db_getTip id w) as [t|] eqn:Eg; [|by split].
  destruct (tip_row w id t Hw Eg) as (-> & [Hd Ha] & _). unfold tip_dates in Hd.
  destruct (tp_status t) eqn:Est; try (by split).
  all: match goal with |- context [updateTip ?u ?x] => destruct (tip_put x t u Hw Eg) as [H1' G1] end;
    [unfold tip_later; rewrite Est; simpl; split_and!; auto|split; [by unfold tip_dates|exact Ha]|done|done|done|].
  all: simpl; match goal with |- ledger_inv ?w2 /\ _ => destruct (ledger_apart_keeps _ w2 H1') as [H2' G2] end;
    [frame_done|]; split; [done|by etransitivity].
Qed.

(** A tip is asked for with a target that exists, at a rate its kind allows. *)
Definition sound_input (w : world) (i : CreateTipInput) : Prop :=
  (forall t, tp_contextKind t = ti_contextKind i -> tp_contextRef t = ti_contextRef i -> tip_target w t) /\
  (ti_contextKind i = ck_coalition_drive ->
   exists bps, ti_feeBpsOverride i = Some (jint bps) /\ 0 <= bps <= COALITION_COMMISSION_BPS).

Lemma plain_sound w i : plain_tip i -> sound_input w i.
Proof.
  intros [Hd Hp]. split; [|done]. intros t Ek _. unfold tip_target. rewrite Ek. by destruct (ti_contextKind i).
Qed.

Lemma createTip_moves i w :
  ledger_inv w -> sound_input w i ->
  ledger_inv (fst (createTip i w)) /\ ledger_move w (fst (createTip i w)).
Proof.
  intros Hw [Htgt Hrate]. unfold createTip. destruct (tip_checks i w) as [e|[sp currency]] eqn:Ec; [by split|]. simpl.
  assert (Hsp : exists p o, computePlatformCommission (ti_grossCents i) p o = Ok sp /\ o = ti_feeBpsOverride i).
  { unfold tip_checks in Ec. repeat (case_bool_decide; [done|]). destruct (as_integer _); [|done].
    repeat (case_bool_decide; [done|]). destruct (read_currency _); [|done]. destruct (longer_than _ _); [done|].
    destruct (computePlatformCommission _ _ _) as [|sp'] eqn:Es; [done|].
    assert (sp' = sp) by (destruct (truthy _) as [o|]; [destruct (findTipByOrderId _ _ _)|]; congruence).
    subst sp'. eauto. }
  destruct Hsp as (p & o & Es & ->). apply commission_split in Es as (_ & Hg & Hb & Ef & En & Eb).
  match goal with |- ledger_inv (set_w_tips (set _ ?r _) _) /\ _ => apply (tip_add w r); try done end.
  - split; [by split|]. unfold tip_amounts. simpl. split_and!; try done; try lia.
    intros Ek. destruct (Hrate Ek) as (bps & Eo & Hbps). rewrite Eo in Eb.
    unfold COALITION_COMMISSION_BPS in *. rewrite valid_fee_jint in Eb by lia. lia.
  - by apply Htgt.
Qed.
Lemma project_support_moves u p b : stable ledger_inv ledger_move (post_project_support u p b).
Proof.
  intros w Hw. unfold post_project_support. destruct (negb _); [by split|].
  destruct (getCoalitionProject p w) as [pr|] eqn:Ep; [|by split].
  match goal with |- context [createTip ?i w] => pose proof (createTip_moves i w Hw) as Hm end.
  destruct (createTip _ w). apply Hm. split; [|by intros].
  intros t Ek Er. unfold tip_target. rewrite Ek, Er. exists (pj_id pr). split; [done|].
  exists pr. by rewrite <-(keyed_get _ _ _ (proj1 (li_projects w Hw)) Ep : p = pj_id pr).
Qed.

(** *** Contributions *)

Lemma set_db_self w : set_w_db (w_db w) w = w.
Proof. by destruct w. Qed.

Lemma quote_kept l w :
  ledger_inv w ->
  guarantees ledger_inv ledger_move w (fun q _ => forall bps, q = Some bps -> 0 <= bps <= COALITION_COMMISSION_BPS)
    (network (await (quoteCommissionBps l)) w).
Proof.
  intros Hw. unfold network, zoom, await, quoteCommissionBps.
  assert (Hyes : forall w', ledger_inv w' -> forall s q,
    (forall bps, q = Some bps -> 0 <= bps <= COALITION_COMMISSION_BPS) ->
    ledger_move s w' ->
    guarantees ledger_inv ledger_move s (fun q _ => forall bps, q = Some bps -> 0 <= bps <= COALITION_COMMISSION_BPS)
      (ozoom w_db set_w_db Net w' ((let! _ := request Yield in mret q) (w_db w')))).
  { intros w' Hw' s q Hq Hs. simpl. rewrite set_db_self. split_and!; [done|done|].
    intros [] w3 Hw3 G3. rewrite set_db_self. by split_and!. }
  assert (Hmax : forall bps, Some COALITION_COMMISSION_BPS = Some bps -> 0 <= bps <= COALITION_COMMISSION_BPS)
    by (intros bps [= <-]; done).
  destruct (truthy l) as [x|]; [|by apply Hyes].
  destruct (negb _); [by apply Hyes|].
  cbn [mbind request obind ozoom guarantees]. rewrite set_db_self. split_and!; [done|done|].
  intros q w' Hw' G'. apply Hyes; [done| |done]. intros bps Eb. destruct q as [q|]; [by apply (ceiling_range q)|by apply Hmax].
Qed.

Lemma book_reads {A} (m : H A) : moves eq m -> book (network m).
Proof. intros Hm. apply (zoom_silent w_db set_w_db Net); [apply _|apply set_db_self|done]. Qed.

Lemma book_unavailable r g l : book (contribution_unavailable r g l).
Proof.
  unfold contribution_unavailable. repeat first [apply book_reads, await_reads, previewContribution_reads | book_step].
Qed.

Lemma book_open_checkout i l t b : book (open_checkout i l t b).
Proof. unfold open_checkout. repeat book_step. Qed.

Lemma startContribution_kept i w :
  ledger_inv w -> exists_in (cp_id (sc_campaign i)) (campaigns (w_db w)) -> kept w (startContribution i w).
Proof.
  intros Hw Hc. unfold startContribution. destruct (assertFlatCommission _); [by split_and!|].
  destruct (truthy _); [|by apply book_unavailable]. destruct (negb _); [by apply book_unavailable|].
  eapply guarantees_bind; [apply _|by apply quote_kept|]. intros [bps|] w1 Hw1 [HG _] Hq; [|by apply book_unavailable].
  rewrite mbind_gets. destruct (payable i w1) as [payee|]; [|by apply book_unavailable].
  rewrite mbind_update.
  assert (Hi : sound_input w1 (drive_tip i payee bps)).
  { split.
    - intros t Ek Er. unfold tip_target. rewrite Ek, Er. exists (cp_id (sc_campaign i)). split; [done|].
      eapply campaign_exists; [apply Hw|exact HG|exact Hc].
    - intros _. exists bps. split; [done|]. by apply Hq. }
  destruct (createTip_moves _ w1 Hw1 Hi) as [Hw2 G2]. destruct (createTip _ w1) as [w2 [e|tip]]; cbn [fst snd] in *.
  - by split_and!.
  - eapply guarantees_trans; [apply _|exact G2|].
    assert (Hk : book (let! r := open_checkout i s tip bps in mret (@Ok contribution_throw _ r)))
      by by repeat first [apply book_open_checkout | book_step].
    by apply Hk.
Qed.

Lemma getCampaign_done k c v d :
  exists r, getCampaign k c v d = Done d r /\ forall x, r = Ok x -> getCoalitionCampaign c d = Some x.
Proof.
  unfold getCampaign, with_coalition, with_campaign, fail, succeed. rewrite mbind_gets.
  destruct (getCoalition k d); [|by eexists]. rewrite mbind_gets.
  destruct (getCoalitionCampaign c d); [|by eexists]. destruct (negb _); [by eexists|]. rewrite mbind_gets.
  destruct (_ && _); eexists; (split; [done|]); [done|by intros ? [= <-]].
Qed.

Lemma book_post_contribute u k c o b : book (post_contribute u k c o b).
Proof.
  intros w Hw. unfold post_contribute. destruct (negb _); [by split_and!|].
  destruct (getCampaign_done k c (Some u) (w_db w)) as (r & Er & Hr).
  assert (E : network (getCampaign k c (Some u)) w = Done w r).
  { unfold network, zoom. rewrite Er. simpl. by rewrite set_db_self. }
  unfold mbind at 1. rewrite E. simpl. destruct r as [e|cp]; [by split_and!|]. destruct (negb _); [by split_and!|].
  destruct (getCampaign_row c (w_db w) cp (li_db w Hw) (Hr cp eq_refl)) as [Hg _].
  eapply guarantees_bind; [apply _| |].
  - unfold wait. eapply guarantees_bind; [apply _|apply startContribution_kept; [done|by exists cp]|].
    intros a w1 Hw1 _ _. assert (Hk : book (let! _ := request (Net unit Yield) in mret a)) by by repeat book_step.
    by apply Hk.
  - intros a w1 Hw1 _ _. revert w1 Hw1. change (book (match a with
      | Err e => mret (cr_failed e)
      | Ok r => match sr_tip r with
                | None => mret (cr_unavailable (sr_checkoutError r) (sr_split r))
                | Some _ => let! _ := spawn (request (RecordAttributedAction (cb_ref b) "contribution")) in
                            mret (cr_started r)
                end end)). repeat book_step.
Qed.
(** *** Projects *)

Lemma withMilestoneIds_done l w :
  exists n ms, withMilestoneIds l w = Done (set_w_db (set_rng n (w_db w)) w) ms /\ (rng (w_db w) <= n)%nat.
Proof.
  revert w. induction l as [|m l IH]; intros w; simpl.
  { exists (rng (w_db w)), []. split; [|done]. by destruct w as [[]]. }
  destruct (mi_id m) as [id|].
  - destruct (IH w) as (n & ms & E & Hn). unfold mbind at 1, mret at 1. simpl. unfold mbind. rewrite E. by eexists n, _.
  - rewrite mbind_fresh_id. destruct (IH (set_w_db (set_rng (S (rng (w_db w))) (w_db w)) w)) as (n & ms & E & Hn).
    unfold mbind. rewrite E. eexists n, _. split; [done|]. simpl in Hn. lia.
Qed.

Lemma book_post_projects u i : book (post_projects u i).
Proof.
  intros w Hw. unfold post_projects. rewrite mbind_fresh_id.
  set (w1 := set_w_db (set_rng (S (rng (w_db w))) (w_db w)) w).
  destruct (withMilestoneIds_done (default [] (cpi_milestones i)) w1) as (n & ms & E & Hn).
  unfold mbind. rewrite E. simpl. simpl in Hn.
  match goal with |- context [set (project_id _)] => idtac | |- context [set ?k ?r (w_projects w)] =>
    destruct (project_add w (rng (w_db w)) n r Hw) as [H1' G1]; try done end.
Qed.

Lemma patch_keeps id (f : CoalitionProjectRecord -> CoalitionProjectRecord) :
  (forall p, (pj_id (f p) = pj_id p /\ pj_canopyId (f p) = pj_canopyId p /\ pj_leadId (f p) = pj_leadId p) /\
    pj_raisedCents (f p) = pj_raisedCents p /\ pj_supporterCount (f p) = pj_supporterCount p) ->
  book (update (E := wreq) (patch_project id f)).
Proof.
  intros Hf. apply keeps_update. intros w Hw. unfold patch_project.
  destruct (get id (w_projects w)) as [p|] eqn:Ep; [|by split]. simpl.
  destruct (Hf p) as (H1' & H2' & H3'). by apply (project_put w id p).
Qed.

Lemma book_milestones l : book (withMilestoneIds l).
Proof. induction l as [|m l IH]; simpl; repeat first [exact IH | book_step]. Qed.

Lemma book_patch_projects u id p : book (patch_projects u id p).
Proof.
  unfold patch_projects. repeat first [apply book_milestones | apply patch_keeps | book_step].
  - intros q. destruct p as [? [] [] [] [] [] [] [] ? []], a0; done.
  - done.
Qed.

#[export] Instance ledger_writers : Writers ledger_inv ledger_move.
Proof.
  assert (Hao : forall (f : world -> world), (forall w, audit_only w (f w)) ->
    stable ledger_inv ledger_move (fun w => (f w, tt))).
  { intros f Hf w Hw. apply ledger_apart_keeps; [done|]. apply Hf. }
  assert (Hso : forall A (f : world -> world * A), (forall w, subs_only w (fst (f w))) -> stable ledger_inv ledger_move f).
  { intros A f Hf w Hw. apply ledger_apart_keeps; [done|]. apply Hf. }
  split.
  13-24: (intros; apply Hso; intros; sub_side).
  - apply _.
  - intros w w' Hw Hc. by apply ledger_apart_keeps, calm_ledger_apart.
  - intros h [Ha Hn]. apply book_network; [by apply ok_api|].
    destruct (api_given h Ha) as [[i ->]|Hm]; [by destruct (Hn i)|exact Hm].
  - intros i Hi w Hw. by apply createTip_moves, plain_sound.
  - apply project_support_moves.
  - apply book_post_contribute.
  - apply book_captureTip.
  - apply refundTip_moves.
  - apply book_post_projects.
  - apply book_patch_projects.
  - intros. apply Hao. intros. apply audit_receipt.
  - intros. apply Hao. intros. apply audit_mark.
Qed.
End captures.

(** ** Theorems *)

Section theorems.
Context `{Env} `{MoneyEnv} `{!DrawLaws}.

Lemma reachable_ledger w : w_reachable w -> ledger_inv w.
Proof. apply (w_reachable_keeps ledger_inv ledger_move), ledger_inv_empty. Qed.

Lemma credit_sum kind ref l :
  sum_by (credit kind ref) l = sum_by tp_netCents (List.filter (credited kind ref) l).
Proof. by rewrite sum_by_filter. Qed.

(** C9 (invariant): at every moment of every run a campaign shows exactly what its
    captured tips brought in, net of the fee: whatever order orders, captures,
    retries and refunds came in, no captured tip is missing and none counts twice.  A
    refund does not take a contribution back. *)
Theorem campaign_meter w c :
  w_reachable w -> In c (values (campaigns (w_db w))) ->
  cp_raisedCents c =
    sum_by tp_netCents (List.filter (credited ck_coalition_drive (cp_id c)) (values (w_tips w))).
Proof.
  intros Hw%reachable_ledger Hc. destruct (inv_campaigns _ (li_db w Hw)) as (_ & _ & _ & _ & _ & Hbal).
  destruct (Hbal c Hc) as [-> _]. unfold given_to. rewrite sum_by_filter, <-credit_sum.
  apply (li_campaigns w Hw (cp_id c)).
Qed.

(** At every moment of every run a funded project shows exactly what
    its captured tips brought in, which is the sum of its support rows, and counts one
    supporter per row. *)
Theorem project_meter w p :
  w_reachable w -> In p (values (w_projects w)) ->
  pj_raisedCents p =
    sum_by tp_netCents (List.filter (credited ck_coalition_project (pj_id p)) (values (w_tips w))) /\
  pj_raisedCents p = sum_by su_amountCents (List.filter (supports_of (pj_id p)) (values (w_supports w))) /\
  pj_supporterCount p = Z.of_nat (length (List.filter (supports_of (pj_id p)) (values (w_supports w)))).
Proof.
  intros Hw%reachable_ledger Hp. pose proof (keyed_in _ _ (proj1 (li_projects w Hw)) Hp) as Hg.
  destruct (li_meters w Hw _ _ Hg) as (M1 & M2 & M3). change (keyof p) with (pj_id p) in *.
  rewrite <-credit_sum, sum_by_filter, <-count_by_filter. split_and!; [exact M3|exact M1|exact M2].
Qed.

(** C32 (safety): over any run a tip keeps its parties, purpose, currency and rate; it is
    captured at most once, its amounts are frozen from then on, a refund is final, and
    at every moment the fee is the rate of the gross to the nearest cent and the rest
    is net. *)
Theorem tip_lifecycle w w' id t :
  w_leads_to w w' -> db_getTip id w = Some t ->
  exists t', db_getTip id w' = Some t' /\ tip_later t t' /\ tip_wf t'.
Proof.
  intros Hl Hg.
  destruct (w_leads_to_keeps ledger_inv ledger_move w w' ledger_inv_empty Hl) as (_ & Hw' & _ & Ht & _).
  destruct (Ht id t Hg) as (t' & Hg' & L). exists t'. destruct (tip_row w' id t' Hw' Hg') as (_ & ? & _). done.
Qed.
End theorems.

(** ** Witnesses, on the sample run *)

Section witnesses.
#[local] Existing Instance market_env.
#[local] Existing Instance market_laws.
#[local] Existing Instance market_money.

(** The drive's tip and the project's tip paid, the drive's tip refunded. *)
Definition paid_and_refunded : list (W unit) :=
  market_payments ++ [ webhook (paid_event "ev7" "tipId" "aaa" purchase_refunded) ].

Lemma paid_and_refunded_api : Forall w_api paid_and_refunded.
Proof. repeat constructor. Qed.

Definition settled_world : world := store (after_run paid_and_refunded market_ordered).

Lemma settled_leads : w_leads_to (store market_ordered) settled_world.
Proof. apply market_ordered_leads, paid_and_refunded_api. Qed.

Definition settled_campaign : CoalitionCampaignRecord :=
  Eval vm_compute in
    match values (campaigns (w_db settled_world)) with c :: _ => c | [] => sample_campaign end.
Definition settled_project : CoalitionProjectRecord :=
  Eval vm_compute in
    match values (w_projects settled_world) with
    | p :: _ => p
    | [] => mk_project "" "" "" "" None proposed "" None None 0 None 0 None None [] None 0 0
    end.

Lemma campaign_meter_witness :
  cp_raisedCents settled_campaign = 4900 /\
  cp_raisedCents settled_campaign =
    sum_by tp_netCents (List.filter (credited ck_coalition_drive (cp_id settled_campaign)) (values (w_tips settled_world))).
Proof.
  split; [reflexivity|]. apply campaign_meter; [apply (leads_reachable _ _ settled_leads)|].
  vm_compute. left. reflexivity.
Defined.

Lemma project_meter_witness :
  pj_raisedCents settled_project = 4365 /\ pj_supporterCount settled_project = 1 /\
  pj_raisedCents settled_project =
    sum_by tp_netCents (List.filter (credited ck_coalition_project (pj_id settled_project)) (values (w_tips settled_world))).
Proof.
  split; [reflexivity|]. split; [reflexivity|].
  apply (project_meter settled_world settled_project); [apply (leads_reachable _ _ settled_leads)|].
  vm_compute. left. reflexivity.
Defined.

Lemma tip_lifecycle_witness :
  tp_status <$> db_getTip "aaa" (store market_ordered) = Some tip_pending /\
  tp_status <$> db_getTip "aaa" settled_world = Some tip_refunded /\
  exists t t', db_getTip "aaa" (store market_ordered) = Some t /\ db_getTip "aaa" settled_world = Some t' /\
    tip_later t t' /\ tip_wf t'.
Proof.
  split; [vm_compute; reflexivity|]. split; [vm_compute; reflexivity|].
  destruct (db_getTip "aaa" (store market_ordered)) as [t|] eqn:Et; [|vm_compute in Et; discriminate Et].
  destruct (tip_lifecycle (store market_ordered) settled_world "aaa" t settled_leads Et) as (t' & Et' & Hl).
  exists t, t'. split; [reflexivity|]. split; [exact Et'|exact Hl].
Defined.
End witnesses.
