(* ===== verification/Checkout.v ===== *)
(** * What a checkout writes

    [startContribution] and [contributeToAidPool], branch by branch: what is refused
    leaves the process as it was, what is accepted writes one pending tip. *)

From S2P Require Import Prelude JsMap Async CoalitionDomain Money Records Store Drives JoinRequirements Relay Slug.
From S2P Require Import Network Spec SpecInv Safety BillingRows Ledger Projects Tips Contributions Billing Growth.
From S2P Require Import Webhook MoneyApi MoneySample MoneyFrames LedgerInv LedgerSafety.
Open Scope Z_scope.

Section checkout.
Context `{Env} `{MoneyEnv} (oracle : forall X : Set, wreq X -> X).

Lemma silent_network {A} (m : H A) : moves eq m -> keeps (fun _ => True) eq (network m).
Proof. intros Hm. apply (zoom_silent w_db set_w_db Net); [apply _|apply set_db_self|done]. Qed.

Lemma unavailable_alone e g l w :
  exists r, run_alone oracle (contribution_unavailable e g l w) = (w, r) /\
    (r = Err commission_threw \/
     exists s, r = Ok {| sr_tip := None; sr_split := s; sr_session := None; sr_embed := false;
                         sr_checkoutError := Some e |}).
Proof.
  unfold contribution_unavailable. rewrite run_alone_past.
  2: { apply silent_network, await_reads, previewContribution_reads. }
  destruct (snd _) as [x|s]; simpl; eexists; split; eauto.
Qed.

Lemma quote_alone l w bps :
  snd (run_alone oracle (network (await (quoteCommissionBps l)) w)) = Some bps -> 0 <= bps <= COALITION_COMMISSION_BPS.
Proof.
  unfold network, zoom, await, quoteCommissionBps. destruct (truthy l) as [x|]; [|by intros [= <-]].
  destruct (negb _); [by intros [= <-]|]. cbn [mbind request obind ozoom run_alone].
  destruct (oracle _ _) as [q|]; simpl; [apply ceiling_range|by intros [= <-]].
Qed.

(** A tip that passes the checks: the row it makes. *)
Lemma createTip_ok i w w' t :
  createTip i w = (w', Ok t) ->
  w' = fst (insertTip t (fst (draw_uuid w))) /\ tp_id t = uuid (rng (w_db w)) /\ tp_status t = tip_pending /\
  (tp_senderUserId t = ti_senderUserId i /\ tp_recipientUserId t = ti_recipientUserId i /\
   tp_contextKind t = ti_contextKind i /\ tp_contextRef t = ti_contextRef i) /\
  tp_senderUserId t <> tp_recipientUserId t /\ getUserById (tp_recipientUserId t) (w_db w) <> None /\
  as_integer (ti_grossCents i) = Some (tp_grossCents t) /\ MIN_TIP_CENTS <= tp_grossCents t <= MAX_TIP_CENTS /\
  exists s, computePlatformCommission (ti_grossCents i) (default DEFAULT_PROVIDER (ti_providerId i))
      (ti_feeBpsOverride i) = Ok s /\
    tp_grossCents t = grossCents s /\ tp_feeCents t = feeCents s /\ tp_netCents t = netCents s /\
    tp_feeBps t = split_feeBps s.
Proof.
  unfold createTip. destruct (tip_checks i w) as [e|[s currency]] eqn:Ec; [done|]. simpl. intros [= <- <-].
  unfold tip_checks in Ec. case_bool_decide as Hself; [done|]. case_bool_decide as Huser; [done|].
  destruct (as_integer (ti_grossCents i)) as [g|] eqn:Eg; [|done].
  case_bool_decide; [done|]. case_bool_decide; [done|]. destruct (read_currency _); [|done].
  destruct (longer_than _ _); [done|]. destruct (computePlatformCommission _ _ _) as [|s'] eqn:Es; [done|].
  assert (s' = s) as -> by (destruct (truthy _) as [o|]; [destruct (findTipByOrderId _ _ _)|]; congruence).
  pose proof (commission_split _ _ _ _ Es) as (Eg' & _). rewrite Eg in Eg'. injection Eg' as ->.
  simpl. split_and!; try done; try lia. by exists s.
Qed.

Lemma createTip_err i w w' e : createTip i w = (w', Err e) -> w' = w.
Proof. unfold createTip. destruct (tip_checks i w) as [x|[s c]]; simpl; congruence. Qed.

(** The tip a contribution is paid by. *)
Definition pays_for (i : StartContributionInput) (w : world) (t : TipRecord) : Prop :=
  tp_id t = uuid (rng (w_db w)) /\ tp_status t = tip_pending /\
  tp_senderUserId t = sc_supporterUserId i /\ tp_contextKind t = ck_coalition_drive /\
  tp_contextRef t = Some (cp_id (sc_campaign i)) /\
  beneficiary_of i = Some (tp_recipientUserId t) /\ tp_recipientUserId t <> tp_senderUserId t /\
  getUserById (tp_recipientUserId t) (w_db w) <> None /\
  (cp_type (sc_campaign i) = type_mutual_aid -> truthy (cp_beneficiaryUserId (sc_campaign i)) <> None) /\
  as_integer (sc_grossCents i) = Some (tp_grossCents t) /\ MIN_TIP_CENTS <= tp_grossCents t <= MAX_TIP_CENTS /\
  0 <= tp_feeBps t <= COALITION_COMMISSION_BPS /\
  tp_feeCents t = round_bps (tp_grossCents t * tp_feeBps t) /\ tp_feeCents t + tp_netCents t = tp_grossCents t.

Lemma payable_spec i w b :
  payable i w = Some b ->
  beneficiary_of i = Some b /\
  (cp_type (sc_campaign i) = type_mutual_aid -> truthy (cp_beneficiaryUserId (sc_campaign i)) <> None).
Proof.
  unfold payable. destruct (beneficiary_of i) as [x|]; [|done].
  destruct (_ || _) eqn:E; [done|]. intros [= ->]. split; [done|].
  apply orb_false_iff in E as [E _]. intros Ht Hn. by rewrite !bool_decide_eq_true_2 in E.
Qed.

(** What may become of a contribution. *)
Definition contribution_outcome (i : StartContributionInput) (w w' : world)
    (r : res contribution_throw StartContributionResult) : Prop :=
  match r with
  | Err _ => w' = w
  | Ok r =>
      match sr_tip r with
      | None => w' = w /\ sr_session r = None /\ sr_checkoutError r <> None
      | Some t =>
          w' = fst (insertTip t (fst (draw_uuid w))) /\ pays_for i w t /\
          (grossCents (sr_split r) = tp_grossCents t /\ feeCents (sr_split r) = tp_feeCents t /\
           netCents (sr_split r) = tp_netCents t) /\
          (sr_session r = None <-> sr_checkoutError r = Some checkout_unavailable)
      end
  end.

Lemma unavailable_outcome i e g l w :
  let '(w', r) := run_alone oracle (contribution_unavailable e g l w) in contribution_outcome i w w' r.
Proof. by destruct (unavailable_alone e g l w) as (r & -> & [->|[s ->]]). Qed.

(** A contribution that is refused, for whatever reason, leaves the
    process exactly as it was; one that is accepted writes one pending tip to the
    right beneficiary, for the amount asked, at a rate the ceiling allows, and nothing
    else, whether or not the marketplace then opens a checkout. *)
Theorem startContribution_exact i w :
  let '(w', r) := run_alone oracle (startContribution i w) in contribution_outcome i w w' r.
Proof.
  unfold startContribution. destruct (assertFlatCommission _); [done|].
  destruct (truthy _) as [listing|]; [|apply unavailable_outcome]. destruct (negb _); [apply unavailable_outcome|].
  rewrite run_alone_past by apply silent_network, await_reads, quoteCommissionBps_reads.
  destruct (snd _) as [bps|] eqn:Eq; [|apply unavailable_outcome]. apply quote_alone in Eq.
  rewrite mbind_gets. destruct (payable i w) as [b|] eqn:Ep; [|apply unavailable_outcome].
  apply payable_spec in Ep as [Eb Haid]. rewrite mbind_update.
  destruct (createTip (drive_tip i b bps) w) as [w1 [e|t]] eqn:Et; cbn [fst snd].
  { simpl. by eapply createTip_err. }
  apply createTip_ok in Et as (-> & Eid & Est & (E1 & E2 & E3 & E4) & Hself & Huser & Eg & Hg & s & Es & S1 & S2 & S3 & S4).
  simpl in E1, E2, E3, E4, Eg, Es. pose proof (commission_bounds _ _ _ _ Es) as Hb.
  apply commission_split in Es as (_ & _ & _ & Ef & En & Er).
  unfold COALITION_COMMISSION_BPS in *. rewrite valid_fee_jint in Er by lia.
  assert (Hp : pays_for i w t).
  { rewrite Er in Ef. unfold pays_for, COALITION_COMMISSION_BPS. rewrite S4, S2, S3, S1, Er, E2.
    split_and!; try done; try congruence; lia. }
  unfold open_checkout. cbn [mbind request obind run_alone]. destruct (oracle _ _) as [session|]; simpl; by split_and!.
Qed.
End checkout.

(** ** Aid pools *)

Lemma pool_percent_range raised goal : 0 <= raised -> 0 <= pool_percent raised goal <= 100.
Proof.
  intros Hr. unfold pool_percent. destruct (goal <=? 0) eqn:E; [lia|]. apply Z.leb_gt in E.
  pose proof (Z.div_pos (200 * raised + goal) (2 * goal)). lia.
Qed.

Lemma pool_percent_full raised goal : 0 < goal -> goal <= raised -> pool_percent raised goal = 100.
Proof.
  intros Hg Hr. unfold pool_percent. destruct (goal <=? 0) eqn:E; [apply Z.leb_le in E; lia|].
  pose proof (Z.div_le_lower_bound (200 * raised + goal) (2 * goal) 100). lia.
Qed.

Lemma distinct_nonneg l : 0 <= distinct l.
Proof. unfold distinct. lia. Qed.

Lemma distinct_le l : distinct l <= Z.of_nat (length l).
Proof.
  unfold distinct. enough (length (remove_dups l) <= length l)%nat by lia.
  induction l as [|x l IH]; [done|]. simpl. destruct (decide_rel _ _ _); simpl; lia.
Qed.

Section pools.
Context `{Env} `{MoneyEnv} `{!DrawLaws}.

Lemma counted_amounts p c w t :
  ledger_inv w -> In t (List.filter (counts_for p c) (values (w_tips w))) ->
  tp_grossCents t = tp_feeCents t + tp_netCents t /\ 0 <= tp_feeCents t /\ 0 <= tp_netCents t.
Proof.
  intros Hw [Hin _]%filter_In.
  destruct (tip_row w _ t Hw (keyed_in _ _ (proj1 (li_tips w Hw)) Hin)) as (_ & [_ (G1 & G2 & G3 & G4 & _)] & _).
  pose proof (round_bps_bounds _ _ G1 G2). lia.
Qed.

(** The view of an aid pool, at any moment of any run: what was raised
    splits into fee and net to the cent, nothing is negative, no more senders than
    tips, and the percentage lies between zero and a hundred and is a hundred once the
    goal is raised. *)
Theorem pool_view_exact w id v :
  w_reachable w -> getAidPool id w = Some v ->
  let total := pv_total v in
  ag_raised total = ag_fee total + ag_net total /\ 0 <= ag_fee total /\ 0 <= ag_net total /\
  0 <= ag_uniqueSenders total <= ag_count total /\ 0 <= pv_percent v <= 100 /\
  (0 < po_goalCents (pv_record v) <= ag_raised total -> pv_percent v = 100).
Proof.
  intros Hw%reachable_ledger. unfold getAidPool. destruct (db_getAidPool id w) as [r|]; [|done].
  simpl. intros [= <-]. simpl. set (counted := List.filter _ _).
  pose proof (fun t => counted_amounts (po_id r) (po_currency r) w t Hw) as Ha. fold counted in Ha.
  assert (E : sum_by tp_grossCents counted = sum_by tp_feeCents counted + sum_by tp_netCents counted).
  { rewrite <-sum_by_add. apply sum_by_ext. intros t Ht. by apply Ha. }
  assert (Hf : 0 <= sum_by tp_feeCents counted) by (apply sum_by_nonneg; intros t Ht; by apply Ha).
  assert (Hn : 0 <= sum_by tp_netCents counted) by (apply sum_by_nonneg; intros t Ht; by apply Ha).
  split_and!; try done.
  - apply distinct_nonneg.
  - rewrite <-(length_map tp_senderUserId). apply distinct_le.
  - apply pool_percent_range; lia.
  - apply pool_percent_range; lia.
  - intros [? ?]. by apply pool_percent_full.
Qed.
End pools.

(** ** Witnesses, on the sample run *)

Section witnesses.
#[local] Existing Instance market_env.
#[local] Existing Instance market_laws.
#[local] Existing Instance market_money.

(** The pool of the sample run, once its one tip is captured. *)
Definition pool_paid : list (W unit) :=
  market_payments ++ [ webhook (paid_event "ev6" "tipId" "aaaaaaaaaa" purchase_succeeded) ].

Lemma pool_paid_api : Forall w_api pool_paid.
Proof. repeat constructor. Qed.

Definition sample_pool : AidPoolView :=
  Eval vm_compute in
    match getAidPool "aaaaaaaaa" (store (after_run pool_paid market_ordered)) with
    | Some v => v
    | None => {| pv_record := mk_pool "" "" "" None 0 "" pool_open 0 None None;
                 pv_total := {| ag_raised := 0; ag_fee := 0; ag_net := 0; ag_count := 0; ag_uniqueSenders := 0 |};
                 pv_percent := 0 |}
    end.

Lemma pool_view_exact_witness :
  let total := pv_total sample_pool in
  ag_raised total = 1500 /\ pv_percent sample_pool = 8 /\ ag_raised total = ag_fee total + ag_net total.
Proof.
  split; [reflexivity|]. split; [reflexivity|].
  apply (pool_view_exact (store (after_run pool_paid market_ordered)) "aaaaaaaaa" sample_pool).
  - apply leads_reachable with (w := store market_ordered). apply market_ordered_leads, pool_paid_api.
  - vm_compute. reflexivity.
Defined.
End witnesses.
