(* ===== verification/KeyTransparency.v ===== *)
(** * The key-transparency log
      (services/keyTransparency.ts, keyTransparencyStorage.ts, routes/keyTransparency.ts)

    An append-only Merkle log of identity keys after RFC 6962: leaf and node
    hashes, audit paths and consistency proofs by recursion on slices of the leaf
    list, and the verifier, which walks a path with two shifting counters.  Buffers
    are strings of 8-bit characters.  SHA-256 and the base64url coding of
    [Buffer] belong to Node: they are the operations of the class [NodeBuffers],
    whose documented laws are [NodeBuffersLaws].  The verifier shifts with the
    32-bit [>>] of the language, and its inner [while] runs on fuel, [None]
    meaning that it is still running. *)

From S2P Require Import Prelude JsMap Async CoalitionDomain Records Store.
Open Scope string_scope.

(** ** The runtime's functions *)

Class NodeBuffers : Type := {
  sha256 : string -> string;
  toBase64url : string -> string;
  fromBase64url : string -> string;
}.

Class NodeBuffersLaws `{NodeBuffers} : Prop := {
  sha256_length b : String.length (sha256 b) = 32%nat;
  base64url_roundtrip b : fromBase64url (toBase64url b) = b;
}.

(** ** JSON.stringify of an entry *)

Definition quote_char : ascii := "034"%char.
Definition backslash : ascii := "092"%char.
Definition char_str (c : ascii) : string := String c "".

Definition hex_digit (n : nat) : ascii :=
  ascii_of_nat (if n <? 10 then 48 + n else 87 + n)%nat.

(** One character of a JSON string literal. *)
Definition json_char (c : ascii) : string :=
  let n := nat_of_ascii c in
  if bool_decide (c = quote_char) || bool_decide (c = backslash) then String backslash (char_str c)
  else if (n =? 8)%nat then String backslash "b"
  else if (n =? 9)%nat then String backslash "t"
  else if (n =? 10)%nat then String backslash "n"
  else if (n =? 12)%nat then String backslash "f"
  else if (n =? 13)%nat then String backslash "r"
  else if (n <? 32)%nat then
    String backslash ("u00" +:+ String (hex_digit (n / 16)) (char_str (hex_digit (n mod 16))))
  else char_str c.

Fixpoint json_chars (s : string) : string :=
  match s with
  | "" => ""
  | String c s => json_char c +:+ json_chars s
  end.

Definition json_string (s : string) : string :=
  String quote_char (json_chars s +:+ char_str quote_char).

Record KeyEntry : Type := {
  ke_userId : string;
  ke_masterKey : string;
  ke_publishedAt : Z;
}.

Definition json_field (name : string) : string := json_string name +:+ ":".

Definition encodeEntry (entry : KeyEntry) : string :=
  "{" +:+ json_field "userId" +:+ json_string (ke_userId entry) +:+ "," +:+
  json_field "masterKey" +:+ json_string (ke_masterKey entry) +:+ "," +:+
  json_field "publishedAt" +:+ pretty (ke_publishedAt entry) +:+ "}".

(** ** The tree *)

Section tree.
Context `{NodeBuffers}.

Definition leafHash (data : string) : string := sha256 (String "000"%char data).
Definition nodeHash (left right : string) : string := sha256 (String "001"%char (left +:+ right)).

(** [while (k * 2 < n) k *= 2;] *)
Fixpoint double_while (fuel : nat) (n k : nat) : nat :=
  match fuel with
  | O => k
  | S fuel => if (k * 2 <? n)%nat then double_while fuel n (k * 2) else k
  end.
Definition largestPowerOfTwoLessThan (n : nat) : nat := double_while n n 1.

(** The recursions are on slices shorter than the list; the fuel of each is the
    number of leaves. *)
Fixpoint mth_fuel (fuel : nat) (leaves : list string) : string :=
  match fuel, leaves with
  | _, [] => sha256 ""
  | _, [d] => leafHash d
  | O, _ => ""
  | S fuel, _ =>
      let k := largestPowerOfTwoLessThan (length leaves) in
      nodeHash (mth_fuel fuel (firstn k leaves)) (mth_fuel fuel (skipn k leaves))
  end.
Definition mth (leaves : list string) : string := mth_fuel (length leaves) leaves.

Fixpoint auditPath_fuel (fuel : nat) (m : nat) (leaves : list string) : list string :=
  match fuel, leaves with
  | _, [] | _, [_] | O, _ => []
  | S fuel, _ =>
      let k := largestPowerOfTwoLessThan (length leaves) in
      if (m <? k)%nat then (auditPath_fuel fuel m (firstn k leaves) ++ [mth (skipn k leaves)])%list
      else (auditPath_fuel fuel (m - k) (skipn k leaves) ++ [mth (firstn k leaves)])%list
  end.
Definition auditPath (m : nat) (leaves : list string) : list string :=
  auditPath_fuel (length leaves) m leaves.

(** [None] is the thrown range error. *)
Fixpoint subProof_fuel (fuel : nat) (m : nat) (leaves : list string) (b : bool) : option (list string) :=
  if (m =? length leaves)%nat then Some (if b then [] else [mth leaves])
  else if (m <? length leaves)%nat then
    match fuel with
    | O => None
    | S fuel =>
        let k := largestPowerOfTwoLessThan (length leaves) in
        if (m <=? k)%nat then
          (fun p => (p ++ [mth (skipn k leaves)])%list) <$> subProof_fuel fuel m (firstn k leaves) b
        else
          (fun p => (p ++ [mth (firstn k leaves)])%list) <$> subProof_fuel fuel (m - k) (skipn k leaves) false
    end
  else None.

(** The module's function of this name; the log's method is [log_consistencyProof]. *)
Definition consistencyProof (m : nat) (leaves : list string) : option (list string) :=
  if (m =? length leaves)%nat then Some [] else subProof_fuel (length leaves) m leaves true.

(** ** The log *)

Record TreeRoot : Type := { tr_treeSize : Z; tr_rootHash : string }.

Record InclusionProof : Type := {
  ip_leafIndex : Z;
  ip_treeSize : Z;
  ip_auditPath : list string;
  ip_leafHash : string;
}.

Record ConsistencyProof : Type := {
  cn_fromSize : Z;
  cn_toSize : Z;
  cn_nodes : list string;
}.

(** The storage keeps the entries in append order; both adapters behave so. *)
Record KeyTransparencyLog : Type := {
  kt_leaves : list string;
  kt_entries : list KeyEntry;
  kt_storage : list KeyEntry;
}.

(** The constructor: hydrate from what the storage loads. *)
Definition open_log (storage : list KeyEntry) : KeyTransparencyLog :=
  fold_left (fun log entry =>
      {| kt_leaves := (kt_leaves log ++ [encodeEntry entry])%list;
         kt_entries := (kt_entries log ++ [entry])%list;
         kt_storage := kt_storage log |})
    storage {| kt_leaves := []; kt_entries := []; kt_storage := storage |}.

Definition log_root (log : KeyTransparencyLog) : TreeRoot :=
  let hash := if (length (kt_leaves log) =? 0)%nat then sha256 "" else mth (kt_leaves log) in
  {| tr_treeSize := Z.of_nat (length (kt_leaves log)); tr_rootHash := toBase64url hash |}.

Definition log_append (entry : KeyEntry) (log : KeyTransparencyLog) :
    KeyTransparencyLog * (Z * TreeRoot) :=
  let encoded := encodeEntry entry in
  let idx := length (kt_leaves log) in
  let log := {| kt_leaves := (kt_leaves log ++ [encoded])%list;
                kt_entries := (kt_entries log ++ [entry])%list;
                kt_storage := (kt_storage log ++ [entry])%list |} in
  (log, (Z.of_nat idx, log_root log)).

Definition log_inclusionProof (leafIndex : Z) (log : KeyTransparencyLog) : option InclusionProof :=
  let size := Z.of_nat (length (kt_leaves log)) in
  if (leafIndex <? 0)%Z || (size <=? leafIndex)%Z then None
  else
    let m := Z.to_nat leafIndex in
    Some {| ip_leafIndex := leafIndex;
            ip_treeSize := size;
            ip_auditPath := map toBase64url (auditPath m (kt_leaves log));
            ip_leafHash := toBase64url (leafHash (nth m (kt_leaves log) "")) |}.

Definition log_consistencyProof (fromSize toSize : Z) (log : KeyTransparencyLog) :
    option ConsistencyProof :=
  if (fromSize <? 0)%Z || (toSize <? fromSize)%Z || (Z.of_nat (length (kt_leaves log)) <? toSize)%Z
  then None
  else if (fromSize =? 0)%Z || (fromSize =? toSize)%Z then
    Some {| cn_fromSize := fromSize; cn_toSize := toSize; cn_nodes := [] |}
  else
    (fun proof => {| cn_fromSize := fromSize; cn_toSize := toSize; cn_nodes := map toBase64url proof |})
    <$> consistencyProof (Z.to_nat fromSize) (firstn (Z.to_nat toSize) (kt_leaves log)).

Definition findEntriesByUser (userId : string) (log : KeyTransparencyLog) : list (Z * KeyEntry) :=
  List.filter (fun p => bool_decide (ke_userId (snd p) = userId))
    (combine (map Z.of_nat (seq 0 (length (kt_entries log)))) (kt_entries log)).

(** ** The verifier *)

(** [z >> 1]: the operand is first wrapped to 32 bits. *)
Definition to_int32 (z : Z) : Z := ((z + 2 ^ 31) mod 2 ^ 32 - 2 ^ 31)%Z.
Definition shr1 (z : Z) : Z := Z.shiftr (to_int32 z) 1.

(** [while (fn % 2 === 0) { fn = fn >> 1; sn = sn >> 1; }] *)
Fixpoint strip_zeros (fuel : nat) (fn sn : Z) : option (Z * Z) :=
  match fuel with
  | O => None
  | S fuel =>
      if (Z.rem fn 2 =? 0)%Z then strip_zeros fuel (shr1 fn) (shr1 sn) else Some (fn, sn)
  end.

(** The loop over the path, already decoded; [None]: still running,
    [Some None]: it returned false inside the loop. *)
Fixpoint verify_walk (fuel : nat) (hash : string) (fn sn : Z) (path : list string) :
    option (option (string * Z)) :=
  match path with
  | [] => Some (Some (hash, sn))
  | sib :: path =>
      if (sn =? 0)%Z then Some None
      else if (Z.rem fn 2 =? 1)%Z || (fn =? sn)%Z then
        let hash := nodeHash sib hash in
        match (if (Z.rem fn 2 =? 0)%Z then strip_zeros fuel fn sn else Some (fn, sn)) with
        | None => None
        | Some (fn, sn) => verify_walk fuel hash (shr1 fn) (shr1 sn) path
        end
      else verify_walk fuel (nodeHash hash sib) (shr1 fn) (shr1 sn) path
  end.

Definition verifyInclusion (fuel : nat) (proof : InclusionProof) (expectedRoot : TreeRoot) : option bool :=
  if negb (ip_treeSize proof =? tr_treeSize expectedRoot)%Z then Some false
  else if (ip_leafIndex proof <? 0)%Z || (ip_treeSize proof <=? ip_leafIndex proof)%Z then Some false
  else
    match verify_walk fuel (fromBase64url (ip_leafHash proof)) (ip_leafIndex proof)
            (ip_treeSize proof - 1)%Z (map fromBase64url (ip_auditPath proof)) with
    | None => None
    | Some None => Some false
    | Some (Some (hash, sn)) =>
        Some ((sn =? 0)%Z && bool_decide (toBase64url hash = tr_rootHash expectedRoot))
    end.

(** ** The routes that write to the log or run the verifier *)

Inductive kt_response : Type :=
  | kt_ok (leafIndex : Z) (root : TreeRoot)
  | kt_unauthorized
  | kt_user_mismatch.

Section append_route.
Context `{Env}.

(** POST /append, for the signed-in [user] and the validated body. *)
Definition route_append (user : string) (userId : option string) (masterKey : string)
    (now : Z) (d : db) (log : KeyTransparencyLog) : KeyTransparencyLog * kt_response :=
  match truthy (matrixUserIdFor user d) with
  | None => (log, kt_unauthorized)
  | Some own =>
      let userId := default own userId in
      if negb (bool_decide (resolveBlackoutUserId userId d = Some user)) then (log, kt_user_mismatch)
      else
        let '(log, (leafIndex, root)) :=
          log_append {| ke_userId := userId; ke_masterKey := masterKey; ke_publishedAt := now |} log in
        (log, kt_ok leafIndex root)
  end.
End append_route.

(** GET /inclusion/:leafIndex, after parsing; [None] is the 404. *)
Definition route_inclusion (idx : Z) (log : KeyTransparencyLog) : option InclusionProof :=
  if (idx <? 0)%Z || (Z.of_nat (length (kt_leaves log)) <=? idx)%Z then None
  else log_inclusionProof idx log.

(** POST /verify: its schema asks for an integer index from 0 and an integer size
    from 1, and for no upper bound. *)
Definition verify_schema (proof : InclusionProof) (root : TreeRoot) : bool :=
  (0 <=? ip_leafIndex proof)%Z && (1 <=? ip_treeSize proof)%Z && (0 <=? tr_treeSize root)%Z.
End tree.
