(* ===== verification/Text.v ===== *)
(** * The string methods the outreach services use

    [split], [indexOf] with [slice], [replace] of a first occurrence, [trimEnd],
    the trailing-slash pattern, byte offsets, and [clip] of
    [services/coalitionSync.ts].  Strings are lists of code units. *)

From S2P Require Import Prelude JsMap CoalitionDomain Records Store Relay Slug.

(** [s.indexOf(c)] with the two slices around it. *)
Fixpoint cut_at (c : ascii) (s : string) : option (string * string) :=
  match s with
  | EmptyString => None
  | String x s' =>
      if Ascii.eqb x c then Some ("", s')
      else match cut_at c s' with
           | Some (a, b) => Some (String x a, b)
           | None => None
           end
  end.

(** [s.split(c)] *)
Fixpoint split_at (c : ascii) (s : string) : list string :=
  match s with
  | EmptyString => [""]
  | String x s' =>
      if Ascii.eqb x c then "" :: split_at c s'
      else match split_at c s' with
           | w :: ws => String x w :: ws
           | [] => [String x ""]
           end
  end.

(** [s.startsWith(p)], with what follows. *)
Fixpoint strip_prefix (p s : string) : option string :=
  match p, s with
  | EmptyString, _ => Some s
  | String a p', String b s' => if Ascii.eqb a b then strip_prefix p' s' else None
  | String _ _, EmptyString => None
  end.
Definition startsWith (p s : string) : bool := bool_decide (strip_prefix p s <> None).

(** The first occurrence of [p] in [s]: what precedes it and what follows it. *)
Fixpoint find_text (p s : string) : option (string * string) :=
  match strip_prefix p s with
  | Some rest => Some ("", rest)
  | None =>
      match s with
      | EmptyString => None
      | String x s' =>
          match find_text p s' with
          | Some (a, b) => Some (String x a, b)
          | None => None
          end
      end
  end.

(** [s.includes(p)] *)
Definition text_includes (p s : string) : bool := bool_decide (find_text p s <> None).

(** [s.replace(p, r)] for a string [p]; the replacements of the sources hold no
    [$], which [encodeURIComponent] escapes. *)
Definition replace_first (p r s : string) : string :=
  match find_text p s with
  | Some (a, b) => a +:+ r +:+ b
  | None => s
  end.

(** [s.trimEnd()] *)
Definition trim_end (s : string) : string := rev_string (trim_start (rev_string s)).

(** [s.replace(/\/+$/, '')] *)
Fixpoint drop_slashes (s : string) : string :=
  match s with
  | String c s' => if Ascii.eqb c "/"%char then drop_slashes s' else s
  | EmptyString => s
  end.
Definition strip_slashes (s : string) : string := rev_string (drop_slashes (rev_string s)).

(** The length of [s] in UTF-8. *)
Definition utf8_length (s : string) : nat := length (flat_map utf8 (chars s)).

(** U+2026, see [utf8]. *)
Definition ELLIPSIS : string := String (ascii_of_nat 133) "".

(** [value.slice(0, n)] *)
Definition slice0 (n : nat) (s : string) : string := String.substring 0 n s.

Definition clip (value : string) (max : nat) : string :=
  if Nat.leb (String.length value) max then value
  else trim_end (slice0 (Nat.max 0 (max - 1)) value) +:+ ELLIPSIS.

(** ** Lemmas *)

Lemma length_app_string a b : String.length (a +:+ b) = String.length a + String.length b.
Proof. induction a as [|x a IH]; simpl; [done|]. by rewrite IH. Qed.

Lemma length_rev_string s : String.length (rev_string s) = String.length s.
Proof.
  assert (Hl : forall l, String.length (of_chars l) = length l) by (induction l; simpl; congruence).
  assert (Hc : forall t, length (chars t) = String.length t) by (induction t; simpl; congruence).
  unfold rev_string. by rewrite Hl, length_rev, Hc.
Qed.

Lemma length_trim_start s : String.length (trim_start s) <= String.length s.
Proof. induction s as [|c s IH]; simpl; [lia|]. destruct (is_space c); simpl; lia. Qed.

Lemma length_trim_end s : String.length (trim_end s) <= String.length s.
Proof.
  unfold trim_end. rewrite length_rev_string, <-(length_rev_string s). apply length_trim_start.
Qed.

Lemma length_slice0 n s : String.length (slice0 n s) <= n.
Proof.
  unfold slice0. revert s. induction n as [|n IH]; intros [|c s]; simpl; try lia.
  specialize (IH s). lia.
Qed.

(** What is clipped fits. *)
Lemma clip_length value max : 1 <= max -> String.length (clip value max) <= max.
Proof.
  intros Hm. unfold clip. destruct (Nat.leb_spec (String.length value) max); [done|].
  rewrite length_app_string. pose proof (length_trim_end (slice0 (Nat.max 0 (max - 1)) value)).
  pose proof (length_slice0 (Nat.max 0 (max - 1)) value). simpl (String.length ELLIPSIS). lia.
Qed.

Lemma clip_short value max : String.length value <= max -> clip value max = value.
Proof. intros Hl. unfold clip. by destruct (Nat.leb_spec (String.length value) max); [|lia]. Qed.

(** A text without the separator comes back whole, and joining undoes splitting. *)
Definition free_of (c : ascii) (s : string) : Prop := ~ In c (chars s).

Lemma free_cons c x s : free_of c (String x s) <-> x <> c /\ free_of c s.
Proof. unfold free_of. simpl. intuition. Qed.

Lemma free_app c a b : free_of c (a +:+ b) <-> free_of c a /\ free_of c b.
Proof. unfold free_of. rewrite chars_app, in_app_iff. tauto. Qed.

Lemma cut_at_app c a b : free_of c a -> cut_at c (a +:+ String c b) = Some (a, b).
Proof.
  induction a as [|x a IH]; intros Ha; simpl.
  - by rewrite Ascii.eqb_refl.
  - apply free_cons in Ha as [Hx Ha]. apply Ascii.eqb_neq in Hx. rewrite Hx. by rewrite IH.
Qed.

Lemma cut_at_spec c s a b : cut_at c s = Some (a, b) -> s = a +:+ String c b /\ free_of c a.
Proof.
  revert a b. induction s as [|x s IH]; intros a b; simpl; [done|].
  destruct (Ascii.eqb x c) eqn:E.
  - apply Ascii.eqb_eq in E as ->. intros [= <- <-]. split; [done|]. unfold free_of. simpl. tauto.
  - apply Ascii.eqb_neq in E. destruct (cut_at c s) as [[a' b']|]; [|done]. intros [= <- <-].
    destruct (IH a' b' eq_refl) as [-> Hf]. split; [done|]. by apply free_cons.
Qed.

Lemma split_at_free c s : free_of c s -> split_at c s = [s].
Proof.
  induction s as [|x s IH]; intros Hs; simpl; [done|]. apply free_cons in Hs as [Hx Hs].
  apply Ascii.eqb_neq in Hx. by rewrite Hx, IH.
Qed.

Lemma split_at_app c a b : free_of c a -> split_at c (a +:+ String c b) = a :: split_at c b.
Proof.
  induction a as [|x a IH]; intros Ha; simpl.
  - by rewrite Ascii.eqb_refl.
  - apply free_cons in Ha as [Hx Ha]. apply Ascii.eqb_neq in Hx. rewrite Hx. by rewrite IH.
Qed.

Lemma strip_prefix_app p s : strip_prefix p (p +:+ s) = Some s.
Proof. induction p as [|x p IH]; simpl; [done|]. by rewrite Ascii.eqb_refl, IH. Qed.

Lemma strip_prefix_spec p s r : strip_prefix p s = Some r -> s = p +:+ r.
Proof.
  revert s. induction p as [|x p IH]; intros [|y s]; simpl; [by intros [= <-]..|done|].
  destruct (Ascii.eqb x y) eqn:E; [|done]. apply Ascii.eqb_eq in E as ->. intros Hs. by rewrite (IH s Hs).
Qed.

Lemma find_text_spec p s a b : find_text p s = Some (a, b) -> s = a +:+ p +:+ b.
Proof.
  revert a b. induction s as [|x s IH]; intros a b; simpl.
  - destruct p as [|y p]; simpl; [intros [= <- <-]; reflexivity|done].
  - destruct (strip_prefix p (String x s)) as [r|] eqn:E.
    + intros [= <- <-]. change (String x s = p +:+ r). by apply strip_prefix_spec.
    + destruct (find_text p s) as [[a' b']|]; [|done]. intros [= <- <-].
      change (String x s = String x (a' +:+ p +:+ b')). by rewrite <-(IH a' b' eq_refl).
Qed.

Lemma find_text_head p b : find_text p (p +:+ b) = Some ("", b).
Proof.
  pose proof (strip_prefix_app p b) as Hs. revert Hs. generalize (p +:+ b) as s.
  intros [|y s] Hs; simpl; by rewrite Hs.
Qed.

Lemma find_text_found p a b : find_text p (a +:+ p +:+ b) <> None.
Proof.
  induction a as [|x a IH]; [by change ("" +:+ p +:+ b) with (p +:+ b); rewrite find_text_head|].
  change (String x a +:+ p +:+ b) with (String x (a +:+ p +:+ b)). simpl.
  destruct (strip_prefix p _); [done|]. by destruct (find_text p (a +:+ p +:+ b)) as [[]|].
Qed.
