(* ===== verification/SecretBox.v ===== *)
(** * Credentials at rest: [packages/api/src/services/secretBox.ts]

    The AES-256-GCM envelope [keyId:nonce:ciphertext:tag] under which a coalition's
    and a member's platform credentials are stored.  The cipher and the codings of
    [Buffer] belong to Node: they are the operations of [SecretRuntime], whose
    documented laws are [SecretRuntimeLaws].  Buffers are strings of 8-bit
    characters.  The cache of the parsed configuration is left out: the variable
    does not change while the process runs. *)

From S2P Require Import Prelude JsMap CoalitionDomain Records Store Relay Slug Text.

(** ** The runtime *)

Class SecretRuntime : Type := {
  LINKED_ACCOUNT_ENCRYPTION_KEYS : option string;
  (** [Buffer.from(s, 'base64')] *)
  fromBase64 : string -> string;
  toBase64url : string -> string;
  fromBase64url : string -> string;
  toUtf8 : string -> string;
  fromUtf8 : string -> string;
  (** the [n]-th draw of [randomBytes(length)] *)
  randomBytes : nat -> nat -> string;
  (** [aes-256-gcm] under a key, a nonce and the authenticated data: ciphertext and tag *)
  gcm_seal : string -> string -> string -> string -> string * string;
  (** the same with the ciphertext and the tag; [None] when [final()] throws *)
  gcm_open : string -> string -> string -> string -> string -> option string;
}.

Class SecretRuntimeLaws `{SecretRuntime} : Prop := {
  base64url_back b : fromBase64url (toBase64url b) = b;
  base64url_colon_free b : free_of ":"%char (toBase64url b);
  utf8_back s : fromUtf8 (toUtf8 s) = s;
  randomBytes_length n len : String.length (randomBytes n len) = len;
  gcm_tag_length key nonce aad text : String.length (snd (gcm_seal key nonce aad text)) = 16;
  (** opening gives what sealing under the same data turns into this ciphertext and tag *)
  gcm_exact key nonce aad text ct tag :
    gcm_open key nonce aad ct tag = Some text <-> gcm_seal key nonce aad text = (ct, tag);
}.

Definition KEY_BYTES : nat := 32.
Definition NONCE_BYTES : nat := 12.
Definition TAG_BYTES : nat := 16.

Record SecretBoxKey : Type := { sk_id : string; sk_bytes : string }.

Record SecretBoxConfig : Type := { sc_primary : SecretBoxKey; sc_byId : jsmap SecretBoxKey }.

(** The errors thrown. *)
Inductive SecretError : Type :=
  | key_malformed (index : nat)
  | key_id_invalid (index : nat)
  | key_length (index length : nat)
  | keys_missing
  | no_keys
  | key_duplicate (id : string)
  | envelope_parts
  | key_unknown (id : string)
  | nonce_length (length : nat)
  | tag_length (length : nat)
  | not_authentic.

(** ** Configuration *)

(** [/^[A-Za-z0-9_-]{1,32}$/] *)
Definition key_id_ok (id : string) : bool :=
  Nat.leb 1 (String.length id) && Nat.leb (String.length id) 32
  && forallb (fun c => is_alnum c || Ascii.eqb c "_"%char || Ascii.eqb c "-"%char) (chars id).

Section secretbox.
Context `{SecretRuntime}.

Definition parseKeyEntry (raw : string) (index : nat) : res SecretError SecretBoxKey :=
  match cut_at ":"%char raw with
  | None => Err (key_malformed index)
  | Some (before, after) =>
      if bool_decide (before = "") then Err (key_malformed index)
      else
        let id := js_trim before in
        let b64 := js_trim after in
        if negb (key_id_ok id) then Err (key_id_invalid index)
        else
          let bytes := fromBase64 b64 in
          if negb (bool_decide (String.length bytes = KEY_BYTES)) then Err (key_length index (String.length bytes))
          else Ok {| sk_id := id; sk_bytes := bytes |}
  end.

(** [entries.map(parseKeyEntry)] *)
Fixpoint parse_entries (index : nat) (raws : list string) : res SecretError (list SecretBoxKey) :=
  match raws with
  | [] => Ok []
  | raw :: raws =>
      res_bind (parseKeyEntry raw index) (fun k =>
      res_bind (parse_entries (S index) raws) (fun ks => Ok (k :: ks)))
  end.

(** [byId.set(key.id, key)] for each key, refusing a second of the same id. *)
Fixpoint index_keys (ks : list SecretBoxKey) (byId : jsmap SecretBoxKey) :
    res SecretError (jsmap SecretBoxKey) :=
  match ks with
  | [] => Ok byId
  | k :: ks =>
      match get (sk_id k) byId with
      | Some _ => Err (key_duplicate (sk_id k))
      | None => index_keys ks (set (sk_id k) k byId)
      end
  end.

Definition readSecretBoxConfig : res SecretError SecretBoxConfig :=
  match truthy (js_trim <$> LINKED_ACCOUNT_ENCRYPTION_KEYS) with
  | None => Err keys_missing
  | Some raw =>
      let parts := List.filter (fun s => negb (bool_decide (s = ""))) (map js_trim (split_at ","%char raw)) in
      res_bind (parse_entries 0 parts) (fun entries =>
      match entries with
      | [] => Err no_keys
      | primary :: _ =>
          res_bind (index_keys entries []) (fun byId =>
          Ok {| sc_primary := primary; sc_byId := byId |})
      end)
  end.

(** ** The envelope *)

(** [if (options.aad) setAAD(Buffer.from(options.aad, 'utf8'))] *)
Definition aad_bytes (aad : string) : string := if bool_decide (aad = "") then "" else toUtf8 aad.

(** [n] is the draw of the nonce. *)
Definition encryptSecret (plaintext aad : string) (n : nat) : res SecretError string :=
  res_bind readSecretBoxConfig (fun config =>
  let primary := sc_primary config in
  let nonce := randomBytes n NONCE_BYTES in
  let '(encrypted, tag) := gcm_seal (sk_bytes primary) nonce (aad_bytes aad) (toUtf8 plaintext) in
  Ok (sk_id primary +:+ ":" +:+ toBase64url nonce +:+ ":" +:+ toBase64url encrypted +:+ ":" +:+ toBase64url tag)).

Definition decryptSecret (envelope aad : string) : res SecretError string :=
  match split_at ":"%char envelope with
  | [keyId; nonceB64; ctB64; tagB64] =>
      res_bind readSecretBoxConfig (fun config =>
      match get keyId (sc_byId config) with
      | None => Err (key_unknown keyId)
      | Some key =>
          let nonce := fromBase64url nonceB64 in
          let tag := fromBase64url tagB64 in
          if negb (bool_decide (String.length nonce = NONCE_BYTES)) then Err (nonce_length (String.length nonce))
          else if negb (bool_decide (String.length tag = TAG_BYTES)) then Err (tag_length (String.length tag))
          else
            match gcm_open (sk_bytes key) nonce (aad_bytes aad) (fromBase64url ctB64) tag with
            | None => Err not_authentic
            | Some plaintext => Ok (fromUtf8 plaintext)
            end
      end)
  | _ => Err envelope_parts
  end.

Definition envelopeKeyId (envelope : string) : res SecretError string :=
  match cut_at ":"%char envelope with
  | Some (id, _) => if bool_decide (id = "") then Err envelope_parts else Ok id
  | None => Err envelope_parts
  end.
End secretbox.

(** ** Round trip *)

Section roundtrip.
Context `{SecretRuntime} `{!SecretRuntimeLaws}.

Lemma parseKeyEntry_id raw i k : parseKeyEntry raw i = Ok k -> key_id_ok (sk_id k) = true.
Proof.
  unfold parseKeyEntry. destruct (cut_at _ raw) as [[a b]|]; [|done]. case_bool_decide; [done|].
  destruct (key_id_ok (js_trim a)) eqn:E; [|done]. simpl. case_bool_decide; [|done]. by intros [= <-].
Qed.

Lemma parse_entries_ids i raws ks :
  parse_entries i raws = Ok ks -> Forall (fun k => key_id_ok (sk_id k) = true) ks.
Proof.
  revert i ks. induction raws as [|raw raws IH]; intros i ks; simpl; [intros [= <-]; constructor|].
  destruct (parseKeyEntry raw i) as [|k] eqn:E1; [done|]. simpl.
  destruct (parse_entries (S i) raws) as [|ks'] eqn:E2; [done|]. intros [= <-].
  constructor; [by eapply parseKeyEntry_id|by eapply IH].
Qed.

Lemma index_keys_get ks byId m k :
  index_keys ks byId = Ok m -> get (sk_id k) byId = Some k \/ In k ks -> get (sk_id k) m = Some k.
Proof.
  revert byId. induction ks as [|x ks IH]; intros byId; simpl; [intros [= ->]; tauto|].
  destruct (get (sk_id x) byId) eqn:Ex; [done|]. intros Hm Hk. apply (IH _ Hm).
  rewrite get_set. destruct Hk as [Hk|[->|Hk]]; [|by left; rewrite decide_True|by right].
  left. destruct (decide (sk_id x = sk_id k)) as [E|]; [|done]. rewrite E in Ex. congruence.
Qed.

(** The primary key seals, and is found again under its id, which holds no colon. *)
Lemma config_primary config :
  readSecretBoxConfig = Ok config ->
  get (sk_id (sc_primary config)) (sc_byId config) = Some (sc_primary config) /\
  key_id_ok (sk_id (sc_primary config)) = true.
Proof.
  unfold readSecretBoxConfig. destruct (truthy _) as [raw|]; [|done].
  destruct (parse_entries 0 _) as [|[|k ks]] eqn:Ep; [done..|]. cbn [res_bind].
  destruct (index_keys (k :: ks) []) as [|m] eqn:Ei; [done|]. cbn [res_bind]. intros [= <-]. simpl.
  apply parse_entries_ids in Ep. inversion Ep; subst. split; [|done].
  eapply index_keys_get; [exact Ei|]. right. by left.
Qed.

Lemma key_id_colon_free id : key_id_ok id = true -> free_of ":"%char id.
Proof.
  unfold key_id_ok. rewrite !andb_true_iff. intros [_ Hf] Hin.
  rewrite forallb_forall in Hf. by specialize (Hf _ Hin).
Qed.

(** What an envelope is, piece by piece. *)
Lemma envelope_split id a b c :
  free_of ":"%char id ->
  split_at ":"%char (id +:+ ":" +:+ toBase64url a +:+ ":" +:+ toBase64url b +:+ ":" +:+ toBase64url c) =
  [id; toBase64url a; toBase64url b; toBase64url c].
Proof.
  intros Hid. change (":" +:+ ?s) with (String ":"%char s).
  rewrite split_at_app by done.
  change (":" +:+ toBase64url b +:+ ?s) with (String ":"%char (toBase64url b +:+ s)).
  rewrite split_at_app by apply base64url_colon_free.
  change (":" +:+ toBase64url c) with (String ":"%char (toBase64url c)).
  rewrite split_at_app by apply base64url_colon_free.
  by rewrite split_at_free by apply base64url_colon_free.
Qed.

(** How opening an envelope goes, whatever data it is opened with. *)
Lemma decrypt_sealed plaintext aad n envelope config aad' :
  readSecretBoxConfig = Ok config -> encryptSecret plaintext aad n = Ok envelope ->
  let key := sk_bytes (sc_primary config) in
  let sealed := gcm_seal key (randomBytes n NONCE_BYTES) (aad_bytes aad) (toUtf8 plaintext) in
  decryptSecret envelope aad' =
    match gcm_open key (randomBytes n NONCE_BYTES) (aad_bytes aad') (fst sealed) (snd sealed) with
    | None => Err not_authentic
    | Some text => Ok (fromUtf8 text)
    end.
Proof.
  intros Hc. unfold encryptSecret. rewrite Hc. cbn [res_bind]. cbv zeta.
  destruct (config_primary config Hc) as [Hp Hid].
  destruct (gcm_seal _ _ (aad_bytes aad) _) as [ct tag] eqn:Es. intros [= <-].
  unfold decryptSecret. rewrite envelope_split by by apply key_id_colon_free.
  rewrite Hc. cbn [res_bind]. rewrite Hp, !base64url_back, randomBytes_length. simpl fst. simpl snd.
  assert (Ht : String.length tag = 16).
  { change tag with (snd (ct, tag)). rewrite <-Es. apply gcm_tag_length. }
  by rewrite Ht.
Qed.

(** What is sealed opens again under the same data; under other data only where the
    cipher turns some text into the very same ciphertext and tag. *)
Definition opens_only_at (envelope plaintext aad : string) : Prop :=
  decryptSecret envelope aad = Ok plaintext /\
  forall aad' s, decryptSecret envelope aad' = Ok s ->
    exists key nonce text, s = fromUtf8 text /\
      gcm_seal key nonce (aad_bytes aad') text = gcm_seal key nonce (aad_bytes aad) (toUtf8 plaintext).

Lemma encrypt_opens plaintext aad n envelope :
  encryptSecret plaintext aad n = Ok envelope -> envelope <> "" /\ opens_only_at envelope plaintext aad.
Proof.
  intros Henc. assert (Hc : exists config, readSecretBoxConfig = Ok config).
  { unfold encryptSecret in Henc. destruct readSecretBoxConfig as [e|config]; [done|]. by exists config. }
  destruct Hc as [config Hc]. pose proof (fun aad' => decrypt_sealed plaintext aad n envelope config aad' Hc Henc) as Hd.
  cbv zeta in Hd. destruct (gcm_seal _ _ (aad_bytes aad) _) as [ct tag] eqn:Es in Hd. cbn [fst snd] in Hd.
  unfold opens_only_at. split_and!.
  - intros ->. specialize (Hd aad). by apply gcm_exact in Es as Eo; rewrite Eo in Hd.
  - rewrite Hd. apply gcm_exact in Es as ->. by rewrite utf8_back.
  - intros aad' s. rewrite Hd. destruct (gcm_open _ _ (aad_bytes aad') _ _) as [text|] eqn:Eo; [|done]. intros [= <-].
    apply gcm_exact in Eo. eexists _, _, text. split; [done|]. by rewrite Es.
Qed.
End roundtrip.
