(* ===== verification/Outreach.v ===== *)
(** * Coalitions outside Blackout: the rows, the state, the requests

    The tables of [db/store.ts] behind [services/coalitionSync.ts] and its
    neighbours: platform connections, members' opt-ins, outbound posts, the replies
    strangers wrote to them, engagement counts and attribution counters.  [outreach]
    is the process as these services see it, the coalition store included.  A row of
    engagement or attribution is filed under its own identity, which is also its id;
    the id is not kept twice. *)

From S2P Require Import Prelude JsMap Async CoalitionDomain Records Store BillingRows.
Open Scope Z_scope.

(** ** Vocabularies *)

Inductive CampaignPostDirection : Set := post_out | post_in.
Inductive CampaignPostSyncStatus : Set :=
  | sync_pending | sync_posted | sync_failed | sync_share_link | sync_received.
Inductive CampaignMilestone : Set := ms_launched | ms_goal_reached | ms_completed.
Inductive ExternalActivityModerationStatus : Set := ext_pending | ext_approved | ext_rejected.
Inductive AttributionConversion : Set := conv_visit | conv_signup | conv_join | conv_contribution.

#[export] Instance CampaignPostDirection_eq : EqDecision CampaignPostDirection.
Proof. solve_decision. Defined.
#[export] Instance CampaignPostSyncStatus_eq : EqDecision CampaignPostSyncStatus.
Proof. solve_decision. Defined.
#[export] Instance CampaignMilestone_eq : EqDecision CampaignMilestone.
Proof. solve_decision. Defined.
#[export] Instance ExternalActivityModerationStatus_eq : EqDecision ExternalActivityModerationStatus.
Proof. solve_decision. Defined.

(** ** Rows *)

Record CoalitionConnectionRecord : Type := mk_xc {
  xc_id : string;
  xc_coalitionId : string;
  xc_platform : CoalitionPlatform;
  xc_authMode : ConnectionAuthMode;
  xc_credentialRef : option string;
  xc_displayHandle : option string;
  xc_createdBy : string;
  xc_active : bool;
  xc_createdAt : Z;
  xc_updatedAt : Z;
}.

Record CoalitionCampaignSyncOptInRecord : Type := mk_xo {
  xo_id : string;
  xo_campaignId : string;
  xo_coalitionId : string;
  xo_userId : string;
  xo_platform : CoalitionPlatform;
  xo_enabled : bool;
  xo_createdAt : Z;
  xo_updatedAt : Z;
}.

Record CoalitionCampaignPostRecord : Type := mk_xp {
  xp_id : string;
  xp_campaignId : string;
  xp_coalitionId : string;
  xp_platform : CoalitionPlatform;
  xp_externalPostId : option string;
  xp_direction : CampaignPostDirection;
  xp_syncStatus : CampaignPostSyncStatus;
  xp_authorUserId : option string;
  xp_shareUrl : option string;
  xp_error : option string;
  xp_milestone : option CampaignMilestone;
  xp_createdAt : Z;
  xp_updatedAt : Z;
}.

Record CoalitionExternalActivityRecord : Type := mk_xr {
  xr_id : string;
  xr_campaignPostId : string;
  xr_campaignId : string;
  xr_coalitionId : string;
  xr_sourcePlatform : CoalitionPlatform;
  xr_externalAuthor : string;
  xr_externalId : option string;
  xr_content : string;
  xr_moderationStatus : ExternalActivityModerationStatus;
  xr_reviewedBy : option string;
  xr_reviewedAt : option Z;
  xr_receivedAt : stamp;
  xr_createdAt : Z;
  xr_updatedAt : Z;
}.

Record CampaignEngagementRecord : Type := mk_xe {
  xe_campaignPostId : string;
  xe_campaignId : string;
  xe_coalitionId : string;
  xe_platform : CoalitionPlatform;
  xe_likes : Z;
  xe_reshares : Z;
  xe_replies : Z;
  xe_clicks : Z;
  xe_lastReadAt : Z;
  xe_createdAt : Z;
  xe_updatedAt : Z;
}.

Record CampaignAttributionRecord : Type := mk_xa {
  xa_campaignId : string;
  xa_coalitionId : string;
  xa_channel : string;
  xa_sharerUserId : option string;
  xa_visits : Z;
  xa_signups : Z;
  xa_joins : Z;
  xa_contributions : Z;
  xa_createdAt : Z;
  xa_updatedAt : Z;
}.

(** ** Keys and timestamps *)

#[export] Instance xc_keyed : Keyed CoalitionConnectionRecord := fun r => pair_key (xc_coalitionId r) (name (xc_platform r)).
#[export] Instance xc_stamped : Stamped CoalitionConnectionRecord := {|
  created_at := xc_createdAt;
  JsMap.stamp c u r := mk_xc (xc_id r) (xc_coalitionId r) (xc_platform r) (xc_authMode r) (xc_credentialRef r) (xc_displayHandle r) (xc_createdBy r) (xc_active r) c u |}.
#[export] Instance xc_laws : TableLaws CoalitionConnectionRecord. Proof. done. Qed.

#[export] Instance xo_keyed : Keyed CoalitionCampaignSyncOptInRecord := fun r => pair_key (pair_key (xo_campaignId r) (xo_userId r)) (name (xo_platform r)).
#[export] Instance xo_stamped : Stamped CoalitionCampaignSyncOptInRecord := {|
  created_at := xo_createdAt;
  JsMap.stamp c u r := mk_xo (xo_id r) (xo_campaignId r) (xo_coalitionId r) (xo_userId r) (xo_platform r) (xo_enabled r) c u |}.
#[export] Instance xo_laws : TableLaws CoalitionCampaignSyncOptInRecord. Proof. done. Qed.

#[export] Instance xp_keyed : Keyed CoalitionCampaignPostRecord := fun r => xp_id r.
#[export] Instance xp_stamped : Stamped CoalitionCampaignPostRecord := {|
  created_at := xp_createdAt;
  JsMap.stamp c u r := mk_xp (xp_id r) (xp_campaignId r) (xp_coalitionId r) (xp_platform r) (xp_externalPostId r) (xp_direction r) (xp_syncStatus r) (xp_authorUserId r) (xp_shareUrl r) (xp_error r) (xp_milestone r) c u |}.
#[export] Instance xp_laws : TableLaws CoalitionCampaignPostRecord. Proof. done. Qed.

#[export] Instance xr_keyed : Keyed CoalitionExternalActivityRecord := fun r => xr_id r.
#[export] Instance xr_stamped : Stamped CoalitionExternalActivityRecord := {|
  created_at := xr_createdAt;
  JsMap.stamp c u r := mk_xr (xr_id r) (xr_campaignPostId r) (xr_campaignId r) (xr_coalitionId r) (xr_sourcePlatform r) (xr_externalAuthor r) (xr_externalId r) (xr_content r) (xr_moderationStatus r) (xr_reviewedBy r) (xr_reviewedAt r) (xr_receivedAt r) c u |}.
#[export] Instance xr_laws : TableLaws CoalitionExternalActivityRecord. Proof. done. Qed.

#[export] Instance xe_keyed : Keyed CampaignEngagementRecord := fun r => xe_campaignPostId r.
#[export] Instance xe_stamped : Stamped CampaignEngagementRecord := {|
  created_at := xe_createdAt;
  JsMap.stamp c u r := mk_xe (xe_campaignPostId r) (xe_campaignId r) (xe_coalitionId r) (xe_platform r) (xe_likes r) (xe_reshares r) (xe_replies r) (xe_clicks r) (xe_lastReadAt r) c u |}.
#[export] Instance xe_laws : TableLaws CampaignEngagementRecord. Proof. done. Qed.

#[export] Instance xa_keyed : Keyed CampaignAttributionRecord := fun r => pair_key (pair_key (xa_campaignId r) (xa_channel r)) (default "" (xa_sharerUserId r)).
#[export] Instance xa_stamped : Stamped CampaignAttributionRecord := {|
  created_at := xa_createdAt;
  JsMap.stamp c u r := mk_xa (xa_campaignId r) (xa_coalitionId r) (xa_channel r) (xa_sharerUserId r) (xa_visits r) (xa_signups r) (xa_joins r) (xa_contributions r) c u |}.
#[export] Instance xa_laws : TableLaws CampaignAttributionRecord. Proof. done. Qed.

(** ** The spreads [{ ...row, field }] of the services *)

Definition with_xc_credentialRef (v : option string) (r : CoalitionConnectionRecord) : CoalitionConnectionRecord :=
  mk_xc (xc_id r) (xc_coalitionId r) (xc_platform r) (xc_authMode r) v (xc_displayHandle r) (xc_createdBy r) (xc_active r) (xc_createdAt r) (xc_updatedAt r).
Definition with_xc_active (v : bool) (r : CoalitionConnectionRecord) : CoalitionConnectionRecord :=
  mk_xc (xc_id r) (xc_coalitionId r) (xc_platform r) (xc_authMode r) (xc_credentialRef r) (xc_displayHandle r) (xc_createdBy r) v (xc_createdAt r) (xc_updatedAt r).
Definition with_xp_authorUserId (v : option string) (r : CoalitionCampaignPostRecord) : CoalitionCampaignPostRecord :=
  mk_xp (xp_id r) (xp_campaignId r) (xp_coalitionId r) (xp_platform r) (xp_externalPostId r) (xp_direction r) (xp_syncStatus r) v (xp_shareUrl r) (xp_error r) (xp_milestone r) (xp_createdAt r) (xp_updatedAt r).
Definition with_xr_moderationStatus (v : ExternalActivityModerationStatus) (r : CoalitionExternalActivityRecord) : CoalitionExternalActivityRecord :=
  mk_xr (xr_id r) (xr_campaignPostId r) (xr_campaignId r) (xr_coalitionId r) (xr_sourcePlatform r) (xr_externalAuthor r) (xr_externalId r) (xr_content r) v (xr_reviewedBy r) (xr_reviewedAt r) (xr_receivedAt r) (xr_createdAt r) (xr_updatedAt r).
Definition with_xr_reviewedBy (v : option string) (r : CoalitionExternalActivityRecord) : CoalitionExternalActivityRecord :=
  mk_xr (xr_id r) (xr_campaignPostId r) (xr_campaignId r) (xr_coalitionId r) (xr_sourcePlatform r) (xr_externalAuthor r) (xr_externalId r) (xr_content r) (xr_moderationStatus r) v (xr_reviewedAt r) (xr_receivedAt r) (xr_createdAt r) (xr_updatedAt r).
Definition with_xr_reviewedAt (v : option Z) (r : CoalitionExternalActivityRecord) : CoalitionExternalActivityRecord :=
  mk_xr (xr_id r) (xr_campaignPostId r) (xr_campaignId r) (xr_coalitionId r) (xr_sourcePlatform r) (xr_externalAuthor r) (xr_externalId r) (xr_content r) (xr_moderationStatus r) (xr_reviewedBy r) v (xr_receivedAt r) (xr_createdAt r) (xr_updatedAt r).
Definition with_xa_visits (v : Z) (r : CampaignAttributionRecord) : CampaignAttributionRecord :=
  mk_xa (xa_campaignId r) (xa_coalitionId r) (xa_channel r) (xa_sharerUserId r) v (xa_signups r) (xa_joins r) (xa_contributions r) (xa_createdAt r) (xa_updatedAt r).
Definition with_xa_signups (v : Z) (r : CampaignAttributionRecord) : CampaignAttributionRecord :=
  mk_xa (xa_campaignId r) (xa_coalitionId r) (xa_channel r) (xa_sharerUserId r) (xa_visits r) v (xa_joins r) (xa_contributions r) (xa_createdAt r) (xa_updatedAt r).
Definition with_xa_joins (v : Z) (r : CampaignAttributionRecord) : CampaignAttributionRecord :=
  mk_xa (xa_campaignId r) (xa_coalitionId r) (xa_channel r) (xa_sharerUserId r) (xa_visits r) (xa_signups r) v (xa_contributions r) (xa_createdAt r) (xa_updatedAt r).
Definition with_xa_contributions (v : Z) (r : CampaignAttributionRecord) : CampaignAttributionRecord :=
  mk_xa (xa_campaignId r) (xa_coalitionId r) (xa_channel r) (xa_sharerUserId r) (xa_visits r) (xa_signups r) (xa_joins r) v (xa_createdAt r) (xa_updatedAt r).

(** ** Domain events of the module *)

Inductive OutreachEvent : Type :=
  | ev_connection_set (coalitionId : string) (p : CoalitionPlatform) (m : ConnectionAuthMode) (by_ : string)
  | ev_connection_revoked (coalitionId : string) (p : CoalitionPlatform) (by_ : string) (links : Z)
  | ev_crossposted (coalitionId campaignId userId : string) (ps : list CoalitionPlatform)
  | ev_announced (coalitionId campaignId : string) (p : CoalitionPlatform) (m : CampaignMilestone)
  | ev_external_received (coalitionId campaignId activityId : string) (p : CoalitionPlatform)
  | ev_external_moderated (coalitionId activityId : string) (approve : bool) (by_ : string)
  | ev_external_taken_down (coalitionId campaignId activityId moderatorId reason : string).

(** ** The state *)

(** [o_announcing] and [o_reading] are the [running] flags of the two schedulers. *)
Record outreach : Type := mk_outreach {
  o_db : db;
  o_connections : jsmap CoalitionConnectionRecord;
  o_optIns : jsmap CoalitionCampaignSyncOptInRecord;
  o_posts : jsmap CoalitionCampaignPostRecord;
  o_externals : jsmap CoalitionExternalActivityRecord;
  o_engagement : jsmap CampaignEngagementRecord;
  o_attribution : jsmap CampaignAttributionRecord;
  o_events : list OutreachEvent;
  o_announcing : bool;
  o_reading : bool;
}.

Definition set_o_db (v : db) (o : outreach) : outreach :=
  mk_outreach v (o_connections o) (o_optIns o) (o_posts o) (o_externals o) (o_engagement o) (o_attribution o) (o_events o) (o_announcing o) (o_reading o).
Definition set_o_connections (v : jsmap CoalitionConnectionRecord) (o : outreach) : outreach :=
  mk_outreach (o_db o) v (o_optIns o) (o_posts o) (o_externals o) (o_engagement o) (o_attribution o) (o_events o) (o_announcing o) (o_reading o).
Definition set_o_optIns (v : jsmap CoalitionCampaignSyncOptInRecord) (o : outreach) : outreach :=
  mk_outreach (o_db o) (o_connections o) v (o_posts o) (o_externals o) (o_engagement o) (o_attribution o) (o_events o) (o_announcing o) (o_reading o).
Definition set_o_posts (v : jsmap CoalitionCampaignPostRecord) (o : outreach) : outreach :=
  mk_outreach (o_db o) (o_connections o) (o_optIns o) v (o_externals o) (o_engagement o) (o_attribution o) (o_events o) (o_announcing o) (o_reading o).
Definition set_o_externals (v : jsmap CoalitionExternalActivityRecord) (o : outreach) : outreach :=
  mk_outreach (o_db o) (o_connections o) (o_optIns o) (o_posts o) v (o_engagement o) (o_attribution o) (o_events o) (o_announcing o) (o_reading o).
Definition set_o_engagement (v : jsmap CampaignEngagementRecord) (o : outreach) : outreach :=
  mk_outreach (o_db o) (o_connections o) (o_optIns o) (o_posts o) (o_externals o) v (o_attribution o) (o_events o) (o_announcing o) (o_reading o).
Definition set_o_attribution (v : jsmap CampaignAttributionRecord) (o : outreach) : outreach :=
  mk_outreach (o_db o) (o_connections o) (o_optIns o) (o_posts o) (o_externals o) (o_engagement o) v (o_events o) (o_announcing o) (o_reading o).
Definition set_o_events (v : list OutreachEvent) (o : outreach) : outreach :=
  mk_outreach (o_db o) (o_connections o) (o_optIns o) (o_posts o) (o_externals o) (o_engagement o) (o_attribution o) v (o_announcing o) (o_reading o).
Definition set_o_announcing (v : bool) (o : outreach) : outreach :=
  mk_outreach (o_db o) (o_connections o) (o_optIns o) (o_posts o) (o_externals o) (o_engagement o) (o_attribution o) (o_events o) v (o_reading o).
Definition set_o_reading (v : bool) (o : outreach) : outreach :=
  mk_outreach (o_db o) (o_connections o) (o_optIns o) (o_posts o) (o_externals o) (o_engagement o) (o_attribution o) (o_events o) (o_announcing o) v.

(** ** Requests to the platforms *)

(** What [fetch] came to: it threw (an [AbortError] or another), or a status with
    what the services read of the JSON body, [None] when it does not parse. *)
Inductive answer (A : Set) : Set :=
  | fetch_threw (aborted : bool)
  | fetched (status : Z) (body : option A).
Arguments fetch_threw {A} aborted.
Arguments fetched {A} status body.

(** [res.ok] *)
Definition http_ok (status : Z) : bool := (200 <=? status) && (status <? 300).

Record BlueskySession : Set := { bs_accessJwt : option string; bs_did : option string }.

Record LinkFacet : Set := { lf_byteStart : nat; lf_byteEnd : nat; lf_uri : string }.

(** A counter or a text as the platform sent it: [unknown], by its JSON kind. *)
Inductive json_scalar : Set := js_text (s : string) | js_count (n : jsnum) | js_else.

Record RawReply : Set := { rw_id : json_scalar; rw_author : json_scalar; rw_content : json_scalar; rw_at : json_scalar }.
Record RawCounts : Set := { rw_likes : json_scalar; rw_reshares : json_scalar; rw_replies : json_scalar }.

Inductive oreq : Set -> Type :=
  | Inside (X : Set) (e : req X) : oreq X
  | DiscordExecute (url content : string) : oreq (answer (option string))
  | BlueskyCreateSession (identifier password : string) : oreq (answer BlueskySession)
  | BlueskyCreateRecord (accessJwt did text : string) (createdAt : Z) (facet : option LinkFacet) :
      oreq (answer (option string))
  | BlueskyGetPostThread (accessJwt uri : string) : oreq (answer (RawCounts * list RawReply))
  | MastodonPostStatus (url token idempotencyKey status : string) : oreq (answer (option string))
  | MastodonGetStatus (url token : string) : oreq (answer RawCounts)
  | MastodonGetContext (url token : string) : oreq (answer (list RawReply)).

Abbreviation O A := (M outreach oreq A).

(** A coalition handler, run against the coalition store. *)
Definition inside {A : Type} (m : H A) : O A := zoom o_db set_o_db Inside m.

Definition emit_o (e : OutreachEvent) (o : outreach) : outreach := set_o_events (o_events o ++ [e]) o.
Definition o_now (o : outreach) : Z := clock (o_db o).

(** ** Methods of [InMemoryDb] *)

(** The body the upserts of these tables share. *)
Class OTable (V : Type) `{Keyed V, Stamped V} : Type := {
  o_tbl : outreach -> jsmap V;
  o_set_tbl : jsmap V -> outreach -> outreach;
}.

#[export] Instance otable_connections : OTable CoalitionConnectionRecord := {| o_tbl := o_connections; o_set_tbl := set_o_connections |}.
#[export] Instance otable_optIns : OTable CoalitionCampaignSyncOptInRecord := {| o_tbl := o_optIns; o_set_tbl := set_o_optIns |}.
#[export] Instance otable_posts : OTable CoalitionCampaignPostRecord := {| o_tbl := o_posts; o_set_tbl := set_o_posts |}.
#[export] Instance otable_externals : OTable CoalitionExternalActivityRecord := {| o_tbl := o_externals; o_set_tbl := set_o_externals |}.
#[export] Instance otable_engagement : OTable CampaignEngagementRecord := {| o_tbl := o_engagement; o_set_tbl := set_o_engagement |}.
#[export] Instance otable_attribution : OTable CampaignAttributionRecord := {| o_tbl := o_attribution; o_set_tbl := set_o_attribution |}.

Definition o_upsert `{OTable V} (v : V) (o : outreach) : outreach * V :=
  (o_set_tbl (upsert (o_now o) v (o_tbl o)) o, stamped_row (o_now o) (o_tbl o) v).

Definition listCoalitionConnections (coalitionId : option string) (o : outreach) : list CoalitionConnectionRecord :=
  List.filter (fun r => clause coalitionId (xc_coalitionId r)) (values (o_connections o)).
Definition getCoalitionConnection (coalitionId : string) (p : CoalitionPlatform) (o : outreach) :
    option CoalitionConnectionRecord := get (pair_key coalitionId (name p)) (o_connections o).
Definition upsertCoalitionConnection (r : CoalitionConnectionRecord) (o : outreach) :
    outreach * CoalitionConnectionRecord := o_upsert r o.

Definition listCoalitionCampaignSyncOptIns (campaignId userId coalitionId : option string) (o : outreach) :
    list CoalitionCampaignSyncOptInRecord :=
  List.filter (fun r => clause campaignId (xo_campaignId r) && clause userId (xo_userId r)
    && clause coalitionId (xo_coalitionId r)) (values (o_optIns o)).
Definition upsertCoalitionCampaignSyncOptIn (r : CoalitionCampaignSyncOptInRecord) (o : outreach) :
    outreach * CoalitionCampaignSyncOptInRecord := o_upsert r o.

Definition listCoalitionCampaignPosts (campaignId coalitionId : option string) (o : outreach) :
    list CoalitionCampaignPostRecord :=
  List.filter (fun r => clause campaignId (xp_campaignId r) && clause coalitionId (xp_coalitionId r))
    (values (o_posts o)).
Definition getCoalitionCampaignPost (id : string) (o : outreach) : option CoalitionCampaignPostRecord :=
  get id (o_posts o).
Definition upsertCoalitionCampaignPost (r : CoalitionCampaignPostRecord) (o : outreach) :
    outreach * CoalitionCampaignPostRecord := o_upsert r o.

Definition listCoalitionExternalActivity (campaignId coalitionId : option string)
    (moderationStatus : option ExternalActivityModerationStatus) (o : outreach) :
    list CoalitionExternalActivityRecord :=
  List.filter (fun r => clause campaignId (xr_campaignId r) && clause coalitionId (xr_coalitionId r)
    && match moderationStatus with Some s => bool_decide (xr_moderationStatus r = s) | None => true end)
    (values (o_externals o)).
Definition getCoalitionExternalActivity (id : string) (o : outreach) : option CoalitionExternalActivityRecord :=
  get id (o_externals o).
Definition upsertCoalitionExternalActivity (r : CoalitionExternalActivityRecord) (o : outreach) :
    outreach * CoalitionExternalActivityRecord := o_upsert r o.

(** [Map.prototype.delete], with whether the key was there. *)
Definition map_delete {V} (k : string) (m : jsmap V) : jsmap V * bool :=
  (List.filter (fun kv => negb (bool_decide (fst kv = k))) m, bool_decide (get k m <> None)).

(** [ids.filter((id) => map.delete(id))] *)
Fixpoint deleteCoalitionExternalActivities (ids : list string) (o : outreach) : outreach * list string :=
  match ids with
  | [] => (o, [])
  | id :: ids =>
      let (m, there) := map_delete id (o_externals o) in
      let (o', gone) := deleteCoalitionExternalActivities ids (set_o_externals m o) in
      (o', if there then id :: gone else gone)
  end.

Definition getCampaignEngagement (postId : string) (o : outreach) : option CampaignEngagementRecord :=
  get postId (o_engagement o).
Definition listCampaignEngagement (campaignId coalitionId : option string) (o : outreach) :
    list CampaignEngagementRecord :=
  List.filter (fun r => clause campaignId (xe_campaignId r) && clause coalitionId (xe_coalitionId r))
    (values (o_engagement o)).
Definition upsertCampaignEngagement (r : CampaignEngagementRecord) (o : outreach) :
    outreach * CampaignEngagementRecord := o_upsert r o.

Definition listCampaignAttribution (campaignId coalitionId : option string) (o : outreach) :
    list CampaignAttributionRecord :=
  List.filter (fun r => clause campaignId (xa_campaignId r) && clause coalitionId (xa_coalitionId r))
    (values (o_attribution o)).
Definition upsertCampaignAttribution (r : CampaignAttributionRecord) (o : outreach) :
    outreach * CampaignAttributionRecord := o_upsert r o.

(** ** Settings *)

(** Environment variables as they are read; [parseInt] of the two numbers, [None]
    for [NaN]; [Date.parse]; [toLocaleString] of a number of cents as dollars; and the
    locale's order on two arrival times. *)
Class OutreachEnv : Type := {
  BLACKOUT_COALITION_EXTERNAL_SYNC_ENABLED : option string;
  BLACKOUT_COALITION_CROSSPOST_ENABLED : option string;
  BLACKOUT_COALITION_AUTOPOST_ENABLED : option string;
  COALITION_CROSSPOST_COOLDOWN_MINUTES : option Z;
  COALITION_CROSSPOST_DAILY_CAP : option Z;
  BLACKOUT_PUBLIC_BASE_URL : option string;
  RETENTION_PENDING_DAYS : option string;
  RETENTION_REJECTED_DAYS : option string;
  RETENTION_APPROVED_DAYS : option string;
  date_parse : string -> option Z;
  dollars_text : Z -> string;
  received_before : BillingRows.stamp -> BillingRows.stamp -> bool;
}.

(** [x === '1' || x?.toLowerCase() === 'true'] *)
Definition flag_on (raw : option string) : bool :=
  match raw with
  | Some s => bool_decide (s = "1") || bool_decide (toLowerCase s = "true")
  | None => false
  end.

Section gates.
Context `{Env} `{OutreachEnv}.

Definition inboundSyncEnabled : bool := flag_on BLACKOUT_COALITION_EXTERNAL_SYNC_ENABLED.
Definition outboundSyncEnabled : bool := flag_on BLACKOUT_COALITION_CROSSPOST_ENABLED.
Definition autoCrosspostEnabled : bool := flag_on BLACKOUT_COALITION_AUTOPOST_ENABLED.

(** [`${prefix}${rand()}_${stamp()}`] *)
Definition o_fresh (prefix : string) (o : outreach) : outreach * string :=
  (set_o_db (set_rng (S (rng (o_db o))) (o_db o)) o, prefix +:+ draw (rng (o_db o))).

Definition newConnectionId : outreach -> outreach * string := o_fresh "coacon_".
Definition newMemberConnectionId : outreach -> outreach * string := o_fresh "coamc_".
Definition newOptInId : outreach -> outreach * string := o_fresh "coaopt_".
Definition newCampaignPostId : outreach -> outreach * string := o_fresh "coapost_".
Definition newExternalActivityId : outreach -> outreach * string := o_fresh "coaext_".
End gates.

(** [SyncError] of [services/coalitionSync.ts]. *)
Inductive GuardrailReason : Set := by_cooldown | by_daily_cap.

Record GuardrailState : Type := mk_guard {
  gs_allowed : bool;
  gs_reason : option GuardrailReason;
  gs_retryAfterSeconds : option Z;
  gs_postsToday : Z;
  gs_cap : Z;
}.

Inductive SyncGate : Set := gate_inbound | gate_outbound.

Inductive SyncError : Type :=
  | se_not_found
  | se_not_member
  | se_forbidden
  | se_disabled (gate : SyncGate)
  | se_no_connection (p : CoalitionPlatform)
  | se_not_opted_in (p : CoalitionPlatform)
  | se_guardrail (g : GuardrailState)
  | se_campaign_inactive
  | se_credentials_unavailable
  | se_private_subject
  | se_auth_mode_unsupported (p : CoalitionPlatform)
  | se_credential_malformed (p : CoalitionPlatform)
  | se_already_moderated.

Definition SyncResult (A : Type) : Type := res SyncError A.
