(* ===== verification/Attribution.v ===== *)
(** * Where a visitor came from: [packages/api/src/services/coalitionAttribution.ts]

    The signed [ref] a share link carries, and the counters it feeds.  The MAC and
    [JSON.parse] are the operations of [AttributionRuntime], with their documented
    laws; [JSON.stringify] is written out.  The [try] around [recordAttributedAction]
    is left out: nothing in it throws. *)

From S2P Require Import Prelude JsMap Async CoalitionDomain Records Store Relay Slug Text SecretBox.
From S2P Require Import BillingRows Outreach.
From S2P Require KeyTransparency.
Open Scope Z_scope.

(** What [JSON.parse] finds under the four keys read; absent is [UUndefined]. *)
Record RawClaim : Type := { raw_c : unknown; raw_h : unknown; raw_s : unknown; raw_t : unknown }.

Class AttributionRuntime : Type := {
  BLACKOUT_ATTRIBUTION_SECRET : option string;
  JWT_SECRET_PRIMARY : option string;
  (** [createHmac('sha256', key).update(payload).digest('base64url')] *)
  hmac_base64url : string -> string -> string;
  (** [JSON.parse], [None] when it throws *)
  json_parse : string -> option RawClaim;
}.

Record AttributionClaim : Type := {
  ac_campaignId : string;
  ac_channel : string;
  ac_sharerUserId : option string;
  ac_issuedAt : Q;
}.

Definition MAX_AGE_SECONDS : Z := 90 * 24 * 60 * 60.

(** [JSON.stringify({ c, h, ...(s ? { s } : {}), t })] *)
Definition claim_text (campaignId channel : string) (sharerUserId : option string) (t : Z) : string :=
  let str := KeyTransparency.json_string in
  "{" +:+ str "c" +:+ ":" +:+ str campaignId +:+ "," +:+ str "h" +:+ ":" +:+ str channel +:+
  (match truthy sharerUserId with Some s => "," +:+ str "s" +:+ ":" +:+ str s | None => "" end) +:+
  "," +:+ str "t" +:+ ":" +:+ pretty t +:+ "}".

Class AttributionRuntimeLaws `{SecretRuntime} `{AttributionRuntime} : Prop := {
  json_back c h s t :
    json_parse (claim_text c h s t) =
    Some {| raw_c := UString c; raw_h := UString h;
            raw_s := match truthy s with Some u => UString u | None => UUndefined end;
            raw_t := UNumber (jint t) |};
  payload_dot_free text : free_of "."%char (toBase64url text);
  payload_nonempty c h s t : toBase64url (toUtf8 (claim_text c h s t)) <> "";
}.

Section refs.
Context `{SecretRuntime} `{AttributionRuntime}.

Definition signingKey : option string :=
  match truthy BLACKOUT_ATTRIBUTION_SECRET with
  | Some k => Some k
  | None => truthy JWT_SECRET_PRIMARY
  end.

Definition mintAttributionRef (campaignId channel : string) (sharerUserId : option string) (now : Z) : option string :=
  match signingKey with
  | None => None
  | Some key =>
      let payload := toBase64url (toUtf8 (claim_text campaignId channel sharerUserId (now / 1000))) in
      Some (payload +:+ "." +:+ hmac_base64url key payload)
  end.

(** [parsed.t] when it is a finite number. *)
Definition finite_number (u : unknown) : option Q :=
  match u with UNumber (JFin q) => Some q | _ => None end.

Definition readAttributionRef (ref : string) (now : Z) : option AttributionClaim :=
  match signingKey, cut_at "."%char ref with
  | Some key, Some (payload, presented) =>
      if bool_decide (payload = "") then None
      else if negb (bool_decide (presented = hmac_base64url key payload)) then None
      else
        match json_parse (fromUtf8 (fromBase64url payload)) with
        | Some parsed =>
            match raw_c parsed, raw_h parsed, finite_number (raw_t parsed) with
            | UString c, UString h, Some t =>
                if negb (Qle_bool (inject_Z (now / 1000) - t) (inject_Z MAX_AGE_SECONDS)) then None
                else Some {| ac_campaignId := c; ac_channel := h;
                             ac_sharerUserId := match raw_s parsed with UString s => Some s | _ => None end;
                             ac_issuedAt := t |}
            | _, _, _ => None
            end
        | None => None
        end
  | _, _ => None
  end.

Definition withAttribution (url campaignId channel : string) (sharerUserId : option string) (now : Z) : string :=
  match mintAttributionRef campaignId channel sharerUserId now with
  | None => url
  | Some ref => url +:+ (if text_includes "?" url then "&" else "?") +:+ "ref=" +:+ encodeURIComponent ref
  end.

(** ** Counting *)

(** [isCoalitionPlatform(channel)], with the platform it is. *)
Definition platform_named (channel : string) : option CoalitionPlatform :=
  List.find (fun p => bool_decide (name p = channel)) members.

Definition one_if (c d : AttributionConversion) (n : Z) : Z :=
  match c, d with
  | conv_visit, conv_visit | conv_signup, conv_signup | conv_join, conv_join
  | conv_contribution, conv_contribution => n + 1
  | _, _ => n
  end.

Definition count_conversion (conversion : AttributionConversion) (r : CampaignAttributionRecord) :
    CampaignAttributionRecord :=
  with_xa_visits (one_if conv_visit conversion (xa_visits r))
    (with_xa_signups (one_if conv_signup conversion (xa_signups r))
    (with_xa_joins (one_if conv_join conversion (xa_joins r))
    (with_xa_contributions (one_if conv_contribution conversion (xa_contributions r)) r))).

(** A visit is also a click on the post of the same platform, if there is one. *)
Definition count_click (campaign : CoalitionCampaignRecord) (channel : string) (now : Z) (o : outreach) : outreach :=
  match platform_named channel with
  | None => o
  | Some p =>
      match List.find (fun r => bool_decide (xp_direction r = post_out) && bool_decide (xp_platform r = p))
              (listCoalitionCampaignPosts (Some (cp_id campaign)) None o) with
      | None => o
      | Some post =>
          let e := getCampaignEngagement (xp_id post) o in
          fst (upsertCampaignEngagement
            (mk_xe (xp_id post) (cp_id campaign) (cp_coalitionId campaign) p
               (from_option xe_likes 0 e) (from_option xe_reshares 0 e) (from_option xe_replies 0 e)
               (from_option xe_clicks 0 e + 1) (from_option xe_lastReadAt now e) 0 0) o)
      end
  end.

Definition recordAttributedAction (ref : option string) (conversion : AttributionConversion) (now : Z)
    (o : outreach) : outreach :=
  match truthy ref with
  | None => o
  | Some text =>
      match readAttributionRef text now with
      | None => o
      | Some claim =>
          match getCoalitionCampaign (ac_campaignId claim) (o_db o) with
          | None => o
          | Some campaign =>
              let existing := List.find (fun r => bool_decide (xa_channel r = ac_channel claim)
                  && bool_decide (default "" (xa_sharerUserId r) = default "" (ac_sharerUserId claim)))
                (listCampaignAttribution (Some (cp_id campaign)) None o) in
              let base := default (mk_xa (cp_id campaign) (cp_coalitionId campaign) (ac_channel claim)
                            (truthy (ac_sharerUserId claim)) 0 0 0 0 0 0) existing in
              let (o, _) := upsertCampaignAttribution (count_conversion conversion base) o in
              match conversion with
              | conv_visit => count_click campaign (ac_channel claim) now o
              | _ => o
              end
          end
      end
  end.

Record AttributionCounts : Type := mk_counts {
  n_visits : Z;
  n_signups : Z;
  n_joins : Z;
  n_contributions : Z;
}.

Definition no_counts : AttributionCounts := mk_counts 0 0 0 0.
Definition counts_of (r : CampaignAttributionRecord) : AttributionCounts :=
  mk_counts (xa_visits r) (xa_signups r) (xa_joins r) (xa_contributions r).
Definition add_counts (a b : AttributionCounts) : AttributionCounts :=
  mk_counts (n_visits a + n_visits b) (n_signups a + n_signups b) (n_joins a + n_joins b)
    (n_contributions a + n_contributions b).

(** Per channel, and the totals over the channels. *)
Definition campaignAttributionTotals (campaignId : string) (o : outreach) :
    AttributionCounts * jsmap AttributionCounts :=
  let byChannel := fold_left (fun m row =>
      set (xa_channel row) (add_counts (default no_counts (get (xa_channel row) m)) (counts_of row)) m)
    (listCampaignAttribution (Some campaignId) None o) [] in
  (fold_left add_counts (values byChannel) no_counts, byChannel).
End refs.

(** ** Reading back what was minted *)

Section attribution.
Context `{SecretRuntime} `{AttributionRuntime} `{!SecretRuntimeLaws} `{!AttributionRuntimeLaws}.

(** A ref is a dot-free payload, a dot and its MAC. *)
Lemma read_signed key payload mac now :
  signingKey = Some key -> payload <> "" -> free_of "."%char payload ->
  readAttributionRef (payload +:+ "." +:+ mac) now <> None -> mac = hmac_base64url key payload.
Proof.
  intros Hk Hp Hd. unfold readAttributionRef. rewrite Hk. change ("." +:+ mac) with (String "."%char mac).
  rewrite cut_at_app by done. rewrite bool_decide_false by done. by case_bool_decide.
Qed.

Lemma read_minted c h s t now ref :
  mintAttributionRef c h s t = Some ref ->
  readAttributionRef ref now =
    if now / 1000 - t / 1000 <=? MAX_AGE_SECONDS
    then Some {| ac_campaignId := c; ac_channel := h; ac_sharerUserId := truthy s;
                 ac_issuedAt := inject_Z (t / 1000) |}
    else None.
Proof.
  unfold mintAttributionRef. destruct signingKey as [key|] eqn:Ek; [|done]. intros [= <-].
  unfold readAttributionRef. rewrite Ek.
  set (payload := toBase64url _).
  change ("." +:+ ?m) with (String "."%char m). rewrite cut_at_app by apply payload_dot_free.
  rewrite bool_decide_false by apply payload_nonempty. rewrite bool_decide_true by done. cbn [negb].
  unfold payload. rewrite base64url_back, utf8_back, json_back. cbn [raw_c raw_h raw_s raw_t finite_number].
  assert (Eq : Qle_bool (inject_Z (now / 1000) - inject_Z (t / 1000)) (inject_Z MAX_AGE_SECONDS) =
               (now / 1000 - t / 1000 <=? MAX_AGE_SECONDS)).
  { unfold Qle_bool. f_equal. cbn [Qnum Qden Qminus Qplus Qopp inject_Z]. lia. }
  unfold jint. cbn iota. rewrite Eq. destruct (_ <=? _); [|done]. cbn [negb]. unfold truthy.
  destruct s as [u|]; [|done]. by destruct (decide (u = "")).
Qed.
End attribution.
