(* ===== verification/Connections.v ===== *)
(** * Platform connections, members' links and opt-ins

    The first half of [packages/api/src/services/coalitionSync.ts]: who connects a
    coalition to a platform and with which credential, how a member links an account,
    what a member has opted a campaign into, and the guardrails on cross-posting;
    with [credentialLooksValid] and the authenticated data of
    [services/coalitionPlatformAdapters.ts].  Operations that never await are
    functions of the state. *)

From S2P Require Import Prelude JsMap Async CoalitionDomain Records Store Network Relay Slug Text SecretBox.
From S2P Require Import BillingRows Outreach.
Open Scope Z_scope.

(** ** Credentials *)

Definition is_digit (c : ascii) : bool := in_range 48 57 c.
Definition only_chars (p : ascii -> bool) (s : string) : bool :=
  negb (bool_decide (s = "")) && forallb p (chars s).

(** What follows the webhook prefix: [\d+\/[\w-]+] *)
Definition webhook_path (rest : string) : bool :=
  match cut_at "/"%char rest with
  | Some (id, token) =>
      only_chars is_digit id
      && only_chars (fun c => is_alnum c || Ascii.eqb c "_"%char || Ascii.eqb c "-"%char) token
  | None => false
  end.

(** [[a, b] = secret.split('|')], each [undefined] when missing. *)
Definition first_two (secret : string) : string * option string :=
  match split_at "|"%char secret with
  | a :: b :: _ => (a, Some b)
  | [a] => (a, None)
  | [] => ("", None)
  end.

Definition credentialLooksValid (p : CoalitionPlatform) (secret : string) : bool :=
  match p with
  | plat_discord =>
      match strip_prefix "https://discord.com/api/webhooks/" secret with
      | Some rest => webhook_path rest
      | None =>
          match strip_prefix "https://discordapp.com/api/webhooks/" secret with
          | Some rest => webhook_path rest
          | None => false
          end
      end
  | plat_bluesky =>
      let (identifier, password) := first_two secret in
      negb (bool_decide (identifier = "")) && bool_decide (truthy password <> None)
      && negb (text_includes "/" identifier)
  | plat_mastodon =>
      let (instance, token) := first_two secret in
      startsWith "https://" instance && bool_decide (truthy token <> None)
  | _ => bool_decide (secret <> "")
  end.

Definition sharedCredentialAad (coalitionId : string) (p : CoalitionPlatform) : string :=
  "coalition_connection:" +:+ coalitionId +:+ ":" +:+ name p.

Definition memberCredentialAad (coalitionId userId : string) (p : CoalitionPlatform) : string :=
  "coalition_member_connection:" +:+ coalitionId +:+ ":" +:+ userId +:+ ":" +:+ name p.

Section connections.
Context `{Env} `{OutreachEnv} `{SecretRuntime}.

(** A step that leaves the state as it is. *)
Definition refuse {A} (e : SyncError) (o : outreach) : outreach * SyncResult A := (o, Err e).

(** [encryptSecret(secret, { aad })]; the nonce is the next draw of the process. *)
Definition seal (secret aad : string) (o : outreach) : outreach * res SecretError string :=
  match encryptSecret secret aad (rng (o_db o)) with
  | Err e => (o, Err e)
  | Ok envelope => (set_o_db (set_rng (S (rng (o_db o))) (o_db o)) o, Ok envelope)
  end.

(** ** Guardrails *)

Definition crosspostCooldownMinutes : Z :=
  match COALITION_CROSSPOST_COOLDOWN_MINUTES with
  | Some raw => if 0 <=? raw then raw else 60
  | None => 60
  end.

Definition crosspostDailyCap : Z :=
  match COALITION_CROSSPOST_DAILY_CAP with
  | Some raw => if 0 <? raw then raw else 3
  | None => 3
  end.

(** The posts that count against a member: carried out by them in the last day. *)
Definition counted_posts (coalitionId userId : string) (now : Z) (o : outreach) :
    list CoalitionCampaignPostRecord :=
  js_sort (fun a b => xp_createdAt b <=? xp_createdAt a)
    (List.filter (fun p => bool_decide (xp_direction p = post_out)
       && bool_decide (xp_authorUserId p = Some userId)
       && (now - 24 * 60 * 60 * 1000 <=? xp_createdAt p)
       && (bool_decide (xp_syncStatus p = sync_posted) || bool_decide (xp_syncStatus p = sync_pending)))
      (listCoalitionCampaignPosts None (Some coalitionId) o)).

(** [Math.ceil(n / 1000)] *)
Definition ceil_seconds (ms : Z) : Z := - ((- ms) / 1000).

Definition checkGuardrails (coalitionId userId : string) (now : Z) (o : outreach) : GuardrailState :=
  let cap := crosspostDailyCap in
  let cooldownMs := crosspostCooldownMinutes * 60000 in
  let mine := counted_posts coalitionId userId now o in
  let count := Z.of_nat (length mine) in
  if cap <=? count then mk_guard false (Some by_daily_cap) None count cap
  else
    match mine with
    | last :: _ =>
        let elapsed := now - xp_createdAt last in
        if (0 <? cooldownMs) && (elapsed <? cooldownMs)
        then mk_guard false (Some by_cooldown) (Some (ceil_seconds (cooldownMs - elapsed))) count cap
        else mk_guard true None None count cap
    | [] => mk_guard true None None count cap
    end.

(** ** Connections *)

Record ConnectPlatformInput : Type := {
  in_platform : CoalitionPlatform;
  in_authMode : ConnectionAuthMode;
  in_secret : option string;
  in_displayHandle : option string;
}.

(** The credential of the row [connectPlatform] saves: the one just sealed, else the
    one held so far when the mode stays. *)
Definition carried_credential (sealed : option string) (existing : option CoalitionConnectionRecord)
    (mode : ConnectionAuthMode) : option string :=
  match truthy sealed with
  | Some c => Some c
  | None =>
      match existing with
      | Some e => if bool_decide (truthy (xc_credentialRef e) <> None) && bool_decide (xc_authMode e = mode)
                  then xc_credentialRef e else None
      | None => None
      end
  end.

(** The last part: the row is saved and announced. *)
Definition save_connection (c : CoalitionRecord) (actorId : string) (i : ConnectPlatformInput)
    (sealed : option string) (o : outreach) :
    outreach * SyncResult (CoalitionPlatform * ConnectionAuthMode * option string) :=
  let existing := getCoalitionConnection (co_id c) (in_platform i) o in
  let (o, id) := match existing with Some e => (o, xc_id e) | None => newConnectionId o end in
  let (o, saved) := upsertCoalitionConnection
    (mk_xc id (co_id c) (in_platform i) (in_authMode i)
       (carried_credential sealed existing (in_authMode i)) (truthy (in_displayHandle i)) actorId true 0 0) o in
  (emit_o (ev_connection_set (co_id c) (xc_platform saved) (xc_authMode saved) actorId) o,
   Ok (xc_platform saved, xc_authMode saved, truthy (xc_displayHandle saved))).

Definition connectPlatform (idOrSlug actorId : string) (i : ConnectPlatformInput) (o : outreach) :
    outreach * SyncResult (CoalitionPlatform * ConnectionAuthMode * option string) :=
  match getCoalition idOrSlug (o_db o) with
  | None => refuse se_not_found o
  | Some c =>
      match activeMembership (co_id c) actorId (o_db o) with
      | None => refuse se_not_member o
      | Some m =>
          if negb (coalitionRoleCan (mb_role m) connections_manage) then refuse se_forbidden o
          else if negb (platformAllowsAuthMode (in_platform i) (in_authMode i))
          then refuse (se_auth_mode_unsupported (in_platform i)) o
          else if bool_decide (in_authMode i = auth_shared) && bool_decide (truthy (in_secret i) <> None)
                  && negb outboundSyncEnabled
          then refuse (se_disabled gate_outbound) o
          else if match truthy (in_secret i) with
                  | Some s => negb (credentialLooksValid (in_platform i) s)
                  | None => false
                  end
          then refuse (se_credential_malformed (in_platform i)) o
          else
            match in_authMode i, truthy (in_secret i) with
            | auth_shared, Some s =>
                let (o', sealed) := seal s (sharedCredentialAad (co_id c) (in_platform i)) o in
                match sealed with
                | Err _ => refuse se_credentials_unavailable o
                | Ok envelope => save_connection c actorId i (Some envelope) o'
                end
            | _, _ => save_connection c actorId i None o
            end
      end
  end.

Record ConnectionView : Type := {
  cv_platform : CoalitionPlatform;
  cv_authMode : ConnectionAuthMode;
  cv_displayHandle : option string;
  cv_apiPost : bool;
  cv_memberLinked : bool;
}.

Definition listConnections (coalitionId : string) (viewerId : option string) (o : outreach) : list ConnectionView :=
  let memberLinks :=
    match truthy viewerId with
    | Some v => map mc_platform (List.filter (fun r => bool_decide (mc_revokedAt r = None))
                  (listCoalitionMemberConnections (Some coalitionId) (Some v) (o_db o)))
    | None => []
    end in
  map (fun r => {| cv_platform := xc_platform r; cv_authMode := xc_authMode r;
                   cv_displayHandle := truthy (xc_displayHandle r);
                   cv_apiPost := apiPost (COALITION_PLATFORM_CAPABILITIES (xc_platform r));
                   cv_memberLinked := bool_decide (xc_platform r ∈ memberLinks) |})
    (List.filter xc_active (listCoalitionConnections (Some coalitionId) o)).

Definition disconnectPlatform (idOrSlug actorId : string) (p : CoalitionPlatform) :
    O (SyncResult (CoalitionPlatform * Z)) :=
  let! found := gets (fun o => getCoalition idOrSlug (o_db o)) in
  match found with
  | None => mret (Err se_not_found)
  | Some c =>
      let! membership := gets (fun o => activeMembership (co_id c) actorId (o_db o)) in
      match membership with
      | None => mret (Err se_not_member)
      | Some m =>
          if negb (coalitionRoleCan (mb_role m) connections_manage) then mret (Err se_forbidden)
          else
            let! existing := gets (getCoalitionConnection (co_id c) p) in
            match existing with
            | None => mret (Err (se_no_connection p))
            | Some e =>
                let! _ := update (upsertCoalitionConnection (with_xc_active false (with_xc_credentialRef None e))) in
                let! now := gets o_now in
                let! revoked := inside (revokeMemberLinks (co_id c) (Some p) None now) in
                modify (emit_o (ev_connection_revoked (co_id c) p actorId revoked)) ;;;
                mret (Ok (p, revoked))
            end
      end
  end.

(** [db.listCoalitionMemberConnections({ coalitionId, userId }).find(...)] *)
Definition member_link (coalitionId userId : string) (p : CoalitionPlatform) (d : db) :
    option CoalitionMemberConnectionRecord :=
  List.find (fun r => bool_decide (mc_platform r = p)) (listCoalitionMemberConnections (Some coalitionId) (Some userId) d).

Definition linkMemberAccount (idOrSlug userId : string) (p : CoalitionPlatform) (secret : string)
    (displayHandle : option string) (o : outreach) : outreach * SyncResult (CoalitionPlatform * option string) :=
  match getCoalition idOrSlug (o_db o) with
  | None => refuse se_not_found o
  | Some c =>
      match activeMembership (co_id c) userId (o_db o) with
      | None => refuse se_not_member o
      | Some _ =>
          match getCoalitionConnection (co_id c) p o with
          | None => refuse (se_no_connection p) o
          | Some connection =>
              if negb (xc_active connection) then refuse (se_no_connection p) o
              else if negb (bool_decide (xc_authMode connection = auth_personal)) then refuse se_forbidden o
              else if negb (credentialLooksValid p secret) then refuse (se_credential_malformed p) o
              else if negb outboundSyncEnabled then refuse (se_disabled gate_outbound) o
              else
                let (o', sealed) := seal secret (memberCredentialAad (co_id c) userId p) o in
                match sealed with
                | Err _ => refuse se_credentials_unavailable o
                | Ok ciphertext =>
                    let existing := member_link (co_id c) userId p (o_db o') in
                    let (o', id) := match existing with
                                    | Some e => (o', mc_id e)
                                    | None => newMemberConnectionId o'
                                    end in
                    let (d, saved) := upsertCoalitionMemberConnection
                      (mk_mc id (co_id c) userId p (Some ciphertext) (truthy displayHandle) None 0 0) (o_db o') in
                    (set_o_db d o', Ok (mc_platform saved, truthy (mc_displayHandle saved)))
                end
          end
      end
  end.

(** ** Opt-ins *)

Definition listOptIns (campaignId userId : string) (o : outreach) : list (CoalitionPlatform * bool) :=
  map (fun r => (xo_platform r, xo_enabled r)) (listCoalitionCampaignSyncOptIns (Some campaignId) (Some userId) None o).

Definition isOptedIn (campaignId userId : string) (p : CoalitionPlatform) (o : outreach) : bool :=
  existsb (fun r => bool_decide (xo_platform r = p) && xo_enabled r)
    (listCoalitionCampaignSyncOptIns (Some campaignId) (Some userId) None o).

Definition setOptIn (idOrSlug userId campaignId : string) (p : CoalitionPlatform) (enabled : bool) (o : outreach) :
    outreach * SyncResult (CoalitionPlatform * bool) :=
  match getCoalition idOrSlug (o_db o) with
  | None => refuse se_not_found o
  | Some c =>
      match activeMembership (co_id c) userId (o_db o) with
      | None => refuse se_not_member o
      | Some _ =>
          match getCoalitionCampaign campaignId (o_db o) with
          | None => refuse se_not_found o
          | Some campaign =>
              if negb (bool_decide (cp_coalitionId campaign = co_id c)) then refuse se_not_found o
              else
                match getCoalitionConnection (co_id c) p o with
                | None => refuse (se_no_connection p) o
                | Some connection =>
                    if negb (xc_active connection) then refuse (se_no_connection p) o
                    else
                      let existing := List.find (fun r => bool_decide (xo_platform r = p))
                        (listCoalitionCampaignSyncOptIns (Some campaignId) (Some userId) None o) in
                      let (o, id) := match existing with Some e => (o, xo_id e) | None => newOptInId o end in
                      let (o, saved) := upsertCoalitionCampaignSyncOptIn
                        (mk_xo id campaignId (co_id c) userId p enabled 0 0) o in
                      (o, Ok (xo_platform saved, xo_enabled saved))
                end
          end
      end
  end.
End connections.
