(* ===== verification/Replies.v ===== *)
(** * What strangers wrote back

    The second half of [packages/api/src/services/coalitionSync.ts], the moderation
    of inbound replies, and [services/coalitionExternalRetention.ts], the daily purge.
    None of it awaits. *)

From S2P Require Import Prelude JsMap Async CoalitionDomain Records Store Network Relay Slug Text SecretBox.
From S2P Require Import BillingRows Outreach Connections.
Open Scope Z_scope.

Definition EXTERNAL_AUTHOR_MAX : nat := 120.
Definition EXTERNAL_CONTENT_MAX : nat := 2000.
Definition EXTERNAL_REPLY_CAP_PER_POST : Z := 500.
Definition INBOUND_READ_WINDOW_DAYS : Z := 30.

Record IngestInput : Type := {
  ig_campaignPostId : string;
  ig_sourcePlatform : CoalitionPlatform;
  ig_externalAuthor : string;
  ig_externalId : option string;
  ig_content : string;
  ig_receivedAt : option string;
}.

Record ExternalActivityView : Type := {
  av_id : string;
  av_campaignId : string;
  av_campaignPostId : string;
  av_sourcePlatform : CoalitionPlatform;
  av_attribution : string;
  av_externalAuthor : string;
  av_content : string;
  av_moderationStatus : ExternalActivityModerationStatus;
  av_receivedAt : BillingRows.stamp;
}.

Definition toView (row : CoalitionExternalActivityRecord) : ExternalActivityView := {|
  av_id := xr_id row;
  av_campaignId := xr_campaignId row;
  av_campaignPostId := xr_campaignPostId row;
  av_sourcePlatform := xr_sourcePlatform row;
  av_attribution := xr_externalAuthor row +:+ " via " +:+ cap_label (COALITION_PLATFORM_CAPABILITIES (xr_sourcePlatform row));
  av_externalAuthor := xr_externalAuthor row;
  av_content := xr_content row;
  av_moderationStatus := xr_moderationStatus row;
  av_receivedAt := xr_receivedAt row;
|}.

Definition rejectedByCap (postsToday : Z) : GuardrailState :=
  mk_guard false (Some by_daily_cap) None postsToday EXTERNAL_REPLY_CAP_PER_POST.

(** The rows of one post: [.filter((row) => row.campaignPostId === post.id)] *)
Definition replies_to (post : CoalitionCampaignPostRecord) (o : outreach) : list CoalitionExternalActivityRecord :=
  List.filter (fun r => bool_decide (xr_campaignPostId r = xp_id post))
    (listCoalitionExternalActivity (Some (xp_campaignId post)) None None o).

Section replies.
Context `{Env} `{OutreachEnv}.

(** ** Ingestion *)

(** The reply already held under this origin id. *)
Definition seen_reply (post : CoalitionCampaignPostRecord) (i : IngestInput) (o : outreach) :
    option CoalitionExternalActivityRecord :=
  match truthy (ig_externalId i) with
  | None => None
  | Some x =>
      List.find (fun r => bool_decide (xr_campaignPostId r = xp_id post)
          && bool_decide (xr_sourcePlatform r = ig_sourcePlatform i)
          && bool_decide (xr_externalId r = Some x))
        (listCoalitionExternalActivity (Some (xp_campaignId post)) None None o)
  end.

(** The row and the event of a reply that is taken in. *)
Definition take_in (post : CoalitionCampaignPostRecord) (policy : ExternalReplyPolicy) (i : IngestInput)
    (o : outreach) : outreach * CoalitionExternalActivityRecord :=
  let (o, id) := newExternalActivityId o in
  let (o, saved) := upsertCoalitionExternalActivity
    (mk_xr id (xp_id post) (xp_campaignId post) (xp_coalitionId post) (ig_sourcePlatform i)
       (clip (ig_externalAuthor i) EXTERNAL_AUTHOR_MAX) (truthy (ig_externalId i))
       (clip (ig_content i) EXTERNAL_CONTENT_MAX)
       (if bool_decide (policy = reply_open) then ext_approved else ext_pending) None None
       (match ig_receivedAt i with Some text => as_sent text | None => at_ms (o_now o) end) 0 0) o in
  (emit_o (ev_external_received (xp_coalitionId post) (xp_campaignId post) (xr_id saved) (xr_sourcePlatform saved)) o,
   saved).

Definition ingestExternalActivity (i : IngestInput) (o : outreach) :
    outreach * SyncResult CoalitionExternalActivityRecord :=
  if negb inboundSyncEnabled then refuse (se_disabled gate_inbound) o
  else
    match getCoalitionCampaignPost (ig_campaignPostId i) o with
    | None => refuse se_not_found o
    | Some post =>
        if negb (bool_decide (xp_platform post = ig_sourcePlatform i)) then refuse se_not_found o
        else if negb (inbound (COALITION_PLATFORM_CAPABILITIES (ig_sourcePlatform i)))
        then refuse (se_disabled gate_inbound) o
        else
          match db_getCoalition (xp_coalitionId post) (o_db o) with
          | None => refuse se_not_found o
          | Some coalition =>
              if isStopped coalition then refuse se_not_found o
              else
                let policy := default reply_moderated (co_externalReplyPolicy coalition) in
                if bool_decide (policy = reply_off) then refuse se_forbidden o
                else
                  match getCoalitionCampaign (xp_campaignId post) (o_db o) with
                  | None => refuse se_not_found o
                  | Some campaign =>
                      if negb (publicStatus (cp_status campaign)) then refuse se_campaign_inactive o
                      else
                        let held := Z.of_nat (length (replies_to post o)) in
                        if EXTERNAL_REPLY_CAP_PER_POST <=? held then refuse (se_guardrail (rejectedByCap held)) o
                        else
                          match seen_reply post i o with
                          | Some seen => (o, Ok seen)
                          | None => let (o, saved) := take_in post policy i o in (o, Ok saved)
                          end
                  end
          end
    end.

(** ** Reading *)

Definition in_arrival_order (rows : list CoalitionExternalActivityRecord) : list CoalitionExternalActivityRecord :=
  js_sort (fun a b => received_before (xr_receivedAt a) (xr_receivedAt b)) rows.

Definition listApprovedActivity (campaignId : string) (o : outreach) : list ExternalActivityView :=
  match getCoalitionCampaign campaignId (o_db o) with
  | None => []
  | Some campaign =>
      match db_getCoalition (cp_coalitionId campaign) (o_db o) with
      | None => []
      | Some coalition =>
          if isStopped coalition then []
          else map toView (in_arrival_order (listCoalitionExternalActivity (Some campaignId) None (Some ext_approved) o))
      end
  end.

Definition listPendingActivity (idOrSlug actorId : string) (o : outreach) : SyncResult (list ExternalActivityView) :=
  match getCoalition idOrSlug (o_db o) with
  | None => Err se_not_found
  | Some c =>
      match activeMembership (co_id c) actorId (o_db o) with
      | None => Err se_not_member
      | Some m =>
          if negb (coalitionRoleCan (mb_role m) externals_moderate) then Err se_forbidden
          else Ok (map toView (in_arrival_order
                 (listCoalitionExternalActivity None (Some (co_id c)) (Some ext_pending) o)))
      end
  end.

(** ** Moderation *)

(** [db.upsertCoalitionExternalActivity({ ...row, moderationStatus, reviewedBy, reviewedAt: NOW_ISO() })] *)
Definition review (row : CoalitionExternalActivityRecord) (status : ExternalActivityModerationStatus) (by_ : string)
    (o : outreach) : outreach * CoalitionExternalActivityRecord :=
  upsertCoalitionExternalActivity
    (with_xr_reviewedAt (Some (o_now o)) (with_xr_reviewedBy (Some by_) (with_xr_moderationStatus status row))) o.

Definition moderateActivity (idOrSlug actorId activityId : string) (approve : bool) (o : outreach) :
    outreach * SyncResult ExternalActivityView :=
  match getCoalition idOrSlug (o_db o) with
  | None => refuse se_not_found o
  | Some c =>
      match activeMembership (co_id c) actorId (o_db o) with
      | None => refuse se_not_member o
      | Some m =>
          if negb (coalitionRoleCan (mb_role m) externals_moderate) then refuse se_forbidden o
          else
            match getCoalitionExternalActivity activityId o with
            | None => refuse se_not_found o
            | Some row =>
                if negb (bool_decide (xr_coalitionId row = co_id c)) then refuse se_not_found o
                else
                  let target := if approve then ext_approved else ext_rejected in
                  if bool_decide (xr_moderationStatus row = target) then (o, Ok (toView row))
                  else if bool_decide (xr_moderationStatus row = ext_rejected) then refuse se_already_moderated o
                  else
                    let (o, saved) := review row target actorId o in
                    (emit_o (ev_external_moderated (co_id c) (xr_id saved) approve actorId) o, Ok (toView saved))
            end
      end
  end.

Definition takeDownExternalActivity (idOrSlug moderatorId activityId reason : string) (o : outreach) :
    outreach * SyncResult ExternalActivityView :=
  match getCoalition idOrSlug (o_db o) with
  | None => refuse se_not_found o
  | Some c =>
      match getCoalitionExternalActivity activityId o with
      | None => refuse se_not_found o
      | Some row =>
          if negb (bool_decide (xr_coalitionId row = co_id c)) then refuse se_not_found o
          else if bool_decide (xr_moderationStatus row = ext_rejected) then (o, Ok (toView row))
          else
            let (o, saved) := review row ext_rejected moderatorId o in
            (emit_o (ev_external_taken_down (co_id c) (xr_campaignId saved) (xr_id saved) moderatorId reason) o,
             Ok (toView saved))
      end
  end.

(** ** Retention *)

Definition MIN_WINDOW_DAYS : Z := INBOUND_READ_WINDOW_DAYS.
Definition DEFAULT_PENDING_DAYS : Z := 30.
Definition DEFAULT_REJECTED_DAYS : Z := 30.
Definition DEFAULT_APPROVED_DAYS : Z := 365.
Definition RETENTION_DAY_MS : Z := 24 * 60 * 60 * 1000.

Record RetentionWindows : Type := { pendingDays : Z; rejectedDays : Z; approvedDays : Z }.

(** The number a text of digits writes. *)
Fixpoint digits_value (acc : Z) (l : list ascii) : Z :=
  match l with
  | [] => acc
  | c :: l => digits_value (10 * acc + (Z.of_nat (nat_of_ascii c) - 48)) l
  end.

Definition MAX_SAFE_INTEGER : Z := 2 ^ 53 - 1.

(** [parseInt] of digits beyond the safe integers is not a safe integer either. *)
Definition positiveIntDays (raw : option string) (fallback : Z) : Z :=
  match raw with
  | None => fallback
  | Some text =>
      let trimmed := js_trim text in
      if negb (only_chars is_digit trimmed) then fallback
      else
        let parsed := digits_value 0 (chars trimmed) in
        if (parsed <=? MAX_SAFE_INTEGER) && (0 <? parsed) then parsed else fallback
  end.

Definition retentionWindows : RetentionWindows :=
  let floored raw fallback := Z.max (positiveIntDays raw fallback) MIN_WINDOW_DAYS in
  {| pendingDays := floored RETENTION_PENDING_DAYS DEFAULT_PENDING_DAYS;
     rejectedDays := floored RETENTION_REJECTED_DAYS DEFAULT_REJECTED_DAYS;
     approvedDays := floored RETENTION_APPROVED_DAYS DEFAULT_APPROVED_DAYS |}.

(** [bucketOf]: the statuses are the buckets. *)
Definition bucketOf (row : CoalitionExternalActivityRecord) : ExternalActivityModerationStatus :=
  xr_moderationStatus row.

(** [Date.parse] of a kept date, [None] for [NaN]. *)
Definition instant_of (s : BillingRows.stamp) : option Z :=
  match s with
  | at_ms ms => Some ms
  | as_sent text => if bool_decide (text = "") then None else date_parse text
  end.

Definition anchorOf (row : CoalitionExternalActivityRecord) : option Z :=
  match bucketOf row, xr_reviewedAt row with
  | ext_rejected, Some t => Some t
  | _, _ => instant_of (xr_receivedAt row)
  end.

Definition window_of (w : RetentionWindows) (b : ExternalActivityModerationStatus) : Z :=
  match b with
  | ext_approved => approvedDays w
  | ext_rejected => rejectedDays w
  | ext_pending => pendingDays w
  end.

Definition isPastDue (w : RetentionWindows) (now : Z) (row : CoalitionExternalActivityRecord) : bool :=
  match anchorOf row with
  | None => true
  | Some anchor => window_of w (bucketOf row) * RETENTION_DAY_MS <? now - anchor
  end.

Record RetentionSweepResult : Type := {
  rsr_scanned : Z;
  rsr_pending : Z;
  rsr_rejected : Z;
  rsr_approved : Z;
}.

(** [db.deleteCoalitionExternalActivities([...due.keys()])], then one count per id
    removed under the bucket it was due in.  Ids are the keys of the table, so [due],
    a map from ids, holds one entry per due row. *)
Definition sweepExternalActivityRetention (now : Z) (o : outreach) : outreach * RetentionSweepResult :=
  let rows := listCoalitionExternalActivity None None None o in
  let due := List.filter (isPastDue retentionWindows now) rows in
  let (o, gone) := deleteCoalitionExternalActivities (map xr_id due) o in
  let purged b := count_by (fun r => bool_decide (xr_id r ∈ gone) && bool_decide (bucketOf r = b)) due in
  (o, {| rsr_scanned := Z.of_nat (length rows); rsr_pending := purged ext_pending;
         rsr_rejected := purged ext_rejected; rsr_approved := purged ext_approved |}).
End replies.
