(* ===== verification/CrossPost.v ===== *)
(** * Posting a campaign elsewhere

    The adapters of [packages/api/src/services/coalitionPlatformAdapters.ts]; the
    copy, [crosspostCampaign] and [shareCampaign] of [services/coalitionSync.ts].
    The transport and its time-out are on the other side of the requests. *)

From S2P Require Import Prelude Async CoalitionDomain Records Store Relay Slug Network JsMap.
From S2P Require Import BillingRows Text SecretBox Outreach Attribution Connections.
Open Scope Z_scope.

(** [await f()] *)
Definition o_await {A : Type} (m : O A) : O A :=
  let! a := m in let! _ := request (Inside _ Yield) in mret a.

(** ** The adapters *)

Record PostResult : Type := mk_result { pr_ok : bool; pr_externalPostId : option string; pr_error : option string }.

Definition post_failed (error : string) : PostResult := mk_result false None (Some error).
(** [{ ok: true, ...(id ? { externalPostId: id } : {}) }] *)
Definition post_made (body : option (option string)) : PostResult :=
  mk_result true (truthy (default None body)) None.

(** A value, or the exception of the transport: whether it was an [AbortError]. *)
Definition may_throw (A : Type) : Type := res bool A.

Definition linkFacet (text url : string) : option LinkFacet :=
  match find_text url text with
  | None => None
  | Some (before, _) =>
      Some {| lf_byteStart := utf8_length before; lf_byteEnd := (utf8_length before + utf8_length url)%nat;
              lf_uri := url |}
  end.

Definition postToDiscord (webhookUrl text : string) : O (may_throw PostResult) :=
  let! res := request (DiscordExecute (webhookUrl +:+ "?wait=true") text) in
  match res with
  | fetch_threw aborted => mret (Err aborted)
  | fetched status body =>
      if negb (http_ok status) then mret (Ok (post_failed ("discord_" +:+ pretty status)))
      else mret (Ok (post_made body))
  end.

Definition postToBluesky (credential text url : string) (now : Z) : O (may_throw PostResult) :=
  match cut_at "|"%char credential with
  | None => mret (Ok (post_failed "bluesky_credential_malformed"))
  | Some (identifier, password) =>
      let! session := request (BlueskyCreateSession identifier password) in
      match session with
      | fetch_threw aborted => mret (Err aborted)
      | fetched status body =>
          if negb (http_ok status) then mret (Ok (post_failed ("bluesky_auth_" +:+ pretty status)))
          else
            match body with
            | Some auth =>
                match truthy (bs_accessJwt auth), truthy (bs_did auth) with
                | Some jwt, Some did =>
                    let! res := request (BlueskyCreateRecord jwt did text now (linkFacet text url)) in
                    match res with
                    | fetch_threw aborted => mret (Err aborted)
                    | fetched status body =>
                        if negb (http_ok status) then mret (Ok (post_failed ("bluesky_" +:+ pretty status)))
                        else mret (Ok (post_made body))
                    end
                | _, _ => mret (Ok (post_failed "bluesky_auth_malformed"))
                end
            | None => mret (Ok (post_failed "bluesky_auth_malformed"))
            end
      end
  end.

Definition postToMastodon (credential text : string) : O (may_throw PostResult) :=
  match cut_at "|"%char credential with
  | None => mret (Ok (post_failed "mastodon_credential_malformed"))
  | Some (host, token) =>
      let instance := strip_slashes host in
      if negb (startsWith "https://" instance) then mret (Ok (post_failed "mastodon_instance_not_https"))
      else
        let! res := request (MastodonPostStatus (instance +:+ "/api/v1/statuses") token (slice0 64 text) text) in
        match res with
        | fetch_threw aborted => mret (Err aborted)
        | fetched status body =>
            if negb (http_ok status) then mret (Ok (post_failed ("mastodon_" +:+ pretty status)))
            else mret (Ok (post_made body))
        end
  end.

Definition blocker_name (b : PlatformAutomationBlocker) : string :=
  match b with
  | share_link_only => "share_link_only"
  | no_adapter => "no_adapter"
  | agreement_unsigned => "agreement_unsigned"
  end.

Section adapters.
Context `{Env} `{OutreachEnv} `{SecretRuntime} `{AttributionRuntime}.

Record AdapterInput : Type := {
  ad_platform : CoalitionPlatform;
  ad_text : string;
  ad_url : string;
  ad_credentialRef : option string;
  ad_credentialAad : string;
}.

Definition postToPlatform (i : AdapterInput) : O PostResult :=
  match platformAutomationBlockers (ad_platform i) with
  | blocker :: _ => mret (post_failed (blocker_name blocker))
  | [] =>
      match truthy (ad_credentialRef i) with
      | None => mret (post_failed "no_credential")
      | Some ref =>
          match decryptSecret ref (ad_credentialAad i) with
          | Err _ => mret (post_failed "credential_unreadable")
          | Ok secret =>
              let! now := gets o_now in
              let! outcome := match ad_platform i with
                | plat_discord => postToDiscord secret (ad_text i)
                | plat_bluesky => postToBluesky secret (ad_text i) (ad_url i) now
                | plat_mastodon => postToMastodon secret (ad_text i)
                | _ => mret (Ok (post_failed "no_adapter"))
                end in
              mret (match outcome with
                    | Ok result => result
                    | Err aborted => post_failed (if aborted then "timeout" else "transport")
                    end)
          end
      end
  end.

(** ** The copy *)

Definition CAMPAIGN_VERB (t : CampaignType) : string :=
  match t with
  | type_drive => "is raising for"
  | type_goods_drive => "is collecting for"
  | type_project => "is building"
  | type_boost => "is boosting"
  | type_mutual_aid => "is amplifying"
  end.

Definition TITLE_BUDGET : nat := 120.

Definition coalitionBaseUrl : string :=
  strip_slashes (default "https://theblackout.app" BLACKOUT_PUBLIC_BASE_URL).

Definition campaignShareUrl (c : CoalitionRecord) (campaignId : string) : string :=
  coalitionBaseUrl +:+ "/v1/c/" +:+ encodeURIComponent (co_slug c) +:+ "/" +:+ encodeURIComponent campaignId.

Definition campaignAppUrl (c : CoalitionRecord) (campaignId : string) : string :=
  coalitionBaseUrl +:+ "/coalitions/" +:+ encodeURIComponent (co_slug c) +:+ "/c/" +:+ encodeURIComponent campaignId.

Definition composePost (c : CoalitionRecord) (campaign : CoalitionCampaignRecord) : ShareComposition :=
  let goal := match cp_goalCents campaign with
              | Some cents => if 0 <? cents then " Goal: $" +:+ dollars_text cents +:+ "." else ""
              | None => ""
              end in
  let url := campaignShareUrl c (cp_id campaign) in
  let title := clip (cp_title campaign) TITLE_BUDGET in
  {| sh_text := co_name c +:+ " " +:+ CAMPAIGN_VERB (cp_type campaign) +:+ " " +:+ title +:+ "." +:+ goal +:+ " " +:+ url;
     sh_url := url;
     sh_title := co_name c +:+ ": " +:+ title |}.

(** [isCoalitionPlatform(target)] *)
Definition target_of (p : CoalitionPlatform) : CoalitionShareTarget :=
  match p with
  | plat_x => share_x | plat_bluesky => share_bluesky | plat_discord => share_discord
  | plat_instagram => share_instagram | plat_tiktok => share_tiktok | plat_mastodon => share_mastodon
  end.

Definition shareLinkFor (p : CoalitionPlatform) (post : ShareComposition) : option string :=
  match p with
  | plat_discord => None
  | _ => Some (default (sh_url post) (buildShareHref (target_of p) post None))
  end.

(** [{ ...post, url: attributed, text: post.text.replace(post.url, attributed) }] *)
Definition attributed_post (post : ShareComposition) (attributed : string) : ShareComposition :=
  {| sh_text := replace_first (sh_url post) attributed (sh_text post); sh_url := attributed; sh_title := sh_title post |}.

Definition campaignIsPubliclyShareable (campaign : CoalitionCampaignRecord) (d : db) : bool :=
  let subject := match cp_type campaign with
                 | type_mutual_aid => match cp_beneficiaryUserId campaign with Some b => Some b | None => cp_createdBy campaign end
                 | _ => cp_beneficiaryUserId campaign
                 end in
  match truthy subject with Some u => isPubliclyListed u d | None => true end.

(** ** Cross-posting *)

Record CrosspostOutcome : Type := mk_oc {
  oc_platform : CoalitionPlatform;
  oc_status : CampaignPostSyncStatus;
  oc_postId : string;
  oc_shareUrl : option string;
  oc_error : option string;
}.

(** The outcome of a platform a person has to finish on. *)
Definition as_share_link (coalitionId campaignId userId : string) (p : CoalitionPlatform) (id : string)
    (post : ShareComposition) : O CrosspostOutcome :=
  let shareUrl := default (sh_url post) (shareLinkFor p post) in
  let! _ := update (upsertCoalitionCampaignPost
    (mk_xp id campaignId coalitionId p None post_out sync_share_link (Some userId) (Some shareUrl) None None 0 0)) in
  mret (mk_oc p sync_share_link id (Some shareUrl) None).

(** The member's usable link: not revoked, and holding a credential. *)
Definition usable_link (coalitionId userId : string) (p : CoalitionPlatform) (d : db) : option string :=
  match List.find (fun r => bool_decide (mc_platform r = p) && bool_decide (mc_revokedAt r = None)
                            && bool_decide (truthy (mc_credentialRef r) <> None))
          (listCoalitionMemberConnections (Some coalitionId) (Some userId) d) with
  | Some r => mc_credentialRef r
  | None => None
  end.

(** Posting with a credential, and recording what came of it. *)
Definition post_and_record (coalitionId campaignId userId : string) (p : CoalitionPlatform) (id : string)
    (post : ShareComposition) (credentialRef : option string) (aad : string) : O CrosspostOutcome :=
  let! result := o_await (postToPlatform
    {| ad_platform := p; ad_text := sh_text post; ad_url := sh_url post;
       ad_credentialRef := credentialRef; ad_credentialAad := aad |}) in
  let status := if pr_ok result then sync_posted else sync_failed in
  let! _ := update (upsertCoalitionCampaignPost
    (mk_xp id campaignId coalitionId p (truthy (pr_externalPostId result)) post_out status (Some userId) None
       (truthy (pr_error result)) None 0 0)) in
  mret (mk_oc p status id None (truthy (pr_error result))).

(** One turn of the loop over the opt-ins. *)
Definition crosspost_to (c : CoalitionRecord) (userId campaignId : string) (basePost : ShareComposition)
    (p : CoalitionPlatform) : O CrosspostOutcome :=
  let! connection := gets (getCoalitionConnection (co_id c) p) in
  match (match connection with Some r => if xc_active r then Some r else None | None => None end) with
  | None =>
      let! id := update newCampaignPostId in
      mret (mk_oc p sync_failed id None (Some "no_connection"))
  | Some connection =>
      let! id := update newCampaignPostId in
      let! now := gets o_now in
      let post := attributed_post basePost
        (withAttribution (sh_url basePost) campaignId (name p) (Some userId) now) in
      if negb (apiPost (COALITION_PLATFORM_CAPABILITIES p)) then as_share_link (co_id c) campaignId userId p id post
      else
        match xc_authMode connection with
        | auth_personal =>
            let! link := gets (fun o => usable_link (co_id c) userId p (o_db o)) in
            match link with
            | None => as_share_link (co_id c) campaignId userId p id post
            | Some ref =>
                post_and_record (co_id c) campaignId userId p id post (Some ref) (memberCredentialAad (co_id c) userId p)
            end
        | auth_shared =>
            post_and_record (co_id c) campaignId userId p id post (xc_credentialRef connection)
              (sharedCredentialAad (co_id c) p)
        end
  end.

(** [for (const x of xs) out.push(await f(x))] *)
Fixpoint collect {A B : Type} (f : A -> O B) (l : list A) : O (list B) :=
  match l with
  | [] => mret []
  | a :: l => let! b := f a in let! bs := collect f l in mret (b :: bs)
  end.

Definition crosspostCampaign (idOrSlug userId campaignId : string) :
    O (SyncResult (list CrosspostOutcome * GuardrailState)) :=
  let! now := gets o_now in
  let! found := gets (fun o => getCoalition idOrSlug (o_db o)) in
  match found with
  | None => mret (Err se_not_found)
  | Some c =>
      if isStopped c then mret (Err se_not_found)
      else
        let! membership := gets (fun o => activeMembership (co_id c) userId (o_db o)) in
        match membership with
        | None => mret (Err se_not_member)
        | Some m =>
            if negb (coalitionRoleCan (mb_role m) campaigns_promote) then mret (Err se_forbidden)
            else if negb outboundSyncEnabled then mret (Err (se_disabled gate_outbound))
            else
              let! found := gets (fun o => getCoalitionCampaign campaignId (o_db o)) in
              match found with
              | None => mret (Err se_not_found)
              | Some campaign =>
                  if negb (bool_decide (cp_coalitionId campaign = co_id c)) then mret (Err se_not_found)
                  else if negb (bool_decide (cp_status campaign = st_active)) then mret (Err se_campaign_inactive)
                  else
                    let! shareable := gets (fun o => campaignIsPubliclyShareable campaign (o_db o)) in
                    if negb shareable then mret (Err se_private_subject)
                    else
                      let! rows := gets (listCoalitionCampaignSyncOptIns (Some campaignId) (Some userId) None) in
                      let optIns := List.filter xo_enabled rows in
                      if bool_decide (length optIns = 0%nat) then mret (Err (se_not_opted_in plat_x))
                      else
                        let! guardrails := gets (checkGuardrails (co_id c) userId now) in
                        if negb (gs_allowed guardrails) then mret (Err (se_guardrail guardrails))
                        else
                          let basePost := composePost c campaign in
                          let! outcomes := collect (crosspost_to c userId campaignId basePost) (map xo_platform optIns) in
                          modify (emit_o (ev_crossposted (co_id c) campaignId userId (map oc_platform outcomes))) ;;;
                          let! after := gets (checkGuardrails (co_id c) userId now) in
                          mret (Ok (outcomes, after))
              end
        end
  end.

Definition listCampaignPosts (campaignId : string) (o : outreach) : list CoalitionCampaignPostRecord :=
  js_sort (fun a b => xp_createdAt b <=? xp_createdAt a) (listCoalitionCampaignPosts (Some campaignId) None o).

(** ** The share sheet *)

Definition COALITION_SHARE_TARGETS : list CoalitionShareTarget :=
  [share_copy; share_x; share_bluesky; share_mastodon; share_threads; share_facebook; share_reddit; share_linkedin;
   share_telegram; share_whatsapp; share_email; share_sms; share_instagram; share_tiktok; share_discord].

Definition target_label (t : CoalitionShareTarget) : string :=
  match t with
  | share_copy => "Copy link" | share_x => "X" | share_bluesky => "Bluesky" | share_mastodon => "Mastodon"
  | share_threads => "Threads" | share_facebook => "Facebook" | share_reddit => "Reddit"
  | share_linkedin => "LinkedIn" | share_telegram => "Telegram" | share_whatsapp => "WhatsApp"
  | share_email => "Email" | share_sms => "Messages" | share_instagram => "Instagram"
  | share_tiktok => "TikTok" | share_discord => "Discord"
  end.

Definition needsInstanceHost (t : CoalitionShareTarget) : bool :=
  match t with share_mastodon => true | _ => false end.

(** [isCoalitionPlatform(target) ? target : 'copy'] *)
Definition target_channel (t : CoalitionShareTarget) : string :=
  match t with
  | share_x => name plat_x | share_bluesky => name plat_bluesky | share_discord => name plat_discord
  | share_instagram => name plat_instagram | share_tiktok => name plat_tiktok | share_mastodon => name plat_mastodon
  | _ => "copy"
  end.

Record ShareTargetView : Type := {
  tv_target : CoalitionShareTarget;
  tv_label : string;
  tv_href : option string;
  tv_needsInstanceHost : bool;
}.

Record CampaignShareView : Type := {
  csv_campaignId : string;
  csv_coalitionSlug : string;
  csv_url : string;
  csv_text : string;
  csv_title : string;
  csv_targets : list ShareTargetView;
}.

Definition share_target (post : ShareComposition) (campaignId : string) (viewerId instanceHost : option string)
    (now : Z) (t : CoalitionShareTarget) : ShareTargetView :=
  let attributed := withAttribution (sh_url post) campaignId (target_channel t) (truthy viewerId) now in
  let href := truthy (buildShareHref t (attributed_post post attributed) instanceHost) in
  {| tv_target := t; tv_label := target_label t; tv_href := href;
     tv_needsInstanceHost := needsInstanceHost t && bool_decide (href = None) |}.

Definition shareCampaign (idOrSlug campaignId : string) (viewerId instanceHost : option string) :
    O (SyncResult CampaignShareView) :=
  let! found := gets (fun o => getCoalition idOrSlug (o_db o)) in
  match found with
  | None => mret (Err se_not_found)
  | Some c =>
      if isStopped c then mret (Err se_not_found)
      else
        let! found := inside (getCampaign (co_id c) campaignId viewerId) in
        match found with
        | Err _ => mret (Err se_not_found)
        | Ok campaign =>
            if negb (publicStatus (cp_status campaign)) then mret (Err se_campaign_inactive)
            else
              let! shareable := gets (fun o => campaignIsPubliclyShareable campaign (o_db o)) in
              if negb shareable then mret (Err se_private_subject)
              else
                let! now := gets o_now in
                let post := composePost c campaign in
                mret (Ok {| csv_campaignId := cp_id campaign; csv_coalitionSlug := co_slug c; csv_url := sh_url post;
                            csv_text := sh_text post; csv_title := sh_title post;
                            csv_targets := map (share_target post (cp_id campaign) viewerId instanceHost now)
                                             COALITION_SHARE_TARGETS |})
        end
  end.
End adapters.

(** ** Announcing milestones

    [packages/api/src/services/coalitionAutoCrosspost.ts] and the timer of
    [services/coalitionAutoCrosspostScheduler.ts], whose overlap guard is
    [o_announcing].  Log lines and counters of the tick are left out; the [catch]
    around the poster is too, for [postToPlatform] answers with a value. *)

Open Scope Z_scope.

Definition ANNOUNCEABLE_TYPES : list CampaignType := [type_project; type_boost].
Definition LAUNCH_WINDOW_MS : Z := 48 * 60 * 60 * 1000.

Definition MILESTONE_COPY (m : CampaignMilestone) : string :=
  match m with
  | ms_launched => "just started"
  | ms_goal_reached => "reached its goal for"
  | ms_completed => "finished"
  end.

(** [for (const x of xs) await step(x)], with an accumulator. *)
Fixpoint o_fold {A R : Type} (f : A -> R -> O R) (l : list A) (r : R) : O R :=
  match l with
  | [] => mret r
  | a :: l => let! r := f a r in o_fold f l r
  end.

Section autopost.
Context `{Env} `{OutreachEnv} `{SecretRuntime} `{AttributionRuntime}.

(** [Date.parse(campaign.startsAt ?? campaign.createdAt)] *)
Definition started_at (campaign : CoalitionCampaignRecord) : option Z :=
  match cp_startsAt campaign with
  | Some text => date_parse text
  | None => Some (cp_createdAt campaign)
  end.

Definition milestonesFor (campaign : CoalitionCampaignRecord) (now : Z) : list CampaignMilestone :=
  (if bool_decide (cp_status campaign = st_completed) then [ms_completed] else []) ++
  (match cp_goalCents campaign with
   | Some goal => if (0 <? goal) && (goal <=? cp_raisedCents campaign) then [ms_goal_reached] else []
   | None => []
   end) ++
  (if bool_decide (cp_status campaign = st_active) then
     match started_at campaign with
     | Some at_ => if now - at_ <=? LAUNCH_WINDOW_MS then [ms_launched] else []
     | None => []
     end
   else []).

Definition composeMilestonePost (c : CoalitionRecord) (campaign : CoalitionCampaignRecord) (m : CampaignMilestone)
    (now : Z) : string * string :=
  let base := composePost c campaign in
  let url := withAttribution (sh_url base) (cp_id campaign) "auto" None now in
  (co_name c +:+ " " +:+ MILESTONE_COPY m +:+ " " +:+ cp_title campaign +:+ ". " +:+ url, url).

Definition announces (campaignId : string) (p : CoalitionPlatform) (m : CampaignMilestone)
    (r : CoalitionCampaignPostRecord) : bool :=
  bool_decide (xp_campaignId r = campaignId) && bool_decide (xp_platform r = p)
  && bool_decide (xp_milestone r = Some m) && negb (bool_decide (xp_syncStatus r = sync_failed)).

Definition alreadyPosted (campaignId : string) (p : CoalitionPlatform) (m : CampaignMilestone) (o : outreach) : bool :=
  existsb (fun r => bool_decide (xp_platform r = p) && bool_decide (xp_milestone r = Some m)
            && negb (bool_decide (xp_syncStatus r = sync_failed)))
    (listCoalitionCampaignPosts (Some campaignId) None o).

Record AutoCrosspostResult : Type := mk_auto { au_considered : Z; au_posted : Z; au_failed : Z; au_skipped : Z }.

(** The innermost body: one milestone on one connection. *)
Definition announce (c : CoalitionRecord) (campaign : CoalitionCampaignRecord) (m : CampaignMilestone)
    (connection : CoalitionConnectionRecord) (r : AutoCrosspostResult) : O AutoCrosspostResult :=
  let p := xc_platform connection in
  let! already := gets (alreadyPosted (cp_id campaign) p m) in
  if already then mret (mk_auto (au_considered r) (au_posted r) (au_failed r) (au_skipped r + 1))
  else
    let! now := gets o_now in
    let post := composeMilestonePost c campaign m now in
    let! id := update newCampaignPostId in
    let! result := o_await (postToPlatform
      {| ad_platform := p; ad_text := fst post; ad_url := snd post;
         ad_credentialRef := xc_credentialRef connection; ad_credentialAad := sharedCredentialAad (co_id c) p |}) in
    let! _ := update (upsertCoalitionCampaignPost
      (mk_xp id (cp_id campaign) (co_id c) p (truthy (pr_externalPostId result)) post_out
         (if pr_ok result then sync_posted else sync_failed) None None (truthy (pr_error result)) (Some m) 0 0)) in
    if pr_ok result then
      modify (emit_o (ev_announced (co_id c) (cp_id campaign) p m)) ;;;
      mret (mk_auto (au_considered r) (au_posted r + 1) (au_failed r) (au_skipped r))
    else mret (mk_auto (au_considered r) (au_posted r) (au_failed r + 1) (au_skipped r)).

Definition announce_campaign (now : Z) (c : CoalitionRecord) (connections : list CoalitionConnectionRecord)
    (campaign : CoalitionCampaignRecord) (r : AutoCrosspostResult) : O AutoCrosspostResult :=
  if negb (bool_decide (cp_type campaign ∈ ANNOUNCEABLE_TYPES)) then mret r
  else
    let! shareable := gets (fun o => campaignIsPubliclyShareable campaign (o_db o)) in
    if negb shareable then mret r
    else
      match milestonesFor campaign now with
      | [] => mret r
      | m :: _ =>
          o_fold (announce c campaign m) connections
            (mk_auto (au_considered r + 1) (au_posted r) (au_failed r) (au_skipped r))
      end.

(** The coalition's own accounts that can be driven. *)
Definition auto_connections (coalitionId : string) (o : outreach) : list CoalitionConnectionRecord :=
  List.filter (fun row => xc_active row && bool_decide (xc_authMode row = auth_shared)
      && bool_decide (truthy (xc_credentialRef row) <> None) && platformCanAutomate (xc_platform row))
    (listCoalitionConnections (Some coalitionId) o).

Definition announce_coalition (now : Z) (c : CoalitionRecord) (r : AutoCrosspostResult) : O AutoCrosspostResult :=
  if isStopped c then mret r
  else
    let! connections := gets (auto_connections (co_id c)) in
    if bool_decide (length connections = 0%nat) then mret r
    else
      let! campaigns := gets (fun o => listCoalitionCampaigns (Some (co_id c)) None None (o_db o)) in
      o_fold (announce_campaign now c connections) campaigns r.

Definition sweepAutoCrossposts : O AutoCrosspostResult :=
  if negb autoCrosspostEnabled || negb outboundSyncEnabled then mret (mk_auto 0 0 0 0)
  else
    let! now := gets o_now in
    let! coalitions := gets (fun o => listCoalitions (o_db o)) in
    o_fold (announce_coalition now) coalitions (mk_auto 0 0 0 0).

(** One tick of the timer. *)
Definition autopost_tick : O unit :=
  let! running := gets o_announcing in
  if running then mret tt
  else
    modify (set_o_announcing true) ;;;
    spawn (let! _ := o_await sweepAutoCrossposts in modify (set_o_announcing false)).

Definition automatablePlatforms : list CoalitionPlatform := List.filter platformCanAutomate members.
End autopost.
