(* ===== verification/Inbound.v ===== *)
(** * Reading back what posts drew: [packages/api/src/services/coalitionInboundSync.ts]

    and the timer of [services/coalitionInboundScheduler.ts], whose overlap guard is
    [o_reading].  A reader answers [None] where the source returns [null] or throws,
    which the sweep treats alike.  [replace] of a global pattern is [replace_all],
    whose fuel is the length of the text: every turn passes over a character. *)

From S2P Require Import Prelude JsMap Async CoalitionDomain Records Store Network Relay Slug Text SecretBox.
From S2P Require Import BillingRows Outreach Attribution Connections Replies CrossPost.
Open Scope Z_scope.

Definition READ_WINDOW_MS : Z := INBOUND_READ_WINDOW_DAYS * 24 * 60 * 60 * 1000.
Definition REPLIES_PER_READ : nat := 50.

Record RecentReply : Type := mk_reply {
  ry_externalId : string;
  ry_author : string;
  ry_content : string;
  ry_at : option string;
}.

Record EngagementReading : Type := mk_reading {
  rd_likes : Z;
  rd_reshares : Z;
  rd_replies : Z;
  rd_recentReplies : list RecentReply;
}.

Definition str (value : json_scalar) (fallback : string) : string :=
  match value with js_text s => s | _ => fallback end.
Definition num (value : json_scalar) : Z :=
  match value with
  | js_count (JFin q) => if Qle_bool 0 q then Qfloor q else 0
  | _ => 0
  end.

(** ** Markup *)

Fixpoint replace_all (fuel : nat) (pattern : list ascii -> option (list ascii)) (by_ l : list ascii) : list ascii :=
  match fuel, l with
  | S fuel, c :: l' =>
      match pattern l with
      | Some rest => by_ ++ replace_all fuel pattern by_ rest
      | None => c :: replace_all fuel pattern by_ l'
      end
  | _, _ => l
  end.

(** [s.replace(pattern, by)] for a global pattern that matches no empty text. *)
Definition all_replaced (pattern : list ascii -> option (list ascii)) (by_ s : string) : string :=
  of_chars (replace_all (String.length s) pattern (chars by_) (chars s)).

(** What follows a literal, in either case. *)
Fixpoint literal_i (p l : list ascii) : option (list ascii) :=
  match p, l with
  | [], _ => Some l
  | a :: p, b :: l => if Ascii.eqb a (lower_char b) then literal_i p l else None
  | _ :: _, [] => None
  end.

Fixpoint literal (p l : list ascii) : option (list ascii) :=
  match p, l with
  | [], _ => Some l
  | a :: p, b :: l => if Ascii.eqb a b then literal p l else None
  | _ :: _, [] => None
  end.

Fixpoint drop_spaces (l : list ascii) : list ascii :=
  match l with
  | c :: l' => if is_space c then drop_spaces l' else l
  | [] => []
  end.

(** [/<br\s*\/?>/gi] *)
Definition br_tag (l : list ascii) : option (list ascii) :=
  match literal_i (chars "<br") l with
  | None => None
  | Some rest =>
      match drop_spaces rest with
      | c :: rest' =>
          if Ascii.eqb c ">"%char then Some rest'
          else if Ascii.eqb c "/"%char then literal (chars ">") rest' else None
      | [] => None
      end
  end.

(** [[^>]*>] *)
Fixpoint after_gt (l : list ascii) : option (list ascii) :=
  match l with
  | c :: l' => if Ascii.eqb c ">"%char then Some l' else after_gt l'
  | [] => None
  end.

(** [/<[^>]*>/g] *)
Definition any_tag (l : list ascii) : option (list ascii) :=
  match l with
  | c :: l' => if Ascii.eqb c "<"%char then after_gt l' else None
  | [] => None
  end.

Definition newline : string := String (ascii_of_nat 10) "".
Definition double_quote : string := String (ascii_of_nat 34) "".

Definition stripHtml (html : string) : string :=
  js_trim
    (all_replaced (literal (chars "&amp;")) "&"
    (all_replaced (literal (chars "&#39;")) "'"
    (all_replaced (literal (chars "&quot;")) double_quote
    (all_replaced (literal (chars "&gt;")) ">"
    (all_replaced (literal (chars "&lt;")) "<"
    (all_replaced any_tag ""
    (all_replaced (literal_i (chars "</p>")) newline
    (all_replaced br_tag newline html)))))))).

Section inbound.
Context `{Env} `{OutreachEnv} `{SecretRuntime}.

(** ** The readers *)

(** [.slice(0, REPLIES_PER_READ).map(...).filter((reply) => reply.externalId && reply.content)] *)
Definition recent_replies (strip : string -> string) (raws : list RawReply) : list RecentReply :=
  List.filter (fun r => negb (bool_decide (ry_externalId r = "")) && negb (bool_decide (ry_content r = "")))
    (map (fun raw => mk_reply (str (rw_id raw) "") (str (rw_author raw) "unknown") (strip (str (rw_content raw) ""))
                       (truthy (Some (str (rw_at raw) ""))))
       (firstn REPLIES_PER_READ raws)).

Definition reading_of (counts : RawCounts) (replies : list RecentReply) : EngagementReading :=
  mk_reading (num (rw_likes counts)) (num (rw_reshares counts)) (num (rw_replies counts)) replies.

Definition readBluesky (credential uri : string) : O (option EngagementReading) :=
  match cut_at "|"%char credential with
  | None => mret None
  | Some (identifier, password) =>
      let! session := request (BlueskyCreateSession identifier password) in
      match session with
      | fetched status (Some auth) =>
          if negb (http_ok status) then mret None
          else
            match truthy (bs_accessJwt auth) with
            | None => mret None
            | Some jwt =>
                let! res := request (BlueskyGetPostThread jwt uri) in
                match res with
                | fetched status (Some (counts, replies)) =>
                    if negb (http_ok status) then mret None
                    else mret (Some (reading_of counts (recent_replies (fun s => s) replies)))
                | _ => mret None
                end
            end
      | _ => mret None
      end
  end.

Definition readMastodon (credential statusId : string) : O (option EngagementReading) :=
  match cut_at "|"%char credential with
  | None => mret None
  | Some (host, token) =>
      let instance := strip_slashes host in
      if negb (startsWith "https://" instance) then mret None
      else
        let url := instance +:+ "/api/v1/statuses/" +:+ statusId in
        let! status := request (MastodonGetStatus url token) in
        match status with
        | fetched code (Some counts) =>
            if negb (http_ok code) then mret None
            else
              let! context := request (MastodonGetContext (url +:+ "/context") token) in
              match context with
              | fetch_threw _ => mret None
              | fetched code body =>
                  let descendants := if http_ok code then default [] body else [] in
                  mret (Some (reading_of counts (recent_replies stripHtml descendants)))
              end
        | _ => mret None
        end
  end.

(** ** The sweep *)

Definition readable (p : CoalitionPlatform) : bool :=
  match p with plat_bluesky | plat_mastodon => true | _ => false end.

Definition credentialFor (post : CoalitionCampaignPostRecord) (o : outreach) : option string :=
  match getCoalitionConnection (xp_coalitionId post) (xp_platform post) o with
  | None => None
  | Some connection =>
      if negb (xc_active connection) then None
      else
        let opened ref aad := match decryptSecret ref aad with Ok secret => Some secret | Err _ => None end in
        match xc_authMode connection with
        | auth_personal =>
            match truthy (xp_authorUserId post) with
            | None => None
            | Some author =>
                match usable_link (xp_coalitionId post) author (xp_platform post) (o_db o) with
                | None => None
                | Some ref => opened ref (memberCredentialAad (xp_coalitionId post) author (xp_platform post))
                end
            end
        | auth_shared =>
            match truthy (xc_credentialRef connection) with
            | None => None
            | Some ref => opened ref (sharedCredentialAad (xp_coalitionId post) (xp_platform post))
            end
        end
  end.

Record InboundSweepResult : Type := mk_inbound { ib_read : Z; ib_ingested : Z; ib_failed : Z }.

(** The posts a sweep begun at [now] reads. *)
Definition in_read_window (now : Z) (post : CoalitionCampaignPostRecord) : bool :=
  bool_decide (xp_direction post = post_out) && bool_decide (xp_syncStatus post = sync_posted)
  && bool_decide (truthy (xp_externalPostId post) <> None) && readable (xp_platform post)
  && (now - READ_WINDOW_MS <=? xp_createdAt post).

(** The words of one reading, one reply after the other, and how many were kept. *)
Fixpoint ingest_replies (post : CoalitionCampaignPostRecord) (replies : list RecentReply) (o : outreach) :
    outreach * Z :=
  match replies with
  | [] => (o, 0)
  | reply :: replies =>
      let (o, outcome) := ingestExternalActivity
        {| ig_campaignPostId := xp_id post; ig_sourcePlatform := xp_platform post;
           ig_externalAuthor := ry_author reply; ig_externalId := Some (ry_externalId reply);
           ig_content := ry_content reply; ig_receivedAt := ry_at reply |} o in
      let (o, n) := ingest_replies post replies o in
      (o, if is_ok outcome then n + 1 else n)
  end.

(** What a reading writes: the counts, then the words. *)
Definition take_reading (post : CoalitionCampaignPostRecord) (now : Z) (reading : EngagementReading) (o : outreach) :
    outreach * Z :=
  let existing := getCampaignEngagement (xp_id post) o in
  let (o, _) := upsertCampaignEngagement
    (mk_xe (xp_id post) (xp_campaignId post) (xp_coalitionId post) (xp_platform post)
       (rd_likes reading) (rd_reshares reading) (rd_replies reading) (from_option xe_clicks 0 existing) now 0 0) o in
  ingest_replies post (rd_recentReplies reading) o.

Definition read_post (now : Z) (post : CoalitionCampaignPostRecord) (r : InboundSweepResult) : O InboundSweepResult :=
  if negb (in_read_window now post) then mret r
  else
    let! credential := gets (credentialFor post) in
    match truthy credential with
    | None => mret r
    | Some credential =>
        let id := default "" (xp_externalPostId post) in
        let! reading := o_await (match xp_platform post with
                                 | plat_bluesky => readBluesky credential id
                                 | _ => readMastodon credential id
                                 end) in
        match reading with
        | None => mret (mk_inbound (ib_read r) (ib_ingested r) (ib_failed r + 1))
        | Some reading =>
            let! n := update (take_reading post now reading) in
            mret (mk_inbound (ib_read r + 1) (ib_ingested r + n) (ib_failed r))
        end
    end.

Definition read_campaign (now : Z) (campaign : CoalitionCampaignRecord) (r : InboundSweepResult) : O InboundSweepResult :=
  let! posts := gets (listCoalitionCampaignPosts (Some (cp_id campaign)) None) in
  o_fold (read_post now) posts r.

Definition read_coalition (now : Z) (c : CoalitionRecord) (r : InboundSweepResult) : O InboundSweepResult :=
  if isStopped c then mret r
  else
    let! campaigns := gets (fun o => listCoalitionCampaigns (Some (co_id c)) None None (o_db o)) in
    o_fold (read_campaign now) campaigns r.

Definition sweepInboundActivity : O InboundSweepResult :=
  if negb inboundSyncEnabled then mret (mk_inbound 0 0 0)
  else
    let! now := gets o_now in
    let! coalitions := gets (fun o => listCoalitions (o_db o)) in
    o_fold (read_coalition now) coalitions (mk_inbound 0 0 0).

(** One tick of the timer. *)
Definition inbound_tick : O unit :=
  let! running := gets o_reading in
  if running then mret tt
  else
    modify (set_o_reading true) ;;;
    spawn (let! _ := o_await sweepInboundActivity in modify (set_o_reading false)).
End inbound.
