(* ===== verification/OutreachApi.v ===== *)
(** * What a client, a timer or a platform can set off

    [o_api]: the routes of [routes/coalitions.ts] over connections, opt-ins,
    cross-posting and moderation, the coalition handlers beside them, the two timers
    and the daily purge; [o_reachable] and [o_leads_to], the states the event loop
    produces.  The clock does not go back. *)

From S2P Require Import Prelude JsMap Async Ownership CoalitionDomain Money Records Store Network Relay Slug.
From S2P Require Import Drives JoinRequirements Spaces Safety Succession Text SecretBox MoneyFrames.
From S2P Require Import BillingRows Outreach Attribution Connections Replies CrossPost Inbound.
Open Scope Z_scope.

(** A handler for its effect, and a synchronous operation as a handler. *)
Definition o_call {A : Type} (m : O A) : O unit := let! _ := m in mret tt.
Definition o_act {A : Type} (f : outreach -> outreach * A) : O unit := o_call (update f).

Section api.
Context `{Env} `{OutreachEnv} `{SecretRuntime} `{AttributionRuntime}.

(** DELETE /:id/connections/me/:platform *)
Definition delete_own_link (idOrSlug userId : string) (p : CoalitionPlatform) : O (CoalitionResult Z) :=
  let! view := gets (fun o => getCoalitionView idOrSlug (Some userId) (o_db o)) in
  match view with
  | Err e => mret (Err e)
  | Ok v =>
      let! now := gets o_now in
      let! revoked := inside (revokeMemberLinks (co_id (sum_coalition (view_summary v))) (Some p) (Some userId) now) in
      mret (Ok revoked)
  end.

(** GET /:id/campaigns/:campaignId/thread: the posts and the approved replies, for a
    viewer who is a member or not. *)
Definition campaign_thread (campaign : CoalitionCampaignRecord) (insider : bool) (o : outreach) :
    list CoalitionCampaignPostRecord * list ExternalActivityView :=
  (map (fun p => if insider then p else with_xp_authorUserId None p) (listCampaignPosts (cp_id campaign) o),
   listApprovedActivity (cp_id campaign) o).

Inductive o_api : O unit -> Prop :=
  | oa_inside h : api h -> o_api (inside h)
  | oa_connectPlatform k a i : o_api (o_act (connectPlatform k a i))
  | oa_disconnectPlatform k a p : o_api (o_call (disconnectPlatform k a p))
  | oa_linkMemberAccount k u p s d : o_api (o_act (linkMemberAccount k u p s d))
  | oa_delete_own_link k u p : o_api (o_call (delete_own_link k u p))
  | oa_setOptIn k u c p e : o_api (o_act (setOptIn k u c p e))
  | oa_crosspostCampaign k u c : o_api (o_call (crosspostCampaign k u c))
  | oa_shareCampaign k c v h : o_api (o_call (shareCampaign k c v h))
  | oa_moderateActivity k a x b : o_api (o_act (moderateActivity k a x b))
  | oa_takeDownExternalActivity k a x r : o_api (o_act (takeDownExternalActivity k a x r))
  | oa_recordAttributedAction r c : o_api (o_act (fun o => (recordAttributedAction r c (o_now o) o, tt)))
  | oa_retention : o_api (o_act (fun o => sweepExternalActivityRetention (o_now o) o))
  | oa_autopost_tick : o_api autopost_tick
  | oa_inbound_tick : o_api inbound_tick.

(** What the rest of the process may do in between. *)
Definition o_outside (o o' : outreach) : Prop :=
  outside (o_db o) (o_db o') /\ o_now o <= o_now o' /\ o_connections o' = o_connections o /\
  o_optIns o' = o_optIns o /\ o_posts o' = o_posts o /\ o_externals o' = o_externals o /\
  o_engagement o' = o_engagement o /\ o_attribution o' = o_attribution o /\ o_events o' = o_events o /\
  o_announcing o' = o_announcing o /\ o_reading o' = o_reading o.

Definition empty_outreach : outreach := mk_outreach empty_db [] [] [] [] [] [] [] false false.

Definition o_reachable (o : outreach) : Prop :=
  exists ts, rtc (sys_step o_api o_outside) (Sys empty_outreach []) (Sys o ts).
Definition o_leads_to (o o' : outreach) : Prop :=
  exists ts ts', rtc (sys_step o_api o_outside) (Sys empty_outreach []) (Sys o ts) /\
                 rtc (sys_step o_api o_outside) (Sys o ts) (Sys o' ts').

Lemma o_leads_reachable o o' : o_leads_to o o' -> o_reachable o'.
Proof. intros (ts & ts' & G1 & G2). exists ts'. by etransitivity. Qed.
End api.

(** ** Coalition handlers: ids are drawn, the clock is only read, and members' links
    stay filed under their keys *)

Definition ticks (d d' : db) : Prop :=
  (rng d <= rng d')%nat /\ clock d' = clock d /\ (keyed (memberConnections d) -> keyed (memberConnections d')).

#[export] Instance ticks_preorder : PreOrder ticks.
Proof. split; [done|]. intros a b c (? & ? & ?) (? & ? & ?). split_and!; [lia|congruence|auto]. Qed.

Ltac ticks_done := intros; split_and!; [simpl; lia|reflexivity|simpl; intros; first [assumption | by apply keyed_upsert]].

Ltac tick_step :=
  match goal with
  | |- moves _ (update _) => refine (moves_update _ _ _); ticks_done
  | |- moves _ (modify _) => refine (moves_modify _ _ _); ticks_done
  | |- moves _ (for_each _ _) => apply moves_for_each; [apply _|]; intros ?
  | |- moves _ (map_each _ _) => apply moves_map_each; [apply _|]; intros ?
  | _ => moves_step
  | |- moves _ (?f) => let h := callee f in progress unfold h
  end
with callee t := match t with ?f _ => callee f | _ => t end.

Section coalition_ticks.
Context `{Env}.

Lemma api_ticks h : api h -> moves ticks h.
Proof. destruct 1; repeat tick_step. Qed.

Lemma revoke_ticks c p u now : moves ticks (revokeMemberLinks c p u now).
Proof. repeat tick_step. Qed.

Lemma getCampaign_ticks k c v : moves ticks (getCampaign k c v).
Proof. repeat tick_step. Qed.
End coalition_ticks.
