(* ===== verification/OutreachRuntime.v ===== *)
(** * A runtime for the outreach services

    Concrete cipher, codings and JSON reader that satisfy the laws [SecretRuntimeLaws]
    and [AttributionRuntimeLaws] assume of Node, so that the theorems over them can be
    tried.  The cipher leaves the text readable and only authenticates it. *)

From stdpp Require Import pretty.
From S2P Require Import Prelude JsMap CoalitionDomain Records Store Relay Slug Text SecretBox.
From S2P Require Import BillingRows Outreach Attribution.
From S2P Require KeyTransparency.
Open Scope Z_scope.

(** ** Hexadecimal *)

Definition hex_char (n : N) : ascii := ascii_of_N (if (n <? 10)%N then 48 + n else 87 + n).
Definition hex_value (c : ascii) : N := let n := N_of_ascii c in if (n <? 58)%N then n - 48 else n - 87.

Fixpoint to_hex (s : string) : string :=
  match s with
  | EmptyString => ""
  | String c s => String (hex_char (N_of_ascii c / 16)) (String (hex_char (N_of_ascii c mod 16)) (to_hex s))
  end.

Fixpoint of_hex (s : string) : string :=
  match s with
  | String a (String b s) => String (ascii_of_N (16 * hex_value a + hex_value b)) (of_hex s)
  | _ => ""
  end.

Ltac every_char c := destruct c as [[] [] [] [] [] [] [] []].

Lemma of_to_hex s : of_hex (to_hex s) = s.
Proof.
  induction s as [|c s IH]; [done|]. cbn [to_hex of_hex]. rewrite IH. f_equal.
  every_char c; reflexivity.
Qed.

Lemma hex_free x s : (x = ":"%char \/ x = "."%char) -> free_of x (to_hex s).
Proof.
  intros Hx. induction s as [|c s IH]; [by intros []|]. cbn [to_hex]. apply free_cons. split; [|apply free_cons; split; [|done]];
    destruct Hx as [-> | ->]; every_char c; discriminate.
Qed.

(** ** The cipher *)

(** Sixteen characters that depend on everything. *)
Fixpoint mix (s : string) (n : N) : N :=
  match s with EmptyString => n | String c s => mix s ((31 * n + N_of_ascii c) mod 65521)%N end.

Fixpoint digits16 (k : nat) (n : N) : string :=
  match k with 0%nat => "" | S k => String (hex_char (n mod 16)) (digits16 k (n / 16)%N) end.

Definition tag_of (key nonce aad text : string) : string :=
  digits16 16 (mix (key +:+ nonce +:+ "|" +:+ aad +:+ "|" +:+ text) 7).

Lemma digits16_length k n : String.length (digits16 k n) = k.
Proof. revert n. induction k as [|k IH]; intros n; [done|]. simpl. by rewrite IH. Qed.

Fixpoint letters (k : nat) (n : nat) : string :=
  match k with 0%nat => "" | S k => String (ascii_of_nat (97 + n mod 26)) (letters k n) end.

Lemma letters_length k n : String.length (letters k n) = k.
Proof. induction k as [|k IH]; [done|]. simpl. by rewrite IH. Qed.

Definition sample_secrets : SecretRuntime := {|
  LINKED_ACCOUNT_ENCRYPTION_KEYS := Some "k1:0123456789abcdef0123456789abcdef";
  fromBase64 := fun s => s;
  toBase64url := to_hex;
  fromBase64url := of_hex;
  toUtf8 := fun s => s;
  fromUtf8 := fun s => s;
  randomBytes := fun n k => letters k n;
  gcm_seal := fun key nonce aad text => (text, tag_of key nonce aad text);
  gcm_open := fun key nonce aad ct tag => if bool_decide (tag = tag_of key nonce aad ct) then Some ct else None;
|}.

Lemma sample_secret_laws : @SecretRuntimeLaws sample_secrets.
Proof.
  constructor; cbn -[tag_of]; intros.
  - apply of_to_hex.
  - apply hex_free. by left.
  - done.
  - apply letters_length.
  - reflexivity.
  - case_bool_decide as E; split; [intros Ht|intros Ht|done|intros Ht].
    + assert (ct = text) as <- by congruence. by rewrite E.
    + assert (text = ct) as -> by congruence. done.
    + assert (text = ct) as -> by congruence. destruct E. congruence.
Qed.

(** ** Reading back a claim *)

(** The character an escape stands for, and the text after it. *)
Definition unescape (s : string) : option (ascii * string) :=
  match s with
  | String e s =>
      if Ascii.eqb e "u"%char then
        match s with
        | String _ (String _ (String h (String l s))) => Some (ascii_of_N (16 * hex_value h + hex_value l), s)
        | _ => None
        end
      else
        Some (if Ascii.eqb e "b"%char then ascii_of_nat 8 else if Ascii.eqb e "t"%char then ascii_of_nat 9
              else if Ascii.eqb e "n"%char then ascii_of_nat 10 else if Ascii.eqb e "f"%char then ascii_of_nat 12
              else if Ascii.eqb e "r"%char then ascii_of_nat 13 else e, s)
  | EmptyString => None
  end.

(** What is left of a JSON string literal, and the text after its quote; fuel for the
    characters. *)
Fixpoint read_chars (fuel : nat) (s : string) : option (string * string) :=
  match fuel, s with
  | S fuel, String c s =>
      if Ascii.eqb c KeyTransparency.quote_char then Some ("", s)
      else if Ascii.eqb c KeyTransparency.backslash then
        match unescape s with
        | Some (x, s) => match read_chars fuel s with Some (a, b) => Some (String x a, b) | None => None end
        | None => None
        end
      else match read_chars fuel s with Some (a, b) => Some (String c a, b) | None => None end
  | _, _ => None
  end.

Lemma read_char fuel c s :
  read_chars (S fuel) (KeyTransparency.json_char c +:+ s) =
  match read_chars fuel s with Some (a, b) => Some (String c a, b) | None => None end.
Proof. every_char c; reflexivity. Qed.

Lemma string_assoc a b c : (a +:+ b) +:+ c = a +:+ b +:+ c.
Proof.
  induction a as [|x a IH]; [done|]. change (String x ((a +:+ b) +:+ c) = String x (a +:+ b +:+ c)). by rewrite IH.
Qed.

Definition quoted (s rest : string) : string := KeyTransparency.json_chars s +:+ String KeyTransparency.quote_char rest.

Lemma read_quoted s rest fuel : (String.length s < fuel)%nat -> read_chars fuel (quoted s rest) = Some (s, rest).
Proof.
  unfold quoted. revert fuel. induction s as [|c s IH]; intros [|fuel] Hf; cbn [String.length] in Hf; try lia; [done|].
  cbn [KeyTransparency.json_chars]. rewrite string_assoc, read_char, IH by lia. done.
Qed.

Lemma json_quoted s rest : KeyTransparency.json_string s +:+ rest = String KeyTransparency.quote_char (quoted s rest).
Proof.
  unfold KeyTransparency.json_string, quoted. change (String ?c ?a +:+ rest) with (String c (a +:+ rest)).
  by rewrite string_assoc.
Qed.

(** The number at the head of a text. *)
Fixpoint read_digits (acc : N) (s : string) : N :=
  match s with
  | String c s => if Ascii.eqb c "}"%char then acc else read_digits (10 * acc + hex_value c) s
  | EmptyString => acc
  end.

Lemma read_digit x s acc :
  (x < 10)%N -> read_digits acc (String (pretty_N_char x) s) = read_digits (10 * acc + x) s.
Proof.
  intros Hx. assert (Hc : exists n, x = N.of_nat n /\ (n < 10)%nat) by (exists (N.to_nat x); lia).
  destruct Hc as (n & -> & Hn). do 10 (destruct n as [|n]; [reflexivity|]). lia.
Qed.

Lemma read_go x s : exists k, forall acc, read_digits acc (pretty_N_go x s) = read_digits (acc * 10 ^ k + x) s.
Proof.
  revert s. induction (N.lt_wf_0 x) as [x _ IH]; intros s. destruct (decide (0 < x)%N) as [Hx|Hx].
  - rewrite pretty_N_go_step by done.
    destruct (IH (x / 10)%N ltac:(apply N.div_lt; lia) (String (pretty_N_char (x mod 10)) s)) as [k Hk].
    exists (k + 1)%N. intros acc. rewrite Hk, read_digit by (apply N.mod_lt; lia). f_equal.
    rewrite N.pow_add_r. pose proof (N.div_mod x 10 ltac:(lia)). lia.
  - assert (x = 0%N) as -> by lia. exists 0%N. intros acc. rewrite pretty_N_go_0. f_equal. lia.
Qed.

Definition read_int (s : string) : Z :=
  match strip_prefix "-" s with
  | Some s => - Z.of_N (read_digits 0 s)
  | None => Z.of_N (read_digits 0 s)
  end.

Lemma go_app x s t : pretty_N_go x s +:+ t = pretty_N_go x (s +:+ t).
Proof.
  revert s. induction (N.lt_wf_0 x) as [x _ IH]; intros s. destruct (decide (0 < x)%N) as [Hx|Hx].
  - rewrite !(pretty_N_go_step x) by done. by rewrite IH by (apply N.div_lt; lia).
  - assert (x = 0%N) as -> by lia. by rewrite !pretty_N_go_0.
Qed.

Lemma read_pretty_N n s : read_digits 0 (pretty n +:+ String "}" s) = n.
Proof.
  unfold pretty, pretty_N. destruct (decide (n = 0%N)) as [->|Hn]; [reflexivity|].
  rewrite go_app. destruct (read_go n ("" +:+ String "}" s)) as [k ->]. simpl. lia.
Qed.

(** A number does not begin with a dash of its own. *)
Lemma read_pretty_Z z s : read_int (pretty z +:+ String "}" s) = z.
Proof.
  destruct z as [|p|p]; [reflexivity| |].
  - change (read_int (pretty (N.pos p) +:+ String "}" s) = Z.pos p). unfold read_int. destruct (strip_prefix "-" _) as [r|] eqn:E; [|by rewrite read_pretty_N].
    apply strip_prefix_spec in E. unfold pretty, pretty_N in E. rewrite decide_False, go_app in E by done.
    by apply pretty_N_go_ne_dash in E.
  - change (read_int (("-" +:+ pretty (N.pos p)) +:+ String "}" s) = Z.neg p).
    rewrite string_assoc. unfold read_int. by rewrite strip_prefix_app, read_pretty_N.
Qed.

(** ** The reader of claims *)

Lemma json_chars_length s : (String.length s <= String.length (KeyTransparency.json_chars s))%nat.
Proof.
  induction s as [|c s IH]; [done|]. cbn [KeyTransparency.json_chars String.length]. rewrite length_app_string.
  assert (1 <= String.length (KeyTransparency.json_char c))%nat by (apply Nat.leb_le; every_char c; reflexivity). lia.
Qed.

Definition read_string (s : string) : option (string * string) :=
  match s with
  | String c s => if Ascii.eqb c KeyTransparency.quote_char then read_chars (S (String.length s)) s else None
  | EmptyString => None
  end.

Lemma read_string_back s rest : read_string (KeyTransparency.json_string s +:+ rest) = Some (s, rest).
Proof.
  rewrite json_quoted. unfold read_string. rewrite Ascii.eqb_refl. apply read_quoted.
  unfold quoted. rewrite length_app_string. pose proof (json_chars_length s). cbn. lia.
Qed.

Definition key_text (before name : string) : string := before +:+ KeyTransparency.json_string name +:+ ":".

Definition sample_json (text : string) : option RawClaim :=
  s ← strip_prefix (key_text "{" "c") text;
  '(c, s) ← read_string s;
  s ← strip_prefix (key_text "," "h") s;
  '(h, s) ← read_string s;
  match strip_prefix (key_text "," "s") s with
  | Some s =>
      '(u, s) ← read_string s;
      s ← strip_prefix (key_text "," "t") s;
      Some {| raw_c := UString c; raw_h := UString h; raw_s := UString u; raw_t := UNumber (jint (read_int s)) |}
  | None =>
      s ← strip_prefix (key_text "," "t") s;
      Some {| raw_c := UString c; raw_h := UString h; raw_s := UUndefined; raw_t := UNumber (jint (read_int s)) |}
  end.

Definition sample_claims : AttributionRuntime := {|
  BLACKOUT_ATTRIBUTION_SECRET := Some "attribution";
  JWT_SECRET_PRIMARY := None;
  hmac_base64url := fun key payload => digits16 16 (mix (key +:+ payload) 11);
  json_parse := sample_json;
|}.

Section laws.
#[local] Existing Instance sample_secrets.
#[local] Existing Instance sample_claims.

Lemma read_claim c h s t :
  sample_json (claim_text c h s t) =
  Some {| raw_c := UString c; raw_h := UString h;
          raw_s := match truthy s with Some u => UString u | None => UUndefined end;
          raw_t := UNumber (jint t) |}.
Proof.
  set (str := KeyTransparency.json_string).
  set (tail := key_text "," "t" +:+ pretty t +:+ "}").
  assert (Htail : forall a (r : unknown), (s0 ← strip_prefix (key_text "," "t") tail;
     Some {| raw_c := UString a; raw_h := UString h; raw_s := r; raw_t := UNumber (jint (read_int s0)) |}) =
     Some {| raw_c := UString a; raw_h := UString h; raw_s := r; raw_t := UNumber (jint t) |}).
  { intros a r. unfold tail. rewrite strip_prefix_app. cbn [mbind option_bind].
    change "}" with (String "}" ""). by rewrite read_pretty_Z. }
  assert (Hhead : forall rest, sample_json (key_text "{" "c" +:+ str c +:+ key_text "," "h" +:+ str h +:+ rest) =
    match strip_prefix (key_text "," "s") rest with
    | Some s =>
        '(u, s) ← read_string s;
        s ← strip_prefix (key_text "," "t") s;
        Some {| raw_c := UString c; raw_h := UString h; raw_s := UString u; raw_t := UNumber (jint (read_int s)) |}
    | None =>
        s ← strip_prefix (key_text "," "t") rest;
        Some {| raw_c := UString c; raw_h := UString h; raw_s := UUndefined; raw_t := UNumber (jint (read_int s)) |}
    end).
  { intros rest. unfold sample_json. rewrite strip_prefix_app. cbn [mbind option_bind].
    rewrite read_string_back. cbn [mbind option_bind]. rewrite strip_prefix_app. cbn [mbind option_bind].
    rewrite read_string_back. reflexivity. }
  destruct (truthy s) as [u|] eqn:Eu.
  - assert (E : claim_text c h s t = key_text "{" "c" +:+ str c +:+ key_text "," "h" +:+ str h +:+
                  key_text "," "s" +:+ str u +:+ tail) by (unfold claim_text; by rewrite Eu).
    rewrite E, Hhead, strip_prefix_app, read_string_back. apply Htail.
  - assert (E : claim_text c h s t = key_text "{" "c" +:+ str c +:+ key_text "," "h" +:+ str h +:+ tail)
      by (unfold claim_text; by rewrite Eu).
    rewrite E, Hhead. change (strip_prefix (key_text "," "s") tail) with (@None string). apply Htail.
Qed.

Lemma sample_claim_laws : AttributionRuntimeLaws.
Proof.
  constructor; intros.
  - apply read_claim.
  - apply hex_free. by right.
  - done.
Qed.
End laws.
