(* ===== verification/OutreachSample.v ===== *)
(** * A sample run of the outreach services

    Ada's coalition promotes a project on Bluesky: a connection, an opt-in, a cross-post,
    the timer's announcement, two replies read back.  The theorems about runs are tried
    on its states. *)

From S2P Require Import Prelude JsMap Async CoalitionDomain Money Records Store Drives JoinRequirements Relay Slug.
From S2P Require Import Network Spec SpecInv Safety Text SecretBox.
From S2P Require Import BillingRows MoneySample Outreach Attribution Connections Replies CrossPost Inbound.
From S2P Require Import OutreachApi OutreachRuntime.
Open Scope Z_scope.

Definition sample_outreach_env : OutreachEnv := {|
  BLACKOUT_COALITION_EXTERNAL_SYNC_ENABLED := Some "1";
  BLACKOUT_COALITION_CROSSPOST_ENABLED := Some "true";
  BLACKOUT_COALITION_AUTOPOST_ENABLED := Some "TRUE";
  COALITION_CROSSPOST_COOLDOWN_MINUTES := None;
  COALITION_CROSSPOST_DAILY_CAP := None;
  BLACKOUT_PUBLIC_BASE_URL := None;
  RETENTION_PENDING_DAYS := Some "7";
  RETENTION_REJECTED_DAYS := None;
  RETENTION_APPROVED_DAYS := None;
  date_parse := fun _ => Some 0;
  dollars_text := fun _ => "100";
  received_before := fun _ _ => true;
|}.

Definition raw_reply (id author content : string) (at_ : json_scalar) : RawReply :=
  {| rw_id := js_text id; rw_author := js_text author; rw_content := js_text content; rw_at := at_ |}.

(** Bluesky works and shows two replies; the other platforms are down. *)
Definition platforms (X : Set) (e : oreq X) : X :=
  match e in oreq X return X with
  | Inside X r => market_req X r
  | DiscordExecute _ _ => fetch_threw true
  | BlueskyCreateSession _ _ => fetched 200 (Some {| bs_accessJwt := Some "jwt"; bs_did := Some "did" |})
  | BlueskyCreateRecord _ _ _ _ _ => fetched 200 (Some (Some "at://post"))
  | BlueskyGetPostThread _ _ =>
      fetched 200 (Some ({| rw_likes := js_count (jint 3); rw_reshares := js_else; rw_replies := js_count (jint 2) |},
        [raw_reply "r1" "eve" "Good luck" js_else; raw_reply "r2" "fay" "Where?" (js_text "1970-01-01")]))
  | MastodonPostStatus _ _ _ _ => fetch_threw false
  | MastodonGetStatus _ _ => fetch_threw false
  | MastodonGetContext _ _ => fetch_threw false
  end.

Section sample.
#[local] Existing Instance market_env.
#[local] Existing Instance market_laws.
#[local] Existing Instance sample_outreach_env.
#[local] Existing Instance sample_secrets.
#[local] Existing Instance sample_secret_laws.
#[local] Existing Instance sample_claims.
#[local] Existing Instance sample_claim_laws.

Definition o_wait (ms : Z) (o : outreach) : outreach := set_o_db (set_clock (o_now o + ms) (o_db o)) o.

Definition o_start : outreach :=
  set_o_db (mk_db 1000 0 (users_of ["ada"; "bea"; "cyd"; "dot"]) [] [] [] [] [] [] [] [] [] [] [] [] [] [] []) empty_outreach.

Definition sample_secret : ConnectPlatformInput :=
  {| in_platform := plat_bluesky; in_authMode := auth_shared; in_secret := Some "ada.example|pass"; in_displayHandle := None |}.

(** *** Runs *)

Inductive happening : Type := does (h : O unit) | waits (ms : Z).

Definition happening_ok (e : happening) : Prop := match e with does h => o_api h | waits ms => 0 <= ms end.

Definition play (c : sys outreach oreq) (e : happening) : sys outreach oreq :=
  match e with
  | does h => serve platforms 200 c h
  | waits ms => Sys (o_wait ms (store c)) (pool c)
  end.

Definition played (es : list happening) (c : sys outreach oreq) : sys outreach oreq := fold_left play es c.

Lemma o_start_run : rtc (sys_step o_api o_outside) (Sys empty_outreach []) (Sys o_start []).
Proof. apply rtc_once, step_drift. by repeat (split; [first [by split_and! | simpl; lia]|]). Qed.

Lemma played_steps es c : Forall happening_ok es -> rtc (sys_step o_api o_outside) c (played es c).
Proof.
  intros Hes. revert c. induction Hes as [|e es He _ IH]; intros c; simpl; [done|]. etransitivity; [|apply IH].
  destruct e as [h|ms]; simpl in *.
  - by apply (serve_run platforms o_api o_outside 200 c [h]), Forall_singleton.
  - destruct c as [o ts]. apply rtc_once, step_drift. unfold o_outside, o_wait, o_now. simpl.
    split_and!; [by split_and!|lia|done..].
Qed.

Definition from_start (es : list happening) : sys outreach oreq := played es (Sys o_start []).

Lemma from_start_run es :
  Forall happening_ok es -> rtc (sys_step o_api o_outside) (Sys empty_outreach []) (from_start es).
Proof. intros Hes. etransitivity; [apply o_start_run|by apply played_steps]. Qed.

Lemma sys_eta (c : sys outreach oreq) : Sys (store c) (pool c) = c.
Proof. by destruct c. Qed.

Lemma from_start_reached es : Forall happening_ok es -> o_reachable (store (from_start es)).
Proof. intros Hes. exists (pool (from_start es)). rewrite sys_eta. by apply from_start_run. Qed.

Lemma from_start_leads es es' :
  Forall happening_ok es -> Forall happening_ok es' ->
  o_leads_to (store (from_start es)) (store (played es' (from_start es))).
Proof.
  intros Hes Hes'. pose proof (from_start_run es Hes) as H1. pose proof (played_steps es' (from_start es) Hes') as H2.
  exists (pool (from_start es)), (pool (played es' (from_start es))). by rewrite !sys_eta.
Qed.

Lemma from_start_here es :
  Forall happening_ok es -> o_leads_to (store (from_start es)) (store (from_start es)).
Proof. intros Hes. by apply (from_start_leads es []). Qed.

(** *** The run *)

Definition orders : list happening :=
  [ does (inside (call (createCoalition (new_coalition "ada" "Coats & Co"))));
    does (inside (call (createCampaign "coa_" "ada" (new_campaign type_project))));
    does (o_act (connectPlatform "coa_" "ada" sample_secret));
    does (o_act (setOptIn "coa_" "ada" "camp_aa" plat_bluesky true)) ].

Definition promotion : list happening :=
  [ does (o_call (crosspostCampaign "coa_" "ada" "camp_aa"));
    does autopost_tick; does autopost_tick;
    waits 60000;
    does inbound_tick ].

Lemma orders_ok : Forall happening_ok orders.
Proof. repeat constructor. Qed.
Lemma promotion_ok : Forall happening_ok promotion.
Proof. repeat constructor; done. Qed.

Definition connected : sys outreach oreq := from_start orders.
Definition heard : sys outreach oreq := from_start (orders ++ promotion).

Lemma heard_ok : Forall happening_ok (orders ++ promotion).
Proof. apply Forall_app. split; [apply orders_ok|apply promotion_ok]. Qed.

(** The run as far as anyone can tell from the tables. *)
Example heard_tables :
  map (fun p => (xp_id p, xp_syncStatus p, xp_milestone p)) (values (o_posts (store heard))) =
    [("coapost_aaaaaa", sync_posted, None); ("coapost_aaaaaaa", sync_posted, Some ms_launched)] /\
  map (fun r => (xr_id r, xr_externalAuthor r, xr_moderationStatus r)) (values (o_externals (store heard))) =
    [("coaext_aaaaaaaa", "eve", ext_pending); ("coaext_aaaaaaaaa", "fay", ext_pending);
     ("coaext_aaaaaaaaaa", "eve", ext_pending); ("coaext_aaaaaaaaaaa", "fay", ext_pending)] /\
  pool heard = [].
Proof. vm_compute. by split_and!. Qed.

(** *** A reply with an early date *)

(** A month passes before Ada posts; the second reply says it was written in 1970. *)
Definition late_promotion : list happening :=
  orders ++ [waits (31 * 24 * 60 * 60 * 1000)] ++ promotion.
Definition purge : happening := does (o_act (fun o => sweepExternalActivityRetention (o_now o) o)).

Definition replies_after (es : list happening) : list (string * string) :=
  map (fun r => (xr_id r, xr_externalAuthor r)) (values (o_externals (store (from_start es)))).

(** The purge removes it at once, as past due, and the next sweep reads it in again
    under another id: the post is still in its window. *)
Example backdated_reply_returns :
  replies_after late_promotion = [("coaext_aaaaaaa", "eve"); ("coaext_aaaaaaaa", "fay")] /\
  replies_after (late_promotion ++ [purge]) = [("coaext_aaaaaaa", "eve")] /\
  replies_after (late_promotion ++ [purge; does inbound_tick]) = [("coaext_aaaaaaa", "eve"); ("coaext_aaaaaaaaa", "fay")].
Proof. vm_compute. by split_and!. Qed.
End sample.
