(* ===== verification/OutreachMoves.v ===== *)
(** * How outreach handlers move the state

    Most handlers leave posts and replies alone ([calm_o]); the others write them only
    through a few operations.  [surface] reduces a claim about every handler to those
    operations. *)

From S2P Require Import Prelude JsMap Async Ownership CoalitionDomain Money Records Store Network Relay Slug.
From S2P Require Import Safety Text SecretBox.
From S2P Require Import BillingRows Outreach Attribution Connections Replies CrossPost Inbound OutreachApi.
Open Scope Z_scope.

(** Posts, replies and the timers' flags stay; connections stay filed under their keys. *)
Definition calm_o (o o' : outreach) : Prop :=
  ticks (o_db o) (o_db o') /\ o_posts o' = o_posts o /\ o_externals o' = o_externals o /\
  o_announcing o' = o_announcing o /\ o_reading o' = o_reading o /\
  (keyed (o_connections o) -> keyed (o_connections o')).

#[export] Instance calm_o_preorder : PreOrder calm_o.
Proof.
  split; [by intros o; unfold calm_o; split_and!|]. unfold calm_o. intros a b c (? & ? & ? & ? & ? & ?) (? & ? & ? & ? & ? & ?).
  split_and!; [by etransitivity|congruence..|auto].
Qed.

Ltac calm_o_done :=
  unfold calm_o; simpl; split_and!; first [reflexivity | ticks_done | intros; first [assumption | by apply keyed_upsert]].

(** The branches of a synchronous operation. *)
Ltac fork :=
  match goal with
  | |- context [match ?x with _ => _ end] =>
      lazymatch x with context [match _ with _ => _ end] => fail | _ => destruct x eqn:? end
  end.

Section calm.
Context `{Env} `{OutreachEnv} `{SecretRuntime} `{AttributionRuntime}.

Definition calmly_o {A : Type} (f : outreach -> outreach * A) : Prop := forall o, calm_o o (fst (f o)).

Lemma calm_fresh p : calmly_o (o_fresh p).
Proof. intros o. unfold o_fresh. calm_o_done. Qed.

Lemma calm_seal s a : calmly_o (seal s a).
Proof. intros o. unfold seal. destruct (encryptSecret s a _); [reflexivity|calm_o_done]. Qed.

Lemma calm_save_connection c a i s : calmly_o (save_connection c a i s).
Proof.
  intros o. unfold save_connection, newConnectionId, o_fresh, upsertCoalitionConnection, o_upsert.
  destruct (getCoalitionConnection _ _ o); calm_o_done.
Qed.

Lemma calm_connectPlatform k a i : calmly_o (connectPlatform k a i).
Proof.
  intros o. unfold connectPlatform, refuse.
  destruct (getCoalition k (o_db o)) as [c|]; [|reflexivity].
  destruct (activeMembership _ a _) as [m|]; [|reflexivity].
  do 4 (destruct (_ : bool); [reflexivity|]).
  destruct (in_authMode i), (truthy (in_secret i)) as [s|]; try apply calm_save_connection.
  pose proof (calm_seal s (sharedCredentialAad (co_id c) (in_platform i)) o) as Hs.
  destruct (seal s _ o) as [o1 [e|envelope]]; [reflexivity|]. simpl in Hs.
  etransitivity; [exact Hs|apply calm_save_connection].
Qed.

Lemma calm_linkMemberAccount k u p s d : calmly_o (linkMemberAccount k u p s d).
Proof.
  intros o. unfold linkMemberAccount, refuse.
  destruct (getCoalition k (o_db o)) as [c|]; [|reflexivity].
  destruct (activeMembership _ u _) as [m|]; [|reflexivity].
  destruct (getCoalitionConnection _ p o) as [cn|]; [|reflexivity].
  do 4 (destruct (_ : bool); [reflexivity|]).
  pose proof (calm_seal s (memberCredentialAad (co_id c) u p) o) as Hs.
  destruct (seal s _ o) as [o1 [e|envelope]]; [reflexivity|]. simpl in Hs.
  etransitivity; [exact Hs|]. unfold newMemberConnectionId, o_fresh, upsertCoalitionMemberConnection, db_upsert.
  destruct (member_link _ u p _); calm_o_done.
Qed.

Lemma calm_setOptIn k u c p e : calmly_o (setOptIn k u c p e).
Proof.
  intros o. unfold setOptIn, refuse, newOptInId, o_fresh, upsertCoalitionCampaignSyncOptIn, o_upsert.
  repeat (fork; simpl); try reflexivity; repeat match goal with E3 : (_, _) = (_, _) |- _ => injection E3; clear E3; intros; subst end;
    calm_o_done.
Qed.

Lemma calm_count_click c h now o : calm_o o (count_click c h now o).
Proof. unfold count_click, upsertCampaignEngagement, o_upsert. repeat (fork; simpl); calm_o_done. Qed.

Lemma calm_recordAttributedAction r c now o : calm_o o (recordAttributedAction r c now o).
Proof.
  unfold recordAttributedAction. fork; [|reflexivity]. fork; [|reflexivity]. fork; [|reflexivity].
  unfold upsertCampaignAttribution, o_upsert. destruct c; try calm_o_done.
  etransitivity; [|apply calm_count_click]. calm_o_done.
Qed.
End calm.

(** ** The handlers that await *)

Section moving.
Context `{Env} `{OutreachEnv} `{SecretRuntime} `{AttributionRuntime}.
Context (P : outreach -> outreach -> Prop) `{!PreOrder P} (P_calm : forall o o', calm_o o o' -> P o o').

Lemma moves_sync {A : Type} (f : outreach -> outreach * A) : (forall o, P o (fst (f o))) -> moves P (o_act f).
Proof. intros Hf. unfold o_act, o_call. repeat moves_step. apply moves_update. exact Hf. Qed.

Lemma moves_calm {A : Type} (f : outreach -> outreach * A) : calmly_o f -> moves P (update (E := oreq) f).
Proof. intros Hf. apply moves_update. intros o. apply P_calm, Hf. Qed.

Lemma moves_emit e : moves P (modify (E := oreq) (emit_o e)).
Proof. apply moves_modify. intros o. apply P_calm. calm_o_done. Qed.

Lemma moves_inside {A : Type} (m : H A) : moves ticks m -> moves P (inside m).
Proof.
  apply (zoom_moves o_db set_o_db Inside ticks P); [done|done|].
  intros o d Hd. apply P_calm. unfold calm_o. by split_and!.
Qed.

Lemma moves_await {A : Type} (m : O A) : moves P m -> moves P (o_await m).
Proof. intros Hm. unfold o_await. repeat first [exact Hm | moves_step]. Qed.

Lemma moves_collect {A B : Type} (f : A -> O B) l : (forall a, moves P (f a)) -> moves P (collect f l).
Proof. intros Hf. induction l as [|a l IH]; simpl; repeat first [apply Hf | apply IH | moves_step]. Qed.

Lemma moves_fold {A R : Type} (f : A -> R -> O R) l r : (forall a r, moves P (f a r)) -> moves P (o_fold f l r).
Proof. intros Hf. revert r. induction l as [|a l IH]; intros r; simpl; repeat first [apply Hf | apply IH | moves_step]. Qed.

Lemma moves_postToPlatform i : moves P (postToPlatform i).
Proof. unfold postToPlatform, postToDiscord, postToBluesky, postToMastodon. repeat moves_step. Qed.

Lemma moves_readers c x : moves P (readBluesky c x) /\ moves P (readMastodon c x).
Proof. unfold readBluesky, readMastodon. split; repeat moves_step. Qed.

Lemma moves_disconnectPlatform k a p : moves P (disconnectPlatform k a p).
Proof.
  unfold disconnectPlatform. repeat first [apply moves_inside, revoke_ticks | apply moves_emit
    | apply moves_calm; intros ?; unfold upsertCoalitionConnection, o_upsert; calm_o_done | moves_step].
Qed.

Lemma moves_delete_own_link k u p : moves P (delete_own_link k u p).
Proof. unfold delete_own_link. repeat first [apply moves_inside, revoke_ticks | moves_step]. Qed.

Lemma moves_shareCampaign k c v h : moves P (shareCampaign k c v h).
Proof. unfold shareCampaign. repeat first [apply moves_inside, getCampaign_ticks | moves_step]. Qed.

(** A cross-post writes posts that announce nothing. *)
Lemma moves_crosspost k u c :
  (forall r o, xp_milestone r = None -> P o (fst (upsertCoalitionCampaignPost r o))) ->
  moves P (crosspostCampaign k u c).
Proof.
  intros Hpost. unfold crosspostCampaign. repeat first [apply moves_emit | apply moves_collect; intros ? | moves_step].
  unfold crosspost_to, post_and_record, as_share_link.
  repeat first [apply moves_await, moves_postToPlatform | apply moves_calm, calm_fresh
    | apply moves_update; intros ?; by apply Hpost | moves_step].
Qed.

(** An announcement writes a post for its milestone. *)
Lemma moves_sweep_auto :
  (forall r o, P o (fst (upsertCoalitionCampaignPost r o))) -> moves P sweepAutoCrossposts.
Proof.
  intros Hpost. unfold sweepAutoCrossposts. repeat first [apply moves_fold; intros ? ? | moves_step].
  unfold announce_coalition, announce_campaign, announce.
  repeat first [apply moves_fold; intros ? ? | apply moves_await, moves_postToPlatform | apply moves_calm, calm_fresh
    | apply moves_emit | apply moves_update; intros ?; apply Hpost | moves_step].
Qed.

Lemma along_ingest_replies post replies o :
  (forall i o, P o (fst (ingestExternalActivity i o))) -> P o (fst (ingest_replies post replies o)).
Proof.
  intros Hin. revert o. induction replies as [|r replies IH]; intros o; simpl; [reflexivity|].
  match goal with |- context [ingestExternalActivity ?i o] => pose proof (Hin i o) as Hi; destruct (ingestExternalActivity i o) as [o1 x] end.
  specialize (IH o1). destruct (ingest_replies post replies o1) as [o2 n]. simpl in *. by transitivity o1.
Qed.

Lemma along_take_reading post now reading o :
  (forall i o, P o (fst (ingestExternalActivity i o))) -> P o (fst (take_reading post now reading o)).
Proof.
  intros Hin. unfold take_reading, upsertCampaignEngagement, o_upsert.
  etransitivity; [|by apply along_ingest_replies]. apply P_calm. calm_o_done.
Qed.

Lemma moves_sweep_inbound :
  (forall i o, P o (fst (ingestExternalActivity i o))) -> moves P sweepInboundActivity.
Proof.
  intros Hin. unfold sweepInboundActivity. repeat first [apply moves_fold; intros ? ? | moves_step].
  unfold read_coalition, read_campaign, read_post.
  repeat first [apply moves_fold; intros ? ? | apply moves_await | apply moves_readers
    | apply moves_update; intros ?; by apply along_take_reading | moves_step].
Qed.

Lemma moves_tick (flag : outreach -> bool) (raise : bool -> outreach -> outreach) {A : Type} (sweep : O A) :
  (forall b o, P o (raise b o)) -> moves P sweep ->
  moves P (let! running := gets flag in
           if running then mret tt
           else modify (raise true) ;;; spawn (let! _ := o_await sweep in modify (raise false))).
Proof.
  intros Hr Hs. repeat first [apply moves_await, Hs | apply moves_modify; intros ?; apply Hr | moves_step].
Qed.

(** What is left to look at, once the operations on posts and replies are. *)
Lemma surface h :
  o_api h ->
  (forall r o, xp_milestone r = None -> P o (fst (upsertCoalitionCampaignPost r o))) ->
  (forall i o, P o (fst (ingestExternalActivity i o))) -> (forall b o, P o (set_o_reading b o)) ->
  (exists k a x b, h = o_act (moderateActivity k a x b)) \/
  (exists k a x r, h = o_act (takeDownExternalActivity k a x r)) \/
  h = o_act (fun o => sweepExternalActivityRetention (o_now o) o) \/ h = autopost_tick \/ moves P h.
Proof.
  intros Hh Hpost Hin Hread. destruct Hh as [h Hh|k a i|k a p|k u p s d|k u p|k u c p e|k u c|k c v x|k a x b|k a x r|r c| | |].
  - do 4 right. by apply moves_inside, api_ticks.
  - do 4 right. apply moves_sync. intros o. apply P_calm, calm_connectPlatform.
  - do 4 right. unfold o_call. repeat first [apply moves_disconnectPlatform | moves_step].
  - do 4 right. apply moves_sync. intros o. apply P_calm, calm_linkMemberAccount.
  - do 4 right. unfold o_call. repeat first [apply moves_delete_own_link | moves_step].
  - do 4 right. apply moves_sync. intros o. apply P_calm, calm_setOptIn.
  - do 4 right. unfold o_call. repeat first [apply moves_crosspost; auto | moves_step].
  - do 4 right. unfold o_call. repeat first [apply moves_shareCampaign | moves_step].
  - left. by exists k, a, x, b.
  - right; left. by exists k, a, x, r.
  - do 4 right. apply moves_sync. intros o. apply P_calm, calm_recordAttributedAction.
  - right; right; by left.
  - do 3 right; by left.
  - do 4 right. apply moves_tick; [done|]. by apply moves_sweep_inbound.
Qed.

(** The same when announcements are posts like others. *)
Lemma surface_all h :
  o_api h ->
  (forall r o, P o (fst (upsertCoalitionCampaignPost r o))) ->
  (forall i o, P o (fst (ingestExternalActivity i o))) ->
  (forall b o, P o (set_o_announcing b o)) -> (forall b o, P o (set_o_reading b o)) ->
  (exists k a x b, h = o_act (moderateActivity k a x b)) \/
  (exists k a x r, h = o_act (takeDownExternalActivity k a x r)) \/
  h = o_act (fun o => sweepExternalActivityRetention (o_now o) o) \/ moves P h.
Proof.
  intros Hh Hpost Hin Hann Hread. destruct (surface h Hh) as [Hx|[Hx|[Hx|[->|Hx]]]]; [auto..| |by auto].
  do 3 right. apply moves_tick; [done|]. by apply moves_sweep_auto.
Qed.
End moving.

(** ** Handlers that only touch replies *)

Section words.
Context `{Env} `{OutreachEnv} `{SecretRuntime} `{AttributionRuntime}.

Definition words_only (o o' : outreach) : Prop :=
  o_posts o' = o_posts o /\ o_connections o' = o_connections o /\
  memberConnections (o_db o') = memberConnections (o_db o) /\
  o_announcing o' = o_announcing o /\ o_reading o' = o_reading o.

Lemma words_ingest i o : words_only o (fst (ingestExternalActivity i o)).
Proof. unfold ingestExternalActivity, refuse. repeat (fork; simpl); by split_and!. Qed.

Lemma words_moderate k a x b o : words_only o (fst (moderateActivity k a x b o)).
Proof.
  unfold moderateActivity, refuse, review, upsertCoalitionExternalActivity, o_upsert.
  repeat (fork; simpl); by split_and!.
Qed.

Lemma words_takedown k a x r o : words_only o (fst (takeDownExternalActivity k a x r o)).
Proof.
  unfold takeDownExternalActivity, refuse, review, upsertCoalitionExternalActivity, o_upsert.
  repeat (fork; simpl); by split_and!.
Qed.

Lemma words_delete ids o : words_only o (fst (deleteCoalitionExternalActivities ids o)).
Proof.
  revert o. induction ids as [|id ids IH]; intros o; [by split_and!|]. cbn [deleteCoalitionExternalActivities].
  destruct (map_delete id (o_externals o)) as [m there]. specialize (IH (set_o_externals m o)).
  by destruct (deleteCoalitionExternalActivities ids (set_o_externals m o)).
Qed.

Lemma words_retention now o : words_only o (fst (sweepExternalActivityRetention now o)).
Proof.
  unfold sweepExternalActivityRetention. set (ids := map _ _). pose proof (words_delete ids o) as Hd.
  by destruct (deleteCoalitionExternalActivities ids o).
Qed.

(** For a claim that is not about replies, only the timer of announcements is left. *)
Lemma surface_words (P : outreach -> outreach -> Prop) `{!PreOrder P} h :
  (forall o o', calm_o o o' -> P o o') -> (forall o o', words_only o o' -> P o o') ->
  (forall r o, xp_milestone r = None -> P o (fst (upsertCoalitionCampaignPost r o))) ->
  (forall b o, P o (set_o_reading b o)) ->
  o_api h -> h = autopost_tick \/ moves P h.
Proof.
  intros Hcalm Hw Hpost Hread Hh.
  assert (Hin : forall i o, P o (fst (ingestExternalActivity i o))) by (intros; apply Hw, words_ingest).
  destruct (surface P Hcalm h Hh Hpost Hin Hread) as [(k & a & x & b & ->)|[(k & a & x & r & ->)|[->|[->|Hm]]]].
  - right. apply moves_sync; [apply _|]. intros o. apply Hw, words_moderate.
  - right. apply moves_sync; [apply _|]. intros o. apply Hw, words_takedown.
  - right. apply moves_sync; [apply _|]. intros o. apply Hw, words_retention.
  - by left.
  - by right.
Qed.
End words.
