(* ===== verification/ReplyInv.v ===== *)
(** * The table of replies over time

    [replies_ok]: replies are filed under their ids, answer a post that was there
    before them, fit the limits, carry a review exactly when they were reviewed, are
    held once per origin id and at most 500 to a post.  [replies_move]: no reply comes
    back under an old id, its words never change, and its status only goes forward.
    Every handler keeps the one and moves along the other. *)

From S2P Require Import Prelude JsMap Async Ownership CoalitionDomain Money Records Store Network Relay Slug.
From S2P Require Import Safety Text SecretBox.
From S2P Require Import BillingRows Outreach Attribution Connections Replies CrossPost Inbound OutreachApi OutreachMoves.
Open Scope Z_scope.

(** ** One reply *)

Definition stage (s : ExternalActivityModerationStatus) : Z :=
  match s with ext_pending => 0 | ext_approved => 1 | ext_rejected => 2 end.

(** Everything but the decision. *)
Definition same_words (r r' : CoalitionExternalActivityRecord) : Prop :=
  xr_id r' = xr_id r /\ xr_campaignPostId r' = xr_campaignPostId r /\ xr_campaignId r' = xr_campaignId r /\
  xr_coalitionId r' = xr_coalitionId r /\ xr_sourcePlatform r' = xr_sourcePlatform r /\
  xr_externalAuthor r' = xr_externalAuthor r /\ xr_externalId r' = xr_externalId r /\
  xr_content r' = xr_content r /\ xr_receivedAt r' = xr_receivedAt r /\ xr_createdAt r' = xr_createdAt r.

Definition reply_later (r r' : CoalitionExternalActivityRecord) : Prop :=
  r' = r \/ (same_words r r' /\ stage (xr_moderationStatus r) < stage (xr_moderationStatus r') /\
             xr_reviewedBy r' <> None /\ xr_reviewedAt r' <> None).

#[export] Instance reply_later_preorder : PreOrder reply_later.
Proof.
  split; [by left|]. intros a b c [->|Hab] [->|Hbc]; [by left|by right|by right|right].
  unfold same_words in *. destruct Hab as (Wab & ? & ? & ?), Hbc as (Wbc & ? & ? & ?).
  split_and!; try lia; try done; destruct_and?; congruence.
Qed.

(** The review a reply carries. *)
Definition review_ok (now : Z) (r : CoalitionExternalActivityRecord) : Prop :=
  let reviewed := exists u t, xr_reviewedBy r = Some u /\ xr_reviewedAt r = Some t /\ xr_createdAt r <= t <= now in
  let unreviewed := xr_reviewedBy r = None /\ xr_reviewedAt r = None in
  match xr_moderationStatus r with
  | ext_pending => unreviewed
  | ext_approved => unreviewed \/ reviewed
  | ext_rejected => reviewed
  end.

Definition fits (r : CoalitionExternalActivityRecord) : Prop :=
  (String.length (xr_externalAuthor r) <= EXTERNAL_AUTHOR_MAX)%nat /\
  (String.length (xr_content r) <= EXTERNAL_CONTENT_MAX)%nat.

(** The post a reply answers was there before it. *)
Definition answers (posts : jsmap CoalitionCampaignPostRecord) (now : Z) (r : CoalitionExternalActivityRecord) : Prop :=
  exists p, get (xr_campaignPostId r) posts = Some p /\ xp_createdAt p <= xr_createdAt r <= now.

(** Two replies of one origin. *)
Definition same_origin (r r' : CoalitionExternalActivityRecord) : Prop :=
  xr_campaignId r = xr_campaignId r' /\ xr_campaignPostId r = xr_campaignPostId r' /\
  xr_sourcePlatform r = xr_sourcePlatform r' /\ xr_externalId r = xr_externalId r' /\ xr_externalId r <> None.

(** [r] is a reply to post [p] of campaign [c]. *)
Definition of_post (c p : string) (r : CoalitionExternalActivityRecord) : bool :=
  bool_decide (xr_campaignId r = c) && bool_decide (xr_campaignPostId r = p).

Section inv.
Context `{Env} `{OutreachEnv} `{SecretRuntime} `{AttributionRuntime}.

Definition reply_id (n : nat) : string := "coaext_" +:+ draw n.

Record replies_ok (o : outreach) : Prop := {
  ro_keyed : keyed (o_externals o);
  ro_posts : keyed (o_posts o);
  ro_past p : In p (values (o_posts o)) -> xp_createdAt p <= o_now o;
  ro_ids r : In r (values (o_externals o)) -> exists n, (n < rng (o_db o))%nat /\ xr_id r = reply_id n;
  ro_fits r : In r (values (o_externals o)) -> fits r;
  ro_answers r : In r (values (o_externals o)) -> answers (o_posts o) (o_now o) r;
  ro_review r : In r (values (o_externals o)) -> review_ok (o_now o) r;
  ro_origin r r' : In r (values (o_externals o)) -> In r' (values (o_externals o)) -> same_origin r r' -> r = r';
  ro_cap c p : count_by (of_post c p) (values (o_externals o)) <= EXTERNAL_REPLY_CAP_PER_POST;
}.

(** What the replies under the ids drawn so far do: each is gone or has moved along [L]. *)
Context (L : CoalitionExternalActivityRecord -> CoalitionExternalActivityRecord -> Prop) `{!PreOrder L}.

Definition replies_move (o o' : outreach) : Prop :=
  (rng (o_db o) <= rng (o_db o'))%nat /\ o_now o <= o_now o' /\
  (forall k p, get k (o_posts o) = Some p -> exists p', get k (o_posts o') = Some p' /\ xp_createdAt p' = xp_createdAt p) /\
  (forall n, (n < rng (o_db o))%nat ->
     match get (reply_id n) (o_externals o) with
     | None => get (reply_id n) (o_externals o') = None
     | Some r => get (reply_id n) (o_externals o') = None \/
                 exists r', get (reply_id n) (o_externals o') = Some r' /\ L r r'
     end).

#[export] Instance replies_move_preorder : PreOrder replies_move.
Proof.
  split.
  - intros o. split_and!; [done|done|by eauto|]. intros n _. destruct (get _ _) as [r|]; [right|done].
    by exists r; split.
  - intros a b c (R1 & C1 & P1 & E1) (R2 & C2 & P2 & E2). split_and!; [lia|lia| |].
    + intros k p Hp. destruct (P1 k p Hp) as (p1 & Hp1 & <-). destruct (P2 k p1 Hp1) as (p2 & ? & <-). eauto.
    + intros n Hn. specialize (E1 n Hn). specialize (E2 n ltac:(lia)).
      destruct (get (reply_id n) (o_externals a)) as [r|].
      * destruct E1 as [E1|(r1 & E1 & L1)]; rewrite E1 in E2; [by left|].
        destruct E2 as [E2|(r2 & E2 & L2)]; [by left|right]. exists r2. split; [done|by etransitivity].
      * by rewrite E1 in E2.
Qed.

Definition along : outreach -> outreach -> Prop := stays replies_ok replies_move.

#[export] Instance along_preorder : PreOrder along.
Proof. apply stays_preorder, _. Qed.

(** ** Changes beside the replies *)

Lemma review_ok_later now now' r : now <= now' -> review_ok now r -> review_ok now' r.
Proof.
  intros Hn. unfold review_ok. destruct (xr_moderationStatus r); [done| |].
  - intros [?|(u & t & ? & ? & ?)]; [by left|right]. exists u, t. split_and!; [done..|lia|lia].
  - intros (u & t & ? & ? & ?). exists u, t. split_and!; [done..|lia|lia].
Qed.

(** The replies stay; posts may be added or changed, ids drawn, time may pass. *)
Lemma along_beside o o' :
  (rng (o_db o) <= rng (o_db o'))%nat -> o_now o <= o_now o' -> o_externals o' = o_externals o ->
  (keyed (o_posts o) -> keyed (o_posts o')) ->
  (forall p, In p (values (o_posts o')) -> In p (values (o_posts o)) \/ xp_createdAt p <= o_now o' \/
     exists q, In q (values (o_posts o)) /\ xp_createdAt p = xp_createdAt q) ->
  (forall k p, get k (o_posts o) = Some p -> exists p', get k (o_posts o') = Some p' /\ xp_createdAt p' = xp_createdAt p) ->
  along o o'.
Proof.
  intros Hr Hn He Hk Hpast Hp Ho. split.
  - constructor; rewrite ?He; try apply Ho.
    + apply Hk, Ho.
    + intros p Hin. destruct (Hpast p Hin) as [Hi|[?|(q & Hi & ->)]]; [|done|]; pose proof (ro_past o Ho _ Hi); lia.
    + intros r Hin. destruct (ro_ids o Ho r Hin) as (n & ? & ?). exists n. split; [lia|done].
    + intros r Hin. destruct (ro_answers o Ho r Hin) as (p & Hg & ?). destruct (Hp _ p Hg) as (p' & Hg' & E').
      exists p'. split; [done|]. lia.
    + intros r Hin. eapply review_ok_later; [done|by apply Ho].
  - split_and!; [done..|]. intros n _. rewrite He. destruct (get _ (o_externals o)) as [r|]; [right|done].
    by exists r; split.
Qed.

Lemma along_calm o o' : calm_o o o' -> along o o'.
Proof.
  intros ((Hr & Hc & _) & Hp & He & _). apply along_beside; [done|unfold o_now; lia|done|by rewrite Hp|rewrite Hp; by left|].
  rewrite Hp. eauto.
Qed.

Lemma along_post r o : along o (fst (upsertCoalitionCampaignPost r o)).
Proof.
  apply along_beside; [done|done|done| | |].
  - intros Hk. by apply keyed_upsert.
  - intros p [->|Hi]%in_values_set; [right|by left]. cbn. unfold stamped_row. cbn.
    destruct (get _ (o_posts o)) as [q|] eqn:Eq; [right|by left]. exists q. split; [by eapply get_in_values|done].
  - intros k p Hg. simpl. rewrite get_upsert. destruct (decide _) as [<-|]; [|by eauto].
    eexists. split; [done|]. unfold stamped_row. by rewrite Hg.
Qed.

Lemma along_drift o o' : o_outside o o' -> along o o'.
Proof.
  intros ([_ ?] & ? & _ & _ & Hp & He & _). apply along_beside; [done|done|done|by rewrite Hp|rewrite Hp; by left|]. rewrite Hp. eauto.
Qed.

(** ** A reply taken in *)

Context `{!DrawLaws}.

Lemma reply_id_inj n m : reply_id n = reply_id m -> n = m.
Proof. unfold reply_id. intros E%app_string_inv. by apply draw_inj. Qed.

Lemma reply_fresh o : replies_ok o -> get (reply_id (rng (o_db o))) (o_externals o) = None.
Proof.
  intros Ho. destruct (get _ _) as [r|] eqn:Eg; [|done].
  pose proof (keyed_get _ _ _ (ro_keyed o Ho) Eg) as Ek.
  destruct (ro_ids o Ho r (get_in_values _ _ _ Eg)) as (n & Hn & E). change (keyof r) with (xr_id r) in Ek.
  rewrite E in Ek. apply reply_id_inj in Ek. lia.
Qed.

(** Adding a row that fits under the next id. *)
Lemma along_add o r d :
  get (reply_id (rng (o_db o))) (o_externals o) = None ->
  xr_id r = reply_id (rng (o_db o)) -> rng d = S (rng (o_db o)) -> clock d = o_now o ->
  fits r -> answers (o_posts o) (o_now o) r -> review_ok (o_now o) r ->
  (forall x, In x (values (o_externals o)) -> ~ same_origin x r) ->
  (forall c p, of_post c p r = true -> count_by (of_post c p) (values (o_externals o)) < EXTERNAL_REPLY_CAP_PER_POST) ->
  along o (set_o_externals (set (reply_id (rng (o_db o))) r (o_externals o)) (set_o_db d o)).
Proof.
  intros Hf Eid Ed Ec Hfit Hans Hrev Hor Hcap Ho.
  assert (Hv : values (set (reply_id (rng (o_db o))) r (o_externals o)) = values (o_externals o) ++ [r]).
  { by apply values_set_new. }
  assert (Hin : forall x, In x (values (o_externals o) ++ [r]) -> In x (values (o_externals o)) \/ x = r).
  { intros x. rewrite in_app_iff. simpl. naive_solver. }
  split.
  - constructor; cbn [o_externals o_posts o_db set_o_externals set_o_db o_now]; rewrite ?Hv;
      unfold o_now; cbn [o_db set_o_externals set_o_db]; rewrite ?Ec, ?Ed.
    + rewrite <-Eid. apply (keyed_set (o_externals o) r), Ho.
    + apply Ho.
    + apply Ho.
    + intros x [Hx| ->]%Hin; [|by exists (rng (o_db o)); split; [lia|]].
      destruct (ro_ids o Ho x Hx) as (n & ? & ?). exists n. split; [lia|done].
    + intros x [Hx| ->]%Hin; [by apply Ho|done].
    + intros x [Hx| ->]%Hin; [by apply Ho|done].
    + intros x [Hx| ->]%Hin; [by apply Ho|done].
    + intros x y [Hx| ->]%Hin [Hy| ->]%Hin Hs; [by apply (ro_origin o Ho)| | |done].
      * by destruct (Hor x Hx).
      * destruct (Hor y Hy). unfold same_origin in *. destruct_and?. split_and!; congruence.
    + intros c p. unfold count_by. rewrite sum_by_app, sum_by_cons. change (sum_by _ []) with 0.
      pose proof (ro_cap o Ho c p) as Hc. specialize (Hcap c p). unfold count_by in *.
      destruct (of_post c p r); [specialize (Hcap eq_refl)|]; lia.
  - unfold replies_move, o_now. cbn [o_externals o_posts o_db set_o_externals set_o_db]. rewrite Ed, Ec.
    split_and!; [lia|done|by eauto|]. intros n Hn. rewrite get_set. destruct (decide _) as [E|].
    + apply reply_id_inj in E. lia.
    + destruct (get (reply_id n) (o_externals o)) as [x|] eqn:Ex; [right; by exists x; split|done].
Qed.

Lemma clause_true (f x : string) : x = f -> clause (Some f) x = true.
Proof. intros ->. unfold clause, truthy. destruct (decide (f = "")); [done|]. by case_bool_decide. Qed.

(** Filtering twice, by tests the second of which follows from the other. *)
Lemma count_le_filter {A : Type} (p q r : A -> bool) l :
  (forall x, p x = true -> q x = true /\ r x = true) ->
  count_by p l <= Z.of_nat (length (List.filter r (List.filter q l))).
Proof.
  intros Hpq. rewrite count_by_filter. apply inj_le. induction l as [|a l IH]; [done|]. simpl.
  specialize (Hpq a). destruct (p a), (q a); simpl; try (destruct (r a)); simpl; try lia;
    by destruct (Hpq eq_refl).
Qed.

Lemma along_take_in post pol i o :
  getCoalitionCampaignPost (ig_campaignPostId i) o = Some post ->
  xp_platform post = ig_sourcePlatform i -> seen_reply post i o = None ->
  Z.of_nat (length (replies_to post o)) < EXTERNAL_REPLY_CAP_PER_POST ->
  along o (fst (take_in post pol i o)).
Proof.
  intros Hp Hpl Hseen Hcap Ho. pose proof (ro_past o Ho post (get_in_values _ _ _ Hp)) as Ht.
  assert (Ek : ig_campaignPostId i = xp_id post) by (apply (keyed_get _ _ _ (ro_posts o Ho) Hp)).
  pose proof (reply_fresh o Ho) as Hf.
  match goal with |- context [take_in ?a ?b ?c ?d] => set (res := take_in a b c d) end.
  unfold take_in, newExternalActivityId, o_fresh, upsertCoalitionExternalActivity, o_upsert in res. cbv zeta in res.
  match (eval unfold res in res) with context [upsert _ ?row _] => set (new := row) in res end.
  assert (Estamp : stamped_row (o_now o) (o_externals o) new =
                   JsMap.stamp (o_now o) (o_now o) new).
  { unfold stamped_row. change (keyof new) with (reply_id (rng (o_db o))). by rewrite Hf. }
  set (d := set_rng (S (rng (o_db o))) (o_db o)).
  set (added := set_o_externals (set (reply_id (rng (o_db o))) (JsMap.stamp (o_now o) (o_now o) new) (o_externals o)) (set_o_db d o)).
  assert (Hc : calm_o added (fst res)).
  { assert (Hr : exists e, fst res = emit_o e (set_o_externals (upsert (o_now o) new (o_externals o)) (set_o_db d o)))
      by (eexists; reflexivity).
    destruct Hr as [e ->]. unfold upsert. rewrite Estamp. calm_o_done. }
  enough (Ha : along o added).
  { destruct (Ha Ho) as [Ho1 Hm1]. destruct (along_calm _ _ Hc Ho1) as [Ho2 Hm2]. split; [done|by etransitivity]. }
  clear Hc. unfold added.
  apply along_add; [done|done|done|done| | | | |].
  - split; apply clip_length; unfold EXTERNAL_AUTHOR_MAX, EXTERNAL_CONTENT_MAX; lia.
  - exists post. cbn. rewrite <-Ek. split; [exact Hp|lia].
  - unfold review_ok. cbn. destruct (bool_decide _); [by left|done].
  - intros x Hx (E1 & E2 & E3 & E4 & E5). cbn in E1, E2, E3, E4. rewrite E4 in E5.
    unfold seen_reply in Hseen. destruct (truthy (ig_externalId i)) as [e|]; [|done].
    eapply List.find_none in Hseen; [|apply List.filter_In; split; [exact Hx|]].
    + rewrite !andb_false_iff, !bool_decide_eq_false in Hseen. naive_solver.
    + rewrite clause_true by congruence. done.
  - intros c p. unfold of_post at 1. cbn. rewrite andb_true_iff, !bool_decide_eq_true. intros [<- <-].
    eapply Z.le_lt_trans; [|exact Hcap]. unfold replies_to, listCoalitionExternalActivity.
    apply count_le_filter. intros x. unfold of_post. rewrite andb_true_iff, !bool_decide_eq_true. intros [E1 E2].
    rewrite clause_true by done. split; [done|]. exact E2.
Qed.

(** Ingestion takes a reply in, answers with the one held, or refuses. *)
Lemma along_ingest i o : along o (fst (ingestExternalActivity i o)).
Proof.
  unfold ingestExternalActivity, refuse.
  destruct (negb inboundSyncEnabled); [reflexivity|].
  destruct (getCoalitionCampaignPost _ o) as [post|] eqn:Ep; [|reflexivity].
  case_bool_decide as Epl; [|reflexivity]. cbn [negb]. destruct (negb (inbound _)); [reflexivity|].
  destruct (db_getCoalition _ _) as [c|]; [|reflexivity]. destruct (isStopped c); [reflexivity|]. cbv zeta.
  case_bool_decide; [reflexivity|]. destruct (getCoalitionCampaign _ _) as [cp|]; [|reflexivity].
  destruct (negb (publicStatus _)); [reflexivity|].
  destruct (_ <=? _) eqn:Ecap; [reflexivity|]. apply Z.leb_gt in Ecap.
  destruct (seen_reply post i o) eqn:Es; [reflexivity|].
  match goal with |- along o (fst (let (o1, saved) := take_in ?p ?q ?x o in _)) =>
    pose proof (along_take_in p q x o Ep Epl Es Ecap) as Ha; by destruct (take_in p q x o) end.
Qed.

(** ** A decision *)

Lemma along_review row status u o :
  In row (values (o_externals o)) -> stage (xr_moderationStatus row) < stage status ->
  (forall r', same_words row r' -> xr_moderationStatus r' = status -> xr_reviewedBy r' <> None ->
     xr_reviewedAt r' <> None -> L row r') ->
  along o (fst (review row status u o)).
Proof.
  intros Hrow Hst HL Ho. set (row' := fst (upsertCoalitionExternalActivity row o)).
  pose proof (keyed_in _ _ (ro_keyed o Ho) Hrow) as Hg.
  set (new := with_xr_reviewedAt (Some (o_now o)) (with_xr_reviewedBy (Some u) (with_xr_moderationStatus status row))).
  set (kept := stamped_row (o_now o) (o_externals o) new).
  assert (Ek : kept = JsMap.stamp (xr_createdAt row) (o_now o) new).
  { unfold kept, stamped_row. change (keyof new) with (keyof row). by rewrite Hg. }
  assert (E0 : fst (review row status u o) = set_o_externals (upsert (o_now o) new (o_externals o)) o) by done.
  assert (Hw : same_words row kept) by (rewrite Ek; unfold same_words; simpl; by split_and!).
  assert (Hin : forall x, In x (values (upsert (o_now o) new (o_externals o))) ->
            x = kept \/ (In x (values (o_externals o)) /\ xr_id x <> xr_id row)).
  { intros x Hx. destruct (in_upsert _ _ _ _ (ro_keyed o Ho) Hx) as [->|[? ?]]; [by left|by right]. }
  pose proof (ro_answers o Ho row Hrow) as (p & Hp & Hc).
  rewrite E0. split.
  - constructor; cbn [o_externals o_posts o_db set_o_externals]; change (o_now (set_o_externals _ o)) with (o_now o).
    + apply keyed_upsert, Ho.
    + apply Ho.
    + apply Ho.
    + intros x [->|[Hx _]]%Hin; [|by apply Ho]. destruct Hw as [-> _]. by apply Ho.
    + intros x [->|[Hx _]]%Hin; [|by apply Ho]. unfold fits. destruct Hw as (_ & _ & _ & _ & _ & -> & _ & -> & _).
      by apply (ro_fits o Ho).
    + intros x [->|[Hx _]]%Hin; [|by apply Ho]. unfold answers. destruct Hw as (_ & -> & _ & _ & _ & _ & _ & _ & _ & ->).
      by exists p.
    + intros x [->|[Hx _]]%Hin; [|by apply Ho]. rewrite Ek. unfold review_ok. simpl.
      assert (Hr : exists u0 t, Some u = Some u0 /\ Some (o_now o) = Some t /\ xr_createdAt row <= t <= o_now o)
        by (exists u, (o_now o); split_and!; [done|done|lia|lia]).
      destruct status; [|by right|done]. revert Hst. simpl. destruct (xr_moderationStatus row); simpl; lia.
    + assert (Hold : forall x, x = kept \/ (In x (values (o_externals o)) /\ xr_id x <> xr_id row) -> forall y,
        In y (values (o_externals o)) /\ xr_id y <> xr_id row -> same_origin x y -> x = y).
      { intros x [->|[Hx _]] y [Hy Hne] Hs; [|by apply (ro_origin o Ho)].
        destruct Hne. f_equal. symmetry. apply (ro_origin o Ho); [done..|].
        unfold same_origin, same_words in *. destruct_and?. split_and!; congruence. }
      intros x y Hx%Hin Hy%Hin Hs. destruct Hy as [->|Hy]; [|by eapply Hold].
      destruct Hx as [->|Hx]; [done|]. symmetry. eapply Hold; [by left|exact Hx|].
      unfold same_origin in *. destruct_and?. split_and!; congruence.
    + intros c q. rewrite count_by_upsert. change (keyof new) with (keyof row). rewrite Hg. fold kept.
      replace (of_post c q kept) with (of_post c q row); [pose proof (ro_cap o Ho c q); lia|].
      unfold of_post. by destruct Hw as (_ & -> & -> & _).
  - split_and!; [done|done|by eauto|]. intros n _. cbn [o_externals set_o_externals]. rewrite get_upsert.
    change (keyof new) with (keyof row). destruct (decide _) as [E|].
    + rewrite <-E, Hg. right. eexists. split; [done|]. fold kept. apply HL; [done|by rewrite Ek..].
    + destruct (get (reply_id n) (o_externals o)) as [x|]; [right; by exists x; split|done].
Qed.

(** Both ways of reviewing go forward. *)
Lemma along_decision row status u e o :
  In row (values (o_externals o)) -> stage (xr_moderationStatus row) < stage status ->
  (forall r', same_words row r' -> xr_moderationStatus r' = status -> xr_reviewedBy r' <> None ->
     xr_reviewedAt r' <> None -> L row r') ->
  along o (emit_o e (fst (review row status u o))).
Proof.
  intros Hrow Hst HL. transitivity (fst (review row status u o)); [by apply along_review|].
  apply along_calm. calm_o_done.
Qed.

Lemma along_moderate k a x (b : bool) o :
  (forall row r', same_words row r' -> stage (xr_moderationStatus row) < stage (xr_moderationStatus r') ->
     xr_moderationStatus r' = (if b then ext_approved else ext_rejected) ->
     xr_reviewedBy r' <> None -> xr_reviewedAt r' <> None -> L row r') ->
  along o (fst (moderateActivity k a x b o)).
Proof.
  intros HL. unfold moderateActivity, refuse. destruct (getCoalition k _) as [c|]; [|reflexivity].
  destruct (activeMembership _ a _) as [m|]; [|reflexivity]. destruct (negb _); [reflexivity|].
  destruct (getCoalitionExternalActivity x o) as [row|] eqn:Er; [|reflexivity].
  destruct (negb _); [reflexivity|]. cbv zeta. case_bool_decide as E1; [reflexivity|]. case_bool_decide as E2; [reflexivity|].
  assert (Hs : stage (xr_moderationStatus row) < stage (if b then ext_approved else ext_rejected))
    by (destruct b, (xr_moderationStatus row); simpl; by try lia).
  pose proof (fun e => along_decision row (if b then ext_approved else ext_rejected) a e o (get_in_values _ _ _ Er) Hs) as Ha.
  destruct (review row _ a o) as [o1 saved]. apply Ha. intros r' Hw Est ? ?. apply HL; [done|by rewrite Est|done..].
Qed.

Lemma along_takedown k a x r o :
  (forall row r', same_words row r' -> stage (xr_moderationStatus row) < stage (xr_moderationStatus r') ->
     xr_moderationStatus r' = ext_rejected -> xr_reviewedBy r' <> None ->
     xr_reviewedAt r' <> None -> L row r') ->
  along o (fst (takeDownExternalActivity k a x r o)).
Proof.
  intros HL. unfold takeDownExternalActivity, refuse. destruct (getCoalition k _) as [c|]; [|reflexivity].
  destruct (getCoalitionExternalActivity x o) as [row|] eqn:Er; [|reflexivity].
  destruct (negb _); [reflexivity|]. case_bool_decide as E1; [reflexivity|].
  assert (Hs : stage (xr_moderationStatus row) < stage ext_rejected) by (destruct (xr_moderationStatus row); simpl; by try lia).
  pose proof (fun e => along_decision row ext_rejected a e o (get_in_values _ _ _ Er) Hs) as Ha.
  destruct (review row _ a o) as [o1 saved]. apply Ha. intros r' Hw Est ? ?. apply HL; [done|by rewrite Est|done..].
Qed.
End inv.

(** ** Purges *)

Section deletion.
Context {V : Type} `{Keyed V}.
Implicit Types (t : jsmap V).

Lemma get_delete k j t : get j (map_delete k t).1 = if decide (j = k) then None else get j t.
Proof.
  unfold map_delete. cbn [fst]. induction t as [|[i v] t IH]; cbn; [by destruct (decide _)|].
  case_bool_decide as E; cbn.
  - subst i. rewrite IH. by destruct (decide (j = k)).
  - destruct (decide (j = i)) as [->|]; [by rewrite decide_False|done].
Qed.

Lemma values_delete k t :
  keyed t -> values (map_delete k t).1 = List.filter (fun v => negb (bool_decide (keyof v = k))) (values t).
Proof.
  intros [_ Hall]. unfold map_delete, values. cbn [fst]. induction Hall as [|[i v] t Hi _ IH]; [done|]. cbn in Hi |- *.
  subst i. case_bool_decide; cbn; [done|]. by rewrite IH.
Qed.

Lemma keyed_delete k t : keyed t -> keyed (map_delete k t).1.
Proof.
  intros [Hnd Hall]. unfold map_delete. cbn [fst]. split.
  - unfold keys in *. induction t as [|[i v] t IH]; [done|]. inversion Hnd; inversion Hall; subst. cbn.
    case_bool_decide; cbn; [auto|]. constructor; [|auto].
    rewrite in_map_iff. intros (y & E1 & Hy%List.filter_In). rewrite <-E1 in *. destruct Hy. eauto using in_map.
  - apply Forall_forall. intros y Hy%list_elem_of_In%List.filter_In. destruct Hy as [Hy _].
    rewrite Forall_forall in Hall. apply Hall, list_elem_of_In, Hy.
Qed.
End deletion.

(** What a batch delete leaves, and what it answers. *)
Lemma delete_all ids o :
  keyed (o_externals o) -> List.NoDup ids ->
  let r := deleteCoalitionExternalActivities ids o in
  exists t, fst r = set_o_externals t o /\ keyed t /\
    values t = List.filter (fun v => negb (bool_decide (xr_id v ∈ ids))) (values (o_externals o)) /\
    (forall k, get k t = if decide (k ∈ ids) then None else get k (o_externals o)) /\
    snd r = List.filter (fun k => bool_decide (get k (o_externals o) <> None)) ids.
Proof.
  cbv zeta. revert o. induction ids as [|id ids IH]; intros o Hk Hnd.
  - exists (o_externals o). simpl. split_and!; [by destruct o|done| |done|done].
    induction (values (o_externals o)) as [|v l IHl]; [done|]. simpl. by rewrite <-IHl.
  - inversion Hnd as [|? ? Hni Hnd']; subst. cbn [deleteCoalitionExternalActivities].
    destruct (map_delete id (o_externals o)) as [m there] eqn:Ed.
    assert (Em : m = (map_delete id (o_externals o)).1) by by rewrite Ed.
    assert (Et : there = bool_decide (get id (o_externals o) <> None)) by by injection Ed.
    destruct (IH (set_o_externals m o)) as (t & E1 & Ht & E2 & E3 & E4); [|done|].
    { cbn. rewrite Em. by apply keyed_delete. }
    destruct (deleteCoalitionExternalActivities ids (set_o_externals m o)) as [o1 gone]. cbn [fst snd] in *. subst o1 gone.
    exists t. split_and!; [done|done| | |].
    + rewrite E2. cbn [o_externals set_o_externals]. rewrite Em, values_delete by done.
      induction (values (o_externals o)) as [|v l IHl]; [done|]. simpl. change (keyof v) with (xr_id v).
      rewrite (bool_decide_ext (xr_id v ∈ id :: ids) (xr_id v = id \/ xr_id v ∈ ids)) by apply elem_of_cons.
      rewrite bool_decide_or, negb_orb. destruct (bool_decide (xr_id v = id)); simpl; [done|].
      by destruct (bool_decide (xr_id v ∈ ids)); simpl; rewrite IHl.
    + intros k. rewrite E3. cbn [o_externals set_o_externals]. rewrite Em, get_delete.
      destruct (decide (k ∈ ids)), (decide (k = id)), (decide (k ∈ id :: ids)) as [Hc|Hc];
        try done; exfalso; rewrite elem_of_cons in Hc; tauto.
    + cbn [List.filter o_externals set_o_externals]. rewrite <-Et.
      assert (E5 : List.filter (fun k => bool_decide (get k m <> None)) ids =
                   List.filter (fun k => bool_decide (get k (o_externals o) <> None)) ids).
      { apply List.filter_ext_in. intros k Hin. rewrite Em, get_delete. destruct (decide _) as [->|]; [done|done]. }
      by rewrite E5.
Qed.
