(* ===== verification/ReplySafety.v ===== *)
(** * What becomes of a stranger's words

    In every run: a reply is visible only by a moderator's decision or under an open
    policy, a rejection is final, and what was purged after a rejection is not read
    back. *)

From S2P Require Import Prelude JsMap Async Ownership CoalitionDomain Money Records Store Network Relay Slug.
From S2P Require Import Safety Text SecretBox.
From S2P Require Import BillingRows Outreach Attribution Connections Replies CrossPost Inbound OutreachApi OutreachMoves.
From S2P Require Import MoneySample OutreachRuntime OutreachSample ReplyInv.
Open Scope Z_scope.

(** ** The purge *)

Section purge.
Context `{Env} `{OutreachEnv} `{SecretRuntime} `{AttributionRuntime} `{!DrawLaws}.

Lemma positiveIntDays_pos raw fallback : 0 < fallback -> 0 < positiveIntDays raw fallback.
Proof.
  intros Hf. unfold positiveIntDays. destruct raw as [t|]; [|done]. destruct (negb _); [done|].
  destruct (_ && _) eqn:E; [|done]. apply andb_true_iff in E as [_ E]. by apply Z.ltb_lt in E.
Qed.

(** Whatever the settings say, no window is shorter than the one posts are read in. *)
Lemma window_floor b : INBOUND_READ_WINDOW_DAYS <= window_of retentionWindows b.
Proof. destruct b; simpl; unfold MIN_WINDOW_DAYS; lia. Qed.

(** The replies still there are those not past due; nothing else changes, and the
    answer counts what was removed. *)
Lemma retention_exact o now :
  keyed (o_externals o) ->
  let due := isPastDue retentionWindows now in
  let rows := values (o_externals o) in
  let (o', answer) := sweepExternalActivityRetention now o in
  exists t, o' = set_o_externals t o /\ keyed t /\
    values t = List.filter (fun r => negb (due r)) rows /\
    (forall r, In r rows -> get (xr_id r) t = if due r then None else Some r) /\
    (forall k, get k t = None \/ get k t = get k (o_externals o)) /\
    rsr_scanned answer = Z.of_nat (length rows) /\
    (let purged b := count_by (fun r => due r && bool_decide (xr_moderationStatus r = b)) rows in
     rsr_pending answer = purged ext_pending /\ rsr_rejected answer = purged ext_rejected /\
     rsr_approved answer = purged ext_approved).
Proof.
  intros Hk. cbv zeta. unfold sweepExternalActivityRetention.
  set (due := isPastDue retentionWindows now).
  assert (Erows : listCoalitionExternalActivity None None None o = values (o_externals o)).
  { by apply filter_true, forallb_forall. }
  rewrite Erows. set (rows := values (o_externals o)).
  set (ids := map xr_id (List.filter due rows)).
  assert (Hnd : List.NoDup ids).
  { unfold ids. pose proof (keyed_values_NoDup _ Hk) as Hnd. fold rows in Hnd.
    apply NoDup_ListNoDup, NoDup_map_filter, NoDup_ListNoDup, Hnd. }
  assert (Hids : forall r, In r rows -> bool_decide (xr_id r ∈ ids) = due r).
  { intros r Hr. destruct (due r) eqn:Ed.
    - apply bool_decide_eq_true, list_elem_of_In, in_map_iff. exists r. split; [done|]. by apply List.filter_In.
    - apply bool_decide_eq_false. rewrite list_elem_of_In. unfold ids. rewrite in_map_iff.
      intros (y & E & Hy%List.filter_In). destruct Hy as [Hy Edy].
      rewrite (keyed_unique _ y r Hk Hy Hr E) in Edy. congruence. }
  destruct (delete_all ids o Hk Hnd) as (t & E1 & Ht & E2 & E3 & E4).
  destruct (deleteCoalitionExternalActivities ids o) as [o1 gone]. cbn [fst snd] in *.
  assert (Hb : forall b, count_by (fun r => bool_decide (xr_id r ∈ gone) && bool_decide (bucketOf r = b)) (List.filter due rows) =
      count_by (fun r => due r && bool_decide (xr_moderationStatus r = b)) rows).
    { intros b. unfold count_by. rewrite sum_by_filter. apply sum_by_ext. intros r Hr. destruct (due r) eqn:Ed; [|done].
      rewrite bool_decide_true; [done|]. rewrite E4. apply list_elem_of_In, List.filter_In. split.
      - apply in_map_iff. exists r. split; [done|]. by apply List.filter_In.
      - apply bool_decide_eq_true. change (xr_id r) with (keyof r). by rewrite (keyed_in _ _ Hk Hr). }
  exists t. split_and!; [done|done| | | |done|cbn; by rewrite !Hb..].
  - rewrite E2. apply List.filter_ext_in. intros r Hr. by rewrite Hids.
  - intros r Hr. rewrite E3. pose proof (Hids r Hr) as Hi. destruct (decide (xr_id r ∈ ids)) as [Hin|Hin].
    + rewrite bool_decide_true in Hi by done. by rewrite <-Hi.
    + rewrite bool_decide_false in Hi by done. rewrite <-Hi. by apply keyed_in.
  - intros k. rewrite E3. destruct (decide _); [by left|by right].
Qed.

Lemma count_by_filter_le {A : Type} (p q : A -> bool) l : count_by p (List.filter q l) <= count_by p l.
Proof.
  unfold count_by. induction l as [|a l IH]; [done|]. simpl. rewrite sum_by_cons.
  destruct (q a); [rewrite sum_by_cons|destruct (p a)]; lia.
Qed.

Lemma along_retention L `{!PreOrder L} o : along L o (fst (sweepExternalActivityRetention (o_now o) o)).
Proof.
  intros Ho. pose proof (retention_exact o (o_now o) (ro_keyed o Ho)) as Hr. cbv zeta in Hr.
  destruct (sweepExternalActivityRetention (o_now o) o) as [o' answer].
  destruct Hr as (t & -> & Ht & Hv & _ & Hg & _). simpl.
  assert (Hin : forall r, In r (values t) -> In r (values (o_externals o))).
  { intros r. rewrite Hv. by intros [? _]%List.filter_In. }
  split.
  - constructor; cbn [o_externals o_posts o_db set_o_externals]; change (o_now (set_o_externals _ o)) with (o_now o);
      try apply Ho; try (intros r Hr%Hin; by apply Ho); [done| |].
    + intros r r' Hr%Hin Hr'%Hin. by apply (ro_origin o Ho).
    + intros c p. etransitivity; [|apply (ro_cap o Ho c p)]. rewrite Hv. apply count_by_filter_le.
  - split_and!; [done|done|by eauto|]. intros n _. cbn [o_externals set_o_externals]. specialize (Hg (reply_id n)).
    destruct (get (reply_id n) (o_externals o)) as [r|]; [|naive_solver].
    destruct Hg as [Hg|Hg]; [by left|right]. by exists r.
Qed.
End purge.

(** ** In every run *)

Section runs.
Context `{Env} `{OutreachEnv} `{SecretRuntime} `{AttributionRuntime} `{!DrawLaws}.

Lemma empty_replies : replies_ok empty_outreach.
Proof. constructor; cbn; try done; apply keyed_nil. Qed.

Lemma along_flag L `{!PreOrder L} (raise : bool -> outreach -> outreach) :
  (forall b o, o_db (raise b o) = o_db o) -> (forall b o, o_posts (raise b o) = o_posts o) ->
  (forall b o, o_externals (raise b o) = o_externals o) -> forall b o, along L o (raise b o).
Proof.
  intros E1 E2 E3 b o. apply along_beside; unfold o_now; rewrite ?E1, ?E2, ?E3; try done; eauto.
Qed.

(** Every handler, for a relation [L] that holds of rejections; approving apart. *)
Lemma api_along L `{!PreOrder L} h :
  (forall r r', same_words r r' -> stage (xr_moderationStatus r) < stage (xr_moderationStatus r') ->
     xr_moderationStatus r' = ext_rejected -> xr_reviewedBy r' <> None -> xr_reviewedAt r' <> None -> L r r') ->
  o_api h -> (exists k a x, h = o_act (moderateActivity k a x true)) \/ moves (along L) h.
Proof.
  intros HL Hh.
  destruct (surface_all (along L) (along_calm L) h Hh) as [(k & a & x & b & ->)|[(k & a & x & r & ->)|[->|Hm]]].
  - by apply along_post.
  - by apply along_ingest.
  - by apply along_flag.
  - by apply along_flag.
  - destruct b; [left; by exists k, a, x|right]. apply moves_sync; [apply _|]; intros o. by apply along_moderate.
  - right. apply moves_sync; [apply _|]; intros o. by apply along_takedown.
  - right. apply moves_sync; [apply _|]; intros o. by apply along_retention.
  - by right.
Qed.

Lemma api_later h : o_api h -> moves (along reply_later) h.
Proof.
  intros Hh. destruct (api_along reply_later h) as [(k & a & x & ->)|Hm]; [|done| |done].
  - intros r r' ? ? _ ? ?. by right.
  - apply moves_sync; [apply _|]; intros o. apply along_moderate; [apply _|]. intros r r' ? ? _ ? ?. by right.
Qed.

Lemma run_later c c' :
  rtc (sys_step o_api o_outside) c c' -> Forall (task_moves (along reply_later)) (pool c) ->
  along reply_later (store c) (store c') /\ Forall (task_moves (along reply_later)) (pool c').
Proof. intros Hr. by apply (run_moves_along (along reply_later) o_api o_outside c c' api_later (along_drift _)). Qed.

Lemma reachable_replies o ts :
  rtc (sys_step o_api o_outside) (Sys empty_outreach []) (Sys o ts) ->
  replies_ok o /\ Forall (task_moves (along reply_later)) ts.
Proof.
  intros Hr. destruct (run_later _ _ Hr) as [Ha Ht]; [constructor|]. by destruct (Ha empty_replies).
Qed.

(** C12 (safety): in every run, a stranger's reply that is there at one time is later
    either gone or there with the same words, author, post, platform and arrival time,
    and its status has at most gone forward, from pending to approved to rejected: a
    rejected reply never changes again.  And an id under which no reply was there,
    though it had been drawn, never carries one later: what was purged or was never
    taken in does not come back under its id. *)
Theorem reply_history o o' :
  o_leads_to o o' ->
  (forall r, In r (values (o_externals o)) ->
     get (xr_id r) (o_externals o') = None \/
     exists r', get (xr_id r) (o_externals o') = Some r' /\ same_words r r' /\
       stage (xr_moderationStatus r) <= stage (xr_moderationStatus r') /\
       (xr_moderationStatus r = xr_moderationStatus r' -> r' = r)) /\
  (forall n, (n < rng (o_db o))%nat -> get (reply_id n) (o_externals o) = None ->
     get (reply_id n) (o_externals o') = None).
Proof.
  intros (ts & ts' & G1 & G2). destruct (reachable_replies _ _ G1) as [Ho Hts].
  destruct (run_later _ _ G2 Hts) as [Ha _]. destruct (Ha Ho) as (_ & _ & _ & _ & Hm). cbn in *. split.
  - intros r Hr. destruct (ro_ids o Ho r Hr) as (n & Hn & E). specialize (Hm n Hn).
    rewrite <-E, (keyed_in _ _ (ro_keyed o Ho) Hr : get (xr_id r) _ = _) in Hm.
    destruct Hm as [Hm|(r' & Hg & Hl)]; [by left|right]. exists r'. split; [done|].
    destruct Hl as [->|(Hw & Hs & _)]; [unfold same_words; by split_and!|].
    split_and!; [done|lia|]. intros E1. rewrite E1 in Hs. lia.
  - intros n Hn Hg. specialize (Hm n Hn). by rewrite Hg in Hm.
Qed.

(** C29 (invariant): in every state the event loop reaches, each reply kept from
    outside carries at most 120 characters of author and 2000 of text, answers a post
    of this process that was made no later than the reply came in, and carries a
    reviewer and a time after its arrival exactly when it was reviewed: a pending one
    has neither, a rejected one both, an approved one both or, under an open policy,
    neither.  No two replies to a post of a campaign have the same platform and origin
    id, and no post of a campaign has more than 500. *)
Theorem replies_sound o :
  o_reachable o ->
  let rows := values (o_externals o) in
  (forall r, In r rows -> fits r /\ review_ok (o_now o) r /\ answers (o_posts o) (o_now o) r) /\
  (forall r r', In r rows -> In r' rows -> same_origin r r' -> r = r') /\
  (forall c p, count_by (of_post c p) rows <= EXTERNAL_REPLY_CAP_PER_POST).
Proof.
  intros (ts & G). destruct (reachable_replies _ _ G) as [Ho _]. cbv zeta. split_and!.
  - intros r Hr. split_and!; [by apply (ro_fits o Ho)|by apply (ro_review o Ho)|by apply (ro_answers o Ho)].
  - apply (ro_origin o Ho).
  - apply (ro_cap o Ho).
Qed.

(** ** Approval *)

(** As it was, or rejected. *)
Definition same_or_rejected (r r' : CoalitionExternalActivityRecord) : Prop :=
  r' = r \/ xr_moderationStatus r' = ext_rejected.

#[export] Instance same_or_rejected_preorder : PreOrder same_or_rejected.
Proof. split; [by left|]. intros a b c [->|Hab] [->|Hbc]; unfold same_or_rejected; auto. Qed.

Definition approves (h : O unit) : Prop := exists k a x, h = o_act (moderateActivity k a x true).

Lemma api_approves h : o_api h -> approves h \/ moves (along same_or_rejected) h.
Proof. apply api_along; [apply _|]. intros r r' _ _ E _ _. by right. Qed.

(** Only an approval is not a move, and it leaves no task behind. *)
Lemma run_approves c :
  rtc (sys_step o_api o_outside) (Sys empty_outreach []) c ->
  Forall (task_moves (along same_or_rejected)) (pool c).
Proof.
  intros Hr. remember (Sys empty_outreach []) as c0 eqn:E0.
  assert (Hno : Forall (task_moves (along same_or_rejected)) (pool c0)) by (subst; constructor). clear E0.
  induction Hr as [c|c1 c2 c3 Hs _ IH]; [done|]. apply IH.
  destruct (step_moves_along (along same_or_rejected) o_api o_outside approves c1 c2 api_approves (along_drift _) Hs Hno)
    as [(h & ts & _ & (k & a & x & ->) & Hset & Hp)|[_ Hp]]; [|done].
  cbn in Hset. injection Hset as _ <-. by rewrite Hp, app_nil_r.
Qed.

(** What an approval that takes effect has checked. *)
Lemma approving k a x o r r' :
  keyed (o_externals o) -> In r (values (o_externals o)) -> xr_moderationStatus r = ext_pending ->
  get (xr_id r) (o_externals (fst (moderateActivity k a x true o))) = Some r' -> xr_moderationStatus r' = ext_approved ->
  x = xr_id r /\ xr_reviewedBy r' = Some a /\ xr_reviewedAt r' = Some (o_now o) /\
  exists c m, getCoalition k (o_db o) = Some c /\ co_id c = xr_coalitionId r /\
    activeMembership (co_id c) a (o_db o) = Some m /\ coalitionRoleCan (mb_role m) externals_moderate = true.
Proof.
  intros Hk Hr Hst Hg Hst'. pose proof (keyed_in _ _ Hk Hr) as Hg0. change (keyof r) with (xr_id r) in Hg0.
  assert (Hsame : o_externals (fst (moderateActivity k a x true o)) <> o_externals o).
  { intros E. rewrite E in Hg. congruence. }
  revert Hg Hsame. unfold moderateActivity, refuse.
  destruct (getCoalition k _) as [c|] eqn:Ec; [|done]. destruct (activeMembership _ a _) as [m|] eqn:Em; [|done].
  destruct (coalitionRoleCan _ _) eqn:Ecan; [|done]. cbn [negb].
  destruct (getCoalitionExternalActivity x o) as [row|] eqn:Ex; [|done].
  case_bool_decide as Eco; [|done]. cbn [negb]. cbv zeta. do 2 (case_bool_decide; [done|]).
  unfold review, upsertCoalitionExternalActivity, o_upsert. cbn -[upsert stamped_row]. intros Hg _.
  assert (Ekey : xr_id row = x) by (symmetry; by apply (keyed_get _ _ _ Hk Ex)).
  rewrite get_upsert in Hg. unfold keyof, xr_keyed in Hg. cbn [xr_id with_xr_reviewedAt] in Hg.
  destruct (decide _) as [E|]; [|congruence].
  change (xr_id row = xr_id r) in E. assert (row = r) as -> by (unfold getCoalitionExternalActivity in Ex; congruence).
  injection Hg as <-. split_and!; [done| | |by exists c, m]; unfold stamped_row; by destruct (get _ _).
Qed.

(** C11 (safety): a reply that waits for moderation becomes visible in one way only:
    the step is a call of [moderateActivity] that approves this reply, made by an
    active member of the reply's coalition whose role may moderate; and the row names
    that member and the time.  No sweep, timer, purge, take-down, task resumed after
    an await or other part of the process does it. *)
Theorem approval_needs_moderator c c' r r' :
  rtc (sys_step o_api o_outside) (Sys empty_outreach []) c -> sys_step o_api o_outside c c' ->
  In r (values (o_externals (store c))) -> xr_moderationStatus r = ext_pending ->
  get (xr_id r) (o_externals (store c')) = Some r' -> xr_moderationStatus r' = ext_approved ->
  exists k a co m,
    settle (o_act (moderateActivity k a (xr_id r) true) (store c)) = (store c', []) /\
    getCoalition k (o_db (store c)) = Some co /\ co_id co = xr_coalitionId r /\
    activeMembership (co_id co) a (o_db (store c)) = Some m /\
    coalitionRoleCan (mb_role m) externals_moderate = true /\
    xr_reviewedBy r' = Some a /\ xr_reviewedAt r' = Some (o_now (store c)).
Proof.
  intros Hr Hs Hin Hst Hg Hst'. destruct c as [o ts]. destruct (reachable_replies _ _ Hr) as [Ho _]. cbn in *.
  pose proof (run_approves _ Hr) as Hts.
  destruct (step_moves_along (along same_or_rejected) o_api o_outside approves (Sys o ts) c' api_approves (along_drift _) Hs Hts)
    as [(h & us & _ & (k & a & x & ->) & Hset & _)|[Ha _]].
  - assert (E : store c' = fst (moderateActivity k a x true o)) by (cbn in Hset; by injection Hset).
    rewrite E in Hg. destruct (approving k a x o r r' (ro_keyed o Ho) Hin Hst Hg Hst') as (-> & Hb & Hat & co & m & ? & ? & ? & ?).
    exists k, a, co, m. split_and!; try done. cbn in Hset |- *. congruence.
  - destruct (Ha Ho) as (_ & _ & _ & _ & Hm). destruct (ro_ids o Ho r Hin) as (n & Hn & E). specialize (Hm n Hn).
    cbn in Hm. rewrite <-E, (keyed_in _ _ (ro_keyed o Ho) Hin : get (xr_id r) _ = _) in Hm.
    destruct Hm as [Hm|(r2 & Hg2 & [->|?])]; congruence.
Qed.

(** ** What was purged after a rejection *)

Lemma pastDue_rejected now r t :
  xr_moderationStatus r = ext_rejected -> xr_reviewedAt r = Some t -> isPastDue retentionWindows now r = true ->
  READ_WINDOW_MS < now - t.
Proof.
  intros E1 E2. unfold isPastDue, anchorOf, bucketOf. rewrite E1, E2. intros Hd%Z.ltb_lt.
  pose proof (window_floor ext_rejected). unfold READ_WINDOW_MS, RETENTION_DAY_MS in *. lia.
Qed.

(** C30 (safety): a rejected reply that the daily purge removes is not read in again.
    Whatever the retention settings are, the post it answered is then older than the
    window posts are read in: in every state the event loop reaches from there the post
    is still filed, and a read of it by any sweep begun from then on does nothing. *)
Theorem rejected_stays_out o o' r :
  o_leads_to o o' ->
  In r (values (o_externals o)) -> xr_moderationStatus r = ext_rejected ->
  get (xr_id r) (o_externals (fst (sweepExternalActivityRetention (o_now o) o))) = None ->
  exists p, get (xr_campaignPostId r) (o_posts o') = Some p /\
    forall now acc, o_now o' <= now -> read_post now p acc = mret acc.
Proof.
  intros (ts & ts' & G1 & G2) Hr Hst Hgone. destruct (reachable_replies _ _ G1) as [Ho Hts].
  destruct (run_later _ _ G2 Hts) as [Ha _]. destruct (Ha Ho) as (_ & _ & Hclock & Hposts & _). cbn in *.
  pose proof (retention_exact o (o_now o) (ro_keyed o Ho)) as Hx. cbv zeta in Hx.
  destruct (sweepExternalActivityRetention (o_now o) o) as [o1 answer]. destruct Hx as (t & -> & _ & _ & Hx & _).
  cbn in Hgone. rewrite (Hx r Hr) in Hgone. destruct (isPastDue _ _ r) eqn:Ed; [|done].
  pose proof (ro_review o Ho r Hr) as Hrev. unfold review_ok in Hrev. rewrite Hst in Hrev.
  destruct Hrev as (u & at_ & _ & Eat & Hat). pose proof (pastDue_rejected _ _ _ Hst Eat Ed).
  destruct (ro_answers o Ho r Hr) as (p & Hp & Hpr). destruct (Hposts _ _ Hp) as (p' & Hp' & E).
  exists p'. split; [done|]. intros now acc Hn. unfold read_post, in_read_window.
  replace (now - READ_WINDOW_MS <=? xp_createdAt p') with false by (symmetry; apply Z.leb_gt; lia).
  by rewrite !andb_false_r.
Qed.
End runs.

(** ** The sample run *)

Section witnesses.
#[local] Existing Instance market_env.
#[local] Existing Instance market_laws.
#[local] Existing Instance sample_outreach_env.
#[local] Existing Instance sample_secrets.
#[local] Existing Instance sample_claims.

(** Ada rejects one reply, approves another, and the purge comes 31 days later. *)
Definition reviews : list happening :=
  [ does (o_act (moderateActivity "coa_" "ada" "coaext_aaaaaaaa" false));
    does (o_act (moderateActivity "coa_" "ada" "coaext_aaaaaaaaa" true)) ].
Definition a_month_on : list happening := [ waits (31 * 24 * 60 * 60 * 1000) ].
Definition purged : list happening := [ does (o_act (fun o => sweepExternalActivityRetention (o_now o) o)) ].

Lemma reviews_ok : Forall happening_ok (reviews ++ a_month_on ++ purged).
Proof. repeat constructor; done. Qed.

Definition reviewed : sys outreach oreq := from_start ((orders ++ promotion) ++ reviews).

Lemma reviewed_ok : Forall happening_ok ((orders ++ promotion) ++ reviews).
Proof. apply Forall_app. split; [apply heard_ok|repeat constructor]. Qed.

(** The reply of the sample under an id. *)
Definition reply_of (c : sys outreach oreq) (id : string) : CoalitionExternalActivityRecord :=
  default (mk_xr "" "" "" "" plat_x "" None "" ext_pending None None (at_ms 0) 0 0) (get id (o_externals (store c))).

Lemma reply_history_witness :
  let o := store heard in
  let o' := store (played (reviews ++ a_month_on ++ purged) heard) in
  length (o_externals o) = 4%nat /\ length (o_externals o') = 1%nat /\
  (get "coaext_aaaaaaaaa" (o_externals o') = None \/
   exists r', get "coaext_aaaaaaaaa" (o_externals o') = Some r' /\ same_words (reply_of heard "coaext_aaaaaaaaa") r' /\
     stage (xr_moderationStatus (reply_of heard "coaext_aaaaaaaaa")) <= stage (xr_moderationStatus r') /\
     (xr_moderationStatus (reply_of heard "coaext_aaaaaaaaa") = xr_moderationStatus r' ->
      r' = reply_of heard "coaext_aaaaaaaaa")).
Proof.
  cbv zeta. split; [vm_compute; reflexivity|]. split; [vm_compute; reflexivity|].
  destruct (reply_history (store heard) (store (played (reviews ++ a_month_on ++ purged) heard))) as [Hr _].
  - apply from_start_leads; [apply heard_ok|apply reviews_ok].
  - apply (Hr (reply_of heard "coaext_aaaaaaaaa")). vm_compute. right. left. reflexivity.
Defined.

Lemma replies_sound_witness :
  length (o_externals (store reviewed)) = 4%nat /\
  (forall r, In r (values (o_externals (store reviewed))) ->
     fits r /\ review_ok (o_now (store reviewed)) r /\ answers (o_posts (store reviewed)) (o_now (store reviewed)) r) /\
  (forall r r', In r (values (o_externals (store reviewed))) -> In r' (values (o_externals (store reviewed))) ->
     same_origin r r' -> r = r') /\
  (forall c p, count_by (of_post c p) (values (o_externals (store reviewed))) <= EXTERNAL_REPLY_CAP_PER_POST).
Proof.
  split; [vm_compute; reflexivity|]. apply (replies_sound (store reviewed)). apply from_start_reached, reviewed_ok.
Defined.

Definition approved : sys outreach oreq :=
  Sys (fst (moderateActivity "coa_" "ada" "coaext_aaaaaaaaa" true (store heard))) (pool heard ++ []).

Lemma approved_step : sys_step o_api o_outside heard approved.
Proof.
  unfold approved. rewrite <-(sys_eta heard) at 1. eapply step_call; [apply oa_moderateActivity|]. reflexivity.
Qed.

Lemma approval_needs_moderator_witness :
  exists k a co m,
    settle (o_act (moderateActivity k a (xr_id (reply_of heard "coaext_aaaaaaaaa")) true) (store heard)) =
      (store approved, []) /\
    getCoalition k (o_db (store heard)) = Some co /\ co_id co = xr_coalitionId (reply_of heard "coaext_aaaaaaaaa") /\
    activeMembership (co_id co) a (o_db (store heard)) = Some m /\
    coalitionRoleCan (mb_role m) externals_moderate = true /\
    xr_reviewedBy (reply_of approved "coaext_aaaaaaaaa") = Some a /\
    xr_reviewedAt (reply_of approved "coaext_aaaaaaaaa") = Some (o_now (store heard)).
Proof.
  apply (approval_needs_moderator heard approved (reply_of heard "coaext_aaaaaaaaa") (reply_of approved "coaext_aaaaaaaaa")).
  - apply from_start_run, heard_ok.
  - apply approved_step.
  - vm_compute. right. left. reflexivity.
  - vm_compute. reflexivity.
  - vm_compute. reflexivity.
  - vm_compute. reflexivity.
Defined.

Definition forgotten : outreach := store (from_start (((orders ++ promotion) ++ reviews) ++ a_month_on)).

Lemma forgotten_leads : o_leads_to forgotten forgotten.
Proof.
  apply from_start_here, Forall_app. split; [apply reviewed_ok|by repeat constructor].
Qed.

Lemma rejected_stays_out_witness :
  xr_moderationStatus (reply_of reviewed "coaext_aaaaaaaa") = ext_rejected /\
  exists p, get (xr_campaignPostId (reply_of reviewed "coaext_aaaaaaaa")) (o_posts forgotten) = Some p /\
    forall now acc, o_now forgotten <= now -> read_post now p acc = mret acc.
Proof.
  split; [vm_compute; reflexivity|].
  apply (rejected_stays_out forgotten forgotten (reply_of reviewed "coaext_aaaaaaaa")).
  - apply forgotten_leads.
  - vm_compute. left. reflexivity.
  - vm_compute. reflexivity.
  - vm_compute. reflexivity.
Defined.
End witnesses.
