(* ===== verification/CustodySafety.v ===== *)
(** * Custody of platform credentials

    A credential is stored only sealed, opens again where it was stored for, and is
    gone everywhere once the platform is disconnected. *)

From S2P Require Import Prelude JsMap Async Ownership CoalitionDomain Money Records Store Network Relay Slug.
From S2P Require Import SpecInv Safety Handlers Text SecretBox.
From S2P Require Import BillingRows Outreach Attribution Connections Replies CrossPost Inbound OutreachApi OutreachMoves.
From S2P Require Import MoneySample OutreachRuntime OutreachSample.
Open Scope Z_scope.

Section custody.
Context `{Env} `{OutreachEnv} `{SecretRuntime} `{AttributionRuntime}.

(** ** Members' links in every run *)

Definition links_stay (o o' : outreach) : Prop :=
  (keyed (memberConnections (o_db o)) -> keyed (memberConnections (o_db o'))) /\
  (keyed (o_connections o) -> keyed (o_connections o')).

#[export] Instance links_stay_preorder : PreOrder links_stay.
Proof. split; [by intros o; split|]. intros a b c [? ?] [? ?]. split; auto. Qed.

Lemma calm_links o o' : calm_o o o' -> links_stay o o'.
Proof. intros ((_ & _ & ?) & _ & _ & _ & _ & ?). by split. Qed.

Lemma api_links h : o_api h -> moves links_stay h.
Proof.
  intros Hh.
  assert (Hsame : forall o o', memberConnections (o_db o') = memberConnections (o_db o) ->
            o_connections o' = o_connections o -> links_stay o o').
  { intros o o' E1 E2. unfold links_stay. by rewrite E1, E2. }
  destruct (surface_words links_stay h) as [->|Hm]; [exact calm_links| | | |done| |done].
  - intros o o' (_ & E1 & E2 & _). by apply Hsame.
  - intros r o _. by apply Hsame.
  - intros b o. by apply Hsame.
  - apply moves_tick; [apply _| |].
    + intros b o. by apply Hsame.
    + apply moves_sweep_auto; [apply _|apply calm_links|]. intros r o. by apply Hsame.
Qed.

Lemma reachable_links o : o_reachable o -> keyed (memberConnections (o_db o)) /\ keyed (o_connections o).
Proof.
  intros (ts & Hr).
  assert (Hd : forall o1 o2, o_outside o1 o2 -> links_stay o1 o2).
  { intros o1 o2 [[(_ & _ & _ & E1 & _) _] [_ [E2 _]]]. unfold links_stay. by rewrite E1, E2. }
  destruct (run_moves_along links_stay o_api o_outside _ _ api_links Hd Hr) as [Hl _]; [constructor|].
  split; apply Hl, keyed_nil.
Qed.

(** ** Disconnecting *)

(** The unrevoked links of a coalition on a platform. *)
Definition live_links (c : string) (p : CoalitionPlatform) (d : db) : list CoalitionMemberConnectionRecord :=
  List.filter (fun r => bool_decide (mc_revokedAt r = None) && bool_decide (mc_platform r = p))
    (listCoalitionMemberConnections (Some c) None d).

Lemma revoke_platform c p now d :
  revokeMemberLinks c (Some p) None now d =
  Done (set_memberConnections (revoke_all (clock d) now (live_links c p d) (memberConnections d)) d)
    (Z.of_nat (length (live_links c p d))).
Proof. unfold revokeMemberLinks. rewrite mbind_gets. cbv zeta. unfold mbind at 1. by rewrite revoke_loop. Qed.

Lemma revoked_everywhere c p d :
  keyed (memberConnections d) ->
  let d' := set_memberConnections (revoke_all (clock d) (clock d) (live_links c p d) (memberConnections d)) d in
  (forall u l, In l (listCoalitionMemberConnections (Some c) u d') -> mc_platform l = p -> mc_revokedAt l <> None) /\
  (forall u, usable_link c u p d' = None) /\
  (forall l, In l (values (memberConnections d)) ->
     mc_coalitionId l <> c \/ mc_platform l <> p \/ mc_revokedAt l <> None -> c <> "" ->
     In l (values (memberConnections d'))).
Proof.
  intros Hk d'.
  assert (Hrev : forall u l, In l (listCoalitionMemberConnections (Some c) u d') -> mc_platform l = p -> mc_revokedAt l <> None).
  { intros u l [Hl Hcl]%List.filter_In Hp. apply andb_true_iff in Hcl as [Hcl _]. simpl in Hl.
    apply revoke_all_rows in Hl as [(r & _ & -> & _)|[Hl Hno]]; [done| |done]. intros Hr.
    apply (Hno l); [|done]. apply List.filter_In. split.
    - apply List.filter_In. split; [done|]. by rewrite Hcl.
    - rewrite andb_true_iff. by rewrite !bool_decide_eq_true. }
  split_and!; [done| |].
  - intros u. unfold usable_link. destruct (List.find _ _) as [l|] eqn:Ef; [|done].
    apply List.find_some in Ef as [Hl Hc]. rewrite !andb_true_iff, !bool_decide_eq_true in Hc.
    destruct Hc as [[Hp Hr] _]. by destruct (Hrev _ _ Hl Hp).
  - intros l Hl Hor Hc. simpl. apply revoke_all_keeps; [done|done|].
    intros r [Hr Hp]%List.filter_In E. apply List.filter_In in Hr as [Hr Hcl].
    rewrite (keyed_unique _ l r Hk Hl Hr E) in Hor. rewrite !andb_true_iff, !bool_decide_eq_true in Hp.
    rewrite clause_nonempty, andb_true_r, bool_decide_eq_true in Hcl by done. naive_solver.
Qed.

(** C35 (functional): disconnecting a platform is done in one step of the event loop.
    A refusal changes nothing.  Otherwise the caller was an active member whose role
    may manage connections; the coalition's own row is kept, inactive and without its
    credential; no member has an unrevoked, still less a usable link there; no post
    of the coalition on that platform finds a credential to be read back with; and
    the answer counts the links revoked.  Other platforms and coalitions keep their
    rows, other links stay as they are. *)
Theorem disconnect_ends_custody k a p o :
  o_reachable o ->
  exists o' r, disconnectPlatform k a p o = Done o' r /\
  match r with
  | Err _ => o' = o
  | Ok (p', n) =>
      exists c m, getCoalition k (o_db o) = Some c /\ activeMembership (co_id c) a (o_db o) = Some m /\
        coalitionRoleCan (mb_role m) connections_manage = true /\
        p' = p /\ n = Z.of_nat (length (live_links (co_id c) p (o_db o))) /\
        (exists row, getCoalitionConnection (co_id c) p o' = Some row /\ xc_active row = false /\ xc_credentialRef row = None) /\
        (forall u l, In l (listCoalitionMemberConnections (Some (co_id c)) u (o_db o')) -> mc_platform l = p ->
           mc_revokedAt l <> None) /\
        (forall u, usable_link (co_id c) u p (o_db o') = None) /\
        (forall post, xp_coalitionId post = co_id c -> xp_platform post = p -> credentialFor post o' = None) /\
        (forall key, key <> pair_key (co_id c) (name p) -> get key (o_connections o') = get key (o_connections o)) /\
        (forall l, In l (values (memberConnections (o_db o))) ->
           mc_coalitionId l <> co_id c \/ mc_platform l <> p \/ mc_revokedAt l <> None -> co_id c <> "" ->
           In l (values (memberConnections (o_db o'))))
  end.
Proof.
  intros [Hk Hkc]%reachable_links. unfold disconnectPlatform. rewrite mbind_gets.
  destruct (getCoalition k _) as [c|] eqn:Ec; [|by exists o, (Err se_not_found)].
  rewrite mbind_gets. destruct (activeMembership _ a _) as [m|] eqn:Em; [|by exists o, (Err se_not_member)].
  destruct (coalitionRoleCan _ _) eqn:Ecan; cbn [negb]; [|by exists o, (Err se_forbidden)].
  rewrite mbind_gets. destruct (getCoalitionConnection _ p o) as [e|] eqn:Ee; [|by exists o, (Err (se_no_connection p))].
  rewrite mbind_update, mbind_gets. set (row := with_xc_active false (with_xc_credentialRef None e)).
  set (o1 := fst (upsertCoalitionConnection row o)).
  assert (E1 : inside (revokeMemberLinks (co_id c) (Some p) None (o_now o1)) o1 =
    Done (set_o_db (set_memberConnections (revoke_all (clock (o_db o)) (clock (o_db o)) (live_links (co_id c) p (o_db o))
            (memberConnections (o_db o))) (o_db o)) o1) (Z.of_nat (length (live_links (co_id c) p (o_db o))))).
  { unfold inside, zoom. by rewrite revoke_platform. }
  unfold mbind at 1. rewrite E1. cbn [obind].
  eexists _, (Ok (p, _)). split; [reflexivity|].
  destruct (revoked_everywhere (co_id c) p (o_db o) Hk) as (Hrev & Huse & Hkeep). cbv zeta in Hrev, Huse, Hkeep.
  assert (Ekey : keyof row = pair_key (co_id c) (name p)) by (symmetry; apply (keyed_get _ _ _ Hkc Ee)).
  assert (Hrow : get (pair_key (co_id c) (name p)) (o_connections o1) = Some (stamped_row (o_now o) (o_connections o) row)).
  { simpl. by rewrite get_upsert, decide_True by exact Ekey. }
  exists c, m. split_and!; try done.
  - exists (stamped_row (o_now o) (o_connections o) row). split; [exact Hrow|].
    unfold stamped_row. by destruct (get _ _).
  - intros post Ep1 Ep2. unfold credentialFor, getCoalitionConnection. rewrite Ep1, Ep2.
    unfold emit_o. cbn [o_connections set_o_events set_o_db]. rewrite Hrow.
    unfold stamped_row. by destruct (get _ _).
  - intros key Hkey. unfold emit_o. cbn [o_connections set_o_events set_o_db]. simpl.
    rewrite get_upsert_ne; [done|]. by rewrite Ekey.
Qed.

(** ** Connecting and linking *)

Context `{!SecretRuntimeLaws}.

Lemma seal_ok s aad o o1 envelope :
  seal s aad o = (o1, Ok envelope) ->
  o1 = set_o_db (set_rng (S (rng (o_db o))) (o_db o)) o /\ encryptSecret s aad (rng (o_db o)) = Ok envelope /\
  envelope <> "" /\ opens_only_at envelope s aad.
Proof.
  unfold seal. destruct (encryptSecret s aad _) as [|e] eqn:Ee; [done|]. intros [= <- <-].
  split_and!; [done..| |]; by eapply encrypt_opens.
Qed.

Lemma truthy_filled s : s <> "" -> truthy (Some s) = Some s.
Proof. intros Hs. unfold truthy. by rewrite decide_False. Qed.

Lemma truthy_truthy h : truthy (truthy h) = truthy h.
Proof. unfold truthy. destruct h as [s|]; [|done]. case_decide; [done|]. by rewrite decide_False. Qed.

(** The id of a saved row: the one the row had, or a new one. *)
Definition kept_id (prefix : string) (had : option string) (id : string) : Prop :=
  match had with Some old => id = old | None => exists j, id = prefix +:+ draw j end.

(** Exactly what saving a connection does: one row, one event, and draws. *)
Lemma saved_connection c a i sealed n o o' v :
  save_connection c a i sealed (set_o_db (set_rng n (o_db o)) o) = (o', Ok v) ->
  exists id n', kept_id "coacon_" (option_map xc_id (getCoalitionConnection (co_id c) (in_platform i) o)) id /\
    v = (in_platform i, in_authMode i, truthy (in_displayHandle i)) /\
    o' = emit_o (ev_connection_set (co_id c) (in_platform i) (in_authMode i) a)
           (fst (upsertCoalitionConnection
              (mk_xc id (co_id c) (in_platform i) (in_authMode i)
                 (carried_credential sealed (getCoalitionConnection (co_id c) (in_platform i) o) (in_authMode i))
                 (truthy (in_displayHandle i)) a true 0 0)
              (set_o_db (set_rng n' (o_db o)) o))).
Proof.
  unfold save_connection, newConnectionId, o_fresh, upsertCoalitionConnection, o_upsert.
  change (getCoalitionConnection (co_id c) (in_platform i) (set_o_db (set_rng n (o_db o)) o))
    with (getCoalitionConnection (co_id c) (in_platform i) o).
  cbv zeta. set (carried := carried_credential _ _ _). unfold stamped_row.
  destruct (getCoalitionConnection _ _ o) as [e|] eqn:Ee.
  - intros Hs. exists (xc_id e), n. split; [done|].
    revert Hs. destruct (get _ _); simpl; rewrite truthy_truthy; intros [= <- <-]; by split.
  - intros Hs. exists ("coacon_" +:+ draw n), (S n). split; [by exists n|].
    revert Hs. destruct (get _ _); simpl; rewrite truthy_truthy; intros [= <- <-]; by split.
Qed.

(** The row just saved, read back. *)
Lemma connection_saved r e o : exists row,
  getCoalitionConnection (xc_coalitionId r) (xc_platform r) (emit_o e (fst (upsertCoalitionConnection r o))) = Some row /\
  xc_active row = xc_active r /\ xc_authMode row = xc_authMode r /\ xc_credentialRef row = xc_credentialRef r.
Proof.
  exists (stamped_row (o_now o) (o_connections o) r). split.
  - unfold getCoalitionConnection, emit_o, upsertCoalitionConnection, o_upsert. cbn [o_connections set_o_events fst].
    simpl. by rewrite get_upsert, decide_True.
  - unfold stamped_row. destruct (get _ _); by split_and!.
Qed.

(** Exactly what linking an account does: one row and draws. *)
Lemma linked_account c u p s h o o1 envelope o' v :
  seal s (memberCredentialAad (co_id c) u p) o = (o1, Ok envelope) ->
  (let (o2, id) := match member_link (co_id c) u p (o_db o1) with Some e => (o1, mc_id e) | None => newMemberConnectionId o1 end in
   let (d, saved) := upsertCoalitionMemberConnection
     (mk_mc id (co_id c) u p (Some envelope) (truthy h) None 0 0) (o_db o2) in
   (set_o_db d o2, Ok (mc_platform saved, truthy (mc_displayHandle saved)))) = (o', (Ok v : SyncResult _)) ->
  exists id n, kept_id "coamc_" (option_map mc_id (member_link (co_id c) u p (o_db o))) id /\ v = (p, truthy h) /\
    o' = set_o_db (fst (upsertCoalitionMemberConnection (mk_mc id (co_id c) u p (Some envelope) (truthy h) None 0 0)
           (set_rng n (o_db o)))) o.
Proof.
  intros (-> & _)%seal_ok. unfold newMemberConnectionId, o_fresh, upsertCoalitionMemberConnection, db_upsert. cbv zeta.
  change (member_link (co_id c) u p (o_db (set_o_db (set_rng (S (rng (o_db o))) (o_db o)) o))) with (member_link (co_id c) u p (o_db o)).
  unfold stamped_row. destruct (member_link _ u p _) as [l|].
  - intros Hs. exists (mc_id l), (S (rng (o_db o))). split; [done|].
    revert Hs. destruct (get _ _); simpl; rewrite truthy_truthy; intros [= <- <-]; by split.
  - intros Hs. exists ("coamc_" +:+ draw (S (rng (o_db o)))), (S (S (rng (o_db o)))). split; [by eexists|].
    revert Hs. destruct (get _ _); simpl; rewrite truthy_truthy; intros [= <- <-]; by split.
Qed.

Lemma find_unique {A} (p : A -> bool) l x :
  In x l -> p x = true -> (forall y, In y l -> p y = true -> y = x) -> List.find p l = Some x.
Proof.
  intros Hin Hp Hu. destruct (List.find p l) as [y|] eqn:Ef.
  - apply List.find_some in Ef as [Hy Hpy]. by rewrite (Hu y Hy Hpy).
  - by rewrite (List.find_none p l Ef x Hin) in Hp.
Qed.

(** The link a member's secret is saved in is the one found usable. *)
Lemma saved_link c u p id ref h d :
  keyed (memberConnections d) -> c <> "" -> u <> "" -> ref <> "" ->
  usable_link c u p (fst (upsertCoalitionMemberConnection (mk_mc id c u p (Some ref) h None 0 0) d)) = Some ref.
Proof.
  intros Hk Hc Hu Hr. unfold usable_link.
  set (row := mk_mc id c u p (Some ref) h None 0 0).
  set (kept := stamped_row (clock d) (memberConnections d) row).
  assert (Ek : mc_coalitionId kept = c /\ mc_userId kept = u /\ mc_platform kept = p /\ mc_revokedAt kept = None /\
               mc_credentialRef kept = Some ref).
  { unfold kept, stamped_row. destruct (get _ _); by split_and!. }
  destruct Ek as (E1 & E2 & E3 & E4 & E5).
  assert (Hall : forall l, In l (listCoalitionMemberConnections (Some c) (Some u)
      (fst (upsertCoalitionMemberConnection row d))) -> mc_platform l = p -> l = kept).
  { intros l [Hl Hcl]%List.filter_In Hp. rewrite !clause_nonempty, andb_true_iff, !bool_decide_eq_true in Hcl by done.
    destruct (in_upsert _ _ _ _ Hk Hl) as [->|[_ Hne]]; [done|]. destruct Hne.
    change (pair_key (pair_key (mc_coalitionId l) (mc_userId l)) (name (mc_platform l)) =
            pair_key (pair_key c u) (name p)). by destruct Hcl as [-> ->]; rewrite Hp. }
  rewrite (find_unique _ _ kept); [done| | |].
  - apply List.filter_In. split.
    + simpl. eapply get_in_values. rewrite get_upsert. by rewrite decide_True.
    + rewrite !clause_nonempty, E1, E2 by done. by rewrite !bool_decide_true.
  - rewrite E3, E4, E5. rewrite !bool_decide_true; [done| |done|done]. unfold truthy. by rewrite decide_False.
  - intros y Hy Hp. apply Hall; [done|]. rewrite !andb_true_iff, !bool_decide_eq_true in Hp. tauto.
Qed.

(** C22 (roundtrip): a secret handed over is stored only as an envelope, and comes back
    out where it is used.  A shared connection made with a secret changes the state by one saved row, one event and the
    process's draws: the row holds what [encryptSecret] made of the secret, and its other fields, the event and the answer are
    made of the coalition, the platform, the mode, the caller's display handle and id, and the row's old or new id.
    After it, every post of the coalition on that platform is read back with exactly that secret.  A member's link
    likewise saves one row, with no event, and every post of theirs there is read back with the secret.  The envelope
    opens under the data of its own row, and under the data of another row (another coalition,
    member or platform) only where AES-GCM seals some text under that other data to
    the very same ciphertext and tag. *)
Theorem stored_credential_opens k a o o' :
  o_reachable o -> a <> "" ->
  (forall i v s, connectPlatform k a i o = (o', Ok v) -> in_authMode i = auth_shared -> truthy (in_secret i) = Some s ->
     exists c envelope id n, getCoalition k (o_db o) = Some c /\
       encryptSecret s (sharedCredentialAad (co_id c) (in_platform i)) (rng (o_db o)) = Ok envelope /\
       opens_only_at envelope s (sharedCredentialAad (co_id c) (in_platform i)) /\
       kept_id "coacon_" (option_map xc_id (getCoalitionConnection (co_id c) (in_platform i) o)) id /\
       v = (in_platform i, auth_shared, truthy (in_displayHandle i)) /\
       o' = emit_o (ev_connection_set (co_id c) (in_platform i) auth_shared a)
              (fst (upsertCoalitionConnection
                 (mk_xc id (co_id c) (in_platform i) auth_shared (Some envelope) (truthy (in_displayHandle i)) a true 0 0)
                 (set_o_db (set_rng n (o_db o)) o))) /\
       forall post, xp_coalitionId post = co_id c -> xp_platform post = in_platform i -> credentialFor post o' = Some s) /\
  (forall p s h v, linkMemberAccount k a p s h o = (o', Ok v) ->
     exists c envelope id n, getCoalition k (o_db o) = Some c /\
       encryptSecret s (memberCredentialAad (co_id c) a p) (rng (o_db o)) = Ok envelope /\
       opens_only_at envelope s (memberCredentialAad (co_id c) a p) /\
       kept_id "coamc_" (option_map mc_id (member_link (co_id c) a p (o_db o))) id /\
       v = (p, truthy h) /\
       o' = set_o_db (fst (upsertCoalitionMemberConnection
              (mk_mc id (co_id c) a p (Some envelope) (truthy h) None 0 0) (set_rng n (o_db o)))) o /\
       forall post, co_id c <> "" -> xp_coalitionId post = co_id c -> xp_platform post = p ->
         xp_authorUserId post = Some a -> credentialFor post o' = Some s).
Proof.
  intros [Hk _]%reachable_links Ha. split.
  - intros i v s. unfold connectPlatform, refuse. destruct (getCoalition k _) as [c|]; [|done].
    destruct (activeMembership _ a _) as [m|]; [|done]. do 4 (destruct (_ : bool); [done|]).
    intros Hcon Em Es. rewrite Em, Es in Hcon.
    destruct (seal s _ o) as [o1 [e|envelope]] eqn:Eseal; [done|].
    destruct (seal_ok _ _ _ _ _ Eseal) as (-> & Henc & Hne & Hopen).
    destruct (saved_connection _ _ _ _ _ _ _ _ Hcon) as (id & n & Hid & Ev & Eo).
    pose proof (truthy_filled _ Hne) as Ht.
    unfold carried_credential in Eo. rewrite Ht in Eo. rewrite Em in Ev, Eo.
    exists c, envelope, id, n. split_and!; [done..|]. intros post E1 E2.
    destruct (connection_saved (mk_xc id (co_id c) (in_platform i) auth_shared (Some envelope) (truthy (in_displayHandle i)) a true 0 0)
      (ev_connection_set (co_id c) (in_platform i) auth_shared a) (set_o_db (set_rng n (o_db o)) o)) as (row & Hrow & Hact & Hmode & Href).
    rewrite <-Eo in Hrow. cbn in Hrow, Hact, Hmode, Href.
    unfold credentialFor. rewrite E1, E2, Hrow, Hact, Hmode, Href, Ht. cbn [negb].
    destruct Hopen as [-> _]. done.
  - intros p s h v. unfold linkMemberAccount, refuse. destruct (getCoalition k _) as [c|] eqn:Ec; [|done].
    destruct (activeMembership _ a _) as [m|]; [|done].
    destruct (getCoalitionConnection _ p o) as [cn|] eqn:Ecn; [|done].
    destruct (xc_active cn) eqn:Eact; [|done]. cbn [negb].
    case_bool_decide as Emode; [|done]. cbn [negb]. destruct (credentialLooksValid p s); [|done].
    destruct outboundSyncEnabled; [|done]. cbn [negb].
    destruct (seal s _ o) as [o1 [e|envelope]] eqn:Eseal; [done|]. intros Hlink.
    destruct (linked_account _ _ _ _ _ _ _ _ _ _ Eseal Hlink) as (id & n & Hid & Ev & Eo).
    destruct (seal_ok _ _ _ _ _ Eseal) as (_ & Henc & Hne & Hopen).
    exists c, envelope, id, n. split_and!; [done..|]. intros post Hc E1 E2 E3.
    pose proof (saved_link (co_id c) a p id envelope (truthy h) (set_rng n (o_db o)) Hk Hc Ha Hne) as Huse.
    unfold credentialFor, getCoalitionConnection. rewrite E1, E2, E3, Eo. unfold getCoalitionConnection in Ecn.
    cbn [o_connections o_db set_o_db]. rewrite Ecn, Eact, Emode. cbn [negb].
    rewrite (truthy_filled _ Ha). rewrite Huse. destruct Hopen as [-> _]. done.
Qed.
End custody.

(** ** The sample run *)

Section witnesses.
#[local] Existing Instance market_env.
#[local] Existing Instance market_laws.
#[local] Existing Instance sample_outreach_env.
#[local] Existing Instance sample_secrets.
#[local] Existing Instance sample_secret_laws.
#[local] Existing Instance sample_claims.
#[local] Existing Instance sample_claim_laws.

(** Ada disconnects Bluesky after the posts. *)
Lemma disconnect_ends_custody_witness :
  exists o' r, disconnectPlatform "coa_" "ada" plat_bluesky (store heard) = Done o' r /\
    r = Ok (plat_bluesky, 0) /\
    (forall u, usable_link "coa_" u plat_bluesky (o_db o') = None) /\
    forall post, xp_coalitionId post = "coa_" -> xp_platform post = plat_bluesky -> credentialFor post o' = None.
Proof.
  destruct (disconnect_ends_custody "coa_" "ada" plat_bluesky (store heard)) as (o' & r & E & Hr).
  { apply from_start_reached, heard_ok. }
  assert (Er : r = Ok (plat_bluesky, 0)).
  { assert (Ex : match disconnectPlatform "coa_" "ada" plat_bluesky (store heard) with
                 | Done _ r => r | _ => Err se_not_found end = Ok (plat_bluesky, 0)) by (vm_compute; reflexivity).
    rewrite E in Ex. exact Ex. }
  subst r. destruct Hr as (c & m & Ec & _ & _ & _ & _ & _ & _ & Huse & Hcred & _).
  assert (Ei : option_map co_id (getCoalition "coa_" (o_db (store heard))) = Some "coa_") by (vm_compute; reflexivity).
  rewrite Ec in Ei. injection Ei as Ei. rewrite Ei in Huse, Hcred.
  exists o', (Ok (plat_bluesky, 0)). split; [exact E|]. split; [reflexivity|]. split; [exact Huse|exact Hcred].
Defined.

Definition before_secret : list happening :=
  [ does (inside (call (createCoalition (new_coalition "ada" "Coats & Co")))) ].

Lemma before_secret_ok : Forall happening_ok before_secret.
Proof. repeat constructor. Qed.

(** Ada hands over the coalition's password, which is what posts are read back with. *)
Lemma stored_credential_opens_witness :
  let o := store (from_start before_secret) in
  let o' := fst (connectPlatform "coa_" "ada" sample_secret o) in
  exists c envelope id n, getCoalition "coa_" (o_db o) = Some c /\
    encryptSecret "ada.example|pass" (sharedCredentialAad (co_id c) plat_bluesky) (rng (o_db o)) = Ok envelope /\
    opens_only_at envelope "ada.example|pass" (sharedCredentialAad (co_id c) plat_bluesky) /\
    kept_id "coacon_" (option_map xc_id (getCoalitionConnection (co_id c) plat_bluesky o)) id /\
    (plat_bluesky, auth_shared, None) = (plat_bluesky, auth_shared, truthy (in_displayHandle sample_secret)) /\
    o' = emit_o (ev_connection_set (co_id c) plat_bluesky auth_shared "ada")
           (fst (upsertCoalitionConnection
              (mk_xc id (co_id c) plat_bluesky auth_shared (Some envelope) (truthy (in_displayHandle sample_secret)) "ada" true 0 0)
              (set_o_db (set_rng n (o_db o)) o))) /\
    forall post, xp_coalitionId post = co_id c -> xp_platform post = plat_bluesky ->
      credentialFor post o' = Some "ada.example|pass".
Proof.
  cbv zeta.
  destruct (stored_credential_opens "coa_" "ada" (store (from_start before_secret))
    (fst (connectPlatform "coa_" "ada" sample_secret (store (from_start before_secret))))) as [Hs _].
  - apply from_start_reached, before_secret_ok.
  - discriminate.
  - apply (Hs sample_secret (plat_bluesky, auth_shared, None) "ada.example|pass").
    + rewrite (surjective_pairing (connectPlatform "coa_" "ada" sample_secret (store (from_start before_secret)))) at 1.
      f_equal.
    + reflexivity.
    + reflexivity.
Defined.
End witnesses.
