(* ===== verification/OnceSafety.v ===== *)
(** * One announcement per milestone

    Whatever else the process does meanwhile, and however often the timer fires, a
    milestone of a campaign is announced at most once on a platform. *)

From S2P Require Import Prelude JsMap Async Ownership CoalitionDomain Money Records Store Network Relay Slug.
From S2P Require Import Safety Text SecretBox.
From S2P Require Import BillingRows Outreach Attribution Connections Replies CrossPost Inbound OutreachApi OutreachMoves.
From S2P Require Import MoneySample OutreachRuntime OutreachSample.
Open Scope Z_scope.

Section once.
Context `{Env} `{OutreachEnv} `{SecretRuntime} `{AttributionRuntime}.

(** The announcements of a milestone that did not fail. *)
Definition announced (c : string) (p : CoalitionPlatform) (m : CampaignMilestone) (o : outreach) : Z :=
  count_by (announces c p m) (values (o_posts o)).

Definition once_ok (o : outreach) : Prop := forall c p m, announced c p m o <= 1.

(** What everyone but the sweep does: no announcement is added. *)
Definition no_news (o o' : outreach) : Prop :=
  o_announcing o' = o_announcing o /\ forall c p m, announced c p m o' <= announced c p m o.

#[export] Instance no_news_preorder : PreOrder no_news.
Proof.
  split; [by intros o|]. intros a b c [F1 L1] [F2 L2]. split; [congruence|].
  intros c' p m. specialize (L1 c' p m). specialize (L2 c' p m). lia.
Qed.

Lemma no_news_same o o' : o_announcing o' = o_announcing o -> o_posts o' = o_posts o -> no_news o o'.
Proof. intros E1 E2. split; [done|]. unfold announced. rewrite E2. intros; lia. Qed.

Lemma no_news_calm o o' : calm_o o o' -> no_news o o'.
Proof. intros (_ & E1 & _ & E2 & _). by apply no_news_same. Qed.

(** How the counts change when a post is written. *)
Lemma announced_post r o c p m :
  announced c p m (fst (upsertCoalitionCampaignPost r o)) <= announced c p m o + (if announces c p m r then 1 else 0).
Proof.
  unfold announced. simpl. rewrite count_by_upsert.
  replace (announces c p m (stamped_row _ _ r)) with (announces c p m r) by (unfold stamped_row; by destruct (get _ _)).
  destruct (get _ _) as [q|]; [destruct (announces c p m q)|]; lia.
Qed.

Lemma announces_milestone c p m r : announces c p m r = true -> xp_campaignId r = c /\ xp_platform r = p /\ xp_milestone r = Some m.
Proof. unfold announces. rewrite !andb_true_iff, !bool_decide_eq_true. tauto. Qed.

Lemma no_news_post r o : xp_milestone r = None -> no_news o (fst (upsertCoalitionCampaignPost r o)).
Proof.
  intros Hm. split; [done|]. intros c p m. pose proof (announced_post r o c p m) as Ha.
  destruct (announces c p m r) eqn:E; [|lia]. apply announces_milestone in E as (_ & _ & E). congruence.
Qed.

Lemma api_no_news h : o_api h -> h = autopost_tick \/ moves no_news h.
Proof.
  apply surface_words; [apply _|apply no_news_calm| |intros r o; apply no_news_post|intros b o; by apply no_news_same].
  intros o o' (E1 & _ & _ & E2 & _). by apply no_news_same.
Qed.

(** ** The sweep *)

Abbreviation keeping m := (holds (E := oreq) o_announcing no_news once_ok m).

Lemma no_news_ok o o' : no_news o o' -> once_ok o -> once_ok o'.
Proof. intros [_ L] Ho c p m. specialize (L c p m). specialize (Ho c p m). lia. Qed.

Lemma keeping_request {X : Set} (e : oreq X) : keeping (request e).
Proof. apply holds_request; [by intros ? ? []|apply no_news_ok]. Qed.

Lemma keeping_fresh p : keeping (update (o_fresh p)).
Proof. apply holds_update. intros o Ho. split; [|done]. eapply no_news_ok; [|exact Ho]. by apply no_news_same. Qed.

Lemma keeping_emit e : keeping (modify (emit_o e)).
Proof. apply holds_modify. intros o Ho. by split. Qed.

(** Posting asks, and touches nothing: whatever no one else breaks holds after it. *)
Lemma asking (I : outreach -> Prop) i :
  (forall o o', no_news o o' -> I o -> I o') -> holds o_announcing no_news I (o_await (postToPlatform i)).
Proof.
  intros HI.
  assert (Hr : forall (X : Set) (e : oreq X), holds o_announcing no_news I (request e))
    by (intros X e; apply holds_request; [by intros ? ? []|exact HI]).
  unfold o_await, postToPlatform, postToDiscord, postToBluesky, postToMastodon.
  repeat first [apply holds_ret | apply holds_gets | apply Hr | apply holds_bind; [|intros ?]
    | match goal with |- holds _ _ _ (match ?x with _ => _ end) => destruct x end].
Qed.

Lemma holding_more {A : Type} (o : outcome outreach oreq A) (I I' : outreach -> Prop) Q :
  (forall s, I' s -> I s) -> holding o_announcing no_news I' Q o ->
  holding o_announcing no_news I (fun _ s => I' s) o.
Proof. intros HI. induction o as [A s a|A s X e k IH|A s X e k IHk o IH]; simpl; naive_solver. Qed.

(** Nothing is listed, so nothing was announced. *)
Lemma not_announced c p m o : alreadyPosted c p m o = false -> announced c p m o <= 0.
Proof.
  intros Hal. unfold announced. replace (count_by _ _) with 0; [done|]. symmetry. apply count_by_zero.
  intros r Hr. apply not_true_is_false. intros Ha. revert Hal. apply not_false_iff_true. unfold alreadyPosted.
  apply existsb_exists. exists r. unfold announces in Ha. rewrite !andb_true_iff, bool_decide_eq_true in Ha.
  destruct Ha as [[[Hc Hp] Hm] Hf]. split.
  - apply List.filter_In. split; [done|]. rewrite Hc. unfold clause, truthy. destruct (decide _); [done|].
    by rewrite bool_decide_true.
  - by rewrite Hp, Hm, Hf.
Qed.

Lemma keeping_announce c campaign m cn r : keeping (announce c campaign m cn r).
Proof.
  unfold announce. intros o Ho Hf. rewrite mbind_gets.
  destruct (alreadyPosted _ _ m o) eqn:Ea; [by apply holds_ret|]. apply not_announced in Ea.
  rewrite mbind_gets. cbv zeta. rewrite mbind_update.
  set (o1 := (newCampaignPostId o).1). set (id := (newCampaignPostId o).2).
  set (fresh := fun s => once_ok s /\ announced (cp_id campaign) (xc_platform cn) m s <= 0).
  assert (Hfresh : fresh o1) by (split; [by apply (no_news_ok o), Ho; apply no_news_same|exact Ea]).
  eapply holding_bind.
  - apply (holding_more _ once_ok fresh (fun _ _ => True)); [by intros s []|].
    apply (asking fresh); [|done|done]. intros s s' Hq [Hs Hz]. split; [by eapply no_news_ok|].
    destruct Hq as [_ L]. specialize (L (cp_id campaign) (xc_platform cn) m). lia.
  - intros result s Hs Hfl [_ Hz]. rewrite mbind_update.
    match goal with |- holding _ _ _ _ (_ (fst ?w)) => set (s1 := fst w) end.
    assert (Hs1 : once_ok s1).
    { intros c' p' m'. unfold s1.
      match goal with |- announced _ _ _ (fst (upsertCoalitionCampaignPost ?row s)) <= _ =>
        pose proof (announced_post row s c' p' m') as Ha; destruct (announces c' p' m' row) eqn:E end.
      - apply announces_milestone in E as (<- & <- & [= <-]). cbn [xp_campaignId xp_platform] in Ha |- *. lia.
      - specialize (Hs c' p' m'). lia. }
    destruct (pr_ok result); [|by apply holds_ret].
    apply holds_bind; [apply keeping_emit|intros _; apply holds_ret|done|done].
Qed.

Lemma keeping_fold {A R : Type} (f : A -> R -> O R) l r : (forall a r, keeping (f a r)) -> keeping (o_fold f l r).
Proof.
  intros Hf. revert r. induction l as [|a l IH]; intros r; simpl; [apply holds_ret|].
  apply holds_bind; [apply Hf|intros r'; apply IH].
Qed.

Lemma keeping_sweep : keeping sweepAutoCrossposts.
Proof.
  unfold sweepAutoCrossposts, announce_coalition, announce_campaign.
  repeat first [apply keeping_announce | apply keeping_fold; intros ? ? | apply holds_ret | apply holds_gets
    | apply holds_bind; [|intros ?]
    | match goal with |- holds _ _ _ (match ?x with _ => _ end) => destruct x end].
Qed.

(** The timer takes the flag for one sweep, which gives it back. *)
Lemma tick_takes : takes o_announcing no_news once_ok autopost_tick.
Proof.
  intros o. unfold autopost_tick. rewrite mbind_gets. split; [by intros ->|]. intros -> Ho. rewrite mbind_modify.
  set (o1 := set_o_announcing true o). assert (Ho1 : once_ok o1) by done.
  apply (spawn_owned o_announcing no_news once_ok).
  - unfold o_await. eapply owned_bind.
    + apply holds_bind; [apply keeping_sweep| |exact Ho1|done]. intros a.
      apply holds_bind; [apply keeping_request|intros _; apply holds_ret].
    + intros a s Hs _ _. by split.
  - intros s' a. unfold o_await, mbind. by destruct (sweepAutoCrossposts o1).
Qed.

Lemma reachable_once o ts :
  rtc (sys_step o_api o_outside) (Sys empty_outreach []) (Sys o ts) ->
  owner_ok o_announcing no_news once_ok (Sys o ts).
Proof.
  intros Hr. eapply (owned_run o_announcing no_news once_ok) in Hr; [exact Hr|..].
  - by intros s s' [].
  - apply no_news_ok.
  - intros h [->|Hm]%api_no_news; [left; apply tick_takes|by right].
  - intros s s' (_ & _ & _ & _ & E1 & _ & _ & _ & _ & E2 & _). by apply no_news_same.
  - split; [intros c p m; unfold announced; change (0 <= 1); lia|]. left. by split; [|constructor].
Qed.

(** C21 (safety): in every state the event loop reaches, however the timer's ticks, the
    waits of a sweep and all other handlers interleave, a campaign has at most one
    post on a platform that announces a given milestone and did not fail. *)
Theorem announced_once o :
  o_reachable o -> forall c p m, count_by (announces c p m) (values (o_posts o)) <= 1.
Proof. intros (ts & Hr). by destruct (reachable_once _ _ Hr) as [Hok _]. Qed.
End once.

(** ** The sample run *)

Section witnesses.
#[local] Existing Instance market_env.
#[local] Existing Instance market_laws.
#[local] Existing Instance sample_outreach_env.
#[local] Existing Instance sample_secrets.
#[local] Existing Instance sample_secret_laws.
#[local] Existing Instance sample_claims.
#[local] Existing Instance sample_claim_laws.

(** The timer fired three times, the last one once the first two had come to an end. *)
Lemma announced_once_witness :
  let o := store (from_start ((orders ++ promotion) ++ [does autopost_tick])) in
  count_by (announces "camp_aa" plat_bluesky ms_launched) (values (o_posts o)) = 1 /\
  forall c p m, count_by (announces c p m) (values (o_posts o)) <= 1.
Proof.
  cbv zeta. split; [vm_compute; reflexivity|]. apply announced_once. apply from_start_reached, Forall_app.
  split; [apply heard_ok|repeat constructor].
Defined.
End witnesses.
