(* ===== verification/CrosspostSafety.v ===== *)
(** * What a cross-post has checked, and what it leaves *)

From S2P Require Import Prelude JsMap Async Ownership CoalitionDomain Money Records Store Network Relay Slug.
From S2P Require Import Safety Text SecretBox.
From S2P Require Import BillingRows Outreach Attribution Connections Replies CrossPost Inbound OutreachApi.
From S2P Require Import MoneySample OutreachRuntime OutreachSample.
Open Scope Z_scope.

Section crosspost.
Context `{Env} `{OutreachEnv} `{SecretRuntime} `{AttributionRuntime}.
Context (oracle : forall X : Set, oreq X -> X).

(** ** One platform *)

(** Ids are drawn and posts written, nothing else. *)
Definition posts_only (o o' : outreach) : Prop :=
  exists t n, (rng (o_db o) <= n)%nat /\ o' = set_o_posts t (set_o_db (set_rng n (o_db o)) o).

#[export] Instance posts_only_preorder : PreOrder posts_only.
Proof.
  split.
  - intros o. exists (o_posts o), (rng (o_db o)). split; [done|]. by destruct o as [[]].
  - intros a b c (t1 & n1 & L1 & ->) (t2 & n2 & L2 & ->). exists t2, n2. split; [simpl in *; lia|done].
Qed.

(** The row that goes with an outcome. *)
Definition recorded (coalitionId userId campaignId : string) (oc : CrosspostOutcome) (x : CoalitionCampaignPostRecord) : Prop :=
  xp_id x = oc_postId oc /\ xp_platform x = oc_platform oc /\ xp_syncStatus x = oc_status oc /\
  xp_coalitionId x = coalitionId /\ xp_campaignId x = campaignId /\ xp_authorUserId x = Some userId /\
  xp_direction x = post_out /\ xp_milestone x = None.

(** A platform is only posted to with a credential that opens, on a platform that may
    be driven. *)
Definition carried_out (o : outreach) (oc : CrosspostOutcome) (x : CoalitionCampaignPostRecord) : Prop :=
  oc_status oc = sync_posted -> platformCanAutomate (oc_platform oc) = true /\ exists s, credentialFor x o = Some s.

Lemma postToPlatform_silent i : keeps (fun _ => True) eq (postToPlatform i).
Proof. unfold postToPlatform, postToDiscord, postToBluesky, postToMastodon. repeat keeps_step. Qed.

Lemma postToPlatform_ok i o :
  pr_ok (snd (run_alone oracle (postToPlatform i o))) = true ->
  platformCanAutomate (ad_platform i) = true /\
  exists ref s, truthy (ad_credentialRef i) = Some ref /\ decryptSecret ref (ad_credentialAad i) = Ok s.
Proof.
  unfold postToPlatform, platformCanAutomate. destruct (platformAutomationBlockers _); [|done].
  destruct (truthy _) as [ref|]; [|done]. destruct (decryptSecret ref _) as [e|s] eqn:Ed; [done|].
  intros _. split; [done|]. by exists ref, s.
Qed.

(** Reading what was posted needs the credential it was posted with. *)
Lemma same_credential c u p cn o ref s x :
  u <> "" -> getCoalitionConnection c p o = Some cn -> xc_active cn = true ->
  xp_coalitionId x = c -> xp_platform x = p -> xp_authorUserId x = Some u ->
  (match xc_authMode cn with
   | auth_personal => usable_link c u p (o_db o) = Some ref /\ decryptSecret ref (memberCredentialAad c u p) = Ok s
   | auth_shared => truthy (xc_credentialRef cn) = Some ref /\ decryptSecret ref (sharedCredentialAad c p) = Ok s
   end) ->
  credentialFor x o = Some s.
Proof.
  intros Hu Hcn Hact E1 E2 Ex Hm. unfold credentialFor. rewrite E1, E2, Hcn, Hact, Ex. cbn [negb].
  assert (Ht : truthy (Some u) = Some u) by (unfold truthy; by rewrite decide_False). rewrite Ht.
  destruct (xc_authMode cn); destruct Hm as [-> ->]; done.
Qed.

Section one.
Context (c : CoalitionRecord) (u cid : string) (Hu : u <> "") (base : ShareComposition).

Definition one_done (p : CoalitionPlatform) (o : outreach) (r : outreach * CrosspostOutcome) : Prop :=
  posts_only o (fst r) /\ oc_platform (snd r) = p /\
  forall x, In x (values (o_posts (fst r))) ->
    In x (values (o_posts o)) \/ (recorded (co_id c) u cid (snd r) x /\ carried_out o (snd r) x).

Lemma share_link_done p id post o :
  one_done p o (run_alone oracle (as_share_link (co_id c) cid u p id post o)).
Proof.
  unfold as_share_link. rewrite mbind_update. cbn [run_alone mret fst snd]. split_and!; [|done|].
  - exists (upsert (o_now o) (mk_xp id cid (co_id c) p None post_out sync_share_link (Some u)
      (Some (default (sh_url post) (shareLinkFor p post))) None None 0 0) (o_posts o)), (rng (o_db o)).
    split; [done|]. by destruct o as [[]].
  - intros x [->|Hx]%in_values_set; [right|by left]. split; [|done]. unfold stamped_row. by destruct (get _ _).
Qed.

Lemma posted_done p id post cn ref aad o :
  getCoalitionConnection (co_id c) p o = Some cn -> xc_active cn = true ->
  (match xc_authMode cn with
   | auth_personal => ref = usable_link (co_id c) u p (o_db o) /\ aad = memberCredentialAad (co_id c) u p
   | auth_shared => ref = xc_credentialRef cn /\ aad = sharedCredentialAad (co_id c) p
   end) ->
  one_done p o (run_alone oracle (post_and_record (co_id c) cid u p id post ref aad o)).
Proof.
  intros Hcn Hact Hmode. unfold post_and_record. set (i := {| ad_platform := p |}).
  rewrite run_alone_past by (unfold o_await; repeat first [apply postToPlatform_silent | keeps_step]).
  assert (Er : snd (run_alone oracle (o_await (postToPlatform i) o)) = snd (run_alone oracle (postToPlatform i o))).
  { unfold o_await. by rewrite run_alone_past by apply postToPlatform_silent. }
  rewrite Er. pose proof (postToPlatform_ok i o) as Hok. set (result := snd _) in Hok |- *.
  rewrite mbind_update. cbn [run_alone mret fst snd]. split_and!; [|done|].
  - eexists (upsert (o_now o) (mk_xp id cid (co_id c) p _ post_out _ (Some u) None _ None 0 0) (o_posts o)), (rng (o_db o)).
    split; [done|]. by destruct o as [[]].
  - intros x [->|Hx]%in_values_set; [right|by left].
    match goal with |- recorded _ _ _ _ ?row /\ _ => set (kept := row) end.
    assert (E : recorded (co_id c) u cid (mk_oc p (if pr_ok result then sync_posted else sync_failed) id None (truthy (pr_error result))) kept)
      by (unfold kept, stamped_row; by destruct (get _ _)).
    split; [done|]. unfold carried_out. cbn [oc_status oc_platform]. destruct (pr_ok result); [|done]. intros _.
    destruct (Hok eq_refl) as (Hcan & ref' & s & Href & Hdec). cbn in Hcan, Href, Hdec. split; [done|]. exists s.
    destruct E as (_ & E1 & _ & E2 & _ & E3 & _). apply (same_credential (co_id c) u p cn o ref' s kept); try done.
    destruct (xc_authMode cn); destruct Hmode as [-> ->]; [split; [by apply truthy_some|done]|by split].
Qed.

Lemma posts_only_credential o o' x : posts_only o o' -> credentialFor x o' = credentialFor x o.
Proof. by intros (t & n & _ & ->). Qed.

(** Steps before it that write no post. *)
Lemma one_done_after p o o1 r : posts_only o o1 -> o_posts o1 = o_posts o -> one_done p o1 r -> one_done p o r.
Proof.
  intros Hp Ep (Hr & E & Hx). split_and!; [by transitivity o1|done|]. rewrite <-Ep. intros x Hin.
  destruct (Hx x Hin) as [?|[? Hc]]; [by left|right]. split; [done|]. intros Hs. destruct (Hc Hs) as (? & s & Hs').
  split; [done|]. exists s. by rewrite <-(posts_only_credential o o1 x Hp).
Qed.

Lemma crosspost_one p o : one_done p o (run_alone oracle (crosspost_to c u cid base p o)).
Proof.
  unfold crosspost_to. rewrite mbind_gets.
  set (o1 := (newCampaignPostId o).1).
  assert (Ho1 : posts_only o o1) by (exists (o_posts o), (S (rng (o_db o))); split; [lia|by destruct o as [[]]]).
  destruct (getCoalitionConnection (co_id c) p o) as [cn|] eqn:Ecn; [destruct (xc_active cn) eqn:Eact|].
  2-3: rewrite mbind_update; split_and!; [exact Ho1|done|by left].
  rewrite mbind_update, mbind_gets. fold o1. set (id := (newCampaignPostId o).2). cbv zeta.
  apply (one_done_after p o o1); [done|done|]. destruct (apiPost _); cbn [negb]; [|apply share_link_done].
  destruct (xc_authMode cn) eqn:Em.
  - rewrite mbind_gets. destruct (usable_link _ u p _) as [ref|] eqn:El; [|apply share_link_done].
    apply (posted_done p id _ cn); [done|done|]. rewrite Em. by rewrite El.
  - apply (posted_done p id _ cn); [done|done|]. by rewrite Em.
Qed.

Lemma crosspost_all ps o :
  let r := run_alone oracle (collect (crosspost_to c u cid base) ps o) in
  posts_only o (fst r) /\ map oc_platform (snd r) = ps /\
  forall x, In x (values (o_posts (fst r))) ->
    In x (values (o_posts o)) \/
    exists oc, In oc (snd r) /\ recorded (co_id c) u cid oc x /\ carried_out o oc x.
Proof.
  cbv zeta. revert o. induction ps as [|p ps IH]; intros o; [split_and!; [reflexivity|done|by left]|].
  cbn [collect]. rewrite run_alone_bind_m. destruct (crosspost_one p o) as (Ho1 & E1 & Hx1).
  destruct (run_alone oracle (crosspost_to c u cid base p o)) as [o1 oc]. cbn [fst snd] in *.
  rewrite run_alone_bind_m. destruct (IH o1) as (Ho2 & E2 & Hx2).
  destruct (run_alone oracle (collect _ ps o1)) as [o2 ocs]. cbn [fst snd run_alone mret] in *.
  split_and!; [by transitivity o1|simpl; by rewrite E1, E2|].
  intros x [Hin|(oc' & Hin & Hr & Hc)]%Hx2.
  - destruct (Hx1 x Hin) as [?|[? ?]]; [by left|right]. exists oc. split; [by left|done].
  - right. exists oc'. split_and!; [by right|done|]. intros Hs. destruct (Hc Hs) as (? & s & Hs'). split; [done|].
    exists s. by rewrite <-(posts_only_credential o o1 x Ho1).
Qed.
End one.

(** C31 (safety): with the event loop to itself, a cross-post that is refused leaves
    everything as it was.  One that answers was asked for by an active member whose
    role may promote, with the outbound gate open, for an active campaign of that
    coalition about a subject who may be listed, and with the guardrails' leave; its
    outcomes are the platforms the member has opted this campaign into, in order and
    nothing else.  Every post it adds is the record of one of those outcomes, in that
    member's name; and one recorded as posted is on a platform that may be driven,
    through the coalition's live connection, with a credential that opened. *)
Theorem crosspost_consent k u cid o :
  u <> "" ->
  let (o', r) := run_alone oracle (crosspostCampaign k u cid o) in
  match r with
  | Err _ => o' = o
  | Ok (outcomes, after) =>
      exists c m campaign,
        getCoalition k (o_db o) = Some c /\ isStopped c = false /\
        activeMembership (co_id c) u (o_db o) = Some m /\ coalitionRoleCan (mb_role m) campaigns_promote = true /\
        outboundSyncEnabled = true /\
        getCoalitionCampaign cid (o_db o) = Some campaign /\ cp_coalitionId campaign = co_id c /\
        cp_status campaign = st_active /\ campaignIsPubliclyShareable campaign (o_db o) = true /\
        gs_allowed (checkGuardrails (co_id c) u (o_now o) o) = true /\
        map oc_platform outcomes =
          map xo_platform (List.filter xo_enabled (listCoalitionCampaignSyncOptIns (Some cid) (Some u) None o)) /\
        outcomes <> [] /\ after = checkGuardrails (co_id c) u (o_now o) o' /\
        (forall x, In x (values (o_posts o')) -> In x (values (o_posts o)) \/
           exists oc, In oc outcomes /\ recorded (co_id c) u cid oc x /\
             (oc_status oc = sync_posted ->
              platformCanAutomate (oc_platform oc) = true /\ exists s, credentialFor x o = Some s))
  end.
Proof.
  intros Hu. unfold crosspostCampaign. rewrite !mbind_gets.
  destruct (getCoalition k _) as [c|] eqn:Ec; [|done]. destruct (isStopped c) eqn:Est; [done|].
  rewrite mbind_gets. destruct (activeMembership _ u _) as [m|] eqn:Em; [|done].
  destruct (coalitionRoleCan _ _) eqn:Ecan; [|done]. cbn [negb].
  destruct outboundSyncEnabled eqn:Eout; [|done]. cbn [negb].
  rewrite mbind_gets. destruct (getCoalitionCampaign cid _) as [campaign|] eqn:Ecp; [|done].
  case_bool_decide as Eco; [|done]. cbn [negb]. case_bool_decide as Eact; [|done]. cbn [negb].
  rewrite mbind_gets. destruct (campaignIsPubliclyShareable _ _) eqn:Esh; [|done]. cbn [negb].
  rewrite mbind_gets. cbv zeta. set (optIns := List.filter xo_enabled _).
  case_bool_decide as El; [done|]. rewrite mbind_gets. destruct (gs_allowed _) eqn:Eg; [|done]. cbn [negb].
  destruct (crosspost_all c u cid Hu (composePost c campaign) (map xo_platform optIns) o) as (Hpo & Emap & Hx).
  rewrite run_alone_bind_m.
  destruct (run_alone oracle (collect _ _ o)) as [o1 ocs]. cbn [fst snd] in *.
  rewrite mbind_modify, mbind_gets. cbn [run_alone mret].
  exists c, m, campaign. split_and!; try done.
  intros E. rewrite E in Emap. destruct optIns; [by destruct El|done].
Qed.
End crosspost.

(** ** The sample run *)

Section witnesses.
#[local] Existing Instance market_env.
#[local] Existing Instance market_laws.
#[local] Existing Instance sample_outreach_env.
#[local] Existing Instance sample_secrets.
#[local] Existing Instance sample_secret_laws.
#[local] Existing Instance sample_claims.
#[local] Existing Instance sample_claim_laws.

(** Ada's cross-post goes out on the one platform she opted into. *)
Lemma crosspost_consent_witness :
  let (o', r) := run_alone platforms (crosspostCampaign "coa_" "ada" "camp_aa" (store connected)) in
  match r with
  | Err _ => False
  | Ok (outcomes, after) =>
      map oc_platform outcomes = [plat_bluesky] /\
      forall x, In x (values (o_posts o')) -> In x (values (o_posts (store connected))) \/
        exists oc, In oc outcomes /\ recorded "coa_" "ada" "camp_aa" oc x /\
          (oc_status oc = sync_posted ->
           platformCanAutomate (oc_platform oc) = true /\ exists s, credentialFor x (store connected) = Some s)
  end.
Proof.
  pose proof (crosspost_consent platforms "coa_" "ada" "camp_aa" (store connected) ltac:(discriminate)) as Hc.
  assert (Hok : match snd (run_alone platforms (crosspostCampaign "coa_" "ada" "camp_aa" (store connected))) with
                | Ok (outcomes, _) => map oc_platform outcomes = [plat_bluesky] | Err _ => False end)
    by (vm_compute; reflexivity).
  destruct (run_alone platforms (crosspostCampaign "coa_" "ada" "camp_aa" (store connected))) as [o' [e|[outcomes after]]];
    [exact Hok|].
  destruct Hc as (c & m & campaign & Ec & _ & _ & _ & _ & _ & _ & _ & _ & _ & _ & _ & _ & Hx).
  assert (Ei : option_map co_id (getCoalition "coa_" (o_db (store connected))) = Some "coa_") by (vm_compute; reflexivity).
  rewrite Ec in Ei. injection Ei as Ei. rewrite Ei in Hx. split; [exact Hok|exact Hx].
Defined.
End witnesses.
