(* ===== verification/AttributionSafety.v ===== *)
(** * Visits are counted once, where the link says *)

From S2P Require Import Prelude JsMap Async CoalitionDomain Money Records Store Relay Slug.
From S2P Require Import Spec SpecInv Text SecretBox.
From S2P Require Import BillingRows Outreach Attribution Connections Replies CrossPost Inbound OutreachApi OutreachMoves.
From S2P Require Import Safety MoneySample OutreachRuntime OutreachSample.
Open Scope Z_scope.

(** ** Totals are sums *)

Definition counts_sum (rows : list CampaignAttributionRecord) : AttributionCounts :=
  mk_counts (sum_by xa_visits rows) (sum_by xa_signups rows) (sum_by xa_joins rows) (sum_by xa_contributions rows).

Lemma add_counts_none a : add_counts no_counts a = a.
Proof. by destruct a. Qed.
Lemma add_counts_assoc a b c : add_counts (add_counts a b) c = add_counts a (add_counts b c).
Proof. destruct a, b, c; unfold add_counts; simpl; f_equal; lia. Qed.

Lemma counts_sum_cons r rows : counts_sum (r :: rows) = add_counts (counts_of r) (counts_sum rows).
Proof. done. Qed.

(** A fold of [add_counts], column by column. *)
Lemma fold_counts l a :
  fold_left add_counts l a =
  add_counts a (mk_counts (sum_by n_visits l) (sum_by n_signups l) (sum_by n_joins l) (sum_by n_contributions l)).
Proof.
  revert a. induction l as [|b l IH]; intros a; simpl.
  - destruct a; unfold add_counts, sum_by; simpl; f_equal; lia.
  - rewrite IH, !sum_by_cons. destruct a, b; unfold add_counts; simpl; f_equal; lia.
Qed.

Definition tally (m : jsmap AttributionCounts) (row : CampaignAttributionRecord) : jsmap AttributionCounts :=
  set (xa_channel row) (add_counts (default no_counts (get (xa_channel row) m)) (counts_of row)) m.

Lemma tally_sum (f : AttributionCounts -> Z) (g : CampaignAttributionRecord -> Z) rows m :
  (forall a b, f (add_counts a b) = f a + f b) -> f no_counts = 0 -> (forall r, f (counts_of r) = g r) ->
  sum_by f (values (fold_left tally rows m)) = sum_by f (values m) + sum_by g rows.
Proof.
  intros Hadd H0 Hg. revert m. induction rows as [|r rows IH]; intros m; simpl; [change (sum_by g []) with 0; lia|].
  rewrite IH, sum_by_cons. unfold tally at 1. rewrite sum_by_set, Hadd, Hg. destruct (get _ m); simpl; lia.
Qed.

Lemma tally_channel rows m h :
  default no_counts (get h (fold_left tally rows m)) =
  add_counts (default no_counts (get h m))
    (counts_sum (List.filter (fun r => bool_decide (xa_channel r = h)) rows)).
Proof.
  revert m. induction rows as [|r rows IH]; intros m; simpl.
  - destruct (default no_counts (get h m)); unfold add_counts, counts_sum, sum_by; simpl; f_equal; lia.
  - rewrite IH. unfold tally. rewrite get_set. case_bool_decide as E.
    + subst h. rewrite decide_True by done. rewrite counts_sum_cons. simpl. by rewrite add_counts_assoc.
    + by rewrite decide_False.
Qed.

(** What the totals of a campaign are. *)
Lemma totals_sums c o :
  let rows := listCampaignAttribution (Some c) None o in
  fst (campaignAttributionTotals c o) = counts_sum rows /\
  forall h, default no_counts (get h (snd (campaignAttributionTotals c o))) =
            counts_sum (List.filter (fun r => bool_decide (xa_channel r = h)) rows).
Proof.
  cbv zeta. unfold campaignAttributionTotals. cbn [fst snd]. fold tally.
  set (rows := listCampaignAttribution (Some c) None o). split.
  - rewrite fold_counts, add_counts_none. unfold counts_sum.
    by f_equal; apply (tally_sum _ _ rows []).
  - intros h. rewrite tally_channel. by rewrite add_counts_none.
Qed.

(** ** One row more *)

Definition one_of (c : AttributionConversion) : AttributionCounts :=
  mk_counts (one_if conv_visit c 0) (one_if conv_signup c 0) (one_if conv_join c 0) (one_if conv_contribution c 0).

Lemma counts_conversion c r : counts_of (count_conversion c r) = add_counts (counts_of r) (one_of c).
Proof. destruct r, c; unfold counts_of, add_counts; simpl; f_equal; lia. Qed.

(** The parts of a key hold no separator, except perhaps the last. *)
Definition attribution_ok (o : outreach) : Prop :=
  keyed (o_attribution o) /\
  forall r, In r (values (o_attribution o)) -> colon_free (xa_campaignId r) /\ colon_free (xa_channel r).

Lemma attribution_key r r' :
  colon_free (xa_campaignId r) -> colon_free (xa_channel r) ->
  colon_free (xa_campaignId r') -> colon_free (xa_channel r') ->
  keyof r = keyof r' ->
  xa_campaignId r = xa_campaignId r' /\ xa_channel r = xa_channel r' /\
  default "" (xa_sharerUserId r) = default "" (xa_sharerUserId r').
Proof.
  intros Hc Hh Hc' Hh'. unfold keyof, xa_keyed.
  assert (E : forall a b c, pair_key (pair_key a b) c = pair_key a (pair_key b c)).
  { intros a b c. unfold pair_key. by rewrite !app_string_assoc. }
  rewrite !E. intros [E1 E2]%pair_key_inj; [|done|done]. apply pair_key_inj in E2 as [E2 E3]; done.
Qed.

(** Summing a column over the rows of a test, after a write. *)
Lemma column_upsert (f : CampaignAttributionRecord -> Z) (q : CampaignAttributionRecord -> bool) now row t :
  sum_by f (List.filter q (values (upsert now row t))) =
  sum_by f (List.filter q (values t))
  - (match get (keyof row) t with Some r => if q r then f r else 0 | None => 0 end)
  + (if q (stamped_row now t row) then f (stamped_row now t row) else 0).
Proof.
  rewrite !sum_by_filter. apply sum_by_set.
Qed.

(** ** What a valid link adds *)

Section attributed.
Context `{Env} `{OutreachEnv} `{SecretRuntime} `{AttributionRuntime} `{!SecretRuntimeLaws} `{!AttributionRuntimeLaws}.

(** The counters one conversion writes, and the row they replace. *)
Lemma count_one campaign channel sharer conv o :
  attribution_ok o -> cp_id campaign <> "" -> colon_free (cp_id campaign) -> colon_free channel ->
  let existing := List.find (fun r => bool_decide (xa_channel r = channel)
      && bool_decide (default "" (xa_sharerUserId r) = default "" sharer))
    (listCampaignAttribution (Some (cp_id campaign)) None o) in
  let base := default (mk_xa (cp_id campaign) (cp_coalitionId campaign) channel (truthy sharer) 0 0 0 0 0 0) existing in
  xa_campaignId base = cp_id campaign /\ xa_channel base = channel /\
  get (keyof (count_conversion conv base)) (o_attribution o) = existing /\
  counts_of base = from_option counts_of no_counts existing.
Proof.
  intros [Hk Hfree] Hne Hcf Hhf. cbv zeta.
  destruct (List.find _ _) as [r|] eqn:Ef; cbn [default from_option].
  - apply List.find_some in Ef as [Hr Hm]. apply List.filter_In in Hr as [Hr Hc].
    rewrite clause_nonempty, andb_true_iff, bool_decide_eq_true in Hc by done. destruct Hc as [Hc _].
    rewrite andb_true_iff, !bool_decide_eq_true in Hm. destruct Hm as [Hch _].
    split_and!; [done|done| |done]. by apply (keyed_in _ _ Hk Hr).
  - split_and!; [done|done| |done]. destruct (get _ (o_attribution o)) as [r|] eqn:Eg; [|done].
    pose proof (keyed_get _ _ _ Hk Eg) as Ek. pose proof (get_in_values _ _ _ Eg) as Hr.
    destruct (Hfree r Hr) as [Hc Hh].
    apply attribution_key in Ek as (E1 & E2 & E3); [|done..].
    eapply List.find_none in Ef; [|apply List.filter_In; split; [exact Hr|]].
    + rewrite andb_false_iff, !bool_decide_eq_false in Ef. cbn in E2, E3.
      destruct Ef as [Ef|Ef]; destruct Ef; [done|]. rewrite <-E3. unfold truthy. destruct sharer as [x|]; [|done].
      by destruct (decide (x = "")).
    + rewrite clause_nonempty by done. cbn in E1. by rewrite bool_decide_true.
Qed.

Lemma clicks_aside campaign h now o : o_attribution (count_click campaign h now o) = o_attribution o.
Proof. unfold count_click. by repeat (fork; simpl). Qed.

(** What the counting branch leaves in the table. *)
Definition counted_once (c h : string) (conv : AttributionConversion) (o o' : outreach) : Prop :=
  (forall c', c' <> "" -> fst (campaignAttributionTotals c' o') =
     if decide (c' = c) then add_counts (fst (campaignAttributionTotals c' o)) (one_of conv)
     else fst (campaignAttributionTotals c' o)) /\
  (forall h', default no_counts (get h' (snd (campaignAttributionTotals c o'))) =
     let was := default no_counts (get h' (snd (campaignAttributionTotals c o))) in
     if decide (h' = h) then add_counts was (one_of conv) else was).

Lemma sum_counted (q : CampaignAttributionRecord -> bool) now row t existing one :
  get (keyof row) t = existing -> counts_of row = add_counts (from_option counts_of no_counts existing) one ->
  (forall c u, q (JsMap.stamp c u row) = q row) -> (forall r, existing = Some r -> q r = q row) ->
  counts_sum (List.filter q (values (upsert now row t))) =
  if q row then add_counts (counts_sum (List.filter q (values t))) one else counts_sum (List.filter q (values t)).
Proof.
  intros Hg Hc Hq Hold. unfold counts_sum. rewrite !column_upsert, Hg. unfold stamped_row. rewrite Hg, Hq. cbn.
  destruct existing as [r|]; cbn in Hc |- *; [rewrite (Hold r eq_refl)|]; destruct (q row); unfold add_counts;
    injection Hc as E1 E2 E3 E4; cbn in *; f_equal; lia.
Qed.

Lemma filter_twice {A} (p q : A -> bool) l : List.filter p (List.filter q l) = List.filter (fun a => q a && p a) l.
Proof. induction l as [|a l IH]; [done|]. simpl. destruct (q a); simpl; [destruct (p a)|]; by rewrite ?IH. Qed.

Lemma counted campaign channel sharer conv o o' :
  attribution_ok o -> cp_id campaign <> "" -> colon_free (cp_id campaign) -> colon_free channel ->
  let existing := List.find (fun r => bool_decide (xa_channel r = channel)
      && bool_decide (default "" (xa_sharerUserId r) = default "" sharer))
    (listCampaignAttribution (Some (cp_id campaign)) None o) in
  let base := default (mk_xa (cp_id campaign) (cp_coalitionId campaign) channel (truthy sharer) 0 0 0 0 0 0) existing in
  o_attribution o' = upsert (o_now o) (count_conversion conv base) (o_attribution o) ->
  counted_once (cp_id campaign) channel conv o o' /\ attribution_ok o'.
Proof.
  intros Hok Hne Hcf Hhf. cbv zeta. destruct (count_one campaign channel sharer conv o Hok Hne Hcf Hhf) as (Ec & Eh & Eg & En).
  destruct Hok as [Hk Hfree]. set (existing := List.find _ _) in *. set (base := default _ existing) in *. intros Ho'.
  assert (Ebc : xa_campaignId (count_conversion conv base) = cp_id campaign) by done.
  assert (Ebh : xa_channel (count_conversion conv base) = channel) by done.
  assert (Hcount : counts_of (count_conversion conv base) = add_counts (from_option counts_of no_counts existing) (one_of conv))
    by (rewrite counts_conversion; by f_equal).
  assert (Hold : forall r, existing = Some r -> xa_campaignId r = cp_id campaign /\ xa_channel r = channel).
  { intros r Er. subst base. rewrite Er in Ec, Eh. done. }
  set (row := count_conversion conv base) in *. split; [split|split].
  - intros c' Hc'. rewrite !(proj1 (totals_sums _ _)). unfold listCampaignAttribution. rewrite Ho'.
    rewrite (sum_counted _ _ row _ existing (one_of conv)); [|done|done|done|].
    + cbv beta. rewrite clause_nonempty, Ebc by done. rewrite andb_true_r.
      destruct (decide (c' = cp_id campaign)) as [->|]; [by rewrite bool_decide_true|by rewrite bool_decide_false].
    + intros r Er. destruct (Hold r Er) as [-> _]. by rewrite Ebc.
  - intros h'. rewrite !(proj2 (totals_sums _ _)). unfold listCampaignAttribution. rewrite Ho', !filter_twice. cbv zeta.
    rewrite (sum_counted _ _ row _ existing (one_of conv)); [|done|done|done|].
    + cbv beta. rewrite clause_nonempty, Ebc, Ebh by done. rewrite bool_decide_true by done. simpl.
      destruct (decide (h' = channel)) as [->|]; [by rewrite bool_decide_true|by rewrite bool_decide_false].
    + intros r Er. destruct (Hold r Er) as [-> ->]. by rewrite Ebc, Ebh.
  - rewrite Ho'. by apply keyed_upsert.
  - rewrite Ho'. intros r [->|Hr]%in_values_set; [|by apply Hfree]. 
    assert (Es : forall c u, xa_campaignId (JsMap.stamp c u row) = cp_id campaign /\ xa_channel (JsMap.stamp c u row) = channel)
      by (intros; by split).
    unfold stamped_row. destruct (get _ _); split; first [by rewrite (proj1 (Es _ _)) | by rewrite (proj2 (Es _ _))].
Qed.

(** A link that was minted reads back as what it was minted for, for 90
    days; and following it counts once, where it says.  If a reference is minted for a
    campaign, a channel and a sharer, then using it within 90 days adds one of the
    right kind to that campaign's totals, and to that channel's in them, and to no
    other campaign's or channel's; later it changes nothing.  A reference
    whose signature is not the key's over its own payload changes nothing at all. *)
Theorem attributed_once c h s t conv now o campaign ref :
  mintAttributionRef c h s t = Some ref -> c <> "" -> colon_free c -> colon_free h ->
  attribution_ok o -> getCoalitionCampaign c (o_db o) = Some campaign -> cp_id campaign = c ->
  let o' := recordAttributedAction (Some ref) conv now o in
  (if now / 1000 - t / 1000 <=? MAX_AGE_SECONDS then
     readAttributionRef ref now = Some {| ac_campaignId := c; ac_channel := h; ac_sharerUserId := truthy s;
                                          ac_issuedAt := inject_Z (t / 1000) |} /\
     counted_once c h conv o o' /\ attribution_ok o'
   else readAttributionRef ref now = None /\ o' = o) /\
  (forall key payload mac, signingKey = Some key -> payload <> "" -> free_of "."%char payload ->
     mac <> hmac_base64url key payload ->
     recordAttributedAction (Some (payload +:+ "." +:+ mac)) conv now o = o).
Proof.
  intros Hmint Hc Hcf Hhf Hok Hget Eid. cbv zeta. split.
  - pose proof (read_minted c h s t now ref Hmint) as Hread. unfold recordAttributedAction.
    assert (Ht : truthy (Some ref) = Some ref).
    { unfold truthy. rewrite decide_False; [done|]. unfold mintAttributionRef in Hmint.
      destruct signingKey; [|done]. injection Hmint as <-. by destruct (toBase64url _). }
    rewrite Ht, Hread.
    destruct (_ <=? _); [|by split]. split; [done|]. cbn [ac_campaignId ac_channel ac_sharerUserId]. rewrite Hget.
    cbv zeta. rewrite <-Eid. rewrite <-Eid in Hc, Hcf.
    match goal with |- context [upsertCampaignAttribution ?row o] => set (new := row) end.
    destruct (upsertCampaignAttribution new o) as [o1 kept] eqn:Eu.
    assert (E1 : o_attribution o1 = upsert (o_now o) new (o_attribution o)).
    { unfold upsertCampaignAttribution, o_upsert in Eu. by injection Eu as <- _. }
    apply (counted campaign h (truthy s)); [done..|].
    destruct conv; [rewrite clicks_aside| | |]; exact E1.
  - intros key payload mac Hkey Hp Hd Hmac. unfold recordAttributedAction.
    destruct (truthy _) as [text|] eqn:Et; [|done].
    assert (E : text = payload +:+ "." +:+ mac).
    { unfold truthy in Et. destruct (decide _); [done|]. by injection Et. }
    rewrite E. destruct (readAttributionRef _ now) eqn:Er; [|done]. destruct Hmac.
    apply (read_signed key payload mac now Hkey Hp Hd). by rewrite Er.
Qed.
End attributed.

(** ** The sample run *)

Section witnesses.
#[local] Existing Instance market_env.
#[local] Existing Instance market_laws.
#[local] Existing Instance sample_outreach_env.
#[local] Existing Instance sample_secrets.
#[local] Existing Instance sample_secret_laws.
#[local] Existing Instance sample_claims.
#[local] Existing Instance sample_claim_laws.

Definition promoted : outreach := store connected.
Definition promoted_campaign : CoalitionCampaignRecord :=
  Eval vm_compute in match getCoalitionCampaign "camp_aa" (o_db promoted) with Some c => c | None => sample_campaign end.
Definition shared_ref : string :=
  Eval vm_compute in default "" (mintAttributionRef "camp_aa" "bluesky" (Some "ada") 5000).

(** Someone follows Ada's Bluesky link a day later. *)
Lemma attributed_once_witness :
  let o' := recordAttributedAction (Some shared_ref) conv_visit 86405000 promoted in
  n_visits (fst (campaignAttributionTotals "camp_aa" o')) = 1 /\ counted_once "camp_aa" "bluesky" conv_visit promoted o'.
Proof.
  cbv zeta. split; [vm_compute; reflexivity|].
  destruct (attributed_once "camp_aa" "bluesky" (Some "ada") 5000 conv_visit 86405000 promoted promoted_campaign shared_ref)
    as [Hr _].
  - reflexivity.
  - discriminate.
  - intros x Hx. set_solver.
  - intros x Hx. set_solver.
  - assert (E : o_attribution promoted = []) by (vm_compute; reflexivity).
    unfold attribution_ok. rewrite E. split; [apply keyed_nil|intros r []].
  - vm_compute. reflexivity.
  - reflexivity.
  - change (86405000 / 1000 - 5000 / 1000 <=? MAX_AGE_SECONDS) with true in Hr. apply (proj1 (proj2 Hr)).
Defined.
End witnesses.
