(* ===== verification/Quorum.v ===== *)
(** * Quorum secret sharing of dead drops
      (packages/blackout-protocol/src/deaddrop/crypto/quorum.ts)

    Shamir's scheme over GF(256): the exponential and logarithm tables, field
    multiplication and division, [split] and [combine], as executable functions
    on bytes.  Bytes are [N] below 256; typed arrays are lists of fixed length
    whose out-of-range reads do not occur (each function says why).  The random
    bytes are an argument.  This file and [QuorumField] use the Standard Library
    and MathComp only, so neither loads the prelude of the other components. *)

From Stdlib Require Import PeanoNat NArith List Lia Bool.
Import ListNotations.
Local Open Scope N_scope.

(** ** The field tables *)

(** One step of the table loop: multiplication of [x] by the generator 3. *)
Definition times3 (x : N) : N :=
  let next := N.land (N.shiftl x 1) 255 in
  let next := if N.land x 128 =? 0 then next else N.lxor next 27 in
  let next := N.lxor next x in
  N.land next 255.

(** Writing one cell of a typed array; a write out of range is dropped. *)
Fixpoint set_at (i : nat) (v : N) (l : list N) : list N :=
  match l, i with
  | [], _ => []
  | _ :: l, O => v :: l
  | a :: l, S i => a :: set_at i v l
  end.

Fixpoint fill_tables (n : nat) (i : nat) (x : N) (exp log : list N) : list N * list N :=
  match n with
  | O => (set_at 255 (nth 0 exp 0) exp, log)
  | S n => fill_tables n (S i) (times3 x) (set_at i x exp) (set_at (N.to_nat x) (N.of_nat i) log)
  end.

Definition tables : list N * list N :=
  Eval vm_compute in fill_tables 255 0 1 (repeat 0 256) (repeat 0 256).
Definition EXP : list N := fst tables.
Definition LOG : list N := snd tables.

Definition exp_at (i : N) : N := nth (N.to_nat i) EXP 0.
Definition log_at (a : N) : N := nth (N.to_nat a) LOG 0.

Definition gfMul (a b : N) : N :=
  if (a =? 0) || (b =? 0) then 0 else exp_at ((log_at a + log_at b) mod 255).

(** [None] is the thrown division by zero. *)
Definition gfDiv (a b : N) : option N :=
  if b =? 0 then None
  else if a =? 0 then Some 0
  else Some (exp_at ((log_at a + 255 - log_at b) mod 255)).

(** [(result, xPow)] through the loop. *)
Definition evalPoly (coeffs : list N) (x : N) : N :=
  fst (fold_left (fun st c => (N.lxor (fst st) (gfMul c (snd st)), gfMul (snd st) x))
         coeffs (0, 1)).

(** ** Splitting *)

Record QuorumShare : Type := Share { share_x : N; share_y : list N }.

Inductive QuorumError : Set :=
  | bad_threshold | bad_shares | too_many_shares | empty_secret
  | too_few_shares | ragged_shares | bad_x | duplicate_x | division_by_zero.

Inductive returned (A : Type) : Type :=
  | Return (a : A)
  | Throw (e : QuorumError).
Arguments Return {A} a.
Arguments Throw {A} e.

(** [out.push({ x: i, y: new Uint8Array(length) })] for [i] from 1. *)
Definition blank_shares (shares : nat) (length : nat) : list QuorumShare :=
  map (fun i => Share (N.of_nat i) (repeat 0 length)) (seq 1 shares).

(** The coefficients of one byte: [coeffs\[0\]] is the secret byte and the
    others the random bytes drawn for it. *)
Definition coeffs_for (threshold : nat) (secret_byte : N) (random : list N) : list N :=
  secret_byte :: map (fun j => nth (j - 1) random 0) (seq 1 (threshold - 1)).

(** The inner loop: byte [byteIdx] of every share. *)
Definition split_byte (byteIdx : nat) (coeffs : list N) (out : list QuorumShare) : list QuorumShare :=
  map (fun sh => Share (share_x sh) (set_at byteIdx (evalPoly coeffs (share_x sh)) (share_y sh))) out.

(** [random byteIdx] is what [randomBytes(threshold - 1)] returns for that byte. *)
Fixpoint split_loop (threshold : nat) (random : nat -> list N) (byteIdx : nat) (secret : list N)
    (out : list QuorumShare) : list QuorumShare :=
  match secret with
  | [] => out
  | b :: secret =>
      split_loop threshold random (S byteIdx) secret
        (split_byte byteIdx (coeffs_for threshold b (random byteIdx)) out)
  end.

Definition split (secret : list N) (threshold shares : nat) (random : nat -> list N) :
    returned (list QuorumShare) :=
  if (threshold <? 2)%nat then Throw bad_threshold
  else if (shares <? threshold)%nat then Throw bad_shares
  else if (255 <? shares)%nat then Throw too_many_shares
  else if (length secret =? 0)%nat then Throw empty_secret
  else Return (split_loop threshold random 0 secret (blank_shares shares (length secret))).

(** ** Combining *)

(** The first loop over the shares. *)
Fixpoint check_shapes (len : nat) (shares : list QuorumShare) : option QuorumError :=
  match shares with
  | [] => None
  | s :: shares =>
      if negb (length (share_y s) =? len)%nat then Some ragged_shares
      else if (share_x s =? 0) || (255 <? share_x s) then Some bad_x
      else check_shapes len shares
  end.

(** The second loop: [xs] is the set filled so far. *)
Fixpoint check_distinct (xs : list N) (shares : list QuorumShare) : option QuorumError :=
  match shares with
  | [] => None
  | s :: shares =>
      if existsb (N.eqb (share_x s)) xs then Some duplicate_x
      else check_distinct (share_x s :: xs) shares
  end.

(** The loop over [j]: numerator and denominator of the basis polynomial of
    share [i], whose coordinate is [xi], at zero. *)
Definition basis_parts (i : nat) (xi : N) (xs : list N) : N * N :=
  fold_left (fun nd p =>
    let '(j, xj) := p in
    if (i =? j)%nat then nd
    else (gfMul (fst nd) xj, gfMul (snd nd) (N.lxor xi xj)))
    (combine (seq 0 (length xs)) xs) (1, 1).

(** The loop over [i] for one byte; [ys] are the shares' bytes at that index. *)
Fixpoint combine_byte (xs : list N) (points : list (nat * (N * N))) (acc : N) : option N :=
  match points with
  | [] => Some acc
  | (i, (xi, yi)) :: points =>
      let '(num, den) := basis_parts i xi xs in
      match gfDiv num den with
      | None => None
      | Some basis => combine_byte xs points (N.lxor acc (gfMul yi basis))
      end
  end.

Definition byte_points (byteIdx : nat) (shares : list QuorumShare) : list (nat * (N * N)) :=
  combine (seq 0 (length shares))
    (map (fun s => (share_x s, nth byteIdx (share_y s) 0)) shares).

Fixpoint combine_loop (n : nat) (byteIdx : nat) (shares : list QuorumShare) : option (list N) :=
  match n with
  | O => Some []
  | S n =>
      match combine_byte (map share_x shares) (byte_points byteIdx shares) 0,
            combine_loop n (S byteIdx) shares with
      | Some b, Some rest => Some (b :: rest)
      | _, _ => None
      end
  end.

Definition combine_shares (shares : list QuorumShare) : returned (list N) :=
  match shares with
  | [] | [_] => Throw too_few_shares
  | s0 :: _ =>
      let len := length (share_y s0) in
      match check_shapes len shares with
      | Some e => Throw e
      | None =>
          match check_distinct [] shares with
          | Some e => Throw e
          | None =>
              match combine_loop len 0 shares with
              | Some secret => Return secret
              | None => Throw division_by_zero
              end
          end
      end
  end.

(** [bytesEqual] of encoding.ts: differences are accumulated with [|=]. *)
Definition bytesEqual (a b : list N) : bool :=
  if negb (length a =? length b)%nat then false
  else fold_left (fun diff p => N.lor diff (N.lxor (fst p) (snd p))) (combine a b) 0 =? 0.

Definition sharesEqual (a b : QuorumShare) : bool :=
  (share_x a =? share_x b) && bytesEqual (share_y a) (share_y b).

Example split_2_of_3 :
  split [7; 200] 2 3 (fun _ => [99]) =
  Return [Share 1 [100; 171]; Share 2 [193; 14]; Share 3 [162; 109]].
Proof. vm_compute. reflexivity. Qed.

(** ** The field laws

    Each law is a finite check or follows from the tables being inverse to each
    other, as multiplication adds logarithms modulo 255. *)

Definition byte (a : N) : Prop := a < 256.

Definition bytes_below (n : nat) : list N := map N.of_nat (seq 0 n).

Lemma in_bytes_below n a : a < N.of_nat n -> In a (bytes_below n).
Proof.
  intros H. unfold bytes_below. apply in_map_iff. exists (N.to_nat a).
  split; [apply N2Nat.id|]. apply in_seq. lia.
Qed.

Lemma check1 (P : N -> bool) n :
  forallb P (bytes_below n) = true -> forall a, a < N.of_nat n -> P a = true.
Proof. intros H a Ha. rewrite forallb_forall in H. apply H, in_bytes_below, Ha. Qed.

Lemma check2 (P : N -> N -> bool) n :
  forallb (fun a => forallb (P a) (bytes_below n)) (bytes_below n) = true ->
  forall a b, a < N.of_nat n -> b < N.of_nat n -> P a b = true.
Proof. intros H a b Ha Hb. apply (check1 (P a) n); [|easy]. apply (check1 _ n H a Ha). Qed.

Lemma exp_log a : a <> 0 -> byte a -> exp_at (log_at a) = a /\ log_at a < 255.
Proof.
  intros H0 Ha.
  assert (H : (a =? 0) || ((exp_at (log_at a) =? a) && (log_at a <? 255)) = true).
  { apply (check1 (fun a => (a =? 0) || ((exp_at (log_at a) =? a) && (log_at a <? 255))) 256);
      [vm_compute; reflexivity | exact Ha]. }
  apply orb_prop in H as [H|H]; [apply N.eqb_eq in H; contradiction|].
  apply andb_prop in H as [H1 H2]. apply N.eqb_eq in H1. apply N.ltb_lt in H2. now split.
Qed.

Lemma log_exp i : i < 255 -> log_at (exp_at i) = i /\ exp_at i <> 0 /\ byte (exp_at i).
Proof.
  intros Hi.
  assert (H : (log_at (exp_at i) =? i) && negb (exp_at i =? 0) && (exp_at i <? 256) = true).
  { apply (check1 (fun i => (log_at (exp_at i) =? i) && negb (exp_at i =? 0) && (exp_at i <? 256)) 255);
      [vm_compute; reflexivity | exact Hi]. }
  apply andb_prop in H as [H H3]. apply andb_prop in H as [H1 H2].
  apply N.eqb_eq in H1. apply N.ltb_lt in H3. apply negb_true_iff, N.eqb_neq in H2. now split.
Qed.

Lemma mod255_lt i : i mod 255 < 255.
Proof. now apply N.mod_lt. Qed.

Lemma gfMul_nonzero a b : a <> 0 -> b <> 0 -> gfMul a b = exp_at ((log_at a + log_at b) mod 255).
Proof.
  intros Ha Hb. unfold gfMul. apply N.eqb_neq in Ha, Hb. now rewrite Ha, Hb.
Qed.

Lemma gfMul_0_l b : gfMul 0 b = 0.
Proof. reflexivity. Qed.

Lemma gfMul_0_r a : gfMul a 0 = 0.
Proof. unfold gfMul. now rewrite orb_comm. Qed.

Lemma gfMul_byte a b : byte (gfMul a b).
Proof.
  unfold gfMul. destruct ((a =? 0) || (b =? 0)); [easy|]. apply log_exp, mod255_lt.
Qed.

Lemma gfMul_neq0 a b : a <> 0 -> b <> 0 -> gfMul a b <> 0.
Proof. intros Ha Hb. rewrite gfMul_nonzero by easy. apply log_exp, mod255_lt. Qed.

Lemma gfMul_comm a b : gfMul a b = gfMul b a.
Proof. unfold gfMul. rewrite orb_comm. now rewrite (N.add_comm (log_at a)). Qed.

Lemma log_gfMul a b : a <> 0 -> b <> 0 -> log_at (gfMul a b) = (log_at a + log_at b) mod 255.
Proof. intros Ha Hb. rewrite gfMul_nonzero by easy. apply log_exp, mod255_lt. Qed.

Lemma gfMul_assoc a b c : gfMul a (gfMul b c) = gfMul (gfMul a b) c.
Proof.
  destruct (N.eq_dec a 0) as [->|Ha]; [reflexivity|].
  destruct (N.eq_dec b 0) as [->|Hb]; [now rewrite gfMul_0_l, gfMul_0_r, gfMul_0_l|].
  destruct (N.eq_dec c 0) as [->|Hc]; [now rewrite !gfMul_0_r|].
  rewrite (gfMul_nonzero a (gfMul b c)), (gfMul_nonzero (gfMul a b) c) by (try apply gfMul_neq0; easy).
  rewrite !log_gfMul by easy.
  rewrite N.Div0.add_mod_idemp_l, N.Div0.add_mod_idemp_r, N.add_assoc. reflexivity.
Qed.

Lemma gfMul_1_l a : byte a -> gfMul 1 a = a.
Proof.
  intros Ha. destruct (N.eq_dec a 0) as [->|H0]; [reflexivity|].
  rewrite gfMul_nonzero by easy. destruct (exp_log a H0 Ha) as [He Hl].
  change (log_at 1) with 0. rewrite N.add_0_l, N.mod_small by easy. exact He.
Qed.

Lemma lxor_byte a b : byte a -> byte b -> byte (N.lxor a b).
Proof.
  intros Ha Hb. unfold byte.
  destruct (N.eq_dec (N.lxor a b) 0) as [->|H]; [easy|].
  apply N.log2_lt_pow2 with (b := 8); [lia|].
  eapply N.le_lt_trans; [apply N.log2_lxor|].
  assert (L : forall x, x < 256 -> N.log2 x < 8).
  { intros x Hx. destruct (N.eq_dec x 0) as [->|]; [easy|]. apply N.log2_lt_pow2; [lia|exact Hx]. }
  apply N.max_lub_lt; apply L; assumption.
Qed.

Lemma gfMul_3_lxor b c :
  byte b -> byte c -> gfMul 3 (N.lxor b c) = N.lxor (gfMul 3 b) (gfMul 3 c).
Proof.
  intros Hb Hc. apply N.eqb_eq.
  refine (check2 (fun b c => gfMul 3 (N.lxor b c) =? N.lxor (gfMul 3 b) (gfMul 3 c)) 256 _ b c Hb Hc).
  vm_compute. reflexivity.
Qed.

(** Multiplication by a power of the generator is repeated multiplication by it. *)
Lemma gfMul_exp_S i b : N.of_nat (S i) < 255 ->
  gfMul (exp_at (N.of_nat (S i))) b = gfMul 3 (gfMul (exp_at (N.of_nat i)) b).
Proof.
  intros Hi. rewrite gfMul_assoc. f_equal.
  destruct (log_exp (N.of_nat i) ltac:(lia)) as (H1 & H2 & _).
  rewrite gfMul_nonzero by easy. rewrite H1. change (log_at 3) with 1.
  rewrite N.mod_small by lia. f_equal. lia.
Qed.

Lemma gfMul_lxor_r a b c : byte a -> byte b -> byte c ->
  gfMul a (N.lxor b c) = N.lxor (gfMul a b) (gfMul a c).
Proof.
  intros Ha Hb Hc.
  assert (H : forall i, N.of_nat i < 255 ->
    gfMul (exp_at (N.of_nat i)) (N.lxor b c) =
    N.lxor (gfMul (exp_at (N.of_nat i)) b) (gfMul (exp_at (N.of_nat i)) c)).
  { induction i as [|i IH]; intros Hi.
    - change (exp_at (N.of_nat 0)) with 1. rewrite !gfMul_1_l; auto using lxor_byte.
    - rewrite !gfMul_exp_S by exact Hi. rewrite IH by lia.
      apply gfMul_3_lxor; apply gfMul_byte. }
  destruct (N.eq_dec a 0) as [->|H0]; [reflexivity|].
  destruct (exp_log a H0 Ha) as [E Hl].
  rewrite <- (N2Nat.id (log_at a)) in E, Hl. rewrite <- E. now apply H.
Qed.

Lemma gfDiv_spec a b : byte a -> byte b -> b <> 0 ->
  exists q, gfDiv a b = Some q /\ byte q /\ gfMul b q = a.
Proof.
  intros Ha Hb H0. unfold gfDiv. rewrite (proj2 (N.eqb_neq b 0) H0).
  destruct (N.eqb_spec a 0) as [->|Ha0]; [exists 0; rewrite gfMul_0_r; easy|].
  destruct (exp_log a Ha0 Ha) as [Ea La], (exp_log b H0 Hb) as [_ Lb].
  destruct (log_exp ((log_at a + 255 - log_at b) mod 255) (mod255_lt _)) as (H1 & H2 & H3).
  eexists; split; [reflexivity|]. split; [exact H3|].
  rewrite gfMul_nonzero, H1 by easy. rewrite N.Div0.add_mod_idemp_r.
  replace (log_at b + (log_at a + 255 - log_at b)) with (log_at a + 1 * 255) by lia.
  rewrite N.Div0.mod_add, N.mod_small by exact La. exact Ea.
Qed.

(** ** The reference multiplication

    Shift-and-add multiplication of polynomials over GF(2), reduced by the
    Rijndael polynomial [x^8 + x^4 + x^3 + x + 1] (0x11b) at each shift. *)

Definition double_mod (a : N) : N :=
  let a2 := N.shiftl a 1 in if N.testbit a2 8 then N.lxor a2 283 else a2.

Fixpoint shift_and_add (n : nat) (a b acc : N) : N :=
  match n with
  | O => acc
  | S n => shift_and_add n (double_mod a) (N.shiftr b 1) (if N.odd b then N.lxor acc a else acc)
  end.

Definition rijndael_mul (a b : N) : N := shift_and_add 8 a b 0.

(** The table-driven multiplication of quorum.ts is, for all bytes, the
    multiplication of polynomials over GF(2) modulo the Rijndael polynomial 0x11b that the file's
    comment names, and dividing by any non-zero byte is its exact inverse: [gfDiv a b] never
    throws, and multiplying the quotient by [b] gives [a] back. *)
Theorem gf_tables_exact a b :
  a < 256 -> b < 256 ->
  gfMul a b = rijndael_mul a b /\
  (b <> 0 -> exists q, gfDiv a b = Some q /\ q < 256 /\ rijndael_mul b q = a).
Proof.
  intros Ha Hb.
  assert (H : forall a b, a < 256 -> b < 256 -> gfMul a b = rijndael_mul a b).
  { clear a b Ha Hb. intros a b Ha Hb. apply N.eqb_eq.
    refine (check2 (fun a b => gfMul a b =? rijndael_mul a b) 256 _ a b Ha Hb).
    vm_compute. reflexivity. }
  split; [now apply H|]. intros H0.
  destruct (gfDiv_spec a b Ha Hb H0) as (q & Eq & Hq & Em).
  exists q. rewrite <- H by easy. auto.
Qed.

Theorem gf_tables_exact_witness :
  gfMul 87 131 = 193 /\ rijndael_mul 87 131 = 193 /\
  exists q, gfDiv 193 131 = Some q /\ q < 256 /\ rijndael_mul 131 q = 193.
Proof.
  split; [reflexivity|]. split; [reflexivity|].
  destruct (gf_tables_exact 193 131) as [_ H]; [reflexivity|reflexivity|].
  apply H. discriminate.
Defined.
