(* ===== verification/QuorumField.v ===== *)
(** * The field of the quorum shares, and interpolation at zero

    Bytes with [gfMul] and exclusive or form a field of characteristic two; its
    MathComp structure gives polynomials and their roots.  The two facts the
    quorum scheme rests on are stated back on bytes: [combine_byte] on enough
    points of one polynomial finds its constant coefficient, and one point less
    can be completed to a polynomial with any constant coefficient, in one way. *)

From HB Require Import structures.
From Stdlib Require Import NArith.
From mathcomp Require Import boot ssralg poly.
From S2P Require Import Quorum.

Set Implicit Arguments.
Unset Strict Implicit.
Unset Printing Implicit Defensive.

Import GRing.Theory.
Local Open Scope ring_scope.

Record gf : Type := Gf { gv : N; gv_byte : N.ltb gv 256 }.

HB.instance Definition _ := [isSub for gv].
HB.instance Definition _ := [Equality of gf by <:].

Lemma byteP (x : gf) : byte (gv x).
Proof. by apply/N.ltb_lt; exact: gv_byte. Qed.

Lemma mk_proof (a : N) : byte a -> N.ltb a 256.
Proof. by move=> H; apply/N.ltb_lt. Qed.

Definition mk (a : N) (H : byte a) : gf := Gf (mk_proof H).

Definition g0 : gf := @Gf 0%num erefl.
Definition g1 : gf := @Gf 1%num erefl.
Definition gadd (x y : gf) : gf := mk (lxor_byte _ _ (byteP x) (byteP y)).
Definition gmul (x y : gf) : gf := mk (gfMul_byte (gv x) (gv y)).

Definition gf_code (x : gf) : nat := N.to_nat (gv x).
Definition gf_decode (n : nat) : gf := insubd g0 (N.of_nat n).
Lemma gf_codeK : cancel gf_code gf_decode.
Proof. by move=> x; apply: val_inj; rewrite /gf_decode /gf_code N2Nat.id val_insubd gv_byte. Qed.

HB.instance Definition _ := Choice.copy gf (can_type gf_codeK).

Fact gaddA : associative gadd.
Proof. by move=> x y z; apply: val_inj; symmetry; exact: N.lxor_assoc. Qed.
Fact gaddC : commutative gadd.
Proof. by move=> x y; apply: val_inj; exact: N.lxor_comm. Qed.
Fact gadd0 : left_id g0 gadd.
Proof. by move=> x; apply: val_inj; exact: N.lxor_0_l. Qed.
Fact gaddN : left_inverse g0 id gadd.
Proof. by move=> x; apply: val_inj; exact: N.lxor_nilpotent. Qed.

HB.instance Definition _ := GRing.isZmodule.Build gf gaddA gaddC gadd0 gaddN.

Fact gmulA : associative gmul.
Proof. by move=> x y z; apply: val_inj; exact: gfMul_assoc. Qed.
Fact gmulC : commutative gmul.
Proof. by move=> x y; apply: val_inj; exact: gfMul_comm. Qed.
Fact gmul1 : left_id g1 gmul.
Proof. by move=> x; apply: val_inj; apply: gfMul_1_l; exact: byteP. Qed.
Fact gmulD : left_distributive gmul +%R.
Proof.
move=> x y z; apply: val_inj => /=.
rewrite gfMul_comm gfMul_lxor_r; try exact: byteP.
by rewrite !(gfMul_comm (gv z)).
Qed.
Fact g1_neq0 : g1 != 0 :> gf.
Proof. by []. Qed.

HB.instance Definition _ :=
  GRing.Zmodule_isComNzRing.Build gf gmulA gmulC gmul1 gmulD g1_neq0.

Definition ginv (x : gf) : gf :=
  if gfDiv 1 (gv x) is Some q then insubd g0 q else g0.

Lemma gv0 (x : gf) : (x == 0) = (gv x == 0%num).
Proof. by []. Qed.

Lemma ginv_spec (x : gf) : x != 0 -> gfMul (gv x) (gv (ginv x)) = 1%num.
Proof.
rewrite gv0 => /eqP H.
have H1 : byte 1%num by [].
have [q [E [Hq Eq]]] := gfDiv_spec _ _ H1 (byteP x) H.
by rewrite /ginv E val_insubd (mk_proof Hq).
Qed.

Fact gmulVx (x : gf) : x != 0 -> ginv x * x = 1.
Proof. by move=> H; rewrite mulrC; apply: val_inj; exact: ginv_spec. Qed.
Fact ginv0 : ginv 0 = 0.
Proof. by []. Qed.

HB.instance Definition _ := GRing.ComNzRing_isField.Build gf gmulVx ginv0.

Lemma gvD (x y : gf) : gv (x + y) = N.lxor (gv x) (gv y). Proof. by []. Qed.
Lemma gvM (x y : gf) : gv (x * y) = gfMul (gv x) (gv y). Proof. by []. Qed.
Lemma gf_opp (x : gf) : - x = x. Proof. by []. Qed.

Lemma gv_div (x y : gf) : y != 0 -> gfDiv (gv x) (gv y) = Some (gv (x / y)).
Proof.
move=> Hy; have /eqP H := Hy; rewrite -val_eqE in Hy.
have [q [E [Hq Eq]]] := gfDiv_spec _ _ (byteP x) (byteP y) (fun e => negP Hy (introT eqP e)).
rewrite E; congr Some.
have -> : x = y * mk Hq by apply: val_inj; rewrite /= Eq.
by rewrite mulrC mulKf //; apply/eqP.
Qed.

#[local] Arguments gv : simpl never.

(** ** Interpolation at zero *)

(** The basis polynomial of [x] among [xs]. *)
Definition basis (xs : seq gf) (x : gf) : {poly gf} :=
  \prod_(z <- xs | z != x) ((x - z)^-1 *: ('X - z%:P)).

Lemma basis_at (xs : seq gf) (x a : gf) :
  (basis xs x).[a] = \prod_(z <- xs | z != x) ((a - z) / (x - z)).
Proof.
rewrite /basis horner_prod; apply: eq_bigr => z _.
by rewrite hornerZ hornerXsubC mulrC.
Qed.

Lemma basis_self (xs : seq gf) (x : gf) : (basis xs x).[x] = 1.
Proof.
rewrite basis_at big1_seq // => z /andP [zx _].
by rewrite mulfV // subr_eq0 eq_sym.
Qed.

Lemma basis_other (xs : seq gf) (x y : gf) : y \in xs -> y != x -> (basis xs x).[y] = 0.
Proof.
move=> Hy yx; rewrite basis_at (big_rem y) //= yx subrr mul0r mul0r //.
Qed.

Lemma size_basis (xs : seq gf) (x : gf) : x \in xs -> (size (basis xs x) <= size xs)%N.
Proof.
move=> Hx; rewrite /basis scaler_prod.
apply: leq_trans (size_scale_leq _ _) _.
rewrite -big_filter (size_prod_XsubC _ id) size_filter -(count_predC (pred1 x) xs).
rewrite (@eq_count _ (predC (pred1 x)) (fun z => z != x)) // -addn1 addnC leq_add2r.
by rewrite -has_count; apply/hasP; exists x => /=.
Qed.

(** A polynomial with as many values known as it has coefficients is the sum of
    the basis polynomials, weighted by those values. *)
Lemma interpolation (xs : seq gf) (p : {poly gf}) :
  uniq xs -> (size p <= size xs)%N -> p = \sum_(x <- xs) p.[x] *: basis xs x.
Proof.
move=> Uxs Hp; apply/eqP; rewrite -subr_eq0; set q := p - _.
have Sq : (size q <= size xs)%N.
  apply: leq_trans (size_polyD _ _) _; rewrite geq_max Hp /= size_polyN.
  rewrite big_seq; apply: leq_trans (size_sum _ _ _) _; apply/bigmax_leqP_seq => x _ Hx.
  exact: leq_trans (size_scale_leq _ _) (size_basis Hx).
apply/eqP; apply: (roots_geq_poly_eq0 _ Uxs Sq); apply/allP => x Hx.
rewrite rootE /q hornerD hornerN horner_sum (bigD1_seq x) //= hornerZ basis_self mulr1.
rewrite big1_seq ?addr0 ?subrr // => y /andP [yx Hy].
by rewrite hornerZ basis_other ?mulr0 // eq_sym.
Qed.

(** The weight of one share: the value at zero of its basis polynomial. *)
Definition weight (xs : seq gf) (x : gf) : gf := \prod_(z <- xs | z != x) (z / (x + z)).

Lemma interpolation_at_zero (xs : seq gf) (p : {poly gf}) :
  uniq xs -> (size p <= size xs)%N -> p.[0] = \sum_(x <- xs) p.[x] * weight xs x.
Proof.
move=> Uxs Hp; rewrite {1}(interpolation Uxs Hp) horner_sum; apply: eq_bigr => x _.
by rewrite hornerZ basis_at; congr (_ * _); apply: eq_bigr.
Qed.

(** Prescribed values at distinct points, and at zero, are those of one
    polynomial with that many coefficients. *)
Lemma fit_exists (xs : seq gf) (f : gf -> gf) : uniq xs ->
  exists2 p : {poly gf}, (size p <= size xs)%N & forall x, x \in xs -> p.[x] = f x.
Proof.
move=> Uxs; exists (\sum_(x <- xs) f x *: basis xs x).
  rewrite big_seq; apply: leq_trans (size_sum _ _ _) _; apply/bigmax_leqP_seq => x _ Hx.
  exact: leq_trans (size_scale_leq _ _) (size_basis Hx).
move=> x Hx; rewrite horner_sum (bigD1_seq x) //= hornerZ basis_self mulr1.
rewrite big1_seq ?addr0 // => y /andP [yx Hy].
by rewrite hornerZ basis_other ?mulr0 // eq_sym.
Qed.

Lemma fit_unique (xs : seq gf) (p q : {poly gf}) : uniq xs ->
  (size p <= size xs)%N -> (size q <= size xs)%N ->
  (forall x, x \in xs -> p.[x] = q.[x]) -> p = q.
Proof.
move=> Uxs Hp Hq E; rewrite (interpolation Uxs Hp) [RHS](interpolation Uxs Hq).
by rewrite big_seq [RHS]big_seq; apply: eq_bigr => x Hx; rewrite E.
Qed.

(** ** The loops of quorum.ts in the field *)

Lemma evalPoly_fold (cs : seq gf) (x r w : gf) :
  List.fold_left (fun st c => (N.lxor st.1 (gfMul c st.2), gfMul st.2 (gv x)))
    (List.map gv cs) (gv r, gv w)
  = (gv (r + w * (Poly cs).[x]), gv (w * x ^+ size cs)).
Proof.
elim: cs r w => [|c cs IH] r w; first by rewrite /= horner0 mulr0 addr0 expr0 mulr1.
rewrite [LHS]/= -!gvM -gvD IH [Poly _]/= horner_cons exprS mulrA; congr (gv _, gv _).
by rewrite mulrDr -!addrA (mulrC c) [w * c + _]addrC -mulrA (mulrC x).
Qed.

Lemma evalPoly_horner (cs : seq gf) (x : gf) :
  evalPoly (List.map gv cs) (gv x) = gv (Poly cs).[x].
Proof.
have -> : evalPoly (List.map gv cs) (gv x) = (gv (0 + 1 * (Poly cs).[x])).
  by rewrite /evalPoly (evalPoly_fold cs x 0 1).
by rewrite add0r mul1r.
Qed.

Lemma basis_fold (i : nat) (x : gf) (xs : seq gf) (k : nat) (n d : gf) :
  List.fold_left (fun nd p => let '(j, xj) := p in
      if Nat.eqb i j then nd else (gfMul nd.1 xj, gfMul nd.2 (N.lxor (gv x) xj)))
    (List.combine (List.seq k (List.length xs)) (List.map gv xs)) (gv n, gv d)
  = (gv (n * \prod_(p <- zip (iota k (size xs)) xs | p.1 != i) p.2),
     gv (d * \prod_(p <- zip (iota k (size xs)) xs | p.1 != i) (x + p.2))).
Proof.
elim: xs k n d => [|z xs IH] k n d /=; first by rewrite !big_nil !mulr1.
have -> : Nat.eqb i k = (i == k) by apply/PeanoNat.Nat.eqb_spec/eqP.
rewrite !big_cons /= (eq_sym k i); case: (i == k) => /=; first by rewrite IH.
by rewrite -gvD -!gvM IH !mulrA.
Qed.

Lemma prod_others (xs : seq gf) (i : nat) (F : gf -> gf) :
  uniq xs -> (i < size xs)%N ->
  \prod_(p <- zip (iota 0 (size xs)) xs | p.1 != i) F p.2
  = \prod_(z <- xs | z != nth 0 xs i) F z.
Proof.
move=> Uxs Hi.
have Sz : size (zip (iota 0 (size xs)) xs) = size xs by rewrite size_zip size_iota minnn.
rewrite (big_nth (0%N, 0)) [RHS](big_nth 0) Sz.
have N1 j : (j < size xs)%N ->
  nth (0%N, 0) (zip (iota 0 (size xs)) xs) j = (j, nth 0 xs j).
  by move=> Hj; rewrite nth_zip ?size_iota // nth_iota.
rewrite big_nat_cond [RHS]big_nat_cond; apply: eq_big => j.
  by case Hj: (j < size xs)%N; rewrite ?andbF //= N1 //= nth_uniq.
by case/andP=> Hj _; rewrite N1.
Qed.

(** The denominators of the weights are not zero, so no division throws. *)
Lemma basis_parts_weight (xs : seq gf) (i : nat) : uniq xs -> (i < size xs)%N ->
  exists n d : gf,
    basis_parts i (gv (nth 0 xs i)) (List.map gv xs) = (gv n, gv d) /\
    d != 0 /\ n / d = weight xs (nth 0 xs i).
Proof.
move=> Uxs Hi; set x := nth 0 xs i.
exists (\prod_(z <- xs | z != x) z), (\prod_(z <- xs | z != x) (x + z)); split.
  rewrite /basis_parts List.length_map.
  have := basis_fold i x xs 0 1 1.
  by rewrite !mul1r (prod_others id Uxs Hi) (prod_others (fun z => x + z) Uxs Hi).
split; last by rewrite /weight prodf_div.
rewrite prodf_seq_neq0; apply/allP => z _; apply/implyP => zx.
by rewrite -(gf_opp z) subr_eq0 eq_sym.
Qed.

Lemma combine_byte_sum (xs : seq gf) (y : gf -> gf) : uniq xs ->
  forall (s : seq gf) (k : nat) (acc : gf), drop k xs = s ->
  combine_byte (List.map gv xs)
    (List.combine (List.seq k (List.length s)) (List.map (fun x => (gv x, gv (y x))) s)) (gv acc)
  = Some (gv (acc + \sum_(x <- s) y x * weight xs x)).
Proof.
move=> Uxs; elim=> [|x s IH] k acc E /=; first by rewrite big_nil addr0.
have Hk : (k < size xs)%N by rewrite ltnNge; apply/negP => /drop_oversize; rewrite E.
have [Ex Es] : nth 0 xs k = x /\ drop k.+1 xs = s.
  by move: E; rewrite (drop_nth 0 Hk) => - [-> ->].
have [n [d [Eb [Hd Hw]]]] := basis_parts_weight Uxs Hk.
by rewrite -Ex Eb gv_div // Hw -gvM -gvD (IH k.+1) // big_cons addrA Ex.
Qed.

Lemma combine_byte_finds (xs : seq gf) (cs : seq gf) : uniq xs -> (size cs <= size xs)%N ->
  combine_byte (List.map gv xs)
    (List.combine (List.seq 0 (List.length xs))
       (List.map (fun x => (gv x, evalPoly (List.map gv cs) (gv x))) xs)) 0
  = Some (gv (nth 0 cs 0)).
Proof.
move=> Uxs Hs.
have Ev x : (gv x, evalPoly (List.map gv cs) (gv x)) = (gv x, gv (Poly cs).[x]).
  by rewrite evalPoly_horner.
rewrite (List.map_ext _ _ Ev).
have /= -> := combine_byte_sum (fun x => (Poly cs).[x]) Uxs 0 (drop0 xs).
rewrite add0r -interpolation_at_zero // ?(leq_trans (size_Poly _)) //.
by rewrite horner_coef0 coef_Poly.
Qed.

(** ** The same facts on lists of bytes *)

Lemma lift_bytes (l : list N) : List.Forall byte l -> exists s : seq gf, l = List.map gv s.
Proof.
elim=> [|a l' Ha _ [s ->]]; first by exists [::].
by exists (mk Ha :: s).
Qed.

Lemma gv_inj : injective gv. Proof. exact: val_inj. Qed.

Lemma in_map_gv (s : seq gf) (x : gf) : List.In (gv x) (List.map gv s) <-> x \in s.
Proof.
elim: s => [|a s IH] //=; rewrite in_cons; split.
  by case=> [/gv_inj ->|/IH ->]; rewrite ?eqxx ?orbT.
by case/orP=> [/eqP ->|/IH]; [left|right].
Qed.

Lemma nodup_uniq (s : seq gf) : List.NoDup (List.map gv s) -> uniq s.
Proof.
elim: s => [|a s IH] //= /List.NoDup_cons_iff [Na /IH ->]; rewrite andbT.
by apply/negP => /in_map_gv.
Qed.

Lemma nth_gv (s : seq gf) (i : nat) : List.nth i (List.map gv s) N0 = gv (nth 0 s i).
Proof. by elim: s i => [|a s IH] [|i] //=; rewrite IH. Qed.

Lemma combine_byte_correct (xs cs : list N) :
  List.Forall byte xs -> List.Forall byte cs -> List.NoDup xs ->
  le (List.length cs) (List.length xs) ->
  combine_byte xs (List.combine (List.seq 0 (List.length xs))
    (List.map (fun x => (x, evalPoly cs x)) xs)) N0 = Some (List.nth 0 cs N0).
Proof.
move=> /lift_bytes [s ->] /lift_bytes [c ->] /nodup_uniq Us.
rewrite !List.length_map => /leP Hs.
by rewrite List.map_map nth_gv; exact: combine_byte_finds.
Qed.

Lemma Poly_inj (s1 s2 : seq gf) : size s1 = size s2 -> Poly s1 = Poly s2 -> s1 = s2.
Proof.
move=> Hs E; apply: (eq_from_nth (x0 := 0)) => // i _.
by rewrite -(coef_Poly s1) -(coef_Poly s2) E.
Qed.

Lemma completions (xs : list N) (f : N -> N) (b : N) :
  List.Forall byte xs -> List.NoDup xs -> ~ List.In N0 xs -> byte b -> (forall x, byte (f x)) ->
  exists r, (List.length r = List.length xs /\ List.Forall byte r /\
             forall x, List.In x xs -> evalPoly (b :: r) x = f x) /\
    forall r', List.length r' = List.length xs -> List.Forall byte r' ->
      (forall x, List.In x xs -> evalPoly (b :: r') x = f x) -> r' = r.
Proof.
move=> /lift_bytes [s ->] /nodup_uniq Us N0s Hb Hf.
pose g (x : gf) : gf := if x == 0 then mk Hb else mk (Hf (gv x)).
have U0 : uniq (0 :: s) by rewrite /= Us andbT; apply/negP => /in_map_gv.
have [p Sp Ep] := fit_exists g U0.
have fits (c : seq gf) : (forall x, List.In x (List.map gv s) -> evalPoly (b :: List.map gv c) x = f x) <->
  (forall x, x \in 0 :: s -> (Poly (mk Hb :: c)).[x] = g x).
  have Ev x : evalPoly (b :: List.map gv c) (gv x) = gv (Poly (mk Hb :: c)).[x] by rewrite -evalPoly_horner.
  split=> H x.
    rewrite in_cons /g; case: eqP => [-> _|/eqP x0 /= /in_map_gv /H].
      by rewrite horner_coef0 coef_Poly.
    by rewrite Ev => E; apply: gv_inj.
  move=> /List.in_map_iff [y [<- /(List.in_map gv) /in_map_gv Hy]]; rewrite Ev H ?in_cons ?Hy ?orbT // /g.
  case: eqP => // y0; case: N0s; rewrite -[N0]/(gv 0) -y0; exact/in_map_gv.
have Sc : size (mkseq (fun i => p`_i.+1) (size s)) = size s by rewrite size_mkseq.
have Pp : Poly (mk Hb :: mkseq (fun i => p`_i.+1) (size s)) = p.
  apply/polyP => i; rewrite coef_Poly; case: i => [|i] /=.
    by rewrite -horner_coef0 Ep ?mem_head // /g eqxx.
  case: (ltnP i (size s)) => Hi; first by rewrite nth_mkseq.
  by rewrite nth_default ?Sc // nth_default // (leq_trans Sp).
exists (List.map gv (mkseq (fun i => p`_i.+1) (size s))); split.
  split; first by rewrite !(List.length_map gv); exact: Sc.
  split; last by apply/fits; rewrite Pp.
  by apply/List.Forall_forall => x /List.in_map_iff [y [<- _]]; exact: byteP.
move=> r' + /lift_bytes [c Ec]; subst r'; rewrite !(List.length_map gv) => Lc /fits Hc.
congr List.map; suff [] : mk Hb :: c = mk Hb :: mkseq (fun i => p`_i.+1) (size s) by [].
apply: Poly_inj; first by rewrite /= Sc; congr S.
rewrite Pp; apply: (fit_unique U0) => // [|x Hx]; last by rewrite Hc // Ep.
by apply: leq_trans (size_Poly _) _; apply: eq_leq; congr S.
Qed.
