(* ===== verification/QuorumSharing.v ===== *)
(** * What a quorum of shares gives

    The guarantees of [split] and [combine] (quorum.ts): a quorum of the shares of
    a secret reconstructs it, and one share fewer says nothing about it.  Both
    rest on interpolation in the field of [QuorumField]. *)

From Stdlib Require Import PeanoNat NArith List Lia Bool.
From S2P Require Import Quorum QuorumField.
Import ListNotations.
Local Open Scope N_scope.

(** ** The shares of a split, in closed form *)

Fixpoint share_bytes (threshold : nat) (random : nat -> list N) (idx : nat) (secret : list N)
    (x : N) : list N :=
  match secret with
  | [] => []
  | b :: secret =>
      evalPoly (coeffs_for threshold b (random idx)) x
      :: share_bytes threshold random (S idx) secret x
  end.

Lemma set_at_app (pre rest : list N) (v a : N) :
  set_at (length pre) v (pre ++ a :: rest) = (pre ++ [v]) ++ rest.
Proof. induction pre as [|p pre IH]; simpl; [reflexivity|]. now rewrite IH. Qed.

Lemma split_loop_closed threshold random secret : forall idx pre (l : list nat),
  (forall i, length (pre i) = idx) ->
  split_loop threshold random idx secret
    (map (fun i => Share (N.of_nat i) (pre i ++ repeat 0 (length secret))) l)
  = map (fun i => Share (N.of_nat i) (pre i ++ share_bytes threshold random idx secret (N.of_nat i))) l.
Proof.
  induction secret as [|b secret IH]; intros idx pre l Hpre; [reflexivity|]. cbn [split_loop].
  unfold split_byte. rewrite map_map.
  set (v := fun i => evalPoly (coeffs_for threshold b (random idx)) (N.of_nat i)).
  rewrite (map_ext _ (fun i => Share (N.of_nat i) ((pre i ++ [v i]) ++ repeat 0 (length secret)))).
  - rewrite (IH (S idx) (fun i => pre i ++ [v i])).
    + apply map_ext. intros i. cbn [share_bytes]. now rewrite <- app_assoc.
    + intros i. rewrite length_app, Hpre. simpl. lia.
  - intros i. cbn [share_x share_y length repeat].
    now rewrite <- (set_at_app (pre i) _ _ 0), Hpre.
Qed.

Lemma split_closed secret threshold shares random out :
  split secret threshold shares random = Return out ->
  (2 <= threshold <= shares)%nat /\ (shares <= 255)%nat /\ secret <> [] /\
  out = map (fun i => Share (N.of_nat i) (share_bytes threshold random 0 secret (N.of_nat i)))
          (seq 1 shares).
Proof.
  unfold split.
  destruct (Nat.ltb_spec threshold 2); [discriminate|].
  destruct (Nat.ltb_spec shares threshold); [discriminate|].
  destruct (Nat.ltb_spec 255 shares); [discriminate|].
  destruct (Nat.eqb_spec (length secret) 0) as [|Hne]; [discriminate|].
  intros [= <-]. repeat split; try lia; [intros ->; now apply Hne|].
  unfold blank_shares. exact (split_loop_closed threshold random secret 0 (fun _ => []) _ (fun _ => eq_refl)).
Qed.

Lemma split_ok secret threshold shares random :
  (2 <= threshold <= shares)%nat -> (shares <= 255)%nat -> secret <> [] ->
  exists out, split secret threshold shares random = Return out.
Proof.
  intros [H1 H2] H3 H4. unfold split.
  destruct (Nat.ltb_spec threshold 2); [lia|].
  destruct (Nat.ltb_spec shares threshold); [lia|].
  destruct (Nat.ltb_spec 255 shares); [lia|].
  destruct (Nat.eqb_spec (length secret) 0) as [E|]; [|eauto].
  destruct secret; [contradiction|discriminate].
Qed.

Lemma share_bytes_length threshold random secret x : forall idx,
  length (share_bytes threshold random idx secret x) = length secret.
Proof. induction secret as [|b secret IH]; intros idx; simpl; [reflexivity|]. now rewrite IH. Qed.

Lemma share_bytes_nth threshold random secret x : forall idx j, (j < length secret)%nat ->
  nth j (share_bytes threshold random idx secret x) 0 =
  evalPoly (coeffs_for threshold (nth j secret 0) (random (idx + j)%nat)) x.
Proof.
  induction secret as [|b secret IH]; intros idx j Hj; simpl in Hj; [lia|].
  destruct j as [|j]; simpl; [now rewrite Nat.add_0_r|].
  rewrite IH by lia. do 3 f_equal. lia.
Qed.

(** The random bytes drawn for each byte of the secret. *)
Definition draws (threshold : nat) (random : nat -> list N) : Prop :=
  forall i, length (random i) = (threshold - 1)%nat /\ Forall byte (random i).

Lemma map_nth_shift (l : list N) : forall k, map (fun j => nth (j - k) l 0) (seq k (length l)) = l.
Proof.
  induction l as [|a l IH]; intros k; simpl; [reflexivity|].
  rewrite Nat.sub_diag. f_equal. rewrite <- (IH (S k)) at 2. apply map_ext_in.
  intros j Hj. apply in_seq in Hj. replace (j - k)%nat with (S (j - S k)) by lia. reflexivity.
Qed.

Lemma coeffs_for_draws threshold b random i :
  draws threshold random -> coeffs_for threshold b (random i) = b :: random i.
Proof.
  intros H. unfold coeffs_for. f_equal. destruct (H i) as [E _]. rewrite <- E. apply map_nth_shift.
Qed.

Lemma split_shares secret threshold shares random out sh :
  draws threshold random -> split secret threshold shares random = Return out -> In sh out ->
  share_x sh <> 0 /\ share_x sh <= 255 /\ length (share_y sh) = length secret /\
  forall j, (j < length secret)%nat ->
    nth j (share_y sh) 0 = evalPoly (nth j secret 0 :: random j) (share_x sh).
Proof.
  intros Hd Hs Hin. apply split_closed in Hs as ([H2 H3] & H4 & _ & ->).
  apply in_map_iff in Hin as (i & <- & Hi). apply in_seq in Hi. cbn [share_x share_y].
  split; [lia|]. split; [lia|]. split; [apply share_bytes_length|]. intros j Hj.
  rewrite share_bytes_nth by exact Hj. now rewrite (coeffs_for_draws _ _ _ _ Hd).
Qed.

(** ** Reconstruction *)

Lemma check_shapes_none len shares :
  (forall s, In s shares -> length (share_y s) = len /\ share_x s <> 0 /\ share_x s <= 255) ->
  check_shapes len shares = None.
Proof.
  induction shares as [|s shares IH]; intros H; simpl; [reflexivity|].
  destruct (H s (or_introl eq_refl)) as (-> & Hx & Hx').
  rewrite Nat.eqb_refl. apply N.eqb_neq in Hx. rewrite Hx. cbn [negb orb].
  destruct (N.ltb_spec 255 (share_x s)); [lia|]. apply IH. intros s' Hs'. apply H. now right.
Qed.

Lemma check_distinct_none shares : forall xs,
  NoDup (map share_x shares) -> (forall s, In s shares -> ~ In (share_x s) xs) ->
  check_distinct xs shares = None.
Proof.
  induction shares as [|s shares IH]; intros xs Hnd Hxs; simpl; [reflexivity|].
  inversion Hnd as [|x l Hn Hnd' [E1 E2]]; subst.
  destruct (existsb (N.eqb (share_x s)) xs) eqn:E.
  - apply existsb_exists in E as (x & Hx & Ex). apply N.eqb_eq in Ex. subst.
    exfalso. now apply (Hxs s (or_introl eq_refl)).
  - apply IH; [exact Hnd'|]. intros s' Hs' [E'|Hin].
    + apply Hn. rewrite E'. now apply in_map.
    + now apply (Hxs s' (or_intror Hs')).
Qed.

Lemma combine_loop_finds (bytes_at : nat -> N) shares n : forall idx,
  (forall j, (idx <= j < idx + n)%nat ->
    combine_byte (map share_x shares) (byte_points j shares) 0 = Some (bytes_at j)) ->
  combine_loop n idx shares = Some (map bytes_at (seq idx n)).
Proof.
  induction n as [|n IH]; intros idx H; [reflexivity|]. cbn [combine_loop].
  rewrite H by lia. rewrite (IH (S idx)); [reflexivity|]. intros j Hj. apply H. lia.
Qed.

Lemma byte_points_poly j shares cs :
  (forall s, In s shares -> nth j (share_y s) 0 = evalPoly cs (share_x s)) ->
  byte_points j shares =
  combine (seq 0 (length (map share_x shares)))
    (map (fun x => (x, evalPoly cs x)) (map share_x shares)).
Proof.
  intros H. unfold byte_points. rewrite length_map, map_map. f_equal.
  apply map_ext_in. intros s Hs. now rewrite H.
Qed.

Lemma nth_map_seq (l : list N) : map (fun j => nth j l 0) (seq 0 (length l)) = l.
Proof.
  rewrite <- (map_nth_shift l 0) at 2. apply map_ext. intros j. now rewrite Nat.sub_0_r.
Qed.

(** C2 (roundtrip): splitting a secret and combining any quorum of its shares gives the secret
    back: for every secret of bytes, threshold, number of shares and random bytes [split] accepts,
    [combine] of any selection of at least [threshold] distinct shares, in any order, returns
    exactly the bytes of the secret. *)
Theorem quorum_roundtrip secret threshold shares random out quorum :
  Forall byte secret -> draws threshold random ->
  split secret threshold shares random = Return out ->
  incl quorum out -> NoDup (map share_x quorum) -> (threshold <= length quorum)%nat ->
  combine_shares quorum = Return secret.
Proof.
  intros Hsec Hd Hs Hq Hnd Hlen.
  assert (Hsh : forall s, In s quorum -> _)
    by exact (fun s Hin => split_shares _ _ _ _ _ _ Hd Hs (Hq s Hin)).
  apply split_closed in Hs as ([H2 _] & _ & _ & _).
  assert (Hx : Forall byte (map share_x quorum)).
  { apply Forall_map, Forall_forall. intros s Hin. destruct (Hsh s Hin) as (_ & H & _).
    unfold byte. lia. }
  unfold combine_shares. destruct quorum as [|s0 [|s1 rest]]; cbn [length] in Hlen; try lia.
  set (q := s0 :: s1 :: rest) in *.
  assert (L0 : length (share_y s0) = length secret) by (apply Hsh; now left).
  rewrite L0, check_shapes_none, check_distinct_none; auto.
  - rewrite (combine_loop_finds (fun j => nth j secret 0)).
    + now rewrite nth_map_seq.
    + intros j Hj. rewrite (byte_points_poly j q (nth j secret 0 :: random j)).
      * rewrite combine_byte_correct; auto.
        -- constructor; [|apply Hd]. rewrite Forall_forall in Hsec. apply Hsec, nth_In. lia.
        -- rewrite length_map. cbn [length]. destruct (Hd j) as [-> _].
           change (length q) with (S (S (length rest))). lia.
      * intros s Hin. apply Hsh; [exact Hin|lia].
  - intros s Hin. destruct (Hsh s Hin) as (H0 & H1 & H3 & _). auto.
Qed.

Theorem quorum_roundtrip_witness :
  split [7; 200] 2 3 (fun _ => [99]) =
    Return [Share 1 [100; 171]; Share 2 [193; 14]; Share 3 [162; 109]] /\
  combine_shares [Share 3 [162; 109]; Share 1 [100; 171]] = Return [7; 200].
Proof.
  split; [vm_compute; reflexivity|].
  apply (quorum_roundtrip [7; 200] 2 3 (fun _ => [99])
    [Share 1 [100; 171]; Share 2 [193; 14]; Share 3 [162; 109]]).
  - repeat constructor.
  - intros i. split; [reflexivity|]. repeat constructor.
  - vm_compute; reflexivity.
  - intros s [<-|[<-|[]]]; simpl; auto.
  - repeat constructor; simpl; intuition discriminate.
  - simpl. lia.
Defined.

(** ** Secrecy *)

Lemma evalPoly_byte cs x : byte (evalPoly cs x).
Proof.
  unfold evalPoly.
  assert (H : forall st, byte (fst st) ->
    byte (fst (fold_left (fun st c => (N.lxor (fst st) (gfMul c (snd st)), gfMul (snd st) x)) cs st))).
  { induction cs as [|c cs IH]; intros st Hst; [exact Hst|]. simpl. apply IH. simpl.
    apply lxor_byte; [exact Hst|apply gfMul_byte]. }
  now apply H.
Qed.

Lemma choose_below {A} (P : nat -> A -> Prop) (d : nat -> A) n :
  (forall j, (j < n)%nat -> exists a, P j a) ->
  exists f, (forall j, (j < n)%nat -> P j (f j)) /\ forall j, (n <= j)%nat -> f j = d j.
Proof.
  induction n as [|n IH]; intros H.
  - exists d. split; [lia|reflexivity].
  - destruct IH as (f & Hf & Hd); [intros j Hj; apply H; lia|]. destruct (H n ltac:(lia)) as [a Ha].
    exists (fun j => if (j =? n)%nat then a else f j). split; intros j Hj.
    + destruct (Nat.eqb_spec j n) as [->|]; [exact Ha|]. apply Hf. lia.
    + destruct (Nat.eqb_spec j n) as [->|]; [lia|]. apply Hd. lia.
Qed.

(** A share is in a split exactly when its coordinate is one of those dealt and
    its bytes are the values of the polynomials there. *)
Lemma in_split secret threshold shares random out sh :
  draws threshold random -> split secret threshold shares random = Return out ->
  (In sh out <->
   1 <= share_x sh <= N.of_nat shares /\ length (share_y sh) = length secret /\
   forall j, (j < length secret)%nat ->
     nth j (share_y sh) 0 = evalPoly (nth j secret 0 :: random j) (share_x sh)).
Proof.
  intros Hd Hs. split.
  - intros Hin. destruct (split_shares _ _ _ _ _ _ Hd Hs Hin) as (H0 & H1 & H2 & H3).
    split; [|auto]. apply split_closed in Hs as (_ & _ & _ & ->).
    apply in_map_iff in Hin as (i & <- & Hi). apply in_seq in Hi. cbn [share_x]. lia.
  - intros (Hx & Hlen & Hy). apply split_closed in Hs as (_ & _ & _ & ->).
    apply in_map_iff. exists (N.to_nat (share_x sh)). split; [|apply in_seq; lia].
    rewrite N2Nat.id. destruct sh as [x y]. cbn [share_x share_y] in *. f_equal.
    apply nth_ext with (d := 0) (d' := 0); rewrite share_bytes_length; [easy|]. intros j Hj.
    rewrite share_bytes_nth, (coeffs_for_draws _ _ _ _ Hd) by exact Hj. now rewrite Hy.
Qed.

(** What [group] sees of a split: all its shares are among those dealt. *)
Definition dealt (secret : list N) (threshold shares : nat) (random : nat -> list N)
    (group : list QuorumShare) : Prop :=
  exists out, split secret threshold shares random = Return out /\ incl group out.

(** C34 (safety): one share short of the threshold, a group learns nothing about the secret: whatever
    shares [threshold - 1] members hold of a split, every other secret of the same length would
    have produced exactly the same shares for them under one, and only one, choice of the random
    bytes.  With uniformly drawn bytes every secret is therefore equally likely given the shares. *)
Theorem quorum_secrecy secret threshold shares random group secret' :
  draws threshold random -> dealt secret threshold shares random group ->
  NoDup (map share_x group) -> length group = (threshold - 1)%nat ->
  length secret' = length secret -> Forall byte secret' ->
  exists random', draws threshold random' /\
    dealt secret' threshold shares random' group /\
    forall random'', draws threshold random'' -> dealt secret' threshold shares random'' group ->
      forall j, (j < length secret)%nat -> random'' j = random' j.
Proof.
  intros Hd (out & Hs & Hg) Hnd Hlen Hl Hsec'. set (xs := map share_x group).
  assert (Hsh : forall s, In s group -> _)
    by exact (fun s Hin => proj1 (in_split _ _ _ _ _ s Hd Hs) (Hg s Hin)).
  pose proof (split_closed _ _ _ _ _ Hs) as (H2 & H3 & H4 & _).
  assert (Hx : forall x, In x xs -> 1 <= x <= N.of_nat shares).
  { intros x Hin. apply in_map_iff in Hin as (s & <- & Hin). apply (Hsh s Hin). }
  destruct (choose_below (fun j r =>
      (length r = length xs /\ Forall byte r /\
       forall x, In x xs -> evalPoly (nth j secret' 0 :: r) x = evalPoly (nth j secret 0 :: random j) x) /\
      forall r', length r' = length xs -> Forall byte r' ->
        (forall x, In x xs -> evalPoly (nth j secret' 0 :: r') x = evalPoly (nth j secret 0 :: random j) x) ->
        r' = r) random (length secret)) as (random' & Hr & Hrest).
  { intros j Hj. apply completions; auto using evalPoly_byte.
    - apply Forall_forall. intros x Hin. unfold byte. specialize (Hx x Hin). lia.
    - intros Hin. specialize (Hx 0 Hin). lia.
    - rewrite Forall_forall in Hsec'. apply Hsec', nth_In. lia. }
  assert (Lxs : length xs = (threshold - 1)%nat) by (unfold xs; now rewrite length_map).
  assert (Hd' : draws threshold random').
  { intros j. destruct (Nat.lt_ge_cases j (length secret)) as [Hj|Hj].
    - destruct (Hr j Hj) as [(? & ? & _) _]. split; congruence.
    - rewrite (Hrest j Hj). apply Hd. }
  destruct (split_ok secret' threshold shares random' H2 H3) as [out' Hs'].
  { intros ->. apply H4. now apply length_zero_iff_nil. }
  exists random'. split; [exact Hd'|]. split.
  - exists out'. split; [exact Hs'|]. intros s Hin. apply (in_split _ _ _ _ _ s Hd' Hs').
    destruct (Hsh s Hin) as (? & Hy & Hv). rewrite Hl. split; [assumption|]. split; [exact Hy|].
    intros j Hj. rewrite Hv by exact Hj. symmetry. apply (Hr j Hj). now apply in_map.
  - intros random'' Hd'' (out'' & Hs'' & Hg'') j Hj. destruct (Hd'' j) as [Lj Bj].
    apply (Hr j Hj); [congruence|exact Bj|]. intros x Hin.
    apply in_map_iff in Hin as (s & <- & Hin).
    destruct (proj1 (in_split _ _ _ _ _ s Hd'' Hs'') (Hg'' s Hin)) as (_ & _ & Hv'').
    destruct (Hsh s Hin) as (_ & _ & Hv). rewrite <- Hv, <- Hv'' by lia. reflexivity.
Qed.

Theorem quorum_secrecy_witness :
  dealt [7; 200] 2 3 (fun _ => [99]) [Share 2 [193; 14]] /\
  exists random', draws 2 random' /\ dealt [80; 1] 2 3 random' [Share 2 [193; 14]] /\
    forall random'', draws 2 random'' -> dealt [80; 1] 2 3 random'' [Share 2 [193; 14]] ->
      forall j, (j < 2)%nat -> random'' j = random' j.
Proof.
  assert (D : dealt [7; 200] 2 3 (fun _ => [99]) [Share 2 [193; 14]]).
  { eexists. split; [vm_compute; reflexivity|]. intros s [<-|[]]. simpl. auto. }
  split; [exact D|].
  apply (quorum_secrecy [7; 200] 2 3 (fun _ => [99]) [Share 2 [193; 14]] [80; 1]).
  - intros i. split; [reflexivity|]. repeat constructor.
  - exact D.
  - repeat constructor. simpl. tauto.
  - reflexivity.
  - reflexivity.
  - repeat constructor.
Defined.
