(* ===== verification/KeyTransparencyProofs.v ===== *)
(** * What the key-transparency log proves to its readers

    The log's inclusion proofs verify, and a verified proof pins the entry unless
    two of the strings hashed along the path collide; the entry coding is
    injective; the verifier's inner loop ends for trees a 32-bit shift can
    index, and not beyond; the log only grows; only the owner of an account
    publishes under its name. *)

From S2P Require Import Prelude JsMap Async CoalitionDomain Records Store KeyTransparency.
Open Scope string_scope.

(** ** Splitting a list of leaves *)

Lemma double_while_spec fuel n j :
  (2 ^ j < n)%nat -> (n <= 2 ^ j + fuel)%nat ->
  exists i, (j <= i)%nat /\ double_while fuel n (2 ^ j) = (2 ^ i)%nat /\
    (2 ^ i < n <= 2 ^ (S i))%nat.
Proof.
  revert j. induction fuel as [|fuel IH]; intros j Hlt Hle; [lia|]. simpl double_while.
  rewrite Nat.mul_comm, <- Nat.pow_succ_r'.
  destruct (Nat.ltb_spec (2 ^ S j) n) as [H|H].
  - destruct (IH (S j)) as (i & Hi & E & B); [exact H| |].
    + rewrite Nat.pow_succ_r' in *. assert (2 ^ j <> 0)%nat by (apply Nat.pow_nonzero; lia). lia.
    + exists i. split; [lia|auto].
  - exists j. auto.
Qed.

Lemma largestPowerOfTwoLessThan_spec n : (2 <= n)%nat ->
  exists i, largestPowerOfTwoLessThan n = (2 ^ i)%nat /\ (2 ^ i < n <= 2 ^ (S i))%nat.
Proof.
  intros Hn. destruct (double_while_spec n n 0) as (i & _ & E & B); simpl; [lia..|].
  exists i. auto.
Qed.

(** The facts about a split at [k] every recursion needs. *)
Lemma split_lengths (leaves : list string) : (2 <= length leaves)%nat ->
  exists i, largestPowerOfTwoLessThan (length leaves) = (2 ^ i)%nat /\
    (1 <= 2 ^ i)%nat /\ (2 ^ i < length leaves <= 2 ^ (S i))%nat /\
    length (firstn (2 ^ i) leaves) = (2 ^ i)%nat /\
    length (skipn (2 ^ i) leaves) = (length leaves - 2 ^ i)%nat /\
    (1 <= length leaves - 2 ^ i <= 2 ^ i)%nat.
Proof.
  intros Hn. destruct (largestPowerOfTwoLessThan_spec _ Hn) as (i & E & B). exists i.
  assert (2 ^ i <> 0)%nat by (apply Nat.pow_nonzero; lia). rewrite Nat.pow_succ_r' in *.
  rewrite length_take, length_drop. repeat split; lia.
Qed.

Section tree_equations.
Context `{NodeBuffers}.

Lemma mth_fuel_S f leaves : (2 <= length leaves)%nat ->
  let k := largestPowerOfTwoLessThan (length leaves) in
  mth_fuel (S f) leaves = nodeHash (mth_fuel f (firstn k leaves)) (mth_fuel f (skipn k leaves)).
Proof. destruct leaves as [|d [|d' l]]; simpl length; intros; [lia..|reflexivity]. Qed.

Lemma auditPath_fuel_S f m leaves : (2 <= length leaves)%nat ->
  let k := largestPowerOfTwoLessThan (length leaves) in
  auditPath_fuel (S f) m leaves =
  (if (m <? k)%nat then auditPath_fuel f m (firstn k leaves) ++ [mth (skipn k leaves)]
   else auditPath_fuel f (m - k) (skipn k leaves) ++ [mth (firstn k leaves)])%list.
Proof. destruct leaves as [|d [|d' l]]; simpl length; intros; [lia..|reflexivity]. Qed.

Lemma mth_fuel_enough f1 : forall f2 leaves,
  (length leaves <= f1)%nat -> (length leaves <= f2)%nat -> mth_fuel f1 leaves = mth_fuel f2 leaves.
Proof.
  induction f1 as [|f1 IH]; intros f2 leaves H1 H2.
  - destruct leaves; [|simpl in *; lia]. now destruct f2.
  - destruct (Nat.lt_ge_cases (length leaves) 2) as [Hs|Hn].
    + destruct leaves as [|d [|d' l]]; [now destruct f2..|simpl in Hs; lia].
    + destruct f2 as [|f2]; [lia|]. rewrite !mth_fuel_S by exact Hn. cbv zeta.
      destruct (split_lengths leaves Hn) as (i & E & P & B & L1 & L2 & B2).
      rewrite E. f_equal; apply IH; lia.
Qed.

Lemma auditPath_fuel_enough f1 : forall f2 m leaves,
  (length leaves <= f1)%nat -> (length leaves <= f2)%nat ->
  auditPath_fuel f1 m leaves = auditPath_fuel f2 m leaves.
Proof.
  induction f1 as [|f1 IH]; intros f2 m leaves H1 H2.
  - destruct leaves; [|simpl in *; lia]. now destruct f2.
  - destruct (Nat.lt_ge_cases (length leaves) 2) as [Hs|Hn].
    + destruct leaves as [|d [|d' l]]; [now destruct f2..|simpl in Hs; lia].
    + destruct f2 as [|f2]; [lia|]. rewrite !auditPath_fuel_S by exact Hn. cbv zeta.
      destruct (split_lengths leaves Hn) as (i & E & P & B & L1 & L2 & B2).
      rewrite E. destruct (m <? 2 ^ i)%nat; (f_equal; apply IH; lia).
Qed.

Lemma mth_split leaves i : (2 <= length leaves)%nat ->
  largestPowerOfTwoLessThan (length leaves) = (2 ^ i)%nat ->
  mth leaves = nodeHash (mth (firstn (2 ^ i) leaves)) (mth (skipn (2 ^ i) leaves)).
Proof.
  intros Hn Ei. unfold mth at 1. destruct (length leaves) as [|n] eqn:L; [lia|].
  rewrite mth_fuel_S by lia. cbv zeta. rewrite L, Ei.
  destruct (split_lengths leaves ltac:(lia)) as (i' & E & P & B & L1 & L2 & B2).
  assert (2 ^ i' = 2 ^ i)%nat as Epow by congruence. rewrite Epow in *.
  f_equal; apply mth_fuel_enough; lia.
Qed.

Lemma auditPath_split m leaves i : (2 <= length leaves)%nat ->
  largestPowerOfTwoLessThan (length leaves) = (2 ^ i)%nat ->
  auditPath m leaves =
  (if (m <? 2 ^ i)%nat
   then auditPath m (firstn (2 ^ i) leaves) ++ [mth (skipn (2 ^ i) leaves)]
   else auditPath (m - 2 ^ i) (skipn (2 ^ i) leaves) ++ [mth (firstn (2 ^ i) leaves)])%list.
Proof.
  intros Hn Ei. unfold auditPath at 1. destruct (length leaves) as [|n] eqn:L; [lia|].
  rewrite auditPath_fuel_S by lia. cbv zeta. rewrite L, Ei.
  destruct (split_lengths leaves ltac:(lia)) as (i' & E & P & B & L1 & L2 & B2).
  assert (2 ^ i' = 2 ^ i)%nat as Epow by congruence. rewrite Epow in *.
  destruct (m <? 2 ^ i)%nat; (f_equal; apply auditPath_fuel_enough; lia).
Qed.
End tree_equations.

(** ** The verifier's counters *)

Lemma to_int32_small z : (0 <= z < 2 ^ 31)%Z -> to_int32 z = z.
Proof.
  intros Hz. unfold to_int32. rewrite Z.mod_small; [lia|].
  change (2 ^ 32)%Z with (2 ^ 31 + 2 ^ 31)%Z. lia.
Qed.

Lemma shr1_small z : (0 <= z < 2 ^ 31)%Z -> shr1 z = (z / 2)%Z.
Proof. intros Hz. unfold shr1. rewrite to_int32_small by exact Hz. now rewrite Z.shiftr_div_pow2. Qed.

Lemma rem2 z : (0 <= z)%Z -> Z.rem z 2 = (z mod 2)%Z.
Proof. intros Hz. apply Z.rem_mod_nonneg; lia. Qed.

Lemma of_nat_pow2 i : Z.of_nat (2 ^ i) = (2 ^ Z.of_nat i)%Z.
Proof. rewrite Nat2Z.inj_pow. reflexivity. Qed.

Lemma half_small z : (0 <= z < 2 ^ 31)%Z -> (0 <= z / 2 < 2 ^ 31)%Z.
Proof. intros Hz. pose proof (Z.div_mod z 2 ltac:(lia)). pose proof (Z.mod_pos_bound z 2 ltac:(lia)). lia. Qed.

Lemma strip_zeros_edge fuel q d : (d < fuel)%nat ->
  (0 <= q)%Z -> (q mod 2 = 1)%Z -> (q * 2 ^ Z.of_nat d < 2 ^ 31)%Z ->
  strip_zeros fuel (q * 2 ^ Z.of_nat d) (q * 2 ^ Z.of_nat d) = Some (q, q).
Proof.
  revert fuel. induction d as [|d IH]; intros fuel Hd Hq Hodd Hb; destruct fuel as [|fuel]; try lia;
    simpl strip_zeros.
  - rewrite Z.mul_1_r, rem2, Hodd by exact Hq. reflexivity.
  - rewrite Nat2Z.inj_succ, Z.pow_succ_r in * by lia.
    assert (0 <= 2 ^ Z.of_nat d)%Z by (apply Z.pow_nonneg; lia).
    replace (q * (2 * 2 ^ Z.of_nat d))%Z with (q * 2 ^ Z.of_nat d * 2)%Z in * by ring.
    rewrite rem2, Z_mod_mult by nia. simpl.
    rewrite shr1_small, Z.div_mul by nia. apply IH; nia || lia.
Qed.

Lemma pow_bound d : (2 ^ Z.of_nat d < 2 ^ 31)%Z -> (d < 31)%nat.
Proof.
  intros Hp. destruct (Nat.lt_ge_cases d 31) as [|Hge]; [assumption|].
  assert (2 ^ 31 <= 2 ^ Z.of_nat d)%Z by (apply Z.pow_le_mono_r; lia). lia.
Qed.

Section walk.
Context `{NodeBuffers} (fuel : nat) (enough : (31 <= fuel)%nat).

(** Walking [path] takes one state of the loop to another, whatever follows. *)
Definition walks (path : list string) (h : string) (fn sn : Z) (h' : string) (fn' sn' : Z) : Prop :=
  forall rest, verify_walk fuel h fn sn (path ++ rest) = verify_walk fuel h' fn' sn' rest.

Lemma walks_nil h fn sn : walks [] h fn sn h fn sn.
Proof. intros rest. reflexivity. Qed.

Lemma walks_app p1 p2 h fn sn h1 fn1 sn1 h2 fn2 sn2 :
  walks p1 h fn sn h1 fn1 sn1 -> walks p2 h1 fn1 sn1 h2 fn2 sn2 ->
  walks (p1 ++ p2) h fn sn h2 fn2 sn2.
Proof. intros W1 W2 rest. rewrite <- app_assoc, (W1 (p2 ++ rest)%list). apply W2. Qed.

Lemma walks_left sib h fn sn :
  (0 <= fn < sn)%Z -> (sn < 2 ^ 31)%Z -> (fn mod 2 = 0)%Z ->
  walks [sib] h fn sn (nodeHash h sib) (fn / 2) (sn / 2).
Proof.
  intros Hf Hs He rest. simpl. destruct (Z.eqb_spec sn 0); [lia|].
  rewrite rem2, He by lia. simpl. destruct (Z.eqb_spec fn sn); [lia|].
  rewrite !shr1_small by lia. reflexivity.
Qed.

Lemma walks_right sib h fn sn :
  (0 <= fn <= sn)%Z -> (sn < 2 ^ 31)%Z -> (fn mod 2 = 1)%Z ->
  walks [sib] h fn sn (nodeHash sib h) (fn / 2) (sn / 2).
Proof.
  intros Hf Hs Ho rest. simpl.
  assert (sn <> 0)%Z by (intros ->; assert (fn = 0)%Z as -> by lia; discriminate Ho).
  destruct (Z.eqb_spec sn 0); [lia|]. rewrite rem2, Ho by lia. simpl.
  rewrite !shr1_small by lia. reflexivity.
Qed.

Lemma walks_edge sib h q d :
  (0 <= q)%Z -> (q mod 2 = 1)%Z -> (q * 2 ^ Z.of_nat d < 2 ^ 31)%Z ->
  walks [sib] h (q * 2 ^ Z.of_nat d) (q * 2 ^ Z.of_nat d) (nodeHash sib h) (q / 2) (q / 2).
Proof.
  intros Hq Hodd Hb.
  assert (1 <= q)%Z by (assert (q <> 0)%Z by (intros ->; discriminate Hodd); lia).
  assert (1 <= 2 ^ Z.of_nat d)%Z by (apply (Z.pow_le_mono_r 2 0); lia).
  destruct d as [|d].
  - rewrite Z.mul_1_r in *. apply walks_right; lia || exact Hodd.
  - intros rest. simpl verify_walk.
    set (x := (q * 2 ^ Z.of_nat (S d))%Z) in *.
    assert (Hx : (x mod 2 = 0)%Z).
    { unfold x. rewrite Nat2Z.inj_succ, Z.pow_succ_r by lia.
      replace (q * (2 * 2 ^ Z.of_nat d))%Z with (q * 2 ^ Z.of_nat d * 2)%Z by ring.
      apply Z_mod_mult. }
    assert (Hpos : (1 <= x)%Z) by (unfold x; nia).
    destruct (Z.eqb_spec x 0); [lia|].
    rewrite Z.eqb_refl, orb_true_r, rem2, Hx by lia. cbv iota.
    change (0 =? 0)%Z with true. cbv iota.
    unfold x. rewrite strip_zeros_edge; try assumption.
    + rewrite shr1_small; [reflexivity|]. unfold x in Hb. nia.
    + assert (S d < 31)%nat by (apply pow_bound; unfold x in Hb; nia). lia.
Qed.

(** In a complete subtree of [2^i] leaves the counters differ all the way up: the
    walk shifts them [i] times. *)
Lemma walks_complete i : forall leaves m q sn,
  length leaves = (2 ^ i)%nat -> (m < 2 ^ i)%nat ->
  (0 <= q < sn / 2 ^ Z.of_nat i)%Z -> (0 <= sn < 2 ^ 31)%Z ->
  walks (auditPath m leaves) (leafHash (nth m leaves ""))
    (Z.of_nat m + 2 ^ Z.of_nat i * q) sn (mth leaves) q (sn / 2 ^ Z.of_nat i).
Proof.
  induction i as [|i IH]; intros leaves m q sn Hlen Hm Hq Hsn.
  - destruct leaves as [|d [|d' l]]; simpl in Hlen; try lia.
    assert (m = 0%nat) as -> by (simpl in Hm; lia).
    change (2 ^ Z.of_nat 0)%Z with 1%Z. rewrite Z.div_1_r, Z.mul_1_l. apply walks_nil.
  - assert (Hn : (2 <= length leaves)%nat).
    { rewrite Hlen, Nat.pow_succ_r'. assert (2 ^ i <> 0)%nat by (apply Nat.pow_nonzero; lia). lia. }
    destruct (split_lengths leaves Hn) as (i' & E & P & B & L1 & L2 & B2).
    assert (i' = i) as ->.
    { rewrite Hlen in B. destruct B as [B1 B3].
      apply Nat.pow_lt_mono_r_iff in B1; [|lia]. apply Nat.pow_le_mono_r_iff in B3; lia. }
    rewrite (auditPath_split m leaves i Hn E), (mth_split leaves i Hn E).
    pose proof (Z.pow_pos_nonneg 2 (Z.of_nat i) ltac:(lia) ltac:(lia)) as Pz.
    rewrite Nat2Z.inj_succ, Z.pow_succ_r, (Z.mul_comm 2) in * by lia.
    rewrite <- Z.div_div in * by lia.
    set (w := (sn / 2 ^ Z.of_nat i)%Z) in *.
    pose proof (Z.div_mod w 2 ltac:(lia)) as Dw. pose proof (Z.mod_pos_bound w 2 ltac:(lia)) as Mw.
    assert (Hw : (w <= sn)%Z) by (apply Z.div_le_upper_bound; nia).
    rewrite Nat.pow_succ_r' in *.
    destruct (Nat.ltb_spec m (2 ^ i)) as [Hlt|Hge].
    + eapply walks_app.
      * replace (Z.of_nat m + 2 ^ Z.of_nat i * 2 * q)%Z
          with (Z.of_nat m + 2 ^ Z.of_nat i * (2 * q))%Z by ring.
        replace (nth m leaves "") with (nth m (firstn (2 ^ i) leaves) "") by (rewrite nth_firstn; destruct (Nat.ltb_spec m (2 ^ i)); [reflexivity|lia]).
        apply IH; [exact L1|lia| |exact Hsn]. fold w. lia.
      * fold w. replace q with (2 * q / 2)%Z at 2 by (rewrite Z.mul_comm; apply Z.div_mul; lia).
        apply walks_left; [lia|lia|]. rewrite Z.mul_comm. apply Z_mod_mult.
    + eapply walks_app.
      * replace (Z.of_nat m + 2 ^ Z.of_nat i * 2 * q)%Z
          with (Z.of_nat (m - 2 ^ i) + 2 ^ Z.of_nat i * (2 * q + 1))%Z
          by (rewrite Nat2Z.inj_sub, of_nat_pow2 by lia; ring).
        replace (nth m leaves "") with (nth (m - 2 ^ i) (skipn (2 ^ i) leaves) "")
          by (rewrite nth_skipn; f_equal; lia).
        apply IH; [lia|lia| |exact Hsn]. fold w. lia.
      * fold w. replace q with ((2 * q + 1) / 2)%Z at 2
          by (rewrite Z.add_comm, Z.mul_comm, Z.div_add by lia; reflexivity).
        apply walks_right; [lia|lia|].
        rewrite Z.add_comm, Z.mul_comm, Z_mod_plus_full. reflexivity.
Qed.

(** The two ways up from a split at [2^i], when the counters share the bits [q]
    above the [j]-th and [2^j] is [2^i * (2 * D)]: from the complete left part, *)
Lemma walks_from_left leaves i m q D :
  (2 <= length leaves)%nat -> largestPowerOfTwoLessThan (length leaves) = (2 ^ i)%nat ->
  (m < 2 ^ i)%nat -> (0 <= q)%Z -> (0 < D)%Z ->
  (Z.of_nat (length leaves) - 1 + 2 ^ Z.of_nat i * (2 * D) * q < 2 ^ 31)%Z ->
  walks (auditPath m leaves) (leafHash (nth m leaves ""))
    (Z.of_nat m + 2 ^ Z.of_nat i * (2 * D) * q)
    (Z.of_nat (length leaves) - 1 + 2 ^ Z.of_nat i * (2 * D) * q)
    (mth leaves) (D * q) (D * q).
Proof.
  intros Hn E Hm Hq HD Hb. destruct (split_lengths leaves Hn) as (i' & E' & P & B & L1 & L2 & B2).
  assert (Epow : (2 ^ i' = 2 ^ i)%nat) by congruence. rewrite Nat.pow_succ_r', Epow in *.
  rewrite (auditPath_split m leaves i Hn E), (mth_split leaves i Hn E).
  destruct (Nat.ltb_spec m (2 ^ i)); [|lia]. pose proof (of_nat_pow2 i) as Pi.
  assert (Hbit : ((Z.of_nat (length leaves) - 1) / 2 ^ Z.of_nat i = 1)%Z).
  { symmetry. apply (Z.div_unique _ _ 1 (Z.of_nat (length leaves) - 1 - 2 ^ Z.of_nat i)); lia. }
  eapply walks_app.
  - replace (2 ^ Z.of_nat i * (2 * D) * q)%Z with (2 ^ Z.of_nat i * (2 * D * q))%Z by ring.
    replace (nth m leaves "") with (nth m (firstn (2 ^ i) leaves) "")
      by (rewrite nth_firstn; destruct (Nat.ltb_spec m (2 ^ i)); [reflexivity|lia]).
    apply walks_complete; [exact L1|lia| |nia].
    rewrite (Z.mul_comm (2 ^ Z.of_nat i) (2 * D * q)), Z.div_add, Hbit by lia. nia.
  - rewrite (Z.mul_comm (2 ^ Z.of_nat i) (2 * D * q)), Z.div_add, Hbit by lia.
    assert (E1 : (2 * D * q / 2 = D * q)%Z)
      by (replace (2 * D * q)%Z with (D * q * 2)%Z by ring; apply Z.div_mul; lia).
    assert (E2 : ((1 + 2 * D * q) / 2 = D * q)%Z)
      by (replace (1 + 2 * D * q)%Z with (1 + D * q * 2)%Z by ring; rewrite Z.div_add by lia; reflexivity).
    rewrite <- E1 at 1. rewrite <- E2. apply walks_left; [nia|nia|].
    replace (2 * D * q)%Z with (D * q * 2)%Z by ring. apply Z_mod_mult.
Qed.

(** and from the right part, whose counters share the bits [1 + 2 * (D * q)]. *)
Lemma walks_from_right leaves i m q D d :
  (2 <= length leaves)%nat -> largestPowerOfTwoLessThan (length leaves) = (2 ^ i)%nat ->
  (2 ^ i <= m < length leaves)%nat -> (d <= i)%nat -> (0 <= q)%Z -> (0 < D)%Z ->
  (Z.of_nat (length leaves) - 1 + 2 ^ Z.of_nat i * (2 * D) * q < 2 ^ 31)%Z ->
  let q' := (1 + 2 * (D * q))%Z in
  let right := skipn (2 ^ i) leaves in
  walks (auditPath (m - 2 ^ i) right) (leafHash (nth (m - 2 ^ i) right ""))
    (Z.of_nat (m - 2 ^ i) + 2 ^ Z.of_nat i * q') (Z.of_nat (length right) - 1 + 2 ^ Z.of_nat i * q')
    (mth right) (2 ^ Z.of_nat d * q') (2 ^ Z.of_nat d * q') ->
  walks (auditPath m leaves) (leafHash (nth m leaves ""))
    (Z.of_nat m + 2 ^ Z.of_nat i * (2 * D) * q)
    (Z.of_nat (length leaves) - 1 + 2 ^ Z.of_nat i * (2 * D) * q)
    (mth leaves) (D * q) (D * q).
Proof.
  intros Hn E Hm Hd Hq HD Hb q' right W.
  destruct (split_lengths leaves Hn) as (i' & E' & P & B & L1 & L2 & B2).
  assert (Epow : (2 ^ i' = 2 ^ i)%nat) by congruence. rewrite Nat.pow_succ_r', Epow in *.
  rewrite (auditPath_split m leaves i Hn E), (mth_split leaves i Hn E).
  destruct (Nat.ltb_spec m (2 ^ i)); [lia|]. pose proof (of_nat_pow2 i) as Pi.
  unfold right in W. rewrite L2, nth_skipn, !Nat2Z.inj_sub, !Pi in W by lia.
  replace (2 ^ i + (m - 2 ^ i))%nat with m in W by lia.
  replace (Z.of_nat m - 2 ^ Z.of_nat i + 2 ^ Z.of_nat i * q')%Z
    with (Z.of_nat m + 2 ^ Z.of_nat i * (2 * D) * q)%Z in W by (unfold q'; ring).
  replace (Z.of_nat (length leaves) - 2 ^ Z.of_nat i - 1 + 2 ^ Z.of_nat i * q')%Z
    with (Z.of_nat (length leaves) - 1 + 2 ^ Z.of_nat i * (2 * D) * q)%Z in W by (unfold q'; ring).
  eapply walks_app; [exact W|].
  assert (Hq' : (q' mod 2 = 1)%Z).
  { unfold q'. rewrite (Z.mul_comm 2), Z_mod_plus_full. reflexivity. }
  replace (D * q)%Z with (q' / 2)%Z
    by (unfold q'; rewrite (Z.mul_comm 2), Z.div_add by lia; reflexivity).
  rewrite (Z.mul_comm (2 ^ Z.of_nat d)).
  assert (2 ^ Z.of_nat d <= 2 ^ Z.of_nat i)%Z by (apply Z.pow_le_mono_r; lia).
  assert (0 <= q')%Z by (unfold q'; nia).
  apply walks_edge; [assumption|exact Hq'|].
  assert (2 ^ Z.of_nat i * q' = 2 ^ Z.of_nat i + 2 ^ Z.of_nat i * (2 * D) * q)%Z
    by (unfold q'; ring). nia.
Qed.

(** Along the right edge of the tree the counters agree on the bits above [j]; the
    walk ends with both at a shift of those bits. *)
Lemma walks_tree n : forall leaves m q j,
  length leaves = n -> (m < n)%nat -> (n <= 2 ^ j)%nat -> (0 <= q)%Z ->
  (Z.of_nat n - 1 + 2 ^ Z.of_nat j * q < 2 ^ 31)%Z ->
  exists d, (d <= j)%nat /\
    walks (auditPath m leaves) (leafHash (nth m leaves ""))
      (Z.of_nat m + 2 ^ Z.of_nat j * q) (Z.of_nat n - 1 + 2 ^ Z.of_nat j * q)
      (mth leaves) (2 ^ Z.of_nat d * q) (2 ^ Z.of_nat d * q).
Proof.
  induction n as [n IH] using (well_founded_induction lt_wf).
  intros leaves m q j Hlen Hm Hj Hq Hb.
  destruct (Nat.lt_ge_cases n 2) as [Hs|Hn].
  { destruct leaves as [|d [|d' l]]; simpl in Hlen; try lia.
    assert (m = 0%nat) as -> by lia. assert (n = 1%nat) as -> by lia.
    exists j. split; [lia|]. apply walks_nil. }
  rewrite <- Hlen in Hn. destruct (split_lengths leaves Hn) as (i & E & P & B & L1 & L2 & B2).
  assert (Hij : (i < j)%nat) by (apply (Nat.pow_lt_mono_r_iff 2); lia).
  pose proof (of_nat_pow2 i) as Pi. set (D := (2 ^ Z.of_nat (j - i - 1))%Z).
  assert (Ej : (2 ^ Z.of_nat j = 2 ^ Z.of_nat i * (2 * D))%Z).
  { unfold D. rewrite <- Z.pow_succ_r, <- Z.pow_add_r by lia. f_equal. lia. }
  assert (HD : (0 < D)%Z) by (unfold D; apply Z.pow_pos_nonneg; lia).
  exists (j - i - 1)%nat. split; [lia|]. fold D. rewrite Ej in *. subst n.
  destruct (Nat.lt_ge_cases m (2 ^ i)) as [Hlt|Hge]; [now apply walks_from_left|].
  destruct (IH (length leaves - 2 ^ i)%nat ltac:(lia) (skipn (2 ^ i) leaves) (m - 2 ^ i)%nat
    (1 + 2 * (D * q))%Z i) as (d & Hd & W); [lia|lia|lia|nia| |].
  { rewrite Nat2Z.inj_sub, Pi by lia. nia. }
  rewrite <- L2 in W. apply (walks_from_right leaves i m q D d); auto.
Qed.

(** The whole path takes the leaf to the root, and the counters to zero. *)
Lemma walks_audit leaves m : (m < length leaves)%nat -> (Z.of_nat (length leaves) <= 2 ^ 31)%Z ->
  walks (auditPath m leaves) (leafHash (nth m leaves "")) (Z.of_nat m)
    (Z.of_nat (length leaves) - 1) (mth leaves) 0 0.
Proof.
  intros Hm Hb.
  destruct (walks_tree _ leaves m 0 (length leaves) eq_refl Hm) as (d & _ & W); [|lia|lia|].
  - apply Nat.lt_le_incl, Nat.pow_gt_lin_r. lia.
  - now rewrite !Z.mul_0_r, !Z.add_0_r in W.
Qed.
End walk.

(** ** Strings *)

Lemma append_cancel_l (a x y : string) : a +:+ x = a +:+ y -> x = y.
Proof. apply (inj (String.append a)). Qed.

Lemma append_length (a b : string) : String.length (a +:+ b) = (String.length a + String.length b)%nat.
Proof. induction a as [|c a IH]; simpl; [reflexivity|]. now rewrite <- IH. Qed.

(** Equal concatenations whose left parts have equal length. *)
Lemma append_inj_length (a b x y : string) :
  a +:+ x = b +:+ y -> String.length a = String.length b -> a = b /\ x = y.
Proof.
  revert b. induction a as [|c a IH]; intros [|c' b] E L; simpl in *; try discriminate; [auto|].
  injection E as -> E. destruct (IH b E) as [-> ->]; [lia|auto].
Qed.

Lemma append_inj_length_r (a b x y : string) :
  a +:+ x = b +:+ y -> String.length x = String.length y -> a = b /\ x = y.
Proof.
  intros E L. apply append_inj_length; [exact E|].
  apply (f_equal String.length) in E. rewrite !append_length in E. lia.
Qed.

Lemma append_cancel_r (a b x : string) : a +:+ x = b +:+ x -> a = b.
Proof. intros E. now destruct (append_inj_length_r a b x x E eq_refl). Qed.

Lemma append_prefixes (a b x y : string) :
  a +:+ x = b +:+ y -> String.prefix a b = true \/ String.prefix b a = true.
Proof.
  revert b. induction a as [|c a IH]; intros [|c' b] E; simpl in *; auto.
  injection E as -> E. destruct (ascii_dec c' c') as [_|]; [|contradiction]. now apply IH.
Qed.

(** ** The coding of entries is injective *)

Definition all_chars : list ascii := map ascii_of_nat (seq 0 256).

Lemma in_all_chars c : In c all_chars.
Proof.
  apply in_map_iff. exists (nat_of_ascii c). split; [apply ascii_nat_embedding|].
  apply in_seq. pose proof (nat_ascii_bounded c). lia.
Qed.

Definition prefix_free (c1 c2 : ascii) : bool :=
  bool_decide (c1 = c2) ||
  negb (String.prefix (json_char c1) (json_char c2) || String.prefix (json_char c2) (json_char c1)).

Definition starts_quoted (c : ascii) : bool :=
  match json_char c with
  | "" => true
  | String a _ => bool_decide (a = quote_char)
  end.

Lemma json_char_prefix_free c1 c2 x y :
  json_char c1 +:+ x = json_char c2 +:+ y -> c1 = c2 /\ x = y.
Proof.
  assert (Hall : forallb (fun c1 => forallb (prefix_free c1) all_chars) all_chars = true)
    by (vm_compute; reflexivity).
  intros E. rewrite forallb_forall in Hall. pose proof (Hall c1 (in_all_chars c1)) as H1.
  rewrite forallb_forall in H1. specialize (H1 c2 (in_all_chars c2)).
  unfold prefix_free in H1. destruct (decide (c1 = c2)) as [<-|Hne].
  - split; [reflexivity|]. now apply append_cancel_l in E.
  - rewrite bool_decide_eq_false_2 in H1 by exact Hne. simpl in H1.
    apply negb_true_iff, orb_false_iff in H1 as [P1 P2].
    destruct (append_prefixes _ _ _ _ E); congruence.
Qed.

Lemma json_char_not_quote c x y : json_char c +:+ x <> char_str quote_char +:+ y.
Proof.
  assert (Hall : forallb (fun c => negb (starts_quoted c)) all_chars = true)
    by (vm_compute; reflexivity).
  rewrite forallb_forall in Hall. specialize (Hall c (in_all_chars c)). unfold starts_quoted in Hall.
  destruct (json_char c) as [|a s]; [discriminate|].
  apply negb_true_iff, bool_decide_eq_false in Hall.
  unfold char_str. intros E. apply Hall. now injection E.
Qed.

Lemma append_assoc_s (a b c : string) : (a +:+ b) +:+ c = a +:+ (b +:+ c).
Proof. induction a as [|x a IH]; [reflexivity|]. exact (f_equal (String x) IH). Qed.

Lemma json_string_inj s1 s2 x y :
  json_string s1 +:+ x = json_string s2 +:+ y -> s1 = s2 /\ x = y.
Proof.
  unfold json_string. intros [= E]. rewrite !append_assoc_s in E. revert s2 E.
  induction s1 as [|c1 s1 IH]; intros [|c2 s2] E; cbn [json_chars] in E;
    rewrite ?append_assoc_s in E.
  - split; [reflexivity|]. exact (append_cancel_l (char_str quote_char) _ _ E).
  - symmetry in E. now apply json_char_not_quote in E.
  - now apply json_char_not_quote in E.
  - apply json_char_prefix_free in E as [-> E]. destruct (IH s2 E) as [-> ->]. auto.
Qed.

Lemma encodeEntry_inj e1 e2 : encodeEntry e1 = encodeEntry e2 -> e1 = e2.
Proof.
  unfold encodeEntry. intros E. apply append_cancel_l, append_cancel_l in E.
  apply json_string_inj in E as [E1 E]. apply append_cancel_l, append_cancel_l in E.
  apply json_string_inj in E as [E2 E]. apply append_cancel_l, append_cancel_l in E.
  apply append_cancel_r in E. apply (inj pretty) in E.
  destruct e1, e2; simpl in *; congruence.
Qed.

(** ** The log as its list of entries *)

Section log.
Context `{NodeBuffers}.

Lemma open_log_eq es :
  open_log es = {| kt_leaves := map encodeEntry es; kt_entries := es; kt_storage := es |}.
Proof.
  unfold open_log.
  assert (G : forall st es leaves0 es0,
    fold_left (fun log entry =>
      {| kt_leaves := (kt_leaves log ++ [encodeEntry entry])%list;
         kt_entries := (kt_entries log ++ [entry])%list;
         kt_storage := kt_storage log |}) es
      {| kt_leaves := leaves0; kt_entries := es0; kt_storage := st |}
    = {| kt_leaves := (leaves0 ++ map encodeEntry es)%list; kt_entries := (es0 ++ es)%list;
         kt_storage := st |}).
  { clear. intros st. induction es as [|e es IH]; intros l0 e0; simpl; [now rewrite !app_nil_r|].
    rewrite IH, <- !app_assoc. reflexivity. }
  apply G.
Qed.

Lemma log_root_eq es :
  log_root (open_log es) =
  {| tr_treeSize := Z.of_nat (length es); tr_rootHash := toBase64url (mth (map encodeEntry es)) |}.
Proof.
  rewrite open_log_eq. unfold log_root. simpl. rewrite length_map. f_equal.
  now destruct es.
Qed.
End log.

(** ** Every path the log issues is accepted *)

Section completeness.
Context `{NodeBuffersLaws}.

Lemma decode_path path : map fromBase64url (map toBase64url path) = path.
Proof.
  induction path as [|b path IH]; simpl; [reflexivity|]. now rewrite base64url_roundtrip, IH.
Qed.

(** Every inclusion proof the log issues is accepted: for a log of up to 2^31
    entries and any index in it, [inclusionProof] does not throw, [verifyInclusion] accepts the
    proof against the log's own root, and 31 rounds of its inner loop are enough. *)
Theorem inclusion_complete es i fuel :
  (0 <= i < Z.of_nat (length es))%Z -> (Z.of_nat (length es) <= 2 ^ 31)%Z -> (31 <= fuel)%nat ->
  exists proof, log_inclusionProof i (open_log es) = Some proof /\
    verifyInclusion fuel proof (log_root (open_log es)) = Some true.
Proof.
  intros Hi Hs Hf. rewrite log_root_eq. unfold log_inclusionProof. rewrite open_log_eq. simpl.
  rewrite length_map. destruct (Z.ltb_spec i 0); [lia|].
  destruct (Z.leb_spec (Z.of_nat (length es)) i); [lia|]. simpl. eexists; split; [reflexivity|].
  unfold verifyInclusion. simpl. rewrite Z.eqb_refl. simpl.
  destruct (Z.ltb_spec i 0); [lia|]. destruct (Z.leb_spec (Z.of_nat (length es)) i); [lia|]. simpl.
  rewrite decode_path, base64url_roundtrip.
  pose proof (walks_audit fuel Hf (map encodeEntry es) (Z.to_nat i)) as W.
  rewrite length_map, Z2Nat.id in W by lia. specialize (W ltac:(lia) Hs []).
  rewrite app_nil_r in W. simpl in W. rewrite W. simpl. now rewrite bool_decide_eq_true_2.
Qed.
End completeness.

(** ** What an accepted path proves *)

Section soundness.
Context `{NodeBuffersLaws}.

(** The strings a walk hashes, from the leaf upward. *)
Fixpoint hashed_along (fuel : nat) (hash : string) (fn sn : Z) (path : list string) : list string :=
  match path with
  | [] => []
  | sib :: path =>
      if (Z.rem fn 2 =? 1)%Z || (fn =? sn)%Z then
        let pre := String "001"%char (sib +:+ hash) in
        pre ::
        match (if (Z.rem fn 2 =? 0)%Z then strip_zeros fuel fn sn else Some (fn, sn)) with
        | None => []
        | Some (fn, sn) => hashed_along fuel (sha256 pre) (shr1 fn) (shr1 sn) path
        end
      else
        let pre := String "001"%char (hash +:+ sib) in
        pre :: hashed_along fuel (sha256 pre) (shr1 fn) (shr1 sn) path
  end.

(** A pair of different strings with the same hash, among pairs hashed at the same
    place. *)
Definition collision_in (xs ys : list string) : Prop :=
  exists x y, In (x, y) (combine xs ys) /\ x <> y /\ sha256 x = sha256 y.

Lemma collision_later x y xs ys : collision_in xs ys -> collision_in (x :: xs) (y :: ys).
Proof. intros (a & b & Hin & Hc). exists a, b. split; [now right|exact Hc]. Qed.

Lemma same_preimage x y :
  sha256 x = sha256 y -> x = y \/ forall xs ys, collision_in (x :: xs) (y :: ys).
Proof.
  intros E. destruct (decide (x = y)) as [|Hne]; [now left|]. right. intros xs ys.
  exists x, y. split; [now left|auto].
Qed.

(** Two walks from the same counters that end in the same hash at the root. *)
Lemma walks_agree fuel root p1 : forall p2 h1 h2 fn sn,
  String.length h1 = String.length h2 ->
  verify_walk fuel h1 fn sn p1 = Some (Some (root, 0%Z)) ->
  verify_walk fuel h2 fn sn p2 = Some (Some (root, 0%Z)) ->
  h1 = h2 \/ collision_in (hashed_along fuel h1 fn sn p1) (hashed_along fuel h2 fn sn p2).
Proof.
  induction p1 as [|s1 p1 IH]; intros [|s2 p2] h1 h2 fn sn L W1 W2; simpl in W1, W2.
  - left. congruence.
  - injection W1 as -> ->. discriminate W2.
  - injection W2 as -> ->. discriminate W1.
  - destruct (sn =? 0)%Z; [discriminate W1|]. simpl hashed_along.
    destruct ((Z.rem fn 2 =? 1)%Z || (fn =? sn)%Z).
    + destruct (if (Z.rem fn 2 =? 0)%Z then strip_zeros fuel fn sn else Some (fn, sn))
        as [[fn' sn']|]; [|discriminate W1].
      destruct (IH p2 _ _ _ _ (eq_trans (sha256_length _) (eq_sym (sha256_length _))) W1 W2)
        as [E|C]; [|right; now apply collision_later].
      destruct (same_preimage _ _ E) as [E'|C]; [|right; apply C].
      left. injection E' as E'. now destruct (append_inj_length_r _ _ _ _ E' L).
    + destruct (IH p2 _ _ _ _ (eq_trans (sha256_length _) (eq_sym (sha256_length _))) W1 W2)
        as [E|C]; [|right; now apply collision_later].
      destruct (same_preimage _ _ E) as [E'|C]; [|right; apply C].
      left. injection E' as E'. now destruct (append_inj_length _ _ _ _ E' L).
Qed.

(** All that is hashed in checking [proof] for the leaf [data], from the leaf upward. *)
Definition hashed_by (fuel : nat) (data : string) (index size : Z) (path : list string) : list string :=
  String "000"%char data :: hashed_along fuel (leafHash data) index (size - 1) path.

(** C5 (safety): an accepted inclusion proof pins the entry: when a client that recomputed the leaf
    hash of an entry gets its proof accepted against the root of a log of up to 2^31 entries, the
    log holds exactly that entry at exactly that index, unless two different strings hashed at the
    same height by the verifier and along the log's own path have the same SHA-256.  The verifier's
    arithmetic on the counters, the domain separation of leaves and nodes, the injective JSON coding
    of entries and the 32-byte digests are all part of this. *)
Theorem inclusion_sound es e proof fuel :
  (Z.of_nat (length es) <= 2 ^ 31)%Z -> (31 <= fuel)%nat ->
  fromBase64url (ip_leafHash proof) = leafHash (encodeEntry e) ->
  verifyInclusion fuel proof (log_root (open_log es)) = Some true ->
  let i := ip_leafIndex proof in
  let size := Z.of_nat (length es) in
  nth_error es (Z.to_nat i) = Some e \/
  collision_in (hashed_by fuel (encodeEntry e) i size (map fromBase64url (ip_auditPath proof)))
    (hashed_by fuel (nth (Z.to_nat i) (map encodeEntry es) "") i size
       (auditPath (Z.to_nat i) (map encodeEntry es))).
Proof.
  intros Hs Hf Hleaf Hv i size. rewrite log_root_eq in Hv. unfold verifyInclusion in Hv. simpl in Hv.
  destruct (Z.eqb_spec (ip_treeSize proof) (Z.of_nat (length es))) as [Es|]; [|discriminate].
  simpl in Hv. rewrite Es in Hv. fold i in Hv. fold size in Hv, Hs.
  destruct (Z.ltb_spec i 0); [discriminate|]. destruct (Z.leb_spec size i); [discriminate|].
  simpl in Hv. rewrite Hleaf in Hv.
  destruct (verify_walk fuel (leafHash (encodeEntry e)) i (size - 1) _) as [[[h sn]|]|] eqn:W1;
    try discriminate.
  injection Hv as Hv. apply andb_true_iff in Hv as [E1 E2].
  apply Z.eqb_eq in E1 as ->. apply bool_decide_eq_true in E2.
  apply (f_equal fromBase64url) in E2. rewrite !base64url_roundtrip in E2. subst h.
  pose proof (walks_audit fuel Hf (map encodeEntry es) (Z.to_nat i)) as W2.
  rewrite length_map, Z2Nat.id in W2 by lia. fold size in W2.
  specialize (W2 ltac:(unfold size in *; lia) Hs []). rewrite app_nil_r in W2. simpl in W2.
  set (d := nth (Z.to_nat i) (map encodeEntry es) "") in *.
  destruct (walks_agree fuel _ _ _ _ _ _ _ (eq_trans (sha256_length _) (eq_sym (sha256_length _))) W1 W2)
    as [E|C]; [|right; now apply collision_later].
  destruct (same_preimage _ _ E) as [E'|C]; [left|right; apply C].
  injection E' as E'. unfold d in E'.
  assert (Hi : (Z.to_nat i < length es)%nat) by (unfold size in *; lia).
  destruct (nth_error es (Z.to_nat i)) as [e'|] eqn:En;
    [|apply nth_error_None in En; lia].
  rewrite (nth_indep _ "" (encodeEntry e)), map_nth in E' by now rewrite length_map.
  apply nth_error_nth with (d := e) in En. rewrite En in E'. apply encodeEntry_inj in E'. congruence.
Qed.
End soundness.

(** ** The inner loop ends, for sizes a 32-bit shift can halve *)

Lemma odd_part z : (1 <= z)%Z -> exists q d, (z = q * 2 ^ Z.of_nat d /\ 1 <= q /\ q mod 2 = 1)%Z.
Proof.
  induction z as [z IH] using (well_founded_induction (Z.lt_wf 0)). intros Hz. pose proof (Z.div_mod z 2 ltac:(lia)) as D.
  pose proof (Z.mod_pos_bound z 2 ltac:(lia)) as B. destruct (Z.eq_dec (z mod 2) 1) as [E|E].
  - exists z, 0%nat. rewrite Z.mul_1_r. auto.
  - destruct (IH (z / 2)%Z ltac:(lia) ltac:(lia)) as (q & d & E' & Hq & Ho).
    exists q, (S d). rewrite Nat2Z.inj_succ, Z.pow_succ_r by lia.
    replace (q * (2 * 2 ^ Z.of_nat d))%Z with (2 * (q * 2 ^ Z.of_nat d))%Z by ring.
    rewrite <- E'. split; [lia|auto].
Qed.

Section termination.
Context `{NodeBuffers}.

Lemma verify_walk_ends fuel path : (31 <= fuel)%nat -> forall hash fn sn,
  (0 <= fn <= sn)%Z -> (sn < 2 ^ 31)%Z -> verify_walk fuel hash fn sn path <> None.
Proof.
  intros Hf. induction path as [|sib path IH]; intros hash fn sn Hfn Hsn; simpl; [discriminate|].
  destruct (Z.eqb_spec sn 0) as [|Hn]; [discriminate|].
  assert (Next : forall h, verify_walk fuel h (shr1 fn) (shr1 sn) path <> None).
  { intros h. rewrite !shr1_small by lia. apply IH; [|apply half_small; lia].
    split; [apply Z.div_pos; lia|apply Z.div_le_mono; lia]. }
  destruct (Z.rem fn 2 =? 1)%Z eqn:Eo; simpl; [|destruct (Z.eqb_spec fn sn) as [->|]].
  - apply Z.eqb_eq in Eo. rewrite Eo. apply Next.
  - destruct (Z.rem sn 2 =? 0)%Z; [|apply Next].
    destruct (odd_part sn ltac:(lia)) as (q & d & E & Hq & Ho).
    pose proof (Z.pow_pos_nonneg 2 (Z.of_nat d) ltac:(lia) ltac:(lia)).
    assert (d < 31)%nat by (apply pow_bound; nia).
    rewrite E, strip_zeros_edge by (lia || nia). rewrite shr1_small by nia.
    apply IH; [split; [apply Z.div_pos; lia|lia]|]. apply half_small. nia.
  - apply Next.
Qed.

Lemma strip_zeros_zero fuel sn : strip_zeros fuel 0 sn = None.
Proof. revert sn. induction fuel as [|fuel IH]; intros sn; [reflexivity|]. apply IH. Qed.

(** C39 (termination): checking a proof ends whatever the proof says, as long as its tree has at most
    2^31 leaves: for any index, path and hashes, well formed or hostile, [verifyInclusion] answers
    within 31 rounds of its inner loop per path element.  The bound on the size is needed: shifts
    work on 32 bits, so for index 2^32 of a tree of 2^32 + 1 leaves, which the schema of
    POST /verify lets through, the counter becomes zero and the loop never ends, on any path. *)
Theorem verifyInclusion_ends :
  (forall proof root fuel, (ip_treeSize proof <= 2 ^ 31)%Z -> (31 <= fuel)%nat ->
     exists b, verifyInclusion fuel proof root = Some b) /\
  (forall leaf sib path rootHash,
     let proof := {| ip_leafIndex := 2 ^ 32; ip_treeSize := 2 ^ 32 + 1;
                     ip_auditPath := sib :: path; ip_leafHash := leaf |} in
     let root := {| tr_treeSize := 2 ^ 32 + 1; tr_rootHash := rootHash |} in
     verify_schema proof root = true /\ forall fuel, verifyInclusion fuel proof root = None).
Proof.
  split.
  - intros proof root fuel Hs Hf. unfold verifyInclusion.
    destruct (negb _); [eauto|].
    destruct (Z.ltb_spec (ip_leafIndex proof) 0); [eauto|].
    destruct (Z.leb_spec (ip_treeSize proof) (ip_leafIndex proof)); [eauto|]. simpl.
    pose proof (verify_walk_ends fuel (map fromBase64url (ip_auditPath proof)) Hf
      (fromBase64url (ip_leafHash proof)) (ip_leafIndex proof) (ip_treeSize proof - 1)) as W.
    destruct (verify_walk _ _ _ _ _) as [[[h sn]|]|]; [eauto|eauto|].
    exfalso. apply W; [lia|lia|reflexivity].
  - intros leaf sib path rootHash proof root. split; [reflexivity|].
    intros [|fuel]; [reflexivity|].
    unfold verifyInclusion, proof, root. cbn [ip_treeSize tr_treeSize ip_leafIndex ip_auditPath map].
    cbn [verify_walk].
    change (Z.rem (2 ^ 32) 2 =? 1)%Z with false. change (2 ^ 32 + 1 - 1)%Z with (2 ^ 32)%Z.
    rewrite !Z.eqb_refl. change (2 ^ 32 =? 0)%Z with false. cbn [negb orb].
    change (Z.rem (2 ^ 32) 2 =? 0)%Z with true. cbv iota.
    change ((2 ^ 32 <? 0)%Z || (2 ^ 32 + 1 <=? 2 ^ 32)%Z) with false. cbv iota.
    cbn [strip_zeros]. change (Z.rem (2 ^ 32) 2 =? 0)%Z with true. cbv iota.
    change (shr1 (2 ^ 32)) with 0%Z. now rewrite strip_zeros_zero.
Qed.
End termination.

(** ** Consistency proofs *)

Section consistency.
Context `{NodeBuffersLaws}.

(** What an auditor does with a consistency proof (RFC 6962, 2.1.2), reading the
    nodes from the last: the root of the first [m] of [n] leaves and the root of
    all [n].  [known] is the old root the auditor holds, for the part of the tree
    that is the old tree itself. *)
Fixpoint rebuild (fuel m n : nat) (known : option string) (nodes : list string) :
    option (string * string) :=
  if (m =? n)%nat then
    match known, nodes with
    | Some old, [] => Some (old, old)
    | None, [h] => Some (h, h)
    | _, _ => None
    end
  else
    match fuel, nodes with
    | S fuel, top :: nodes =>
        let k := largestPowerOfTwoLessThan n in
        if (m <=? k)%nat then
          (fun r => (fst r, nodeHash (snd r) top)) <$> rebuild fuel m k known nodes
        else
          (fun r => (nodeHash top (fst r), nodeHash top (snd r)))
          <$> rebuild fuel (m - k) (n - k) None nodes
    | _, _ => None
    end.

(** Taking the first [m] leaves, when they reach into the right part, leaves the
    left part as it is. *)
Lemma mth_firstn_beyond leaves i m : (2 <= length leaves)%nat ->
  largestPowerOfTwoLessThan (length leaves) = (2 ^ i)%nat -> (2 ^ i < m <= length leaves)%nat ->
  mth (firstn m leaves) = nodeHash (mth (firstn (2 ^ i) leaves)) (mth (firstn (m - 2 ^ i) (skipn (2 ^ i) leaves))).
Proof.
  intros Hn E Hm. destruct (split_lengths leaves Hn) as (i0 & E0 & P & B & _).
  assert (Epow : (2 ^ i0 = 2 ^ i)%nat) by congruence. rewrite Nat.pow_succ_r', Epow in *.
  assert (L : length (firstn m leaves) = m) by (rewrite length_take; lia).
  assert (Em : largestPowerOfTwoLessThan (length (firstn m leaves)) = (2 ^ i)%nat).
  { rewrite L. destruct (largestPowerOfTwoLessThan_spec m ltac:(lia)) as (i' & -> & B').
    rewrite Nat.pow_succ_r' in B'. f_equal.
    assert (i' < S i)%nat by (apply (Nat.pow_lt_mono_r_iff 2); [lia|]; rewrite Nat.pow_succ_r'; lia).
    assert (i < S i')%nat by (apply (Nat.pow_lt_mono_r_iff 2); [lia|]; rewrite Nat.pow_succ_r'; lia).
    lia. }
  rewrite (mth_split (firstn m leaves) i) by (lia || exact Em). f_equal.
  - now rewrite firstn_firstn, Nat.min_l by lia.
  - now rewrite skipn_firstn_comm.
Qed.

Lemma subProof_rebuilds fuel : forall m leaves (b : bool),
  (1 <= m <= length leaves)%nat -> (length leaves <= fuel)%nat ->
  exists nodes, subProof_fuel fuel m leaves b = Some nodes /\
    rebuild fuel m (length leaves) (if b then Some (mth (firstn m leaves)) else None) (rev nodes)
    = Some (mth (firstn m leaves), mth leaves).
Proof.
  induction fuel as [|fuel IH]; intros m leaves b Hm Hf; [lia|]. simpl.
  destruct (Nat.eqb_spec m (length leaves)) as [->|Hne].
  { rewrite firstn_all. destruct b; eexists; (split; [reflexivity|]); reflexivity. }
  destruct (Nat.ltb_spec m (length leaves)); [|lia].
  destruct (split_lengths leaves ltac:(lia)) as (i & E & P & B & L1 & L2 & B2). rewrite E.
  rewrite (mth_split leaves i ltac:(lia) E).
  destruct (Nat.leb_spec m (2 ^ i)) as [Hle|Hgt].
  - destruct (IH m (firstn (2 ^ i) leaves) b) as (nodes & -> & R); [lia|lia|].
    eexists; split; [reflexivity|]. rewrite rev_app_distr. simpl. rewrite L1 in R.
    rewrite firstn_firstn, Nat.min_l in R by lia. now rewrite R.
  - destruct (IH (m - 2 ^ i)%nat (skipn (2 ^ i) leaves) false) as (nodes & -> & R); [lia|lia|].
    eexists; split; [reflexivity|]. rewrite rev_app_distr. simpl. rewrite L2 in R. rewrite R. simpl.
    now rewrite (mth_firstn_beyond leaves i m ltac:(lia) E ltac:(lia)).
Qed.

(** The log only grows, and says so: restarting from the storage after an append
    gives the same log as appending; an append keeps all earlier leaves, so every earlier root is
    still the root of a prefix; and between any two sizes the log ever had, [consistencyProof] does
    not throw and holds exactly the nodes from which an auditor with the old root rebuilds the old
    and the new root. *)
Theorem log_append_only es e from to :
  (1 <= from < to)%Z -> (to <= Z.of_nat (length es))%Z ->
  fst (log_append e (open_log es)) = open_log (es ++ [e]) /\
  open_log (kt_storage (fst (log_append e (open_log es)))) = fst (log_append e (open_log es)) /\
  fst (snd (log_append e (open_log es))) = Z.of_nat (length es) /\
  exists proof,
    log_consistencyProof from to (open_log es) = Some proof /\
    let old := mth (firstn (Z.to_nat from) (map encodeEntry es)) in
    let new := mth (firstn (Z.to_nat to) (map encodeEntry es)) in
    tr_rootHash (log_root (open_log (firstn (Z.to_nat from) es))) = toBase64url old /\
    rebuild (Z.to_nat to) (Z.to_nat from) (Z.to_nat to) (Some old)
      (rev (map fromBase64url (cn_nodes proof))) = Some (old, new).
Proof.
  intros Hft Hto. rewrite log_root_eq, !open_log_eq. unfold log_append. simpl.
  rewrite ?open_log_eq, ?map_app, ?length_map. simpl. repeat split.
  unfold log_consistencyProof. simpl. rewrite length_map.
  destruct (Z.ltb_spec from 0); [lia|]. destruct (Z.ltb_spec to from); [lia|].
  destruct (Z.ltb_spec (Z.of_nat (length es)) to); [lia|].
  destruct (Z.eqb_spec from 0); [lia|]. destruct (Z.eqb_spec from to); [lia|]. simpl.
  set (leaves := firstn (Z.to_nat to) (map encodeEntry es)).
  assert (L : length leaves = Z.to_nat to) by (unfold leaves; rewrite length_take, length_map; lia).
  unfold consistencyProof. destruct (Nat.eqb_spec (Z.to_nat from) (length leaves)); [lia|].
  destruct (subProof_rebuilds (length leaves) (Z.to_nat from) leaves true) as (nodes & -> & R); [lia|lia|].
  eexists; split; [reflexivity|]. split; [now rewrite firstn_map|]. simpl.
  rewrite decode_path. rewrite L in R. unfold leaves in R.
  rewrite firstn_firstn, Nat.min_l in R by lia. exact R.
Qed.
End consistency.

(** ** Publishing under a name *)

Section publishing.
Context `{NodeBuffers} `{Env}.

(** Only the owner of an account publishes keys under a name of it: POST /append leaves the log
    as it was unless the name resolves to the signed-in account, and then appends the one entry. *)
Lemma route_append_owner user userId masterKey now d es :
  let '(log', response) := route_append user userId masterKey now d (open_log es) in
  (exists name i root,
     response = kt_ok i root /\ resolveBlackoutUserId name d = Some user /\
     default name userId = name /\
     log' = open_log (es ++ [{| ke_userId := name; ke_masterKey := masterKey; ke_publishedAt := now |}]))
  \/ (log' = open_log es /\ (response = kt_unauthorized \/ response = kt_user_mismatch)).
Proof.
  unfold route_append. destruct (truthy (matrixUserIdFor user d)) as [own|]; [|auto].
  case_bool_decide as E; simpl; [|auto]. left.
  exists (default own userId), (Z.of_nat (length (kt_leaves (open_log es)))), (log_root
    (fst (log_append {| ke_userId := default own userId; ke_masterKey := masterKey;
                        ke_publishedAt := now |} (open_log es)))).
  split; [reflexivity|]. split; [exact E|]. split; [now destruct userId|].
  rewrite !open_log_eq. unfold log_append. simpl. now rewrite map_app.
Qed.
End publishing.

(** ** The laws can hold: a small checksum in place of SHA-256 *)

Fixpoint fit (n : nat) (s : string) : string :=
  match n with
  | O => ""
  | S n => match s with "" => String "."%char (fit n "") | String c s => String c (fit n s) end
  end.

Fixpoint checksum (acc : Z) (s : string) : Z :=
  match s with
  | "" => acc
  | String c s => checksum ((acc * 257 + Z.of_nat (nat_of_ascii c) + 1) mod (2 ^ 89 - 1)) s
  end.

#[export] Instance sample_buffers : NodeBuffers := {
  sha256 b := fit 32 (pretty (checksum 7 b));
  toBase64url b := b;
  fromBase64url b := b;
}.

Lemma fit_length n s : String.length (fit n s) = n.
Proof. revert s. induction n as [|n IH]; intros [|c s]; simpl; f_equal; auto. Qed.

#[export] Instance sample_buffers_laws : NodeBuffersLaws.
Proof. split; [intros b; apply fit_length|reflexivity]. Qed.

Definition sample_entry (name : string) : KeyEntry :=
  {| ke_userId := name; ke_masterKey := "key"; ke_publishedAt := 1700000000000 |}.
Definition sample_entries : list KeyEntry :=
  map sample_entry ["@a:h"; "@b:h"; "@c:h"; "@d:h"; "@e:h"; "@f:h"; "@g:h"].

Example sample_encoding :
  encodeEntry {| ke_userId := "a/b"; ke_masterKey := String quote_char (String "010"%char "");
                 ke_publishedAt := 42 |} =
  String.concat (char_str quote_char)
    ["{"; "userId"; ":"; "a/b"; ","; "masterKey"; ":"; "\"; "\n"; ","; "publishedAt"; ":42}"].
Proof. vm_compute. reflexivity. Qed.

Theorem inclusion_complete_witness :
  exists proof, log_inclusionProof 5 (open_log sample_entries) = Some proof /\
    verifyInclusion 31 proof (log_root (open_log sample_entries)) = Some true.
Proof. apply inclusion_complete; [split; [discriminate|reflexivity]|discriminate|reflexivity]. Defined.

Definition sample_proof : InclusionProof :=
  Eval vm_compute in default {| ip_leafIndex := 0; ip_treeSize := 0; ip_auditPath := []; ip_leafHash := "" |}
    (log_inclusionProof 5 (open_log sample_entries)).

Theorem inclusion_sound_witness :
  verifyInclusion 31 sample_proof (log_root (open_log sample_entries)) = Some true /\
  (nth_error sample_entries 5 = Some (sample_entry "@f:h") \/
   collision_in
     (hashed_by 31 (encodeEntry (sample_entry "@f:h")) 5 7 (map fromBase64url (ip_auditPath sample_proof)))
     (hashed_by 31 (nth 5 (map encodeEntry sample_entries) "") 5 7
        (auditPath 5 (map encodeEntry sample_entries)))).
Proof.
  split; [vm_compute; reflexivity|].
  apply (inclusion_sound sample_entries (sample_entry "@f:h") sample_proof 31).
  - discriminate.
  - reflexivity.
  - vm_compute. reflexivity.
  - vm_compute. reflexivity.
Defined.

Theorem log_append_only_witness :
  fst (log_append (sample_entry "@h:h") (open_log sample_entries)) =
    open_log (sample_entries ++ [sample_entry "@h:h"]) /\
  exists proof, log_consistencyProof 3 7 (open_log sample_entries) = Some proof.
Proof.
  destruct (log_append_only sample_entries (sample_entry "@h:h") 3 7) as (E & _ & _ & proof & P & _);
    [split; [discriminate|reflexivity]|discriminate|].
  split; [exact E|]. exists proof. exact P.
Defined.

Theorem verifyInclusion_ends_witness :
  exists b, verifyInclusion 31 sample_proof (log_root (open_log sample_entries)) = Some b.
Proof. apply (proj1 verifyInclusion_ends); [discriminate|reflexivity]. Defined.

(** ** An accepted proof of nothing *)

Lemma last_char (s : string) n :
  String.length s = S n -> exists a c, s = a +:+ char_str c.
Proof.
  revert n. induction s as [|c s IH]; intros n E; [discriminate|]. destruct s as [|c' s].
  - exists "", c. reflexivity.
  - destruct n as [|n]; [discriminate|]. destruct (IH n) as (a & x & ->); [simpl in *; lia|].
    exists (String c a), x. reflexivity.
Qed.

(** The verifier does not look at the length of the leaf hash it is given: in any log of two entries
    it accepts a 33-byte "leaf hash", which no leaf has, its first byte borrowed from the sibling. *)
Lemma leaf_hash_length_unchecked `{NodeBuffersLaws} e0 e1 :
  exists proof, verifyInclusion 31 proof (log_root (open_log [e0; e1])) = Some true /\
    forall data, fromBase64url (ip_leafHash proof) <> leafHash data.
Proof.
  destruct (last_char (leafHash (encodeEntry e0)) 31 (sha256_length _)) as (a & c & E).
  exists {| ip_leafIndex := 1; ip_treeSize := 2; ip_auditPath := [toBase64url a];
            ip_leafHash := toBase64url (String c (leafHash (encodeEntry e1))) |}.
  split.
  - rewrite log_root_eq. unfold verifyInclusion.
    cbn [ip_leafIndex ip_treeSize ip_auditPath ip_leafHash tr_treeSize tr_rootHash map length].
    rewrite !base64url_roundtrip.
    assert (N : nodeHash a (String c (leafHash (encodeEntry e1))) =
                mth [encodeEntry e0; encodeEntry e1]).
    { change (mth [encodeEntry e0; encodeEntry e1])
        with (nodeHash (leafHash (encodeEntry e0)) (leafHash (encodeEntry e1))).
      unfold nodeHash. rewrite E, append_assoc_s. reflexivity. }
    change (Some (true && bool_decide (toBase64url (nodeHash a (String c (leafHash (encodeEntry e1))))
      = toBase64url (mth [encodeEntry e0; encodeEntry e1]))) = Some true).
    rewrite N, bool_decide_eq_true_2 by reflexivity. reflexivity.
  - intros data Ed. cbn [ip_leafHash] in Ed. rewrite base64url_roundtrip in Ed.
    apply (f_equal String.length) in Ed. unfold leafHash in Ed. cbn [String.length] in Ed.
    rewrite !sha256_length in Ed. discriminate.
Qed.
