(* ===== verification/DeadMan.v ===== *)
(** * Dead-man switches
      (services/deadmanScheduler.ts, deadmanSweepScheduler.ts, backlogTolerance.ts,
       modules/deadman.ts, the deadman table of db/store.ts)

    A switch goes from armed to grace to triggered as its owner stays away; a
    check-in arms it again, a cancel ends it, and only the background sweep moves
    it forward.  Times are milliseconds, intervals whole seconds.  Handlers take
    what the authorisation middleware decided: [cap], whether the capability check
    passed, and [subject], the signed-in user if any. *)

From S2P Require Import Prelude JsMap.

Inductive DeadmanSwitchStatus : Set := armed | grace | triggered | cancelled.

#[export] Instance DeadmanSwitchStatus_eq_dec : EqDecision DeadmanSwitchStatus.
Proof. solve_decision. Defined.

Record DeadmanSwitchRecord : Type := mk_switch {
  ds_id : string;
  ds_ownerId : string;
  ds_roomId : string;
  ds_status : DeadmanSwitchStatus;
  ds_checkInIntervalSeconds : Z;
  ds_gracePeriodSeconds : Z;
  ds_lastCheckInAt : Z;
  ds_triggerAt : Z;
  ds_releaseAt : Z;
  ds_recipients : list string;
  ds_encryptedPayload : string;
  ds_headline : option string;
  ds_backlogGraceStartedAt : option Z;
  ds_createdAt : Z;
  ds_updatedAt : Z;
}.

(** The object spreads the code writes, one per set of fields it changes. *)
Definition with_status (st : DeadmanSwitchStatus) (r : DeadmanSwitchRecord) : DeadmanSwitchRecord :=
  mk_switch (ds_id r) (ds_ownerId r) (ds_roomId r) st (ds_checkInIntervalSeconds r)
    (ds_gracePeriodSeconds r) (ds_lastCheckInAt r) (ds_triggerAt r) (ds_releaseAt r)
    (ds_recipients r) (ds_encryptedPayload r) (ds_headline r) (ds_backlogGraceStartedAt r)
    (ds_createdAt r) (ds_updatedAt r).
Definition with_release (releaseAt : Z) (backlog : option Z) (r : DeadmanSwitchRecord) : DeadmanSwitchRecord :=
  mk_switch (ds_id r) (ds_ownerId r) (ds_roomId r) (ds_status r) (ds_checkInIntervalSeconds r)
    (ds_gracePeriodSeconds r) (ds_lastCheckInAt r) (ds_triggerAt r) releaseAt
    (ds_recipients r) (ds_encryptedPayload r) (ds_headline r) backlog
    (ds_createdAt r) (ds_updatedAt r).
Definition with_check_in (lastCheckInAt triggerAt : Z) (r : DeadmanSwitchRecord) : DeadmanSwitchRecord :=
  mk_switch (ds_id r) (ds_ownerId r) (ds_roomId r) (ds_status r) (ds_checkInIntervalSeconds r)
    (ds_gracePeriodSeconds r) lastCheckInAt triggerAt (ds_releaseAt r)
    (ds_recipients r) (ds_encryptedPayload r) (ds_headline r) (ds_backlogGraceStartedAt r)
    (ds_createdAt r) (ds_updatedAt r).
Definition with_payload (payload : string) (r : DeadmanSwitchRecord) : DeadmanSwitchRecord :=
  mk_switch (ds_id r) (ds_ownerId r) (ds_roomId r) (ds_status r) (ds_checkInIntervalSeconds r)
    (ds_gracePeriodSeconds r) (ds_lastCheckInAt r) (ds_triggerAt r) (ds_releaseAt r)
    (ds_recipients r) payload (ds_headline r) (ds_backlogGraceStartedAt r)
    (ds_createdAt r) (ds_updatedAt r).
Definition with_headline (h : option string) (r : DeadmanSwitchRecord) : DeadmanSwitchRecord :=
  mk_switch (ds_id r) (ds_ownerId r) (ds_roomId r) (ds_status r) (ds_checkInIntervalSeconds r)
    (ds_gracePeriodSeconds r) (ds_lastCheckInAt r) (ds_triggerAt r) (ds_releaseAt r)
    (ds_recipients r) (ds_encryptedPayload r) h (ds_backlogGraceStartedAt r)
    (ds_createdAt r) (ds_updatedAt r).
Definition with_updated (now : Z) (r : DeadmanSwitchRecord) : DeadmanSwitchRecord :=
  mk_switch (ds_id r) (ds_ownerId r) (ds_roomId r) (ds_status r) (ds_checkInIntervalSeconds r)
    (ds_gracePeriodSeconds r) (ds_lastCheckInAt r) (ds_triggerAt r) (ds_releaseAt r)
    (ds_recipients r) (ds_encryptedPayload r) (ds_headline r) (ds_backlogGraceStartedAt r)
    (ds_createdAt r) now.

(** ** deadmanScheduler.ts *)

Inductive DeadmanTransition : Type :=
  | t_none (record : DeadmanSwitchRecord)
  | t_grace (record : DeadmanSwitchRecord)
  | t_triggered (record : DeadmanSwitchRecord)
  | t_backlog_grace (record : DeadmanSwitchRecord).

Definition MIN_CHECK_IN_INTERVAL_SECONDS : Z := 60.
Definition MAX_CHECK_IN_INTERVAL_SECONDS : Z := 60 * 60 * 24 * 365.
Definition MIN_GRACE_PERIOD_SECONDS : Z := 0.
Definition MAX_GRACE_PERIOD_SECONDS : Z := 60 * 60 * 24 * 30.
Definition MAX_RECIPIENTS : nat := 64.
Definition DEADMAN_BACKLOG_GRACE_SECONDS : Z := 72 * 60 * 60.

(** [(triggerAt, releaseAt)] *)
Definition computeDeadlines (lastCheckInAt checkInIntervalSeconds gracePeriodSeconds : Z) : Z * Z :=
  (lastCheckInAt + checkInIntervalSeconds * 1000,
   lastCheckInAt + (checkInIntervalSeconds + gracePeriodSeconds) * 1000)%Z.

Definition evaluateTransition (record : DeadmanSwitchRecord) (now : Z) : DeadmanTransition :=
  match ds_status record with
  | triggered | cancelled => t_none record
  | armed =>
      if (now <? ds_triggerAt record)%Z then t_none record
      else if (ds_gracePeriodSeconds record <=? 0)%Z || (ds_releaseAt record <=? now)%Z then
        t_triggered (with_status triggered record)
      else t_grace (with_status grace record)
  | grace =>
      if (now <? ds_releaseAt record)%Z then t_none record
      else t_triggered (with_status triggered record)
  end.

Definition evaluateSweepTransition (record : DeadmanSwitchRecord) (now toleranceMs : Z) : DeadmanTransition :=
  let transition := evaluateTransition record now in
  match transition, ds_backlogGraceStartedAt record with
  | t_none _, _ | _, Some _ => transition
  | _, None =>
      let dueAtMs := if decide (ds_status record = armed) then ds_triggerAt record else ds_releaseAt record in
      if (now - dueAtMs <=? toleranceMs)%Z then transition
      else
        let windowEndMs := (now + DEADMAN_BACKLOG_GRACE_SECONDS * 1000)%Z in
        if (windowEndMs <=? ds_releaseAt record)%Z then transition
        else t_backlog_grace (with_status grace (with_release windowEndMs (Some now) record))
  end.

(** [None]: thrown, the switch is in a terminal status. *)
Definition applyCheckIn (record : DeadmanSwitchRecord) (now : Z) : option DeadmanSwitchRecord :=
  match ds_status record with
  | triggered | cancelled => None
  | armed | grace =>
      let '(triggerAt, releaseAt) :=
        computeDeadlines now (ds_checkInIntervalSeconds record) (ds_gracePeriodSeconds record) in
      Some (with_status armed (with_release releaseAt None (with_check_in now triggerAt record)))
  end.

(** The messages are the code's; [Some] is a refusal. *)
Inductive ArmRefusal : Set :=
  | bad_interval | bad_grace | no_recipients | too_many_recipients | empty_recipient | empty_payload.

Definition validateArmInput (checkInIntervalSeconds gracePeriodSeconds : Z) (recipients : list string)
    (encryptedPayload : string) : option ArmRefusal :=
  if (checkInIntervalSeconds <? MIN_CHECK_IN_INTERVAL_SECONDS)%Z
     || (MAX_CHECK_IN_INTERVAL_SECONDS <? checkInIntervalSeconds)%Z then Some bad_interval
  else if (gracePeriodSeconds <? MIN_GRACE_PERIOD_SECONDS)%Z
          || (MAX_GRACE_PERIOD_SECONDS <? gracePeriodSeconds)%Z then Some bad_grace
  else if (length recipients =? 0)%nat then Some no_recipients
  else if (MAX_RECIPIENTS <? length recipients)%nat then Some too_many_recipients
  else if existsb (fun entry => bool_decide (entry = "")) recipients then Some empty_recipient
  else if bool_decide (encryptedPayload = "") then Some empty_payload
  else None.

(** ** The table *)

Inductive DeadmanEvent : Type :=
  | ev_triggered (switchId ownerId : string) (recipients : list string)
  | ev_grace (switchId ownerId : string) (recipients : list string) (backlogRelease : option Z)
  | ev_checked_in (switchId ownerId : string)
  | ev_cancelled (switchId ownerId : string).

Record store : Type := mk_store {
  clock : Z;
  deadmanSwitches : jsmap DeadmanSwitchRecord;
  events : list DeadmanEvent;
}.

Definition emit (e : DeadmanEvent) (s : store) : store :=
  mk_store (clock s) (deadmanSwitches s) (events s ++ [e]).

Definition createDeadmanSwitch (input : DeadmanSwitchRecord) (s : store) : store :=
  let record := mk_switch (ds_id input) (ds_ownerId input) (ds_roomId input) (ds_status input)
    (ds_checkInIntervalSeconds input) (ds_gracePeriodSeconds input) (ds_lastCheckInAt input)
    (ds_triggerAt input) (ds_releaseAt input) (ds_recipients input) (ds_encryptedPayload input)
    (ds_headline input) (ds_backlogGraceStartedAt input) (clock s) (clock s) in
  mk_store (clock s) (set (ds_id record) record (deadmanSwitches s)) (events s).

Definition getDeadmanSwitch (id : string) (s : store) : option DeadmanSwitchRecord :=
  get id (deadmanSwitches s).

Definition listAllDeadmanSwitches (s : store) : list DeadmanSwitchRecord := values (deadmanSwitches s).

Definition listDeadmanSwitchesForOwner (ownerId : string) (s : store) : list DeadmanSwitchRecord :=
  List.filter (fun entry => bool_decide (ds_ownerId entry = ownerId)) (values (deadmanSwitches s)).

Definition listDeadmanSwitchesForRecipient (recipient : string) (s : store) : list DeadmanSwitchRecord :=
  List.filter (fun entry => bool_decide (recipient ∈ ds_recipients entry)) (values (deadmanSwitches s)).

(** [patch] is the object spread over the row. *)
Definition updateDeadmanSwitch (id : string) (patch : DeadmanSwitchRecord -> DeadmanSwitchRecord)
    (s : store) : store * option DeadmanSwitchRecord :=
  match get id (deadmanSwitches s) with
  | None => (s, None)
  | Some existing =>
      let next := with_updated (clock s) (patch existing) in
      (mk_store (clock s) (set id next (deadmanSwitches s)) (events s), Some next)
  end.

Definition setDeadmanSwitchStatus (id : string) (status : DeadmanSwitchStatus) :=
  updateDeadmanSwitch id (with_status status).

Definition eraseDeadmanSwitch (id : string) (s : store) : store * option DeadmanSwitchRecord :=
  match get id (deadmanSwitches s) with
  | None => (s, None)
  | Some record =>
      let r := with_headline None record in
      let r :=
        if decide (ds_status record = triggered) then r
        else with_release (ds_releaseAt r) None (with_payload "" (with_status cancelled r)) in
      let updated := with_updated (clock s) r in
      (mk_store (clock s) (set id updated (deadmanSwitches s)) (events s), Some updated)
  end.

(** ** modules/deadman.ts: the sweep *)

(** The body of the loop, for one row of the snapshot; the count it adds. *)
Definition sweep_one (now toleranceMs : Z) (record : DeadmanSwitchRecord) (s : store) : store * Z :=
  let advance (p : store * option DeadmanSwitchRecord) (event : DeadmanSwitchRecord -> DeadmanEvent) :=
    match p with
    | (s, None) => (s, 0%Z)
    | (s, Some updated) => (emit (event updated) s, 1%Z)
    end in
  match evaluateSweepTransition record now toleranceMs with
  | t_none _ => (s, 0%Z)
  | t_backlog_grace r =>
      advance
        (updateDeadmanSwitch (ds_id record)
           (fun e => with_status (ds_status r)
                       (with_release (ds_releaseAt r) (ds_backlogGraceStartedAt r) e)) s)
        (fun u => ev_grace (ds_id u) (ds_ownerId u) (ds_recipients u) (Some (ds_releaseAt u)))
  | t_triggered r =>
      advance (setDeadmanSwitchStatus (ds_id record) (ds_status r) s)
        (fun u => ev_triggered (ds_id u) (ds_ownerId u) (ds_recipients u))
  | t_grace r =>
      advance (setDeadmanSwitchStatus (ds_id record) (ds_status r) s)
        (fun u => ev_grace (ds_id u) (ds_ownerId u) (ds_recipients u) None)
  end.

Definition sweepOverdueDeadmanSwitches (now toleranceMs : Z) (s : store) : store * Z :=
  fold_left (fun acc record =>
      let '(s, processed) := acc in
      let '(s, n) := sweep_one now toleranceMs record s in (s, (processed + n)%Z))
    (listAllDeadmanSwitches s) (s, 0%Z).

Definition BACKLOG_TOLERANCE_FLOOR_MS : Z := 15 * 60 * 1000.
Definition BACKLOG_TOLERANCE_INTERVALS : Z := 10.
Definition backlogToleranceMs (intervalMs : Z) : Z :=
  Z.max BACKLOG_TOLERANCE_FLOOR_MS (BACKLOG_TOLERANCE_INTERVALS * intervalMs).

Definition DEFAULT_INTERVAL_MS : Z := 30 * 1000.

(** One tick of the scheduler's timer started with [intervalMs]. *)
Definition runDeadmanSweep (intervalMs : Z) (s : store) : store :=
  fst (sweepOverdueDeadmanSwitches (clock s) (backlogToleranceMs intervalMs) s).

(** ** modules/deadman.ts: the routes *)

Record OwnerView : Type := {
  ov_switchId : string;
  ov_status : DeadmanSwitchStatus;
  ov_lastCheckInAt : Z;
  ov_triggerAt : Z;
  ov_releaseAt : Z;
  ov_recipients : list string;
  ov_headline : option string;
  ov_encryptedPayload : option string;
}.

Definition recordToOwnerView (record : DeadmanSwitchRecord) : OwnerView := {|
  ov_switchId := ds_id record;
  ov_status := ds_status record;
  ov_lastCheckInAt := ds_lastCheckInAt record;
  ov_triggerAt := ds_triggerAt record;
  ov_releaseAt := ds_releaseAt record;
  ov_recipients := ds_recipients record;
  ov_headline := ds_headline record;
  ov_encryptedPayload := truthy (Some (ds_encryptedPayload record));
|}.

Record ReleasedSwitch : Type := {
  rs_switchId : string;
  rs_ownerId : string;
  rs_releaseAt : Z;
  rs_encryptedPayload : string;
}.

Definition recordToReleasedSwitch (record : DeadmanSwitchRecord) : ReleasedSwitch := {|
  rs_switchId := ds_id record;
  rs_ownerId := ds_ownerId record;
  rs_releaseAt := ds_releaseAt record;
  rs_encryptedPayload := ds_encryptedPayload record;
|}.

Inductive response : Type :=
  | r_denied
  | r_unauthorized
  | r_not_found
  | r_arming_unavailable
  | r_switch_triggered
  | r_switch_cancelled
  | r_owner (v : OwnerView)
  | r_released (v : ReleasedSwitch)
  | r_owned_list (l : list OwnerView)
  | r_released_list (l : list ReleasedSwitch).

Definition ownedSwitch (id subject : string) (s : store) : option DeadmanSwitchRecord :=
  match getDeadmanSwitch id s with
  | Some existing => if decide (ds_ownerId existing = subject) then Some existing else None
  | None => None
  end.

(** POST /switches *)
Definition post_switches (cap : bool) (s : store) : store * response :=
  if negb cap then (s, r_denied) else (s, r_arming_unavailable).

(** POST /switches/:id/check-in *)
Definition post_check_in (cap : bool) (subject : option string) (id : string) (s : store) : store * response :=
  if negb cap then (s, r_denied) else
  match truthy subject with
  | None => (s, r_unauthorized)
  | Some subject =>
      match ownedSwitch id subject s with
      | None => (s, r_not_found)
      | Some existing =>
          match ds_status existing with
          | triggered => (s, r_switch_triggered)
          | cancelled => (s, r_switch_cancelled)
          | _ =>
              match applyCheckIn existing (clock s) with
              | None => (s, r_not_found)
              | Some refreshed =>
                  match updateDeadmanSwitch id
                          (fun e => with_status (ds_status refreshed)
                             (with_release (ds_releaseAt refreshed) (ds_backlogGraceStartedAt refreshed)
                                (with_check_in (ds_lastCheckInAt refreshed) (ds_triggerAt refreshed) e))) s with
                  | (s, None) => (s, r_not_found)
                  | (s, Some updated) =>
                      (emit (ev_checked_in (ds_id updated) (ds_ownerId updated)) s,
                       r_owner (recordToOwnerView updated))
                  end
              end
          end
      end
  end.

(** POST /switches/:id/cancel *)
Definition post_cancel (cap : bool) (subject : option string) (id : string) (s : store) : store * response :=
  if negb cap then (s, r_denied) else
  match truthy subject with
  | None => (s, r_unauthorized)
  | Some subject =>
      match ownedSwitch id subject s with
      | None => (s, r_not_found)
      | Some existing =>
          match ds_status existing with
          | triggered => (s, r_switch_triggered)
          | cancelled =>
              let '(s, cleared) :=
                match truthy (Some (ds_encryptedPayload existing)) with
                | Some _ =>
                    match updateDeadmanSwitch id (with_payload "") s with
                    | (s, Some u) => (s, u)
                    | (s, None) => (s, existing)
                    end
                | None => (s, existing)
                end in
              (s, r_owner (recordToOwnerView cleared))
          | _ =>
              match updateDeadmanSwitch id (fun e => with_payload "" (with_status cancelled e)) s with
              | (s, None) => (s, r_not_found)
              | (s, Some updated) =>
                  (emit (ev_cancelled (ds_id updated) (ds_ownerId updated)) s,
                   r_owner (recordToOwnerView updated))
              end
          end
      end
  end.

(** GET /switches, for the owner's scope and the recipient's *)
Definition get_switches (cap : bool) (subject : option string) (recipient_scope : bool) (s : store) : response :=
  if negb cap then r_denied else
  match truthy subject with
  | None => r_unauthorized
  | Some subject =>
      if recipient_scope then
        r_released_list (map recordToReleasedSwitch
          (List.filter (fun record => bool_decide (ds_status record = triggered))
             (listDeadmanSwitchesForRecipient subject s)))
      else r_owned_list (map recordToOwnerView (listDeadmanSwitchesForOwner subject s))
  end.

(** GET /switches/:id *)
Definition get_switch (cap : bool) (subject : option string) (id : string) (s : store) : response :=
  if negb cap then r_denied else
  match truthy subject with
  | None => r_unauthorized
  | Some subject =>
      match getDeadmanSwitch id s with
      | None => r_not_found
      | Some existing =>
          if decide (ds_ownerId existing = subject) then r_owner (recordToOwnerView existing)
          else if decide (ds_status existing = triggered) then
            if bool_decide (subject ∈ ds_recipients existing)
            then r_released (recordToReleasedSwitch existing) else r_not_found
          else r_not_found
      end
  end.

(** ** Histories *)

Inductive action : Type :=
  | Tick (ms : N)
  | Sweep (intervalMs : Z)
  | CheckIn (cap : bool) (subject : option string) (id : string)
  | Cancel (cap : bool) (subject : option string) (id : string)
  | Arm (cap : bool)
  | Erase (id : string).

Definition act (a : action) (s : store) : store :=
  match a with
  | Tick ms => mk_store (clock s + Z.of_N ms) (deadmanSwitches s) (events s)
  | Sweep intervalMs => runDeadmanSweep intervalMs s
  | CheckIn cap subject id => fst (post_check_in cap subject id s)
  | Cancel cap subject id => fst (post_cancel cap subject id s)
  | Arm cap => fst (post_switches cap s)
  | Erase id => fst (eraseDeadmanSwitch id s)
  end.

Definition history (l : list action) (s : store) : store := fold_left (fun s a => act a s) l s.
