(* ===== verification/DeadManProofs.v ===== *)
(** * When a dead-man switch fires

    Over every history of ticks, sweeps, check-ins, cancels and erasures: a
    switch never fires before its owner has been silent for the whole interval
    and grace period, nobody but the owner and, once fired, the recipients sees
    what it holds, a sweep that was not running costs the owner nothing, and a
    silent owner's switch does fire. *)

From S2P Require Import Prelude JsMap DeadMan.
Open Scope Z_scope.

#[export] Instance switch_keyed : Keyed DeadmanSwitchRecord := ds_id.

(** ** Rows and what each action does to them *)

(** The end of the grace period after the last check-in. *)
Definition deadline (r : DeadmanSwitchRecord) : Z :=
  ds_lastCheckInAt r + (ds_checkInIntervalSeconds r + ds_gracePeriodSeconds r) * 1000.

Definition window_ms : Z := DEADMAN_BACKLOG_GRACE_SECONDS * 1000.

(** A row as [computeDeadlines] and the transitions leave it, at time [now]. *)
Definition row_ok (now : Z) (r : DeadmanSwitchRecord) : Prop :=
  0 <= ds_gracePeriodSeconds r /\
  ds_triggerAt r = ds_lastCheckInAt r + ds_checkInIntervalSeconds r * 1000 /\
  match ds_status r with
  | armed => ds_releaseAt r = deadline r /\ ds_backlogGraceStartedAt r = None
  | grace | triggered =>
      deadline r <= ds_releaseAt r /\
      match ds_backlogGraceStartedAt r with
      | None => ds_releaseAt r = deadline r
      | Some b => ds_releaseAt r = b + window_ms /\ b <= now
      end /\
      (ds_status r = triggered -> ds_releaseAt r <= now)
  | cancelled => True
  end.

Definition store_ok (s : store) : Prop :=
  keyed (deadmanSwitches s) /\
  forall id r, get id (deadmanSwitches s) = Some r -> row_ok (clock s) r.

(** What a sweep makes of one row. *)
Definition sweep_row (now toleranceMs ts : Z) (r : DeadmanSwitchRecord) : DeadmanSwitchRecord :=
  match evaluateSweepTransition r now toleranceMs with
  | t_none _ => r
  | t_grace r' | t_triggered r' => with_updated ts (with_status (ds_status r') r)
  | t_backlog_grace r' =>
      with_updated ts (with_status (ds_status r')
        (with_release (ds_releaseAt r') (ds_backlogGraceStartedAt r') r))
  end.

Lemma sweep_row_id now tol ts r : ds_id (sweep_row now tol ts r) = ds_id r.
Proof. unfold sweep_row. now destruct (evaluateSweepTransition r now tol). Qed.

Lemma updateDeadmanSwitch_some id f s r : get id (deadmanSwitches s) = Some r ->
  updateDeadmanSwitch id f s =
  (mk_store (clock s) (set id (with_updated (clock s) (f r)) (deadmanSwitches s)) (events s),
   Some (with_updated (clock s) (f r))).
Proof. intros E. unfold updateDeadmanSwitch. now rewrite E. Qed.

Lemma sweep_one_eq now tol r s : get (ds_id r) (deadmanSwitches s) = Some r ->
  clock (fst (sweep_one now tol r s)) = clock s /\
  forall id, get id (deadmanSwitches (fst (sweep_one now tol r s))) =
    if decide (ds_id r = id) then Some (sweep_row now tol (clock s) r)
    else get id (deadmanSwitches s).
Proof.
  intros E. unfold sweep_one, sweep_row, setDeadmanSwitchStatus.
  destruct (evaluateSweepTransition r now tol);
    rewrite ?(updateDeadmanSwitch_some _ _ _ _ E); cbn [fst clock deadmanSwitches emit];
    (split; [reflexivity|]); intros id; [|apply get_set..].
  destruct (decide (ds_id r = id)) as [<-|]; [exact E|reflexivity].
Qed.

Lemma sweep_fold now tol l : forall s n,
  List.NoDup (map ds_id l) ->
  (forall r, In r l -> get (ds_id r) (deadmanSwitches s) = Some r) ->
  let s' := fst (fold_left (fun acc record =>
      let '(s, processed) := acc in
      let '(s, n) := sweep_one now tol record s in (s, processed + n)) l (s, n)) in
  clock s' = clock s /\
  forall id, get id (deadmanSwitches s') =
    match List.find (fun r => bool_decide (ds_id r = id)) l with
    | Some r => Some (sweep_row now tol (clock s) r)
    | None => get id (deadmanSwitches s)
    end.
Proof.
  induction l as [|r l IH]; intros s n Hnd Hl; [split; reflexivity|]. cbn [fold_left].
  destruct (sweep_one_eq now tol r s (Hl r (or_introl eq_refl))) as [Ec Eg].
  destruct (sweep_one now tol r s) as [s1 n1]. cbn [fst] in Ec, Eg.
  cbn [map] in Hnd. apply NoDup_cons_iff in Hnd as [Hr Hnd].
  destruct (IH s1 (n + n1)) as [Ec' Eg']; [exact Hnd| |].
  { intros r' Hin. rewrite Eg. destruct (decide (ds_id r = ds_id r')) as [E|]; [|apply Hl; now right].
    exfalso. apply Hr. rewrite E. now apply in_map. }
  split; [congruence|]. intros id. rewrite Eg', Eg, Ec. cbn [List.find].
  destruct (List.find _ l) as [r'|] eqn:F.
  - apply find_some in F as [Hin Hid]. apply bool_decide_eq_true in Hid.
    case_bool_decide as Hid'; [|reflexivity]. exfalso. apply Hr. rewrite Hid', <- Hid. now apply in_map.
  - now case_bool_decide; destruct (decide (ds_id r = id)).
Qed.

(** A sweep rewrites every row by [sweep_row] and leaves the rest of the store alone. *)
Lemma sweep_rows now tol s : keyed (deadmanSwitches s) ->
  let s' := fst (sweepOverdueDeadmanSwitches now tol s) in
  clock s' = clock s /\
  forall id, get id (deadmanSwitches s') = sweep_row now tol (clock s) <$> get id (deadmanSwitches s).
Proof.
  intros Hk. unfold sweepOverdueDeadmanSwitches, listAllDeadmanSwitches.
  assert (Hl : forall r, In r (values (deadmanSwitches s)) -> get (ds_id r) (deadmanSwitches s) = Some r).
  { intros r Hin. exact (keyed_in _ _ Hk Hin). }
  destruct (sweep_fold now tol (values (deadmanSwitches s)) s 0) as [Ec Eg]; [|exact Hl|].
  { destruct Hk as [Hnd Hf]. replace (map ds_id (values (deadmanSwitches s))) with (keys (deadmanSwitches s)); [exact Hnd|].
    unfold values, keys. rewrite map_map. apply map_ext_in. intros kv Hin.
    rewrite Forall_forall in Hf. apply Hf. now apply list_elem_of_In. }
  split; [exact Ec|]. intros id. rewrite Eg.
  destruct (List.find _ _) as [r|] eqn:F.
  - apply find_some in F as [Hin Hid]. apply bool_decide_eq_true in Hid. rewrite <- Hid, (Hl r Hin). reflexivity.
  - destruct (get id (deadmanSwitches s)) as [r|] eqn:G; [|reflexivity].
    exfalso. pose proof (find_none _ _ F r (get_in_values _ _ _ G)) as Hn.
    apply bool_decide_eq_false in Hn. apply Hn. symmetry. exact (keyed_get _ _ _ Hk G).
Qed.

Lemma set_row_keyed (s : store) id r r' : keyed (deadmanSwitches s) ->
  get id (deadmanSwitches s) = Some r -> ds_id r' = ds_id r -> keyed (set id r' (deadmanSwitches s)).
Proof.
  intros Hk E Hid. pose proof (keyed_get _ _ _ Hk E) as Ek.
  replace id with (keyof r') by (unfold keyof, switch_keyed in *; congruence). now apply keyed_set.
Qed.

Lemma update_keyed id f s : (forall r, ds_id (f r) = ds_id r) ->
  keyed (deadmanSwitches s) -> keyed (deadmanSwitches (fst (updateDeadmanSwitch id f s))).
Proof.
  intros Hf Hk. unfold updateDeadmanSwitch. destruct (get id (deadmanSwitches s)) eqn:E; [|exact Hk].
  eapply set_row_keyed; [exact Hk|exact E|apply Hf].
Qed.

Lemma sweep_one_keyed now tol r s :
  keyed (deadmanSwitches s) -> keyed (deadmanSwitches (fst (sweep_one now tol r s))).
Proof.
  intros Hk. unfold sweep_one, setDeadmanSwitchStatus. cbv zeta beta.
  destruct (evaluateSweepTransition r now tol); [exact Hk|..];
    match goal with |- context [updateDeadmanSwitch ?id ?f s] =>
      pose proof (update_keyed id f s ltac:(reflexivity) Hk) as Hk';
      destruct (updateDeadmanSwitch id f s) as [s' [u|]]; exact Hk'
    end.
Qed.

Lemma sweep_keyed now tol s :
  keyed (deadmanSwitches s) -> keyed (deadmanSwitches (fst (sweepOverdueDeadmanSwitches now tol s))).
Proof.
  unfold sweepOverdueDeadmanSwitches. generalize (listAllDeadmanSwitches s) as l. intros l.
  revert s. generalize 0 as n. induction l as [|r l IH]; intros n s Hk; [exact Hk|]. cbn [fold_left].
  pose proof (sweep_one_keyed now tol r s Hk) as Hk'.
  destruct (sweep_one now tol r s) as [s' n']. now apply IH.
Qed.

(** ** A check-in, a cancel and an erasure, row by row *)

Definition checked_in (now ts : Z) (r : DeadmanSwitchRecord) : DeadmanSwitchRecord :=
  let deadlines := computeDeadlines now (ds_checkInIntervalSeconds r) (ds_gracePeriodSeconds r) in
  with_updated ts (with_status armed (with_release (snd deadlines) None (with_check_in now (fst deadlines) r))).

Definition cancelled_row (ts : Z) (r : DeadmanSwitchRecord) : DeadmanSwitchRecord :=
  with_updated ts (with_payload "" (with_status cancelled r)).

Definition erased_row (ts : Z) (r : DeadmanSwitchRecord) : DeadmanSwitchRecord :=
  let r := with_headline None r in
  with_updated ts
    (if decide (ds_status r = triggered) then r
     else with_release (ds_releaseAt r) None (with_payload "" (with_status cancelled r))).

(** What an action other than a tick or a sweep can do to the table: replace one
    row, of a switch its caller owns, or nothing. *)
Inductive rewrites (s : store) (id : string) (r r' : DeadmanSwitchRecord) : action -> Prop :=
  | rw_check_in cap user :
      (ds_status r = armed \/ ds_status r = grace) -> ds_ownerId r = user ->
      r' = checked_in (clock s) (clock s) r -> rewrites s id r r' (CheckIn cap (Some user) id)
  | rw_cancel cap user :
      (ds_status r <> triggered) -> ds_ownerId r = user ->
      r' = cancelled_row (clock s) r \/ (ds_status r = cancelled /\ r' = with_updated (clock s) (with_payload "" r)) ->
      rewrites s id r r' (Cancel cap (Some user) id)
  | rw_erase : r' = erased_row (clock s) r -> rewrites s id r r' (Erase id).

Lemma ownedSwitch_some id u s r : ownedSwitch id u s = Some r ->
  get id (deadmanSwitches s) = Some r /\ ds_ownerId r = u.
Proof.
  unfold ownedSwitch, getDeadmanSwitch. destruct (get id (deadmanSwitches s)) as [x|]; [|discriminate].
  destruct (decide (ds_ownerId x = u)); [|discriminate]. intros [= ->]. auto.
Qed.

Lemma act_row a s : (forall ms, a <> Tick ms) -> (forall i, a <> Sweep i) ->
  clock (act a s) = clock s /\
  (deadmanSwitches (act a s) = deadmanSwitches s \/
   exists id r r', get id (deadmanSwitches s) = Some r /\
     deadmanSwitches (act a s) = set id r' (deadmanSwitches s) /\ rewrites s id r r' a).
Proof.
  intros Ht Hs. destruct a as [ms|i|cap subject id|cap subject id|cap|id]; [now destruct (Ht ms)|now destruct (Hs i)|..];
    cbn [act].
  - unfold post_check_in. destruct cap; [|auto]. cbn [negb].
    destruct (truthy subject) as [u|] eqn:Eu; [|auto]. apply truthy_some in Eu as ->.
    destruct (ownedSwitch id u s) as [r|] eqn:Eo; [|auto]. apply ownedSwitch_some in Eo as [E Hu].
    destruct (ds_status r) eqn:Est; [| |auto..]; unfold applyCheckIn; rewrite Est; cbn [computeDeadlines];
      rewrite (updateDeadmanSwitch_some _ _ _ _ E); (split; [reflexivity|]); right;
      exists id, r; eexists; (split; [exact E|]); (split; [reflexivity|]);
      apply rw_check_in; auto.
  - unfold post_cancel. destruct cap; [|auto]. cbn [negb].
    destruct (truthy subject) as [u|] eqn:Eu; [|auto]. apply truthy_some in Eu as ->.
    destruct (ownedSwitch id u s) as [r|] eqn:Eo; [|auto]. apply ownedSwitch_some in Eo as [E Hu].
    destruct (ds_status r) eqn:Est; [| |auto|];
      [..|destruct (truthy (Some (ds_encryptedPayload r))); [|auto]];
      rewrite (updateDeadmanSwitch_some _ _ _ _ E); (split; [reflexivity|]); right;
      exists id, r; eexists; (split; [exact E|]); (split; [reflexivity|]);
      (apply rw_cancel; [congruence|exact Hu|auto]).
  - unfold post_switches. destruct cap; auto.
  - unfold eraseDeadmanSwitch. destruct (get id (deadmanSwitches s)) as [r|] eqn:E; [|auto].
    split; [reflexivity|]. right. exists id, r; eexists; (split; [exact E|]); (split; [reflexivity|]).
    now apply rw_erase.
Qed.

Lemma rewrites_id s id r r' a : rewrites s id r r' a -> ds_id r' = ds_id r.
Proof.
  intros []; subst; [reflexivity| |].
  - destruct H1 as [->|[_ ->]]; reflexivity.
  - unfold erased_row. now destruct (decide _).
Qed.

(** ** Well-formed stores stay so *)

Lemma row_ok_later now now' r : now <= now' -> row_ok now r -> row_ok now' r.
Proof.
  intros Hle (H1 & H2 & H3). split; [exact H1|]. split; [exact H2|].
  destruct (ds_status r); try exact H3; destruct H3 as (A & B & C); (split; [exact A|]);
    (split; [destruct (ds_backlogGraceStartedAt r); [lia|exact B]|]); intros E; specialize (C E); lia.
Qed.

Lemma row_ok_updated now ts r : row_ok now (with_updated ts r) <-> row_ok now r.
Proof. reflexivity. Qed.

(** When the sweep should act on a live switch. *)
Definition due_at (r : DeadmanSwitchRecord) : Z :=
  if decide (ds_status r = armed) then ds_triggerAt r else ds_releaseAt r.

Lemma due_at_armed r : ds_status r = armed -> due_at r = ds_triggerAt r.
Proof. intros E. unfold due_at. now rewrite decide_True. Qed.
Lemma due_at_grace r : ds_status r = grace -> due_at r = ds_releaseAt r.
Proof. intros E. unfold due_at. rewrite decide_False; [reflexivity|congruence]. Qed.

Definition live (r : DeadmanSwitchRecord) : Prop := ds_status r = armed \/ ds_status r = grace.

(** The four things a sweep can do with a row. *)
Inductive swept (now tol ts : Z) (r : DeadmanSwitchRecord) : DeadmanSwitchRecord -> Prop :=
  | sw_stays : ~ live r \/ now < due_at r -> swept now tol ts r r
  | sw_grace : ds_status r = armed -> ds_triggerAt r <= now < ds_releaseAt r ->
      ds_backlogGraceStartedAt r <> None \/ now - due_at r <= tol \/ now + window_ms <= ds_releaseAt r ->
      swept now tol ts r (with_updated ts (with_status grace r))
  | sw_fires : live r -> due_at r <= now ->
      ds_gracePeriodSeconds r <= 0 /\ ds_status r = armed \/ ds_releaseAt r <= now ->
      ds_backlogGraceStartedAt r <> None \/ now - due_at r <= tol \/ now + window_ms <= ds_releaseAt r ->
      swept now tol ts r (with_updated ts (with_status triggered r))
  | sw_backlog : live r -> due_at r <= now -> ds_backlogGraceStartedAt r = None ->
      tol < now - due_at r -> ds_releaseAt r < now + window_ms ->
      swept now tol ts r
        (with_updated ts (with_status grace (with_release (now + window_ms) (Some now) r))).

Lemma sweep_row_swept now tol ts r : swept now tol ts r (sweep_row now tol ts r).
Proof.
  assert (B : forall t r', (t = t_grace r' /\ ds_status r' = grace /\ ds_status r = armed /\ ds_triggerAt r <= now < ds_releaseAt r
      \/ t = t_triggered r' /\ ds_status r' = triggered /\ live r /\ due_at r <= now /\
         (ds_gracePeriodSeconds r <= 0 /\ ds_status r = armed \/ ds_releaseAt r <= now)) ->
    swept now tol ts r
      match (match ds_backlogGraceStartedAt r with
             | Some _ => t
             | None =>
                 if now - due_at r <=? tol then t
                 else if now + window_ms <=? ds_releaseAt r then t
                 else t_backlog_grace (with_status grace (with_release (now + window_ms) (Some now) r))
             end) with
      | t_none _ => r
      | t_grace r' | t_triggered r' => with_updated ts (with_status (ds_status r') r)
      | t_backlog_grace r' =>
          with_updated ts (with_status (ds_status r')
            (with_release (ds_releaseAt r') (ds_backlogGraceStartedAt r') r))
      end).
  { intros t r' [(-> & Hs & Ha & Ht)|(-> & Hs & Hl & Hd & Hr)].
    - assert (Hd : due_at r <= now) by (unfold due_at; rewrite Ha; exact (proj1 Ht)).
      destruct (ds_backlogGraceStartedAt r) eqn:Eb; [rewrite Hs; apply sw_grace; auto; left; congruence|].
      destruct (Z.leb_spec (now - due_at r) tol); [rewrite Hs; apply sw_grace; auto|].
      destruct (Z.leb_spec (now + window_ms) (ds_releaseAt r)); [rewrite Hs; apply sw_grace; auto|].
      apply sw_backlog; auto. now left.
    - destruct (ds_backlogGraceStartedAt r) eqn:Eb; [rewrite Hs; apply sw_fires; auto; left; congruence|].
      destruct (Z.leb_spec (now - due_at r) tol); [rewrite Hs; apply sw_fires; auto|].
      destruct (Z.leb_spec (now + window_ms) (ds_releaseAt r)); [rewrite Hs; apply sw_fires; auto|].
      now apply sw_backlog. }
  unfold sweep_row, evaluateSweepTransition, evaluateTransition.
  destruct (ds_status r) eqn:Est.
  - destruct (Z.ltb_spec now (ds_triggerAt r)) as [|Ht]; [apply sw_stays; right; unfold due_at; now rewrite Est|].
    destruct (Z.leb_spec (ds_gracePeriodSeconds r) 0) as [Hg|Hg]; cbn [orb];
      [|destruct (Z.leb_spec (ds_releaseAt r) now) as [Hr|Hr]];
      pose proof (B (t_triggered (with_status triggered r)) (with_status triggered r)) as B1;
      pose proof (B (t_grace (with_status grace r)) (with_status grace r)) as B2;
      unfold due_at, live in *; rewrite Est in *; cbn in *;
      destruct (ds_backlogGraceStartedAt r); (apply B1 || apply B2);
      first [left; now repeat split; auto; lia | right; now repeat split; auto].
  - destruct (Z.ltb_spec now (ds_releaseAt r)) as [|Hr]; [apply sw_stays; right; unfold due_at; now rewrite Est|].
    pose proof (B (t_triggered (with_status triggered r)) (with_status triggered r)) as B1.
    unfold due_at, live in *; rewrite Est in *; cbn in *.
    destruct (ds_backlogGraceStartedAt r); apply B1; right; now repeat split; auto.
  - apply sw_stays. left. intros []; congruence.
  - apply sw_stays. left. intros []; congruence.
Qed.

Lemma sweep_row_ok now tol ts r : row_ok now r -> row_ok now (sweep_row now tol ts r).
Proof.
  intros Hok. pose proof Hok as (Hg & Ht & Hst).
  assert (W : 0 < window_ms) by reflexivity.
  destruct (sweep_row_swept now tol ts r) as [_|Ha Hn _|Hl Hd Hr _|Hl Hd Hb Hlate Hr]; [exact Hok|..];
    (split; [exact Hg|]); (split; [exact Ht|]); cbn -[deadline window_ms].
  - rewrite Ha in Hst. destruct Hst as [Hrel ->]. split; [rewrite Hrel; unfold deadline; cbn; lia|]. split; [exact Hrel|discriminate].
  - change (deadline (with_updated ts (with_status triggered r))) with (deadline r).
    destruct Hl as [E|E]; rewrite E in Hst;
      [rewrite (due_at_armed r E) in Hd|rewrite (due_at_grace r E) in Hd].
    + destruct Hst as [Hrel ->]. split; [lia|]. split; [exact Hrel|]. intros _.
      unfold deadline in Hrel. destruct Hr as [[Hg0 _]|]; lia.
    + destruct Hst as (Hrel & Hb & _). split; [exact Hrel|]. split; [exact Hb|]. intros _. exact Hd.
  - change (deadline (with_updated ts (with_status grace (with_release (now + window_ms) (Some now) r)))) with (deadline r).
    split; [|split; [lia|discriminate]].
    destruct Hl as [E|E]; rewrite E in Hst; [destruct Hst as [Hrel _]|destruct Hst as (Hrel & _)]; lia.
Qed.

Lemma rewrites_ok s id r r' a : row_ok (clock s) r -> rewrites s id r r' a -> row_ok (clock s) r'.
Proof.
  intros (Hg & Ht & Hst) Hw. destruct Hw as [cap u Hs Hu E|cap u Hs Hu Hr|E]; try subst r'.
  - repeat split; exact Hg.
  - destruct Hr as [->|[E ->]]; [repeat split; [exact Hg|exact Ht]|].
    split; [exact Hg|]. split; [exact Ht|]. cbn. now rewrite E.
  - unfold erased_row. cbn. destruct (decide (ds_status r = triggered)) as [E|E].
    + split; [exact Hg|]. split; [exact Ht|]. exact Hst.
    + repeat split; [exact Hg|exact Ht].
Qed.

(** Every action is a tick, a sweep, or a change of at most one row. *)
Lemma act_cases a s : store_ok s ->
  (exists ms, a = Tick ms /\ deadmanSwitches (act a s) = deadmanSwitches s /\ clock s <= clock (act a s)) \/
  (exists i, a = Sweep i /\ clock (act a s) = clock s /\
     forall id, get id (deadmanSwitches (act a s)) =
       sweep_row (clock s) (backlogToleranceMs i) (clock s) <$> get id (deadmanSwitches s)) \/
  ((forall i, a <> Sweep i) /\ clock (act a s) = clock s /\
   (deadmanSwitches (act a s) = deadmanSwitches s \/
    exists id r r', get id (deadmanSwitches s) = Some r /\
      deadmanSwitches (act a s) = set id r' (deadmanSwitches s) /\ rewrites s id r r' a)).
Proof.
  intros [Hk Hr]. destruct a as [ms|i| | | | ];
    [|right; left; exists i; split; [reflexivity|]; exact (sweep_rows _ _ s Hk)
     |right; right; split; [discriminate|]; apply act_row; discriminate..].
  left. exists ms. repeat split. cbn [act clock]. lia.
Qed.

Lemma clock_act a s : store_ok s -> clock s <= clock (act a s).
Proof.
  intros Hok. destruct (act_cases a s Hok) as [(ms & _ & _ & Ec)|[(i & _ & Ec & _)|(_ & Ec & _)]]; lia.
Qed.

Lemma act_ok a s : store_ok s -> store_ok (act a s).
Proof.
  intros Hok. pose proof Hok as [Hk Hr].
  destruct (act_cases a s Hok) as [(ms & -> & Ed & Ec)|[(i & -> & Ec & Eg)|(_ & Ec & [Ed|(id & r & r' & E & Ed & Hw)])]].
  - split; [now rewrite Ed|]. rewrite Ed. intros id r E. eapply row_ok_later; [exact Ec|]. eauto.
  - split; [apply sweep_keyed, Hk|]. intros id r'. rewrite Eg, Ec.
    destruct (get id (deadmanSwitches s)) as [r|] eqn:E; [|discriminate]. intros [= <-].
    apply sweep_row_ok. eauto.
  - split; [now rewrite Ed|]. rewrite Ed, Ec. exact Hr.
  - split.
    + rewrite Ed. eapply set_row_keyed; [exact Hk|exact E|]. eapply rewrites_id, Hw.
    + rewrite Ed, Ec. intros id' x. rewrite get_set. destruct (decide (id = id')) as [<-|].
      * intros [= <-]. eapply rewrites_ok; [|exact Hw]. eauto.
      * eauto.
Qed.

Lemma history_ok l s : store_ok s -> store_ok (history l s).
Proof. revert s. induction l as [|a l IH]; intros s Hs; [exact Hs|]. apply IH, act_ok, Hs. Qed.

Lemma clock_history l s : store_ok s -> clock s <= clock (history l s).
Proof.
  revert s. induction l as [|a l IH]; intros s Hs; [reflexivity|].
  etransitivity; [apply clock_act, Hs|]. apply IH, act_ok, Hs.
Qed.

(** ** A switch whose owner is silent *)

(** The action is not one of the owner's on this switch, nor the erasure of it. *)
Definition quiet (id owner : string) (a : action) : Prop :=
  match a with
  | CheckIn _ (Some u) i | Cancel _ (Some u) i => i <> id \/ u <> owner
  | Erase i => i <> id
  | _ => True
  end.

(** What neither time nor a sweep changes. *)
Definition static (r r' : DeadmanSwitchRecord) : Prop :=
  ds_id r' = ds_id r /\ ds_ownerId r' = ds_ownerId r /\ ds_recipients r' = ds_recipients r /\
  ds_encryptedPayload r' = ds_encryptedPayload r /\ ds_triggerAt r' = ds_triggerAt r /\
  deadline r' = deadline r.

Lemma static_refl r : static r r.
Proof. repeat split. Qed.

Lemma static_trans r1 r2 r3 : static r1 r2 -> static r2 r3 -> static r1 r3.
Proof. unfold static. intros (? & ? & ? & ? & ? & ?) (? & ? & ? & ? & ? & ?). repeat split; congruence. Qed.

Lemma swept_static now tol ts r r' : swept now tol ts r r' -> static r r'.
Proof. intros []; repeat split. Qed.

Lemma quiet_row a s id r : store_ok s -> get id (deadmanSwitches s) = Some r ->
  quiet id (ds_ownerId r) a ->
  exists r', get id (deadmanSwitches (act a s)) = Some r' /\ static r r' /\
    ((r' = r /\ (forall i, a <> Sweep i)) \/
     exists i, a = Sweep i /\ clock (act a s) = clock s /\
       swept (clock s) (backlogToleranceMs i) (clock s) r r').
Proof.
  intros Hok E Hq.
  destruct (act_cases a s Hok) as [(ms & -> & Ed & Ec)|[(i & -> & Ec & Eg)|(Hns & Ec & Hd)]].
  - exists r. rewrite Ed. split; [exact E|]. split; [apply static_refl|]. left. split; [easy|discriminate].
  - rewrite Eg, E. eexists; split; [reflexivity|]. pose proof (sweep_row_swept (clock s) (backlogToleranceMs i) (clock s) r) as W.
    split; [eapply swept_static, W|]. right. exists i. auto.
  - exists r. split; [|split; [apply static_refl|now left]].
    destruct Hd as [->|(id' & r0 & r1 & E0 & -> & Hw)]; [exact E|].
    rewrite get_set_ne; [exact E|]. intros ->. rewrite E in E0. injection E0 as <-.
    destruct Hw as [cap u Hs Hu|cap u Hs Hu Hr|Hr]; cbn in Hq; [destruct Hq; congruence..|congruence].
Qed.

(** Induction along a silent history. *)
Lemma quiet_history (P : Z -> DeadmanSwitchRecord -> Prop) (sched : Z -> Prop) h : forall s id r,
  (forall now now' r, now <= now' -> P now r -> P now' r) ->
  (forall i now r r', sched i -> swept now (backlogToleranceMs i) now r r' ->
     row_ok now r -> static r r' -> P now r -> P now r') ->
  Forall (fun a => quiet id (ds_ownerId r) a /\ forall i, a = Sweep i -> sched i) h ->
  store_ok s -> get id (deadmanSwitches s) = Some r -> P (clock s) r ->
  exists r', get id (deadmanSwitches (history h s)) = Some r' /\ static r r' /\
    P (clock (history h s)) r'.
Proof.
  induction h as [|a h IH]; intros s id r Hmono Hstep Hq Hok E HP.
  { exists r. split; [exact E|]. split; [apply static_refl|exact HP]. }
  apply Forall_cons_1 in Hq as [[Ha Hs] Hq].
  destruct (quiet_row a s id r Hok E Ha) as (r1 & E1 & S1 & H1).
  assert (P1 : P (clock (act a s)) r1).
  { destruct H1 as [[-> _]|(i & -> & Ec & W)].
    - eapply Hmono; [apply clock_act, Hok|exact HP].
    - rewrite Ec. eapply Hstep; eauto. destruct Hok as [_ Hr]. eauto. }
  destruct (IH (act a s) id r1 Hmono Hstep) as (r' & E' & S' & P'); auto using act_ok.
  { destruct S1 as (_ & -> & _). exact Hq. }
  exists r'. split; [exact E'|]. split; [eapply static_trans; eauto|exact P'].
Qed.

(** ** The guarantees *)

(** C23 (safety): a switch never fires early and never shows what it holds to the wrong person.  After
    any history of ticks, sweeps, check-ins, cancels and erasures, of any users, a triggered
    switch's owner has not checked in for at least the whole check-in interval and grace period,
    and where an outage gave it a backlog window that window of 72 hours is over; and a user other
    than the owner gets the payload only from a triggered switch that names them, neither by its
    address nor in the list for recipients otherwise. *)
Theorem release_never_early hist s0 id r :
  store_ok s0 ->
  let s := history hist s0 in
  get id (deadmanSwitches s) = Some r ->
  (ds_status r = triggered ->
     deadline r <= clock s /\
     forall b, ds_backlogGraceStartedAt r = Some b -> b + 72 * 60 * 60 * 1000 <= clock s) /\
  (forall u, u <> ds_ownerId r -> ds_status r <> triggered \/ ~ In u (ds_recipients r) ->
     (forall v, get_switch true (Some u) id s <> r_released v /\ get_switch true (Some u) id s <> r_owner (recordToOwnerView r)) /\
     forall l, get_switches true (Some u) true s = r_released_list l -> ~ In id (map rs_switchId l)).
Proof.
  intros Hok s E. pose proof (history_ok hist s0 Hok) as [Hk Hr]. fold s in Hk, Hr.
  split.
  - intros Ht. destruct (Hr id r E) as (_ & _ & Hst). rewrite Ht in Hst.
    destruct Hst as (Hd & Hb & Hn). specialize (Hn eq_refl). split; [lia|].
    intros b Eb. rewrite Eb in Hb. destruct Hb as [Hb _]. unfold window_ms, DEADMAN_BACKLOG_GRACE_SECONDS in Hb. lia.
  - intros u Hu Hno. split.
    + intros v. unfold get_switch, getDeadmanSwitch. cbn [negb]. destruct (truthy (Some u)) as [u'|] eqn:Eu;
        [|split; discriminate]. apply truthy_some in Eu as [= <-]. rewrite E.
      destruct (decide (ds_ownerId r = u)); [congruence|].
      destruct (decide (ds_status r = triggered)); [|split; discriminate].
      case_bool_decide as Hin; [|split; discriminate]. rewrite list_elem_of_In in Hin. tauto.
    + intros l. unfold get_switches. cbn [negb]. destruct (truthy (Some u)) as [u'|] eqn:Eu; [|discriminate].
      apply truthy_some in Eu as [= <-]. intros [= <-]. rewrite map_map. cbn [recordToReleasedSwitch rs_switchId].
      intros Hin. apply in_map_iff in Hin as (x & Ex & Hin).
      apply filter_In in Hin as [Hin Ht]. apply filter_In in Hin as [Hin Hrec].
      apply bool_decide_eq_true in Ht, Hrec. rewrite list_elem_of_In in Hrec.
      pose proof (keyed_in _ _ Hk Hin) as G. unfold keyof, switch_keyed in G. rewrite Ex, E in G.
      injection G as <-. tauto.
Qed.

(** Where a live switch stands at or after its deadline once a sweep has seen it. *)
Definition due_soon (c : Z) (r : DeadmanSwitchRecord) : Prop :=
  ds_status r = triggered \/
  (ds_status r = grace /\ exists b, ds_backlogGraceStartedAt r = Some b /\
     ds_releaseAt r = b + window_ms /\ b <= c).

Lemma sweep_past_deadline c tol r r' : live r -> row_ok c r -> deadline r <= c ->
  swept c tol c r r' -> due_soon c r'.
Proof.
  intros Hl (Hg & Ht & Hst) Hd [[Hnl|Hn]|Ha Hn _|_ _ _ _|_ _ _ _ _]; [contradiction|..].
  - destruct Hl as [E|E]; rewrite E in Hst.
    + rewrite (due_at_armed r E) in Hn. unfold deadline in Hd. lia.
    + rewrite (due_at_grace r E) in Hn. destruct Hst as (_ & Hb & _).
      destruct (ds_backlogGraceStartedAt r) as [b|] eqn:Eb; [|lia].
      right. split; [exact E|]. exists b. destruct Hb. auto.
  - rewrite Ha in Hst. lia.
  - now left.
  - right. split; [reflexivity|]. exists c. cbn. repeat split; lia.
Qed.

Lemma due_soon_swept c now tol r r' : swept now tol now r r' -> due_soon c r -> due_soon c r'.
Proof.
  intros W [Ht|(Hg & b & Hb & Hrel & Hc)].
  - destruct W as [_|Ha _ _|Hl _ _ _|Hl _ _ _ _]; [now left|congruence| |];
      destruct Hl; congruence.
  - destruct W as [_|Ha _ _|_ _ _ _|_ _ Hn _ _]; [|congruence|now left|congruence].
    right. split; [exact Hg|]. exists b. auto.
Qed.

Lemma due_soon_fires c now tol r r' : swept now tol now r r' -> due_soon c r ->
  c + window_ms <= now -> ds_status r' = triggered.
Proof.
  intros W [Ht|(Hg & b & Hb & Hrel & Hc)] Hn.
  - destruct W as [_|Ha _ _|Hl _ _ _|Hl _ _ _ _]; [exact Ht|congruence| |]; destruct Hl; congruence.
  - destruct W as [[Hnl|Hn']|Ha _ _|_ _ _ _|_ _ Hn' _ _]; [|rewrite (due_at_grace r Hg) in Hn'; lia|congruence|reflexivity|congruence].
    exfalso. apply Hnl. now right.
Qed.

Lemma swept_triggered now tol ts r r' : swept now tol ts r r' -> ds_status r = triggered -> r' = r.
Proof. intros [_|Ha _ _|Hl _ _ _|Hl _ _ _ _] Ht; [reflexivity|congruence| |]; destruct Hl; congruence. Qed.

(** Nothing takes a release back. *)
Lemma triggered_stays h : forall s id r, store_ok s -> get id (deadmanSwitches s) = Some r ->
  ds_status r = triggered ->
  exists r', get id (deadmanSwitches (history h s)) = Some r' /\ static r r' /\ ds_status r' = triggered.
Proof.
  induction h as [|a h IH]; intros s id r Hok E Ht.
  { exists r. split; [exact E|]. split; [apply static_refl|exact Ht]. }
  assert (H1 : exists r1, get id (deadmanSwitches (act a s)) = Some r1 /\ static r r1 /\ ds_status r1 = triggered).
  { destruct (act_cases a s Hok) as [(ms & -> & Ed & Ec)|[(i & -> & Ec & Eg)|(Hns & Ec & Hd)]].
    - exists r. rewrite Ed. split; [exact E|]. split; [apply static_refl|exact Ht].
    - exists r. split; [|split; [apply static_refl|exact Ht]]. rewrite Eg, E.
      exact (f_equal Some (swept_triggered _ _ _ _ _ (sweep_row_swept _ _ _ r) Ht)).
    - destruct Hd as [->|(id' & r0 & r1 & E0 & -> & Hw)];
        [exists r; split; [exact E|]; split; [apply static_refl|exact Ht]|].
      rewrite get_set. destruct (decide (id' = id)) as [->|];
        [|exists r; split; [exact E|]; split; [apply static_refl|exact Ht]].
      rewrite E in E0. injection E0 as <-. exists r1. split; [reflexivity|].
      destruct Hw as [cap u Hs Hu Er|cap u Hs Hu Hr|Er]; [destruct Hs; congruence|congruence|].
      subst r1. unfold erased_row. cbn. rewrite decide_True by exact Ht. split; [repeat split|exact Ht]. }
  destruct H1 as (r1 & E1 & S1 & T1).
  destruct (IH (act a s) id r1 (act_ok a s Hok) E1 T1) as (r' & E' & S' & T').
  exists r'. split; [exact E'|]. split; [eapply static_trans; eauto|exact T'].
Qed.

Lemma released_view s id r u : get id (deadmanSwitches s) = Some r -> ds_status r = triggered ->
  In u (ds_recipients r) -> u <> "" -> u <> ds_ownerId r ->
  get_switch true (Some u) id s = r_released (recordToReleasedSwitch r).
Proof.
  intros E Ht Hin Hu Hne. unfold get_switch, getDeadmanSwitch, truthy. cbn [negb].
  rewrite decide_False, E by exact Hu. rewrite decide_False by congruence.
  rewrite decide_True by exact Ht. rewrite bool_decide_eq_true_2; [reflexivity|].
  now apply list_elem_of_In.
Qed.

Definition not_cancelled (r : DeadmanSwitchRecord) : Prop := live r \/ ds_status r = triggered.

Lemma swept_not_cancelled now tol r r' : swept now tol now r r' -> not_cancelled r -> not_cancelled r'.
Proof.
  intros [] H'; [exact H'| | |].
  - left. now right.
  - now right.
  - left. now right.
Qed.

(** C24 (liveness): a silent owner's switch fires.  Whatever sweeps, ticks and actions on other
    switches happen in between, once a sweep has run at or after the switch's deadline and another
    at least 72 hours later, the switch is triggered, its payload is the one the owner left, every
    recipient it names can read it, and no later action, of anyone, takes that back: a sweep that
    did not run for a while delays the release by at most the one backlog window. *)
Theorem release_happens s0 id r h1 i1 h2 i2 h3 :
  store_ok s0 -> get id (deadmanSwitches s0) = Some r -> live r ->
  Forall (quiet id (ds_ownerId r)) h1 -> Forall (quiet id (ds_ownerId r)) h2 ->
  let s1 := history h1 s0 in
  let s2 := history h2 (act (Sweep i1) s1) in
  let s := history h3 (act (Sweep i2) s2) in
  deadline r <= clock s1 -> clock s1 + 72 * 60 * 60 * 1000 <= clock s2 ->
  exists r', get id (deadmanSwitches s) = Some r' /\ ds_status r' = triggered /\
    forall u, In u (ds_recipients r) -> u <> "" -> u <> ds_ownerId r ->
      exists v, get_switch true (Some u) id s = r_released v /\
        rs_encryptedPayload v = ds_encryptedPayload r.
Proof.
  intros Hok E Hl Q1 Q2 s1 s2 s Hd Hw.
  assert (Free : forall h, Forall (quiet id (ds_ownerId r)) h ->
    Forall (fun a => quiet id (ds_ownerId r) a /\ forall i, a = Sweep i -> True) h)
    by (intros h Q; eapply Forall_impl; [exact Q|]; auto).
  destruct (quiet_history (fun _ => not_cancelled) (fun _ => True) h1 s0 id r) as (r1 & E1 & S1 & P1); auto.
  { intros i now x x' _ W _ _ H. eapply swept_not_cancelled; eauto. }
  { now left. }
  fold s1 in E1. pose proof (history_ok h1 s0 Hok) as Hok1. fold s1 in Hok1.
  assert (Q1' : quiet id (ds_ownerId r1) (Sweep i1)) by exact I.
  destruct (quiet_row (Sweep i1) s1 id r1 Hok1 E1 Q1') as (r2 & E2 & S2 & [[_ F]|(i & [= <-] & Ec & W)]);
    [now destruct (F i1)|].
  assert (P2 : due_soon (clock s1) r2).
  { destruct P1 as [Hl1|Ht1].
    - destruct Hok1 as [_ Hr1]. eapply sweep_past_deadline; eauto.
      destruct S1 as (_ & _ & _ & _ & _ & ->). exact Hd.
    - eapply due_soon_swept; [exact W|]. now left. }
  assert (So : forall x, static r x -> ds_ownerId x = ds_ownerId r) by (intros x (_ & H & _); exact H).
  pose proof (static_trans _ _ _ S1 S2) as S12.
  pose proof (act_ok (Sweep i1) s1 Hok1) as Hok1'.
  destruct (quiet_history (fun _ => due_soon (clock s1)) (fun _ => True) h2 (act (Sweep i1) s1) id r2)
    as (r3 & E3 & S3 & P3); auto.
  { intros i0 now x x' _ W' _ _ H. eapply due_soon_swept; eauto. }
  { rewrite (So r2 S12). auto. }
  fold s2 in E3. pose proof (history_ok h2 _ Hok1') as Hok2. fold s2 in Hok2.
  destruct (quiet_row (Sweep i2) s2 id r3 Hok2 E3 I) as (r4 & E4 & S4 & [[_ F]|(i & [= <-] & Ec' & W')]);
    [now destruct (F i2)|].
  assert (T4 : ds_status r4 = triggered) by (eapply due_soon_fires; eauto).
  destruct (triggered_stays h3 _ id r4 (act_ok (Sweep i2) s2 Hok2) E4 T4) as (r' & E' & S' & T').
  pose proof (static_trans _ _ _ S12 (static_trans _ _ _ S3 (static_trans _ _ _ S4 S'))) as Sall.
  exists r'. split; [exact E'|]. split; [exact T'|]. intros u Hin Hu Hne.
  destruct Sall as (_ & Eo & Er & Ep & _). exists (recordToReleasedSwitch r'). split.
  - apply released_view; auto; congruence.
  - exact Ep.
Qed.

Lemma tolerance_pos i : 0 < backlogToleranceMs i.
Proof. unfold backlogToleranceMs, BACKLOG_TOLERANCE_FLOOR_MS. lia. Qed.

Lemma check_in_succeeds s id r : get id (deadmanSwitches s) = Some r -> live r -> ds_ownerId r <> "" ->
  exists s' v, post_check_in true (Some (ds_ownerId r)) id s = (s', r_owner v) /\
    ov_status v = armed /\ ov_releaseAt v = clock s + (deadline r - ds_lastCheckInAt r).
Proof.
  intros E Hl Ho. unfold post_check_in, truthy. cbn [negb]. rewrite decide_False by exact Ho.
  unfold ownedSwitch, getDeadmanSwitch. rewrite E, decide_True by reflexivity.
  destruct Hl as [Hs|Hs]; rewrite Hs; unfold applyCheckIn; rewrite Hs; cbn [computeDeadlines];
    rewrite (updateDeadmanSwitch_some _ _ _ _ E); do 2 eexists; (split; [reflexivity|]);
    (split; [reflexivity|]); cbn; unfold deadline; lia.
Qed.

(** An outage never costs the owner the chance to answer: when the sweep reaches a live
    switch later than its tolerance, having given it no window yet, the switch does not fire but
    is in grace, and as long as neither its owner nor an erasure acts it stays in grace for at least
    72 hours from that sweep, through any further sweeps; any check-in of the owner in that time
    succeeds and arms the switch again for its whole interval and grace period. *)
Theorem outage_gives_grace s id r i h :
  store_ok s -> get id (deadmanSwitches s) = Some r -> live r -> ds_ownerId r <> "" ->
  ds_backlogGraceStartedAt r = None -> backlogToleranceMs i < clock s - due_at r ->
  Forall (quiet id (ds_ownerId r)) h ->
  let s' := history h (act (Sweep i) s) in
  clock s' < clock s + 72 * 60 * 60 * 1000 ->
  exists r', get id (deadmanSwitches s') = Some r' /\ ds_status r' = grace /\
    clock s + 72 * 60 * 60 * 1000 <= ds_releaseAt r' /\
    exists s'' v, post_check_in true (Some (ds_ownerId r)) id s' = (s'', r_owner v) /\
      ov_status v = armed /\ ov_releaseAt v = clock s' + (deadline r' - ds_lastCheckInAt r').
Proof.
  intros Hok E Hl Ho Hb Hlate Hq s' Hc. pose proof (tolerance_pos i) as Htol.
  set (T := clock s + 72 * 60 * 60 * 1000) in *.
  destruct (quiet_row (Sweep i) s id r Hok E I) as (r1 & E1 & S1 & [[_ F]|(j & [= <-] & Ec & W)]);
    [now destruct (F i)|].
  assert (P1 : ds_status r1 = grace /\ T <= ds_releaseAt r1).
  { destruct Hok as [_ Hr]. destruct (Hr id r E) as (Hg & Ht & Hst).
    destruct W as [[Hnl|Hn]|Ha Hn Hf|_ _ Hf Hf'|_ _ _ _ _]; [contradiction|lia|..].
    - split; [reflexivity|]. unfold T. cbn. unfold window_ms, DEADMAN_BACKLOG_GRACE_SECONDS in *.
      destruct Hf as [|[|]]; [congruence|lia|lia].
    - exfalso. unfold window_ms, DEADMAN_BACKLOG_GRACE_SECONDS in *.
      destruct Hf' as [|[|]]; [congruence|lia|]. destruct Hf as [[Hg0 Ha]|]; [|lia].
      rewrite (due_at_armed r Ha) in Hlate. rewrite Ha in Hst. destruct Hst as [Hrel _].
      unfold deadline in Hrel. lia.
    - split; [reflexivity|]. unfold T, window_ms, DEADMAN_BACKLOG_GRACE_SECONDS. cbn. lia. }
  assert (Mono : forall i now x x', swept now (backlogToleranceMs i) now x x' ->
    (now < T -> ds_status x = grace /\ T <= ds_releaseAt x) -> now < T ->
    ds_status x' = grace /\ T <= ds_releaseAt x').
  { intros j now x x' W' H Hn. destruct (H Hn) as [Hg HT]. pose proof (due_at_grace x Hg) as Hd.
    destruct W' as [_|Ha _ _|_ Hd' _ _|_ Hd' _ _ _]; [auto|congruence|lia|lia]. }
  destruct (quiet_history (fun now x => now < T -> ds_status x = grace /\ T <= ds_releaseAt x)
    (fun _ => True) h (act (Sweep i) s) id r1) as (r' & E' & S' & P'); auto using act_ok.
  { intros now now' x Hle H Hn. apply H. lia. }
  { intros j now x x' _ W' _ _ H Hn. eapply Mono; eauto. }
  { destruct S1 as (_ & -> & _). eapply Forall_impl; [exact Hq|]. auto. }
  fold s' in E', P'. destruct (P' Hc) as [Hg HT]. exists r'. split; [exact E'|]. split; [exact Hg|].
  split; [exact HT|].
  assert (So : ds_ownerId r' = ds_ownerId r) by (destruct S1 as (_ & <- & _), S' as (_ & H & _); exact H).
  rewrite <- So. apply check_in_succeeds; [exact E'|now right|congruence].
Qed.

(** Where a switch that every sweep reached in time stands before its deadline. *)
Definition on_time (r : DeadmanSwitchRecord) : Prop :=
  ds_status r = triggered \/
  (ds_status r = grace /\ ds_backlogGraceStartedAt r = None /\ ds_releaseAt r = deadline r).

Lemma on_time_swept now tol r r' : swept now tol now r r' -> on_time r -> now <= deadline r + tol ->
  on_time r' /\ (deadline r <= now -> ds_status r' = triggered).
Proof.
  intros W [Ht|(Hg & Hb & Hr)] Hn.
  - rewrite (swept_triggered _ _ _ _ _ W Ht). split; [now left|auto].
  - pose proof (due_at_grace r Hg) as Hd.
    destruct W as [[Hnl|Hn']|Ha _ _|_ _ _ _|_ _ _ Hl _]; [destruct Hnl; now right|..].
    + split; [now right|]. intros. lia.
    + congruence.
    + split; [now left|reflexivity].
    + lia.
Qed.

Lemma armed_swept now tol r r' : swept now tol now r r' -> row_ok now r -> ds_status r = armed ->
  now <= ds_triggerAt r + tol ->
  (r' = r /\ now < ds_triggerAt r) \/ on_time r'.
Proof.
  intros W (Hg & Ht & Hst) Ha Hn. rewrite Ha in Hst. pose proof (due_at_armed r Ha) as Hd.
  destruct W as [[Hnl|Hn']|_ _ _|_ _ _ _|_ _ _ Hl _]; [destruct Hnl; now left|..].
  - left. split; [reflexivity|]. congruence.
  - right. right. destruct Hst. now repeat split.
  - right. now left.
  - lia.
Qed.

(** With the sweep running on schedule there is no delay: a sweep within the tolerance after the
    missed check-in and one within the tolerance after the deadline, and a silent owner's switch
    has fired. *)
Lemma release_on_time s0 id r i h1 h2 :
  store_ok s0 -> get id (deadmanSwitches s0) = Some r -> ds_status r = armed ->
  Forall (fun a => quiet id (ds_ownerId r) a /\ forall j, a = Sweep j -> j = i) h1 ->
  Forall (fun a => quiet id (ds_ownerId r) a /\ forall j, a = Sweep j -> j = i) h2 ->
  let s1 := history h1 s0 in
  let s2 := history h2 (act (Sweep i) s1) in
  ds_triggerAt r <= clock s1 <= ds_triggerAt r + backlogToleranceMs i ->
  deadline r <= clock s2 <= deadline r + backlogToleranceMs i ->
  exists r', get id (deadmanSwitches (act (Sweep i) s2)) = Some r' /\ ds_status r' = triggered.
Proof.
  intros Hok E Ha Q1 Q2 s1 s2 Hc1 Hc2. set (tol := backlogToleranceMs i) in *.
  assert (Hdl : ds_triggerAt r <= deadline r).
  { destruct Hok as [_ Hr]. destruct (Hr id r E) as (Hg & Ht & _). unfold deadline. lia. }
  assert (Step : forall now x x', now <= ds_triggerAt r + tol -> swept now tol now x x' ->
      row_ok now x -> ds_triggerAt x = ds_triggerAt r -> deadline x = deadline r ->
      ds_status x = armed \/ on_time x ->
      (ds_status x' = armed /\ now < ds_triggerAt r) \/ on_time x').
  { intros now x x' Hn W Hx Et Ed [Hx'|Hx'].
    - rewrite <- Et in Hn. destruct (armed_swept _ _ _ _ W Hx Hx' Hn) as [[-> ?]|]; [left; split; [exact Hx'|congruence]|auto].
    - right. eapply on_time_swept; eauto. lia. }
  destruct (quiet_history (fun now x => ds_triggerAt x = ds_triggerAt r /\ deadline x = deadline r /\
      (now <= ds_triggerAt r + tol -> ds_status x = armed \/ on_time x)) (fun j => j = i) h1 s0 id r)
    as (r1 & E1 & S1 & Et1 & Ed1 & P1); auto.
  { intros now now' x Hle (? & ? & H). repeat split; auto. intros. apply H. lia. }
  { intros j now x x' -> W Hx (_ & _ & _ & _ & Et & Ed) (Et' & Ed' & H).
    split; [congruence|]. split; [congruence|]. intros Hn.
    destruct (Step now x x' Hn W Hx Et' Ed' (H Hn)) as [[? _]|]; auto. }
  fold s1 in E1, P1. pose proof (history_ok h1 s0 Hok) as Hok1. fold s1 in Hok1.
  destruct (quiet_row (Sweep i) s1 id r1 Hok1 E1 I) as (r2 & E2 & S2 & [[_ F]|(j & [= <-] & Ec & W)]);
    [now destruct (F i)|].
  assert (P2 : on_time r2).
  { destruct (Step (clock s1) r1 r2 (proj2 Hc1) W (proj2 Hok1 id r1 E1) Et1 Ed1 (P1 (proj2 Hc1))) as [[_ ?]|]; [lia|auto]. }
  assert (Ed2 : deadline r2 = deadline r) by (destruct S2 as (_ & _ & _ & _ & _ & ->); exact Ed1).
  pose proof (act_ok (Sweep i) s1 Hok1) as Hok1'.
  destruct (quiet_history (fun now x => deadline x = deadline r /\ (now <= deadline r + tol -> on_time x))
    (fun j => j = i) h2 (act (Sweep i) s1) id r2) as (r3 & E3 & S3 & Ed3 & P3); auto.
  { intros now now' x Hle (? & H). split; auto. intros. apply H. lia. }
  { intros j now x x' -> W' Hx (_ & _ & _ & _ & _ & Ed) (Ed' & H). split; [congruence|]. intros Hn.
    eapply on_time_swept; eauto. rewrite Ed'. exact Hn. }
  { destruct (static_trans _ _ _ S1 S2) as (_ & -> & _). exact Q2. }
  fold s2 in E3, P3.
  destruct (quiet_row (Sweep i) s2 id r3 (history_ok h2 _ Hok1') E3 I)
    as (r4 & E4 & S4 & [[_ F]|(j & [= <-] & Ec' & W')]); [now destruct (F i)|].
  exists r4. split; [exact E4|]. fold s2 in W'. fold tol in W'.
  eapply on_time_swept; [exact W'|exact (P3 (proj2 Hc2))|rewrite Ed3; exact (proj2 Hc2)|rewrite Ed3; exact (proj1 Hc2)].
Qed.

(** ** Witnesses: a weekly switch with a day of grace *)

Definition day : Z := 24 * 60 * 60.

Definition sample_switch : DeadmanSwitchRecord :=
  mk_switch "sw" "ada" "!room" armed (7 * day) day 0 (7 * day * 1000) (8 * day * 1000)
    ["bob"; "eve"] "ciphertext" None None 0 0.

Definition sample_store : store :=
  createDeadmanSwitch sample_switch (mk_store 0 [] []).

Lemma sample_store_ok : store_ok sample_store.
Proof.
  split.
  - split; [repeat constructor; simpl; tauto|repeat constructor].
  - intros id r. cbn. destruct (decide (id = "sw")); [|discriminate]. intros [= <-].
    repeat split; vm_compute; congruence.
Qed.

Definition sample_history : list action :=
  [Tick 86400000; CheckIn true (Some "bob") "sw"; CheckIn true (Some "ada") "sw";
   Tick (Z.to_N (7 * day * 1000)); Sweep DEFAULT_INTERVAL_MS;
   Tick (Z.to_N (day * 1000)); Sweep DEFAULT_INTERVAL_MS].

Theorem release_never_early_witness :
  let s := history sample_history sample_store in
  exists r, get "sw" (deadmanSwitches s) = Some r /\ ds_status r = triggered /\
    deadline r <= clock s /\
    forall l, get_switches true (Some "mallory") true s = r_released_list l -> ~ In "sw" (map rs_switchId l).
Proof.
  intros s. eexists. split; [vm_compute; reflexivity|]. split; [reflexivity|].
  destruct (release_never_early sample_history sample_store "sw" _ sample_store_ok
    ltac:(vm_compute; reflexivity)) as [H1 H2].
  split; [now apply H1|]. apply (H2 "mallory"); [discriminate|]. right. vm_compute. intuition discriminate.
Defined.

Theorem release_happens_witness :
  let s1 := history [Tick (Z.to_N (9 * day * 1000))] sample_store in
  let s2 := history [Tick (Z.to_N (4 * day * 1000)); Sweep 30000] (act (Sweep 30000) s1) in
  exists r', get "sw" (deadmanSwitches (history [Cancel true (Some "ada") "sw"] (act (Sweep 30000) s2))) = Some r' /\
    ds_status r' = triggered.
Proof.
  intros s1 s2.
  destruct (release_happens sample_store "sw" sample_switch [Tick (Z.to_N (9 * day * 1000))] 30000
    [Tick (Z.to_N (4 * day * 1000)); Sweep 30000] 30000 [Cancel true (Some "ada") "sw"]) as (r' & E & T & _).
  - exact sample_store_ok.
  - vm_compute. reflexivity.
  - left. reflexivity.
  - repeat constructor.
  - repeat constructor.
  - vm_compute. discriminate.
  - vm_compute. discriminate.
  - exists r'. split; [exact E|exact T].
Defined.

Theorem outage_gives_grace_witness :
  let s := history [Tick (Z.to_N (20 * day * 1000))] sample_store in
  let s' := history [Tick (Z.to_N (2 * day * 1000)); Sweep 30000] (act (Sweep 30000) s) in
  exists r', get "sw" (deadmanSwitches s') = Some r' /\ ds_status r' = grace.
Proof.
  intros s s'.
  destruct (outage_gives_grace s "sw" sample_switch 30000 [Tick (Z.to_N (2 * day * 1000)); Sweep 30000])
    as (r' & E & G & _).
  - apply history_ok, sample_store_ok.
  - vm_compute. reflexivity.
  - left. reflexivity.
  - discriminate.
  - reflexivity.
  - vm_compute. reflexivity.
  - repeat constructor.
  - vm_compute. reflexivity.
  - exists r'. split; [exact E|exact G].
Defined.
