(* ===== verification/Sessions.v ===== *)
(** * Sessions: refresh-token families and access tokens
      (services/refreshToken.ts, services/auth.ts, middleware/auth.ts,
       routes/auth.ts, the token tables of db/store.ts, the end of
       services/accountLifecycle.ts)

    A login starts a family of refresh tokens; each refresh replaces the presented
    token by a successor, and presenting a replaced token burns the family.
    Access tokens are signed and stateless: the middleware rejects those whose id
    was denied at logout, and those minted before the user's cutoff.  Times in the
    tables are milliseconds, the claims of a token are seconds.  Randomness, the
    hash, the MAC and the JSON and base64url coding of a token belong to Node:
    they are the operations of [SessionRuntime], with laws in
    [SessionRuntimeLaws].  The [n]-th random draw of the process is a function of
    [n]. *)

From S2P Require Import Prelude JsMap.
Open Scope Z_scope.

(** A stored ISO date, as [new Date(x).getTime()] reads it. *)
Inductive isodate : Type :=
  | iso (ms : Z)
  | iso_unreadable.

Record RefreshTokenRecord : Type := mk_refresh {
  rt_id : string;
  rt_userId : string;
  rt_familyId : string;
  rt_tokenHash : string;
  rt_expiresAt : Z;
  rt_replacedBy : option string;
  rt_revokedAt : option Z;
  rt_revokedReason : option string;
  rt_createdAt : Z;
  rt_userAgentHash : option string;
  rt_sessionExpiresAt : option isodate;
}.

Record RevokedSessionRecord : Type := {
  rv_jti : string;
  rv_userId : string;
  rv_revokedAt : Z;
  rv_expiresAt : Z;
  rv_reason : string;
}.

Record AuthTokenPayload : Type := {
  at_sub : string;
  at_username : string;
  at_iat : Z;
  at_exp : Z;
  at_iss : string;
  at_aud : string;
  at_jti : string;
  at_sxp : option Z;
}.

(** ** The runtime *)

Class SessionRuntime : Type := {
  sha256 : string -> string;
  randomUUID : nat -> string;
  randomToken : nat -> string;
  randomJti : nat -> string;
  (* REFRESH_TOKEN_TTL_SECONDS through parseInt, when it is a number *)
  env_ttl : option Z;
  (* the runtime configuration of services/auth.ts *)
  issuer : string;
  audience : string;
  signingSecret : string;
  rolloverSecrets : list string;
  (* createHmac('sha256', secret).update(input).digest('base64url') *)
  hmac : string -> string -> string;
  (* base64Url(JSON.stringify(header)), and of the payload *)
  encodedHeader : string;
  encodePayload : AuthTokenPayload -> string;
  (* JSON.parse of the decoded part; [None] when it throws or a claim is missing *)
  headerAlg : string -> option string;
  decodePayload : string -> option AuthTokenPayload;
}.

Definition dot_free (s : string) : Prop := ~ In "."%char (String.list_ascii_of_string s).

Definition cutoff_prefix : string := "user-token-cutoff:".

Class SessionRuntimeLaws `{SessionRuntime} : Prop := {
  randomUUID_inj : Inj (=) (=) randomUUID;
  randomUUID_nonempty n : randomUUID n <> "";
  randomToken_hash_inj : Inj (=) (=) (fun n => sha256 (randomToken n));
  randomJti_inj : Inj (=) (=) randomJti;
  randomJti_nonempty n : randomJti n <> "";
  randomJti_plain n u : randomJti n <> cutoff_prefix +:+ u;
  headerAlg_encoded : headerAlg encodedHeader = Some "HS256";
  decode_encode p : decodePayload (encodePayload p) = Some p;
  header_dot_free : dot_free encodedHeader;
  payload_dot_free p : dot_free (encodePayload p);
  hmac_dot_free secret input : dot_free (hmac secret input);
}.

(** ** The tables *)

Record store : Type := mk_store {
  clock : Z;
  draws : nat;
  refreshTokens : jsmap RefreshTokenRecord;
  revokedSessions : jsmap RevokedSessionRecord;
  users : jsmap string;
}.

Definition set_refreshTokens (m : jsmap RefreshTokenRecord) (s : store) : store :=
  mk_store (clock s) (draws s) m (revokedSessions s) (users s).
Definition set_revokedSessions (m : jsmap RevokedSessionRecord) (s : store) : store :=
  mk_store (clock s) (draws s) (refreshTokens s) m (users s).
Definition drawn (n : nat) (s : store) : store :=
  mk_store (clock s) (draws s + n) (refreshTokens s) (revokedSessions s) (users s).

Definition with_revoked (at_ : Z) (reason : string) (r : RefreshTokenRecord) : RefreshTokenRecord :=
  mk_refresh (rt_id r) (rt_userId r) (rt_familyId r) (rt_tokenHash r) (rt_expiresAt r)
    (rt_replacedBy r) (Some at_) (Some reason) (rt_createdAt r) (rt_userAgentHash r)
    (rt_sessionExpiresAt r).
Definition with_replaced (by_ : string) (r : RefreshTokenRecord) : RefreshTokenRecord :=
  mk_refresh (rt_id r) (rt_userId r) (rt_familyId r) (rt_tokenHash r) (rt_expiresAt r)
    (Some by_) (rt_revokedAt r) (rt_revokedReason r) (rt_createdAt r) (rt_userAgentHash r)
    (rt_sessionExpiresAt r).

Definition createRefreshToken (record : RefreshTokenRecord) (s : store) : store :=
  set_refreshTokens (set (rt_id record) record (refreshTokens s)) s.

Definition findRefreshTokenByHash (tokenHash : string) (s : store) : option RefreshTokenRecord :=
  List.find (fun t => bool_decide (rt_tokenHash t = tokenHash)) (values (refreshTokens s)).

Definition replaced (r : RefreshTokenRecord) : bool := bool_decide (is_Some (truthy (rt_replacedBy r))).
Definition revoked (r : RefreshTokenRecord) : bool := bool_decide (is_Some (rt_revokedAt r)).

Definition consumeRefreshTokenForRotation (id replacedBy : string) (s : store) :
    store * option RefreshTokenRecord :=
  match get id (refreshTokens s) with
  | None => (s, None)
  | Some existing =>
      if replaced existing || revoked existing then (s, Some existing)
      else
        let updated := with_revoked (clock s) "rotated" (with_replaced replacedBy existing) in
        (set_refreshTokens (set id updated (refreshTokens s)) s, Some updated)
  end.

(** The loop over the table of the two bulk revocations: the rows [p] selects that
    are not revoked yet. *)
Definition revoke_where (p : RefreshTokenRecord -> bool) (reason : string) (s : store) : store * Z :=
  let hit r := p r && negb (revoked r) in
  (set_refreshTokens
     (map (fun kv => (fst kv, if hit (snd kv) then with_revoked (clock s) reason (snd kv) else snd kv))
        (refreshTokens s)) s,
   count_by hit (values (refreshTokens s))).

Definition revokeRefreshTokenFamily (familyId reason : string) : store -> store * Z :=
  revoke_where (fun r => bool_decide (rt_familyId r = familyId)) reason.

Definition revokeRefreshTokensForUser (userId reason : string) : store -> store * Z :=
  revoke_where (fun r => bool_decide (rt_userId r = userId)) reason.

Definition revokeSession (jti userId reason : string) (expiresAt : Z) (s : store) : store :=
  set_revokedSessions
    (set jti {| rv_jti := jti; rv_userId := userId; rv_revokedAt := clock s;
                rv_expiresAt := expiresAt; rv_reason := reason |} (revokedSessions s)) s.

Definition isSessionRevoked (jti : string) (s : store) : bool :=
  match get jti (revokedSessions s) with
  | None => false
  | Some record => (clock s <? rv_expiresAt record)
  end.

Definition pruneExpiredRevokedSessions (now : Z) (s : store) : store * Z :=
  (set_revokedSessions
     (List.filter (fun kv => negb (rv_expiresAt (snd kv) <=? now)) (revokedSessions s)) s,
   count_by (fun r => rv_expiresAt r <=? now) (values (revokedSessions s))).

Definition USER_TOKEN_CUTOFF_TTL_MS : Z := 25 * 60 * 60 * 1000.

Definition userTokenCutoffJti (userId : string) : string := cutoff_prefix +:+ userId.

Definition revokeUserTokensBefore (userId reason : string) (s : store) : store :=
  revokeSession (userTokenCutoffJti userId) userId reason (clock s + USER_TOKEN_CUTOFF_TTL_MS) s.

(** The part of [purgeUserAuthArtifacts] that these tables see: its loop over the
    refresh tokens.  The other tables it clears hold no sessions. *)
Definition purgeUserAuthArtifacts (userId : string) (s : store) : store :=
  set_refreshTokens
    (List.filter (fun kv => negb (bool_decide (rt_userId (snd kv) = userId))) (refreshTokens s)) s.

Definition deleteUser (userId : string) (s : store) : store :=
  mk_store (clock s) (draws s) (refreshTokens s) (revokedSessions s)
    (List.filter (fun kv => negb (bool_decide (fst kv = userId))) (users s)).

(** [Math.floor(ms / 1000)] *)
Definition seconds (ms : Z) : Z := ms / 1000.

Definition getUserTokenRevocationCutoff (userId : string) (s : store) : Z :=
  match get (userTokenCutoffJti userId) (revokedSessions s) with
  | None => 0
  | Some record => if rv_expiresAt record <=? clock s then 0 else seconds (rv_revokedAt record)
  end.

(** ** services/refreshToken.ts *)

Section service.
Context `{SessionRuntime}.

Definition DEFAULT_TTL_SECONDS : Z := 60 * 60 * 24 * 30.

Definition ttlSeconds : Z :=
  match env_ttl with
  | Some fromEnv => if 0 <? fromEnv then fromEnv else DEFAULT_TTL_SECONDS
  | None => DEFAULT_TTL_SECONDS
  end.

Record RotateOptions : Type := {
  ro_userId : string;
  ro_familyId : option string;
  ro_userAgent : option string;
  ro_sessionExpiresAt : option isodate;
}.

Record IssuedRefreshToken : Type := { ir_token : string; ir_record : RefreshTokenRecord }.

Definition userAgentHash (userAgent : option string) : option string := sha256 <$> truthy userAgent.

(** [None]: an unreadable end makes [toISOString] throw. *)
Definition issueRefreshToken (options : RotateOptions) (s : store) : option (store * IssuedRefreshToken) :=
  let token := randomToken (draws s) in
  let id := randomUUID (S (draws s)) in
  let familyId := default (randomUUID (S (S (draws s)))) (ro_familyId options) in
  let ttlEndMs := clock s + ttlSeconds * 1000 in
  match
    (match ro_sessionExpiresAt options with
     | None => Some ttlEndMs
     | Some (iso e) => Some (Z.min ttlEndMs e)
     | Some iso_unreadable => None
     end)
  with
  | None => None
  | Some expiresAt =>
      let record := mk_refresh id (ro_userId options) familyId (sha256 token) expiresAt None None None
        (clock s) (userAgentHash (ro_userAgent options)) (ro_sessionExpiresAt options) in
      Some (createRefreshToken record (drawn 3 s), {| ir_token := token; ir_record := record |})
  end.

Definition sessionHasEnded (record : RefreshTokenRecord) (now : Z) : bool :=
  match rt_sessionExpiresAt record with
  | None => false
  | Some iso_unreadable => true
  | Some (iso endMs) => endMs <=? now
  end.

Inductive RefreshOutcome : Type :=
  | ok (record : RefreshTokenRecord) (rotated : IssuedRefreshToken)
  | invalid
  | expired
  | was_revoked
  | session_expired
  | reuse_detected (userId familyId : string).

Definition burn (existing : RefreshTokenRecord) (s : store) : store * RefreshOutcome :=
  let s := fst (revokeRefreshTokenFamily (rt_familyId existing) "reuse_detected" s) in
  let s := revokeUserTokensBefore (rt_userId existing) "reuse_detected" s in
  (s, reuse_detected (rt_userId existing) (rt_familyId existing)).

Definition rotateRefreshToken (presentedToken : string) (userAgent : option string) (s : store) :
    option (store * RefreshOutcome) :=
  match findRefreshTokenByHash (sha256 presentedToken) s with
  | None => Some (s, invalid)
  | Some existing =>
      if replaced existing then Some (burn existing s)
      else if revoked existing then Some (s, was_revoked)
      else if sessionHasEnded existing (clock s) then
        Some (fst (revokeRefreshTokenFamily (rt_familyId existing) "session_expired" s), session_expired)
      else if rt_expiresAt existing <=? clock s then Some (s, expired)
      else
        match issueRefreshToken {| ro_userId := rt_userId existing;
                                   ro_familyId := Some (rt_familyId existing);
                                   ro_userAgent := userAgent;
                                   ro_sessionExpiresAt := rt_sessionExpiresAt existing |} s with
        | None => None
        | Some (s, rotated) =>
            match consumeRefreshTokenForRotation (rt_id existing) (rt_id (ir_record rotated)) s with
            | (s, Some claimed) =>
                if bool_decide (rt_replacedBy claimed = Some (rt_id (ir_record rotated)))
                then Some (s, ok existing rotated)
                else Some (burn existing s)
            | (s, None) => Some (burn existing s)
            end
        end
  end.

Definition revokeRefreshToken (presentedToken reason : string) (s : store) : store * bool :=
  match findRefreshTokenByHash (sha256 presentedToken) s with
  | None => (s, false)
  | Some existing =>
      if revoked existing then (s, false)
      else (fst (revokeRefreshTokenFamily (rt_familyId existing) reason s), true)
  end.

Definition revokeAllForUser (userId reason : string) : store -> store * Z :=
  revokeRefreshTokensForUser userId reason.

(** ** services/auth.ts *)

Definition verificationSecrets : list string :=
  List.filter (fun x => negb (bool_decide (x = ""))) (signingSecret :: rolloverSecrets).

Definition access_ttl : Z := 60 * 60 * 24.

Record SignedJwt : Type := { sj_token : string; sj_payload : AuthTokenPayload }.

Definition signJwtWithMeta (userId username : string) (ttl : Z) (sessionExpiresAt : option Z)
    (s : store) : store * SignedJwt :=
  let iat := seconds (clock s) in
  let exp := match sessionExpiresAt with Some e => Z.min (iat + ttl) e | None => iat + ttl end in
  let payload := {| at_sub := userId; at_username := username; at_iat := iat; at_exp := exp;
                    at_iss := issuer; at_aud := audience; at_jti := randomJti (draws s);
                    at_sxp := sessionExpiresAt |} in
  let signingInput := encodedHeader +:+ "." +:+ encodePayload payload in
  (drawn 1 s, {| sj_token := signingInput +:+ "." +:+ hmac signingSecret signingInput;
                 sj_payload := payload |}).

(** [token.split('.')] *)
Fixpoint split_dots (s : string) : list string :=
  match s with
  | "" => [""]
  | String c s =>
      if Ascii.eqb c "."%char then "" :: split_dots s
      else match split_dots s with
           | w :: ws => String c w :: ws
           | [] => [String c ""]
           end
  end.

Definition verifyJwt (token : string) (nowMs : Z) : option AuthTokenPayload :=
  match split_dots token with
  | [header; payload; signature] =>
      let signingInput := header +:+ "." +:+ payload in
      if negb (bool_decide (headerAlg header = Some "HS256")) then None
      else if negb (existsb (fun secret => bool_decide (signature = hmac secret signingInput))
                      verificationSecrets) then None
      else
        match decodePayload payload with
        | None => None
        | Some decoded =>
            let now := seconds nowMs in
            if at_exp decoded <? now then None
            else if match at_sxp decoded with Some sxp => sxp <=? now | None => false end then None
            else if negb (bool_decide (at_iss decoded = issuer))
                    || negb (bool_decide (at_aud decoded = audience)) then None
            else Some decoded
        end
  | _ => None
  end.

(** ** middleware/auth.ts *)

Inductive auth_result : Type :=
  | anonymous
  | signed_in (payload : AuthTokenPayload)
  | unauthorized
  | session_revoked.

(** [token] is what follows [Bearer ] in the header, if anything. *)
Definition authMiddleware (token : option string) (s : store) : auth_result :=
  match truthy token with
  | None => anonymous
  | Some token =>
      match verifyJwt token (clock s) with
      | None => unauthorized
      | Some payload =>
          if negb (bool_decide (at_jti payload = "")) && isSessionRevoked (at_jti payload) s
          then session_revoked
          else if at_iat payload <? getUserTokenRevocationCutoff (at_sub payload) s
          then session_revoked
          else signed_in payload
      end
  end.

(** ** routes/auth.ts *)

(** [issueSession]: an access token and the first refresh token of a family. *)
Definition issueSession (userId username : string) (userAgent : option string)
    (sessionExpiresAtMs : option Z) (s : store) : option (store * (SignedJwt * IssuedRefreshToken)) :=
  let '(s, access) := signJwtWithMeta userId username access_ttl (seconds <$> sessionExpiresAtMs) s in
  match issueRefreshToken {| ro_userId := userId; ro_familyId := None; ro_userAgent := userAgent;
                             ro_sessionExpiresAt := iso <$> sessionExpiresAtMs |} s with
  | None => None
  | Some (s, refresh) => Some (s, (access, refresh))
  end.

Inductive refresh_response : Type :=
  | rr_ok (access : SignedJwt) (refreshToken : string)
  | rr_invalid
  | rr_reused
  | rr_expired
  | rr_session_expired
  | rr_revoked.

(** POST /token/refresh *)
Definition token_refresh (refreshToken : string) (userAgent : option string) (s : store) :
    option (store * refresh_response) :=
  match rotateRefreshToken refreshToken userAgent s with
  | None => None
  | Some (s, ok record rotated) =>
      match get (rt_userId record) (users s) with
      | None => Some (s, rr_invalid)
      | Some username =>
          match rt_sessionExpiresAt record with
          | None =>
              let '(s, access) := signJwtWithMeta (rt_userId record) username access_ttl None s in
              Some (s, rr_ok access (ir_token rotated))
          | Some (iso e) =>
              let '(s, access) := signJwtWithMeta (rt_userId record) username access_ttl (Some (seconds e)) s in
              Some (s, rr_ok access (ir_token rotated))
          | Some iso_unreadable => None
          end
      end
  | Some (s, reuse_detected _ _) => Some (s, rr_reused)
  | Some (s, expired) => Some (s, rr_expired)
  | Some (s, session_expired) => Some (s, rr_session_expired)
  | Some (s, was_revoked) => Some (s, rr_revoked)
  | Some (s, invalid) => Some (s, rr_invalid)
  end.

(** POST /logout and POST /sign-out, for what the middleware set as the user. *)
Definition logout (user : option AuthTokenPayload) (refreshToken : option string) (s : store) : store :=
  let s := match truthy refreshToken with
           | Some t => fst (revokeRefreshToken t "logout" s)
           | None => s
           end in
  match user with
  | Some user =>
      if negb (bool_decide (at_jti user = "")) && negb (at_exp user =? 0)
      then revokeSession (at_jti user) (at_sub user) "logout" (at_exp user * 1000) s
      else s
  | None => s
  end.

(** POST /sessions/revoke *)
Definition sessions_revoke (userId : string) (s : store) : store * Z :=
  let '(s, refreshCount) := revokeAllForUser userId "admin_revoke" s in
  (revokeUserTokensBefore userId "admin_revoke" s, refreshCount).

(** The sessions part of POST /password/change, and of [consumePasswordResetToken]. *)
Definition password_changed (userId : string) (s : store) : store :=
  let s := fst (revokeAllForUser userId "password_change" s) in
  revokeUserTokensBefore userId "password_change" s.
Definition password_reset (userId : string) (s : store) : store :=
  fst (revokeAllForUser userId "password_reset" s).

(** The last two calls of [confirmAccountDeletion] (services/accountLifecycle.ts). *)
Definition account_deleted (userId : string) (s : store) : store :=
  deleteUser userId (purgeUserAuthArtifacts userId s).

(** ** Histories *)

Inductive action : Type :=
  | Tick (ms : N)
  | SignIn (userId username : string) (sessionExpiresAtMs : option Z)
  | Refresh (token : string)
  | Logout (user : option AuthTokenPayload) (refreshToken : option string)
  | RevokeSessions (userId : string)
  | PasswordChange (userId : string)
  | PasswordReset (userId : string)
  | Prune
  | DeleteUser (userId : string).

Definition act (a : action) (s : store) : store :=
  match a with
  | Tick ms => mk_store (clock s + Z.of_N ms) (draws s) (refreshTokens s) (revokedSessions s) (users s)
  | SignIn userId username e =>
      match issueSession userId username None e
              (mk_store (clock s) (draws s) (refreshTokens s) (revokedSessions s)
                 (set userId username (users s))) with
      | Some (s, _) => s
      | None => s
      end
  | Refresh token => match token_refresh token None s with Some (s, _) => s | None => s end
  | Logout user token => logout user token s
  | RevokeSessions userId => fst (sessions_revoke userId s)
  | PasswordChange userId => password_changed userId s
  | PasswordReset userId => password_reset userId s
  | Prune => fst (pruneExpiredRevokedSessions (clock s) s)
  | DeleteUser userId => account_deleted userId s
  end.

Definition history (l : list action) (s : store) : store := fold_left (fun s a => act a s) l s.

Definition empty_store (now : Z) (us : jsmap string) : store := mk_store now 0 [] [] us.
End service.
