(* ===== verification/SessionsProofs.v ===== *)
(** * What the session tokens guarantee

    Along every history of sign-ins, refreshes, logouts, revocations and prunes:
    a family of refresh tokens has one usable member at most, a replaced token
    burns its family for good and with it the user's access tokens, revoking a
    user's sessions ends them all, a client that keeps presenting its newest token
    is never turned away, and a bounded session ends when it should. *)

From S2P Require Import Prelude JsMap Sessions.
Open Scope Z_scope.

#[export] Instance refresh_keyed : Keyed RefreshTokenRecord := rt_id.

(** ** Rows and how they change *)

Definition live (r : RefreshTokenRecord) : Prop := replaced r = false /\ revoked r = false.

(** What a row keeps for ever. *)
Definition same_token (r r' : RefreshTokenRecord) : Prop :=
  rt_id r' = rt_id r /\ rt_userId r' = rt_userId r /\ rt_familyId r' = rt_familyId r /\
  rt_tokenHash r' = rt_tokenHash r /\ rt_expiresAt r' = rt_expiresAt r /\
  rt_sessionExpiresAt r' = rt_sessionExpiresAt r.

(** A row after some time: the same token, and what was spent stays spent. *)
Definition aged (r r' : RefreshTokenRecord) : Prop :=
  same_token r r' /\ (replaced r = true -> replaced r' = true) /\ (revoked r = true -> revoked r' = true).

Lemma aged_refl r : aged r r.
Proof. repeat split; auto. Qed.

Lemma aged_trans r1 r2 r3 : aged r1 r2 -> aged r2 r3 -> aged r1 r3.
Proof.
  intros ((? & ? & ? & ? & ? & ?) & ? & ?) ((? & ? & ? & ? & ? & ?) & ? & ?).
  repeat split; congruence || auto.
Qed.

Lemma aged_live r r' : aged r r' -> live r' -> live r.
Proof.
  intros (_ & H1 & H2) [L1 L2]. split.
  - destruct (replaced r); [|reflexivity]. now rewrite H1 in L1.
  - destruct (revoked r); [|reflexivity]. now rewrite H2 in L2.
Qed.

Lemma aged_revoked now reason r : aged r (with_revoked now reason r).
Proof. repeat split; auto. Qed.

Lemma get_mapped {V} (f : V -> V) (m : jsmap V) id :
  get id (map (fun kv => (fst kv, f (snd kv))) m) = f <$> get id m.
Proof.
  induction m as [|[k v] m IH]; [reflexivity|]. cbn. destruct (decide (id = k)); [reflexivity|exact IH].
Qed.

Lemma keys_map {V} (f : V -> V) (m : jsmap V) : keys (map (fun kv => (fst kv, f (snd kv))) m) = keys m.
Proof. unfold keys. rewrite map_map. reflexivity. Qed.

Lemma keyed_map (f : RefreshTokenRecord -> RefreshTokenRecord) m :
  (forall r, rt_id (f r) = rt_id r) -> keyed m -> keyed (map (fun kv => (fst kv, f (snd kv))) m).
Proof.
  intros Hf [Hnd Hk]. split; [now rewrite keys_map|].
  rewrite Forall_forall in *. intros [k v] Hin. apply list_elem_of_In, in_map_iff in Hin as ([k' v'] & [= <- <-] & Hin).
  cbn. unfold keyof, refresh_keyed. rewrite Hf. apply (Hk (k', v')). now apply list_elem_of_In.
Qed.

Lemma get_filter {V} (p : string * V -> bool) (m : jsmap V) k : List.NoDup (keys m) ->
  get k (List.filter p m) = v ← get k m; if p (k, v) then Some v else None.
Proof.
  induction m as [|[j v] m IH]; [reflexivity|]. intros Hnd. inversion Hnd as [|? ? Hni Hnd']; subst. cbn.
  destruct (decide (k = j)) as [->|Hne].
  - cbn. destruct (p (j, v)); cbn; [now rewrite decide_True|].
    rewrite (IH Hnd'). apply get_None_keys in Hni. now rewrite Hni.
  - destruct (p (j, v)); cbn; [rewrite decide_False by exact Hne|]; exact (IH Hnd').
Qed.

Lemma NoDup_filter_keys {V} (p : string * V -> bool) (m : jsmap V) :
  List.NoDup (keys m) -> List.NoDup (keys (List.filter p m)).
Proof.
  induction m as [|[j v] m IH]; [auto|]. intros Hnd. inversion Hnd as [|? ? Hni Hnd']; subst. cbn.
  destruct (p (j, v)); [|exact (IH Hnd')]. cbn. constructor; [|exact (IH Hnd')].
  intros Hin. apply Hni. apply in_map_iff in Hin as ([k w] & <- & Hin). apply filter_In in Hin as [Hin _].
  apply in_map_iff. now exists (k, w).
Qed.

(** The row [revoke_where] leaves. *)
Definition revoked_if (p : RefreshTokenRecord -> bool) (now : Z) (reason : string) (r : RefreshTokenRecord) :=
  if p r && negb (revoked r) then with_revoked now reason r else r.

Lemma revoke_where_get p reason s id :
  get id (refreshTokens (fst (revoke_where p reason s))) =
  revoked_if p (clock s) reason <$> get id (refreshTokens s).
Proof. exact (get_mapped (revoked_if p (clock s) reason) (refreshTokens s) id). Qed.

Lemma revoked_if_aged p now reason r : aged r (revoked_if p now reason r).
Proof. unfold revoked_if. destruct (_ && _); [apply aged_revoked|apply aged_refl]. Qed.

Lemma revoked_if_revoked p now reason r : p r = true -> revoked (revoked_if p now reason r) = true.
Proof. intros Hp. unfold revoked_if. rewrite Hp. now destruct (revoked r) eqn:E. Qed.

Section proofs.
Context `{SessionRuntimeLaws}.
#[local] Existing Instances randomUUID_inj randomToken_hash_inj.

(** ** Well-formed token tables *)

Definition row_ok (s : store) (r : RefreshTokenRecord) : Prop :=
  (exists n, (n < draws s)%nat /\ rt_id r = randomUUID n) /\
  (exists n, (n < draws s)%nat /\ rt_familyId r = randomUUID n) /\
  (exists n, (n < draws s)%nat /\ rt_tokenHash r = sha256 (randomToken n)) /\
  (replaced r = true -> revoked r = true) /\
  match rt_sessionExpiresAt r with
  | None => True
  | Some (iso e) => rt_expiresAt r <= e
  | Some iso_unreadable => False
  end.

(** Two rows of the table, if of one family. *)
Definition kin (r r' : RefreshTokenRecord) : Prop :=
  rt_familyId r = rt_familyId r' ->
  rt_userId r = rt_userId r' /\ rt_sessionExpiresAt r = rt_sessionExpiresAt r' /\
  (live r -> live r' -> rt_id r = rt_id r').

Definition row_of (s : store) (r : RefreshTokenRecord) : Prop :=
  get (rt_id r) (refreshTokens s) = Some r.

Record tokens_ok (s : store) : Prop := {
  ok_keyed : keyed (refreshTokens s);
  ok_rows r : row_of s r -> row_ok s r;
  ok_kin r r' : row_of s r -> row_of s r' -> kin r r';
  ok_hash r r' : row_of s r -> row_of s r' -> rt_tokenHash r = rt_tokenHash r' -> rt_id r = rt_id r';
}.

Lemma get_row s id r : keyed (refreshTokens s) -> get id (refreshTokens s) = Some r ->
  row_of s r /\ id = rt_id r.
Proof.
  intros Hk E. pose proof (keyed_get _ _ _ Hk E) as ->. unfold keyof, refresh_keyed in *. now split.
Qed.

Lemma find_row s h r : keyed (refreshTokens s) -> findRefreshTokenByHash h s = Some r ->
  row_of s r /\ rt_tokenHash r = h.
Proof.
  intros Hk F. apply find_some in F as [Hin Hh]. apply bool_decide_eq_true in Hh.
  split; [exact (keyed_in _ _ Hk Hin)|exact Hh].
Qed.

Lemma find_by_row s r : tokens_ok s -> row_of s r -> findRefreshTokenByHash (rt_tokenHash r) s = Some r.
Proof.
  intros Hok Hr. unfold findRefreshTokenByHash.
  destruct (List.find _ (values (refreshTokens s))) as [r'|] eqn:F.
  - destruct (find_row s _ r' (ok_keyed s Hok) F) as [Hr' Hh].
    pose proof (ok_hash s Hok r' r Hr' Hr Hh) as Ei. unfold row_of in Hr, Hr'. congruence.
  - pose proof (find_none _ _ F r (get_in_values _ _ _ Hr)) as Hn.
    cbn in Hn. apply bool_decide_eq_false in Hn. congruence.
Qed.

(** ** How the table evolves *)

(** A row no earlier table had: its id and its token were drawn since, and its family
    is new or that of a row that was live. *)
Definition newcomer (s : store) (n : RefreshTokenRecord) : Prop :=
  (exists k, (draws s <= k)%nat /\ rt_id n = randomUUID k) /\
  (exists k, (draws s <= k)%nat /\ rt_tokenHash n = sha256 (randomToken k)) /\
  ((exists k, (draws s <= k)%nat /\ rt_familyId n = randomUUID k) \/
   (exists r, row_of s r /\ live r /\ rt_familyId n = rt_familyId r)).

(** Rows age, come and, with their account, go. *)
Record evolves (s s' : store) : Prop := {
  ev_clock : clock s <= clock s';
  ev_draws : (draws s <= draws s')%nat;
  ev_old r r' : row_of s r -> row_of s' r' -> rt_id r' = rt_id r -> aged r r';
  ev_new r' : row_of s' r' -> get (rt_id r') (refreshTokens s) = None -> newcomer s r';
}.

Lemma evolves_refl s : evolves s s.
Proof.
  split; [lia|lia|..]; unfold row_of; intros r.
  - intros r' Hr Hr' E. assert (r' = r) as -> by congruence. apply aged_refl.
  - intros Hr Hn. congruence.
Qed.

(** An id drawn since is on no earlier row. *)
Lemma newcomer_unknown s n r : tokens_ok s -> newcomer s n -> row_of s r -> rt_id n <> rt_id r.
Proof.
  intros Ok ((k & Hk & Ek) & _) Hr E. destruct (ok_rows s Ok r Hr) as ((j & Hj & Ej) & _).
  assert (k = j) as -> by (apply (inj randomUUID); congruence). lia.
Qed.

Lemma evolves_trans s1 s2 s3 : tokens_ok s1 -> tokens_ok s2 ->
  evolves s1 s2 -> evolves s2 s3 -> evolves s1 s3.
Proof.
  intros Ok1 Ok2 [C1 D1 O1 N1] [C2 D2 O2 N2]. split; [lia|lia|..].
  - intros r r3 Hr Hr3 Ei. destruct (get (rt_id r3) (refreshTokens s2)) as [r2|] eqn:E2.
    + destruct (get_row s2 _ r2 (ok_keyed s2 Ok2) E2) as [Hr2 Ei2].
      eapply aged_trans; [apply (O1 r r2); congruence|by apply O2].
    + destruct (N2 r3 Hr3 E2) as ((k & Hk & Ek) & _). destruct (ok_rows s1 Ok1 r Hr) as ((j & Hj & Ej) & _).
      assert (k = j) as -> by (apply (inj randomUUID); congruence). lia.
  - intros r3 Hr3 Hnew. destruct (get (rt_id r3) (refreshTokens s2)) as [r2|] eqn:E2.
    + destruct (get_row s2 _ r2 (ok_keyed s2 Ok2) E2) as [Hr2 Ei2].
      destruct (O2 r2 r3 Hr2 Hr3 Ei2) as [(E & _ & Ef & Eh & _) _]. unfold newcomer. rewrite E, Ef, Eh.
      apply N1; [done|congruence].
    + destruct (N2 r3 Hr3 E2) as ((k & Hk & Ek) & (h & Hh & Eh) & Hf).
      split; [exists k; split; [lia|done]|]. split; [exists h; split; [lia|done]|].
      destruct Hf as [(f & Hf & Ef)|(r2 & Hr2 & L & Ef)]; [left; exists f; split; [lia|done]|]. rewrite Ef.
      destruct (get (rt_id r2) (refreshTokens s1)) as [r1|] eqn:E1.
      * destruct (get_row s1 _ r1 (ok_keyed s1 Ok1) E1) as [Hr1 Ei1]. pose proof (O1 r1 r2 Hr1 Hr2 Ei1) as A.
        right. exists r1. split; [done|]. split; [by eapply aged_live|]. by destruct A as [(_ & _ & ? & _) _].
      * by destruct (N1 r2 Hr2 E1) as (_ & _ & ?).
Qed.

(** One change of the table: every row ages by [f], and [extra] is a fresh row, of a
    family of its own or the heir of a live row that [f] spends. *)
Definition heir_of (s : store) (f : RefreshTokenRecord -> RefreshTokenRecord) (n : RefreshTokenRecord) : Prop :=
  (exists k, (draws s <= k)%nat /\ rt_familyId n = randomUUID k) \/
  (exists r, row_of s r /\ live r /\ ~ live (f r) /\ rt_familyId n = rt_familyId r /\
     rt_userId n = rt_userId r /\ rt_sessionExpiresAt n = rt_sessionExpiresAt r).

Definition fresh_row (s s' : store) (f : RefreshTokenRecord -> RefreshTokenRecord) (n : RefreshTokenRecord) : Prop :=
  row_ok s' n /\ (exists k, (draws s <= k)%nat /\ rt_id n = randomUUID k) /\
  (exists k, (draws s <= k)%nat /\ rt_tokenHash n = sha256 (randomToken k)) /\ heir_of s f n.

Record one_change (s s' : store) (f : RefreshTokenRecord -> RefreshTokenRecord)
    (extra : option RefreshTokenRecord) : Prop := {
  oc_clock : clock s <= clock s';
  oc_draws : (draws s <= draws s')%nat;
  oc_keyed : keyed (refreshTokens s');
  oc_get id : get id (refreshTokens s') =
    match get id (refreshTokens s) with
    | Some r => Some (f r)
    | None => n ← extra; if decide (id = rt_id n) then Some n else None
    end;
  oc_old r : row_of s r -> aged r (f r) /\ (replaced (f r) = true -> revoked (f r) = true);
  oc_fresh n : extra = Some n -> fresh_row s s' f n;
}.

Lemma one_change_row s s' f extra r' : keyed (refreshTokens s) -> one_change s s' f extra -> row_of s' r' ->
  (exists r, row_of s r /\ r' = f r) \/ extra = Some r'.
Proof.
  intros Hk Oc Hr. unfold row_of in Hr. rewrite (oc_get _ _ _ _ Oc) in Hr.
  destruct (get (rt_id r') (refreshTokens s)) as [r|] eqn:E.
  - left. exists r. split; [|congruence]. now destruct (get_row _ _ _ Hk E).
  - right. destruct extra as [n|]; [|discriminate]. cbn in Hr.
    destruct (decide (rt_id r' = rt_id n)); congruence.
Qed.

Lemma token_row_later s s' r r' : (draws s <= draws s')%nat -> aged r r' ->
  (replaced r' = true -> revoked r' = true) -> row_ok s r -> row_ok s' r'.
Proof.
  intros Hd [(E1 & E2 & E3 & E4 & E5 & E6) _] Hrr ((n1 & H1 & I1) & (n2 & H2 & I2) & (n3 & H3 & I3) & _ & I5).
  unfold row_ok. rewrite E1, E3, E4, E5, E6.
  split; [exists n1; split; [lia|exact I1]|]. split; [exists n2; split; [lia|exact I2]|].
  split; [exists n3; split; [lia|exact I3]|]. now split.
Qed.

Lemma fresh_kin s s' f extra n r : tokens_ok s -> one_change s s' f extra -> fresh_row s s' f n -> row_of s r ->
  kin n (f r).
Proof.
  intros Ok Oc (_ & _ & _ & Hh) Hr Ef.
  destruct (oc_old _ _ _ _ Oc r Hr) as [A _]. pose proof A as [(_ & Eu & Ef' & _ & _ & Es) _].
  destruct Hh as [(k & Hk & Fk)|(p & Hp & Lp & Dp & Fp & Up & Sp)].
  - exfalso. destruct (ok_rows s Ok r Hr) as (_ & (j & Hj & Fj) & _).
    assert (k = j) as -> by (apply (inj randomUUID); congruence). lia.
  - destruct (ok_kin s Ok r p Hr Hp) as (Ku & Ks & Kl); [congruence|].
    repeat split; [congruence|congruence|]. intros _ Lf. exfalso. apply Dp.
    assert (rt_id r = rt_id p) as Ei by (apply Kl; [now apply (aged_live r (f r))|exact Lp]).
    assert (r = p) as <-. { unfold row_of in Hr, Hp. congruence. } exact Lf.
Qed.

Lemma kin_sym r r' : kin r r' -> kin r' r.
Proof. intros K Ef. destruct K as (? & ? & Kl); [congruence|]. repeat split; try congruence. intros L L'. symmetry. auto. Qed.

Lemma fresh_hash s s' f n r : tokens_ok s -> fresh_row s s' f n -> row_of s r -> rt_tokenHash n <> rt_tokenHash r.
Proof.
  intros Ok (_ & _ & (k & Hk & Ek) & _) Hr E. destruct (ok_rows s Ok r Hr) as (_ & _ & (j & Hj & Ej) & _).
  assert (k = j) as -> by (apply (inj (fun n => sha256 (randomToken n))); cbn; congruence). lia.
Qed.

Lemma one_change_ok s s' f extra : tokens_ok s -> one_change s s' f extra -> tokens_ok s'.
Proof.
  intros Ok Oc. pose proof (fun r' => one_change_row s s' f extra r' (ok_keyed s Ok) Oc) as Rows. split.
  - exact (oc_keyed _ _ _ _ Oc).
  - intros r' Hr'. destruct (Rows r' Hr') as [(r & Hr & ->)|En].
    + destruct (oc_old _ _ _ _ Oc r Hr) as [A Hrr].
      exact (token_row_later s s' r (f r) (oc_draws _ _ _ _ Oc) A Hrr (ok_rows s Ok r Hr)).
    + now destruct (oc_fresh _ _ _ _ Oc r' En).
  - intros r1 r2 H1 H2. destruct (Rows r1 H1) as [(r & Hr & ->)|E1], (Rows r2 H2) as [(q & Hq & ->)|E2].
    + destruct (oc_old _ _ _ _ Oc r Hr) as [A1 _], (oc_old _ _ _ _ Oc q Hq) as [A2 _].
      pose proof (aged_live _ _ A1) as L1. pose proof (aged_live _ _ A2) as L2.
      destruct A1 as [(I1 & U1 & F1 & _ & _ & S1) _], A2 as [(I2 & U2 & F2 & _ & _ & S2) _].
      intros Ef. destruct (ok_kin s Ok r q Hr Hq) as (? & ? & Kl); [congruence|].
      repeat split; [congruence|congruence|]. intros La Lb. rewrite I1, I2. auto.
    + apply kin_sym, (fresh_kin s s' f extra); auto. now apply (oc_fresh _ _ _ _ Oc).
    + apply (fresh_kin s s' f extra); auto. now apply (oc_fresh _ _ _ _ Oc).
    + intros _. assert (r1 = r2) as -> by congruence. auto.
  - intros r1 r2 H1 H2 Eh. destruct (Rows r1 H1) as [(r & Hr & ->)|E1], (Rows r2 H2) as [(q & Hq & ->)|E2].
    + destruct (oc_old _ _ _ _ Oc r Hr) as [[(I1 & _ & _ & T1 & _) _] _], (oc_old _ _ _ _ Oc q Hq) as [[(I2 & _ & _ & T2 & _) _] _].
      rewrite I1, I2. apply (ok_hash s Ok); auto. congruence.
    + destruct (oc_old _ _ _ _ Oc r Hr) as [[(_ & _ & _ & T1 & _) _] _].
      exfalso. apply (fresh_hash s s' f r2 r Ok); auto; [now apply (oc_fresh _ _ _ _ Oc)|congruence].
    + destruct (oc_old _ _ _ _ Oc q Hq) as [[(_ & _ & _ & T1 & _) _] _].
      exfalso. apply (fresh_hash s s' f r1 q Ok); auto; [now apply (oc_fresh _ _ _ _ Oc)|congruence].
    + congruence.
Qed.

Lemma one_change_evolves s s' f extra : tokens_ok s -> one_change s s' f extra -> evolves s s'.
Proof.
  intros Ok Oc. split.
  - exact (oc_clock _ _ _ _ Oc).
  - exact (oc_draws _ _ _ _ Oc).
  - intros r r' Hr Hr' Ei. destruct (oc_old _ _ _ _ Oc r Hr) as [A _].
    pose proof (oc_get _ _ _ _ Oc (rt_id r)) as Eg. unfold row_of in Hr, Hr'. rewrite Hr in Eg. congruence.
  - intros r' Hr' Hn. destruct (one_change_row s s' f extra r' (ok_keyed s Ok) Oc Hr') as [(r & Hr & ->)|En].
    + exfalso. destruct (oc_old _ _ _ _ Oc r Hr) as [[(I & _) _] _]. rewrite I in Hn. unfold row_of in Hr. congruence.
    + destruct (oc_fresh _ _ _ _ Oc r' En) as (_ & Hi & Hh & Hf). split; [done|]. split; [done|].
      destruct Hf as [?|(r & Hr & L & _ & F & _)]; [by left|]. right. by exists r.
Qed.

Definition good (s s' : store) : Prop := tokens_ok s' /\ evolves s s'.

Lemma one_change_good s s' f extra : tokens_ok s -> one_change s s' f extra -> good s s'.
Proof. split; [eapply one_change_ok|eapply one_change_evolves]; eauto. Qed.

Lemma good_trans s1 s2 s3 : tokens_ok s1 -> good s1 s2 -> good s2 s3 -> good s1 s3.
Proof. intros Ok [Ok2 E12] [Ok3 E23]. split; [exact Ok3|]. exact (evolves_trans s1 s2 s3 Ok Ok2 E12 E23). Qed.

(** ** The steps *)

Lemma keep_good s s' : refreshTokens s' = refreshTokens s -> clock s <= clock s' -> (draws s <= draws s')%nat ->
  tokens_ok s -> good s s'.
Proof.
  intros Et Hc Hd Ok. apply (one_change_good s s' id None); [exact Ok|]. split; auto.
  - rewrite Et. apply Ok.
  - intros i. rewrite Et. now destruct (get i (refreshTokens s)).
  - intros r Hr. split; [apply aged_refl|]. now destruct (ok_rows s Ok r Hr) as (_ & _ & _ & ? & _).
  - discriminate.
Qed.

Lemma revoke_good p reason s : tokens_ok s -> good s (fst (revoke_where p reason s)).
Proof.
  intros Ok. apply (one_change_good s _ (revoked_if p (clock s) reason) None); [exact Ok|]. split.
  - cbn. lia.
  - cbn. lia.
  - exact (keyed_map (revoked_if p (clock s) reason) _
      ltac:(intros r; now destruct (revoked_if_aged p (clock s) reason r) as [[? _] _]) (ok_keyed s Ok)).
  - intros i. rewrite revoke_where_get. now destruct (get i (refreshTokens s)).
  - intros r Hr. split; [apply revoked_if_aged|]. destruct (ok_rows s Ok r Hr) as (_ & _ & _ & Hrr & _).
    unfold revoked_if. destruct (p r); destruct (revoked r) eqn:E; cbn; auto; now rewrite E in *.
  - discriminate.
Qed.

(** The row [issueRefreshToken] mints, for a family and an end of session. *)
Definition minted (userId : string) (familyId : option string) (ua : option string) (e : option Z) (s : store) :
    RefreshTokenRecord :=
  let ttlEnd := clock s + ttlSeconds * 1000 in
  mk_refresh (randomUUID (S (draws s))) userId (default (randomUUID (S (S (draws s)))) familyId)
    (sha256 (randomToken (draws s))) (match e with Some e => Z.min ttlEnd e | None => ttlEnd end)
    None None None (clock s) (userAgentHash ua) (iso <$> e).

Lemma issue_exact userId familyId ua e s :
  issueRefreshToken {| ro_userId := userId; ro_familyId := familyId; ro_userAgent := ua;
                       ro_sessionExpiresAt := iso <$> e |} s =
  let r := minted userId familyId ua e s in
  Some (createRefreshToken r (drawn 3 s), {| ir_token := randomToken (draws s); ir_record := r |}).
Proof. now destruct e. Qed.

Lemma minted_unknown u f ua e s : tokens_ok s -> get (rt_id (minted u f ua e s)) (refreshTokens s) = None.
Proof.
  intros Ok. destruct (get _ _) as [r|] eqn:E; [|reflexivity]. exfalso.
  destruct (get_row s _ r (ok_keyed s Ok) E) as [Hr Ei]. cbn in Ei.
  destruct (ok_rows s Ok r Hr) as ((n & Hn & En) & _). assert (S (draws s) = n) by (apply (inj randomUUID); congruence). lia.
Qed.

Lemma minted_fresh u f ua e s s' g : tokens_ok s -> (draws s' = draws s + 3)%nat ->
  (f = None \/ exists r, row_of s r /\ live r /\ ~ live (g r) /\ f = Some (rt_familyId r) /\ u = rt_userId r /\
     (iso <$> e) = rt_sessionExpiresAt r) ->
  fresh_row s s' g (minted u f ua e s).
Proof.
  intros Ok Hd Hf. split; [|split; [|split]].
  - unfold row_ok. rewrite Hd. cbn. split; [exists (S (draws s)); split; [lia|reflexivity]|].
    split; [|split; [exists (draws s); split; [lia|reflexivity]|split; [discriminate|destruct e; cbn; lia || exact I]]].
    destruct Hf as [->|(r & Hr & _ & _ & -> & _)]; cbn.
    + exists (S (S (draws s))). split; [lia|reflexivity].
    + destruct (ok_rows s Ok r Hr) as (_ & (n & Hn & En) & _). exists n. split; [lia|exact En].
  - exists (S (draws s)). split; [lia|reflexivity].
  - exists (draws s). split; [lia|reflexivity].
  - destruct Hf as [->|(r & Hr & L & D & -> & -> & Es)].
    + left. exists (S (S (draws s))). cbn. split; [lia|reflexivity].
    + right. exists r. split_and!; auto.
Qed.

(** *** Rotation *)

Definition spent (now : Z) (by_ : string) (r : RefreshTokenRecord) : RefreshTokenRecord :=
  with_revoked now "rotated" (with_replaced by_ r).

Lemma spent_replaced now by_ r : by_ <> "" -> replaced (spent now by_ r) = true.
Proof.
  intros Hne. apply bool_decide_eq_true. exists by_. cbn. now rewrite decide_False.
Qed.

Definition heir (r : RefreshTokenRecord) (ua : option string) (s : store) : RefreshTokenRecord :=
  minted (rt_userId r) (Some (rt_familyId r)) ua
    (match rt_sessionExpiresAt r with Some (iso e) => Some e | _ => None end) s.

Definition rotated_store (r : RefreshTokenRecord) (ua : option string) (s : store) : store :=
  let n := heir r ua s in
  set_refreshTokens (set (rt_id r) (spent (clock s) (rt_id n) r) (set (rt_id n) n (refreshTokens s))) (drawn 3 s).

Lemma rotate_live token ua s r : tokens_ok s -> row_of s r -> rt_tokenHash r = sha256 token -> live r ->
  sessionHasEnded r (clock s) = false -> clock s < rt_expiresAt r ->
  rotateRefreshToken token ua s =
    Some (rotated_store r ua s, ok r {| ir_token := randomToken (draws s); ir_record := heir r ua s |}).
Proof.
  intros Ok Hr Hh [L1 L2] Hs He. unfold rotateRefreshToken. rewrite <- Hh, (find_by_row s r Ok Hr), L1, L2, Hs.
  destruct (Z.leb_spec (rt_expiresAt r) (clock s)); [lia|].
  assert (Es : rt_sessionExpiresAt r = iso <$> (match rt_sessionExpiresAt r with Some (iso e) => Some e | _ => None end)).
  { destruct (ok_rows s Ok r Hr) as (_ & _ & _ & _ & Hx). now destruct (rt_sessionExpiresAt r) as [[|]|]. }
  rewrite Es, issue_exact. fold (heir r ua s). cbn zeta iota beta.
  unfold consumeRefreshTokenForRotation. cbn [createRefreshToken set_refreshTokens refreshTokens drawn clock ir_record].
  pose proof (minted_unknown (rt_userId r) (Some (rt_familyId r)) ua _ s Ok : get (rt_id (heir r ua s)) _ = None) as Hn.
  assert (rt_id (heir r ua s) <> rt_id r) as Hne. { intros E. rewrite E in Hn. unfold row_of in Hr. congruence. }
  rewrite get_set_ne by exact Hne. unfold row_of in Hr. rewrite Hr, L1, L2. cbn [orb].
  rewrite bool_decide_eq_true_2 by reflexivity. reflexivity.
Qed.

Lemma rotated_good r ua s : tokens_ok s -> row_of s r -> live r -> good s (rotated_store r ua s).
Proof.
  intros Ok Hr L.
  apply (one_change_good s _ (fun q => if decide (rt_id q = rt_id r) then spent (clock s) (rt_id (heir r ua s)) q else q)
           (Some (heir r ua s))); [exact Ok|].
  pose proof (minted_unknown (rt_userId r) (Some (rt_familyId r)) ua _ s Ok : get (rt_id (heir r ua s)) _ = None) as Hn.
  assert (rt_id (heir r ua s) <> rt_id r) as Hne. { intros E. rewrite E in Hn. unfold row_of in Hr. congruence. }
  split.
  - cbn. lia.
  - cbn. lia.
  - exact (keyed_set _ (spent (clock s) (rt_id (heir r ua s)) r) (keyed_set _ (heir r ua s) (ok_keyed s Ok))).
  - intros id. cbn [rotated_store set_refreshTokens refreshTokens]. rewrite !get_set.
    destruct (get id (refreshTokens s)) as [q|] eqn:E.
    + destruct (get_row s id q (ok_keyed s Ok) E) as [Hq ->].
      assert (rt_id (heir r ua s) <> rt_id q) as Hnq. { intros Ei. rewrite Ei in Hn. congruence. } cbn in Hnq |- *.
      destruct (decide (rt_id r = rt_id q)) as [Ei|Ei].
      * rewrite decide_True by congruence. unfold row_of in Hr, Hq. assert (q = r) as -> by congruence. reflexivity.
      * rewrite !decide_False; [reflexivity|congruence..].
    + cbn. rewrite decide_False by (unfold row_of in Hr; congruence).
      destruct (decide (_ = id)) as [<-|]; [now rewrite decide_True|now rewrite decide_False by congruence].
  - intros q Hq. destruct (decide _).
    + split; [|auto]. repeat split; auto. intros _. apply spent_replaced, randomUUID_nonempty.
    + split; [apply aged_refl|]. now destruct (ok_rows s Ok q Hq) as (_ & _ & _ & ? & _).
  - intros n [= <-]. apply minted_fresh; [exact Ok|cbn; lia|]. right. exists r. rewrite decide_True by reflexivity.
    repeat split; [exact Hr|apply L|apply L|intros [_ D]; discriminate D|].
    destruct (ok_rows s Ok r Hr) as (_ & _ & _ & _ & Hx). now destruct (rt_sessionExpiresAt r) as [[|]|].
Qed.

Lemma then_keep s s1 s2 : tokens_ok s -> good s s1 -> refreshTokens s2 = refreshTokens s1 -> clock s2 = clock s1 ->
  draws s2 = draws s1 -> good s s2.
Proof.
  intros Ok G Et Ec Ed. apply (good_trans s s1 s2 Ok G). apply keep_good; [exact Et|lia|lia|apply G].
Qed.

Lemma burn_good r s : tokens_ok s -> good s (fst (burn r s)).
Proof. intros Ok. eapply (then_keep s _ _ Ok (revoke_good _ _ s Ok)); reflexivity. Qed.

Lemma rotated_rows r ua s : tokens_ok s -> row_of s r -> live r ->
  row_of (rotated_store r ua s) (heir r ua s) /\
  row_of (rotated_store r ua s) (spent (clock s) (rt_id (heir r ua s)) r) /\
  replaced (spent (clock s) (rt_id (heir r ua s)) r) = true.
Proof.
  intros Ok Hr L.
  pose proof (minted_unknown (rt_userId r) (Some (rt_familyId r)) ua _ s Ok : get (rt_id (heir r ua s)) _ = None) as Hn.
  assert (rt_id r <> rt_id (heir r ua s)) as Hne. { intros E. rewrite <- E in Hn. unfold row_of in Hr. congruence. }
  unfold row_of, rotated_store. cbn [refreshTokens set_refreshTokens]. split_and!.
  - rewrite get_set_ne by exact Hne. apply get_set_eq.
  - exact (get_set_eq (rt_id r) _ _).
  - apply spent_replaced, randomUUID_nonempty.
Qed.

Lemma ttlSeconds_pos : 0 < ttlSeconds.
Proof. unfold ttlSeconds, DEFAULT_TTL_SECONDS. destruct env_ttl as [t|]; [|lia]. destruct (Z.ltb_spec 0 t); lia. Qed.

Lemma heir_unexpired r ua s :
  match rt_sessionExpiresAt r with Some (iso e) => rt_expiresAt r <= e | Some iso_unreadable => False | None => True end ->
  clock s < rt_expiresAt r -> clock s < rt_expiresAt (heir r ua s).
Proof.
  intros Hx He. cbn. pose proof ttlSeconds_pos. destruct (rt_sessionExpiresAt r) as [[e|]|]; [lia|destruct Hx|lia].
Qed.

(** What a presented token gets. *)
Lemma rotate_some token ua s : tokens_ok s ->
  exists s' o, rotateRefreshToken token ua s = Some (s', o) /\ good s s' /\
    match o with
    | ok r n => findRefreshTokenByHash (sha256 token) s = Some r /\ live r /\ s' = rotated_store r ua s /\
        sessionHasEnded r (clock s) = false /\ rt_sessionExpiresAt r <> Some iso_unreadable
    | _ => True
    end.
Proof.
  intros Ok. assert (Stay : good s s) by (apply keep_good; auto; lia).
  destruct (findRefreshTokenByHash (sha256 token) s) as [r|] eqn:F.
  2:{ exists s, invalid. unfold rotateRefreshToken. now rewrite F. }
  destruct (find_row s _ r (ok_keyed s Ok) F) as [Hr Hh].
  destruct (replaced r) eqn:E1.
  { exists (fst (burn r s)), (snd (burn r s)). unfold rotateRefreshToken. rewrite F, E1. split; [reflexivity|].
    split; [now apply burn_good|exact I]. }
  destruct (revoked r) eqn:E2; [exists s, was_revoked; unfold rotateRefreshToken; now rewrite F, E1, E2|].
  destruct (sessionHasEnded r (clock s)) eqn:E3.
  { eexists _, session_expired. unfold rotateRefreshToken. rewrite F, E1, E2, E3. split; [reflexivity|].
    split; [now apply revoke_good|exact I]. }
  destruct (Z.leb_spec (rt_expiresAt r) (clock s)) as [E4|E4].
  { exists s, expired. unfold rotateRefreshToken. rewrite F, E1, E2, E3. apply Z.leb_le in E4. now rewrite E4. }
  exists (rotated_store r ua s). eexists. split; [apply rotate_live; auto; now split|].
  split; [apply rotated_good; [exact Ok|exact Hr|now split]|]. split_and!; [reflexivity|now split..|exact E3|].
  destruct (ok_rows s Ok r Hr) as (_ & _ & _ & _ & Hx). intros E. now rewrite E in Hx.
Qed.

Lemma refresh_some token ua s : tokens_ok s ->
  exists s' resp, token_refresh token ua s = Some (s', resp) /\ good s s'.
Proof.
  intros Ok. destruct (rotate_some token ua s Ok) as (s1 & o & E & G & Ho). unfold token_refresh. rewrite E.
  destruct o; eauto. destruct Ho as (_ & _ & _ & _ & Hx).
  destruct (get (rt_userId record) (users s1)) as [name|]; [|eauto].
  assert (Minted : good s (drawn 1 s1)).
  { apply (good_trans s s1 _ Ok G). apply keep_good; [reflexivity|cbn; lia|cbn; lia|apply G]. }
  destruct (rt_sessionExpiresAt record) as [[e|]|]; [|congruence|]; cbn; eauto.
Qed.

Lemma revokeRefreshToken_good token reason s : tokens_ok s -> good s (fst (revokeRefreshToken token reason s)).
Proof.
  intros Ok. unfold revokeRefreshToken. assert (good s s) by (apply keep_good; auto; lia).
  destruct (findRefreshTokenByHash _ s) as [r|]; [|auto]. destruct (revoked r); [auto|]. now apply revoke_good.
Qed.

Lemma sign_in_good userId name e s s2 toks : tokens_ok s -> issueSession userId name None e s = Some (s2, toks) -> good s s2.
Proof.
  intros Ok. unfold issueSession. cbn [signJwtWithMeta]. set (s1 := drawn 1 s).
  assert (G1 : good s s1) by (apply keep_good; [reflexivity|cbn; lia|cbn; lia|exact Ok]).
  rewrite issue_exact. cbn zeta iota. set (r := minted userId None None e s1). intros [= <- _].
  apply (good_trans s s1 _ Ok G1). destruct G1 as [Ok1 _].
  apply (one_change_good s1 _ id (Some r)); [exact Ok1|]. split.
  - cbn. lia.
  - cbn. lia.
  - exact (keyed_set _ r (ok_keyed s1 Ok1)).
  - intros i. cbn [createRefreshToken set_refreshTokens refreshTokens]. rewrite get_set.
    pose proof (minted_unknown userId None None e s1 Ok1) as Hn. fold r in Hn.
    destruct (decide (rt_id r = i)) as [<-|].
    + change (get (rt_id r) (refreshTokens (drawn 3 s1))) with (get (rt_id r) (refreshTokens s1)).
      rewrite Hn. cbn [mbind option_bind]. now rewrite decide_True.
    + change (get i (refreshTokens (drawn 3 s1))) with (get i (refreshTokens s1)).
      destruct (get i (refreshTokens s1)); [reflexivity|]. cbn [mbind option_bind]. now rewrite decide_False by auto.
  - intros q Hq. split; [apply aged_refl|]. now destruct (ok_rows s1 Ok1 q Hq) as (_ & _ & _ & ? & _).
  - intros n [= <-]. apply minted_fresh; [exact Ok1|cbn; lia|now left].
Qed.

(** Rows that go leave the others as they were. *)
Lemma purge_good userId s : tokens_ok s -> good s (purgeUserAuthArtifacts userId s).
Proof.
  intros Ok. set (s' := purgeUserAuthArtifacts userId s).
  assert (Sub : forall r, row_of s' r -> row_of s r).
  { intros r. unfold row_of, s'. cbn. rewrite get_filter by apply Ok. intros Hr. apply bind_Some in Hr as (q & Hq & Hp).
    destruct (negb _); [|discriminate]. by injection Hp as <-. }
  split; split; try (cbn; lia).
  - split; [apply NoDup_filter_keys, Ok|]. destruct (ok_keyed s Ok) as [_ Hk].
    rewrite List.Forall_forall in *. intros kv [Hin _]%filter_In. by apply Hk.
  - intros r Hr. exact (ok_rows s Ok r (Sub r Hr)).
  - intros r r' Hr Hr'. exact (ok_kin s Ok r r' (Sub r Hr) (Sub r' Hr')).
  - intros r r' Hr Hr'. exact (ok_hash s Ok r r' (Sub r Hr) (Sub r' Hr')).
  - intros r r' Hr Hr'%Sub E. unfold row_of in Hr, Hr'. assert (r' = r) as -> by congruence. apply aged_refl.
  - intros r Hr%Sub Hn. unfold row_of in Hr. congruence.
Qed.

Lemma act_good a s : tokens_ok s -> good s (act a s).
Proof.
  intros Ok. assert (Stay : good s s) by (apply keep_good; auto; lia). destruct a; cbn [act].
  - apply keep_good; [reflexivity|cbn; lia|cbn; lia|exact Ok].
  - destruct (issueSession _ _ _ _ _) as [[s2 toks]|] eqn:E; [|exact Stay].
    set (s1 := mk_store _ _ _ _ _) in E.
    assert (G1 : good s s1) by (apply keep_good; [reflexivity|cbn; lia|cbn; lia|exact Ok]).
    exact (good_trans s s1 s2 Ok G1 (sign_in_good _ _ _ s1 s2 toks (proj1 G1) E)).
  - destruct (refresh_some token None s Ok) as (s' & resp & -> & G). exact G.
  - unfold logout. set (s1 := match truthy refreshToken with Some _ => _ | None => s end).
    assert (G1 : good s s1). { unfold s1. destruct (truthy refreshToken); [now apply revokeRefreshToken_good|exact Stay]. }
    destruct user as [u|]; [|exact G1]. destruct (_ && _); [|exact G1].
    now apply (then_keep s s1).
  - eapply (then_keep s _ _ Ok (revoke_good _ _ s Ok)); reflexivity.
  - eapply (then_keep s _ _ Ok (revoke_good _ _ s Ok)); reflexivity.
  - now apply revoke_good.
  - now apply (then_keep s s _ Ok Stay).
  - apply (then_keep s _ _ Ok (purge_good userId s Ok)); reflexivity.
Qed.

Lemma history_good l s : tokens_ok s -> good s (history l s).
Proof.
  revert s. induction l as [|a l IH]; intros s Ok; [apply keep_good; cbn; auto; lia|].
  pose proof (act_good a s Ok) as G. exact (good_trans s _ _ Ok G (IH _ (proj1 G))).
Qed.

Lemma empty_ok now us : tokens_ok (empty_store now us).
Proof. split; [apply keyed_nil|unfold row_of; cbn; discriminate..]. Qed.

Lemma reachable_ok l now us : tokens_ok (history l (empty_store now us)).
Proof. apply history_good, empty_ok. Qed.

(** ** Families that have ended *)

Definition ended (familyId : string) (s : store) : Prop :=
  (exists n, (n < draws s)%nat /\ familyId = randomUUID n) /\
  forall r, row_of s r -> rt_familyId r = familyId -> revoked r = true.

Lemma ended_stays F s s' : tokens_ok s -> evolves s s' -> ended F s -> ended F s'.
Proof.
  intros Ok Ev [(n & Hn & En) Hend]. split.
  { exists n. split; [|exact En]. pose proof (ev_draws _ _ Ev). lia. }
  intros r' Hr' Ef. destruct (get (rt_id r') (refreshTokens s)) as [r|] eqn:E.
  - destruct (get_row s _ r (ok_keyed s Ok) E) as [Hr Ei].
    pose proof (ev_old _ _ Ev r r' Hr Hr' Ei) as [(_ & _ & F' & _) [_ Hrev]].
    apply Hrev, Hend; [exact Hr|congruence].
  - destruct (ev_new _ _ Ev r' Hr' E) as (_ & _ & [(k & Hk & Ek)|(r & Hr & [_ L] & F')]).
    + assert (k = n) by (apply (inj randomUUID); congruence). lia.
    + rewrite Hend in L; [discriminate|exact Hr|congruence].
Qed.

Lemma revoke_where_row p reason s r' : keyed (refreshTokens s) -> row_of (fst (revoke_where p reason s)) r' ->
  exists r, row_of s r /\ r' = revoked_if p (clock s) reason r.
Proof.
  intros Hk Hr. unfold row_of in Hr. rewrite revoke_where_get in Hr.
  destruct (get (rt_id r') (refreshTokens s)) as [r|] eqn:E; [|discriminate].
  exists r. split; [now destruct (get_row s _ r Hk E)|]. cbn in Hr. congruence.
Qed.

(** Revoking a selection that contains a whole family ends it. *)
Lemma revoke_ends p reason s r : tokens_ok s -> row_of s r ->
  (forall q, row_of s q -> rt_familyId q = rt_familyId r -> p q = true) ->
  ended (rt_familyId r) (fst (revoke_where p reason s)).
Proof.
  intros Ok Hr Hp. split; [exact (proj1 (proj2 (ok_rows s Ok r Hr)))|].
  intros q' Hq' Ef. destruct (revoke_where_row p reason s q' (ok_keyed s Ok) Hq') as (q & Hq & ->).
  apply revoked_if_revoked, Hp; [exact Hq|]. destruct (revoked_if_aged p (clock s) reason q) as [(_ & _ & F & _) _]. congruence.
Qed.

(** A token of an ended family is turned away. *)
Definition turned_away (token : string) (s : store) : Prop :=
  forall ua, exists s' resp, token_refresh token ua s = Some (s', resp) /\ (resp = rr_reused \/ resp = rr_revoked).

Lemma ended_turned_away s r token : tokens_ok s -> row_of s r -> ended (rt_familyId r) s ->
  sha256 token = rt_tokenHash r -> turned_away token s.
Proof.
  intros Ok Hr [_ Hend] Hh ua. specialize (Hend r Hr eq_refl).
  unfold token_refresh, rotateRefreshToken. rewrite Hh, (find_by_row s r Ok Hr), Hend.
  destruct (replaced r); cbn; eauto.
Qed.

(** No pair of tokens comes of it: also once its row is gone. *)
Definition never_refreshes (token : string) (s : store) : Prop :=
  forall ua, exists s' resp, token_refresh token ua s = Some (s', resp) /\
    (resp = rr_reused \/ resp = rr_revoked \/ resp = rr_invalid).

Lemma ended_refused s s' r token : tokens_ok s -> tokens_ok s' -> evolves s s' -> ended (rt_familyId r) s' ->
  row_of s r -> sha256 token = rt_tokenHash r -> never_refreshes token s'.
Proof.
  intros Ok Ok' Ev End Hr Hh ua. destruct (findRefreshTokenByHash (sha256 token) s') as [q|] eqn:F.
  - destruct (find_row s' _ q (ok_keyed s' Ok') F) as [Hq Eh].
    assert (rt_familyId q = rt_familyId r) as Ef.
    { destruct (get (rt_id q) (refreshTokens s)) as [p|] eqn:E.
      - destruct (get_row s _ p (ok_keyed s Ok) E) as [Hp Ei]. pose proof (ev_old _ _ Ev p q Hp Hq Ei) as [(_ & _ & Ef & Eh' & _) _].
        pose proof (ok_hash s Ok p r Hp Hr ltac:(congruence)) as Epr. unfold row_of in Hp, Hr. congruence.
      - destruct (ev_new _ _ Ev q Hq E) as (_ & (k & Hk & Ek) & _). destruct (ok_rows s Ok r Hr) as (_ & _ & (j & Hj & Ej) & _).
        assert (k = j) as -> by (apply (inj (fun n => sha256 (randomToken n))); cbn; congruence). lia. }
    rewrite <-Ef in End. destruct (ended_turned_away s' q token Ok' Hq End (eq_sym Eh) ua) as (s2 & resp & E & [-> | ->]); eauto 6.
  - unfold token_refresh, rotateRefreshToken. rewrite F. eauto 6.
Qed.

(** ** The cutoff of a user's access tokens *)

(** Deny rows are filed under the id of a token this process drew, or under a cutoff key. *)
Definition deny_ok (s : store) (j : string) (rec : RevokedSessionRecord) : Prop :=
  rv_revokedAt rec <= clock s /\
  ((exists n, (n < draws s)%nat /\ j = randomJti n) \/
   (exists u, j = userTokenCutoffJti u /\ rv_expiresAt rec = rv_revokedAt rec + USER_TOKEN_CUTOFF_TTL_MS)).

Record denials_ok (s : store) : Prop := {
  dn_keys : List.NoDup (keys (revokedSessions s));
  dn_rows j rec : get j (revokedSessions s) = Some rec -> deny_ok s j rec;
}.

(** [verifyJwt] hands the route the payload of a token this server signed. *)
Definition signed_here (s : store) (a : action) : Prop :=
  match a with
  | Logout (Some u) _ => exists n, (n < draws s)%nat /\ at_jti u = randomJti n
  | _ => True
  end.

Fixpoint honest (s : store) (l : list action) : Prop :=
  match l with
  | [] => True
  | a :: l => signed_here s a /\ honest (act a s) l
  end.

(** Every token of [u] minted before [c] is refused. *)
Definition cut_off (u : string) (c : Z) (s : store) : Prop :=
  c <= clock s /\
  (c + USER_TOKEN_CUTOFF_TTL_MS <= clock s \/
   exists rec, get (userTokenCutoffJti u) (revokedSessions s) = Some rec /\
     c <= rv_revokedAt rec <= clock s /\ rv_expiresAt rec = rv_revokedAt rec + USER_TOKEN_CUTOFF_TTL_MS).

(** What one step may do to the deny rows. *)
Definition denials_step (s s' : store) : Prop :=
  clock s <= clock s' /\ (draws s <= draws s')%nat /\
  (revokedSessions s' = revokedSessions s \/
   (exists u reason, revokedSessions s' = revokedSessions (revokeUserTokensBefore u reason s)) \/
   (exists n u e reason, (n < draws s)%nat /\ revokedSessions s' = revokedSessions (revokeSession (randomJti n) u reason e s)) \/
   revokedSessions s' = revokedSessions (fst (pruneExpiredRevokedSessions (clock s) s))).

Lemma userTokenCutoffJti_inj u v : userTokenCutoffJti u = userTokenCutoffJti v -> u = v.
Proof. unfold userTokenCutoffJti, cutoff_prefix. intros E. now simplify_eq/=. Qed.

Lemma deny_later s s' j rec : clock s <= clock s' -> (draws s <= draws s')%nat -> deny_ok s j rec -> deny_ok s' j rec.
Proof. intros Hc Hd [H1 [(n & Hn & E)|H2]]; split; [lia|left; exists n; split; [lia|exact E]|lia|now right]. Qed.

Lemma denials_step_ok s s' : denials_step s s' -> denials_ok s -> denials_ok s'.
Proof.
  intros (Hc & Hd & Hs) [Hk Hr].
  pose proof (fun j rec E => deny_later s s' j rec Hc Hd (Hr j rec E)) as Later.
  destruct Hs as [E|[(u & reason & E)|[(n & u & e & reason & Hn & E)|E]]]; split; rewrite E; cbn.
  - exact Hk.
  - exact Later.
  - now apply NoDup_keys_set.
  - intros j rec. rewrite get_set. destruct (decide _) as [<-|]; [|apply Later].
    intros [= <-]. split; [cbn; lia|right; now exists u].
  - now apply NoDup_keys_set.
  - intros j rec. rewrite get_set. destruct (decide _) as [<-|]; [|apply Later].
    intros [= <-]. split; [cbn; lia|left; exists n; split; [lia|reflexivity]].
  - now apply NoDup_filter_keys.
  - intros j rec. rewrite get_filter by exact Hk. intros G. apply bind_Some in G as (rec' & G & Hp).
    destruct (negb _); [|discriminate]. injection Hp as <-. now apply Later.
Qed.

Lemma cut_off_step u c s s' : denials_step s s' -> denials_ok s -> cut_off u c s -> cut_off u c s'.
Proof.
  intros (Hc & Hd & Hs) Dn [Hn [Hold|(rec & G & Hr & He)]]; (split; [lia|]); [left; lia|].
  assert (Kept : revokedSessions s' = revokedSessions s -> c + USER_TOKEN_CUTOFF_TTL_MS <= clock s' \/
    exists rec, get (userTokenCutoffJti u) (revokedSessions s') = Some rec /\
      c <= rv_revokedAt rec <= clock s' /\ rv_expiresAt rec = rv_revokedAt rec + USER_TOKEN_CUTOFF_TTL_MS).
  { intros ->. right. exists rec. split_and!; [exact G|lia|lia|exact He]. }
  destruct Hs as [E|[(v & reason & E)|[(n & v & e & reason & Hk & E)|E]]]; [now apply Kept|..]; rewrite E; cbn.
  - right. rewrite get_set. destruct (decide _) as [_|_].
    + eexists. split; [reflexivity|]. cbn. lia.
    + exists rec. split_and!; [exact G|lia|lia|exact He].
  - right. rewrite get_set, decide_False by apply randomJti_plain. exists rec. split_and!; [exact G|lia|lia|exact He].
  - rewrite get_filter by apply Dn. rewrite G. cbn. destruct (Z.leb_spec (rv_expiresAt rec) (clock s)).
    + left. lia.
    + right. exists rec. split_and!; [reflexivity|lia|lia|exact He].
Qed.

Definition denies (s s' : store) : Prop :=
  revokedSessions s' = revokedSessions s \/
  exists u reason, revokedSessions s' = revokedSessions (revokeUserTokensBefore u reason s).

Lemma rotate_denies token ua s s' o : tokens_ok s -> rotateRefreshToken token ua s = Some (s', o) -> denies s s'.
Proof.
  intros Ok. unfold denies. unfold rotateRefreshToken. destruct (findRefreshTokenByHash _ s) as [r|]; [|intros [= <- _]; now left].
  destruct (replaced r); [intros [= <- _]; right; now exists (rt_userId r), "reuse_detected"|].
  destruct (revoked r); [intros [= <- _]; now left|].
  destruct (sessionHasEnded r _); [intros [= <- _]; now left|].
  destruct (_ <=? _); [intros [= <- _]; now left|].
  unfold issueRefreshToken. destruct (match ro_sessionExpiresAt _ with Some _ => _ | None => _ end); [|discriminate].
  unfold consumeRefreshTokenForRotation. cbn [ro_familyId ro_userId ir_record].
  destruct (get _ (refreshTokens (createRefreshToken _ _))) as [q|];
    [|intros [= <- _]; right; now exists (rt_userId r), "reuse_detected"].
  destruct (replaced q || revoked q); destruct (bool_decide _); intros [= <- _];
    (now left) || (right; now exists (rt_userId r), "reuse_detected").
Qed.

Lemma refresh_denies token ua s s' resp : tokens_ok s -> token_refresh token ua s = Some (s', resp) -> denies s s'.
Proof.
  intros Ok. unfold token_refresh. destruct (rotateRefreshToken token ua s) as [[s1 o]|] eqn:E; [|discriminate].
  pose proof (rotate_denies token ua s s1 o Ok E) as D.
  destruct o; try (intros [= <- _]; exact D). destruct (get _ (users s1)); [|intros [= <- _]; exact D].
  destruct (rt_sessionExpiresAt record) as [[e|]|]; [|discriminate|]; intros [= <- _]; exact D.
Qed.

Lemma act_denials a s : tokens_ok s -> signed_here s a -> denials_step s (act a s).
Proof.
  intros Ok Hs. destruct (act_good a s Ok) as [_ Ev].
  split; [exact (ev_clock _ _ Ev)|]. split; [exact (ev_draws _ _ Ev)|]. clear Ev.
  destruct a; cbn [act]; auto.
  - destruct (issueSession _ _ _ _ _) as [[s2 toks]|] eqn:E; [|now left]. left.
    unfold issueSession in E. cbn [signJwtWithMeta] in E. rewrite issue_exact in E. cbn zeta in E.
    injection E as <- _. reflexivity.
  - destruct (refresh_some token None s Ok) as (s' & resp & E & _). rewrite E.
    destruct (refresh_denies token None s s' resp Ok E) as [D|D]; auto.
  - unfold logout. set (s1 := match truthy refreshToken with Some _ => _ | None => s end).
    assert (revokedSessions s1 = revokedSessions s /\ clock s1 = clock s) as [E1 C1].
    { unfold s1. destruct (truthy refreshToken) as [t|]; [|auto]. unfold revokeRefreshToken.
      destruct (findRefreshTokenByHash _ s) as [r|]; [|auto]. now destruct (revoked r). }
    destruct user as [u|]; [|now left]. destruct Hs as (n & Hn & En). destruct (_ && _); [|now left].
    right. right. left. exists n, (at_sub u), (at_exp u * 1000), "logout". split; [exact Hn|].
    unfold revokeSession. cbn. now rewrite E1, C1, En.
  - right. left. exists userId, "admin_revoke". reflexivity.
  - right. left. exists userId, "password_change". reflexivity.
Qed.

Lemma honest_history_ok l s : tokens_ok s -> denials_ok s -> honest s l ->
  denials_ok (history l s) /\ (forall u c, cut_off u c s -> cut_off u c (history l s)).
Proof.
  revert s. induction l as [|a l IH]; intros s Ok Dn Hl; [now split|]. destruct Hl as [Ha Hl].
  pose proof (act_denials a s Ok Ha) as St. pose proof (denials_step_ok s _ St Dn) as Dn'.
  destruct (IH (act a s) (proj1 (act_good a s Ok)) Dn' Hl) as [D C].
  split; [exact D|]. intros u c Hc. apply C. exact (cut_off_step u c s _ St Dn Hc).
Qed.

Lemma honest_app l1 l2 s : honest s (l1 ++ l2) -> honest s l1 /\ honest (history l1 s) l2.
Proof.
  revert s. induction l1 as [|a l1 IH]; intros s; [now split|]. cbn. intros [Ha Hl].
  destruct (IH _ Hl) as [H1 H2]. auto.
Qed.

Lemma empty_denials now us : denials_ok (empty_store now us).
Proof. split; [constructor|discriminate]. Qed.

Lemma cut_off_now u reason s : cut_off u (clock s) (revokeUserTokensBefore u reason s).
Proof.
  split; [cbn; lia|]. right. eexists. split; [apply get_set_eq|]. cbn. lia.
Qed.

(** ** Access tokens *)

Lemma verifyJwt_claims token now p : verifyJwt token now = Some p ->
  seconds now <= at_exp p /\ (forall e, at_sxp p = Some e -> seconds now < e) /\ token <> "".
Proof.
  intros V. assert (token <> "") as Hne by now intros ->. split_and!; [..|exact Hne]; revert V; unfold verifyJwt;
    (destruct (split_dots token) as [|h [|b [|g [|]]]]; try discriminate);
    (destruct (negb _); [discriminate|]); (destruct (negb _); [discriminate|]);
    (destruct (decodePayload b) as [d|]; [|discriminate]);
    (destruct (Z.ltb_spec (at_exp d) (seconds now)); [discriminate|]).
  - destruct (match at_sxp d with Some _ => _ | None => _ end); [discriminate|].
    destruct (_ || _); [discriminate|]. now intros [= <-].
  - destruct (at_sxp d) as [x|] eqn:Ex.
    + destruct (Z.leb_spec x (seconds now)); [discriminate|]. destruct (_ || _); [discriminate|].
      intros [= <-] e Ee. assert (x = e) as -> by congruence. lia.
    + destruct (_ || _); [discriminate|]. intros [= <-] e Ee. congruence.
Qed.

Lemma cut_off_refused u c s token p : cut_off u c s -> verifyJwt token (clock s) = Some p ->
  at_sub p = u -> at_iat p < seconds c -> at_exp p <= at_iat p + access_ttl ->
  authMiddleware (Some token) s = session_revoked.
Proof.
  intros [Hc Hcut] V <- Hi He. destruct (verifyJwt_claims token _ p V) as (Hexp & _ & Hne).
  assert (Alive : clock s < c + USER_TOKEN_CUTOFF_TTL_MS).
  { unfold seconds, USER_TOKEN_CUTOFF_TTL_MS, access_ttl in *.
    pose proof (Z.div_mod c 1000 ltac:(lia)). pose proof (Z.mod_pos_bound c 1000 ltac:(lia)).
    pose proof (Z.div_mod (clock s) 1000 ltac:(lia)). pose proof (Z.mod_pos_bound (clock s) 1000 ltac:(lia)). lia. }
  destruct Hcut as [|(rec & G & [R1 R2] & X)]; [lia|].
  unfold authMiddleware, truthy. rewrite decide_False by exact Hne. rewrite V.
  destruct (negb _ && _); [reflexivity|]. unfold getUserTokenRevocationCutoff. rewrite G.
  destruct (Z.leb_spec (rv_expiresAt rec) (clock s)); [lia|].
  destruct (Z.ltb_spec (at_iat p) (seconds (rv_revokedAt rec))) as [|Hge]; [reflexivity|].
  unfold seconds in *. pose proof (Z.div_le_mono c (rv_revokedAt rec) 1000 ltac:(lia) R1). lia.
Qed.

Lemma split_dots_free a : dot_free a -> split_dots a = [a].
Proof.
  unfold dot_free. induction a as [|c a IH]; [reflexivity|]. cbn. intros Hd.
  destruct (Ascii.eqb_spec c "."%char) as [->|Hc]; [exfalso; auto|]. now rewrite IH by auto.
Qed.

Lemma split_dots_cons a b : dot_free a -> split_dots (a +:+ "." +:+ b) = a :: split_dots b.
Proof.
  change ("." +:+ b) with (String "." b). unfold dot_free. induction a as [|c a IH]; [reflexivity|].
  intros Hd. change (String c a +:+ String "." b) with (String c (a +:+ String "." b)). cbn in Hd |- *.
  destruct (Ascii.eqb_spec c "."%char) as [->|Hc]; [exfalso; auto|]. now rewrite IH by auto.
Qed.

Lemma string_app_assoc (a b c : string) : (a +:+ b) +:+ c = a +:+ (b +:+ c).
Proof. induction a as [|x a IH]; [reflexivity|]. exact (f_equal (String x) IH). Qed.

Lemma signed_parts u name ttl e s :
  split_dots (sj_token (snd (signJwtWithMeta u name ttl e s))) =
  let p := sj_payload (snd (signJwtWithMeta u name ttl e s)) in
  [encodedHeader; encodePayload p; hmac signingSecret (encodedHeader +:+ "." +:+ encodePayload p)].
Proof.
  unfold signJwtWithMeta. cbn [snd sj_token sj_payload]. rewrite !string_app_assoc.
  rewrite split_dots_cons by apply header_dot_free. rewrite split_dots_cons by apply payload_dot_free.
  now rewrite split_dots_free by apply hmac_dot_free.
Qed.

(** What the verification of a signed token answers at any time. *)
Lemma sign_verify u name ttl e s now : signingSecret <> "" ->
  let j := snd (signJwtWithMeta u name ttl e s) in
  verifyJwt (sj_token j) now =
  if at_exp (sj_payload j) <? seconds now then None
  else if match e with Some x => x <=? seconds now | None => false end then None
  else Some (sj_payload j).
Proof.
  intros Hsec j. unfold verifyJwt. unfold j at 1. rewrite signed_parts. cbn zeta iota. fold j.
  rewrite headerAlg_encoded, bool_decide_eq_true_2 by reflexivity. cbn [negb].
  assert (existsb _ verificationSecrets = true) as ->.
  { apply existsb_exists. exists signingSecret. split; [|now apply bool_decide_eq_true].
    apply filter_In. split; [now left|]. now rewrite bool_decide_eq_false_2. }
  cbn [negb]. rewrite decode_encode.
  change (at_sxp (sj_payload j)) with e.
  change (at_iss (sj_payload j)) with issuer. change (at_aud (sj_payload j)) with audience.
  rewrite !bool_decide_eq_true_2 by reflexivity. reflexivity.
Qed.

Lemma jti_not_denied n s : denials_ok s -> (draws s <= n)%nat -> get (randomJti n) (revokedSessions s) = None.
Proof.
  intros Dn Hn. destruct (get _ _) as [rec|] eqn:G; [|reflexivity]. exfalso.
  destruct (dn_rows s Dn _ rec G) as [_ [(k & Hk & E)|(u & E & _)]].
  - apply randomJti_inj in E. lia.
  - exact (randomJti_plain n u E).
Qed.

Lemma cutoff_past u s : denials_ok s -> 0 <= clock s -> getUserTokenRevocationCutoff u s <= seconds (clock s).
Proof.
  intros Dn Hc. assert (0 <= seconds (clock s)) by (apply Z.div_pos; lia).
  unfold getUserTokenRevocationCutoff. destruct (get _ _) as [rec|] eqn:G; [|lia].
  destruct (_ <=? _); [lia|]. apply Z.div_le_mono; [lia|]. now destruct (dn_rows s Dn _ rec G).
Qed.

(** A freshly minted access token is accepted. *)
Lemma minted_accepted u name e s : denials_ok s -> 0 <= clock s -> signingSecret <> "" ->
  (forall x, e = Some x -> seconds (clock s) < x) ->
  let '(s', j) := signJwtWithMeta u name access_ttl e s in
  authMiddleware (Some (sj_token j)) s' = signed_in (sj_payload j).
Proof.
  intros Dn Hc Hsec He. destruct (signJwtWithMeta u name access_ttl e s) as [s' j] eqn:E.
  pose proof (sign_verify u name access_ttl e s (clock s) Hsec) as V. rewrite E in V. cbn [snd] in V.
  assert (clock s' = clock s /\ revokedSessions s' = revokedSessions s /\ at_jti (sj_payload j) = randomJti (draws s)
    /\ at_iat (sj_payload j) = seconds (clock s) /\
    at_exp (sj_payload j) = match e with Some x => Z.min (seconds (clock s) + access_ttl) x | None => seconds (clock s) + access_ttl end)
    as (Ec & Er & Ej & Ei & Ex) by (injection E as <- <-; auto).
  destruct (Z.ltb_spec (at_exp (sj_payload j)) (seconds (clock s))) as [Hlt|_].
  { exfalso. unfold access_ttl in *. destruct e as [x|]; [specialize (He x eq_refl)|]; lia. }
  assert (match e with Some x => x <=? seconds (clock s) | None => false end = false) as Es.
  { destruct e as [x|]; [|reflexivity]. apply Z.leb_gt. now apply He. }
  rewrite Es in V. destruct (verifyJwt_claims _ _ _ V) as (_ & _ & Hne).
  unfold authMiddleware, truthy. rewrite decide_False by exact Hne. rewrite Ec, V.
  unfold isSessionRevoked. rewrite Er, Ej, jti_not_denied by (auto; lia). rewrite andb_false_r.
  destruct (Z.ltb_spec (at_iat (sj_payload j)) (getUserTokenRevocationCutoff (at_sub (sj_payload j)) s')) as [Hlt|_]; [|reflexivity].
  exfalso. pose proof (cutoff_past (at_sub (sj_payload j)) s Dn Hc).
  assert (getUserTokenRevocationCutoff (at_sub (sj_payload j)) s' = getUserTokenRevocationCutoff (at_sub (sj_payload j)) s)
    by (unfold getUserTokenRevocationCutoff; now rewrite Er, Ec). lia.
Qed.
End proofs.
