(* ===== verification/SessionsSafety.v ===== *)
(** * The promises of the session tokens

    The properties of [Sessions] over whole histories, proved from the lemmas of
    [SessionsProofs], each with a run of a concrete runtime ([sample_runtime]) it
    applies to. *)

From S2P Require Import Prelude JsMap Sessions SessionsProofs.
Open Scope Z_scope.

(** ** A concrete runtime *)

(** A payload as a word of zeros and ones. *)
Fixpoint bits (p : positive) : string :=
  match p with
  | xH => ""
  | xO p => String "0" (bits p)
  | xI p => String "1" (bits p)
  end.

Fixpoint unbits (s : string) : positive :=
  match s with
  | "" => xH
  | String c s => if Ascii.eqb c "1" then xI (unbits s) else xO (unbits s)
  end.

Lemma unbits_bits p : unbits (bits p) = p.
Proof. induction p as [p IH|p IH|]; cbn; now rewrite ?IH. Qed.

Lemma bits_dot_free p : dot_free (bits p).
Proof. unfold dot_free. induction p as [p IH|p IH|]; cbn; intuition discriminate. Qed.

Definition claims (p : AuthTokenPayload) : string * string * Z * Z * string * string * string * option Z :=
  (at_sub p, at_username p, at_iat p, at_exp p, at_iss p, at_aud p, at_jti p, at_sxp p).

Definition of_claims (c : string * string * Z * Z * string * string * string * option Z) : AuthTokenPayload :=
  let '(a, b, c, d, e, f, g, h) := c in Build_AuthTokenPayload a b c d e f g h.

Definition sample_encode (p : AuthTokenPayload) : string := bits (encode (claims p)).
Definition sample_decode (s : string) : option AuthTokenPayload := of_claims <$> decode (unbits s).

Fixpoint sticks (n : nat) : string :=
  match n with O => "" | S n => String "i" (sticks n) end.

Lemma sticks_inj n m : sticks n = sticks m -> n = m.
Proof. revert m. induction n as [|n IH]; intros [|m]; cbn; congruence || (intros [= E]; f_equal; auto). Qed.

#[export] Instance sample_runtime : SessionRuntime := {|
  sha256 := fun s => s;
  randomUUID := fun n => String "u" (sticks n);
  randomToken := fun n => String "t" (sticks n);
  randomJti := fun n => String "j" (sticks n);
  env_ttl := None;
  issuer := "blackout";
  audience := "blackout-clients";
  signingSecret := "secret";
  rolloverSecrets := [];
  hmac := fun secret _ => bits (encode secret);
  encodedHeader := "header";
  encodePayload := sample_encode;
  headerAlg := fun h => if decide (h = "header") then Some "HS256" else None;
  decodePayload := sample_decode;
|}.

#[export] Instance sample_laws : SessionRuntimeLaws.
Proof.
  split; cbn.
  - intros n m [= E]. now apply sticks_inj.
  - discriminate.
  - intros n m [= E]. now apply sticks_inj.
  - intros n m [= E]. now apply sticks_inj.
  - discriminate.
  - intros n u. discriminate.
  - reflexivity.
  - intros p. unfold sample_decode, sample_encode. rewrite unbits_bits, countable.decode_encode. now destruct p.
  - unfold dot_free. cbn. intuition discriminate.
  - intros p. apply bits_dot_free.
  - intros secret _. apply bits_dot_free.
Qed.

(** ** The properties *)

Section claims.
Context `{SessionRuntimeLaws}.

(** C25 (invariant): After any history of sign-ins, refreshes, logouts, revocations,
    prunes and account deletions (which take the user's refresh tokens along), two refresh tokens of one family belong to one
    user and carry one end of session, no family has two usable tokens, a replaced
    token is also revoked, no token outlives its session's end, and a token is
    found by its hash. *)
Theorem families_sound l now us :
  let s := history l (empty_store now us) in
  (forall r r', row_of s r -> row_of s r' -> rt_familyId r = rt_familyId r' ->
     rt_userId r = rt_userId r' /\ rt_sessionExpiresAt r = rt_sessionExpiresAt r' /\ (live r -> live r' -> r = r')) /\
  (forall r, row_of s r ->
     (replaced r = true -> revoked r = true) /\
     (forall e, rt_sessionExpiresAt r = Some (iso e) -> rt_expiresAt r <= e) /\
     findRefreshTokenByHash (rt_tokenHash r) s = Some r).
Proof.
  intros s. pose proof (reachable_ok l now us : tokens_ok s) as Ok. split.
  - intros r r' Hr Hr' Ef. destruct (ok_kin s Ok r r' Hr Hr' Ef) as (? & ? & Kl). split_and!; auto.
    intros L L'. specialize (Kl L L'). unfold row_of in Hr, Hr'. congruence.
  - intros r Hr. destruct (ok_rows s Ok r Hr) as (_ & _ & _ & Hrr & Hx). split; [exact Hrr|].
    split; [|now apply find_by_row]. intros e Ee. now rewrite Ee in Hx.
Qed.

(** Whoever presents the usable token of a family, before the token and
    the session end and while the account exists, gets a new access token and a new
    refresh token: the access token is accepted at once (unless the session ends
    within this very second), and the new refresh token is the family's only usable
    one and unexpired, so the next refresh succeeds too; the presented one is
    replaced. *)
Theorem refresh_available l now us token ua r name :
  let s := history l (empty_store now us) in
  honest (empty_store now us) l -> 0 <= now -> signingSecret <> "" ->
  row_of s r -> sha256 token = rt_tokenHash r -> live r ->
  clock s < rt_expiresAt r -> get (rt_userId r) (users s) = Some name ->
  exists s' access token' r' spent_r,
    token_refresh token ua s = Some (s', rr_ok access token') /\
    row_of s' r' /\ sha256 token' = rt_tokenHash r' /\ live r' /\ clock s' < rt_expiresAt r' /\
    rt_familyId r' = rt_familyId r /\ rt_userId r' = rt_userId r /\ rt_sessionExpiresAt r' = rt_sessionExpiresAt r /\
    (forall q, row_of s' q -> rt_familyId q = rt_familyId r -> live q -> q = r') /\
    row_of s' spent_r /\ rt_id spent_r = rt_id r /\ replaced spent_r = true /\
    at_sub (sj_payload access) = rt_userId r /\
    ((forall e, rt_sessionExpiresAt r = Some (iso e) -> seconds (clock s) < seconds e) ->
     authMiddleware (Some (sj_token access)) s' = signed_in (sj_payload access)).
Proof.
  intros s Hon Hnow Hsec Hr Hh L He Hname. pose proof (reachable_ok l now us : tokens_ok s) as Ok.
  destruct (honest_history_ok l _ (empty_ok now us) (empty_denials now us) Hon) as [Dn _]. fold s in Dn.
  assert (0 <= clock s) as Hc.
  { destruct (history_good l _ (empty_ok now us)) as [_ Ev]. pose proof (ev_clock _ _ Ev). cbn in *. unfold s. lia. }
  destruct (ok_rows s Ok r Hr) as (_ & _ & _ & _ & Hx).
  assert (Hse : sessionHasEnded r (clock s) = false).
  { unfold sessionHasEnded. destruct (rt_sessionExpiresAt r) as [[e|]|]; [|destruct Hx|reflexivity]. apply Z.leb_gt. lia. }
  pose proof (rotate_live token ua s r Ok Hr (eq_sym Hh) L Hse He) as Rot.
  pose proof (rotated_good r ua s Ok Hr L) as [Ok' _].
  destruct (rotated_rows r ua s Ok Hr L) as (Hn & Hsp & Spent).
  set (e := match rt_sessionExpiresAt r with Some (iso e) => Some (seconds e) | _ => None end).
  exists (drawn 1 (rotated_store r ua s)),
    (snd (signJwtWithMeta (rt_userId r) name access_ttl e (rotated_store r ua s))), (randomToken (draws s)),
    (heir r ua s), (spent (clock s) (rt_id (heir r ua s)) r).
  assert (Lh : live (heir r ua s)) by (now split).
  split_and!; try reflexivity; try assumption.
  - unfold token_refresh. rewrite Rot. cbn [users rotated_store set_refreshTokens drawn]. rewrite Hname. subst e.
    destruct (rt_sessionExpiresAt r) as [[x|]|]; [|destruct Hx|]; reflexivity.
  - exact (heir_unexpired r ua s Hx He).
  - cbn. destruct (rt_sessionExpiresAt r) as [[x|]|]; [|destruct Hx|]; reflexivity.
  - intros q Hq Ef Lq.
    destruct (ok_kin _ Ok' q (heir r ua s) Hq Hn Ef) as (_ & _ & Kl). specialize (Kl Lq Lh).
    unfold row_of in Hq, Hn. cbn [refreshTokens drawn] in Hq. congruence.
  - intros Hend. pose proof (minted_accepted (rt_userId r) name e (rotated_store r ua s)) as M.
    destruct (signJwtWithMeta _ name access_ttl e _) as [s' j] eqn:Ej. injection Ej as <- <-. apply M; auto.
    + apply (denials_step_ok s); [|exact Dn]. split; [cbn; lia|]. split; [cbn; lia|now left].
    + intros x Ex. subst e. destruct (rt_sessionExpiresAt r) as [[y|]|]; [|destruct Hx|discriminate].
      injection Ex as <-. now apply Hend.
Qed.

Lemma ends_for_good l s1 s2 u F (P : Prop) : P -> tokens_ok s1 -> evolves s1 s2 -> tokens_ok s2 -> ended F s2 -> cut_off u (clock s1) s2 ->
  denials_ok s2 -> honest s2 l ->
  let s3 := history l s2 in
  P /\
  (forall q, row_of s3 q -> rt_familyId q = F -> live q -> False) /\
  (forall q token', row_of s3 q -> rt_familyId q = F -> sha256 token' = rt_tokenHash q -> turned_away token' s3) /\
  (forall q token', row_of s1 q -> rt_familyId q = F -> sha256 token' = rt_tokenHash q -> never_refreshes token' s3) /\
  (forall access p, verifyJwt access (clock s3) = Some p -> at_sub p = u ->
     at_iat p < seconds (clock s1) -> at_exp p <= at_iat p + access_ttl ->
     authMiddleware (Some access) s3 = session_revoked).
Proof.
  intros HP Ok1 Ev1 Ok End Cut Dn Hon s3. destruct (history_good l s2 Ok) as [Ok3 Ev]. fold s3 in Ok3, Ev.
  pose proof (ended_stays F s2 s3 Ok Ev End) as End3.
  destruct (honest_history_ok l s2 Ok Dn Hon) as [_ Hcut]. split_and!; [exact HP|..].
  - intros q Hq Ef [_ L]. destruct End3 as [_ Hend]. rewrite (Hend q Hq Ef) in L. discriminate.
  - intros q token' Hq <- Hh. exact (ended_turned_away s3 q token' Ok3 Hq End3 Hh).
  - intros q token' Hq <- Hh. exact (ended_refused s1 s3 q token' Ok1 Ok3 (evolves_trans _ _ _ Ok1 Ok Ev1 Ev) End3 Hq Hh).
  - intros access p V Hs. exact (cut_off_refused u (clock s1) s3 access p (Hcut u _ Cut) V Hs).
Qed.

(** C6 (safety): Presenting a replaced refresh token is answered [reused], and whatever
    happens afterwards no token of its family ever refreshes again (nor once the account and its rows are gone), and every access
    token the user got before that second is refused, as long as it could live. *)
Theorem reuse_burns l1 l2 now us token ua r :
  let s0 := empty_store now us in
  let s1 := history l1 s0 in
  honest s0 (l1 ++ Refresh token :: l2) ->
  row_of s1 r -> sha256 token = rt_tokenHash r -> replaced r = true ->
  let s2 := act (Refresh token) s1 in
  let s3 := history l2 s2 in
  token_refresh token ua s1 = Some (s2, rr_reused) /\
  (forall q, row_of s3 q -> rt_familyId q = rt_familyId r -> live q -> False) /\
  (forall q token', row_of s3 q -> rt_familyId q = rt_familyId r -> sha256 token' = rt_tokenHash q ->
     turned_away token' s3) /\
  (forall q token', row_of s1 q -> rt_familyId q = rt_familyId r -> sha256 token' = rt_tokenHash q ->
     never_refreshes token' s3) /\
  (forall access p, verifyJwt access (clock s3) = Some p -> at_sub p = rt_userId r ->
     at_iat p < seconds (clock s1) -> at_exp p <= at_iat p + access_ttl ->
     authMiddleware (Some access) s3 = session_revoked).
Proof.
  intros s0 s1 Hon Hr Hh Hrep s2 s3. apply honest_app in Hon as [Hon1 [_ Hon2]]. fold s1 s2 in Hon2.
  pose proof (reachable_ok l1 now us : tokens_ok s1) as Ok1.
  assert (Step : forall ua', token_refresh token ua' s1 = Some (fst (burn r s1), rr_reused)).
  { intros ua'. unfold token_refresh, rotateRefreshToken. now rewrite Hh, (find_by_row s1 r Ok1 Hr), Hrep. }
  assert (E2 : s2 = fst (burn r s1)) by (unfold s2; cbn [act]; now rewrite Step).
  pose proof (act_good (Refresh token) s1 Ok1 : good s1 s2) as [Ok2 Ev].
  assert (End : ended (rt_familyId r) s2).
  { rewrite E2. refine (revoke_ends _ _ s1 r Ok1 Hr _). intros q _ Ef. now apply bool_decide_eq_true. }
  assert (Cut : cut_off (rt_userId r) (clock s1) s2) by (rewrite E2; exact (cut_off_now _ _ (fst (revoke_where _ _ s1)))).
  apply (ends_for_good l2 s1 s2 (rt_userId r) (rt_familyId r)); auto.
  - now rewrite Step, E2.
  - destruct (honest_history_ok l1 s0 (empty_ok now us) (empty_denials now us) Hon1) as [Dn _].
    exact (denials_step_ok s1 s2 (act_denials (Refresh token) s1 Ok1 I) Dn).
Qed.

(** After [/sessions/revoke] or a password change, whatever happens, no
    refresh token the user had (nor one of its family) refreshes again, and every access
    token the user got before that second is refused, as long as it could live. *)
Theorem logout_everywhere l1 l2 now us a u :
  let s0 := empty_store now us in
  let s1 := history l1 s0 in
  a = RevokeSessions u \/ a = PasswordChange u ->
  honest s0 (l1 ++ a :: l2) ->
  let s3 := history l2 (act a s1) in
  (forall r, row_of s1 r -> rt_userId r = u ->
    (forall q, row_of s3 q -> rt_familyId q = rt_familyId r -> live q -> False) /\
    (forall q token', row_of s3 q -> rt_familyId q = rt_familyId r -> sha256 token' = rt_tokenHash q ->
       turned_away token' s3)) /\
  (forall access p, verifyJwt access (clock s3) = Some p -> at_sub p = u ->
     at_iat p < seconds (clock s1) -> at_exp p <= at_iat p + access_ttl ->
     authMiddleware (Some access) s3 = session_revoked).
Proof.
  intros s0 s1 Ha Hon s3. apply honest_app in Hon as [Hon1 [Hsign Hon2]]. fold s1 in Hon2, Hsign.
  pose proof (reachable_ok l1 now us : tokens_ok s1) as Ok1.
  pose proof (act_good a s1 Ok1) as [Ok2 Ev].
  destruct (honest_history_ok l1 s0 (empty_ok now us) (empty_denials now us) Hon1) as [Dn _].
  pose proof (denials_step_ok s1 _ (act_denials a s1 Ok1 Hsign) Dn) as Dn2.
  assert (Cut : cut_off u (clock s1) (act a s1)) by (destruct Ha as [-> | ->]; exact (cut_off_now u _ (fst (revoke_where _ _ s1)))).
  split.
  - intros r Hr Hu.
    assert (End : ended (rt_familyId r) (act a s1)).
    { destruct Ha as [-> | ->]; refine (revoke_ends _ _ s1 r Ok1 Hr _); intros q Hq Ef; apply bool_decide_eq_true;
        destruct (ok_kin s1 Ok1 q r Hq Hr Ef) as [-> _]; exact Hu. }
    destruct (ends_for_good l2 s1 _ u (rt_familyId r) True I Ok1 Ev Ok2 End Cut Dn2 Hon2) as (_ & ? & ? & _). auto.
  - intros access p V Hs. destruct (honest_history_ok l2 _ Ok2 Dn2 Hon2) as [_ Hcut].
    exact (cut_off_refused u (clock s1) s3 access p (Hcut u _ Cut) V Hs).
Qed.

(** A token the server signed verifies, to the very claims it was signed
    for, exactly up to the second its lifetime ends and before the second its session
    ends; at any other time it is refused. *)
Theorem signed_token_verifies userId username ttl e s now : signingSecret <> "" ->
  let j := snd (signJwtWithMeta userId username ttl e s) in
  let good := seconds now <= seconds (clock s) + ttl /\ (forall x, e = Some x -> seconds now < x) in
  (good -> verifyJwt (sj_token j) now = Some (sj_payload j)) /\
  (~ good -> verifyJwt (sj_token j) now = None).
Proof.
  intros Hsec j good. unfold j. rewrite sign_verify by exact Hsec. cbn [signJwtWithMeta snd sj_payload at_exp].
  subst good. split.
  - intros [Ht He]. destruct e as [x|].
    + specialize (He x eq_refl). destruct (Z.ltb_spec (Z.min (seconds (clock s) + ttl) x) (seconds now)); [lia|].
      destruct (Z.leb_spec x (seconds now)); [lia|reflexivity].
    + destruct (Z.ltb_spec (seconds (clock s) + ttl) (seconds now)); [lia|reflexivity].
  - intros Hn. destruct e as [x|].
    + destruct (Z.ltb_spec (Z.min (seconds (clock s) + ttl) x) (seconds now)); [reflexivity|].
      destruct (Z.leb_spec x (seconds now)); [reflexivity|]. exfalso. apply Hn. split; [lia|]. now intros ? [= <-].
    + destruct (Z.ltb_spec (seconds (clock s) + ttl) (seconds now)); [reflexivity|]. exfalso. apply Hn. now split.
Qed.

(** A session with an enforced length ends for its whole family: from the
    end on, a usable token is answered [session_expired] and takes the family with it,
    no token of the family refreshes, and the access tokens its refreshes minted before
    are refused from the second of the end. *)
Theorem bounded_session_ends l now us token r e :
  let s := history l (empty_store now us) in
  signingSecret <> "" ->
  row_of s r -> sha256 token = rt_tokenHash r -> rt_sessionExpiresAt r = Some (iso e) ->
  (e <= clock s -> forall ua, exists s' resp,
     token_refresh token ua s = Some (s', resp) /\
     (resp = rr_session_expired \/ resp = rr_reused \/ resp = rr_revoked) /\
     (live r -> resp = rr_session_expired /\ forall q, row_of s' q -> rt_familyId q = rt_familyId r -> live q -> False)) /\
  (forall ua s' access token', token_refresh token ua s = Some (s', rr_ok access token') ->
     forall t, e <= t -> verifyJwt (sj_token access) t = None).
Proof.
  intros s Hsec Hr Hh Hend. pose proof (reachable_ok l now us : tokens_ok s) as Ok. split.
  - intros He ua. unfold token_refresh, rotateRefreshToken. rewrite Hh, (find_by_row s r Ok Hr).
    destruct (replaced r) eqn:E1; [cbn; do 2 eexists; split; [reflexivity|]; split; [auto|intros [L _]; congruence]|].
    destruct (revoked r) eqn:E2; [cbn; do 2 eexists; split; [reflexivity|]; split; [auto|intros [_ L]; congruence]|].
    assert (sessionHasEnded r (clock s) = true) as ->
      by (unfold sessionHasEnded; rewrite Hend; now apply Z.leb_le).
    do 2 eexists. split; [reflexivity|]. split; [auto|]. intros _. split; [reflexivity|].
    intros q Hq Ef [_ L].
    assert (End : ended (rt_familyId r) (fst (revokeRefreshTokenFamily (rt_familyId r) "session_expired" s))).
    { refine (revoke_ends _ _ s r Ok Hr _). intros x _ Ex. now apply bool_decide_eq_true. }
    destruct End as [_ Hx]. rewrite (Hx q Hq Ef) in L. discriminate.
  - intros ua s' access token' T t Ht. unfold token_refresh in T.
    destruct (rotate_some token ua s Ok) as (s1 & o & E & _ & Ho). rewrite E in T.
    destruct o as [q n| | | | |]; try discriminate. destruct Ho as (F & _ & _ & _ & _).
    rewrite Hh, (find_by_row s r Ok Hr) in F. injection F as <-. rewrite Hend in T.
    destruct (get _ (users s1)) as [name|]; [|discriminate].
    destruct (signJwtWithMeta _ name access_ttl _ s1) as [s2 j] eqn:Ej. injection T as <- <- _.
    pose proof (sign_verify (rt_userId r) name access_ttl (Some (seconds e)) s1 t Hsec) as V. rewrite Ej in V. cbn [snd] in V.
    rewrite V. destruct (_ <? _); [reflexivity|].
    destruct (Z.leb_spec (seconds e) (seconds t)) as [|Hlt]; [reflexivity|].
    unfold seconds in Hlt. pose proof (Z.div_le_mono e t 1000 ltac:(lia) Ht). lia.
Qed.

(** ** Where the tables and the clocks disagree *)

(** A logged-out access token is accepted again during its last second: the deny row
    ends at [exp * 1000] milliseconds, the token is good for the whole second [exp]. *)
Lemma logged_out_last_second s token p refresh ms :
  let s' := act (Tick ms) (act (Logout (Some p) refresh) s) in
  verifyJwt token (clock s') = Some p -> seconds (clock s') = at_exp p ->
  at_jti p <> "" -> at_exp p <> 0 -> (forall u, at_jti p <> userTokenCutoffJti u) ->
  getUserTokenRevocationCutoff (at_sub p) (act (Tick ms) s) <= at_iat p ->
  authMiddleware (Some token) s' = signed_in p.
Proof.
  intros s' V Ht Hj Hx Hc Hcut. destruct (verifyJwt_claims token _ p V) as (_ & _ & Hne).
  set (s1 := match truthy refresh with Some t => fst (revokeRefreshToken t "logout" s) | None => s end).
  assert (clock s1 = clock s /\ revokedSessions s1 = revokedSessions s) as [C1 R1].
  { unfold s1. destruct (truthy refresh) as [t|]; [|auto]. unfold revokeRefreshToken.
    destruct (findRefreshTokenByHash _ s) as [r|]; [|auto]. now destruct (revoked r). }
  assert (E : s' = act (Tick ms) (revokeSession (at_jti p) (at_sub p) "logout" (at_exp p * 1000) s1)).
  { unfold s'. cbn [act logout]. fold s1. rewrite bool_decide_eq_false_2 by exact Hj.
    apply Z.eqb_neq in Hx. now rewrite Hx. }
  clearbody s'. subst s'. cbn [act revokeSession set_revokedSessions clock] in V, Ht.
  unfold authMiddleware, truthy. rewrite decide_False by exact Hne.
  cbn [act revokeSession set_revokedSessions clock]. rewrite V.
  assert (isSessionRevoked (at_jti p) (act (Tick ms) (revokeSession (at_jti p) (at_sub p) "logout" (at_exp p * 1000) s1)) = false) as Hr.
  { unfold isSessionRevoked. cbn. rewrite get_set_eq. cbn. apply Z.ltb_ge. unfold seconds in Ht.
    pose proof (Z.div_mod (clock s1 + Z.of_N ms) 1000 ltac:(lia)).
    pose proof (Z.mod_pos_bound (clock s1 + Z.of_N ms) 1000 ltac:(lia)). lia. }
  cbn [act revokeSession set_revokedSessions clock] in Hr. rewrite Hr, andb_false_r.
  assert (getUserTokenRevocationCutoff (at_sub p) (act (Tick ms) (revokeSession (at_jti p) (at_sub p) "logout" (at_exp p * 1000) s1)) =
    getUserTokenRevocationCutoff (at_sub p) (act (Tick ms) s)) as Hcc.
  { unfold getUserTokenRevocationCutoff. cbn. rewrite get_set_ne by apply Hc. now rewrite C1, R1. }
  cbn [act revokeSession set_revokedSessions clock] in Hcc. rewrite Hcc.
  apply Z.ltb_ge in Hcut. cbn [act] in Hcut. now rewrite Hcut.
Qed.

(** A password reset leaves every access token as it was: only refresh tokens go. *)
Lemma password_reset_keeps_access userId token s :
  authMiddleware (Some token) (password_reset userId s) = authMiddleware (Some token) s.
Proof. reflexivity. Qed.

(** A token minted in the second of a revocation survives it. *)
Lemma same_second_survives u name s : denials_ok s -> 0 <= clock s -> signingSecret <> "" ->
  let '(s1, j) := signJwtWithMeta u name access_ttl None s in
  authMiddleware (Some (sj_token j)) (fst (sessions_revoke u s1)) = signed_in (sj_payload j).
Proof.
  intros Dn Hc Hsec.
  pose proof (minted_accepted u name None s Dn Hc Hsec ltac:(discriminate)) as M.
  destruct (signJwtWithMeta u name access_ttl None s) as [s1 j] eqn:E.
  assert (clock s1 = clock s /\ revokedSessions s1 = revokedSessions s /\ at_jti (sj_payload j) = randomJti (draws s)
    /\ at_iat (sj_payload j) = seconds (clock s) /\ at_sub (sj_payload j) = u)
    as (Ec & Er & Ej & Ei & Es) by (injection E as <- <-; auto).
  unfold authMiddleware in M |- *. destruct (truthy _) as [t|]; [|discriminate].
  set (s2 := fst (sessions_revoke u s1)). change (clock s2) with (clock s1).
  destruct (verifyJwt t (clock s1)) as [p|]; [|discriminate].
  destruct (negb _ && _) in M; [discriminate|]. destruct (_ <? _) in M; [discriminate|]. injection M as ->.
  unfold isSessionRevoked, getUserTokenRevocationCutoff. rewrite Ej, Es.
  change (revokedSessions s2) with (revokedSessions (revokeUserTokensBefore u "admin_revoke" s1)).
  change (clock s2) with (clock s1). cbn [revokeUserTokensBefore revokeSession set_revokedSessions revokedSessions].
  rewrite get_set_ne by (intros X; exact (randomJti_plain (draws s) u (eq_sym X))).
  rewrite Er, (jti_not_denied (draws s) s Dn ltac:(lia)), andb_false_r, get_set_eq. cbn [rv_expiresAt rv_revokedAt].
  rewrite Ec, Ei. destruct (_ <=? _); [|now rewrite Z.ltb_irrefl].
  destruct (Z.ltb_spec (seconds (clock s)) 0) as [Hlt|]; [|reflexivity].
  pose proof (Z.div_pos (clock s) 1000 ltac:(lia) ltac:(lia)). unfold seconds in Hlt. lia.
Qed.
End claims.

(** ** Runs of the concrete runtime *)

Definition sample_start : store := empty_store 1000000 [("ada", "ada")].

Definition day : N := 86400000.

(** Ada signs in; her refresh token is the process's second draw. *)
Definition sample_signed_in : list action := [SignIn "ada" "ada" None; Tick 5000].
Definition first_token : string := "ti".
Definition first_row : RefreshTokenRecord :=
  mk_refresh "uii" "ada" "uiii" "ti" 2593000000 None None None 1000000 None None.

(** The token after a refresh. *)
Definition sample_refreshed : list action := sample_signed_in ++ [Refresh first_token; Tick 5000].
Definition first_row_spent : RefreshTokenRecord := spent 1005000 "uiiiii" first_row.

(** A session bounded to one hour. *)
Definition sample_bounded : list action := [SignIn "ada" "ada" (Some 4600000); Tick 5000].
Definition bounded_row : RefreshTokenRecord :=
  mk_refresh "uii" "ada" "uiii" "ti" 4600000 None None None 1000000 None (Some (iso 4600000)).

Lemma families_sound_witness :
  let s := history sample_refreshed sample_start in
  exists r r', row_of s r /\ row_of s r' /\ rt_id r <> rt_id r' /\ rt_familyId r = rt_familyId r' /\
    rt_userId r = rt_userId r'.
Proof.
  intros s. exists first_row_spent, (heir first_row None (history sample_signed_in sample_start)).
  assert (row_of s first_row_spent) as H1 by reflexivity.
  assert (row_of s (heir first_row None (history sample_signed_in sample_start))) as H2 by reflexivity.
  split; [exact H1|]. split; [exact H2|]. split; [discriminate|]. split; [reflexivity|].
  exact (proj1 (proj1 (families_sound sample_refreshed 1000000 [("ada", "ada")]) _ _ H1 H2 eq_refl)).
Defined.

Lemma refresh_available_witness :
  exists s' access token',
    token_refresh first_token None (history sample_signed_in sample_start) = Some (s', rr_ok access token') /\
    authMiddleware (Some (sj_token access)) s' = signed_in (sj_payload access).
Proof.
  destruct (refresh_available sample_signed_in 1000000 [("ada", "ada")] first_token None first_row "ada")
    as (s' & access & token' & r' & sp & H1 & _ & _ & _ & _ & _ & _ & _ & _ & _ & _ & _ & _ & H2).
  - cbn. auto.
  - lia.
  - discriminate.
  - reflexivity.
  - reflexivity.
  - split; reflexivity.
  - reflexivity.
  - reflexivity.
  - exists s', access, token'. split; [exact H1|]. apply H2. discriminate.
Defined.

Lemma reuse_burns_witness :
  let s1 := history sample_refreshed sample_start in
  let s3 := history [Tick 5000; Refresh "tiiii"; Tick day] (act (Refresh first_token) s1) in
  token_refresh first_token None s1 = Some (act (Refresh first_token) s1, rr_reused) /\
  turned_away "tiiii" s3.
Proof.
  intros s1 s3.
  destruct (reuse_burns sample_refreshed [Tick 5000; Refresh "tiiii"; Tick day] 1000000 [("ada", "ada")]
    first_token None first_row_spent) as (H1 & _ & H2 & _).
  - cbn. auto 10.
  - reflexivity.
  - reflexivity.
  - reflexivity.
  - split; [exact H1|].
    apply (H2 (revoked_if (fun _ => true) 1010000 "reuse_detected" (heir first_row None (history sample_signed_in sample_start)))); reflexivity.
Defined.

Lemma logout_everywhere_witness :
  let s1 := history sample_signed_in sample_start in
  turned_away first_token (history [Tick 3] (act (RevokeSessions "ada") s1)) /\
  (let access := sj_token (snd (signJwtWithMeta "ada" "ada" access_ttl None sample_start)) in
   authMiddleware (Some access) s1 = signed_in (sj_payload (snd (signJwtWithMeta "ada" "ada" access_ttl None sample_start))) /\
   authMiddleware (Some access) (history [Tick 3] (act (RevokeSessions "ada") s1)) = session_revoked).
Proof.
  intros s1.
  destruct (logout_everywhere sample_signed_in [Tick 3] 1000000 [("ada", "ada")] (RevokeSessions "ada") "ada") as (H1 & H2).
  - now left.
  - cbn. auto.
  - split; [|split].
    + destruct (H1 first_row eq_refl eq_refl) as [_ H]. 
      apply (H (revoked_if (fun _ => true) 1005000 "admin_revoke" first_row)); reflexivity.
    + vm_compute. reflexivity.
    + apply (H2 _ (sj_payload (snd (signJwtWithMeta "ada" "ada" access_ttl None sample_start))));
        [vm_compute; reflexivity|reflexivity|reflexivity|discriminate].
Defined.

Lemma signed_token_verifies_witness :
  let j := snd (signJwtWithMeta "ada" "ada" access_ttl (Some 4600) sample_start) in
  verifyJwt (sj_token j) 4599999 = Some (sj_payload j) /\ verifyJwt (sj_token j) 4600000 = None.
Proof.
  intros j. split.
  - destruct (signed_token_verifies "ada" "ada" access_ttl (Some 4600) sample_start 4599999) as [H _]; [discriminate|].
    apply H. split; [discriminate|]. now intros x [= <-].
  - destruct (signed_token_verifies "ada" "ada" access_ttl (Some 4600) sample_start 4600000) as [_ H]; [discriminate|].
    apply H. intros [_ X]. specialize (X _ eq_refl). discriminate.
Defined.

Lemma bounded_session_ends_witness :
  let s := history (sample_bounded ++ [Tick 3600000]) sample_start in
  exists s', token_refresh first_token None s = Some (s', rr_session_expired).
Proof.
  intros s.
  destruct (bounded_session_ends (sample_bounded ++ [Tick 3600000]) 1000000 [("ada", "ada")] first_token bounded_row 4600000)
    as [H _]; [discriminate|reflexivity..|].
  destruct (H ltac:(vm_compute; discriminate) None) as (s' & resp & E & _ & L).
  destruct (L (conj eq_refl eq_refl)) as [-> _]. exists s'. exact E.
Defined.
