(* ===== verification/Bytes.v ===== *)
(** * Bytes, and how the release format writes them

    [packages/blackout-protocol/src/deaddrop/crypto/encoding.ts] and
    [release/bytes.ts]: base64 in both alphabets, its canonical decoder, hex,
    length prefixes and labels.  A [Uint8Array] is a list of [byte]; a string is a
    list of code units below 256.  A decoder that throws or returns [null] gives
    [None]. *)

From S2P Require Import Prelude JsMap CoalitionDomain Records Store Slug.
From Stdlib Require Export Strings.Byte.

Local Open Scope Z_scope.

Abbreviation bytes := (list byte).

#[global] Instance byte_eq_dec : EqDecision byte := Byte.byte_eq_dec.

(** An element of a [Uint8Array] as a number, and what storing a number keeps of it. *)
Definition b2z (b : byte) : Z := Z.of_N (Byte.to_N b).
Definition z2b (z : Z) : byte := default x00 (Byte.of_N (Z.to_N (z mod 256))).

Definition byte_of_char (c : ascii) : byte := Ascii.byte_of_ascii c.
Definition ascii_bytes (s : string) : bytes := map byte_of_char (chars s).

(** ** Base64 ([deaddrop/crypto/encoding.ts]) *)

Definition STD_ALPHABET : string := "ABCDEFGHIJKLMNOPQRSTUVWXYZabcdefghijklmnopqrstuvwxyz0123456789+/".
Definition EQUALS : ascii := "="%char.

Definition std_char (n : Z) : ascii := nth (Z.to_nat n) (chars STD_ALPHABET) EQUALS.

Definition sextet (triplet shift : Z) : ascii := std_char (Z.land (Z.shiftr triplet shift) 63).

Fixpoint base64_chars (bs : bytes) : list ascii :=
  match bs with
  | a :: b :: c :: rest =>
      let triplet := Z.lor (Z.lor (Z.shiftl (b2z a) 16) (Z.shiftl (b2z b) 8)) (b2z c) in
      sextet triplet 18 :: sextet triplet 12 :: sextet triplet 6 :: sextet triplet 0 :: base64_chars rest
  | [a; b] =>
      let triplet := Z.lor (Z.shiftl (b2z a) 16) (Z.shiftl (b2z b) 8) in
      [sextet triplet 18; sextet triplet 12; sextet triplet 6; EQUALS]
  | [a] =>
      let triplet := Z.shiftl (b2z a) 16 in
      [sextet triplet 18; sextet triplet 12; EQUALS; EQUALS]
  | [] => []
  end.

Definition toBase64 (bs : bytes) : string := of_chars (base64_chars bs).

Fixpoint index_of (c : ascii) (l : list ascii) (i : Z) : option Z :=
  match l with
  | [] => None
  | x :: l => if Ascii.eqb x c then Some i else index_of c l (i + 1)
  end.

(** [lookup[cleaned.charCodeAt(i)]]: -1 for a code below 128 outside the alphabet,
    [undefined] past the table, which compares as not below 0 and shifts as 0. *)
Definition lookup64 (c : ascii) : Z :=
  if Nat.ltb (nat_of_ascii c) 128 then default (-1) (index_of c (chars STD_ALPHABET) 0) else 0.

Definition lookup64_or_pad (c : ascii) : Z := if Ascii.eqb c EQUALS then 0 else lookup64 c.

(** The loop over groups of four; [None] when it throws. *)
Fixpoint decode_quads (l : list ascii) : option bytes :=
  match l with
  | p :: q :: r :: s :: rest =>
      let a := lookup64 p in let b := lookup64 q in
      let c := lookup64_or_pad r in let d := lookup64_or_pad s in
      if (a <? 0) || (b <? 0) || (c <? 0) || (d <? 0) then None
      else
        let triplet := Z.lor (Z.lor (Z.lor (Z.shiftl a 18) (Z.shiftl b 12)) (Z.shiftl c 6)) d in
        match decode_quads rest with
        | Some more =>
            Some (z2b (Z.land (Z.shiftr triplet 16) 255) :: z2b (Z.land (Z.shiftr triplet 8) 255) ::
                  z2b (Z.land triplet 255) :: more)
        | None => None
        end
  | _ => Some []
  end.

(** [cleaned.endsWith('==') ? 2 : cleaned.endsWith('=') ? 1 : 0] *)
Definition padding_of (l : list ascii) : nat :=
  match rev l with
  | x :: y :: _ => if Ascii.eqb x EQUALS then if Ascii.eqb y EQUALS then 2 else 1 else 0
  | _ => 0
  end%nat.

Definition fromBase64 (input : string) : option bytes :=
  let cleaned := List.filter (fun c => negb (is_space c)) (chars input) in
  if bool_decide (length cleaned mod 4 = 0)%nat then
    match decode_quads cleaned with
    | Some out => Some (take (length cleaned / 4 * 3 - padding_of cleaned)%nat out)
    | None => None
    end
  else None.

(** [bytesEqual]: the accumulator is zero when every pair of bytes agrees. *)
Definition bytesEqual (a b : bytes) : bool :=
  bool_decide (length a = length b) &&
  (foldl (fun diff '(x, y) => Z.lor diff (Z.lxor (b2z x) (b2z y))) 0 (zip a b) =? 0).

(** ** Fields of a signed format ([release/bytes.ts]) *)

Definition u16be (value : Z) : option bytes :=
  if (value <? 0) || (65535 <? value) then None
  else Some [z2b (Z.shiftr value 8); z2b (Z.land value 255)].

Definition u32be (value : Z) : option bytes :=
  if (value <? 0) || (4294967295 <? value) then None
  else Some [z2b (Z.land (Z.shiftr value 24) 255); z2b (Z.land (Z.shiftr value 16) 255);
             z2b (Z.land (Z.shiftr value 8) 255); z2b (Z.land value 255)].

Definition lengthPrefixed (bs : bytes) : option bytes :=
  match u16be (Z.of_nat (length bs)) with
  | Some prefix => Some (prefix ++ bs)
  | None => None
  end.

(** A label is ASCII, which UTF-8 keeps. *)
Definition labelBytes (label : string) : bytes := ascii_bytes label ++ [x00].

(** ** Hex *)

Definition hex_chars : string := "0123456789abcdef".
Definition hex_char (n : Z) : ascii := nth (Z.to_nat n) (chars hex_chars) "0"%char.
(** [byte.toString(16).padStart(2, '0')] *)
Definition hex_byte (b : byte) : list ascii := [hex_char (b2z b / 16); hex_char (b2z b mod 16)].
Definition toHex (bs : bytes) : string := of_chars (flat_map hex_byte bs).

Definition hex_value (c : ascii) : option Z := index_of c (chars hex_chars) 0.

Fixpoint hex_pairs (l : list ascii) : option bytes :=
  match l with
  | [] => Some []
  | [_] => None
  | a :: b :: rest =>
      match hex_value a, hex_value b, hex_pairs rest with
      | Some x, Some y, Some more => Some (z2b (16 * x + y) :: more)
      | _, _, _ => None
      end
  end.

Definition fromHex (value : string) (len : nat) : option bytes :=
  if bool_decide (String.length value = len * 2)%nat then hex_pairs (chars value) else None.

(** ** Canonical base64 *)

Definition base64Length (len : nat) : nat := (4 * ((len + 2) / 3))%nat.

Definition decodeCanonicalBase64 (value : string) (len : option nat) : option bytes :=
  if bool_decide (String.length value = 0)%nat then None
  else if match len with Some n => negb (bool_decide (String.length value = base64Length n)) | None => false end then None
  else
    match fromBase64 value with
    | None => None
    | Some decoded =>
        if match len with Some n => negb (bool_decide (length decoded = n)) | None => false end then None
        else if bool_decide (toBase64 decoded = value) then Some decoded else None
    end.

(** [.replace(/\+/g, '-').replace(/\//g, '_').replace(/=+$/, '')] *)
Definition url_char (c : ascii) : ascii :=
  if Ascii.eqb c "+"%char then "-"%char else if Ascii.eqb c "/"%char then "_"%char else c.
Fixpoint drop_equals (l : list ascii) : list ascii :=
  match l with c :: l' => if Ascii.eqb c EQUALS then drop_equals l' else l | [] => [] end.
Definition toBase64Url (bs : bytes) : string :=
  of_chars (rev (drop_equals (rev (map url_char (base64_chars bs))))).

Definition std_of_url (c : ascii) : ascii :=
  if Ascii.eqb c "-"%char then "+"%char else if Ascii.eqb c "_"%char then "/"%char else c.

Definition decodeBase64Url (value : string) (len : nat) : option bytes :=
  if bool_decide (value = "") || negb (forallb (fun c => is_alnum c || Ascii.eqb c "_"%char || Ascii.eqb c "-"%char) (chars value))
  then None
  else
    let standard := map std_of_url (chars value) in
    let padded := standard ++ replicate ((4 - length standard mod 4) mod 4)%nat EQUALS in
    match decodeCanonicalBase64 (of_chars padded) (Some len) with
    | Some decoded => if bool_decide (toBase64Url decoded = value) then Some decoded else None
    | None => None
    end.

(** ** Bytes as numbers *)

Lemma b2z_range b : 0 <= b2z b < 256.
Proof. unfold b2z. pose proof (Byte.to_N_bounded b). lia. Qed.

Lemma z2b_b2z b : z2b (b2z b) = b.
Proof.
  pose proof (b2z_range b). unfold z2b. rewrite Z.mod_small by done. unfold b2z. rewrite N2Z.id.
  by rewrite Byte.of_to_N.
Qed.

Lemma b2z_z2b z : 0 <= z < 256 -> b2z (z2b z) = z.
Proof.
  intros Hz. unfold z2b. rewrite Z.mod_small by done. destruct (Byte.of_N (Z.to_N z)) as [b|] eqn:E.
  - apply Byte.to_of_N in E. simpl. unfold b2z. rewrite E. lia.
  - apply Byte.of_N_None_iff in E. lia.
Qed.

Lemma b2z_inj a b : b2z a = b2z b -> a = b.
Proof. intros E. by rewrite <-(z2b_b2z a), <-(z2b_b2z b), E. Qed.

Lemma z2b_of z b : z = b2z b -> z2b z = b.
Proof. intros ->. apply z2b_b2z. Qed.

(** What can be tried on every number below a bound. *)
Lemma below_all (P : Z -> bool) n :
  forallb (fun k => P (Z.of_nat k)) (seq 0 n) = true -> forall z, 0 <= z < Z.of_nat n -> P z = true.
Proof.
  intros H z Hz. rewrite forallb_forall in H. specialize (H (Z.to_nat z)).
  rewrite Z2Nat.id in H by lia. apply H, in_seq. lia.
Qed.

Lemma lor_shift a b n : 0 <= n -> 0 <= a -> 0 <= b < 2 ^ n -> Z.lor (Z.shiftl a n) b = a * 2 ^ n + b.
Proof.
  intros Hn Ha Hb. rewrite <-Z.shiftl_mul_pow2 by done. assert (E : Z.land (Z.shiftl a n) b = 0);
    [|by rewrite Z.add_nocarry_lxor, Z.lxor_lor by done]. apply Z.bits_inj'. intros i Hi.
  rewrite Z.land_spec, Z.bits_0. destruct (Z.ltb_spec i n) as [Hlt|Hge].
  - rewrite Z.shiftl_spec_low; [done|lia].
  - destruct (Z.eq_dec b 0) as [->|Hb0]; [by rewrite Z.bits_0, andb_false_r|].
    rewrite (Z.bits_above_log2 b); [apply andb_false_r|lia|]. apply Z.log2_lt_pow2; [lia|].
    apply (Z.lt_le_trans _ (2 ^ n)); [lia|]. apply Z.pow_le_mono_r; lia.
Qed.

Lemma lor_shift_bytes a b : 0 <= a < 256 -> 0 <= b < 256 ->
  Z.lor (Z.shiftl a 16) (Z.shiftl b 8) = (a * 2 ^ 8 + b) * 2 ^ 8.
Proof. intros Ha Hb. rewrite lor_shift, Z.shiftl_mul_pow2; rewrite ?Z.shiftl_mul_pow2; lia. Qed.

(** ** Base64 comes back *)

Lemma sextet_range t k : 0 <= Z.land (Z.shiftr t k) 63 < 64.
Proof. change 63 with (Z.ones 6). rewrite Z.land_ones by lia. apply Z.mod_pos_bound. lia. Qed.

Lemma lookup_std n : 0 <= n < 64 -> lookup64 (std_char n) = n.
Proof.
  intros Hn. apply Z.eqb_eq, (below_all (fun n => lookup64 (std_char n) =? n) 64); [vm_compute; done|lia].
Qed.

Definition plain_digit (c : ascii) : bool :=
  negb (Ascii.eqb c EQUALS) && negb (is_space c) && Nat.ltb (nat_of_ascii c) 128 &&
  Ascii.eqb (std_of_url (url_char c)) c &&
  (is_alnum (url_char c) || Ascii.eqb (url_char c) "_"%char || Ascii.eqb (url_char c) "-"%char) &&
  negb (Ascii.eqb (url_char c) EQUALS).

Lemma std_plain n : 0 <= n < 64 -> plain_digit (std_char n) = true.
Proof. intros Hn. apply (below_all (fun n => plain_digit (std_char n)) 64); [vm_compute; done|lia]. Qed.

Lemma sextet_plain t k : plain_digit (sextet t k) = true.
Proof. apply std_plain, sextet_range. Qed.

Lemma lookup_sextet t k : lookup64 (sextet t k) = Z.land (Z.shiftr t k) 63.
Proof. apply lookup_std, sextet_range. Qed.

Lemma lookup_pad_sextet t k : lookup64_or_pad (sextet t k) = Z.land (Z.shiftr t k) 63.
Proof.
  unfold lookup64_or_pad. pose proof (sextet_plain t k) as Hp. unfold plain_digit in Hp.
  rewrite !andb_true_iff in Hp. destruct Hp as [[[[[Hp _] _] _] _] _]. apply negb_true_iff in Hp.
  rewrite Hp. apply lookup_sextet.
Qed.

(** The four sextets of a 24-bit number are the number, and its bytes are its bytes. *)
Lemma mod64 x : 0 <= x mod 2 ^ 6 < 64.
Proof. apply Z.mod_pos_bound. lia. Qed.

Lemma sextets_join t : 0 <= t < 2 ^ 24 ->
  Z.lor (Z.lor (Z.lor (Z.shiftl (Z.land (Z.shiftr t 18) 63) 18) (Z.shiftl (Z.land (Z.shiftr t 12) 63) 12))
    (Z.shiftl (Z.land (Z.shiftr t 6) 63) 6)) (Z.land (Z.shiftr t 0) 63) = t.
Proof.
  intros Ht. change 63 with (Z.ones 6). rewrite !Z.land_ones, !Z.shiftr_div_pow2 by lia.
  change (t / 2 ^ 0) with (t / 1). rewrite Z.div_1_r.
  pose proof (mod64 t). pose proof (mod64 (t / 2 ^ 6)). pose proof (mod64 (t / 2 ^ 12)).
  pose proof (mod64 (t / 2 ^ 18)).
  rewrite <-!Z.lor_assoc, (lor_shift _ _ 6), (lor_shift _ _ 12), lor_shift by lia.
  clear -Ht. Z.to_euclidean_division_equations. lia.
Qed.

Lemma triplet_bytes a b c :
  let t := Z.lor (Z.lor (Z.shiftl (b2z a) 16) (Z.shiftl (b2z b) 8)) (b2z c) in
  0 <= t < 2 ^ 24 /\ z2b (Z.land (Z.shiftr t 16) 255) = a /\ z2b (Z.land (Z.shiftr t 8) 255) = b /\
  z2b (Z.land t 255) = c.
Proof.
  intros t. pose proof (b2z_range a) as Ha. pose proof (b2z_range b) as Hb. pose proof (b2z_range c) as Hc.
  assert (Et : t = b2z a * 2 ^ 16 + (b2z b * 2 ^ 8 + b2z c)).
  { unfold t. rewrite <-Z.lor_assoc, (lor_shift _ _ 8), lor_shift; lia. }
  rewrite Et. change 255 with (Z.ones 8). rewrite !Z.land_ones, !Z.shiftr_div_pow2 by lia.
  clear Et t. split_and!; [lia..| | |]; apply z2b_of; Z.to_euclidean_division_equations; lia.
Qed.

Lemma bytes_ind3 (P : bytes -> Prop) :
  P [] -> (forall a, P [a]) -> (forall a b, P [a; b]) -> (forall a b c l, P l -> P (a :: b :: c :: l)) ->
  forall l, P l.
Proof.
  intros H0 H1 H2 H3 l. assert (P l /\ (forall a, P (a :: l)) /\ (forall a b, P (a :: b :: l))) as [? _]; [|done].
  induction l as [|x l (IH0 & IH1 & IH2)]; split_and!; auto.
Qed.

Lemma base64_chars_cons3 a b c l :
  base64_chars (a :: b :: c :: l) =
  let triplet := Z.lor (Z.lor (Z.shiftl (b2z a) 16) (Z.shiftl (b2z b) 8)) (b2z c) in
  sextet triplet 18 :: sextet triplet 12 :: sextet triplet 6 :: sextet triplet 0 :: base64_chars l.
Proof. done. Qed.

(** One group of four characters, given the numbers they stand for. *)
Lemma decode_quad p q r s a b c d rest :
  lookup64 p = a -> lookup64 q = b -> lookup64_or_pad r = c -> lookup64_or_pad s = d ->
  0 <= a -> 0 <= b -> 0 <= c -> 0 <= d ->
  decode_quads (p :: q :: r :: s :: rest) =
    match decode_quads rest with
    | Some more =>
        let t := Z.lor (Z.lor (Z.lor (Z.shiftl a 18) (Z.shiftl b 12)) (Z.shiftl c 6)) d in
        Some (z2b (Z.land (Z.shiftr t 16) 255) :: z2b (Z.land (Z.shiftr t 8) 255) :: z2b (Z.land t 255) :: more)
    | None => None
    end.
Proof.
  intros Ep Eq Er Es Ha Hb Hc Hd. cbn [decode_quads]. rewrite Ep, Eq, Er, Es.
  destruct (Z.ltb_spec a 0), (Z.ltb_spec b 0), (Z.ltb_spec c 0), (Z.ltb_spec d 0); try lia. done.
Qed.

(** The last two characters of a group may be padding, when what they stand for is zero. *)
Definition digit_of (t k : Z) (c : ascii) : Prop :=
  c = sextet t k \/ (c = EQUALS /\ Z.land (Z.shiftr t k) 63 = 0).

Lemma digit_of_lookup t k c : digit_of t k c -> lookup64_or_pad c = Z.land (Z.shiftr t k) 63.
Proof. intros [->|[-> ->]]; [apply lookup_pad_sextet|done]. Qed.

Lemma decode_triplet a b c r s rest :
  let t := Z.lor (Z.lor (Z.shiftl (b2z a) 16) (Z.shiftl (b2z b) 8)) (b2z c) in
  digit_of t 6 r -> digit_of t 0 s ->
  decode_quads (sextet t 18 :: sextet t 12 :: r :: s :: rest) =
    match decode_quads rest with Some more => Some (a :: b :: c :: more) | None => None end.
Proof.
  intros t Hr Hs. destruct (triplet_bytes a b c) as (Ht & E1 & E2 & E3). fold t in Ht, E1, E2, E3.
  erewrite decode_quad; [|apply lookup_sextet|apply lookup_sextet|by apply digit_of_lookup|by apply digit_of_lookup
    |apply sextet_range|apply sextet_range|apply sextet_range|apply sextet_range].
  cbv zeta. by rewrite sextets_join, E1, E2, E3 by done.
Qed.

Lemma padding_app l r : (2 <= length r)%nat -> padding_of (l ++ r) = padding_of r.
Proof.
  intros Hr. unfold padding_of. rewrite rev_app_distr.
  destruct (rev r) as [|x [|y r']] eqn:E; [..|done].
  all: apply (f_equal (@length _)) in E; rewrite length_rev in E; simpl in E; lia.
Qed.

Lemma sextet_not_equals t k : Ascii.eqb (sextet t k) EQUALS = false.
Proof.
  pose proof (sextet_plain t k) as Hp. unfold plain_digit in Hp. rewrite !andb_true_iff in Hp.
  apply negb_true_iff, Hp.
Qed.

(** What is written decodes, with the zero bytes the padding stands for. *)
Lemma decode_base64 bs :
  exists z k, decode_quads (base64_chars bs) = Some (bs ++ z) /\ length (base64_chars bs) = (4 * k)%nat /\
    (length bs + length z = 3 * k)%nat /\ padding_of (base64_chars bs) = length z.
Proof.
  induction bs as [|a|a b|a b c l (z & k & IH & Hl & Hz & Hp)] using bytes_ind3.
  - by exists [], 0%nat.
  - exists [x00; x00], 1%nat. cbn [base64_chars].
    pose proof (decode_triplet a x00 x00 EQUALS EQUALS []) as Hd. cbv zeta in Hd. rewrite !Z.lor_0_r in Hd.
    set (t := Z.shiftl (b2z a) 16) in *. split_and!; [|done|done|done]. apply Hd; right; (split; [done|]).
    all: unfold t; pose proof (b2z_range a); change 63 with (Z.ones 6);
      rewrite !Z.land_ones, !Z.shiftr_div_pow2, Z.shiftl_mul_pow2 by lia; Z.to_euclidean_division_equations; lia.
  - exists [x00], 1%nat. cbn [base64_chars].
    pose proof (decode_triplet a b x00 (sextet (Z.lor (Z.shiftl (b2z a) 16) (Z.shiftl (b2z b) 8)) 6) EQUALS []) as Hd.
    cbv zeta in Hd. rewrite !Z.lor_0_r in Hd.
    split_and!; [|done|done|].
    + apply Hd; [by left|right]. split; [done|]. pose proof (b2z_range a). pose proof (b2z_range b).
      rewrite lor_shift_bytes by done. change 63 with (Z.ones 6).
      rewrite !Z.land_ones, !Z.shiftr_div_pow2 by lia. Z.to_euclidean_division_equations. lia.
    + unfold padding_of. cbn [rev app]. by rewrite Ascii.eqb_refl, sextet_not_equals.
  - exists z, (S k). rewrite base64_chars_cons3. cbv zeta. set (t := Z.lor _ _). split_and!.
    + unfold t. rewrite decode_triplet; [by rewrite IH|by left|by left].
    + cbn [length]. lia.
    + cbn [length]. lia.
    + destruct k as [|k].
      * destruct (base64_chars l); [|done]. destruct l; simpl in Hz; [|lia]. destruct z; [|simpl in Hz; lia].
        unfold padding_of. cbn [rev app]. by rewrite sextet_not_equals.
      * rewrite <-Hp. apply (padding_app [_; _; _; _]). lia.
Qed.

Lemma base64_plain bs : Forall (fun c => plain_digit c = true \/ c = EQUALS) (base64_chars bs).
Proof.
  induction bs as [|a|a b|a b c l IH] using bytes_ind3; [done|..]; cbn [base64_chars]; cbv zeta;
    repeat (apply Forall_cons; split; [first [left; apply sextet_plain|by right]|]); done.
Qed.

Theorem base64_round_trip bs : fromBase64 (toBase64 bs) = Some bs.
Proof.
  unfold fromBase64, toBase64. rewrite chars_of_chars.
  replace (List.filter _ (base64_chars bs)) with (base64_chars bs).
  - destruct (decode_base64 bs) as (z & k & -> & Hl & Hz & ->). rewrite Hl.
    rewrite bool_decide_eq_true_2 by (rewrite Nat.mul_comm; apply Nat.Div0.mod_mul).
    rewrite (Nat.mul_comm 4), Nat.div_mul by done. replace (k * 3 - length z)%nat with (length bs) by lia.
    by rewrite take_app_length.
  - symmetry. apply filter_true, forallb_forall. intros c Hc. pose proof (base64_plain bs) as Hb. rewrite List.Forall_forall in Hb.
    destruct (Hb c Hc) as [Hp| ->]; [|done]. unfold plain_digit in Hp. rewrite !andb_true_iff in Hp. tauto.
Qed.

Lemma length_chars s : length (chars s) = String.length s.
Proof. induction s; simpl; congruence. Qed.

Lemma base64Length_pos n : (0 < n)%nat -> (0 < base64Length n)%nat.
Proof. intros Hn. unfold base64Length. pose proof (Nat.div_le_lower_bound (n + 2) 3 1). lia. Qed.

Lemma base64_length bs : String.length (toBase64 bs) = base64Length (length bs).
Proof.
  unfold toBase64. rewrite <-length_chars, chars_of_chars.
  destruct (decode_base64 bs) as (z & k & _ & -> & Hz & Hp). unfold base64Length. f_equal.
  assert (length z <= 2)%nat. { rewrite <-Hp. unfold padding_of. by repeat case_match; lia. }
  apply (Nat.div_unique _ _ _ (2 - length z)%nat); lia.
Qed.

Lemma toBase64_inj a b : toBase64 a = toBase64 b -> a = b.
Proof. intros E. pose proof (base64_round_trip a) as Ha. rewrite E, base64_round_trip in Ha. congruence. Qed.

(** The canonical decoder accepts what the encoder writes, and nothing else. *)
Lemma canonical_iff s len b :
  decodeCanonicalBase64 s len = Some b <->
  s = toBase64 b /\ b <> [] /\ match len with Some n => length b = n | None => True end.
Proof.
  unfold decodeCanonicalBase64. split.
  - case_bool_decide as Hs; [done|]. intros H.
    destruct (match len with Some n => negb (bool_decide (String.length s = base64Length n)) | None => false end); [done|].
    destruct (fromBase64 s) as [d|]; [|done].
    destruct (match len with Some n => negb (bool_decide (length d = n)) | None => false end) eqn:El; [done|].
    case_bool_decide as Ed; [|done]. injection H as <-. split_and!; [done| |].
    + intros ->. subst s. done.
    + destruct len as [n|]; [|done]. by apply negb_false_iff, bool_decide_eq_true in El.
  - intros (-> & Hb & Hl). rewrite base64_length, bool_decide_eq_false_2.
    2: { pose proof (base64Length_pos (length b)). destruct b; [done|simpl in *; lia]. }
    destruct len as [n|]; subst; rewrite ?bool_decide_eq_true_2 by done; cbn [negb];
      by rewrite base64_round_trip, ?bool_decide_eq_true_2 by done.
Qed.

(** ** Comparison, prefixes, hex *)

Lemma lor_zero a b : 0 <= a -> 0 <= b -> (Z.lor a b = 0 <-> a = 0 /\ b = 0).
Proof. intros Ha Hb. apply Z.lor_eq_0_iff. Qed.

Lemma bytesEqual_iff a b : bytesEqual a b = true <-> a = b.
Proof.
  unfold bytesEqual. rewrite andb_true_iff, bool_decide_eq_true, Z.eqb_eq.
  assert (H : forall (l : list (byte * byte)) d, 0 <= d ->
    foldl (fun diff '(x, y) => Z.lor diff (Z.lxor (b2z x) (b2z y))) d l = 0 <->
    d = 0 /\ Forall (fun p => p.1 = p.2) l).
  { induction l as [|[x y] l IH]; intros d Hd; cbn [foldl]; [intuition constructor|].
    rewrite IH by (apply Z.lor_nonneg; split; [done|apply Z.lxor_nonneg; pose proof (b2z_range x); pose proof (b2z_range y); tauto]).
    rewrite Z.lor_eq_0_iff, Z.lxor_eq_0_iff, Forall_cons. cbn [fst snd].
    split; [intros [[? E] ?]; split_and!; [done|by apply b2z_inj|done]|intros [? [-> ?]]; split_and!; done]. }
  rewrite H by done. split.
  - intros (Hl & _ & Hf). revert b Hl Hf. induction a as [|x a IH]; intros [|y b] Hl Hf; try done.
    apply Forall_cons in Hf as [E Hf]. simpl in E, Hl. subst. f_equal. apply IH; [lia|done].
  - intros ->. split_and!; [done|done|]. induction b; by constructor.
Qed.

Lemma u16be_some n : 0 <= n < 65536 -> exists p, u16be n = Some p /\ length p = 2%nat /\
  p = [z2b (n / 256); z2b (n mod 256)].
Proof.
  intros Hn. unfold u16be. destruct (Z.ltb_spec n 0), (Z.ltb_spec 65535 n); try lia. cbn [orb].
  eexists. split_and!; [done|done|]. change 255 with (Z.ones 8). by rewrite Z.land_ones, Z.shiftr_div_pow2 by lia.
Qed.

(** A length prefix makes fields self-delimiting. *)
Lemma lengthPrefixed_inj a b pa pb ra rb :
  lengthPrefixed a = Some pa -> lengthPrefixed b = Some pb -> pa ++ ra = pb ++ rb -> a = b /\ ra = rb.
Proof.
  unfold lengthPrefixed. destruct (u16be _) as [x|] eqn:Ex; [|done]. destruct (u16be (Z.of_nat (length b))) as [y|] eqn:Ey; [|done].
  intros [= <-] [= <-] E. rewrite <-!app_assoc in E.
  assert (Ha : 0 <= Z.of_nat (length a) < 65536 /\ 0 <= Z.of_nat (length b) < 65536).
  { unfold u16be in Ex, Ey. destruct (Z.ltb_spec 65535 (Z.of_nat (length a))), (Z.ltb_spec 65535 (Z.of_nat (length b)));
      rewrite ?orb_true_r in *; try done. lia. }
  destruct (u16be_some _ (proj1 Ha)) as (x' & Ex' & Hx & ->), (u16be_some _ (proj2 Ha)) as (y' & Ey' & Hy & ->).
  rewrite Ex in Ex'. rewrite Ey in Ey'. injection Ex' as ->. injection Ey' as ->. cbn [app] in E.
  injection E as E1 E2 E3. apply (f_equal b2z) in E1, E2. 
  rewrite !b2z_z2b in E1, E2 by (Z.to_euclidean_division_equations; lia).
  apply app_inj_1; [|done]. Z.to_euclidean_division_equations. lia.
Qed.

Lemma hex_value_char n : 0 <= n < 16 -> hex_value (hex_char n) = Some n.
Proof.
  intros Hn. pose proof (below_all (fun n => bool_decide (hex_value (hex_char n) = Some n)) 16) as H.
  eapply bool_decide_eq_true, H; [vm_compute; done|lia].
Qed.

Lemma index_of_some c l i n : index_of c l i = Some n -> i <= n < i + Z.of_nat (length l) /\ nth (Z.to_nat (n - i)) l EQUALS = c.
Proof.
  revert i. induction l as [|x l IH]; intros i; [done|]. cbn [index_of]. destruct (Ascii.eqb x c) eqn:E.
  - apply Ascii.eqb_eq in E as ->. intros [= <-]. rewrite Z.sub_diag. cbn [length]. split; [lia|done].
  - intros [H1 H2]%IH. split; [cbn [length]; lia|]. replace (Z.to_nat (n - i)) with (S (Z.to_nat (n - (i + 1)))) by lia. done.
Qed.

Lemma hex_value_some c n : hex_value c = Some n -> 0 <= n < 16 /\ c = hex_char n.
Proof.
  intros [H1 H2]%index_of_some. split; [by simpl in H1|]. unfold hex_char. rewrite Z.sub_0_r in H2. rewrite <-H2 at 1.
  apply nth_indep. simpl in *. lia.
Qed.

Lemma hex_pairs_iff l b : hex_pairs l = Some b <-> l = flat_map hex_byte b.
Proof.
  split.
  - assert (H : forall n l b, (length l <= n)%nat -> hex_pairs l = Some b -> l = flat_map hex_byte b); [|by apply (H (length l))].
    clear. induction n as [|n IH]; intros l b Hl.
    + destruct l; [|simpl in Hl; lia]. by intros [= <-].
    + destruct l as [|x [|y l]]; [by intros [= <-]|done|]. cbn [hex_pairs].
      destruct (hex_value x) as [v|] eqn:Ex; [|done]. destruct (hex_value y) as [w|] eqn:Ey; [|done].
      destruct (hex_pairs l) as [m|] eqn:Em; [|done]. intros [= <-].
      apply hex_value_some in Ex as [Hv ->], Ey as [Hw ->]. cbn [flat_map]. unfold hex_byte at 1.
      rewrite b2z_z2b by lia. replace ((16 * v + w) / 16) with v by (Z.to_euclidean_division_equations; lia).
      replace ((16 * v + w) mod 16) with w by (Z.to_euclidean_division_equations; lia).
      cbn [app]. f_equal. f_equal. apply IH; [simpl in Hl; lia|done].
  - intros ->. induction b as [|x b IH]; [done|]. cbn [flat_map]. unfold hex_byte at 1. cbn [app hex_pairs].
    pose proof (b2z_range x). rewrite !hex_value_char by (Z.to_euclidean_division_equations; lia). rewrite IH.
    do 2 f_equal. apply z2b_of. Z.to_euclidean_division_equations. lia.
Qed.

Lemma hex_length b : String.length (toHex b) = (length b * 2)%nat.
Proof. unfold toHex. rewrite <-length_chars, chars_of_chars. induction b as [|x b IH]; [done|]. simpl in *. lia. Qed.

Lemma fromHex_iff s n b : fromHex s n = Some b <-> s = toHex b /\ length b = n.
Proof.
  unfold fromHex. case_bool_decide as Hs.
  - rewrite hex_pairs_iff. split.
    + intros E. assert (s = toHex b) as -> by (unfold toHex; by rewrite <-E, of_chars_chars).
      split; [done|]. rewrite hex_length in Hs. lia.
    + intros [-> _]. unfold toHex. by rewrite chars_of_chars.
  - split; [done|]. intros [-> Hn]. rewrite hex_length in Hs. lia.
Qed.

Lemma toHex_inj a b : toHex a = toHex b -> a = b.
Proof.
  intros E. assert (H : fromHex (toHex b) (length a) = Some a).
  { apply fromHex_iff. by rewrite E. }
  apply fromHex_iff in H as [_ H]. assert (H' : fromHex (toHex b) (length b) = Some b) by by apply fromHex_iff.
  assert (Hl : length a = length b). { apply (f_equal String.length) in E. rewrite !hex_length in E. lia. }
  assert (H2 : fromHex (toHex a) (length a) = Some a) by by apply fromHex_iff. rewrite E, Hl in H2. congruence.
Qed.

Lemma ascii_bytes_inj a b : ascii_bytes a = ascii_bytes b -> a = b.
Proof.
  unfold ascii_bytes. intros E. assert (chars a = chars b) as Ec.
  { revert E. generalize (chars b). induction (chars a) as [|x l IH]; intros [|y l'] E; try done.
    cbn [map] in E. injection E as E1 E2. f_equal; [|by apply IH]. unfold byte_of_char in E1.
    apply (f_equal Ascii.ascii_of_byte) in E1. by rewrite !Ascii.ascii_of_byte_of_ascii in E1. }
  by rewrite <-(of_chars_chars a), Ec, of_chars_chars.
Qed.

Lemma ascii_bytes_length s : length (ascii_bytes s) = String.length s.
Proof. unfold ascii_bytes. by rewrite length_map, length_chars. Qed.

(** ** Base64url comes back *)

Lemma base64_shape bs : exists body p, base64_chars bs = body ++ replicate p EQUALS /\
  Forall (fun c => plain_digit c = true) body /\ (p <= 2)%nat /\ ((length body + p) mod 4 = 0)%nat /\
  (bs <> [] -> body <> []).
Proof.
  induction bs as [|a|a b|a b c l (body & p & E & Hb & Hp & Hm & _)] using bytes_ind3.
  - exists [], 0%nat. by split_and!; [..|lia| |].
  - eexists [_; _], 2%nat. split_and!; [done|repeat constructor; apply sextet_plain|done..].
  - eexists [_; _; _], 1%nat. split_and!; [done|repeat constructor; apply sextet_plain|lia|done..].
  - rewrite base64_chars_cons3. cbv zeta. rewrite E. set (t := Z.lor _ _).
    exists (sextet t 18 :: sextet t 12 :: sextet t 6 :: sextet t 0 :: body), p. split_and!; [done| |done| |done].
    + repeat (constructor; [apply sextet_plain|]). done.
    + cbn [length]. replace (S (S (S (S (length body)))) + p)%nat with (length body + p + 1 * 4)%nat by lia.
      by rewrite Nat.Div0.mod_add.
Qed.

Lemma plain_digit_url c : plain_digit c = true ->
  std_of_url (url_char c) = c /\ url_char c <> EQUALS /\
  is_alnum (url_char c) || Ascii.eqb (url_char c) "_"%char || Ascii.eqb (url_char c) "-"%char = true.
Proof.
  unfold plain_digit. rewrite !andb_true_iff, !negb_true_iff, Ascii.eqb_eq. intros [[[[[_ _] _] Hs] Hu] He].
  split_and!; [done| |done]. by apply Ascii.eqb_neq.
Qed.

Lemma drop_equals_app p l : match l with c :: _ => c <> EQUALS | [] => True end -> drop_equals (replicate p EQUALS ++ l) = l.
Proof.
  intros Hl. induction p as [|p IH]; cbn [replicate app drop_equals]; [|by rewrite Ascii.eqb_refl].
  destruct l as [|c l]; [done|]. cbn [drop_equals]. apply Ascii.eqb_neq in Hl. by rewrite Hl.
Qed.

Lemma toBase64Url_body bs body p :
  base64_chars bs = body ++ replicate p EQUALS -> Forall (fun c => plain_digit c = true) body ->
  toBase64Url bs = of_chars (map url_char body).
Proof.
  intros E Hb. unfold toBase64Url. rewrite E, map_app, rev_app_distr.
  replace (rev (map url_char (replicate p EQUALS))) with (replicate p EQUALS).
  2: { clear. induction p as [|p IH]; [done|]. cbn [replicate map rev]. rewrite <-IH. exact (replicate_cons_app p EQUALS). }
  rewrite drop_equals_app, rev_involutive; [done|].
  destruct (rev (map url_char body)) as [|c l] eqn:Er; [done|].
  assert (Hin : In c (map url_char body)) by (apply in_rev; rewrite Er; by left).
  apply in_map_iff in Hin as (x & <- & Hx). apply plain_digit_url. rewrite List.Forall_forall in Hb. by apply Hb.
Qed.

Theorem base64url_round_trip bs : bs <> [] -> decodeBase64Url (toBase64Url bs) (length bs) = Some bs.
Proof.
  intros Hne. destruct (base64_shape bs) as (body & p & E & Hb & Hp & Hm & Hbody).
  pose proof (toBase64Url_body _ _ _ E Hb) as Eu. unfold decodeBase64Url. rewrite Eu, chars_of_chars.
  rewrite bool_decide_eq_false_2 by (destruct body; [by destruct Hbody|done]). cbn [orb].
  rewrite List.Forall_forall in Hb.
  replace (forallb _ (map url_char body)) with true.
  2: { symmetry. apply forallb_forall. intros c (x & <- & Hx)%in_map_iff. by apply plain_digit_url, Hb. }
  cbn [negb]. replace (map std_of_url (map url_char body)) with body.
  2: { rewrite map_map. rewrite <-(map_id body) at 1. apply map_ext_in. intros c Hc. symmetry. by apply plain_digit_url, Hb. }
  replace ((4 - length body mod 4) mod 4)%nat with p.
  2: { pose proof (Nat.mod_upper_bound (length body) 4). pose proof (Nat.div_mod_eq (length body) 4).
       pose proof (Nat.div_mod_eq (length body + p) 4). rewrite Hm in *.
       destruct (length body mod 4)%nat as [|[|[|[|]]]]; simpl; lia. }
  rewrite <-E. replace (decodeCanonicalBase64 _ _) with (Some bs).
  - by rewrite Eu, bool_decide_eq_true_2.
  - symmetry. by apply canonical_iff.
Qed.
