(* ===== verification/Crypto.v ===== *)
(** * What the protocol package stands on

    Values as they come off the wire ([unknown] in the sources), the errors it
    throws, the platform's cryptography ([WebCrypto], [TextEncoder]) and the ML-KEM
    provider of [deaddrop/crypto/pqHybrid.ts].  Nothing here shares state but the
    random generator, so a computation is a function from the number of draws made
    to the new number and a result or an error.  A [CryptoKey] is the bytes it holds.
    Clearing a buffer after use has no effect on any result and is left out. *)

From S2P Require Import Prelude JsMap CoalitionDomain Records Store Slug Bytes.

(** ** JavaScript values *)

(** An object lists its own members; [plain] says whether its prototype is
    [Object.prototype] or [null]. *)
Inductive js : Type :=
  | JUndefined
  | JNull
  | JBool (b : bool)
  | JNumber (n : jsnum)
  | JString (s : string)
  | JArray (items : list js)
  | JObject (plain : bool) (members : list (string * js)).

Fixpoint member (field : string) (ms : list (string * js)) : js :=
  match ms with
  | [] => JUndefined
  | (k, v) :: ms => if String.eqb k field then v else member field ms
  end.

Definition members_of (v : js) : list (string * js) :=
  match v with JObject _ ms => ms | _ => [] end.

(** [value.field] *)
Definition get_field (v : js) (field : string) : js := member field (members_of v).

Definition isPlainObject (v : js) : bool := match v with JObject plain _ => plain | _ => false end.

(** [typeof value === 'object' && value !== null && !Array.isArray(value)] *)
Definition isRecord (v : js) : bool := match v with JObject _ _ => true | _ => false end.

Definition hasExactly (v : js) (fields : list string) : bool :=
  let keys := map fst (members_of v) in
  bool_decide (length keys = length fields) && forallb (fun f => bool_decide (f ∈ keys)) fields.

Definition as_string (v : js) : option string := match v with JString s => Some s | _ => None end.
Definition is_number (z : Z) (v : js) : bool :=
  match v with JNumber n => bool_decide (as_integer n = Some z) | _ => false end.

(** [decodeCanonicalBase64] and [fromHex] take any value. *)
Definition decode_js (v : js) (len : option nat) : option bytes :=
  match v with JString s => decodeCanonicalBase64 s len | _ => None end.
Definition hex_js (v : js) (len : nat) : option bytes :=
  match v with JString s => fromHex s len | _ => None end.

(** ** Errors *)

Inductive ReleaseEnvelopeErrorCode : Type :=
  | ee_owner_key_set | ee_recipient_identity | ee_recipients | ee_message | ee_owner_key_changed
  | ee_own_copy | ee_release_mismatch | ee_kem_provider.

Inductive ReleaseRecoveryErrorCode : Type :=
  | re_passphrase_length | re_malformed | re_unsupported | re_wrong_passphrase_or_damaged | re_contents
  | re_other_account | re_too_large.

(** What can be thrown: the platform's [NotSupportedError], the three error classes
    of the package, and any other [Error]. *)
Inductive thrown : Type :=
  | NotSupportedError
  | ReleaseEnvelopeError (code : ReleaseEnvelopeErrorCode)
  | ReleaseRecoveryError (code : ReleaseRecoveryErrorCode)
  | HybridSealError
  | OtherError.

Definition isNotSupportedError (e : thrown) : bool := match e with NotSupportedError => true | _ => false end.

(** ** Computations *)

Definition C (A : Type) : Type := nat -> nat * res thrown A.

Definition ret {A} (a : A) : C A := fun n => (n, Ok a).
Definition throw {A} (e : thrown) : C A := fun n => (n, Err e).
Definition bind {A B} (m : C A) (k : A -> C B) : C B :=
  fun n => match m n with (n', Ok a) => k a n' | (n', Err e) => (n', Err e) end.
(** [try { m } catch (e) { h(e) }] *)
Definition catch {A} (m : C A) (h : thrown -> C A) : C A :=
  fun n => match m n with (n', Err e) => h e n' | r => r end.

Declare Scope crypto_scope.
Delimit Scope crypto_scope with crypto.
Notation "'let*' x := m 'in' k" := (bind m (fun x => k))
  (at level 200, x pattern, m at level 100, k at level 200) : crypto_scope.
Open Scope crypto_scope.

(** [throw] unless there is a value. *)
Definition or_throw {A} (o : option A) (e : thrown) : C A :=
  match o with Some a => ret a | None => throw e end.

(** ** The platform *)

Inductive crypto_error : Type := ce_not_supported | ce_operation.
Inductive OkpCurve : Type := Ed25519 | X25519.

Class WebCrypto : Type := {
  utf8Encode : string -> bytes;
  (** [TextDecoder], ordinary and fatal *)
  utf8Decode : bytes -> string;
  utf8Fatal : bytes -> option string;
  sha256 : bytes -> bytes;
  sha512 : bytes -> bytes;
  (** HKDF-SHA-256 of the input, salt and info, at a length in bytes; [None] when it throws *)
  hkdf_bits : bytes -> bytes -> bytes -> nat -> option bytes;
  (** AES-256-GCM under a key, a nonce and associated data *)
  aes_encrypt : bytes -> bytes -> bytes -> bytes -> bytes;
  aes_decrypt : bytes -> bytes -> bytes -> bytes -> option bytes;
  (** the [n]-th call of [getRandomValues], on so many bytes *)
  random_values : nat -> nat -> bytes;
  (** [generateKey]: the private key; and the public key that belongs to one *)
  generate_okp : OkpCurve -> nat -> res crypto_error bytes;
  okp_public : OkpCurve -> bytes -> bytes;
  (** [importKey] of a raw public key *)
  import_raw : OkpCurve -> bytes -> res crypto_error ();
  (** [importKey] of a private JWK, given its [d] and [x] *)
  import_jwk : OkpCurve -> string -> string -> res crypto_error bytes;
  x25519_bits : bytes -> bytes -> res crypto_error bytes;
  ed25519_sign : bytes -> bytes -> bytes;
  (** under a public key: the signature and the message *)
  ed25519_verify : bytes -> bytes -> bytes -> res crypto_error bool;
}.

Record KemProvider : Type := {
  publicKeyLength : nat;
  secretKeyLength : nat;
  ciphertextLength : nat;
  sharedSecretLength : nat;
  (** each takes the number of its draw where it uses randomness; [None] when it throws *)
  generateKeyPair : nat -> option (bytes * bytes);
  encapsulate : nat -> bytes -> option (bytes * bytes);
  decapsulate : bytes -> bytes -> option bytes;
}.

Definition NULL_KEM_PROVIDER : KemProvider := {|
  publicKeyLength := 1184; secretKeyLength := 2400; ciphertextLength := 1088; sharedSecretLength := 32;
  generateKeyPair := fun _ => None; encapsulate := fun _ _ => None; decapsulate := fun _ _ => None |}.

Definition RANDOM_VALUES_MAX_BYTES : nat := Z.to_nat 65536.

(** Strings of code units below 256 hold no lone surrogate, so they come back. *)
Class WebCryptoLaws `{WebCrypto} : Prop := {
  utf8_ascii s : forallb (fun c => Nat.ltb (nat_of_ascii c) 128) (chars s) = true -> utf8Encode s = ascii_bytes s;
  utf8_back s : utf8Fatal (utf8Encode s) = Some s;
  utf8_decode_back s : utf8Decode (utf8Encode s) = s;
  sha256_length b : length (sha256 b) = 32;
  sha512_length b : length (sha512 b) = 64;
  hkdf_bits_length ikm salt info len : (Z.of_nat len <= 255 * 32)%Z -> exists b, hkdf_bits ikm salt info len = Some b /\ length b = len;
  hkdf_bits_long ikm salt info len : (255 * 32 < Z.of_nat len)%Z -> hkdf_bits ikm salt info len = None;
  aes_exact key iv aad plain ct : aes_decrypt key iv aad ct = Some plain <-> aes_encrypt key iv aad plain = ct;
  aes_length key iv aad plain : length (aes_encrypt key iv aad plain) = length plain + 16;
  random_values_length n len : length (random_values n len) = len;
  okp_private_length crv n d : generate_okp crv n = Ok d -> length d = 32;
  okp_public_length crv d : length d = 32 -> length (okp_public crv d) = 32;
  import_own_raw crv d : length d = 32 -> import_raw crv (okp_public crv d) = Ok ();
  import_own_jwk crv d : length d = 32 -> import_jwk crv (toBase64Url d) (toBase64Url (okp_public crv d)) = Ok d;
  x25519_commutes a b : length a = 32 -> length b = 32 ->
    x25519_bits a (okp_public X25519 b) = x25519_bits b (okp_public X25519 a);
  x25519_bits_length a p s : x25519_bits a p = Ok s -> length s = 32;
  (** an engine has a curve or has not, and a key contributes or does not, whatever is drawn *)
  generate_uniform crv n m :
    match generate_okp crv n, generate_okp crv m with
    | Ok _, Ok _ => True | Err e, Err f => e = f | _, _ => False
    end;
  x25519_uniform a b p : length a = 32 -> length b = 32 ->
    match x25519_bits a p, x25519_bits b p with
    | Ok s, Ok t => Forall (fun x => x = x00) s <-> Forall (fun x => x = x00) t
    | Err e, Err f => e = f
    | _, _ => False
    end;
  ed25519_signature_length d m : length (ed25519_sign d m) = 64;
  ed25519_own d m : length d = 32 -> ed25519_verify (okp_public Ed25519 d) (ed25519_sign d m) m = Ok true;
}.

Section platform.
Context `{WebCrypto}.

Definition lift {A} (r : res crypto_error A) : C A :=
  match r with
  | Ok a => ret a
  | Err ce_not_supported => throw NotSupportedError
  | Err ce_operation => throw OtherError
  end.

(** One draw of the generator. *)
Definition draw_with {A} (f : nat -> A) : C A := fun n => (S n, Ok (f n)).

(** [randomBytes]: filled in calls of at most [RANDOM_VALUES_MAX_BYTES]. *)
Fixpoint fill_random (calls : nat) (len : nat) : C bytes :=
  match calls with
  | 0%nat => ret []
  | S calls =>
      let* chunk := draw_with (fun n => random_values n (Nat.min RANDOM_VALUES_MAX_BYTES len)) in
      let* rest := fill_random calls (len - RANDOM_VALUES_MAX_BYTES) in
      ret (chunk ++ rest)
  end.
Definition randomBytes (len : nat) : C bytes :=
  fill_random ((len + (RANDOM_VALUES_MAX_BYTES - 1)) / RANDOM_VALUES_MAX_BYTES) len.

Definition randomId (len : nat) : C string := let* bs := randomBytes len in ret (toHex bs).

Definition hkdfSha256 (ikm salt info : bytes) (len : nat) : C bytes :=
  or_throw (hkdf_bits ikm salt info len) OtherError.

(** A raw AES key has 16, 24 or 32 bytes. *)
Definition importAesGcmKey (rawKey : bytes) : C bytes :=
  if bool_decide (length rawKey ∈ [16; 24; 32]) then ret rawKey else throw OtherError.

Definition decrypt (key iv aad ct : bytes) : C bytes := or_throw (aes_decrypt key iv aad ct) OtherError.

(** ** X25519 keys ([deaddrop/crypto/keys.ts]) *)

Definition importRecipientPublicKey (publicKeyBase64 : string) : C bytes :=
  let* raw := or_throw (fromBase64 publicKeyBase64) OtherError in
  if bool_decide (length raw = 32) then let* _ := lift (import_raw X25519 raw) in ret raw else throw OtherError.

(** The private key and the public one. *)
Definition generateEphemeralKeyPair : C (bytes * bytes) :=
  let* r := draw_with (generate_okp X25519) in
  let* d := lift r in
  ret (d, okp_public X25519 d).

Definition deriveSharedSecret (privateKey peerPublicKey : bytes) : C bytes :=
  lift (x25519_bits privateKey peerPublicKey).

(** A private key as a JWK. *)
Record OkpJwk : Type := { jwk_kty : string; jwk_crv : string; jwk_d : string; jwk_x : string }.

Definition crv_name (crv : OkpCurve) : string := match crv with Ed25519 => "Ed25519" | X25519 => "X25519" end.

(** [exportKey('jwk', privateKey)] *)
Definition export_jwk (crv : OkpCurve) (d : bytes) : OkpJwk :=
  {| jwk_kty := "OKP"; jwk_crv := crv_name crv; jwk_d := toBase64Url d; jwk_x := toBase64Url (okp_public crv d) |}.

(** The public key in base64, and the private one. *)
Definition generateRecipientKeyPair : C (string * OkpJwk) :=
  let* r := draw_with (generate_okp X25519) in
  let* d := lift r in
  ret (toBase64 (okp_public X25519 d), export_jwk X25519 d).

Definition importRecipientPrivateKey (jwk : OkpJwk) : C bytes :=
  if bool_decide (jwk_kty jwk = "OKP" /\ jwk_crv jwk = "X25519") then lift (import_jwk X25519 (jwk_d jwk) (jwk_x jwk))
  else throw OtherError.
End platform.

(** [Date.parse], [None] for [NaN], and [toISOString]. *)
Class Dates : Type := {
  date_parse : string -> option Z;
  toISOString : Z -> string;
}.

Class DatesLaws `{Dates} : Prop := {
  iso_back ms : date_parse (toISOString ms) = Some ms;
}.

(** ** Reasoning about computations

    [may m a]: some run of [m] returns [a].  [yields m a]: every run does. *)

Definition may {A} (m : C A) (a : A) : Prop := exists n n', m n = (n', Ok a).
Definition yields {A} (m : C A) (a : A) : Prop := forall n, exists n', m n = (n', Ok a).

Lemma may_ret {A} (a b : A) : may (ret a) b -> a = b.
Proof. intros (n & n' & [= _ E]). done. Qed.

Lemma may_throws {A} e (a : A) : ~ may (throw e) a.
Proof. intros (n & n' & [=]). Qed.

Lemma may_bind {A B} (m : C A) (k : A -> C B) b : may (bind m k) b -> exists a, may m a /\ may (k a) b.
Proof.
  intros (n & n' & E). unfold bind in E. destruct (m n) as [n1 [e|a]] eqn:Em; [done|].
  exists a. split; [by exists n, n1|by exists n1, n'].
Qed.

Lemma may_catch {A} (m : C A) h a : may (catch m h) a -> may m a \/ exists e, may (h e) a.
Proof.
  intros (n & n' & E). unfold catch in E. destruct (m n) as [n1 [e|b]] eqn:Em.
  - right. exists e. by exists n1, n'.
  - left. exists n, n1. congruence.
Qed.

Lemma may_or_throw {A} (o : option A) e a : may (or_throw o e) a -> o = Some a.
Proof. destruct o; [|by intros ?%may_throws]. by intros ->%may_ret. Qed.

Lemma yields_ret {A} (a : A) : yields (ret a) a.
Proof. intros n. by exists n. Qed.

Lemma yields_bind {A B} (m : C A) (k : A -> C B) a b : yields m a -> yields (k a) b -> yields (bind m k) b.
Proof. intros Hm Hk n. unfold bind. destruct (Hm n) as [n1 ->]. apply Hk. Qed.

Lemma yields_catch {A} (m : C A) h a : yields m a -> yields (catch m h) a.
Proof. intros Hm n. unfold catch. destruct (Hm n) as [n1 ->]. by exists n1. Qed.

Lemma yields_or_throw {A} (o : option A) e a : o = Some a -> yields (or_throw o e) a.
Proof. intros ->. apply yields_ret. Qed.

Lemma yields_may {A} (m : C A) a : yields m a -> may m a.
Proof. intros H. exists 0. apply H. Qed.

(** Some value for every number of draws. *)
Definition always {A} (m : C A) (P : A -> Prop) : Prop := forall n, exists n' a, m n = (n', Ok a) /\ P a.

Lemma always_bind {A B} (m : C A) (k : A -> C B) (P : A -> Prop) (b : B) :
  always m P -> (forall a, P a -> yields (k a) b) -> yields (bind m k) b.
Proof. intros Hm Hk n. unfold bind. destruct (Hm n) as (n1 & a & -> & Ha). by apply Hk. Qed.

Lemma always_weaken {A} (m : C A) (P Q : A -> Prop) : always m P -> (forall a, P a -> Q a) -> always m Q.
Proof. intros Hm HPQ n. destruct (Hm n) as (n' & a & E & Ha). eauto. Qed.

Lemma yields_always {A} (m : C A) a : yields m a <-> always m (eq a).
Proof.
  split; intros H n; [destruct (H n) as [n' E]|destruct (H n) as (n' & b & E & <-)]; eauto.
Qed.

Lemma always_ret {A} (a : A) (P : A -> Prop) : P a -> always (ret a) P.
Proof. intros Ha n. by exists n, a. Qed.

Lemma always_then {A B} (m : C A) (k : A -> C B) P Q :
  always m P -> (forall a, P a -> always (k a) Q) -> always (bind m k) Q.
Proof. intros Hm Hk n. unfold bind. destruct (Hm n) as (n1 & a & -> & Ha). by apply Hk. Qed.

Section draws.
Context `{WebCryptoLaws}.

Lemma lift_may {A} (r : res crypto_error A) a : may (lift r) a -> r = Ok a.
Proof. destruct r as [[]|]; [by intros ?%may_throws..|]. by intros ->%may_ret. Qed.

Lemma lift_yields {A} (r : res crypto_error A) a : r = Ok a -> yields (lift r) a.
Proof. intros ->. apply yields_ret. Qed.

Lemma draw_may {A} (f : nat -> A) a : may (draw_with f) a -> exists n, a = f n.
Proof. intros (n & n' & [= _ E]). by exists n. Qed.

Lemma draw_always {A} (f : nat -> A) : always (draw_with f) (fun a => exists n, a = f n).
Proof. intros n. exists (S n), (f n). eauto. Qed.

Lemma fill_random_always calls len :
  len <= calls * RANDOM_VALUES_MAX_BYTES -> always (fill_random calls len) (fun b => length b = len).
Proof.
  revert len. induction calls as [|calls IH]; intros len Hl; cbn [fill_random].
  - apply always_ret. simpl. lia.
  - eapply always_then; [apply draw_always|]. intros chunk [n ->]. eapply always_then; [apply IH; lia|].
    intros rest Hr. apply always_ret. rewrite length_app, random_values_length, Hr. lia.
Qed.

Lemma RANDOM_VALUES_MAX_BYTES_Z : Z.of_nat RANDOM_VALUES_MAX_BYTES = 65536%Z.
Proof. unfold RANDOM_VALUES_MAX_BYTES. rewrite Z2Nat.id; lia. Qed.

Lemma randomBytes_always len : always (randomBytes len) (fun b => length b = len).
Proof.
  apply fill_random_always. pose proof RANDOM_VALUES_MAX_BYTES_Z as Hz.
  pose proof (Nat.div_mod_eq (len + (RANDOM_VALUES_MAX_BYTES - 1)) RANDOM_VALUES_MAX_BYTES) as Hd.
  pose proof (Nat.mod_upper_bound (len + (RANDOM_VALUES_MAX_BYTES - 1)) RANDOM_VALUES_MAX_BYTES). lia.
Qed.

Lemma always_may {A} (m : C A) P a : always m P -> may m a -> P a.
Proof. intros Hm (n & n' & E). destruct (Hm n) as (n1 & b & E' & Hb). congruence. Qed.

Lemma randomBytes_length len b : may (randomBytes len) b -> length b = len.
Proof. intros Hm. by apply (always_may _ _ _ (randomBytes_always len)) in Hm. Qed.

Lemma ephemeral_may p : may generateEphemeralKeyPair p -> length p.1 = 32 /\ p.2 = okp_public X25519 p.1.
Proof.
  unfold generateEphemeralKeyPair. intros (r & [n ->]%draw_may & (d & Hd%lift_may & <-%may_ret)%may_bind)%may_bind. split; [by eapply okp_private_length|done].
Qed.

Lemma ephemeral_generated p : may generateEphemeralKeyPair p -> exists n, generate_okp X25519 n = Ok p.1.
Proof. unfold generateEphemeralKeyPair. intros (r & [n ->]%draw_may & (d & Hd%lift_may & <-%may_ret)%may_bind)%may_bind. by exists n. Qed.
End draws.
