(* ===== verification/DeadDrop.v ===== *)
(** * Sealing: [packages/blackout-protocol/src/deaddrop/crypto]

    Padding, the hybrid seal dead drops and release copies share, the older sealed
    box, pickup clues, the dead-drop envelope in both versions with the shape check of
    the server, and decoys. *)

From S2P Require Import Prelude JsMap CoalitionDomain Records Store Slug Bytes Crypto.
Local Open Scope Z_scope.

(** ** Padding ([padding.ts]) *)

Inductive PaddingStrategy : Type := pad_minimal | pad_bucket.

Definition BUCKETS : list Z :=
  [1024; 16 * 1024; 256 * 1024; 1024 * 1024; 16 * 1024 * 1024; 128 * 1024 * 1024].

Definition selectBucket (plaintextLength : Z) : option Z :=
  List.find (fun bucket => plaintextLength + 16 <=? bucket) BUCKETS.

(** [Math.ceil(total / 256) * 256], with the marker counted. *)
Definition minimalPaddedLength (plaintextLength : Z) : Z := (plaintextLength + 1 + 255) / 256 * 256.

Definition isBucketSize (size : Z) : bool := bool_decide (size ∈ BUCKETS).

Section sealing.
Context `{WebCrypto}.

(** Every random byte drawn is overwritten: by the plaintext, the marker or a zero. *)
Definition pad (plaintext : bytes) (strategy : PaddingStrategy) : C bytes :=
  let len := Z.of_nat (length plaintext) in
  let* target := match strategy with
    | pad_bucket => or_throw (selectBucket len) OtherError
    | pad_minimal => ret (minimalPaddedLength len)
    end in
  if target <? len + 1 then throw OtherError
  else
    let* _ := randomBytes (Z.to_nat target) in
    ret (plaintext ++ x80 :: replicate (Z.to_nat target - length plaintext - 1) x00).

Fixpoint drop_zeros (l : bytes) : bytes :=
  match l with b :: l' => if bool_decide (b = x00) then drop_zeros l' else l | [] => [] end.

Definition unpad (padded : bytes) : option bytes :=
  match drop_zeros (rev padded) with
  | b :: l => if bool_decide (b = x80) then Some (rev l) else None
  | [] => None
  end.

(** ** The hybrid seal ([hybridSeal.ts], [pqHybrid.ts]) *)

Definition PQ_HYBRID_INFO : bytes := ascii_bytes "blackout-deaddrop-v2-hybrid".
Definition HYBRID_SEAL_NONCE_BYTES : nat := 12.

Record HybridSealed : Type := {
  hs_ephemeralPublicKey : bytes;
  hs_kemCiphertext : bytes;
  hs_nonce : bytes;
  hs_ciphertext : bytes;
}.

Record HybridSealRandomness : Type := {
  hr_ephemeral : bytes * bytes;
  (** the ciphertext and the shared secret *)
  hr_encapsulation : bytes * bytes;
  hr_nonce : bytes;
}.

Definition deriveHybridAeadKey (ecSecret pqSecret ephemeralX25519Pub pqCiphertext transcript : bytes) : C bytes :=
  if bool_decide (ecSecret = []) then throw OtherError
  else if bool_decide (pqSecret = []) then throw OtherError
  else
    let info := if bool_decide (transcript = []) then PQ_HYBRID_INFO else PQ_HYBRID_INFO ++ transcript in
    hkdfSha256 (ecSecret ++ pqSecret) (ephemeralX25519Pub ++ pqCiphertext) info 32.

Definition importDerivedKey (ecSecret pqSecret ephemeralX25519Pub pqCiphertext transcript : bytes) : C bytes :=
  let* keyBytes := deriveHybridAeadKey ecSecret pqSecret ephemeralX25519Pub pqCiphertext transcript in
  importAesGcmKey keyBytes.

Definition isAllZero (bs : bytes) : bool := foldl (fun acc b => Z.lor acc (b2z b)) 0 bs =? 0.

Definition refuseZero (sharedSecret : bytes) : C () :=
  if isAllZero sharedSecret then throw HybridSealError else ret ().

(** No transcript is the empty one. *)
Definition hybridSealWith (plaintext recipientX25519PublicKey transcript : bytes) (r : HybridSealRandomness) : C HybridSealed :=
  if negb (bool_decide (length (hr_nonce r) = HYBRID_SEAL_NONCE_BYTES)) then throw OtherError
  else
    let* ecSecret := deriveSharedSecret (fst (hr_ephemeral r)) recipientX25519PublicKey in
    let* _ := refuseZero ecSecret in
    let* key := importDerivedKey ecSecret (snd (hr_encapsulation r)) (snd (hr_ephemeral r)) (fst (hr_encapsulation r)) transcript in
    ret {| hs_ephemeralPublicKey := snd (hr_ephemeral r); hs_kemCiphertext := fst (hr_encapsulation r);
           hs_nonce := hr_nonce r; hs_ciphertext := aes_encrypt key (hr_nonce r) [] plaintext |}.

Section provider.
Variable kem : KemProvider.

Definition kem_encapsulate (pk : bytes) : C (bytes * bytes) :=
  let* r := draw_with (fun n => encapsulate kem n pk) in or_throw r OtherError.

Definition hybridSeal (plaintext : bytes) (recipientX25519PublicKeyBase64 : string)
    (recipientPqPublicKey transcript : bytes) : C HybridSealed :=
  if negb (bool_decide (length recipientPqPublicKey = publicKeyLength kem)) then throw OtherError
  else
    let* recipient := importRecipientPublicKey recipientX25519PublicKeyBase64 in
    let* ephemeral := generateEphemeralKeyPair in
    let* encapsulation := kem_encapsulate recipientPqPublicKey in
    let* nonce := randomBytes HYBRID_SEAL_NONCE_BYTES in
    hybridSealWith plaintext recipient transcript
      {| hr_ephemeral := ephemeral; hr_encapsulation := encapsulation; hr_nonce := nonce |}.

Definition hybridOpen (sealed : HybridSealed) (recipientPrivateKey recipientPqSecretKey transcript : bytes) : C bytes :=
  let* ephemeral := importRecipientPublicKey (toBase64 (hs_ephemeralPublicKey sealed)) in
  let* ecSecret := deriveSharedSecret recipientPrivateKey ephemeral in
  let* _ := refuseZero ecSecret in
  let* pqSecret := or_throw (decapsulate kem (hs_kemCiphertext sealed) recipientPqSecretKey) OtherError in
  let* key := importDerivedKey ecSecret pqSecret (hs_ephemeralPublicKey sealed) (hs_kemCiphertext sealed) transcript in
  decrypt key (hs_nonce sealed) [] (hs_ciphertext sealed).
End provider.

(** ** The sealed box of version 1 ([sealedBox.ts]) *)

Definition SEALED_BOX_INFO : bytes := ascii_bytes "blackout-deaddrop-v1".

Record SealedPayload : Type := { sp_ephemeralPubKey : bytes; sp_nonce : bytes; sp_ciphertext : bytes }.

Definition seal (plaintext : bytes) (recipientPublicKeyBase64 : string) : C SealedPayload :=
  let* recipient := importRecipientPublicKey recipientPublicKeyBase64 in
  let* (privateKey, publicKeyBytes) := generateEphemeralKeyPair in
  let* shared := deriveSharedSecret privateKey recipient in
  let* aesKeyBytes := hkdfSha256 shared publicKeyBytes SEALED_BOX_INFO 32 in
  let* aesKey := importAesGcmKey aesKeyBytes in
  let* nonce := randomBytes 12 in
  ret {| sp_ephemeralPubKey := publicKeyBytes; sp_nonce := nonce; sp_ciphertext := aes_encrypt aesKey nonce [] plaintext |}.

Definition open_box (sealed : SealedPayload) (recipientPrivateKey : bytes) : C bytes :=
  let* ephemeralPub := importRecipientPublicKey (toBase64 (sp_ephemeralPubKey sealed)) in
  let* shared := deriveSharedSecret recipientPrivateKey ephemeralPub in
  let* aesKeyBytes := hkdfSha256 shared (sp_ephemeralPubKey sealed) SEALED_BOX_INFO 32 in
  let* aesKey := importAesGcmKey aesKeyBytes in
  decrypt aesKey (sp_nonce sealed) [] (sp_ciphertext sealed).

(** ** Clues ([clue.ts]) *)

Definition CLUE_BYTES : nat := 16.
Definition CLUE_SALT : bytes := ascii_bytes "blackout-deaddrop-clue-v1".

Definition deriveClue (recipientPublicKeyBase64 dropId : string) : C bytes :=
  let* ikm := or_throw (fromBase64 recipientPublicKeyBase64) OtherError in
  if bool_decide (length ikm = 32%nat) then hkdfSha256 ikm CLUE_SALT (utf8Encode dropId) CLUE_BYTES
  else throw OtherError.

(** ** The envelope ([envelope.ts]) *)

Inductive EnvelopeSuite : Type := suite_v1 | suite_v2.

Definition suite_name (s : EnvelopeSuite) : string :=
  match s with
  | suite_v1 => "sealedbox-x25519-aes256gcm-v1"
  | suite_v2 => "sealedbox-x25519-mlkem768-aes256gcm-v2"
  end.

Record DeadDropFields : Type := {
  dd_pad : PaddingStrategy;
  dd_dropId : string;
  dd_clue : string;
  dd_ek : string;
  dd_nonce : string;
  dd_ct : string;
  dd_expiresAt : string;
}.

(** The version and the suite go together; version 2 adds [pqCt]. *)
Inductive AnyDeadDropEnvelope : Type :=
  | DeadDropEnvelopeV1 (fields : DeadDropFields)
  | DeadDropEnvelopeV2 (fields : DeadDropFields) (pqCt : string).

Record EncryptInput : Type := {
  en_plaintext : bytes;
  en_recipientPublicKeyBase64 : string;
  en_paddingStrategy : PaddingStrategy;
  en_expiresAt : string;
  en_dropId : option string;
  en_suite : option EnvelopeSuite;
  en_recipientPqPublicKey : option bytes;
}.

Definition encryptDeadDrop (kem : KemProvider) (i : EncryptInput) : C AnyDeadDropEnvelope :=
  if bool_decide (en_plaintext i = []) then throw OtherError
  else
    let* dropId := match en_dropId i with Some id => ret id | None => randomId 16 end in
    let* padded := pad (en_plaintext i) (en_paddingStrategy i) in
    let* clue := deriveClue (en_recipientPublicKeyBase64 i) dropId in
    match default suite_v1 (en_suite i) with
    | suite_v1 =>
        let* sealed := seal padded (en_recipientPublicKeyBase64 i) in
        ret (DeadDropEnvelopeV1 {| dd_pad := en_paddingStrategy i; dd_dropId := dropId; dd_clue := toBase64 clue;
               dd_ek := toBase64 (sp_ephemeralPubKey sealed); dd_nonce := toBase64 (sp_nonce sealed);
               dd_ct := toBase64 (sp_ciphertext sealed); dd_expiresAt := en_expiresAt i |})
    | suite_v2 =>
        let* pk := or_throw (en_recipientPqPublicKey i) OtherError in
        let* sealed := hybridSeal kem padded (en_recipientPublicKeyBase64 i) pk [] in
        ret (DeadDropEnvelopeV2 {| dd_pad := en_paddingStrategy i; dd_dropId := dropId; dd_clue := toBase64 clue;
               dd_ek := toBase64 (hs_ephemeralPublicKey sealed); dd_nonce := toBase64 (hs_nonce sealed);
               dd_ct := toBase64 (hs_ciphertext sealed); dd_expiresAt := en_expiresAt i |}
               (toBase64 (hs_kemCiphertext sealed)))
    end.

Definition decode (s : string) : C bytes := or_throw (fromBase64 s) OtherError.

Definition decryptDeadDrop (kem : KemProvider) (envelope : AnyDeadDropEnvelope) (recipientPrivateKeyJwk : OkpJwk)
    (recipientPqSecretKey : option bytes) : C bytes :=
  match envelope with
  | DeadDropEnvelopeV1 env =>
      let* privateKey := importRecipientPrivateKey recipientPrivateKeyJwk in
      let* ek := decode (dd_ek env) in
      let* nonce := decode (dd_nonce env) in
      let* ct := decode (dd_ct env) in
      let* padded := open_box {| sp_ephemeralPubKey := ek; sp_nonce := nonce; sp_ciphertext := ct |} privateKey in
      or_throw (unpad padded) OtherError
  | DeadDropEnvelopeV2 env pqCt =>
      let* secretKey := or_throw recipientPqSecretKey OtherError in
      let* privateKey := importRecipientPrivateKey recipientPrivateKeyJwk in
      let* ek := decode (dd_ek env) in
      let* kemCiphertext := decode pqCt in
      let* nonce := decode (dd_nonce env) in
      let* ct := decode (dd_ct env) in
      let* padded := hybridOpen kem {| hs_ephemeralPublicKey := ek; hs_kemCiphertext := kemCiphertext;
                                       hs_nonce := nonce; hs_ciphertext := ct |} privateKey secretKey [] in
      or_throw (unpad padded) OtherError
  end.

(** What the server checks of an envelope as received. *)
Definition V1_ALLOWED_KEYS : list string := ["v"; "suite"; "pad"; "dropId"; "clue"; "ek"; "nonce"; "ct"; "expiresAt"].
Definition V2_ALLOWED_KEYS : list string :=
  ["v"; "suite"; "pad"; "dropId"; "clue"; "ek"; "pqCt"; "nonce"; "ct"; "expiresAt"].

Definition padIsValid (v : js) : bool :=
  match v with JString s => bool_decide (s = "minimal" \/ s = "bucket") | _ => false end.

Definition filled_string (v : js) : bool :=
  match v with JString s => negb (bool_decide (String.length s = 0%nat)) | _ => false end.

Definition is_text (s : string) (v : js) : bool := match v with JString t => bool_decide (t = s) | _ => false end.

Definition opaque_with (allowed : list string) (version : Z) (suite : EnvelopeSuite) (strings : list string) (v : js) : bool :=
  match v with
  | JObject _ ms =>
      forallb (fun k => bool_decide (k ∈ allowed)) (map fst ms) && is_number version (member "v" ms) &&
      is_text (suite_name suite) (member "suite" ms) && padIsValid (member "pad" ms) &&
      forallb (fun k => filled_string (member k ms)) strings
  | _ => false
  end.

Definition isOpaqueEnvelopeV1 (v : js) : bool :=
  opaque_with V1_ALLOWED_KEYS 1 suite_v1 ["dropId"; "clue"; "ek"; "nonce"; "ct"; "expiresAt"] v.
Definition isOpaqueEnvelopeV2 (v : js) : bool :=
  opaque_with V2_ALLOWED_KEYS 2 suite_v2 ["dropId"; "clue"; "ek"; "pqCt"; "nonce"; "ct"; "expiresAt"] v.
Definition isOpaqueEnvelope (v : js) : bool := isOpaqueEnvelopeV1 v || isOpaqueEnvelopeV2 v.

Definition pad_name (p : PaddingStrategy) : string := match p with pad_minimal => "minimal" | pad_bucket => "bucket" end.

(** The envelope as the object it is. *)
Definition envelope_js (e : AnyDeadDropEnvelope) : js :=
  let fields f := [("pad", JString (pad_name (dd_pad f))); ("dropId", JString (dd_dropId f)); ("clue", JString (dd_clue f));
                   ("ek", JString (dd_ek f)); ("nonce", JString (dd_nonce f)); ("ct", JString (dd_ct f));
                   ("expiresAt", JString (dd_expiresAt f))] in
  match e with
  | DeadDropEnvelopeV1 f => JObject true (("v", JNumber (jint 1)) :: ("suite", JString (suite_name suite_v1)) :: fields f)
  | DeadDropEnvelopeV2 f pqCt =>
      JObject true (("v", JNumber (jint 2)) :: ("suite", JString (suite_name suite_v2)) :: ("pqCt", JString pqCt) :: fields f)
  end.

(** ** Decoys ([decoys.ts]) *)

Definition DECOY_SALT : bytes := ascii_bytes "blackout-deaddrop-decoy-v1".

Record DecoyParams : Type := {
  dp_seed : bytes;
  dp_counter : Z;
  dp_bucketBytes : nat;
  dp_paddingStrategy : PaddingStrategy;
  dp_expiresAt : string;
}.

Definition take_at (at_ len : nat) (stream : bytes) : bytes := take len (drop at_ stream).

Definition generateDecoy (p : DecoyParams) : C AnyDeadDropEnvelope :=
  let bucket := dp_bucketBytes p in
  let* stream := hkdfSha256 (dp_seed p) DECOY_SALT (utf8Encode ("decoy:" +:+ pretty (dp_counter p)))
                   (16 + 32 + 12 + bucket + 16 + 16) in
  ret (DeadDropEnvelopeV1 {|
    dd_pad := dp_paddingStrategy p;
    dd_dropId := toHex (take_at (60 + (bucket + 16)) 16 stream);
    dd_clue := toBase64 (take_at 0 16 stream);
    dd_ek := toBase64 (take_at 16 32 stream);
    dd_nonce := toBase64 (take_at 48 12 stream);
    dd_ct := toBase64 (take_at 60 (bucket + 16) stream);
    dd_expiresAt := dp_expiresAt p |}).
End sealing.
