(* ===== verification/Identity.v ===== *)
(** * Release identities: [packages/blackout-protocol/src/release/identity.ts]

    An Ed25519 signing key, an X25519 key and an ML-KEM-768 key bound to one account:
    which encodings are accepted, the bytes that are signed and hashed, and
    [verifyReleaseIdentity]; with the safety code ([safetyCode.ts]) and the rule for
    when a comparison counts ([comparison.ts]). *)

From S2P Require Import Prelude CoalitionDomain Records Store Slug JsMap Bytes Crypto DeadDrop.
Local Open Scope Z_scope.

Definition RELEASE_IDENTITY_VERSION : Z := 1.
Definition RELEASE_IDENTITY_LABEL : string := "blackout-release-identity-v1".

(** [/^[A-Za-z0-9][A-Za-z0-9._-]{0,127}$/] *)
Definition account_char (c : ascii) : bool :=
  is_alnum c || Ascii.eqb c "."%char || Ascii.eqb c "_"%char || Ascii.eqb c "-"%char.
Definition RELEASE_ACCOUNT_ID_PATTERN (s : string) : bool :=
  match chars s with
  | c :: rest => is_alnum c && Nat.leb (length rest) 127 && forallb account_char rest
  | [] => false
  end.

Definition ED25519_PUBLIC_KEY_BYTES : nat := 32.
Definition ED25519_SIGNATURE_BYTES : nat := 64.
Definition X25519_PUBLIC_KEY_BYTES : nat := 32.
Definition MLKEM768_PUBLIC_KEY_BYTES : nat := 1184.
Definition RELEASE_FINGERPRINT_BYTES : nat := 32.

Record ReleaseIdentity : Type := {
  ri_v : Z;
  ri_accountId : string;
  ri_signingKey : string;
  ri_x25519Key : string;
  ri_mlkem768Key : string;
  ri_signature : string;
}.

Inductive ReleaseIdentityProblem : Type :=
  | ip_shape | ip_version | ip_account_id | ip_account_mismatch | ip_signing_key | ip_x25519_key
  | ip_mlkem768_key | ip_signature | ip_unsupported.

Definition IDENTITY_FIELDS : list string := ["v"; "accountId"; "signingKey"; "x25519Key"; "mlkem768Key"; "signature"].

(** An identity as the object that is published. *)
Definition identity_js (i : ReleaseIdentity) : js :=
  JObject true [("v", JNumber (jint (ri_v i))); ("accountId", JString (ri_accountId i));
                ("signingKey", JString (ri_signingKey i)); ("x25519Key", JString (ri_x25519Key i));
                ("mlkem768Key", JString (ri_mlkem768Key i)); ("signature", JString (ri_signature i))].

(** ** Which keys and signatures are accepted *)

Definition byte_at (i : nat) (bs : bytes) : Z := b2z (nth i bs x00).

(** Two 12-bit coefficients in three bytes. *)
Fixpoint coefficients_ok (bs : bytes) : bool :=
  match bs with
  | a :: b :: c :: rest =>
      let low := Z.lor (b2z a) (Z.shiftl (Z.land (b2z b) 15) 8) in
      let high := Z.lor (Z.shiftr (b2z b) 4) (Z.shiftl (b2z c) 4) in
      if (3329 <=? low) || (3329 <=? high) then false else coefficients_ok rest
  | _ => true
  end.

Definition mlKem768EncapsulationKeyIsWellFormed (key : bytes) : bool :=
  bool_decide (length key = MLKEM768_PUBLIC_KEY_BYTES) && coefficients_ok (take 1152 key).

Definition fieldElementIsUnreduced (bs : bytes) : bool :=
  (Z.land (byte_at 31 bs) 127 =? 127) && forallb (fun i => byte_at i bs =? 255) (seq 1 30) && (237 <=? byte_at 0 bs).

Definition x25519KeyIsCanonical (key : bytes) : bool :=
  bool_decide (length key = X25519_PUBLIC_KEY_BYTES) && (Z.land (byte_at 31 key) 128 =? 0) &&
  negb (fieldElementIsUnreduced key).

Definition ED25519_SMALL_ORDER_Y : list string := [
  "0000000000000000000000000000000000000000000000000000000000000000";
  "0100000000000000000000000000000000000000000000000000000000000000";
  "26e8958fc2b227b045c3f489f2ef98f0d5dfac05d3c63339b13802886d53fc05";
  "c7176a703d4dd84fba3c0b760d10670f2a2053fa2c39ccc64ec7fd7792ac037a";
  "ecffffffffffffffffffffffffffffffffffffffffffffffffffffffffffff7f";
  "edffffffffffffffffffffffffffffffffffffffffffffffffffffffffffff7f";
  "eeffffffffffffffffffffffffffffffffffffffffffffffffffffffffffff7f" ].

Definition hex_bytes (s : string) : bytes := default [] (hex_pairs (chars s)).

Definition ed25519PointHasSmallOrder (point : bytes) : bool :=
  bool_decide (length point = ED25519_PUBLIC_KEY_BYTES) &&
  existsb (fun entry => bool_decide (take 31 point = take 31 entry) &&
                        (Z.land (byte_at 31 point) 127 =? byte_at 31 entry))
    (map hex_bytes ED25519_SMALL_ORDER_Y).

Definition ed25519PublicKeyIsAcceptable (key : bytes) : bool :=
  bool_decide (length key = ED25519_PUBLIC_KEY_BYTES) && negb (fieldElementIsUnreduced key) &&
  negb (ed25519PointHasSmallOrder key).

Definition ED25519_GROUP_ORDER_LE : bytes :=
  hex_bytes "edd3f55c1a631258d69cf7a2def9de1400000000000000000000000000000010".

(** The loop from the last byte down, over the pairs of bytes in that order. *)
Fixpoint below_loop (pairs : list (byte * byte)) : bool :=
  match pairs with
  | [] => false
  | (s, l) :: rest => if b2z s <? b2z l then true else if b2z l <? b2z s then false else below_loop rest
  end.
Definition ed25519ScalarIsCanonical (scalar : bytes) : bool :=
  below_loop (rev (zip scalar ED25519_GROUP_ORDER_LE)).

Definition ed25519SignatureIsAcceptable (signature : bytes) : bool :=
  bool_decide (length signature = ED25519_SIGNATURE_BYTES) &&
  negb (ed25519PointHasSmallOrder (take 32 signature)) && ed25519ScalarIsCanonical (drop 32 signature).

Inductive KeyContribution : Type := kc_yes | kc_no | kc_unsupported.

Section identity.
Context `{WebCrypto}.

(** ** The signed bytes and the fingerprint *)

Definition releaseIdentitySignedBytes (accountId : string) (signingKey x25519Key mlkem768Key : bytes) : C bytes :=
  if negb (RELEASE_ACCOUNT_ID_PATTERN accountId) then throw OtherError
  else if negb (bool_decide (length signingKey = ED25519_PUBLIC_KEY_BYTES /\
                             length x25519Key = X25519_PUBLIC_KEY_BYTES /\
                             length mlkem768Key = MLKEM768_PUBLIC_KEY_BYTES)) then throw OtherError
  else
    let* account := or_throw (lengthPrefixed (utf8Encode accountId)) OtherError in
    ret (labelBytes RELEASE_IDENTITY_LABEL ++ account ++ signingKey ++ x25519Key ++ mlkem768Key).

Definition releaseIdentityFingerprint (signedBytes : bytes) : string := toHex (sha256 signedBytes).

(** [formatReleaseFingerprint]: groups of four. *)
Fixpoint groups_of_four (l : list ascii) : list (list ascii) :=
  match l with
  | a :: b :: c :: d :: rest => [a; b; c; d] :: groups_of_four rest
  | [] => []
  | l => [l]
  end.
Fixpoint join_spaces (gs : list (list ascii)) : list ascii :=
  match gs with [] => [] | [g] => g | g :: gs => g ++ " "%char :: join_spaces gs end.
Definition formatReleaseFingerprint (fingerprint : string) : string :=
  of_chars (join_spaces (groups_of_four (chars fingerprint))).

(** ** Verifying an identity *)

Definition x25519KeyContributes (key : bytes) : C KeyContribution :=
  if negb (x25519KeyIsCanonical key) then ret kc_no
  else
    catch
      (let* peer := importRecipientPublicKey (toBase64 key) in
       let* (privateKey, _) := generateEphemeralKeyPair in
       let* shared := deriveSharedSecret privateKey peer in
       ret (if existsb (fun b => negb (b2z b =? 0)) shared then kc_yes else kc_no))
      (fun cause => ret (if isNotSupportedError cause then kc_unsupported else kc_no)).

Definition ReleaseIdentityCheck : Type := res ReleaseIdentityProblem (ReleaseIdentity * string).

Definition refuse (p : ReleaseIdentityProblem) : C ReleaseIdentityCheck := ret (Err p).

(** [decodeCanonicalBase64] of a field, with the test of the key it must pass. *)
Definition checked_key (v : js) (len : nat) (ok : bytes -> bool) : option (string * bytes) :=
  match v with
  | JString s =>
      match decodeCanonicalBase64 s (Some len) with
      | Some key => if ok key then Some (s, key) else None
      | None => None
      end
  | _ => None
  end.

(** Importing the signing key and verifying the signature, in one [try]. *)
Definition self_signature (signingKey signature signedBytes : bytes) : C (res ReleaseIdentityProblem bool) :=
  catch
    (let* _ := lift (import_raw Ed25519 signingKey) in
     let* valid := lift (ed25519_verify signingKey signature signedBytes) in
     ret (Ok valid))
    (fun cause => ret (Err (if isNotSupportedError cause then ip_unsupported else ip_signing_key))).

Definition verifyReleaseIdentity (input : js) (expected : option string) : C ReleaseIdentityCheck :=
  if negb (isPlainObject input) then refuse ip_shape
  else if negb (hasExactly input IDENTITY_FIELDS) then refuse ip_shape
  else if negb (is_number RELEASE_IDENTITY_VERSION (get_field input "v")) then refuse ip_version
  else
    match as_string (get_field input "accountId") with
    | None => refuse ip_account_id
    | Some accountId =>
        if negb (RELEASE_ACCOUNT_ID_PATTERN accountId) then refuse ip_account_id
        else if match expected with Some a => negb (bool_decide (accountId = a)) | None => false end
        then refuse ip_account_mismatch
        else
          match checked_key (get_field input "signingKey") ED25519_PUBLIC_KEY_BYTES ed25519PublicKeyIsAcceptable with
          | None => refuse ip_signing_key
          | Some (sk_text, signingKey) =>
          match checked_key (get_field input "x25519Key") X25519_PUBLIC_KEY_BYTES x25519KeyIsCanonical with
          | None => refuse ip_x25519_key
          | Some (xk_text, x25519Key) =>
          match checked_key (get_field input "mlkem768Key") MLKEM768_PUBLIC_KEY_BYTES mlKem768EncapsulationKeyIsWellFormed with
          | None => refuse ip_mlkem768_key
          | Some (mk_text, mlkem768Key) =>
          match checked_key (get_field input "signature") ED25519_SIGNATURE_BYTES ed25519SignatureIsAcceptable with
          | None => refuse ip_signature
          | Some (sig_text, signature) =>
              let* contribution := x25519KeyContributes x25519Key in
              match contribution with
              | kc_unsupported => refuse ip_unsupported
              | kc_no => refuse ip_x25519_key
              | kc_yes =>
                  let* signedBytes := releaseIdentitySignedBytes accountId signingKey x25519Key mlkem768Key in
                  let* valid := self_signature signingKey signature signedBytes in
                  match valid with
                  | Err p => refuse p
                  | Ok false => refuse ip_signature
                  | Ok true =>
                      ret (Ok ({| ri_v := RELEASE_IDENTITY_VERSION; ri_accountId := accountId;
                                  ri_signingKey := sk_text; ri_x25519Key := xk_text;
                                  ri_mlkem768Key := mk_text; ri_signature := sig_text |},
                               releaseIdentityFingerprint signedBytes))
                  end
              end
          end end end end
    end.

(** Sign an identity's fields with its own private key. *)
Definition signReleaseIdentity (accountId signingKey x25519Key mlkem768Key : string) (signingPrivateKey : bytes) : C ReleaseIdentity :=
  let* sk := or_throw (decodeCanonicalBase64 signingKey (Some ED25519_PUBLIC_KEY_BYTES)) OtherError in
  let* xk := or_throw (decodeCanonicalBase64 x25519Key (Some X25519_PUBLIC_KEY_BYTES)) OtherError in
  let* mk := or_throw (decodeCanonicalBase64 mlkem768Key (Some MLKEM768_PUBLIC_KEY_BYTES)) OtherError in
  let* signedBytes := releaseIdentitySignedBytes accountId sk xk mk in
  ret {| ri_v := RELEASE_IDENTITY_VERSION; ri_accountId := accountId; ri_signingKey := signingKey;
         ri_x25519Key := x25519Key; ri_mlkem768Key := mlkem768Key;
         ri_signature := toBase64 (ed25519_sign signingPrivateKey signedBytes) |}.

(** ** The safety code *)

Definition SAFETY_CODE_LABEL : string := "blackout-release-safety-code-v1".
Definition SAFETY_CODE_HALF_DIGITS : nat := 30.
Definition SAFETY_CODE_DIGITS : nat := 60.
Definition SAFETY_CODE_GROUP_DIGITS : nat := 5.

(** [String(value).padStart(5, '0')] of a number below 100000. *)
Definition digit_char (n : Z) : ascii := ascii_of_nat (48 + Z.to_nat n).
Definition five_digits (n : Z) : list ascii :=
  map (fun k => digit_char (n / k mod 10)) [10000; 1000; 100; 10; 1].

Definition code_chunk (digest : bytes) (chunk : nat) : Z :=
  let at_ i := byte_at (chunk * 5 + i) digest in
  at_ 0%nat * 2 ^ 32 + at_ 1%nat * 2 ^ 24 + at_ 2%nat * 2 ^ 16 + at_ 3%nat * 2 ^ 8 + at_ 4%nat.

Definition safetyCodeHalf (fingerprint : string) : C string :=
  let* fp := or_throw (fromHex fingerprint RELEASE_FINGERPRINT_BYTES) OtherError in
  let digest := sha512 (labelBytes SAFETY_CODE_LABEL ++ fp) in
  ret (of_chars (flat_map (fun chunk => five_digits (code_chunk digest chunk mod 100000))
                   (seq 0 (SAFETY_CODE_HALF_DIGITS / SAFETY_CODE_GROUP_DIGITS)))).

(** [a <= b] on strings: by code units. *)
Fixpoint text_le (a b : list ascii) : bool :=
  match a, b with
  | [], _ => true
  | _ :: _, [] => false
  | x :: a, y :: b =>
      if Nat.ltb (nat_of_ascii x) (nat_of_ascii y) then true
      else if Nat.ltb (nat_of_ascii y) (nat_of_ascii x) then false else text_le a b
  end.

Definition computeSafetyCode (fingerprintA fingerprintB : string) : C string :=
  let* _ := or_throw (fromHex fingerprintA RELEASE_FINGERPRINT_BYTES) OtherError in
  let* _ := or_throw (fromHex fingerprintB RELEASE_FINGERPRINT_BYTES) OtherError in
  if bool_decide (fingerprintA = fingerprintB) then throw OtherError
  else
    let* halfA := safetyCodeHalf fingerprintA in
    let* halfB := safetyCodeHalf fingerprintB in
    ret (if text_le (chars halfA) (chars halfB) then halfA +:+ halfB else halfB +:+ halfA).

Fixpoint groups_of_five (l : list ascii) : list string :=
  match l with
  | a :: b :: c :: d :: e :: rest => of_chars [a; b; c; d; e] :: groups_of_five rest
  | _ => []
  end.
Definition formatSafetyCode (code : string) : option (list string) :=
  if bool_decide (String.length code = SAFETY_CODE_DIGITS) && forallb (in_range 48 57) (chars code)
  then Some (groups_of_five (chars code)) else None.

(** ** When a comparison counts *)

Record ReleaseComparison : Type := {
  rc_accountId : string;
  rc_matrixId : option string;
  rc_fingerprint : string;
  rc_ownFingerprint : string;
  rc_comparedAt : string;
}.

Inductive ReleaseComparisonState : Type := cs_current | cs_other_key | cs_stale | cs_none.

Record ReleaseComparisonStateInput : Type := {
  ci_comparison : option ReleaseComparison;
  ci_currentFingerprint : option string;
  ci_supersededFingerprints : list string;
  ci_seenSinceComparison : list string;
  ci_ownFingerprint : option string;
  (** [None] is the [null] of sealing *)
  ci_signerFingerprint : option string;
}.

Definition releaseComparisonState (i : ReleaseComparisonStateInput) : ReleaseComparisonState :=
  match ci_comparison i with
  | None => cs_none
  | Some comparison =>
      let fp := rc_fingerprint comparison in
      if match ci_signerFingerprint i with Some s => negb (bool_decide (s = fp)) | None => false end then cs_other_key
      else if match ci_ownFingerprint i with Some o => negb (bool_decide (o = rc_ownFingerprint comparison)) | None => false end
      then cs_stale
      else if negb (bool_decide (ci_currentFingerprint i = Some fp)) then cs_stale
      else if bool_decide (fp ∈ ci_supersededFingerprints i) then cs_stale
      else if existsb (fun seen => negb (bool_decide (seen = fp))) (ci_seenSinceComparison i) then cs_stale
      else cs_current
  end.

Definition RELEASE_IDENTITY_STORAGE_LIMIT : nat := 1000.

(** The fingerprints of the identities in a list that pass their check. *)
Fixpoint checked_fingerprints (accountId : string) (identities : list js) : C (list string) :=
  match identities with
  | [] => ret []
  | i :: rest =>
      let* check := verifyReleaseIdentity i (Some accountId) in
      let* more := checked_fingerprints accountId rest in
      ret (match check with Ok (_, fp) => fp :: more | Err _ => more end)
  end.

Definition releaseDirectoryFingerprints (entry : js) (accountId : string) : C (option string * list string) :=
  let nothing := ret (None, []) in
  if negb (isRecord entry && is_text accountId (get_field entry "accountId")) then nothing
  else
    match get_field entry "superseded" with
    | JArray replaced =>
        let current := get_field entry "current" in
        let hasCurrent := match current with JNull | JUndefined => false | _ => true end in
        if Nat.ltb RELEASE_IDENTITY_STORAGE_LIMIT (length replaced + (if hasCurrent then 1 else 0)) then nothing
        else
          let* current := (if isRecord current
                           then let* check := verifyReleaseIdentity (get_field current "identity") (Some accountId) in
                                ret (match check with Ok (_, fp) => Some fp | Err _ => None end)
                           else ret None) in
          let* superseded := checked_fingerprints accountId (map (fun listed => get_field listed "identity") replaced) in
          ret (current, superseded)
    | _ => nothing
    end.
End identity.

(** ** Release key sets: [packages/blackout-protocol/src/release/keySet.ts]

    A public identity with the private halves that go with it: making one, and
    checking one before it is used.  A stored key set is a value of any shape until
    [checkReleaseKeySet] has looked at it. *)


Definition MLKEM768_SECRET_KEY_BYTES : nat := 2400.
Definition MLKEM768_CIPHERTEXT_BYTES : nat := 1088.
Definition MLKEM768_SHARED_SECRET_BYTES : nat := 32.
Definition MLKEM768_SECRET_KEY_EK_OFFSET : nat := 1152.
Definition RELEASE_KEY_CHECK_LABEL : string := "blackout-release-key-check-v1".

Record ReleaseKeySet : Type := {
  ks_identity : ReleaseIdentity;
  ks_fingerprint : string;
  ks_signingPrivateJwk : OkpJwk;
  ks_x25519PrivateJwk : OkpJwk;
  ks_mlkem768SecretKey : string;
  ks_createdAt : string;
}.

Inductive ReleaseKeySetProblem : Type :=
  | kp_shape | kp_identity | kp_fingerprint | kp_signing_private_key | kp_x25519_private_key
  | kp_mlkem768_secret_key | kp_kem_provider.

Definition jwk_js (j : OkpJwk) : js :=
  JObject true [("kty", JString (jwk_kty j)); ("crv", JString (jwk_crv j)); ("d", JString (jwk_d j)); ("x", JString (jwk_x j))].

Definition keyset_js (k : ReleaseKeySet) : js :=
  JObject true [("identity", identity_js (ks_identity k)); ("fingerprint", JString (ks_fingerprint k));
                ("signingPrivateJwk", jwk_js (ks_signingPrivateJwk k)); ("x25519PrivateJwk", jwk_js (ks_x25519PrivateJwk k));
                ("mlkem768SecretKey", JString (ks_mlkem768SecretKey k)); ("createdAt", JString (ks_createdAt k))].

(** [okpJwk]: the four members of a JWK of that curve, with keys of 32 bytes. *)
Definition okpJwk (jwk : js) (crv : OkpCurve) : option OkpJwk :=
  if negb (is_text "OKP" (get_field jwk "kty") && is_text (crv_name crv) (get_field jwk "crv")) then None
  else
    match get_field jwk "d", get_field jwk "x" with
    | JString d, JString x =>
        if bool_decide (decodeBase64Url d 32 = None) || bool_decide (decodeBase64Url x 32 = None) then None
        else Some {| jwk_kty := "OKP"; jwk_crv := crv_name crv; jwk_d := d; jwk_x := x |}
    | _, _ => None
    end.

Section keyset.
Context `{WebCrypto} `{Dates}.
Variable kem : KemProvider.

(** [assertMlKem768] of this file; the one of [envelope.ts] tests all lengths but the last. *)
Definition provider_is_mlkem768 : bool :=
  bool_decide (publicKeyLength kem = MLKEM768_PUBLIC_KEY_BYTES) &&
  bool_decide (secretKeyLength kem = MLKEM768_SECRET_KEY_BYTES) &&
  bool_decide (ciphertextLength kem = MLKEM768_CIPHERTEXT_BYTES) &&
  bool_decide (sharedSecretLength kem = MLKEM768_SHARED_SECRET_BYTES).

Definition importReleaseSigningKey (jwk : OkpJwk) : C bytes := lift (import_jwk Ed25519 (jwk_d jwk) (jwk_x jwk)).
Definition importReleaseX25519Key (jwk : OkpJwk) : C bytes := importRecipientPrivateKey jwk.

Definition signingKeyMatches (jwk : OkpJwk) (publicKey : bytes) : C bool :=
  if negb (bool_decide (jwk_x jwk = toBase64Url publicKey)) then ret false
  else
    catch
      (let* privateKey := importReleaseSigningKey jwk in
       let* nonce := randomBytes 32 in
       let message := labelBytes RELEASE_KEY_CHECK_LABEL ++ nonce in
       let* _ := lift (import_raw Ed25519 publicKey) in
       lift (ed25519_verify publicKey (ed25519_sign privateKey message) message))
      (fun _ => ret false).

Definition x25519KeyMatches (jwk : OkpJwk) (publicKey : bytes) : C bool :=
  if negb (bool_decide (jwk_x jwk = toBase64Url publicKey)) then ret false
  else
    catch
      (let* privateKey := importReleaseX25519Key jwk in
       let* identityKey := importRecipientPublicKey (toBase64 publicKey) in
       let* (freshPrivate, freshBytes) := generateEphemeralKeyPair in
       let* freshPublic := importRecipientPublicKey (toBase64 freshBytes) in
       let* one := deriveSharedSecret privateKey freshPublic in
       let* other := deriveSharedSecret freshPrivate identityKey in
       ret (bytesEqual one other && existsb (fun b => negb (b2z b =? 0)%Z) one))
      (fun _ => ret false).

Inductive MlKemMatch : Type := mm_yes | mm_no | mm_provider.

Definition mlKemKeyMatches (secretKey publicKey : bytes) : C MlKemMatch :=
  let embedded := take_at MLKEM768_SECRET_KEY_EK_OFFSET MLKEM768_PUBLIC_KEY_BYTES secretKey in
  if negb (bytesEqual embedded publicKey) then ret mm_no
  else
    let* encapsulation := draw_with (fun n => encapsulate kem n publicKey) in
    match encapsulation with
    | None => ret mm_provider
    | Some (ciphertext, sharedSecret) =>
        match decapsulate kem ciphertext secretKey with
        | Some opened => ret (if bytesEqual opened sharedSecret then mm_yes else mm_no)
        | None => ret mm_no
        end
    end.

(** [None] when the key set is sound. *)
Definition checkReleaseKeySet (keySet : js) (accountId : option string) : C (option ReleaseKeySetProblem) :=
  match keySet with
  | JObject _ _ | JArray _ =>
      match as_string (get_field keySet "fingerprint"), as_string (get_field keySet "mlkem768SecretKey"),
            as_string (get_field keySet "createdAt"),
            okpJwk (get_field keySet "signingPrivateJwk") Ed25519, okpJwk (get_field keySet "x25519PrivateJwk") X25519 with
      | Some fingerprint, Some secretText, Some createdAt, Some signingJwk, Some x25519Jwk =>
          if bool_decide (date_parse createdAt = None) then ret (Some kp_shape)
          else
            let* check := verifyReleaseIdentity (get_field keySet "identity") accountId in
            match check with
            | Err _ => ret (Some kp_identity)
            | Ok (identity, fp) =>
                if negb (bool_decide (fp = fingerprint)) then ret (Some kp_fingerprint)
                else
                  match decodeCanonicalBase64 (ri_signingKey identity) (Some ED25519_PUBLIC_KEY_BYTES),
                        decodeCanonicalBase64 (ri_x25519Key identity) (Some X25519_PUBLIC_KEY_BYTES),
                        decodeCanonicalBase64 (ri_mlkem768Key identity) (Some MLKEM768_PUBLIC_KEY_BYTES) with
                  | Some signingKey, Some x25519Key, Some mlkem768Key =>
                      match decodeCanonicalBase64 secretText (Some MLKEM768_SECRET_KEY_BYTES) with
                      | None => ret (Some kp_mlkem768_secret_key)
                      | Some secretKey =>
                          let* signs := signingKeyMatches signingJwk signingKey in
                          if negb signs then ret (Some kp_signing_private_key)
                          else
                            let* agrees := x25519KeyMatches x25519Jwk x25519Key in
                            if negb agrees then ret (Some kp_x25519_private_key)
                            else if negb provider_is_mlkem768 then ret (Some kp_kem_provider)
                            else
                              let* mlKem := mlKemKeyMatches secretKey mlkem768Key in
                              ret (match mlKem with
                                   | mm_yes => None
                                   | mm_provider => Some kp_kem_provider
                                   | mm_no => Some kp_mlkem768_secret_key
                                   end)
                      end
                  | _, _, _ => ret (Some kp_identity)
                  end
            end
      | _, _, _, _, _ => ret (Some kp_shape)
      end
  | _ => ret (Some kp_shape)
  end.

(** A new key set: three pairs, a signed identity, and the check anyone would make. *)
Definition createReleaseKeySet (accountId : string) (now : Z) : C ReleaseKeySet :=
  if negb (RELEASE_ACCOUNT_ID_PATTERN accountId) then throw OtherError
  else if negb provider_is_mlkem768 then throw OtherError
  else
    let* signing := draw_with (generate_okp Ed25519) in
    let* signingPrivate := lift signing in
    let signingPublic := okp_public Ed25519 signingPrivate in
    let signingJwk := okpJwk (jwk_js (export_jwk Ed25519 signingPrivate)) Ed25519 in
    let* (x25519Public, x25519Exported) := generateRecipientKeyPair in
    let x25519Jwk := okpJwk (jwk_js x25519Exported) X25519 in
    let* generated := draw_with (generateKeyPair kem) in
    let* (pqPublic, pqSecret) := or_throw generated OtherError in
    match signingJwk, x25519Jwk with
    | Some signingJwk, Some x25519Jwk =>
        if negb (bool_decide (length signingPublic = ED25519_PUBLIC_KEY_BYTES /\
                              length pqPublic = MLKEM768_PUBLIC_KEY_BYTES /\
                              length pqSecret = MLKEM768_SECRET_KEY_BYTES)) then throw OtherError
        else
          let* identity := signReleaseIdentity accountId (toBase64 signingPublic) x25519Public (toBase64 pqPublic) signingPrivate in
          let* check := verifyReleaseIdentity (identity_js identity) (Some accountId) in
          match check with
          | Err _ => throw OtherError
          | Ok (_, fingerprint) =>
              let keySet := {| ks_identity := identity; ks_fingerprint := fingerprint;
                               ks_signingPrivateJwk := signingJwk; ks_x25519PrivateJwk := x25519Jwk;
                               ks_mlkem768SecretKey := toBase64 pqSecret; ks_createdAt := toISOString now |} in
              let* problem := checkReleaseKeySet (keyset_js keySet) (Some accountId) in
              match problem with Some _ => throw OtherError | None => ret keySet end
          end
    | _, _ => throw OtherError
    end.
End keyset.
