(* ===== verification/Envelope.v ===== *)
(** * The dead-man release envelope: [packages/blackout-protocol/src/release/envelope.ts]

    A message encrypted once under a fresh key, the key sealed to each recipient's
    identity and to the owner's own, and each sealed copy signed: what is accepted
    off the wire, the bytes that are signed, building, opening and sealing again. *)

From S2P Require Import Prelude JsMap CoalitionDomain Records Store Slug Bytes Crypto DeadDrop Identity.
Local Open Scope Z_scope.

Definition RELEASE_ENVELOPE_VERSION : Z := 1.
Definition RELEASE_SEAL_LABEL : string := "blackout-release-seal-v1".
Definition RELEASE_SEAL_SIGNATURE_LABEL : string := "blackout-release-seal-signature-v1".
Definition RELEASE_KEY_COMMITMENT_LABEL : string := "blackout-release-key-commitment-v1".
Definition RELEASE_CONTENT_LABEL : string := "blackout-release-content-v1".

(** [/^[0-9a-f]{8}-[0-9a-f]{4}-4[0-9a-f]{3}-[89ab][0-9a-f]{3}-[0-9a-f]{12}$/], a test
    for each character. *)
Definition is_hex (c : ascii) : bool := in_range 48 57 c || in_range 97 102 c.
Definition is_char (x c : ascii) : bool := Ascii.eqb x c.
Definition release_id_shape : list (ascii -> bool) :=
  replicate 8 is_hex ++ [is_char "-"%char] ++ replicate 4 is_hex ++ [is_char "-"%char; is_char "4"%char] ++
  replicate 3 is_hex ++ [is_char "-"%char; fun c => existsb (Ascii.eqb c) (chars "89ab")] ++ replicate 3 is_hex ++
  [is_char "-"%char] ++ replicate 12 is_hex.

Fixpoint fits (tests : list (ascii -> bool)) (l : list ascii) : bool :=
  match tests, l with
  | [], [] => true
  | t :: tests, c :: l => t c && fits tests l
  | _, _ => false
  end.

Definition RELEASE_ID_PATTERN (s : string) : bool := fits release_id_shape (chars s).

Definition RELEASE_MESSAGE_MAX_BYTES : Z := 64 * 1024.
Definition RELEASE_PADDED_SIZES : list Z := [1024; 16 * 1024; 256 * 1024].
Definition RELEASE_CONTENT_KEY_BYTES : nat := 32.
Definition RELEASE_NONCE_BYTES : nat := 12.
Definition RELEASE_KEY_COMMITMENT_BYTES : nat := 32.
Definition GCM_TAG_BYTES : nat := 16.
Definition WRAPPED_KEY_BYTES : nat := RELEASE_CONTENT_KEY_BYTES + GCM_TAG_BYTES.
Definition RELEASE_SEALED_KEY_BYTES : nat :=
  X25519_PUBLIC_KEY_BYTES + MLKEM768_CIPHERTEXT_BYTES + RELEASE_NONCE_BYTES + WRAPPED_KEY_BYTES.
Definition RELEASE_MAX_RECIPIENTS : nat := 64.
Definition RELEASE_MAX_COPIES : nat := RELEASE_MAX_RECIPIENTS + 1.
Definition MAX_CIPHERTEXT_BYTES : Z := 256 * 1024 + 16.
Definition MAX_CIPHERTEXT_BASE64 : Z := (MAX_CIPHERTEXT_BYTES + 2) / 3 * 4.

(** The version of a header is 1. *)
Record ReleaseHeader : Type := {
  rh_releaseId : string;
  rh_ownerAccountId : string;
  rh_ownerFingerprint : string;
  rh_contentNonce : string;
  rh_contentCiphertext : string;
  rh_keyCommitment : string;
}.

Record ReleaseCopy : Type := {
  cp_recipientAccountId : string;
  cp_recipientFingerprint : string;
  cp_sealedKey : string;
  cp_signature : string;
}.

Record ReleaseEnvelope : Type := { en_header : ReleaseHeader; en_copies : list ReleaseCopy }.

Inductive ReleaseEnvelopeProblem : Type :=
  | ep_shape | ep_version | ep_release_id | ep_account_id | ep_fingerprint | ep_content_nonce
  | ep_content_ciphertext | ep_key_commitment | ep_copies | ep_owner_copy | ep_duplicate_recipient
  | ep_sealed_key | ep_signature.

Definition ReleaseParse (T : Type) : Type := res ReleaseEnvelopeProblem T.

Definition HEADER_FIELDS : list string :=
  ["v"; "releaseId"; "ownerAccountId"; "ownerFingerprint"; "contentNonce"; "contentCiphertext"; "keyCommitment"].
Definition COPY_FIELDS : list string := ["recipientAccountId"; "recipientFingerprint"; "sealedKey"; "signature"].
Definition ENVELOPE_FIELDS : list string := HEADER_FIELDS ++ ["copies"].

(** ** As objects *)

Definition header_members (h : ReleaseHeader) : list (string * js) :=
  [("v", JNumber (jint RELEASE_ENVELOPE_VERSION)); ("releaseId", JString (rh_releaseId h));
   ("ownerAccountId", JString (rh_ownerAccountId h)); ("ownerFingerprint", JString (rh_ownerFingerprint h));
   ("contentNonce", JString (rh_contentNonce h)); ("contentCiphertext", JString (rh_contentCiphertext h));
   ("keyCommitment", JString (rh_keyCommitment h))].
Definition header_js (h : ReleaseHeader) : js := JObject true (header_members h).

Definition copy_js (c : ReleaseCopy) : js :=
  JObject true [("recipientAccountId", JString (cp_recipientAccountId c));
                ("recipientFingerprint", JString (cp_recipientFingerprint c));
                ("sealedKey", JString (cp_sealedKey c)); ("signature", JString (cp_signature c))].

Definition envelope_members (e : ReleaseEnvelope) : list (string * js) :=
  header_members (en_header e) ++ [("copies", JArray (map copy_js (en_copies e)))].
Definition release_js (e : ReleaseEnvelope) : js := JObject true (envelope_members e).

(** ** What is accepted off the wire *)

Definition text_passing (ok : string -> bool) (v : js) : option string :=
  match v with JString s => if ok s then Some s else None | _ => None end.

Definition isAccountId : js -> option string := text_passing RELEASE_ACCOUNT_ID_PATTERN.
Definition isFingerprint : js -> option string :=
  text_passing (fun s => bool_decide (fromHex s RELEASE_FINGERPRINT_BYTES <> None)).
Definition canonical_field (len : nat) : js -> option string :=
  text_passing (fun s => bool_decide (decodeCanonicalBase64 s (Some len) <> None)).

Definition releaseContentCiphertextIsPadded (len : Z) : bool :=
  existsb (fun size => size + Z.of_nat GCM_TAG_BYTES =? len) RELEASE_PADDED_SIZES.

Definition ciphertext_ok (s : string) : bool :=
  if MAX_CIPHERTEXT_BASE64 <? Z.of_nat (String.length s) then false
  else
    match decodeCanonicalBase64 s None with
    | Some ciphertext => releaseContentCiphertextIsPadded (Z.of_nat (length ciphertext))
    | None => false
    end.

Definition parseReleaseHeader (input : js) : ReleaseParse ReleaseHeader :=
  if negb (isPlainObject input && hasExactly input HEADER_FIELDS) then Err ep_shape
  else if negb (is_number RELEASE_ENVELOPE_VERSION (get_field input "v")) then Err ep_version
  else
    match text_passing RELEASE_ID_PATTERN (get_field input "releaseId") with
    | None => Err ep_release_id
    | Some releaseId =>
    match isAccountId (get_field input "ownerAccountId") with
    | None => Err ep_account_id
    | Some ownerAccountId =>
    match isFingerprint (get_field input "ownerFingerprint") with
    | None => Err ep_fingerprint
    | Some ownerFingerprint =>
    match canonical_field RELEASE_NONCE_BYTES (get_field input "contentNonce") with
    | None => Err ep_content_nonce
    | Some contentNonce =>
    match text_passing ciphertext_ok (get_field input "contentCiphertext") with
    | None => Err ep_content_ciphertext
    | Some contentCiphertext =>
    match canonical_field RELEASE_KEY_COMMITMENT_BYTES (get_field input "keyCommitment") with
    | None => Err ep_key_commitment
    | Some keyCommitment =>
        Ok {| rh_releaseId := releaseId; rh_ownerAccountId := ownerAccountId; rh_ownerFingerprint := ownerFingerprint;
              rh_contentNonce := contentNonce; rh_contentCiphertext := contentCiphertext; rh_keyCommitment := keyCommitment |}
    end end end end end end.

Definition sealed_key_ok (s : string) : bool :=
  match decodeCanonicalBase64 s (Some RELEASE_SEALED_KEY_BYTES) with
  | Some sealedKey => x25519KeyIsCanonical (take X25519_PUBLIC_KEY_BYTES sealedKey)
  | None => false
  end.

Definition signature_ok (s : string) : bool :=
  match decodeCanonicalBase64 s (Some ED25519_SIGNATURE_BYTES) with
  | Some signature => ed25519SignatureIsAcceptable signature
  | None => false
  end.

Definition parseReleaseCopy (input : js) : ReleaseParse ReleaseCopy :=
  if negb (isPlainObject input && hasExactly input COPY_FIELDS) then Err ep_shape
  else
    match isAccountId (get_field input "recipientAccountId") with
    | None => Err ep_account_id
    | Some recipientAccountId =>
    match isFingerprint (get_field input "recipientFingerprint") with
    | None => Err ep_fingerprint
    | Some recipientFingerprint =>
    match text_passing sealed_key_ok (get_field input "sealedKey") with
    | None => Err ep_sealed_key
    | Some sealedKey =>
    match text_passing signature_ok (get_field input "signature") with
    | None => Err ep_signature
    | Some signature =>
        Ok {| cp_recipientAccountId := recipientAccountId; cp_recipientFingerprint := recipientFingerprint;
              cp_sealedKey := sealedKey; cp_signature := signature |}
    end end end end.

(** The loop over the copies, with the accounts seen so far and the owner's copies. *)
Fixpoint parse_copies (h : ReleaseHeader) (entries : list js) (seen : list string) (ownerCopies : nat) :
    ReleaseParse (list ReleaseCopy * nat) :=
  match entries with
  | [] => Ok ([], ownerCopies)
  | entry :: rest =>
      match parseReleaseCopy entry with
      | Err p => Err p
      | Ok copy =>
          let account := cp_recipientAccountId copy in
          let owners := bool_decide (account = rh_ownerAccountId h) in
          if bool_decide (account ∈ seen) then Err ep_duplicate_recipient
          else if owners && negb (bool_decide (cp_recipientFingerprint copy = rh_ownerFingerprint h)) then Err ep_owner_copy
          else
            match parse_copies h rest (account :: seen) (if owners then S ownerCopies else ownerCopies) with
            | Err p => Err p
            | Ok (copies, n) => Ok (copy :: copies, n)
            end
      end
  end.

Definition parseReleaseEnvelope (input : js) : ReleaseParse ReleaseEnvelope :=
  if negb (isPlainObject input && hasExactly input ENVELOPE_FIELDS) then Err ep_shape
  else
    match parseReleaseHeader (JObject true (map (fun f => (f, get_field input f)) HEADER_FIELDS)) with
    | Err p => Err p
    | Ok header =>
        match get_field input "copies" with
        | JArray entries =>
            if Nat.ltb (length entries) 2 || Nat.ltb RELEASE_MAX_COPIES (length entries) then Err ep_copies
            else
              match parse_copies header entries [] 0 with
              | Err p => Err p
              | Ok (copies, ownerCopies) =>
                  if bool_decide (ownerCopies = 1%nat) then Ok {| en_header := header; en_copies := copies |} else Err ep_owner_copy
              end
        | _ => Err ep_copies
        end
    end.

(** ** Byte strings that are signed, hashed or authenticated *)

Record ReleaseCopyContext : Type := {
  cx_releaseId : string;
  cx_ownerAccountId : string;
  cx_ownerFingerprint : string;
  cx_recipientAccountId : string;
  cx_recipientFingerprint : string;
}.

Definition contextFor (h : ReleaseHeader) (recipientAccountId recipientFingerprint : string) : ReleaseCopyContext :=
  {| cx_releaseId := rh_releaseId h; cx_ownerAccountId := rh_ownerAccountId h; cx_ownerFingerprint := rh_ownerFingerprint h;
     cx_recipientAccountId := recipientAccountId; cx_recipientFingerprint := recipientFingerprint |}.

(** A sealed copy's 1180 bytes and its four parts. *)
Definition encodeSealedKey (sealed : HybridSealed) : C bytes :=
  if bool_decide (length (hs_ephemeralPublicKey sealed) = X25519_PUBLIC_KEY_BYTES /\
                  length (hs_kemCiphertext sealed) = MLKEM768_CIPHERTEXT_BYTES /\
                  length (hs_nonce sealed) = RELEASE_NONCE_BYTES /\
                  length (hs_ciphertext sealed) = WRAPPED_KEY_BYTES)
  then ret (hs_ephemeralPublicKey sealed ++ hs_kemCiphertext sealed ++ hs_nonce sealed ++ hs_ciphertext sealed)
  else throw OtherError.

Definition decodeSealedKey (bs : bytes) : C HybridSealed :=
  if bool_decide (length bs = RELEASE_SEALED_KEY_BYTES) then
    ret {| hs_ephemeralPublicKey := take_at 0 X25519_PUBLIC_KEY_BYTES bs;
           hs_kemCiphertext := take_at X25519_PUBLIC_KEY_BYTES MLKEM768_CIPHERTEXT_BYTES bs;
           hs_nonce := take_at (X25519_PUBLIC_KEY_BYTES + MLKEM768_CIPHERTEXT_BYTES) RELEASE_NONCE_BYTES bs;
           hs_ciphertext := take_at (X25519_PUBLIC_KEY_BYTES + MLKEM768_CIPHERTEXT_BYTES + RELEASE_NONCE_BYTES) WRAPPED_KEY_BYTES bs |}
  else throw OtherError.

Section envelope.
Context `{WebCrypto} `{Dates}.

Definition asciiField (value : string) (pattern : string -> bool) : C bytes :=
  if pattern value then or_throw (lengthPrefixed (utf8Encode value)) OtherError else throw OtherError.
Definition fingerprintField (value : string) : C bytes := or_throw (fromHex value RELEASE_FINGERPRINT_BYTES) OtherError.

Definition contextBytes (c : ReleaseCopyContext) : C bytes :=
  let* releaseId := asciiField (cx_releaseId c) RELEASE_ID_PATTERN in
  let* owner := asciiField (cx_ownerAccountId c) RELEASE_ACCOUNT_ID_PATTERN in
  let* ownerFingerprint := fingerprintField (cx_ownerFingerprint c) in
  let* recipient := asciiField (cx_recipientAccountId c) RELEASE_ACCOUNT_ID_PATTERN in
  let* recipientFingerprint := fingerprintField (cx_recipientFingerprint c) in
  ret (releaseId ++ owner ++ ownerFingerprint ++ recipient ++ recipientFingerprint).

Definition releaseSealTranscript (c : ReleaseCopyContext) : C bytes :=
  let* context := contextBytes c in ret (labelBytes RELEASE_SEAL_LABEL ++ context).

Definition releaseCopySignedBytes (c : ReleaseCopyContext) (contentHash keyCommitment sealedKey : bytes) : C bytes :=
  if negb (bool_decide (length contentHash = 32%nat /\ length keyCommitment = RELEASE_KEY_COMMITMENT_BYTES /\
                        length sealedKey = RELEASE_SEALED_KEY_BYTES)) then throw OtherError
  else
    let* context := contextBytes c in
    ret (labelBytes RELEASE_SEAL_SIGNATURE_LABEL ++ context ++ contentHash ++ keyCommitment ++ sealedKey).

Definition releaseContentAssociatedData (releaseId ownerAccountId : string) : C bytes :=
  let* id := asciiField releaseId RELEASE_ID_PATTERN in
  let* owner := asciiField ownerAccountId RELEASE_ACCOUNT_ID_PATTERN in
  ret (labelBytes RELEASE_CONTENT_LABEL ++ id ++ owner).

Definition releaseKeyCommitment (contentKey : bytes) : C bytes :=
  if bool_decide (length contentKey = RELEASE_CONTENT_KEY_BYTES) then
    ret (sha256 (labelBytes RELEASE_KEY_COMMITMENT_LABEL ++ contentKey))
  else throw OtherError.

Definition releaseContentHash (nonce ciphertext : bytes) : bytes := sha256 (nonce ++ ciphertext).

(** A version 4 UUID from 16 random bytes. *)
Definition set_byte (i : nat) (f : Z -> Z) (bs : bytes) : bytes :=
  take i bs ++ match drop i bs with b :: rest => z2b (f (b2z b)) :: rest | [] => [] end.
Definition newReleaseId : C string :=
  let* drawn := randomBytes 16 in
  let bs := set_byte 8 (fun b => Z.lor (Z.land b 63) 128) (set_byte 6 (fun b => Z.lor (Z.land b 15) 64) drawn) in
  let hex := chars (toHex bs) in
  let part a len := take len (drop a hex) in
  ret (of_chars (part 0%nat 8%nat ++ ["-"%char] ++ part 8%nat 4%nat ++ ["-"%char] ++ part 12%nat 4%nat ++ ["-"%char] ++
                 part 16%nat 4%nat ++ ["-"%char] ++ drop 20 hex)).

(** ** The content *)

Definition encodeReleaseMessage (text : string) : C bytes :=
  if bool_decide (String.length text = 0%nat) then throw (ReleaseEnvelopeError ee_message)
  else
    let bs := utf8Encode text in
    if RELEASE_MESSAGE_MAX_BYTES <? Z.of_nat (length bs) then throw (ReleaseEnvelopeError ee_message) else ret bs.

(** The ciphertext; the nonce is the one given. *)
Definition encryptReleaseContentWith (text releaseId ownerAccountId : string) (contentKey nonce : bytes) : C bytes :=
  if negb (bool_decide (length contentKey = RELEASE_CONTENT_KEY_BYTES /\ length nonce = RELEASE_NONCE_BYTES)) then throw OtherError
  else
    let* message := encodeReleaseMessage text in
    let* padded := pad message pad_bucket in
    let* key := importAesGcmKey contentKey in
    let* aad := releaseContentAssociatedData releaseId ownerAccountId in
    ret (aes_encrypt key nonce aad padded).

Definition decryptReleaseContent (h : ReleaseHeader) (contentKey : bytes) : C string :=
  match parseReleaseHeader (header_js h) with
  | Err _ => throw OtherError
  | Ok header =>
      let* nonce := or_throw (decodeCanonicalBase64 (rh_contentNonce header) (Some RELEASE_NONCE_BYTES)) OtherError in
      let* ciphertext := or_throw (decodeCanonicalBase64 (rh_contentCiphertext header) None) OtherError in
      let* key := importAesGcmKey contentKey in
      let* aad := releaseContentAssociatedData (rh_releaseId header) (rh_ownerAccountId header) in
      let* padded := decrypt key nonce aad ciphertext in
      let* bs := or_throw (unpad padded) OtherError in
      if bool_decide (length bs = 0%nat) || (RELEASE_MESSAGE_MAX_BYTES <? Z.of_nat (length bs)) then throw OtherError
      else or_throw (utf8Fatal bs) OtherError
  end.

(** ** Sealing *)

Section provider.
Variable kem : KemProvider.

Definition assertMlKem768 : C () :=
  if bool_decide (publicKeyLength kem = MLKEM768_PUBLIC_KEY_BYTES /\ ciphertextLength kem = MLKEM768_CIPHERTEXT_BYTES /\
                  secretKeyLength kem = MLKEM768_SECRET_KEY_BYTES)
  then ret () else throw (ReleaseEnvelopeError ee_kem_provider).

(** The content hash and the commitment a copy's signature covers. *)
Definition headerBytes (h : ReleaseHeader) : C (bytes * bytes) :=
  let* nonce := or_throw (decodeCanonicalBase64 (rh_contentNonce h) (Some RELEASE_NONCE_BYTES)) OtherError in
  let* ciphertext := or_throw (decodeCanonicalBase64 (rh_contentCiphertext h) None) OtherError in
  let* keyCommitment := or_throw (decodeCanonicalBase64 (rh_keyCommitment h) (Some RELEASE_KEY_COMMITMENT_BYTES)) OtherError in
  ret (releaseContentHash nonce ciphertext, keyCommitment).

Definition verifiedRecipient (identity : ReleaseIdentity) : C (ReleaseIdentity * string) :=
  let* check := verifyReleaseIdentity (identity_js identity) None in
  match check with
  | Ok checked => ret checked
  | Err _ => throw (ReleaseEnvelopeError ee_recipient_identity)
  end.

(** The header, K, the verified recipient with its fingerprint, the owner's signing key. *)
Definition sealVerified (h : ReleaseHeader) (contentKey : bytes) (recipient : ReleaseIdentity * string)
    (ownerSigningKey : bytes) (r : HybridSealRandomness) : C ReleaseCopy :=
  if negb (bool_decide (length contentKey = RELEASE_CONTENT_KEY_BYTES)) then throw OtherError
  else
    let context := contextFor h (ri_accountId (fst recipient)) (snd recipient) in
    let* recipientKey := importRecipientPublicKey (ri_x25519Key (fst recipient)) in
    let* transcript := releaseSealTranscript context in
    let* sealed := hybridSealWith contentKey recipientKey transcript r in
    let* sealedKey := encodeSealedKey sealed in
    let* (contentHash, keyCommitment) := headerBytes h in
    let* signedBytes := releaseCopySignedBytes context contentHash keyCommitment sealedKey in
    ret {| cp_recipientAccountId := cx_recipientAccountId context; cp_recipientFingerprint := cx_recipientFingerprint context;
           cp_sealedKey := toBase64 sealedKey; cp_signature := toBase64 (ed25519_sign ownerSigningKey signedBytes) |}.

Definition sealReleaseCopyWith (h : ReleaseHeader) (contentKey : bytes) (recipient : ReleaseIdentity)
    (ownerSigningKey : bytes) (r : HybridSealRandomness) : C ReleaseCopy :=
  let* verified := verifiedRecipient recipient in sealVerified h contentKey verified ownerSigningKey r.

Definition sealReleaseCopy (h : ReleaseHeader) (contentKey : bytes) (recipient : ReleaseIdentity)
    (ownerSigningKey : bytes) : C ReleaseCopy :=
  let* _ := assertMlKem768 in
  let* verified := verifiedRecipient recipient in
  let* mlkemKey := or_throw (decodeCanonicalBase64 (ri_mlkem768Key (fst verified)) (Some MLKEM768_PUBLIC_KEY_BYTES))
                     (ReleaseEnvelopeError ee_recipient_identity) in
  let* ephemeral := generateEphemeralKeyPair in
  let* encapsulation := kem_encapsulate kem mlkemKey in
  let* nonce := randomBytes RELEASE_NONCE_BYTES in
  sealVerified h contentKey verified ownerSigningKey
    {| hr_ephemeral := ephemeral; hr_encapsulation := encapsulation; hr_nonce := nonce |}.

Fixpoint seal_copies (h : ReleaseHeader) (contentKey ownerSigningKey : bytes) (recipients : list ReleaseIdentity) :
    C (list ReleaseCopy) :=
  match recipients with
  | [] => ret []
  | recipient :: rest =>
      let* copy := sealReleaseCopy h contentKey recipient ownerSigningKey in
      let* copies := seal_copies h contentKey ownerSigningKey rest in
      ret (copy :: copies)
  end.

Definition buildReleaseEnvelope (ownerKeySet : ReleaseKeySet) (recipients : list ReleaseIdentity) (message : string)
    (given : option string) : C ReleaseEnvelope :=
  let* _ := assertMlKem768 in
  let ownerAccountId := ri_accountId (ks_identity ownerKeySet) in
  let* problem := checkReleaseKeySet kem (keyset_js ownerKeySet) (Some ownerAccountId) in
  match problem with
  | Some kp_kem_provider => throw (ReleaseEnvelopeError ee_kem_provider)
  | Some _ => throw (ReleaseEnvelopeError ee_owner_key_set)
  | None =>
      if Nat.ltb (length recipients) 1 || Nat.ltb RELEASE_MAX_RECIPIENTS (length recipients)
      then throw (ReleaseEnvelopeError ee_recipients)
      else
        let accounts := map ri_accountId recipients in
        if negb (bool_decide (NoDup accounts)) || bool_decide (ownerAccountId ∈ accounts)
        then throw (ReleaseEnvelopeError ee_recipients)
        else
          let* releaseId := match given with Some id => ret id | None => newReleaseId end in
          let* contentKey := randomBytes RELEASE_CONTENT_KEY_BYTES in
          let* nonce := randomBytes RELEASE_NONCE_BYTES in
          let* ciphertext := encryptReleaseContentWith message releaseId ownerAccountId contentKey nonce in
          let* commitment := releaseKeyCommitment contentKey in
          let header := {| rh_releaseId := releaseId; rh_ownerAccountId := ownerAccountId;
                           rh_ownerFingerprint := ks_fingerprint ownerKeySet; rh_contentNonce := toBase64 nonce;
                           rh_contentCiphertext := toBase64 ciphertext; rh_keyCommitment := toBase64 commitment |} in
          let* ownerSigningKey := importReleaseSigningKey (ks_signingPrivateJwk ownerKeySet) in
          let* copies := seal_copies header contentKey ownerSigningKey (ks_identity ownerKeySet :: recipients) in
          match parseReleaseEnvelope (release_js {| en_header := header; en_copies := copies |}) with
          | Ok envelope => ret envelope
          | Err _ => throw OtherError
          end
  end.

(** ** Checking signatures *)

Inductive VerifierProblem : Type := vp_owner_identity | vp_unsupported.

Definition verify_copy (h : ReleaseHeader) (publicKey contentHash keyCommitment : bytes) (input : ReleaseCopy) : C bool :=
  match parseReleaseCopy (copy_js input) with
  | Err _ => ret false
  | Ok copy =>
      match decodeCanonicalBase64 (cp_sealedKey copy) (Some RELEASE_SEALED_KEY_BYTES),
            decodeCanonicalBase64 (cp_signature copy) (Some ED25519_SIGNATURE_BYTES) with
      | Some sealedKey, Some signature =>
          let* signed := releaseCopySignedBytes
            (contextFor h (cp_recipientAccountId copy) (cp_recipientFingerprint copy)) contentHash keyCommitment sealedKey in
          catch (lift (ed25519_verify publicKey signature signed)) (fun _ => ret false)
      | _, _ => ret false
      end
  end.

Definition releaseSignatureVerifier (h : ReleaseHeader) (ownerIdentity : js) : C (res VerifierProblem (ReleaseCopy -> C bool)) :=
  let* check := verifyReleaseIdentity ownerIdentity (Some (rh_ownerAccountId h)) in
  match check with
  | Err ip_unsupported => ret (Err vp_unsupported)
  | Err _ => ret (Err vp_owner_identity)
  | Ok (identity, fingerprint) =>
      if negb (bool_decide (fingerprint = rh_ownerFingerprint h)) then ret (Err vp_owner_identity)
      else
        match decodeCanonicalBase64 (ri_signingKey identity) (Some 32%nat) with
        | None => ret (Err vp_owner_identity)
        | Some signingKey =>
            let* imported := catch (let* _ := lift (import_raw Ed25519 signingKey) in ret (Ok ()))
              (fun cause => ret (Err (if isNotSupportedError cause then vp_unsupported else vp_owner_identity))) in
            match imported with
            | Err p => ret (Err p)
            | Ok _ =>
                let* (contentHash, keyCommitment) := headerBytes h in
                ret (Ok (verify_copy h signingKey contentHash keyCommitment))
            end
        end
  end.

(** ** Opening *)

Inductive ReleaseOpenProblem : Type :=
  | op_envelope (p : ReleaseEnvelopeProblem)
  | op_not_for_you | op_no_key | op_owner_identity | op_zero_shared_secret | op_wrap | op_commitment
  | op_content | op_unsupported | op_kem_provider.

(** The wrap, opened: K, or why not. *)
Definition open_wrap (h : ReleaseHeader) (copy : ReleaseCopy) (keySet : ReleaseKeySet) (sealedKey secretKey : bytes) :
    C (res ReleaseOpenProblem bytes) :=
  catch
    (let* privateKey := importReleaseX25519Key (ks_x25519PrivateJwk keySet) in
     let* sealed := decodeSealedKey sealedKey in
     let* transcript := releaseSealTranscript (contextFor h (cp_recipientAccountId copy) (cp_recipientFingerprint copy)) in
     let* contentKey := hybridOpen kem sealed privateKey secretKey transcript in
     ret (Ok contentKey))
    (fun cause => ret (Err match cause with
                           | HybridSealError => op_zero_shared_secret
                           | NotSupportedError => op_unsupported
                           | _ => op_wrap
                           end)).

Definition unwrapCopy (h : ReleaseHeader) (copy : ReleaseCopy) (ownerIdentity : js) (keySet : ReleaseKeySet) :
    C (res ReleaseOpenProblem bytes) :=
  let* verifier := releaseSignatureVerifier h ownerIdentity in
  match verifier with
  | Err vp_owner_identity => ret (Err op_owner_identity)
  | Err vp_unsupported => ret (Err op_unsupported)
  | Ok verify =>
      let* valid := verify copy in
      if negb valid then ret (Err (op_envelope ep_signature))
      else
        match decodeCanonicalBase64 (cp_sealedKey copy) (Some RELEASE_SEALED_KEY_BYTES),
              decodeCanonicalBase64 (ks_mlkem768SecretKey keySet) (Some MLKEM768_SECRET_KEY_BYTES) with
        | Some sealedKey, Some secretKey =>
            let* opened := open_wrap h copy keySet sealedKey secretKey in
            match opened with
            | Err p => ret (Err p)
            | Ok contentKey =>
                match decodeCanonicalBase64 (rh_keyCommitment h) (Some RELEASE_KEY_COMMITMENT_BYTES) with
                | None => ret (Err op_commitment)
                | Some commitment =>
                    let* own := releaseKeyCommitment contentKey in
                    ret (if bytesEqual own commitment then Ok contentKey else Err op_commitment)
                end
            end
        | _, _ => ret (Err op_wrap)
        end
  end.

Record OpenedRelease : Type := {
  or_text : string;
  or_releaseId : string;
  or_ownerAccountId : string;
  or_ownerFingerprint : string;
  or_keySetFingerprint : string;
}.

Definition openReleaseCopy (header copy ownerIdentity : js) (recipientAccountId : string) (keySets : list ReleaseKeySet) :
    C (res ReleaseOpenProblem OpenedRelease) :=
  match parseReleaseHeader header with
  | Err p => ret (Err (op_envelope p))
  | Ok h =>
  match parseReleaseCopy copy with
  | Err p => ret (Err (op_envelope p))
  | Ok c =>
      if negb (bool_decide (cp_recipientAccountId c = recipientAccountId)) then ret (Err op_not_for_you)
      else
        match List.find (fun k => bool_decide (ks_fingerprint k = cp_recipientFingerprint c)) keySets with
        | None => ret (Err op_no_key)
        | Some keySet =>
            let* provider := catch (let* _ := assertMlKem768 in ret true) (fun _ => ret false) in
            if negb provider then ret (Err op_kem_provider)
            else
              let* problem := checkReleaseKeySet kem (keyset_js keySet) (Some recipientAccountId) in
              match problem with
              | Some kp_kem_provider => ret (Err op_kem_provider)
              | Some _ => ret (Err op_no_key)
              | None =>
                  let* unwrapped := unwrapCopy h c ownerIdentity keySet in
                  match unwrapped with
                  | Err p => ret (Err p)
                  | Ok contentKey =>
                      catch
                        (let* text := decryptReleaseContent h contentKey in
                         ret (Ok {| or_text := text; or_releaseId := rh_releaseId h; or_ownerAccountId := rh_ownerAccountId h;
                                    or_ownerFingerprint := rh_ownerFingerprint h; or_keySetFingerprint := ks_fingerprint keySet |}))
                        (fun _ => ret (Err op_content))
                  end
              end
        end
  end end.

(** ** Sealing again, to a new identity *)

Definition resealReleaseCopy (releaseId : string) (header ownCopy : js) (owner : ReleaseKeySet) (recipient : ReleaseIdentity) :
    C ReleaseCopy :=
  let* _ := assertMlKem768 in
  match parseReleaseHeader header with
  | Err _ => throw (ReleaseEnvelopeError ee_own_copy)
  | Ok h =>
      if negb (bool_decide (rh_releaseId h = releaseId)) then throw (ReleaseEnvelopeError ee_release_mismatch)
      else
        match parseReleaseCopy ownCopy with
        | Err _ => throw (ReleaseEnvelopeError ee_own_copy)
        | Ok c =>
            if negb (bool_decide (ri_accountId (ks_identity owner) = rh_ownerAccountId h)) ||
               negb (bool_decide (ks_fingerprint owner = rh_ownerFingerprint h))
            then throw (ReleaseEnvelopeError ee_owner_key_changed)
            else if negb (bool_decide (cp_recipientAccountId c = rh_ownerAccountId h)) ||
                    negb (bool_decide (cp_recipientFingerprint c = rh_ownerFingerprint h))
            then throw (ReleaseEnvelopeError ee_own_copy)
            else if bool_decide (ri_accountId recipient = rh_ownerAccountId h) then throw (ReleaseEnvelopeError ee_recipients)
            else
              let* problem := checkReleaseKeySet kem (keyset_js owner) (Some (rh_ownerAccountId h)) in
              match problem with
              | Some kp_kem_provider => throw (ReleaseEnvelopeError ee_kem_provider)
              | Some _ => throw (ReleaseEnvelopeError ee_owner_key_set)
              | None =>
                  let* unwrapped := unwrapCopy h c (identity_js (ks_identity owner)) owner in
                  match unwrapped with
                  | Err _ => throw (ReleaseEnvelopeError ee_own_copy)
                  | Ok contentKey =>
                      let* _ := catch (decryptReleaseContent h contentKey) (fun _ => throw (ReleaseEnvelopeError ee_own_copy)) in
                      let* ownerSigningKey := importReleaseSigningKey (ks_signingPrivateJwk owner) in
                      sealReleaseCopy h contentKey recipient ownerSigningKey
                  end
              end
        end
  end.
End provider.
End envelope.
