(* ===== verification/SealingProofs.v ===== *)
(** * What sealing promises

    Padding comes off and shows only a size class; what was sealed to a key opens with
    it, in both versions of the dead drop; a decoy looks like a dead drop where one can
    be made at all. *)

From S2P Require Import Prelude JsMap CoalitionDomain Money Records Store Slug Bytes Crypto DeadDrop.
Local Open Scope Z_scope.

(** ** Computations that draw nothing *)

Definition settled {A} (m : C A) : Prop := exists r, forall n, m n = (n, r).

Lemma settled_ret {A} (a : A) : settled (ret a).
Proof. by exists (Ok a). Qed.
Lemma settled_throw {A} e : settled (throw e : C A).
Proof. by exists (Err e). Qed.
Lemma settled_or_throw {A} (o : option A) e : settled (or_throw o e).
Proof. destruct o; [apply settled_ret|apply settled_throw]. Qed.
Lemma settled_bind {A B} (m : C A) (k : A -> C B) : settled m -> (forall a, settled (k a)) -> settled (bind m k).
Proof.
  intros [[e|a] Hm] Hk.
  - exists (Err e). intros n. unfold bind. by rewrite Hm.
  - destruct (Hk a) as [r Hr]. exists r. intros n. unfold bind. by rewrite Hm.
Qed.
Lemma settled_yields {A} (m : C A) a : settled m -> may m a -> yields m a.
Proof. intros [r Hr] (n & n' & E). rewrite Hr in E. injection E as _ ->. intros k. rewrite Hr. eauto. Qed.

Create HintDb settled.
#[export] Hint Resolve settled_ret settled_throw settled_or_throw : settled.

Section sealing.
Context `{WebCryptoLaws}.

Lemma settled_lift {A} (r : res crypto_error A) : settled (lift r).
Proof. destruct r as [[]|]; eauto with settled. Qed.
Hint Resolve settled_lift : settled.

Ltac settle := repeat (first [apply settled_bind; [|intros]|case_match]); eauto with settled.

Lemma settled_import_public s : settled (importRecipientPublicKey s).
Proof. unfold importRecipientPublicKey. settle. Qed.
Lemma settled_derive a b : settled (deriveSharedSecret a b).
Proof. apply settled_lift. Qed.
Lemma settled_derived_key a b c d e : settled (importDerivedKey a b c d e).
Proof. unfold importDerivedKey, deriveHybridAeadKey, importAesGcmKey, hkdfSha256. settle. Qed.

Lemma import_own d : length d = 32%nat -> yields (importRecipientPublicKey (toBase64 (okp_public X25519 d))) (okp_public X25519 d).
Proof.
  intros Hd. unfold importRecipientPublicKey. eapply yields_bind; [by apply yields_or_throw, base64_round_trip|].
  rewrite bool_decide_eq_true_2 by by apply okp_public_length.
  eapply yields_bind; [apply lift_yields; by apply import_own_raw|apply yields_ret].
Qed.

Lemma import_public_may s k : may (importRecipientPublicKey s) k -> fromBase64 s = Some k /\ length k = 32%nat.
Proof.
  unfold importRecipientPublicKey. intros (raw & ->%may_or_throw & Hm)%may_bind.
  case_bool_decide; [|by apply may_throws in Hm]. by apply may_bind in Hm as ([] & _ & ->%may_ret).
Qed.

(** ** Padding *)

Lemma drop_zeros_replicate k l : drop_zeros (replicate k x00 ++ l) = drop_zeros l.
Proof. induction k as [|k IH]; [done|]. cbn [replicate app drop_zeros]. by rewrite bool_decide_eq_true_2. Qed.

Lemma rev_replicate_byte k (b : byte) : rev (replicate k b) = replicate k b.
Proof. induction k as [|k IH]; [done|]. cbn [replicate rev]. rewrite IH. symmetry. apply replicate_cons_app. Qed.

Lemma unpad_padded p k : unpad (p ++ x80 :: replicate k x00) = Some p.
Proof.
  unfold unpad. rewrite rev_app_distr. cbn [rev]. rewrite rev_replicate_byte, <-!app_assoc, drop_zeros_replicate.
  cbn [app drop_zeros]. rewrite bool_decide_eq_false_2 by done. rewrite bool_decide_eq_true_2 by done.
  by rewrite rev_involutive.
Qed.

(** The size a strategy pads to. *)
Definition size_class (strategy : PaddingStrategy) (len : Z) : option Z :=
  match strategy with pad_bucket => selectBucket len | pad_minimal => Some (minimalPaddedLength len) end.

Lemma selectBucket_spec len size : selectBucket len = Some size ->
  size ∈ BUCKETS /\ len + 16 <= size /\ forall other, other ∈ BUCKETS -> len + 16 <= other -> size <= other.
Proof.
  intros E. pose proof E as [Hin Hle]%List.find_some. apply Z.leb_le in Hle.
  split_and!; [by apply list_elem_of_In|done|]. intros other Ho Hlo. rewrite list_elem_of_In in Ho.
  unfold selectBucket, BUCKETS in E. cbn [List.find] in E. unfold BUCKETS in Ho. cbn [In] in Ho.
  repeat (case_match; [injection E as <-; lia|]). done.
Qed.

Lemma minimal_spec len : 0 <= len -> len + 1 <= minimalPaddedLength len < len + 257 /\ minimalPaddedLength len mod 256 = 0.
Proof. intros Hl. unfold minimalPaddedLength. rewrite Z.mod_mul by lia. Z.to_euclidean_division_equations. lia. Qed.

Lemma size_class_fits strategy (p : bytes) size : size_class strategy (Z.of_nat (length p)) = Some size -> Z.of_nat (length p) + 1 <= size.
Proof.
  destruct strategy; simpl.
  - intros [= <-]. pose proof (minimal_spec (Z.of_nat (length p))). lia.
  - intros E%selectBucket_spec. lia.
Qed.

Lemma pad_always strategy p size : size_class strategy (Z.of_nat (length p)) = Some size ->
  yields (pad p strategy) (p ++ x80 :: replicate (Z.to_nat size - length p - 1) x00).
Proof.
  intros E. pose proof (size_class_fits _ _ _ E) as Hfit. unfold pad.
  apply (yields_bind _ _ size).
  { destruct strategy; simpl in *; [injection E as <-; apply yields_ret|by apply yields_or_throw]. }
  destruct (Z.ltb_spec size (Z.of_nat (length p) + 1)); [lia|].
  eapply always_bind; [apply randomBytes_always|]. intros b _. apply yields_ret.
Qed.

Lemma pad_may strategy p padded : may (pad p strategy) padded ->
  exists size, size_class strategy (Z.of_nat (length p)) = Some size /\ Z.of_nat (length padded) = size /\
    padded = p ++ x80 :: replicate (Z.to_nat size - length p - 1) x00.
Proof.
  unfold pad. intros (size & Hs & Hm)%may_bind. exists size.
  assert (E : size_class strategy (Z.of_nat (length p)) = Some size).
  { destruct strategy; simpl; [by apply may_ret in Hs as <-|by apply may_or_throw in Hs]. }
  pose proof (size_class_fits _ _ _ E). destruct (size <? Z.of_nat (length p) + 1); [by apply may_throws in Hm|].
  apply may_bind in Hm as (b & _ & <-%may_ret). split_and!; [done| |done].
  rewrite length_app. cbn [length]. rewrite length_replicate. lia.
Qed.
(** ** The hybrid seal *)

(** A KEM key pair: what is encapsulated to it comes out. *)
Definition kem_pair (kem : KemProvider) (pk sk : bytes) : Prop :=
  forall n ct ss, encapsulate kem n pk = Some (ct, ss) -> decapsulate kem ct sk = Some ss.

Lemma hybrid_opens kem d pk sk e n ct ss nonce plaintext transcript sealed :
  length d = 32%nat -> length e = 32%nat -> kem_pair kem pk sk -> encapsulate kem n pk = Some (ct, ss) ->
  may (hybridSealWith plaintext (okp_public X25519 d) transcript
    {| hr_ephemeral := (e, okp_public X25519 e); hr_encapsulation := (ct, ss); hr_nonce := nonce |}) sealed ->
  yields (hybridOpen kem sealed d sk transcript) plaintext.
Proof.
  intros Hd He Hkem Henc. unfold hybridSealWith. cbn [hr_nonce hr_ephemeral hr_encapsulation fst snd].
  destruct (negb _); [by intros ?%may_throws|].
  intros (ec & Hec & (u & Hz & (key & Hkey & <-%may_ret)%may_bind)%may_bind)%may_bind.
  unfold hybridOpen. cbn [hs_ephemeralPublicKey hs_kemCiphertext hs_nonce hs_ciphertext].
  eapply yields_bind; [by apply import_own|].
  assert (Hec' : may (deriveSharedSecret d (okp_public X25519 e)) ec).
  { unfold deriveSharedSecret. by rewrite x25519_commutes. }
  eapply yields_bind; [apply settled_yields; [apply settled_derive|done]|].
  eapply yields_bind.
  { apply settled_yields; [unfold refuseZero; case_match; eauto with settled|exact Hz]. }
  eapply yields_bind; [by apply yields_or_throw, (Hkem n)|].
  eapply yields_bind; [apply settled_yields; [apply settled_derived_key|done]|].
  apply yields_or_throw. by apply aes_exact.
Qed.

(** *** Dead drops *)

Lemma seal_opens d plaintext sealed : length d = 32%nat ->
  may (seal plaintext (toBase64 (okp_public X25519 d))) sealed -> yields (open_box sealed d) plaintext.
Proof.
  intros Hd. unfold seal.
  intros (pub & [E _]%import_public_may & ([e p] & He%ephemeral_may & (sh & Hsh & (kb & Hkb & (key & Hkey &
    (nonce & _ & <-%may_ret)%may_bind)%may_bind)%may_bind)%may_bind)%may_bind)%may_bind.
  rewrite base64_round_trip in E. injection E as <-. cbn [fst snd] in He. destruct He as [He ->].
  unfold open_box. cbn [sp_ephemeralPubKey sp_nonce sp_ciphertext].
  eapply yields_bind; [by apply import_own|].
  assert (Hsh' : may (deriveSharedSecret d (okp_public X25519 e)) sh).
  { unfold deriveSharedSecret. by rewrite x25519_commutes. }
  eapply yields_bind; [apply settled_yields; [apply settled_derive|done]|].
  eapply yields_bind; [apply settled_yields; [apply settled_or_throw|done]|].
  eapply yields_bind; [apply settled_yields; [unfold importAesGcmKey; case_match; eauto with settled|done]|].
  apply yields_or_throw. by apply aes_exact.
Qed.

Lemma hybridSeal_opens kem d pk sk plaintext transcript sealed :
  length d = 32%nat -> kem_pair kem pk sk ->
  may (hybridSeal kem plaintext (toBase64 (okp_public X25519 d)) pk transcript) sealed ->
  yields (hybridOpen kem sealed d sk transcript) plaintext.
Proof.
  intros Hd Hkem. unfold hybridSeal. destruct (negb _); [by intros ?%may_throws|].
  intros (pub & [E _]%import_public_may & ([e p] & He%ephemeral_may & ([ct ss] & Henc & (nonce & _ & Hs)%may_bind)%may_bind)%may_bind)%may_bind.
  rewrite base64_round_trip in E. injection E as <-. cbn [fst snd] in He. destruct He as [He ->].
  unfold kem_encapsulate in Henc. apply may_bind in Henc as (r & [n ->]%draw_may & Henc%may_or_throw).
  by apply (hybrid_opens kem d pk sk e n ct ss nonce).
Qed.

Lemma decode_yields bs : yields (decode (toBase64 bs)) bs.
Proof. by apply yields_or_throw, base64_round_trip. Qed.

Lemma private_key_yields d : length d = 32%nat -> yields (importRecipientPrivateKey (export_jwk X25519 d)) d.
Proof.
  intros Hd. unfold importRecipientPrivateKey, export_jwk. cbn [jwk_kty jwk_crv jwk_d jwk_x crv_name].
  rewrite bool_decide_eq_true_2 by done. by apply lift_yields, import_own_jwk.
Qed.

Definition fields_of (e : AnyDeadDropEnvelope) : DeadDropFields :=
  match e with DeadDropEnvelopeV1 f | DeadDropEnvelopeV2 f _ => f end.

(** The envelope an encryption gives, taken apart. *)
Lemma encrypt_may kem i e : may (encryptDeadDrop kem i) e ->
  exists padded clue, let f := fields_of e in
    may (match en_dropId i with Some id => ret id | None => randomId 16 end) (dd_dropId f) /\
    may (pad (en_plaintext i) (en_paddingStrategy i)) padded /\
    may (deriveClue (en_recipientPublicKeyBase64 i) (dd_dropId f)) clue /\
    dd_pad f = en_paddingStrategy i /\ dd_clue f = toBase64 clue /\ dd_expiresAt f = en_expiresAt i /\
    match e with
    | DeadDropEnvelopeV1 _ =>
        exists s, may (seal padded (en_recipientPublicKeyBase64 i)) s /\ dd_ek f = toBase64 (sp_ephemeralPubKey s) /\
          dd_nonce f = toBase64 (sp_nonce s) /\ dd_ct f = toBase64 (sp_ciphertext s)
    | DeadDropEnvelopeV2 _ pqCt =>
        exists pk s, en_recipientPqPublicKey i = Some pk /\ may (hybridSeal kem padded (en_recipientPublicKeyBase64 i) pk []) s /\
          dd_ek f = toBase64 (hs_ephemeralPublicKey s) /\ dd_nonce f = toBase64 (hs_nonce s) /\
          dd_ct f = toBase64 (hs_ciphertext s) /\ pqCt = toBase64 (hs_kemCiphertext s)
    end.
Proof.
  unfold encryptDeadDrop. case_bool_decide; [by intros ?%may_throws|].
  intros (id & Hid & (padded & Hp & (clue & Hc & Hm)%may_bind)%may_bind)%may_bind. exists padded, clue.
  destruct (default suite_v1 (en_suite i)).
  - apply may_bind in Hm as (s & Hs & <-%may_ret). cbn. split_and!; [done..|by exists s].
  - apply may_bind in Hm as (pk & Hpk%may_or_throw & (s & Hs & <-%may_ret)%may_bind). cbn.
    split_and!; [done..|by exists pk, s].
Qed.

(** ** What the server sees *)

Lemma seal_may p s k : may (seal p s) k ->
  length (sp_ephemeralPubKey k) = 32%nat /\ length (sp_nonce k) = 12%nat /\
  length (sp_ciphertext k) = (length p + 16)%nat.
Proof.
  unfold seal.
  intros (pub & _ & ([e q] & [He Hq]%ephemeral_may & (sh & _ & (kb & _ & (key & _ &
    (nonce & Hn%randomBytes_length & <-%may_ret)%may_bind)%may_bind)%may_bind)%may_bind)%may_bind)%may_bind.
  cbn in *. subst q. by rewrite okp_public_length, aes_length.
Qed.

Lemma hybridSeal_may kem p s pk t k : may (hybridSeal kem p s pk t) k ->
  length (hs_ephemeralPublicKey k) = 32%nat /\ length (hs_nonce k) = 12%nat /\
  length (hs_ciphertext k) = (length p + 16)%nat /\ exists n ss, encapsulate kem n pk = Some (hs_kemCiphertext k, ss).
Proof.
  unfold hybridSeal. destruct (negb _); [by intros ?%may_throws|].
  intros (pub & _ & ([e q] & [He Hq]%ephemeral_may & ([ct ss] & Henc & (nonce & Hn%randomBytes_length & Hs)%may_bind)%may_bind)%may_bind)%may_bind.
  unfold kem_encapsulate in Henc. apply may_bind in Henc as (r & [n ->]%draw_may & Henc%may_or_throw).
  unfold hybridSealWith in Hs. destruct (negb _); [by apply may_throws in Hs|].
  apply may_bind in Hs as (ec & _ & (u & _ & (key & _ & <-%may_ret)%may_bind)%may_bind). cbn in *. subst q.
  rewrite okp_public_length, aes_length by done. split_and!; eauto.
Qed.

Lemma hkdf_length ikm salt info len b : may (hkdfSha256 ikm salt info len) b -> length b = len.
Proof.
  unfold hkdfSha256. intros E%may_or_throw. destruct (Z.leb_spec (Z.of_nat len) (255 * 32)).
  - destruct (hkdf_bits_length ikm salt info len) as (b' & E' & Hl); [done|]. congruence.
  - by rewrite hkdf_bits_long in E.
Qed.

Lemma clue_may s id c : may (deriveClue s id) c -> length c = CLUE_BYTES.
Proof.
  unfold deriveClue. intros (ikm & _ & Hm)%may_bind. case_bool_decide; [by apply hkdf_length in Hm|by apply may_throws in Hm].
Qed.

(** The fields of an envelope with the length of each text. *)
Definition envelope_shape (v : js) : list (string * option nat) :=
  map (fun '(k, x) => (k, match x with JString s => Some (String.length s) | _ => None end)) (members_of v).

Lemma base64_filled b : b <> [] -> filled_string (JString (toBase64 b)) = true.
Proof.
  intros Hb. simpl. rewrite bool_decide_eq_false_2; [done|]. rewrite base64_length.
  pose proof (base64Length_pos (length b)). destruct b; [done|simpl in *; lia].
Qed.

Lemma filled_text s : s <> "" -> filled_string (JString s) = true.
Proof. intros Hs. simpl. rewrite bool_decide_eq_false_2; [done|]. by destruct s. Qed.

Lemma nonempty_length {A} (l : list A) n : length l = S n -> l <> [].
Proof. by destruct l. Qed.

(** The shape every dead drop of a size class has, decoys included. *)
Definition uniform_shape (suite : EnvelopeSuite) (strategy : PaddingStrategy) (size : Z) (kemBytes idLength expiryLength : nat) :
    list (string * option nat) :=
  [("v", None); ("suite", Some (String.length (suite_name suite)))] ++
  match suite with suite_v1 => [] | suite_v2 => [("pqCt", Some (base64Length kemBytes))] end ++
  [("pad", Some (String.length (pad_name strategy))); ("dropId", Some idLength); ("clue", Some (base64Length CLUE_BYTES));
   ("ek", Some (base64Length 32)); ("nonce", Some (base64Length 12));
   ("ct", Some (base64Length (Z.to_nat size + 16))); ("expiresAt", Some expiryLength)].

Lemma dropId_length i id : may (match en_dropId i with Some id => ret id | None => randomId 16 end) id ->
  String.length id = match en_dropId i with Some given => String.length given | None => 32%nat end.
Proof.
  destruct (en_dropId i); [by intros ->%may_ret|]. unfold randomId.
  intros (b & Hb%randomBytes_length & <-%may_ret)%may_bind. by rewrite hex_length, Hb.
Qed.

Lemma encrypt_shape kem i e size :
  size_class (en_paddingStrategy i) (Z.of_nat (length (en_plaintext i))) = Some size ->
  (forall n pk ct ss, encapsulate kem n pk = Some (ct, ss) -> length ct = ciphertextLength kem) ->
  may (encryptDeadDrop kem i) e ->
  envelope_shape (envelope_js e) =
    uniform_shape (match e with DeadDropEnvelopeV1 _ => suite_v1 | _ => suite_v2 end) (en_paddingStrategy i) size
      (ciphertextLength kem) (match en_dropId i with Some given => String.length given | None => 32%nat end)
      (String.length (en_expiresAt i)).
Proof.
  intros Hsize Hkem (padded & clue & Hid%dropId_length & Hpad & Hclue%clue_may & Ep & Ec & Ex & He)%encrypt_may.
  apply pad_may in Hpad as (size' & E & Hl & _). rewrite Hsize in E. injection E as <-.
  rewrite <-Hid. clear Hid. destruct e as [f|f pqCt]; cbn [fields_of] in *.
  - destruct He as (s & (K1 & K2 & K3)%seal_may & E1 & E2 & E3). unfold envelope_shape, uniform_shape, envelope_js.
    cbn [members_of map app fst]. rewrite Ep, Ec, Ex, E1, E2, E3, !base64_length, Hclue, K1, K2, K3.
    by rewrite <-Hl, Nat2Z.id.
  - destruct He as (pk & s & _ & (K1 & K2 & K3 & n & ss & K4%Hkem)%hybridSeal_may & E1 & E2 & E3 & ->).
    unfold envelope_shape, uniform_shape, envelope_js.
    cbn [members_of map app fst]. rewrite Ep, Ec, Ex, E1, E2, E3, !base64_length, Hclue, K1, K2, K3, K4.
    by rewrite <-Hl, Nat2Z.id.
Qed.

Lemma is_number_jint z : is_number z (JNumber (jint z)) = true.
Proof. simpl. by rewrite as_integer_jint, bool_decide_eq_true_2. Qed.

Lemma opaque_intro allowed version suite strings v :
  isRecord v = true -> forallb (fun k => bool_decide (k ∈ allowed)) (map fst (members_of v)) = true ->
  is_number version (member "v" (members_of v)) = true -> is_text (suite_name suite) (member "suite" (members_of v)) = true ->
  padIsValid (member "pad" (members_of v)) = true ->
  forallb (fun k => filled_string (member k (members_of v))) strings = true ->
  opaque_with allowed version suite strings v = true.
Proof. destruct v; try done. intros _. cbn [members_of opaque_with]. by intros -> -> -> -> ->. Qed.

Lemma encrypt_opaque kem i e :
  en_dropId i <> Some "" -> en_expiresAt i <> "" ->
  (forall n pk ct ss, encapsulate kem n pk = Some (ct, ss) -> length ct = ciphertextLength kem) -> ciphertextLength kem <> 0%nat ->
  may (encryptDeadDrop kem i) e -> isOpaqueEnvelope (envelope_js e) = true.
Proof.
  intros Hid Hexp Hkem Hct (padded & clue & Hdrop & Hpad & Hclue%clue_may & Ep & Ec & Ex & He)%encrypt_may.
  assert (Hne : dd_dropId (fields_of e) <> "").
  { apply dropId_length in Hdrop. intros E. rewrite E in Hdrop. destruct (en_dropId i) as [g|] eqn:Eg; [|done]. by destruct g. }
  assert (Hpv : padIsValid (JString (pad_name (dd_pad (fields_of e)))) = true) by by destruct (dd_pad _).
  apply orb_true_iff. destruct e as [f|f pqCt]; cbn [fields_of] in *; [left|right].
  - destruct He as (s & (K1 & K2 & K3)%seal_may & E1 & E2 & E3).
    apply opaque_intro; [done|done|by apply is_number_jint|done|done|].
    cbn [forallb member members_of envelope_js]. cbn -[filled_string]. rewrite Ec, E1, E2, E3, Ex, filled_text, !base64_filled, filled_text;
      try done; eapply nonempty_length; rewrite ?K1, ?K2, ?K3, ?Hclue; done.
  - destruct He as (pk & s & _ & (K1 & K2 & K3 & n & ss & K4%Hkem)%hybridSeal_may & E1 & E2 & E3 & ->).
    apply opaque_intro; [done|done|by apply is_number_jint|done|done|].
    cbn [forallb member members_of envelope_js]. cbn -[filled_string]. rewrite Ec, E1, E2, E3, Ex, filled_text, !base64_filled, filled_text;
      try done; first [by intros E; rewrite E in K4; simpl in K4; congruence|eapply nonempty_length; rewrite ?K1, ?K2, ?K3, ?Hclue; done].
Qed.

(** ** Decoys *)

Definition stream_length (p : DecoyParams) : nat := 16 + 32 + 12 + dp_bucketBytes p + 16 + 16.

Lemma decoy_always p : Z.of_nat (stream_length p) <= 255 * 32 ->
  always (generateDecoy p) (fun e => envelope_shape (envelope_js e) =
    uniform_shape suite_v1 (dp_paddingStrategy p) (Z.of_nat (dp_bucketBytes p)) 0 32 (String.length (dp_expiresAt p))).
Proof.
  intros Hl. unfold generateDecoy.
  destruct (hkdf_bits_length (dp_seed p) DECOY_SALT (utf8Encode ("decoy:" +:+ pretty (dp_counter p))) (stream_length p) Hl)
    as (b & E & Hb).
  eapply always_then; [apply yields_always, yields_or_throw, E|]. intros ? <-. apply always_ret.
  unfold envelope_shape, uniform_shape, envelope_js, take_at. unfold stream_length in Hb.
  cbn [members_of map app fst dd_pad dd_dropId dd_clue dd_ek dd_nonce dd_ct dd_expiresAt].
  rewrite hex_length, !base64_length, !length_take, !length_drop.
  repeat f_equal; rewrite ?Hb; unfold CLUE_BYTES; lia.
Qed.

Lemma decoy_fails p n : 255 * 32 < Z.of_nat (stream_length p) -> generateDecoy p n = (n, Err OtherError).
Proof.
  intros Hl. unfold generateDecoy, bind, hkdfSha256. by rewrite (hkdf_bits_long _ _ _ (stream_length p) Hl).
Qed.
End sealing.
