(* ===== verification/ReleaseFormat.v ===== *)
(** * The release format has one reading

    The bytes a copy's signature covers determine every field they are built from and
    are no other message the same key signs; what the parsers accept is exactly the
    objects that write a well-formed header, copy or envelope. *)

From S2P Require Import Prelude JsMap CoalitionDomain Money Records Store Slug Bytes Crypto DeadDrop.
From S2P Require Import Identity Envelope SealingProofs.

(** ** Labels *)

Definition no_zero (s : string) : bool := forallb (fun b => negb (bool_decide (b = x00))) (ascii_bytes s).

Lemma label_split a b ra rb :
  no_zero a = true -> no_zero b = true -> labelBytes a ++ ra = labelBytes b ++ rb -> a = b /\ ra = rb.
Proof.
  unfold no_zero, labelBytes. intros Ha Hb. rewrite <-!app_assoc. cbn [app]. intros E.
  enough (ascii_bytes a = ascii_bytes b /\ ra = rb) as [Eb ->] by (split; [by apply ascii_bytes_inj|done]).
  revert Ha Hb E. generalize (ascii_bytes a), (ascii_bytes b). induction l as [|x l IH]; intros [|y l'] Ha Hb E;
    cbn [app forallb] in *.
  - by injection E as ->.
  - injection E as E1 E2. subst y. done.
  - injection E as E1 E2. subst x. done.
  - injection E as -> E. apply andb_true_iff in Ha as [_ Ha], Hb as [_ Hb].
    destruct (IH l' Ha Hb E) as [-> ->]. done.
Qed.

(** ** Identifiers are ASCII *)

Definition is_ascii (s : string) : bool := forallb (fun c => Nat.ltb (nat_of_ascii c) 128) (chars s).

Lemma in_range_ascii lo hi c : hi < 128 -> in_range lo hi c = true -> Nat.ltb (nat_of_ascii c) 128 = true.
Proof. unfold in_range. rewrite andb_true_iff, !Nat.leb_le, Nat.ltb_lt. lia. Qed.

Lemma is_alnum_ascii c : is_alnum c = true -> Nat.ltb (nat_of_ascii c) 128 = true.
Proof.
  unfold is_alnum, is_lower_alnum. rewrite !orb_true_iff. intros [[?|?]|?]; (eapply in_range_ascii; [|done]); lia.
Qed.

Lemma is_char_ascii x c : Nat.ltb (nat_of_ascii x) 128 = true -> Ascii.eqb x c = true -> Nat.ltb (nat_of_ascii c) 128 = true.
Proof. by intros Hx ->%Ascii.eqb_eq. Qed.

Lemma account_char_ascii c : account_char c = true -> Nat.ltb (nat_of_ascii c) 128 = true.
Proof.
  unfold account_char. rewrite !orb_true_iff. intros [[[?%is_alnum_ascii|E]|E]|E]; [done|..];
    rewrite Ascii.eqb_sym in E; by apply is_char_ascii in E.
Qed.

Lemma account_ascii s : RELEASE_ACCOUNT_ID_PATTERN s = true -> is_ascii s = true.
Proof.
  unfold RELEASE_ACCOUNT_ID_PATTERN, is_ascii. destruct (chars s) as [|c l]; [done|].
  rewrite !andb_true_iff. intros [[Hc _] Hl]. cbn [forallb]. apply andb_true_iff. split; [by apply is_alnum_ascii|].
  rewrite forallb_forall in *. intros x Hx. by apply account_char_ascii, Hl.
Qed.

Definition test_is_ascii (t : ascii -> bool) : Prop := forall c, t c = true -> Nat.ltb (nat_of_ascii c) 128 = true.

Lemma fits_ascii tests l : Forall test_is_ascii tests -> fits tests l = true -> forallb (fun c => Nat.ltb (nat_of_ascii c) 128) l = true.
Proof.
  intros Ht. revert l. induction Ht as [|t tests Ht _ IH]; intros [|c l]; try done. cbn [fits forallb].
  rewrite !andb_true_iff. intros [Hc Hl]. split; [by apply Ht|by apply IH].
Qed.

Lemma is_hex_ascii : test_is_ascii is_hex.
Proof. intros c. unfold is_hex. rewrite orb_true_iff. intros [?|?]; (eapply in_range_ascii; [|done]); lia. Qed.

Lemma release_id_ascii s : RELEASE_ID_PATTERN s = true -> is_ascii s = true.
Proof.
  apply fits_ascii. unfold release_id_shape. rewrite !Forall_app.
  split_and!; repeat first [apply Forall_replicate, is_hex_ascii|apply Forall_cons; split|apply Forall_nil]; try done;
    intros c Hc; try by apply is_char_ascii in Hc.
  cbn in Hc. rewrite !orb_true_iff in Hc. destruct Hc as [E|[E|[E|[E|?]]]]; try done; rewrite Ascii.eqb_sym in E; by apply is_char_ascii in E.
Qed.

Section format.
Context `{WebCryptoLaws} `{Dates}.

Lemma ascii_utf8 s : is_ascii s = true -> utf8Encode s = ascii_bytes s.
Proof. apply utf8_ascii. Qed.

Lemma ascii_field_may s (pattern : string -> bool) b : (pattern s = true -> is_ascii s = true) ->
  may (asciiField s pattern) b -> pattern s = true /\ lengthPrefixed (ascii_bytes s) = Some b.
Proof.
  intros Hp. unfold asciiField. destruct (pattern s) eqn:E; [|by intros ?%may_throws].
  intros E'%may_or_throw. by rewrite ascii_utf8 in E' by auto.
Qed.

(** Two fields of the same kind at the head of equal strings are equal. *)
Lemma ascii_field_split s t (pattern : string -> bool) a b ra rb : (forall s, pattern s = true -> is_ascii s = true) ->
  may (asciiField s pattern) a -> may (asciiField t pattern) b -> a ++ ra = b ++ rb -> s = t /\ ra = rb.
Proof.
  intros Hp [_ Ha]%ascii_field_may [_ Hb]%ascii_field_may E; [|auto..].
  destruct (lengthPrefixed_inj _ _ _ _ _ _ Ha Hb E) as [Es ->]. split; [by apply ascii_bytes_inj|done].
Qed.

Lemma fingerprint_may s b : may (fingerprintField s) b -> s = toHex b /\ length b = RELEASE_FINGERPRINT_BYTES.
Proof. intros E%may_or_throw. by apply fromHex_iff. Qed.

Lemma fingerprint_split s t a b ra rb :
  may (fingerprintField s) a -> may (fingerprintField t) b -> a ++ ra = b ++ rb -> s = t /\ ra = rb.
Proof.
  intros [-> Ha]%fingerprint_may [-> Hb]%fingerprint_may E. apply app_inj_1 in E as [-> ->]; [done|congruence].
Qed.

Lemma context_split c d a b ra rb :
  may (contextBytes c) a -> may (contextBytes d) b -> a ++ ra = b ++ rb -> c = d /\ ra = rb.
Proof.
  unfold contextBytes.
  intros (a1 & A1 & (a2 & A2 & (a3 & A3 & (a4 & A4 & (a5 & A5 & <-%may_ret)%may_bind)%may_bind)%may_bind)%may_bind)%may_bind.
  intros (b1 & B1 & (b2 & B2 & (b3 & B3 & (b4 & B4 & (b5 & B5 & <-%may_ret)%may_bind)%may_bind)%may_bind)%may_bind)%may_bind.
  rewrite <-!app_assoc. intros E.
  destruct (ascii_field_split _ _ _ _ _ _ _ release_id_ascii A1 B1 E) as [E1 E'].
  destruct (ascii_field_split _ _ _ _ _ _ _ account_ascii A2 B2 E') as [E2 E''].
  destruct (fingerprint_split _ _ _ _ _ _ A3 B3 E'') as [E3 E3'].
  destruct (ascii_field_split _ _ _ _ _ _ _ account_ascii A4 B4 E3') as [E4 E4'].
  destruct (fingerprint_split _ _ _ _ _ _ A5 B5 E4') as [E5 E5'].
  split; [destruct c, d; cbn in *; congruence|done].
Qed.

Lemma signed_bytes_may c h k s m : may (releaseCopySignedBytes c h k s) m ->
  exists b, may (contextBytes c) b /\ length h = 32 /\ length k = 32 /\ length s = RELEASE_SEALED_KEY_BYTES /\
    m = labelBytes RELEASE_SEAL_SIGNATURE_LABEL ++ b ++ h ++ k ++ s.
Proof.
  unfold releaseCopySignedBytes. case_bool_decide as Hl; cbn [negb]; [|by intros ?%may_throws].
  intros (b & Hb & <-%may_ret)%may_bind. destruct Hl as (? & ? & ?). by exists b.
Qed.

Lemma signed_bytes_exact c h k s c' h' k' s' m :
  may (releaseCopySignedBytes c h k s) m -> may (releaseCopySignedBytes c' h' k' s') m ->
  c = c' /\ h = h' /\ k = k' /\ s = s'.
Proof.
  intros (b & Hb & Hh & Hk & Hs & ->)%signed_bytes_may (b' & Hb' & Hh' & Hk' & Hs' & E)%signed_bytes_may.
  apply label_split in E as [_ E]; [|done..]. destruct (context_split _ _ _ _ _ _ Hb Hb' E) as [-> E'].
  apply app_inj_1 in E' as [-> E']; [|congruence]. apply app_inj_1 in E' as [-> ->]; [done|congruence].
Qed.

Lemma identity_bytes_may a sk xk mk m : may (releaseIdentitySignedBytes a sk xk mk) m ->
  exists b, RELEASE_ACCOUNT_ID_PATTERN a = true /\ lengthPrefixed (ascii_bytes a) = Some b /\ length sk = 32 /\
    length xk = 32 /\ length mk = MLKEM768_PUBLIC_KEY_BYTES /\ m = labelBytes RELEASE_IDENTITY_LABEL ++ b ++ sk ++ xk ++ mk.
Proof.
  unfold releaseIdentitySignedBytes. destruct (RELEASE_ACCOUNT_ID_PATTERN a) eqn:Ea; [|by intros ?%may_throws].
  cbn [negb]. case_bool_decide as Hl; cbn [negb]; [|by intros ?%may_throws].
  intros (b & Hb%may_or_throw & <-%may_ret)%may_bind. exists b. rewrite ascii_utf8 in Hb by by apply account_ascii.
  naive_solver.
Qed.

Lemma identity_bytes_exact a sk xk mk a' sk' xk' mk' m :
  may (releaseIdentitySignedBytes a sk xk mk) m -> may (releaseIdentitySignedBytes a' sk' xk' mk') m ->
  a = a' /\ sk = sk' /\ xk = xk' /\ mk = mk'.
Proof.
  intros (b & _ & Hb & Hs & Hx & Hm & ->)%identity_bytes_may (b' & _ & Hb' & Hs' & Hx' & Hm' & E)%identity_bytes_may.
  apply label_split in E as [_ E]; [|done..]. destruct (lengthPrefixed_inj _ _ _ _ _ _ Hb Hb' E) as [Ea E'].
  apply ascii_bytes_inj in Ea. apply app_inj_1 in E' as [-> E']; [|congruence].
  apply app_inj_1 in E' as [-> ->]; [done|congruence].
Qed.

(** What the same key signs elsewhere is another string. *)
Lemma signed_bytes_apart c h k s m : may (releaseCopySignedBytes c h k s) m ->
  (forall a sk xk mk, ~ may (releaseIdentitySignedBytes a sk xk mk) m) /\
  (forall nonce, m <> labelBytes RELEASE_KEY_CHECK_LABEL ++ nonce).
Proof.
  intros (b & _ & _ & _ & _ & ->)%signed_bytes_may. split.
  - intros a sk xk mk (b' & _ & _ & _ & _ & _ & E)%identity_bytes_may. by apply label_split in E as [E _].
  - intros nonce E. by apply label_split in E as [E _].
Qed.

Lemma signed_bytes_settled c h k s : settled (releaseCopySignedBytes c h k s).
Proof.
  unfold releaseCopySignedBytes, contextBytes, asciiField, fingerprintField.
  repeat (first [apply settled_bind; [|intros]|case_match]); eauto with settled.
Qed.
End format.

(** ** What the parsers accept

    [parseReleaseHeader], [parseReleaseCopy] and [parseReleaseEnvelope] accept exactly
    the objects that write a well-formed value, and give back that value. *)


Lemma text_passing_some ok v s : text_passing ok v = Some s <-> v = JString s /\ ok s = true.
Proof.
  destruct v; simpl; try (split; [done|by intros [? _]]). destruct (ok s0) eqn:E; split.
  - by intros [= ->].
  - by intros [[= ->] _].
  - done.
  - intros [[= ->] ?]. congruence.
Qed.

Lemma is_ok_some {A} (o : option A) : bool_decide (o <> None) = true <-> is_Some o.
Proof. rewrite bool_decide_eq_true. apply not_eq_None_Some. Qed.

(** ** Headers *)

Record header_ok (h : ReleaseHeader) : Prop := {
  ho_id : RELEASE_ID_PATTERN (rh_releaseId h) = true;
  ho_owner : RELEASE_ACCOUNT_ID_PATTERN (rh_ownerAccountId h) = true;
  ho_fingerprint : is_Some (fromHex (rh_ownerFingerprint h) RELEASE_FINGERPRINT_BYTES);
  ho_nonce : is_Some (decodeCanonicalBase64 (rh_contentNonce h) (Some RELEASE_NONCE_BYTES));
  ho_ciphertext : ciphertext_ok (rh_contentCiphertext h) = true;
  ho_commitment : is_Some (decodeCanonicalBase64 (rh_keyCommitment h) (Some RELEASE_KEY_COMMITMENT_BYTES));
}.

(** An object that writes the header: these fields and no others, in any order. *)
Record writes_header (v : js) (h : ReleaseHeader) : Prop := {
  wh_plain : isPlainObject v = true;
  wh_fields : hasExactly v HEADER_FIELDS = true;
  wh_version : is_number RELEASE_ENVELOPE_VERSION (get_field v "v") = true;
  wh_id : get_field v "releaseId" = JString (rh_releaseId h);
  wh_owner : get_field v "ownerAccountId" = JString (rh_ownerAccountId h);
  wh_fingerprint : get_field v "ownerFingerprint" = JString (rh_ownerFingerprint h);
  wh_nonce : get_field v "contentNonce" = JString (rh_contentNonce h);
  wh_ciphertext : get_field v "contentCiphertext" = JString (rh_contentCiphertext h);
  wh_commitment : get_field v "keyCommitment" = JString (rh_keyCommitment h);
}.

Lemma parse_header_iff v h : parseReleaseHeader v = Ok h <-> writes_header v h /\ header_ok h.
Proof.
  unfold parseReleaseHeader. split.
  - destruct (isPlainObject v) eqn:Ep; [|done]. destruct (hasExactly v HEADER_FIELDS) eqn:Ef; [|done]. cbn [andb negb].
    destruct (is_number _ (get_field v "v")) eqn:Ev; [|done]. cbn [negb].
    destruct (text_passing RELEASE_ID_PATTERN _) as [a|] eqn:E1; [|done]. apply text_passing_some in E1 as [G1 K1].
    destruct (isAccountId _) as [b|] eqn:E2; [|done]. apply text_passing_some in E2 as [G2 K2].
    destruct (isFingerprint _) as [c|] eqn:E3; [|done]. apply text_passing_some in E3 as [G3 K3%is_ok_some].
    destruct (canonical_field RELEASE_NONCE_BYTES _) as [d|] eqn:E4; [|done]. apply text_passing_some in E4 as [G4 K4%is_ok_some].
    destruct (text_passing ciphertext_ok _) as [e|] eqn:E5; [|done]. apply text_passing_some in E5 as [G5 K5].
    destruct (canonical_field RELEASE_KEY_COMMITMENT_BYTES _) as [f|] eqn:E6; [|done].
    apply text_passing_some in E6 as [G6 K6%is_ok_some].
    intros [= <-]. split; by constructor.
  - intros [[-> -> -> G1 G2 G3 G4 G5 G6] [K1 K2 K3 K4 K5 K6]]. rewrite G1, G2, G3, G4, G5, G6. cbn [andb negb].
    rewrite (proj2 (text_passing_some RELEASE_ID_PATTERN _ _) (conj eq_refl K1)). unfold isAccountId.
    rewrite (proj2 (text_passing_some RELEASE_ACCOUNT_ID_PATTERN _ _) (conj eq_refl K2)).
    apply is_ok_some in K3, K4, K6. unfold isFingerprint, canonical_field.
    rewrite (proj2 (text_passing_some _ _ _) (conj eq_refl K3)).
    rewrite (proj2 (text_passing_some _ _ _) (conj eq_refl K4)).
    rewrite (proj2 (text_passing_some ciphertext_ok _ _) (conj eq_refl K5)).
    rewrite (proj2 (text_passing_some _ _ _) (conj eq_refl K6)). by destruct h.
Qed.

Lemma header_js_writes h : writes_header (header_js h) h.
Proof. constructor; try done; apply is_number_jint. Qed.

Lemma parse_header_js h : parseReleaseHeader (header_js h) = Ok h <-> header_ok h.
Proof. rewrite parse_header_iff. pose proof (header_js_writes h). tauto. Qed.

(** ** Copies *)

Record copy_ok (c : ReleaseCopy) : Prop := {
  ko_account : RELEASE_ACCOUNT_ID_PATTERN (cp_recipientAccountId c) = true;
  ko_fingerprint : is_Some (fromHex (cp_recipientFingerprint c) RELEASE_FINGERPRINT_BYTES);
  ko_sealed : sealed_key_ok (cp_sealedKey c) = true;
  ko_signature : signature_ok (cp_signature c) = true;
}.

Record writes_copy (v : js) (c : ReleaseCopy) : Prop := {
  wc_plain : isPlainObject v = true;
  wc_fields : hasExactly v COPY_FIELDS = true;
  wc_account : get_field v "recipientAccountId" = JString (cp_recipientAccountId c);
  wc_fingerprint : get_field v "recipientFingerprint" = JString (cp_recipientFingerprint c);
  wc_sealed : get_field v "sealedKey" = JString (cp_sealedKey c);
  wc_signature : get_field v "signature" = JString (cp_signature c);
}.

Lemma parse_copy_iff v c : parseReleaseCopy v = Ok c <-> writes_copy v c /\ copy_ok c.
Proof.
  unfold parseReleaseCopy. split.
  - destruct (isPlainObject v) eqn:Ep; [|done]. destruct (hasExactly v COPY_FIELDS) eqn:Ef; [|done]. cbn [andb negb].
    destruct (isAccountId _) as [b|] eqn:E2; [|done]. apply text_passing_some in E2 as [G2 K2].
    destruct (isFingerprint _) as [d|] eqn:E3; [|done]. apply text_passing_some in E3 as [G3 K3%is_ok_some].
    destruct (text_passing sealed_key_ok _) as [e|] eqn:E5; [|done]. apply text_passing_some in E5 as [G5 K5].
    destruct (text_passing signature_ok _) as [f|] eqn:E6; [|done]. apply text_passing_some in E6 as [G6 K6].
    intros [= <-]. split; by constructor.
  - intros [[-> -> G1 G2 G3 G4] [K1 K2 K3 K4]]. rewrite G1, G2, G3, G4. cbn [andb negb]. unfold isAccountId.
    rewrite (proj2 (text_passing_some RELEASE_ACCOUNT_ID_PATTERN _ _) (conj eq_refl K1)).
    apply is_ok_some in K2. unfold isFingerprint.
    rewrite (proj2 (text_passing_some _ _ _) (conj eq_refl K2)).
    rewrite (proj2 (text_passing_some sealed_key_ok _ _) (conj eq_refl K3)).
    rewrite (proj2 (text_passing_some signature_ok _ _) (conj eq_refl K4)). by destruct c.
Qed.

Lemma parse_copy_js c : parseReleaseCopy (copy_js c) = Ok c <-> copy_ok c.
Proof. rewrite parse_copy_iff. split; [tauto|]. intros Hc. split; [by constructor|done]. Qed.

(** ** Envelopes *)

Definition of_owner (h : ReleaseHeader) (c : ReleaseCopy) : bool := bool_decide (cp_recipientAccountId c = rh_ownerAccountId h).

Lemma parse_copies_iff h entries seen n cs m :
  parse_copies h entries seen n = Ok (cs, m) <->
  Forall2 writes_copy entries cs /\ Forall copy_ok cs /\ NoDup (map cp_recipientAccountId cs) /\
  (forall c, In c cs -> cp_recipientAccountId c ∉ seen) /\
  (forall c, In c cs -> of_owner h c = true -> cp_recipientFingerprint c = rh_ownerFingerprint h) /\
  m = n + length (List.filter (of_owner h) cs).
Proof.
  revert seen n cs m. induction entries as [|v entries IH]; intros seen n cs m; cbn [parse_copies].
  - split.
    + intros [= <- <-]. split_and!; try done; simpl; try constructor; lia.
    + intros (Hf & _ & _ & _ & _ & ->). apply Forall2_nil_inv_l in Hf as ->. simpl. by rewrite Nat.add_0_r.
  - destruct (parseReleaseCopy v) as [p|c] eqn:Ec.
    { split; [done|]. intros (Hf & Hok & _). destruct cs as [|c cs]; [by inversion Hf|].
      apply Forall2_cons in Hf as [Hw _]. apply Forall_cons in Hok as [Hok _].
      by rewrite (proj2 (parse_copy_iff v c) (conj Hw Hok)) in Ec. }
    pose proof (proj1 (parse_copy_iff v c) Ec) as [Hw Hok].
    assert (Hone : forall d, writes_copy v d -> copy_ok d -> d = c).
    { intros d Hd Hd'. pose proof (proj2 (parse_copy_iff v d) (conj Hd Hd')). congruence. }
    fold (of_owner h c). case_bool_decide as Hseen.
    { split; [done|]. intros (Hf & Hoks & _ & Hs & _). destruct cs as [|d cs]; [by inversion Hf|].
      apply Forall2_cons in Hf as [Hd _]. apply Forall_cons in Hoks as [Hd' _].
      rewrite (Hone d Hd Hd') in Hs. by destruct (Hs c); [left|]. }
    destruct (of_owner h c && negb (bool_decide (cp_recipientFingerprint c = rh_ownerFingerprint h))) eqn:Eo.
    { split; [done|]. intros (Hf & Hoks & _ & _ & Hfp & _). destruct cs as [|d cs]; [by inversion Hf|].
      apply Forall2_cons in Hf as [Hd _]. apply Forall_cons in Hoks as [Hd' _]. rewrite (Hone d Hd Hd') in Hfp.
      apply andb_true_iff in Eo as [Eo1 Eo2]. apply negb_true_iff, bool_decide_eq_false in Eo2.
      destruct Eo2. apply Hfp; [by left|done]. }
    assert (Hfp : of_owner h c = true -> cp_recipientFingerprint c = rh_ownerFingerprint h).
    { intros E. rewrite E in Eo. simpl in Eo. by apply negb_false_iff, bool_decide_eq_true in Eo. }
    split.
    + destruct (parse_copies h entries _ _) as [|[ds k]] eqn:E; [done|]. intros [= <- <-].
      apply IH in E as (Hf & Hoks & Hnd & Hs & Hfps & ->). cbn [map List.filter].
      split_and!; [by constructor|by constructor| | | |].
      * constructor; [|done]. intros Hin. apply list_elem_of_In, in_map_iff in Hin as (d & Ed & Hd).
        apply (Hs d Hd). rewrite Ed. by left.
      * intros d [<-|Hd]; [done|]. intros Hin. apply (Hs d Hd). by right.
      * intros d [<-|Hd]; [done|by apply Hfps].
      * destruct (of_owner h c); simpl; lia.
    + intros (Hf & Hoks & Hnd & Hs & Hfps & ->). destruct cs as [|d cs]; [by inversion Hf|].
      apply Forall2_cons in Hf as [Hd Hf]. apply Forall_cons in Hoks as [Hd' Hoks].
      assert (d = c) as -> by by apply Hone. cbn [map] in Hnd. apply NoDup_cons in Hnd as [Hn Hnd].
      rewrite (proj2 (IH _ (if of_owner h c then S n else n) cs (n + length (List.filter (of_owner h) (c :: cs))))); [done|].
      split_and!; [done|done|done| | |].
      * intros e He Hin. apply elem_of_cons in Hin as [Ee|Hin]; [|by apply (Hs e); [right|]].
        apply Hn, list_elem_of_In, in_map_iff. by exists e.
      * intros e He. apply Hfps. by right.
      * cbn [List.filter]. destruct (of_owner h c); simpl; lia.
Qed.

Record envelope_ok (e : ReleaseEnvelope) : Prop := {
  eo_header : header_ok (en_header e);
  eo_count : 2 <= length (en_copies e) <= RELEASE_MAX_COPIES;
  eo_copies : Forall copy_ok (en_copies e);
  eo_accounts : NoDup (map cp_recipientAccountId (en_copies e));
  eo_owner : exists c, In c (en_copies e) /\ cp_recipientAccountId c = rh_ownerAccountId (en_header e) /\
                       cp_recipientFingerprint c = rh_ownerFingerprint (en_header e);
}.

(** An object that writes the envelope: the header's fields, [copies], and no others. *)
Record writes_envelope (v : js) (e : ReleaseEnvelope) : Prop := {
  we_plain : isPlainObject v = true;
  we_fields : hasExactly v ENVELOPE_FIELDS = true;
  we_header : writes_header (JObject true (map (fun f => (f, get_field v f)) HEADER_FIELDS)) (en_header e);
  we_copies : exists entries, get_field v "copies" = JArray entries /\ Forall2 writes_copy entries (en_copies e);
}.

(** With no account twice, one copy is the owner's exactly when some copy is. *)
Lemma owner_once h cs : NoDup (map cp_recipientAccountId cs) ->
  (length (List.filter (of_owner h) cs) = 1 <-> exists c, In c cs /\ of_owner h c = true).
Proof.
  intros Hnd. split.
  - destruct (List.filter (of_owner h) cs) as [|c l] eqn:E; [done|]. intros _. exists c.
    assert (Hc : In c (List.filter (of_owner h) cs)) by (rewrite E; by left). by apply filter_In in Hc.
  - intros (c & Hc & Ho). induction cs as [|d cs IH]; [done|]. cbn [map List.filter] in *.
    apply NoDup_cons in Hnd as [Hn Hnd]. destruct (of_owner h d) eqn:Ed.
    + simpl. f_equal. rewrite filter_none; [done|]. apply not_true_is_false. intros (x & Hx & Ex)%existsb_exists. apply Hn, list_elem_of_In, in_map_iff. exists x.
      unfold of_owner in *. apply bool_decide_eq_true in Ed, Ex. split; [congruence|done].
    + destruct Hc as [->|Hc]; [congruence|]. by apply IH.
Qed.

Lemma parse_envelope_iff v e : parseReleaseEnvelope v = Ok e <-> writes_envelope v e /\ envelope_ok e.
Proof.
  unfold parseReleaseEnvelope. split.
  - destruct (isPlainObject v) eqn:Ep; [|done]. destruct (hasExactly v ENVELOPE_FIELDS) eqn:Ef; [|done]. cbn [andb negb].
    destruct (parseReleaseHeader _) as [|h] eqn:Eh; [done|]. apply parse_header_iff in Eh as [Hw Hh].
    destruct (get_field v "copies") as [| | | | |entries|] eqn:Ec; try done.
    destruct (Nat.ltb (length entries) 2) eqn:E2; [done|]. destruct (Nat.ltb RELEASE_MAX_COPIES (length entries)) eqn:E3; [done|].
    apply Nat.ltb_ge in E2, E3. cbn [orb].
    destruct (parse_copies h entries [] 0) as [|[cs n]] eqn:Ecs; [done|].
    apply parse_copies_iff in Ecs as (Hf & Hoks & Hnd & _ & Hfp & ->). case_bool_decide as Hn; [|done].
    intros [= <-]. pose proof (Forall2_length _ _ _ Hf) as Hl. split; constructor; cbn [en_header en_copies]; eauto; [lia|].
    rewrite Nat.add_0_l, (owner_once h cs Hnd) in Hn. destruct Hn as (c & Hc & Ho). exists c.
    split_and!; [done|by apply bool_decide_eq_true in Ho|by apply Hfp].
  - intros [[-> -> Hw (entries & -> & Hf)] [Hh [Hc1 Hc2] Hoks Hnd (c & Hc & Ho & Hfp)]]. cbn [andb negb].
    rewrite (proj2 (parse_header_iff _ _) (conj Hw Hh)). pose proof (Forall2_length _ _ _ Hf) as Hl. rewrite Hl.
    rewrite (proj2 (Nat.ltb_ge _ _) Hc1), (proj2 (Nat.ltb_ge _ _) Hc2). cbn [orb].
    assert (Ho' : of_owner (en_header e) c = true) by by apply bool_decide_eq_true.
    rewrite (proj2 (parse_copies_iff (en_header e) entries [] 0 (en_copies e) (0 + length (List.filter (of_owner (en_header e)) (en_copies e))))).
    + rewrite (proj2 (owner_once _ _ Hnd)) by eauto. destruct e. by rewrite bool_decide_eq_true_2.
    + split_and!; try done; [by intros ? _ ?%elem_of_nil|].
      intros d Hd Ed. apply bool_decide_eq_true in Ed. rewrite <-Hfp. f_equal.
      eapply NoDup_map_unique; eauto. congruence.
Qed.

Lemma release_js_writes e : writes_envelope (release_js e) e.
Proof.
  constructor; [done|done| |].
  - constructor; try done; apply is_number_jint.
  - eexists. split; [done|]. induction (en_copies e); simpl; constructor; [by constructor|done].
Qed.

(** C27 (type): the release format off the wire.  [parseReleaseEnvelope] accepts a value exactly when it is an object with the
    envelope's fields and no others, written as a well-formed envelope: the identifiers, fingerprints, nonce,
    commitment, padded ciphertext, sealed keys and signatures in their one accepted encoding, 2 to 65 copies for
    different accounts, one of them the owner's under the header's fingerprint; what it gives back is that envelope, and an
    envelope is well-formed exactly when the object written from it is accepted as itself. *)
Theorem release_parse_exact v e :
  (parseReleaseEnvelope v = Ok e <-> writes_envelope v e /\ envelope_ok e) /\
  (parseReleaseEnvelope (release_js e) = Ok e <-> envelope_ok e).
Proof. split; [apply parse_envelope_iff|]. rewrite parse_envelope_iff. pose proof (release_js_writes e). tauto. Qed.
