(* ===== verification/KeyProofs.v ===== *)
(** * Identities and key sets: what a check says

    [verifyReleaseIdentity] accepts exactly the objects that write an acceptable
    identity, with the same answer whatever it draws; a key set that was made here
    passes [checkReleaseKeySet]. *)

From S2P Require Import Prelude JsMap CoalitionDomain Money Records Store Slug Bytes Crypto DeadDrop.
From S2P Require Import Identity Envelope SealingProofs ReleaseFormat.

(** ** Computations whose answer is the same for every draw *)

Definition steady {A} (m : C A) : Prop := exists r, forall n, exists n', m n = (n', r).

Lemma steady_ret {A} (a : A) : steady (ret a).
Proof. exists (Ok a). intros n. by exists n. Qed.
Lemma steady_settled {A} (m : C A) : settled m -> steady m.
Proof. intros [r Hr]. exists r. intros n. rewrite Hr. by exists n. Qed.
Lemma steady_bind {A B} (m : C A) (k : A -> C B) : steady m -> (forall a, steady (k a)) -> steady (bind m k).
Proof.
  intros [[e|a] Hm] Hk.
  - exists (Err e). intros n. unfold bind. destruct (Hm n) as [n' ->]. by exists n'.
  - destruct (Hk a) as [r Hr]. exists r. intros n. unfold bind. destruct (Hm n) as [n' ->]. apply Hr.
Qed.
Lemma steady_yields {A} (m : C A) a : steady m -> may m a -> yields m a.
Proof. intros [r Hr] (n & n' & E) k. destruct (Hr n) as [i Ei]. destruct (Hr k) as [j Ej]. exists j. congruence. Qed.

Lemma settled_catch {A} (m : C A) h : settled m -> (forall e, settled (h e)) -> settled (catch m h).
Proof.
  intros [[e|a] Hm] Hh.
  - destruct (Hh e) as [r Hr]. exists r. intros n. unfold catch. by rewrite Hm.
  - exists (Ok a). intros n. unfold catch. by rewrite Hm.
Qed.

Lemma always_steady {A} (m : C A) (a : A) : always m (eq a) -> steady m.
Proof. intros Hm. exists (Ok a). intros n. destruct (Hm n) as (n' & b & -> & <-). by exists n'. Qed.

Section keys.
Context `{WebCryptoLaws} `{DatesLaws}.

Hint Resolve settled_lift : settled.

(** ** Contribution *)

Definition nonzero (s : bytes) : bool := existsb (fun b => negb (b2z b =? 0)%Z) s.

Lemma nonzero_spec s : nonzero s = true <-> ~ Forall (fun x => x = x00) s.
Proof.
  unfold nonzero. induction s as [|b s IH]; cbn [existsb].
  - split; [done|]. intros Hn. destruct Hn. constructor.
  - rewrite orb_true_iff, IH, Forall_cons, negb_true_iff, Z.eqb_neq. split.
    + intros [Hb|Hs] [-> Hf]; done.
    + intros Hn. destruct (decide (b = x00)) as [->|Hb]; [right; tauto|]. left. intros E. apply Hb. by destruct b.
Qed.

(** A key that contributes: it imports, pairs are made, and no shared secret is zero. *)
Record contributes (key : bytes) : Prop := {
  ct_canonical : x25519KeyIsCanonical key = true;
  ct_import : yields (importRecipientPublicKey (toBase64 key)) key;
  ct_pairs : always generateEphemeralKeyPair (fun p => length p.1 = 32 /\ p.2 = okp_public X25519 p.1);
  ct_secret : forall d, length d = 32 -> exists s, x25519_bits d key = Ok s /\ length s = 32 /\ nonzero s = true;
}.

Lemma generate_uniform_ok crv n d : generate_okp crv n = Ok d -> forall m, exists d', generate_okp crv m = Ok d' /\ length d' = 32.
Proof.
  intros E m. pose proof (generate_uniform crv n m) as Hu. rewrite E in Hu.
  destruct (generate_okp crv m) as [|d'] eqn:E'; [done|]. exists d'. split; [done|by eapply okp_private_length].
Qed.

Lemma pairs_always n d : generate_okp X25519 n = Ok d ->
  always generateEphemeralKeyPair (fun p => length p.1 = 32 /\ p.2 = okp_public X25519 p.1).
Proof.
  intros E. unfold generateEphemeralKeyPair. eapply always_then; [apply draw_always|]. intros r [m ->].
  destruct (generate_uniform_ok _ _ _ E m) as (d' & -> & Hd'). cbn [lift].
  eapply always_then; [apply (always_ret _ (eq d')); done|]. intros ? <-. by apply always_ret.
Qed.

Lemma secret_uniform d key s : length d = 32 -> x25519_bits d key = Ok s -> forall d', length d' = 32 ->
  exists s', x25519_bits d' key = Ok s' /\ length s' = 32 /\ nonzero s' = nonzero s.
Proof.
  intros Hd Hs d' Hd'. pose proof (x25519_uniform d d' key Hd Hd') as Hu. rewrite Hs in Hu.
  destruct (x25519_bits d' key) as [|s'] eqn:E; [done|]. exists s'.
  split_and!; [done|by eapply x25519_bits_length|]. apply eq_true_iff_eq. rewrite !nonzero_spec. tauto.
Qed.

Lemma contributes_may key : may (x25519KeyContributes key) kc_yes -> contributes key.
Proof.
  unfold x25519KeyContributes. destruct (x25519KeyIsCanonical key) eqn:Ec; cbn [negb]; [|by intros [=]%may_ret].
  intros [Hm|(e & E%may_ret)]%may_catch; [|by destruct e].
  apply may_bind in Hm as (peer & Hp & ([d pub] & He & (s & Hs & E%may_ret)%may_bind)%may_bind).
  pose proof (import_public_may _ _ Hp) as [Hk _]. rewrite base64_round_trip in Hk. injection Hk as <-.
  unfold generateEphemeralKeyPair in He.
  apply may_bind in He as (r & [n ->]%draw_may & (d' & Hd%lift_may & [= -> _]%may_ret)%may_bind).
  apply lift_may in Hs. assert (Hl : length d = 32) by by eapply okp_private_length.
  assert (Hz : nonzero s = true). { unfold nonzero. by destruct (existsb _ s). }
  constructor; [done| |by eapply pairs_always|].
  - apply settled_yields; [apply settled_import_public|done].
  - intros d'' Hd''. destruct (secret_uniform d key s Hl Hs d'' Hd'') as (s' & ? & ? & ?). exists s'. split_and!; congruence.
Qed.

Lemma contributes_yields key : contributes key -> yields (x25519KeyContributes key) kc_yes.
Proof.
  intros [Hc Hi Hp Hs]. unfold x25519KeyContributes. rewrite Hc. cbn [negb]. apply yields_catch.
  eapply yields_bind; [exact Hi|]. eapply always_bind; [exact Hp|]. intros [d p] [Hd Hq].
  destruct (Hs d Hd) as (s & Es & _ & Hz). eapply yields_bind; [by apply lift_yields|].
  unfold nonzero in Hz. rewrite Hz. apply yields_ret.
Qed.

(** ** Identities *)

Record writes_identity (v : js) (i : ReleaseIdentity) : Prop := {
  wi_plain : isPlainObject v = true;
  wi_fields : hasExactly v IDENTITY_FIELDS = true;
  wi_version : is_number RELEASE_IDENTITY_VERSION (get_field v "v") = true;
  wi_account : get_field v "accountId" = JString (ri_accountId i);
  wi_signing : get_field v "signingKey" = JString (ri_signingKey i);
  wi_x25519 : get_field v "x25519Key" = JString (ri_x25519Key i);
  wi_mlkem : get_field v "mlkem768Key" = JString (ri_mlkem768Key i);
  wi_signature : get_field v "signature" = JString (ri_signature i);
}.

(** An acceptable identity, its keys and the bytes its own key signed. *)
Record accepted_with (i : ReleaseIdentity) (fp : string) (sk xk mk sg m : bytes) : Prop := {
  ac_version : ri_v i = RELEASE_IDENTITY_VERSION;
  ac_account : RELEASE_ACCOUNT_ID_PATTERN (ri_accountId i) = true;
  ac_signing : checked_key (JString (ri_signingKey i)) ED25519_PUBLIC_KEY_BYTES ed25519PublicKeyIsAcceptable = Some (ri_signingKey i, sk);
  ac_x25519 : checked_key (JString (ri_x25519Key i)) X25519_PUBLIC_KEY_BYTES x25519KeyIsCanonical = Some (ri_x25519Key i, xk);
  ac_mlkem : checked_key (JString (ri_mlkem768Key i)) MLKEM768_PUBLIC_KEY_BYTES mlKem768EncapsulationKeyIsWellFormed = Some (ri_mlkem768Key i, mk);
  ac_signature : checked_key (JString (ri_signature i)) ED25519_SIGNATURE_BYTES ed25519SignatureIsAcceptable = Some (ri_signature i, sg);
  ac_contributes : contributes xk;
  ac_bytes : yields (releaseIdentitySignedBytes (ri_accountId i) sk xk mk) m;
  ac_imports : import_raw Ed25519 sk = Ok ();
  ac_verifies : ed25519_verify sk sg m = Ok true;
  ac_fingerprint : fp = releaseIdentityFingerprint m;
}.
Definition accepted (i : ReleaseIdentity) (fp : string) : Prop := exists sk xk mk sg m, accepted_with i fp sk xk mk sg m.

Lemma checked_key_some v len ok s k : checked_key v len ok = Some (s, k) <-> v = JString s /\ decodeCanonicalBase64 s (Some len) = Some k /\ ok k = true.
Proof.
  destruct v as [| | | |t| |]; simpl; try (split; [done|by intros [? _]]).
  destruct (decodeCanonicalBase64 t (Some len)) as [k'|] eqn:E.
  - destruct (ok k') eqn:Eo; split.
    + intros [= -> ->]. done.
    + intros ([= ->] & E' & _). rewrite E in E'. by injection E' as ->.
    + done.
    + intros ([= ->] & E' & Ho). rewrite E in E'. injection E' as ->. congruence.
  - split; [done|]. intros ([= ->] & E' & _). congruence.
Qed.

Lemma identity_bytes_settled a sk xk mk : settled (releaseIdentitySignedBytes a sk xk mk).
Proof.
  unfold releaseIdentitySignedBytes. repeat (first [apply settled_bind; [|intros]|case_match]); eauto with settled.
Qed.

Lemma self_signature_true sk sg m : may (self_signature sk sg m) (Ok true) <-> import_raw Ed25519 sk = Ok () /\ ed25519_verify sk sg m = Ok true.
Proof.
  unfold self_signature. split.
  - intros [Hm|(e & E%may_ret)]%may_catch; [|done].
    apply may_bind in Hm as ([] & Hi%lift_may & (b & Hv%lift_may & [= ->]%may_ret)%may_bind). done.
  - intros [-> ->]. exists 0, 0. done.
Qed.

Lemma self_signature_settled sk sg m : settled (self_signature sk sg m).
Proof.
  unfold self_signature. apply settled_catch; [|intros; apply settled_ret].
  repeat (apply settled_bind; [|intros]); eauto with settled.
Qed.

Lemma verify_may v expected i fp : may (verifyReleaseIdentity v expected) (Ok (i, fp)) ->
  writes_identity v i /\ accepted i fp /\ (expected = None \/ expected = Some (ri_accountId i)).
Proof.
  unfold verifyReleaseIdentity, refuse.
  destruct (isPlainObject v) eqn:Ep; [|by intros [=]%may_ret]. destruct (hasExactly v _) eqn:Ef; [|by intros [=]%may_ret].
  destruct (is_number _ (get_field v "v")) eqn:Ev; [|by intros [=]%may_ret]. cbn [negb].
  destruct (get_field v "accountId") as [| | | |a| |] eqn:Ea; cbn [as_string]; try by intros [=]%may_ret.
  destruct (RELEASE_ACCOUNT_ID_PATTERN a) eqn:Epat; [|by intros [=]%may_ret]. cbn [negb].
  destruct (match expected with Some _ => _ | None => _ end) eqn:Ex; [by intros [=]%may_ret|].
  destruct (checked_key (get_field v "signingKey") _ _) as [[s1 sk]|] eqn:E1; [|by intros [=]%may_ret].
  destruct (checked_key (get_field v "x25519Key") _ _) as [[s2 xk]|] eqn:E2; [|by intros [=]%may_ret].
  destruct (checked_key (get_field v "mlkem768Key") _ _) as [[s3 mk]|] eqn:E3; [|by intros [=]%may_ret].
  destruct (checked_key (get_field v "signature") _ _) as [[s4 sg]|] eqn:E4; [|by intros [=]%may_ret].
  intros ([] & Hc & Hm)%may_bind; try by apply may_ret in Hm.
  apply may_bind in Hm as (m & Hb & ([p|[]] & Hv & Hm)%may_bind); try by apply may_ret in Hm.
  apply may_ret in Hm. injection Hm as <- <-. apply self_signature_true in Hv as [Hi Hv].
  apply checked_key_some in E1 as (G1 & ?), E2 as (G2 & ?), E3 as (G3 & ?), E4 as (G4 & ?).
  split_and!.
  - by constructor.
  - exists sk, xk, mk, sg, m. constructor; cbn [ri_v ri_accountId ri_signingKey ri_x25519Key ri_mlkem768Key ri_signature];
      try done; try (by apply checked_key_some).
    + by apply contributes_may.
    + by apply settled_yields; [apply identity_bytes_settled|].
  - destruct expected as [b|]; [right|by left]. apply negb_false_iff, bool_decide_eq_true in Ex. by subst.
Qed.

Lemma verify_yields v expected i fp :
  writes_identity v i -> accepted i fp -> (expected = None \/ expected = Some (ri_accountId i)) ->
  yields (verifyReleaseIdentity v expected) (Ok (i, fp)).
Proof.
  intros [Gp Gf Gv Ga G1 G2 G3 G4] (sk & xk & mk & sg & m & [Kv Ka K1 K2 K3 K4 Kc Kb Ki Ks ->]) He.
  unfold verifyReleaseIdentity. rewrite Gp, Gf, Gv, Ga, G1, G2, G3, G4. cbn [negb as_string]. rewrite Ka, K1, K2, K3, K4. cbn [negb].
  replace (match expected with Some a => _ | None => false end) with false.
  2: { destruct He as [-> | ->]; [done|]. by rewrite bool_decide_eq_true_2. }
  eapply yields_bind; [by apply contributes_yields|]. eapply yields_bind; [done|].
  eapply yields_bind.
  { apply settled_yields; [apply self_signature_settled|by apply self_signature_true]. }
  cbn iota. destruct i as [v0 ? ? ? ? ?]. cbn in *. subst v0. apply yields_ret.
Qed.

Lemma identity_js_writes i : ri_v i = RELEASE_IDENTITY_VERSION -> writes_identity (identity_js i) i.
Proof. intros Hv. constructor; try done. 
  change (get_field (identity_js i) "v") with (JNumber (jint (ri_v i))). rewrite Hv. apply is_number_jint.
Qed.

Lemma verify_own i fp expected : accepted i fp -> (expected = None \/ expected = Some (ri_accountId i)) ->
  yields (verifyReleaseIdentity (identity_js i) expected) (Ok (i, fp)).
Proof.
  intros Ha He. apply verify_yields; [|done..]. destruct Ha as (? & ? & ? & ? & ? & []). by apply identity_js_writes.
Qed.

Lemma writes_identity_js j i : ri_v i = RELEASE_IDENTITY_VERSION -> writes_identity (identity_js j) i -> i = j.
Proof.
  intros Hv [_ _ Hn Ga G1 G2 G3 G4].
  change (bool_decide (as_integer (jint (ri_v j)) = Some RELEASE_IDENTITY_VERSION) = true) in Hn.
  rewrite as_integer_jint in Hn. apply bool_decide_eq_true in Hn. injection Hn as Hn.
  injection Ga as Ga. injection G1 as G1. injection G2 as G2. injection G3 as G3. injection G4 as G4.
  destruct i, j; cbn in *; congruence.
Qed.

Lemma verified_recipient_may i p : may (verifiedRecipient i) p -> p.1 = i /\ accepted i p.2.
Proof.
  unfold verifiedRecipient. intros ([e|[j fp]] & Hv & Hm)%may_bind; [by apply may_throws in Hm|].
  apply may_ret in Hm as <-. apply verify_may in Hv as (Hw & Ha & _). cbn.
  enough (j = i) as -> by done. destruct Ha as (? & ? & ? & ? & ? & []). by eapply writes_identity_js.
Qed.

(** An accepted identity has one fingerprint. *)
Lemma accepted_one i fp fp' : accepted i fp -> accepted i fp' -> fp = fp'.
Proof.
  intros Ha Ha'. destruct (verify_own i fp None Ha (or_introl eq_refl) 0) as [n E].
  destruct (verify_own i fp' None Ha' (or_introl eq_refl) 0) as [n' E']. congruence.
Qed.
End keys.

(** ** Key sets made on this device

    What [createReleaseKeySet] gives is a key set whose private halves belong to its
    public identity, and such a key set passes [checkReleaseKeySet] whenever it is
    checked again. *)


(** What the sources rely on of an ML-KEM-768 provider. *)
Class MlKem768 (kem : KemProvider) : Prop := {
  mlkem_provider : provider_is_mlkem768 kem = true;
  mlkem_generated n pk sk : generateKeyPair kem n = Some (pk, sk) -> kem_pair kem pk sk;
  mlkem_encapsulates n pk : length pk = MLKEM768_PUBLIC_KEY_BYTES ->
    exists ct ss, encapsulate kem n pk = Some (ct, ss) /\ length ct = MLKEM768_CIPHERTEXT_BYTES /\ length ss = MLKEM768_SHARED_SECRET_BYTES;
}.

(** What a standard curve gives besides: an X25519 public key is written reduced, with the top bit clear (RFC 7748, section 5),
    and a signature has a scalar below the group order and a point outside the small subgroup (RFC 8032, section 5.1.6). *)
Class CurveLaws `{WebCrypto} : Prop := {
  generated_canonical n d : generate_okp X25519 n = Ok d -> x25519KeyIsCanonical (okp_public X25519 d) = true;
  own_signature_acceptable d m : length d = 32 -> ed25519SignatureIsAcceptable (ed25519_sign d m) = true;
}.

Section keysets.
Context `{WebCryptoLaws} `{DatesLaws}.
Variable kem : KemProvider.

(** The private halves: an Ed25519 key, an X25519 key and an ML-KEM-768 key. *)
Record Secrets : Type := { se_signing : bytes; se_x25519 : bytes; se_mlkem : bytes }.

Record genuine (k : ReleaseKeySet) (s : Secrets) : Prop := {
  gn_signing : length (se_signing s) = 32;
  gn_x25519 : length (se_x25519 s) = 32;
  gn_mlkem : length (se_mlkem s) = MLKEM768_SECRET_KEY_BYTES;
  gn_signing_jwk : ks_signingPrivateJwk k = export_jwk Ed25519 (se_signing s);
  gn_x25519_jwk : ks_x25519PrivateJwk k = export_jwk X25519 (se_x25519 s);
  gn_secret : ks_mlkem768SecretKey k = toBase64 (se_mlkem s);
  gn_signing_key : ri_signingKey (ks_identity k) = toBase64 (okp_public Ed25519 (se_signing s));
  gn_x25519_key : ri_x25519Key (ks_identity k) = toBase64 (okp_public X25519 (se_x25519 s));
  gn_mlkem_key : ri_mlkem768Key (ks_identity k) =
                   toBase64 (take_at MLKEM768_SECRET_KEY_EK_OFFSET MLKEM768_PUBLIC_KEY_BYTES (se_mlkem s));
  gn_pair : kem_pair kem (take_at MLKEM768_SECRET_KEY_EK_OFFSET MLKEM768_PUBLIC_KEY_BYTES (se_mlkem s)) (se_mlkem s);
  gn_identity : accepted (ks_identity k) (ks_fingerprint k);
  gn_created : is_Some (date_parse (ks_createdAt k));
}.

Lemma canonical_own b : b <> [] -> decodeCanonicalBase64 (toBase64 b) (Some (length b)) = Some b.
Proof. intros Hb. by apply canonical_iff. Qed.

Lemma url_own b : length b = 32 -> decodeBase64Url (toBase64Url b) 32 = Some b.
Proof. intros Hl. rewrite <-Hl at 1. by apply base64url_round_trip, (nonempty_length _ 31). Qed.

Lemma okpJwk_own crv d : length d = 32 -> okpJwk (jwk_js (export_jwk crv d)) crv = Some (export_jwk crv d).
Proof.
  intros Hd. unfold okpJwk.
  change (get_field (jwk_js (export_jwk crv d)) "kty") with (JString "OKP").
  change (get_field (jwk_js (export_jwk crv d)) "crv") with (JString (crv_name crv)).
  change (get_field (jwk_js (export_jwk crv d)) "d") with (JString (toBase64Url d)).
  change (get_field (jwk_js (export_jwk crv d)) "x") with (JString (toBase64Url (okp_public crv d))).
  unfold is_text. rewrite !bool_decide_eq_true_2 by done. cbn [negb andb].
  rewrite (url_own d Hd), (url_own (okp_public crv d)) by by apply okp_public_length. by rewrite !bool_decide_eq_false_2 by done.
Qed.

Lemma signing_key_yields d : length d = 32 -> yields (importReleaseSigningKey (export_jwk Ed25519 d)) d.
Proof. intros Hd. by apply lift_yields, import_own_jwk. Qed.

Lemma signing_matches d : length d = 32 -> yields (signingKeyMatches (export_jwk Ed25519 d) (okp_public Ed25519 d)) true.
Proof.
  intros Hd. unfold signingKeyMatches. rewrite bool_decide_eq_true_2 by done. cbn [negb]. apply yields_catch.
  eapply yields_bind; [by apply signing_key_yields|]. eapply always_bind; [apply randomBytes_always|]. intros nonce _.
  eapply yields_bind; [by apply lift_yields, import_own_raw|]. by apply lift_yields, ed25519_own.
Qed.

Lemma x25519_matches d : length d = 32 -> contributes (okp_public X25519 d) ->
  yields (x25519KeyMatches (export_jwk X25519 d) (okp_public X25519 d)) true.
Proof.
  intros Hd [_ Hi Hp Hs]. unfold x25519KeyMatches. rewrite bool_decide_eq_true_2 by done. cbn [negb]. apply yields_catch.
  eapply yields_bind; [by apply private_key_yields|]. eapply yields_bind; [exact Hi|].
  eapply always_bind; [exact Hp|]. intros [e pub] [He Hq]. cbn [fst snd] in He, Hq. subst pub.
  eapply yields_bind; [by apply import_own|]. destruct (Hs e He) as (s & Es & _ & Hz).
  eapply yields_bind; [apply lift_yields; rewrite x25519_commutes by done; exact Es|].
  eapply yields_bind; [by apply lift_yields|]. rewrite (proj2 (bytesEqual_iff s s) eq_refl).
  unfold nonzero in Hz. rewrite Hz. apply yields_ret.
Qed.

Lemma mlkem_matches pk sk : MlKem768 kem -> length pk = MLKEM768_PUBLIC_KEY_BYTES -> kem_pair kem pk sk ->
  pk = take_at MLKEM768_SECRET_KEY_EK_OFFSET MLKEM768_PUBLIC_KEY_BYTES sk -> yields (mlKemKeyMatches kem sk pk) mm_yes.
Proof.
  intros Hk Hl Hp Ep. unfold mlKemKeyMatches. rewrite (proj2 (bytesEqual_iff _ pk) (eq_sym Ep)). cbn [negb].
  eapply always_bind; [apply draw_always|]. intros r [n ->]. destruct (mlkem_encapsulates n pk Hl) as (ct & ss & E & _).
  rewrite E, (Hp n ct ss E), (proj2 (bytesEqual_iff ss ss) eq_refl). apply yields_ret.
Qed.

Lemma genuine_keys k s : genuine k s -> exists sg m,
  accepted_with (ks_identity k) (ks_fingerprint k) (okp_public Ed25519 (se_signing s)) (okp_public X25519 (se_x25519 s))
    (take_at MLKEM768_SECRET_KEY_EK_OFFSET MLKEM768_PUBLIC_KEY_BYTES (se_mlkem s)) sg m.
Proof.
  intros Hg. destruct (gn_identity _ _ Hg) as (sk & xk & mk & sg & m & Ha). exists sg, m.
  destruct Ha as [Kv Ka K1 K2 K3 K4 Kc Kb Ki Ks Kf].
  apply checked_key_some in K1 as K1', K2 as K2', K3 as K3'.
  destruct K1' as (_ & E1 & _), K2' as (_ & E2 & _), K3' as (_ & E3 & _).
  rewrite (gn_signing_key _ _ Hg) in E1. rewrite (gn_x25519_key _ _ Hg) in E2. rewrite (gn_mlkem_key _ _ Hg) in E3.
  apply canonical_iff in E1 as [E1%toBase64_inj _], E2 as [E2%toBase64_inj _], E3 as [E3%toBase64_inj _].
  subst sk xk mk. by constructor.
Qed.

Theorem genuine_checks k s account : MlKem768 kem -> genuine k s ->
  (account = None \/ account = Some (ri_accountId (ks_identity k))) ->
  yields (checkReleaseKeySet kem (keyset_js k) account) None.
Proof.
  intros Hk Hg Hacc. destruct (genuine_keys k s Hg) as (sg & m & Ha). unfold checkReleaseKeySet.
  change (keyset_js k) with (JObject true (members_of (keyset_js k))) at 1. cbn iota.
  change (get_field (keyset_js k) "fingerprint") with (JString (ks_fingerprint k)).
  change (get_field (keyset_js k) "mlkem768SecretKey") with (JString (ks_mlkem768SecretKey k)).
  change (get_field (keyset_js k) "createdAt") with (JString (ks_createdAt k)).
  change (get_field (keyset_js k) "signingPrivateJwk") with (jwk_js (ks_signingPrivateJwk k)).
  change (get_field (keyset_js k) "x25519PrivateJwk") with (jwk_js (ks_x25519PrivateJwk k)).
  change (get_field (keyset_js k) "identity") with (identity_js (ks_identity k)).
  rewrite (gn_signing_jwk _ _ Hg), (gn_x25519_jwk _ _ Hg), !okpJwk_own by apply Hg. cbn [as_string].
  rewrite bool_decide_eq_false_2.
  2: { destruct (gn_created _ _ Hg) as [z ->]. done. }
  eapply yields_bind; [apply verify_own; [apply Hg|done]|]. cbn iota.
  rewrite bool_decide_eq_true_2 by done. cbn [negb].
  destruct Ha as [Kv Ka K1 K2 K3 K4 Kc Kb Ki Ks Kf].
  apply checked_key_some in K1 as (_ & -> & _), K2 as (_ & -> & _), K3 as (_ & E3 & _). rewrite E3.
  rewrite (gn_secret _ _ Hg), <-(gn_mlkem _ _ Hg), canonical_own by (eapply (nonempty_length _ 2399), Hg).
  eapply yields_bind; [apply signing_matches, Hg|]. cbn [negb].
  eapply yields_bind; [by apply x25519_matches; [apply Hg|]|]. cbn [negb]. rewrite mlkem_provider. cbn [negb].
  eapply yields_bind; [apply mlkem_matches; [done| |apply Hg|done]|].
  { by apply canonical_iff in E3 as (_ & _ & El). }
  apply yields_ret.
Qed.

(** What a key set that passed its check says of itself. *)
Lemma checked_may k account : may (checkReleaseKeySet kem (keyset_js k) account) None ->
  accepted (ks_identity k) (ks_fingerprint k) /\ is_Some (date_parse (ks_createdAt k)) /\ exists mk sk,
    decodeCanonicalBase64 (ri_mlkem768Key (ks_identity k)) (Some MLKEM768_PUBLIC_KEY_BYTES) = Some mk /\
    decodeCanonicalBase64 (ks_mlkem768SecretKey k) (Some MLKEM768_SECRET_KEY_BYTES) = Some sk /\
    take_at MLKEM768_SECRET_KEY_EK_OFFSET MLKEM768_PUBLIC_KEY_BYTES sk = mk.
Proof.
  unfold checkReleaseKeySet. change (keyset_js k) with (JObject true (members_of (keyset_js k))) at 1. cbn iota.
  change (get_field (keyset_js k) "fingerprint") with (JString (ks_fingerprint k)).
  change (get_field (keyset_js k) "mlkem768SecretKey") with (JString (ks_mlkem768SecretKey k)).
  change (get_field (keyset_js k) "createdAt") with (JString (ks_createdAt k)).
  change (get_field (keyset_js k) "signingPrivateJwk") with (jwk_js (ks_signingPrivateJwk k)).
  change (get_field (keyset_js k) "x25519PrivateJwk") with (jwk_js (ks_x25519PrivateJwk k)).
  change (get_field (keyset_js k) "identity") with (identity_js (ks_identity k)). cbn [as_string].
  destruct (okpJwk _ Ed25519) as [j1|]; [|by intros [=]%may_ret]. destruct (okpJwk _ X25519) as [j2|]; [|by intros [=]%may_ret].
  case_bool_decide as Hd; [by intros [=]%may_ret|].
  intros ([e|[i fp]] & Hv & Hm)%may_bind; [by apply may_ret in Hm|]. apply verify_may in Hv as (Hw & Ha & _).
  assert (i = ks_identity k) as ->. { destruct Ha as (? & ? & ? & ? & ? & []). by eapply writes_identity_js. }
  case_bool_decide as Hf; cbn [negb] in Hm; [|by apply may_ret in Hm]. subst fp.
  split; [done|]. split; [by apply not_eq_None_Some|].
  destruct (decodeCanonicalBase64 (ri_signingKey _) _) as [sk1|]; [|by apply may_ret in Hm].
  destruct (decodeCanonicalBase64 (ri_x25519Key _) _) as [xk|]; [|by apply may_ret in Hm].
  destruct (decodeCanonicalBase64 (ri_mlkem768Key _) _) as [mk|]; [|by apply may_ret in Hm].
  destruct (decodeCanonicalBase64 (ks_mlkem768SecretKey k) _) as [sk|]; [|by apply may_ret in Hm].
  exists mk, sk. split_and!; [done..|].
  apply may_bind in Hm as ([] & _ & Hm); [|by apply may_ret in Hm].
  cbn [negb] in Hm. apply may_bind in Hm as ([] & _ & Hm); [|by apply may_ret in Hm]. cbn [negb] in Hm.
  destruct (provider_is_mlkem768 kem); [|by apply may_ret in Hm]. cbn [negb] in Hm.
  apply may_bind in Hm as ([] & Hmm & Hm); try by apply may_ret in Hm.
  unfold mlKemKeyMatches in Hmm. destruct (bytesEqual _ mk) eqn:Eb; [by apply bytesEqual_iff|].
  by apply may_ret in Hmm.
Qed.

Theorem created_genuine account now k : MlKem768 kem -> may (createReleaseKeySet kem account now) k ->
  exists s, genuine k s /\ ri_accountId (ks_identity k) = account.
Proof.
  intros Hkem. unfold createReleaseKeySet. destruct (negb (RELEASE_ACCOUNT_ID_PATTERN account)); [by intros ?%may_throws|].
  destruct (negb (provider_is_mlkem768 kem)); [by intros ?%may_throws|].
  intros (r & [n ->]%draw_may & (sd & Hsd%lift_may & Hm)%may_bind)%may_bind.
  assert (Ls : length sd = 32) by by eapply okp_private_length.
  apply may_bind in Hm as ([xpub xjwk] & Hx & Hm). unfold generateRecipientKeyPair in Hx.
  apply may_bind in Hx as (r & [n' ->]%draw_may & (xd & Hxd%lift_may & [= <- <-]%may_ret)%may_bind).
  assert (Lx : length xd = 32) by by eapply okp_private_length.
  apply may_bind in Hm as (r & [n'' ->]%draw_may & ([pk sk] & Hkp%may_or_throw & Hm)%may_bind).
  rewrite !okpJwk_own in Hm by done. case_bool_decide as Hl; cbn [negb] in Hm; [|by apply may_throws in Hm].
  destruct Hl as (_ & Lpk & Lsk). apply may_bind in Hm as (i & Hi & ([e|[j fp]] & Hv & Hm)%may_bind); [by apply may_throws in Hm|].
  apply may_bind in Hm as ([p|] & Hc & Hm); [by apply may_throws in Hm|]. apply may_ret in Hm as <-.
  apply checked_may in Hc as (Ha & Hcr & mk & sk' & E1 & E2 & Et).
  cbn [ks_identity ks_fingerprint ks_mlkem768SecretKey ks_createdAt] in *.
  apply canonical_iff in E2 as [E2%toBase64_inj _]. subst sk'.
  unfold signReleaseIdentity in Hi.
  apply may_bind in Hi as (b1 & _ & (b2 & _ & (b3 & _ & (m & _ & <-%may_ret)%may_bind)%may_bind)%may_bind).
  cbn [ri_mlkem768Key] in E1. apply canonical_iff in E1 as [E1%toBase64_inj _]. subst mk.
  exists {| se_signing := sd; se_x25519 := xd; se_mlkem := sk |}. split; [|done].
  constructor; cbn [se_signing se_x25519 se_mlkem ks_signingPrivateJwk ks_x25519PrivateJwk ks_mlkem768SecretKey
    ks_identity ks_fingerprint ks_createdAt ri_signingKey ri_x25519Key ri_mlkem768Key]; rewrite ?Et; try done.
  by eapply mlkem_generated.
Qed.
End keysets.
