(* ===== verification/ReleaseRuntime.v ===== *)
(** * A platform to run on

    Concrete functions with the laws of [WebCryptoLaws], [DatesLaws] and [MlKem768], so
    that the definitions run and the theorems have instances.  Nothing about them is
    secure: the point is that the laws can hold together. *)

From S2P Require Import Prelude JsMap CoalitionDomain Money Records Store Slug Bytes Crypto DeadDrop Identity Envelope.
From S2P Require Import SealingProofs ReleaseFormat KeyProofs.
Local Open Scope Z_scope.

(** ** Hashes and streams *)

Fixpoint z_bytes (n : nat) (z : Z) : bytes :=
  match n with 0%nat => [] | S n => z2b (z mod 256) :: z_bytes n (z / 256) end.

Lemma z_bytes_length n z : length (z_bytes n z) = n.
Proof. revert z. induction n as [|n IH]; intros z; [done|]. simpl. by rewrite IH. Qed.

Definition sum_hash (bits : Z) (b : bytes) : Z := let m := Z.ones bits in foldl (fun h x => Z.land (h * 257 + b2z x + 1) m) 7 b.
Definition toy_sha256 (b : bytes) : bytes := z_bytes 32 (sum_hash 40 b).
Definition toy_sha512 (b : bytes) : bytes := z_bytes 64 (sum_hash 40 b).

Definition stretch (h : bytes) (len : nat) : bytes := map (fun i => nth (i mod 32) h x00) (seq 0 len).

Lemma stretch_length h len : length (stretch h len) = len.
Proof. unfold stretch. by rewrite length_map, length_seq. Qed.

(** ** Text *)

Definition utf8_char (c : ascii) : bytes :=
  let n := Z.of_nat (nat_of_ascii c) in if n <? 128 then [z2b n] else [z2b (192 + n / 64); z2b (128 + n mod 64)].
Definition toy_utf8 (s : string) : bytes := flat_map utf8_char (chars s).

Fixpoint utf8_read (fuel : nat) (b : bytes) : option (list ascii) :=
  match fuel, b with
  | _, [] => Some []
  | 0%nat, _ => None
  | S fuel, x :: b =>
      if b2z x <? 128 then (fun l => ascii_of_nat (Z.to_nat (b2z x)) :: l) <$> utf8_read fuel b
      else match b with
           | y :: b => (fun l => ascii_of_nat (Z.to_nat ((b2z x - 192) * 64 + (b2z y - 128))) :: l) <$> utf8_read fuel b
           | [] => None
           end
  end.
Definition toy_fatal (b : bytes) : option string := of_chars <$> utf8_read (length b) b.

Definition char_reads (c : ascii) : bool :=
  match utf8_char c with
  | [x] => (b2z x <? 128) && Ascii.eqb (ascii_of_nat (Z.to_nat (b2z x))) c
  | [x; y] => negb (b2z x <? 128) && Ascii.eqb (ascii_of_nat (Z.to_nat ((b2z x - 192) * 64 + (b2z y - 128)))) c
  | _ => false
  end.

Lemma all_chars_read c : char_reads c = true.
Proof. destruct c as [[] [] [] [] [] [] [] []]; vm_compute; reflexivity. Qed.

Lemma utf8_read_back l fuel : (length (flat_map utf8_char l) <= fuel)%nat -> utf8_read fuel (flat_map utf8_char l) = Some l.
Proof.
  revert fuel. induction l as [|c l IH]; intros fuel Hf; [by destruct fuel|]. cbn [flat_map] in *.
  pose proof (all_chars_read c) as Hc. unfold char_reads in Hc. rewrite length_app in Hf.
  destruct (utf8_char c) as [|x [|y [|z r]]]; try done; cbn [app length] in *.
  - apply andb_true_iff in Hc as [Hx Hc]. apply Ascii.eqb_eq in Hc. destruct fuel as [|fuel]; [lia|]. cbn [utf8_read].
    rewrite Hx, IH by lia. simpl. by rewrite Hc.
  - apply andb_true_iff in Hc as [Hx Hc]. apply negb_true_iff in Hx. apply Ascii.eqb_eq in Hc.
    destruct fuel as [|fuel]; [lia|]. cbn [utf8_read]. rewrite Hx, IH by lia. simpl. by rewrite Hc.
Qed.

Lemma toy_fatal_back s : toy_fatal (toy_utf8 s) = Some s.
Proof. unfold toy_fatal, toy_utf8. rewrite utf8_read_back by done. simpl. by rewrite of_chars_chars. Qed.

Lemma toy_utf8_ascii s : forallb (fun c => Nat.ltb (nat_of_ascii c) 128) (chars s) = true -> toy_utf8 s = ascii_bytes s.
Proof.
  unfold toy_utf8, ascii_bytes. induction (chars s) as [|c l IH]; [done|]. cbn [forallb flat_map map].
  rewrite andb_true_iff, Nat.ltb_lt. intros [Hc Hl]. rewrite IH by done. unfold utf8_char.
  destruct (Z.ltb_spec (Z.of_nat (nat_of_ascii c)) 128); [|lia]. cbn [app]. f_equal.
  clear. destruct c as [[] [] [] [] [] [] [] []]; vm_compute; reflexivity.
Qed.

(** ** Encryption: the plaintext with a tag *)

Definition toy_tag (key iv aad : bytes) : bytes := take 16 (toy_sha256 (key ++ iv ++ aad)).
Definition toy_encrypt (key iv aad plain : bytes) : bytes := plain ++ toy_tag key iv aad.
Definition toy_decrypt (key iv aad ct : bytes) : option bytes :=
  let n := (length ct - 16)%nat in if bool_decide (drop n ct = toy_tag key iv aad) then Some (take n ct) else None.

Lemma toy_tag_length key iv aad : length (toy_tag key iv aad) = 16%nat.
Proof. unfold toy_tag, toy_sha256. by rewrite length_take, z_bytes_length. Qed.

Lemma toy_exact key iv aad plain ct : toy_decrypt key iv aad ct = Some plain <-> toy_encrypt key iv aad plain = ct.
Proof.
  unfold toy_decrypt, toy_encrypt. split.
  - case_bool_decide as E; [|done]. intros [= <-]. rewrite <-E. apply take_drop.
  - intros <-. rewrite length_app, toy_tag_length, Nat.add_sub, drop_app_length, take_app_length. by rewrite bool_decide_eq_true_2.
Qed.

Definition toy_hkdf (ikm salt info : bytes) (len : nat) : option bytes :=
  if Z.of_nat len <=? 255 * 32 then Some (stretch (toy_sha256 (ikm ++ salt ++ info)) len) else None.

(** ** Keys: the public half is the private one *)

Definition toy_key (n : nat) : bytes := z2b (Z.of_nat n) :: replicate 31 x07.
Definition toy_shared (a p : bytes) : bytes :=
  x01 :: map (fun i => z2b (b2z (nth i a x00) + b2z (nth i p x00))) (seq 1 31).
Definition toy_sign (d m : bytes) : bytes := x02 :: take 31 (toy_sha256 (d ++ m)) ++ replicate 32 x00.
Definition toy_jwk (d : string) : res crypto_error bytes :=
  match decodeBase64Url d 32 with Some b => Ok b | None => Err ce_operation end.

#[global] Instance toy_crypto : WebCrypto := {|
  utf8Encode := toy_utf8; utf8Decode b := default "" (toy_fatal b); utf8Fatal := toy_fatal;
  sha256 := toy_sha256; sha512 := toy_sha512; hkdf_bits := toy_hkdf;
  aes_encrypt := toy_encrypt; aes_decrypt := toy_decrypt;
  random_values n len := map (fun i => z2b (Z.of_nat (31 * n + i))) (seq 0 len);
  generate_okp _ n := Ok (toy_key n); okp_public _ d := d; import_raw _ _ := Ok ();
  import_jwk _ d _ := toy_jwk d; x25519_bits a p := Ok (toy_shared a p);
  ed25519_sign := toy_sign; ed25519_verify pk sg m := Ok (bool_decide (sg = toy_sign pk m)) |}.

Lemma toy_shared_nonzero a p : ~ Forall (fun x => x = x00) (toy_shared a p).
Proof. intros Hf. by apply Forall_cons in Hf as [Hx _]. Qed.

#[global] Instance toy_crypto_laws : WebCryptoLaws.
Proof.
  constructor.
  - apply toy_utf8_ascii.
  - apply toy_fatal_back.
  - intros s. simpl. by rewrite toy_fatal_back.
  - intros b. apply z_bytes_length.
  - intros b. apply z_bytes_length.
  - intros ikm salt info len Hl. eexists. split; [|apply (stretch_length (toy_sha256 (ikm ++ salt ++ info)))].
    simpl. unfold toy_hkdf. by rewrite (proj2 (Z.leb_le _ _) Hl).
  - intros ikm salt info len Hl. simpl. unfold toy_hkdf. by rewrite (proj2 (Z.leb_gt _ _) Hl).
  - intros. apply toy_exact.
  - intros. simpl. unfold toy_encrypt. by rewrite length_app, toy_tag_length.
  - intros. simpl. by rewrite length_map, length_seq.
  - intros crv n d [= <-]. reflexivity.
  - done.
  - done.
  - intros crv d Hd. simpl. unfold toy_jwk. by rewrite url_own.
  - intros a b _ _. simpl. unfold toy_shared. do 2 f_equal. apply map_ext. intros i. by rewrite Z.add_comm.
  - intros a p s [= <-]. reflexivity.
  - done.
  - intros a b p _ _. simpl. split; intros Hf; by apply toy_shared_nonzero in Hf.
  - intros d m. change (length (toy_sign d m) = 64%nat). unfold toy_sign. cbn [length]. rewrite length_app, length_take, length_replicate.
    unfold toy_sha256. by rewrite z_bytes_length.
  - intros d m _. simpl. by rewrite bool_decide_eq_true_2.
Qed.

#[global] Instance toy_curve_laws : CurveLaws.
Proof.
  constructor.
  - intros n d [= <-]. reflexivity.
  - intros d m _. change (ed25519_sign d m) with ((x02 :: take 31 (toy_sha256 (d ++ m))) ++ replicate 32 x00).
    assert (Hl : length (take 31 (toy_sha256 (d ++ m))) = 31%nat) by (unfold toy_sha256; by rewrite length_take, z_bytes_length).
    revert Hl. generalize (take 31 (toy_sha256 (d ++ m))). intros l Hl. unfold ed25519SignatureIsAcceptable.
    rewrite take_app_length', drop_app_length' by (cbn [length]; lia).
    rewrite bool_decide_eq_true_2 by (rewrite length_app; cbn [length]; rewrite Hl; done).
    unfold ed25519PointHasSmallOrder. rewrite bool_decide_eq_true_2 by (cbn [length]; rewrite Hl; done). reflexivity.
Qed.

(** ** Dates: a sign and binary digits *)

Fixpoint pos_text (p : positive) : string :=
  match p with xH => "" | xO p => String "0" (pos_text p) | xI p => String "1" (pos_text p) end.
Fixpoint text_pos (s : string) : option positive :=
  match s with
  | EmptyString => Some xH
  | String c s => if Ascii.eqb c "0" then xO <$> text_pos s else if Ascii.eqb c "1" then xI <$> text_pos s else None
  end.
Definition toy_iso (z : Z) : string :=
  match z with Z0 => "Z" | Zpos p => String "+" (pos_text p) | Zneg p => String "-" (pos_text p) end.
Definition toy_date (s : string) : option Z :=
  match s with
  | String c s => if Ascii.eqb c "+" then Zpos <$> text_pos s else if Ascii.eqb c "-" then Zneg <$> text_pos s
                  else if Ascii.eqb c "Z" then Some 0 else None
  | EmptyString => None
  end.

#[global] Instance toy_dates : Dates := {| date_parse := toy_date; toISOString := toy_iso |}.

Lemma text_pos_back p : text_pos (pos_text p) = Some p.
Proof. induction p as [p IH|p IH|]; simpl; [by rewrite IH..|done]. Qed.

#[global] Instance toy_dates_laws : DatesLaws.
Proof. constructor. intros [|p|p]; simpl; rewrite ?text_pos_back; done. Qed.

(** ** A KEM: the secret key holds the public one *)

Definition toy_kem_public (n : nat) : bytes := replicate 1184 (z2b (Z.of_nat n mod 8)).
Definition toy_kem_secret (pk : bytes) : bytes := replicate 1152 x00 ++ pk ++ replicate 64 x00.

Definition toy_kem : KemProvider := {|
  publicKeyLength := 1184; secretKeyLength := 2400; ciphertextLength := 1088; sharedSecretLength := 32;
  generateKeyPair n := Some (toy_kem_public n, toy_kem_secret (toy_kem_public n));
  encapsulate n pk := let ct := replicate 1088 (z2b (Z.of_nat n)) in Some (ct, toy_sha256 (pk ++ ct));
  decapsulate ct sk := Some (toy_sha256 (take_at 1152 1184 sk ++ ct)) |}.

#[global] Instance toy_mlkem : MlKem768 toy_kem.
Proof.
  constructor; [done| |].
  - intros n pk sk [= <- <-] m ct ss [= <- <-]. cbn [decapsulate toy_kem]. do 2 f_equal.
  - intros n pk _. eexists _, _. split; [reflexivity|]. by split; [apply length_replicate|].
Qed.

(** ** Running a computation *)

Definition result {A} (r : nat * res thrown A) (d : A) : A := match snd r with Ok a => a | Err _ => d end.
Definition ends_well {A} (r : nat * res thrown A) : bool := match snd r with Ok _ => true | Err _ => false end.

Definition value {A} (r : nat * res thrown A) : option A := match snd r with Ok a => Some a | Err _ => None end.

Lemma run_may {A} (m : C A) n a : value (m n) = Some a -> may m a.
Proof. unfold value. destruct (m n) as [n' [e|b]] eqn:E; cbn; [done|]. intros [= ->]. by exists n, n'. Qed.

(** ** A release: alice writes to bob, and later to carol

    The key sets and the envelope are the values the runs give. *)

Definition no_jwk : OkpJwk := {| jwk_kty := ""; jwk_crv := ""; jwk_d := ""; jwk_x := "" |}.
Definition no_keys : ReleaseKeySet :=
  {| ks_identity := {| ri_v := 0; ri_accountId := ""; ri_signingKey := ""; ri_x25519Key := ""; ri_mlkem768Key := ""; ri_signature := "" |};
     ks_fingerprint := ""; ks_signingPrivateJwk := no_jwk; ks_x25519PrivateJwk := no_jwk; ks_mlkem768SecretKey := ""; ks_createdAt := "" |}.

Definition alice : ReleaseKeySet := Eval vm_compute in result (createReleaseKeySet toy_kem "alice" 5 0%nat) no_keys.
Definition bob : ReleaseKeySet := Eval vm_compute in result (createReleaseKeySet toy_kem "bob" 6 20%nat) no_keys.
Definition carol : ReleaseKeySet := Eval vm_compute in result (createReleaseKeySet toy_kem "carol" 7 40%nat) no_keys.

Lemma alice_made : may (createReleaseKeySet toy_kem "alice" 5) alice.
Proof. apply (run_may _ 0%nat). vm_compute. reflexivity. Qed.
Lemma bob_made : may (createReleaseKeySet toy_kem "bob" 6) bob.
Proof. apply (run_may _ 20%nat). vm_compute. reflexivity. Qed.
Lemma carol_made : may (createReleaseKeySet toy_kem "carol" 7) carol.
Proof. apply (run_may _ 40%nat). vm_compute. reflexivity. Qed.

Definition dawn : string := "Meet at dawn.".
Definition no_header : ReleaseHeader :=
  {| rh_releaseId := ""; rh_ownerAccountId := ""; rh_ownerFingerprint := ""; rh_contentNonce := ""; rh_contentCiphertext := "";
     rh_keyCommitment := "" |}.
Definition no_copy : ReleaseCopy :=
  {| cp_recipientAccountId := ""; cp_recipientFingerprint := ""; cp_sealedKey := ""; cp_signature := "" |}.

Definition dawn_release : ReleaseEnvelope := Eval vm_compute in
  result (buildReleaseEnvelope toy_kem alice [ks_identity bob] dawn None 60%nat) {| en_header := no_header; en_copies := [] |}.
Definition dawn_header : js := header_js (en_header dawn_release).
Definition dawn_copy (i : nat) : ReleaseCopy := nth i (en_copies dawn_release) no_copy.

Lemma dawn_built : may (buildReleaseEnvelope toy_kem alice [ks_identity bob] dawn None) dawn_release.
Proof. apply (run_may _ 60%nat). vm_compute. reflexivity. Qed.

(** Opened by bob and by alice. *)
Definition read_by (k : ReleaseKeySet) : OpenedRelease :=
  {| or_text := dawn; or_releaseId := rh_releaseId (en_header dawn_release); or_ownerAccountId := "alice";
     or_ownerFingerprint := ks_fingerprint alice; or_keySetFingerprint := ks_fingerprint k |}.

Lemma bob_opens : may (openReleaseCopy toy_kem dawn_header (copy_js (dawn_copy 1)) (identity_js (ks_identity alice)) "bob" [bob])
  (Ok (read_by bob)).
Proof. apply (run_may _ 80%nat). vm_compute. reflexivity. Qed.
Lemma alice_opens : may (openReleaseCopy toy_kem dawn_header (copy_js (dawn_copy 0)) (identity_js (ks_identity alice)) "alice" [alice])
  (Ok (read_by alice)).
Proof. apply (run_may _ 80%nat). vm_compute. reflexivity. Qed.

(** Sealed again to carol. *)
Definition carol_copy : ReleaseCopy := Eval vm_compute in
  result (resealReleaseCopy toy_kem (rh_releaseId (en_header dawn_release)) dawn_header (copy_js (dawn_copy 0)) alice (ks_identity carol) 90%nat) no_copy.
Lemma carol_sealed :
  may (resealReleaseCopy toy_kem (rh_releaseId (en_header dawn_release)) dawn_header (copy_js (dawn_copy 0)) alice (ks_identity carol)) carol_copy.
Proof. apply (run_may _ 90%nat). vm_compute. reflexivity. Qed.
