(* ===== verification/ReleaseSafety.v ===== *)
(** * Release copies open

    What a copy is made of, that its reader's key set unwraps the content key from it,
    and that the content key gives the message back. *)

From S2P Require Import Prelude CoalitionDomain Money Records Store Slug JsMap Bytes Crypto DeadDrop.
From S2P Require Import Identity Envelope SealingProofs ReleaseFormat KeyProofs ReleaseRuntime.
Local Open Scope Z_scope.

Section opening.
Context `{WebCryptoLaws} `{DatesLaws}.
Variable kem : KemProvider.
Context `{!MlKem768 kem}.

Hint Resolve settled_lift : settled.

Lemma provider_lengths : publicKeyLength kem = MLKEM768_PUBLIC_KEY_BYTES /\ secretKeyLength kem = MLKEM768_SECRET_KEY_BYTES /\
  ciphertextLength kem = MLKEM768_CIPHERTEXT_BYTES /\ sharedSecretLength kem = MLKEM768_SHARED_SECRET_BYTES.
Proof.
  pose proof (mlkem_provider (kem := kem)) as Hp. unfold provider_is_mlkem768 in Hp.
  rewrite !andb_true_iff, !bool_decide_eq_true in Hp. tauto.
Qed.

Lemma asserts : assertMlKem768 kem = ret ().
Proof. unfold assertMlKem768. destruct provider_lengths as (? & ? & ? & _). by rewrite bool_decide_eq_true_2. Qed.

(** ** The bytes a copy's signature covers *)

Lemma headerBytes_settled h : settled (headerBytes h).
Proof. unfold headerBytes. repeat (apply settled_bind; [|intros]); eauto with settled. Qed.

Lemma context_settled c : settled (contextBytes c).
Proof.
  unfold contextBytes, asciiField, fingerprintField.
  repeat (first [apply settled_bind; [|intros]|case_match]); eauto with settled.
Qed.

Lemma transcript_settled c : settled (releaseSealTranscript c).
Proof. unfold releaseSealTranscript. apply settled_bind; [apply context_settled|intros; apply settled_ret]. Qed.

Lemma commitment_settled K : settled (releaseKeyCommitment K).
Proof. unfold releaseKeyCommitment. case_match; eauto with settled. Qed.

Lemma commitment_may K b : may (releaseKeyCommitment K) b ->
  length K = RELEASE_CONTENT_KEY_BYTES /\ b = sha256 (labelBytes RELEASE_KEY_COMMITMENT_LABEL ++ K).
Proof. unfold releaseKeyCommitment. case_bool_decide; [by intros <-%may_ret|by intros ?%may_throws]. Qed.

(** The header's texts decoded: nonce, ciphertext and commitment. *)
Record header_parts (h : ReleaseHeader) (nonce ct cm : bytes) : Prop := {
  hp_nonce : rh_contentNonce h = toBase64 nonce;
  hp_nonce_length : length nonce = RELEASE_NONCE_BYTES;
  hp_ciphertext : rh_contentCiphertext h = toBase64 ct;
  hp_ciphertext_some : ct <> [];
  hp_commitment : rh_keyCommitment h = toBase64 cm;
  hp_commitment_length : length cm = RELEASE_KEY_COMMITMENT_BYTES;
}.

Lemma header_bytes_may h hash cm : may (headerBytes h) (hash, cm) ->
  exists nonce ct, header_parts h nonce ct cm /\ hash = releaseContentHash nonce ct.
Proof.
  unfold headerBytes. intros (n & E1%may_or_throw & (c & E2%may_or_throw & (k & E3%may_or_throw & [= <- <-]%may_ret)%may_bind)%may_bind)%may_bind.
  apply canonical_iff in E1 as (? & ? & ?), E2 as (? & ? & _), E3 as (? & ? & ?). by exists n, c.
Qed.

Lemma header_bytes_yields h nonce ct cm : header_parts h nonce ct cm -> yields (headerBytes h) (releaseContentHash nonce ct, cm).
Proof.
  intros [E1 L1 E2 L2 E3 L3]. unfold headerBytes. rewrite E1, E2, E3.
  eapply yields_bind; [apply yields_or_throw, canonical_iff; split_and!; [done|by eapply (nonempty_length _ 11)|done]|].
  eapply yields_bind; [by apply yields_or_throw, canonical_iff|].
  eapply yields_bind; [apply yields_or_throw, canonical_iff; split_and!; [done|by eapply (nonempty_length _ 31)|done]|].
  apply yields_ret.
Qed.

(** ** What a sealed copy is made of *)

Record sealed_parts (h : ReleaseHeader) (K : bytes) (acct fp : string) (peer : bytes) (signer : bytes) (r : HybridSealRandomness)
    (c : ReleaseCopy) (transcript sealedKey signed : bytes) (sealed : HybridSealed) : Prop := {
  sp_account : cp_recipientAccountId c = acct;
  sp_fingerprint : cp_recipientFingerprint c = fp;
  sp_transcript : yields (releaseSealTranscript (contextFor h acct fp)) transcript;
  sp_sealed : may (hybridSealWith K peer transcript r) sealed;
  sp_encoded : may (encodeSealedKey sealed) sealedKey;
  sp_sealedKey : cp_sealedKey c = toBase64 sealedKey;
  sp_signed : exists hash cm, yields (headerBytes h) (hash, cm) /\
                yields (releaseCopySignedBytes (contextFor h acct fp) hash cm sealedKey) signed;
  sp_signature : cp_signature c = toBase64 (ed25519_sign signer signed);
}.

Lemma seal_verified_may h K i fp signer r c : may (sealVerified h K (i, fp) signer r) c ->
  length K = RELEASE_CONTENT_KEY_BYTES /\ exists peer transcript sealedKey signed sealed,
    fromBase64 (ri_x25519Key i) = Some peer /\
    sealed_parts h K (ri_accountId i) fp peer signer r c transcript sealedKey signed sealed.
Proof.
  unfold sealVerified. cbn [fst snd]. case_bool_decide as Hl; cbn [negb]; [|by intros ?%may_throws].
  intros (peer & [Hp _]%import_public_may & (t & Ht & (sealed & Hs & (sk & Hk & ([hash cm] & Hh & (m & Hb & <-%may_ret)%may_bind)%may_bind)%may_bind)%may_bind)%may_bind)%may_bind.
  split; [done|]. exists peer, t, sk, m, sealed. split; [done|]. constructor; try done.
  - apply settled_yields; [apply transcript_settled|done].
  - exists hash, cm. split; apply settled_yields; try done; [apply headerBytes_settled|apply signed_bytes_settled].
Qed.

(** The copy's own draw: an ephemeral pair, an encapsulation and a nonce. *)
Lemma seal_release_may h K i signer c : may (sealReleaseCopy kem h K i signer) c ->
  exists fp mk e n ct ss nonce, accepted i fp /\ decodeCanonicalBase64 (ri_mlkem768Key i) (Some MLKEM768_PUBLIC_KEY_BYTES) = Some mk /\
    (length e = 32%nat /\ exists j, generate_okp X25519 j = Ok e) /\ encapsulate kem n mk = Some (ct, ss) /\
    may (sealVerified h K (i, fp) signer
      {| hr_ephemeral := (e, okp_public X25519 e); hr_encapsulation := (ct, ss); hr_nonce := nonce |}) c.
Proof.
  unfold sealReleaseCopy. rewrite asserts.
  intros (u & _ & ([j fp] & [Ej Ha]%verified_recipient_may & (mk & Hmk%may_or_throw & ([e pub] & He & (p & Henc & (nonce & _ & Hs)%may_bind)%may_bind)%may_bind)%may_bind)%may_bind)%may_bind.
  pose proof (ephemeral_generated _ He) as Hg. apply ephemeral_may in He as [He Hpub].
  cbn [fst snd] in *. subst j pub. unfold kem_encapsulate in Henc.
  apply may_bind in Henc as (r & [n ->]%draw_may & Henc%may_or_throw). destruct p as [ct ss]. naive_solver.
Qed.

(** ** The signature *)

Lemma owner_verifier h owner so nonce ct cm : genuine kem owner so ->
  ri_accountId (ks_identity owner) = rh_ownerAccountId h -> ks_fingerprint owner = rh_ownerFingerprint h ->
  header_parts h nonce ct cm ->
  yields (releaseSignatureVerifier h (identity_js (ks_identity owner)))
    (Ok (verify_copy h (okp_public Ed25519 (se_signing so)) (releaseContentHash nonce ct) cm)).
Proof.
  intros Hg Ea Ef Hp. destruct (genuine_keys _ _ _ Hg) as (sg & m & Ha). unfold releaseSignatureVerifier.
  eapply yields_bind; [apply verify_own; [apply Hg|right; by rewrite Ea]|]. cbn iota.
  rewrite bool_decide_eq_true_2 by done. cbn [negb].
  destruct Ha as [Kv Ka K1 K2 K3 K4 Kc Kb Ki Ks Kf]. apply checked_key_some in K1 as (_ & K1 & _).
  unfold ED25519_PUBLIC_KEY_BYTES in K1. rewrite K1.
  eapply (yields_bind _ _ (Ok ())).
  { apply yields_catch. eapply yields_bind; [by apply lift_yields|apply yields_ret]. }
  cbn iota. eapply yields_bind; [by apply header_bytes_yields|apply yields_ret].
Qed.

Lemma own_signature_verifies h K acct fp peer d r c t sealedKey signed sealed nonce ct cm :
  length d = 32%nat -> sealed_parts h K acct fp peer d r c t sealedKey signed sealed -> parseReleaseCopy (copy_js c) = Ok c ->
  header_parts h nonce ct cm ->
  yields (verify_copy h (okp_public Ed25519 d) (releaseContentHash nonce ct) cm c) true.
Proof.
  intros Hd [<- <- Ht Hs He Ek (hash & cm' & Hb & Hm) Es] Hc Hp. unfold verify_copy. rewrite Hc.
  pose proof (yields_may _ _ (header_bytes_yields _ _ _ _ Hp)) as (n & n' & E1). destruct (Hb n) as [n2 E2].
  rewrite E2 in E1. injection E1 as _ -> ->.
  pose proof (yields_may _ _ Hm) as (b & _ & _ & _ & Lk & _)%signed_bytes_may. rewrite Ek, Es.
  rewrite <-Lk, canonical_own by by eapply (nonempty_length _ 1179).
  unfold ED25519_SIGNATURE_BYTES. rewrite <-(ed25519_signature_length d signed) at 1.
  rewrite canonical_own by eapply (nonempty_length _ 63), ed25519_signature_length.
  eapply yields_bind; [exact Hm|]. apply yields_catch, lift_yields. by apply ed25519_own.
Qed.

(** ** The wrap *)

Lemma decode_sealed s b : may (encodeSealedKey s) b -> yields (decodeSealedKey b) s /\ length b = RELEASE_SEALED_KEY_BYTES.
Proof.
  unfold encodeSealedKey. case_bool_decide as Hl; [|by intros ?%may_throws]. intros <-%may_ret. destruct Hl as (L1 & L2 & L3 & L4).
  assert (L : length (hs_ephemeralPublicKey s ++ hs_kemCiphertext s ++ hs_nonce s ++ hs_ciphertext s) = RELEASE_SEALED_KEY_BYTES).
  { rewrite !length_app, L1, L2, L3, L4. done. }
  split; [|done]. unfold decodeSealedKey. rewrite bool_decide_eq_true_2 by done. unfold take_at. rewrite drop_0.
  rewrite (take_app_length' _ _ _ (eq_sym L1)), (drop_app_length' _ _ _ (eq_sym L1)), (take_app_length' _ _ _ (eq_sym L2)).
  rewrite <-!drop_drop, (drop_app_length' _ _ _ (eq_sym L1)), (drop_app_length' _ _ _ (eq_sym L2)), (take_app_length' _ _ _ (eq_sym L3)), (drop_app_length' _ _ _ (eq_sym L3)).
  rewrite <-L4, firstn_all. destruct s. apply yields_ret.
Qed.

(** A copy made for a key set unwraps to the content key under it. *)
Lemma copy_unwraps h K owner so k s c nonce ct cm :
  genuine kem owner so -> genuine kem k s ->
  ri_accountId (ks_identity owner) = rh_ownerAccountId h -> ks_fingerprint owner = rh_ownerFingerprint h ->
  header_parts h nonce ct cm -> may (releaseKeyCommitment K) cm ->
  may (sealReleaseCopy kem h K (ks_identity k) (se_signing so)) c -> parseReleaseCopy (copy_js c) = Ok c ->
  cp_recipientAccountId c = ri_accountId (ks_identity k) /\ cp_recipientFingerprint c = ks_fingerprint k /\
  yields (unwrapCopy kem h c (identity_js (ks_identity owner)) k) (Ok K).
Proof.
  intros Hgo Hgk Ea Ef Hp Hcm (fp & mk & e & n & kc & ss & kn & Hacc & Hmk & [He _] & Henc & Hs)%seal_release_may Hc.
  assert (fp = ks_fingerprint k) as -> by (eapply accepted_one; [done|apply Hgk]).
  apply seal_verified_may in Hs as (LK & peer & t & sealedKey & signed & sealed & Hpeer & Hsp).
  rewrite (gn_x25519_key _ _ _ Hgk), base64_round_trip in Hpeer. injection Hpeer as <-.
  rewrite (gn_mlkem_key _ _ _ Hgk) in Hmk. apply canonical_iff in Hmk as [Hmk%toBase64_inj _]. subst mk.
  split; [apply Hsp|]. split; [apply Hsp|]. unfold unwrapCopy.
  eapply yields_bind; [by eapply owner_verifier|]. cbn iota.
  eapply yields_bind; [eapply own_signature_verifies; eauto; apply Hgo|]. cbn [negb].
  destruct Hsp as [E1 E2 Ht Hw He' Ek _ _]. destruct (decode_sealed _ _ He') as [Hdec Lk].
  rewrite Ek, <-Lk, canonical_own by by eapply (nonempty_length _ 1179).
  rewrite (gn_secret _ _ _ Hgk), <-(gn_mlkem _ _ _ Hgk), canonical_own by (eapply (nonempty_length _ 2399), Hgk).
  eapply (yields_bind _ _ (Ok K)).
  { unfold open_wrap. apply yields_catch. rewrite (gn_x25519_jwk _ _ _ Hgk).
    eapply yields_bind; [apply private_key_yields, Hgk|]. eapply yields_bind; [exact Hdec|].
    rewrite E1, E2. eapply yields_bind; [exact Ht|].
    eapply yields_bind; [|apply yields_ret]. eapply hybrid_opens; [apply Hgk|exact He|apply Hgk|exact Henc|exact Hw]. }
  cbn iota. rewrite (hp_commitment _ _ _ _ Hp), <-(hp_commitment_length _ _ _ _ Hp), canonical_own
    by (eapply (nonempty_length _ 31), Hp).
  eapply yields_bind; [apply settled_yields; [apply commitment_settled|exact Hcm]|].
  rewrite (proj2 (bytesEqual_iff cm cm) eq_refl). apply yields_ret.
Qed.

(** ** The content *)

Lemma utf8_nonempty s : s <> "" -> utf8Encode s <> [].
Proof.
  intros Hs E. apply Hs. pose proof (utf8_back s) as E1. pose proof (utf8_back "") as E2.
  rewrite (utf8_ascii "" eq_refl) in E2. rewrite E in E1. cbn in E2. congruence.
Qed.

Lemma content_decrypts h message K nonce ct cm : header_ok h -> header_parts h nonce ct cm ->
  may (encryptReleaseContentWith message (rh_releaseId h) (rh_ownerAccountId h) K nonce) ct ->
  yields (decryptReleaseContent h K) message.
Proof.
  intros Hok Hp. unfold encryptReleaseContentWith. case_bool_decide as Hl; cbn [negb]; [|by intros ?%may_throws].
  intros (bs & Hbs & (padded & (size & _ & _ & ->)%pad_may & (key & Hkey & (aad & Haad & Hct%may_ret)%may_bind)%may_bind)%may_bind)%may_bind.
  unfold encodeReleaseMessage in Hbs. case_bool_decide as Hm; [by apply may_throws in Hbs|].
  destruct (RELEASE_MESSAGE_MAX_BYTES <? Z.of_nat (length (utf8Encode message))) eqn:Emax; [by apply may_throws in Hbs|].
  apply may_ret in Hbs as <-.
  unfold decryptReleaseContent. rewrite (proj2 (parse_header_js h) Hok). destruct Hp as [E1 L1 E2 L2 E3 L3]. rewrite E1, E2.
  eapply yields_bind; [apply yields_or_throw; rewrite <-L1; apply canonical_own; by eapply (nonempty_length _ 11)|].
  eapply yields_bind; [by apply yields_or_throw, canonical_iff|].
  eapply yields_bind; [apply settled_yields; [unfold importAesGcmKey; case_match; eauto with settled|exact Hkey]|].
  eapply yields_bind.
  { apply settled_yields; [|exact Haad]. unfold releaseContentAssociatedData, asciiField.
    repeat (first [apply settled_bind; [|intros]|case_match]); eauto with settled. }
  eapply yields_bind; [apply yields_or_throw, aes_exact; exact Hct|].
  eapply yields_bind; [apply yields_or_throw, unpad_padded|]. rewrite Emax, bool_decide_eq_false_2.
  - cbn [orb]. apply yields_or_throw, utf8_back.
  - rewrite length_zero_iff_nil. apply utf8_nonempty. intros ->. by apply Hm.
Qed.

Lemma content_settled h K : settled (decryptReleaseContent h K).
Proof.
  unfold decryptReleaseContent, importAesGcmKey, releaseContentAssociatedData, asciiField, decrypt.
  repeat (first [apply settled_bind; [|intros]|case_match]); eauto with settled.
Qed.

(** ** Opening *)

(** The key set that is tried is the first with the copy's fingerprint. *)
Lemma opens_unwrapped h c owner keySets k s K message :
  genuine kem k s -> header_ok h -> parseReleaseCopy (copy_js c) = Ok c ->
  cp_recipientAccountId c = ri_accountId (ks_identity k) ->
  List.find (fun x => bool_decide (ks_fingerprint x = cp_recipientFingerprint c)) keySets = Some k ->
  yields (unwrapCopy kem h c owner k) (Ok K) -> yields (decryptReleaseContent h K) message ->
  yields (openReleaseCopy kem (header_js h) (copy_js c) owner (ri_accountId (ks_identity k)) keySets)
    (Ok {| or_text := message; or_releaseId := rh_releaseId h; or_ownerAccountId := rh_ownerAccountId h;
           or_ownerFingerprint := rh_ownerFingerprint h; or_keySetFingerprint := ks_fingerprint k |}).
Proof.
  intros Hgk Hok Hc Ea Efind Hun Hdec. unfold openReleaseCopy. rewrite (proj2 (parse_header_js h) Hok), Hc.
  rewrite bool_decide_eq_true_2 by done. cbn [negb]. rewrite Efind, asserts.
  eapply (yields_bind _ _ true); [apply yields_catch, (yields_bind _ _ ()); apply yields_ret|]. cbn [negb].
  eapply yields_bind; [eapply genuine_checks; eauto|]. cbn iota.
  eapply yields_bind; [exact Hun|]. cbn iota. apply yields_catch. eapply yields_bind; [exact Hdec|apply yields_ret].
Qed.
End opening.

(** ** What a dead-man release promises

    A built release opens for the owner and for everyone it names, and again after it
    is sealed anew; what opens is what the owner's device wrote, unless a signature was
    forged or SHA-256 collided; two readers of one header read one text. *)

Local Open Scope Z_scope.

Section safety.
Context `{WebCryptoLaws} `{DatesLaws}.
Variable kem : KemProvider.
Context `{!MlKem768 kem}.

Hint Resolve settled_lift : settled.

Definition sha256_collision (a b : bytes) : Prop := a <> b /\ sha256 a = sha256 b.

Lemma collision_or_eq a b : sha256 a = sha256 b -> a = b \/ sha256_collision a b.
Proof. intros E. destruct (decide (a = b)); [by left|by right]. Qed.

Lemma may_yields_eq {A} (m : C A) a b : may m a -> yields m b -> a = b.
Proof. intros (n & n' & E) Hy. destruct (Hy n) as [k E']. congruence. Qed.

Lemma yields_eq {A} (m : C A) a b : yields m a -> yields m b -> a = b.
Proof. intros Ha. by apply may_yields_eq, yields_may. Qed.

(** ** Building, taken apart *)

Lemma writes_header_js h v h' : writes_header v h' -> (forall f, In f HEADER_FIELDS -> get_field v f = get_field (header_js h) f) -> h' = h.
Proof.
  intros [_ _ _ G1 G2 G3 G4 G5 G6] Hv. destruct h, h'.
  rewrite Hv in G1, G2, G3, G4, G5, G6 by (cbn; tauto). cbn in *. congruence.
Qed.

Lemma parse_release_js e e' : parseReleaseEnvelope (release_js e) = Ok e' -> e' = e /\ envelope_ok e.
Proof.
  intros E. apply parse_envelope_iff in E as [[_ _ Hh (entries & [= <-] & Hc)] Hok].
  assert (Eh : en_header e' = en_header e).
  { eapply writes_header_js; [exact Hh|]. intros f Hf. cbn in Hf. naive_solver. }
  assert (Ec : en_copies e' = en_copies e).
  { clear -Hc. remember (en_copies e') as cs' eqn:E. clear E. revert cs' Hc.
    induction (en_copies e) as [|c cs IH]; intros cs' Hc; cbn [map] in Hc.
    - by apply Forall2_nil_inv_l in Hc.
    - apply Forall2_cons_inv_l in Hc as (c' & l & [_ _ G1 G2 G3 G4] & Hl & ->). f_equal; [|by apply IH].
      cbn in *. destruct c, c'; cbn in *; congruence. }
  destruct e, e'; cbn in *; subst. done.
Qed.

Lemma seal_copies_may h K d ids cs : may (seal_copies kem h K d ids) cs ->
  Forall2 (fun i c => may (sealReleaseCopy kem h K i d) c) ids cs.
Proof.
  revert cs. induction ids as [|i ids IH]; intros cs; cbn [seal_copies].
  - intros <-%may_ret. constructor.
  - intros (c & Hc & (l & Hl & <-%may_ret)%may_bind)%may_bind. constructor; [done|by apply IH].
Qed.

(** What a built envelope rests on: a fresh key, the content under it, a copy each. *)
Record built_with (owner : ReleaseKeySet) (recipients : list ReleaseIdentity) (message : string) (e : ReleaseEnvelope)
    (d K nonce ct cm : bytes) : Prop := {
  bw_ok : envelope_ok e;
  bw_owner : ri_accountId (ks_identity owner) = rh_ownerAccountId (en_header e);
  bw_fingerprint : ks_fingerprint owner = rh_ownerFingerprint (en_header e);
  bw_parts : header_parts (en_header e) nonce ct cm;
  bw_commits : may (releaseKeyCommitment K) cm;
  bw_content : may (encryptReleaseContentWith message (rh_releaseId (en_header e)) (rh_ownerAccountId (en_header e)) K nonce) ct;
  bw_signer : may (importReleaseSigningKey (ks_signingPrivateJwk owner)) d;
  bw_copies : Forall2 (fun i c => may (sealReleaseCopy kem (en_header e) K i d) c) (ks_identity owner :: recipients) (en_copies e);
}.

Lemma build_may owner recipients message given e : may (buildReleaseEnvelope kem owner recipients message given) e ->
  exists d K nonce ct cm, built_with owner recipients message e d K nonce ct cm.
Proof.
  unfold buildReleaseEnvelope. rewrite (asserts kem). intros ([] & _ & (p & Hcheck & Hm)%may_bind)%may_bind.
  destruct p as [[]|]; try by apply may_throws in Hm.
  destruct (Nat.ltb (length recipients) 1 || _); [by apply may_throws in Hm|].
  destruct (negb _ || bool_decide (_ ∈ map _ _)); [by apply may_throws in Hm|].
  apply may_bind in Hm as (rid & _ & (K & _ & (nonce & HN%randomBytes_length & (ct & Hct & (cm & Hcm & (d & Hd & (cs & Hcs & Hm)%may_bind)%may_bind)%may_bind)%may_bind)%may_bind)%may_bind).
  destruct (parseReleaseEnvelope _) as [|e'] eqn:Ee; [by apply may_throws in Hm|]. apply may_ret in Hm as ->.
  apply parse_release_js in Ee as [-> Hok]. exists d, K, nonce, ct, cm.
  constructor; cbn [en_header en_copies rh_ownerAccountId rh_ownerFingerprint rh_releaseId]; try done; [|by apply seal_copies_may].
  constructor; try done.
  - unfold encryptReleaseContentWith in Hct. case_bool_decide; cbn [negb] in Hct; [|by apply may_throws in Hct].
    apply may_bind in Hct as (m & _ & (padded & _ & (key & _ & (aad & _ & <-%may_ret)%may_bind)%may_bind)%may_bind).
    apply (nonempty_length _ (length padded + 15)). rewrite aes_length. lia.
  - apply commitment_may in Hcm as [_ ->]. apply sha256_length.
Qed.

Lemma signer_own owner so d : genuine kem owner so -> may (importReleaseSigningKey (ks_signingPrivateJwk owner)) d -> d = se_signing so.
Proof.
  intros Hg Hd. rewrite (gn_signing_jwk _ _ _ Hg) in Hd. eapply may_yields_eq; [exact Hd|]. apply signing_key_yields, Hg.
Qed.

(** Every copy of a built envelope unwraps to the key its content is under. *)
Lemma built_unwraps owner so recipients message e d K nonce ct cm i c k s :
  genuine kem owner so -> genuine kem k s -> built_with owner recipients message e d K nonce ct cm ->
  may (sealReleaseCopy kem (en_header e) K i d) c -> ks_identity k = i -> parseReleaseCopy (copy_js c) = Ok c ->
  cp_recipientAccountId c = ri_accountId i /\ cp_recipientFingerprint c = ks_fingerprint k /\
  yields (unwrapCopy kem (en_header e) c (identity_js (ks_identity owner)) k) (Ok K).
Proof.
  intros Hgo Hgk [Hok Ho Hf Hp Hcm Hct Hd Hcs] Hs <- Hc. rewrite (signer_own _ _ _ Hgo Hd) in Hs. by eapply copy_unwraps.
Qed.

(** The release as its reader sees it. *)
Definition opened (e : ReleaseEnvelope) (k : ReleaseKeySet) (message : string) : OpenedRelease :=
  {| or_text := message; or_releaseId := rh_releaseId (en_header e); or_ownerAccountId := rh_ownerAccountId (en_header e);
     or_ownerFingerprint := rh_ownerFingerprint (en_header e); or_keySetFingerprint := ks_fingerprint k |}.

(** The first of a reader's key sets with the fingerprint of [k] is [k]. *)
Definition holds (keySets : list ReleaseKeySet) (k : ReleaseKeySet) : Prop :=
  List.find (fun x => bool_decide (ks_fingerprint x = ks_fingerprint k)) keySets = Some k.

Lemma Forall2_in_l {A B} (R : A -> B -> Prop) l l' x : Forall2 R l l' -> In x l -> exists y, In y l' /\ R x y.
Proof.
  induction 1 as [|a b l l' Hr _ IH]; intros Hin; [done|]. destruct Hin as [->|Hin]; [exists b; split; [by left|done]|].
  destruct (IH Hin) as (y & ? & ?). exists y. split; [by right|done].
Qed.

(** C3 (roundtrip): a release that [buildReleaseEnvelope] gives opens for the owner and for every recipient it names:
    each has a copy in it, and [openReleaseCopy] on the header, that copy and the owner's identity gives back the
    message, the release and the owner, whatever is drawn meanwhile and whatever other key sets the reader holds. *)
Theorem sealed_release_opens owner so recipients message given e k s keySets :
  genuine kem owner so -> genuine kem k s -> In (ks_identity k) (ks_identity owner :: recipients) -> holds keySets k ->
  may (buildReleaseEnvelope kem owner recipients message given) e ->
  exists c, In c (en_copies e) /\ cp_recipientAccountId c = ri_accountId (ks_identity k) /\
    yields (openReleaseCopy kem (header_js (en_header e)) (copy_js c) (identity_js (ks_identity owner))
              (ri_accountId (ks_identity k)) keySets)
      (Ok (opened e k message)).
Proof.
  intros Hgo Hgk Hin Hh (d & K & nonce & ct & cm & Hb)%build_may.
  destruct (Forall2_in_l _ _ _ _ (bw_copies _ _ _ _ _ _ _ _ _ Hb) Hin) as (c & Hc & Hs).
  assert (Hok : parseReleaseCopy (copy_js c) = Ok c).
  { apply parse_copy_js. pose proof (eo_copies _ (bw_ok _ _ _ _ _ _ _ _ _ Hb)) as Hall. rewrite List.Forall_forall in Hall. by apply Hall. }
  destruct (built_unwraps _ _ _ _ _ _ _ _ _ _ _ _ _ _ Hgo Hgk Hb Hs eq_refl Hok) as (Ea & Ef & Hu).
  exists c. split_and!; [done..|].
  eapply opens_unwrapped; eauto; [apply Hb|by rewrite Ef|].
  eapply content_decrypts; [apply Hb|apply Hb|]. apply Hb.
Qed.
(** ** Sealing again *)

(** What [resealReleaseCopy] went through. *)
Lemma reseal_may releaseId hv cv owner recipient c : may (resealReleaseCopy kem releaseId hv cv owner recipient) c ->
  exists h c0 K message d, parseReleaseHeader hv = Ok h /\ parseReleaseCopy cv = Ok c0 /\ rh_releaseId h = releaseId /\
    ri_accountId (ks_identity owner) = rh_ownerAccountId h /\ ks_fingerprint owner = rh_ownerFingerprint h /\
    cp_recipientAccountId c0 = rh_ownerAccountId h /\ ri_accountId recipient <> rh_ownerAccountId h /\
    may (unwrapCopy kem h c0 (identity_js (ks_identity owner)) owner) (Ok K) /\ may (decryptReleaseContent h K) message /\
    may (importReleaseSigningKey (ks_signingPrivateJwk owner)) d /\ may (sealReleaseCopy kem h K recipient d) c.
Proof.
  unfold resealReleaseCopy. rewrite (asserts kem). intros ([] & _ & Hm)%may_bind.
  destruct (parseReleaseHeader hv) as [|h] eqn:Eh; [by apply may_throws in Hm|].
  case_bool_decide as E1; cbn [negb] in Hm; [|by apply may_throws in Hm].
  destruct (parseReleaseCopy cv) as [|c0] eqn:Ec; [by apply may_throws in Hm|].
  case_bool_decide as E2; cbn [negb orb] in Hm; [|by apply may_throws in Hm].
  case_bool_decide as E3; cbn [negb orb] in Hm; [|by apply may_throws in Hm].
  case_bool_decide as E4; cbn [negb orb] in Hm; [|by apply may_throws in Hm].
  case_bool_decide as E5; cbn [negb orb] in Hm; [|by apply may_throws in Hm].
  case_bool_decide as E6; [by apply may_throws in Hm|].
  apply may_bind in Hm as ([[]|] & _ & Hm); try by apply may_throws in Hm.
  apply may_bind in Hm as ([p|K] & Hu & Hm); [by apply may_throws in Hm|].
  apply may_bind in Hm as (message & [Ht|(x & Ht%may_throws)]%may_catch & (d & Hd & Hs)%may_bind); [|done].
  by exists h, c0, K, message, d.
Qed.

(** On standard curves what [sealReleaseCopy] makes passes every check of [parseReleaseCopy], which it does not run itself. *)
Lemma seal_copy_ok `{!CurveLaws} h K i d c : length d = 32%nat -> may (sealReleaseCopy kem h K i d) c -> copy_ok c.
Proof.
  intros Hd (fp & mk & e & n & ct & ss & nonce & (sk & xk & mk' & sg & m & Hacc) & _ & (He & j & Hj) & _ & Hs)%(seal_release_may kem).
  apply seal_verified_may in Hs as (_ & peer & t & sealedKey & signed & sealed & _ & [Ea Ef _ Hw Hk Es _ Eg]).
  unfold hybridSealWith in Hw. destruct (negb _); [by apply may_throws in Hw|].
  apply may_bind in Hw as (ec & _ & (u & _ & (key & _ & <-%may_ret)%may_bind)%may_bind). constructor.
  - rewrite Ea. apply Hacc.
  - rewrite Ef, (ac_fingerprint _ _ _ _ _ _ _ Hacc). exists (sha256 m). apply fromHex_iff. split; [done|apply sha256_length].
  - destruct (decode_sealed _ _ Hk) as [_ Lk]. unfold encodeSealedKey in Hk.
    case_bool_decide as Hl; [|by apply may_throws in Hk]. destruct Hl as [L1 _].
    unfold sealed_key_ok. rewrite Es, <-Lk, canonical_own by by eapply (nonempty_length _ 1179).
    apply may_ret in Hk as <-. cbn [hs_ephemeralPublicKey fst snd hr_ephemeral] in *. rewrite <-L1, take_app_length. by apply (generated_canonical j).
  - unfold signature_ok. rewrite Eg. unfold ED25519_SIGNATURE_BYTES. rewrite <-(ed25519_signature_length d signed) at 1.
    rewrite canonical_own by eapply (nonempty_length _ 63), ed25519_signature_length. by apply own_signature_acceptable.
Qed.

(** C18 (roundtrip): a release sealed again reads the same.  When the owner's device reseals one of its own releases, from the
    copy it kept, to a new identity, the new copy is well formed and opens under that identity's key set to the message the
    release was built with, under the release id it was asked for and for an account that is not the owner's.  Of the curves it
    takes, besides the laws every round trip takes, that generated X25519 keys and Ed25519 signatures are written the standard way. *)
Theorem reseal_opens `{!CurveLaws} owner so recipients message given e c0 releaseId k s c keySets :
  genuine kem owner so -> genuine kem k s -> holds keySets k ->
  may (buildReleaseEnvelope kem owner recipients message given) e ->
  In c0 (en_copies e) ->
  may (resealReleaseCopy kem releaseId (header_js (en_header e)) (copy_js c0) owner (ks_identity k)) c ->
  parseReleaseCopy (copy_js c) = Ok c /\
  rh_releaseId (en_header e) = releaseId /\ cp_recipientAccountId c = ri_accountId (ks_identity k) /\
  ri_accountId (ks_identity k) <> ri_accountId (ks_identity owner) /\
  yields (openReleaseCopy kem (header_js (en_header e)) (copy_js c) (identity_js (ks_identity owner))
            (ri_accountId (ks_identity k)) keySets)
    (Ok (opened e k message)).
Proof.
  intros Hgo Hgk Hh (d & K & nonce & ct & cm & Hb)%build_may Hin Hr.
  apply reseal_may in Hr as (h & c1 & K' & m' & d' & Eh & Ec & Eid & Eo & _ & Ea & Hne & Hu & _ & Hd & Hs).
  assert (Hhok : header_ok (en_header e)) by apply Hb.
  apply parse_header_js in Hhok as Eh'. rewrite Eh in Eh'. injection Eh' as ->.
  assert (Hcok : Forall copy_ok (en_copies e)) by apply Hb.
  rewrite List.Forall_forall in Hcok. pose proof (Hcok c0 Hin) as Hc0. apply parse_copy_js in Hc0 as Ec'.
  rewrite Ec in Ec'. injection Ec' as ->.
  destruct (Forall2_in_l _ _ _ _ (bw_copies _ _ _ _ _ _ _ _ _ Hb) (or_introl eq_refl)) as (c2 & Hc2 & Hs2).
  assert (Hc2' : parseReleaseCopy (copy_js c2) = Ok c2) by by apply parse_copy_js, Hcok.
  destruct (built_unwraps _ _ _ _ _ _ _ _ _ _ _ _ _ _ Hgo Hgo Hb Hs2 eq_refl Hc2') as (Ea2 & _ & Hu2).
  assert (c0 = c2) as ->.
  { eapply NoDup_map_unique; [apply Hb|done..|]. by rewrite Ea, Ea2. }
  assert (Ok K' = Ok K :> res ReleaseOpenProblem bytes) as [= ->] by by eapply may_yields_eq.
  rewrite (signer_own _ _ _ Hgo Hd) in Hs.
  pose proof (proj2 (parse_copy_js c) (seal_copy_ok _ _ _ _ _ (gn_signing _ _ _ Hgo) Hs)) as Hc.
  destruct (copy_unwraps kem (en_header e) K owner so k s c nonce ct cm) as (Ek & Ef & Huk); try done; try apply Hb.
  split_and!; [done|done|done|by rewrite Eo|].
  eapply opens_unwrapped; eauto; [by rewrite Ef|]. eapply content_decrypts; apply Hb.
Qed.
(** ** Opening, taken apart *)

(** [m] is what the signature of [c] in a release with header [h] covers. *)
Definition copy_bytes (h : ReleaseHeader) (c : ReleaseCopy) (m : bytes) : Prop :=
  exists nonce ct cm sealedKey, header_parts h nonce ct cm /\
    decodeCanonicalBase64 (cp_sealedKey c) (Some RELEASE_SEALED_KEY_BYTES) = Some sealedKey /\
    may (releaseCopySignedBytes (contextFor h (cp_recipientAccountId c) (cp_recipientFingerprint c))
           (releaseContentHash nonce ct) cm sealedKey) m.

Lemma unwrap_may h c ownerv k K : may (unwrapCopy kem h c ownerv k) (Ok K) ->
  exists oi sk sg m cm, writes_identity ownerv oi /\ accepted oi (rh_ownerFingerprint h) /\ rh_ownerAccountId h = ri_accountId oi /\
    decodeCanonicalBase64 (ri_signingKey oi) (Some 32%nat) = Some sk /\
    decodeCanonicalBase64 (cp_signature c) (Some ED25519_SIGNATURE_BYTES) = Some sg /\
    copy_bytes h c m /\ ed25519_verify sk sg m = Ok true /\
    decodeCanonicalBase64 (rh_keyCommitment h) (Some RELEASE_KEY_COMMITMENT_BYTES) = Some cm /\
    may (releaseKeyCommitment K) cm.
Proof.
  unfold unwrapCopy. intros ([[]|verify] & Hv & Hm)%may_bind; try by apply may_ret in Hm.
  unfold releaseSignatureVerifier in Hv. apply may_bind in Hv as ([p|[oi fp]] & Hi & Hv); [by destruct p; apply may_ret in Hv|].
  apply verify_may in Hi as (Hw & Ha & [[=]|[= Eo]]).
  case_bool_decide as Ef; cbn [negb] in Hv; [|by apply may_ret in Hv]. subst fp.
  destruct (decodeCanonicalBase64 (ri_signingKey oi) _) as [sk|] eqn:Esk; [|by apply may_ret in Hv].
  apply may_bind in Hv as ([p|[]] & _ & Hv); [by apply may_ret in Hv|].
  apply may_bind in Hv as ([hash cm] & Hh & [= <-]%may_ret). apply header_bytes_may in Hh as (nonce & ct & Hp & ->).
  apply may_bind in Hm as ([] & Hver & Hm); cbn [negb] in Hm; [|by apply may_ret in Hm].
  unfold verify_copy in Hver. destruct (parseReleaseCopy (copy_js c)) as [|c'] eqn:Ec; [by apply may_ret in Hver|].
  apply parse_copy_iff in Ec as [[_ _ G1 G2 G3 G4] _].
  assert (c' = c) as -> by (cbn in *; destruct c, c'; cbn in *; congruence).
  destruct (decodeCanonicalBase64 (cp_sealedKey c) _) as [sealedKey|] eqn:Ek; [|by apply may_ret in Hver].
  destruct (decodeCanonicalBase64 (cp_signature c) _) as [sg|] eqn:Es; [|by apply may_ret in Hver].
  apply may_bind in Hver as (m & Hb & [Hver%lift_may|(x & [=]%may_ret)]%may_catch).
  destruct (decodeCanonicalBase64 (ks_mlkem768SecretKey k) _) as [secret|]; [|by apply may_ret in Hm].
  apply may_bind in Hm as ([p|K'] & _ & Hm); [by apply may_ret in Hm|].
  destruct (decodeCanonicalBase64 (rh_keyCommitment h) _) as [cm'|] eqn:Ecm; [|by apply may_ret in Hm].
  apply may_bind in Hm as (own & Hown & Hm). destruct (bytesEqual own cm') eqn:Eb; [|by apply may_ret in Hm].
  apply bytesEqual_iff in Eb as ->. apply may_ret in Hm as [= ->].
  exists oi, sk, sg, m, cm'. split_and!; try done. by exists nonce, ct, cm, sealedKey.
Qed.

Lemma open_may hv cv ownerv account keySets r : may (openReleaseCopy kem hv cv ownerv account keySets) (Ok r) ->
  exists h c k K, parseReleaseHeader hv = Ok h /\ parseReleaseCopy cv = Ok c /\ cp_recipientAccountId c = account /\
    may (unwrapCopy kem h c ownerv k) (Ok K) /\ may (decryptReleaseContent h K) (or_text r) /\
    or_releaseId r = rh_releaseId h /\ or_ownerAccountId r = rh_ownerAccountId h /\ or_ownerFingerprint r = rh_ownerFingerprint h.
Proof.
  unfold openReleaseCopy. destruct (parseReleaseHeader hv) as [|h] eqn:Eh; [by intros [=]%may_ret|].
  destruct (parseReleaseCopy cv) as [|c] eqn:Ec; [by intros [=]%may_ret|].
  case_bool_decide as Ea; cbn [negb]; [|by intros [=]%may_ret].
  destruct (List.find _ keySets) as [k|]; [|by intros [=]%may_ret].
  intros ([] & _ & Hm)%may_bind; cbn [negb] in Hm; [|by apply may_ret in Hm].
  apply may_bind in Hm as ([[]|] & _ & Hm); try by apply may_ret in Hm.
  apply may_bind in Hm as ([p|K] & Hu & Hm); [by apply may_ret in Hm|].
  apply may_catch in Hm as [(text & Ht & [= <-]%may_ret)%may_bind|(x & [=]%may_ret)].
  by exists h, c, k, K.
Qed.

Lemma committed_keys K K' cm : may (releaseKeyCommitment K) cm -> may (releaseKeyCommitment K') cm ->
  K = K' \/ sha256_collision (labelBytes RELEASE_KEY_COMMITMENT_LABEL ++ K) (labelBytes RELEASE_KEY_COMMITMENT_LABEL ++ K').
Proof.
  intros [_ ->]%commitment_may [_ E]%commitment_may.
  destruct (collision_or_eq _ _ E) as [E'|]; [left|by right]. by apply app_inv_head in E'.
Qed.

Lemma one_text h K a b : may (decryptReleaseContent h K) a -> may (decryptReleaseContent h K) b -> a = b.
Proof. intros Ha Hb. eapply may_yields_eq; [exact Ha|]. by apply settled_yields; [apply content_settled|]. Qed.

(** Two keys with one commitment that both open the content. *)
Definition key_collision (h : ReleaseHeader) (a b : string) : Prop :=
  exists K K', may (decryptReleaseContent h K) a /\ may (decryptReleaseContent h K') b /\
    sha256_collision (labelBytes RELEASE_KEY_COMMITMENT_LABEL ++ K) (labelBytes RELEASE_KEY_COMMITMENT_LABEL ++ K').

(** C19 (safety): every reader of a header reads the same text.  When two copies with the same header open, for whatever readers,
    owner identities and key sets, the texts are equal, or two different keys that open the content have the same
    SHA-256 commitment: an owner cannot send two readers of one release different messages. *)
Theorem recipients_agree hv cv1 cv2 o1 o2 a1 a2 ks1 ks2 r1 r2 :
  may (openReleaseCopy kem hv cv1 o1 a1 ks1) (Ok r1) -> may (openReleaseCopy kem hv cv2 o2 a2 ks2) (Ok r2) ->
  or_releaseId r1 = or_releaseId r2 /\ or_ownerAccountId r1 = or_ownerAccountId r2 /\
  or_ownerFingerprint r1 = or_ownerFingerprint r2 /\
  (or_text r1 = or_text r2 \/ exists h, parseReleaseHeader hv = Ok h /\ key_collision h (or_text r1) (or_text r2)).
Proof.
  intros (h & c1 & k1 & K1 & Eh & _ & _ & Hu1 & Ht1 & E1 & E2 & E3)%open_may
    (h' & c2 & k2 & K2 & Eh' & _ & _ & Hu2 & Ht2 & F1 & F2 & F3)%open_may.
  rewrite Eh in Eh'. injection Eh' as <-. split_and!; [congruence..|].
  apply unwrap_may in Hu1 as (_ & _ & _ & _ & cm & _ & _ & _ & _ & _ & _ & _ & Ecm & Hc1).
  apply unwrap_may in Hu2 as (_ & _ & _ & _ & cm' & _ & _ & _ & _ & _ & _ & _ & Ecm' & Hc2).
  rewrite Ecm in Ecm'. injection Ecm' as <-.
  destruct (committed_keys _ _ _ Hc1 Hc2) as [->|Hcol]; [left; by eapply one_text|right].
  exists h. split; [done|]. by exists K1, K2.
Qed.
(** ** What an owner's device signs *)

Section owner.
Variable owner : ReleaseKeySet.
Variable so : Secrets.

(** Everything the signing key of a key set is used for: identities, the check of a
    key set, copies built, and copies sealed again from a copy it had signed. *)
Inductive device_signed : bytes -> Prop :=
  | signed_identity account sk xk mk m : may (releaseIdentitySignedBytes account sk xk mk) m -> device_signed m
  | signed_check nonce : device_signed (labelBytes RELEASE_KEY_CHECK_LABEL ++ nonce)
  | signed_built recipients message given e c m :
      may (buildReleaseEnvelope kem owner recipients message given) e -> In c (en_copies e) -> copy_bytes (en_header e) c m ->
      device_signed m
  | signed_resealed releaseId hv cv recipient h c0 m0 c m :
      may (resealReleaseCopy kem releaseId hv cv owner recipient) c ->
      parseReleaseHeader hv = Ok h -> parseReleaseCopy cv = Ok c0 -> copy_bytes h c0 m0 -> device_signed m0 ->
      copy_bytes h c m -> device_signed m.

(** The owner's device made a copy of a release for an account. *)
Inductive sent_to (releaseId account : string) : Prop :=
  | sent_built recipients message given e :
      may (buildReleaseEnvelope kem owner recipients message given) e -> rh_releaseId (en_header e) = releaseId ->
      In account (map ri_accountId (ks_identity owner :: recipients)) -> sent_to releaseId account
  | sent_resealed hv cv recipient c :
      may (resealReleaseCopy kem releaseId hv cv owner recipient) c -> ri_accountId recipient = account ->
      sent_to releaseId account.

Definition hashed_content (h : ReleaseHeader) (b : bytes) : Prop :=
  exists nonce ct cm, header_parts h nonce ct cm /\ b = nonce ++ ct.

Lemma header_parts_fun h n c m n' c' m' : header_parts h n c m -> header_parts h n' c' m' -> n = n' /\ c = c' /\ m = m'.
Proof. intros [E1 _ E2 _ E3 _] [F1 _ F2 _ F3 _]. rewrite E1 in F1. rewrite E2 in F2. rewrite E3 in F3.
  by apply toBase64_inj in F1, F2, F3. Qed.

Lemma seal_release_account h K i d c : may (sealReleaseCopy kem h K i d) c -> cp_recipientAccountId c = ri_accountId i.
Proof.
  intros (fp & mk & e & n & ct & ss & nonce & _ & _ & _ & _ & Hs)%(seal_release_may kem).
  apply seal_verified_may in Hs as (_ & peer & t & sk & m & sealed & _ & Hp). apply Hp.
Qed.

(** A copy the device signed goes back to a release it built: same release, same hash
    of the content, same commitment. *)
Lemma signed_copy m : device_signed m -> forall h c, copy_bytes h c m ->
  exists recipients message given e nonce ct nonce' ct' cm,
    may (buildReleaseEnvelope kem owner recipients message given) e /\
    rh_releaseId h = rh_releaseId (en_header e) /\ rh_ownerAccountId h = rh_ownerAccountId (en_header e) /\
    rh_ownerFingerprint h = rh_ownerFingerprint (en_header e) /\
    header_parts h nonce ct cm /\ header_parts (en_header e) nonce' ct' cm /\
    releaseContentHash nonce ct = releaseContentHash nonce' ct' /\ sent_to (rh_releaseId h) (cp_recipientAccountId c).
Proof.
  induction 1 as [account sk xk mk m Hi|nonce|recipients message given e c' m Hb Hin Hc'|
                  releaseId hv cv recipient h' c0 m0 c' m Hr Eh Ec Hc0 _ IH Hc'];
    intros h c (n & t & cm & sealedKey & Hp & _ & Hm).
  - by apply signed_bytes_apart in Hm as [Hm _]; apply Hm in Hi.
  - apply signed_bytes_apart in Hm as [_ Hm]. by destruct (Hm nonce).
  - destruct Hc' as (n' & t' & cm' & sealedKey' & Hp' & _ & Hm').
    destruct (signed_bytes_exact _ _ _ _ _ _ _ _ _ Hm Hm') as ([= E1 E2 E3 E4 E5] & Eh & <- & _).
    exists recipients, message, given, e, n, t, n', t', cm. split_and!; try done.
    rewrite E1. eapply sent_built; [exact Hb|done|]. rewrite E4.
    apply build_may in Hb as (d & K & n2 & ct2 & cm2 & Hb).
    pose proof (bw_copies _ _ _ _ _ _ _ _ _ Hb) as Hf. clear -Hf Hin MlKem769 H3 H1.
    induction Hf as [|i c l l' Hr _ IH]; [done|]. destruct Hin as [->|Hin]; [left|right; by apply IH].
    symmetry. by eapply seal_release_account.
  - destruct Hc' as (n' & t' & cm' & sealedKey' & Hp' & _ & Hm').
    destruct (signed_bytes_exact _ _ _ _ _ _ _ _ _ Hm Hm') as ([= E1 E2 E3 E4 E5] & Ehash & <- & _).
    destruct (IH h' c0 Hc0) as (recipients & message & given & e & n2 & t2 & n3 & t3 & cm3 & Hb & F1 & F2 & F3 & Hp2 & Hp3 & Fh & _).
    destruct (header_parts_fun _ _ _ _ _ _ _ Hp' Hp2) as (<- & <- & <-).
    exists recipients, message, given, e, n, t, n3, t3, cm. split_and!; try done; try congruence.
    apply reseal_may in Hr as Hr'. destruct Hr' as (h2 & c2 & K & ms & d & Gh & _ & Gid & _ & _ & _ & _ & _ & _ & _ & Hs).
    rewrite Eh in Gh. injection Gh as <-. apply seal_release_account in Hs.
    rewrite E1, Gid. eapply sent_resealed; [exact Hr|]. by rewrite E4.
Qed.

(** C4 (safety): what opens is what the owner's device wrote.  When a copy opens for a reader who holds the owner's identity, and
    the copy's signature is not a forgery (the message it verifies was signed by the owner's device, in any use it
    has for its key), then that device built a release with this release id and owner, made a copy of it for this reader's account,
    and the text is the message it was built with; or else two contents, or two keys that open the content, collide
    under SHA-256. *)
Theorem opened_was_written hv cv account keySets r :
  genuine kem owner so ->
  may (openReleaseCopy kem hv cv (identity_js (ks_identity owner)) account keySets) (Ok r) ->
  (forall h c sg m, parseReleaseHeader hv = Ok h -> parseReleaseCopy cv = Ok c ->
     decodeCanonicalBase64 (cp_signature c) (Some ED25519_SIGNATURE_BYTES) = Some sg -> copy_bytes h c m ->
     ed25519_verify (okp_public Ed25519 (se_signing so)) sg m = Ok true -> device_signed m) ->
  exists recipients message given e h, may (buildReleaseEnvelope kem owner recipients message given) e /\
    parseReleaseHeader hv = Ok h /\ or_releaseId r = rh_releaseId (en_header e) /\
    or_ownerAccountId r = ri_accountId (ks_identity owner) /\ or_ownerFingerprint r = ks_fingerprint owner /\
    sent_to (or_releaseId r) account /\
    (or_text r = message \/
     (exists a b, hashed_content h a /\ hashed_content (en_header e) b /\ sha256_collision a b) \/
     key_collision h (or_text r) message).
Proof.
  intros Hgo (h & c & k & K & Eh & Ec & Ea & Hu & Ht & R1 & R2 & R3)%open_may Hforge.
  apply unwrap_may in Hu as (oi & sk & sg & m & cm & Hw & Hacc & Eo & Esk & Esg & Hm & Hv & Ecm & Hcm).
  assert (oi = ks_identity owner) as ->.
  { destruct Hacc as (? & ? & ? & ? & ? & []). by eapply writes_identity_js. }
  assert (Ef : rh_ownerFingerprint h = ks_fingerprint owner) by (eapply accepted_one; [done|apply Hgo]).
  rewrite (gn_signing_key _ _ _ Hgo) in Esk. apply canonical_iff in Esk as [Esk%toBase64_inj _]. subst sk.
  destruct (signed_copy m (Hforge h c sg m Eh Ec Esg Hm Hv) h c Hm) as
    (recipients & message & given & e & n & t & n' & t' & cm' & Hb & F1 & F2 & F3 & Hp & Hp' & Fh & Hsent).
  exists recipients, message, given, e, h. split_and!; try congruence.
  rewrite (hp_commitment _ _ _ _ Hp) in Ecm. apply canonical_iff in Ecm as [Ecm%toBase64_inj _]. subst cm'.
  apply build_may in Hb as (d & K' & n2 & t2 & cm2 & Hb). pose proof (bw_parts _ _ _ _ _ _ _ _ _ Hb) as Hp2.
  destruct (header_parts_fun _ _ _ _ _ _ _ Hp' Hp2) as (<- & <- & <-).
  destruct (collision_or_eq _ _ Fh) as [E|Hcol].
  2: { right; left. exists (n ++ t), (n' ++ t'). split_and!; [by exists n, t, cm|by exists n', t', cm|done]. }
  apply app_inj_1 in E as [-> ->]; [|by rewrite (hp_nonce_length _ _ _ _ Hp), (hp_nonce_length _ _ _ _ Hp')].
  assert (h = en_header e) as ->.
  { destruct Hp as [P1 _ P2 _ P3 _], Hp' as [Q1 _ Q2 _ Q3 _]. destruct h, (en_header e); cbn in *; congruence. }
  assert (Hmsg : may (decryptReleaseContent (en_header e) K') message).
  { apply yields_may. eapply content_decrypts; apply Hb. }
  destruct (committed_keys _ _ _ Hcm (bw_commits _ _ _ _ _ _ _ _ _ Hb)) as [->|Hcol].
  - left. by eapply one_text.
  - right; right. by exists K, K'.
Qed.
End owner.

(** C20 (safety): a copy's signature covers its whole meaning.  If the bytes signed for one copy are the bytes signed for
    another, the two are of the same release and owner, for the same account and fingerprint, with the same sealed key,
    the same commitment and the same hash of the content; and they are never the bytes of an identity or of a key
    check, the other messages the same key signs. *)
Theorem signature_covers h c h' c' m :
  copy_bytes h c m -> copy_bytes h' c' m ->
  rh_releaseId h = rh_releaseId h' /\ rh_ownerAccountId h = rh_ownerAccountId h' /\
  rh_ownerFingerprint h = rh_ownerFingerprint h' /\ rh_keyCommitment h = rh_keyCommitment h' /\
  cp_recipientAccountId c = cp_recipientAccountId c' /\ cp_recipientFingerprint c = cp_recipientFingerprint c' /\
  cp_sealedKey c = cp_sealedKey c' /\
  (forall nonce ct cm nonce' ct' cm', header_parts h nonce ct cm -> header_parts h' nonce' ct' cm' ->
     releaseContentHash nonce ct = releaseContentHash nonce' ct') /\
  (forall account sk xk mk, ~ may (releaseIdentitySignedBytes account sk xk mk) m) /\
  (forall nonce, m <> labelBytes RELEASE_KEY_CHECK_LABEL ++ nonce).
Proof.
  intros (n & t & cm & sealed & Hp & Ek & Hm) (n' & t' & cm' & sealed' & Hp' & Ek' & Hm').
  destruct (signed_bytes_exact _ _ _ _ _ _ _ _ _ Hm Hm') as ([= E1 E2 E3 E4 E5] & Eh & <- & <-).
  destruct (signed_bytes_apart _ _ _ _ _ Hm) as [Ha Hb].
  apply canonical_iff in Ek as [Ek _], Ek' as [Ek' _]. pose proof (hp_commitment _ _ _ _ Hp). pose proof (hp_commitment _ _ _ _ Hp').
  split_and!; try done; try congruence.
  intros n2 t2 cm2 n3 t3 cm3 G G'. destruct (header_parts_fun _ _ _ _ _ _ _ Hp G) as (<- & <- & _).
  by destruct (header_parts_fun _ _ _ _ _ _ _ Hp' G') as (<- & <- & _).
Qed.

(** A fingerprint names one set of keys.  Two accepted identities with the same fingerprint have the same account,
    signing key, X25519 key and ML-KEM key, or the bytes two different identities sign collide under SHA-256. *)
Theorem fingerprint_binds v1 v2 e1 e2 i1 i2 fp :
  may (verifyReleaseIdentity v1 e1) (Ok (i1, fp)) -> may (verifyReleaseIdentity v2 e2) (Ok (i2, fp)) ->
  (ri_accountId i1 = ri_accountId i2 /\ ri_signingKey i1 = ri_signingKey i2 /\ ri_x25519Key i1 = ri_x25519Key i2 /\
   ri_mlkem768Key i1 = ri_mlkem768Key i2) \/
  exists a b sk sk' xk xk' mk mk', yields (releaseIdentitySignedBytes (ri_accountId i1) sk xk mk) a /\
    yields (releaseIdentitySignedBytes (ri_accountId i2) sk' xk' mk') b /\ sha256_collision a b.
Proof.
  intros (_ & (sk & xk & mk & sg & m & A1) & _)%verify_may (_ & (sk' & xk' & mk' & sg' & m' & A2) & _)%verify_may.
  destruct A1 as [_ _ K1 K2 K3 _ _ Kb _ _ Kf], A2 as [_ _ L1 L2 L3 _ _ Lb _ _ Lf].
  rewrite Kf in Lf. apply toHex_inj in Lf. destruct (collision_or_eq _ _ Lf) as [->|Hcol].
  2: { right. exists m, m', sk, sk', xk, xk', mk, mk'. done. }
  left. destruct (identity_bytes_exact _ _ _ _ _ _ _ _ _ (yields_may _ _ Kb) (yields_may _ _ Lb)) as (-> & -> & -> & ->).
  apply checked_key_some in K1 as (_ & K1 & _), K2 as (_ & K2 & _), K3 as (_ & K3 & _).
  apply checked_key_some in L1 as (_ & L1 & _), L2 as (_ & L2 & _), L3 as (_ & L3 & _).
  apply canonical_iff in K1 as [-> _], K2 as [-> _], K3 as [-> _], L1 as [-> _], L2 as [-> _], L3 as [-> _]. done.
Qed.
End safety.

(** ** At the release of [ReleaseRuntime] *)

Lemma holds_only k : holds [k] k.
Proof. unfold holds. cbn [List.find]. by rewrite bool_decide_eq_true_2. Qed.

Lemma sealed_release_opens_witness :
  exists c, In c (en_copies dawn_release) /\ cp_recipientAccountId c = "bob" /\
    yields (openReleaseCopy toy_kem dawn_header (copy_js c) (identity_js (ks_identity alice)) "bob" [bob])
      (Ok (opened dawn_release bob dawn)).
Proof.
  destruct (created_genuine toy_kem _ _ _ _ alice_made) as (so & Ho & _).
  destruct (created_genuine toy_kem _ _ _ _ bob_made) as (s & Hk & _).
  apply (sealed_release_opens toy_kem alice so [ks_identity bob] dawn None dawn_release bob s [bob] Ho Hk).
  - right. by left.
  - apply holds_only.
  - exact dawn_built.
Defined.

Lemma reseal_opens_witness :
  yields (openReleaseCopy toy_kem dawn_header (copy_js carol_copy) (identity_js (ks_identity alice)) "carol" [carol])
    (Ok (opened dawn_release carol dawn)).
Proof.
  destruct (created_genuine toy_kem _ _ _ _ alice_made) as (so & Ho & _).
  destruct (created_genuine toy_kem _ _ _ _ carol_made) as (s & Hk & _).
  apply (reseal_opens toy_kem alice so [ks_identity bob] dawn None dawn_release (dawn_copy 0)
           (rh_releaseId (en_header dawn_release)) carol s carol_copy [carol] Ho Hk).
  - apply holds_only.
  - exact dawn_built.
  - by left.
  - exact carol_sealed.
Defined.

Lemma recipients_agree_witness :
  or_releaseId (read_by bob) = or_releaseId (read_by alice) /\ or_ownerAccountId (read_by bob) = or_ownerAccountId (read_by alice) /\
  or_ownerFingerprint (read_by bob) = or_ownerFingerprint (read_by alice) /\
  (or_text (read_by bob) = or_text (read_by alice) \/
   exists h, parseReleaseHeader dawn_header = Ok h /\ key_collision h (or_text (read_by bob)) (or_text (read_by alice))).
Proof.
  apply (recipients_agree toy_kem dawn_header (copy_js (dawn_copy 1)) (copy_js (dawn_copy 0)) (identity_js (ks_identity alice))
           (identity_js (ks_identity alice)) "bob" "alice" [bob] [alice] _ _ bob_opens alice_opens).
Defined.

Lemma opened_was_written_witness :
  exists recipients message given e h, may (buildReleaseEnvelope toy_kem alice recipients message given) e /\
    parseReleaseHeader dawn_header = Ok h /\ or_releaseId (read_by bob) = rh_releaseId (en_header e) /\
    or_ownerAccountId (read_by bob) = ri_accountId (ks_identity alice) /\ or_ownerFingerprint (read_by bob) = ks_fingerprint alice /\
    sent_to toy_kem alice (or_releaseId (read_by bob)) "bob" /\
    (or_text (read_by bob) = message \/
     (exists a b, hashed_content h a /\ hashed_content (en_header e) b /\ sha256_collision a b) \/
     key_collision h (or_text (read_by bob)) message).
Proof.
  destruct (created_genuine toy_kem _ _ _ _ alice_made) as (so & Ho & _).
  apply (opened_was_written toy_kem alice so dawn_header (copy_js (dawn_copy 1)) "bob" [bob] (read_by bob) Ho bob_opens).
  intros h c sg m Hh Hc _ Hm _. apply (signed_built toy_kem alice [ks_identity bob] dawn None dawn_release c m dawn_built).
  - apply parse_copy_iff in Hc as [[_ _ G1 G2 G3 G4] _]. right. left. destruct c. cbn in G1, G2, G3, G4. congruence.
  - apply parse_header_iff in Hh as [Hw _]. apply (writes_header_js (en_header dawn_release)) in Hw as ->; [done|].
    intros f _. reflexivity.
Defined.

Lemma signature_covers_witness : exists h c m, parseReleaseHeader dawn_header = Ok h /\ copy_bytes h c m /\ cp_recipientAccountId c = "bob" /\
  forall nonce, m <> labelBytes RELEASE_KEY_CHECK_LABEL ++ nonce.
Proof.
  destruct (open_may toy_kem _ _ _ _ _ _ bob_opens) as (h & c & k & K & Eh & _ & Ea & Hu & _).
  destruct (unwrap_may toy_kem _ _ _ _ _ Hu) as (_ & _ & _ & m & _ & _ & _ & _ & _ & _ & Hm & _).
  exists h, c, m. split; [exact Eh|]. split; [exact Hm|]. split; [exact Ea|].
  apply (signature_covers h c h c m Hm Hm).
Defined.
