(* ===== verification/DeadDropSafety.v ===== *)
(** * What a dead drop promises

    It opens for the key it was sealed to; the server accepts it, and sees of it only
    the size class, the padding strategy and the suite; a decoy of the size looks the
    same where HKDF can fill one, which is at the smallest size ([decoy_fails] in SealingProofs.v). *)

From S2P Require Import Prelude JsMap CoalitionDomain Money Records Store Slug Bytes Crypto DeadDrop Identity Envelope.
From S2P Require Import SealingProofs ReleaseFormat KeyProofs ReleaseRuntime.
Local Open Scope Z_scope.

Section dead_drops.
Context `{WebCryptoLaws}.

(** C26 (roundtrip): a dead drop opens.  What [encryptDeadDrop] seals to an X25519 key, in either version and with either padding,
    [decryptDeadDrop] gives back under the private key (with the ML-KEM secret key that belongs to the one it was
    sealed to, for version 2), whatever is drawn meanwhile. *)
Theorem dead_drop_opens kem i e d sk :
  length d = 32%nat -> en_recipientPublicKeyBase64 i = toBase64 (okp_public X25519 d) ->
  (forall pk, en_recipientPqPublicKey i = Some pk -> kem_pair kem pk sk) ->
  may (encryptDeadDrop kem i) e ->
  yields (decryptDeadDrop kem e (export_jwk X25519 d) (Some sk)) (en_plaintext i).
Proof.
  intros Hd Hpub Hkem (padded & clue & _ & Hpad & _ & _ & _ & _ & He)%encrypt_may.
  apply pad_may in Hpad as (size & _ & _ & ->). rewrite Hpub in He. destruct e as [g|g pqCt].
  - destruct He as (s & Hs & E1 & E2 & E3). cbn [fields_of] in *. unfold decryptDeadDrop. rewrite E1, E2, E3.
    eapply yields_bind; [by apply private_key_yields|]. do 3 (eapply yields_bind; [apply decode_yields|]).
    eapply yields_bind; [destruct s; by apply seal_opens|]. by apply yields_or_throw, unpad_padded.
  - destruct He as (pk & s & Hpk & Hs & E1 & E2 & E3 & ->). cbn [fields_of] in *. unfold decryptDeadDrop. rewrite E1, E2, E3.
    eapply yields_bind; [apply yields_ret|]. eapply yields_bind; [by apply private_key_yields|].
    do 4 (eapply yields_bind; [apply decode_yields|]).
    eapply yields_bind; [destruct s; eapply hybridSeal_opens; eauto|]. by apply yields_or_throw, unpad_padded.
Qed.

(** A KEM's ciphertexts have the length it states. *)
Definition kem_sized (kem : KemProvider) : Prop :=
  forall n pk ct ss, encapsulate kem n pk = Some (ct, ss) -> length ct = ciphertextLength kem.

Definition same_size (p : DecoyParams) (i : EncryptInput) (size : Z) : Prop :=
  dp_paddingStrategy p = en_paddingStrategy i /\ Z.of_nat (dp_bucketBytes p) = size /\
  String.length (dp_expiresAt p) = String.length (en_expiresAt i).

(** C28 (safety): dead drops look alike, and so do the decoys HKDF can fill.  When the expiry is not empty, a drop id that is
    given is not empty either, and the KEM's ciphertexts have the length it states, which is not zero, an encrypted dead drop
    passes the server's shape check, and its fields and the lengths of their texts are a function of the suite, the padding strategy, the
    size class of the message and the lengths of a given drop id and of the expiry.  A decoy of
    that size, when the size and the 92 bytes around it are no more than the 8160 bytes HKDF gives (the 1 KiB bucket, and no larger
    one, which is a finding), has the shape of a version 1 drop with a drawn id, for every seed and counter. *)
Theorem dead_drops_uniform kem i e size :
  en_dropId i <> Some "" -> en_expiresAt i <> "" -> kem_sized kem -> ciphertextLength kem <> 0%nat ->
  size_class (en_paddingStrategy i) (Z.of_nat (length (en_plaintext i))) = Some size ->
  may (encryptDeadDrop kem i) e ->
  let suite := match e with DeadDropEnvelopeV1 _ => suite_v1 | _ => suite_v2 end in
  isOpaqueEnvelope (envelope_js e) = true /\
  envelope_shape (envelope_js e) =
    uniform_shape suite (en_paddingStrategy i) size (ciphertextLength kem)
      (match en_dropId i with Some given => String.length given | None => 32%nat end) (String.length (en_expiresAt i)) /\
  forall p, same_size p i size -> size + 92 <= 8160 -> suite = suite_v1 -> en_dropId i = None ->
    always (generateDecoy p) (fun d => envelope_shape (envelope_js d) = envelope_shape (envelope_js e)).
Proof.
  intros Hid Hexp Hkem Hct Hsize He suite. pose proof (encrypt_shape kem i e size Hsize Hkem He) as Hshape.
  split_and!; [by eapply encrypt_opaque|done|]. intros p (Ep & Es & Ex) Hl Hs Hn. rewrite Hshape, Hn. fold suite. rewrite Hs, <-Es, <-Ep, <-Ex. apply decoy_always.
  unfold stream_length. lia.
Qed.
End dead_drops.

(** ** At a note of two bytes *)

Definition note : EncryptInput :=
  {| en_plaintext := [x68; x69]; en_recipientPublicKeyBase64 := toBase64 (toy_key 3); en_paddingStrategy := pad_bucket;
     en_expiresAt := "2026-01-01T00:00:00.000Z"; en_dropId := None; en_suite := None; en_recipientPqPublicKey := None |}.
Definition no_drop : AnyDeadDropEnvelope :=
  DeadDropEnvelopeV1 {| dd_pad := pad_bucket; dd_dropId := ""; dd_clue := ""; dd_ek := ""; dd_nonce := ""; dd_ct := ""; dd_expiresAt := "" |}.
Definition note_drop : AnyDeadDropEnvelope := Eval vm_compute in result (encryptDeadDrop toy_kem note 5%nat) no_drop.

Lemma note_sealed : may (encryptDeadDrop toy_kem note) note_drop.
Proof. apply (run_may _ 5%nat). vm_compute. reflexivity. Qed.

Definition decoy (bucket : nat) : DecoyParams :=
  {| dp_seed := [x01]; dp_counter := 4; dp_bucketBytes := bucket; dp_paddingStrategy := pad_bucket;
     dp_expiresAt := "2026-02-02T00:00:00.000Z" |}.

Lemma dead_drop_opens_witness :
  yields (decryptDeadDrop toy_kem note_drop (export_jwk X25519 (toy_key 3)) (Some [])) [x68; x69].
Proof. apply (dead_drop_opens toy_kem note note_drop (toy_key 3) []); [done|done|done|exact note_sealed]. Defined.

Lemma dead_drops_uniform_witness :
  isOpaqueEnvelope (envelope_js note_drop) = true /\
  always (generateDecoy (decoy (Z.to_nat 1024))) (fun d => envelope_shape (envelope_js d) = envelope_shape (envelope_js note_drop)).
Proof.
  destruct (dead_drops_uniform toy_kem note note_drop 1024) as (Ho & _ & Hd); try done.
  - intros n pk ct ss [= <- _]. reflexivity.
  - exact note_sealed.
  - split; [exact Ho|]. apply Hd; [split_and!; [done|apply Z2Nat.id; lia|done]|lia|done|done].
Defined.
