(* ===== verification/Coliseum.v ===== *)
(** * The Coliseum's matches

    [core/src/coliseum] ([match.ts], [crucible.ts], [brief.ts], [challengeLink.ts],
    [containment.ts], the exchange of [shout.ts]) and
    [services/coliseumMatchStore.ts], with the guards of its routes in
    [routes/coliseum.ts] and [graduateToMatch] of [coliseumShoutStore.ts].  Nothing here
    awaits: an operation is a function of the arena and the clock.  A date is its instant. *)

From S2P Require Import Prelude JsMap CoalitionDomain Records Store Relay Slug Text.
Local Open Scope Z_scope.

(** ** Data *)

Inductive ColiseumMatchType : Set :=
  | callout | debate | pitch | prediction | gauntlet | townsquare | tribunal | study.
Inductive ColiseumMatchStatus : Set := ms_pending | ms_accepted | ms_live | ms_crucible | ms_verdict | ms_archived.
Inductive ColiseumSide : Set := red | blue.
Inductive ColiseumRoundChoice : Set := rc_red | rc_blue | rc_draw.
Inductive ColiseumRoundKind : Set := rk_opening | rk_steelman | rk_rebuttal | rk_closing.
Inductive CrucibleChoice : Set := cc_red | cc_blue | cc_neither | cc_both.

#[export] Instance ColiseumMatchStatus_eq : EqDecision ColiseumMatchStatus.
Proof. solve_decision. Defined.
#[export] Instance ColiseumSide_eq : EqDecision ColiseumSide.
Proof. solve_decision. Defined.
#[export] Instance ColiseumRoundChoice_eq : EqDecision ColiseumRoundChoice.
Proof. solve_decision. Defined.
#[export] Instance ColiseumRoundKind_eq : EqDecision ColiseumRoundKind.
Proof. solve_decision. Defined.
#[export] Instance CrucibleChoice_eq : EqDecision CrucibleChoice.
Proof. solve_decision. Defined.

Definition COLISEUM_MATCH_TYPES : list string :=
  ["callout"; "debate"; "pitch"; "prediction"; "gauntlet"; "townsquare"; "tribunal"; "study"].
Definition isColiseumMatchType (value : unknown) : bool :=
  match value with UString s => bool_decide (s ∈ COLISEUM_MATCH_TYPES) | _ => false end.

(** [isColiseumMatchType(parsed.type) ? parsed.type : 'callout'] *)
Definition match_type_of (value : unknown) : ColiseumMatchType :=
  match value with
  | UString s =>
      if bool_decide (s = "debate") then debate else if bool_decide (s = "pitch") then pitch
      else if bool_decide (s = "prediction") then prediction else if bool_decide (s = "gauntlet") then gauntlet
      else if bool_decide (s = "townsquare") then townsquare else if bool_decide (s = "tribunal") then tribunal
      else if bool_decide (s = "study") then study else callout
  | _ => callout
  end.

Definition MAX_ROUND_DURATION_MS : Z := 3 * 60 * 1000.
Definition DEFAULT_ROUND_WINDOW_MS : Z := 24 * 60 * 60 * 1000.
(** [DEFAULT_MATCH_CLOCK_MS] of the store, and the same product in [graduateToMatch]. *)
Definition DEFAULT_MATCH_CLOCK_MS : Z := 7 * 24 * 60 * 60 * 1000.
Definition CRUCIBLE_DURATION_MS : Z := 30 * 60 * 1000.
Definition COOLDOWN_MS : Z := 48 * 60 * 60 * 1000.

(** A match; [open] is always set by [createMatch]. *)
Record ColiseumMatch : Type := mk_mt {
  mt_id : string;
  mt_type : ColiseumMatchType;
  mt_proposition : string;
  mt_propositionTopicId : option string;
  mt_domain : option string;
  mt_challengerId : string;
  mt_opponentId : option string;
  mt_denRoomId : option string;
  mt_shoutId : option string;
  mt_status : ColiseumMatchStatus;
  mt_createdAt : Z;
  mt_acceptedAt : option Z;
  mt_clockEndsAt : option Z;
  mt_crucibleEndsAt : option Z;
  mt_verdictAt : option Z;
  mt_archivedAt : option Z;
  mt_roundWindowMs : Z;
  mt_challengeToken : option string;
  mt_challengeSeenAt : option Z;
  mt_declinedAt : option Z;
  mt_open : bool;
}.

Record ColiseumArgumentMedia : Type := { me_mxc : string; me_posterMxc : option string; me_durationMs : option jsnum }.

Inductive ColiseumCitation : Type :=
  | ct_live (roomId : string) (eventId : option string)
  | ct_townhall (meetingId : string)
  | ct_subscription (subscriptionId : string)
  | ct_audio (mxc : string) (durationMs : option jsnum)
  | ct_article (sourceUrl title : string) (publishedAt : option string)
  | ct_proposal (proposalEventId : string).

Record ColiseumRound : Type := mk_rd {
  rd_id : string;
  rd_matchId : string;
  rd_index : Z;
  rd_side : ColiseumSide;
  rd_authorId : string;
  rd_kind : ColiseumRoundKind;
  rd_body : option string;
  rd_media : option ColiseumArgumentMedia;
  rd_citations : list ColiseumCitation;
  rd_createdAt : Z;
}.

Record ColiseumRoundVote : Type := mk_rv {
  rv_matchId : string; rv_roundIndex : Z; rv_voterId : string; rv_choice : ColiseumRoundChoice; rv_createdAt : Z }.

Record CrucibleFinalStatement : Type := mk_fs {
  fs_matchId : string; fs_side : ColiseumSide; fs_authorId : string; fs_mediaMxc : option string; fs_body : option string;
  fs_createdAt : Z }.

Record CrucibleSynthesisVote : Type := mk_sv {
  sv_matchId : string; sv_questionId : string; sv_voterId : string; sv_choice : CrucibleChoice; sv_createdAt : Z }.

Record CrucibleQuestionBreakdown : Type := mk_qb {
  qb_questionId : string; qb_prompt : string; qb_red : Z; qb_blue : Z; qb_neither : Z; qb_both : Z; qb_winner : CrucibleChoice }.

Record CrucibleVerdict : Type := mk_cv {
  cv_matchId : string; cv_winner : option ColiseumSide; cv_breakdown : list CrucibleQuestionBreakdown;
  cv_redScore : Z; cv_blueScore : Z; cv_computedAt : Z }.

(** A brief as [mintVerdict] mints it: without claims, flags or positions, so its
    shift score is 0. *)
Record ColiseumBrief : Type := mk_br {
  br_id : string; br_matchId : string; br_proposition : string; br_winner : option ColiseumSide;
  br_questionBreakdown : list CrucibleQuestionBreakdown; br_shiftScore : Z; br_mintedAt : Z }.

(** A shout and a response drop, without the heat and the vote score. *)
Record ColiseumShout : Type := mk_sh {
  sh_id : string; sh_authorId : string; sh_domain : option string; sh_body : option string; sh_denRoomId : option string;
  sh_createdAt : Z }.
Record ColiseumResponseDrop : Type := mk_rdp { dr_id : string; dr_shoutId : string; dr_authorId : string; dr_createdAt : Z }.

(** An event of the reputation log as an award of the arena writes it. *)
Record ArenaAward : Type := mk_aw {
  aw_id : string; aw_userId : string; aw_type : ReputationEventType; aw_subject : option string;
  aw_dedupeKey : option string; aw_actor : string; aw_matchId : string; aw_roundIndex : option Z; aw_createdAt : Z }.

(** ** Rules ([core/src/coliseum]) *)

Definition sideForFighter (m : ColiseumMatch) (userId : string) : option ColiseumSide :=
  if bool_decide (mt_challengerId m = userId) then Some red
  else if bool_decide (mt_opponentId m = Some userId) then Some blue else None.

Definition isFighter (m : ColiseumMatch) (userId : string) : bool := bool_decide (sideForFighter m userId <> None).

(** [x !== null && now >= x] *)
Definition reached (at_ : option Z) (now : Z) : bool := match at_ with Some t => t <=? now | None => false end.

Definition deriveColiseumMatchStatus (m : ColiseumMatch) (now : Z) : ColiseumMatchStatus :=
  if reached (mt_archivedAt m) now then ms_archived
  else if reached (mt_verdictAt m) now then ms_verdict
  else if reached (mt_clockEndsAt m) now then ms_crucible
  else if reached (mt_acceptedAt m) now then ms_live
  else ms_pending.

Record RoundTally : Type := mk_ty { ty_red : Z; ty_blue : Z; ty_draw : Z; ty_leader : ColiseumRoundChoice }.

Definition votes_for (choice : ColiseumRoundChoice) (votes : list ColiseumRoundVote) : Z :=
  count_by (fun v => bool_decide (rv_choice v = choice)) votes.

Definition tallyRoundVotes (votes : list ColiseumRoundVote) : RoundTally :=
  let r := votes_for rc_red votes in
  let b := votes_for rc_blue votes in
  let d := votes_for rc_draw votes in
  mk_ty r b d (if (b <? r) && (d <=? r) then rc_red else if (r <? b) && (d <=? b) then rc_blue else rc_draw).

Definition isForfeit (lastRoundAt windowMs now : Z) : bool := windowMs <? now - lastRoundAt.
Definition nextRoundDeadline (lastRoundAt windowMs : Z) : Z := lastRoundAt + windowMs.

Definition num_le (x : jsnum) (z : Z) : bool :=
  match x with JFin q => Qle_bool q (inject_Z z) | JInf positive => negb positive | JNaN => false end.

Definition isWithinRoundDurationCap (media : option ColiseumArgumentMedia) : bool :=
  match media with
  | Some me => match me_durationMs me with Some d => num_le d MAX_ROUND_DURATION_MS | None => true end
  | None => true
  end.

(** *** The Crucible *)

Definition CRUCIBLE_QUESTIONS : list (string * string) := [
  ("opening", "Who made the stronger opening argument?");
  ("evidence", "Who used evidence more effectively?");
  ("pressure", "Who responded better under pressure?");
  ("changed_mind", "Did anyone actually change your mind on anything?");
  ("decisive", "Who landed the decisive blow?") ].

Definition isCrucibleQuestionId (value : string) : bool := bool_decide (value ∈ map fst CRUCIBLE_QUESTIONS).

Definition CRUCIBLE_CHOICES : list CrucibleChoice := [cc_red; cc_blue; cc_neither; cc_both].

(** The answers to one question. *)
Definition ballots (questionId : string) (choice : CrucibleChoice) (votes : list CrucibleSynthesisVote) : Z :=
  count_by (fun v => bool_decide (sv_questionId v = questionId) && bool_decide (sv_choice v = choice)) votes.

(** The loop over the choices: the best so far, its count, and whether it is tied. *)
Definition winning_step (counts : CrucibleChoice -> Z) (s : CrucibleChoice * Z * bool) (choice : CrucibleChoice) :
    CrucibleChoice * Z * bool :=
  let '(best, bestCount, tie) := s in
  if bestCount <? counts choice then (choice, counts choice, false)
  else if counts choice =? bestCount then (best, bestCount, true) else s.
Definition winningChoice (counts : CrucibleChoice -> Z) : CrucibleChoice :=
  let '(best, bestCount, tie) := fold_left (winning_step counts) CRUCIBLE_CHOICES (cc_neither, -1, false) in
  if tie || (bestCount <=? 0) then cc_neither else best.

Definition breakdown_of (votes : list CrucibleSynthesisVote) (question : string * string) : CrucibleQuestionBreakdown :=
  let counts c := ballots (fst question) c votes in
  mk_qb (fst question) (snd question) (counts cc_red) (counts cc_blue) (counts cc_neither) (counts cc_both) (winningChoice counts).

Definition questions_won (choice : CrucibleChoice) (breakdown : list CrucibleQuestionBreakdown) : Z :=
  count_by (fun q => bool_decide (qb_winner q = choice)) breakdown.

Definition deriveCrucibleVerdict (matchId : string) (votes : list CrucibleSynthesisVote) (now : Z) : CrucibleVerdict :=
  let breakdown := map (breakdown_of votes) CRUCIBLE_QUESTIONS in
  let redScore := questions_won cc_red breakdown in
  let blueScore := questions_won cc_blue breakdown in
  mk_cv matchId (if blueScore <? redScore then Some red else if redScore <? blueScore then Some blue else None)
    breakdown redScore blueScore now.

Definition CREDIBILITY_STRIKE_MIN_SIDE_VOTES : Z := 4.

(** A share of at most 0.2. *)
Definition deriveCredibilityStrike (breakdown : list CrucibleQuestionBreakdown) : option ColiseumSide :=
  match List.find (fun q => bool_decide (qb_questionId q = "evidence")) breakdown with
  | None => None
  | Some evidence =>
      let sideVotes := qb_red evidence + qb_blue evidence in
      if sideVotes <? CREDIBILITY_STRIKE_MIN_SIDE_VOTES then None
      else
        let loser := if qb_blue evidence <=? qb_red evidence then blue else red in
        let loserVotes := match loser with red => qb_red evidence | blue => qb_blue evidence end in
        if 5 * loserVotes <=? sideVotes then Some loser else None
  end.

Definition mintBrief (id matchId proposition : string) (verdict : CrucibleVerdict) (mintedAt : Z) : ColiseumBrief :=
  mk_br id matchId proposition (cv_winner verdict) (cv_breakdown verdict) 0 mintedAt.

(** *** Challenge links *)

Inductive ColiseumChallengeStatus : Set := chs_pending | chs_seen | chs_declined | chs_accepted | chs_open.

Definition deriveChallengeStatus (accepted : bool) (declinedAt seenAt : option Z) (open : bool) : ColiseumChallengeStatus :=
  if accepted then chs_accepted
  else if bool_decide (declinedAt <> None) then chs_declined
  else if open then chs_open
  else if bool_decide (seenAt <> None) then chs_seen
  else chs_pending.

Definition isDodge (s : ColiseumChallengeStatus) : bool := match s with chs_seen | chs_declined => true | _ => false end.

(** *** The cool-down *)

Definition isUnderCooldown (lastMatchEndedAt : option Z) (now : Z) : bool :=
  match lastMatchEndedAt with Some ended => now - ended <? COOLDOWN_MS | None => false end.
Definition cooldownRemainingMs (lastMatchEndedAt : option Z) (now : Z) : Z :=
  match lastMatchEndedAt with Some ended => Z.max 0 (COOLDOWN_MS - (now - ended)) | None => 0 end.

(** *** Shouts *)

Record BilateralExchange : Type := { be_shoutId : string; be_dropId : string; be_shouterId : string; be_responderId : string }.

Definition detectBilateralExchange (shout : ColiseumShout) (drops : list ColiseumResponseDrop) : option BilateralExchange :=
  if negb (existsb (fun d => bool_decide (dr_authorId d = sh_authorId shout)) drops) then None
  else
    let otherDrops := js_sort (fun a b => dr_createdAt b <=? dr_createdAt a)
      (List.filter (fun d => negb (bool_decide (dr_authorId d = sh_authorId shout))) drops) in
    match otherDrops with
    | [] => None
    | responder :: _ =>
        Some {| be_shoutId := sh_id shout; be_dropId := dr_id responder; be_shouterId := sh_authorId shout;
                be_responderId := dr_authorId responder |}
    end.

(** ** The arena: the tables of [db/store.ts] *)

#[export] Instance ColiseumMatch_keyed : Keyed ColiseumMatch := mt_id.
#[export] Instance ColiseumRound_keyed : Keyed ColiseumRound := rd_id.
#[export] Instance ColiseumBrief_keyed : Keyed ColiseumBrief := br_id.
#[export] Instance ColiseumShout_keyed : Keyed ColiseumShout := sh_id.
#[export] Instance ColiseumResponseDrop_keyed : Keyed ColiseumResponseDrop := dr_id.
#[export] Instance ArenaAward_keyed : Keyed ArenaAward := aw_id.
(** [coliseumRoundVoteKey], [coliseumStatementKey], [coliseumCrucibleVoteKey] *)
#[export] Instance ColiseumRoundVote_keyed : Keyed ColiseumRoundVote :=
  fun v => rv_matchId v +:+ "::" +:+ pretty (rv_roundIndex v) +:+ "::" +:+ rv_voterId v.
Definition side_name (s : ColiseumSide) : string := match s with red => "red" | blue => "blue" end.
#[export] Instance CrucibleFinalStatement_keyed : Keyed CrucibleFinalStatement :=
  fun s => fs_matchId s +:+ "::" +:+ side_name (fs_side s).
#[export] Instance CrucibleSynthesisVote_keyed : Keyed CrucibleSynthesisVote :=
  fun v => sv_matchId v +:+ "::" +:+ sv_questionId v +:+ "::" +:+ sv_voterId v.

Record arena : Type := mk_arena {
  ar_rng : nat;
  ar_matches : jsmap ColiseumMatch;
  ar_rounds : jsmap ColiseumRound;
  ar_roundVotes : jsmap ColiseumRoundVote;
  ar_statements : jsmap CrucibleFinalStatement;
  ar_crucibleVotes : jsmap CrucibleSynthesisVote;
  ar_briefs : jsmap ColiseumBrief;
  ar_shouts : jsmap ColiseumShout;
  ar_drops : jsmap ColiseumResponseDrop;
  ar_awards : jsmap ArenaAward;
}.

Definition empty_arena : arena := mk_arena 0 [] [] [] [] [] [] [] [] [].

(** An operation may throw: then there is no answer, but what was written stays. *)
Definition A (X : Type) : Type := arena -> arena * option X.
Definition a_ret {X} (x : X) : A X := fun a => (a, Some x).
Definition a_throw {X} : A X := fun a => (a, None).
Definition a_bind {X Y} (m : A X) (k : X -> A Y) : A Y :=
  fun a => match m a with (a', Some x) => k x a' | (a', None) => (a', None) end.
Definition a_get : A arena := fun a => (a, Some a).
Definition a_put (f : arena -> arena) : A () := fun a => (f a, Some tt).
Fixpoint a_each {X} (l : list X) (f : X -> A ()) : A () :=
  match l with [] => a_ret tt | x :: l => a_bind (f x) (fun _ => a_each l f) end.

Declare Scope coliseum_scope.
Delimit Scope coliseum_scope with coliseum.
Notation "'let*' x := m 'in' k" := (a_bind m (fun x => k))
  (at level 200, x pattern, m at level 100, k at level 200) : coliseum_scope.
Local Open Scope coliseum_scope.

Definition upsertColiseumMatch (m : ColiseumMatch) (a : arena) : arena :=
  mk_arena (ar_rng a) (set (keyof m) m (ar_matches a)) (ar_rounds a) (ar_roundVotes a) (ar_statements a) (ar_crucibleVotes a)
    (ar_briefs a) (ar_shouts a) (ar_drops a) (ar_awards a).
Definition upsertColiseumRound (r : ColiseumRound) (a : arena) : arena :=
  mk_arena (ar_rng a) (ar_matches a) (set (keyof r) r (ar_rounds a)) (ar_roundVotes a) (ar_statements a) (ar_crucibleVotes a)
    (ar_briefs a) (ar_shouts a) (ar_drops a) (ar_awards a).
Definition upsertColiseumRoundVote (v : ColiseumRoundVote) (a : arena) : arena :=
  mk_arena (ar_rng a) (ar_matches a) (ar_rounds a) (set (keyof v) v (ar_roundVotes a)) (ar_statements a) (ar_crucibleVotes a)
    (ar_briefs a) (ar_shouts a) (ar_drops a) (ar_awards a).
Definition upsertColiseumCrucibleStatement (s : CrucibleFinalStatement) (a : arena) : arena :=
  mk_arena (ar_rng a) (ar_matches a) (ar_rounds a) (ar_roundVotes a) (set (keyof s) s (ar_statements a)) (ar_crucibleVotes a)
    (ar_briefs a) (ar_shouts a) (ar_drops a) (ar_awards a).
Definition upsertColiseumCrucibleVote (v : CrucibleSynthesisVote) (a : arena) : arena :=
  mk_arena (ar_rng a) (ar_matches a) (ar_rounds a) (ar_roundVotes a) (ar_statements a) (set (keyof v) v (ar_crucibleVotes a))
    (ar_briefs a) (ar_shouts a) (ar_drops a) (ar_awards a).
Definition upsertColiseumBrief (b : ColiseumBrief) (a : arena) : arena :=
  mk_arena (ar_rng a) (ar_matches a) (ar_rounds a) (ar_roundVotes a) (ar_statements a) (ar_crucibleVotes a)
    (set (keyof b) b (ar_briefs a)) (ar_shouts a) (ar_drops a) (ar_awards a).
Definition upsertColiseumShout (s : ColiseumShout) (a : arena) : arena :=
  mk_arena (ar_rng a) (ar_matches a) (ar_rounds a) (ar_roundVotes a) (ar_statements a) (ar_crucibleVotes a)
    (ar_briefs a) (set (keyof s) s (ar_shouts a)) (ar_drops a) (ar_awards a).
Definition upsertColiseumResponseDrop (d : ColiseumResponseDrop) (a : arena) : arena :=
  mk_arena (ar_rng a) (ar_matches a) (ar_rounds a) (ar_roundVotes a) (ar_statements a) (ar_crucibleVotes a)
    (ar_briefs a) (ar_shouts a) (set (keyof d) d (ar_drops a)) (ar_awards a).
Definition put_award (w : ArenaAward) (a : arena) : arena :=
  mk_arena (ar_rng a) (ar_matches a) (ar_rounds a) (ar_roundVotes a) (ar_statements a) (ar_crucibleVotes a)
    (ar_briefs a) (ar_shouts a) (ar_drops a) (set (keyof w) w (ar_awards a)).
Definition draw_once (a : arena) : arena :=
  mk_arena (S (ar_rng a)) (ar_matches a) (ar_rounds a) (ar_roundVotes a) (ar_statements a) (ar_crucibleVotes a)
    (ar_briefs a) (ar_shouts a) (ar_drops a) (ar_awards a).

(** [addReputationEvent]: the log is append-only. *)
Definition addReputationEvent (w : ArenaAward) : A () :=
  fun a => match get (aw_id w) (ar_awards a) with Some _ => (a, None) | None => (put_award w a, Some tt) end.

Definition reputationDedupeKeyExists (key : string) (a : arena) : bool :=
  existsb (fun w => bool_decide (aw_dedupeKey w = Some key)) (values (ar_awards a)).

(** Fields changed on a match. *)
Definition with_mt_status (s : ColiseumMatchStatus) (m : ColiseumMatch) : ColiseumMatch :=
  let '(mk_mt id ty pr tp dm ch op dn sh _ cr ac ck cu ve ar rw tk se de o) := m in
  mk_mt id ty pr tp dm ch op dn sh s cr ac ck cu ve ar rw tk se de o.
Definition with_mt_accepted (userId : string) (now : Z) (m : ColiseumMatch) : ColiseumMatch :=
  let '(mk_mt id ty pr tp dm ch _ dn sh st cr _ _ cu ve ar rw tk se _ _) := m in
  mk_mt id ty pr tp dm ch (Some userId) dn sh st cr (Some now) (Some (now + DEFAULT_MATCH_CLOCK_MS)) cu ve ar rw tk se None false.
Definition with_mt_declined (now : Z) (m : ColiseumMatch) : ColiseumMatch :=
  let '(mk_mt id ty pr tp dm ch op dn sh st cr ac ck cu ve ar rw tk se _ o) := m in
  mk_mt id ty pr tp dm ch op dn sh st cr ac ck cu ve ar rw tk se (Some now) o.
Definition with_mt_seen (now : Z) (m : ColiseumMatch) : ColiseumMatch :=
  let '(mk_mt id ty pr tp dm ch op dn sh st cr ac ck cu ve ar rw tk _ de o) := m in
  mk_mt id ty pr tp dm ch op dn sh st cr ac ck cu ve ar rw tk (Some now) de o.
Definition with_mt_crucible (now : Z) (m : ColiseumMatch) : ColiseumMatch :=
  let '(mk_mt id ty pr tp dm ch op dn sh st cr ac _ _ ve ar rw tk se de o) := m in
  mk_mt id ty pr tp dm ch op dn sh st cr ac (Some now) (Some (now + CRUCIBLE_DURATION_MS)) ve ar rw tk se de o.
Definition with_mt_verdict (now : Z) (m : ColiseumMatch) : ColiseumMatch :=
  let '(mk_mt id ty pr tp dm ch op dn sh _ cr ac ck cu _ ar rw tk se de o) := m in
  mk_mt id ty pr tp dm ch op dn sh ms_verdict cr ac ck cu (Some now) ar rw tk se de o.
(** [graduateToMatch]'s [live] *)
Definition with_mt_live (now : Z) (m : ColiseumMatch) : ColiseumMatch :=
  let '(mk_mt id ty pr tp dm ch op dn sh _ cr _ _ cu ve ar rw tk se de o) := m in
  mk_mt id ty pr tp dm ch op dn sh ms_live cr (Some now) (Some (now + DEFAULT_MATCH_CLOCK_MS)) cu ve ar rw tk se de o.

Class ColiseumEnv : Type := {
  (** the [n]-th [newChallengeToken()] *)
  challengeToken : nat -> string;
}.

Section operations.
Context `{Env} `{ColiseumEnv}.

(** [rand(prefix)] *)
Definition a_fresh (prefix : string) : A string := fun a => (draw_once a, Some (prefix +:+ draw (ar_rng a))).
Definition newMatchId : A string := a_fresh "match_".
Definition newRoundId : A string := a_fresh "round_".
Definition newBriefId : A string := a_fresh "brief_".
Definition newShoutId : A string := a_fresh "shout_".
Definition newDropId : A string := a_fresh "drop_".
Definition newChallengeToken : A string := fun a => (draw_once a, Some (challengeToken (ar_rng a))).

(** [recordReputationEvent] of [services/reputationStore.ts], as the arena calls it. *)
Definition recordReputationEvent (userId : string) (type : ReputationEventType) (subject : option string) (dedupeKey actor : string)
    (matchId : string) (roundIndex : option Z) (now : Z) : A bool :=
  let* a := a_get in
  if negb (bool_decide (dedupeKey = "")) && reputationDedupeKeyExists dedupeKey a then a_ret false
  else
    let* id := (fun a => (draw_once a, Some (uuid (ar_rng a)))) in
    let* _ := addReputationEvent (mk_aw id userId type subject (Some dedupeKey) actor matchId roundIndex now) in
    a_ret true.

Definition refreshStatus (m : ColiseumMatch) (now : Z) : A ColiseumMatch :=
  let status := deriveColiseumMatchStatus m now in
  if bool_decide (status = mt_status m) then a_ret m
  else
    let next := with_mt_status status m in
    let* _ := a_put (upsertColiseumMatch next) in
    a_ret next.

Definition db_getColiseumMatch (id : string) : A (option ColiseumMatch) := fun a => (a, Some (get id (ar_matches a))).

Definition lastMatchEndedAt (userId : string) (a : arena) : option Z :=
  fold_left (fun latest m =>
    if negb (bool_decide (mt_challengerId m = userId)) && negb (bool_decide (mt_opponentId m = Some userId)) then latest
    else
      match (match mt_verdictAt m with Some t => Some t | None => mt_archivedAt m end) with
      | None => latest
      | Some ended => match latest with Some l => if l <? ended then Some ended else latest | None => Some ended end
      end) (values (ar_matches a)) None.

Record CreateMatchInput : Type := {
  cm_type : option ColiseumMatchType;
  cm_proposition : string;
  cm_propositionTopicId : option string;
  cm_domain : option string;
  cm_challengerId : string;
  cm_opponentId : option string;
  cm_denRoomId : option string;
  cm_shoutId : option string;
  cm_open : option bool;
  cm_roundWindowMs : option Z;
}.

Definition createMatch (i : CreateMatchInput) (now : Z) : A ColiseumMatch :=
  let* id := newMatchId in
  let* token := newChallengeToken in
  let open := default false (cm_open i) in
  let m := mk_mt id (default callout (cm_type i)) (cm_proposition i) (cm_propositionTopicId i) (cm_domain i) (cm_challengerId i)
    (if open then None else cm_opponentId i) (cm_denRoomId i) (cm_shoutId i) ms_pending now None None None None None
    (default DEFAULT_ROUND_WINDOW_MS (cm_roundWindowMs i)) (Some token) None None open in
  let* _ := a_put (upsertColiseumMatch m) in
  a_ret m.

Definition getMatch (id : string) (now : Z) : A (option ColiseumMatch) :=
  let* found := db_getColiseumMatch id in
  match found with
  | None => a_ret None
  | Some m => let* m := refreshStatus m now in a_ret (Some m)
  end.

Record MatchFilter : Type := {
  mf_domain : option string;
  mf_status : option ColiseumMatchStatus;
  mf_fighterId : option string;
  mf_propositionTopicId : option string;
}.

Fixpoint refresh_all (ms : list ColiseumMatch) (now : Z) : A (list ColiseumMatch) :=
  match ms with
  | [] => a_ret []
  | m :: ms =>
      let* m := refreshStatus m now in
      let* rest := refresh_all ms now in
      a_ret (m :: rest)
  end.

Definition match_selected (f : MatchFilter) (m : ColiseumMatch) : bool :=
  match truthy (mf_domain f) with Some d => bool_decide (mt_domain m = Some d) | None => true end &&
  match mf_status f with Some s => bool_decide (mt_status m = s) | None => true end &&
  match truthy (mf_propositionTopicId f) with Some t => bool_decide (mt_propositionTopicId m = Some t) | None => true end &&
  match truthy (mf_fighterId f) with
  | Some u => bool_decide (mt_challengerId m = u) || bool_decide (mt_opponentId m = Some u)
  | None => true
  end.

Definition listMatches (f : MatchFilter) (now : Z) : A (list ColiseumMatch) :=
  let* a := a_get in
  let* ms := refresh_all (values (ar_matches a)) now in
  a_ret (js_sort (fun x y => mt_createdAt y <=? mt_createdAt x) (List.filter (match_selected f) ms)).

Inductive MatchRefusal : Set := mr_not_found | mr_forbidden | mr_not_pending.

(** [match.opponentId && match.opponentId !== userId] *)
Definition other_opponent (m : ColiseumMatch) (userId : string) : bool :=
  match truthy (mt_opponentId m) with Some o => negb (bool_decide (o = userId)) | None => false end.

Definition acceptMatch (matchId userId : string) (now : Z) : A (res MatchRefusal ColiseumMatch) :=
  let* found := db_getColiseumMatch matchId in
  match found with
  | None => a_ret (Err mr_not_found)
  | Some m =>
      if negb (bool_decide (deriveColiseumMatchStatus m now = ms_pending)) then a_ret (Err mr_not_pending)
      else if bool_decide (mt_challengerId m = userId) then a_ret (Err mr_forbidden)
      else if negb (mt_open m) && other_opponent m userId then a_ret (Err mr_forbidden)
      else let* m := refreshStatus (with_mt_accepted userId now m) now in a_ret (Ok m)
  end.

Definition declineMatch (matchId userId : string) (now : Z) : A (res MatchRefusal ColiseumMatch) :=
  let* found := db_getColiseumMatch matchId in
  match found with
  | None => a_ret (Err mr_not_found)
  | Some m =>
      if negb (bool_decide (deriveColiseumMatchStatus m now = ms_pending)) then a_ret (Err mr_not_pending)
      else if negb (mt_open m) && other_opponent m userId then a_ret (Err mr_forbidden)
      else
        let next := with_mt_declined now m in
        let* _ := a_put (upsertColiseumMatch next) in
        a_ret (Ok next)
  end.

Definition markChallengeSeen (matchId userId : string) (now : Z) : A (res MatchRefusal ColiseumMatch) :=
  let* found := db_getColiseumMatch matchId in
  match found with
  | None => a_ret (Err mr_not_found)
  | Some m =>
      if mt_open m || bool_decide (truthy (mt_opponentId m) <> Some userId) then a_ret (Err mr_forbidden)
      else if bool_decide (mt_acceptedAt m <> None) || bool_decide (mt_declinedAt m <> None) || bool_decide (mt_challengeSeenAt m <> None)
      then a_ret (Ok m)
      else
        let next := with_mt_seen now m in
        let* _ := a_put (upsertColiseumMatch next) in
        a_ret (Ok next)
  end.

Definition challengeStatusFor (m : ColiseumMatch) : ColiseumChallengeStatus :=
  deriveChallengeStatus (bool_decide (mt_acceptedAt m <> None)) (mt_declinedAt m) (mt_challengeSeenAt m) (mt_open m).


(** ** Rounds *)

Definition listRounds (matchId : string) (a : arena) : list ColiseumRound :=
  js_sort (fun x y => rd_index x <=? rd_index y)
    (List.filter (fun r => bool_decide (rd_matchId r = matchId)) (values (ar_rounds a))).

Record PostRoundInput : Type := {
  pr_matchId : string; pr_authorId : string; pr_kind : ColiseumRoundKind; pr_body : option string;
  pr_media : option ColiseumArgumentMedia; pr_citations : option (list ColiseumCitation);
}.

Inductive RoundRefusal : Set := rr_not_found | rr_forbidden | rr_not_live | rr_duration | rr_steelman_required.

(** [priorSteelman] *)
Definition prior_steelman (matchId authorId : string) (a : arena) : bool :=
  existsb (fun r => bool_decide (rd_matchId r = matchId) && bool_decide (rd_authorId r = authorId) && bool_decide (rd_kind r = rk_steelman))
    (values (ar_rounds a)).

Definition postRound (i : PostRoundInput) (now : Z) : A (res RoundRefusal ColiseumRound) :=
  let* found := db_getColiseumMatch (pr_matchId i) in
  match found with
  | None => a_ret (Err rr_not_found)
  | Some m =>
      if negb (bool_decide (deriveColiseumMatchStatus m now = ms_live)) then a_ret (Err rr_not_live)
      else
        match sideForFighter m (pr_authorId i) with
        | None => a_ret (Err rr_forbidden)
        | Some side =>
            if negb (isWithinRoundDurationCap (pr_media i)) then a_ret (Err rr_duration)
            else
              let* a := a_get in
              if bool_decide (pr_kind i = rk_rebuttal) && negb (prior_steelman (mt_id m) (pr_authorId i) a)
              then a_ret (Err rr_steelman_required)
              else
                let index := Z.of_nat (length (listRounds (mt_id m) a)) in
                let* id := newRoundId in
                let round := mk_rd id (mt_id m) index side (pr_authorId i) (pr_kind i) (pr_body i) (pr_media i)
                  (default [] (pr_citations i)) now in
                let* _ := a_put (upsertColiseumRound round) in
                a_ret (Ok round)
        end
  end.

Definition castRoundVote (matchId : string) (roundIndex : Z) (voterId : string) (choice : ColiseumRoundChoice) (now : Z) :
    A (option ColiseumRoundVote) :=
  let* found := db_getColiseumMatch matchId in
  match found with
  | None => a_ret None
  | Some m =>
      match sideForFighter m voterId with
      | Some _ => a_ret None
      | None =>
          let vote := mk_rv matchId roundIndex voterId choice now in
          let* _ := a_put (upsertColiseumRoundVote vote) in
          a_ret (Some vote)
      end
  end.

Definition roundTally (matchId : string) (roundIndex : Z) (a : arena) : RoundTally :=
  tallyRoundVotes (List.filter (fun v => bool_decide (rv_matchId v = matchId) && bool_decide (rv_roundIndex v = roundIndex))
    (values (ar_roundVotes a))).

(** ** The Crucible and the verdict *)

Definition openCrucible (matchId : string) (now : Z) : A (option ColiseumMatch) :=
  let* found := db_getColiseumMatch matchId in
  match found with
  | None => a_ret None
  | Some m => let* m := refreshStatus (with_mt_crucible now m) now in a_ret (Some m)
  end.

Inductive CrucibleRefusal : Set := cr_not_found | cr_forbidden | cr_not_crucible.

Definition postFinalStatement (matchId authorId : string) (body mediaMxc : option string) (now : Z) : A (res CrucibleRefusal ()) :=
  let* found := db_getColiseumMatch matchId in
  match found with
  | None => a_ret (Err cr_not_found)
  | Some m =>
      if negb (bool_decide (deriveColiseumMatchStatus m now = ms_crucible)) then a_ret (Err cr_not_crucible)
      else
        match sideForFighter m authorId with
        | None => a_ret (Err cr_forbidden)
        | Some side =>
            let* _ := a_put (upsertColiseumCrucibleStatement (mk_fs (mt_id m) side authorId mediaMxc body now)) in
            a_ret (Ok tt)
        end
  end.

Definition castSynthesisVote (matchId questionId voterId : string) (choice : CrucibleChoice) (now : Z) : A (res CrucibleRefusal ()) :=
  let* found := db_getColiseumMatch matchId in
  match found with
  | None => a_ret (Err cr_not_found)
  | Some m =>
      if negb (bool_decide (deriveColiseumMatchStatus m now = ms_crucible)) then a_ret (Err cr_not_crucible)
      else
        match sideForFighter m voterId with
        | Some _ => a_ret (Err cr_forbidden)
        | None =>
            let* _ := a_put (upsertColiseumCrucibleVote (mk_sv (mt_id m) questionId voterId choice now)) in
            a_ret (Ok tt)
        end
  end.

Definition fighterForSide (m : ColiseumMatch) (side : ColiseumSide) : option string :=
  match side with red => Some (mt_challengerId m) | blue => mt_opponentId m end.

Definition drawn_key (matchId userId : string) : string := "match_drawn:" +:+ matchId +:+ ":" +:+ userId.
Definition won_key (matchId : string) : string := "match_won:" +:+ matchId.
Definition round_key (matchId : string) (index : Z) : string := "round_won:" +:+ matchId +:+ ":" +:+ pretty index.
Definition steelman_key (matchId : string) (index : Z) : string := "steelman_passed:" +:+ matchId +:+ ":" +:+ pretty index.
Definition strike_key (matchId : string) : string := "credibility_strike:" +:+ matchId.

(** One award, when there is somebody to award: [if (userId) recordReputationEvent(...)]. *)
Definition award (who : option string) (type : ReputationEventType) (m : ColiseumMatch) (key : string -> string) (actor : string)
    (roundIndex : option Z) (now : Z) : A () :=
  match truthy who with
  | None => a_ret tt
  | Some userId =>
      let* _ := recordReputationEvent userId type (mt_domain m) (key userId) actor (mt_id m) roundIndex now in
      a_ret tt
  end.

Definition leading_side (leader : ColiseumRoundChoice) : option ColiseumSide :=
  match leader with rc_red => Some red | rc_blue => Some blue | rc_draw => None end.

(** The body of the loop over the rounds. *)
Definition award_round (m : ColiseumMatch) (now : Z) (round : ColiseumRound) : A () :=
  let* a := a_get in
  match leading_side (ty_leader (roundTally (mt_id m) (rd_index round) a)) with
  | None => a_ret tt
  | Some side =>
      let who := fighterForSide m side in
      match truthy who with
      | None => a_ret tt
      | Some _ =>
          let* _ := award who round_won m (fun _ => round_key (mt_id m) (rd_index round)) "coliseum:crowd-tally"
            (Some (rd_index round)) now in
          if bool_decide (rd_kind round = rk_steelman) && bool_decide (side = rd_side round)
          then award who steelman_passed m (fun _ => steelman_key (mt_id m) (rd_index round)) "coliseum:crowd-tally"
            (Some (rd_index round)) now
          else a_ret tt
      end
  end.

(** The awards of the result itself. *)
Definition award_result (m : ColiseumMatch) (winner : option ColiseumSide) (now : Z) : A () :=
  match winner with
  | None =>
      a_each [Some (mt_challengerId m); mt_opponentId m]
        (fun who => award who match_drawn m (drawn_key (mt_id m)) "coliseum:verdict" None now)
  | Some side => award (fighterForSide m side) match_won m (fun _ => won_key (mt_id m)) "coliseum:verdict" None now
  end.

Definition awardFighterReputation (m : ColiseumMatch) (verdict : CrucibleVerdict) (now : Z) : A () :=
  let* _ := award_result m (cv_winner verdict) now in
  let* a := a_get in
  let* _ := a_each (listRounds (mt_id m) a) (award_round m now) in
  match deriveCredibilityStrike (cv_breakdown verdict) with
  | None => a_ret tt
  | Some side => award (fighterForSide m side) credibility_strike m (fun _ => strike_key (mt_id m)) "coliseum:verdict" None now
  end.

Definition getBriefForMatch (matchId : string) (a : arena) : option ColiseumBrief :=
  List.find (fun b => bool_decide (br_matchId b = matchId)) (values (ar_briefs a)).

(** [db.listColiseumCrucibleVotes().filter((v) => v.matchId === matchId)] *)
Definition votes_of (matchId : string) (a : arena) : list CrucibleSynthesisVote :=
  List.filter (fun v => bool_decide (sv_matchId v = matchId)) (values (ar_crucibleVotes a)).

Definition mintVerdict (matchId : string) (now : Z) : A (option ColiseumBrief) :=
  let* found := db_getColiseumMatch matchId in
  match found with
  | None => a_ret None
  | Some m =>
      let* a := a_get in
      match getBriefForMatch matchId a with
      | Some existing => a_ret (Some existing)
      | None =>
          let verdict := deriveCrucibleVerdict matchId (votes_of matchId a) now in
          let* id := newBriefId in
          let brief := mintBrief id matchId (mt_proposition m) verdict now in
          let* _ := a_put (upsertColiseumBrief brief) in
          let* _ := a_put (upsertColiseumMatch (with_mt_verdict now m)) in
          let* _ := awardFighterReputation m verdict now in
          a_ret (Some brief)
      end
  end.

Definition getBrief (id : string) (a : arena) : option ColiseumBrief := get id (ar_briefs a).

(** ** The routes' own guards ([routes/coliseum.ts]); [sub] is the signed-in user *)

Inductive route_refusal : Set := ro_not_found | ro_forbidden | ro_cooldown (remainingMs : Z) | ro_invalid.

(** [POST /matches] *)
Definition post_match (sub : string) (i : CreateMatchInput) (type : unknown) (now : Z) : A (res route_refusal ColiseumMatch) :=
  let* a := a_get in
  let lastEnded := lastMatchEndedAt sub a in
  if isUnderCooldown lastEnded now then a_ret (Err (ro_cooldown (cooldownRemainingMs lastEnded now)))
  else
    let* m := createMatch {| cm_type := Some (match_type_of type); cm_proposition := cm_proposition i;
      cm_propositionTopicId := cm_propositionTopicId i; cm_domain := cm_domain i; cm_challengerId := sub;
      cm_opponentId := cm_opponentId i; cm_denRoomId := cm_denRoomId i; cm_shoutId := None; cm_open := cm_open i;
      cm_roundWindowMs := cm_roundWindowMs i |} now in
    a_ret (Ok m).

(** [callerIsFighter] *)
Definition callerIsFighter (sub : option string) (m : ColiseumMatch) : bool :=
  match truthy sub with
  | Some u => bool_decide (mt_challengerId m = u) || bool_decide (mt_opponentId m = Some u)
  | None => false
  end.

Record MatchView : Type := {
  mw_match : ColiseumMatch;
  mw_rounds : list ColiseumRound;
  mw_tallies : option (list (Z * RoundTally));
  mw_challengeStatus : ColiseumChallengeStatus;
  mw_brief : option ColiseumBrief;
}.

(** [GET /matches/:id] *)
Definition view_match (sub : option string) (id : string) (now : Z) : A (res route_refusal MatchView) :=
  let* found := getMatch id now in
  match found with
  | None => a_ret (Err ro_not_found)
  | Some m =>
      let* a := a_get in
      let rounds := listRounds (mt_id m) a in
      let ended := bool_decide (mt_status m = ms_verdict) || bool_decide (mt_status m = ms_archived) in
      let showTallies := ended || negb (callerIsFighter sub m) in
      a_ret (Ok {| mw_match := m; mw_rounds := rounds;
        mw_tallies := if showTallies then Some (map (fun r => (rd_index r, roundTally (mt_id m) (rd_index r) a)) rounds) else None;
        mw_challengeStatus := challengeStatusFor m; mw_brief := getBriefForMatch (mt_id m) a |})
  end.

(** What [POST /matches/:id/crucible/open] and [.../verdict] share. *)
Definition for_fighter {X} (sub id : string) (now : Z) (k : ColiseumMatch -> A (option X)) : A (res route_refusal X) :=
  let* found := getMatch id now in
  match found with
  | None => a_ret (Err ro_not_found)
  | Some m =>
      if negb (bool_decide (mt_challengerId m = sub)) && negb (bool_decide (mt_opponentId m = Some sub)) then a_ret (Err ro_forbidden)
      else
        let* x := k m in
        match x with None => a_ret (Err ro_not_found) | Some x => a_ret (Ok x) end
  end.

Definition post_crucible_open (sub id : string) (now : Z) : A (res route_refusal ColiseumMatch) :=
  for_fighter sub id now (fun m => openCrucible (mt_id m) now).
Definition post_verdict (sub id : string) (now : Z) : A (res route_refusal ColiseumBrief) :=
  for_fighter sub id now (fun m => mintVerdict (mt_id m) now).

(** [POST /matches/:id/crucible/synthesis] *)
Definition post_synthesis (sub id questionId : string) (choice : CrucibleChoice) (now : Z) : A (res route_refusal (res CrucibleRefusal ())) :=
  if negb (isCrucibleQuestionId questionId) then a_ret (Err ro_invalid)
  else let* r := castSynthesisVote id questionId sub choice now in a_ret (Ok r).

(** [POST /matches/:id/rounds/:idx/vote], the index read already. *)
Definition post_round_vote (sub id : string) (roundIndex : Z) (choice : ColiseumRoundChoice) (now : Z) :
    A (res route_refusal ColiseumRoundVote) :=
  if roundIndex <? 0 then a_ret (Err ro_invalid)
  else
    let* vote := castRoundVote id roundIndex sub choice now in
    match vote with None => a_ret (Err ro_forbidden) | Some v => a_ret (Ok v) end.

(** ** Shouts that become matches ([services/coliseumShoutStore.ts]) *)

Definition dropsForShout (shoutId : string) (a : arena) : list ColiseumResponseDrop :=
  List.filter (fun d => bool_decide (dr_shoutId d = shoutId)) (values (ar_drops a)).

Definition createShout (authorId : string) (domain body denRoomId : option string) (now : Z) : A ColiseumShout :=
  let* id := newShoutId in
  let shout := {| sh_id := id; sh_authorId := authorId; sh_domain := domain; sh_body := body; sh_denRoomId := denRoomId;
                  sh_createdAt := now |} in
  let* _ := a_put (upsertColiseumShout shout) in
  a_ret shout.

Definition postResponseDrop (shoutId authorId : string) (now : Z) : A (option ColiseumResponseDrop) :=
  let* a := a_get in
  match get shoutId (ar_shouts a) with
  | None => a_ret None
  | Some shout =>
      let* id := newDropId in
      let drop := mk_rdp id shoutId authorId now in
      let* _ := a_put (upsertColiseumResponseDrop drop) in
      a_ret (Some drop)
  end.

Definition graduateToMatch (shoutId : string) (now : Z) : A (option ColiseumMatch) :=
  let* a := a_get in
  match get shoutId (ar_shouts a) with
  | None => a_ret None
  | Some shout =>
      match detectBilateralExchange shout (dropsForShout shoutId a) with
      | None => a_ret None
      | Some exchange =>
          let* m := createMatch {| cm_type := Some callout; cm_proposition := default "Shout graduated to match" (sh_body shout);
            cm_propositionTopicId := None; cm_domain := sh_domain shout; cm_challengerId := be_shouterId exchange;
            cm_opponentId := Some (be_responderId exchange); cm_denRoomId := sh_denRoomId shout; cm_shoutId := Some (sh_id shout);
            cm_open := None; cm_roundWindowMs := None |} now in
          let live := with_mt_live now m in
          let* _ := a_put (upsertColiseumMatch live) in
          a_ret (Some live)
      end
  end.

(** ** The requests that change the arena, and what they leave *)

Inductive arena_request : Type :=
  | rq_match (sub : string) (i : CreateMatchInput) (type : unknown)
  | rq_view (sub : option string) (id : string)
  | rq_list (f : MatchFilter)
  | rq_accept (sub id : string)
  | rq_decline (sub id : string)
  | rq_seen (sub id : string)
  | rq_round (i : PostRoundInput)
  | rq_round_vote (sub id : string) (roundIndex : Z) (choice : ColiseumRoundChoice)
  | rq_crucible (sub id : string)
  | rq_statement (sub id : string) (body mediaMxc : option string)
  | rq_synthesis (sub id questionId : string) (choice : CrucibleChoice)
  | rq_verdict (sub id : string)
  | rq_shout (sub : string) (domain body denRoomId : option string)
  | rq_drop (sub shoutId : string)
  | rq_graduate (sub shoutId : string).

Definition arena_serve (r : arena_request) (now : Z) (a : arena) : arena :=
  match r with
  | rq_match sub i type => fst (post_match sub i type now a)
  | rq_view sub id => fst (view_match sub id now a)
  | rq_list f => fst (listMatches f now a)
  | rq_accept sub id => fst (acceptMatch id sub now a)
  | rq_decline sub id => fst (declineMatch id sub now a)
  | rq_seen sub id => fst (markChallengeSeen id sub now a)
  | rq_round i => fst (postRound i now a)
  | rq_round_vote sub id idx choice => fst (post_round_vote sub id idx choice now a)
  | rq_crucible sub id => fst (post_crucible_open sub id now a)
  | rq_statement sub id body media => fst (postFinalStatement id sub body media now a)
  | rq_synthesis sub id q choice => fst (post_synthesis sub id q choice now a)
  | rq_verdict sub id => fst (post_verdict sub id now a)
  | rq_shout sub domain body den => fst (createShout sub domain body den now a)
  | rq_drop sub shoutId => fst (postResponseDrop shoutId sub now a)
  | rq_graduate _ shoutId => fst (graduateToMatch shoutId now a)
  end.

(** A moment of the arena's life: the time and the tables. *)
Definition moment : Type := Z * arena.

(** One request, no earlier than the last. *)
Inductive arena_request_step : moment -> moment -> Prop :=
  | one_request r t t' a : t <= t' -> arena_request_step (t, a) (t', arena_serve r t' a).

Definition arena_past : moment -> moment -> Prop := rtc arena_request_step.
Definition arena_reachable (s : moment) : Prop := exists t, arena_past (t, empty_arena) s.

(** The requests served in turn, each with its time. *)
Definition arena_day (requests : list (Z * arena_request)) (s : moment) : moment :=
  fold_left (fun s q => (fst q, arena_serve (snd q) (fst q) (snd s))) requests s.

End operations.
