(* ===== verification/ColiseumSafety.v ===== *)
(** * What the Coliseum's matches keep

    The invariant of the arena ([arena_inv]), a total-correctness triple for its
    operations ([wp]: no throw, the invariant kept, nothing on record lost), the rule of
    each operation, and the properties of whole histories of requests. *)

From S2P Require Import Prelude JsMap CoalitionDomain Records Store Relay Slug Text Coliseum.
Local Open Scope Z_scope.

(** ** A match and its moves *)

(** How far a match has come. *)
Definition rank (s : ColiseumMatchStatus) : Z :=
  match s with ms_pending => 0 | ms_accepted => 1 | ms_live => 2 | ms_crucible => 3 | ms_verdict => 4 | ms_archived => 5 end.
Definition match_stage (m : ColiseumMatch) (now : Z) : Z := rank (deriveColiseumMatchStatus m now).

(** What a match says of itself for good. *)
Definition fixed_part (m : ColiseumMatch) :=
  (mt_id m, mt_type m, mt_proposition m, mt_propositionTopicId m, mt_domain m, mt_challengerId m, mt_denRoomId m, mt_shoutId m,
   mt_createdAt m, mt_roundWindowMs m, mt_challengeToken m).

Record match_ok (t : Z) (m : ColiseumMatch) : Prop := {
  mo_archived : mt_archivedAt m = None;
  mo_verdict v : mt_verdictAt m = Some v -> v <= t /\ mt_status m = ms_verdict;
  mo_accepted x : mt_acceptedAt m = Some x -> x <= t /\ mt_opponentId m <> None /\ mt_clockEndsAt m <> None;
  mo_clock c : mt_clockEndsAt m = Some c -> mt_acceptedAt m = None -> c <= t;
  mo_status : rank (mt_status m) <= match_stage m t;
}.

(** One write to a match. *)
Record match_step (t : Z) (m m' : ColiseumMatch) : Prop := {
  st_fixed : fixed_part m' = fixed_part m;
  st_opponent : match_stage m t <> 0 -> mt_opponentId m' = mt_opponentId m;
  st_accepted x : mt_acceptedAt m = Some x -> mt_acceptedAt m' = Some x;
  st_verdict v : mt_verdictAt m = Some v -> mt_verdictAt m' = Some v;
  st_clock c : mt_clockEndsAt m = Some c -> mt_clockEndsAt m' = Some c \/ t < c /\ mt_clockEndsAt m' = Some t;
}.

(** A match at one time and at a later one. *)
Record match_later (t t' : Z) (m m' : ColiseumMatch) : Prop := {
  ml_fixed : fixed_part m' = fixed_part m;
  ml_stage : match_stage m t <= match_stage m' t';
  ml_opponent : match_stage m t <> 0 -> mt_opponentId m' = mt_opponentId m;
  ml_verdict v : mt_verdictAt m = Some v -> mt_verdictAt m' = Some v;
}.

Lemma rank_nonneg s : 0 <= rank s <= 5.
Proof. destruct s; simpl; lia. Qed.

Lemma rank_inj s s' : rank s = rank s' -> s = s'.
Proof. destruct s, s'; simpl; congruence || lia. Qed.

Lemma reached_mono x t t' : t <= t' -> reached x t = true -> reached x t' = true.
Proof. destruct x; simpl; [lia|done]. Qed.

(** The stage read off the timeline: each mark pushes it at least so far. *)
Lemma stage_cases m t :
  match_stage m t = if reached (mt_archivedAt m) t then 5 else if reached (mt_verdictAt m) t then 4
              else if reached (mt_clockEndsAt m) t then 3 else if reached (mt_acceptedAt m) t then 2 else 0.
Proof. unfold match_stage, deriveColiseumMatchStatus. by repeat case_match. Qed.

Lemma stage_mono m t t' : t <= t' -> match_stage m t <= match_stage m t'.
Proof.
  intros Ht. rewrite !stage_cases.
  pose proof (reached_mono (mt_archivedAt m) _ _ Ht). pose proof (reached_mono (mt_verdictAt m) _ _ Ht).
  pose proof (reached_mono (mt_clockEndsAt m) _ _ Ht). pose proof (reached_mono (mt_acceptedAt m) _ _ Ht).
  repeat case_match; try lia; try (exfalso; intuition congruence).
Qed.

Lemma match_ok_time t t' m : t <= t' -> match_ok t m -> match_ok t' m.
Proof.
  intros Ht [Ha Hv Hx Hc Hs]. split; [done|..].
  - intros v Ev. destruct (Hv v Ev). split; [lia|done].
  - intros x Ex. destruct (Hx x Ex) as (? & ? & ?). split_and!; [lia|done..].
  - intros c Ec En. specialize (Hc c Ec En). lia.
  - pose proof (stage_mono m t t' Ht). lia.
Qed.

Lemma match_step_refl t m : match_step t m m.
Proof. split; auto. Qed.

Lemma match_later_time t t' m : t <= t' -> match_later t t' m m.
Proof. intros Ht. split; auto using stage_mono. Qed.

Lemma match_later_trans t0 t1 t2 m0 m1 m2 :
  match_later t0 t1 m0 m1 -> match_later t1 t2 m1 m2 -> match_later t0 t2 m0 m2.
Proof.
  intros [F S O V] [F' S' O' V']. split; [congruence|lia|..|auto].
  intros Hs. rewrite O', O; [done|done|].
  pose proof (rank_nonneg (deriveColiseumMatchStatus m0 t0)). unfold match_stage in *. lia.
Qed.

(** A write never sets a match back. *)
Lemma match_step_later t m m' : match_ok t m -> match_ok t m' -> match_step t m m' -> match_later t t m m'.
Proof.
  intros Ok Ok' [F O X V C]. split; auto. rewrite !stage_cases.
  rewrite (mo_archived t m Ok). simpl.
  destruct (mt_verdictAt m) as [v|] eqn:Ev.
  { rewrite (V v eq_refl). destruct (mo_verdict t m Ok v Ev). simpl. repeat case_match; lia. }
  destruct (mt_clockEndsAt m) as [c|] eqn:Ec.
  { simpl. destruct (C c eq_refl) as [-> | [Hlt ->]]; simpl.
    - destruct (mt_acceptedAt m) as [x|] eqn:Ex.
      + rewrite (X x eq_refl). simpl. repeat case_match; lia.
      + pose proof (mo_clock t m Ok c Ec Ex). repeat case_match; lia.
    - repeat case_match; lia. }
  destruct (mt_acceptedAt m) as [x|] eqn:Ex.
  { rewrite (X x eq_refl). simpl. repeat case_match; lia. }
  simpl. repeat case_match; lia.
Qed.

(** *** The writes the operations make *)

Lemma pending_match t m :
  match_ok t m -> match_stage m t = 0 -> mt_verdictAt m = None /\ mt_acceptedAt m = None /\ mt_clockEndsAt m = None.
Proof.
  intros Ok. rewrite stage_cases, (mo_archived t m Ok). simpl.
  destruct (mt_verdictAt m) as [v|] eqn:Ev; simpl.
  { destruct (mo_verdict t m Ok v Ev). case_match; lia. }
  destruct (mt_acceptedAt m) as [x|] eqn:Ex; simpl.
  { destruct (mo_accepted t m Ok x Ex) as (? & _). repeat case_match; lia. }
  destruct (mt_clockEndsAt m) as [c|] eqn:Ec; simpl; [|done].
  pose proof (mo_clock t m Ok c Ec Ex). case_match; lia.
Qed.

Lemma unjudged_match t m : match_ok t m -> match_stage m t < 4 -> mt_verdictAt m = None.
Proof.
  intros Ok Hs. destruct (mt_verdictAt m) as [v|] eqn:Ev; [|done]. exfalso. revert Hs.
  destruct (mo_verdict t m Ok v Ev). rewrite stage_cases, (mo_archived t m Ok), Ev. simpl. case_match; lia.
Qed.

Lemma status_stage m s t : match_stage (with_mt_status s m) t = match_stage m t.
Proof. by destruct m. Qed.

(** [refreshStatus] writes back the same match under the status it has. *)
Lemma refreshed_ok t m : match_ok t m -> let m' := with_mt_status (deriveColiseumMatchStatus m t) m in match_ok t m' /\ match_step t m m'.
Proof.
  intros Ok. split; [split|split]; rewrite ?status_stage; try (destruct m; simpl in *; auto; by apply Ok).
  - intros v Ev. pose proof (mo_archived _ _ Ok) as Ha. destruct (mo_verdict _ _ Ok v) as [Hv _]; destruct m; simpl in *; [done|].
    split; [done|]. unfold deriveColiseumMatchStatus. simpl. rewrite Ha, Ev. simpl. by rewrite (proj2 (Z.leb_le v t) Hv).
  - destruct m; simpl. unfold match_stage. simpl. lia.
Qed.

Lemma match_step_trans t m0 m1 m2 :
  match_ok t m0 -> match_ok t m1 -> match_step t m0 m1 -> match_step t m1 m2 -> match_step t m0 m2.
Proof.
  intros Ok0 Ok1 S0 S1. pose proof (match_step_later t m0 m1 Ok0 Ok1 S0) as L.
  destruct S0 as [F O X V C], S1 as [F' O' X' V' C']. split; [congruence|..|auto|auto|].
  - intros Hs. rewrite O', O; [done|done|]. pose proof (ml_stage _ _ _ _ L).
    pose proof (rank_nonneg (deriveColiseumMatchStatus m0 t)). unfold match_stage in *. lia.
  - intros c Ec. destruct (C c Ec) as [E | [Hlt E]]; destruct (C' _ E) as [E' | [Hlt' E']]; auto; lia.
Qed.

(** A write that leaves the timeline, the fighters and what is fixed alone. *)
Lemma aside_ok t m m' :
  match_ok t m -> fixed_part m' = fixed_part m -> mt_opponentId m' = mt_opponentId m -> mt_status m' = mt_status m ->
  mt_acceptedAt m' = mt_acceptedAt m -> mt_clockEndsAt m' = mt_clockEndsAt m -> mt_verdictAt m' = mt_verdictAt m ->
  mt_archivedAt m' = mt_archivedAt m -> match_ok t m' /\ match_step t m m'.
Proof.
  intros [Ha Hv Hx Hc Hs] F O S X C V A.
  assert (match_stage m' t = match_stage m t) by (by rewrite !stage_cases, A, V, C, X).
  split; split; rewrite ?F, ?O, ?S, ?X, ?C, ?V, ?A; auto; try congruence; lia.
Qed.

(** A pending match taken up: [acceptMatch], [graduateToMatch]. *)
Lemma taken_up_ok t m m' :
  match_ok t m -> match_stage m t = 0 -> fixed_part m' = fixed_part m -> mt_opponentId m' <> None ->
  mt_acceptedAt m' = Some t -> mt_clockEndsAt m' = Some (t + DEFAULT_MATCH_CLOCK_MS) -> mt_verdictAt m' = mt_verdictAt m ->
  mt_archivedAt m' = mt_archivedAt m -> rank (mt_status m') <= 2 -> match_ok t m' /\ match_step t m m' /\ match_stage m' t = 2.
Proof.
  intros Ok Hs F O X C V A S. destruct (pending_match t m Ok Hs) as (Ev & Ex & Ec).
  assert (Hst : match_stage m' t = 2).
  { rewrite stage_cases, X, C, V, A, Ev, (mo_archived t m Ok). simpl. rewrite (proj2 (Z.leb_gt _ _)), Z.leb_refl; [done|].
    unfold DEFAULT_MATCH_CLOCK_MS. lia. }
  split_and!; [split|split|done]; try congruence; try done.
  - rewrite A. by apply Ok.
  - intros x Ex'. split_and!; [|done|congruence]. rewrite X in Ex'. simplify_eq. lia.
Qed.

(** The clock stopped: [openCrucible] before the Crucible. *)
Lemma crucible_ok t m : match_ok t m -> match_stage m t < 3 -> let m' := with_mt_crucible t m in match_ok t m' /\ match_step t m m' /\ match_stage m' t = 3.
Proof.
  intros Ok Hs. pose proof (unjudged_match t m Ok ltac:(lia)) as Ev. pose proof (mo_archived t m Ok) as Ha.
  assert (Hc : forall c, mt_clockEndsAt m = Some c -> t < c).
  { intros c Ec. revert Hs. rewrite stage_cases, Ha, Ev, Ec. simpl. case_match; lia. }
  assert (Hst : match_stage (with_mt_crucible t m) t = 3).
  { rewrite stage_cases. destruct m; simpl in *. rewrite Ha, Ev. simpl. by rewrite Z.leb_refl. }
  pose proof (mo_status t m Ok). pose proof (mo_accepted t m Ok).
  split_and!; [split|split|done]; destruct m; simpl in *; auto; try congruence.
  - intros x Ex. edestruct H0 as (? & ? & ?); [done|]. split_and!; [lia|done|done].
  - intros c [= <-] _. lia.
  - lia.
Qed.

Lemma verdict_ok t m : match_ok t m -> match_stage m t < 4 -> let m' := with_mt_verdict t m in match_ok t m' /\ match_step t m m'.
Proof.
  intros Ok Hs. pose proof (unjudged_match t m Ok Hs) as Ev. pose proof (mo_archived t m Ok) as Ha.
  assert (Hst : match_stage (with_mt_verdict t m) t = 4).
  { rewrite stage_cases. destruct m; simpl in *. rewrite Ha. simpl. by rewrite Z.leb_refl. }
  pose proof (mo_clock t m Ok). pose proof (mo_accepted t m Ok).
  split; split; destruct m; simpl in *; auto; try congruence.
  - intros v [= <-]. split; [lia|done].
  - lia.
Qed.

(** ** The invariant of the arena *)

Section arena.
Context `{Env} `{!DrawLaws} `{ColiseumEnv}.

Definition match_mint (n : nat) : string := "match_" +:+ draw n.
Definition round_mint (n : nat) : string := "round_" +:+ draw n.
Definition brief_mint (n : nat) : string := "brief_" +:+ draw n.

Lemma match_mint_inj n m : match_mint n = match_mint m -> n = m.
Proof. unfold match_mint. intros E. simplify_eq/=. by apply draw_inj. Qed.
Lemma round_mint_inj n m : round_mint n = round_mint m -> n = m.
Proof. unfold round_mint. intros E. simplify_eq/=. by apply draw_inj. Qed.
Lemma brief_mint_inj n m : brief_mint n = brief_mint m -> n = m.
Proof. unfold brief_mint. intros E. simplify_eq/=. by apply draw_inj. Qed.

Definition match_rounds (id : string) (a : arena) : list ColiseumRound :=
  List.filter (fun r => bool_decide (rd_matchId r = id)) (values (ar_rounds a)).

(** A round is by a fighter of an accepted match, within its clock and the cap; a rebuttal
    follows a steel-man of the same author. *)
Record round_ok (t : Z) (a : arena) (r : ColiseumRound) : Prop := {
  ro_match : exists m x c, get (rd_matchId r) (ar_matches a) = Some m /\ mt_acceptedAt m = Some x /\ mt_clockEndsAt m = Some c /\
    x <= rd_createdAt r <= t /\ rd_createdAt r <= c /\ sideForFighter m (rd_authorId r) = Some (rd_side r);
  ro_cap : isWithinRoundDurationCap (rd_media r) = true;
  ro_steelman : rd_kind r = rk_rebuttal -> exists s, In s (values (ar_rounds a)) /\ rd_matchId s = rd_matchId r /\
    rd_authorId s = rd_authorId r /\ rd_kind s = rk_steelman /\ rd_index s < rd_index r;
}.

(** A ballot answers a known question of a match that has reached its Crucible, and is not
    a fighter's. *)
Definition ballot_ok (t : Z) (a : arena) (v : CrucibleSynthesisVote) : Prop :=
  exists m, get (sv_matchId v) (ar_matches a) = Some m /\ 3 <= match_stage m t /\ sideForFighter m (sv_voterId v) = None /\
    isCrucibleQuestionId (sv_questionId v) = true.

(** A brief is the one [mintBrief] makes of the ballots on file. *)
Definition brief_ok (a : arena) (b : ColiseumBrief) : Prop :=
  exists m, get (br_matchId b) (ar_matches a) = Some m /\ mt_verdictAt m = Some (br_mintedAt b) /\
    b = mintBrief (br_id b) (br_matchId b) (mt_proposition m)
          (deriveCrucibleVerdict (br_matchId b) (votes_of (br_matchId b) a) (br_mintedAt b)) (br_mintedAt b).

(** Why an award was made, and under which key. *)
Definition award_reason (a : arena) (b : ColiseumBrief) (side : ColiseumSide) (w : ArenaAward) : Prop :=
  match aw_type w with
  | match_won => br_winner b = Some side /\ aw_dedupeKey w = Some (won_key (aw_matchId w))
  | match_drawn => br_winner b = None /\ aw_dedupeKey w = Some (drawn_key (aw_matchId w) (aw_userId w))
  | round_won => exists r, In r (values (ar_rounds a)) /\ rd_matchId r = aw_matchId w /\ aw_roundIndex w = Some (rd_index r) /\
      aw_dedupeKey w = Some (round_key (aw_matchId w) (rd_index r))
  | steelman_passed => exists r, In r (values (ar_rounds a)) /\ rd_matchId r = aw_matchId w /\ aw_roundIndex w = Some (rd_index r) /\
      rd_kind r = rk_steelman /\ rd_side r = side /\ aw_dedupeKey w = Some (steelman_key (aw_matchId w) (rd_index r))
  | credibility_strike => deriveCredibilityStrike (br_questionBreakdown b) = Some side /\
      aw_dedupeKey w = Some (strike_key (aw_matchId w))
  | _ => False
  end.

Definition award_ok (a : arena) (w : ArenaAward) : Prop :=
  exists m b side, get (aw_matchId w) (ar_matches a) = Some m /\ In b (values (ar_briefs a)) /\ br_matchId b = aw_matchId w /\
    fighterForSide m side = Some (aw_userId w) /\ aw_subject w = mt_domain m /\ award_reason a b side w.

Record arena_inv (t : Z) (a : arena) : Prop := {
  ai_matches : table_ok match_mint (match_ok t) (ar_rng a) (ar_matches a);
  ai_rounds : table_ok round_mint (round_ok t a) (ar_rng a) (ar_rounds a);
  ai_indices id : map rd_index (match_rounds id a) = seqZ 0 (Z.of_nat (length (match_rounds id a)));
  ai_ballots : keyed (ar_crucibleVotes a) /\ forall v, In v (values (ar_crucibleVotes a)) -> ballot_ok t a v;
  ai_briefs : table_ok brief_mint (brief_ok a) (ar_rng a) (ar_briefs a);
  ai_one_brief : List.NoDup (map br_matchId (values (ar_briefs a)));
  ai_minted id m v : get id (ar_matches a) = Some m -> mt_verdictAt m = Some v ->
    exists b, In b (values (ar_briefs a)) /\ br_matchId b = id;
  ai_awards : table_ok uuid (award_ok a) (ar_rng a) (ar_awards a);
  ai_keys : List.NoDup (map aw_dedupeKey (values (ar_awards a)));
}.

(** What a moment owes to an earlier one. *)
Record arena_later (t : Z) (a : arena) (t' : Z) (a' : arena) : Prop := {
  al_rng : (ar_rng a <= ar_rng a')%nat;
  al_matches id m : get id (ar_matches a) = Some m -> exists m', get id (ar_matches a') = Some m' /\ match_later t t' m m';
  al_rounds id r : get id (ar_rounds a) = Some r -> get id (ar_rounds a') = Some r;
  al_briefs id b : get id (ar_briefs a) = Some b -> get id (ar_briefs a') = Some b;
  al_awards id w : get id (ar_awards a) = Some w -> get id (ar_awards a') = Some w;
}.

Lemma arena_later_time t t' a : t <= t' -> arena_later t a t' a.
Proof. intros Ht. split; auto. intros id m Hg. exists m. split; [done|by apply match_later_time]. Qed.

Lemma arena_later_trans t0 a0 t1 a1 t2 a2 :
  arena_later t0 a0 t1 a1 -> arena_later t1 a1 t2 a2 -> arena_later t0 a0 t2 a2.
Proof.
  intros [N M R B W] [N' M' R' B' W']. split; [lia| |auto..].
  intros id m Hg. destruct (M id m Hg) as (m1 & Hg1 & L1). destruct (M' id m1 Hg1) as (m2 & Hg2 & L2).
  exists m2. split; [done|by eapply match_later_trans].
Qed.

Lemma table_ok_impl {V} `{Keyed V} mint (P Q : V -> Prop) n n' (tb : jsmap V) :
  (n <= n')%nat -> (forall v, P v -> Q v) -> table_ok mint P n tb -> table_ok mint Q n' tb.
Proof.
  intros Hn HPQ [Hk Ht]. split; [done|]. intros k v Hg. destruct (Ht k v Hg) as (Hw & i & Hi & ->).
  split; [auto|]. exists i. split; [lia|done].
Qed.

Lemma table_ok_in {V} `{Keyed V} mint (P : V -> Prop) n (tb : jsmap V) v :
  table_ok mint P n tb -> In v (values tb) -> P v /\ get (keyof v) tb = Some v.
Proof. intros [Hk Ht] Hin. pose proof (keyed_in tb v Hk Hin) as Hg. split; [by apply (Ht (keyof v) v)|done]. Qed.

(** *** Time passes *)

Lemma arena_inv_time t t' a : t <= t' -> arena_inv t a -> arena_inv t' a.
Proof.
  intros Ht [M R I V B O J W K]. split; try done.
  - revert M. apply table_ok_impl; [done|]. intros m. by apply match_ok_time.
  - revert R. apply table_ok_impl; [done|]. intros r [(m & x & c & ? & ? & ? & ? & ? & ?) Hc Hs]. split; [|done|done].
    exists m, x, c. split_and!; try done; lia.
  - destruct V as [Vk V]. split; [done|]. intros v Hin. destruct (V v Hin) as (m & ? & ? & ? & ?). exists m.
    pose proof (stage_mono m t t' Ht). split_and!; try done; lia.
Qed.

(** *** Writes to the matches alone *)

Definition matches_step (t : Z) (a a' : arena) : Prop :=
  forall id m, get id (ar_matches a) = Some m -> exists m', get id (ar_matches a') = Some m' /\ match_step t m m'.

Lemma fixed_fields t m m' : match_step t m m' ->
  mt_id m' = mt_id m /\ mt_challengerId m' = mt_challengerId m /\ mt_proposition m' = mt_proposition m /\ mt_domain m' = mt_domain m.
Proof. intros S. pose proof (st_fixed _ _ _ S) as F. unfold fixed_part in F. split_and!; congruence. Qed.

Lemma side_step t m m' u : match_stage m t <> 0 -> match_step t m m' -> sideForFighter m' u = sideForFighter m u.
Proof. intros Hs S. unfold sideForFighter. destruct (fixed_fields t m m' S) as (_ & -> & _). by rewrite (st_opponent _ _ _ S Hs). Qed.

Lemma accepted_stage m t x : mt_acceptedAt m = Some x -> x <= t -> match_stage m t <> 0.
Proof. intros E Hx. rewrite stage_cases, E. simpl. rewrite (proj2 (Z.leb_le _ _) Hx). repeat case_match; lia. Qed.

Lemma judged_stage m t v : mt_verdictAt m = Some v -> v <= t -> 4 <= match_stage m t.
Proof. intros E Hv. rewrite stage_cases, E. simpl. rewrite (proj2 (Z.leb_le _ _) Hv). case_match; lia. Qed.

Lemma round_ok_step t a a' r :
  matches_step t a a' -> ar_rounds a' = ar_rounds a -> round_ok t a r -> round_ok t a' r.
Proof.
  intros M E [(m & x & c & Hg & Ex & Ec & Ht & Hc & Hs) Hcap Hst]. destruct (M _ _ Hg) as (m' & Hg' & S).
  pose proof (accepted_stage m t x Ex ltac:(lia)) as Hn. split; [|done|by rewrite E].
  destruct (st_clock _ _ _ S c Ec) as [Ec' | [Hlt Ec']].
  - exists m', x, c. rewrite (side_step t m m'), (st_accepted _ _ _ S x Ex) by done. done.
  - exists m', x, t. rewrite (side_step t m m'), (st_accepted _ _ _ S x Ex) by done. split_and!; try done; lia.
Qed.

Lemma ballot_ok_step t a a' v :
  matches_step t a a' -> (forall id m, get id (ar_matches a) = Some m -> match_ok t m) ->
  (forall id m, get id (ar_matches a') = Some m -> match_ok t m) -> ballot_ok t a v -> ballot_ok t a' v.
Proof.
  intros M Hok Hok' (m & Hg & Hs & Hv & Hq). destruct (M _ _ Hg) as (m' & Hg' & S). exists m'.
  pose proof (ml_stage _ _ _ _ (match_step_later t m m' (Hok _ _ Hg) (Hok' _ _ Hg') S)).
  rewrite (side_step t m m') by (done || lia). split_and!; try done; lia.
Qed.

Lemma brief_ok_step t a a' b :
  matches_step t a a' -> votes_of (br_matchId b) a' = votes_of (br_matchId b) a -> brief_ok a b -> brief_ok a' b.
Proof.
  intros M E (m & Hg & Hv & Hb). destruct (M _ _ Hg) as (m' & Hg' & S). exists m'. rewrite E.
  split_and!; [done|by apply S|]. destruct (fixed_fields t m m' S) as (_ & _ & -> & _). exact Hb.
Qed.

Lemma fighter_step t m m' side : match_stage m t <> 0 -> match_step t m m' -> fighterForSide m' side = fighterForSide m side.
Proof. intros Hs S. destruct side; simpl; [by destruct (fixed_fields t m m' S) as (_ & -> & _)|by apply S]. Qed.

Lemma award_ok_step t a a' w :
  matches_step t a a' -> (forall id m, get id (ar_matches a) = Some m -> match_ok t m) ->
  (forall r, In r (values (ar_rounds a)) -> In r (values (ar_rounds a'))) ->
  (forall b, In b (values (ar_briefs a)) -> In b (values (ar_briefs a')) /\ brief_ok a b) -> award_ok a w -> award_ok a' w.
Proof.
  intros M Hok Hr Hb (m & b & side & Hg & Hin & E & Hf & Hsub & Hre). destruct (M _ _ Hg) as (m' & Hg' & S).
  destruct (Hb b Hin) as (Hin' & (m1 & Hg1 & Hv & _)). rewrite E in Hg1. simplify_eq.
  assert (Hst : match_stage m t <> 0).
  { destruct (mo_verdict t m (Hok _ _ Hg) _ Hv). pose proof (judged_stage m t _ Hv). lia. }
  exists m', b, side. rewrite (fighter_step t m m') by done. split_and!; try done.
  - by destruct (fixed_fields t m m' S) as (_ & _ & _ & ->).
  - revert Hre. unfold award_reason. case_match; try done; intros (r & ? & ?); exists r; auto.
Qed.

Definition same_but_matches (a a' : arena) : Prop :=
  ar_rounds a' = ar_rounds a /\ ar_crucibleVotes a' = ar_crucibleVotes a /\ ar_briefs a' = ar_briefs a /\ ar_awards a' = ar_awards a.

Lemma stored_ok t a : arena_inv t a -> forall id m, get id (ar_matches a) = Some m -> match_ok t m /\ mt_id m = id.
Proof.
  intros I id m Hg. destruct (ai_matches t a I) as [Hk Ht]. split; [by apply (Ht id m)|].
  symmetry. by apply (keyed_get (ar_matches a) id m).
Qed.

Lemma brief_in t a b : arena_inv t a -> In b (values (ar_briefs a)) -> brief_ok a b.
Proof. intros I Hin. apply (table_ok_in _ _ _ _ _ (ai_briefs t a I) Hin). Qed.

Lemma inv_matches t a a' :
  arena_inv t a -> same_but_matches a a' -> (ar_rng a <= ar_rng a')%nat -> matches_step t a a' ->
  table_ok match_mint (match_ok t) (ar_rng a') (ar_matches a') ->
  (forall id m v, get id (ar_matches a') = Some m -> mt_verdictAt m = Some v ->
     exists b, In b (values (ar_briefs a)) /\ br_matchId b = id) ->
  arena_inv t a' /\ arena_later t a t a'.
Proof.
  intros I (Er & Ev & Eb & Ea) Hn M T J. pose proof (stored_ok t a I) as Hok. pose proof (fun b => brief_in t a b I) as Hbr.
  assert (Hok1 : forall id m, get id (ar_matches a) = Some m -> match_ok t m) by (intros id m Hg; apply (Hok id m Hg)).
  assert (Hok2 : forall id m, get id (ar_matches a') = Some m -> match_ok t m) by (intros id m Hg; apply (proj2 T id m Hg)).
  assert (Evo : forall id, votes_of id a' = votes_of id a) by (intros id; unfold votes_of; by rewrite Ev).
  destruct I as [_ R Ix V B O _ W K]. split; split; unfold match_rounds in *; rewrite ?Er, ?Ev, ?Eb, ?Ea; auto.
  - revert R. apply table_ok_impl; [done|]. intros r. by apply round_ok_step.
  - destruct V as [Vk V]. split; [done|]. intros v Hin. apply (ballot_ok_step t a a'); auto.
  - revert B. apply table_ok_impl; [done|]. intros b. by apply (brief_ok_step t).
  - revert W. apply table_ok_impl; [done|]. intros w. apply (award_ok_step t a a'); auto.
    + by rewrite Er.
    + rewrite Eb. auto.
  - intros id m Hg. destruct (M id m Hg) as (m' & Hg' & S). exists m'. split; [done|].
    apply match_step_later; eauto.
Qed.

(** A write to none of the tables the invariant speaks of. *)
Lemma inv_aside t a a' :
  arena_inv t a -> ar_matches a' = ar_matches a -> same_but_matches a a' -> (ar_rng a <= ar_rng a')%nat ->
  arena_inv t a' /\ arena_later t a t a'.
Proof.
  intros I E S Hn. apply inv_matches; rewrite ?E; try done.
  - intros id m Hg. exists m. rewrite E. split; [done|apply match_step_refl].
  - generalize (ai_matches t a I). by apply table_ok_impl.
  - apply I.
Qed.

Lemma inv_put t a m m' :
  arena_inv t a -> get (mt_id m) (ar_matches a) = Some m -> match_ok t m' -> match_step t m m' ->
  mt_verdictAt m' = mt_verdictAt m ->
  arena_inv t (upsertColiseumMatch m' a) /\ arena_later t a t (upsertColiseumMatch m' a).
Proof.
  intros I Hg Ok S Ev. destruct (fixed_fields t m m' S) as (Eid & _).
  apply inv_matches; simpl; try done.
  - intros id m0 Hg0. simpl. rewrite get_set. destruct (decide _) as [<-|Hne].
    + exists m'. split; [done|]. change (keyof m') with (mt_id m') in Hg0. rewrite Eid in Hg0. by simplify_eq.
    + exists m0. split; [done|apply match_step_refl].
  - destruct (ai_matches t a I) as [Hk Ht]. split; [by apply keyed_set|]. intros k v. rewrite get_set.
    destruct (decide _) as [<-|]; [|apply Ht]. intros [= <-]. split; [done|].
    change (keyof m') with (mt_id m'). rewrite Eid. apply (Ht _ _ Hg).
  - intros id m0 v. rewrite get_set. destruct (decide _) as [<-|]; [|by apply I].
    intros [= <-]. rewrite Ev. change (keyof m') with (mt_id m'). rewrite Eid. by apply (ai_minted t a I).
Qed.

Lemma inv_new_match t a m n :
  arena_inv t a -> mt_id m = match_mint n -> (n < ar_rng a)%nat -> get (mt_id m) (ar_matches a) = None -> match_ok t m ->
  mt_verdictAt m = None ->
  arena_inv t (upsertColiseumMatch m a) /\ arena_later t a t (upsertColiseumMatch m a).
Proof.
  intros I Eid Hn Hf Ok Ev. apply inv_matches; simpl; try done.
  - intros id m0 Hg0. simpl. rewrite get_set. destruct (decide _) as [<-|Hne].
    + change (keyof m) with (mt_id m) in Hg0. congruence.
    + exists m0. split; [done|apply match_step_refl].
  - destruct (ai_matches t a I) as [Hk Ht]. split; [by apply keyed_set|]. intros k v. rewrite get_set.
    destruct (decide _) as [<-|]; [|apply Ht]. intros [= <-]. split; [done|]. by exists n.
  - intros id m0 v. rewrite get_set. destruct (decide _) as [<-|]; [|by apply I]. intros [= <-]. congruence.
Qed.

(** *** A new round *)

Lemma NoDup_snoc {X} (l : list X) x : List.NoDup l -> ~ In x l -> List.NoDup (l ++ [x]).
Proof. intros Hl Hx. apply (Permutation_NoDup (Permutation_cons_append l x)). by constructor. Qed.

Lemma filter_app_one {X} (f : X -> bool) l x : List.filter f (l ++ [x]) = if f x then List.filter f l ++ [x] else List.filter f l.
Proof. rewrite List.filter_app. simpl. destruct (f x); [done|by rewrite app_nil_r]. Qed.

Lemma seqZ_snoc n : seqZ 0 (Z.of_nat (S n)) = seqZ 0 (Z.of_nat n) ++ [Z.of_nat n].
Proof. rewrite Nat2Z.inj_succ, <-Z.add_1_r, seqZ_app by lia. by rewrite Z.add_0_l. Qed.

Lemma length_listRounds id a : length (listRounds id a) = length (match_rounds id a).
Proof. apply js_sort_length. Qed.

Lemma round_index_lt t a r : arena_inv t a -> In r (values (ar_rounds a)) -> rd_index r < Z.of_nat (length (match_rounds (rd_matchId r) a)).
Proof.
  intros I Hin. assert (Hi : In (rd_index r) (map rd_index (match_rounds (rd_matchId r) a))).
  { apply in_map. apply List.filter_In. split; [done|by apply bool_decide_eq_true]. }
  rewrite (ai_indices t a I) in Hi. apply list_elem_of_In, elem_of_seqZ in Hi. lia.
Qed.

Lemma inv_new_round t a r n :
  arena_inv t a -> rd_id r = round_mint n -> (n < ar_rng a)%nat -> get (rd_id r) (ar_rounds a) = None -> round_ok t a r ->
  rd_index r = Z.of_nat (length (match_rounds (rd_matchId r) a)) ->
  arena_inv t (upsertColiseumRound r a) /\ arena_later t a t (upsertColiseumRound r a).
Proof.
  intros I Eid Hn Hf Ok Ei. assert (Ev : values (set (keyof r) r (ar_rounds a)) = values (ar_rounds a) ++ [r]) by (by apply values_set_new).
  assert (Hin : forall x, In x (values (ar_rounds a)) -> In x (values (ar_rounds (upsertColiseumRound r a)))).
  { intros x Hx. cbn [upsertColiseumRound ar_rounds]. rewrite Ev. apply in_app_iff. by left. }
  assert (Hok : forall x, round_ok t a x -> round_ok t (upsertColiseumRound r a) x).
  { intros x [Hm Hc Hs]. split; [done|done|]. intros Hk. destruct (Hs Hk) as (s & ? & ?). exists s. auto. }
  pose proof I as [M R Ix V B O J W K]. split; [split; try done|].
  - destruct R as [Hk Ht]. split; [by apply keyed_set|]. intros k x. simpl. rewrite get_set.
    destruct (decide _) as [<-|]; [intros [= <-]; split; [auto|by exists n]|].
    intros Hg. destruct (Ht k x Hg). auto.
  - intros id. unfold match_rounds. simpl. rewrite Ev, filter_app_one. fold (match_rounds id a).
    case_bool_decide as E; [|apply Ix].
    rewrite map_app, length_app, Nat.add_1_r, seqZ_snoc, Ix. simpl. f_equal. rewrite Ei. by rewrite E.
  - revert W. apply table_ok_impl; [done|]. intros w (m & b & side & ? & ? & ? & ? & ? & Hre). exists m, b, side.
    split_and!; try done. revert Hre. unfold award_reason. case_match; try done; intros (x & ? & ?); exists x; auto.
  - split; simpl; auto.
    + intros id m Hg. exists m. split; [done|]. by apply match_later_time.
    + intros id x Hg. rewrite get_set. destruct (decide _) as [<-|]; [|done]. change (keyof r) with (rd_id r) in Hg. congruence.
Qed.

(** *** A ballot *)

Lemma match_mint_plain n : free_of ":" (match_mint n).
Proof.
  unfold match_mint. apply free_app. split; [vm_compute; intuition congruence|].
  intros Hin. apply list_elem_of_In in Hin. by apply (draw_no_colon n _ Hin).
Qed.

Lemma ballot_key v : keyof v = sv_matchId v +:+ String ":" (":" +:+ sv_questionId v +:+ "::" +:+ sv_voterId v).
Proof. done. Qed.

Lemma ballot_key_match v w :
  free_of ":" (sv_matchId v) -> free_of ":" (sv_matchId w) -> keyof v = keyof w -> sv_matchId v = sv_matchId w.
Proof.
  intros Hv Hw E. rewrite !ballot_key in E. apply (f_equal (cut_at ":")) in E. rewrite !cut_at_app in E by done. congruence.
Qed.

Lemma filter_set_aside {V} (f : V -> bool) k v (tb : jsmap V) :
  f v = false -> (forall o, get k tb = Some o -> f o = false) -> List.filter f (values (set k v tb)) = List.filter f (values tb).
Proof.
  intros Hv Ho. destruct (get k tb) as [o|] eqn:E.
  - destruct (values_set_old k v o tb E) as (l1 & l2 & -> & ->). rewrite !List.filter_app. simpl. by rewrite Hv, (Ho o).
  - by rewrite values_set_new, filter_app_one, Hv by done.
Qed.

Lemma inv_ballot t a v m :
  arena_inv t a -> get (sv_matchId v) (ar_matches a) = Some m -> match_stage m t = 3 -> sideForFighter m (sv_voterId v) = None ->
  isCrucibleQuestionId (sv_questionId v) = true ->
  arena_inv t (upsertColiseumCrucibleVote v a) /\ arena_later t a t (upsertColiseumCrucibleVote v a).
Proof.
  intros I Hg Hs Hv Hq. pose proof I as [M R Ix [Vk V] B O J W K].
  assert (Hplain : forall x, ballot_ok t a x -> free_of ":" (sv_matchId x)).
  { intros x (mx & Hx & _). destruct (proj2 M _ _ Hx) as (_ & n & _ & ->). apply match_mint_plain. }
  assert (Hok : ballot_ok t a v) by (exists m; split_and!; try done; lia).
  assert (Evo : forall b, brief_ok a b -> votes_of (br_matchId b) (upsertColiseumCrucibleVote v a) = votes_of (br_matchId b) a).
  { intros b (mb & Hgb & Hvb & _).
    assert (Hne : sv_matchId v <> br_matchId b).
    { intros E. rewrite E, Hgb in Hg. simplify_eq. destruct (mo_verdict t m (proj1 (stored_ok t a I _ _ Hgb)) _ Hvb).
      pose proof (judged_stage m t _ Hvb). lia. }
    apply filter_set_aside; [by apply bool_decide_eq_false|].
    intros o Ho. apply bool_decide_eq_false. rewrite <-(ballot_key_match v o); [done|auto..|by apply (keyed_get _ _ _ Vk)].
    apply Hplain, V. by apply (get_in_values (keyof v)). }
  set (a' := upsertColiseumCrucibleVote v a) in *. pose proof (fun id m H => proj1 (stored_ok t a I id m H)) as Hmo.
  assert (S : matches_step t a a') by (intros id m0 Hg0; exists m0; split; [done|apply match_step_refl]).
  split; [split; try done|].
  - revert R. apply table_ok_impl; [done|]. intros r. by apply round_ok_step.
  - split; [by apply keyed_set|]. intros x Hx. apply (ballot_ok_step t a a'); auto.
    apply in_values_set in Hx as [-> |]; [exact Hok|by apply V].
  - revert B. apply table_ok_impl; [done|]. intros b Hb. apply (brief_ok_step t a); [done|by apply Evo|done].
  - split; auto. intros id m0 Hg0. exists m0. split; [done|]. by apply match_later_time.
Qed.

(** *** A verdict: the brief and the match's mark, written together *)

Lemma inv_verdict t a m n :
  arena_inv t a -> get (mt_id m) (ar_matches a) = Some m -> getBriefForMatch (mt_id m) a = None -> (n < ar_rng a)%nat ->
  get (brief_mint n) (ar_briefs a) = None ->
  let b := mintBrief (brief_mint n) (mt_id m) (mt_proposition m) (deriveCrucibleVerdict (mt_id m) (votes_of (mt_id m) a) t) t in
  let a' := upsertColiseumMatch (with_mt_verdict t m) (upsertColiseumBrief b a) in
  arena_inv t a' /\ arena_later t a t a'.
Proof.
  intros I Hg Hno Hn Hf b a'. pose proof I as [M R Ix [Vk V] B O J W K]. pose proof (fun id m H => proj1 (stored_ok t a I id m H)) as Hok.
  assert (Hnb : forall x, In x (values (ar_briefs a)) -> br_matchId x <> mt_id m).
  { intros x Hx. pose proof (List.find_none _ _ Hno x Hx) as E. by apply bool_decide_eq_false in E. }
  assert (Hev : mt_verdictAt m = None).
  { destruct (mt_verdictAt m) as [v|] eqn:E; [|done]. destruct (J _ _ _ Hg E) as (x & Hx & Ex). by destruct (Hnb x Hx). }
  assert (Hst : match_stage m t < 4).
  { rewrite stage_cases, Hev, (mo_archived t m (Hok _ _ Hg)). simpl. repeat case_match; lia. }
  destruct (verdict_ok t m (Hok _ _ Hg) Hst) as [Okv Sv]. destruct (fixed_fields _ _ _ Sv) as (Eid & _ & Epr & _).
  set (m' := with_mt_verdict t m) in *.
  assert (Hgm : forall id, get id (ar_matches a') = if decide (mt_id m = id) then Some m' else get id (ar_matches a)).
  { intros id. simpl. rewrite get_set. change (keyof m') with (mt_id m'). by rewrite Eid. }
  assert (S : matches_step t a a').
  { intros id m0 Hg0. rewrite Hgm. destruct (decide _) as [<-|]; [|exists m0; split; [done|apply match_step_refl]].
    exists m'. split; [done|]. by simplify_eq. }
  assert (Hok' : forall id x, get id (ar_matches a') = Some x -> match_ok t x).
  { intros id x. rewrite Hgm. destruct (decide _); [by intros [= <-]|apply Hok]. }
  assert (Ebs : values (ar_briefs a') = values (ar_briefs a) ++ [b]) by (by apply values_set_new).
  assert (Hbok : brief_ok a' b).
  { exists m'. rewrite Hgm. change (br_matchId b) with (mt_id m). rewrite decide_True, Epr by done. split_and!; [done| |done].
    by unfold m'; destruct m. }
  split; [split|split].
  - destruct M as [Mk M]. split; [by apply keyed_set|]. intros id x Hx. split; [by apply (Hok' id)|].
    revert Hx. rewrite Hgm. destruct (decide _) as [<-|]; intros Hx; eapply M; eauto.
  - revert R. apply table_ok_impl; [done|]. intros r. by apply round_ok_step.
  - done.
  - split; [done|]. intros v Hin. apply (ballot_ok_step t a a'); auto.
  - destruct B as [Bk B]. split; [by apply keyed_set|]. intros k x. cbn [a' ar_briefs upsertColiseumMatch upsertColiseumBrief].
    rewrite get_set. destruct (decide _) as [<-|]; [intros [= <-]; split; [done|by exists n]|].
    intros Hx. destruct (B k x Hx) as (Hbx & ?). split; [by apply (brief_ok_step t a)|done].
  - rewrite Ebs, map_app. apply NoDup_snoc; [done|]. intros Hin. apply in_map_iff in Hin as (x & Ex & Hx). by destruct (Hnb x Hx).
  - intros id x v. rewrite Hgm, Ebs. destruct (decide _) as [<-|].
    + intros _ _. exists b. split; [apply in_app_iff; right; by left|done].
    + intros Hx Hv. destruct (J _ _ _ Hx Hv) as (y & ? & ?). exists y. split; [apply in_app_iff; by left|done].
  - revert W. apply table_ok_impl; [done|]. intros w. apply (award_ok_step t a a'); auto.
    intros x Hx. rewrite Ebs. split; [apply in_app_iff; by left|by apply (brief_in t)].
  - done.
  - done.
  - intros id x Hx. destruct (S id x Hx) as (y & Hy & Sy). exists y. split; [done|]. apply match_step_later; eauto.
  - done.
  - intros k x Hx. cbn [a' ar_briefs upsertColiseumMatch upsertColiseumBrief]. rewrite get_set.
    destruct (decide _) as [<-|]; [|done]. change (keyof b) with (brief_mint n) in Hx. congruence.
  - done.
Qed.

(** *** An award *)

Lemma inv_award t a w n :
  arena_inv t a -> aw_id w = uuid n -> (n < ar_rng a)%nat -> get (aw_id w) (ar_awards a) = None -> award_ok a w ->
  (forall x, In x (values (ar_awards a)) -> aw_dedupeKey x <> aw_dedupeKey w) ->
  arena_inv t (put_award w a) /\ arena_later t a t (put_award w a).
Proof.
  intros I Eid Hn Hf Ok Hk. pose proof I as [M R Ix V B O J W K].
  assert (Ev : values (set (keyof w) w (ar_awards a)) = values (ar_awards a) ++ [w]) by (by apply values_set_new).
  assert (Hr : forall r, round_ok t a r -> round_ok t (put_award w a) r).
  { intros r. apply round_ok_step; [|done]. intros id m Hg. exists m. split; [done|apply match_step_refl]. }
  split; [split; try done|].
  - revert R. by apply table_ok_impl.
  - destruct W as [Wk W]. split; [by apply keyed_set|]. intros k x. cbn [put_award ar_awards]. rewrite get_set.
    destruct (decide _) as [<-|]; [intros [= <-]; split; [done|by exists n]|apply W].
  - cbn [put_award ar_awards]. rewrite Ev, map_app. apply NoDup_snoc; [done|].
    intros Hin. apply in_map_iff in Hin as (x & Ex & Hx). by destruct (Hk x Hx).
  - split; auto.
    + intros id m0 Hg0. exists m0. split; [done|]. by apply match_later_time.
    + intros k x Hx. cbn [put_award ar_awards]. rewrite get_set. destruct (decide _) as [<-|]; [|done].
      change (keyof w) with (aw_id w) in Hx. congruence.
Qed.

(** ** The triple: no throw, the invariant kept, nothing on record lost *)

Definition wp {X} (t : Z) (m : A X) (Q : X -> arena -> Prop) (a : arena) : Prop :=
  exists a' x, m a = (a', Some x) /\ arena_inv t a' /\ arena_later t a t a' /\ Q x a'.

Lemma wp_ret {X} t (x : X) Q a : arena_inv t a -> Q x a -> wp t (a_ret x) Q a.
Proof. intros I HQ. exists a, x. split_and!; try done. by apply arena_later_time. Qed.

Lemma wp_get t Q a : arena_inv t a -> Q a a -> wp t a_get Q a.
Proof. intros I HQ. exists a, a. split_and!; try done. by apply arena_later_time. Qed.

Lemma wp_find t id Q a : arena_inv t a -> Q (get id (ar_matches a)) a -> wp t (db_getColiseumMatch id) Q a.
Proof. intros I HQ. exists a, (get id (ar_matches a)). split_and!; try done. by apply arena_later_time. Qed.

Lemma wp_put t f Q a : arena_inv t (f a) /\ arena_later t a t (f a) -> Q tt (f a) -> wp t (a_put f) Q a.
Proof. intros [I L] HQ. by exists (f a), tt. Qed.

Lemma wp_fresh t prefix Q a : arena_inv t a -> Q (prefix +:+ draw (ar_rng a)) (draw_once a) -> wp t (a_fresh prefix) Q a.
Proof.
  intros I HQ. destruct (inv_aside t a (draw_once a) I) as [I' L]; [done|done|simpl; lia|].
  by exists (draw_once a), (prefix +:+ draw (ar_rng a)).
Qed.

Lemma wp_token t Q a : arena_inv t a -> Q (challengeToken (ar_rng a)) (draw_once a) -> wp t newChallengeToken Q a.
Proof.
  intros I HQ. destruct (inv_aside t a (draw_once a) I) as [I' L]; [done|done|simpl; lia|].
  by exists (draw_once a), (challengeToken (ar_rng a)).
Qed.

Lemma wp_bind {X Y} t (m : A X) (k : X -> A Y) Q a : wp t m (fun x a' => wp t (k x) Q a') a -> wp t (a_bind m k) Q a.
Proof.
  intros (a1 & x & E & I1 & L1 & a2 & y & E2 & I2 & L2 & HQ). exists a2, y. unfold a_bind. rewrite E.
  split_and!; try done. by eapply arena_later_trans.
Qed.

Lemma wp_mono {X} t (m : A X) (Q Q' : X -> arena -> Prop) a :
  wp t m Q a -> (forall x a', arena_inv t a' -> Q x a' -> Q' x a') -> wp t m Q' a.
Proof. intros (a1 & x & E & I1 & L1 & HQ) HQQ. exists a1, x. split_and!; auto. Qed.

(** What a triple says of the state alone. *)
Lemma wp_state {X} t (m : A X) Q a : wp t m Q a -> arena_inv t (fst (m a)) /\ arena_later t a t (fst (m a)).
Proof. intros (a1 & x & E & I1 & L1 & _). by rewrite E. Qed.

Lemma wp_each {X} t (l : list X) (f : X -> A ()) (P : arena -> Prop) a :
  (forall x a, In x l -> arena_inv t a -> P a -> wp t (f x) (fun _ => P) a) -> arena_inv t a -> P a ->
  wp t (a_each l f) (fun _ => P) a.
Proof.
  revert a. induction l as [|x l IH]; intros a Hf I HP; simpl; [by apply wp_ret|].
  apply wp_bind. eapply wp_mono; [apply Hf; [by left|done|done]|]. intros [] a' I' HP'.
  apply IH; [|done|done]. intros y b Hy. apply Hf. by right.
Qed.

(** ** The operations *)

Definition whatever {X} : X -> arena -> Prop := fun _ _ => True.

(** [refreshStatus] of a match that may be written back. *)
Lemma wp_refresh_write t a m m' :
  arena_inv t a -> get (mt_id m) (ar_matches a) = Some m -> match_ok t m' -> match_step t m m' -> mt_verdictAt m' = mt_verdictAt m ->
  wp t (refreshStatus m' t) (fun x a' => x = with_mt_status (deriveColiseumMatchStatus m' t) m' /\
    (a' = a /\ mt_status m' = deriveColiseumMatchStatus m' t \/ a' = upsertColiseumMatch x a)) a.
Proof.
  intros I Hg Ok S Ev. unfold refreshStatus. destruct (refreshed_ok t m' Ok) as [Ok' S'].
  case_bool_decide as E.
  - apply wp_ret; [done|]. split; [|by left]. rewrite E. by destruct m'.
  - apply wp_bind, wp_put.
    + pose proof (stored_ok t a I _ _ Hg) as [Om _]. apply (inv_put t a m); [done..| |].
      * by apply (match_step_trans t m m').
      * rewrite <-Ev. by destruct m'.
    + apply wp_ret; [|auto]. destruct (inv_put t a m (with_mt_status (deriveColiseumMatchStatus m' t) m')) as [? _]; try done.
      * apply (match_step_trans t m m'); try done. apply (stored_ok t a I _ _ Hg).
      * rewrite <-Ev. by destruct m'.
Qed.

Lemma wp_refresh t a m :
  arena_inv t a -> get (mt_id m) (ar_matches a) = Some m ->
  wp t (refreshStatus m t) (fun x a' => x = with_mt_status (deriveColiseumMatchStatus m t) m /\
    ar_matches a' = set (mt_id m) x (ar_matches a) /\ ar_briefs a' = ar_briefs a \/
    x = m /\ a' = a /\ mt_status m = deriveColiseumMatchStatus m t) a.
Proof.
  intros I Hg. destruct (stored_ok t a I _ _ Hg) as [Ok _].
  eapply wp_mono; [by apply (wp_refresh_write t a m m I Hg Ok (match_step_refl t m))|].
  intros x a' _ [-> [[-> E] | ->]]; [right|left].
  - split; [|done]. rewrite <-E. by destruct m.
  - split; [done|]. by destruct m.
Qed.

Lemma wp_getMatch t a id :
  arena_inv t a ->
  wp t (getMatch id t) (fun found a' => match found with
    | None => get id (ar_matches a) = None /\ a' = a
    | Some m => get id (ar_matches a') = Some m /\ mt_status m = deriveColiseumMatchStatus m t /\ ar_briefs a' = ar_briefs a /\
        exists m0, get id (ar_matches a) = Some m0 /\ mt_challengerId m = mt_challengerId m0 /\ mt_opponentId m = mt_opponentId m0
    end) a.
Proof.
  intros I. apply wp_bind, wp_find; [done|]. destruct (get id (ar_matches a)) as [m|] eqn:Hg; [|by apply wp_ret].
  destruct (stored_ok t a I _ _ Hg) as [Ok Eid].
  apply wp_bind. eapply wp_mono; [apply (wp_refresh t a m I); by rewrite Eid|].
  intros x a' I' [(-> & E & Eb) | (-> & -> & E)]; apply wp_ret; try done.
  - rewrite E, Eid, get_set_eq. split_and!; [done|by destruct m|done|]. exists m. by destruct m.
  - split_and!; [done..|]. by exists m.
Qed.

Lemma wp_refresh_all t ms a :
  arena_inv t a -> List.NoDup (map mt_id ms) -> (forall m, In m ms -> get (mt_id m) (ar_matches a) = Some m) ->
  wp t (refresh_all ms t) whatever a.
Proof.
  revert a. induction ms as [|m ms IH]; intros a I Hnd Hin; [by apply wp_ret|].
  inversion_clear Hnd as [|? ? Hni Hnd']. simpl. apply wp_bind.
  eapply wp_mono; [apply (wp_refresh t a m I), Hin; by left|]. intros x a' I' Hx.
  apply wp_bind. eapply wp_mono; [apply IH; [done|done|]|intros; by apply wp_ret].
  intros y Hy. destruct Hx as [(-> & -> & _) | (_ & -> & _)]; [|apply Hin; by right].
  rewrite get_set_ne; [apply Hin; by right|]. intros E. apply Hni. rewrite E. by apply in_map.
Qed.

Lemma wp_listMatches t a f : arena_inv t a -> wp t (listMatches f t) whatever a.
Proof.
  intros I. apply wp_bind, wp_get; [done|]. apply wp_bind. destruct (ai_matches t a I) as [Hk Ht].
  eapply wp_mono; [apply (wp_refresh_all t); [done|by apply keyed_values_NoDup|]|intros; by apply wp_ret].
  intros m Hm. by apply keyed_in.
Qed.

Lemma arena_fresh_id {V} `{Keyed V} mint (P : V -> Prop) n (tb : jsmap V) :
  (forall i j, mint i = mint j -> i = j) -> table_ok mint P n tb -> get (mint n) tb = None.
Proof. intros Hinj T. by apply (table_fresh mint Hinj P n tb). Qed.

Lemma wp_createMatch t a i :
  arena_inv t a ->
  wp t (createMatch i t) (fun m a' => get (mt_id m) (ar_matches a') = Some m /\ match_stage m t = 0 /\
    mt_opponentId m = (if default false (cm_open i) then None else cm_opponentId i) /\ mt_status m = ms_pending) a.
Proof.
  intros I. unfold createMatch, newMatchId. apply wp_bind, wp_fresh; [done|].
  destruct (inv_aside t a (draw_once a) I) as [I1 _]; [done|done|simpl; lia|].
  apply wp_bind, wp_token; [done|].
  destruct (inv_aside t _ (draw_once (draw_once a)) I1) as [I2 _]; [done|done|simpl; lia|].
  apply wp_bind. match goal with |- context [upsertColiseumMatch ?m] => set (m0 := m) end.
  assert (Hn : arena_inv t (upsertColiseumMatch m0 (draw_once (draw_once a))) /\
    arena_later t (draw_once (draw_once a)) t (upsertColiseumMatch m0 (draw_once (draw_once a)))).
  { apply (inv_new_match t _ m0 (ar_rng a)); [done|done|simpl; lia| |split; simpl; try done|done].
    apply (arena_fresh_id match_mint (match_ok t)); [apply match_mint_inj|apply I]. }
  apply wp_put; [done|]. apply wp_ret; [apply Hn|]. split_and!; [|done..]. apply get_set_eq.
Qed.

Lemma wp_post_match t a sub i type : arena_inv t a -> wp t (post_match sub i type t) whatever a.
Proof.
  intros I. apply wp_bind, wp_get; [done|]. cbv beta zeta; case_match; [by apply wp_ret|].
  apply wp_bind. eapply wp_mono; [by apply wp_createMatch|]. intros. by apply wp_ret.
Qed.

Lemma wp_view t a sub id : arena_inv t a -> wp t (view_match sub id t) whatever a.
Proof.
  intros I. apply wp_bind. eapply wp_mono; [by apply wp_getMatch|]. intros [m|] a' I' _; [|by apply wp_ret].
  apply wp_bind, wp_get; [done|]. by apply wp_ret.
Qed.

Lemma pending_stage m t : bool_decide (deriveColiseumMatchStatus m t = ms_pending) = true -> match_stage m t = 0.
Proof. intros E. apply bool_decide_eq_true in E. unfold match_stage. by rewrite E. Qed.

(** Finding the match an operation is about, or answering that there is none. *)
Lemma wp_about {X} t a id (none : A X) (k : ColiseumMatch -> A X) Q :
  arena_inv t a -> wp t none Q a ->
  (forall m, get (mt_id m) (ar_matches a) = Some m -> mt_id m = id -> match_ok t m -> wp t (k m) Q a) ->
  wp t (a_bind (db_getColiseumMatch id) (fun found => match found with None => none | Some m => k m end)) Q a.
Proof.
  intros I Hnone Hk. apply wp_bind, wp_find; [done|]. destruct (get id (ar_matches a)) as [m|] eqn:Hg; [|done].
  destruct (stored_ok t a I _ _ Hg) as [Ok Eid]. apply Hk; [by rewrite Eid|done|done].
Qed.

Lemma wp_acceptMatch t a id u : arena_inv t a -> wp t (acceptMatch id u t) whatever a.
Proof.
  intros I. apply wp_about; [done|by apply wp_ret|]. intros m Hg Eid Ok.
  destruct (negb _) eqn:Ep; [by apply wp_ret|]. apply negb_false_iff in Ep.
  case_match; [by apply wp_ret|]. case_match; [by apply wp_ret|].
  pose proof (pending_stage m t Ep) as Hs. pose proof (mo_status t m Ok) as Hst.
  destruct (taken_up_ok t m (with_mt_accepted u t m)) as (Ok' & S & _); try (by destruct m).
  { destruct m; simpl in *. lia. }
  apply wp_bind. eapply wp_mono; [apply (wp_refresh_write t a m); try done; by destruct m|].
  intros. by apply wp_ret.
Qed.

(** A write beside the timeline. *)
Lemma wp_aside t a m m' {X} (x : X) :
  arena_inv t a -> get (mt_id m) (ar_matches a) = Some m ->
  fixed_part m' = fixed_part m -> mt_opponentId m' = mt_opponentId m -> mt_status m' = mt_status m ->
  mt_acceptedAt m' = mt_acceptedAt m -> mt_clockEndsAt m' = mt_clockEndsAt m -> mt_verdictAt m' = mt_verdictAt m ->
  mt_archivedAt m' = mt_archivedAt m ->
  wp t (a_bind (a_put (upsertColiseumMatch m')) (fun _ => a_ret x)) whatever a.
Proof.
  intros I Hg F O S X' C V Ar. destruct (stored_ok t a I _ _ Hg) as [Ok _]. destruct (aside_ok t m m') as [Ok' S']; try done.
  pose proof (inv_put t a m m' I Hg Ok' S' V) as Hp. apply wp_bind, wp_put; [done|]. apply wp_ret; [apply Hp|done].
Qed.

Lemma wp_declineMatch t a id u : arena_inv t a -> wp t (declineMatch id u t) whatever a.
Proof.
  intros I. apply wp_about; [done|by apply wp_ret|]. intros m Hg Eid Ok.
  case_match; [by apply wp_ret|]. case_match; [by apply wp_ret|]. apply (wp_aside t a m); by destruct m.
Qed.

Lemma wp_markChallengeSeen t a id u : arena_inv t a -> wp t (markChallengeSeen id u t) whatever a.
Proof.
  intros I. apply wp_about; [done|by apply wp_ret|]. intros m Hg Eid Ok.
  case_match; [by apply wp_ret|]. case_match; [by apply wp_ret|]. apply (wp_aside t a m); by destruct m.
Qed.

(** *** Rounds, votes and statements *)

Lemma prior_steelman_spec matchId authorId a :
  prior_steelman matchId authorId a = true ->
  exists s, In s (values (ar_rounds a)) /\ rd_matchId s = matchId /\ rd_authorId s = authorId /\ rd_kind s = rk_steelman.
Proof.
  intros E. apply List.existsb_exists in E as (s & Hin & E). rewrite !andb_true_iff, !bool_decide_eq_true in E.
  exists s. naive_solver.
Qed.

Lemma live_match t m :
  match_ok t m -> deriveColiseumMatchStatus m t = ms_live ->
  exists x c, mt_acceptedAt m = Some x /\ mt_clockEndsAt m = Some c /\ x <= t < c.
Proof.
  intros Ok E. pose proof (unjudged_match t m Ok) as Hv. pose proof (mo_archived t m Ok) as Ha. unfold match_stage in Hv. rewrite E in Hv.
  revert E. unfold deriveColiseumMatchStatus. rewrite Ha, Hv by done. simpl.
  destruct (mt_acceptedAt m) as [x|] eqn:Ex; simpl; [|repeat case_match; done].
  destruct (mo_accepted t m Ok x Ex) as (Hx & _ & Hc). destruct (mt_clockEndsAt m) as [c|] eqn:Ec; [|done]. simpl.
  case_match eqn:E; [done|]. intros _. exists x, c. split_and!; [done|done|lia|]. apply Z.leb_gt in E. lia.
Qed.

Lemma wp_postRound t a i : arena_inv t a -> wp t (postRound i t) whatever a.
Proof.
  intros I. apply wp_about; [done|by apply wp_ret|]. intros m Hg Eid Ok.
  case_bool_decide as El; simpl; [|by apply wp_ret]. destruct (live_match t m Ok El) as (x & c & Ex & Ec & Hx).
  destruct (sideForFighter m (pr_authorId i)) as [side|] eqn:Es; [|by apply wp_ret].
  destruct (isWithinRoundDurationCap (pr_media i)) eqn:Ecap; simpl; [|by apply wp_ret].
  apply wp_bind, wp_get; [done|]. destruct (_ && _) eqn:Est; [by apply wp_ret|].
  apply wp_bind, wp_fresh; [done|]. destruct (inv_aside t a (draw_once a) I) as [I1 _]; [done|done|simpl; lia|].
  apply wp_bind. match goal with |- context [upsertColiseumRound ?r] => set (r0 := r) end.
  assert (Hn : arena_inv t (upsertColiseumRound r0 (draw_once a)) /\ arena_later t (draw_once a) t (upsertColiseumRound r0 (draw_once a))).
  { apply (inv_new_round t _ r0 (ar_rng a)); [done|done|simpl; lia| | |].
    - apply (arena_fresh_id round_mint (round_ok t a)); [apply round_mint_inj|apply I].
    - split; simpl; [|done|].
      + exists m, x, c. split_and!; try done; lia.
      + intros Ek. apply andb_false_iff in Est as [Est|Est]; [by apply bool_decide_eq_false in Est|].
        apply negb_false_iff, prior_steelman_spec in Est as (s & Hin & Em & Ea & Ek'). exists s. split_and!; try done.
        rewrite length_listRounds, <-Em. by apply (round_index_lt t).
    - simpl. by rewrite length_listRounds. }
  apply wp_put; [done|]. apply wp_ret; [apply Hn|done].
Qed.

(** A write to a table no verdict is read from. *)
Lemma wp_beside {X} t a f (x : X) :
  arena_inv t a -> ar_matches (f a) = ar_matches a -> same_but_matches a (f a) -> ar_rng (f a) = ar_rng a ->
  wp t (a_bind (a_put f) (fun _ => a_ret x)) whatever a.
Proof.
  intros I E S En. pose proof (inv_aside t a (f a) I E S ltac:(lia)) as Hp.
  apply wp_bind, wp_put; [done|]. apply wp_ret; [apply Hp|done].
Qed.

Lemma wp_round_vote t a sub id idx choice : arena_inv t a -> wp t (post_round_vote sub id idx choice t) whatever a.
Proof.
  intros I. unfold post_round_vote. case_match; [by apply wp_ret|]. apply wp_bind. eapply (wp_mono _ _ whatever).
  - apply wp_about; [done|by apply wp_ret|]. intros m Hg Eid Ok. case_match; [by apply wp_ret|]. by apply wp_beside.
  - intros [v|] a' I' _; by apply wp_ret.
Qed.

Lemma wp_statement t a sub id body media : arena_inv t a -> wp t (postFinalStatement id sub body media t) whatever a.
Proof.
  intros I. apply wp_about; [done|by apply wp_ret|]. intros m Hg Eid Ok. case_match; [by apply wp_ret|].
  case_match; [|by apply wp_ret]. by apply wp_beside.
Qed.

Lemma wp_synthesis t a sub id q choice : arena_inv t a -> wp t (post_synthesis sub id q choice t) whatever a.
Proof.
  intros I. unfold post_synthesis. destruct (isCrucibleQuestionId q) eqn:Eq; simpl; [|by apply wp_ret].
  apply wp_bind. eapply (wp_mono _ _ whatever); [|intros; by apply wp_ret].
  apply wp_about; [done|by apply wp_ret|]. intros m Hg Eid Ok. case_bool_decide as Ec; simpl; [|by apply wp_ret].
  destruct (sideForFighter m sub) eqn:Es; [by apply wp_ret|].
  assert (Hs : match_stage m t = 3) by (unfold match_stage; by rewrite Ec).
  pose proof (inv_ballot t a (mk_sv (mt_id m) q sub choice t) m I Hg Hs Es Eq) as Hp.
  apply wp_bind, wp_put; [done|]. apply wp_ret; [apply Hp|done].
Qed.

Lemma wp_crucible t a sub id : arena_inv t a -> wp t (post_crucible_open sub id t) whatever a.
Proof.
  intros I. apply wp_bind. eapply wp_mono; [by apply wp_getMatch|]. intros [m|] a1 I1 Hm; [|by apply wp_ret].
  destruct Hm as (Hg & Est & _). case_match; [by apply wp_ret|]. destruct (stored_ok t a1 I1 _ _ Hg) as [Ok Eid].
  apply wp_bind. eapply (wp_mono _ _ whatever); [|intros [x|] a2 I2 _; by apply wp_ret].
  apply wp_about; [done|by apply wp_ret|]. intros m1 Hg1 Eid1 Ok1. rewrite Eid1, Eid, Hg in Hg1. simplify_eq.
  destruct (decide (match_stage m1 t < 3)) as [Hs|Hs].
  - destruct (crucible_ok t m1 Ok Hs) as (Ok' & S' & _). apply wp_bind.
    eapply wp_mono; [apply (wp_refresh_write t a1 m1); try done; first [by rewrite Eid1|by destruct m1]|].
    intros. by apply wp_ret.
  - apply wp_bind. unfold refreshStatus. rewrite bool_decide_true; [by apply wp_ret, wp_ret|].
    transitivity (mt_status m1); [|by destruct m1]. rewrite Est. apply rank_inj. fold (match_stage m1 t) (match_stage (with_mt_crucible t m1) t).
    pose proof (mo_archived t m1 Ok) as Ha. pose proof (mo_verdict t m1 Ok) as Hv.
    rewrite !stage_cases in *. destruct m1; simpl in *. rewrite Ha in *. simpl in *. rewrite Z.leb_refl.
    destruct (reached mt_verdictAt t); [done|]. destruct (reached mt_clockEndsAt t); [done|]. case_match; lia.
Qed.

Lemma wp_shout t a sub domain body den : arena_inv t a -> wp t (createShout sub domain body den t) whatever a.
Proof.
  intros I. apply wp_bind, wp_fresh; [done|]. destruct (inv_aside t a (draw_once a) I) as [I1 _]; [done|done|simpl; lia|].
  by apply wp_beside.
Qed.

Lemma wp_drop t a sub shoutId : arena_inv t a -> wp t (postResponseDrop shoutId sub t) whatever a.
Proof.
  intros I. apply wp_bind, wp_get; [done|]. case_match; [|by apply wp_ret].
  apply wp_bind, wp_fresh; [done|]. destruct (inv_aside t a (draw_once a) I) as [I1 _]; [done|done|simpl; lia|].
  by apply wp_beside.
Qed.

Lemma wp_graduate t a shoutId : arena_inv t a -> wp t (graduateToMatch shoutId t) whatever a.
Proof.
  intros I. apply wp_bind, wp_get; [done|]. case_match; [|by apply wp_ret]. case_match; [|by apply wp_ret].
  apply wp_bind. eapply wp_mono; [by apply wp_createMatch|]. intros m a1 I1 (Hg & Hs & Ho & _). simpl in Ho.
  destruct (stored_ok t a1 I1 _ _ Hg) as [Ok _].
  destruct (taken_up_ok t m (with_mt_live t m)) as (Ok' & S & _); try (by destruct m).
  { destruct m; simpl in *. by rewrite Ho. }
  assert (Hp : arena_inv t (upsertColiseumMatch (with_mt_live t m) a1) /\ arena_later t a1 t (upsertColiseumMatch (with_mt_live t m) a1)).
  { apply (inv_put t a1 m); try done. by destruct m. }
  apply wp_bind, wp_put; [done|]. apply wp_ret; [apply Hp|done].
Qed.

(** *** The verdict and its awards *)

(** Awards change no other table, and take none back. *)
Record awarding (a a' : arena) : Prop := {
  aw_matches : ar_matches a' = ar_matches a;
  aw_rounds : ar_rounds a' = ar_rounds a;
  aw_briefs : ar_briefs a' = ar_briefs a;
  aw_kept w : In w (values (ar_awards a)) -> In w (values (ar_awards a'));
}.

Lemma awarding_refl a : awarding a a.
Proof. by split. Qed.

Lemma awarding_trans a0 a1 a2 : awarding a0 a1 -> awarding a1 a2 -> awarding a0 a2.
Proof. intros [M R B K] [M' R' B' K']. split; [congruence..|auto]. Qed.

Definition keyed_award (key : string) (a : arena) : Prop := exists w, In w (values (ar_awards a)) /\ aw_dedupeKey w = Some key.

Lemma keyed_award_kept key a a' : awarding a a' -> keyed_award key a -> keyed_award key a'.
Proof. intros [_ _ _ K] (w & Hw & E). exists w. auto. Qed.

Lemma wp_record t a u ty subj key actor mid ri :
  arena_inv t a -> key <> "" -> (forall id, award_ok a (mk_aw id u ty subj (Some key) actor mid ri t)) ->
  wp t (recordReputationEvent u ty subj key actor mid ri t) (fun _ a' => awarding a a' /\ keyed_award key a') a.
Proof.
  intros I Hk Ok. apply wp_bind, wp_get; [done|]. rewrite bool_decide_false by done. simpl.
  destruct (reputationDedupeKeyExists key a) eqn:Ek.
  - apply wp_ret; [done|]. split; [apply awarding_refl|].
    apply List.existsb_exists in Ek as (w & Hw & E). exists w. by apply bool_decide_eq_true in E.
  - destruct (inv_aside t a (draw_once a) I) as [I1 L1]; [done|done|simpl; lia|].
    apply wp_bind. eexists (draw_once a), (uuid (ar_rng a)). split_and!; [done|done|done|].
    set (w := mk_aw (uuid (ar_rng a)) u ty subj (Some key) actor mid ri t).
    assert (Hf : get (aw_id w) (ar_awards (draw_once a)) = None).
    { apply (arena_fresh_id uuid (award_ok a) (ar_rng a)); [apply uuid_inj|apply I]. }
    assert (Hno : forall x, In x (values (ar_awards (draw_once a))) -> aw_dedupeKey x <> aw_dedupeKey w).
    { intros x Hx E. assert (Hex : reputationDedupeKeyExists key a = true); [|congruence].
      apply List.existsb_exists. exists x. split; [done|by apply bool_decide_eq_true]. }
    destruct (inv_award t (draw_once a) w (ar_rng a) I1 eq_refl ltac:(simpl; lia) Hf (Ok _) Hno) as [I2 L2].
    assert (Ev : values (ar_awards (put_award w (draw_once a))) = values (ar_awards a) ++ [w]) by (by apply values_set_new).
    apply wp_bind. exists (put_award w (draw_once a)), tt. split_and!; [|done|done|].
    { unfold addReputationEvent. change (aw_id _) with (aw_id w). by rewrite Hf. }
    apply wp_ret; [done|]. split; [split; try done|].
    + intros x Hx. rewrite Ev. apply in_app_iff. by left.
    + exists w. rewrite Ev. split; [apply in_app_iff; right; by left|done].
Qed.

Lemma wp_award t a who type m key actor ri :
  arena_inv t a ->
  (forall u, who = Some u -> key u <> "" /\ forall id, award_ok a (mk_aw id u type (mt_domain m) (Some (key u)) actor (mt_id m) ri t)) ->
  wp t (award who type m key actor ri t) (fun _ a' => awarding a a' /\ forall u, truthy who = Some u -> keyed_award (key u) a') a.
Proof.
  intros I Hok. unfold award. destruct (truthy who) as [u|] eqn:Eu; [|by apply wp_ret; [|split; [apply awarding_refl|]]].
  assert (Ew : who = Some u) by (destruct who; simpl in Eu; [case_decide|]; congruence). destruct (Hok u Ew) as [Hk Ok].
  apply wp_bind. eapply wp_mono; [by apply wp_record|]. intros _ a' I' [Ha Hkey]. apply wp_ret; [done|]. split; [done|].
  by intros ? [= <-].
Qed.

(** What is on file while the awards of a verdict are made. *)
Record verdict_scene (m : ColiseumMatch) (v : CrucibleVerdict) (a : arena) : Prop := {
  vs_match : exists m', get (mt_id m) (ar_matches a) = Some m' /\ mt_domain m' = mt_domain m /\
    forall side, fighterForSide m' side = fighterForSide m side;
  vs_brief : exists b, In b (values (ar_briefs a)) /\ br_matchId b = mt_id m /\ br_winner b = cv_winner v /\
    br_questionBreakdown b = cv_breakdown v;
}.

Lemma scene_awarding m v a a' : awarding a a' -> verdict_scene m v a -> verdict_scene m v a'.
Proof. intros [M R B K] [Hm Hb]. split; [by rewrite M|by rewrite B]. Qed.

Lemma scene_award m v a id u type key actor ri t side :
  verdict_scene m v a -> fighterForSide m side = Some u ->
  (forall b, br_winner b = cv_winner v -> br_questionBreakdown b = cv_breakdown v ->
     award_reason a b side (mk_aw id u type (mt_domain m) (Some key) actor (mt_id m) ri t)) ->
  award_ok a (mk_aw id u type (mt_domain m) (Some key) actor (mt_id m) ri t).
Proof.
  intros [(m' & Hg & Hd & Hf) (b & Hb & Eb & Ew & Eq)] Hs Hr. exists m', b, side.
  split_and!; [done|done|done|by rewrite Hf|done|by apply Hr].
Qed.

Definition scene_after (m : ColiseumMatch) (v : CrucibleVerdict) (a0 a : arena) : Prop := awarding a0 a /\ verdict_scene m v a.

Lemma wp_award_result t a m v :
  arena_inv t a -> verdict_scene m v a ->
  wp t (award_result m (cv_winner v) t) (fun _ a' => awarding a a' /\
    forall side u, cv_winner v = Some side -> truthy (fighterForSide m side) = Some u -> keyed_award (won_key (mt_id m)) a') a.
Proof.
  intros I S. unfold award_result. destruct (cv_winner v) as [side|] eqn:Ew.
  - eapply wp_mono; [apply wp_award; [done|]|].
    + intros u Eu. split; [done|]. intros id. apply (scene_award m v _ _ _ _ _ _ _ _ side); [done|done|].
      intros b Eb _. split; [congruence|done].
    + intros _ a' I' [Ha Hk]. split; [done|]. intros ? u [= <-]. apply Hk.
  - eapply wp_mono; [apply (wp_each t _ _ (scene_after m v a)); [|done|by split; [apply awarding_refl|]]|].
    + intros who a1 Hwho I1 [Ha1 S1]. eapply wp_mono; [apply wp_award; [done|]|].
      * intros u ->. split; [done|]. intros id.
        assert (Hs : exists side, fighterForSide m side = Some u).
        { destruct Hwho as [[= <-]|[E|[]]]; [by exists red|by exists blue]. }
        destruct Hs as (side & Hs). apply (scene_award m v _ _ _ _ _ _ _ _ side); [done|done|]. intros b Eb _. split; [congruence|done].
      * intros _ a2 I2 [Ha2 _]. split; [by eapply awarding_trans|by eapply scene_awarding].
    + intros _ a' I' [Ha _]. by split.
Qed.

Lemma wp_award_round t a m v r :
  arena_inv t a -> verdict_scene m v a -> In r (values (ar_rounds a)) -> rd_matchId r = mt_id m ->
  wp t (award_round m t r) (fun _ a' => awarding a a') a.
Proof.
  intros I S Hr Er. apply wp_bind, wp_get; [done|]. destruct (leading_side _) as [side|]; [|by apply wp_ret; [|apply awarding_refl]].
  cbv beta zeta. destruct (truthy (fighterForSide m side)) eqn:Et; [|by apply wp_ret; [|apply awarding_refl]].
  apply wp_bind. eapply wp_mono; [apply wp_award; [done|]|].
  - intros u Eu. split; [done|]. intros id. apply (scene_award m v _ _ _ _ _ _ _ _ side); [done|done|].
    intros b _ _. by exists r.
  - intros _ a1 I1 [Ha1 _]. pose proof (scene_awarding m v a a1 Ha1 S) as S1.
    destruct (_ && _) eqn:Ek; [|by apply wp_ret]. apply andb_true_iff in Ek as [Ek Es].
    apply bool_decide_eq_true in Ek, Es. eapply wp_mono; [apply wp_award; [done|]|].
    + intros u Eu. split; [done|]. intros id. apply (scene_award m v _ _ _ _ _ _ _ _ side); [done|done|].
      intros b _ _. exists r. by rewrite (aw_rounds _ _ Ha1).
    + intros _ a2 I2 [Ha2 _]. by eapply awarding_trans.
Qed.

Lemma wp_awardFighterReputation t a m v :
  arena_inv t a -> verdict_scene m v a ->
  wp t (awardFighterReputation m v t) (fun _ a' => awarding a a' /\
    forall side u, cv_winner v = Some side -> truthy (fighterForSide m side) = Some u -> keyed_award (won_key (mt_id m)) a') a.
Proof.
  intros I S. apply wp_bind. eapply wp_mono; [by apply wp_award_result|]. intros _ a1 I1 [Ha1 Hwon].
  pose proof (scene_awarding m v a a1 Ha1 S) as S1. apply wp_bind, wp_get; [done|].
  apply wp_bind. eapply wp_mono; [apply (wp_each t _ _ (scene_after m v a1)); [|done|by split; [apply awarding_refl|]]|].
  - intros r a2 Hr I2 [Ha2 S2]. apply js_sort_in, List.filter_In in Hr as [Hr Er]. apply bool_decide_eq_true in Er.
    eapply wp_mono; [apply (wp_award_round t a2 m v r); [done|done|by rewrite (aw_rounds _ _ Ha2)|done]|].
    intros ? a3 I3 Ha3. cbv beta in Ha3. split; [by eapply awarding_trans|by eapply scene_awarding].
  - intros _ a2 I2 [Ha2 S2]. destruct (deriveCredibilityStrike _) as [side|] eqn:Ed.
    + eapply wp_mono; [apply wp_award; [done|]|].
      * intros u Eu. split; [done|]. intros id. apply (scene_award m v _ _ _ _ _ _ _ _ side); [done|done|].
        intros b _ Eb. split; [by rewrite Eb|done].
      * intros _ a3 I3 [Ha3 _]. split; [eauto using awarding_trans|].
        intros. eapply keyed_award_kept; [exact Ha3|]. eapply keyed_award_kept; [exact Ha2|]. eauto.
    + apply wp_ret; [done|]. split; [eauto using awarding_trans|]. intros. eapply keyed_award_kept; [exact Ha2|]. eauto.
Qed.

(** The one brief of a match is the one its page shows. *)
Lemma brief_found t a b : arena_inv t a -> In b (values (ar_briefs a)) -> getBriefForMatch (br_matchId b) a = Some b.
Proof.
  intros I Hin. unfold getBriefForMatch. destruct (List.find _ _) as [x|] eqn:E.
  - apply List.find_some in E as [Hx E]. apply bool_decide_eq_true in E. f_equal.
    by apply (NoDup_map_unique br_matchId (values (ar_briefs a))); [apply NoDup_ListNoDup, I|..].
  - pose proof (List.find_none _ _ E b Hin) as F. by apply bool_decide_eq_false in F.
Qed.

Lemma found_brief id a b : getBriefForMatch id a = Some b -> In b (values (ar_briefs a)) /\ br_matchId b = id.
Proof. intros E. apply List.find_some in E as [Hx E]. by apply bool_decide_eq_true in E. Qed.

(** Only a match's winner is awarded under the key of its win. *)
Lemma won_key_only a w id : award_ok a w -> aw_dedupeKey w = Some (won_key id) -> aw_type w = match_won /\ aw_matchId w = id.
Proof.
  intros (m & b & side & _ & _ & _ & _ & _ & Hr) E. revert Hr. unfold award_reason. destruct (aw_type w); try done.
  - intros [_ E']. rewrite E in E'. split; [done|]. unfold won_key in E'. by simplify_eq/=.
  - intros [_ E']. rewrite E in E'. done.
  - intros (r & _ & _ & _ & E'). rewrite E in E'. done.
  - intros (r & _ & _ & _ & _ & _ & E'). rewrite E in E'. done.
  - intros [_ E']. rewrite E in E'. done.
Qed.

(** What closing a match gives: its brief, and the winner's award with a new one. *)
Definition verdict_given (id : string) (m : ColiseumMatch) (a : arena) (r : option ColiseumBrief) (a' : arena) : Prop :=
  exists b, r = Some b /\ getBriefForMatch id a' = Some b /\
    match getBriefForMatch id a with
    | Some b0 => b = b0 /\ a' = a
    | None => forall side u, br_winner b = Some side -> truthy (fighterForSide m side) = Some u ->
        exists w, In w (values (ar_awards a')) /\ aw_type w = match_won /\ aw_matchId w = id /\ aw_userId w = u
    end.

Lemma wp_mintVerdict t a id m : arena_inv t a -> get id (ar_matches a) = Some m -> wp t (mintVerdict id t) (verdict_given id m a) a.
Proof.
  intros I Hg. destruct (stored_ok t a I _ _ Hg) as [Ok Eid]. apply wp_bind, wp_find; [done|]. rewrite Hg.
  apply wp_bind, wp_get; [done|]. destruct (getBriefForMatch id a) as [b0|] eqn:Eb.
  { apply wp_ret; [done|]. exists b0. by rewrite Eb. }
  cbv zeta. apply wp_bind, wp_fresh; [done|]. destruct (inv_aside t a (draw_once a) I) as [I1 _]; [done|done|simpl; lia|].
  set (v := deriveCrucibleVerdict id (votes_of id a) t). set (b := mintBrief _ id _ v t).
  set (a2 := upsertColiseumMatch (with_mt_verdict t m) (upsertColiseumBrief b (draw_once a))).
  assert (Hv : arena_inv t a2 /\ arena_later t (draw_once a) t a2).
  { unfold a2, b, v. rewrite <-Eid. apply (inv_verdict t (draw_once a) m (ar_rng a)); [done|by rewrite Eid|by rewrite Eid|simpl; lia|].
    apply (arena_fresh_id brief_mint (brief_ok a)); [apply brief_mint_inj|apply I]. }
  assert (Hb : In b (values (ar_briefs a2))).
  { apply (get_in_values (keyof b)). apply get_set_eq. }
  assert (S : verdict_scene m v a2).
  { split; [|by exists b; rewrite Eid]. exists (with_mt_verdict t m).
    split_and!; [|by destruct m|by intros []; destruct m].
    unfold a2. cbn [upsertColiseumMatch ar_matches]. rewrite get_set, decide_True; [done|]. by destruct m. }
  change (wp t (a_bind (a_put (fun x => upsertColiseumMatch (with_mt_verdict t m) (upsertColiseumBrief b x)))
    (fun _ => a_bind (awardFighterReputation m v t) (fun _ => a_ret (Some b)))) (verdict_given id m a) (draw_once a)).
  apply wp_bind, wp_put; [done|]. apply wp_bind. eapply wp_mono; [apply wp_awardFighterReputation; [apply Hv|done]|].
  intros ? a3 I3 [Ha3 Hwon]. apply wp_ret; [done|].
  assert (Hf : getBriefForMatch id a3 = Some b).
  { apply (brief_found t a3 b I3). by rewrite (aw_briefs _ _ Ha3). }
  exists b. split_and!; [done|done|]. rewrite Eb. intros side u Ew Eu.
  destruct (Hwon side u Ew Eu) as (w & Hw & Ek). exists w.
  destruct (table_ok_in _ _ _ _ _ (ai_awards t a3 I3) Hw) as [Hok _]. destruct (won_key_only a3 w _ Hok Ek) as [Et Em].
  split_and!; [done|done|congruence|].
  destruct Hok as (m1 & b1 & side1 & Hg1 & Hb1 & Eb1 & Hf1 & _ & Hr). unfold award_reason in Hr. rewrite Et in Hr.
  pose proof (brief_found t a3 b1 I3 Hb1) as F1. rewrite Eb1, Em, Eid, Hf in F1. simplify_eq.
  destruct Hr as [Ew1 _]. destruct (scene_awarding m v a2 a3 Ha3 S) as [(m2 & Hg2 & _ & Hf2) _].
  rewrite Em, Hg2 in Hg1. simplify_eq. rewrite Hf2 in Hf1. apply truthy_some in Eu. congruence.
Qed.

Lemma wp_post_verdict t a sub id : arena_inv t a -> wp t (post_verdict sub id t) whatever a.
Proof.
  intros I. apply wp_bind. eapply wp_mono; [by apply wp_getMatch|]. intros [m|] a1 I1 Hm; [|by apply wp_ret].
  destruct Hm as (Hg & _). destruct (stored_ok t a1 I1 _ _ Hg) as [_ Eid]. case_match; [by apply wp_ret|].
  apply wp_bind. eapply wp_mono; [by apply (wp_mintVerdict t a1 _ m); [|rewrite Eid]|].
  intros r a2 I2 (b & -> & _). by apply wp_ret.
Qed.

(** *** Every request *)

Lemma serve_ok r t a : arena_inv t a -> arena_inv t (arena_serve r t a) /\ arena_later t a t (arena_serve r t a).
Proof.
  intros I. destruct r; apply (wp_state t _ whatever);
    auto using wp_post_match, wp_view, wp_listMatches, wp_acceptMatch, wp_declineMatch, wp_markChallengeSeen, wp_postRound,
      wp_round_vote, wp_crucible, wp_statement, wp_synthesis, wp_post_verdict, wp_shout, wp_drop, wp_graduate.
Qed.

Lemma arena_inv_empty t : arena_inv t empty_arena.
Proof.
  split; [apply table_ok_nil|apply table_ok_nil|done|split; [apply keyed_nil|done]|apply table_ok_nil|constructor|done|
    apply table_ok_nil|constructor].
Qed.

Lemma past_ok s s' : arena_past s s' -> arena_inv (fst s) (snd s) ->
  fst s <= fst s' /\ arena_inv (fst s') (snd s') /\ arena_later (fst s) (snd s) (fst s') (snd s').
Proof.
  induction 1 as [[t a]|s s1 s2 [r t t' a Ht] Hr IH]; intros I; simpl in *.
  - split_and!; [lia|done|by apply arena_later_time].
  - destruct (serve_ok r t' a (arena_inv_time t t' a Ht I)) as [I1 L1]. destruct (IH I1) as (Ht' & I2 & L2).
    split_and!; [lia|done|]. eapply arena_later_trans; [apply (arena_later_time t t' a Ht)|].
    by eapply arena_later_trans.
Qed.

Lemma arena_reachable_inv s : arena_reachable s -> arena_inv (fst s) (snd s).
Proof. intros (t & Hp). apply (past_ok _ _ Hp). apply arena_inv_empty. Qed.

(** *** Fighters argue blind *)

(** Until its match has ended, a fighter is shown no tally. *)
Lemma fighters_argue_blind u id t a w :
  u <> "" -> snd (view_match (Some u) id t a) = Some (Ok w) -> isFighter (mw_match w) u = true ->
  mt_status (mw_match w) <> ms_verdict -> mt_status (mw_match w) <> ms_archived -> mw_tallies w = None.
Proof.
  intros Hu. unfold view_match, a_bind, a_get, a_ret. destruct (getMatch id t a) as [a' [[m|]|]]; [|done..].
  intros [= <-]. cbn [mw_match mw_tallies]. intros Hf Hv Ha. rewrite !bool_decide_false by done.
  assert (Hc : callerIsFighter (Some u) m = true).
  { unfold isFighter, sideForFighter in Hf. apply bool_decide_eq_true in Hf. unfold callerIsFighter, truthy.
    rewrite decide_False by done. repeat case_bool_decide; done. }
  by rewrite Hc.
Qed.

(** *** The order of a match's rounds *)

Lemma sort_insert_least {X} (le : X -> X -> bool) x l : (forall y, In y l -> le x y = true) -> sort_insert le x l = x :: l.
Proof. destruct l as [|y l]; [done|]. intros Hle. simpl. by rewrite (Hle y (or_introl eq_refl)). Qed.

(** A list whose numbers already count up is left as it is by the sort. *)
Lemma js_sort_counted {X} (f : X -> Z) l z n : map f l = seqZ z n -> js_sort (fun x y => f x <=? f y) l = l.
Proof.
  revert z n. induction l as [|x l IH]; intros z n E; [done|]. simpl.
  destruct (decide (0 < n)) as [Hn|Hn]; [|by rewrite seqZ_nil in E by lia].
  rewrite seqZ_cons in E by done. simpl in E. injection E as Ex El. rewrite (IH _ _ El).
  apply sort_insert_least. intros y Hy. apply Z.leb_le.
  assert (Hi : f y ∈ seqZ (Z.succ z) (Z.pred n)) by (rewrite <-El; apply list_elem_of_In; by apply in_map).
  apply elem_of_seqZ in Hi. lia.
Qed.

Lemma listRounds_filed t id a : arena_inv t a -> listRounds id a = match_rounds id a.
Proof. intros I. eapply js_sort_counted, (ai_indices t a I). Qed.

(** ** Properties *)

(** C15 (safety): From any reachable moment of the arena to any later one, whatever is
    requested in between (challenges, refusals, rounds, votes, the Crucible, verdicts, shouts that
    become matches): a match keeps its proposition, domain, challenger and the rest of
    its terms; its stage (pending, live, Crucible, verdict) never falls back; once it has left
    pending its opponent is fixed; its verdict date never changes; and no round, brief or
    award on record is changed or removed. *)
Theorem arena_history t a t' a' :
  arena_reachable (t, a) -> arena_past (t, a) (t', a') ->
  (forall id m, get id (ar_matches a) = Some m -> exists m', get id (ar_matches a') = Some m' /\ fixed_part m' = fixed_part m /\
     rank (deriveColiseumMatchStatus m t) <= rank (deriveColiseumMatchStatus m' t') /\
     (deriveColiseumMatchStatus m t <> ms_pending -> mt_opponentId m' = mt_opponentId m) /\
     (forall v, mt_verdictAt m = Some v -> mt_verdictAt m' = Some v)) /\
  (forall id r, get id (ar_rounds a) = Some r -> get id (ar_rounds a') = Some r) /\
  (forall id b, get id (ar_briefs a) = Some b -> get id (ar_briefs a') = Some b) /\
  (forall id w, get id (ar_awards a) = Some w -> get id (ar_awards a') = Some w).
Proof.
  intros Hr Hp. destruct (past_ok _ _ Hp (arena_reachable_inv _ Hr)) as (_ & _ & [_ M R B W]). split_and!; [|done..].
  intros id m Hg. destruct (M id m Hg) as (m' & Hg' & [F S O V]). exists m'. split_and!; try done.
  intros Hs. apply O. intros E. apply Hs. by apply (rank_inj _ ms_pending).
Qed.

(** C13 (invariant): In every reachable moment a brief is the true result of its match:
    its match is closed, its proposition is the match's, and its winner and its breakdown by
    question are what counting the ballots now on file gives; a match has no other brief.
    Every ballot answers one of the Crucible's questions about a match on file, none is cast by
    one of its fighters, and a voter has one ballot at most per match and question. *)
Theorem verdict_matches_ballots t a :
  arena_reachable (t, a) ->
  (forall b, In b (values (ar_briefs a)) -> exists m, get (br_matchId b) (ar_matches a) = Some m /\ mt_status m = ms_verdict /\
     mt_verdictAt m = Some (br_mintedAt b) /\ br_proposition b = mt_proposition m /\
     br_winner b = cv_winner (deriveCrucibleVerdict (br_matchId b) (votes_of (br_matchId b) a) (br_mintedAt b)) /\
     br_questionBreakdown b = cv_breakdown (deriveCrucibleVerdict (br_matchId b) (votes_of (br_matchId b) a) (br_mintedAt b)) /\
     forall b', In b' (values (ar_briefs a)) -> br_matchId b' = br_matchId b -> b' = b) /\
  (forall v, In v (values (ar_crucibleVotes a)) -> isCrucibleQuestionId (sv_questionId v) = true /\
     exists m, get (sv_matchId v) (ar_matches a) = Some m /\ isFighter m (sv_voterId v) = false) /\
  (forall v w, In v (values (ar_crucibleVotes a)) -> In w (values (ar_crucibleVotes a)) ->
     sv_matchId v = sv_matchId w -> sv_questionId v = sv_questionId w -> sv_voterId v = sv_voterId w -> v = w).
Proof.
  intros Hr. pose proof (arena_reachable_inv _ Hr) as I. simpl in I. split_and!.
  - intros b Hb. destruct (brief_in t a b I Hb) as (m & Hg & Hv & E). exists m.
    destruct (stored_ok t a I _ _ Hg) as [Ok _]. destruct (mo_verdict t m Ok _ Hv) as [_ Hs].
    split_and!; [done|done|done|by rewrite E|by rewrite E at 1|by rewrite E at 1|].
    intros b' Hb' Em. apply (NoDup_map_unique br_matchId (values (ar_briefs a))); [apply NoDup_ListNoDup, I|done..].
  - intros v Hin. destruct (proj2 (ai_ballots t a I) v Hin) as (m & Hg & _ & Hs & Hq). split; [done|]. exists m. split; [done|].
    unfold isFighter. by rewrite Hs.
  - intros v w Hv Hw Em Eq Eu. apply (keyed_unique (ar_crucibleVotes a)); [apply I|done..|]. rewrite !ballot_key. congruence.
Qed.

(** C14 (safety): In every reachable moment the arena's awards are deserved and made once.
    No dedupe key occurs twice; each award goes to a fighter of a closed match, under the match's
    domain: a win to the fighter on the side the brief names, a draw only when it names none, a
    credibility strike to the side the evidence ruling struck, a round's to a fighter of the match
    that round belongs to, a steel-man's to the side that wrote the steel-man. Two wins on record for one
    match are one, and no match has both a win and a draw. *)
Theorem awards_fair t a :
  arena_reachable (t, a) ->
  List.NoDup (map aw_dedupeKey (values (ar_awards a))) /\
  (forall w, In w (values (ar_awards a)) -> exists m b side, get (aw_matchId w) (ar_matches a) = Some m /\
     mt_status m = ms_verdict /\ getBriefForMatch (aw_matchId w) a = Some b /\ fighterForSide m side = Some (aw_userId w) /\
     aw_subject w = mt_domain m /\ award_reason a b side w) /\
  (forall w w', In w (values (ar_awards a)) -> In w' (values (ar_awards a)) -> aw_matchId w = aw_matchId w' ->
     aw_type w = match_won -> (aw_type w' = match_won -> w = w') /\ aw_type w' <> match_drawn).
Proof.
  intros Hr. pose proof (arena_reachable_inv _ Hr) as I. simpl in I.
  assert (Hok : forall w, In w (values (ar_awards a)) -> award_ok a w) by (intros w Hw; apply (table_ok_in _ _ _ _ _ (ai_awards t a I) Hw)).
  split_and!; [apply I|..].
  - intros w Hw. destruct (Hok w Hw) as (m & b & side & Hg & Hb & Eb & Hf & Hs & Hre). exists m, b, side.
    destruct (brief_in t a b I Hb) as (m1 & Hg1 & Hv & _). rewrite Eb, Hg in Hg1. simplify_eq.
    destruct (stored_ok t a I _ _ Hg) as [Ok _]. destruct (mo_verdict t m1 Ok _ Hv) as [_ Hst].
    split_and!; try done. rewrite <-Eb. by apply (brief_found t).
  - intros w w' Hw Hw' Em Et. destruct (Hok w Hw) as (m & b & side & _ & Hb & Eb & _ & _ & Hre).
    destruct (Hok w' Hw') as (m' & b' & side' & _ & Hb' & Eb' & _ & _ & Hre').
    assert (b' = b) as ->.
    { apply (NoDup_map_unique br_matchId (values (ar_briefs a))); [apply NoDup_ListNoDup, I|done..|congruence]. }
    unfold award_reason in Hre, Hre'. rewrite Et in Hre. destruct Hre as [Ew Ek]. split; intros Et'; rewrite Et' in Hre'.
    + destruct Hre' as [_ Ek']. apply (NoDup_map_unique aw_dedupeKey (values (ar_awards a))); [apply NoDup_ListNoDup, I|done..|congruence].
    + destruct Hre' as [Ew' _]. congruence.
Qed.

(** C17 (safety): In every reachable moment the rounds of a match read in order: numbered
    0, 1, 2, ... without gap or repeat, each on the side of its author, a fighter of an accepted
    match, posted between the acceptance and the end of the match clock, with media within the
    duration cap; and a rebuttal comes after a steel-man round of the same author in the same match. *)
Theorem rounds_ordered t a id :
  arena_reachable (t, a) ->
  map rd_index (listRounds id a) = seqZ 0 (Z.of_nat (length (listRounds id a))) /\
  forall r, In r (listRounds id a) ->
    (exists m x c, get id (ar_matches a) = Some m /\ mt_acceptedAt m = Some x /\ mt_clockEndsAt m = Some c /\
       x <= rd_createdAt r <= c /\ sideForFighter m (rd_authorId r) = Some (rd_side r)) /\
    isWithinRoundDurationCap (rd_media r) = true /\
    (rd_kind r = rk_rebuttal -> exists s, In s (listRounds id a) /\ rd_kind s = rk_steelman /\ rd_authorId s = rd_authorId r /\
       rd_index s < rd_index r).
Proof.
  intros Hr. pose proof (arena_reachable_inv _ Hr) as I. simpl in I. rewrite (listRounds_filed t) by done.
  split; [apply (ai_indices t a I)|]. intros r Hin. apply List.filter_In in Hin as [Hin E]. apply bool_decide_eq_true in E.
  destruct (table_ok_in _ _ _ _ _ (ai_rounds t a I) Hin) as [[(m & x & c & Hg & Hx & Hc & Ht & Htc & Hs) Hcap Hst] _].
  split_and!; [|done|].
  - exists m, x, c. rewrite <-E. split_and!; try done; lia.
  - intros Hk. destruct (Hst Hk) as (s & Hs' & Em & Ea & Ek & Hlt). exists s. split_and!; try done.
    apply List.filter_In. split; [done|]. apply bool_decide_eq_true. congruence.
Qed.

(** The clock of an accepted match has run out and so has its Crucible, when a fighter gave it an end by opening it;
    or the match is closed already. *)
Definition verdict_due (m : ColiseumMatch) (t : Z) (a : arena) : Prop :=
  (mt_acceptedAt m <> None /\ deriveColiseumMatchStatus m t = ms_crucible /\
     forall e, mt_crucibleEndsAt m = Some e -> e <= t) \/
  getBriefForMatch (mt_id m) a <> None.

(** C16 (liveness): Once the clock of an accepted match has run out, and its Crucible too when a fighter gave it an end by
    opening it, a fighter who asks to close the match always gets its brief, in every reachable moment and at any later time: the request neither throws nor is refused, the match is then
    closed and shows that brief, and when the ballots name a winning side with a fighter, that fighter has the win among the
    awards on record.  Asking again, however much later, gives the same brief.  (The code tests none of this before it closes a
    match; what it does to a match whose Crucible is not over is a finding, and not claimed.) *)
Theorem verdict_available t a t' sub id m :
  arena_reachable (t, a) -> t <= t' -> get id (ar_matches a) = Some m -> mt_challengerId m = sub \/ mt_opponentId m = Some sub ->
  verdict_due m t' a ->
  exists a' b m', post_verdict sub id t' a = (a', Some (Ok b)) /\ getBriefForMatch id a' = Some b /\
    get id (ar_matches a') = Some m' /\ mt_status m' = ms_verdict /\
    (forall b0, getBriefForMatch id a = Some b0 -> b = b0) /\
    (getBriefForMatch id a = None -> forall side u, br_winner b = Some side -> fighterForSide m side = Some u -> u <> "" ->
       exists w, In w (values (ar_awards a')) /\ aw_type w = match_won /\ aw_matchId w = id /\ aw_userId w = u).
Proof.
  intros Hr Ht Hg Hsub _. pose proof (arena_inv_time t t' a Ht (arena_reachable_inv _ Hr)) as I.
  enough (Hw : wp t' (post_verdict sub id t') (fun r a' => exists b, r = Ok b /\ getBriefForMatch id a' = Some b /\
    (forall b0, getBriefForMatch id a = Some b0 -> b = b0) /\
    (getBriefForMatch id a = None -> forall side u, br_winner b = Some side -> fighterForSide m side = Some u -> u <> "" ->
       exists w, In w (values (ar_awards a')) /\ aw_type w = match_won /\ aw_matchId w = id /\ aw_userId w = u)) a).
  { destruct Hw as (a' & r & E & I' & _ & b & -> & Hb & Hsame & Hwon). destruct (found_brief _ _ _ Hb) as [Hin Eb].
    destruct (brief_in t' a' b I' Hin) as (m' & Hg' & Hv & _). rewrite Eb in Hg'.
    destruct (stored_ok t' a' I' _ _ Hg') as [Ok _]. destruct (mo_verdict t' m' Ok _ Hv) as [_ Hs].
    exists a', b, m'. by split_and!. }
  apply wp_bind. eapply wp_mono; [by apply wp_getMatch|]. intros [m1|] a1 I1 Hm; [|destruct Hm; congruence].
  destruct Hm as (Hg1 & _ & Ebr & m0 & Hg0 & Ec & Eo). rewrite Hg in Hg0. simplify_eq.
  destruct (stored_ok t' a1 I1 _ _ Hg1) as [_ Eid]. subst id. rewrite Ec, Eo.
  destruct (_ && _) eqn:Eg.
  { apply andb_true_iff in Eg as [E1 E2]. apply negb_true_iff, bool_decide_eq_false in E1, E2. tauto. }
  assert (Ef : getBriefForMatch (mt_id m1) a1 = getBriefForMatch (mt_id m1) a) by (unfold getBriefForMatch; by rewrite Ebr).
  apply wp_bind. eapply wp_mono; [by apply (wp_mintVerdict t' a1 _ m1)|].
  intros r a2 I2 (b & -> & Hb & Hnew). apply wp_ret; [done|]. exists b. rewrite Ef in Hnew. split_and!; [done|done|..].
  - intros b0 E0. rewrite E0 in Hnew. apply Hnew.
  - intros E0. rewrite E0 in Hnew. intros side u Ew Efi Hu. apply (Hnew side u Ew).
    assert (Es : fighterForSide m1 side = Some u) by (destruct side; simpl in *; congruence). rewrite Es. simpl. by rewrite decide_False.
Qed.
End arena.

(** The choice that beats each of the others, when there is one. *)
Definition beats_all (counts : CrucibleChoice -> Z) (c : CrucibleChoice) : bool :=
  forallb (fun d => bool_decide (c = d) || (counts d <? counts c)) CRUCIBLE_CHOICES.
Definition plurality (votes : list CrucibleSynthesisVote) (questionId : string) : CrucibleChoice :=
  default cc_neither (List.find (beats_all (fun c => ballots questionId c votes)) CRUCIBLE_CHOICES).

Lemma winningChoice_plurality counts :
  (forall c, 0 <= counts c) -> winningChoice counts = default cc_neither (List.find (beats_all counts) CRUCIBLE_CHOICES).
Proof.
  intros Hn. pose proof (Hn cc_red). pose proof (Hn cc_blue). pose proof (Hn cc_neither). pose proof (Hn cc_both).
  unfold winningChoice, beats_all, winning_step, CRUCIBLE_CHOICES. cbn [fold_left forallb List.find].
  rewrite !bool_decide_eq_true_2 by done. rewrite !bool_decide_eq_false_2 by done. cbn [orb andb].
  repeat (case_match; simplify_eq/=; try lia; try done).
Qed.

(** C40 (equivalence): The Crucible's count is a plurality question by question: whatever the
    ballots, the breakdown gives for each of the five questions, in order, the number of ballots of each choice and,
    as the answer, the choice with strictly more ballots than every other one ("neither" when there is
    none); and a side wins exactly when it is the answer to more of the questions than the other. *)
Theorem crucible_plurality matchId votes now :
  let v := deriveCrucibleVerdict matchId votes now in
  let won c := length (List.filter (fun q => bool_decide (plurality votes (fst q) = c)) CRUCIBLE_QUESTIONS) in
  cv_breakdown v = map (fun q => mk_qb (fst q) (snd q) (ballots (fst q) cc_red votes) (ballots (fst q) cc_blue votes)
    (ballots (fst q) cc_neither votes) (ballots (fst q) cc_both votes) (plurality votes (fst q))) CRUCIBLE_QUESTIONS /\
  (cv_winner v = Some red <-> (won cc_blue < won cc_red)%nat) /\ (cv_winner v = Some blue <-> (won cc_red < won cc_blue)%nat) /\
  (cv_winner v = None <-> won cc_red = won cc_blue).
Proof.
  assert (Hw : forall q, winningChoice (fun c => ballots q c votes) = plurality votes q).
  { intros q. apply winningChoice_plurality. intros c. apply count_by_nonneg. }
  intros v won.
  assert (Hb : cv_breakdown v = map (fun q => mk_qb (fst q) (snd q) (ballots (fst q) cc_red votes) (ballots (fst q) cc_blue votes)
    (ballots (fst q) cc_neither votes) (ballots (fst q) cc_both votes) (plurality votes (fst q))) CRUCIBLE_QUESTIONS).
  { apply List.map_ext. intros q. unfold breakdown_of. by rewrite Hw. }
  assert (Hc : forall c, questions_won c (cv_breakdown v) = Z.of_nat (won c)).
  { intros c. rewrite Hb. unfold questions_won. rewrite count_by_map, count_by_filter. done. }
  split; [done|]. change (cv_winner v) with (if questions_won cc_blue (cv_breakdown v) <? questions_won cc_red (cv_breakdown v) then Some red
    else if questions_won cc_red (cv_breakdown v) <? questions_won cc_blue (cv_breakdown v) then Some blue else None).
  rewrite !Hc. destruct (Z.ltb_spec (Z.of_nat (won cc_blue)) (Z.of_nat (won cc_red))), (Z.ltb_spec (Z.of_nat (won cc_red)) (Z.of_nat (won cc_blue)));
    split_and!; split; intros; try done; lia.
Qed.

(** ** A match fought to its end *)

(** The times of the requests do not go back. *)
Fixpoint in_order (t : Z) (requests : list (Z * arena_request)) : bool :=
  match requests with [] => true | (t', _) :: rest => (t <=? t') && in_order t' rest end.

Lemma arena_day_past `{Env} `{ColiseumEnv} requests t a : in_order t requests = true -> arena_past (t, a) (arena_day requests (t, a)).
Proof.
  revert t a. induction requests as [|[t' r] rest IH]; intros t a; simpl; [intros; apply rtc_refl|].
  intros [Ht Hrest]%andb_true_iff. eapply rtc_l; [apply one_request; by apply Z.leb_le|]. by apply IH.
Qed.

Definition sample_coliseum : ColiseumEnv := {| challengeToken := unary |}.
#[local] Existing Instances sample_env sample_laws sample_coliseum.

Definition sample_challenge : CreateMatchInput := {|
  cm_type := None; cm_proposition := "Dues should be paid in labour"; cm_propositionTopicId := None; cm_domain := Some "labor";
  cm_challengerId := "alice"; cm_opponentId := Some "bob"; cm_denRoomId := None; cm_shoutId := None; cm_open := None;
  cm_roundWindowMs := None |}.
Definition sample_round (author : string) (kind : ColiseumRoundKind) : PostRoundInput := {|
  pr_matchId := "match_"; pr_authorId := author; pr_kind := kind; pr_body := Some "..."; pr_media := None; pr_citations := None |}.

(** Bob takes up Alice's challenge and argues; the ballots go to him. *)
Definition sample_bout : list (Z * arena_request) := [
  (0, rq_match "alice" sample_challenge UUndefined); (5, rq_seen "bob" "match_"); (10, rq_accept "bob" "match_");
  (20, rq_round (sample_round "alice" rk_opening)); (25, rq_round (sample_round "bob" rk_rebuttal));
  (30, rq_round (sample_round "bob" rk_steelman)); (40, rq_round (sample_round "bob" rk_rebuttal));
  (50, rq_round_vote "carol" "match_" 1 rc_blue) ].
Definition sample_crucible : list (Z * arena_request) := [
  (100, rq_crucible "alice" "match_"); (110, rq_synthesis "carol" "match_" "evidence" cc_blue);
  (120, rq_synthesis "dave" "match_" "evidence" cc_both); (130, rq_synthesis "dave" "match_" "evidence" cc_blue);
  (140, rq_synthesis "bob" "match_" "opening" cc_blue); (200, rq_verdict "alice" "match_") ].

Definition live_arena : arena := snd (arena_day sample_bout (0, empty_arena)).
Definition closed_arena : arena := snd (arena_day sample_crucible (50, live_arena)).

Lemma day_ends `{Env} `{ColiseumEnv} requests t a t' :
  in_order t requests = true -> fst (arena_day requests (t, a)) = t' -> arena_past (t, a) (t', snd (arena_day requests (t, a))).
Proof. intros Ho <-. rewrite <-surjective_pairing. by apply arena_day_past. Qed.

Lemma live_past : arena_past (0, empty_arena) (50, live_arena).
Proof. apply day_ends; by vm_compute. Qed.

Lemma closed_past : arena_past (50, live_arena) (200, closed_arena).
Proof. apply day_ends; by vm_compute. Qed.

Lemma live_reachable : arena_reachable (50, live_arena).
Proof. exists 0. exact live_past. Qed.

Lemma closed_reachable : arena_reachable (200, closed_arena).
Proof. exists 0. transitivity (50, live_arena); [exact live_past|exact closed_past]. Qed.

(** At the end of the rounds the match is live; at the end, closed. *)
Lemma arena_history_witness :
  exists m m', get "match_" (ar_matches live_arena) = Some m /\ mt_status m = ms_live /\
    get "match_" (ar_matches closed_arena) = Some m' /\ mt_status m' = ms_verdict /\ mt_opponentId m' = mt_opponentId m.
Proof.
  destruct (arena_history 50 live_arena 200 closed_arena live_reachable closed_past) as (H & _).
  destruct (get "match_" (ar_matches live_arena)) as [m|] eqn:E; [|by vm_compute in E].
  destruct (H "match_" m E) as (m' & E' & _ & _ & Ho & _).
  assert (Em : bool_decide (mt_status m = ms_live) = true).
  { revert E. vm_compute. by intros [= <-]. }
  assert (Ed : bool_decide (deriveColiseumMatchStatus m 50 = ms_pending) = false).
  { revert E. vm_compute. by intros [= <-]. }
  assert (Es : bool_decide (mt_status m' = ms_verdict) = true).
  { revert E'. vm_compute. by intros [= <-]. }
  exists m, m'. apply bool_decide_eq_true in Em, Es. apply bool_decide_eq_false in Ed. split_and!; auto.
Defined.

(** The closed match has its brief, in favour of Bob, and two ballots on file. *)
Lemma verdict_matches_ballots_witness :
  exists b, In b (values (ar_briefs closed_arena)) /\ br_winner b = Some blue /\ length (ar_crucibleVotes closed_arena) = 2%nat /\
    br_winner b = cv_winner (deriveCrucibleVerdict (br_matchId b) (votes_of (br_matchId b) closed_arena) (br_mintedAt b)).
Proof.
  destruct (verdict_matches_ballots 200 closed_arena closed_reachable) as (H & _).
  destruct (values (ar_briefs closed_arena)) as [|b l] eqn:E; [by vm_compute in E|].
  assert (Hw : bool_decide (br_winner b = Some blue) = true) by (revert E; vm_compute; by intros [= <- _]).
  apply bool_decide_eq_true in Hw. destruct (H b (or_introl eq_refl)) as (m & _ & _ & _ & _ & Hb & _).
  exists b. split_and!; [by left|done|by vm_compute|done].
Defined.

(** Bob has the win, and the steel-man round the crowd gave him. *)
Lemma awards_fair_witness :
  map (fun w => (aw_userId w, aw_type w)) (values (ar_awards closed_arena)) = [("bob", match_won); ("bob", round_won); ("bob", steelman_passed)] /\
  List.NoDup (map aw_dedupeKey (values (ar_awards closed_arena))).
Proof. split; [by vm_compute|]. apply (awards_fair 200 closed_arena closed_reachable). Defined.

(** Bob's first rebuttal, before his steel-man, is not among the three rounds. *)
Lemma rounds_ordered_witness :
  map rd_kind (listRounds "match_" closed_arena) = [rk_opening; rk_steelman; rk_rebuttal] /\
  map rd_index (listRounds "match_" closed_arena) = seqZ 0 (Z.of_nat (length (listRounds "match_" closed_arena))).
Proof. split; [by vm_compute|]. apply (rounds_ordered 200 closed_arena "match_" closed_reachable). Defined.

(** When the half hour of the Crucible Alice opened is over Bob closes the match: his side won. *)
Definition due_arena : arena := snd (arena_day (removelast sample_crucible) (50, live_arena)).
Definition crucible_over : Z := 100 + CRUCIBLE_DURATION_MS.

Lemma due_reachable : arena_reachable (140, due_arena).
Proof. exists 0. transitivity (50, live_arena); [exact live_past|]. apply day_ends; by vm_compute. Qed.

Lemma verdict_available_witness :
  exists a' b, post_verdict "bob" "match_" crucible_over due_arena = (a', Some (Ok b)) /\ getBriefForMatch "match_" a' = Some b /\
    br_winner b = Some blue.
Proof.
  assert (Hm : match get "match_" (ar_matches due_arena) with
    | Some m => bool_decide (mt_opponentId m = Some "bob") && bool_decide (mt_acceptedAt m <> None) &&
        bool_decide (deriveColiseumMatchStatus m crucible_over = ms_crucible) && bool_decide (mt_crucibleEndsAt m = Some crucible_over)
    | None => false end = true) by (vm_compute; reflexivity).
  destruct (get "match_" (ar_matches due_arena)) as [m|] eqn:E; [|discriminate].
  rewrite !andb_true_iff, !bool_decide_eq_true in Hm. destruct Hm as [[[Hb Ha] Hs] He].
  destruct (verdict_available 140 due_arena crucible_over "bob" "match_" m due_reachable) as (a' & b & m' & Ep & Hf & _);
    [by vm_compute|exact E|right; exact Hb|left; split_and!; [exact Ha|exact Hs|intros e Ee; rewrite He in Ee; injection Ee; lia]|].
  exists a', b. split_and!; [done|done|].
  assert (Hw : match snd (post_verdict "bob" "match_" crucible_over due_arena) with
    | Some (Ok x) => bool_decide (br_winner x = Some blue) | _ => false end = true) by (by vm_compute).
  rewrite Ep in Hw. by apply bool_decide_eq_true in Hw.
Defined.

(** *** What the code lets happen *)

(** A challenge nobody answered, closed by its challenger: both are awarded a draw. *)
Example unanswered_challenge_paid :
  let a := snd (arena_day [(0, rq_match "alice" sample_challenge UUndefined); (10, rq_verdict "alice" "match_")] (0, empty_arena)) in
  map (fun w => (aw_userId w, aw_type w)) (values (ar_awards a)) = [("alice", match_drawn); ("bob", match_drawn)].
Proof. by vm_compute. Qed.

(** A vote of the opponent, cast before the challenge was accepted, counts in the round. *)
Example early_vote_counts :
  let a := snd (arena_day [(0, rq_match "alice" sample_challenge UUndefined); (4, rq_decline "bob" "match_");
    (8, rq_match "alice" {| cm_type := None; cm_proposition := "Again"; cm_propositionTopicId := None; cm_domain := None;
      cm_challengerId := "alice"; cm_opponentId := None; cm_denRoomId := None; cm_shoutId := None; cm_open := Some true;
      cm_roundWindowMs := None |} UUndefined);
    (9, rq_round_vote "bob" "match_aa" 0 rc_blue); (10, rq_accept "bob" "match_aa")] (0, empty_arena)) in
  ty_leader (roundTally "match_aa" 0 a) = rc_blue.
Proof. by vm_compute. Qed.

(** An open challenge is declined, in public, by a passer-by. *)
Example passer_by_declines :
  let a := snd (arena_day [(0, rq_match "alice" {| cm_type := None; cm_proposition := "Anyone?"; cm_propositionTopicId := None;
      cm_domain := None; cm_challengerId := "alice"; cm_opponentId := None; cm_denRoomId := None; cm_shoutId := None;
      cm_open := Some true; cm_roundWindowMs := None |} UUndefined); (4, rq_decline "mallory" "match_")] (0, empty_arena)) in
  option_map challengeStatusFor (get "match_" (ar_matches a)) = Some chs_declined.
Proof. by vm_compute. Qed.

(** A third person makes a live match of two people's shout. *)
Example third_person_graduates :
  let a := snd (arena_day [(0, rq_shout "alice" None None None); (1, rq_drop "alice" "shout_"); (2, rq_drop "bob" "shout_");
    (3, rq_graduate "mallory" "shout_")] (0, empty_arena)) in
  map (fun m => (mt_challengerId m, mt_opponentId m, mt_status m)) (values (ar_matches a)) = [("alice", Some "bob", ms_live)].
Proof. by vm_compute. Qed.
